(* ===== verification/_CoqProject ===== *)
-Q . S2P
Prelude.v
Effects.v
Buffer.v
Simd4.v
SimdProofs.v
Gpu.v
GpuProofs.v
GpuDraw.v
GpuWidth.v
G3d.v
G3dProofs.v
Dtb.v
Machine.v
Devices.v
Virtio.v
Bus.v
Mmu.v
Csr.v
Fp.v
Cpu.v
Run.v
MachineOk.v
DevicesProofs.v
VirtioProofs.v
BusProofs.v
CsrProofs.v
CpuProofs.v
RunProofs.v
DeviceSpecs.v
Gdb.v
GdbProofs.v
GdbSpecs.v
GdbMemory.v
Muldiv.v
MmuSpecs.v
CpuSpecs.v
CsrSpecs.v
Ulib.v
Line.v
Gfx.v
GpuRef.v
Fs.v
FsProofs.v
FsSpecs.v
VirtioDriver.v
VirtioServe.v
VirtioDriverProofs.v
VirtioSpecs.v
Fdt.v
FdtProofs.v
Kernel.v
KernelTables.v
KernelProofs.v
KernelCalls.v
KernelTraps.v
KernelBoot.v
KernelIsolation.v
KernelSpecs.v
Discover.v
