(* ===== verification/Prelude.v ===== *)
(** * A verification of the rv32 emulator

    The program is the RV32IMAF system emulator of this repository (tools/), an
    interpreter with an MMU, PMP, the usual platform devices, a virtio disk, three
    drawing and computing engines and a GDB stub, and the guest code that runs on
    it (programs/rv32/).  This library is a shallow embedding of its C code with
    the theorems that make it correct.  Names under src/ are kept.

    ** The program's parts, and the file that models each

    - tools/rv32emu_core.h: the machine struct and the memory map: [Machine] (the
      flat fields of the C struct grouped by the part that owns them) over
      [Buffer] (byte arrays, little-endian accessors that are undefined outside
      their array).
    - tools/rv32emu_core.c, devices: console UART with its prompt gate, completion
      register, CLINT, boot ROM ([Dtb] is its table, tools/rv32_dtb.h), PLIC, input
      queue with its script, display, palette, the engines' DMA window: [Devices];
      the virtio block device with its queue and DMA: [Virtio]; the region table:
      [Bus].
    - tools/rv32emu_core.c, the hart: PMP, Sv32 and the data accesses: [Mmu]; CSRs:
      [Csr]; trap entry, interrupts, decode, execute, retire, [step]: [Cpu]; the
      SoftFloat adapter of tools/rv32_fp.c: [Fp].
    - tools/rv32emu_core.c and the composition in tools/rv32emu.c: initialisation,
      loading an image, a disk and an input script, the run loop and its budget,
      exit status, debugger access: [Run].
    - tools/rv32_simd4.c: [Simd4]; tools/rv32_gpu.c: [Gpu]; tools/rv32_g3d.c: [G3d].
      Each is a device record with its register access and its tick.
    - tools/rv32_gdb.c: packets, requests, breakpoints, resuming, the session over
      a socket given by what its calls answer: [Gdb].
    - programs/rv32/rt/muldiv.c: the guest's soft multiply and divide: [Muldiv].
    - programs/rv32/os/ulib.c and udecimal.c: numbers and strings: [Ulib]; os/line.c:
      the line editor: [Line].
    - programs/rv32/gfx.c: spans, rectangles and digits: [Gfx]; gpu_ref.c: the software
      renderer of the 2D commands: [GpuRef].
    - programs/rv32/os/fs.c: the file system, over any [BlockDevice]: [Fs];
      os/virtio.c: the disk driver, as a program of the emulated machine:
      [VirtioDriver].
    - programs/rv32/os/kernel.c: processes, page tables, files, scheduling, system
      calls, traps and boot, over any [Platform] of devices: [Kernel]; its [discover]:
      [Discover], over the device-tree reader of programs/rv32/fdt.c: [Fdt].

    The parts meet in [step]: a step samples the PLIC, takes an interrupt or
    fetches through [translate] and [pmp_allows], executes, reaches RAM and the
    devices through [find_region], then lets the three engines tick once and
    snoops what they wrote against the reservation of LR.  The guest code meets it
    in two places: the driver's loads and stores are the machine's, and the kernel's
    page tables and protection registers are read by [translate] and [pmp_allows].

    ** How the code is rendered

    - A C integer is a [Z] in the range of its type and conversions are written
      out ([u8], [u32], [s32], ...).  Signed arithmetic whose range depends on data
      is checked: in [G3d] every such operation is [int32] or [int64], [Stuck] when
      its value does not fit; [Gpu] computes in [Z] and [GpuWidth] writes the same
      engine with every operation at its width and shows the two equal.  Elsewhere
      signed values are counters, descriptors and conversions, computed in [Z].
    - [Effects]: [res] is the outcome of a piece of code: [Ok], [Stuck] (undefined
      behaviour, [abort], a failed [assert]) or [NoFuel]; [ST] threads the state.
      An array access at an index the code computes from data is [aget] or [aset],
      [Stuck] out of range.  [at_], which has a default, is used in statements, and
      in the model only where the index is one of constants or a loop's own counter
      over the whole array (the 2D engine's parameters, the PMP and PLIC scans, the
      fixed fields of a name, a trap frame or a sector's header, a hex digit, the
      register a trace line names).
      [wp] is the weakest precondition its proofs use, over [total] (fuel must
      suffice) or [partial].
    - The host is explicit: what stdin delivers, the outcome of every write to a
      file, what each socket call answers, and what was output are fields.
    - Third-party SoftFloat is the class [SoftFloat] of its operations, with the
      laws the adapter relies on ([Fp.SoftFloatOk]: results are 32-bit, flags are
      five bits).

    ** Fuel

    Loops that C bounds run on that bound.  [virtio_serve] has no bound in the code
    (the guest owns the index it reads), so its fuel is the parameter [ServeFuel]
    and theorems about termination carry the hypothesis that a step does not run
    out of it; a step of a machine whose disk queue is not ready needs none.
    [emu_run_until] takes fuel for its outer loop; [run_until_stops] shows that
    the budget of steps plus one is enough.  The reads of a GDB session are bounded
    by the bytes the client delivers, and [gdb_session_safe] is proved for that
    bound.  The engines' progress theorems give numbers of ticks.  The kernel waits
    for the console, the clock and the input queue without a bound; [Polls] is how
    often it looks, its safety holds for every number, and that a trap returns is
    proved where the devices answer within it ([KernelProofs.prompt]).

    ** What the theorems show

    - [MachineOk] states the machine's invariant; [DevicesProofs], [VirtioProofs],
      [BusProofs], [CsrProofs] and [CpuProofs] show that every handler, access and
      instruction keeps it and is never undefined (the devices through the classes
      [LoadDevice] and [StoreDevice], which the bus is proved against).
      [RunProofs]: every machine reached by steps, queued keys, stops and debugger
      writes satisfies it, no step is stuck, a step returns and is accounted for in
      the counters, the run loop goes on and stops exactly where it should, pc stays
      aligned from an aligned start.
    - [DeviceSpecs]: PLIC claims and gateways, the input ring as a bounded FIFO, the
      time.  [MmuSpecs]: PMP by address ranges, translation against Sv32 page
      tables, RAM as memory.  [CpuSpecs]: locked PMP entries, trap and return,
      interrupt choice.  [CsrSpecs]: writing back what was read.
    - [SimdProofs]: SIMD4 is safe, implements its instruction set with its counters,
      and holding its memory port changes only timing.  [GpuProofs], [GpuDraw],
      [GpuWidth]: the 2D engine is safe, refuses exactly the unacceptable commands,
      draws exactly the pixels an accepted one describes, and none of its signed
      arithmetic overflows.  [G3dProofs]: the 3D engine is safe, its signed
      arithmetic included.
    - [GdbProofs]: whatever the client sends, the session is safe.  [GdbSpecs],
      [GdbMemory]: framing, registers, memory and breakpoints as the protocol
      promises them, and that observing does not disturb the machine.
    - [Muldiv]: the soft routines compute what the M instructions compute.  [Ulib]:
      decimals read back.  [Line]: the line is what the terminal shows, and whole.
      [GpuRef]: the software renderer leaves what the engine leaves.
    - [FsProofs], [FsSpecs]: what is written is read back, files have extents of their
      own, an open is refused only for its stated reasons, a flushed directory is the
      one a mount finds, over any device that keeps the class [BlockDeviceOk].  [VirtioServe], [VirtioDriverProofs], [VirtioSpecs]:
      the driver on the emulated device moves the sectors it is asked for and is such
      a device, so files reach the emulated disk, and on a formatted disk whose file
      takes the writes the whole session succeeds.
    - [KernelTables]: the page-table code builds exactly the layout and the budget
      checked at boot suffices.  [KernelProofs] states the kernel's invariant and what
      one process leaves of the others; [KernelCalls] and [KernelTraps] show it of
      every operation, system call and trap, [KernelBoot] of boot.  [KernelIsolation]
      reads the tables and the protection registers with the emulator's own walk.
      [KernelSpecs]: the system of user code, engine jobs and traps is safe in every
      reachable state, a trap leaves the other processes as they were, what a process
      reaches is exactly what its layout and protection grant, ready processes get
      their turn, and the floating registers are each process's own.  User code is a
      step that changes its registers and its own memory, which is what
      [process_reaches_its_pages] says it reaches; an engine's job, which may outlive
      the process that started it, may write anywhere in the program slots.  Pids are
      32 bits and the hart's set-up is cached by pid, so these theorems are of systems
      that have started fewer than 2^32 - 2 processes.
    - [FdtProofs]: no device tree leads the reader outside its bytes or keeps it from
      ending.  [Discover]: in the tree of the emulator's boot ROM the kernel finds the
      devices where the emulator's bus has them.

    ** Not modelled

    The command line of rv32emu.c, message texts and file opening (host I/O), the
    SDL window rv32win.c, third-party code (third_party/), the RTL and the Python
    tools.  Of the guest code: kentry.S is assembly; the 3D software renderer, the games, the shell, the C
    library's system calls and the self-check programs are not modelled. *)

From Stdlib Require Export ZArith Lia.
From stdpp Require Export base list zmap numbers option.

#[global] Open Scope Z_scope.

(** ** Notations: C's bit operators on integers held in [Z] *)

Declare Scope rv32_scope.
Delimit Scope rv32_scope with rv32.
Infix ".&" := Z.land (at level 40, left associativity) : rv32_scope.
Infix ".|" := Z.lor (at level 50, left associativity) : rv32_scope.
Infix ".^" := Z.lxor (at level 50, left associativity) : rv32_scope.
Infix ".<<" := Z.shiftl (at level 37, left associativity) : rv32_scope.
Infix ".>>" := Z.shiftr (at level 37, left associativity) : rv32_scope.
#[global] Open Scope rv32_scope.

(** ** Machine-width integers

    An unsigned C integer of [w] bits is a [Z] in [0, 2^w); a conversion to it
    is reduction modulo [2^w].  A signed one is a [Z] in [-2^(w-1), 2^(w-1));
    a conversion to it is two's complement, as on every compiler the program
    is built with. *)

Definition u8 (z : Z) : Z := z mod 0x100.
Definition u16 (z : Z) : Z := z mod 0x10000.
Definition u32 (z : Z) : Z := z mod 0x100000000.
Definition u64 (z : Z) : Z := z mod 0x10000000000000000.
Definition s8 (z : Z) : Z := (z + 0x80) mod 0x100 - 0x80.
Definition s16 (z : Z) : Z := (z + 0x8000) mod 0x10000 - 0x8000.
Definition s32 (z : Z) : Z := (z + 0x80000000) mod 0x100000000 - 0x80000000.
Definition s64 (z : Z) : Z := (z + 0x8000000000000000) mod 0x10000000000000000 - 0x8000000000000000.

(** C's [~x] on 32-bit and 64-bit unsigned operands. *)
Definition not32 (z : Z) : Z := 0xffffffff - z.
Definition not64 (z : Z) : Z := 0xffffffffffffffff - z.

(** C's truth value of an integer. *)
Definition tst (z : Z) : bool := negb (z =? 0).

Definition is_u8 (z : Z) : Prop := 0 <= z < 0x100.
Definition is_u16 (z : Z) : Prop := 0 <= z < 0x10000.
Definition is_u32 (z : Z) : Prop := 0 <= z < 0x100000000.
Definition is_u64 (z : Z) : Prop := 0 <= z < 0x10000000000000000.
Definition is_s32 (z : Z) : Prop := -0x80000000 <= z < 0x80000000.
Definition is_s64 (z : Z) : Prop := -0x8000000000000000 <= z < 0x8000000000000000.

(** ** Tactics shared by the development *)

(** Linear arithmetic with division and modulo by constants. *)
Ltac zlia := Z.to_euclidean_division_equations; lia.

(** Turn boolean tests in the context into propositions. *)
Ltac bools :=
  repeat match goal with
  | H : andb _ _ = true |- _ => apply andb_true_iff in H as [? ?]
  | H : orb _ _ = false |- _ => apply orb_false_iff in H as [? ?]
  | H : negb _ = true |- _ => apply negb_true_iff in H
  | H : negb _ = false |- _ => apply negb_false_iff in H
  | H : (_ =? _) = true |- _ => apply Z.eqb_eq in H
  | H : (_ =? _) = false |- _ => apply Z.eqb_neq in H
  | H : (_ <? _) = true |- _ => apply Z.ltb_lt in H
  | H : (_ <? _) = false |- _ => apply Z.ltb_ge in H
  | H : (_ <=? _) = true |- _ => apply Z.leb_le in H
  | H : (_ <=? _) = false |- _ => apply Z.leb_gt in H
  | H : (_ >=? _) = _ |- _ => rewrite Z.geb_leb in H
  | H : (_ >? _) = _ |- _ => rewrite Z.gtb_ltb in H
  end.

(** Split every conjunction of the context, then of the goal. *)
Ltac conjs := repeat match goal with H : _ /\ _ |- _ => destruct H end.
Ltac splits := repeat match goal with |- _ /\ _ => split end.

(** Case analysis on the first test the goal branches on, remembering it. *)
Ltac casif :=
  match goal with
  | |- context [if ?b then _ else _] => destruct b eqn:?
  end.

Create HintDb rv32 discriminated.

(** ** Ranges of the conversions and of masks *)

Lemma u8_range z : is_u8 (u8 z).
Proof. unfold is_u8, u8. zlia. Qed.
Lemma u16_range z : is_u16 (u16 z).
Proof. unfold is_u16, u16. zlia. Qed.
Lemma u32_range z : is_u32 (u32 z).
Proof. unfold is_u32, u32. zlia. Qed.
Lemma u64_range z : is_u64 (u64 z).
Proof. unfold is_u64, u64. zlia. Qed.
Lemma s32_range z : is_s32 (s32 z).
Proof. unfold is_s32, s32. zlia. Qed.
#[export] Hint Resolve u8_range u16_range u32_range u64_range s32_range : rv32.

Lemma u32_id z : is_u32 z -> u32 z = z.
Proof. unfold is_u32, u32. intros. apply Z.mod_small; lia. Qed.
Lemma u16_id z : is_u16 z -> u16 z = z.
Proof. unfold is_u16, u16. intros. apply Z.mod_small; lia. Qed.
Lemma u8_id z : is_u8 z -> u8 z = z.
Proof. unfold is_u8, u8. intros. apply Z.mod_small; lia. Qed.
Lemma u64_id z : is_u64 z -> u64 z = z.
Proof. unfold is_u64, u64. intros. apply Z.mod_small; lia. Qed.
Lemma s32_id z : is_s32 z -> s32 z = z.
Proof. unfold is_s32, s32. intros. zlia. Qed.

Lemma u32_idem z : u32 (u32 z) = u32 z.
Proof. apply u32_id, u32_range. Qed.
Lemma u32_s32 z : u32 (s32 z) = u32 z.
Proof. unfold u32, s32. zlia. Qed.
Lemma s32_u32 z : s32 (u32 z) = s32 z.
Proof. unfold u32, s32. zlia. Qed.
Lemma s32_nonneg z : is_u32 z -> z < 0x80000000 -> s32 z = z.
Proof. intros. apply s32_id. unfold is_u32, is_s32 in *. lia. Qed.
Lemma s32_neg z : is_u32 z -> 0x80000000 <= z -> s32 z = z - 0x100000000.
Proof. unfold is_u32, s32. intros. zlia. Qed.

Lemma land_nonneg_l a b : 0 <= a -> 0 <= a .& b.
Proof. intros. apply Z.land_nonneg. auto. Qed.
Lemma land_nonneg_r a b : 0 <= b -> 0 <= a .& b.
Proof. intros. apply Z.land_nonneg. auto. Qed.

Lemma land_le_r a b : 0 <= b -> a .& b <= b.
Proof.
  intros Hb. apply Z.ldiff_le; [done|].
  apply Z.bits_inj'. intros n Hn.
  rewrite Z.ldiff_spec, Z.land_spec, Z.bits_0. by destruct (Z.testbit a n), (Z.testbit b n).
Qed.
Lemma land_le_l a b : 0 <= a -> a .& b <= a.
Proof. intros. rewrite Z.land_comm. by apply land_le_r. Qed.

Lemma land_range a b : 0 <= b -> 0 <= a .& b <= b.
Proof. split; [by apply land_nonneg_r | by apply land_le_r]. Qed.

(** A bitwise-or of two [w]-bit numbers has [w] bits. *)
Lemma lor_range w a b : 0 <= w -> 0 <= a < 2 ^ w -> 0 <= b < 2 ^ w -> 0 <= a .| b < 2 ^ w.
Proof.
  intros Hw [Ha1 Ha2] [Hb1 Hb2]. split; [by apply Z.lor_nonneg|].
  destruct (Z.eq_dec (a .| b) 0) as [->|Hne]; [by apply Z.pow_pos_nonneg|].
  apply Z.log2_lt_pow2; [pose proof (proj2 (Z.lor_nonneg a b)); lia|].
  rewrite Z.log2_lor by done.
  assert (Hlog : forall c, 0 <= c < 2 ^ w -> Z.log2 c < w \/ w = 0).
  { intros c Hc. destruct (Z.eq_dec w 0); [by right|left].
    destruct (Z.eq_dec c 0) as [->|]; [simpl; lia|]. apply Z.log2_lt_pow2; lia. }
  destruct (Z.eq_dec w 0) as [->|]; [assert (a = 0) by lia; assert (b = 0) by lia; subst; done|].
  apply Z.max_lub_lt; [destruct (Hlog a)|destruct (Hlog b)]; lia.
Qed.

Lemma lxor_range w a b : 0 <= w -> 0 <= a < 2 ^ w -> 0 <= b < 2 ^ w -> 0 <= a .^ b < 2 ^ w.
Proof.
  intros Hw Ha Hb. assert (0 <= a .| b < 2 ^ w) by (by apply lor_range).
  split; [apply Z.lxor_nonneg; lia|].
  eapply Z.le_lt_trans; [|apply H].
  apply Z.ldiff_le; [lia|]. apply Z.bits_inj'. intros n Hn.
  rewrite Z.ldiff_spec, Z.lxor_spec, Z.lor_spec, Z.bits_0.
  by destruct (Z.testbit a n), (Z.testbit b n).
Qed.

Lemma lor_u32 a b : is_u32 a -> is_u32 b -> is_u32 (a .| b).
Proof. apply (lor_range 32). lia. Qed.
Lemma lxor_u32 a b : is_u32 a -> is_u32 b -> is_u32 (a .^ b).
Proof. apply (lxor_range 32). lia. Qed.
Lemma land_u32 a b : is_u32 a -> is_u32 (a .& b).
Proof.
  unfold is_u32. intros. pose proof (land_nonneg_l a b). pose proof (land_le_l a b). lia.
Qed.
Lemma land_u32_r a b : is_u32 b -> is_u32 (a .& b).
Proof. rewrite Z.land_comm. apply land_u32. Qed.
Lemma shiftr_u32 a n : 0 <= n -> is_u32 a -> is_u32 (a .>> n).
Proof.
  unfold is_u32. intros Hn Ha. rewrite Z.shiftr_div_pow2 by done.
  pose proof (Z.pow_pos_nonneg 2 n ltac:(lia) Hn).
  split; [apply Z.div_pos; lia|].
  eapply Z.le_lt_trans; [apply Z.div_le_upper_bound with (q := a)|]; [done|nia|lia].
Qed.
Lemma not32_u32 a : is_u32 a -> is_u32 (not32 a).
Proof. unfold is_u32, not32. lia. Qed.
#[export] Hint Resolve lor_u32 lxor_u32 land_u32 land_u32_r not32_u32 : rv32.

Lemma tst_true z : tst z = true <-> z <> 0.
Proof. unfold tst. rewrite negb_true_iff, Z.eqb_neq. done. Qed.
Lemma tst_false z : tst z = false <-> z = 0.
Proof. unfold tst. rewrite negb_false_iff, Z.eqb_eq. done. Qed.

(** ** Single bits *)

Lemma land_pow2 x k : 0 <= k -> x .& 2 ^ k = if Z.testbit x k then 2 ^ k else 0.
Proof.
  intros Hk. apply Z.bits_inj'. intros n Hn. rewrite Z.land_spec, Z.pow2_bits_eqb by done.
  destruct (Z.eqb_spec k n) as [<-|Hne].
  - rewrite andb_true_r. destruct (Z.testbit x k) eqn:E; [by rewrite Z.pow2_bits_true|by rewrite Z.bits_0].
  - rewrite andb_false_r. destruct (Z.testbit x k); [|by rewrite Z.bits_0].
    by rewrite Z.pow2_bits_false.
Qed.

Lemma tst_land_pow2 x k : 0 <= k -> tst (x .& 2 ^ k) = Z.testbit x k.
Proof.
  intros Hk. rewrite land_pow2 by done. unfold tst.
  destruct (Z.testbit x k); [|done]. by rewrite (proj2 (Z.eqb_neq _ _)) by (apply Z.pow_nonzero; lia).
Qed.

(** The top bit of a [k+1]-bit number says whether it is at least [2^k]. *)
Lemma testbit_top x k : 0 <= k -> 0 <= x < 2 ^ (k + 1) -> Z.testbit x k = (2 ^ k <=? x).
Proof.
  intros Hk Hx. rewrite Z.pow_add_r in Hx by lia. rewrite Z.testbit_odd, Z.shiftr_div_pow2 by done.
  pose proof (Z.pow_pos_nonneg 2 k ltac:(lia) Hk).
  destruct (Z.leb_spec (2 ^ k) x).
  - assert (x / 2 ^ k = 1) as -> by (symmetry; apply Z.div_unique with (x - 2 ^ k); lia). done.
  - rewrite Z.div_small by lia. done.
Qed.

(** C's test [(x >> k) & 1]. *)
Lemma tst_shiftr_1 x k : 0 <= k -> tst ((x .>> k) .& 1) = Z.testbit x k.
Proof.
  intros Hk. change 1 with (2 ^ 0). rewrite tst_land_pow2 by done. by rewrite Z.shiftr_spec.
Qed.

(** Or-ing a number into the low bits another was shifted out of adds it. *)
Lemma lor_add a b k : 0 <= k -> 0 <= b < 2 ^ k -> (a .<< k) .| b = a * 2 ^ k + b.
Proof.
  intros Hk Hb. rewrite Z.shiftl_mul_pow2 by done.
  rewrite <- Z.add_lor_land, Z.land_comm.
  assert (Hz : b .& (a * 2 ^ k) = 0); [|lia].
  rewrite <- Z.shiftl_mul_pow2 by done. apply Z.bits_inj'. intros n Hn.
  rewrite Z.land_spec, Z.bits_0. destruct (Z.lt_ge_cases n k).
  - rewrite Z.shiftl_spec_low by done. apply andb_false_r.
  - replace (Z.testbit b n) with false; [done|].
    symmetry. destruct (Z.eq_dec b 0) as [->|]; [apply Z.bits_0|].
    apply Z.bits_above_log2; [lia|]. assert (Z.log2 b < k) by (apply Z.log2_lt_pow2; lia). lia.
Qed.

(** C's [a & ~3u] rounds down to a multiple of four. *)
Lemma land_not3 a : is_u32 a -> a .& not32 3 = a - a mod 4.
Proof.
  intros Ha. change (not32 3) with 0xfffffffc.
  assert (Hd : a .& 0xfffffffc = Z.ldiff a 3).
  { rewrite Z.ldiff_land. apply Z.bits_inj'. intros n Hn. rewrite !Z.land_spec, Z.lnot_spec by done.
    destruct (Z.lt_ge_cases n 32).
    - assert (Hb : Z.testbit 0xfffffffc n = negb (Z.testbit 3 n)); [|by rewrite Hb].
      change 0xfffffffc with (Z.ldiff (Z.ones 32) 3). rewrite Z.ldiff_spec, Z.ones_spec_low by lia. done.
    - destruct (Z.eq_dec a 0) as [->|]; [by rewrite Z.bits_0|].
      rewrite (Z.bits_above_log2 a); [done|unfold is_u32 in Ha; lia|].
      assert (Z.log2 a < 32) by (apply Z.log2_lt_pow2; unfold is_u32 in Ha; lia). lia. }
  rewrite Hd. change 3 with (Z.ones 2). rewrite Z.ldiff_ones_r, Z.shiftl_mul_pow2, Z.shiftr_div_pow2 by lia.
  change (2 ^ 2) with 4. unfold is_u32 in Ha. zlia.
Qed.

(** The bits of [~x]. *)
Lemma not32_bit x n : is_u32 x -> 0 <= n < 32 -> Z.testbit (not32 x) n = negb (Z.testbit x n).
Proof.
  intros Hx Hn. unfold not32. change 0xffffffff with (Z.ones 32).
  assert (E : Z.ones 32 - x = Z.ldiff (Z.ones 32) x).
  { apply Z.sub_nocarry_ldiff. apply Z.bits_inj'. intros k Hk. rewrite Z.ldiff_spec, Z.bits_0.
    destruct (Z.lt_ge_cases k 32); [by rewrite Z.ones_spec_low, andb_false_r by lia|].
    destruct (Z.eq_dec x 0) as [->|]; [by rewrite Z.bits_0|].
    rewrite (Z.bits_above_log2 x); [done|unfold is_u32 in Hx; lia|].
    assert (Z.log2 x < 32) by (apply Z.log2_lt_pow2; unfold is_u32 in Hx; lia). lia. }
  rewrite E, Z.ldiff_spec, Z.ones_spec_low by lia. done.
Qed.
