(* ===== verification/Effects.v ===== *)
(** * Effects: what a C function of the emulator does besides computing

    [res] is the outcome of a piece of C code: a value, undefined behaviour
    ([Stuck]: an array index out of range, [abort], a failed [assert]), or
    [NoFuel] for a loop whose bound ran out.  [ST S A] threads a state [S]
    through it.  [wp c Q s] is the weakest precondition of [c] for the
    postcondition [Q]: it holds only when [c] is not [Stuck] from [s]; whether
    it may run out of fuel is the parameter [may_run_out], so that one proof
    gives both safety ([True]) and termination ([False]). *)

From S2P Require Import Prelude.

(** ** Outcomes *)

Inductive res (A : Type) : Type :=
| Ok (a : A)
| Stuck
| NoFuel.
Arguments Ok {A} a.
Arguments Stuck {A}.
Arguments NoFuel {A}.

#[export] Instance res_ret : MRet res := fun A a => Ok a.
#[export] Instance res_bind : MBind res := fun A B f r =>
  match r with Ok a => f a | Stuck => Stuck | NoFuel => NoFuel end.

(** ** State-threading code *)

Definition ST (S A : Type) : Type := S -> res (A * S).

#[export] Instance st_ret {S} : MRet (ST S) := fun A a s => Ok (a, s).
#[export] Instance st_bind {S} : MBind (ST S) := fun A B f c s =>
  match c s with Ok (a, s') => f a s' | Stuck => Stuck | NoFuel => NoFuel end.

Definition gets {S A} (f : S -> A) : ST S A := fun s => Ok (f s, s).
Definition modify {S} (f : S -> S) : ST S () := fun s => Ok ((), f s).
(** A state change that may be undefined. *)
Definition update {S} (f : S -> res S) : ST S () := fun s =>
  match f s with Ok s' => Ok ((), s') | Stuck => Stuck | NoFuel => NoFuel end.
Definition lift {S A} (r : res A) : ST S A := fun s =>
  match r with Ok a => Ok (a, s) | Stuck => Stuck | NoFuel => NoFuel end.
Definition stuck {S A} : ST S A := fun _ => Stuck.
Definition no_fuel {S A} : ST S A := fun _ => NoFuel.
(** C's [if (c) stmt;] *)
Definition when {S} (b : bool) (c : ST S ()) : ST S () := if b then c else mret ().

(** Run code of a component [S] inside a larger state [T] that holds it. *)
Definition zoom {S T A} (get : T -> S) (put : S -> T -> T) (c : ST S A) : ST T A := fun t =>
  match c (get t) with
  | Ok (a, s') => Ok (a, put s' t) | Stuck => Stuck | NoFuel => NoFuel
  end.

(** [for (i = from; i < from + n; i++) body(i)] *)
Fixpoint for_up {S} (n : nat) (from : Z) (body : Z -> ST S ()) : ST S () :=
  match n with
  | O => mret ()
  | Datatypes.S n' => body from;; for_up n' (from + 1) body
  end.

(** ** Weakest preconditions *)

Class Fuelled : Type := may_run_out : Prop.
(** Safety: running out of fuel is accepted. *)
Definition partial : Fuelled := True.
(** Termination: it is not. *)
Definition total : Fuelled := False.

Definition wp `{F : Fuelled} {S A} (c : ST S A) (Q : A -> S -> Prop) (s : S) : Prop :=
  match c s with Ok (a, s') => Q a s' | Stuck => False | NoFuel => may_run_out end.

(** The same for stateless code. *)
Definition wpr `{F : Fuelled} {A} (r : res A) (Q : A -> Prop) : Prop :=
  match r with Ok a => Q a | Stuck => False | NoFuel => may_run_out end.

Section WpRules.
Context `{F : Fuelled} {S : Type}.

Lemma wp_ret {A} (a : A) (Q : A -> S -> Prop) s : Q a s -> wp (mret a) Q s.
Proof. done. Qed.

Lemma wp_bind {A B} (c : ST S A) (f : A -> ST S B) Q s :
  wp c (fun a s' => wp (f a) Q s') s -> wp (c ≫= f) Q s.
Proof. unfold wp, mbind, st_bind. by destruct (c s) as [[a s']| |]. Qed.

Lemma wp_mono {A} (c : ST S A) (Q R : A -> S -> Prop) s :
  wp c Q s -> (forall a s', Q a s' -> R a s') -> wp c R s.
Proof. unfold wp. destruct (c s) as [[a s']| |]; auto. Qed.

Lemma wp_gets {A} (f : S -> A) (Q : A -> S -> Prop) s : Q (f s) s -> wp (gets f) Q s.
Proof. done. Qed.

Lemma wp_modify (f : S -> S) (Q : () -> S -> Prop) s : Q () (f s) -> wp (modify f) Q s.
Proof. done. Qed.

Lemma wp_update (f : S -> res S) (Q : () -> S -> Prop) s :
  wpr (f s) (fun s' => Q () s') -> wp (update f) Q s.
Proof. unfold wp, update, wpr. by destruct (f s). Qed.

Lemma wp_lift {A} (r : res A) (Q : A -> S -> Prop) s :
  wpr r (fun a => Q a s) -> wp (lift r) Q s.
Proof. unfold wp, lift, wpr. by destruct r. Qed.

Lemma wp_when b (c : ST S ()) (Q : () -> S -> Prop) s :
  (b = true -> wp c Q s) -> (b = false -> Q () s) -> wp (when b c) Q s.
Proof. destruct b; intros H1 H2; [exact (H1 eq_refl) | exact (H2 eq_refl)]. Qed.

Lemma wp_if {A} (b : bool) (c d : ST S A) (Q : A -> S -> Prop) s :
  (b = true -> wp c Q s) -> (b = false -> wp d Q s) -> wp (if b then c else d) Q s.
Proof. destruct b; auto. Qed.

(** What a weakest precondition says about a run that returned. *)
Lemma wp_ok {A} (c : ST S A) (Q : A -> S -> Prop) s a s' :
  wp c Q s -> c s = Ok (a, s') -> Q a s'.
Proof. unfold wp. intros H E. by rewrite E in H. Qed.

Lemma wp_not_stuck {A} (c : ST S A) (Q : A -> S -> Prop) s :
  wp c Q s -> c s <> Stuck.
Proof. unfold wp. intros H E. by rewrite E in H. Qed.

(** Under [total] a weakest precondition is a run that returned. *)
Lemma wp_total {A} (c : ST S A) (Q : A -> S -> Prop) s :
  @wp total S A c Q s -> exists a s', c s = Ok (a, s') /\ Q a s'.
Proof. unfold wp. destruct (c s) as [[a s']| |]; [by exists a, s' | done | done]. Qed.

(** A loop keeps an invariant indexed by the counter. *)
Lemma wp_for_up (I : Z -> S -> Prop) n from (body : Z -> ST S ()) (Q : () -> S -> Prop) s :
  I from s ->
  (forall i t, from <= i < from + Z.of_nat n -> I i t ->
     wp (body i) (fun _ t' => I (i + 1) t') t) ->
  (forall t, I (from + Z.of_nat n) t -> Q () t) ->
  wp (for_up n from body) Q s.
Proof.
  revert from s. induction n as [|n IH]; intros from s HI Hbody HQ; simpl.
  - apply wp_ret, HQ. by rewrite Z.add_0_r.
  - apply wp_bind. eapply wp_mono; [apply Hbody; [lia|done]|]. intros [] t Ht.
    apply IH; [done| |].
    + intros i u Hi. apply Hbody. lia.
    + intros u Hu. apply HQ. replace (from + Z.of_nat (Datatypes.S n)) with (from + 1 + Z.of_nat n) by lia. done.
Qed.
End WpRules.

Lemma wp_zoom `{F : Fuelled} {S T A} (get : T -> S) (put : S -> T -> T) (c : ST S A) (Q : A -> T -> Prop) t :
  wp c (fun a s' => Q a (put s' t)) (get t) -> wp (zoom get put c) Q t.
Proof. unfold wp, zoom. by destruct (c (get t)) as [[a s']| |]. Qed.

Lemma wpr_bind `{F : Fuelled} {A B} (r : res A) (f : A -> res B) Q :
  wpr r (fun a => wpr (f a) Q) -> wpr (r ≫= f) Q.
Proof. by destruct r. Qed.

Lemma wpr_mono `{F : Fuelled} {A} (r : res A) (Q R : A -> Prop) :
  wpr r Q -> (forall a, Q a -> R a) -> wpr r R.
Proof. destruct r; simpl; auto. Qed.

Lemma wpr_if `{F : Fuelled} {A} (b : bool) (c d : res A) (Q : A -> Prop) :
  (b = true -> wpr c Q) -> (b = false -> wpr d Q) -> wpr (if b then c else d) Q.
Proof. destruct b; auto. Qed.

(** A stateless run with no fuel to run out of returns, with its postcondition. *)
Lemma wpr_total {A} (r : res A) (Q : A -> Prop) :
  @wpr total A r Q -> exists a, r = Ok a /\ Q a.
Proof. destruct r as [a| |]; [by exists a|done|done]. Qed.

(** One step of symbolic execution; it leaves calls to named functions to
    their specifications. *)
Ltac wp1 :=
  match goal with
  | |- wp (_ ≫= _) _ _ => apply wp_bind
  | |- wp (mret _) _ _ => apply wp_ret
  | |- wp (gets _) _ _ => apply wp_gets
  | |- wp (modify _) _ _ => apply wp_modify
  | |- wp (lift _) _ _ => apply wp_lift
  | |- wp (update _) _ _ => apply wp_update
  | |- wp (zoom _ _ _) _ _ => apply wp_zoom
  | |- wp (when _ _) _ _ => apply wp_when; intros
  | |- wp (if _ then _ else _) _ _ => apply wp_if; intros
  | |- wpr (_ ≫= _) _ => apply wpr_bind
  | |- wpr (if _ then _ else _) _ => apply wpr_if; intros
  | |- wpr (Ok _) _ => cbn [wpr]
  | |- wpr (mret _) _ => change (mret ?a) with (Ok a); cbn [wpr]
  end; cbv beta.
Ltac wps := repeat wp1.

(** ** Arrays: lists read and written at an index, out of range undefined *)

Definition aget {A} (l : list A) (i : Z) : res A :=
  if i <? 0 then Stuck else
  match l !! Z.to_nat i with Some a => Ok a | None => Stuck end.

Definition aset {A} (l : list A) (i : Z) (a : A) : res (list A) :=
  if (0 <=? i) && (i <? Z.of_nat (length l)) then Ok (<[Z.to_nat i := a]> l) else Stuck.

(** The element of an array where the index is known to be in range. *)
Definition at_ {A} `{Inhabited A} (l : list A) (i : Z) : A := l !!! Z.to_nat i.

Lemma wpr_aget `{F : Fuelled} {A} `{Inhabited A} (l : list A) i (Q : A -> Prop) :
  0 <= i < Z.of_nat (length l) -> Q (at_ l i) -> wpr (aget l i) Q.
Proof.
  intros Hi HQ. unfold aget, at_ in *. rewrite (proj2 (Z.ltb_ge i 0)) by lia.
  destruct (lookup_lt_is_Some_2 l (Z.to_nat i) ltac:(lia)) as [a Ha].
  rewrite Ha. simpl. by rewrite (list_lookup_total_correct _ _ _ Ha) in HQ.
Qed.

Lemma wpr_aset `{F : Fuelled} {A} (l : list A) i (a : A) (Q : list A -> Prop) :
  0 <= i < Z.of_nat (length l) -> Q (<[Z.to_nat i := a]> l) -> wpr (aset l i a) Q.
Proof.
  intros Hi HQ. unfold aset.
  by rewrite (proj2 (Z.leb_le 0 i)), (proj2 (Z.ltb_lt i _)) by lia.
Qed.

(** In range the accessors return. *)
Lemma aget_ok {A} `{Inhabited A} (l : list A) i :
  0 <= i < Z.of_nat (length l) -> aget l i = Ok (at_ l i).
Proof.
  intros Hi. by destruct (wpr_total (aget l i) (fun a => a = at_ l i)) as (a & -> & ->); [apply wpr_aget|].
Qed.

Lemma aset_ok {A} (l : list A) i (a : A) :
  0 <= i < Z.of_nat (length l) -> aset l i a = Ok (<[Z.to_nat i := a]> l).
Proof.
  intros Hi.
  by destruct (wpr_total (aset l i a) (fun l' => l' = <[Z.to_nat i := a]> l)) as (b & -> & ->); [apply wpr_aset|].
Qed.

Lemma at_insert {A} `{Inhabited A} (l : list A) i j (a : A) :
  0 <= i < Z.of_nat (length l) -> 0 <= j ->
  at_ (<[Z.to_nat i := a]> l) j = if i =? j then a else at_ l j.
Proof.
  intros Hi Hj. unfold at_. destruct (Z.eqb_spec i j) as [->|Hne].
  - apply list_lookup_total_correct, list_lookup_insert_eq. lia.
  - rewrite !list_lookup_total_alt, list_lookup_insert_ne by lia. done.
Qed.

Lemma at_Forall {A} `{Inhabited A} (P : A -> Prop) (l : list A) i :
  Forall P l -> 0 <= i < Z.of_nat (length l) -> P (at_ l i).
Proof.
  intros HP Hi. destruct (lookup_lt_is_Some_2 l (Z.to_nat i) ltac:(lia)) as [a Ha].
  unfold at_. rewrite (list_lookup_total_correct _ _ _ Ha).
  by apply (Forall_lookup_1 _ _ _ _ HP Ha).
Qed.

(** ** Signed arithmetic at its C width, overflow undefined *)

Definition int32 (z : Z) : res Z := if (-0x80000000 <=? z) && (z <? 0x80000000) then Ok z else Stuck.
Definition int64 (z : Z) : res Z :=
  if (-0x8000000000000000 <=? z) && (z <? 0x8000000000000000) then Ok z else Stuck.

Lemma int32_ok z : is_s32 z -> int32 z = Ok z.
Proof. unfold is_s32, int32. intros. by rewrite (proj2 (Z.leb_le _ _)), (proj2 (Z.ltb_lt _ _)) by lia. Qed.

Lemma int64_ok z : is_s64 z -> int64 z = Ok z.
Proof. unfold is_s64, int64. intros. by rewrite (proj2 (Z.leb_le _ _)), (proj2 (Z.ltb_lt _ _)) by lia. Qed.

Lemma wpr_int32 `{F : Fuelled} z (Q : Z -> Prop) : is_s32 z -> Q z -> wpr (int32 z) Q.
Proof. intros Hz HQ. by rewrite int32_ok. Qed.

Lemma wpr_int64 `{F : Fuelled} z (Q : Z -> Prop) : is_s64 z -> Q z -> wpr (int64 z) Q.
Proof. intros Hz HQ. by rewrite int64_ok. Qed.

(** What overflows is undefined: the other direction. *)
Lemma int32_inv z r : int32 z = Ok r -> r = z /\ is_s32 z.
Proof. unfold int32, is_s32. destruct (_ && _) eqn:E; [|done]. intros [= <-]. bools. lia. Qed.

(** A magnitude: [bnd b z] holds of sums and products by their shape, so that a
    range follows from the magnitudes of the leaves. *)
Definition bnd (b z : Z) : Prop := 0 <= b /\ - b <= z <= b.

Lemma bnd_add a b y z : bnd a y -> bnd b z -> bnd (a + b) (y + z).
Proof. unfold bnd. lia. Qed.
Lemma bnd_sub a b y z : bnd a y -> bnd b z -> bnd (a + b) (y - z).
Proof. unfold bnd. lia. Qed.
Lemma bnd_opp b z : bnd b z -> bnd b (- z).
Proof. unfold bnd. lia. Qed.
Lemma bnd_mul a b y z : bnd a y -> bnd b z -> bnd (a * b) (y * z).
Proof. unfold bnd. nia. Qed.
Lemma bnd_s32 b z : bnd b z -> (b <=? 0x7fffffff) = true -> is_s32 z.
Proof. unfold bnd, is_s32. intros ? ?%Z.leb_le. lia. Qed.
Lemma bnd_s64 b z : bnd b z -> (b <=? 0x7fffffffffffffff) = true -> is_s64 z.
Proof. unfold bnd, is_s64. intros ? ?%Z.leb_le. lia. Qed.
Lemma s32_bnd z : is_s32 z -> bnd 0x80000000 z.
Proof. unfold bnd, is_s32. lia. Qed.
Lemma bnd_shiftr b z n : 0 <= n -> bnd b z -> bnd b (z .>> n).
Proof.
  intros Hn (Hb & Hz). split; [done|]. rewrite Z.shiftr_div_pow2 by done.
  assert (0 < 2 ^ n) by (apply Z.pow_pos_nonneg; lia).
  split; [apply Z.div_le_lower_bound|apply Z.div_le_upper_bound]; nia.
Qed.

Lemma bnd_const z : bnd (Z.abs z) z.
Proof. unfold bnd. lia. Qed.

(** The magnitude of an expression from those of its leaves in the context. *)
Ltac magnitude :=
  match goal with
  | H : bnd _ ?z |- bnd _ ?z => exact H
  | |- bnd _ (_ + _) => apply bnd_add; magnitude
  | |- bnd _ (_ - _) => apply bnd_sub; magnitude
  | |- bnd _ (- _) => apply bnd_opp; magnitude
  | |- bnd _ (_ * _) => apply bnd_mul; magnitude
  | |- bnd _ (Zpos _) => apply bnd_const
  | |- bnd _ (Zneg _) => apply bnd_const
  end.
Ltac solve_s32 := eapply bnd_s32; [magnitude|vm_compute; reflexivity].
Ltac solve_s64 := eapply bnd_s64; [magnitude|vm_compute; reflexivity].

(** Execute checked arithmetic. *)
Ltac wp_int :=
  match goal with
  | |- wpr (int32 _) _ => apply wpr_int32; [solve_s32|]
  | |- wpr (int64 _) _ => apply wpr_int64; [solve_s64|]
  end; cbv beta.
