(* ===== verification/Buffer.v ===== *)
(** * Byte buffers: RAM, the framebuffer and the disk

    A [buffer] is a C array of bytes of a fixed length, zero where nothing was
    written ([calloc]).  [bytes_read] and [bytes_write] are the emulator's
    little-endian accessors; an access outside the array is [Stuck]. *)

From S2P Require Import Prelude Effects.

Record buffer : Type := Buffer { buf_len : Z; buf_data : Zmap Z }.

Definition buf_zero (len : Z) : buffer := Buffer len ∅.
Definition byte_at (b : buffer) (i : Z) : Z := default 0 (buf_data b !! i).
Definition buf_get (b : buffer) (i : Z) : res Z :=
  if (0 <=? i) && (i <? buf_len b) then Ok (byte_at b i) else Stuck.
Definition buf_set (b : buffer) (i v : Z) : res buffer :=
  if (0 <=? i) && (i <? buf_len b) then Ok (Buffer (buf_len b) (<[i := u8 v]> (buf_data b)))
  else Stuck.

(** Put a list of bytes at an offset: how an image or a disk file is loaded. *)
Fixpoint buf_load (b : buffer) (at0 : Z) (l : list Z) : res buffer :=
  match l with
  | [] => Ok b
  | x :: l' => b' ← buf_set b at0 x; buf_load b' (at0 + 1) l'
  end.

(** [memcpy] out of a buffer. *)
Fixpoint buf_bytes (b : buffer) (at0 : Z) (n : nat) : res (list Z) :=
  match n with
  | O => mret []
  | S n' => v ← buf_get b at0; l ← buf_bytes b (at0 + 1) n'; mret (v :: l)
  end.

(** [bytes_read]: from the last byte down, shifting the value up. *)
Fixpoint bytes_read_from (b : buffer) (p : Z) (n : nat) (value : Z) : res Z :=
  match n with
  | O => Ok value
  | S i => x ← buf_get b (p + Z.of_nat i); bytes_read_from b p i (u32 (value .<< 8) .| x)
  end.
Definition bytes_read (b : buffer) (p width : Z) : res Z :=
  bytes_read_from b p (Z.to_nat width) 0.

(** [bytes_write]: byte [i] of the value to [p[i]], from the first byte up. *)
Fixpoint bytes_write_from (b : buffer) (p i : Z) (n : nat) (value : Z) : res buffer :=
  match n with
  | O => Ok b
  | S n' => b' ← buf_set b (p + i) (u8 (value .>> (8 * i))); bytes_write_from b' p (i + 1) n' value
  end.
Definition bytes_write (b : buffer) (p width value : Z) : res buffer :=
  bytes_write_from b p 0 (Z.to_nat width) value.

(** ** What the accessors compute *)

Definition buf_ok (b : buffer) : Prop := 0 <= buf_len b /\ forall i, is_u8 (byte_at b i).

(** The little-endian number the [n] bytes at [p] hold. *)
Fixpoint le_bytes (b : buffer) (p : Z) (n : nat) : Z :=
  match n with O => 0 | S n' => byte_at b p + 256 * le_bytes b (p + 1) n' end.

(** [b'] is [b] with the bytes of [value] at [p .. p+width). *)
Definition written (b b' : buffer) (p width value : Z) : Prop :=
  buf_len b' = buf_len b /\
  forall i, byte_at b' i = if (p <=? i) && (i <? p + width) then u8 (value .>> (8 * (i - p))) else byte_at b i.

Lemma buf_zero_ok n : 0 <= n -> buf_ok (buf_zero n).
Proof. split; [done|]. intros i. unfold byte_at, is_u8; simpl. rewrite lookup_empty. simpl. lia. Qed.

Lemma buf_set_ok b i v :
  0 <= i < buf_len b ->
  exists b', buf_set b i v = Ok b' /\ buf_len b' = buf_len b /\
    forall j, byte_at b' j = if j =? i then u8 v else byte_at b j.
Proof.
  intros Hi. unfold buf_set.
  rewrite (proj2 (Z.leb_le 0 i)), (proj2 (Z.ltb_lt i _)) by lia. cbn [andb].
  eexists. splits; [done|done|]. intros j. unfold byte_at; cbn [buf_data].
  destruct (Z.eqb_spec j i) as [->|]; [by rewrite lookup_insert_eq|by rewrite lookup_insert_ne].
Qed.

Lemma buf_get_ok b i : 0 <= i < buf_len b -> buf_get b i = Ok (byte_at b i).
Proof.
  intros Hi. unfold buf_get. by rewrite (proj2 (Z.leb_le 0 i)), (proj2 (Z.ltb_lt i _)) by lia.
Qed.

Lemma le_bytes_range b p n : buf_ok b -> 0 <= le_bytes b p n < 256 ^ Z.of_nat n.
Proof.
  intros [_ Hb]. revert p. induction n as [|n IH]; intros p; [simpl; lia|].
  cbn [le_bytes]. rewrite Nat2Z.inj_succ, Z.pow_succ_r by lia.
  specialize (IH (p + 1)). specialize (Hb p). unfold is_u8 in Hb. nia.
Qed.

Lemma le_bytes_snoc b p n :
  le_bytes b p (S n) = le_bytes b p n + 256 ^ Z.of_nat n * byte_at b (p + Z.of_nat n).
Proof.
  revert p. induction n as [|n IH]; intros p.
  - cbn [le_bytes]. replace (p + Z.of_nat 0) with p by lia. simpl (256 ^ _). lia.
  - change (le_bytes b p (S (S n))) with (byte_at b p + 256 * le_bytes b (p + 1) (S n)).
    rewrite IH. change (le_bytes b p (S n)) with (byte_at b p + 256 * le_bytes b (p + 1) n).
    replace (p + Z.of_nat (S n)) with (p + 1 + Z.of_nat n) by lia.
    rewrite Nat2Z.inj_succ, Z.pow_succ_r by lia. ring.
Qed.

Lemma pow256_le n : (n <= 4)%nat -> 256 ^ Z.of_nat n <= 0x100000000.
Proof. intros. change 0x100000000 with (256 ^ 4). apply Z.pow_le_mono_r; lia. Qed.

Lemma bytes_read_from_spec b p n v :
  buf_ok b -> 0 <= p -> p + Z.of_nat n <= buf_len b ->
  0 <= v -> v * 256 ^ Z.of_nat n + 256 ^ Z.of_nat n <= 0x100000000 ->
  bytes_read_from b p n v = Ok (v * 256 ^ Z.of_nat n + le_bytes b p n).
Proof.
  intros Hb Hp. revert v. induction n as [|n IH]; intros v Hlen Hv Hvn.
  - cbn [bytes_read_from le_bytes]. f_equal. simpl (256 ^ _). lia.
  - cbn [bytes_read_from]. rewrite buf_get_ok by lia. cbn [mbind res_bind].
    rewrite Nat2Z.inj_succ, Z.pow_succ_r in Hvn |- * by lia.
    pose proof (Z.pow_pos_nonneg 256 (Z.of_nat n) ltac:(lia) ltac:(lia)) as Hpow.
    pose proof (proj2 Hb (p + Z.of_nat n)) as Hx. unfold is_u8 in Hx.
    assert (Hu : u32 (v .<< 8) = v .<< 8).
    { apply u32_id. unfold is_u32. rewrite Z.shiftl_mul_pow2 by lia. change (2 ^ 8) with 256. nia. }
    rewrite Hu, lor_add by (change (2 ^ 8) with 256; lia).
    change (2 ^ 8) with 256. rewrite IH by nia. rewrite le_bytes_snoc. f_equal. ring.
Qed.

Lemma bytes_read_spec b p width :
  buf_ok b -> 0 <= p -> 0 <= width <= 4 -> p + width <= buf_len b ->
  bytes_read b p width = Ok (le_bytes b p (Z.to_nat width)).
Proof.
  intros Hb Hp Hw Hlen. unfold bytes_read. rewrite bytes_read_from_spec; [done|done|done|lia|lia|].
  rewrite Z.mul_0_l, Z.add_0_l. apply pow256_le. lia.
Qed.

Lemma bytes_write_from_spec b p i n value :
  0 <= p + i -> p + i + Z.of_nat n <= buf_len b ->
  exists b', bytes_write_from b p i n value = Ok b' /\ buf_len b' = buf_len b /\
    forall j, byte_at b' j =
      if (p + i <=? j) && (j <? p + i + Z.of_nat n) then u8 (value .>> (8 * (j - p))) else byte_at b j.
Proof.
  revert b i. induction n as [|n IH]; intros b i Hp Hlen.
  - exists b. splits; [done|done|]. intros j.
    destruct (Z.leb_spec (p + i) j), (Z.ltb_spec j (p + i + Z.of_nat 0)); try done. lia.
  - cbn [bytes_write_from].
    destruct (buf_set_ok b (p + i) (u8 (value .>> (8 * i)))) as (b1 & E1 & Hl1 & Hb1); [lia|].
    destruct (IH b1 (i + 1)) as (b' & E & Hl & Hj); [lia|lia|].
    exists b'. rewrite E1. cbn [mbind res_bind]. splits; [done|lia|]. intros j. rewrite Hj, Hb1.
    destruct (Z.leb_spec (p + (i + 1)) j), (Z.ltb_spec j (p + (i + 1) + Z.of_nat n)),
      (Z.leb_spec (p + i) j), (Z.ltb_spec j (p + i + Z.of_nat (S n))), (Z.eqb_spec j (p + i));
      cbn [andb]; try lia; try done.
    subst j. replace (p + i - p) with i by lia. unfold u8. by rewrite Z.mod_mod by done.
Qed.

Lemma bytes_write_spec b p width value :
  0 <= p -> 0 <= width -> p + width <= buf_len b ->
  exists b', bytes_write b p width value = Ok b' /\ written b b' p width value.
Proof.
  intros. unfold bytes_write, written.
  destruct (bytes_write_from_spec b p 0 (Z.to_nat width) value) as (b' & E & Hl & Hj); [lia|lia|].
  exists b'. splits; [done|done|]. intros i. rewrite Hj.
  by replace (p + 0) with p by lia; replace (Z.of_nat (Z.to_nat width)) with width by lia.
Qed.

Lemma written_ok b b' p width value : buf_ok b -> written b b' p width value -> buf_ok b'.
Proof.
  intros [Hl Hb] [Hl' Hb']. split; [lia|]. intros i. rewrite Hb'.
  destruct (_ && _); [apply u8_range|apply Hb].
Qed.

(** Reading back what was written gives the value's low bytes. *)
Lemma le_bytes_written b b' p width value n k :
  written b b' p width value -> 0 <= k -> k + Z.of_nat n <= width ->
  le_bytes b' (p + k) n = (value .>> (8 * k)) mod 256 ^ Z.of_nat n.
Proof.
  intros Hw. revert k. induction n as [|n IH]; intros k Hk Hkn.
  - simpl. by rewrite Z.mod_1_r.
  - cbn [le_bytes]. replace (p + k + 1) with (p + (k + 1)) by lia. rewrite IH by lia.
    destruct Hw as [_ Hw]. rewrite Hw.
    rewrite (proj2 (Z.leb_le p (p + k))), (proj2 (Z.ltb_lt (p + k) _)) by lia. cbn [andb].
    replace (p + k - p) with k by lia.
    replace (8 * (k + 1)) with (8 * k + 8) by lia.
    rewrite <- Z.shiftr_shiftr by lia. set (x := value .>> (8 * k)).
    rewrite (Z.shiftr_div_pow2 x 8) by lia. change (2 ^ 8) with 256.
    rewrite Nat2Z.inj_succ, Z.pow_succ_r by lia.
    rewrite (Z.rem_mul_r x 256 (256 ^ Z.of_nat n)) by lia. unfold u8. done.
Qed.

Lemma le_bytes_ext b b' p n :
  (forall i, p <= i < p + Z.of_nat n -> byte_at b' i = byte_at b i) ->
  le_bytes b' p n = le_bytes b p n.
Proof.
  revert p. induction n as [|n IH]; intros p Hb; [done|].
  cbn [le_bytes]. rewrite Hb by lia. f_equal. f_equal. apply IH. intros i Hi. apply Hb. lia.
Qed.

(** ** The accessors as steps of a computation *)

Lemma buf_set_keeps `{F : Fuelled} b i w (Q : buffer -> Prop) :
  buf_ok b -> 0 <= i < buf_len b ->
  (forall b', buf_ok b' -> buf_len b' = buf_len b -> Q b') -> wpr (buf_set b i w) Q.
Proof.
  intros [Hl Hb] Hi HQ. destruct (buf_set_ok b i w Hi) as (b' & -> & El & Eb). cbn. apply HQ; [|done].
  split; [lia|]. intros j. rewrite Eb. destruct (j =? i); [apply u8_range|apply Hb].
Qed.

Lemma buf_load_keeps `{F : Fuelled} l b i (Q : buffer -> Prop) :
  buf_ok b -> 0 <= i -> i + Z.of_nat (length l) <= buf_len b ->
  (forall b', buf_ok b' -> buf_len b' = buf_len b -> Q b') -> wpr (buf_load b i l) Q.
Proof.
  revert b i. induction l as [|w l IH]; intros b i Hb Hi Hl HQ; cbn [buf_load length] in *; [by apply HQ|].
  wps. apply buf_set_keeps; [done|lia|]. intros b' Hb' El. apply IH; [done|lia|lia|].
  intros b'' Hb'' El'. apply HQ; [done|lia].
Qed.

Lemma wpr_buf_get `{F : Fuelled} b i (Q : Z -> Prop) :
  0 <= i < buf_len b -> Q (byte_at b i) -> wpr (buf_get b i) Q.
Proof. intros Hi HQ. by rewrite buf_get_ok. Qed.

Lemma wpr_bytes_read `{F : Fuelled} b p width (Q : Z -> Prop) :
  buf_ok b -> 0 <= p -> 0 <= width <= 4 -> p + width <= buf_len b ->
  Q (le_bytes b p (Z.to_nat width)) -> wpr (bytes_read b p width) Q.
Proof. intros. by rewrite bytes_read_spec. Qed.

Lemma wpr_bytes_write `{F : Fuelled} b p width value (Q : buffer -> Prop) :
  buf_ok b -> 0 <= p -> 0 <= width -> p + width <= buf_len b ->
  (forall b', written b b' p width value -> Q b') -> wpr (bytes_write b p width value) Q.
Proof.
  intros Hb Hp Hw Hl HQ. destruct (bytes_write_spec b p width value) as (b' & -> & W); [done..|].
  cbn. by apply HQ.
Qed.

(** A read of at most four bytes is a 32-bit number. *)
Lemma le_bytes_u32 b p n : buf_ok b -> (n <= 4)%nat -> is_u32 (le_bytes b p n).
Proof.
  intros Hb Hn. pose proof (le_bytes_range b p n Hb). pose proof (pow256_le n Hn). unfold is_u32. lia.
Qed.

(** What [buf_load] puts where. *)
Lemma buf_load_spec l b i :
  0 <= i -> i + Z.of_nat (length l) <= buf_len b ->
  exists b', buf_load b i l = Ok b' /\ buf_len b' = buf_len b /\
    forall j, byte_at b' j = if (i <=? j) && (j <? i + Z.of_nat (length l)) then u8 (at_ l (j - i)) else byte_at b j.
Proof.
  revert b i. induction l as [|v l IH]; intros b i Hi Hl; cbn [buf_load length] in *.
  - exists b. split; [done|]. split; [done|]. intros j. change (Z.of_nat 0) with 0.
    destruct (Z.leb_spec i j), (Z.ltb_spec j (i + 0)); cbn [andb]; (done || lia).
  - destruct (buf_set_ok b i v) as (b1 & -> & L1 & B1); [lia|]. cbn [mbind res_bind].
    destruct (IH b1 (i + 1)) as (b2 & -> & L2 & B2); [lia|lia|]. exists b2. split; [done|]. split; [congruence|].
    intros j. rewrite B2, B1. destruct (Z.eqb_spec j i) as [->|Hj].
    + rewrite (proj2 (Z.leb_gt (i + 1) i)), (proj2 (Z.leb_le i i)) by lia. cbn [andb].
      rewrite Z.sub_diag. by rewrite (proj2 (Z.ltb_lt i (i + _))) by lia.
    + destruct (Z.leb_spec (i + 1) j), (Z.leb_spec i j), (Z.ltb_spec j (i + 1 + Z.of_nat (length l))),
        (Z.ltb_spec j (i + Z.of_nat (S (length l)))); try lia; cbn [andb]; try done.
      f_equal. unfold at_. replace (Z.to_nat (j - i)) with (S (Z.to_nat (j - (i + 1)))) by lia. done.
Qed.

Lemma buf_bytes_spec b i n :
  0 <= i -> i + Z.of_nat n <= buf_len b -> buf_bytes b i n = Ok (map (fun k => byte_at b (i + Z.of_nat k)) (seq 0 n)).
Proof.
  revert i. induction n as [|n IH]; intros i Hi Hn; cbn [buf_bytes seq map]; [done|].
  rewrite buf_get_ok by lia. cbn [mbind res_bind]. rewrite IH by lia. cbn [mbind res_bind mret res_ret].
  do 2 f_equal; [f_equal; lia|]. rewrite <- seq_shift, map_map. apply map_ext. intros k. f_equal. lia.
Qed.
