(* ===== verification/Simd4.v ===== *)
(** * SIMD4: the four-lane engine (tools/rv32_simd4.c)

    The device is a program memory, a data memory and an execution state the
    CPU starts, resets and polls over MMIO; [simd_tick] is one device tick. *)

From S2P Require Import Prelude Effects.

Module Simd.

Definition SIMD_BASE : Z := 0x11004000.
Definition SIMD_PROGRAM : Z := 0x11005000.
Definition SIMD_DATA : Z := 0x11006000.
Definition SIMD_COMMAND : Z := 0x00.
Definition SIMD_STATUS : Z := 0x04.
Definition SIMD_ENTRY : Z := 0x08.
Definition SIMD_CYCLES : Z := 0x0c.
Definition SIMD_STALLS : Z := 0x10.
Definition SIMD_TRANSFERS : Z := 0x14.
Definition SIMD_INSTRUCTIONS : Z := 0x18.
Definition SIMD_BUSY : Z := 0x01.
Definition SIMD_DONE : Z := 0x02.
Definition SIMD_FAULT : Z := 0x04.
Definition SIMD_START : Z := 0x01.
Definition SIMD_RESET : Z := 0x02.

Inductive simd_phase : Type := SIMD_IDLE | SIMD_FETCH | SIMD_EXECUTE | SIMD_MEMORY.
#[export] Instance simd_phase_eq_dec : EqDecision simd_phase.
Proof. solve_decision. Defined.

Record simd_execution : Type := {
  r : list (list Z); loop : Z;
  acc : list Z; instruction : Z;
  cycles : Z; stalls : Z; transfers : Z; instructions : Z;
  entry : Z; pc : Z; lane : Z;
  state : simd_phase;
  done : bool; fault : bool; command_tick : bool;
}.

Record simd_device : Type := {
  program : list Z;
  data : list Z;
  execution : simd_execution;
}.

(** Opcodes. *)
Definition HLT : Z := 0.
Definition LDI : Z := 1.
Definition LANE : Z := 2.
Definition ADD : Z := 3.
Definition ADDI : Z := 4.
Definition LOAD : Z := 5.
Definition STORE : Z := 6.
Definition SETLOOP : Z := 7.
Definition LOOP : Z := 8.
Definition MUL : Z := 9.
Definition MAC : Z := 10.
Definition MACU : Z := 11.
Definition CLRA : Z := 12.
Definition RDA : Z := 13.

Definition reset_execution : simd_execution := {|
  r := replicate 4 (replicate 4 0); loop := 0; acc := replicate 4 0; instruction := 0;
  cycles := 0; stalls := 0; transfers := 0; instructions := 0;
  entry := 0; pc := 0; lane := 0; state := SIMD_IDLE;
  done := false; fault := false; command_tick := true |}.

Definition simd_reset (s : simd_device) : simd_device :=
  {| s with execution := reset_execution |}.

(** The device as [emu_init]'s [memset] and [simd_reset] leave it. *)
Definition simd_initial : simd_device :=
  {| program := replicate 256 0; data := replicate 256 0; execution := reset_execution |}.

Definition idle (s : simd_device) : bool := bool_decide (state (execution s) = SIMD_IDLE).

(** [None] is the C function's [false]: a side-effect-free bus fault.  A read
    returns the value; a write returns the value it was given. *)
Definition simd_access (s : simd_device) (address width : Z) (write : bool) (value : Z)
    : res (option (Z * simd_device)) :=
  let e := execution s in
  if negb (width =? 4) || tst (address .& 3) then mret None
  else if (SIMD_PROGRAM <=? address) && (address - SIMD_PROGRAM <? 1024) then
    if negb (idle s) then mret None
    else
      let index := (address - SIMD_PROGRAM) / 4 in
      if write then p ← aset (program s) index value; mret (Some (value, {| s with program := p |}))
      else v ← aget (program s) index; mret (Some (v, s))
  else if (SIMD_DATA <=? address) && (address - SIMD_DATA <? 1024) then
    if negb (idle s) then mret None
    else
      let index := (address - SIMD_DATA) / 4 in
      if write then p ← aset (data s) index (u16 value); mret (Some (value, {| s with data := p |}))
      else v ← aget (data s) index; mret (Some (v, s))
  else if (address <? SIMD_BASE) || (32 <=? address - SIMD_BASE) then mret None
  else
    let off := address - SIMD_BASE in
    if off =? SIMD_COMMAND then
      if negb write || (negb (value =? SIMD_START) && negb (value =? SIMD_RESET))
         || ((value =? SIMD_START) && negb (idle s)) then mret None
      else if value =? SIMD_RESET then mret (Some (value, simd_reset s))
      else
        let entry0 := entry e in
        let s1 := simd_reset s in
        mret (Some (value, {| s1 with execution :=
          {| (execution s1) with entry := entry0; pc := entry0; state := SIMD_FETCH |} |}))
    else if off =? SIMD_ENTRY then
      if write then
        if negb (idle s) || (value >? 255) then mret None
        else mret (Some (value, {| s with execution := {| e with entry := u8 value |} |}))
      else mret (Some (entry e, s))
    else if write then mret None
    else if off =? SIMD_STATUS then
      mret (Some ((if idle s then 0 else SIMD_BUSY) .| (if done e then SIMD_DONE else 0)
                  .| (if fault e then SIMD_FAULT else 0), s))
    else if off =? SIMD_CYCLES then mret (Some (cycles e, s))
    else if off =? SIMD_STALLS then mret (Some (stalls e, s))
    else if off =? SIMD_TRANSFERS then mret (Some (transfers e, s))
    else if off =? SIMD_INSTRUCTIONS then mret (Some (instructions e, s))
    else mret None.

Definition signed16 (x : Z) : Z := x - (if tst (x .& 0x8000) then 65536 else 0).

(** [s->execution.r[lane][index]], read and written. *)
Definition get_r (e : simd_execution) (l i : Z) : res Z := row ← aget (r e) l; aget row i.
Definition set_r (e : simd_execution) (l i v : Z) : res simd_execution :=
  row ← aget (r e) l; row' ← aset row i v; rs ← aset (r e) l row'; mret {| e with r := rs |}.
Definition set_acc (e : simd_execution) (l v : Z) : res simd_execution :=
  a ← aset (acc e) l v; mret {| e with acc := a |}.

(** RDA's arithmetic right shift of an accumulator. *)
Definition rda_value (a shift : Z) : Z :=
  let value := a .>> shift in
  if tst shift && tst (a .& 0x80000000) then value .| u32 (0xffffffff .<< (32 - shift)) else value.

(** The per-lane switch of [simd_tick]. *)
Definition lane_op (op rd ra rb imm : Z) (e : simd_execution) (l : Z) : res simd_execution :=
  if op =? LDI then set_r e l rd imm
  else if op =? LANE then set_r e l rd (u16 l)
  else if op =? ADD then a ← get_r e l ra; b ← get_r e l rb; set_r e l rd (u16 (a + b))
  else if op =? ADDI then a ← get_r e l ra; set_r e l rd (u16 (a + imm))
  else if op =? MUL then a ← get_r e l ra; b ← get_r e l rb; set_r e l rd (u16 (u32 (a * b)))
  else if op =? MAC then
    a ← get_r e l ra; b ← get_r e l rb; c ← aget (acc e) l;
    set_acc e l (u32 (c + u32 (signed16 a * signed16 b)))
  else if op =? MACU then
    a ← get_r e l ra; b ← get_r e l rb; c ← aget (acc e) l;
    set_acc e l (u32 (c + u32 (a * b)))
  else if op =? CLRA then set_acc e l 0
  else if op =? RDA then c ← aget (acc e) l; set_r e l rd (u16 (rda_value c (imm .& 31)))
  else mret e.

Definition finish (op : Z) (e : simd_execution) : simd_execution :=
  {| e with instructions := u32 (instructions e + 1);
            state := if op =? HLT then SIMD_IDLE else SIMD_FETCH;
            done := if op =? HLT then true else done e |}.

(** The MEMORY phase: one lane's transfer. *)
Definition memory_step (hold : bool) (op rd ra imm : Z) (s : simd_device) : res simd_device :=
  let e := execution s in
  if hold then mret {| s with execution := {| e with stalls := u32 (stalls e + 1) |} |}
  else
    a ← get_r e (lane e) ra;
    let address := u8 (a + imm) in
    s1 ← (if op =? STORE then
            v ← get_r e (lane e) rd; d ← aset (data s) address v; mret {| s with data := d |}
          else
            v ← aget (data s) address; e' ← set_r e (lane e) rd v; mret {| s with execution := e' |});
    let e1 := execution s1 in
    let e2 := {| e1 with transfers := u32 (transfers e1 + 1); lane := u8 (lane e1 + 1) |} in
    if lane e2 <? 4 then mret {| s1 with execution := e2 |}
    else mret {| s1 with execution := finish op {| e2 with lane := 0 |} |}.

(** SETLOOP and LOOP, on the loop counter. *)
Definition loop_op (op imm : Z) (e : simd_execution) : simd_execution :=
  if op =? SETLOOP then {| e with loop := imm |}
  else if op =? LOOP then
    let n := u16 (loop e - 1) in {| e with loop := n; pc := if tst n then u8 imm else pc e |}
  else e.

(** The EXECUTE phase of everything but LOAD and STORE, all lanes at once. *)
Definition execute_step (op rd ra rb imm : Z) (s : simd_device) : res simd_device :=
  let e := execution s in
  if (op =? LOAD) || (op =? STORE) then
    mret {| s with execution := {| e with lane := 0; state := SIMD_MEMORY |} |}
  else if (op >? RDA) || ((op =? SETLOOP) && (imm =? 0)) || ((op =? LOOP) && (loop e =? 0)) then
    mret {| s with execution := {| e with state := SIMD_IDLE; done := true; fault := true |} |}
  else
    e1 ← foldr (fun l k e => e' ← lane_op op rd ra rb imm e l; k e') mret [0; 1; 2; 3] (loop_op op imm e);
    mret {| s with execution := finish op e1 |}.

Definition simd_tick (hold : bool) (s : simd_device) : res simd_device :=
  let e := execution s in
  if command_tick e then mret {| s with execution := {| e with command_tick := false |} |}
  else if idle s then mret s
  else
    let e1 := {| e with cycles := u32 (cycles e + 1) |} in
    let s1 := {| s with execution := e1 |} in
    match state e with
    | SIMD_FETCH =>
        w ← aget (program s) (pc e1);
        mret {| s1 with execution :=
          {| e1 with instruction := w; pc := u8 (pc e1 + 1); state := SIMD_EXECUTE |} |}
    | ph =>
        let word := instruction e1 in
        let op := word .>> 24 in
        let rd := (word .>> 22) .& 3 in
        let ra := (word .>> 20) .& 3 in
        let rb := (word .>> 18) .& 3 in
        let imm := u16 word in
        if bool_decide (ph = SIMD_MEMORY) then memory_step hold op rd ra imm s1
        else execute_step op rd ra rb imm s1
    end.

End Simd.
