(* ===== verification/SimdProofs.v ===== *)
(** * SIMD4: invariant, instruction-level refinement, memory-port holds

    [simd_ok] is the device's invariant; every access and tick preserves it
    and neither is undefined.  [isa_step] executes one whole instruction on
    four lanes in parallel; the ticks of [simd_tick] implement it. *)

From S2P Require Import Prelude Effects Simd4.

Module SimdProofs.
Import Simd.

(** ** The invariant *)

Definition row_ok (row : list Z) : Prop := length row = 4%nat /\ Forall is_u16 row.

Record exec_ok (e : simd_execution) : Prop := {
  ok_r_len : length (r e) = 4%nat;
  ok_r : Forall row_ok (r e);
  ok_acc_len : length (acc e) = 4%nat;
  ok_acc : Forall is_u32 (acc e);
  ok_instruction : is_u32 (instruction e);
  ok_loop : is_u16 (loop e);
  ok_cycles : is_u32 (cycles e);
  ok_stalls : is_u32 (stalls e);
  ok_transfers : is_u32 (transfers e);
  ok_instructions : is_u32 (instructions e);
  ok_entry : is_u8 (entry e);
  ok_pc : is_u8 (pc e);
  ok_lane : 0 <= lane e < 4;
}.

Record simd_ok (s : simd_device) : Prop := {
  ok_program_len : length (program s) = 256%nat;
  ok_program : Forall is_u32 (program s);
  ok_data_len : length (data s) = 256%nat;
  ok_data : Forall is_u16 (data s);
  ok_execution : exec_ok (execution s);
}.

Ltac exec_ok := constructor; cbn; eauto with rv32.

Lemma Forall_aset {A} (P : A -> Prop) (l : list A) i a :
  Forall P l -> P a -> Forall P (<[i := a]> l).
Proof. intros. by apply Forall_insert. Qed.
#[local] Hint Resolve Forall_aset : rv32.

Lemma reset_ok : exec_ok reset_execution.
Proof. by constructor; cbn; repeat constructor. Qed.

Lemma simd_reset_ok s : simd_ok s -> simd_ok (simd_reset s).
Proof. intros []. constructor; [done..|apply reset_ok]. Qed.

Lemma simd_initial_ok : simd_ok simd_initial.
Proof.
  constructor; [done| |done| |apply reset_ok]; apply Forall_replicate; compute; intuition congruence.
Qed.

Section Rules.
Context `{F : Fuelled}.

Lemma get_r_wp e l i (Q : Z -> Prop) :
  exec_ok e -> 0 <= l < 4 -> 0 <= i < 4 ->
  (is_u16 (at_ (at_ (r e) l) i) -> Q (at_ (at_ (r e) l) i)) -> wpr (get_r e l i) Q.
Proof.
  intros [] Hl Hi HQ. unfold get_r. wps. apply wpr_aget; [lia|].
  pose proof (at_Forall row_ok (r e) l ok_r0 ltac:(lia)) as [Hlen Hrow].
  apply wpr_aget; [lia|]. apply HQ, (at_Forall is_u16); [done|lia].
Qed.

Lemma set_r_wp e l i v (Q : simd_execution -> Prop) :
  exec_ok e -> 0 <= l < 4 -> 0 <= i < 4 -> is_u16 v ->
  (let e' := {| e with r := <[Z.to_nat l := <[Z.to_nat i := v]> (at_ (r e) l)]> (r e) |} in
   exec_ok e' -> Q e') -> wpr (set_r e l i v) Q.
Proof.
  intros He Hl Hi Hv HQ. unfold set_r. destruct He. wps. apply wpr_aget; [lia|].
  pose proof (at_Forall row_ok (r e) l ok_r0 ltac:(lia)) as [Hlen Hrow].
  wps. apply wpr_aset; [lia|]. wps. apply wpr_aset; [lia|]. wps. apply HQ.
  exec_ok; [by rewrite length_insert|]. apply Forall_insert; [done|].
  split; [by rewrite length_insert|by apply Forall_insert].
Qed.

Lemma set_acc_wp e l v (Q : simd_execution -> Prop) :
  exec_ok e -> 0 <= l < 4 -> is_u32 v ->
  (let e' := {| e with acc := <[Z.to_nat l := v]> (acc e) |} in exec_ok e' -> Q e') ->
  wpr (set_acc e l v) Q.
Proof.
  intros He Hl Hv HQ. unfold set_acc. destruct He. wps. apply wpr_aset; [lia|]. wps. apply HQ.
  exec_ok. by rewrite length_insert.
Qed.

Lemma get_acc_wp e l (Q : Z -> Prop) :
  exec_ok e -> 0 <= l < 4 -> (is_u32 (at_ (acc e) l) -> Q (at_ (acc e) l)) -> wpr (aget (acc e) l) Q.
Proof.
  intros [] Hl HQ. apply wpr_aget; [lia|]. apply HQ, at_Forall; [done|lia].
Qed.

End Rules.

(** ** What one lane computes *)

(** A lane's registers and accumulator. *)
Definition lane_state : Type := list Z * Z.
Definition lane_of (e : simd_execution) (l : Z) : lane_state := (at_ (r e) l, at_ (acc e) l).

(** The instruction's effect on one lane, from that lane's state alone. *)
Definition lane_spec (op rd ra rb imm l : Z) (st : lane_state) : lane_state :=
  let '(row, a) := st in
  let put v := (<[Z.to_nat rd := v]> row, a) in
  if op =? LDI then put imm
  else if op =? LANE then put l
  else if op =? ADD then put (u16 (at_ row ra + at_ row rb))
  else if op =? ADDI then put (u16 (at_ row ra + imm))
  else if op =? MUL then put (u16 (at_ row ra * at_ row rb))
  else if op =? MAC then (row, u32 (a + s16 (at_ row ra) * s16 (at_ row rb)))
  else if op =? MACU then (row, u32 (a + at_ row ra * at_ row rb))
  else if op =? CLRA then (row, 0)
  else if op =? RDA then put (u16 (s32 a .>> (imm .& 31)))
  else st.

Lemma signed16_s16 x : is_u16 x -> signed16 x = s16 x.
Proof.
  intros Hx. unfold signed16. change 0x8000 with (2 ^ 15).
  rewrite tst_land_pow2, testbit_top by (unfold is_u16 in Hx; lia).
  unfold is_u16 in Hx. unfold s16. destruct (Z.leb_spec (2 ^ 15) x); zlia.
Qed.

(** RDA's shift, which fills by hand, is an arithmetic one. *)
Lemma rda_arithmetic a shift :
  is_u32 a -> 0 <= shift < 32 -> rda_value a shift = u32 (s32 a .>> shift).
Proof.
  intros Ha Hs. unfold rda_value. change 0x80000000 with (2 ^ 31).
  rewrite tst_land_pow2, testbit_top by (unfold is_u32 in Ha; lia).
  destruct (Z.leb_spec (2 ^ 31) a) as [Hneg|Hpos].
  - rewrite s32_neg by (done || lia). destruct (tst shift) eqn:Et; cbn [andb].
    2:{ apply tst_false in Et as ->. rewrite !Z.shiftr_0_r. unfold is_u32, u32 in *. zlia. }
    apply tst_true in Et. rewrite !Z.shiftr_div_pow2, Z.shiftl_mul_pow2 by lia.
    assert (Hp : 0 < 2 ^ shift) by (apply Z.pow_pos_nonneg; lia).
    assert (Hq : 0 < 2 ^ (32 - shift)) by (apply Z.pow_pos_nonneg; lia).
    assert (E : 2 ^ (32 - shift) * 2 ^ shift = 0x100000000).
    { rewrite <- Z.pow_add_r by lia. by replace (32 - shift + shift) with 32 by lia. }
    assert (Hb : 0 <= a / 2 ^ shift < 2 ^ (32 - shift)).
    { unfold is_u32 in Ha. split; [apply Z.div_pos; lia|]. apply Z.div_lt_upper_bound; lia. }
    assert (Ef : u32 (0xffffffff * 2 ^ (32 - shift)) = (2 ^ shift - 1) * 2 ^ (32 - shift)).
    { unfold u32. symmetry. apply Z.mod_unique with (2 ^ (32 - shift) - 1); nia. }
    rewrite Ef, <- Z.shiftl_mul_pow2, Z.lor_comm, lor_add by lia.
    unfold u32.
    replace (a - 0x100000000) with (a + - 2 ^ (32 - shift) * 2 ^ shift) by lia.
    rewrite Z.div_add by lia. apply Z.mod_unique with (-1); nia.
  - rewrite andb_false_r, s32_nonneg by (done || lia). symmetry. apply u32_id, shiftr_u32; [lia|done].
Qed.

(** One lane's turn of the per-lane loop: its own state becomes [lane_spec]'s,
    and nothing else of the engine changes. *)
Definition lane_done (op rd ra rb imm l : Z) (e e' : simd_execution) : Prop :=
  exec_ok e' /\ e' = {| e with r := r e'; acc := acc e' |} /\
  forall k, 0 <= k < 4 ->
    lane_of e' k = if l =? k then lane_spec op rd ra rb imm l (lane_of e l) else lane_of e k.

Lemma lane_of_set_r e l k i v :
  exec_ok e -> 0 <= l < 4 -> 0 <= k < 4 ->
  lane_of {| e with r := <[Z.to_nat l := <[Z.to_nat i := v]> (at_ (r e) l)]> (r e) |} k =
  if l =? k then (<[Z.to_nat i := v]> (at_ (r e) l), at_ (acc e) l) else lane_of e k.
Proof.
  intros [] Hl Hk. unfold lane_of; cbn. rewrite at_insert by lia.
  by destruct (Z.eqb_spec l k) as [->|].
Qed.

Lemma lane_of_set_acc e l k v :
  exec_ok e -> 0 <= l < 4 -> 0 <= k < 4 ->
  lane_of {| e with acc := <[Z.to_nat l := v]> (acc e) |} k =
  if l =? k then (at_ (r e) l, v) else lane_of e k.
Proof.
  intros [] Hl Hk. unfold lane_of; cbn. rewrite at_insert by lia.
  by destruct (Z.eqb_spec l k) as [->|].
Qed.

Lemma u32_add_u32 a b : u32 (a + u32 b) = u32 (a + b).
Proof. unfold u32. by rewrite Z.add_mod_idemp_r. Qed.
Lemma u16_u32 a : u16 (u32 a) = u16 a.
Proof. unfold u16, u32. zlia. Qed.

(** Finish a lane operation that wrote a register, or the accumulator. *)
Ltac lane_put :=
  cbv zeta; intros He'; split; [exact He'|split; [reflexivity|]]; intros k Hk;
  first [rewrite lane_of_set_r by done | rewrite lane_of_set_acc by done];
  destruct (_ =? k); [|reflexivity].

Lemma lane_op_wp `{F : Fuelled} op rd ra rb imm e l :
  exec_ok e -> 0 <= l < 4 -> 0 <= rd < 4 -> 0 <= ra < 4 -> 0 <= rb < 4 -> is_u16 imm ->
  wpr (lane_op op rd ra rb imm e l) (lane_done op rd ra rb imm l e).
Proof.
  intros He Hl Hd Ha Hb Hi. unfold lane_op, lane_done, lane_spec.
  assert (Hl16 : u16 l = l) by (apply u16_id; unfold is_u16; lia).
  assert (is_u32 0) by (compute; intuition congruence).
  assert (Hs : 0 <= imm .& 31 < 32) by (pose proof (land_range imm 31); lia).
  unfold lane_of at 2.
  repeat match goal with
  | |- wpr (if ?b then _ else _) _ => destruct b
  | |- wpr (_ ≫= _) _ => apply wpr_bind
  | |- wpr (get_r _ _ _) _ => apply get_r_wp; [done..|]; intros ?
  | |- wpr (aget (acc _) _) _ => apply get_acc_wp; [done..|]; intros ?
  | |- wpr (set_r _ _ _ _) _ => apply set_r_wp; [done|done|done|by eauto with rv32|lane_put]
  | |- wpr (set_acc _ _ _) _ => apply set_acc_wp; [done|done|by eauto with rv32|lane_put]
  end; rewrite ?Hl16, ?u32_add_u32, ?u16_u32, ?signed16_s16 by done; try done.
  - rewrite rda_arithmetic by done. by rewrite u16_u32.
  - cbn. split; [done|]. split; [by destruct e|]. intros k Hk. destruct (Z.eqb_spec l k) as [->|]; done.
Qed.

(** The whole loop over the lanes is the lanes' effects in parallel. *)
Lemma simd_lanes_wp `{F : Fuelled} op rd ra rb imm e :
  exec_ok e -> 0 <= rd < 4 -> 0 <= ra < 4 -> 0 <= rb < 4 -> is_u16 imm ->
  wpr (foldr (fun l k e => e' ← lane_op op rd ra rb imm e l; k e') mret [0; 1; 2; 3] e) (fun e' =>
    exec_ok e' /\ e' = {| e with r := r e'; acc := acc e' |} /\
    forall k, 0 <= k < 4 -> lane_of e' k = lane_spec op rd ra rb imm k (lane_of e k)).
Proof.
  intros He Hd Ha Hb Hi. cbn [foldr].
  wps. eapply wpr_mono; [by apply lane_op_wp|]. intros e0 (H0 & E0 & L0).
  wps. eapply wpr_mono; [by apply lane_op_wp|]. intros e1 (H1 & E1 & L1).
  wps. eapply wpr_mono; [by apply lane_op_wp|]. intros e2 (H2 & E2 & L2).
  wps. eapply wpr_mono; [by apply lane_op_wp|]. intros e3 (H3 & E3 & L3).
  wps. split; [done|]. split; [rewrite E3, E2, E1, E0; done|].
  intros k Hk. rewrite L3, L2, L1, L0 by lia.
  assert (k = 0 \/ k = 1 \/ k = 2 \/ k = 3) as [->|[->|[->| ->]]] by lia; cbn [Z.eqb Pos.eqb];
    rewrite ?L2, ?L1, ?L0 by lia; reflexivity.
Qed.

(** ** Safety of every access and tick *)

Lemma op_fields w : is_u32 w ->
  0 <= (w .>> 22) .& 3 < 4 /\ 0 <= (w .>> 20) .& 3 < 4 /\ 0 <= (w .>> 18) .& 3 < 4 /\ is_u16 (u16 w).
Proof.
  intros. pose proof (land_range (w .>> 22) 3). pose proof (land_range (w .>> 20) 3).
  pose proof (land_range (w .>> 18) 3). splits; try lia; apply u16_range.
Qed.

Lemma finish_ok op e : exec_ok e -> exec_ok (finish op e).
Proof. intros []. unfold finish. exec_ok. Qed.

Lemma memory_step_wp `{F : Fuelled} hold op rd ra imm s :
  simd_ok s -> 0 <= rd < 4 -> 0 <= ra < 4 -> wpr (memory_step hold op rd ra imm s) simd_ok.
Proof.
  intros Hs Hd Ha. pose proof Hs as []. pose proof ok_execution0 as []. unfold memory_step.
  wps; [constructor; try done; exec_ok|].
  apply get_r_wp; [done..|]. intros Hv. wps.
  - apply get_r_wp; [done..|]. intros Hw. wps.
    pose proof (u8_range (at_ (at_ (r (execution s)) (lane (execution s))) ra + imm)) as Hu. unfold is_u8 in Hu.
    apply wpr_aset; [lia|]. wps.
    + constructor; cbn; try done; [by rewrite length_insert|by apply Forall_insert|].
      exec_ok. cbn in *. bools. unfold u8 in *. zlia.
    + constructor; cbn; try done; [by rewrite length_insert|by apply Forall_insert|].
      apply finish_ok. exec_ok. lia.
  - pose proof (u8_range (at_ (at_ (r (execution s)) (lane (execution s))) ra + imm)) as Hu. unfold is_u8 in Hu.
    apply wpr_aget; [lia|]. wps.
    apply set_r_wp; [done..|apply at_Forall; [done|lia]|]. cbv zeta. intros []. wps.
    + constructor; cbn; try done. exec_ok. cbn in *. bools. unfold u8 in *. zlia.
    + constructor; cbn; try done. apply finish_ok. exec_ok. lia.
Qed.

Lemma loop_op_ok op imm e : exec_ok e -> is_u16 imm -> exec_ok (loop_op op imm e).
Proof. intros [] Hi. unfold loop_op. repeat case (_ =? _); exec_ok. by destruct (tst _); [apply u8_range|]. Qed.

Lemma execute_step_wp `{F : Fuelled} op rd ra rb imm s :
  simd_ok s -> 0 <= rd < 4 -> 0 <= ra < 4 -> 0 <= rb < 4 -> is_u16 imm ->
  wpr (execute_step op rd ra rb imm s) simd_ok.
Proof.
  intros [] Hd Ha Hb Hi. pose proof ok_execution0 as []. unfold execute_step.
  wps; [constructor; try done; exec_ok; lia|constructor; try done; exec_ok|].
  eapply wpr_mono; [apply simd_lanes_wp; try done|].
  - by apply loop_op_ok.
  - intros e (He & _ & _). wps. constructor; try done. by apply finish_ok.
Qed.

Lemma simd_tick_wp `{F : Fuelled} hold s : simd_ok s -> wpr (simd_tick hold s) simd_ok.
Proof.
  intros Hs. pose proof Hs as []. pose proof ok_execution0 as []. unfold simd_tick.
  destruct (op_fields _ ok_instruction0) as (Hd & Ha & Hb & Hi).
  assert (H1 : simd_ok {| s with execution := {| (execution s) with cycles := u32 (cycles (execution s) + 1) |} |}).
  { constructor; try done. exec_ok. }
  wps; [constructor; try done; exec_ok|done|].
  destruct (state (execution s)) eqn:Est;
    try (rewrite bool_decide_false by done; by apply execute_step_wp).
  - wps. cbn. apply wpr_aget; [unfold is_u8 in *; lia|]. wps. constructor; try done. exec_ok.
    cbn. apply at_Forall; [done|unfold is_u8 in *; lia].
  - rewrite bool_decide_true by done. by apply memory_step_wp.
Qed.

Lemma simd_access_wp `{F : Fuelled} s address width write value :
  simd_ok s -> is_u32 address -> is_u32 value ->
  wpr (simd_access s address width write value) (fun o =>
    match o with Some (v, s') => simd_ok s' /\ is_u32 v | None => True end).
Proof.
  intros Hs Haddr Hv. pose proof Hs as []. pose proof ok_execution0 as []. unfold is_u32 in Haddr.
  assert (H16 : forall x, is_u16 x -> is_u32 x) by (unfold is_u16, is_u32; lia).
  assert (H8 : forall x, is_u8 x -> is_u32 x) by (unfold is_u8, is_u32; lia).
  unfold simd_access. wps; try exact I; bools.
  all: try (split; [done|auto]; fail).
  - apply wpr_aset; [zlia|]. wps. split; [|done]. constructor; cbn; try done; [by rewrite length_insert|].
    by apply Forall_insert.
  - apply wpr_aget; [zlia|]. wps. split; [done|]. apply at_Forall; [done|zlia].
  - apply wpr_aset; [zlia|]. wps. split; [|done]. constructor; cbn; try done; [by rewrite length_insert|].
    by apply Forall_insert; [|eauto with rv32].
  - apply wpr_aget; [zlia|]. wps. split; [done|]. apply H16, at_Forall; [done|zlia].
  - split; [|done]. by apply simd_reset_ok.
  - split; [|done]. constructor; try done. cbn. exec_ok; by repeat constructor.
  - split; [|done]. constructor; try done. exec_ok.
  - split; [done|]. repeat casif; compute; intuition congruence.
Qed.

(** ** The instruction-level machine *)

Record isa : Type := {
  i_lanes : list lane_state; i_loop : Z; i_pc : Z; i_data : list Z;
  i_cycles : Z; i_stalls : Z; i_transfers : Z; i_instructions : Z;
  i_stop : option bool; (** stopped, with its fault flag; or still running *)
}.

Definition isa_of (s : simd_device) : isa :=
  let e := execution s in
  {| i_lanes := map (lane_of e) [0; 1; 2; 3]; i_loop := loop e; i_pc := pc e; i_data := data s;
     i_cycles := cycles e; i_stalls := stalls e; i_transfers := transfers e; i_instructions := instructions e;
     i_stop := if idle s then Some (fault e) else None |}.

(** The data cell a lane's LOAD or STORE names. *)
Definition cell (ra imm : Z) (st : lane_state) : Z := u8 (at_ (fst st) ra + imm).

(** Two cycles an instruction and one more for each of the four transfers of a LOAD or STORE; an
    instruction that faults is not counted. *)
Definition isa_step (prog : list Z) (st : isa) : isa :=
  let word := at_ prog (i_pc st) in
  let op := word .>> 24 in
  let rd := (word .>> 22) .& 3 in
  let ra := (word .>> 20) .& 3 in
  let rb := (word .>> 18) .& 3 in
  let imm := u16 word in
  let memory := (op =? LOAD) || (op =? STORE) in
  let faults := negb memory && ((RDA <? op) || ((op =? SETLOOP) && (imm =? 0)) || ((op =? LOOP) && (i_loop st =? 0))) in
  let st := {| st with i_pc := u8 (i_pc st + 1);
                       i_cycles := u32 (i_cycles st + (if memory then 6 else 2));
                       i_transfers := if memory then u32 (i_transfers st + 4) else i_transfers st;
                       i_instructions := if faults then i_instructions st else u32 (i_instructions st + 1) |} in
  if op =? LOAD then
    {| st with i_lanes :=
         map (fun ln => (<[Z.to_nat rd := at_ (i_data st) (cell ra imm ln)]> (fst ln), snd ln)) (i_lanes st) |}
  else if op =? STORE then
    {| st with i_data :=
         foldl (fun d ln => <[Z.to_nat (cell ra imm ln) := at_ (fst ln) rd]> d) (i_data st) (i_lanes st) |}
  else if faults then {| st with i_stop := Some true |}
  else
    let lanes := zip_with (fun l ln => lane_spec op rd ra rb imm l ln) [0; 1; 2; 3] (i_lanes st) in
    if op =? SETLOOP then {| st with i_lanes := lanes; i_loop := imm |}
    else if op =? LOOP then
      let n := i_loop st - 1 in
      {| st with i_lanes := lanes; i_loop := n; i_pc := if n =? 0 then i_pc st else u8 imm |}
    else {| st with i_lanes := lanes; i_stop := if op =? HLT then Some false else None |}.

(** Ticks under a schedule of holds of the memory port. *)
Fixpoint ticks (holds : list bool) (s : simd_device) : res simd_device :=
  match holds with
  | [] => mret s
  | h :: hs => s' ← simd_tick h s; ticks hs s'
  end.

(** The engine sits between two instructions, ready to fetch the next. *)
Definition ready (s : simd_device) : Prop :=
  simd_ok s /\ command_tick (execution s) = false /\ state (execution s) = SIMD_FETCH /\
  fault (execution s) = false.

(** *** A memory instruction: four transfers *)

Lemma get_r_ok e l i : exec_ok e -> 0 <= l < 4 -> 0 <= i < 4 -> get_r e l i = Ok (at_ (at_ (r e) l) i).
Proof.
  intros He Hl Hi.
  by destruct (wpr_total (get_r e l i) (fun v => v = at_ (at_ (r e) l) i)) as (v & -> & ->); [apply get_r_wp|].
Qed.

Lemma set_r_ok e l i v :
  exec_ok e -> 0 <= l < 4 -> 0 <= i < 4 -> is_u16 v ->
  set_r e l i v = Ok {| e with r := <[Z.to_nat l := <[Z.to_nat i := v]> (at_ (r e) l)]> (r e) |}.
Proof.
  intros He Hl Hi Hv.
  by destruct (wpr_total (set_r e l i v) (fun e' => e' =
    {| e with r := <[Z.to_nat l := <[Z.to_nat i := v]> (at_ (r e) l)]> (r e) |})) as (e' & -> & ->);
    [apply set_r_wp|].
Qed.

(** The device after one lane's transfer of a LOAD or STORE. *)
Definition transfer (op rd ra imm : Z) (s : simd_device) : simd_device :=
  let e := execution s in
  let ln := lane_of e (lane e) in
  let c := cell ra imm ln in
  let rs := <[Z.to_nat (lane e) := <[Z.to_nat rd := at_ (data s) c]> (fst ln)]> (r e) in
  let last := lane e =? 3 in
  {| s with
     data := if op =? STORE then <[Z.to_nat c := at_ (fst ln) rd]> (data s) else data s;
     execution := {| e with
       r := if op =? STORE then r e else rs;
       cycles := u32 (cycles e + 1);
       transfers := u32 (transfers e + 1);
       lane := if last then 0 else lane e + 1;
       state := if last then SIMD_FETCH else SIMD_MEMORY;
       instructions := if last then u32 (instructions e + 1) else instructions e |} |}.

Lemma transfer_tick s :
  let e := execution s in
  let w := instruction e in
  simd_ok s -> command_tick e = false -> state e = SIMD_MEMORY ->
  (w .>> 24 = LOAD \/ w .>> 24 = STORE) ->
  simd_tick false s = Ok (transfer (w .>> 24) ((w .>> 22) .& 3) ((w .>> 20) .& 3) (u16 w) s).
Proof.
  intros e w Hs Hc Hst Hop. pose proof Hs as []. pose proof ok_execution0 as [].
  destruct (op_fields _ ok_instruction0) as (Hd & Ha & Hb & Hi).
  unfold simd_tick. fold e. unfold idle. fold e. rewrite Hc, Hst, bool_decide_false, bool_decide_true by done.
  unfold memory_step, transfer. cbn [execution]. fold e.
  set (e1 := {| e with cycles := u32 (cycles e + 1); state := SIMD_MEMORY; command_tick := false |}).
  assert (He1 : exec_ok e1) by exec_ok. fold e in ok_lane0.
  change (instruction e1) with w. change (lane e1) with (lane e).
  change (r e1) with (r e). unfold cell, lane_of. cbn [fst snd].
  pose proof (u8_range (at_ (at_ (r e) (lane e)) ((w .>> 20) .& 3) + u16 w)) as Hu. unfold is_u8 in Hu.
  rewrite !get_r_ok by done. cbn [mbind res_bind]. change (r e1) with (r e).
  assert (El : u8 (lane e + 1) = lane e + 1) by (apply u8_id; unfold is_u8; lia).
  assert (E3 : (lane e =? 3) = negb (lane e + 1 <? 4)).
  { destruct (Z.eqb_spec (lane e) 3), (Z.ltb_spec (lane e + 1) 4); done || lia. }
  destruct Hop as [Hop|Hop]; rewrite Hop; cbn [Z.eqb Pos.eqb LOAD STORE HLT].
  - cbn [data]. rewrite aget_ok by lia. cbn [mbind res_bind].
    rewrite set_r_ok by (done || (apply at_Forall; [done|lia])). cbn. unfold finish.
    rewrite E3. rewrite El. by destruct (lane e + 1 <? 4); cbn; rewrite ?Hc.
  - cbn [data]. rewrite aset_ok by lia. cbn. unfold finish.
    rewrite E3. rewrite El. by destruct (lane e + 1 <? 4); cbn; rewrite ?Hc.
Qed.

Lemma tick_ok s : simd_ok s -> forall s', simd_tick false s = Ok s' -> simd_ok s'.
Proof.
  intros Hs s' E. pose proof (simd_tick_wp (F := total) false s Hs) as H. by rewrite E in H.
Qed.

Lemma lane_of_transfer op rd ra imm s k :
  simd_ok s -> 0 <= k < 4 -> 0 <= rd < 4 ->
  lane_of (execution (transfer op rd ra imm s)) k =
  if (lane (execution s) =? k) && negb (op =? STORE)
  then let ln := lane_of (execution s) k in
       (<[Z.to_nat rd := at_ (data s) (cell ra imm ln)]> (fst ln), snd ln)
  else lane_of (execution s) k.
Proof.
  intros [_ _ _ _ []] Hk Hd. unfold transfer. cbn. destruct (op =? STORE) eqn:E.
  - by rewrite andb_false_r.
  - unfold lane_of at 1. cbn. rewrite at_insert by lia.
    by destruct (Z.eqb_spec (lane (execution s)) k) as [->|].
Qed.

(** The counters went on by so many cycles, transfers and instructions, with no stall. *)
Definition counted (c t n : Z) (e e' : simd_execution) : Prop :=
  cycles e' = u32 (cycles e + c) /\ transfers e' = u32 (transfers e + t) /\ instructions e' = u32 (instructions e + n) /\ stalls e' = stalls e.

Lemma u32_more a b c : u32 (u32 (a + b) + c) = u32 (a + (b + c)).
Proof. unfold u32. rewrite Z.add_mod_idemp_l by lia. f_equal. lia. Qed.

(** What four transfers of lanes 0 to 3 add up to. *)
Lemma four_transfers op rd ra imm s0 :
  let T := transfer op rd ra imm in
  let s1 := T s0 in let s2 := T s1 in let s3 := T s2 in
  let e := execution s0 in
  0 <= rd < 4 -> simd_ok s0 -> simd_ok s1 -> simd_ok s2 -> simd_ok s3 -> lane e = 0 ->
  (forall k, 0 <= k < 4 -> lane_of (execution (T s3)) k =
     if op =? STORE then lane_of e k
     else (<[Z.to_nat rd := at_ (data s0) (cell ra imm (lane_of e k))]> (fst (lane_of e k)), snd (lane_of e k))) /\
  data (T s3) = (if op =? STORE
                 then foldl (fun d ln => <[Z.to_nat (cell ra imm ln) := at_ (fst ln) rd]> d) (data s0)
                        (map (lane_of e) [0; 1; 2; 3])
                 else data s0) /\
  counted 4 4 1 e (execution (T s3)).
Proof.
  intros T s1 s2 s3 e Hrd H0 H1 H2 H3 L0.
  assert (L1 : lane (execution s1) = 1) by (cbn; fold e; by rewrite L0).
  assert (L2 : lane (execution s2) = 2) by (cbn -[s1]; by rewrite L1).
  assert (L3 : lane (execution s3) = 3) by (cbn -[s2]; by rewrite L2).
  pose proof (fun k => lane_of_transfer op rd ra imm s0 k H0) as E0.
  pose proof (fun k => lane_of_transfer op rd ra imm s1 k H1) as E1.
  pose proof (fun k => lane_of_transfer op rd ra imm s2 k H2) as E2.
  pose proof (fun k => lane_of_transfer op rd ra imm s3 k H3) as E3.
  fold T s1 in E0. fold T s2 in E1. fold T s3 in E2. fold T in E3. fold e in E0.
  split; [|split].
  - intros k Hk. rewrite E3, E2, E1, E0, L3, L2, L1, L0 by done.
    unfold s3, s2, s1, T, transfer; cbn [data].
    destruct (op =? STORE) eqn:Eop; cbn [negb]; rewrite ?andb_false_r, ?andb_true_r; [done|].
    assert (k = 0 \/ k = 1 \/ k = 2 \/ k = 3) as [->|[->|[->| ->]]] by lia; reflexivity.
  - assert (HD : forall n, data (T n) = if op =? STORE then
        <[Z.to_nat (cell ra imm (lane_of (execution n) (lane (execution n)))) :=
          at_ (fst (lane_of (execution n) (lane (execution n)))) rd]> (data n) else data n) by done.
    rewrite (HD s3). change (data s3) with (data (T s2)). rewrite (HD s2).
    change (data s2) with (data (T s1)). rewrite (HD s1). change (data s1) with (data (T s0)). rewrite (HD s0).
    destruct (op =? STORE) eqn:Eop; [|done]. cbn [negb] in *. cbn [foldl map].
    rewrite L3, L2, L1. fold e. rewrite L0.
    assert (A0 : forall k, 0 <= k < 4 -> lane_of (execution s1) k = lane_of e k)
      by (intros; rewrite E0 by lia; by rewrite andb_false_r).
    assert (A1 : forall k, 0 <= k < 4 -> lane_of (execution s2) k = lane_of e k)
      by (intros; rewrite E1 by lia; rewrite andb_false_r; auto).
    assert (A2 : forall k, 0 <= k < 4 -> lane_of (execution s3) k = lane_of e k)
      by (intros; rewrite E2 by lia; rewrite andb_false_r; auto).
    by rewrite A0, A1, A2 by lia.
  - assert (HC : forall n, cycles (execution (T n)) = u32 (cycles (execution n) + 1) /\ transfers (execution (T n)) = u32 (transfers (execution n) + 1)
        /\ instructions (execution (T n)) = (if lane (execution n) =? 3 then u32 (instructions (execution n) + 1) else instructions (execution n))
        /\ stalls (execution (T n)) = stalls (execution n)) by done.
    destruct (HC s0) as (C0 & X0 & I0 & P0), (HC s1) as (C1 & X1 & I1 & P1), (HC s2) as (C2 & X2 & I2 & P2), (HC s3) as (C3 & X3 & I3 & P3).
    fold s1 in C0, X0, I0, P0. fold s2 in C1, X1, I1, P1. fold s3 in C2, X2, I2, P2. fold e in C0, X0, I0, P0. rewrite L0 in I0. rewrite L1 in I1. rewrite L2 in I2. rewrite L3 in I3.
    unfold counted. rewrite C3, C2, C1, C0, X3, X2, X1, X0, I3, I2, I1, I0, P3, P2, P1, P0, !u32_more. done.
Qed.

(** Lane [l] is next of the memory instruction [w] that [s0] began. *)
Record moving (w l : Z) (s0 s : simd_device) : Prop := {
  mv_ok : simd_ok s;
  mv_command : command_tick (execution s) = false;
  mv_state : state (execution s) = if l =? 4 then SIMD_FETCH else SIMD_MEMORY;
  mv_word : instruction (execution s) = w;
  mv_lane : l <> 4 -> lane (execution s) = l;
  mv_program : program s = program s0;
  mv_loop : loop (execution s) = loop (execution s0);
  mv_pc : pc (execution s) = pc (execution s0);
  mv_fault : fault (execution s) = fault (execution s0);
}.

Lemma moving_step w l s0 s :
  let T := transfer (w .>> 24) ((w .>> 22) .& 3) ((w .>> 20) .& 3) (u16 w) in
  moving w l s0 s -> 0 <= l < 4 -> w .>> 24 = LOAD \/ w .>> 24 = STORE ->
  simd_tick false s = Ok (T s) /\ moving w (l + 1) s0 (T s).
Proof.
  intros T [] Hl Hop. rewrite (proj2 (Z.eqb_neq l 4)) in mv_state0 by lia.
  assert (E : simd_tick false s = Ok (T s)).
  { pose proof (transfer_tick s) as X. cbv zeta in X. rewrite mv_word0 in X. by apply X. }
  split; [exact E|]. specialize (mv_lane0 ltac:(lia)). subst T. split; try done.
  - by eapply tick_ok.
  - cbn. rewrite mv_lane0. destruct (Z.eqb_spec l 3), (Z.eqb_spec (l + 1) 4); done || lia.
  - intros Hne. cbn. rewrite mv_lane0. by rewrite (proj2 (Z.eqb_neq l 3)) by lia.
Qed.

(** The four transfers of a LOAD or STORE, as one effect on the device. *)
Lemma transfers_run s w op rd ra imm :
  simd_ok s -> command_tick (execution s) = false -> state (execution s) = SIMD_MEMORY ->
  lane (execution s) = 0 -> fault (execution s) = false -> instruction (execution s) = w ->
  op = w .>> 24 -> rd = (w .>> 22) .& 3 -> ra = (w .>> 20) .& 3 -> imm = u16 w ->
  op = LOAD \/ op = STORE ->
  exists s', ticks [false; false; false; false] s = Ok s' /\ ready s' /\ program s' = program s /\
    loop (execution s') = loop (execution s) /\ pc (execution s') = pc (execution s) /\
    (forall k, 0 <= k < 4 -> lane_of (execution s') k =
       if op =? STORE then lane_of (execution s) k
       else let ln := lane_of (execution s) k in
            (<[Z.to_nat rd := at_ (data s) (cell ra imm ln)]> (fst ln), snd ln)) /\
    data s' = (if op =? STORE
               then foldl (fun d ln => <[Z.to_nat (cell ra imm ln) := at_ (fst ln) rd]> d) (data s)
                      (map (lane_of (execution s)) [0; 1; 2; 3])
               else data s) /\
    counted 4 4 1 (execution s) (execution s').
Proof.
  intros Hs Hc Hst Hl Hf Hw Eop Erd Era Eimm Hop.
  assert (Hrd : 0 <= rd < 4) by (rewrite Erd; pose proof (land_range (w .>> 22) 3); lia).
  assert (M0 : moving w 0 s s) by (by constructor).
  pose proof (moving_step w) as Step. cbv zeta in Step. rewrite <- Eop, <- Erd, <- Era, <- Eimm in Step.
  destruct (Step 0 s _ M0 ltac:(lia) Hop) as [T1 M1].
  destruct (Step 1 s _ M1 ltac:(lia) Hop) as [T2 M2].
  destruct (Step 2 s _ M2 ltac:(lia) Hop) as [T3 M3].
  destruct (Step 3 s _ M3 ltac:(lia) Hop) as [T4 M4].
  pose proof (four_transfers op rd ra imm s) as X. cbv zeta in X.
  specialize (X Hrd Hs (mv_ok _ _ _ _ M1) (mv_ok _ _ _ _ M2) (mv_ok _ _ _ _ M3) Hl) as (HL & HD & HC).
  revert M4 HL HD HC T1 T2 T3 T4. generalize (transfer op rd ra imm). intros T M4 HL HD HC T1 T2 T3 T4.
  exists (T (T (T (T s)))). cbn [ticks]. rewrite T1. cbn [mbind res_bind]. rewrite T2. cbn [mbind res_bind].
  rewrite T3. cbn [mbind res_bind]. rewrite T4.
  destruct M4. split; [done|]. split; [split; [done|split; [done|split; [done|by rewrite mv_fault0]]]|].
  by repeat (split; [done|]).
Qed.

(** *** Fetch and execute *)

Definition fetched (s : simd_device) : simd_device :=
  let e := execution s in
  {| s with execution := {| e with cycles := u32 (cycles e + 1); instruction := at_ (program s) (pc e);
                                   pc := u8 (pc e + 1); state := SIMD_EXECUTE |} |}.

Lemma fetch_tick s : ready s -> simd_tick false s = Ok (fetched s).
Proof.
  intros ([] & Hc & Hst & _). pose proof ok_execution0 as []. unfold simd_tick, idle.
  rewrite Hc, Hst, bool_decide_false by done. cbn. unfold is_u8 in *.
  rewrite aget_ok by lia. cbn. unfold fetched. by rewrite Hc.
Qed.

(** What the EXECUTE tick of an instruction that neither faults nor touches
    memory leaves. *)
Definition executed (op rd ra rb imm : Z) (s s' : simd_device) : Prop :=
  let e := execution s in
  let e' := execution s' in
  simd_ok s' /\ program s' = program s /\ data s' = data s /\ command_tick e' = command_tick e /\
  fault e' = fault e /\ cycles e' = u32 (cycles e + 1) /\
  transfers e' = transfers e /\ stalls e' = stalls e /\ instructions e' = u32 (instructions e + 1) /\
  state e' = (if op =? HLT then SIMD_IDLE else SIMD_FETCH) /\
  (op = HLT -> done e' = true) /\
  loop e' = (if op =? SETLOOP then imm else if op =? LOOP then loop e - 1 else loop e) /\
  pc e' = (if (op =? LOOP) && negb (loop e - 1 =? 0) then u8 imm else pc e) /\
  forall k, 0 <= k < 4 -> lane_of e' k = lane_spec op rd ra rb imm k (lane_of e k).

Lemma execute_tick s :
  let e := execution s in
  let w := instruction e in
  let op := w .>> 24 in let imm := u16 w in
  simd_ok s -> command_tick e = false -> state e = SIMD_EXECUTE ->
  op <> LOAD -> op <> STORE ->
  (RDA <? op) || ((op =? SETLOOP) && (imm =? 0)) || ((op =? LOOP) && (loop e =? 0)) = false ->
  exists s', simd_tick false s = Ok s' /\
    executed op ((w .>> 22) .& 3) ((w .>> 20) .& 3) ((w .>> 18) .& 3) imm s s'.
Proof.
  intros e w op imm Hs Hc Hst Hnl Hns Hok. apply wpr_total.
  pose proof Hs as []. pose proof ok_execution0 as [].
  destruct (op_fields _ ok_instruction0) as (Hd & Ha & Hb & Hi).
  unfold simd_tick, idle. fold e. rewrite Hc, Hst, bool_decide_false, bool_decide_false by done.
  unfold execute_step. cbn [execution instruction loop]. fold w op imm.
  rewrite (proj2 (Z.eqb_neq op LOAD) Hnl), (proj2 (Z.eqb_neq op STORE) Hns), Z.gtb_ltb, Hok. cbn [orb].
  assert (Hl : op = LOOP -> u16 (loop e - 1) = loop e - 1).
  { intros Ho. rewrite Ho in Hok. cbn in Hok. fold e in ok_loop0. apply u16_id. unfold is_u16 in *. bools. lia. }
  set (e1 := {| e with instruction := w; cycles := u32 (cycles e + 1); state := SIMD_EXECUTE; command_tick := false |}).
  assert (He1 : exec_ok e1) by exec_ok.
  wps. eapply wpr_mono; [apply simd_lanes_wp; try done; by apply loop_op_ok|].
  intros e3 (He3 & E3 & HL). wps.
  assert (loop e3 = if op =? SETLOOP then imm else if op =? LOOP then loop e - 1 else loop e) as Eloop.
  { rewrite E3. unfold loop_op. destruct (op =? SETLOOP); [done|].
    destruct (Z.eqb_spec op LOOP); [cbn; by rewrite Hl|done]. }
  assert (pc e3 = if (op =? LOOP) && negb (loop e - 1 =? 0) then u8 imm else pc e) as Epc.
  { rewrite E3. unfold loop_op. destruct (Z.eqb_spec op LOOP) as [Eo|]; [|by destruct (op =? SETLOOP)].
    rewrite Eo. cbn. rewrite Hl by done. unfold tst. by destruct (loop e - 1 =? 0). }
  assert (cycles e3 = u32 (cycles e + 1) /\ transfers e3 = transfers e /\ stalls e3 = stalls e /\ instructions e3 = instructions e /\ fault e3 = fault e /\ command_tick e3 = false) as (Ec & Et & Esl & En & Ef & Ek).
  { rewrite E3. unfold loop_op. by destruct (op =? SETLOOP), (op =? LOOP). }
  unfold executed. cbn [execution program data]. fold e.
  repeat (split; [first [done | constructor; [done..|by apply finish_ok] | cbn; by rewrite En | exact (eq_trans Ek (eq_sym Hc)) | intros Eo; cbn; by rewrite Eo]|]).
  intros k Hk. change (lane_of (finish op e3) k) with (lane_of e3 k). rewrite HL by done. f_equal.
  unfold loop_op. by destruct (op =? SETLOOP), (op =? LOOP).
Qed.

(** *** One instruction *)

Lemma ticks_app h1 h2 s : ticks (h1 ++ h2) s = (s' ← ticks h1 s; ticks h2 s').
Proof.
  revert s. induction h1 as [|h h1 IH]; intros s; [done|]. cbn [ticks app].
  destruct (simd_tick h s); cbn; [apply IH|done|done].
Qed.

Lemma lanes_ext e e' : (forall k, 0 <= k < 4 -> lane_of e' k = lane_of e k) ->
  map (lane_of e') [0; 1; 2; 3] = map (lane_of e) [0; 1; 2; 3].
Proof. intros H. cbn. by rewrite !H by lia. Qed.

(** [n] ticks without a hold took [s] to [s'], which is one instruction of the
    instruction-level machine further. *)
Definition instruction_done (n : nat) (s s' : simd_device) : Prop :=
  ticks (replicate n false) s = Ok s' /\ simd_ok s' /\ command_tick (execution s') = false /\
  program s' = program s /\ isa_of s' = isa_step (program s) (isa_of s) /\
  (i_stop (isa_of s') = None -> ready s') /\
  (i_stop (isa_of s') <> None -> done (execution s') = true).

Lemma memory_instruction s :
  ready s -> (at_ (program s) (pc (execution s)) .>> 24 = LOAD \/ at_ (program s) (pc (execution s)) .>> 24 = STORE) ->
  exists s', instruction_done 6 s s'.
Proof.
  intros Hr Hop. pose proof (fetch_tick s Hr) as T1. destruct Hr as (Hs & Hc & Hst & Hf0).
  assert (H1 : simd_ok (fetched s)) by (by eapply tick_ok).
  set (w := at_ (program s) (pc (execution s))) in *.
  set (s2 := {| (fetched s) with execution := {| (execution (fetched s)) with
    lane := 0; state := SIMD_MEMORY; cycles := u32 (cycles (execution (fetched s)) + 1) |} |}).
  assert (T2 : simd_tick false (fetched s) = Ok s2).
  { unfold simd_tick, idle. cbn -[s2]. rewrite Hc. fold w. unfold execute_step.
    destruct Hop as [-> | ->]; cbn -[s2]; unfold s2; cbn; by rewrite Hc. }
  assert (H2 : simd_ok s2) by (by eapply tick_ok).
  destruct (transfers_run s2 w _ _ _ _ H2 Hc eq_refl eq_refl Hf0 eq_refl eq_refl eq_refl eq_refl eq_refl Hop)
    as (s' & E & Hr' & Ep & El & Epc & HL & HD & Cc & Ct & Cn & Cs).
  exists s'. destruct Hr' as (Hs' & Hc' & Hst' & Hf').
  assert (Hidle : idle s' = false) by (unfold idle; by rewrite Hst').
  assert (Hidle0 : idle s = false) by (unfold idle; by rewrite Hst).
  assert (Hready : ready s') by (split; [|split; [|split]]; done).
  assert (Hrun : i_stop (isa_of s') = None) by (unfold isa_of; cbn; by rewrite Hidle).
  split; [|split; [done|split; [done|split; [done|split; [|by split]]]]].
  { change (replicate 6 false) with ([false; false] ++ [false; false; false; false]).
    rewrite ticks_app. cbn [ticks]. rewrite T1. cbn [mbind res_bind]. rewrite T2. cbn [mbind res_bind]. exact E. }
  unfold isa_of, isa_step. cbn [i_pc i_data i_lanes]. fold w. rewrite Hidle, Hidle0, El, Epc, HD, Cc, Ct, Cn, Cs.
  cbn [i_cycles i_stalls i_transfers i_instructions]. cbn [s2 fetched execution cycles transfers instructions stalls]. rewrite !u32_more.
  cbn [map] in HD |- *. rewrite !HL by lia.
  change (instruction (execution s2)) with w.
  destruct Hop as [-> | ->]; reflexivity.
Qed.

Lemma register_instruction s :
  ready s -> at_ (program s) (pc (execution s)) .>> 24 <> LOAD -> at_ (program s) (pc (execution s)) .>> 24 <> STORE ->
  exists s', instruction_done 2 s s'.
Proof.
  intros Hr Hnl Hns. pose proof (fetch_tick s Hr) as T1. destruct Hr as (Hs & Hc & Hst & Hf0).
  assert (H1 : simd_ok (fetched s)) by (by eapply tick_ok).
  set (w := at_ (program s) (pc (execution s))) in *.
  assert (Hidle0 : idle s = false) by (unfold idle; by rewrite Hst).
  destruct (( RDA <? w .>> 24) || ((w .>> 24 =? SETLOOP) && (u16 w =? 0))
            || ((w .>> 24 =? LOOP) && (loop (execution s) =? 0))) eqn:Hf.
  - set (s2 := {| (fetched s) with execution := {| (execution (fetched s)) with
      state := SIMD_IDLE; done := true; fault := true; cycles := u32 (cycles (execution (fetched s)) + 1) |} |}).
    assert (T2 : simd_tick false (fetched s) = Ok s2).
    { unfold simd_tick, idle. cbn -[s2]. rewrite Hc. fold w. unfold execute_step.
      rewrite (proj2 (Z.eqb_neq _ LOAD) Hnl), (proj2 (Z.eqb_neq _ STORE) Hns), Z.gtb_ltb.
      cbn [orb execution loop]. rewrite Hf. unfold s2. cbn. by rewrite Hc. }
    exists s2. split; [cbn; by rewrite T1; cbn -[s2]; rewrite T2|].
    split; [by eapply tick_ok|]. split; [done|]. split; [done|]. split; [|by split].
    unfold isa_step. cbn -[s2 LOAD STORE lane_of]. fold w.
    rewrite (proj2 (Z.eqb_neq _ LOAD) Hnl), (proj2 (Z.eqb_neq _ STORE) Hns), Hf. unfold isa_of. cbn -[u32 lane_of]. by rewrite u32_more.
  - destruct (execute_tick (fetched s) H1 Hc eq_refl Hnl Hns Hf) as (s2 & T2 & X).
    destruct X as (H2 & Ep & Ed & Ek & Ef & Ec & Et & Esl & En & Est & Ehlt & El & Epc & HL).
    exists s2. split; [cbn; by rewrite T1; cbn; rewrite T2|].
    split; [done|]. split; [by rewrite Ek|]. split; [done|]. split; [|split].
    + unfold isa_of, isa_step. cbn [i_pc i_data i_lanes i_loop]. fold w.
      rewrite (proj2 (Z.eqb_neq _ LOAD) Hnl), (proj2 (Z.eqb_neq _ STORE) Hns), Hf, Hidle0.
      unfold idle. rewrite Ed, El, Epc, Est, Ef, Ec, Et, Esl, En. cbn [orb negb andb]. cbn [i_cycles i_stalls i_transfers i_instructions]. change (cycles (execution (fetched s))) with (u32 (cycles (execution s) + 1)). rewrite u32_more. change (instruction (execution (fetched s))) with w in *.
      cbn [map]. rewrite !HL by lia. cbn [zip_with]. change (fault (execution (fetched s))) with (fault (execution s)).
      rewrite Hf0. cbn [fetched execution pc loop].
      destruct (Z.eqb_spec (w .>> 24) SETLOOP) as [-> |]; [done|].
      destruct (Z.eqb_spec (w .>> 24) LOOP) as [-> |]; [cbn; by destruct (loop (execution s) - 1 =? 0)|].
      by destruct (w .>> 24 =? HLT).
    + intros Hn. split; [done|]. split; [by rewrite Ek|]. split; [|by rewrite Ef]. revert Hn. unfold isa_of, idle. cbn. rewrite Est.
      by destruct (_ =? HLT).
    + unfold isa_of, idle. cbn. rewrite Est. change (instruction (execution (fetched s))) with w in *.
      destruct (Z.eqb_spec (w .>> 24) HLT); [auto|intros Hx; by destruct Hx].
Qed.

Lemma instruction_runs s : ready s -> exists n s', (0 < n <= 6)%nat /\ instruction_done n s s'.
Proof.
  intros Hr.
  destruct (Z.eq_dec (at_ (program s) (pc (execution s)) .>> 24) LOAD);
    [|destruct (Z.eq_dec (at_ (program s) (pc (execution s)) .>> 24) STORE)].
  1,2: destruct (memory_instruction s Hr) as (s' & H); [auto|exists 6%nat, s'; split; [lia|done]].
  destruct (register_instruction s Hr) as (s' & H); [done|done|exists 2%nat, s'; split; [lia|done]].
Qed.

(** *** Whole programs *)

(** At most [k] instructions, stopping where the machine stops. *)
Fixpoint isa_run (k : nat) (prog : list Z) (st : isa) : isa :=
  match k, i_stop st with
  | S k', None => isa_run k' prog (isa_step prog st)
  | _, _ => st
  end.

(** What START begins with. *)
Definition isa_start (s : simd_device) : isa :=
  {| i_lanes := replicate 4 (replicate 4 0, 0); i_loop := 0; i_pc := entry (execution s); i_data := data s;
     i_cycles := 0; i_stalls := 0; i_transfers := 0; i_instructions := 0; i_stop := None |}.

Lemma program_runs k s :
  ready s ->
  exists n s', (n <= 6 * k)%nat /\ ticks (replicate n false) s = Ok s' /\ simd_ok s' /\
    program s' = program s /\ isa_of s' = isa_run k (program s) (isa_of s) /\
    (i_stop (isa_of s') <> None -> done (execution s') = true).
Proof.
  revert s. induction k as [|k IH]; intros s Hr; assert (E0 : i_stop (isa_of s) = None) by (destruct Hr as (_ & _ & Hst & _); unfold isa_of, idle; cbn; by rewrite Hst).
  - exists 0%nat, s. destruct Hr as (Hs & _). split; [lia|]. repeat (split; [done|]). by rewrite E0.
  - cbn [isa_run] in *. rewrite E0 in *.
    destruct (instruction_runs s Hr) as (n & s1 & Hn & T1 & H1 & _ & Ep & Ei & Hgo & Hdone).
    rewrite <- Ei in *. rewrite <- Ep in *. destruct (i_stop (isa_of s1)) eqn:E1.
    + exists n, s1. assert (isa_run k (program s1) (isa_of s1) = isa_of s1) as -> by (destruct k; [done|cbn [isa_run]; by rewrite E1]).
      split; [lia|]. repeat (split; [done|]). by rewrite E1.
    + destruct (IH s1 (Hgo eq_refl)) as (n' & s' & Hn' & T' & H' & Ep' & Ei' & Hd').
      exists (n + n')%nat, s'. rewrite replicate_add, ticks_app, T1. cbn [mbind res_bind].
      split; [lia|]. by repeat (split; [done|]).
Qed.

(** ** Holds of the memory port *)

(** The execution state with other cycle and stall counts. *)
Definition reclock (c t : Z) (e : simd_execution) : simd_execution := {| e with cycles := c; stalls := t |}.
Definition same_work (s1 s2 : simd_device) : Prop :=
  program s1 = program s2 /\ data s1 = data s2 /\
  exists c t, execution s1 = reclock c t (execution s2).

Lemma reclock_reclock c t c' t' e : reclock c t (reclock c' t' e) = reclock c t e.
Proof. done. Qed.
Lemma reclock_id e : reclock (cycles e) (stalls e) e = e.
Proof. by destruct e. Qed.

#[export] Instance same_work_equivalence : Equivalence same_work.
Proof.
  split.
  - intros s. split; [done|]. split; [done|]. exists (cycles (execution s)), (stalls (execution s)).
    by rewrite reclock_id.
  - intros s1 s2 (Hp & Hd & c & t & He). split; [done|]. split; [done|].
    exists (cycles (execution s2)), (stalls (execution s2)).
    by rewrite He, reclock_reclock, reclock_id.
  - intros s1 s2 s3 (Hp & Hd & c & t & He) (Hp' & Hd' & c' & t' & He').
    split; [congruence|]. split; [congruence|]. exists c, t. by rewrite He, He', reclock_reclock.
Qed.

Lemma lane_op_reclock c t op rd ra rb imm e l :
  lane_op op rd ra rb imm (reclock c t e) l = (e' ← lane_op op rd ra rb imm e l; mret (reclock c t e')).
Proof.
  assert (G : forall i, get_r (reclock c t e) l i = get_r e l i) by done.
  assert (S : forall i v, set_r (reclock c t e) l i v = (e' ← set_r e l i v; mret (reclock c t e'))).
  { intros i v. unfold set_r. change (r (reclock c t e)) with (r e). destruct (aget (r e) l) as [row| |]; [|done|done].
    cbn. destruct (aset row i v) as [row'| |]; [|done|done]. cbn. by destruct (aset (r e) l row'). }
  assert (A : forall v, set_acc (reclock c t e) l v = (e' ← set_acc e l v; mret (reclock c t e'))).
  { intros v. unfold set_acc. change (acc (reclock c t e)) with (acc e). by destruct (aset (acc e) l v). }
  unfold lane_op. change (acc (reclock c t e)) with (acc e).
  repeat case (op =? _); rewrite ?S, ?A, ?G; try done;
    repeat match goal with |- context [?x ≫= _] => lazymatch x with
      | get_r _ _ _ => destruct x; cbn [mbind res_bind]; try done
      | aget _ _ => destruct x; cbn [mbind res_bind]; try done end end; rewrite ?S, ?A; done.
Qed.

(** Two outcomes related pointwise. *)
Definition rel_res {A} (R : A -> A -> Prop) (r1 r2 : res A) : Prop :=
  match r1, r2 with Ok a, Ok b => R a b | Stuck, Stuck => True | NoFuel, NoFuel => True | _, _ => False end.

Ltac same_work := cbn [rel_res]; split; [reflexivity|split; [reflexivity|eexists _, _; reflexivity]].

Lemma lanes_reclock c t op rd ra rb imm ls e :
  foldr (fun l k e => e' ← lane_op op rd ra rb imm e l; k e') mret ls (reclock c t e) =
  (e' ← foldr (fun l k e => e' ← lane_op op rd ra rb imm e l; k e') mret ls e; mret (reclock c t e')).
Proof.
  revert e. induction ls as [|l ls IH]; intros e; [done|]. cbn [foldr]. rewrite lane_op_reclock.
  destruct (lane_op op rd ra rb imm e l); cbn; [apply IH|done|done].
Qed.

Lemma execute_step_reclock op rd ra rb imm p d c t e :
  rel_res same_work (execute_step op rd ra rb imm {| program := p; data := d; execution := reclock c t e |})
                    (execute_step op rd ra rb imm {| program := p; data := d; execution := e |}).
Proof.
  unfold execute_step. cbn [execution]. change (loop (reclock c t e)) with (loop e).
  case (_ || _); [same_work|]. case (_ || _); [same_work|].
  assert (loop_op op imm (reclock c t e) = reclock c t (loop_op op imm e)) as ->
    by (unfold loop_op; by repeat case (op =? _)).
  rewrite lanes_reclock. destruct (foldr _ _ _ _); cbn; [same_work|done|done].
Qed.

Lemma memory_step_reclock op rd ra imm p d c t e :
  rel_res same_work (memory_step false op rd ra imm {| program := p; data := d; execution := reclock c t e |})
                    (memory_step false op rd ra imm {| program := p; data := d; execution := e |}).
Proof.
  unfold memory_step. cbn [execution data]. change (lane (reclock c t e)) with (lane e).
  change (get_r (reclock c t e)) with (get_r e). destruct (get_r e (lane e) ra) as [a| |]; cbn [mbind res_bind]; [|done|done].
  destruct (op =? STORE).
  - destruct (get_r e (lane e) rd); cbn [mbind res_bind]; [|done|done].
    destruct (aset d _ _); cbn [mbind res_bind]; [|done|done]. cbn. case (_ <? 4); same_work.
  - destruct (aget d _) as [v| |]; cbn [mbind res_bind]; [|done|done].
    unfold set_r. change (r (reclock c t e)) with (r e).
    destruct (aget (r e) (lane e)) as [row| |]; cbn [mbind res_bind]; [|done|done].
    destruct (aset row rd v) as [row'| |]; cbn [mbind res_bind]; [|done|done].
    destruct (aset (r e) (lane e) row') as [rs| |]; cbn [mbind res_bind]; [|done|done]. cbn. case (_ <? 4); same_work.
Qed.

Lemma tick_same_work s1 s2 :
  same_work s1 s2 -> rel_res same_work (simd_tick false s1) (simd_tick false s2).
Proof.
  destruct s1 as [p d e1], s2 as [p2 d2 e]. intros (Hp & Hd & c & t & He). cbn in *. subst p2 d2 e1.
  unfold simd_tick, idle. cbn [execution program]. change (command_tick (reclock c t e)) with (command_tick e).
  destruct (command_tick e); [same_work|].
  change (state (reclock c t e)) with (state e). case_bool_decide; [same_work|].
  set (c1 := u32 (cycles e + 1)).
  change ({| (reclock c t e) with cycles := u32 (cycles (reclock c t e) + 1) |})
    with (reclock (u32 (c + 1)) t {| e with cycles := c1 |}).
  destruct (state e) eqn:Est; [by contradict H| | |].
  - cbn. destruct (aget p (pc e)); cbn; [same_work|done|done].
  - rewrite bool_decide_false by done.
    exact (execute_step_reclock _ _ _ _ _ p d (u32 (c + 1)) t
      {| e with cycles := c1; state := SIMD_EXECUTE; command_tick := false |}).
  - rewrite bool_decide_true by done.
    exact (memory_step_reclock _ _ _ _ p d (u32 (c + 1)) t
      {| e with cycles := c1; state := SIMD_MEMORY; command_tick := false |}).
Qed.

(** A held tick either ignores the hold or only counts a stall. *)
Lemma held_tick s : simd_ok s ->
  simd_tick true s = simd_tick false s \/ exists s', simd_tick true s = Ok s' /\ same_work s' s.
Proof.
  intros Hs. unfold simd_tick. destruct (command_tick _) eqn:Ec; [by left|]. destruct (idle s); [by left|].
  destruct (state (execution s)) eqn:E; try by left. right.
  rewrite bool_decide_true by done. unfold memory_step. eexists. split; [done|].
  split; [done|]. split; [done|]. eexists _, _. unfold reclock. cbn. rewrite E, Ec. reflexivity.
Qed.

Lemma holds_transparent hs s1 s2 :
  simd_ok s1 -> simd_ok s2 -> same_work s1 s2 ->
  exists k s1' s2', (k <= length hs)%nat /\ ticks hs s1 = Ok s1' /\ ticks (replicate k false) s2 = Ok s2' /\
    same_work s1' s2'.
Proof.
  revert s1 s2. induction hs as [|h hs IH]; intros s1 s2 H1 H2 Hw.
  - exists 0%nat, s1, s2. split; [cbn; lia|]. by split; [|split].
  - assert (C : (exists s, simd_tick h s1 = Ok s /\ same_work s s2 /\ simd_ok s) \/ simd_tick h s1 = simd_tick false s1).
    { destruct h; [|by right]. destruct (held_tick s1 H1) as [|(s & E & Hs)]; [by right|left].
      exists s. split; [done|]. split; [by transitivity s1|].
      pose proof (simd_tick_wp (F := total) true s1 H1) as Hok. by rewrite E in Hok. }
    destruct C as [(s & E & Hs & Hok)|E].
    + destruct (IH s s2 Hok H2 Hs) as (k & a & b & Hk & Ha & Hb & Hab).
      exists k, a, b. cbn [ticks length]. rewrite E. split; [lia|done].
    + pose proof (tick_same_work s1 s2 Hw) as R.
      destruct (wpr_total _ _ (simd_tick_wp false s1 H1)) as (a & Ea & Ha).
      destruct (wpr_total _ _ (simd_tick_wp false s2 H2)) as (b & Eb & Hb).
      rewrite Ea, Eb in R. destruct (IH a b Ha Hb R) as (k & a' & b' & Hk & Ha' & Hb' & Hab).
      exists (S k), a', b'. cbn [ticks length replicate]. rewrite E, Ea, Eb. split; [lia|done].
Qed.

(** ** The device's theorems *)

(** Every access the bus can make and every tick of a well-formed SIMD4
    device is defined (no array is indexed out of range) and leaves it
    well-formed: 256 program words, 256 16-bit data cells, four lanes of four
    16-bit registers, a lane index below four. *)
Theorem simd_device_safe s :
  simd_ok s ->
  (forall hold, exists s', simd_tick hold s = Ok s' /\ simd_ok s') /\
  (forall address width write value, is_u32 address -> is_u32 value ->
     exists o, simd_access s address width write value = Ok o /\
       match o with Some (v, s') => simd_ok s' /\ is_u32 v | None => True end).
Proof.
  intros Hs. split.
  - intros hold. by apply wpr_total, simd_tick_wp.
  - intros address width write value Ha Hv. by apply wpr_total, simd_access_wp.
Qed.

Lemma simd_device_safe_witness :
  simd_ok simd_initial /\
  (exists o, simd_access simd_initial (SIMD_BASE + SIMD_ENTRY) 4 true 7 = Ok o /\
     match o with Some (v, s') => simd_ok s' /\ is_u32 v | None => True end).
Proof.
  split; [apply simd_initial_ok|].
  apply (proj2 (simd_device_safe simd_initial simd_initial_ok)); unfold is_u32; vm_compute; intuition congruence.
Defined.

(** C9: START on an idle SIMD4 device runs the program at its entry as the
    instruction-level machine does, instruction by instruction: for every [k], some
    number of unheld ticks, at most [6 * k + 1], brings the device to where that machine
    is after [k] instructions or where it stopped, with its lanes, accumulators, loop
    counter, program counter, data memory, fault flag and its cycle, stall, transfer and
    instruction counters.  If it has stopped (HLT, or a fault) the device is idle with
    DONE set. *)
Theorem simd_program_completes s k :
  simd_ok s -> idle s = true ->
  exists s1 n s',
    simd_access s (SIMD_BASE + SIMD_COMMAND) 4 true SIMD_START = Ok (Some (SIMD_START, s1)) /\
    (n <= 6 * k + 1)%nat /\ ticks (replicate n false) s1 = Ok s' /\ simd_ok s' /\
    isa_of s' = isa_run k (program s) (isa_start s) /\
    forall b, i_stop (isa_run k (program s) (isa_start s)) = Some b ->
      idle s' = true /\ done (execution s') = true /\ fault (execution s') = b.
Proof.
  intros Hs Hi.
  set (e0 := {| reset_execution with entry := entry (execution s); pc := entry (execution s); state := SIMD_FETCH |}).
  set (s1 := {| s with execution := e0 |}).
  set (s2 := {| s with execution := {| e0 with command_tick := false |} |}).
  assert (A : simd_access s (SIMD_BASE + SIMD_COMMAND) 4 true SIMD_START = Ok (Some (SIMD_START, s1))).
  { unfold simd_access. rewrite Hi. reflexivity. }
  assert (T : simd_tick false s1 = Ok s2) by reflexivity.
  assert (H1 : simd_ok s1).
  { pose proof (simd_access_wp (F := total) s (SIMD_BASE + SIMD_COMMAND) 4 true SIMD_START Hs) as H.
    rewrite A in H. apply H; unfold is_u32; vm_compute; intuition congruence. }
  assert (R : ready s2) by (split; [by eapply tick_ok|done]).
  destruct (program_runs k s2 R) as (n & s' & Hn & E & Hs' & Ep & Ei & Hd).
  change (isa_of s2) with (isa_start s) in Ei. change (program s2) with (program s) in Ei.
  exists s1, (S n), s'. split; [done|]. split; [lia|].
  split; [cbn [replicate ticks]; rewrite T; exact E|]. split; [done|]. split; [done|].
  intros b Hstop. rewrite <- Ei in Hstop. specialize (Hd ltac:(by rewrite Hstop)). unfold isa_of in Hstop. cbn in Hstop.
  destruct (idle s'); [|done]. injection Hstop as Hstop. done.
Qed.

(** A four-word program that doubles the lane numbers into the first cells. *)
Definition doubling : list Z := [0x02000000; 0x03400000; 0x06400000; 0x00000000] ++ replicate 252 0.

Lemma doubling_ok : Forall is_u32 doubling.
Proof.
  apply Forall_app; split; [repeat constructor; unfold is_u32; lia|apply Forall_replicate; unfold is_u32; lia].
Qed.

Lemma simd_program_completes_witness :
  exists s1 n s',
    simd_access {| simd_initial with program := doubling |} (SIMD_BASE + SIMD_COMMAND) 4 true SIMD_START
      = Ok (Some (SIMD_START, s1)) /\
    (n <= 6 * 4 + 1)%nat /\ ticks (replicate n false) s1 = Ok s' /\
    idle s' = true /\ done (execution s') = true /\ fault (execution s') = false /\
    cycles (execution s') = 12 /\ transfers (execution s') = 4 /\ instructions (execution s') = 4.
Proof.
  destruct (simd_program_completes {| simd_initial with program := doubling |} 4) as (s1 & n & s' & A & Hn & T & _ & Ei & Hstop); [|reflexivity|].
  - destruct simd_initial_ok. constructor; try done. apply doubling_ok.
  - destruct (Hstop false) as (H1 & H2 & H3); [vm_compute; reflexivity|]. exists s1, n, s'. do 6 (split; [assumption|]).
    assert (E1 : i_cycles (isa_of s') = 12 /\ i_transfers (isa_of s') = 4 /\ i_instructions (isa_of s') = 4) by (rewrite Ei; vm_compute; auto). exact E1.
Defined.

Example doubling_data :
  take 7 (i_data (isa_run 4 doubling (isa_start simd_initial))) = [0; 2; 4; 6; 0; 0; 0].
Proof. reflexivity. Qed.

(** holding the data memory's port changes only time.  Whatever the
    schedule of holds, the device ends up where it would be after some number
    of unheld ticks, cycle and stall counters apart: no transfer is lost,
    repeated or reordered. *)
Theorem simd_holds_transparent hs s :
  simd_ok s ->
  exists k s1 s2, (k <= length hs)%nat /\ ticks hs s = Ok s1 /\ ticks (replicate k false) s = Ok s2 /\
    same_work s1 s2.
Proof. intros Hs. by apply holds_transparent. Qed.

Lemma simd_holds_transparent_witness :
  exists k s1 s2, (k <= 3)%nat /\ ticks [true; false; true] simd_initial = Ok s1 /\
    ticks (replicate k false) simd_initial = Ok s2 /\ same_work s1 s2.
Proof. apply (simd_holds_transparent [true; false; true] simd_initial simd_initial_ok). Defined.

End SimdProofs.
