(* ===== verification/Gpu.v ===== *)
(** * G1: the 2D engine (tools/rv32_gpu.c)

    Fill, blit, line and triangle, one device tick at a time.  The engine
    reads RAM or the framebuffer and writes the framebuffer; [gpu_tick]
    returns both the device and the framebuffer.  C's [int32_t] arithmetic is
    done in [Z]; the file GpuWidth writes it out at its width. *)

From S2P Require Import Prelude Effects Buffer.

Module Gpu.

Definition GPU_BASE : Z := 0x11007000.
Definition GPU_COMMAND : Z := 0x00.
Definition GPU_STATUS : Z := 0x04.
Definition GPU_ERROR : Z := 0x08.
Definition GPU_CYCLES : Z := 0x0c.
Definition GPU_STALLS : Z := 0x10.
Definition GPU_READS : Z := 0x14.
Definition GPU_WRITES : Z := 0x18.
Definition GPU_PARAMS : Z := 0x40.
Definition GPU_START : Z := 1.
Definition GPU_RESET : Z := 2.
Definition GPU_IDLE : Z := 0.
Definition GPU_INVALID : Z := 1.
Definition GPU_INTERNAL : Z := 2.
Definition GPU_BUSY : Z := 1.
Definition GPU_DONE : Z := 2.
Definition GPU_FAULT : Z := 4.
Definition GPU_FILL : Z := 1.
Definition GPU_BLIT : Z := 2.
Definition GPU_LINE : Z := 3.
Definition GPU_TRIANGLE : Z := 4.

Definition GP_OP : Z := 0.
Definition GP_COLOR : Z := 1.
Definition GP_X0 : Z := 2.
Definition GP_Y0 : Z := 3.
Definition GP_X1 : Z := 4.
Definition GP_Y1 : Z := 5.
Definition GP_X2 : Z := 6.
Definition GP_Y2 : Z := 7.
Definition GP_W : Z := 8.
Definition GP_H : Z := 9.
Definition GP_SRC : Z := 10.
Definition GP_STRIDE : Z := 11.
Definition GP_SW : Z := 12.
Definition GP_SH : Z := 13.
Definition GP_SX : Z := 14.
Definition GP_SY : Z := 15.
Definition GP_COUNT : Z := 16.

Inductive gpu_phase : Type := IDLE | SETUP | SCAN | READ | WRITE | ADVANCE.
#[export] Instance gpu_phase_eq_dec : EqDecision gpu_phase.
Proof. solve_decision. Defined.

Record gpu_device : Type := {
  p : list Z; status : Z; error : Z; cycles : Z; stalls : Z; reads : Z; writes : Z;
  x : Z; y : Z; lo : Z; top : Z; hi : Z; bottom : Z; step : Z;
  dx : Z; dy : Z; sy : Z; err : Z;
  ax : Z; ay : Z; bx : Z; by_ : Z; cx : Z; cy : Z;
  phase : gpu_phase; pixel : Z;
  fb_written : bool; fb_written_at : Z;
  command_tick : bool;
}.

Definition gpu_busy (g : gpu_device) : bool := status g =? GPU_BUSY.
Definition coord (a : Z) : bool := (-1024 <=? s32 a) && (s32 a <=? 1023).

(** [p[i]] for one of the constant indices above. *)
Definition par (g : gpu_device) (i : Z) : Z := at_ (p g) i.

Definition source_end (g : gpu_device) : Z :=
  u64 (par g GP_SRC + (if tst (par g GP_SH) then par g GP_SH - 1 else 0) * par g GP_STRIDE + par g GP_SW).

Definition gpu_device_reset : gpu_device := {|
  p := replicate 16 0; status := 0; error := 0; cycles := 0; stalls := 0; reads := 0; writes := 0;
  x := 0; y := 0; lo := 0; top := 0; hi := 0; bottom := 0; step := 0;
  dx := 0; dy := 0; sy := 0; err := 0; ax := 0; ay := 0; bx := 0; by_ := 0; cx := 0; cy := 0;
  phase := IDLE; pixel := 0; fb_written := false; fb_written_at := 0; command_tick := false |}.

(** [None] is the C function's [false]. *)
Definition gpu_access (g : gpu_device) (off width : Z) (write : bool) (v : Z)
    : res (option (Z * gpu_device)) :=
  if negb (width =? 4) || tst (off .& 3) then mret None
  else if (GPU_PARAMS <=? off) && (off <? 128) then
    if write then
      if gpu_busy g then mret None
      else p' ← aset (p g) ((off - GPU_PARAMS) / 4) v; mret (Some (v, {| g with p := p' |}))
    else w ← aget (p g) ((off - GPU_PARAMS) / 4); mret (Some (w, g))
  else if write then
    if negb (off =? GPU_COMMAND) then mret None
    else if v =? GPU_RESET then mret (Some (v, {| gpu_device_reset with command_tick := true |}))
    else if negb (v =? GPU_START) || gpu_busy g then mret None
    else mret (Some (v, {| g with status := GPU_BUSY; phase := SETUP; error := 0; cycles := 0;
                                  stalls := 0; reads := 0; writes := 0; command_tick := true |}))
  else if off =? GPU_STATUS then mret (Some (status g, g))
  else if off =? GPU_ERROR then mret (Some (error g, g))
  else if off =? GPU_CYCLES then mret (Some (cycles g, g))
  else if off =? GPU_STALLS then mret (Some (stalls g, g))
  else if off =? GPU_READS then mret (Some (reads g, g))
  else if off =? GPU_WRITES then mret (Some (writes g, g))
  else mret None.

Definition gpu_source_locked (g : gpu_device) (addr width : Z) : bool :=
  let end_ := source_end g in
  gpu_busy g && (par g GP_OP =? GPU_BLIT) && (0x80000000 <=? par g GP_SRC) &&
  tst (par g GP_SH) && (end_ <=? 0xffffffff) &&
  (par g GP_SRC <? addr + width) && (addr <? end_).

Definition edge (ax ay bx by_ x y : Z) : Z :=
  (bx - ax) * (2 * y + 1 - 2 * ay) - (by_ - ay) * (2 * x + 1 - 2 * ax).
Definition inside (ax ay bx by_ x y : Z) : bool :=
  let e := edge ax ay bx by_ x y in
  (0 <? e) || ((e =? 0) && ((by_ <? ay) || ((by_ =? ay) && (ax <? bx)))).

(** SETUP's parameter checks. *)
Definition setup_valid (g : gpu_device) (ram_size window_start window_end : Z) : bool :=
  let q := par g in
  let op := q GP_OP in
  (GPU_FILL <=? op) && (op <=? GPU_TRIANGLE) && (q GP_COLOR <=? 255) && coord (q GP_X0) && coord (q GP_Y0)
  && (if (op =? GPU_LINE) || (op =? GPU_TRIANGLE) then coord (q GP_X1) && coord (q GP_Y1) else true)
  && (if op =? GPU_TRIANGLE then coord (q GP_X2) && coord (q GP_Y2) else true)
  && (if (op =? GPU_FILL) || (op =? GPU_BLIT) then (q GP_W <=? 2048) && (q GP_H <=? 2048) else true)
  && (if op =? GPU_BLIT then
        let end_ := source_end g in
        let source :=
          if q GP_SRC =? 0x12000000 then (q GP_SW =? 320) && (q GP_SH =? 240) && (q GP_STRIDE =? 320)
          else (0x80000000 <=? q GP_SRC) && (end_ <=? 0x80000000 + ram_size)
               && (window_start <=? q GP_SRC) && (end_ <=? window_end) in
        coord (q GP_SX) && coord (q GP_SY) && (0 <? q GP_SW) && (q GP_SW <=? 2048) &&
        (0 <? q GP_SH) && (q GP_SH <=? 2048) && (q GP_SW <=? q GP_STRIDE) && (q GP_STRIDE <=? 65535) && source
      else true).

Definition finish (g : gpu_device) : gpu_device := {| g with status := GPU_DONE; phase := IDLE |}.

(** A line's endpoints in order and its error terms. *)
Definition setup_line (g : gpu_device) : gpu_device :=
  let swap := (bx g <? ax g) || ((ax g =? bx g) && (by_ g <? ay g)) in
  let ax' := if swap then bx g else ax g in
  let bx' := if swap then ax g else bx g in
  let ay' := if swap then by_ g else ay g in
  let by' := if swap then ay g else by_ g in
  let ddx := bx' - ax' in
  let ddy := by' - ay' in
  let sy' := if ddy <? 0 then -1 else 1 in
  let ddy' := if ddy <? 0 then - ddy else ddy in
  {| g with ax := ax'; ay := ay'; bx := bx'; by_ := by'; x := ax'; y := ay';
            dx := ddx; dy := ddy'; sy := sy'; err := ddx - ddy'; phase := SCAN |}.

(** The scan rectangle of the other operations, or nothing to draw. *)
Definition setup_rect (g : gpu_device) (op : Z) : gpu_device :=
  if (op =? GPU_FILL) || (op =? GPU_BLIT) then
    {| g with lo := Z.max 0 (ax g); top := Z.max 0 (ay g);
              hi := Z.min 320 (ax g + s32 (par g GP_W)); bottom := Z.min 240 (ay g + s32 (par g GP_H)) |}
  else g.
Definition setup_blit (g : gpu_device) : gpu_device :=
  let sx := s32 (par g GP_SX) in
  let sy0 := s32 (par g GP_SY) in
  {| g with lo := Z.max (lo g) (ax g - sx); top := Z.max (top g) (ay g - sy0);
            hi := Z.min (hi g) (ax g + s32 (par g GP_SW) - sx);
            bottom := Z.min (bottom g) (ay g + s32 (par g GP_SH) - sy0);
            step := if (par g GP_SRC =? 0x12000000) && (sy0 * 320 + sx <? ay g * 320 + ax g) then -1 else step g |}.
Definition setup_triangle (g : gpu_device) (area : Z) : gpu_device :=
  let g1 := if area <? 0 then {| g with bx := cx g; cx := bx g; by_ := cy g; cy := by_ g |} else g in
  {| g1 with lo := Z.max 0 (Z.min (ax g1) (Z.min (bx g1) (cx g1)));
             top := Z.max 0 (Z.min (ay g1) (Z.min (by_ g1) (cy g1)));
             hi := Z.min 320 (Z.max (ax g1) (Z.max (bx g1) (cx g1)));
             bottom := Z.min 240 (Z.max (ay g1) (Z.max (by_ g1) (cy g1))) |}.
Definition setup_scan (g : gpu_device) : gpu_device :=
  if (hi g <=? lo g) || (bottom g <=? top g) then finish g
  else {| g with x := if 0 <? step g then lo g else hi g - 1;
                 y := if 0 <? step g then top g else bottom g - 1; phase := SCAN |}.

(** The vertices as signed coordinates; the scan's direction. *)
Definition load_coords (g : gpu_device) : gpu_device :=
  {| g with ax := s32 (par g GP_X0); ay := s32 (par g GP_Y0); bx := s32 (par g GP_X1); by_ := s32 (par g GP_Y1);
            cx := s32 (par g GP_X2); cy := s32 (par g GP_Y2) |}.
Definition set_step (g : gpu_device) : gpu_device := {| g with step := 1 |}.
Definition triangle_area (g : gpu_device) : Z :=
  (bx g - ax g) * (cy g - ay g) - (by_ g - ay g) * (cx g - ax g).

Definition setup (g : gpu_device) (ram_size window_start window_end : Z) : gpu_device :=
  let op := par g GP_OP in
  if negb (setup_valid g ram_size window_start window_end) then
    {| g with status := GPU_FAULT; error := GPU_INVALID; phase := IDLE |}
  else
    let g1 := load_coords g in
    if op =? GPU_LINE then setup_line g1
    else
      let g2 := set_step (setup_rect g1 op) in
      let g3 := if op =? GPU_BLIT then setup_blit g2 else g2 in
      if op =? GPU_TRIANGLE then
        if triangle_area g3 =? 0 then finish g3 else setup_scan (setup_triangle g3 (triangle_area g3))
      else setup_scan g3.

(** Whether the pixel under the cursor is drawn. *)
Definition in_triangle (g : gpu_device) (px py : Z) : bool :=
  inside (ax g) (ay g) (bx g) (by_ g) px py && inside (bx g) (by_ g) (cx g) (cy g) px py
  && inside (cx g) (cy g) (ax g) (ay g) px py.
Definition covered (g : gpu_device) : bool :=
  (0 <=? x g) && (x g <? 320) && (0 <=? y g) && (y g <? 240) &&
  (if par g GP_OP =? GPU_TRIANGLE then in_triangle g (x g) (y g) else true).

Definition scan (g : gpu_device) : gpu_device :=
  {| g with pixel := u8 (par g GP_COLOR);
            phase := if covered g then (if par g GP_OP =? GPU_BLIT then READ else WRITE) else ADVANCE |}.

(** The offset of the source pixel a blit reads. *)
Definition source_offset (g : gpu_device) : Z :=
  u32 (u32 (s32 (par g GP_SY) + y g - ay g) * par g GP_STRIDE + u32 (s32 (par g GP_SX) + x g - ax g)).

Definition read_pixel (g : gpu_device) (ram fb : buffer) : res gpu_device :=
  let off := source_offset g in
  v ← (if par g GP_SRC =? 0x12000000 then buf_get fb off
       else buf_get ram (u32 (par g GP_SRC - 0x80000000 + off)));
  mret {| g with pixel := v; reads := u32 (reads g + 1); phase := WRITE |}.

Definition write_pixel (g : gpu_device) (fb : buffer) : res (gpu_device * buffer) :=
  fb' ← buf_set fb (y g * 320 + x g) (pixel g);
  mret ({| g with fb_written := true; fb_written_at := u32 (y g * 320 + x g);
                  writes := u32 (writes g + 1); phase := ADVANCE |}, fb').

(** The cursor's next position, and whether it is at its last one. *)
Definition line_next (g : gpu_device) : gpu_device :=
  let e2 := 2 * err g in
  let along := - dy g <=? e2 in
  let across := e2 <=? dx g in
  {| g with err := err g - (if along then dy g else 0) + (if across then dx g else 0);
            x := if along then x g + 1 else x g; y := if across then y g + sy g else y g |}.
Definition line_done (g : gpu_device) : bool := (x g =? bx g) && (y g =? by_ g).

Definition row_end (g : gpu_device) : bool := x g =? (if 0 <? step g then hi g - 1 else lo g).
Definition rect_next (g : gpu_device) : gpu_device :=
  if row_end g then {| g with x := if 0 <? step g then lo g else hi g - 1; y := y g + step g |}
  else {| g with x := x g + step g |}.
Definition rect_done (g : gpu_device) : bool :=
  row_end g && (y g =? (if 0 <? step g then bottom g - 1 else top g)).

Definition advance (g : gpu_device) : gpu_device :=
  let line := par g GP_OP =? GPU_LINE in
  let done := if line then line_done g else rect_done g in
  let g1 := if line then line_next g else rect_next g in
  {| g1 with status := if done then GPU_DONE else GPU_BUSY; phase := if done then IDLE else SCAN |}.

Definition gpu_tick (g : gpu_device) (ram : buffer) (ram_size : Z) (fb : buffer) (hold : bool)
    (window_start window_end : Z) : res (gpu_device * buffer) :=
  if command_tick g then mret ({| g with command_tick := false |}, fb)
  else if negb (gpu_busy g) then mret (g, fb)
  else
    let g1 := {| g with cycles := u32 (cycles g + 1) |} in
    match phase g with
    | SETUP => mret (setup g1 ram_size window_start window_end, fb)
    | SCAN => mret (scan g1, fb)
    | READ =>
        if hold then mret ({| g1 with stalls := u32 (stalls g1 + 1) |}, fb)
        else g2 ← read_pixel g1 ram fb; mret (g2, fb)
    | WRITE =>
        if hold then mret ({| g1 with stalls := u32 (stalls g1 + 1) |}, fb)
        else write_pixel g1 fb
    | ADVANCE => mret (advance g1, fb)
    | IDLE => mret ({| g1 with status := GPU_FAULT; error := GPU_INTERNAL; phase := IDLE |}, fb)
    end.

End Gpu.
