(* ===== verification/GpuProofs.v ===== *)
(** * G1: the engine's invariant, its arithmetic's range, and progress

    [gpu_ok] says what holds between ticks: BUSY is a phase other than IDLE,
    and while drawing the cursor is inside the clipped rectangle (or on the
    line), the source of a blit lies in the framebuffer or in RAM, and every
    signed value is small. *)

From S2P Require Import Prelude Effects Buffer Gpu.

Module GpuProofs.
Import Gpu.

(** ** The invariant *)

Definition small (z : Z) : Prop := -1024 <= z <= 1023.

Definition op_of (g : gpu_device) : Z := par g GP_OP.

(** A line is [i] steps along and [j] steps across from its first endpoint. *)
Record line_at (g : gpu_device) (i j : Z) : Prop := {
  ln_ax : small (ax g); ln_ay : small (ay g); ln_bx : small (bx g); ln_by : small (by_ g);
  ln_dx : dx g = bx g - ax g; ln_dx0 : 0 <= dx g; ln_dy0 : 0 <= dy g;
  ln_sy : (sy g = 1 \/ sy g = -1) /\ by_ g = ay g + sy g * dy g;
  ln_x : x g = ax g + i; ln_y : y g = ay g + sy g * j;
  ln_i : 0 <= i <= dx g; ln_j : 0 <= j <= dy g;
  ln_err : err g = (j + 1) * dx g - (i + 1) * dy g;
}.

(** The cursor is in the clipped rectangle. *)
Record rect_ok (g : gpu_device) : Prop := {
  rc_ax : small (ax g); rc_ay : small (ay g);
  rc_x : 0 <= lo g /\ lo g <= x g < hi g /\ hi g <= 320;
  rc_y : 0 <= top g /\ top g <= y g < bottom g /\ bottom g <= 240;
  rc_step : step g = 1 \/ step g = -1;
}.

Definition triangle_ok (g : gpu_device) : Prop :=
  small (bx g) /\ small (by_ g) /\ small (cx g) /\ small (cy g).

(** The source rectangle a blit reads, and where it lies. *)
Record source_ok (g : gpu_device) (ram_len fb_len : Z) : Prop := {
  so_sx : small (s32 (par g GP_SX)); so_sy : small (s32 (par g GP_SY));
  so_u : 0 <= s32 (par g GP_SX) + lo g - ax g /\ s32 (par g GP_SX) + hi g - ax g <= par g GP_SW;
  so_v : 0 <= s32 (par g GP_SY) + top g - ay g /\ s32 (par g GP_SY) + bottom g - ay g <= par g GP_SH;
  so_sw : 0 < par g GP_SW <= 2048; so_sh : 0 < par g GP_SH <= 2048;
  so_stride : par g GP_SW <= par g GP_STRIDE <= 65535;
  so_src : (par g GP_SRC = 0x12000000 /\ par g GP_SW = 320 /\ par g GP_SH = 240 /\ par g GP_STRIDE = 320
            /\ fb_len = 76800)
           \/ (0x80000000 <= par g GP_SRC < 0x100000000 /\ par g GP_SRC <> 0x12000000 /\
               par g GP_SRC + (par g GP_SH - 1) * par g GP_STRIDE + par g GP_SW <= 0x80000000 + ram_len
               /\ ram_len <= 0x7fffffff);
}.

Definition drawing (g : gpu_device) (ram_len fb_len : Z) : Prop :=
  (op_of g = GPU_LINE -> exists i j, line_at g i j) /\
  (op_of g <> GPU_LINE -> rect_ok g) /\
  (op_of g = GPU_TRIANGLE -> triangle_ok g) /\
  (op_of g = GPU_BLIT -> source_ok g ram_len fb_len) /\
  (phase g = READ \/ phase g = WRITE -> 0 <= x g < 320 /\ 0 <= y g < 240) /\
  (phase g = READ -> op_of g = GPU_BLIT).

Record gpu_ok (ram_len fb_len : Z) (g : gpu_device) : Prop := {
  ok_p_len : length (p g) = 16%nat; ok_p : Forall is_u32 (p g);
  ok_scalars : is_u32 (status g) /\ is_u32 (error g) /\ is_u32 (cycles g) /\ is_u32 (stalls g) /\
               is_u32 (reads g) /\ is_u32 (writes g);
  ok_pixel : is_u8 (pixel g);
  ok_busy : gpu_busy g = true <-> phase g <> IDLE;
  ok_drawing : phase g <> IDLE -> phase g <> SETUP -> drawing g ram_len fb_len;
}.

Lemma par_u32 a b g i : gpu_ok a b g -> 0 <= i < 16 -> is_u32 (par g i).
Proof. intros [] Hi. apply (at_Forall is_u32); [done|lia]. Qed.

Lemma gpu_reset_ok a b : gpu_ok a b gpu_device_reset.
Proof.
  split; try done.
  apply Forall_replicate. compute. intuition congruence.
Qed.

Lemma coord_small a : coord a = true -> small (s32 a).
Proof. unfold coord, small. intros. bools. lia. Qed.

(** ** Accesses *)

Lemma gpu_access_wp `{F : Fuelled} a b g off width write v :
  gpu_ok a b g -> is_u32 off -> is_u32 v ->
  wpr (gpu_access g off width write v) (fun o =>
    match o with Some (w, g') => gpu_ok a b g' /\ is_u32 w | None => True end).
Proof.
  intros Hg Hoff Hv. pose proof Hg as []. unfold is_u32 in Hoff. unfold GPU_PARAMS in *. unfold gpu_access.
  wps; try exact I; bools; unfold GPU_PARAMS in *.
  - apply wpr_aset; [zlia|]. wps. split; [|done]. split; cbn; try done.
    + by rewrite length_insert.
    + by apply Forall_insert.
    + intros Hi. apply ok_busy0 in Hi. congruence.
  - apply wpr_aget; [zlia|]. wps. split; [done|]. apply at_Forall; [done|zlia].
  - split; [|done]. destruct (gpu_reset_ok a b). by split.
  - split; [|done]. by split; cbn; try done; repeat split; lia || apply ok_scalars0.
  - split; [done|apply ok_scalars0].
  - split; [done|apply ok_scalars0].
  - split; [done|apply ok_scalars0].
  - split; [done|apply ok_scalars0].
  - split; [done|apply ok_scalars0].
  - split; [done|apply ok_scalars0].
Qed.

(** ** SETUP *)

(** The registers the drawing does not touch. *)
Definition same_regs (g g' : gpu_device) : Prop :=
  p g' = p g /\ error g' = error g /\ cycles g' = cycles g /\ stalls g' = stalls g /\
  reads g' = reads g /\ writes g' = writes g /\ pixel g' = pixel g.

Lemma setup_line_ok g :
  small (ax g) -> small (ay g) -> small (bx g) -> small (by_ g) ->
  same_regs g (setup_line g) /\ status (setup_line g) = status g /\ phase (setup_line g) = SCAN /\
  line_at (setup_line g) 0 0.
Proof.
  unfold small. intros Hax Hay Hbx Hby. split; [by repeat split|]. split; [done|]. split; [done|].
  unfold setup_line. set (sw := (bx g <? ax g) || ((ax g =? bx g) && (by_ g <? ay g))).
  assert (Hsw : sw = true /\ bx g <= ax g \/ sw = false /\ ax g <= bx g).
  { unfold sw. destruct (Z.ltb_spec (bx g) (ax g)), (Z.eqb_spec (ax g) (bx g)), (by_ g <? ay g); cbn; lia || auto. }
  destruct Hsw as [[-> Ho]|[-> Ho]];
    split; cbn [ax ay bx by_ dx dy sy x y err]; unfold small; try lia;
    destruct (_ - _ <? 0) eqn:Ed; bools; lia.
Qed.

Lemma setup_scan_ok g :
  small (ax g) -> small (ay g) -> 0 <= lo g -> hi g <= 320 -> 0 <= top g -> bottom g <= 240 ->
  step g = 1 \/ step g = -1 ->
  same_regs g (setup_scan g) /\
  (ax (setup_scan g) = ax g /\ ay (setup_scan g) = ay g /\ bx (setup_scan g) = bx g /\ by_ (setup_scan g) = by_ g /\
   cx (setup_scan g) = cx g /\ cy (setup_scan g) = cy g /\ lo (setup_scan g) = lo g /\ hi (setup_scan g) = hi g /\
   top (setup_scan g) = top g /\ bottom (setup_scan g) = bottom g) /\
  (phase (setup_scan g) = IDLE /\ status (setup_scan g) = GPU_DONE \/
   phase (setup_scan g) = SCAN /\ status (setup_scan g) = status g /\ rect_ok (setup_scan g)).
Proof.
  intros Hax Hay Hlo Hhi Htop Hbot Hst. unfold setup_scan. casif.
  - split; [by repeat split|]. split; [by repeat split|]. by left.
  - split; [by repeat split|]. split; [by repeat split|]. right. split; [done|]. split; [done|]. bools.
    split; cbn; try done; destruct Hst as [-> | ->]; cbn; lia.
Qed.

Record valid_params (g : gpu_device) (ram_size : Z) : Prop := {
  vp_op : 1 <= op_of g <= 4;
  vp_color : par g GP_COLOR <= 255;
  vp_a : small (s32 (par g GP_X0)) /\ small (s32 (par g GP_Y0));
  vp_b : op_of g = GPU_LINE \/ op_of g = GPU_TRIANGLE -> small (s32 (par g GP_X1)) /\ small (s32 (par g GP_Y1));
  vp_c : op_of g = GPU_TRIANGLE -> small (s32 (par g GP_X2)) /\ small (s32 (par g GP_Y2));
  vp_size : op_of g = GPU_FILL \/ op_of g = GPU_BLIT -> par g GP_W <= 2048 /\ par g GP_H <= 2048;
  vp_src : op_of g = GPU_BLIT ->
    small (s32 (par g GP_SX)) /\ small (s32 (par g GP_SY)) /\ 0 < par g GP_SW <= 2048 /\ 0 < par g GP_SH <= 2048 /\
    par g GP_SW <= par g GP_STRIDE <= 65535 /\
    ((par g GP_SRC = 0x12000000 /\ par g GP_SW = 320 /\ par g GP_SH = 240 /\ par g GP_STRIDE = 320)
     \/ (0x80000000 <= par g GP_SRC /\ par g GP_SRC <> 0x12000000 /\
         par g GP_SRC + (par g GP_SH - 1) * par g GP_STRIDE + par g GP_SW <= 0x80000000 + ram_size));
}.

Lemma source_end_exact a b g :
  gpu_ok a b g -> par g GP_STRIDE <= 65535 -> 0 < par g GP_SH <= 2048 ->
  source_end g = par g GP_SRC + (par g GP_SH - 1) * par g GP_STRIDE + par g GP_SW.
Proof.
  intros Hg Hs Hh. unfold source_end. rewrite (proj2 (tst_true _)) by lia.
  pose proof (par_u32 _ _ _ GP_SRC Hg ltac:(done)). pose proof (par_u32 _ _ _ GP_SW Hg ltac:(done)).
  pose proof (par_u32 _ _ _ GP_STRIDE Hg ltac:(done)). unfold is_u32 in *.
  apply u64_id. unfold is_u64. nia.
Qed.

Lemma setup_valid_ok a b g rs ws we :
  gpu_ok a b g -> setup_valid g rs ws we = true -> valid_params g rs.
Proof.
  intros Hg H. unfold setup_valid in H. cbv zeta in H. fold (op_of g) in H. bools.
  assert (B : forall o, (op_of g =? o) = true <-> op_of g = o) by (intros; apply Z.eqb_eq).
  split; unfold GPU_FILL, GPU_TRIANGLE in *; try lia.
  - auto using coord_small.
  - intros Ho. replace ((op_of g =? GPU_LINE) || _) with true in * by (symmetry; apply orb_true_iff; rewrite !B; tauto).
    bools. auto using coord_small.
  - intros Ho. rewrite (proj2 (B _) Ho) in *. bools. auto using coord_small.
  - intros Ho. replace ((op_of g =? 1) || _) with true in * by (symmetry; apply orb_true_iff; rewrite !B; tauto).
    bools. auto.
  - intros Ho. rewrite (proj2 (B _) Ho) in *. bools. do 2 (split; [by apply coord_small|]). do 3 (split; [lia|]).
    rewrite (source_end_exact a b) in * by (done || lia).
    destruct (Z.eqb_spec (par g GP_SRC) 0x12000000); bools; [left|right]; auto.
Qed.

(** A command the engine draws: small coordinates and sizes, a colour byte, and
    for a blit a source inside the framebuffer or inside RAM and the process's
    window. *)
Definition acceptable (g : gpu_device) (ram_size ws we : Z) : Prop :=
  valid_params g ram_size /\
  (op_of g = GPU_BLIT -> par g GP_SRC <> 0x12000000 ->
   ws <= par g GP_SRC /\ par g GP_SRC + (par g GP_SH - 1) * par g GP_STRIDE + par g GP_SW <= we).

Lemma small_coord z : small (s32 z) -> coord z = true.
Proof. unfold small, coord. intros. apply andb_true_iff. split; apply Z.leb_le; lia. Qed.

(** SETUP's checks are those conditions. *)
Lemma setup_valid_iff a b g rs ws we : gpu_ok a b g -> setup_valid g rs ws we = true <-> acceptable g rs ws we.
Proof.
  intros Hg. split.
  - intros H. pose proof (setup_valid_ok a b g rs ws we Hg H) as V. split; [done|]. intros Ho Hs.
    destruct V as [_ _ _ _ _ _ Hsrc]. destruct (Hsrc Ho) as (_ & _ & _ & Hh & Hst & _).
    rewrite <- (source_end_exact a b) by (done || lia).
    unfold setup_valid in H. cbv zeta in H. fold (op_of g) in H. rewrite Ho in H.
    rewrite (proj2 (Z.eqb_neq _ _) Hs) in H. cbn in H. bools. auto.
  - intros ([Hop Hcol [H0 H1] Hb Hc Hsz Hsrc] & Hwin). unfold setup_valid. cbv zeta. fold (op_of g).
    rewrite (small_coord _ H0), (small_coord _ H1). unfold GPU_FILL, GPU_TRIANGLE.
    repeat (apply andb_true_iff; split); try reflexivity; try (apply Z.leb_le; lia).
    + destruct (Z.eqb_spec (op_of g) GPU_LINE), (Z.eqb_spec (op_of g) 4); cbn; try done;
        destruct Hb; auto; by rewrite !small_coord.
    + destruct (Z.eqb_spec (op_of g) 4); [|done]. destruct Hc; auto. by rewrite !small_coord.
    + destruct (Z.eqb_spec (op_of g) 1), (Z.eqb_spec (op_of g) GPU_BLIT); cbn; try done;
        destruct Hsz; auto; apply andb_true_iff; split; by apply Z.leb_le.
    + destruct (Z.eqb_spec (op_of g) GPU_BLIT) as [Ho|]; [|done].
      destruct (Hsrc Ho) as (Hx & Hy & Hw & Hh & Hst & Hor). rewrite (source_end_exact a b) by (done || lia).
      rewrite !small_coord by done. repeat (apply andb_true_iff; split); try reflexivity; try (apply Z.leb_le || apply Z.ltb_lt; lia).
      destruct (Z.eqb_spec (par g GP_SRC) 0x12000000) as [E|N].
      * destruct Hor as [(_ & -> & -> & ->)|]; [done|lia].
      * destruct Hor as [|Hor]; [lia|]. destruct (Hwin Ho N).
        repeat (apply andb_true_iff; split); apply Z.leb_le; lia.
Qed.

(** A drawing that [setup_scan] began, or had nothing to do. *)
Lemma begin_ok rs g g' :
  gpu_ok rs 76800 g -> gpu_busy g = true ->
  p g' = p g -> error g' = error g -> cycles g' = cycles g -> stalls g' = stalls g ->
  reads g' = reads g -> writes g' = writes g -> pixel g' = pixel g ->
  (phase g' = IDLE /\ status g' = GPU_DONE \/ phase g' = SCAN /\ status g' = status g /\ drawing g' rs 76800) ->
  gpu_ok rs 76800 g'.
Proof.
  intros [] Hb Ep Ee Ec Es Er Ew Epx Hor. unfold gpu_busy in *. bools.
  split; rewrite ?Ep, ?Ee, ?Ec, ?Es, ?Er, ?Ew, ?Epx; try done; destruct Hor as [[E1 E2]|(E1 & E2 & Hd)].
  - rewrite E2. split; [unfold is_u32, GPU_DONE; lia|apply ok_scalars0].
  - rewrite E2. apply ok_scalars0.
  - unfold gpu_busy. rewrite E1, E2. done.
  - unfold gpu_busy. rewrite E1, E2, Hb. done.
  - by rewrite E1.
  - done.
Qed.

Lemma par_eq g g' i : p g' = p g -> par g' i = par g i.
Proof. unfold par. by intros ->. Qed.

(** A drawing with a clipped rectangle. *)
Lemma rect_drawing g rs fl :
  op_of g <> GPU_LINE -> phase g = SCAN -> rect_ok g ->
  (op_of g = GPU_TRIANGLE -> triangle_ok g) -> (op_of g = GPU_BLIT -> source_ok g rs fl) -> drawing g rs fl.
Proof.
  intros Hl Hp Hr Ht Hb. split; [done|]. split; [done|]. split; [done|]. split; [done|]. rewrite Hp.
  split; [by intros []|done].
Qed.

Lemma s32_size a b g i : gpu_ok a b g -> 0 <= i < 16 -> par g i <= 2048 -> s32 (par g i) = par g i.
Proof. intros Hg Hi Hs. pose proof (par_u32 _ _ _ i Hg Hi). unfold is_u32 in *. apply s32_id. unfold is_s32. lia. Qed.

(** The clipped rectangle of a fill or blit. *)
Lemma setup_rect_bounds g op :
  op = GPU_FILL \/ op = GPU_BLIT ->
  lo (setup_rect g op) = Z.max 0 (ax g) /\ top (setup_rect g op) = Z.max 0 (ay g) /\
  hi (setup_rect g op) = Z.min 320 (ax g + s32 (par g GP_W)) /\
  bottom (setup_rect g op) = Z.min 240 (ay g + s32 (par g GP_H)).
Proof. intros [-> | ->]; done. Qed.

Lemma setup_fill_ok rs g :
  gpu_ok rs 76800 g -> gpu_busy g = true -> op_of g = GPU_FILL -> valid_params g rs ->
  gpu_ok rs 76800 (setup_scan (set_step (setup_rect (load_coords g) GPU_FILL))).
Proof.
  intros Hg Hb Ho []. destruct vp_a0 as [Hx Hy].
  set (g1 := set_step (setup_rect (load_coords g) GPU_FILL)).
  destruct (setup_scan_ok g1) as (S & _ & R); try (cbn; lia) || done.
  eapply (begin_ok rs g); try done; try apply S.
  destruct R as [R|(R1 & R2 & R3)]; [by left|right]. split; [done|]. split; [done|].
  assert (E : op_of (setup_scan g1) = GPU_FILL) by (unfold op_of; rewrite (par_eq g) by apply S; done).
  apply rect_drawing; rewrite ?E; done.
Qed.

Lemma setup_blit_ok rs g :
  0 <= rs <= 0x7fffffff ->
  gpu_ok rs 76800 g -> gpu_busy g = true -> op_of g = GPU_BLIT -> valid_params g rs ->
  gpu_ok rs 76800 (setup_scan (setup_blit (set_step (setup_rect (load_coords g) GPU_BLIT)))).
Proof.
  intros Hrs Hg Hb Ho []. destruct vp_a0 as [Hx Hy]. destruct (vp_src0 Ho) as (Hsx & Hsy & Hsw & Hsh & Hst & Hsrc).
  set (g1 := setup_blit (set_step (setup_rect (load_coords g) GPU_BLIT))).
  assert (Hstep : step g1 = 1 \/ step g1 = -1) by (cbn; casif; auto).
  destruct (setup_scan_ok g1) as (S & G & R); try (cbn; lia) || done.
  eapply (begin_ok rs g); try done; try apply S.
  destruct R as [R|(R1 & R2 & R3)]; [by left|right]. split; [done|]. split; [done|].
  assert (Epar : forall i, par (setup_scan g1) i = par g i) by (intros; rewrite (par_eq g1) by apply S; done).
  assert (E : op_of (setup_scan g1) = GPU_BLIT) by (unfold op_of; by rewrite Epar).
  apply rect_drawing; rewrite ?E; try done. intros _.
  destruct G as (Gax & Gay & _ & _ & _ & _ & Glo & Ghi & Gtop & Gbot).
  pose proof (par_u32 _ _ _ GP_SRC Hg ltac:(done)). unfold is_u32 in *.
  assert (Esw : s32 (par g GP_SW) = par g GP_SW) by (apply (s32_size rs 76800); done || lia).
  assert (Esh : s32 (par g GP_SH) = par g GP_SH) by (apply (s32_size rs 76800); done || lia).
  split; rewrite ?Epar, ?Glo, ?Ghi, ?Gtop, ?Gbot, ?Gax, ?Gay; try done.
  - cbn. change (par _ GP_SX) with (par g GP_SX). change (par _ GP_SW) with (par g GP_SW). lia.
  - cbn. change (par _ GP_SY) with (par g GP_SY). change (par _ GP_SH) with (par g GP_SH). lia.
  - destruct Hsrc as [Hsrc|Hsrc]; [left|right]; repeat split; try lia.
Qed.

Lemma setup_triangle_ok rs g a :
  gpu_ok rs 76800 g -> gpu_busy g = true -> op_of g = GPU_TRIANGLE -> valid_params g rs ->
  gpu_ok rs 76800 (setup_scan (setup_triangle (set_step (setup_rect (load_coords g) GPU_TRIANGLE)) a)).
Proof.
  intros Hg Hb Ho []. destruct vp_a0 as [Hx Hy], (vp_b0 (or_intror Ho)) as [Hx1 Hy1], (vp_c0 Ho) as [Hx2 Hy2].
  set (g1 := setup_triangle (set_step (setup_rect (load_coords g) GPU_TRIANGLE)) a).
  assert (T : ax g1 = s32 (par g GP_X0) /\ ay g1 = s32 (par g GP_Y0) /\ triangle_ok g1 /\
              0 <= lo g1 /\ hi g1 <= 320 /\ 0 <= top g1 /\ bottom g1 <= 240 /\ step g1 = 1 /\
              same_regs g g1 /\ status g1 = status g).
  { unfold g1, setup_triangle. case (a <? 0); cbn; unfold triangle_ok; cbn; repeat (split; [done || lia|]); done. }
  destruct T as (Tx & Ty & Tr & Hlo & Hhi & Htop & Hbot & Hst & Sg & Est).
  destruct (setup_scan_ok g1) as (S & G & R); rewrite ?Tx, ?Ty; try done; [by left|].
  unfold same_regs in *. destruct Sg as (P1 & P2 & P3 & P4 & P5 & P6 & P7), S as (Q1 & Q2 & Q3 & Q4 & Q5 & Q6 & Q7).
  eapply (begin_ok rs g); try done; try congruence.
  destruct R as [R|(R1 & R2 & R3)]; [by left|right]. split; [done|]. split; [congruence|].
  assert (E : op_of (setup_scan g1) = GPU_TRIANGLE) by (unfold op_of; rewrite (par_eq g) by congruence; done).
  apply rect_drawing; rewrite ?E; try done. intros _. unfold triangle_ok.
  destruct G as (_ & _ & -> & -> & -> & -> & _). done.
Qed.

Lemma setup_ok rs g ws we :
  0 <= rs <= 0x7fffffff -> gpu_ok rs 76800 g -> gpu_busy g = true ->
  gpu_ok rs 76800 (setup g rs ws we).
Proof.
  intros Hrs Hg Hb. unfold setup. fold (op_of g).
  destruct (setup_valid g rs ws we) eqn:Ev; cbn [negb].
  2:{ pose proof Hg as []. split; cbn; try done. repeat split; try apply ok_scalars0; unfold GPU_FAULT, GPU_INVALID; lia. }
  apply (setup_valid_ok rs 76800) in Ev as V; [|done].
  destruct (Z.eqb_spec (op_of g) GPU_LINE) as [Eo|Nl].
  { destruct V. destruct vp_a0 as [Hx Hy], (vp_b0 (or_introl Eo)) as [Hx1 Hy1].
    destruct (setup_line_ok (load_coords g)) as (S & E1 & E2 & L); [done..|].
    eapply (begin_ok rs g); try done; try apply S. right. split; [done|]. split; [done|].
    assert (E : op_of (setup_line (load_coords g)) = GPU_LINE) by (unfold op_of; rewrite (par_eq g) by apply S; done).
    split; [intros _; by exists 0, 0|]. rewrite E. split; [done|]. split; [done|]. split; [done|].
    rewrite E2. split; [by intros []|done]. }
  destruct (Z.eqb_spec (op_of g) GPU_BLIT) as [Eo|Nb]; [rewrite Eo in *; by apply setup_blit_ok|].
  destruct (Z.eqb_spec (op_of g) GPU_TRIANGLE) as [Eo|Nt].
  - rewrite Eo in *. destruct (triangle_area _ =? 0); [|by apply setup_triangle_ok].
    apply (begin_ok rs g); try done. by left.
  - assert (op_of g = GPU_FILL) as Eo by (destruct V; unfold GPU_LINE, GPU_BLIT, GPU_TRIANGLE, GPU_FILL in *; lia).
    rewrite Eo in *. by apply setup_fill_ok.
Qed.

(** ** Drawing *)

(** [drawing] depends on the cursor, the shape and the phase only. *)
Lemma scan_ok rs g : gpu_ok rs 76800 g -> phase g = SCAN -> gpu_ok rs 76800 (scan g).
Proof.
  intros Hg Hp. pose proof Hg as []. destruct ok_drawing0 as (D1 & D2 & D3 & D4 & _); [by rewrite Hp..|].
  assert (Hbusy : gpu_busy g = true) by (apply ok_busy0; by rewrite Hp).
  unfold scan. set (cov := covered g). fold (op_of g).
  assert (Hcov : cov = true -> 0 <= x g < 320 /\ 0 <= y g < 240) by (intros; unfold cov, covered in *; bools; lia).
  split; try done.
  - apply u8_range.
  - cbn. split; [intros _|by intros _; cbn; rewrite <- Hbusy]. destruct cov; [casif|]; done.
  - intros _ _. split; [|split; [|split; [|split; [|split]]]].
    + intros Ho. destruct (D1 Ho) as (i & j & []). by exists i, j.
    + intros Ho. destruct (D2 Ho). done.
    + done.
    + intros Ho. destruct (D4 Ho). done.
    + cbn. destruct cov; [auto|by intros []].
    + cbn. destruct cov; [|done]. destruct (Z.eqb_spec (op_of g) GPU_BLIT); [auto|done].
Qed.

(** What a drawing's invariant is about. *)
Definition geometry (g : gpu_device) :=
  (p g, ax g, ay g, bx g, by_ g, cx g, cy g, lo g, hi g, top g, bottom g, step g, dx g, dy g, sy g, err g, x g, y g).

Lemma drawing_move g g' rs fl :
  drawing g rs fl -> geometry g' = geometry g ->
  (phase g' = READ \/ phase g' = WRITE -> 0 <= x g < 320 /\ 0 <= y g < 240) ->
  (phase g' = READ -> op_of g = GPU_BLIT) -> drawing g' rs fl.
Proof.
  intros (D1 & D2 & D3 & D4 & D5 & D6) E Hw Hr. unfold geometry in E.
  assert (Ex : x g' = x g /\ y g' = y g) by (split; congruence). destruct Ex as [Ex Ey].
  assert (Hpp : p g' = p g) by congruence.
  assert (Epar : forall i, par g' i = par g i) by (intros; by apply par_eq).
  assert (Eop : op_of g' = op_of g) by apply Epar. unfold drawing. rewrite Eop, Ex, Ey.
  split; [|split; [|split; [|split; [|by split]]]].
  - intros Ho. destruct (D1 Ho) as (i & j & []). exists i, j. injection E. intros. split; congruence.
  - intros Ho. destruct (D2 Ho). injection E. intros. split; congruence.
  - intros Ho. destruct (D3 Ho) as (T1 & T2 & T3 & T4). unfold triangle_ok. injection E. intros. split; [congruence|split; [congruence|split; congruence]].
  - intros Ho. destruct (D4 Ho). injection E. intros. split; rewrite ?Epar; congruence.
Qed.

(** The phase moves on with the cursor where it was. *)
Lemma drawing_phase g g' rs fl ph :
  drawing g rs fl -> ph <> READ -> (ph = WRITE -> 0 <= x g < 320 /\ 0 <= y g < 240) ->
  phase g' = ph -> geometry g' = geometry g -> drawing g' rs fl.
Proof.
  intros D Hr Hw Hp E. apply (drawing_move g); [done|done| |congruence]. rewrite Hp. intros []; [done|auto].
Qed.

(** Counters, flags and the stored pixel do not matter. *)
Lemma gpu_ok_ext rs fl g g' :
  gpu_ok rs fl g -> geometry g' = geometry g -> phase g' = phase g -> status g' = status g ->
  is_u32 (error g') /\ is_u32 (cycles g') /\ is_u32 (stalls g') /\ is_u32 (reads g') /\ is_u32 (writes g') ->
  is_u8 (pixel g') -> gpu_ok rs fl g'.
Proof.
  intros [] E Ep Es Hs Hpx. assert (Epp : p g' = p g) by (unfold geometry in E; congruence).
  split; rewrite ?Epp, ?Ep, ?Es; try done.
  - split; [apply ok_scalars0|done].
  - unfold gpu_busy. by rewrite Es.
  - intros H1 H2. destruct (ok_drawing0 H1 H2) as (D1 & D2 & D3 & D4 & D5 & D6).
    apply (drawing_move g); [by split; [|split; [|split; [|split; [|split]]]]|done|by rewrite Ep|by rewrite Ep].
Qed.

Lemma source_offset_ok rs fl g :
  source_ok g rs fl -> rect_ok g ->
  let v := s32 (par g GP_SY) + y g - ay g in
  let u := s32 (par g GP_SX) + x g - ax g in
  0 <= u < par g GP_SW /\ 0 <= v < par g GP_SH /\
  source_offset g = v * par g GP_STRIDE + u /\
  0 <= source_offset g < (par g GP_SH - 1) * par g GP_STRIDE + par g GP_SW.
Proof.
  intros [] [] v u. assert (0 <= u < par g GP_SW) by (unfold u; lia). assert (0 <= v < par g GP_SH) by (unfold v; lia).
  assert (B1 : 0 <= v * par g GP_STRIDE <= (par g GP_SH - 1) * par g GP_STRIDE)
    by (split; [apply Z.mul_nonneg_nonneg; lia|apply Z.mul_le_mono_nonneg_r; lia]).
  assert (B2 : (par g GP_SH - 1) * par g GP_STRIDE <= 2047 * 65535) by (apply Z.mul_le_mono_nonneg; lia).
  assert (E : source_offset g = v * par g GP_STRIDE + u).
  { unfold source_offset. fold v u. rewrite (u32_id v), (u32_id u), u32_id by (unfold is_u32; lia). done. }
  rewrite E. repeat split; lia.
Qed.

Lemma read_pixel_wp `{F : Fuelled} rs g ram fb :
  gpu_ok rs 76800 g -> phase g = READ -> buf_ok ram -> buf_ok fb -> buf_len ram = rs -> buf_len fb = 76800 ->
  wpr (read_pixel g ram fb) (gpu_ok rs 76800).
Proof.
  intros Hg Hp Hram Hfb Er Ef. pose proof Hg as [].
  pose proof (ok_drawing0 ltac:(by rewrite Hp) ltac:(by rewrite Hp)) as D.
  pose proof D as (D1 & D2 & D3 & D4 & D5 & D6).
  specialize (D6 Hp). specialize (D4 D6). assert (Nl : op_of g <> GPU_LINE) by (by rewrite D6). specialize (D2 Nl).
  destruct (source_offset_ok rs 76800 g D4 D2) as (Hu & Hv & Eo & Hoff). destruct D4.
  assert (Hok : forall b i, buf_ok b -> 0 <= i < buf_len b ->
    wpr (buf_get b i) (fun v => gpu_ok rs 76800 {| g with pixel := v; reads := u32 (reads g + 1); phase := WRITE |})).
  { intros b i [_ Hb] Hi. rewrite buf_get_ok by done. cbn [wpr].
    split; try done.
    - cbn. repeat split; try apply ok_scalars0; apply u32_range.
    - apply Hb.
    - cbn. split; [done|]. intros _. change (gpu_busy g = true). apply ok_busy0. by rewrite Hp.
    - intros _ _. apply (drawing_phase g _ rs 76800 WRITE); [done|done| |done|done]. intros _. by apply D5; left. }
  unfold read_pixel. apply wpr_bind. wps; bools.
  - eapply wpr_mono; [apply (Hok fb); [done|]|intros v Hv'; by wps]. destruct so_src0 as [|]; [|lia]. nia.
  - eapply wpr_mono; [apply (Hok ram); [done|]|intros v Hv'; by wps].
    destruct so_src0 as [|]; [lia|]. rewrite u32_id; unfold is_u32; nia.
Qed.

Lemma write_pixel_wp `{F : Fuelled} rs g fb :
  gpu_ok rs 76800 g -> phase g = WRITE -> buf_ok fb -> buf_len fb = 76800 ->
  wpr (write_pixel g fb) (fun '(g', fb') => gpu_ok rs 76800 g' /\ buf_ok fb' /\ buf_len fb' = 76800 /\
    (fb_written g' = true -> 0 <= fb_written_at g' < 76800)).
Proof.
  intros Hg Hp Hfb Ef. pose proof Hg as [].
  pose proof (ok_drawing0 ltac:(by rewrite Hp) ltac:(by rewrite Hp)) as D.
  pose proof D as (_ & _ & _ & _ & D5 & _). destruct (D5 (or_intror Hp)) as [Hx Hy].
  unfold write_pixel. wps. destruct (buf_set_ok fb (y g * 320 + x g) (pixel g)) as (fb' & -> & El & Eb); [lia|].
  cbn. split; [|split; [|split; [lia|intros _; rewrite u32_id; unfold is_u32; lia]]].
  - split; try done.
    + cbn. repeat split; try apply ok_scalars0; apply u32_range.
    + cbn. split; [done|]. intros _. change (gpu_busy g = true). apply ok_busy0. by rewrite Hp.
    + intros _ _. by apply (drawing_phase g _ rs 76800 ADVANCE).
  - split; [destruct Hfb; lia|]. intros i. rewrite Eb. destruct (i =? _); [apply u8_range|apply Hfb].
Qed.

(** A line not at its end gets closer to it; it never leaves its box. *)
Lemma line_next_at g i j :
  line_at g i j -> line_done g = false ->
  exists i' j', line_at (line_next g) i' j' /\ i + j < i' + j'.
Proof.
  intros [] Hd. unfold line_done in Hd. apply andb_false_iff in Hd.
  destruct ln_sy0 as [Hsy Hby].
  assert (Hne : i < dx g \/ j < dy g).
  { destruct Hd as [Hd|Hd]; bools; [left; lia|right]. destruct Hsy as [E|E]; rewrite E in *; lia. }
  set (along := - dy g <=? 2 * err g). set (across := 2 * err g <=? dx g).
  assert (Hor : along = true \/ across = true).
  { unfold along, across. destruct (Z.leb_spec (- dy g) (2 * err g)), (Z.leb_spec (2 * err g) (dx g)); auto; lia. }
  assert (Hx : along = true -> i < dx g).
  { unfold along. intros. bools. destruct (Z.eq_dec i (dx g)) as [->|]; [|lia]. nia. }
  assert (Hy : across = true -> j < dy g).
  { unfold across. intros. bools. destruct (Z.eq_dec j (dy g)) as [->|]; [|lia]. nia. }
  exists (if along then i + 1 else i), (if across then j + 1 else j). split.
  2:{ destruct along, across; destruct Hor; try done; lia. }
  unfold line_next. fold along across.
  split; cbn [ax ay bx by_ dx dy sy x y err]; try done; destruct along, across; try lia;
    try (specialize (Hx eq_refl)); try (specialize (Hy eq_refl)); try lia; destruct Hsy as [E|E]; rewrite ?E in *; lia.
Qed.

Lemma rect_next_ok g : rect_ok g -> rect_done g = false -> rect_ok (rect_next g).
Proof.
  intros [] Hd. unfold rect_done, row_end in Hd. unfold rect_next, row_end.
  destruct (x g =? (if 0 <? step g then hi g - 1 else lo g)) eqn:Ex; cbn [andb] in Hd; bools;
    split; cbn; try done; destruct rc_step0 as [E|E]; rewrite E in *; cbn in *; lia.
Qed.

(** [advance] moves the cursor and sets the phase, nothing else. *)
Lemma advance_frame g :
  let dn := if op_of g =? GPU_LINE then line_done g else rect_done g in
  let g2 := advance g in
  (p g2 = p g /\ error g2 = error g /\ cycles g2 = cycles g /\ stalls g2 = stalls g /\ reads g2 = reads g /\
   writes g2 = writes g /\ pixel g2 = pixel g) /\
  (lo g2 = lo g /\ hi g2 = hi g /\ top g2 = top g /\ bottom g2 = bottom g /\ ax g2 = ax g /\ ay g2 = ay g /\
   bx g2 = bx g /\ by_ g2 = by_ g /\ cx g2 = cx g /\ cy g2 = cy g /\ step g2 = step g) /\
  status g2 = (if dn then GPU_DONE else GPU_BUSY) /\ phase g2 = (if dn then IDLE else SCAN).
Proof.
  unfold advance, rect_next. fold (op_of g). destruct (op_of g =? GPU_LINE), (row_end g); cbn; auto 20.
Qed.

Lemma line_at_ext g g' i j :
  (ax g', ay g', bx g', by_ g', dx g', dy g', sy g', err g', x g', y g')
  = (ax g, ay g, bx g, by_ g, dx g, dy g, sy g, err g, x g, y g) -> line_at g i j -> line_at g' i j.
Proof. intros E []. injection E. intros. split; congruence. Qed.

Lemma rect_ok_ext g g' :
  (ax g', ay g', lo g', hi g', top g', bottom g', step g', x g', y g')
  = (ax g, ay g, lo g, hi g, top g, bottom g, step g, x g, y g) -> rect_ok g -> rect_ok g'.
Proof. intros E []. injection E. intros. split; congruence. Qed.

Lemma advance_ok rs g : gpu_ok rs 76800 g -> phase g = ADVANCE -> gpu_ok rs 76800 (advance g).
Proof.
  intros Hg Hp. pose proof Hg as []. destruct ok_drawing0 as (D1 & D2 & D3 & D4 & _); [by rewrite Hp..|].
  pose proof (advance_frame g) as Fr. cbv zeta in Fr. destruct Fr as ((Ep & Ee & Ec & Es & Er & Ew & Epx) & Geo & Est & Eph).
  assert (Epar : forall i, par (advance g) i = par g i) by (intros; by apply par_eq).
  split; rewrite ?Ep, ?Ee, ?Ec, ?Es, ?Er, ?Ew, ?Epx; try done.
  - split; [|apply ok_scalars0]. rewrite Est. unfold is_u32, GPU_DONE, GPU_BUSY. repeat casif; lia.
  - unfold gpu_busy. rewrite Est, Eph. by repeat casif.
  - rewrite Eph. destruct (if op_of g =? GPU_LINE then _ else _) eqn:Edn; [done|intros _ _].
    unfold drawing, op_of. rewrite Epar, Eph. fold (op_of g).
    destruct Geo as (Rlo & Rhi & Rt & Rb & Rax & Ray & Rbx & Rby & Rcx & Rcy & Rst).
    split; [|split; [|split; [|split; [|split; [by intros []|done]]]]].
    + intros Ho. rewrite Ho in Edn. cbn in Edn. destruct (D1 Ho) as (i & j & L).
      destruct (line_next_at g i j L Edn) as (i' & j' & L' & _). exists i', j'.
      eapply line_at_ext; [|exact L']. unfold advance. fold (op_of g). by rewrite Ho.
    + intros Ho. rewrite (proj2 (Z.eqb_neq _ _) Ho) in Edn.
      eapply rect_ok_ext; [|exact (rect_next_ok g (D2 Ho) Edn)].
      unfold advance. fold (op_of g). by rewrite (proj2 (Z.eqb_neq _ _) Ho).
    + intros Ho. unfold triangle_ok. rewrite Rbx, Rby, Rcx, Rcy. exact (D3 Ho).
    + intros Ho. destruct (D4 Ho). split; rewrite ?Epar, ?Rlo, ?Rhi, ?Rt, ?Rb, ?Rax, ?Ray; done.
Qed.

(** ** Ticks *)

Lemma gpu_tick_wp `{F : Fuelled} rs g ram fb hold ws we :
  0 <= rs <= 0x7fffffff -> gpu_ok rs 76800 g -> buf_ok ram -> buf_ok fb -> buf_len ram = rs -> buf_len fb = 76800 ->
  wpr (gpu_tick g ram rs fb hold ws we) (fun '(g', fb') =>
    gpu_ok rs 76800 g' /\ buf_ok fb' /\ buf_len fb' = 76800).
Proof.
  intros Hrs Hg Hram Hfb Er Ef. pose proof Hg as [].
  destruct ok_scalars0 as (S1 & S2 & S3 & S4 & S5 & S6).
  unfold gpu_tick. wps; [split; [by apply (gpu_ok_ext rs 76800 g)|done]|done|]. bools.
  assert (Hg1 : gpu_ok rs 76800 {| g with cycles := u32 (cycles g + 1) |}).
  { apply (gpu_ok_ext rs 76800 g); try done. cbn. split; [done|split; [apply u32_range|done]]. }
  assert (Hst : forall v, is_u32 v -> gpu_ok rs 76800 {| g with cycles := u32 (cycles g + 1); stalls := v |}).
  { intros v Hv. apply (gpu_ok_ext rs 76800 g); try done. cbn. split; [done|split; [apply u32_range|done]]. }
  destruct (phase g) eqn:Ep.
  - exfalso. apply ok_busy0 in H0. done.
  - wps. split; [by apply setup_ok|done].
  - wps. split; [by apply scan_ok|done].
  - wps; [split; [apply Hst, u32_range|done]|].
    eapply wpr_mono; [by apply (read_pixel_wp rs)|]. intros g' Hg'. by wps.
  - wps; [split; [apply Hst, u32_range|done]|].
    eapply wpr_mono; [by apply (write_pixel_wp rs)|]. intros [g' fb'] (K1 & K2 & K3 & _). done.
  - wps. split; [by apply advance_ok|done].
Qed.
End GpuProofs.
