(* ===== verification/GpuDraw.v ===== *)
(** * G1: what a command draws

    From START the engine finishes within a bounded number of ticks, and the
    framebuffer it leaves is given pixel by pixel: a fill's clipped rectangle,
    a triangle's covered centres, a blit's source as it was before the command
    (overlap included), a line's Bresenham path. *)

From S2P Require Import Prelude Effects Buffer Gpu GpuProofs.

Module GpuDraw.
Import Gpu GpuProofs.

Section Draw.
Context (ram : buffer) (ws we : Z).
Context (Hram : buf_ok ram) (Hrs : 0 <= buf_len ram <= 0x7fffffff).

Abbreviation tick g fb := (gpu_tick g ram (buf_len ram) fb false ws we).

Fixpoint gticks (n : nat) (g : gpu_device) (fb : buffer) : res (gpu_device * buffer) :=
  match n with
  | O => mret (g, fb)
  | S n' => '(g', fb') ← tick g fb; gticks n' g' fb'
  end.

Lemma gticks_app n k g fb : gticks (n + k) g fb = ('(g', fb') ← gticks n g fb; gticks k g' fb').
Proof.
  revert g fb. induction n as [|n IH]; intros g fb; [done|]. cbn [gticks Nat.add].
  destruct (tick g fb) as [[g' fb']| |]; cbn; [apply IH|done|done].
Qed.

(** The framebuffer and device between pixels. *)
Definition fb_ok (fb : buffer) : Prop := buf_ok fb /\ buf_len fb = 76800.
Definition state_ok (g : gpu_device) (fb : buffer) : Prop :=
  gpu_ok (buf_len ram) 76800 g /\ fb_ok fb /\ command_tick g = false.

(** The byte the pixel under the cursor gets. *)
Definition color (g : gpu_device) (fb : buffer) : Z :=
  if op_of g =? GPU_BLIT then
    if par g GP_SRC =? 0x12000000 then byte_at fb (source_offset g)
    else byte_at ram (par g GP_SRC - 0x80000000 + source_offset g)
  else u8 (par g GP_COLOR).

Definition cursor (g : gpu_device) : Z := y g * 320 + x g.

(** One pixel: [fb'] is [fb] with the cursor's pixel drawn if it is covered. *)
Definition plotted (g : gpu_device) (fb fb' : buffer) : Prop :=
  forall i, byte_at fb' i = if covered g && (i =? cursor g) then color g fb else byte_at fb i.

Lemma tick_state g fb g' fb' : state_ok g fb -> tick g fb = Ok (g', fb') -> gpu_ok (buf_len ram) 76800 g' /\ fb_ok fb'.
Proof.
  intros (Hg & [Hb Hl] & Hc) E. pose proof (gpu_tick_wp (F := total) (buf_len ram) g ram fb false ws we) as H.
  rewrite E in H. cbn in H. destruct H as (H1 & H2 & H3); try done.
Qed.

(** The device after the phases before ADVANCE, and the phases' effect. *)
Definition same_geometry (g g' : gpu_device) : Prop := geometry g' = geometry g /\ command_tick g' = command_tick g.

Lemma busy_phase g : gpu_ok (buf_len ram) 76800 g -> phase g <> IDLE -> gpu_busy g = true.
Proof. intros [] H. by apply ok_busy0. Qed.

Lemma scan_tick g fb :
  state_ok g fb -> phase g = SCAN ->
  exists g', tick g fb = Ok (g', fb) /\ same_geometry g g' /\ pixel g' = u8 (par g GP_COLOR) /\ status g' = status g /\
    phase g' = (if covered g then if op_of g =? GPU_BLIT then READ else WRITE else ADVANCE).
Proof.
  intros (Hg & _ & Hc) Hp. unfold gpu_tick. rewrite Hc, (busy_phase g Hg), Hp by (by rewrite Hp). cbn [negb].
  eexists. split; [reflexivity|]. unfold scan, same_geometry. cbn. split; [|done]. split; [done|by rewrite Hc].
Qed.

Lemma read_tick g fb :
  state_ok g fb -> phase g = READ ->
  exists g', tick g fb = Ok (g', fb) /\ same_geometry g g' /\ pixel g' = color g fb /\ status g' = status g /\
    phase g' = WRITE.
Proof.
  intros (Hg & [Hb Hl] & Hc) Hp. pose proof Hg as [].
  pose proof (ok_drawing0 ltac:(by rewrite Hp) ltac:(by rewrite Hp)) as (D1 & D2 & D3 & D4 & D5 & D6).
  specialize (D6 Hp). specialize (D4 D6). assert (Nl : op_of g <> GPU_LINE) by (by rewrite D6). specialize (D2 Nl).
  destruct (source_offset_ok _ _ g D4 D2) as (_ & _ & _ & Hoff). destruct D4.
  unfold gpu_tick. rewrite Hc, (busy_phase g Hg), Hp by (by rewrite Hp). cbn [negb]. unfold read_pixel, color. rewrite D6.
  change (par {| g with cycles := _; phase := _; command_tick := _ |}) with (par g).
  change (source_offset {| g with cycles := _; phase := _; command_tick := _ |}) with (source_offset g).
  destruct (Z.eqb_spec (par g GP_SRC) 0x12000000).
  - rewrite buf_get_ok by (destruct so_src0; lia). eexists. split; [reflexivity|].
    unfold same_geometry. cbn. split; [split; [done|by rewrite Hc]|done].
  - destruct so_src0 as [|]; [lia|].
    rewrite (u32_id (par g GP_SRC - 0x80000000 + source_offset g)) by (unfold is_u32; lia). rewrite buf_get_ok by lia. eexists. split; [reflexivity|].
    unfold same_geometry. cbn. split; [split; [done|by rewrite Hc]|done].
Qed.

Lemma write_tick g fb :
  state_ok g fb -> phase g = WRITE ->
  exists g' fb', tick g fb = Ok (g', fb') /\ same_geometry g g' /\ status g' = status g /\ phase g' = ADVANCE /\
    forall i, byte_at fb' i = if i =? cursor g then pixel g else byte_at fb i.
Proof.
  intros (Hg & [Hb Hl] & Hc) Hp. pose proof Hg as [].
  pose proof (ok_drawing0 ltac:(by rewrite Hp) ltac:(by rewrite Hp)) as (D1 & D2 & D3 & D4 & D5 & D6).
  destruct (D5 (or_intror Hp)) as [Hx Hy].
  unfold gpu_tick. rewrite Hc, (busy_phase g Hg), Hp by (by rewrite Hp). cbn [negb]. unfold write_pixel.
  cbn [x y pixel]. fold (cursor g).
  destruct (buf_set_ok fb (cursor g) (pixel g)) as (fb' & E & El & Eb); [unfold cursor; lia|].
  rewrite E. eexists _, fb'. split; [reflexivity|]. unfold same_geometry. cbn.
  split; [split; [done|by rewrite Hc]|]. split; [done|]. split; [done|].
  intros i. rewrite Eb. by rewrite u8_id.
Qed.

(** [advance]'s cursor depends on the geometry alone. *)
Lemma advance_geometry g g' :
  geometry g' = geometry g ->
  geometry (advance g') = geometry (advance g) /\ status (advance g') = status (advance g) /\
  phase (advance g') = phase (advance g).
Proof.
  intros E. destruct g, g'. unfold geometry in E. cbn in E. simplify_eq.
  unfold advance, line_done, rect_done, rect_next, row_end, line_next, par, geometry. cbn.
  destruct (at_ _ GP_OP =? GPU_LINE); [done|]. by destruct (_ =? _).
Qed.

Lemma advance_tick g fb :
  state_ok g fb -> phase g = ADVANCE ->
  exists g', tick g fb = Ok (g', fb) /\ geometry g' = geometry (advance g) /\ command_tick g' = false /\
    status g' = status (advance g) /\ phase g' = phase (advance g).
Proof.
  intros (Hg & _ & Hc) Hp. unfold gpu_tick. rewrite Hc, (busy_phase g Hg), Hp by (by rewrite Hp). cbn [negb].
  eexists. split; [reflexivity|].
  set (g1 := {| g with cycles := u32 (cycles g + 1); phase := ADVANCE; command_tick := false |}).
  destruct (advance_geometry g g1 eq_refl) as (E1 & E2 & E3). split; [done|]. split; [|done].
  unfold advance, rect_next. by destruct (par g1 GP_OP =? GPU_LINE), (row_end g1).
Qed.

Lemma color_geometry g g' fb : geometry g' = geometry g -> color g' fb = color g fb.
Proof. intros E. destruct g, g'. unfold geometry in E. cbn in E. simplify_eq. done. Qed.

(** The device has moved to the next pixel. *)
Definition moved (g g' : gpu_device) : Prop :=
  geometry g' = geometry (advance g) /\ status g' = status (advance g) /\ phase g' = phase (advance g).

Lemma state_ok_intro g fb : gpu_ok (buf_len ram) 76800 g /\ fb_ok fb -> command_tick g = false -> state_ok g fb.
Proof. intros [] ?. by split; [|split]. Qed.

(** From ADVANCE, reached from [g] without moving the cursor. *)
Lemma finish_pixel n g g1 fb fb1 :
  gticks n g fb = Ok (g1, fb1) -> state_ok g1 fb1 -> geometry g1 = geometry g -> phase g1 = ADVANCE ->
  exists g', gticks (n + 1) g fb = Ok (g', fb1) /\ state_ok g' fb1 /\ moved g g'.
Proof.
  intros T S1 Eg Ep. destruct (advance_tick g1 fb1 S1 Ep) as (g' & T1 & E1 & Ec & E2 & E3).
  exists g'. split; [rewrite gticks_app, T; cbn; by rewrite T1|].
  split; [by apply state_ok_intro; [eapply tick_state|]|].
  destruct (advance_geometry g g1 Eg) as (A1 & A2 & A3). split; [congruence|]. split; congruence.
Qed.

Lemma pixel_ticks g fb :
  state_ok g fb -> phase g = SCAN ->
  exists n g' fb', (n <= 4)%nat /\ gticks n g fb = Ok (g', fb') /\ state_ok g' fb' /\ moved g g' /\ plotted g fb fb'.
Proof.
  intros S Hp. destruct (scan_tick g fb S Hp) as (g1 & T1 & [G1 C1] & P1 & _ & Ph1).
  assert (S1 : state_ok g1 fb) by (apply state_ok_intro; [by eapply tick_state|rewrite C1; apply S]).
  assert (R1 : gticks 1 g fb = Ok (g1, fb)) by (cbn; by rewrite T1).
  unfold plotted. destruct (covered g) eqn:Ecov.
  2:{ destruct (finish_pixel 1 g g1 fb fb R1 S1 G1 Ph1) as (g' & T' & S' & M'). exists 2%nat, g', fb. split; [lia|done]. }
  assert (W : forall k g2, gticks k g fb = Ok (g2, fb) -> (k <= 2)%nat -> state_ok g2 fb -> geometry g2 = geometry g ->
    phase g2 = WRITE -> pixel g2 = color g fb ->
    exists n g' fb', (n <= 4)%nat /\ gticks n g fb = Ok (g', fb') /\ state_ok g' fb' /\ moved g g' /\
      forall i, byte_at fb' i = if true && (i =? cursor g) then color g fb else byte_at fb i).
  { intros k g2 T2 Hk S2 G2 Ph2 Px. destruct (write_tick g2 fb S2 Ph2) as (g3 & fb3 & T3 & [G3 C3] & _ & Ph3 & B3).
    assert (S3 : state_ok g3 fb3) by (apply state_ok_intro; [by eapply tick_state|rewrite C3; apply S2]).
    destruct (finish_pixel (k + 1) g g3 fb fb3) as (g' & T' & S' & M').
    - rewrite gticks_app, T2. cbn. by rewrite T3.
    - done.
    - congruence.
    - done.
    - exists (k + 1 + 1)%nat, g', fb3. split; [lia|]. split; [done|]. split; [done|]. split; [done|].
      intros i. rewrite B3, Px. unfold cursor, geometry in *. replace (y g2) with (y g) by congruence.
      by replace (x g2) with (x g) by congruence. }
  destruct (op_of g =? GPU_BLIT) eqn:Eop.
  - destruct (read_tick g1 fb S1 Ph1) as (g2 & T2 & [G2 C2] & P2 & _ & Ph2).
    apply (W 2%nat g2); try done; try lia.
    + cbn. rewrite T1. cbn. by rewrite T2.
    + apply state_ok_intro; [by eapply tick_state|rewrite C2; apply S1].
    + congruence.
    + rewrite P2. by apply color_geometry.
  - apply (W 1%nat g1); try done; try lia. rewrite P1. unfold color. by rewrite Eop.
Qed.

(** ** Fills, triangles and blits *)

(** What the command is, apart from where the cursor is. *)
Definition shape (g : gpu_device) :=
  (p g, ax g, ay g, bx g, by_ g, cx g, cy g, lo g, hi g, top g, bottom g, step g).

Definition put (g : gpu_device) (i : Z) : gpu_device := {| g with x := i mod 320; y := i / 320 |}.
Definition in_rect (g : gpu_device) (i : Z) : bool :=
  (lo g <=? i mod 320) && (i mod 320 <? hi g) && (top g <=? i / 320) && (i / 320 <? bottom g).
(** The pixels a command draws, and what it draws there. *)
Definition drawn_at (g : gpu_device) (i : Z) : bool :=
  in_rect g i && (if op_of g =? GPU_TRIANGLE then in_triangle g (i mod 320) (i / 320) else true).
Definition value_at (g : gpu_device) (fb0 : buffer) (i : Z) : Z := color (put g i) fb0.

(** The pixels the scan has passed. *)
Definition behind (g : gpu_device) (i : Z) : bool := if 0 <? step g then i <? cursor g else cursor g <? i.

(** A blit inside the framebuffer scans away from the pixels it has written. *)
Definition displacement (g : gpu_device) : Z := (s32 (par g GP_SY) - ay g) * 320 + (s32 (par g GP_SX) - ax g).
Definition order_ok (g : gpu_device) : Prop :=
  op_of g = GPU_BLIT -> par g GP_SRC = 0x12000000 -> if 0 <? step g then 0 <= displacement g else displacement g < 0.

Lemma shape_fields g g' fb0 i :
  shape g' = shape g ->
  drawn_at g' i = drawn_at g i /\ value_at g' fb0 i = value_at g fb0 i /\ in_rect g' i = in_rect g i /\
  op_of g' = op_of g /\ (order_ok g -> order_ok g').
Proof. intros E. destruct g, g'. unfold shape in E. cbn in E. simplify_eq. done. Qed.

Lemma moved_shape g g' : op_of g <> GPU_LINE -> moved g g' -> shape g' = shape g.
Proof.
  intros Ho (E & _ & _). destruct (advance_frame g) as ((Ep & _) & Geo & _).
  destruct Geo as (Rlo & Rhi & Rt & Rb & Rax & Ray & Rbx & Rby & Rcx & Rcy & Rst).
  unfold geometry in E. unfold shape. injection E. intros. congruence.
Qed.

Lemma cursor_split g : rect_ok g -> cursor g mod 320 = x g /\ cursor g / 320 = y g /\ 0 <= cursor g < 76800.
Proof. intros []. unfold cursor. split; [|split]; [zlia..|lia]. Qed.

Lemma covered_drawn g : rect_ok g -> covered g = drawn_at g (cursor g) /\ in_rect g (cursor g) = true.
Proof.
  intros Hr. destruct (cursor_split g Hr) as (E1 & E2 & _). unfold covered, drawn_at, in_rect. rewrite E1, E2.
  fold (op_of g). destruct Hr.
  rewrite !(proj2 (Z.leb_le _ _)), !(proj2 (Z.ltb_lt _ _)) by lia. done.
Qed.

(** The scan passes the rectangle's pixels one at a time. *)
Lemma behind_next g g' i :
  rect_ok g -> op_of g <> GPU_LINE -> moved g g' -> rect_done g = false -> in_rect g i = true ->
  behind g' i = behind g i || (i =? cursor g).
Proof.
  intros Hr Ho M Ed Hi.
  pose proof (moved_shape g g' Ho M) as Es. destruct M as (E & _ & _). unfold geometry in E.
  assert (Ex : x g' = x (rect_next g) /\ y g' = y (rect_next g)).
  { unfold advance in E. fold (op_of g) in E. rewrite (proj2 (Z.eqb_neq _ _) Ho) in E. cbn in E. split; congruence. }
  destruct Ex as [Ex Ey]. unfold behind, cursor. rewrite Ex, Ey. unfold shape in Es.
  replace (step g') with (step g) by congruence. destruct Hr.
  unfold in_rect in Hi. bools. set (q := i / 320) in *. set (r := i mod 320) in *.
  assert (Hq : i = q * 320 + r) by (unfold q, r; zlia). rewrite Hq. clearbody q r. clear Hq.
  unfold rect_done in Ed. unfold rect_next. destruct (row_end g) eqn:Er; unfold row_end in Er; cbn [x y andb] in *; bools;
    destruct rc_step0 as [Est|Est]; rewrite Est in *; cbn [Z.ltb Z.compare] in *;
    apply eq_true_iff_eq; rewrite orb_true_iff, !Z.ltb_lt, Z.eqb_eq; lia.
Qed.

Lemma behind_last g i :
  rect_ok g -> rect_done g = true -> in_rect g i = true -> behind g i || (i =? cursor g) = true.
Proof.
  intros Hr Ed Hi. destruct Hr. unfold in_rect in Hi. bools.
  set (q := i / 320) in *. set (r := i mod 320) in *.
  assert (Hq : i = q * 320 + r) by (unfold q, r; zlia). rewrite Hq. clearbody q r. clear Hq.
  unfold rect_done, row_end in Ed. bools. unfold behind, cursor.
  destruct rc_step0 as [Est|Est]; rewrite Est in *; cbn [Z.ltb Z.compare] in *;
    rewrite orb_true_iff, !Z.ltb_lt, Z.eqb_eq; lia.
Qed.

(** What the framebuffer holds part-way: the pixels behind the cursor are drawn
    from the framebuffer [fb0] the command started with. *)
Definition partly (g : gpu_device) (fb0 fb : buffer) : Prop :=
  forall i, 0 <= i < 76800 ->
    byte_at fb i = if drawn_at g i && behind g i then value_at g fb0 i else byte_at fb0 i.

Lemma color_now g fb0 fb :
  state_ok g fb -> phase g = SCAN -> op_of g <> GPU_LINE -> order_ok g -> partly g fb0 fb ->
  color g fb = value_at g fb0 (cursor g).
Proof.
  intros (Hg & _ & _) Hp Ho Hord Hpart. pose proof Hg as [].
  pose proof (ok_drawing0 ltac:(by rewrite Hp) ltac:(by rewrite Hp)) as (_ & D2 & _ & D4 & _).
  specialize (D2 Ho). destruct (cursor_split g D2) as (E1 & E2 & Hc). unfold value_at.
  assert (Eput : source_offset (put g (cursor g)) = source_offset g).
  { unfold source_offset, put, par. cbn. by rewrite E1, E2. }
  unfold color. change (op_of (put g (cursor g))) with (op_of g). change (par (put g (cursor g))) with (par g).
  rewrite Eput. destruct (Z.eqb_spec (op_of g) GPU_BLIT) as [Eb|]; [|done].
  destruct (Z.eqb_spec (par g GP_SRC) 0x12000000) as [Esrc|]; [|done].
  specialize (D4 Eb). destruct (source_offset_ok _ _ g D4 D2) as (Hu & Hv & Eo & Hoff).
  destruct D4. destruct so_src0 as [(_ & Esw & Esh & Est & _)|]; [|lia].
  rewrite Hpart by (rewrite Esh, Est, Esw in Hoff; lia).
  assert (Hd : source_offset g = cursor g + displacement g).
  { rewrite Eo, Est. unfold cursor, displacement. ring. }
  assert (behind g (source_offset g) = false) as ->; [|by rewrite andb_false_r].
  specialize (Hord Eb Esrc). unfold behind. rewrite Hd. destruct (0 <? step g); apply Z.ltb_ge; lia.
Qed.

(** Drawing the cursor's pixel keeps [partly] for the next position. *)
Lemma partly_plot g fb0 fb fb' i :
  state_ok g fb -> phase g = SCAN -> op_of g <> GPU_LINE -> order_ok g -> partly g fb0 fb -> plotted g fb fb' ->
  0 <= i < 76800 ->
  byte_at fb' i = if drawn_at g i && (behind g i || (i =? cursor g)) then value_at g fb0 i else byte_at fb0 i.
Proof.
  intros S Hp Ho Hord Hpart Hplot Hi. rewrite Hplot.
  assert (Hr : rect_ok g).
  { destruct S as ([] & _). by destruct (ok_drawing0 ltac:(by rewrite Hp) ltac:(by rewrite Hp)) as (_ & D2 & _); auto. }
  destruct (covered_drawn g Hr) as [-> _]. rewrite (color_now g fb0 fb) by done.
  destruct (Z.eqb_spec i (cursor g)) as [->|].
  - rewrite andb_true_r, orb_true_r, andb_true_r. destruct (drawn_at g (cursor g)) eqn:E; [done|].
    rewrite Hpart by done. by rewrite E.
  - by rewrite andb_false_r, orb_false_r, Hpart.
Qed.

(** The pixels still to visit, this one excluded. *)
Definition remaining (g : gpu_device) : Z :=
  if 0 <? step g then (bottom g - 1 - y g) * (hi g - lo g) + (hi g - 1 - x g)
  else (y g - top g) * (hi g - lo g) + (x g - lo g).

Lemma remaining_next g g' :
  rect_ok g -> op_of g <> GPU_LINE -> moved g g' -> rect_done g = false -> remaining g' = remaining g - 1.
Proof.
  intros Hr Ho M Ed. pose proof (moved_shape g g' Ho M) as Es. destruct M as (E & _ & _). unfold geometry in E.
  assert (Ex : x g' = x (rect_next g) /\ y g' = y (rect_next g)).
  { unfold advance in E. fold (op_of g) in E. rewrite (proj2 (Z.eqb_neq _ _) Ho) in E. cbn in E. split; congruence. }
  destruct Ex as [Ex Ey]. unfold remaining. rewrite Ex, Ey. unfold shape in Es.
  replace (lo g') with (lo g) by congruence. replace (hi g') with (hi g) by congruence.
  replace (top g') with (top g) by congruence. replace (bottom g') with (bottom g) by congruence.
  replace (step g') with (step g) by congruence.
  destruct Hr. unfold rect_done, row_end in Ed. unfold rect_next, row_end.
  destruct rc_step0 as [Est|Est]; rewrite Est in *; cbn [Z.ltb Z.compare] in *;
    casif; cbn; bools; lia.
Qed.

Lemma remaining_nonneg g : rect_ok g -> 0 <= remaining g < 76800.
Proof. intros []. unfold remaining. destruct (0 <? step g); nia. Qed.

(** The scan draws its rectangle and stops. *)
Lemma rect_run fb0 n g fb :
  remaining g <= Z.of_nat n -> state_ok g fb -> phase g = SCAN -> op_of g <> GPU_LINE -> order_ok g -> partly g fb0 fb ->
  exists k g' fb', (k <= 4 * (n + 1))%nat /\ gticks k g fb = Ok (g', fb') /\ state_ok g' fb' /\ status g' = GPU_DONE /\
    forall i, 0 <= i < 76800 -> byte_at fb' i = if drawn_at g i then value_at g fb0 i else byte_at fb0 i.
Proof.
  revert g fb. induction n as [|n IH]; intros g fb Hn S Hp Ho Hord Hpart.
  all: assert (Hr : rect_ok g) by
    (destruct S as ([] & _); by destruct (ok_drawing0 ltac:(by rewrite Hp) ltac:(by rewrite Hp)) as (_ & D2 & _); auto).
  all: destruct (pixel_ticks g fb S Hp) as (k & g1 & fb1 & Hk & T & S1 & M & Hplot).
  all: pose proof (partly_plot g fb0 fb fb1) as Hnew.
  all: destruct (advance_frame g) as (_ & _ & Est & Eph); fold (op_of g) in Est, Eph;
    rewrite (proj2 (Z.eqb_neq _ _) Ho) in Est, Eph; pose proof M as (_ & Ms & Mp).
  all: destruct (rect_done g) eqn:Ed.
  1,3: exists k, g1, fb1; split; [lia|]; split; [done|]; split; [done|]; split; [by rewrite Ms|];
    intros i Hi; rewrite (Hnew i) by done; destruct (drawn_at g i) eqn:Edr; [|done];
    rewrite (behind_last g i); [done|done|done|]; unfold drawn_at in Edr; by bools.
  - exfalso. pose proof (remaining_next g g1 Hr Ho M Ed). pose proof (remaining_nonneg g Hr).
    assert (rect_ok g1); [|pose proof (remaining_nonneg g1 H1); lia].
    destruct S1 as ([] & _). pose proof (moved_shape g g1 Ho M) as Es.
    destruct (shape_fields g g1 fb0 0 Es) as (_ & _ & _ & Eop & _).
    by destruct (ok_drawing0 ltac:(by rewrite Mp, Eph) ltac:(by rewrite Mp, Eph)) as (_ & D2 & _); apply D2; rewrite Eop.
  - pose proof (moved_shape g g1 Ho M) as Es.
    assert (Hsh : forall i, drawn_at g1 i = drawn_at g i /\ value_at g1 fb0 i = value_at g fb0 i /\
              in_rect g1 i = in_rect g i /\ op_of g1 = op_of g /\ (order_ok g -> order_ok g1))
      by (intros; by apply shape_fields).
    destruct (IH g1 fb1) as (k' & g' & fb' & Hk' & T' & S' & Hd' & Hfb').
    + pose proof (remaining_next g g1 Hr Ho M Ed). lia.
    + done.
    + by rewrite Mp, Eph.
    + by destruct (Hsh 0) as (_ & _ & _ & -> & _).
    + by apply (Hsh 0).
    + intros i Hi. destruct (Hsh i) as (-> & -> & Ein & _). rewrite (Hnew i) by done.
      destruct (drawn_at g i) eqn:Edr; [|done]. cbn [andb].
      rewrite (behind_next g g1 i); try done. unfold drawn_at in Edr. by bools.
    + exists (k + k')%nat, g', fb'. split; [lia|]. split; [by rewrite gticks_app, T|]. split; [done|]. split; [done|].
      intros i Hi. destruct (Hsh i) as (<- & <- & _). by apply Hfb'.
Qed.

(** From the end of SETUP: the scan of the rectangle [g] describes. *)
Lemma scan_run g fb :
  gpu_ok (buf_len ram) 76800 (setup_scan g) -> fb_ok fb -> command_tick g = false -> op_of g <> GPU_LINE -> order_ok g ->
  step g = 1 \/ step g = -1 ->
  exists k g' fb', Z.of_nat k <= 4 * 76800 /\ gticks k (setup_scan g) fb = Ok (g', fb') /\ state_ok g' fb' /\
    status g' = GPU_DONE /\
    forall i, 0 <= i < 76800 -> byte_at fb' i = if drawn_at g i then value_at g fb i else byte_at fb i.
Proof.
  intros Hg Hfb Hc Ho Hord Hst. unfold setup_scan in *.
  destruct ((hi g <=? lo g) || (bottom g <=? top g)) eqn:Ee.
  - exists 0%nat, (finish g), fb. split; [lia|]. split; [done|]. split; [done|]. split; [done|]. intros i _.
    assert (in_rect g i = false) as E; [|unfold drawn_at; by rewrite E].
    apply not_true_is_false. intros Hi. unfold in_rect in Hi. apply orb_true_iff in Ee. bools. destruct Ee; bools; lia.
  - set (g1 := {| g with x := _; y := _; phase := SCAN |}) in *. bools.
    assert (Es : shape g1 = shape g) by done.
    assert (Hr : rect_ok g1) by (destruct Hg; by destruct (ok_drawing0 ltac:(done) ltac:(done)) as (_ & D2 & _); auto).
    pose proof (remaining_nonneg g1 Hr) as Hrem.
    destruct (rect_run fb (Z.to_nat (remaining g1)) g1 fb) as (k & g' & fb' & Hk & T & S & Hd & Hfb'); try done; [lia| |].
    { intros i Hi. assert (drawn_at g1 i && behind g1 i = false) as ->; [|done].
      destruct (drawn_at g1 i) eqn:Ed; [|done]. unfold drawn_at, in_rect in Ed. bools.
      unfold behind, cursor. cbn in *. destruct Hst as [Est|Est]; rewrite Est; cbn; apply Z.ltb_ge; zlia. }
    exists k, g', fb'. split; [lia|]. split; [done|]. split; [done|]. split; [done|].
    intros i Hi. rewrite Hfb' by done. destruct (shape_fields g g1 fb i Es) as (-> & -> & _). done.
Qed.

(** ** The commands, by their parameters *)

Section Command.
Context (q : Z -> Z) (fb0 : buffer).

(** The pixel [(px, py)] of the command's rectangle. *)
Definition fill_hit (px py : Z) : bool :=
  (s32 (q GP_X0) <=? px) && (px <? s32 (q GP_X0) + q GP_W) && (s32 (q GP_Y0) <=? py) && (py <? s32 (q GP_Y0) + q GP_H).
(** The source pixel a blit copies to it. *)
Definition blit_u (px : Z) : Z := s32 (q GP_SX) + px - s32 (q GP_X0).
Definition blit_v (py : Z) : Z := s32 (q GP_SY) + py - s32 (q GP_Y0).
Definition blit_hit (px py : Z) : bool :=
  fill_hit px py && (0 <=? blit_u px) && (blit_u px <? q GP_SW) && (0 <=? blit_v py) && (blit_v py <? q GP_SH).
Definition blit_source (px py : Z) : Z :=
  let off := blit_v py * q GP_STRIDE + blit_u px in
  if q GP_SRC =? 0x12000000 then byte_at fb0 off else byte_at ram (q GP_SRC - 0x80000000 + off).
(** A triangle's vertices in positive orientation; nothing for a degenerate one. *)
Definition triangle_hit (px py : Z) : bool :=
  let x0 := s32 (q GP_X0) in let y0 := s32 (q GP_Y0) in
  let x1 := s32 (q GP_X1) in let y1 := s32 (q GP_Y1) in
  let x2 := s32 (q GP_X2) in let y2 := s32 (q GP_Y2) in
  let area := (x1 - x0) * (y2 - y0) - (y1 - y0) * (x2 - x0) in
  let hit bx by_ cx cy :=
    (Z.min x0 (Z.min bx cx) <=? px) && (px <? Z.max x0 (Z.max bx cx)) &&
    (Z.min y0 (Z.min by_ cy) <=? py) && (py <? Z.max y0 (Z.max by_ cy)) &&
    (inside x0 y0 bx by_ px py && inside bx by_ cx cy px py && inside cx cy x0 y0 px py) in
  if area =? 0 then false else if area <? 0 then hit x2 y2 x1 y1 else hit x1 y1 x2 y2.

(** The byte a fill, blit or triangle leaves at [i]. *)
Definition expected (i : Z) : Z :=
  let px := i mod 320 in
  let py := i / 320 in
  if q GP_OP =? GPU_BLIT then if blit_hit px py then blit_source px py else byte_at fb0 i
  else if q GP_OP =? GPU_TRIANGLE then if triangle_hit px py then u8 (q GP_COLOR) else byte_at fb0 i
  else if fill_hit px py then u8 (q GP_COLOR) else byte_at fb0 i.
End Command.

Lemma pixel_range i : 0 <= i < 76800 -> 0 <= i mod 320 < 320 /\ 0 <= i / 320 < 240.
Proof. intros. split; zlia. Qed.

(** Clipping to the screen does not matter on the screen. *)
Lemma clip_lo a b : 0 <= b -> (Z.max 0 a <=? b) = (a <=? b).
Proof. intros. apply eq_true_iff_eq. rewrite !Z.leb_le. lia. Qed.
Lemma clip_hi w a b : b < w -> (b <? Z.min w a) = (b <? a).
Proof. intros. apply eq_true_iff_eq. rewrite !Z.ltb_lt. lia. Qed.
Lemma max_leb a b c : (Z.max a b <=? c) = (a <=? c) && (b <=? c).
Proof. apply eq_true_iff_eq. rewrite andb_true_iff, !Z.leb_le. lia. Qed.
Lemma ltb_min a b c : (c <? Z.min a b) = (c <? a) && (c <? b).
Proof. apply eq_true_iff_eq. rewrite andb_true_iff, !Z.ltb_lt. lia. Qed.

Abbreviation gok := (gpu_ok (buf_len ram) 76800).

Lemma fill_expected g fb i :
  gok g -> valid_params g (buf_len ram) -> op_of g = GPU_FILL -> 0 <= i < 76800 ->
  let gs := set_step (setup_rect (load_coords g) GPU_FILL) in
  (if drawn_at gs i then value_at gs fb i else byte_at fb i) = expected (par g) fb i.
Proof.
  intros Hg [] Ho Hi gs. destruct (vp_size0 (or_introl Ho)) as [Hw Hh].
  pose proof (pixel_range i Hi) as [Hpx Hpy].
  assert (Ew : s32 (par g GP_W) = par g GP_W) by (by apply (s32_size (buf_len ram) 76800)).
  assert (Eh : s32 (par g GP_H) = par g GP_H) by (by apply (s32_size (buf_len ram) 76800)).
  assert (Eop : op_of gs = GPU_FILL) by done.
  unfold drawn_at, value_at, color, expected. change (op_of (put gs i)) with (op_of gs). rewrite Eop.
  unfold op_of in Ho. rewrite Ho. cbn [Z.eqb Pos.eqb GPU_FILL GPU_TRIANGLE GPU_BLIT]. rewrite andb_true_r.
  assert (in_rect gs i = fill_hit (par g) (i mod 320) (i / 320)) as ->; [|done].
  unfold in_rect, fill_hit, gs. cbn [set_step lo hi top bottom].
  destruct (setup_rect_bounds (load_coords g) GPU_FILL) as (-> & -> & -> & ->); [by left|].
  rewrite !clip_lo, !clip_hi by lia. cbn [load_coords ax ay].
  change (par (load_coords g)) with (par g). by rewrite Ew, Eh.
Qed.

Lemma blit_expected g fb i :
  gok g -> valid_params g (buf_len ram) -> op_of g = GPU_BLIT -> 0 <= i < 76800 ->
  let gs := setup_blit (set_step (setup_rect (load_coords g) GPU_BLIT)) in
  (if drawn_at gs i then value_at gs fb i else byte_at fb i) = expected (par g) fb i.
Proof.
  intros Hg [] Ho Hi gs. destruct (vp_size0 (or_intror Ho)) as [Hw Hh].
  destruct (vp_src0 Ho) as (Hsx & Hsy & Hsw & Hsh & Hst & Hsrc).
  pose proof (pixel_range i Hi) as [Hpx Hpy].
  assert (E : forall k, 0 <= k < 16 -> par g k <= 2048 -> s32 (par g k) = par g k)
    by (intros; by apply (s32_size (buf_len ram) 76800)).
  assert (Eop : op_of gs = GPU_BLIT) by done.
  assert (Ein : in_rect gs i = blit_hit (par g) (i mod 320) (i / 320)).
  { unfold in_rect, blit_hit, blit_u, blit_v, fill_hit, gs, setup_blit. cbn [set_step lo hi top bottom ax ay].
    destruct (setup_rect_bounds (load_coords g) GPU_BLIT) as (-> & -> & -> & ->); [by right|].
    change (ax (setup_rect (load_coords g) GPU_BLIT)) with (s32 (par g GP_X0)).
    change (ay (setup_rect (load_coords g) GPU_BLIT)) with (s32 (par g GP_Y0)).
    change (par (set_step (setup_rect (load_coords g) GPU_BLIT))) with (par g).
    cbn [load_coords ax ay]. change (par (load_coords g)) with (par g). rewrite (E GP_W), (E GP_H), (E GP_SW), (E GP_SH) by (done || lia).
    apply eq_true_iff_eq. rewrite !andb_true_iff, !Z.leb_le, !Z.ltb_lt. lia. }
  unfold drawn_at, value_at, color, expected. change (op_of (put gs i)) with (op_of gs). rewrite Eop.
  unfold op_of in Ho. rewrite Ho. cbn [Z.eqb Pos.eqb GPU_TRIANGLE GPU_BLIT]. rewrite andb_true_r, Ein.
  destruct (blit_hit (par g) (i mod 320) (i / 320)) eqn:Eh; [|done].
  change (par (put gs i)) with (par g). unfold blit_source.
  assert (Eoff : source_offset (put gs i) = blit_v (par g) (i / 320) * par g GP_STRIDE + blit_u (par g) (i mod 320)).
  { unfold source_offset. change (par (put gs i)) with (par g). cbn [put x y ax ay gs].
    change (ax gs) with (s32 (par g GP_X0)). change (ay gs) with (s32 (par g GP_Y0)).
    fold (blit_u (par g) (i mod 320)) (blit_v (par g) (i / 320)). unfold blit_hit in Eh. bools.
    assert (B : 0 <= blit_v (par g) (i / 320) * par g GP_STRIDE <= 2047 * 65535)
      by (split; [apply Z.mul_nonneg_nonneg|apply Z.mul_le_mono_nonneg]; lia).
    assert (U : forall z, 0 <= z <= 0xfffffff -> u32 z = z) by (intros; apply u32_id; unfold is_u32; lia).
    rewrite (U (blit_v (par g) (i / 320))) by lia. rewrite (U (blit_u (par g) (i mod 320))) by lia.
    apply U. lia. }
  by rewrite Eoff.
Qed.

Lemma triangle_expected g fb i :
  op_of g = GPU_TRIANGLE -> 0 <= i < 76800 ->
  let g3 := set_step (setup_rect (load_coords g) GPU_TRIANGLE) in
  let gs := setup_triangle g3 (triangle_area g3) in
  (if triangle_area g3 =? 0 then byte_at fb i
   else if drawn_at gs i then value_at gs fb i else byte_at fb i) = expected (par g) fb i.
Proof.
  intros Ho Hi g3 gs. pose proof (pixel_range i Hi) as [Hpx Hpy].
  assert (Eop : op_of gs = GPU_TRIANGLE) by (unfold gs, setup_triangle; by case (_ <? 0)).
  assert (Ep : par gs GP_COLOR = par g GP_COLOR) by (unfold gs, setup_triangle; by case (_ <? 0)).
  unfold drawn_at, value_at, color, expected. change (op_of (put gs i)) with (op_of gs). rewrite Eop.
  unfold op_of in Ho. rewrite Ho. cbn [Z.eqb Pos.eqb GPU_TRIANGLE GPU_BLIT].
  change (par (put gs i)) with (par gs). rewrite Ep. unfold triangle_hit.
  change ((s32 (par g GP_X1) - s32 (par g GP_X0)) * (s32 (par g GP_Y2) - s32 (par g GP_Y0))
          - (s32 (par g GP_Y1) - s32 (par g GP_Y0)) * (s32 (par g GP_X2) - s32 (par g GP_X0))) with (triangle_area g3).
  destruct (triangle_area g3 =? 0); [done|].
  unfold gs, setup_triangle, in_rect, in_triangle. destruct (triangle_area g3 <? 0); cbn [lo hi top bottom ax ay bx by_ cx cy];
    rewrite !clip_lo, !clip_hi by lia; done.
Qed.

(** ** Lines *)

(** The loop of gpu_ref.c's line: the points from [(x, y)] on; [n] bounds the
    steps left. *)
Fixpoint bresenham (n : nat) (x y err x1 y1 dx dy sy : Z) : list (Z * Z) :=
  (x, y) ::
  if (x =? x1) && (y =? y1) then []
  else match n with
  | O => []
  | S n' =>
      let e2 := 2 * err in
      let along := - dy <=? e2 in
      let across := e2 <=? dx in
      bresenham n' (if along then x + 1 else x) (if across then y + sy else y)
        (err - (if along then dy else 0) + (if across then dx else 0)) x1 y1 dx dy sy
  end.

Definition on_screen (pt : Z * Z) : bool :=
  (0 <=? fst pt) && (fst pt <? 320) && (0 <=? snd pt) && (snd pt <? 240).
Definition line_hit (pts : list (Z * Z)) (i : Z) : bool :=
  existsb (fun pt => on_screen pt && (i =? snd pt * 320 + fst pt)) pts.

(** The points of a command's line, from its lesser endpoint. *)
Definition line_points (q : Z -> Z) : list (Z * Z) :=
  let x0 := s32 (q GP_X0) in let y0 := s32 (q GP_Y0) in
  let x1 := s32 (q GP_X1) in let y1 := s32 (q GP_Y1) in
  let swap := (x1 <? x0) || ((x0 =? x1) && (y1 <? y0)) in
  let ax := if swap then x1 else x0 in let ay := if swap then y1 else y0 in
  let bx := if swap then x0 else x1 in let by_ := if swap then y0 else y1 in
  let dx := bx - ax in
  let dy := if by_ - ay <? 0 then - (by_ - ay) else by_ - ay in
  let sy := if by_ - ay <? 0 then -1 else 1 in
  bresenham (Z.to_nat (dx + dy)) ax ay (dx - dy) bx by_ dx dy sy.

Lemma line_covered g : op_of g = GPU_LINE -> covered g = on_screen (x g, y g).
Proof. intros Ho. unfold covered, on_screen. fold (op_of g). rewrite Ho. cbn. by rewrite andb_true_r. Qed.

Lemma moved_line g g' :
  op_of g = GPU_LINE -> moved g g' ->
  p g' = p g /\ bx g' = bx g /\ by_ g' = by_ g /\ dx g' = dx g /\ dy g' = dy g /\ sy g' = sy g /\
  x g' = x (line_next g) /\ y g' = y (line_next g) /\ err g' = err (line_next g).
Proof.
  intros Ho (E & _ & _). unfold advance in E. fold (op_of g) in E. rewrite Ho in E. unfold geometry in E. cbn in E.
  injection E. intros. by repeat (split; [done|]).
Qed.

Lemma line_run n g fb i j :
  line_at g i j -> dx g + dy g - (i + j) <= Z.of_nat n ->
  state_ok g fb -> phase g = SCAN -> op_of g = GPU_LINE ->
  exists k g' fb', (k <= 4 * (n + 1))%nat /\ gticks k g fb = Ok (g', fb') /\ state_ok g' fb' /\ status g' = GPU_DONE /\
    forall c, byte_at fb' c =
      if line_hit (bresenham n (x g) (y g) (err g) (bx g) (by_ g) (dx g) (dy g) (sy g)) c
      then u8 (par g GP_COLOR) else byte_at fb c.
Proof.
  revert g fb i j. induction n as [|n IH]; intros g fb i j L Hn S Hp Ho.
  all: destruct (pixel_ticks g fb S Hp) as (k & g1 & fb1 & Hk & T & S1 & M & Hplot).
  all: assert (Est : status (advance g) = if line_done g then GPU_DONE else GPU_BUSY)
    by (destruct (advance_frame g) as (_ & _ & -> & _); by rewrite Ho).
  all: assert (Eph : phase (advance g) = if line_done g then IDLE else SCAN)
    by (destruct (advance_frame g) as (_ & _ & _ & ->); by rewrite Ho).
  all: pose proof M as (_ & Ms & Mp).
  all: assert (Hcol : color g fb = u8 (par g GP_COLOR)) by (unfold color; by rewrite Ho).
  all: unfold plotted in Hplot; rewrite Hcol, (line_covered g Ho) in Hplot.
  all: cbn [bresenham]; change ((x g =? bx g) && (y g =? by_ g)) with (line_done g).
  all: destruct (line_done g) eqn:Ed.
  1,3: exists k, g1, fb1; split; [lia|]; split; [done|]; split; [done|]; split; [by rewrite Ms, Est|];
    intros c; rewrite Hplot; unfold line_hit; cbn; by rewrite orb_false_r.
  - exfalso. destruct (line_next_at g i j L Ed) as (i' & j' & [] & Hij). cbn in *. lia.
  - destruct (line_next_at g i j L Ed) as (i' & j' & L' & Hij).
    destruct (moved_line g g1 Ho M) as (Ep & Ebx & Eby & Edx & Edy & Esy & Ex & Ey & Ee).
    assert (L1 : line_at g1 i' j').
    { destruct M as (E & _ & _). unfold advance in E. fold (op_of g) in E. rewrite Ho in E. unfold geometry in E. cbn in E.
      eapply line_at_ext; [|exact L']. injection E. intros. cbn. congruence. }
    assert (Ho1 : op_of g1 = GPU_LINE) by (unfold op_of; by rewrite (par_eq g)).
    destruct (IH g1 fb1 i' j' L1) as (k' & g' & fb' & Hk' & T' & S' & Hd & Hfb'); try done;
      [rewrite Edx, Edy; lia|by rewrite Mp, Eph|].
    exists (k + k')%nat, g', fb'. split; [lia|]. split; [by rewrite gticks_app, T|]. split; [done|]. split; [done|].
    intros c. rewrite Hfb', Hplot, (par_eq g g1) by done. rewrite Ex, Ey, Ee, Ebx, Eby, Edx, Edy, Esy.
    unfold line_hit. cbn [existsb fst snd line_next x y err]. fold (cursor g).
    change (snd (x g, y g) * 320 + fst (x g, y g)) with (cursor g).
    destruct (on_screen (x g, y g) && (c =? cursor g)); cbn [orb]; [by destruct (existsb _ _)|done].
Qed.

(** ** Whole commands *)

(** The byte a command leaves at [i]. *)
Definition drawn (q : Z -> Z) (fb0 : buffer) (i : Z) : Z :=
  if q GP_OP =? GPU_LINE then if line_hit (line_points q) i then u8 (q GP_COLOR) else byte_at fb0 i
  else expected q fb0 i.

Lemma blit_order g : order_ok (setup_blit (set_step (setup_rect (load_coords g) GPU_BLIT))).
Proof.
  set (gs := setup_blit _). intros _ Esrc. change (par gs GP_SRC) with (par g GP_SRC) in Esrc.
  set (sx0 := s32 (par g GP_SX)). set (sy0 := s32 (par g GP_SY)).
  set (x0 := s32 (par g GP_X0)). set (y0 := s32 (par g GP_Y0)).
  assert (Es : step gs = if (par g GP_SRC =? 0x12000000) && (sy0 * 320 + sx0 <? y0 * 320 + x0) then -1 else 1) by done.
  assert (Ed : displacement gs = (sy0 - y0) * 320 + (sx0 - x0)) by done.
  rewrite Es, Ed, Esrc. cbn [Z.eqb Pos.eqb andb]. destruct (Z.ltb_spec (sy0 * 320 + sx0) (y0 * 320 + x0)); cbn; lia.
Qed.

(** SETUP, by the operation. *)
Lemma setup_cases g :
  setup_valid g (buf_len ram) ws we = true ->
  setup g (buf_len ram) ws we =
    if op_of g =? GPU_LINE then setup_line (load_coords g)
    else if op_of g =? GPU_BLIT then setup_scan (setup_blit (set_step (setup_rect (load_coords g) (op_of g))))
    else if op_of g =? GPU_TRIANGLE then
      let g3 := set_step (setup_rect (load_coords g) (op_of g)) in
      if triangle_area g3 =? 0 then finish g3 else setup_scan (setup_triangle g3 (triangle_area g3))
    else setup_scan (set_step (setup_rect (load_coords g) (op_of g))).
Proof.
  intros Hv. unfold setup. rewrite Hv. cbn [negb]. fold (op_of g).
  destruct (op_of g =? GPU_LINE); [done|]. destruct (Z.eqb_spec (op_of g) GPU_BLIT) as [->|]; [done|].
  by destruct (op_of g =? GPU_TRIANGLE).
Qed.

(** A run from [g] that leaves what the command with parameters [q] draws. *)
Definition draws (q : Z -> Z) (g : gpu_device) (fb : buffer) : Prop :=
  exists k g' fb', Z.of_nat k <= 4 * 76800 /\ gticks k g fb = Ok (g', fb') /\
    state_ok g' fb' /\ status g' = GPU_DONE /\ forall i, 0 <= i < 76800 -> byte_at fb' i = drawn q fb i.

Lemma line_points_setup g :
  let gl := setup_line (load_coords g) in
  line_points (par g) = bresenham (Z.to_nat (dx gl + dy gl)) (x gl) (y gl) (err gl) (bx gl) (by_ gl) (dx gl) (dy gl) (sy gl).
Proof. reflexivity. Qed.

Lemma line_draws g fb :
  valid_params g (buf_len ram) -> op_of g = GPU_LINE -> state_ok (setup_line (load_coords g)) fb ->
  draws (par g) (setup_line (load_coords g)) fb.
Proof.
  intros [] Eo S. destruct vp_a0 as [Hx Hy], (vp_b0 (or_introl Eo)) as [Hx1 Hy1].
  destruct (setup_line_ok (load_coords g)) as (Sr & _ & Ep & L); [done..|].
  pose proof (line_points_setup g) as Epts. cbv zeta in Epts.
  assert (Ec : par (setup_line (load_coords g)) GP_COLOR = par g GP_COLOR) by (rewrite (par_eq g); [done|apply Sr]).
  assert (El : op_of (setup_line (load_coords g)) = GPU_LINE) by (unfold op_of; rewrite (par_eq g); [done|apply Sr]).
  revert S Ep L Epts Ec El. generalize (setup_line (load_coords g)). intros gl S Ep L Epts Ec El.
  destruct (line_run (Z.to_nat (dx gl + dy gl)) gl fb 0 0) as (k & g' & fb' & Hk & T & S' & Hd & Hfb'); try done;
    [destruct L; lia|].
  exists k, g', fb'. destruct L. unfold small in *.
  assert (0 <= dy gl <= 2047) by (destruct ln_sy0 as [[E|E] E']; rewrite E in E'; lia).
  split; [lia|]. split; [done|]. split; [done|]. split; [done|].
  intros i _. rewrite Hfb', <- Epts, Ec. unfold drawn. unfold op_of in Eo. by rewrite Eo.
Qed.

(** A scan draws what its parameters say where they say the same. *)
Lemma scan_draws q gs fb :
  q GP_OP <> GPU_LINE ->
  gok (setup_scan gs) -> fb_ok fb -> command_tick gs = false -> op_of gs <> GPU_LINE -> order_ok gs ->
  step gs = 1 \/ step gs = -1 ->
  (forall i, 0 <= i < 76800 -> (if drawn_at gs i then value_at gs fb i else byte_at fb i) = expected q fb i) ->
  draws q (setup_scan gs) fb.
Proof.
  intros Hq Hg Hfb Hc Ho Hord Hst Hexp.
  destruct (scan_run gs fb Hg Hfb Hc Ho Hord Hst) as (k & g' & fb' & Hk & T & S & Hd & Hfb').
  exists k, g', fb'. split; [done|]. split; [done|]. split; [done|]. split; [done|].
  intros i Hi. rewrite Hfb', Hexp by done. unfold drawn. by rewrite (proj2 (Z.eqb_neq _ _) Hq).
Qed.

Lemma triangle_fields g3 a :
  command_tick (setup_triangle g3 a) = command_tick g3 /\ p (setup_triangle g3 a) = p g3 /\ step (setup_triangle g3 a) = step g3.
Proof. unfold setup_triangle. by destruct (a <? 0). Qed.

(** SETUP of a valid command runs to completion. *)
Lemma setup_run g fb :
  gok g -> gpu_busy g = true -> command_tick g = false -> fb_ok fb -> setup_valid g (buf_len ram) ws we = true ->
  draws (par g) (setup g (buf_len ram) ws we) fb.
Proof.
  intros Hg Hb Hc Hfb Hv. pose proof (setup_ok (buf_len ram) g ws we Hrs Hg Hb) as Hs.
  apply (setup_valid_ok (buf_len ram) 76800) in Hv as V; [|done]. rewrite setup_cases in * by done.
  destruct (Z.eqb_spec (op_of g) GPU_LINE) as [Eo|Nl]; [by apply line_draws|].
  destruct (Z.eqb_spec (op_of g) GPU_BLIT) as [Eo|Nb].
  { rewrite Eo in *. assert (Eq : par g GP_OP <> GPU_LINE) by (fold (op_of g); by rewrite Eo).
    apply scan_draws; try done.
    - apply blit_order.
    - cbn. casif; auto.
    - intros i Hi. by apply blit_expected. }
  destruct (Z.eqb_spec (op_of g) GPU_TRIANGLE) as [Eo|Nt].
  - rewrite Eo in *. cbv zeta in *. pose proof (fun i Hi => triangle_expected g fb i Eo Hi) as Hexp. cbv zeta in Hexp.
    set (g3 := set_step (setup_rect (load_coords g) GPU_TRIANGLE)) in *.
    assert (Ep3 : p g3 = p g) by done. assert (Ec3 : command_tick g3 = false) by done. assert (Es3 : step g3 = 1) by done.
    clearbody g3. destruct (triangle_area g3 =? 0) eqn:Ea.
    + exists 0%nat, (finish g3), fb. split; [lia|]. split; [done|]. split; [done|]. split; [done|]. intros i Hi.
      unfold drawn. unfold op_of in Eo. rewrite Eo. auto.
    + destruct (triangle_fields g3 (triangle_area g3)) as (Ec & Ep & Es).
      assert (E : op_of (setup_triangle g3 (triangle_area g3)) = GPU_TRIANGLE)
        by (unfold op_of; rewrite (par_eq g) by congruence; done).
      assert (Eq : par g GP_OP <> GPU_LINE) by (fold (op_of g); by rewrite Eo).
      apply scan_draws; rewrite ?Ec, ?Es, ?E; try done; [by intros Eb; rewrite E in Eb|by left].
  - assert (Eo : op_of g = GPU_FILL) by (destruct V; unfold GPU_LINE, GPU_BLIT, GPU_TRIANGLE, GPU_FILL in *; lia).
    rewrite Eo in *. assert (Eq : par g GP_OP <> GPU_LINE) by (fold (op_of g); by rewrite Eo).
    apply scan_draws; try done.
    + intros Eb. change (op_of g = GPU_BLIT) in Eb. by rewrite Eo in Eb.
    + by left.
    + intros i Hi. by apply fill_expected.
Qed.
End Draw.

(** ** The engine's theorems *)

(** C15: every MMIO access and every tick of a well-formed G1 engine, held or
    not, is defined: no pixel is read outside RAM or the framebuffer, none is
    written outside the framebuffer, and the engine stays well-formed. *)
Theorem gpu_engine_safe g ram fb hold ws we :
  gpu_ok (buf_len ram) 76800 g -> buf_ok ram -> buf_len ram <= 0x7fffffff -> buf_ok fb -> buf_len fb = 76800 ->
  (exists g' fb', gpu_tick g ram (buf_len ram) fb hold ws we = Ok (g', fb') /\
     gpu_ok (buf_len ram) 76800 g' /\ buf_ok fb' /\ buf_len fb' = 76800) /\
  (forall off width write v, is_u32 off -> is_u32 v ->
     exists o, gpu_access g off width write v = Ok o /\
       match o with Some (w, g') => gpu_ok (buf_len ram) 76800 g' /\ is_u32 w | None => True end).
Proof.
  intros Hg Hram Hlen Hfb Hl. split.
  - destruct (wpr_total _ _ (gpu_tick_wp (buf_len ram) g ram fb hold ws we (conj (proj1 Hram) Hlen) Hg Hram Hfb eq_refl Hl))
      as ([g' fb'] & E & H). by exists g', fb'.
  - intros off width write v Ho Hv. by apply wpr_total, gpu_access_wp.
Qed.

Lemma gpu_engine_safe_witness :
  gpu_ok 64 76800 gpu_device_reset /\
  exists g' fb', gpu_tick gpu_device_reset (buf_zero 64) 64 (buf_zero 76800) true 0 0 = Ok (g', fb') /\
    gpu_ok 64 76800 g' /\ buf_ok fb' /\ buf_len fb' = 76800.
Proof.
  split; [apply gpu_reset_ok|].
  apply (gpu_engine_safe gpu_device_reset (buf_zero 64) (buf_zero 76800) true 0 0);
    [apply gpu_reset_ok|apply buf_zero_ok; lia|cbn; lia|apply buf_zero_ok; lia|reflexivity].
Defined.

(** From START to DONE. *)
Lemma start_draws g ram fb ws we :
  gpu_ok (buf_len ram) 76800 g -> gpu_busy g = false -> buf_ok ram -> buf_len ram <= 0x7fffffff ->
  buf_ok fb -> buf_len fb = 76800 -> setup_valid g (buf_len ram) ws we = true ->
  exists g1 k g' fb',
    gpu_access g GPU_COMMAND 4 true GPU_START = Ok (Some (GPU_START, g1)) /\
    Z.of_nat k <= 4 * 76800 + 2 /\ gticks ram ws we k g1 fb = Ok (g', fb') /\ status g' = GPU_DONE /\
    gpu_ok (buf_len ram) 76800 g' /\
    forall i, 0 <= i < 76800 -> byte_at fb' i = drawn ram (par g) fb i.
Proof.
  intros Hg Hb Hram Hlen Hfb Hl Hv. pose proof (conj (proj1 Hram) Hlen) as Hrs.
  set (g1 := {| g with status := GPU_BUSY; phase := SETUP; error := 0; cycles := 0; stalls := 0; reads := 0;
                       writes := 0; command_tick := true |}).
  assert (A : gpu_access g GPU_COMMAND 4 true GPU_START = Ok (Some (GPU_START, g1))).
  { unfold gpu_access. rewrite Hb. done. }
  assert (Hg1 : gpu_ok (buf_len ram) 76800 g1).
  { pose proof (gpu_access_wp (F := total) (buf_len ram) 76800 g GPU_COMMAND 4 true GPU_START Hg) as H.
    rewrite A in H. apply H; unfold is_u32; vm_compute; intuition congruence. }
  set (g2 := {| g1 with command_tick := false; cycles := 1 |}).
  assert (Hg2 : gpu_ok (buf_len ram) 76800 g2).
  { apply (gpu_ok_ext _ _ g1); try done. by destruct Hg. }
  destruct (setup_run ram ws we Hram Hrs g2 fb Hg2 eq_refl eq_refl (conj Hfb Hl) Hv)
    as (k & g' & fb' & Hk & T & Hst & Hd & Hfb').
  exists g1, (S (S k)), g', fb'. split; [done|]. split; [lia|].
  split; [exact T|]. split; [done|]. split; [apply Hst|]. exact Hfb'.
Qed.

(** C10: a valid command draws what its parameters say.  From START the engine
    reports DONE within [4 * 76800 + 2] ticks, and every pixel is then what
    [drawn] gives: FILL's rectangle clipped to the screen, TRIANGLE's covered
    pixel centres (either orientation, nothing when degenerate), LINE's
    Bresenham points, and BLIT's source pixels as they were when the command
    started, also where source and destination overlap in the framebuffer. *)
Theorem gpu_command_draws g ram fb ws we :
  gpu_ok (buf_len ram) 76800 g -> gpu_busy g = false -> buf_ok ram -> buf_len ram <= 0x7fffffff ->
  buf_ok fb -> buf_len fb = 76800 -> setup_valid g (buf_len ram) ws we = true ->
  exists g1 k g' fb',
    gpu_access g GPU_COMMAND 4 true GPU_START = Ok (Some (GPU_START, g1)) /\
    Z.of_nat k <= 4 * 76800 + 2 /\ gticks ram ws we k g1 fb = Ok (g', fb') /\ status g' = GPU_DONE /\
    gpu_ok (buf_len ram) 76800 g' /\
    forall i, 0 <= i < 76800 -> byte_at fb' i = drawn ram (par g) fb i.
Proof. apply start_draws. Qed.

(** A 3 by 2 fill at (318, 239), clipped to two pixels. *)
Definition corner_fill : gpu_device :=
  {| gpu_device_reset with p := [1; 9; 318; 239; 0; 0; 0; 0; 3; 2; 0; 0; 0; 0; 0; 0] |}.

Lemma corner_fill_ok : gpu_ok 64 76800 corner_fill.
Proof. split; try done. repeat constructor; unfold is_u32; lia. Qed.

Lemma gpu_command_draws_witness :
  exists g1 k g' fb',
    gpu_access corner_fill GPU_COMMAND 4 true GPU_START = Ok (Some (GPU_START, g1)) /\
    Z.of_nat k <= 4 * 76800 + 2 /\ gticks (buf_zero 64) 0 0 k g1 (buf_zero 76800) = Ok (g', fb') /\
    status g' = GPU_DONE /\ gpu_ok 64 76800 g' /\
    forall i, 0 <= i < 76800 -> byte_at fb' i = drawn (buf_zero 64) (par corner_fill) (buf_zero 76800) i.
Proof.
  apply (gpu_command_draws corner_fill (buf_zero 64) (buf_zero 76800) 0 0);
    [apply corner_fill_ok|reflexivity|apply buf_zero_ok; lia|cbn; lia|apply buf_zero_ok; lia|reflexivity|reflexivity].
Defined.

Example corner_fill_pixels :
  map (drawn (buf_zero 64) (par corner_fill) (buf_zero 76800)) [76797; 76798; 76799; 76479] = [0; 9; 9; 0].
Proof. reflexivity. Qed.

Lemma setup_status g rs ws we :
  status g = GPU_BUSY ->
  if setup_valid g rs ws we then status (setup g rs ws we) <> GPU_FAULT else status (setup g rs ws we) = GPU_FAULT.
Proof.
  intros Hb. unfold setup. destruct (setup_valid g rs ws we); cbn [negb]; [|done].
  assert (S : forall g', status g' = GPU_BUSY -> status (setup_scan g') <> GPU_FAULT)
    by (intros g' E; unfold setup_scan; casif; cbn; rewrite ?E; done).
  assert (R : status (set_step (setup_rect (load_coords g) (par g GP_OP))) = GPU_BUSY) by (unfold setup_rect; by casif).
  casif; [cbn; by rewrite Hb|]. set (g2 := set_step _) in *. cbv zeta.
  assert (B : status (if par g GP_OP =? GPU_BLIT then setup_blit g2 else g2) = GPU_BUSY) by (by casif).
  revert B. generalize (if par g GP_OP =? GPU_BLIT then setup_blit g2 else g2). intros g3 B.
  casif; [|by apply S]. casif; [done|]. apply S. unfold setup_triangle. by casif.
Qed.

(** What happens on a tick in FAULT: nothing. *)
Lemma fault_stays n ram ws we g fb :
  command_tick g = false -> gpu_busy g = false -> gticks ram ws we n g fb = Ok (g, fb).
Proof.
  intros Hc Hb. induction n as [|n IH]; [done|]. cbn [gticks]. unfold gpu_tick. rewrite Hc, Hb. exact IH.
Qed.

(** C16: exactly the unacceptable commands are refused, and a refused one draws
    nothing.  Two ticks after START the framebuffer is the one given; the engine
    reports FAULT if and only if the parameters are not [acceptable] (operation
    in range, colour a byte, the operation's coordinates in -1024..1023 and
    sizes at most 2048, and for a blit a source lying in the framebuffer or in
    RAM and the process's window); and a refused command has error INVALID, no
    transfer counted, and nothing changes however long it is ticked. *)
Theorem gpu_invalid_faults g ram fb ws we :
  gpu_ok (buf_len ram) 76800 g -> gpu_busy g = false ->
  exists g1 g', gpu_access g GPU_COMMAND 4 true GPU_START = Ok (Some (GPU_START, g1)) /\
    gticks ram ws we 2 g1 fb = Ok (g', fb) /\
    (status g' = GPU_FAULT <-> ~ acceptable g (buf_len ram) ws we) /\
    (status g' = GPU_FAULT ->
       error g' = GPU_INVALID /\ reads g' = 0 /\ writes g' = 0 /\ stalls g' = 0 /\
       forall n, gticks ram ws we (2 + n) g1 fb = Ok (g', fb)).
Proof.
  intros Hg Hb.
  set (g1 := {| g with status := GPU_BUSY; phase := SETUP; error := 0; cycles := 0; stalls := 0; reads := 0;
                       writes := 0; command_tick := true |}).
  set (g2 := {| g1 with command_tick := false; cycles := 1 |}).
  exists g1, (setup g2 (buf_len ram) ws we). split; [unfold gpu_access; by rewrite Hb|].
  assert (R : gticks ram ws we 2 g1 fb = Ok (setup g2 (buf_len ram) ws we, fb)) by reflexivity.
  split; [exact R|]. rewrite <- (setup_valid_iff (buf_len ram) 76800) by done.
  change (setup_valid g (buf_len ram) ws we) with (setup_valid g2 (buf_len ram) ws we).
  pose proof (setup_status g2 (buf_len ram) ws we eq_refl) as Hst.
  split.
  - destruct (setup_valid g2 (buf_len ram) ws we); [by split|]. by rewrite Hst.
  - intros Hf. destruct (setup_valid g2 (buf_len ram) ws we) eqn:E; [done|].
    assert (Es : setup g2 (buf_len ram) ws we = {| g2 with status := GPU_FAULT; error := GPU_INVALID; phase := IDLE |})
      by (unfold setup; by rewrite E).
    rewrite Es in R |- *. do 4 (split; [done|]). intros n. rewrite gticks_app, R. by apply fault_stays.
Qed.

(** A blit from RAM whose last row ends one byte past the window. *)
Definition over_blit : gpu_device :=
  {| gpu_device_reset with p := [2; 0; 0; 0; 0; 0; 0; 0; 4; 4; 0x80000000; 8; 4; 2; 0; 0] |}.

Lemma gpu_invalid_faults_witness :
  exists g1 g', gpu_access over_blit GPU_COMMAND 4 true GPU_START = Ok (Some (GPU_START, g1)) /\
    gticks (buf_zero 64) 0x80000000 0x8000000b 2 g1 (buf_zero 76800) = Ok (g', buf_zero 76800) /\
    (status g' = GPU_FAULT <-> ~ acceptable over_blit 64 0x80000000 0x8000000b) /\
    (status g' = GPU_FAULT ->
       error g' = GPU_INVALID /\ reads g' = 0 /\ writes g' = 0 /\ stalls g' = 0 /\
       forall n, gticks (buf_zero 64) 0x80000000 0x8000000b (2 + n) g1 (buf_zero 76800) = Ok (g', buf_zero 76800)).
Proof.
  apply (gpu_invalid_faults over_blit (buf_zero 64) (buf_zero 76800)); [|reflexivity].
  split; try done. repeat constructor; unfold is_u32; lia.
Defined.

Example over_blit_refused :
  setup_valid over_blit 64 0x80000000 0x8000000b = false /\ setup_valid over_blit 64 0x80000000 0x8000000c = true.
Proof. done. Qed.

End GpuDraw.
