(* ===== verification/GpuWidth.v ===== *)
(** * G1 at C's widths: the engine with signed overflow undefined

    [Gpu] computes C's [int32_t] expressions in [Z].  Here every signed
    operation of tools/rv32_gpu.c is written out at its width, [Stuck] when its
    value does not fit, and the two engines are shown to be the same one on
    every well-formed state: no intermediate result of any phase overflows. *)

From S2P Require Import Prelude Effects Buffer Gpu GpuProofs.

Module GpuWidth.
Import Gpu GpuProofs.

(** ** The engine, operation by operation *)

Definition edge_c (ax ay bx by_ x y : Z) : res Z :=
  ux ← int32 (bx - ax); y2 ← int32 (2 * y); y3 ← int32 (y2 + 1); a2 ← int32 (2 * ay); fy ← int32 (y3 - a2);
  uy ← int32 (by_ - ay); x2 ← int32 (2 * x); x3 ← int32 (x2 + 1); b2 ← int32 (2 * ax); fx ← int32 (x3 - b2);
  s ← int32 (ux * fy); t ← int32 (uy * fx); int32 (s - t).

Definition inside_c (ax ay bx by_ x y : Z) : res bool :=
  e ← edge_c ax ay bx by_ x y;
  mret ((0 <? e) || ((e =? 0) && ((by_ <? ay) || ((by_ =? ay) && (ax <? bx))))).

Definition setup_line_c (g : gpu_device) : res gpu_device :=
  let swap := (bx g <? ax g) || ((ax g =? bx g) && (by_ g <? ay g)) in
  let ax' := if swap then bx g else ax g in
  let bx' := if swap then ax g else bx g in
  let ay' := if swap then by_ g else ay g in
  let by' := if swap then ay g else by_ g in
  ddx ← int32 (bx' - ax'); ddy ← int32 (by' - ay');
  let sy' := if ddy <? 0 then -1 else 1 in
  ddy' ← if ddy <? 0 then int32 (- ddy) else mret ddy;
  e ← int32 (ddx - ddy');
  mret {| g with ax := ax'; ay := ay'; bx := bx'; by_ := by'; x := ax'; y := ay';
                 dx := ddx; dy := ddy'; sy := sy'; err := e; phase := SCAN |}.

Definition setup_rect_c (g : gpu_device) (op : Z) : res gpu_device :=
  if (op =? GPU_FILL) || (op =? GPU_BLIT) then
    r ← int32 (ax g + s32 (par g GP_W)); b ← int32 (ay g + s32 (par g GP_H));
    mret {| g with lo := Z.max 0 (ax g); top := Z.max 0 (ay g); hi := Z.min 320 r; bottom := Z.min 240 b |}
  else mret g.

Definition setup_blit_c (g : gpu_device) : res gpu_device :=
  let sx := s32 (par g GP_SX) in
  let sy0 := s32 (par g GP_SY) in
  l ← int32 (ax g - sx); t ← int32 (ay g - sy0);
  r0 ← int32 (ax g + s32 (par g GP_SW)); r ← int32 (r0 - sx);
  b0 ← int32 (ay g + s32 (par g GP_SH)); b ← int32 (b0 - sy0);
  st ← if par g GP_SRC =? 0x12000000 then
         d0 ← int32 (ay g * 320); d1 ← int32 (d0 + ax g); s0 ← int32 (sy0 * 320); s1 ← int32 (s0 + sx);
         mret (if s1 <? d1 then -1 else step g)
       else mret (step g);
  mret {| g with lo := Z.max (lo g) l; top := Z.max (top g) t; hi := Z.min (hi g) r; bottom := Z.min (bottom g) b;
                 step := st |}.

Definition setup_scan_c (g : gpu_device) : res gpu_device :=
  if (hi g <=? lo g) || (bottom g <=? top g) then mret (finish g)
  else
    x' ← if 0 <? step g then mret (lo g) else int32 (hi g - 1);
    y' ← if 0 <? step g then mret (top g) else int32 (bottom g - 1);
    mret {| g with x := x'; y := y'; phase := SCAN |}.

Definition triangle_area_c (g : gpu_device) : res Z :=
  ux ← int32 (bx g - ax g); vy ← int32 (cy g - ay g); uy ← int32 (by_ g - ay g); vx ← int32 (cx g - ax g);
  s ← int32 (ux * vy); t ← int32 (uy * vx); int32 (s - t).

Definition setup_c (g : gpu_device) (ram_size window_start window_end : Z) : res gpu_device :=
  let op := par g GP_OP in
  if negb (setup_valid g ram_size window_start window_end) then
    mret {| g with status := GPU_FAULT; error := GPU_INVALID; phase := IDLE |}
  else
    let g1 := load_coords g in
    if op =? GPU_LINE then setup_line_c g1
    else
      r ← setup_rect_c g1 op;
      let g2 := set_step r in
      g3 ← if op =? GPU_BLIT then setup_blit_c g2 else mret g2;
      if op =? GPU_TRIANGLE then
        area ← triangle_area_c g3;
        if area =? 0 then mret (finish g3) else setup_scan_c (setup_triangle g3 area)
      else setup_scan_c g3.

(** C's [&&]: the next edge is tested only inside the ones before it. *)
Definition in_triangle_c (g : gpu_device) (px py : Z) : res bool :=
  i0 ← inside_c (ax g) (ay g) (bx g) (by_ g) px py;
  i1 ← if i0 : bool then inside_c (bx g) (by_ g) (cx g) (cy g) px py else mret false;
  if i1 : bool then inside_c (cx g) (cy g) (ax g) (ay g) px py else mret false.

Definition covered_c (g : gpu_device) : res bool :=
  let on_screen := (0 <=? x g) && (x g <? 320) && (0 <=? y g) && (y g <? 240) in
  if on_screen && (par g GP_OP =? GPU_TRIANGLE) then in_triangle_c g (x g) (y g) else mret on_screen.

Definition scan_c (g : gpu_device) : res gpu_device :=
  c ← covered_c g;
  mret {| g with pixel := u8 (par g GP_COLOR);
                 phase := if c : bool then (if par g GP_OP =? GPU_BLIT then READ else WRITE) else ADVANCE |}.

Definition read_pixel_c (g : gpu_device) (ram fb : buffer) : res gpu_device :=
  v0 ← int32 (s32 (par g GP_SY) + y g); v1 ← int32 (v0 - ay g);
  u0 ← int32 (s32 (par g GP_SX) + x g); u1 ← int32 (u0 - ax g);
  let off := u32 (u32 v1 * par g GP_STRIDE + u32 u1) in
  w ← (if par g GP_SRC =? 0x12000000 then buf_get fb off
       else buf_get ram (u32 (par g GP_SRC - 0x80000000 + off)));
  mret {| g with pixel := w; reads := u32 (reads g + 1); phase := WRITE |}.

Definition write_pixel_c (g : gpu_device) (fb : buffer) : res (gpu_device * buffer) :=
  row ← int32 (y g * 320); at0 ← int32 (row + x g);
  fb' ← buf_set fb at0 (pixel g);
  mret ({| g with fb_written := true; fb_written_at := u32 at0; writes := u32 (writes g + 1); phase := ADVANCE |}, fb').

Definition line_next_c (g : gpu_device) : res gpu_device :=
  e2 ← int32 (2 * err g); nd ← int32 (- dy g);
  let along := nd <=? e2 in
  let across := e2 <=? dx g in
  e1 ← if along then int32 (err g - dy g) else mret (err g);
  x' ← if along then int32 (x g + 1) else mret (x g);
  e' ← if across then int32 (e1 + dx g) else mret e1;
  y' ← if across then int32 (y g + sy g) else mret (y g);
  mret {| g with err := e'; x := x'; y := y' |}.

Definition rect_next_c (g : gpu_device) : res (bool * gpu_device) :=
  last_x ← if 0 <? step g then int32 (hi g - 1) else mret (lo g);
  if x g =? last_x then
    last_y ← if 0 <? step g then int32 (bottom g - 1) else mret (top g);
    x' ← if 0 <? step g then mret (lo g) else int32 (hi g - 1);
    y' ← int32 (y g + step g);
    mret (y g =? last_y, {| g with x := x'; y := y' |})
  else x' ← int32 (x g + step g); mret (false, {| g with x := x' |}).

Definition advance_c (g : gpu_device) : res gpu_device :=
  r ← if par g GP_OP =? GPU_LINE then n ← line_next_c g; mret (line_done g, n) else rect_next_c g;
  let '(done, g1) := r in
  mret {| g1 with status := if done : bool then GPU_DONE else GPU_BUSY; phase := if done : bool then IDLE else SCAN |}.

Definition gpu_tick_c (g : gpu_device) (ram : buffer) (ram_size : Z) (fb : buffer) (hold : bool)
    (window_start window_end : Z) : res (gpu_device * buffer) :=
  if command_tick g then mret ({| g with command_tick := false |}, fb)
  else if negb (gpu_busy g) then mret (g, fb)
  else
    let g1 := {| g with cycles := u32 (cycles g + 1) |} in
    match phase g with
    | SETUP => g2 ← setup_c g1 ram_size window_start window_end; mret (g2, fb)
    | SCAN => g2 ← scan_c g1; mret (g2, fb)
    | READ =>
        if hold then mret ({| g1 with stalls := u32 (stalls g1 + 1) |}, fb)
        else g2 ← read_pixel_c g1 ram fb; mret (g2, fb)
    | WRITE =>
        if hold then mret ({| g1 with stalls := u32 (stalls g1 + 1) |}, fb)
        else write_pixel_c g1 fb
    | ADVANCE => g2 ← advance_c g1; mret (g2, fb)
    | IDLE => mret ({| g1 with status := GPU_FAULT; error := GPU_INTERNAL; phase := IDLE |}, fb)
    end.

(** ** Nothing overflows *)

Lemma bind_int32 {A} z (f : Z -> res A) : is_s32 z -> (int32 z ≫= f) = f z.
Proof. intros Hz. by rewrite int32_ok. Qed.

Lemma small_bnd z : small z -> bnd 2048 z.
Proof. unfold small, bnd. lia. Qed.

Ltac step32 := rewrite bind_int32 by solve_s32.

Lemma edge_exact ax ay bx by_ x y :
  bnd 2048 ax -> bnd 2048 ay -> bnd 2048 bx -> bnd 2048 by_ -> bnd 2048 x -> bnd 2048 y ->
  edge_c ax ay bx by_ x y = Ok (edge ax ay bx by_ x y).
Proof. intros. unfold edge_c. do 12 step32. by rewrite int32_ok by solve_s32. Qed.

Lemma inside_exact ax ay bx by_ x y :
  bnd 2048 ax -> bnd 2048 ay -> bnd 2048 bx -> bnd 2048 by_ -> bnd 2048 x -> bnd 2048 y ->
  inside_c ax ay bx by_ x y = Ok (inside ax ay bx by_ x y).
Proof. intros. unfold inside_c. by rewrite edge_exact. Qed.

Lemma setup_line_exact g :
  small (ax g) -> small (ay g) -> small (bx g) -> small (by_ g) -> setup_line_c g = Ok (setup_line g).
Proof.
  intros Ha%small_bnd Hb%small_bnd Hc%small_bnd Hd%small_bnd. unfold setup_line_c, setup_line. cbv zeta.
  set (sw := (_ || _)). assert (P : forall a b, bnd 2048 a -> bnd 2048 b -> bnd 2048 (if sw then a else b)) by (by destruct sw).
  pose proof (P _ _ Ha Hc). pose proof (P _ _ Hc Ha). pose proof (P _ _ Hb Hd). pose proof (P _ _ Hd Hb).
  do 2 step32. destruct (_ - _ <? 0); repeat step32; cbn; by repeat step32.
Qed.

Lemma setup_rect_exact g op :
  small (ax g) -> small (ay g) -> (op = GPU_FILL \/ op = GPU_BLIT -> bnd 2048 (s32 (par g GP_W)) /\ bnd 2048 (s32 (par g GP_H))) ->
  setup_rect_c g op = Ok (setup_rect g op).
Proof.
  intros Ha%small_bnd Hb%small_bnd Hs. unfold setup_rect_c, setup_rect. casif; [|done].
  destruct Hs; [destruct (Z.eqb_spec op GPU_FILL), (Z.eqb_spec op GPU_BLIT); auto; done|]. by do 2 step32.
Qed.

Lemma setup_blit_exact g :
  small (ax g) -> small (ay g) -> small (s32 (par g GP_SX)) -> small (s32 (par g GP_SY)) ->
  bnd 2048 (s32 (par g GP_SW)) -> bnd 2048 (s32 (par g GP_SH)) -> setup_blit_c g = Ok (setup_blit g).
Proof.
  intros Ha%small_bnd Hb%small_bnd Hx%small_bnd Hy%small_bnd Hw Hh. unfold setup_blit_c, setup_blit. cbv zeta.
  do 6 step32. destruct (par g GP_SRC =? 0x12000000); cbn [andb]; [|done]. by do 4 step32.
Qed.

Lemma setup_scan_exact g :
  hi g <= 320 -> bottom g <= 240 -> 0 <= lo g -> 0 <= top g ->
  setup_scan_c g = Ok (setup_scan g).
Proof.
  intros Hh Hb Hl Ht. unfold setup_scan_c, setup_scan. casif; [done|]. bools.
  assert (bnd 2048 (hi g)) by (unfold bnd; lia). assert (bnd 2048 (bottom g)) by (unfold bnd; lia).
  destruct (0 <? step g); [done|]. by do 2 step32.
Qed.

Lemma triangle_area_exact g :
  small (ax g) -> small (ay g) -> triangle_ok g -> triangle_area_c g = Ok (triangle_area g).
Proof.
  intros Ha%small_bnd Hb%small_bnd (H1%small_bnd & H2%small_bnd & H3%small_bnd & H4%small_bnd).
  unfold triangle_area_c. do 6 step32. by rewrite int32_ok by solve_s32.
Qed.

(** The parameters SETUP accepted are small. *)
Lemma size_bnd a b g i : gpu_ok a b g -> 0 <= i < 16 -> par g i <= 2048 -> bnd 2048 (s32 (par g i)).
Proof.
  intros Hg Hi Hs. rewrite (s32_size a b) by done. pose proof (par_u32 _ _ _ i Hg Hi). unfold is_u32, bnd in *. lia.
Qed.

Lemma setup_exact rs g ws we : gpu_ok rs 76800 g -> setup_c g rs ws we = Ok (setup g rs ws we).
Proof.
  intros Hg. unfold setup_c, setup. fold (op_of g). destruct (setup_valid g rs ws we) eqn:Ev; cbn [negb]; [|done].
  destruct (setup_valid_ok rs 76800 g rs ws we Hg Ev) as [Hop _ (Hx & Hy) Hb Hc Hs Hsrc].
  destruct (Z.eqb_spec (op_of g) GPU_LINE) as [Eo|Nl].
  { destruct (Hb (or_introl Eo)) as [Hx1 Hy1]. by apply setup_line_exact. }
  cbv zeta. rewrite setup_rect_exact; [|done|done|].
  2:{ intros Ho. destruct (Hs Ho) as [Hw Hh]. 
    split; [by apply (size_bnd rs 76800 g GP_W)|by apply (size_bnd rs 76800 g GP_H)]. }
  change (Ok ?a ≫= ?f) with (f a). cbv beta.
  destruct (Z.eqb_spec (op_of g) GPU_BLIT) as [Eo|Nb].
  - destruct (Hsrc Eo) as (Hsx & Hsy & Hsw & Hsh & _). rewrite Eo.
    rewrite setup_blit_exact; [|done|done|done|done
      |exact (size_bnd rs 76800 g GP_SW Hg ltac:(done) ltac:(lia))|exact (size_bnd rs 76800 g GP_SH Hg ltac:(done) ltac:(lia))].
    change (Ok ?a ≫= ?f) with (f a). cbv beta. change (GPU_BLIT =? GPU_TRIANGLE) with false.
    apply setup_scan_exact; cbn; lia.
  - change (mret ?a ≫= ?f) with (f a). cbv beta. destruct (Z.eqb_spec (op_of g) GPU_TRIANGLE) as [Eo|Nt].
    + destruct (Hb (or_intror Eo)) as [Hx1 Hy1], (Hc Eo) as [Hx2 Hy2]. rewrite Eo.
      set (g2 := set_step _). rewrite (triangle_area_exact g2) by done.
      change (Ok ?a ≫= ?f) with (f a). cbv beta. casif; [done|].
      apply setup_scan_exact; unfold setup_triangle; destruct (triangle_area g2 <? 0); cbn; lia.
    + assert (op_of g = GPU_FILL) as Eo by (unfold GPU_LINE, GPU_BLIT, GPU_TRIANGLE, GPU_FILL in *; lia).
      rewrite Eo. apply setup_scan_exact; cbn; lia.
Qed.

Lemma scan_exact rs g : gpu_ok rs 76800 g -> phase g = SCAN -> scan_c g = Ok (scan g).
Proof.
  intros [] Hp. destruct ok_drawing0 as (D1 & D2 & D3 & _); [by rewrite Hp..|].
  unfold scan_c, scan. assert (E : covered_c g = Ok (covered g)); [|by rewrite E].
  unfold covered_c, covered. fold (op_of g). destruct (_ && (y g <? 240)) eqn:On; [|done].
  cbn [andb]. destruct (Z.eqb_spec (op_of g) GPU_TRIANGLE) as [Et|]; [|done]. bools.
  assert (Nl : op_of g <> GPU_LINE) by (rewrite Et; done). destruct (D2 Nl) as [Ha%small_bnd Hb%small_bnd _ _ _].
  destruct (D3 Et) as (H1'%small_bnd & H2'%small_bnd & H3'%small_bnd & H4'%small_bnd).
  assert (bnd 2048 (x g)) by (unfold bnd; lia). assert (bnd 2048 (y g)) by (unfold bnd; lia).
  unfold in_triangle_c, in_triangle.
  rewrite (inside_exact (ax g)) by done. change (Ok ?a ≫= ?f) with (f a). cbv beta.
  destruct (inside (ax g) _ _ _ _ _); [|done].
  rewrite (inside_exact (bx g)) by done. change (Ok ?a ≫= ?f) with (f a). cbv beta.
  destruct (inside (bx g) _ _ _ _ _); [|done]. by rewrite (inside_exact (cx g)) by done.
Qed.

Lemma read_exact rs g ram fb : gpu_ok rs 76800 g -> phase g = READ -> read_pixel_c g ram fb = read_pixel g ram fb.
Proof.
  intros [] Hp. destruct ok_drawing0 as (D1 & D2 & D3 & D4 & D5 & D6); [by rewrite Hp..|].
  specialize (D6 Hp). destruct (D4 D6) as [Hsx%small_bnd Hsy%small_bnd _ _ _ _ _ _].
  assert (Nl : op_of g <> GPU_LINE) by (rewrite D6; done). destruct (D2 Nl) as [Ha%small_bnd Hb%small_bnd _ _ _].
  destruct (D5 (or_introl Hp)) as [Hx Hy]. assert (bnd 2048 (x g)) by (unfold bnd; lia). assert (bnd 2048 (y g)) by (unfold bnd; lia).
  unfold read_pixel_c, read_pixel, source_offset. by do 4 step32.
Qed.

Lemma write_exact rs g fb : gpu_ok rs 76800 g -> phase g = WRITE -> write_pixel_c g fb = write_pixel g fb.
Proof.
  intros [] Hp. destruct ok_drawing0 as (_ & _ & _ & _ & D5 & _); [by rewrite Hp..|].
  destruct (D5 (or_intror Hp)) as [Hx Hy]. assert (bnd 2048 (x g)) by (unfold bnd; lia). assert (bnd 2048 (y g)) by (unfold bnd; lia).
  unfold write_pixel_c, write_pixel. by do 2 step32.
Qed.

(** A line's cursor and error stay small all along it. *)
Lemma line_bnds g i j :
  line_at g i j -> bnd 4096 (x g) /\ bnd 4096 (y g) /\ bnd 2048 (dx g) /\ bnd 2048 (dy g) /\ bnd 1 (sy g) /\ bnd 8388608 (err g).
Proof.
  intros []. unfold small in *. destruct ln_sy0 as [Hs Hy].
  assert (Hdy : dy g <= 2047) by (destruct Hs as [E|E]; rewrite E in Hy; lia).
  assert (P : forall m n, 0 <= m <= 2047 -> 0 <= n <= 2048 -> 0 <= m * n <= 4194304) by nia.
  pose proof (P (dx g) (j + 1) ltac:(lia) ltac:(lia)). pose proof (P (dy g) (i + 1) ltac:(lia) ltac:(lia)).
  assert (-4096 <= y g <= 4096) by (destruct Hs as [E|E]; rewrite E in ln_y0; lia).
  unfold bnd. repeat split; lia.
Qed.

Lemma line_next_exact g i j : line_at g i j -> line_next_c g = Ok (line_next g).
Proof.
  intros L. destruct (line_bnds g i j L) as (Bx & By & Bdx & Bdy & Bs & Be).
  unfold line_next_c, line_next. cbv zeta. do 2 step32.
  destruct (- dy g <=? 2 * err g), (2 * err g <=? dx g); repeat step32; cbn; repeat step32;
    rewrite ?Z.sub_0_r, ?Z.add_0_r; done.
Qed.

Lemma rect_next_exact g : rect_ok g -> rect_next_c g = Ok (rect_done g, rect_next g).
Proof.
  intros [_ _ Hx Hy Hs].
  assert (bnd 2048 (x g)) by (unfold bnd; lia). assert (bnd 2048 (y g)) by (unfold bnd; lia).
  assert (bnd 2048 (hi g)) by (unfold bnd; lia). assert (bnd 2048 (bottom g)) by (unfold bnd; lia).
  assert (bnd 1 (step g)) by (unfold bnd; lia).
  unfold rect_next_c, rect_done, rect_next, row_end. destruct (0 <? step g).
  - step32. casif; cbn; repeat step32; done.
  - change (mret ?a ≫= ?f) with (f a). cbv beta. casif; cbn; repeat step32; done.
Qed.

Lemma advance_exact rs g : gpu_ok rs 76800 g -> phase g = ADVANCE -> advance_c g = Ok (advance g).
Proof.
  intros [] Hp. destruct ok_drawing0 as (D1 & D2 & _); [by rewrite Hp..|].
  unfold advance_c, advance. fold (op_of g). cbv zeta. destruct (Z.eqb_spec (op_of g) GPU_LINE) as [Eo|No].
  - destruct (D1 Eo) as (i & j & L). by rewrite (line_next_exact g i j L).
  - by rewrite (rect_next_exact g (D2 No)).
Qed.

(** C17: none of the engine's signed arithmetic leaves 32 bits.  [gpu_tick_c] is
    the tick with each [int32_t] operation of SETUP (rectangle sums, blit
    clipping, scan direction, line deltas, triangle area), SCAN (edge functions
    and their factors), READ and WRITE (pixel offsets) and ADVANCE (error terms
    and cursor, in the order the code computes them) undefined where its value
    does not fit; on every well-formed engine it returns, and returns what
    [gpu_tick] computes in unbounded integers. *)
Theorem gpu_arithmetic_in_range g ram fb hold ws we :
  gpu_ok (buf_len ram) 76800 g -> buf_ok ram -> buf_len ram <= 0x7fffffff -> buf_ok fb -> buf_len fb = 76800 ->
  exists g' fb', gpu_tick_c g ram (buf_len ram) fb hold ws we = Ok (g', fb') /\
    gpu_tick g ram (buf_len ram) fb hold ws we = Ok (g', fb') /\ gpu_ok (buf_len ram) 76800 g'.
Proof.
  intros Hg Hr Hl Hf Ef. assert (Hrs : 0 <= buf_len ram <= 0x7fffffff) by (destruct Hr; lia).
  destruct (wpr_total _ _ (gpu_tick_wp (buf_len ram) g ram fb hold ws we Hrs Hg Hr Hf eq_refl Ef)) as ([g' fb'] & E & Hg' & _).
  exists g', fb'. split; [|done]. rewrite <- E. unfold gpu_tick_c, gpu_tick. cbv zeta.
  set (g1 := {| g with cycles := u32 (cycles g + 1) |}).
  assert (Hg1 : gpu_ok (buf_len ram) 76800 g1).
  { apply (gpu_ok_ext _ _ g); try done; [|apply Hg]. destruct (ok_scalars _ _ _ Hg) as (_ & ? & _ & ?). cbn.
    split; [done|]. split; [apply u32_range|done]. }
  assert (Hp : phase g1 = phase g) by done. clearbody g1.
  destruct (command_tick g); [done|]. destruct (gpu_busy g); cbn [negb]; [|done]. destruct (phase g); [done|..].
  - by rewrite (setup_exact _ _ _ _ Hg1).
  - by rewrite (scan_exact _ _ Hg1).
  - destruct hold; [done|]. by rewrite (read_exact _ _ _ _ Hg1).
  - destruct hold; [done|]. by rewrite (write_exact _ _ _ Hg1).
  - by rewrite (advance_exact _ _ Hg1).
Qed.

(** A steep line to the far corner of the coordinate range, at SETUP. *)
Definition far_line : gpu_device :=
  {| gpu_device_reset with p := [3; 9; 1023; 0xfffffc00; 0xfffffc00; 1023; 0; 0; 0; 0; 0; 0; 0; 0; 0; 0];
                           status := GPU_BUSY; phase := SETUP |}.

Lemma gpu_arithmetic_in_range_witness :
  exists g' fb', gpu_tick_c far_line (buf_zero 64) 64 (buf_zero 76800) false 0 0 = Ok (g', fb') /\
    gpu_tick far_line (buf_zero 64) 64 (buf_zero 76800) false 0 0 = Ok (g', fb') /\ gpu_ok 64 76800 g'.
Proof.
  apply (gpu_arithmetic_in_range far_line (buf_zero 64) (buf_zero 76800) false 0 0);
    [|apply buf_zero_ok; lia|cbn; lia|apply buf_zero_ok; lia|reflexivity].
  split; try done. repeat constructor; unfold is_u32; lia.
Defined.

Example far_line_deltas :
  match gpu_tick_c far_line (buf_zero 64) 64 (buf_zero 76800) false 0 0 with
  | Ok (g', _) => (dx g', dy g', sy g', err g') = (2047, 2047, -1, 0)
  | _ => False
  end.
Proof. reflexivity. Qed.

End GpuWidth.
