(* ===== verification/G3d.v ===== *)
(** * G2: the programmable 3D engine (tools/rv32_g3d.c)

    A vertex shader on four SIMT lanes with a mask stack, then clipping,
    projection through a serial divider, triangle setup and a depth-tested
    raster scan, one device tick at a time.  The engine writes its depth
    buffer in RAM and its pixels in the framebuffer.  Signed arithmetic is done
    at its C width ([int32], [int64]): a value that does not fit is [Stuck]. *)

From S2P Require Import Prelude Effects Buffer.

Module G3d.

Definition G3D_BASE : Z := 0x11008000.
Definition G3D_SIZE : Z := 0x2000.
Definition G3D_COMMAND : Z := 0x00.
Definition G3D_STATUS : Z := 0x04.
Definition G3D_ERROR : Z := 0x08.
Definition G3D_FAULT_PC : Z := 0x0c.
Definition G3D_CYCLES : Z := 0x10.
Definition G3D_STALLS : Z := 0x14.
Definition G3D_INSTRUCTIONS : Z := 0x18.
Definition G3D_TRANSFERS : Z := 0x1c.
Definition G3D_DIVIDES : Z := 0x20.
Definition G3D_PIXELS : Z := 0x24.
Definition G3D_ZFAIL : Z := 0x28.
Definition G3D_CULLED : Z := 0x2c.
Definition G3D_VCOUNT : Z := 0x40.
Definition G3D_TCOUNT : Z := 0x44.
Definition G3D_ZBASE : Z := 0x48.
Definition G3D_LIMIT : Z := 0x4c.
Definition G3D_CONST : Z := 0x400.
Definition G3D_PROGRAM : Z := 0x800.
Definition G3D_VERTEX : Z := 0x1000.
Definition G3D_TRIANGLE : Z := 0x1800.
Definition G3D_START : Z := 1.
Definition G3D_RESET : Z := 2.
Definition G3D_CLEAR_Z : Z := 3.
Definition G3D_IDLE : Z := 0.
Definition G3D_BUSY : Z := 1.
Definition G3D_DONE : Z := 2.
Definition G3D_FAULT : Z := 4.
Definition G3D_E_PARAM : Z := 1.
Definition G3D_E_INTERNAL : Z := 2.
Definition G3D_E_ILLEGAL : Z := 3.
Definition G3D_E_OVERFLOW : Z := 4.
Definition G3D_E_MISMATCH : Z := 5.
Definition G3D_E_LIMIT : Z := 6.
Definition G3D_E_PC : Z := 7.
Definition G3D_E_INDEX : Z := 8.
Definition G3D_LANES : Z := 4.
Definition G3D_PROGRAM_WORDS : Z := 128.
Definition G3D_CONSTS : Z := 32.
Definition G3D_SLOTS : Z := 8.
Definition G3D_VMAX : Z := 32.
Definition G3D_TMAX : Z := 64.
Definition G3D_DEPTH : Z := 8.
Definition G3D_W_NEAR : Z := 0x1000.
Definition G3D_OUT_X : Z := 0.
Definition G3D_OUT_Y : Z := 1.
Definition G3D_OUT_Z : Z := 2.
Definition G3D_OUT_W : Z := 3.
Definition G3D_OUT_R : Z := 4.
Definition G3D_DIVIDE_TICKS : Z := 35.

Definition G3D_OP_END : Z := 0.
Definition G3D_OP_LDI : Z := 1.
Definition G3D_OP_LDC : Z := 2.
Definition G3D_OP_IN : Z := 3.
Definition G3D_OP_OUT : Z := 4.
Definition G3D_OP_SPC : Z := 5.
Definition G3D_OP_MOV : Z := 6.
Definition G3D_OP_ADD : Z := 7.
Definition G3D_OP_SUB : Z := 8.
Definition G3D_OP_MUL : Z := 9.
Definition G3D_OP_MAD : Z := 10.
Definition G3D_OP_MIN : Z := 11.
Definition G3D_OP_MAX : Z := 12.
Definition G3D_OP_ABS : Z := 13.
Definition G3D_OP_AND : Z := 14.
Definition G3D_OP_OR : Z := 15.
Definition G3D_OP_XOR : Z := 16.
Definition G3D_OP_SHL : Z := 17.
Definition G3D_OP_SRA : Z := 18.
Definition G3D_OP_ADDI : Z := 19.
Definition G3D_OP_SLT : Z := 20.
Definition G3D_OP_SEQ : Z := 21.
Definition G3D_OP_IF : Z := 22.
Definition G3D_OP_ELSE : Z := 23.
Definition G3D_OP_ENDIF : Z := 24.
Definition G3D_OP_LOOP : Z := 25.
Definition G3D_OP_ENDLOOP : Z := 26.
Definition G3D_OP_BREAK : Z := 27.
Definition G3D_OP_COUNT : Z := 28.

Inductive g3d_phase : Type :=
| G3D_PH_IDLE | G3D_PH_VALIDATE | G3D_PH_INDEX | G3D_PH_BATCH | G3D_PH_EXEC | G3D_PH_VCHECK
| G3D_PH_DIVIDE | G3D_PH_FETCH | G3D_PH_AREA | G3D_PH_TEST | G3D_PH_ZREAD | G3D_PH_ZWRITE
| G3D_PH_PWRITE | G3D_PH_FINISH | G3D_PH_CLEAR.

Record g3d_vertex : Type := Vertex { v_sx : Z; v_sy : Z; v_z : Z; v_r : Z; v_g : Z; v_b : Z; v_valid : bool }.
Definition vertex0 : g3d_vertex := Vertex 0 0 0 0 0 0 false.
#[export] Instance vertex_inhabited : Inhabited g3d_vertex := populate vertex0.

(** One entry of the mask stack. *)
Record frame : Type := Frame { f_loop : bool; f_parent : Z; f_taken : Z }.
#[export] Instance frame_inhabited : Inhabited frame := populate (Frame false 0 0).

Record g3d_device : Type := {
  status : Z; error : Z; fault_pc : Z; cycles : Z; stalls : Z; instructions : Z; transfers : Z;
  divides : Z; pixels : Z; zfail : Z; culled : Z;
  vcount : Z; tcount : Z; zbase : Z; limit : Z;
  consts : list Z; program : list Z; inputs : list Z; (** [inputs[G3D_VMAX][G3D_SLOTS]], flat *)
  tris : list Z;
  phase : g3d_phase; clearing : bool; command_tick : bool;
  ram_written : bool; ram_written_at : Z; fb_written : bool; fb_written_at : Z;
  index : Z; batch : Z; lane : Z; pc : Z; count : Z; mask : Z; pred : Z; depth : Z;
  stack : list frame;
  regs : list (list Z); out : list (list Z);
  verts : list g3d_vertex;
  div_left : Z; div_k : Z; div_setup : bool; div_num : list Z; div_den : Z; div_q : list Z;
  v : list g3d_vertex; area_ : Z; left : Z; right : Z; top : Z; bottom : Z; x : Z; y : Z;
  z : Z; cr : Z; cg : Z; cb : Z;
}.

Definition RAM_ORIGIN : Z := 0x80000000.
Definition Z_BYTES : Z := 320 * 240 * 2.

Definition g3d_busy (d : g3d_device) : bool := status d =? G3D_BUSY.

(** Everything but the four CPU-owned windows is cleared. *)
Definition cleared (consts0 program0 inputs0 tris0 : list Z) : g3d_device := {|
  status := 0; error := 0; fault_pc := 0; cycles := 0; stalls := 0; instructions := 0; transfers := 0;
  divides := 0; pixels := 0; zfail := 0; culled := 0;
  vcount := 0; tcount := 0; zbase := 0; limit := 0;
  consts := consts0; program := program0; inputs := inputs0; tris := tris0;
  phase := G3D_PH_IDLE; clearing := false; command_tick := false;
  ram_written := false; ram_written_at := 0; fb_written := false; fb_written_at := 0;
  index := 0; batch := 0; lane := 0; pc := 0; count := 0; mask := 0; pred := 0; depth := 0;
  stack := replicate 8 (Frame false 0 0);
  regs := replicate 4 (replicate 16 0); out := replicate 4 (replicate 8 0);
  verts := replicate 32 vertex0;
  div_left := 0; div_k := 0; div_setup := false; div_num := replicate 8 0; div_den := 0; div_q := replicate 8 0;
  v := replicate 3 vertex0; area_ := 0; left := 0; right := 0; top := 0; bottom := 0; x := 0; y := 0;
  z := 0; cr := 0; cg := 0; cb := 0 |}.

Definition g3d_device_reset (d : g3d_device) : g3d_device :=
  cleared (consts d) (program d) (inputs d) (tris d).

Definition g3d_initial : g3d_device :=
  cleared (replicate 32 0) (replicate 128 0) (replicate 256 0) (replicate 64 0).

(** Which of the four windows an offset names, with the word in it. *)
Inductive window_name : Type := WConst | WProgram | WVertex | WTriangle.
Definition window (off : Z) : option (window_name * Z) :=
  if (G3D_CONST <=? off) && (off <? G3D_CONST + 4 * G3D_CONSTS) then Some (WConst, (off - G3D_CONST) / 4)
  else if (G3D_PROGRAM <=? off) && (off <? G3D_PROGRAM + 4 * G3D_PROGRAM_WORDS) then
    Some (WProgram, (off - G3D_PROGRAM) / 4)
  else if (G3D_VERTEX <=? off) && (off <? G3D_VERTEX + 4 * G3D_VMAX * G3D_SLOTS) then
    Some (WVertex, (off - G3D_VERTEX) / 4)
  else if (G3D_TRIANGLE <=? off) && (off <? G3D_TRIANGLE + 4 * G3D_TMAX) then
    Some (WTriangle, (off - G3D_TRIANGLE) / 4)
  else None.
Definition window_get (d : g3d_device) (w : window_name) : list Z :=
  match w with WConst => consts d | WProgram => program d | WVertex => inputs d | WTriangle => tris d end.
Definition window_set (d : g3d_device) (w : window_name) (l : list Z) : g3d_device :=
  match w with
  | WConst => {| d with consts := l |} | WProgram => {| d with program := l |}
  | WVertex => {| d with inputs := l |} | WTriangle => {| d with tris := l |}
  end.

(** [param]: the four parameter registers. *)
Inductive param_name : Type := PVcount | PTcount | PZbase | PLimit.
Definition param (off : Z) : option param_name :=
  if off =? G3D_VCOUNT then Some PVcount else if off =? G3D_TCOUNT then Some PTcount
  else if off =? G3D_ZBASE then Some PZbase else if off =? G3D_LIMIT then Some PLimit else None.
Definition param_get (d : g3d_device) (q : param_name) : Z :=
  match q with PVcount => vcount d | PTcount => tcount d | PZbase => zbase d | PLimit => limit d end.
Definition param_set (d : g3d_device) (q : param_name) (w : Z) : g3d_device :=
  match q with
  | PVcount => {| d with vcount := w |} | PTcount => {| d with tcount := w |}
  | PZbase => {| d with zbase := w |} | PLimit => {| d with limit := w |}
  end.

Definition g3d_access (d : g3d_device) (off width : Z) (write : bool) (val : Z) (other_busy : bool)
    : res (option (Z * g3d_device)) :=
  if negb (width =? 4) || tst (off .& 3) then mret None
  else match window off, param off with
  | Some (w, i), _ =>
      if g3d_busy d then mret None
      else if write then l ← aset (window_get d w) i val; mret (Some (val, window_set d w l))
      else r ← aget (window_get d w) i; mret (Some (r, d))
  | None, Some q =>
      if write then if g3d_busy d then mret None else mret (Some (val, param_set d q val))
      else mret (Some (param_get d q, d))
  | None, None =>
      if write then
        if negb (off =? G3D_COMMAND) then mret None
        else if val =? G3D_RESET then mret (Some (val, {| (g3d_device_reset d) with command_tick := true |}))
        else if (negb (val =? G3D_START) && negb (val =? G3D_CLEAR_Z)) || g3d_busy d || other_busy then mret None
        else mret (Some (val,
          {| d with status := G3D_BUSY; phase := G3D_PH_VALIDATE; clearing := val =? G3D_CLEAR_Z;
                    error := 0; fault_pc := 0; cycles := 0; stalls := 0; instructions := 0; transfers := 0;
                    divides := 0; pixels := 0; zfail := 0; culled := 0; command_tick := true |}))
      else if off =? G3D_STATUS then mret (Some (status d, d))
      else if off =? G3D_ERROR then mret (Some (error d, d))
      else if off =? G3D_FAULT_PC then mret (Some (fault_pc d, d))
      else if off =? G3D_CYCLES then mret (Some (cycles d, d))
      else if off =? G3D_STALLS then mret (Some (stalls d, d))
      else if off =? G3D_INSTRUCTIONS then mret (Some (instructions d, d))
      else if off =? G3D_TRANSFERS then mret (Some (transfers d, d))
      else if off =? G3D_DIVIDES then mret (Some (divides d, d))
      else if off =? G3D_PIXELS then mret (Some (pixels d, d))
      else if off =? G3D_ZFAIL then mret (Some (zfail d, d))
      else if off =? G3D_CULLED then mret (Some (culled d, d))
      else mret None
  end.

Definition g3d_z_locked (d : g3d_device) (addr width : Z) : bool :=
  g3d_busy d && (zbase d <? addr + width) && (addr <? zbase d + Z_BYTES).

Definition fault (d : g3d_device) (e : Z) : g3d_device :=
  {| d with status := G3D_FAULT; error := e; phase := G3D_PH_IDLE |}.

(** Division truncates; a zero divisor is undefined. *)
Definition sat (n den : Z) : res Z :=
  if den =? 0 then Stuck
  else
    q ← int64 (Z.quot n den);
    mret (if 0x7fffffff <? q then 0x7fffffff else if q <? -0x80000000 then -0x80000000 else q).

Definition qmul (a b : Z) : res Z := p ← int64 (s32 a * s32 b); mret (s32 (u32 (p .>> 16))).

Definition next_triangle (d : g3d_device) : g3d_device :=
  let i := u32 (index d + 1) in
  {| d with index := i; phase := if i <? tcount d then G3D_PH_FETCH else G3D_PH_FINISH |}.

Definition next_vertex (d : g3d_device) : g3d_device :=
  let l := u32 (lane d + 1) in
  if (l <? G3D_LANES) && (u32 (batch d * G3D_LANES + l) <? vcount d) then
    {| d with lane := l; phase := G3D_PH_VCHECK |}
  else
    let b := u32 (batch d + 1) in
    if u32 (b * G3D_LANES) <? vcount d then {| d with lane := l; batch := b; phase := G3D_PH_BATCH |}
    else {| d with lane := l; batch := b; index := 0;
                   phase := if tst (tcount d) then G3D_PH_FETCH else G3D_PH_FINISH |}.

Definition next_pixel (d : g3d_device) : g3d_device :=
  if x d <? right d then {| d with x := x d + 1; phase := G3D_PH_TEST |}
  else if y d <? bottom d then {| d with x := left d; y := y d + 1; phase := G3D_PH_TEST |}
  else next_triangle d.

Definition start_divides (d : g3d_device) (setup : bool) (den : Z) : g3d_device :=
  {| d with div_setup := setup; div_den := den; div_k := 0; div_left := G3D_DIVIDE_TICKS; phase := G3D_PH_DIVIDE |}.

Definition shader_fault (d : g3d_device) (e : Z) : g3d_device :=
  fault {| d with fault_pc := pc d .| u32 (batch d .<< 8) |} e.

(** The fields of a shader instruction. *)
Record shader_word : Type := SWord { w_op : Z; w_rd : Z; w_ra : Z; w_rb : Z; w_rc : Z; w_imm : Z; w_target : Z; w_all : Z }.
Definition decode (w : Z) : shader_word :=
  SWord (w .>> 26) ((w .>> 22) .& 15) ((w .>> 18) .& 15) ((w .>> 14) .& 15) ((w .>> 10) .& 15)
        (w .& 0x3fff) (w .& 0x7f) w.

(** The value an instruction that writes a register gives it in one lane. *)
Definition lane_value (d : g3d_device) (w : shader_word) (l : Z) (r : list Z) : res (option Z) :=
  a ← aget r (w_ra w); b ← aget r (w_rb w);
  let op := w_op w in
  let imm := w_imm w in
  let vid := u32 (batch d * G3D_LANES + l) in
  let sa := s32 a in
  let sb := s32 b in
  if op =? G3D_OP_LDI then mret (Some (u32 (s32 (u32 (w_all w .<< 10)) .>> 10)))
  else if op =? G3D_OP_LDC then c ← aget (consts d) (imm .& 31); mret (Some c)
  else if op =? G3D_OP_IN then c ← aget (inputs d) (vid * G3D_SLOTS + (imm .& 7)); mret (Some c)
  else if op =? G3D_OP_SPC then
    mret (Some (if imm .& 3 =? 0 then l else if imm .& 3 =? 1 then vid
                else if imm .& 3 =? 2 then vcount d else 0))
  else if op =? G3D_OP_MOV then mret (Some a)
  else if op =? G3D_OP_ADD then mret (Some (u32 (a + b)))
  else if op =? G3D_OP_SUB then mret (Some (u32 (a - b)))
  else if op =? G3D_OP_MUL then q ← qmul a b; mret (Some (u32 q))
  else if op =? G3D_OP_MAD then c ← aget r (w_rc w); q ← qmul a b; mret (Some (u32 (c + u32 q)))
  else if op =? G3D_OP_MIN then mret (Some (if sa <? sb then a else b))
  else if op =? G3D_OP_MAX then mret (Some (if sb <? sa then a else b))
  else if op =? G3D_OP_ABS then mret (Some (if sa <? 0 then u32 (0 - a) else a))
  else if op =? G3D_OP_AND then mret (Some (a .& b))
  else if op =? G3D_OP_OR then mret (Some (a .| b))
  else if op =? G3D_OP_XOR then mret (Some (a .^ b))
  else if op =? G3D_OP_SHL then mret (Some (u32 (a .<< (imm .& 31))))
  else if op =? G3D_OP_SRA then mret (Some (u32 (sa .>> (imm .& 31))))
  else if op =? G3D_OP_ADDI then mret (Some (u32 (a + u32 (s32 (u32 (imm .<< 18)) .>> 18))))
  else mret None.

(** One lane of the [default] case of [execute]; [None] is the internal fault. *)
Definition lane_step (d : g3d_device) (w : shader_word) (l : Z) : res (option g3d_device) :=
  let op := w_op w in
  if negb (tst ((mask d .>> l) .& 1)) then mret (Some d)
  else
    r ← aget (regs d) l;
    a ← aget r (w_ra w); b ← aget r (w_rb w);
    if (op =? G3D_OP_SLT) || (op =? G3D_OP_SEQ) then
      let bit := if op =? G3D_OP_SLT then s32 a <? s32 b else a =? b in
      mret (Some {| d with pred := (pred d .& not32 (1 .<< l)) .| (Z.b2z bit .<< l) |})
    else if op =? G3D_OP_OUT then
      o ← aget (out d) l; o' ← aset o (w_imm w .& 7) a; os ← aset (out d) l o';
      mret (Some {| d with out := os |})
    else
      val ← lane_value d w l r;
      match val with
      | Some value => r' ← aset r (w_rd w) value; rs ← aset (regs d) l r'; mret (Some {| d with regs := rs |})
      | None => mret None
      end.

Fixpoint lanes (n : nat) (l : Z) (w : shader_word) (d : g3d_device) : res (g3d_device * bool) :=
  match n with
  | O => mret (d, true)
  | S n' =>
      o ← lane_step d w l;
      match o with
      | Some d' => lanes n' (l + 1) w d'
      | None => mret (shader_fault d G3D_E_INTERNAL, false)
      end
  end.

(** BREAK: the depth just above the innermost loop, or 0. *)
Fixpoint innermost_loop (st : list frame) (i : nat) : res nat :=
  match i with
  | O => mret O
  | S i' => f ← aget st (Z.of_nat i'); if f_loop f then mret i else innermost_loop st i'
  end.
(** BREAK: the lanes leaving are taken out of every frame above the loop's. *)
Definition leave_frames (st : list frame) (from depth0 mask0 : Z) : list frame :=
  imap (fun k f => if (from <=? Z.of_nat k) && (Z.of_nat k <? depth0)
                   then Frame (f_loop f) (f_parent f .& u8 (not32 mask0)) (f_taken f) else f) st.

(** An instruction that passed the checks of [execute]: the switch. *)
Definition execute_op (d : g3d_device) (w : shader_word) (next : Z) : res g3d_device :=
  let op := w_op w in
  let top_ := depth d - 1 in
  if op =? G3D_OP_END then
    if tst (depth d) then mret (shader_fault d G3D_E_MISMATCH)
    else mret {| d with lane := 0; phase := G3D_PH_VCHECK |}
  else if (op =? G3D_OP_IF) || (op =? G3D_OP_LOOP) then
    if depth d =? G3D_DEPTH then mret (shader_fault d G3D_E_OVERFLOW)
    else
      st ← aset (stack d) (depth d)
        (Frame (op =? G3D_OP_LOOP) (u8 (mask d)) (u8 (if op =? G3D_OP_IF then mask d .& pred d else 0)));
      let m' := if op =? G3D_OP_IF then mask d .& pred d else mask d in
      mret {| d with stack := st; depth := u32 (depth d + 1); mask := m';
                     pc := if (op =? G3D_OP_IF) && negb (tst m') then w_target w else next |}
  else if (op =? G3D_OP_ELSE) || (op =? G3D_OP_ENDIF) then
    if negb (tst (depth d)) then mret (shader_fault d G3D_E_MISMATCH)
    else
      f ← aget (stack d) top_;
      if f_loop f then mret (shader_fault d G3D_E_MISMATCH)
      else if op =? G3D_OP_ELSE then
        let m' := f_parent f .& not32 (f_taken f) .& 15 in
        mret {| d with mask := m'; pc := if tst m' then next else w_target w |}
      else mret {| d with mask := f_parent f; depth := u32 (depth d - 1); pc := next |}
  else if op =? G3D_OP_ENDLOOP then
    if negb (tst (depth d)) then mret (shader_fault d G3D_E_MISMATCH)
    else
      f ← aget (stack d) top_;
      if negb (f_loop f) then mret (shader_fault d G3D_E_MISMATCH)
      else if tst (mask d) then mret {| d with pc := w_target w |}
      else mret {| d with mask := f_parent f; depth := u32 (depth d - 1); pc := next |}
  else if op =? G3D_OP_BREAK then
    i ← innermost_loop (stack d) (Z.to_nat (depth d));
    match i with
    | O => mret (shader_fault d G3D_E_MISMATCH)
    | _ => mret {| d with stack := leave_frames (stack d) (Z.of_nat i) (depth d) (mask d);
                          mask := 0; pc := next |}
    end
  else
    r ← lanes 4 0 w d;
    let '(d', ok) := r in
    if ok : bool then mret {| d' with pc := next |} else mret d'.

(** One shader instruction for the batch. *)
Definition execute (d : g3d_device) : res g3d_device :=
  if count d =? limit d then mret (shader_fault d G3D_E_LIMIT)
  else if G3D_PROGRAM_WORDS <=? pc d then mret (shader_fault d G3D_E_PC)
  else
    word ← aget (program d) (pc d);
    let w := decode word in
    if G3D_OP_COUNT <=? w_op w then mret (shader_fault d G3D_E_ILLEGAL)
    else execute_op {| d with count := u32 (count d + 1); instructions := u32 (instructions d + 1) |} w (u32 (pc d + 1)).

Definition set_vert (d : g3d_device) (i : Z) (f : g3d_vertex -> g3d_vertex) : res g3d_device :=
  old ← aget (verts d) i; vs ← aset (verts d) i (f old); mret {| d with verts := vs |}.

(** An 8-bit colour from a Q16.16 output slot. *)
Definition colour_slot (s : Z) : Z :=
  let c := s32 s .>> 16 in if c <? 0 then 0 else if 255 <? c then 255 else c.

Definition vertex_check (d : g3d_device) : res g3d_device :=
  o ← aget (out d) (lane d);
  ox ← aget o G3D_OUT_X; oy ← aget o G3D_OUT_Y; oz ← aget o G3D_OUT_Z; ow ← aget o G3D_OUT_W;
  c0 ← aget o G3D_OUT_R; c1 ← aget o (G3D_OUT_R + 1); c2 ← aget o (G3D_OUT_R + 2);
  let vx := s32 ox in
  let vy := s32 oy in
  let vz := s32 oz in
  let vw := s32 ow in
  vw4 ← int64 (4 * vw); nx ← int64 (- vx); ny ← int64 (- vy);
  let valid := (G3D_W_NEAR <=? vw) && (vx <=? vw4) && (nx <=? vw4) && (vy <=? vw4)
               && (ny <=? vw4) && (0 <=? vz) && (vz <=? vw) in
  d1 ← set_vert d (u32 (batch d * G3D_LANES + lane d)) (fun old =>
         {| old with v_valid := valid; v_r := colour_slot c0; v_g := colour_slot c1; v_b := colour_slot c2 |});
  if negb valid then mret (next_vertex d1)
  else
    px ← int64 (vx * 2560); py ← int64 (vy * 1920); pz ← int64 (vz * 65535);
    n0 ← aset (div_num d1) 0 px; n1 ← aset n0 1 py; n2 ← aset n1 2 pz;
    mret (start_divides {| d1 with div_num := n2 |} false vw).

Definition divide_done (d : g3d_device) : res g3d_device :=
  let k := div_k d in
  n ← aget (div_num d) k;
  q ← sat n (div_den d);
  qs ← aset (div_q d) k q;
  let d := {| d with div_q := qs; divides := u32 (divides d + 1) |} in
  if negb (div_setup d) then
    if k <? 2 then mret {| d with div_k := u32 (div_k d + 1); div_left := G3D_DIVIDE_TICKS |}
    else
      q0 ← aget (div_q d) 0; q1 ← aget (div_q d) 1; q2 ← aget (div_q d) 2;
      sx ← int32 (2560 + q0); sy ← int32 (1920 - q1);
      d1 ← set_vert d (u32 (batch d * G3D_LANES + lane d)) (fun old =>
             {| old with v_sx := sx; v_sy := sy; v_z := q2 |});
      mret (next_vertex d1)
  else if k <? 7 then mret {| d with div_k := u32 (div_k d + 1); div_left := G3D_DIVIDE_TICKS |}
  else if (right d <? left d) || (bottom d <? top d) then mret (next_triangle d)
  else mret {| d with x := left d; y := top d; phase := G3D_PH_TEST |}.

(** The attribute of a vertex the [k]th gradient pair interpolates. *)
Definition attribute (k : Z) (w : g3d_vertex) : Z :=
  if k =? 0 then v_z w else if k =? 1 then v_r w else if k =? 2 then v_g w else v_b w.

(** Numerators of the [k]th attribute's two gradients. *)
Definition gradient (ex1 ey1 ex2 ey2 : Z) (v0 w1 w2 : g3d_vertex) (k : Z) : res (list Z) :=
  let a0 := attribute k v0 in
  d1 ← int64 (attribute k w1 - a0); d2 ← int64 (attribute k w2 - a0);
  p1 ← int64 (d1 * ey2); p2 ← int64 (d2 * ey1); gx ← int64 (p1 - p2); nx ← int64 (gx * 65536);
  p3 ← int64 (d2 * ex1); p4 ← int64 (d1 * ex2); gy ← int64 (p3 - p4); ny ← int64 (gy * 65536);
  mret [nx; ny].

(** Twice the signed area: [int32_t] differences, [int64_t] products. *)
Definition signed_area (v0 v1 v2 : g3d_vertex) : res Z :=
  dx1 ← int32 (v_sx v1 - v_sx v0); dy2 ← int32 (v_sy v2 - v_sy v0);
  dy1 ← int32 (v_sy v1 - v_sy v0); dx2 ← int32 (v_sx v2 - v_sx v0);
  p ← int64 (dx1 * dy2); q ← int64 (dy1 * dx2); int64 (p - q).

Definition area (d : g3d_device) : res g3d_device :=
  v0 ← aget (v d) 0; v1 ← aget (v d) 1; v2 ← aget (v d) 2;
  a ← signed_area v0 v1 v2;
  if 0 <=? a then mret (next_triangle {| d with culled := u32 (culled d + 1) |})
  else
    let w1 := v2 in
    let w2 := v1 in
    na ← int64 (- a);
    let lo := Z.min (v_sx v0) (Z.min (v_sx w1) (v_sx w2)) in
    let hi := Z.max (v_sx v0) (Z.max (v_sx w1) (v_sx w2)) in
    let tp := Z.min (v_sy v0) (Z.min (v_sy w1) (v_sy w2)) in
    let bt := Z.max (v_sy v0) (Z.max (v_sy w1) (v_sy w2)) in
    ex1 ← int32 (v_sx w1 - v_sx v0); ey1 ← int32 (v_sy w1 - v_sy v0);
    ex2 ← int32 (v_sx w2 - v_sx v0); ey2 ← int32 (v_sy w2 - v_sy v0);
    let grad := gradient ex1 ey1 ex2 ey2 v0 w1 w2 in
    g0 ← grad 0; g1 ← grad 1; g2 ← grad 2; g3 ← grad 3;
    mret (start_divides
      {| d with v := [v0; w1; w2]; area_ := s32 na;
                left := if lo .>> 4 <? 0 then 0 else lo .>> 4;
                right := if 319 <? hi .>> 4 then 319 else hi .>> 4;
                top := if tp .>> 4 <? 0 then 0 else tp .>> 4;
                bottom := if 239 <? bt .>> 4 then 239 else bt .>> 4;
                div_num := g0 ++ g1 ++ g2 ++ g3 |} true (s32 na)).

Definition inside (a b : g3d_vertex) (px py : Z) : res bool :=
  dx ← int32 (v_sx b - v_sx a); dy ← int32 (v_sy b - v_sy a);
  ey ← int32 (py - v_sy a); ex ← int32 (px - v_sx a);
  p ← int64 (dx * ey); q ← int64 (dy * ex); e ← int64 (p - q);
  mret ((0 <? e) || ((e =? 0) && ((dy <? 0) || ((dy =? 0) && (0 <? dx))))).

Definition clamp (a hi : Z) : Z := if a <? 0 then 0 else if hi <? a then hi else a.

(** The [k]th attribute at a pixel, from the quotients of its gradients. *)
Definition interpolate (qs : list Z) (v0 : g3d_vertex) (px py k hi : Z) : res Z :=
  qx ← aget qs (2 * k); qy ← aget qs (2 * k + 1);
  ex ← int32 (px - v_sx v0); ey ← int32 (py - v_sy v0);
  p ← int64 (qx * ex); q ← int64 (qy * ey); s ← int64 (p + q);
  a ← int64 (attribute k v0 + (s .>> 16));
  mret (s32 (clamp a hi)).

Definition test (d : g3d_device) : res g3d_device :=
  v0 ← aget (v d) 0; v1 ← aget (v d) 1; v2 ← aget (v d) 2;
  px16 ← int32 (x d * 16); px ← int32 (px16 + 8); py16 ← int32 (y d * 16); py ← int32 (py16 + 8);
  i0 ← inside v0 v1 px py;
  i1 ← if i0 : bool then inside v1 v2 px py else mret false;
  i2 ← if i1 : bool then inside v2 v0 px py else mret false;
  if negb i2 then mret (next_pixel d)
  else
    z' ← interpolate (div_q d) v0 px py 0 65535; r' ← interpolate (div_q d) v0 px py 1 255;
    g' ← interpolate (div_q d) v0 px py 2 255; b' ← interpolate (div_q d) v0 px py 3 255;
    mret {| d with z := z'; cr := r'; cg := g'; cb := b'; phase := G3D_PH_ZREAD |}.

(** VALIDATE's depth-buffer check. *)
Definition zbase_ok (d : g3d_device) (ram_size window_start window_end : Z) : bool :=
  (zbase d mod 4 =? 0) && (RAM_ORIGIN <=? zbase d) && (zbase d - RAM_ORIGIN <=? u32 (ram_size - Z_BYTES))
  && (window_start <=? zbase d) && (zbase d + Z_BYTES <=? window_end).

Definition validate (d : g3d_device) (ram_size window_start window_end : Z) : g3d_device :=
  let zok := zbase_ok d ram_size window_start window_end in
  if clearing d then
    if negb zok then fault d G3D_E_PARAM else {| d with index := 0; phase := G3D_PH_CLEAR |}
  else if negb zok || (vcount d <? 1) || (G3D_VMAX <? vcount d) || (G3D_TMAX <? tcount d)
          || (limit d <? 1) || (0xffff <? limit d) then fault d G3D_E_PARAM
  else {| d with index := 0; batch := 0; phase := if tst (tcount d) then G3D_PH_INDEX else G3D_PH_BATCH |}.

Definition index_step (d : g3d_device) : res g3d_device :=
  t ← aget (tris d) (index d);
  if (vcount d <=? (t .& 255)) || (vcount d <=? ((t .>> 8) .& 255)) || (vcount d <=? ((t .>> 16) .& 255)) then
    mret (fault d G3D_E_INDEX)
  else
    let i := u32 (index d + 1) in
    mret {| d with index := i; phase := if i =? tcount d then G3D_PH_BATCH else phase d |}.

(** The lanes of a batch that have a vertex. *)
Definition batch_mask (d : g3d_device) : Z :=
  foldr (fun l m => if u32 (batch d * G3D_LANES + l) <? vcount d then m .| (1 .<< l) else m) 0 [3; 2; 1; 0].

Definition batch_step (d : g3d_device) : g3d_device :=
  {| d with regs := replicate 4 (replicate 16 0); out := replicate 4 (replicate 8 0);
            pc := 0; count := 0; pred := 0; depth := 0; mask := batch_mask d; phase := G3D_PH_EXEC |}.

Definition fetch_step (d : g3d_device) : res g3d_device :=
  t ← aget (tris d) (index d);
  v0 ← aget (verts d) (t .& 255); v1 ← aget (verts d) ((t .>> 8) .& 255); v2 ← aget (verts d) ((t .>> 16) .& 255);
  let d := {| d with v := [v0; v1; v2] |} in
  if negb (v_valid v0) || negb (v_valid v1) || negb (v_valid v2) then
    mret (next_triangle {| d with culled := u32 (culled d + 1) |})
  else mret {| d with phase := G3D_PH_AREA |}.

Definition bayer : list Z := [0; 8; 2; 10; 12; 4; 14; 6; 3; 11; 1; 9; 15; 7; 13; 5].

(** The dithered RGB332 pixel. *)
Definition dither (d : g3d_device) : res Z :=
  t ← aget bayer ((y d .& 3) * 4 + (x d .& 3));
  let cap c := if 255 <? c then 255 else c in
  r ← int32 (cr d + 2 * t); g ← int32 (cg d + 2 * t); b ← int32 (cb d + 4 * t);
  mret (u8 ((cap r .& 0xe0) .| ((cap g .>> 3) .& 0x1c) .| (cap b .>> 6))).

Definition stall (d : g3d_device) : g3d_device := {| d with stalls := u32 (stalls d + 1) |}.

(** [zoff]: the depth word of the pixel, as an offset into RAM. *)
Definition zoff (d : g3d_device) : Z := u32 (zbase d - RAM_ORIGIN + 2 * (u32 (y d * 320 + x d))).

(** What a tick returns: the device, RAM and the framebuffer. *)
Definition g3d_tick (d : g3d_device) (ram : buffer) (ram_size : Z) (fb : buffer) (hold : bool)
    (window_start window_end : Z) : res (g3d_device * buffer * buffer) :=
  if command_tick d then mret ({| d with command_tick := false |}, ram, fb)
  else if negb (g3d_busy d) then mret (d, ram, fb)
  else
    let d := {| d with cycles := u32 (cycles d + 1) |} in
    match phase d with
    | G3D_PH_VALIDATE => mret (validate d ram_size window_start window_end, ram, fb)
    | G3D_PH_INDEX => d' ← index_step d; mret (d', ram, fb)
    | G3D_PH_BATCH => mret (batch_step d, ram, fb)
    | G3D_PH_EXEC => d' ← execute d; mret (d', ram, fb)
    | G3D_PH_VCHECK => d' ← vertex_check d; mret (d', ram, fb)
    | G3D_PH_DIVIDE =>
        let d := {| d with div_left := u32 (div_left d - 1) |} in
        if div_left d =? 0 then d' ← divide_done d; mret (d', ram, fb) else mret (d, ram, fb)
    | G3D_PH_FETCH => d' ← fetch_step d; mret (d', ram, fb)
    | G3D_PH_AREA => d' ← area d; mret (d', ram, fb)
    | G3D_PH_TEST => d' ← test d; mret (d', ram, fb)
    | G3D_PH_ZREAD =>
        if hold then mret (stall d, ram, fb)
        else
          b0 ← buf_get ram (zoff d); b1 ← buf_get ram (u32 (zoff d + 1));
          let old := b0 .| (b1 .<< 8) in
          let d := {| d with transfers := u32 (transfers d + 1) |} in
          if u32 (z d) <? old then mret ({| d with phase := G3D_PH_ZWRITE |}, ram, fb)
          else mret (next_pixel {| d with zfail := u32 (zfail d + 1) |}, ram, fb)
    | G3D_PH_ZWRITE =>
        if hold then mret (stall d, ram, fb)
        else
          ram1 ← buf_set ram (zoff d) (u8 (z d)); ram2 ← buf_set ram1 (u32 (zoff d + 1)) (u8 (z d .>> 8));
          mret ({| d with ram_written := true; ram_written_at := zoff d;
                          transfers := u32 (transfers d + 1); phase := G3D_PH_PWRITE |}, ram2, fb)
    | G3D_PH_PWRITE =>
        if hold then mret (stall d, ram, fb)
        else
          c ← dither d;
          let at0 := u32 (y d * 320 + x d) in
          fb' ← buf_set fb at0 c;
          mret (next_pixel {| d with fb_written := true; fb_written_at := at0;
                                     transfers := u32 (transfers d + 1); pixels := u32 (pixels d + 1) |}, ram, fb')
    | G3D_PH_CLEAR =>
        if hold then mret (stall d, ram, fb)
        else
          let at0 := zbase d - RAM_ORIGIN + u32 (4 * index d) in
          ram' ← buf_load ram at0 [0xff; 0xff; 0xff; 0xff];
          let i := u32 (index d + 1) in
          mret ({| d with ram_written := true; ram_written_at := u32 at0; transfers := u32 (transfers d + 1);
                          index := i; phase := if i =? Z_BYTES / 4 then G3D_PH_FINISH else G3D_PH_CLEAR |}, ram', fb)
    | G3D_PH_FINISH => mret ({| d with status := G3D_DONE; phase := G3D_PH_IDLE |}, ram, fb)
    | G3D_PH_IDLE => mret (fault d G3D_E_INTERNAL, ram, fb)
    end.

End G3d.
