(* ===== verification/G3dProofs.v ===== *)
(** * G2: the 3D engine's invariant and safety

    [g3d_ok] holds between ticks: the tables keep their sizes and widths, BUSY
    is a phase other than IDLE, and each phase's cursor, stack depth, divider
    and raster box are in range.  Vertices stay in guard-band coordinates, so
    the divider never divides by zero and the raster never leaves the screen. *)

From S2P Require Import Prelude Effects Buffer G3d.

Module G3dProofs.
Import G3d.

(** ** The invariant *)

Definition table (n : nat) (l : list Z) : Prop := length l = n /\ Forall is_u32 l.

(** Screen coordinates in 1/16 pixel with the clip guard band, depth, colour. *)
Definition vertex_ok (w : g3d_vertex) : Prop :=
  -7680 <= v_sx w <= 12800 /\ -5760 <= v_sy w <= 9600 /\ 0 <= v_z w <= 65535 /\
  0 <= v_r w <= 255 /\ 0 <= v_g w <= 255 /\ 0 <= v_b w <= 255.

Definition colours_ok (d : g3d_device) : Prop := 0 <= cr d <= 255 /\ 0 <= cg d <= 255 /\ 0 <= cb d <= 255.

Definition tables_ok (d : g3d_device) : Prop :=
  (table 32 (consts d) /\ table 128 (program d) /\ table 256 (inputs d) /\ table 64 (tris d)) /\
  length (stack d) = 8%nat /\
  (length (regs d) = 4%nat /\ Forall (table 16) (regs d)) /\
  (length (out d) = 4%nat /\ Forall (table 8) (out d)) /\
  (length (verts d) = 32%nat /\ Forall vertex_ok (verts d)) /\
  (length (v d) = 3%nat /\ Forall vertex_ok (v d)) /\
  (length (div_num d) = 8%nat /\ Forall is_s64 (div_num d)) /\
  (length (div_q d) = 8%nat /\ Forall is_s32 (div_q d)) /\
  colours_ok d.

Definition counters_ok (d : g3d_device) : Prop :=
  is_u32 (status d) /\ is_u32 (error d) /\ is_u32 (fault_pc d) /\ is_u32 (cycles d) /\ is_u32 (stalls d) /\
  is_u32 (instructions d) /\ is_u32 (transfers d) /\ is_u32 (divides d) /\ is_u32 (pixels d) /\ is_u32 (zfail d) /\
  is_u32 (culled d) /\ is_u32 (vcount d) /\ is_u32 (tcount d) /\ is_u32 (zbase d) /\ is_u32 (limit d).

Definition zbase_in (ram_len : Z) (d : g3d_device) : Prop :=
  RAM_ORIGIN <= zbase d /\ zbase d - RAM_ORIGIN + Z_BYTES <= ram_len.
Definition draw_ok (ram_len : Z) (d : g3d_device) : Prop :=
  zbase_in ram_len d /\ 1 <= vcount d <= 32 /\ 0 <= tcount d <= 64.

Definition corner (t k : Z) : Z := (t .>> (8 * k)) .& 255.
Definition tri_ok (d : g3d_device) (k : Z) : Prop :=
  let t := at_ (tris d) k in (t .& 255) < vcount d /\ (t .>> 8) .& 255 < vcount d /\ (t .>> 16) .& 255 < vcount d.
Definition tris_below (d : g3d_device) (n : Z) : Prop := forall k, 0 <= k < n -> tri_ok d k.
Definition shading (ram_len : Z) (d : g3d_device) : Prop := draw_ok ram_len d /\ tris_below d (tcount d).

Definition raster_box (d : g3d_device) : Prop := 0 <= left d /\ right d <= 319 /\ 0 <= top d /\ bottom d <= 239.
Definition cursor_in (d : g3d_device) : Prop := left d <= x d <= right d /\ top d <= y d <= bottom d.

(** The divider's bound on its [k]th quotient of a vertex, times the divisor. *)
Definition vertex_quotient (k n den : Z) : Prop :=
  (k = 0 -> -10240 * den <= n <= 10240 * den) /\ (k = 1 -> -7680 * den <= n <= 7680 * den) /\
  (k = 2 -> 0 <= n <= 65535 * den).

Definition dividing_vertex (d : g3d_device) : Prop :=
  0 <= batch d /\ 0 <= lane d < 4 /\ 4 * batch d + lane d < vcount d /\ 0 < div_den d /\ 0 <= div_k d <= 2 /\
  (forall k, 0 <= k <= 2 -> vertex_quotient k (at_ (div_num d) k) (div_den d)) /\
  (forall k, 0 <= k < div_k d -> vertex_quotient k (at_ (div_q d) k) 1).
Definition dividing_setup (d : g3d_device) : Prop :=
  0 <= index d < tcount d /\ 0 < div_den d /\ 0 <= div_k d <= 7 /\ raster_box d.

Definition phase_ok (ram_len : Z) (d : g3d_device) : Prop :=
  match phase d with
  | G3D_PH_IDLE | G3D_PH_VALIDATE | G3D_PH_FINISH => True
  | G3D_PH_CLEAR => zbase_in ram_len d /\ 0 <= index d < 38400
  | G3D_PH_INDEX => draw_ok ram_len d /\ 0 <= index d < tcount d /\ batch d = 0 /\ tris_below d (index d)
  | G3D_PH_BATCH => shading ram_len d /\ 0 <= batch d /\ 4 * batch d < vcount d
  | G3D_PH_EXEC => shading ram_len d /\ 0 <= batch d /\ 4 * batch d < vcount d /\ 0 <= depth d <= 8 /\ is_u32 (pc d)
  | G3D_PH_VCHECK => shading ram_len d /\ 0 <= batch d /\ 0 <= lane d < 4 /\ 4 * batch d + lane d < vcount d
  | G3D_PH_DIVIDE => shading ram_len d /\ if div_setup d then dividing_setup d else dividing_vertex d
  | G3D_PH_FETCH | G3D_PH_AREA => shading ram_len d /\ 0 <= index d < tcount d
  | G3D_PH_TEST | G3D_PH_ZREAD | G3D_PH_ZWRITE | G3D_PH_PWRITE =>
      shading ram_len d /\ 0 <= index d < tcount d /\ raster_box d /\ cursor_in d
  end.

Definition busy_ok (d : g3d_device) : Prop := g3d_busy d = true <-> phase d <> G3D_PH_IDLE.

Definition g3d_ok (ram_len : Z) (d : g3d_device) : Prop :=
  tables_ok d /\ counters_ok d /\ busy_ok d /\ phase_ok ram_len d.

Lemma vertex0_ok : vertex_ok vertex0.
Proof. unfold vertex_ok. cbn. lia. Qed.

Lemma table_zero n : table n (replicate n 0).
Proof. split; [apply length_replicate|]. apply Forall_replicate. unfold is_u32. lia. Qed.

Lemma cleared_tables c0 p0 i0 t0 :
  table 32 c0 -> table 128 p0 -> table 256 i0 -> table 64 t0 -> tables_ok (cleared c0 p0 i0 t0).
Proof.
  intros H1 H2 H3 H4. split; [done|]. split; [done|].
  do 6 (split; [split; [done|]; apply Forall_replicate;
    first [apply table_zero|apply vertex0_ok|unfold is_s32, is_s64; lia]|]).
  unfold colours_ok. cbn. lia.
Qed.

Lemma g3d_reset_ok a d : tables_ok d -> g3d_ok a (g3d_device_reset d).
Proof.
  intros ((H1 & H2 & H3 & H4) & _). split; [by apply cleared_tables|]. split; [|done].
  repeat (split; [unfold is_u32; cbn; lia|]). unfold is_u32; cbn; lia.
Qed.

Lemma g3d_initial_ok a : g3d_ok a g3d_initial.
Proof. apply (g3d_reset_ok a g3d_initial), cleared_tables; apply table_zero. Qed.

(** ** Accesses *)

Lemma window_ok off w i d :
  window off = Some (w, i) -> tables_ok d ->
  0 <= i < Z.of_nat (length (window_get d w)) /\ Forall is_u32 (window_get d w).
Proof.
  intros E (((L1 & F1) & (L2 & F2) & (L3 & F3) & (L4 & F4)) & _). unfold window in E.
  repeat (match type of E with context [if ?b then _ else _] => destruct b eqn:? end; bools; [injection E as <- <-; cbn [window_get];
    rewrite ?L1, ?L2, ?L3, ?L4; split; [|done];
    unfold G3D_CONST, G3D_CONSTS, G3D_PROGRAM, G3D_PROGRAM_WORDS, G3D_VERTEX, G3D_VMAX, G3D_SLOTS, G3D_TRIANGLE, G3D_TMAX in *; zlia|]).
  done.
Qed.

Lemma window_set_ok a d w l :
  g3d_ok a d -> g3d_busy d = false -> length l = length (window_get d w) -> Forall is_u32 l ->
  g3d_ok a (window_set d w l).
Proof.
  intros (T & C & B & P) Hb Hl Hf. destruct T as (((L1 & F1) & (L2 & F2) & (L3 & F3) & (L4 & F4)) & T).
  assert (phase d = G3D_PH_IDLE) as Hp.
  { unfold busy_ok in B. rewrite Hb in B. destruct (phase d); try done; exfalso; assert (false = true) by (by apply B); done. }
  destruct w; (split; [split; [|exact T]|split; [exact C|split; [exact B|]]]; [|by unfold phase_ok; cbn; rewrite Hp]);
    cbn in *; unfold table; cbn; rewrite ?Hl; auto.
Qed.

Lemma idle_phase d : busy_ok d -> g3d_busy d = false -> phase d = G3D_PH_IDLE.
Proof.
  intros B Hb. unfold busy_ok in B. rewrite Hb in B.
  destruct (phase d); try done; exfalso; assert (false = true) by (by apply B); done.
Qed.

Lemma param_set_ok a d q w : g3d_ok a d -> g3d_busy d = false -> is_u32 w -> g3d_ok a (param_set d q w).
Proof.
  intros (T & C & B & P) Hb Hw. pose proof (idle_phase d B Hb) as Hp. unfold counters_ok in C.
  destruct C as (C1 & C2 & C3 & C4 & C5 & C6 & C7 & C8 & C9 & C10 & C11 & C12 & C13 & C14 & C15).
  destruct q; (split; [exact T|split; [|split; [exact B|by unfold phase_ok; cbn; rewrite Hp]]]);
    unfold counters_ok; cbn; auto 20.
Qed.

Lemma param_get_u32 a d q : g3d_ok a d -> is_u32 (param_get d q).
Proof. intros (_ & C & _). unfold counters_ok in C. destruct q; apply C. Qed.

Lemma g3d_access_wp `{F : Fuelled} a d off width write val other :
  g3d_ok a d -> is_u32 val ->
  wpr (g3d_access d off width write val other) (fun o =>
    match o with Some (w, d') => g3d_ok a d' /\ is_u32 w | None => True end).
Proof.
  intros Hd Hv. pose proof Hd as (T & C & B & P). unfold g3d_access. wps; [exact I|].
  destruct (window off) as [[w i]|] eqn:Ew; [|destruct (param off) as [q|] eqn:Eq].
  - destruct (window_ok off w i d Ew T) as [Hi Hf]. wps; [exact I| |].
    + apply wpr_aset; [done|]. wps. split; [|done].
      apply window_set_ok; [done|done|by rewrite length_insert|by apply Forall_insert].
    + apply wpr_aget; [done|]. wps. split; [done|]. by apply (at_Forall is_u32).
  - wps; [exact I| |].
    + split; [by apply param_set_ok|done].
    + split; [done|by apply (param_get_u32 a)].
  - pose proof C as (C1 & C2 & C3 & C4 & C5 & C6 & C7 & C8 & C9 & C10 & C11 & C12 & C13 & C14 & C15).
    wps; try exact I; try (by split).
    split; [|done]. destruct (g3d_reset_ok a d T) as (T' & C' & B' & P'). done.
Qed.

(** ** Phases *)

(** [d'] differs from [d] in nothing the tables and parameters are about. *)
Definition keeps (d d' : g3d_device) : Prop :=
  (consts d', program d', inputs d', tris d', vcount d', tcount d', zbase d', limit d')
  = (consts d, program d, inputs d, tris d, vcount d, tcount d, zbase d, limit d).

Lemma keeps_shading a d d' : keeps d d' -> shading a d -> shading a d'.
Proof.
  intros K ((Hz & Hv) & Ht). unfold keeps in K. unfold shading, draw_ok, zbase_in, tris_below, tri_ok in *.
  injection K as _ _ _ -> -> -> -> _. done.
Qed.

(** A running device between phases. *)
Definition running (a : Z) (d : g3d_device) : Prop :=
  tables_ok d /\ counters_ok d /\ g3d_busy d = true /\ shading a d.

Lemma running_ok a d :
  tables_ok d -> counters_ok d -> g3d_busy d = true -> phase d <> G3D_PH_IDLE -> phase_ok a d -> g3d_ok a d.
Proof. intros T C B Hp P. by split; [|split; [|split]]. Qed.

Lemma fault_ok a d e : tables_ok d -> counters_ok d -> is_u32 e -> g3d_ok a (fault d e).
Proof.
  intros T C He. split; [exact T|]. split; [|split; [done|done]].
  destruct C as (_ & _ & C). split; [done|]. split; [exact He|exact C].
Qed.

Lemma u32_small z : 0 <= z < 0x100000000 -> u32 z = z.
Proof. apply u32_id. Qed.

Lemma next_triangle_ok a d : running a d -> 0 <= index d < tcount d -> g3d_ok a (next_triangle d).
Proof.
  intros (T & C & B & S) Hi. assert (Ht : 0 <= tcount d <= 64) by apply S.
  unfold next_triangle. rewrite u32_small by lia. apply running_ok; try done; cbn; [by casif|].
  destruct (index d + 1 <? tcount d) eqn:E; cbn; [|done]. bools. split; [exact S|]. cbn. lia.
Qed.

Lemma next_vertex_ok a d :
  running a d -> 0 <= batch d -> 0 <= lane d < 4 -> 4 * batch d + lane d < vcount d -> g3d_ok a (next_vertex d).
Proof.
  intros (T & C & B & S) Hb Hl Hv. assert (Hvc : 1 <= vcount d <= 32) by apply S.
  assert (Ht : 0 <= tcount d <= 64) by apply S.
  unfold next_vertex. unfold G3D_LANES. rewrite !(u32_small (lane d + 1)), !(u32_small (batch d + 1)) by lia.
  rewrite !u32_small by lia.
  destruct ((lane d + 1 <? 4) && (batch d * 4 + (lane d + 1) <? vcount d)) eqn:E1.
  { bools. apply running_ok; try done. unfold phase_ok; cbn. split; [exact S|]. lia. }
  destruct ((batch d + 1) * 4 <? vcount d) eqn:E2; bools.
  { apply running_ok; try done. unfold phase_ok; cbn. split; [exact S|]. lia. }
  unfold tst. destruct (tcount d =? 0) eqn:E3; cbn [negb]; bools; apply running_ok; try done.
  unfold phase_ok; cbn. split; [exact S|]. lia.
Qed.

Lemma next_pixel_ok a d :
  running a d -> 0 <= index d < tcount d -> raster_box d -> cursor_in d -> g3d_ok a (next_pixel d).
Proof.
  intros R Hi Hbox Hc. pose proof R as (T & C & B & S). unfold next_pixel.
  destruct (x d <? right d) eqn:E1; bools.
  { apply running_ok; try done. unfold phase_ok; cbn. split; [exact S|]. split; [done|]. split; [exact Hbox|].
    unfold cursor_in in *; cbn. lia. }
  destruct (y d <? bottom d) eqn:E2; bools; [|by apply next_triangle_ok].
  apply running_ok; try done. unfold phase_ok; cbn. split; [exact S|]. split; [done|]. split; [exact Hbox|].
  unfold cursor_in in *; cbn. lia.
Qed.

Lemma validate_ok a d ws we :
  tables_ok d -> counters_ok d -> g3d_busy d = true -> Z_BYTES <= a < 0x80000000 -> g3d_ok a (validate d a ws we).
Proof.
  intros T C B Ha. unfold validate.
  assert (Hz : zbase_ok d a ws we = true -> zbase_in a d).
  { unfold zbase_ok, zbase_in. intros. bools. rewrite u32_small in * by (unfold Z_BYTES in *; lia). lia. }
  assert (He : is_u32 G3D_E_PARAM) by (unfold is_u32, G3D_E_PARAM; lia).
  destruct (clearing d), (zbase_ok d a ws we); cbn [negb orb]; try (by apply fault_ok).
  - apply running_ok; try done. unfold phase_ok; cbn. split; [exact (Hz eq_refl)|lia].
  - match goal with |- g3d_ok _ (if ?b then _ else _) => destruct b eqn:E end; [by apply fault_ok|].
    unfold G3D_VMAX, G3D_TMAX in *. bools.
    assert (0 <= tcount d) by (apply C).
    assert (D : draw_ok a d) by (split; [auto|lia]).
    unfold tst. destruct (tcount d =? 0) eqn:Et; cbn [negb]; bools; apply running_ok; try done.
    + unfold phase_ok; cbn. split; [split; [exact D|]|lia]. intros k Hk. cbn in Hk. lia.
    + unfold phase_ok; cbn. split; [exact D|]. split; [lia|]. split; [done|]. intros k Hk. lia.
Qed.

Lemma index_step_wp `{F : Fuelled} a d :
  tables_ok d -> counters_ok d -> g3d_busy d = true -> phase d = G3D_PH_INDEX -> phase_ok a d ->
  wpr (index_step d) (g3d_ok a).
Proof.
  intros T C B Hp P. unfold phase_ok in P. rewrite Hp in P. destruct P as (D & Hi & Hb & Ht).
  assert (Htc : 0 <= tcount d <= 64) by apply D.
  unfold index_step. wps. apply wpr_aget; [destruct T as ((_ & _ & _ & (L & _)) & _); lia|]. wps.
  - apply fault_ok; [done..|unfold is_u32, G3D_E_INDEX; lia].
  - bools. rewrite u32_small by lia.
    assert (Hn : tris_below d (index d + 1)).
    { intros k Hk. destruct (Z.eq_dec k (index d)) as [->|]; [|apply Ht; lia]. split; [done|]. split; done. }
    destruct (index d + 1 =? tcount d) eqn:E; bools; apply running_ok; try done; unfold phase_ok; cbn; rewrite ?Hp; try done.
    + split; [split; [exact D|]|].
      * intros k Hk. cbn in Hk. apply Hn. lia.
      * rewrite Hb. assert (1 <= vcount d) by apply D. lia.
    + split; [exact D|]. split; [lia|]. split; [done|]. exact Hn.
Qed.

Lemma batch_step_ok a d :
  tables_ok d -> counters_ok d -> g3d_busy d = true -> phase d = G3D_PH_BATCH -> phase_ok a d -> g3d_ok a (batch_step d).
Proof.
  intros T C B Hp P. unfold phase_ok in P. rewrite Hp in P. destruct P as (S & Hb & Hv).
  destruct T as (T1 & T2 & _ & _ & T5). unfold batch_step. apply running_ok; try done.
  split; [exact T1|]. split; [exact T2|]. split; [|split; [|exact T5]]; (split; [done|]); apply Forall_replicate, table_zero.
Qed.

(** ** The shader *)

Definition word_ok (w : shader_word) : Prop :=
  0 <= w_rd w < 16 /\ 0 <= w_ra w < 16 /\ 0 <= w_rb w < 16 /\ 0 <= w_rc w < 16 /\ is_u32 (w_target w).

Lemma decode_ok w : word_ok (decode w).
Proof.
  unfold word_ok, decode, is_u32; cbn.
  pose proof (land_range (w .>> 22) 15). pose proof (land_range (w .>> 18) 15). pose proof (land_range (w .>> 14) 15).
  pose proof (land_range (w .>> 10) 15). pose proof (land_range w 127). lia.
Qed.

Lemma at_u32 n l i : table n l -> 0 <= i < Z.of_nat n -> is_u32 (at_ l i).
Proof. intros [L F0] Hi. apply (at_Forall is_u32); [done|lia]. Qed.

Lemma qmul_wp `{F : Fuelled} p q (Q : Z -> Prop) : (forall r, Q r) -> wpr (qmul p q) Q.
Proof.
  intros HQ. pose proof (s32_bnd _ (s32_range p)). pose proof (s32_bnd _ (s32_range q)).
  unfold qmul. wps. wp_int. wps. apply HQ.
Qed.

Lemma innermost_loop_wp `{F : Fuelled} st i (Q : nat -> Prop) :
  (i <= length st)%nat -> (forall n, Q n) -> wpr (innermost_loop st i) Q.
Proof.
  induction i as [|i IH]; intros Hi HQ; cbn [innermost_loop]; wps; [apply HQ|].
  apply wpr_aget; [lia|]. wps; [apply HQ|]. apply IH; [lia|done].
Qed.

Lemma lane_value_wp `{F : Fuelled} d w l r0 :
  tables_ok d -> table 16 r0 -> word_ok w -> 0 <= l < 4 -> 0 <= batch d -> 4 * batch d < 32 -> is_u32 (vcount d) ->
  wpr (lane_value d w l r0) (fun o => match o with Some val => is_u32 val | None => True end).
Proof.
  intros T R (Hrd & Hra & Hrb & Hrc & _) Hl Hb Hb4 Hvc. pose proof R as [L _].
  destruct T as ((Tc & _ & Ti & _) & _).
  pose proof (at_u32 16 r0 (w_ra w) R Hra) as Ha. pose proof (at_u32 16 r0 (w_rb w) R Hrb) as Hb'.
  pose proof (land_range (w_imm w) 31). pose proof (land_range (w_imm w) 7).
  assert (Hvid : u32 (batch d * G3D_LANES + l) = batch d * 4 + l) by (unfold G3D_LANES; apply u32_small; lia).
  unfold lane_value. rewrite Hvid. wps.
  apply wpr_aget; [lia|]. wps. apply wpr_aget; [lia|].
  wps; try (by apply u32_range).
  - apply wpr_aget; [destruct Tc; lia|]. wps. apply (at_u32 32); [done|lia].
  - unfold G3D_SLOTS. apply wpr_aget; [destruct Ti; lia|]. wps. apply (at_u32 256); [done|lia].
  - unfold is_u32. repeat casif; try lia. apply Hvc.
  - done.
  - apply qmul_wp. intros q. wps. apply u32_range.
  - apply wpr_aget; [lia|]. wps. apply qmul_wp. intros q. wps. apply u32_range.
  - by casif.
  - by casif.
  - casif; [apply u32_range|done].
  - by apply land_u32.
  - by apply lor_u32.
  - by apply lxor_u32.
  - done.
Qed.

(** [d'] differs from [d] in the lanes' registers, outputs and predicate only. *)
Definition lanes_only (d d' : g3d_device) : Prop :=
  tables_ok d' /\ d' = {| d with regs := regs d'; out := out d'; pred := pred d' |}.

Lemma tables_regs d l r' :
  tables_ok d -> table 16 r' -> tables_ok {| d with regs := <[l := r']> (regs d) |}.
Proof.
  intros (T1 & T2 & (T3 & T4) & T5) R. split; [exact T1|]. split; [exact T2|]. split; [|exact T5]. cbn.
  split; [by rewrite length_insert|by apply Forall_insert].
Qed.

Lemma tables_out d l o' :
  tables_ok d -> table 8 o' -> tables_ok {| d with out := <[l := o']> (out d) |}.
Proof.
  intros (T1 & T2 & T3 & (T4 & T5) & T6) R. split; [exact T1|]. split; [exact T2|]. split; [exact T3|]. split; [|exact T6]. cbn.
  split; [by rewrite length_insert|by apply Forall_insert].
Qed.

Lemma table_insert n l i val : table n l -> is_u32 val -> table n (<[i := val]> l).
Proof. intros [L F0] Hv. split; [by rewrite length_insert|by apply Forall_insert]. Qed.

Lemma lane_step_wp `{F : Fuelled} d w l :
  tables_ok d -> word_ok w -> 0 <= l < 4 -> 0 <= batch d -> 4 * batch d < 32 -> is_u32 (vcount d) ->
  wpr (lane_step d w l) (fun o => match o with Some d' => lanes_only d d' | None => True end).
Proof.
  intros T W Hl Hb Hb4 Hvc. pose proof T as (T1 & T2 & (T3 & T4) & (T5 & T6) & T7).
  pose proof W as (Hrd & Hra & Hrb & Hrc & _).
  assert (R : table 16 (at_ (regs d) l)) by (apply (at_Forall (table 16)); [done|lia]).
  assert (O : table 8 (at_ (out d) l)) by (apply (at_Forall (table 8)); [done|lia]).
  pose proof (land_range (w_imm w) 7). pose proof R as [RL _]. pose proof O as [OL _].
  unfold lane_step. wps; [split; [done|by destruct d]|].
  apply wpr_aget; [lia|]. wps. apply wpr_aget; [lia|]. wps. apply wpr_aget; [lia|]. wps.
  - by split.
  - apply wpr_aget; [lia|]. wps. apply wpr_aset; [lia|]. wps. apply wpr_aset; [lia|]. wps. split; [|done].
    apply tables_out; [done|]. apply table_insert; [done|]. by apply (at_u32 16).
  - eapply wpr_mono; [by apply lane_value_wp|]. intros [val|] Hval; [|exact I].
    wps. apply wpr_aset; [lia|]. wps. apply wpr_aset; [lia|]. wps. split; [|done].
    apply tables_regs; [done|]. by apply table_insert.
Qed.

Lemma lanes_only_trans d d1 d2 : lanes_only d d1 -> lanes_only d1 d2 -> lanes_only d d2.
Proof. intros (_ & E1) (T & E2). split; [done|]. rewrite E2, E1. done. Qed.

Lemma lanes_wp `{F : Fuelled} n l w d :
  tables_ok d -> word_ok w -> 0 <= l -> l + Z.of_nat n <= 4 -> 0 <= batch d -> 4 * batch d < 32 -> is_u32 (vcount d) ->
  wpr (lanes n l w d) (fun '(d', ok) =>
    exists d1, lanes_only d d1 /\ d' = if ok : bool then d1 else shader_fault d1 G3D_E_INTERNAL).
Proof.
  revert l d. induction n as [|n IH]; intros l d T W Hl Hn Hb Hb4 Hvc; cbn [lanes].
  - wps. exists d. split; [|done]. split; [done|by destruct d].
  - wps. eapply wpr_mono; [by apply lane_step_wp; try done; lia|]. intros [d1|] H1.
    + pose proof H1 as [T1 E1]. assert (batch d1 = batch d) by (by rewrite E1). assert (vcount d1 = vcount d) by (by rewrite E1).
      eapply wpr_mono; [apply IH; try done; try lia; congruence|]. intros [d' ok] (d2 & H2 & E2). exists d2. split; [|done].
      by eapply lanes_only_trans.
    + wps. exists d. split; [|done]. split; [done|by destruct d].
Qed.

Lemma shader_fault_ok a d e : tables_ok d -> counters_ok d -> is_u32 (pc d) -> is_u32 e -> g3d_ok a (shader_fault d e).
Proof.
  intros T C Hpc He. unfold shader_fault. apply fault_ok; [done| |done].
  destruct C as (C1 & C2 & C3 & C). split; [exact C1|]. split; [exact C2|]. split; [|exact C]. cbn.
  apply lor_u32; [done|apply u32_range].
Qed.

Definition executing (a : Z) (d : g3d_device) : Prop :=
  running a d /\ phase d = G3D_PH_EXEC /\ 0 <= batch d /\ 4 * batch d < vcount d /\ 0 <= depth d <= 8 /\ is_u32 (pc d).

Lemma executing_ok a d : executing a d -> g3d_ok a d.
Proof.
  intros ((T & C & B & S) & Hp & Hb & Hv & Hd & Hpc). apply running_ok; try done; [by rewrite Hp|].
  unfold phase_ok. rewrite Hp. done.
Qed.

(** Control flow: the stack, mask and pc move within their ranges. *)
Lemma executing_move a d stack' depth' mask' pc' :
  executing a d -> length stack' = 8%nat -> 0 <= depth' <= 8 -> is_u32 pc' ->
  g3d_ok a {| d with stack := stack'; depth := depth'; mask := mask'; pc := pc' |}.
Proof.
  intros ((T & C & B & S) & Hp & Hb & Hv & Hd & Hpc) Hl Hd' Hpc'. destruct T as (T1 & _ & T3).
  apply executing_ok. split; [split; [by split; [|split]|done]|]. done.
Qed.

Lemma execute_op_wp `{F : Fuelled} a d w next :
  executing a d -> word_ok w -> is_u32 next -> wpr (execute_op d w next) (g3d_ok a).
Proof.
  intros X W Hn. pose proof X as ((T & C & B & S) & Hp & Hb & Hv & Hd & Hpc).
  assert (Hvc : 1 <= vcount d <= 32) by apply S. assert (Hvu : is_u32 (vcount d)) by apply C.
  assert (Ls : length (stack d) = 8%nat) by apply T.
  assert (Ht : is_u32 (w_target w)) by apply W.
  assert (Hsf : forall e, is_u32 e -> g3d_ok a (shader_fault d e)) by (intros; by apply shader_fault_ok).
  assert (Hif : forall b : bool, is_u32 (if b then w_target w else next)) by (by intros []).
  assert (Hif' : forall b : bool, is_u32 (if b then next else w_target w)) by (by intros []).
  assert (Hmv : forall st dp mk p', length st = 8%nat -> 0 <= dp <= 8 -> is_u32 p' ->
            g3d_ok a {| d with stack := st; depth := dp; mask := mk; pc := p' |}) by (intros; by apply executing_move).
  unfold execute_op. unfold G3D_DEPTH. unfold tst in *. wps; bools; try (by apply Hsf).
  - apply running_ok; try done. unfold phase_ok; cbn. split; [exact S|]. lia.
  - apply wpr_aset; [lia|]. wps. apply Hmv; [by rewrite length_insert|rewrite u32_small; lia|done].
  - apply wpr_aget; [lia|]. wps; [by apply Hsf| |].
    + by apply (Hmv (stack d) (depth d)).
    + apply (Hmv (stack d)); [done|rewrite u32_small; lia|done].
  - apply wpr_aget; [lia|]. wps; [by apply Hsf| |].
    + by apply (Hmv (stack d) (depth d) (mask d)).
    + apply (Hmv (stack d)); [done|rewrite u32_small; lia|done].
  - apply innermost_loop_wp; [lia|]. intros [|n]; wps; [by apply Hsf|].
    apply (Hmv _ (depth d)); [unfold leave_frames; by rewrite length_imap|done|done].
  - eapply wpr_mono; [apply lanes_wp; try done; lia|]. intros [d' ok] (d1 & (T1 & E1) & ->).
    assert (X1 : executing a d1).
    { assert (K : keeps d d1) by (by rewrite E1). split; [split; [done|split; [by rewrite E1|split; [by rewrite E1|by apply (keeps_shading a d)]]]|].
      by rewrite E1. }
    destruct ok; wps.
    + apply (executing_move a d1 (stack d1) (depth d1) (mask d1) next X1); [apply T1|apply X1|done].
    + apply shader_fault_ok; [done|apply X1|apply X1|done].
Qed.

Lemma execute_wp `{F : Fuelled} a d : executing a d -> wpr (execute d) (g3d_ok a).
Proof.
  intros X. pose proof X as ((T & C & B & S) & Hp & Hb & Hv & Hd & Hpc). unfold is_u32 in Hpc.
  unfold execute. wps; try (apply shader_fault_ok; done).
  unfold G3D_PROGRAM_WORDS in *. bools. apply wpr_aget; [destruct T as ((_ & (L & _) & _) & _); lia|].
  wps; [by apply shader_fault_ok|]. apply execute_op_wp; [|apply decode_ok|apply u32_range].
  assert (C' : counters_ok {| d with count := u32 (count d + 1); instructions := u32 (instructions d + 1) |}).
  { destruct C as (C1 & C2 & C3 & C4 & C5 & C6 & C7). repeat (split; [assumption|]). split; [apply u32_range|exact C7]. }
  split; [by split; [|split; [|split]]|done].
Qed.

(** ** Vertices and the divider *)

Lemma colour_slot_range s0 : 0 <= colour_slot s0 <= 255.
Proof. unfold colour_slot. repeat casif; bools; lia. Qed.

Lemma set_vert_wp `{F : Fuelled} d i f (Q : g3d_device -> Prop) :
  tables_ok d -> 0 <= i < 32 -> (forall w, vertex_ok w -> vertex_ok (f w)) ->
  (forall vs, tables_ok {| d with verts := vs |} -> Q {| d with verts := vs |}) -> wpr (set_vert d i f) Q.
Proof.
  intros T Hi Hf HQ. pose proof T as (T1 & T2 & T3 & T4 & (T5 & T6) & T7). unfold set_vert. wps.
  apply wpr_aget; [lia|]. wps. apply wpr_aset; [lia|]. wps. apply HQ.
  split; [exact T1|]. split; [exact T2|]. split; [exact T3|]. split; [exact T4|]. split; [|exact T7]. cbn.
  split; [by rewrite length_insert|]. apply Forall_insert; [done|]. apply Hf, (at_Forall vertex_ok); [done|lia].
Qed.

Definition at_vertex (d : g3d_device) : Prop := 0 <= batch d /\ 0 <= lane d < 4 /\ 4 * batch d + lane d < vcount d.

Lemma vertex_check_wp `{F : Fuelled} a d : running a d -> at_vertex d -> wpr (vertex_check d) (g3d_ok a).
Proof.
  intros R (Hb & Hl & Hv). pose proof R as (T & C & B & S). pose proof T as (T1 & T2 & T3 & (T4 & T5) & T6).
  assert (Hvc : 1 <= vcount d <= 32) by apply S.
  assert (O : table 8 (at_ (out d) (lane d))) by (apply (at_Forall (table 8)); [done|lia]). destruct O as [OL _].
  unfold vertex_check, G3D_OUT_X, G3D_OUT_Y, G3D_OUT_Z, G3D_OUT_W, G3D_OUT_R. wps. apply wpr_aget; [lia|].
  do 7 (wps; apply wpr_aget; [lia|]). wps.
  do 4 match goal with |- context [s32 ?e] => generalize (s32_bnd _ (s32_range e)); generalize (s32 e); intros ? ? end.
  do 3 (wp_int; wps).
  set (valid := (_ && _)).
  apply set_vert_wp; [done|unfold G3D_LANES; rewrite u32_small; lia| |].
  { intros w (W1 & W2 & W3 & _). pose proof colour_slot_range as Hc.
    split; [exact W1|]. split; [exact W2|]. split; [exact W3|]. cbn. auto. }
  intros vs T'. destruct valid eqn:Ev; cbn [negb].
  2:{ wps. apply next_vertex_ok; [by split; [|split; [|split]]|done..]. }
  unfold valid, G3D_W_NEAR in Ev. bools.
  pose proof T' as (P1 & P2 & P3 & P4 & P5 & P6 & (P7 & P7') & P8). cbn in P7, P7', P8.
  wps. do 3 (wp_int; wps). cbn. apply wpr_aset; [lia|]. wps. apply wpr_aset; [rewrite length_insert; lia|]. wps.
  apply wpr_aset; [rewrite !length_insert; lia|]. wps.
  unfold start_divides. apply running_ok; try done.
  - repeat (split; [assumption|]). split; [|exact P8]. cbn. split; [by rewrite !length_insert|].
    repeat apply Forall_insert; [exact P7'|solve_s64..].
  - unfold phase_ok; cbn. split; [exact S|]. unfold dividing_vertex; cbn.
    repeat (split; [lia|]). split; [|intros k Hk; lia].
    intros k Hk. change (Z.to_nat 0) with 0%nat. rewrite (at_insert _ 2), (at_insert _ 1), (at_insert _ 0) by (rewrite ?length_insert; lia).
    split; [|split]; intros ->; cbn; lia.
Qed.

Lemma quot_bound n den b : 0 < den -> 0 <= b -> - b * den <= n <= b * den -> - b <= Z.quot n den <= b.
Proof. intros Hd Hb Hn. split; [apply Z.quot_le_lower_bound|apply Z.quot_le_upper_bound]; lia. Qed.

Lemma quot_nonneg n den b : 0 < den -> 0 <= n <= b * den -> 0 <= Z.quot n den <= b.
Proof. intros Hd Hn. split; [apply Z.quot_pos; lia|apply Z.quot_le_upper_bound; lia]. Qed.

(** Dividing by a positive number does not leave [int64_t]. *)
Lemma quot_s64 n den : 0 < den -> is_s64 n -> is_s64 (Z.quot n den).
Proof.
  intros Hd Hn. unfold is_s64 in *. pose proof (quot_bound n den (Z.abs n) Hd ltac:(lia) ltac:(nia)).
  destruct (Z.le_gt_cases 0 n); [pose proof (Z.quot_pos n den); lia|].
  pose proof (Z.quot_opp_l n den ltac:(lia)). pose proof (Z.quot_pos (- n) den). lia.
Qed.

(** A vertex quotient is small enough not to saturate. *)
Lemma sat_vertex `{F : Fuelled} k n den (Q : Z -> Prop) :
  0 < den -> is_s64 n -> 0 <= k <= 2 -> vertex_quotient k n den ->
  (forall q, is_s32 q -> vertex_quotient k q 1 -> Q q) -> wpr (sat n den) Q.
Proof.
  intros Hd Hn Hk (V0 & V1 & V2) HQ. unfold sat. wps; bools; [lia|].
  apply wpr_int64; [by apply quot_s64|]. wps. apply HQ; [unfold is_s32; repeat casif; bools; lia|].
  assert (k = 0 \/ k = 1 \/ k = 2) as [->|[->| ->]] by lia.
  - pose proof (quot_bound n den 10240 Hd ltac:(lia) (V0 eq_refl)).
    split; [|split]; try lia. repeat casif; bools; lia.
  - pose proof (quot_bound n den 7680 Hd ltac:(lia) (V1 eq_refl)).
    split; [|split]; try lia. repeat casif; bools; lia.
  - pose proof (quot_nonneg n den 65535 Hd (V2 eq_refl)).
    split; [|split]; try lia. repeat casif; bools; lia.
Qed.

Lemma sat_any `{F : Fuelled} n den (Q : Z -> Prop) :
  0 < den -> is_s64 n -> (forall q, is_s32 q -> Q q) -> wpr (sat n den) Q.
Proof.
  intros Hd Hn HQ. unfold sat. wps; bools; [lia|]. apply wpr_int64; [by apply quot_s64|]. wps.
  apply HQ. unfold is_s32. repeat casif; bools; lia.
Qed.

(** The divider's next turn keeps everything else. *)
Lemma counters_divides d qs n :
  counters_ok d -> counters_ok {| d with div_q := qs; divides := u32 n |}.
Proof.
  intros (C1 & C2 & C3 & C4 & C5 & C6 & C7 & C8 & C9). repeat (split; [assumption|]). split; [apply u32_range|exact C9].
Qed.

Lemma tables_div_q d qs n : tables_ok d -> length qs = 8%nat -> Forall is_s32 qs -> tables_ok {| d with div_q := qs; divides := n |}.
Proof. intros (T1 & T2 & T3 & T4 & T5 & T6 & T7 & T8 & T9) L Fq. repeat (split; [assumption|]). by split. Qed.

Lemma divide_vertex_wp `{F : Fuelled} a d :
  running a d -> phase d = G3D_PH_DIVIDE -> div_setup d = false -> dividing_vertex d -> wpr (divide_done d) (g3d_ok a).
Proof.
  intros R Hp Hs (Hb & Hl & Hv & Hden & Hk & Hn & Hq). pose proof R as (T & C & B & S).
  pose proof T as (_ & _ & _ & _ & _ & _ & (L7 & F7) & (L8 & F8) & _). assert (Hvc : 1 <= vcount d <= 32) by apply S.
  unfold divide_done. wps. apply wpr_aget; [lia|]. wps. 
  apply (sat_vertex (div_k d)); [done|by apply (at_Forall is_s64); [|lia]|done|auto|]. intros q Hs32 Hq'.
  wps. apply wpr_aset; [lia|]. cbv beta zeta. cbn [div_setup]. rewrite Hs. cbn [negb].
  remember (<[Z.to_nat (div_k d) := q]> (div_q d)) as qs eqn:Eqs.
  assert (Lq : length qs = 8%nat) by (rewrite Eqs; by rewrite length_insert).
  assert (Hqs : forall k, 0 <= k < div_k d + 1 -> vertex_quotient k (at_ qs k) 1).
  { intros k Hk'. rewrite Eqs, at_insert by lia. destruct (Z.eqb_spec (div_k d) k) as [E|]; [by rewrite <- E|apply Hq; lia]. }
  assert (Fq : Forall is_s32 qs) by (rewrite Eqs; by apply Forall_insert).
  pose proof (tables_div_q d qs (u32 (divides d + 1)) T Lq Fq) as T'.
  pose proof (counters_divides d qs (divides d + 1) C) as C'.
  wps; bools; cbn [div_k div_q batch lane] in *.
  - rewrite (u32_small (div_k d + 1)) by lia. apply running_ok; try done; [by cbn; rewrite Hp|].
    unfold phase_ok; cbn. rewrite Hp. split; [exact S|]. rewrite ?Hs. unfold dividing_vertex; cbn.
    split; [done|]. split; [done|]. split; [done|]. split; [done|]. split; [lia|]. split; [exact Hn|exact Hqs].
  - do 3 (apply wpr_aget; [lia|]; wps).
    destruct (Hqs 0 ltac:(lia)) as (Q0 & _), (Hqs 1 ltac:(lia)) as (_ & Q1 & _), (Hqs 2 ltac:(lia)) as (_ & _ & Q2).
    specialize (Q0 eq_refl). specialize (Q1 eq_refl). specialize (Q2 eq_refl).
    do 2 (apply wpr_int32; [unfold is_s32; lia|]; wps).
    apply set_vert_wp; [done|unfold G3D_LANES; rewrite u32_small; lia| |].
    { intros w (W1 & W2 & W3 & W4). unfold vertex_ok; cbn. lia. }
    intros vs T''. wps. apply next_vertex_ok; [by split; [|split; [|split]]|done..].
Qed.

Lemma divide_setup_wp `{F : Fuelled} a d :
  running a d -> phase d = G3D_PH_DIVIDE -> div_setup d = true -> dividing_setup d -> wpr (divide_done d) (g3d_ok a).
Proof.
  intros R Hp Hs (Hi & Hden & Hk & Hbox). pose proof R as (T & C & B & S).
  pose proof T as (_ & _ & _ & _ & _ & _ & (L7 & F7) & (L8 & F8) & _).
  unfold divide_done. wps. apply wpr_aget; [lia|]. wps. 
  apply sat_any; [done|by apply (at_Forall is_s64); [|lia]|]. intros q Hs32.
  wps. apply wpr_aset; [lia|]. cbv beta zeta. cbn [div_setup]. rewrite Hs. cbn [negb].
  remember (<[Z.to_nat (div_k d) := q]> (div_q d)) as qs eqn:Eqs.
  assert (Lq : length qs = 8%nat) by (rewrite Eqs; by rewrite length_insert).
  assert (Fq : Forall is_s32 qs) by (rewrite Eqs; by apply Forall_insert).
  pose proof (tables_div_q d qs (u32 (divides d + 1)) T Lq Fq) as T'.
  pose proof (counters_divides d qs (divides d + 1) C) as C'.
  wps; bools; cbn [div_k right left bottom top] in *.
  - rewrite (u32_small (div_k d + 1)) by lia. apply running_ok; try done; [by cbn; rewrite Hp|].
    unfold phase_ok; cbn. rewrite Hp. split; [exact S|]. rewrite ?Hs. unfold dividing_setup; cbn.
    split; [done|]. split; [done|]. split; [lia|exact Hbox].
  - apply next_triangle_ok; [by split; [|split; [|split]]|done].
  - by apply running_ok.
Qed.

Lemma fetch_step_wp `{F : Fuelled} a d :
  running a d -> 0 <= index d < tcount d -> wpr (fetch_step d) (g3d_ok a).
Proof.
  intros R Hi. pose proof R as (T & C & B & S). pose proof T as ((_ & _ & _ & (L4 & _)) & T2 & T3 & T4 & (T5 & T6) & _ & T7).
  assert (Ht : 0 <= tcount d <= 64) by apply S. assert (Hvc : 1 <= vcount d <= 32) by apply S.
  destruct S as (D & Htri). destruct (Htri (index d) Hi) as (H1 & H2 & H3).
  set (t := at_ (tris d) (index d)) in *.
  pose proof (land_range t 255). pose proof (land_range (t .>> 8) 255). pose proof (land_range (t .>> 16) 255).
  unfold fetch_step. wps. apply wpr_aget; [lia|]. fold t.
  assert (V : forall i, 0 <= i < 32 -> vertex_ok (at_ (verts d) i)) by (intros; apply (at_Forall vertex_ok); [done|lia]).
  do 3 (wps; apply wpr_aget; [lia|]).
  set (l := [_; _; _]).
  assert (Tl : tables_ok {| d with v := l |}).
  { destruct T as (A1 & A2 & A3 & A4 & A5 & _ & A7). repeat (split; [assumption|]). split; [|exact A7].
    split; [done|]. repeat constructor; apply V; lia. }
  wps.
  - apply next_triangle_ok; [|done]. split; [exact Tl|]. split; [|done].
    destruct C as (C1 & C2 & C3 & C4 & C5 & C6 & C7 & C8 & C9 & C10 & C11 & C12).
    repeat (split; [assumption|]). split; [apply u32_range|exact C12].
  - apply running_ok; try done.
Qed.

(** ** Triangle setup and the raster *)

(** The magnitudes of a vertex's fields. *)
Lemma vertex_bnds w :
  vertex_ok w -> (bnd 12800 (v_sx w) /\ bnd 9600 (v_sy w)) /\ forall k, bnd 65535 (attribute k w).
Proof. intros (X & Y & Zz & R & G & B). unfold attribute, bnd. split; [lia|]. intros k. repeat casif; lia. Qed.

Lemma signed_area_wp `{F : Fuelled} v0 v1 v2 (Q : Z -> Prop) :
  vertex_ok v0 -> vertex_ok v1 -> vertex_ok v2 -> (forall r, -0x40000000 < r < 0x40000000 -> Q r) ->
  wpr (signed_area v0 v1 v2) Q.
Proof.
  intros V0 V1 V2 HQ. destruct (vertex_bnds _ V0) as ((? & ?) & _), (vertex_bnds _ V1) as ((? & ?) & _), (vertex_bnds _ V2) as ((? & ?) & _).
  unfold signed_area. wps. do 6 (wp_int; wps). wp_int. apply HQ.
  match goal with |- _ < ?e < _ => assert (E : bnd 983040000 e); [|unfold bnd in E; lia] end.
  change 983040000 with ((12800 + 12800) * (9600 + 9600) + (9600 + 9600) * (12800 + 12800)). magnitude.
Qed.

Lemma gradient_wp `{F : Fuelled} ex1 ey1 ex2 ey2 v0 w1 w2 k (Q : list Z -> Prop) :
  vertex_ok v0 -> vertex_ok w1 -> vertex_ok w2 ->
  bnd 25600 ex1 -> bnd 19200 ey1 -> bnd 25600 ex2 -> bnd 19200 ey2 ->
  (forall n0 n1, is_s64 n0 -> is_s64 n1 -> Q [n0; n1]) -> wpr (gradient ex1 ey1 ex2 ey2 v0 w1 w2 k) Q.
Proof.
  intros V0 V1 V2 X1 Y1 X2 Y2 HQ. destruct (vertex_bnds _ V0) as (_ & A0), (vertex_bnds _ V1) as (_ & A1), (vertex_bnds _ V2) as (_ & A2).
  specialize (A0 k). specialize (A1 k). specialize (A2 k).
  unfold gradient. wps. do 10 (wp_int; wps). apply HQ; solve_s64.
Qed.

Lemma inside_wp `{F : Fuelled} v0 v1 px py (Q : bool -> Prop) :
  vertex_ok v0 -> vertex_ok v1 -> bnd 5120 px -> bnd 5120 py -> (forall r, Q r) -> wpr (inside v0 v1 px py) Q.
Proof.
  intros V0 V1 X Y HQ. destruct (vertex_bnds _ V0) as ((? & ?) & _), (vertex_bnds _ V1) as ((? & ?) & _).
  unfold inside. wps. do 7 (wp_int; wps). apply HQ.
Qed.

Lemma clamp_range p hi : 0 <= hi -> 0 <= clamp p hi <= hi.
Proof. unfold clamp. intros. repeat casif; bools; lia. Qed.

Lemma interpolate_wp `{F : Fuelled} qs v0 px py k hi (Q : Z -> Prop) :
  length qs = 8%nat -> Forall is_s32 qs -> vertex_ok v0 -> bnd 5120 px -> bnd 5120 py -> 0 <= k <= 3 -> 0 <= hi <= 65535 ->
  (forall r, 0 <= r <= hi -> Q r) -> wpr (interpolate qs v0 px py k hi) Q.
Proof.
  intros L Fq V0 X Y Hk Hh HQ. destruct (vertex_bnds _ V0) as ((? & ?) & A). specialize (A k).
  assert (At : forall i, 0 <= i < 8 -> bnd 0x80000000 (at_ qs i)) by (intros; apply s32_bnd, (at_Forall is_s32); [done|lia]).
  pose proof (At (2 * k) ltac:(lia)). pose proof (At (2 * k + 1) ltac:(lia)).
  unfold interpolate. wps. do 2 (apply wpr_aget; [lia|]; wps). do 5 (wp_int; wps).
  match goal with |- context [?e .>> 16] => set (sum := e) end.
  assert (S : bnd (0x80000000 * 32768 + 0x80000000 * 32768) sum).
  { subst sum. apply bnd_add; apply bnd_mul; try done; unfold bnd in *; lia. }
  pose proof (bnd_shiftr _ _ 16 ltac:(lia) S). wp_int. wps. pose proof (clamp_range (attribute k v0 + (sum .>> 16)) hi ltac:(lia)).
  rewrite s32_id by (unfold is_s32; lia). by apply HQ.
Qed.

Lemma counters_culled d n : counters_ok d -> counters_ok {| d with culled := u32 n |}.
Proof.
  intros (C1 & C2 & C3 & C4 & C5 & C6 & C7 & C8 & C9 & C10 & C11 & C12).
  repeat (split; [assumption|]). split; [apply u32_range|exact C12].
Qed.

Lemma area_wp `{F : Fuelled} a d : running a d -> 0 <= index d < tcount d -> wpr (area d) (g3d_ok a).
Proof.
  intros R Hi. pose proof R as (T & C & B & S). pose proof T as (A1 & A2 & A3 & A4 & A5 & (L & Fv) & A7 & A8).
  assert (V : forall i, 0 <= i < 3 -> vertex_ok (at_ (v d) i)) by (intros; apply (at_Forall vertex_ok); [done|lia]).
  pose proof (V 0 ltac:(lia)) as V0. pose proof (V 1 ltac:(lia)) as V1. pose proof (V 2 ltac:(lia)) as V2.
  unfold area. do 3 (wps; apply wpr_aget; [lia|]). wps. apply signed_area_wp; [done..|]. intros r Hr. wps.
  - apply next_triangle_ok; [|done]. split; [done|]. split; [by apply counters_culled|done].
  - bools. apply wpr_int64; [unfold is_s64; lia|]. wps.
    destruct (vertex_bnds _ V0) as ((X0 & Y0) & _), (vertex_bnds _ V1) as ((X1 & Y1) & _), (vertex_bnds _ V2) as ((X2 & Y2) & _).
    do 4 (wp_int; wps).
    do 4 (apply gradient_wp; [done|done|done|unfold bnd in *; lia..|]; intros ? ? ? ?; wps).
    unfold start_divides. rewrite s32_id by (unfold is_s32; lia). apply running_ok; try done.
    + repeat (split; [assumption|]). 
      split; [split; [done|repeat (apply Forall_cons_2; [assumption|]); apply Forall_nil_2]|].
      split; [|exact A8]. split; [done|]. cbn. repeat (apply Forall_cons_2; [assumption|]); apply Forall_nil_2.
    + unfold phase_ok; cbn. split; [exact S|]. unfold dividing_setup; cbn. split; [done|]. split; [lia|]. split; [lia|].
      unfold raster_box; cbn. repeat split; casif; bools; lia.
Qed.

Lemma test_wp `{F : Fuelled} a d :
  running a d -> 0 <= index d < tcount d -> raster_box d -> cursor_in d -> wpr (test d) (g3d_ok a).
Proof.
  intros R Hi Hbox Hc. pose proof R as (T & C & B & S). pose proof T as (A1 & A2 & A3 & A4 & A5 & (L & Fv) & A7 & (A8 & F8) & A9).
  assert (V : forall i, 0 <= i < 3 -> vertex_ok (at_ (v d) i)) by (intros; apply (at_Forall vertex_ok); [done|lia]).
  pose proof (V 0 ltac:(lia)) as V0. pose proof (V 1 ltac:(lia)) as V1. pose proof (V 2 ltac:(lia)) as V2.
  assert (X : 0 <= x d <= 319 /\ 0 <= y d <= 239) by (unfold raster_box, cursor_in in *; lia).
  unfold test. do 3 (wps; apply wpr_aget; [lia|]). wps.
  do 4 (apply wpr_int32; [unfold is_s32; lia|]; wps).
  set (px := x d * 16 + 8). set (py := y d * 16 + 8).
  assert (Px : bnd 5120 px) by (unfold bnd; lia). assert (Py : bnd 5120 py) by (unfold bnd; lia).
  clearbody px py.
  apply inside_wp; try done. intros i0.
  assert (I : forall (b : bool) va vb (Q : bool -> Prop), vertex_ok va -> vertex_ok vb -> (forall q, Q q) ->
    wpr (if b then inside va vb px py else mret false) Q) by (intros [] **; [by apply inside_wp|wps; auto]).
  apply wpr_bind, I; [done|done|]. intros i1. apply wpr_bind, I; [done|done|]. intros i2. wps; [by apply next_pixel_ok|].
  do 4 (apply interpolate_wp; [done|done|done|done|done|lia|lia|]; intros ? ?; wps).
  apply running_ok; try done.
Qed.

Lemma zoff_ok a d :
  draw_ok a d -> raster_box d -> cursor_in d -> a < 0x80000000 ->
  u32 (y d * 320 + x d) = y d * 320 + x d /\ 0 <= y d * 320 + x d < 76800 /\
  zoff d = zbase d - RAM_ORIGIN + 2 * (y d * 320 + x d) /\ 0 <= zoff d /\ zoff d + 1 < a /\ u32 (zoff d + 1) = zoff d + 1.
Proof.
  intros ((Z1 & Z2) & _) (B1 & B2 & B3 & B4) (C1 & C2) Ha. unfold Z_BYTES, RAM_ORIGIN in *.
  assert (Hp : 0 <= y d * 320 + x d < 76800) by lia.
  assert (E : u32 (y d * 320 + x d) = y d * 320 + x d) by (apply u32_small; lia).
  assert (Ez : zoff d = zbase d - 0x80000000 + 2 * (y d * 320 + x d)).
  { unfold zoff, RAM_ORIGIN. rewrite E. apply u32_small. lia. }
  rewrite Ez. repeat split; try lia. apply u32_small. lia.
Qed.

Lemma dither_wp `{F : Fuelled} d : colours_ok d -> wpr (dither d) (fun c => is_u8 c).
Proof.
  intros (Hr & Hg & Hb). unfold dither. pose proof (land_range (y d) 3). pose proof (land_range (x d) 3).
  wps. apply wpr_aget; [cbn; lia|]. wps.
  match goal with |- context [at_ bayer ?i] => assert (0 <= at_ bayer i <= 15);
    [apply (at_Forall (fun t => 0 <= t <= 15)); [repeat constructor; lia|cbn; lia]|generalize dependent (at_ bayer i); intros t Ht] end.
  do 3 (apply wpr_int32; [unfold is_s32; lia|]; wps). apply u8_range.
Qed.

(** ** Ticks *)

(** A counter moved on. *)
Lemma counters_transfers d n : counters_ok d -> counters_ok {| d with transfers := u32 n |}.
Proof.
  intros (C1 & C2 & C3 & C4 & C5 & C6 & C7 & C8). repeat (split; [assumption|]). split; [apply u32_range|exact C8].
Qed.
Lemma counters_cycles d n : counters_ok d -> counters_ok {| d with cycles := u32 n |}.
Proof.
  intros (C1 & C2 & C3 & C4 & C5). repeat (split; [assumption|]). split; [apply u32_range|exact C5].
Qed.
Lemma counters_stalls d n : counters_ok d -> counters_ok {| d with stalls := u32 n |}.
Proof.
  intros (C1 & C2 & C3 & C4 & C5 & C6). repeat (split; [assumption|]). split; [apply u32_range|exact C6].
Qed.
Lemma counters_zfail d n : counters_ok d -> counters_ok {| d with zfail := u32 n |}.
Proof.
  intros (C1 & C2 & C3 & C4 & C5 & C6 & C7 & C8 & C9 & C10 & C11). repeat (split; [assumption|]).
  split; [apply u32_range|exact C11].
Qed.
Lemma counters_pixels d n : counters_ok d -> counters_ok {| d with pixels := u32 n |}.
Proof.
  intros (C1 & C2 & C3 & C4 & C5 & C6 & C7 & C8 & C9 & C10). repeat (split; [assumption|]).
  split; [apply u32_range|exact C10].
Qed.

(** A raster phase at a pixel of its box. *)
Definition at_pixel (a : Z) (d : g3d_device) : Prop :=
  running a d /\ 0 <= index d < tcount d /\ raster_box d /\ cursor_in d.

Lemma at_pixel_ok a d ph :
  at_pixel a d -> ph = G3D_PH_ZWRITE \/ ph = G3D_PH_PWRITE -> g3d_ok a {| d with phase := ph |}.
Proof.
  intros ((T & C & B & S) & Hi & Hb & Hc) Hp. apply running_ok; try done; [by destruct Hp as [-> | ->]|].
  unfold phase_ok; cbn. by destruct Hp as [-> | ->].
Qed.

Section Tick.
Context `{F : Fuelled} (a : Z) (Ha : Z_BYTES <= a < 0x80000000).

(** What a tick leaves: device, RAM, framebuffer. *)
Definition tick_post (r : g3d_device * buffer * buffer) : Prop :=
  let '(d', ram', fb') := r in
  g3d_ok a d' /\ (buf_ok ram' /\ buf_len ram' = a) /\ (buf_ok fb' /\ buf_len fb' = 76800).

Lemma zread_wp d ram fb :
  at_pixel a d -> buf_ok ram -> buf_len ram = a -> buf_ok fb -> buf_len fb = 76800 ->
  wpr (b0 ← buf_get ram (zoff d); b1 ← buf_get ram (u32 (zoff d + 1));
       let old := b0 .| (b1 .<< 8) in
       let d := {| d with transfers := u32 (transfers d + 1) |} in
       if u32 (z d) <? old then mret ({| d with phase := G3D_PH_ZWRITE |}, ram, fb)
       else mret (next_pixel {| d with zfail := u32 (zfail d + 1) |}, ram, fb)) tick_post.
Proof.
  intros P Hr Er Hf Ef. pose proof P as ((T & C & B & S) & Hi & Hb & Hc).
  destruct (zoff_ok a d (proj1 S) Hb Hc ltac:(lia)) as (_ & _ & _ & Z1 & Z2 & Z3).
  assert (P1 : at_pixel a {| d with transfers := u32 (transfers d + 1) |}).
  { split; [split; [exact T|split; [by apply counters_transfers|done]]|done]. }
  rewrite Z3, !buf_get_ok by lia. wps; (split; [|done]).
  - by apply (at_pixel_ok a); [|left].
  - destruct P1 as ((T1 & C1 & B1 & S1) & Hi1 & Hb1 & Hc1).
    apply next_pixel_ok; try done. split; [exact T1|]. split; [by apply counters_zfail|done].
Qed.

Lemma zwrite_wp d ram fb :
  at_pixel a d -> buf_ok ram -> buf_len ram = a -> buf_ok fb -> buf_len fb = 76800 ->
  wpr (ram1 ← buf_set ram (zoff d) (u8 (z d)); ram2 ← buf_set ram1 (u32 (zoff d + 1)) (u8 (z d .>> 8));
       mret ({| d with ram_written := true; ram_written_at := zoff d;
                       transfers := u32 (transfers d + 1); phase := G3D_PH_PWRITE |}, ram2, fb)) tick_post.
Proof.
  intros P Hr Er Hf Ef. pose proof P as ((T & C & B & S) & Hi & Hb & Hc).
  destruct (zoff_ok a d (proj1 S) Hb Hc ltac:(lia)) as (_ & _ & _ & Z1 & Z2 & Z3).
  rewrite Z3. wps. apply buf_set_keeps; [done|lia|]. intros r1 Hr1 Er1. wps.
  apply buf_set_keeps; [done|lia|]. intros r2 Hr2 Er2. wps. split; [|split; [split; [done|lia]|done]].
  assert (P1 : at_pixel a {| d with ram_written := true; ram_written_at := zoff d; transfers := u32 (transfers d + 1) |}).
  { split; [split; [exact T|split; [by apply counters_transfers|done]]|done]. }
  by apply (at_pixel_ok a _ G3D_PH_PWRITE P1); right.
Qed.

Lemma pwrite_wp d ram fb :
  at_pixel a d -> buf_ok ram -> buf_len ram = a -> buf_ok fb -> buf_len fb = 76800 ->
  wpr (c ← dither d;
       let at0 := u32 (y d * 320 + x d) in
       fb' ← buf_set fb at0 c;
       mret (next_pixel {| d with fb_written := true; fb_written_at := at0;
                                  transfers := u32 (transfers d + 1); pixels := u32 (pixels d + 1) |}, ram, fb')) tick_post.
Proof.
  intros P Hr Er Hf Ef. pose proof P as ((T & C & B & S) & Hi & Hb & Hc).
  destruct (zoff_ok a d (proj1 S) Hb Hc ltac:(lia)) as (Z0 & Z1 & _).
  wps. eapply wpr_mono; [apply dither_wp, T|]. intros c Hcc. cbv zeta. rewrite Z0. wps.
  apply buf_set_keeps; [done|lia|]. intros f1 Hf1 Ef1. wps. split; [|split; [done|split; [done|lia]]].
  apply next_pixel_ok; try done. split; [exact T|]. split; [|done].
  exact (counters_pixels _ (pixels d + 1) (counters_transfers _ (transfers d + 1) C)).
Qed.

Lemma clear_wp d ram fb :
  tables_ok d -> counters_ok d -> g3d_busy d = true -> zbase_in a d -> 0 <= index d < 38400 ->
  buf_ok ram -> buf_len ram = a -> buf_ok fb -> buf_len fb = 76800 ->
  wpr (let at0 := zbase d - RAM_ORIGIN + u32 (4 * index d) in
       ram' ← buf_load ram at0 [0xff; 0xff; 0xff; 0xff];
       let i := u32 (index d + 1) in
       mret ({| d with ram_written := true; ram_written_at := u32 at0; transfers := u32 (transfers d + 1);
                       index := i; phase := if i =? Z_BYTES / 4 then G3D_PH_FINISH else G3D_PH_CLEAR |}, ram', fb)) tick_post.
Proof.
  intros T C B (Z1 & Z2) Hi Hr Er Hf Ef. cbv zeta. unfold Z_BYTES, RAM_ORIGIN in *.
  rewrite (u32_small (4 * index d)), (u32_small (index d + 1)) by lia. wps.
  apply buf_load_keeps; [done|lia|cbn [length]; lia|]. intros r1 Hr1 Er1. wps.
  split; [|split; [split; [done|lia]|done]].
  apply running_ok; try done.
  - by apply (counters_transfers d (transfers d + 1)).
  - cbn. by casif.
  - unfold phase_ok; cbn. casif; [done|]. split; [done|]. cbn. change (320 * 240 * 2 / 4) with 38400 in *. bools. lia.
Qed.
End Tick.

Lemma g3d_tick_wp `{F : Fuelled} a d ram fb hold ws we :
  Z_BYTES <= a < 0x80000000 -> g3d_ok a d -> buf_ok ram -> buf_len ram = a -> buf_ok fb -> buf_len fb = 76800 ->
  wpr (g3d_tick d ram a fb hold ws we) (tick_post a).
Proof.
  intros Ha Hd Hr Er Hf Ef. pose proof Hd as (T & C & B & P).
  assert (Hpost : forall d', g3d_ok a d' -> tick_post a (d', ram, fb)) by (intros; by split).
  unfold g3d_tick. wp1; [wps; by apply Hpost|]. wp1; [wps; by apply Hpost|]. bools.
  assert (Hp : phase d <> G3D_PH_IDLE) by (by apply B).
  set (d1 := {| d with cycles := u32 (cycles d + 1) |}).
  assert (T1 : tables_ok d1) by exact T. assert (C1 : counters_ok d1) by (by apply counters_cycles).
  assert (B1 : g3d_busy d1 = true) by done. assert (P1 : phase_ok a d1) by exact P.
  assert (Hst : g3d_ok a (stall d1)).
  { split; [exact T1|]. split; [by apply counters_stalls|]. by split. }
  clearbody d1. clear T C B P. cbv zeta. rename H0 into Hbusy.
  assert (Run : shading a d1 -> running a d1) by (by split; [|split; [|split]]).
  set (ph := phase d1) at 1. assert (Eph : phase d1 = ph) by done. clearbody ph.
  destruct ph; unfold phase_ok in P1; rewrite Eph in P1.
  - wps. apply Hpost, fault_ok; [done..|unfold is_u32, G3D_E_INTERNAL; lia].
  - wps. by apply Hpost, validate_ok.
  - wps. eapply wpr_mono; [apply (index_step_wp a); try done; unfold phase_ok; by rewrite Eph|]. intros d' H'. by wps; apply Hpost.
  - wps. apply Hpost, batch_step_ok; try done; unfold phase_ok; by rewrite Eph.
  - wps. destruct P1 as (S & X). eapply wpr_mono; [apply (execute_wp a); split; [by apply Run|done]|]. intros d' H'. by wps; apply Hpost.
  - wps. destruct P1 as (S & X). eapply wpr_mono; [apply (vertex_check_wp a); [by apply Run|done]|]. intros d' H'. by wps; apply Hpost.
  - destruct P1 as (S & X). cbn [div_left]. wp1.
    + assert (R2 : running a {| d1 with div_left := u32 (div_left d1 - 1) |}) by (by destruct (Run S)).
      wps. destruct (div_setup d1) eqn:Es.
      * eapply wpr_mono; [by apply (divide_setup_wp a)|]. intros d' H'. by wps; apply Hpost.
      * eapply wpr_mono; [by apply (divide_vertex_wp a)|]. intros d' H'. by wps; apply Hpost.
    + wps. apply Hpost. apply running_ok; try done; unfold phase_ok; cbn; rewrite Eph; [done|]. split; [exact S|]. exact X.
  - destruct P1 as (S & X). wps. eapply wpr_mono; [apply (fetch_step_wp a); [by apply Run|done]|]. intros d' H'. by wps; apply Hpost.
  - destruct P1 as (S & X). wps. eapply wpr_mono; [apply (area_wp a); [by apply Run|done]|]. intros d' H'. by wps; apply Hpost.
  - destruct P1 as (S & X1 & X2 & X3). wps. eapply wpr_mono; [apply (test_wp a); [by apply Run|done..]|]. intros d' H'. by wps; apply Hpost.
  - destruct P1 as (S & X). wp1; [wps; by apply Hpost|]. by apply zread_wp; try done; split; auto.
  - destruct P1 as (S & X). wp1; [wps; by apply Hpost|]. by apply zwrite_wp; try done; split; auto.
  - destruct P1 as (S & X). wp1; [wps; by apply Hpost|]. by apply pwrite_wp; try done; split; auto.
  - wps. apply Hpost. split; [exact T1|]. split; [|done]. destruct C1 as (_ & C1). split; [done|exact C1].
  - destruct P1 as (S & X). wp1; [wps; by apply Hpost|]. by apply clear_wp.
Qed.

(** ** The engine's theorems *)

(** C14: every MMIO access and every tick of a well-formed G2 engine is defined,
    whatever program, vertices and triangles the CPU loaded: the shader stays in
    its register files, stack and constant memory, the divider never divides by
    zero, every signed [int32_t] and [int64_t] result of the projection, setup,
    edge tests, interpolation and dither fits its width, depth accesses stay
    inside RAM and pixel writes inside the framebuffer; and the engine stays
    well-formed. *)
Theorem g3d_engine_safe d ram fb hold ws we :
  g3d_ok (buf_len ram) d -> buf_ok ram -> Z_BYTES <= buf_len ram < 0x80000000 -> buf_ok fb -> buf_len fb = 76800 ->
  (exists d' ram' fb', g3d_tick d ram (buf_len ram) fb hold ws we = Ok (d', ram', fb') /\
     g3d_ok (buf_len ram) d' /\ (buf_ok ram' /\ buf_len ram' = buf_len ram) /\ (buf_ok fb' /\ buf_len fb' = 76800)) /\
  (forall off width write val other, is_u32 val ->
     exists o, g3d_access d off width write val other = Ok o /\
       match o with Some (w, d') => g3d_ok (buf_len ram) d' /\ is_u32 w | None => True end).
Proof.
  intros Hd Hr Hl Hf Ef. split.
  - destruct (wpr_total _ _ (g3d_tick_wp (buf_len ram) d ram fb hold ws we Hl Hd Hr eq_refl Hf Ef))
      as ([[d' ram'] fb'] & E & H). by exists d', ram', fb'.
  - intros off width write val other Hv. by apply wpr_total, g3d_access_wp.
Qed.

Lemma g3d_engine_safe_witness :
  g3d_ok 0x40000 g3d_initial /\
  (exists o, g3d_access g3d_initial G3D_PROGRAM 4 true 0x0c000000 false = Ok o /\
     match o with Some (w, d') => g3d_ok 0x40000 d' /\ is_u32 w | None => True end).
Proof.
  split; [apply g3d_initial_ok|].
  apply (proj2 (g3d_engine_safe g3d_initial (buf_zero 0x40000) (buf_zero 76800) false 0 0
    (g3d_initial_ok 0x40000) (buf_zero_ok 0x40000 ltac:(lia)) ltac:(vm_compute; intuition congruence)
    (buf_zero_ok 76800 ltac:(lia)) eq_refl)).
  unfold is_u32. lia.
Defined.

End G3dProofs.
