(* ===== verification/Dtb.v ===== *)
(** * The boot ROM's contents (tools/rv32_dtb.h)

    The flattened device tree the boot ROM serves: the generated table, byte
    for byte (in decimal). *)

From S2P Require Import Prelude Effects.

Definition RV32_DTB_ROM_BASE : Z := 0x00001000.
Definition RV32_DTB_ROM_SIZE : Z := 0x1000.
Definition RV32_DTB_SIZE : Z := 2020.

Definition rv32_dtb : list Z := [
  208; 13; 254; 237; 0; 0; 7; 228; 0; 0; 0; 56; 0; 0; 7; 24; 0; 0; 0; 40;
  0; 0; 0; 17; 0; 0; 0; 16; 0; 0; 0; 0; 0; 0; 0; 201; 0; 0; 6; 224;
  0; 0; 0; 0; 0; 0; 0; 0; 0; 0; 0; 0; 0; 0; 0; 0; 0; 0; 0; 1;
  0; 0; 0; 0; 0; 0; 0; 3; 0; 0; 0; 4; 0; 0; 0; 0; 0; 0; 0; 1;
  0; 0; 0; 3; 0; 0; 0; 4; 0; 0; 0; 15; 0; 0; 0; 1; 0; 0; 0; 3;
  0; 0; 0; 29; 0; 0; 0; 27; 116; 105; 110; 121; 45; 112; 114; 111; 99; 101; 115; 115;
  111; 114; 115; 44; 114; 118; 51; 50; 45; 109; 97; 99; 104; 105; 110; 101; 0; 0; 0; 0;
  0; 0; 0; 3; 0; 0; 0; 29; 0; 0; 0; 38; 116; 105; 110; 121; 45; 112; 114; 111;
  99; 101; 115; 115; 111; 114; 115; 32; 82; 86; 51; 50; 32; 109; 97; 99; 104; 105; 110; 101;
  0; 0; 0; 0; 0; 0; 0; 1; 99; 104; 111; 115; 101; 110; 0; 0; 0; 0; 0; 3;
  0; 0; 0; 22; 0; 0; 0; 44; 47; 115; 111; 99; 47; 99; 111; 110; 115; 111; 108; 101;
  64; 49; 48; 48; 48; 48; 48; 48; 48; 0; 0; 0; 0; 0; 0; 2; 0; 0; 0; 1;
  99; 112; 117; 115; 0; 0; 0; 0; 0; 0; 0; 3; 0; 0; 0; 4; 0; 0; 0; 0;
  0; 0; 0; 1; 0; 0; 0; 3; 0; 0; 0; 4; 0; 0; 0; 15; 0; 0; 0; 0;
  0; 0; 0; 1; 99; 112; 117; 64; 48; 0; 0; 0; 0; 0; 0; 3; 0; 0; 0; 4;
  0; 0; 0; 56; 99; 112; 117; 0; 0; 0; 0; 3; 0; 0; 0; 4; 0; 0; 0; 68;
  0; 0; 0; 0; 0; 0; 0; 3; 0; 0; 0; 6; 0; 0; 0; 27; 114; 105; 115; 99;
  118; 0; 0; 0; 0; 0; 0; 3; 0; 0; 0; 21; 0; 0; 0; 72; 114; 118; 51; 50;
  105; 109; 102; 95; 122; 105; 99; 115; 114; 95; 122; 105; 99; 110; 116; 114; 0; 0; 0; 0;
  0; 0; 0; 3; 0; 0; 0; 5; 0; 0; 0; 82; 111; 107; 97; 121; 0; 0; 0; 0;
  0; 0; 0; 1; 105; 110; 116; 101; 114; 114; 117; 112; 116; 45; 99; 111; 110; 116; 114; 111;
  108; 108; 101; 114; 0; 0; 0; 0; 0; 0; 0; 3; 0; 0; 0; 4; 0; 0; 0; 89;
  0; 0; 0; 1; 0; 0; 0; 3; 0; 0; 0; 0; 0; 0; 0; 106; 0; 0; 0; 3;
  0; 0; 0; 15; 0; 0; 0; 27; 114; 105; 115; 99; 118; 44; 99; 112; 117; 45; 105; 110;
  116; 99; 0; 0; 0; 0; 0; 3; 0; 0; 0; 4; 0; 0; 0; 127; 0; 0; 0; 1;
  0; 0; 0; 2; 0; 0; 0; 2; 0; 0; 0; 2; 0; 0; 0; 1; 109; 101; 109; 111;
  114; 121; 64; 56; 48; 48; 48; 48; 48; 48; 48; 0; 0; 0; 0; 3; 0; 0; 0; 7;
  0; 0; 0; 56; 109; 101; 109; 111; 114; 121; 0; 0; 0; 0; 0; 3; 0; 0; 0; 8;
  0; 0; 0; 68; 128; 0; 0; 0; 1; 0; 0; 0; 0; 0; 0; 2; 0; 0; 0; 1;
  115; 111; 99; 0; 0; 0; 0; 3; 0; 0; 0; 4; 0; 0; 0; 0; 0; 0; 0; 1;
  0; 0; 0; 3; 0; 0; 0; 4; 0; 0; 0; 15; 0; 0; 0; 1; 0; 0; 0; 3;
  0; 0; 0; 11; 0; 0; 0; 27; 115; 105; 109; 112; 108; 101; 45; 98; 117; 115; 0; 0;
  0; 0; 0; 3; 0; 0; 0; 0; 0; 0; 0; 135; 0; 0; 0; 1; 116; 101; 115; 116;
  64; 49; 48; 48; 48; 48; 48; 0; 0; 0; 0; 3; 0; 0; 0; 34; 0; 0; 0; 27;
  116; 105; 110; 121; 45; 112; 114; 111; 99; 101; 115; 115; 111; 114; 115; 44; 100; 111; 110; 101;
  0; 115; 105; 102; 105; 118; 101; 44; 116; 101; 115; 116; 48; 0; 0; 0; 0; 0; 0; 3;
  0; 0; 0; 8; 0; 0; 0; 68; 0; 16; 0; 0; 0; 0; 0; 4; 0; 0; 0; 2;
  0; 0; 0; 1; 99; 108; 105; 110; 116; 64; 50; 48; 48; 48; 48; 48; 48; 0; 0; 0;
  0; 0; 0; 3; 0; 0; 0; 35; 0; 0; 0; 27; 116; 105; 110; 121; 45; 112; 114; 111;
  99; 101; 115; 115; 111; 114; 115; 44; 99; 108; 105; 110; 116; 0; 114; 105; 115; 99; 118; 44;
  99; 108; 105; 110; 116; 48; 0; 0; 0; 0; 0; 3; 0; 0; 0; 8; 0; 0; 0; 68;
  2; 0; 0; 0; 0; 1; 0; 0; 0; 0; 0; 3; 0; 0; 0; 16; 0; 0; 0; 142;
  0; 0; 0; 1; 0; 0; 0; 3; 0; 0; 0; 1; 0; 0; 0; 7; 0; 0; 0; 2;
  0; 0; 0; 1; 112; 108; 105; 99; 64; 99; 48; 48; 48; 48; 48; 48; 0; 0; 0; 0;
  0; 0; 0; 3; 0; 0; 0; 51; 0; 0; 0; 27; 116; 105; 110; 121; 45; 112; 114; 111;
  99; 101; 115; 115; 111; 114; 115; 44; 112; 108; 105; 99; 0; 115; 105; 102; 105; 118; 101; 44;
  112; 108; 105; 99; 45; 49; 46; 48; 46; 48; 0; 114; 105; 115; 99; 118; 44; 112; 108; 105;
  99; 48; 0; 0; 0; 0; 0; 3; 0; 0; 0; 8; 0; 0; 0; 68; 12; 0; 0; 0;
  0; 96; 0; 0; 0; 0; 0; 3; 0; 0; 0; 4; 0; 0; 0; 0; 0; 0; 0; 0;
  0; 0; 0; 3; 0; 0; 0; 4; 0; 0; 0; 89; 0; 0; 0; 1; 0; 0; 0; 3;
  0; 0; 0; 0; 0; 0; 0; 106; 0; 0; 0; 3; 0; 0; 0; 8; 0; 0; 0; 142;
  0; 0; 0; 1; 0; 0; 0; 11; 0; 0; 0; 3; 0; 0; 0; 4; 0; 0; 0; 162;
  0; 0; 0; 31; 0; 0; 0; 3; 0; 0; 0; 4; 0; 0; 0; 127; 0; 0; 0; 2;
  0; 0; 0; 2; 0; 0; 0; 1; 118; 105; 114; 116; 105; 111; 95; 109; 109; 105; 111; 64;
  49; 48; 48; 48; 49; 48; 48; 48; 0; 0; 0; 0; 0; 0; 0; 3; 0; 0; 0; 12;
  0; 0; 0; 27; 118; 105; 114; 116; 105; 111; 44; 109; 109; 105; 111; 0; 0; 0; 0; 3;
  0; 0; 0; 8; 0; 0; 0; 68; 16; 0; 16; 0; 0; 0; 2; 0; 0; 0; 0; 3;
  0; 0; 0; 4; 0; 0; 0; 173; 0; 0; 0; 2; 0; 0; 0; 3; 0; 0; 0; 4;
  0; 0; 0; 190; 0; 0; 0; 1; 0; 0; 0; 2; 0; 0; 0; 1; 99; 111; 110; 115;
  111; 108; 101; 64; 49; 48; 48; 48; 48; 48; 48; 48; 0; 0; 0; 0; 0; 0; 0; 3;
  0; 0; 0; 24; 0; 0; 0; 27; 116; 105; 110; 121; 45; 112; 114; 111; 99; 101; 115; 115;
  111; 114; 115; 44; 99; 111; 110; 115; 111; 108; 101; 0; 0; 0; 0; 3; 0; 0; 0; 8;
  0; 0; 0; 68; 16; 0; 0; 0; 0; 0; 0; 8; 0; 0; 0; 2; 0; 0; 0; 1;
  105; 110; 112; 117; 116; 64; 49; 49; 48; 48; 49; 48; 48; 48; 0; 0; 0; 0; 0; 3;
  0; 0; 0; 22; 0; 0; 0; 27; 116; 105; 110; 121; 45; 112; 114; 111; 99; 101; 115; 115;
  111; 114; 115; 44; 105; 110; 112; 117; 116; 0; 0; 0; 0; 0; 0; 3; 0; 0; 0; 8;
  0; 0; 0; 68; 17; 0; 16; 0; 0; 0; 0; 16; 0; 0; 0; 3; 0; 0; 0; 4;
  0; 0; 0; 173; 0; 0; 0; 2; 0; 0; 0; 3; 0; 0; 0; 4; 0; 0; 0; 190;
  0; 0; 0; 12; 0; 0; 0; 2; 0; 0; 0; 1; 100; 105; 115; 112; 108; 97; 121; 64;
  49; 49; 48; 48; 50; 48; 48; 48; 0; 0; 0; 0; 0; 0; 0; 3; 0; 0; 0; 24;
  0; 0; 0; 27; 116; 105; 110; 121; 45; 112; 114; 111; 99; 101; 115; 115; 111; 114; 115; 44;
  100; 105; 115; 112; 108; 97; 121; 0; 0; 0; 0; 3; 0; 0; 0; 24; 0; 0; 0; 68;
  17; 0; 32; 0; 0; 0; 0; 16; 18; 0; 0; 0; 0; 1; 44; 0; 17; 0; 48; 0;
  0; 0; 4; 0; 0; 0; 0; 2; 0; 0; 0; 1; 115; 105; 109; 100; 52; 64; 49; 49;
  48; 48; 52; 48; 48; 48; 0; 0; 0; 0; 0; 3; 0; 0; 0; 22; 0; 0; 0; 27;
  116; 105; 110; 121; 45; 112; 114; 111; 99; 101; 115; 115; 111; 114; 115; 44; 115; 105; 109; 100;
  52; 0; 0; 0; 0; 0; 0; 3; 0; 0; 0; 24; 0; 0; 0; 68; 17; 0; 64; 0;
  0; 0; 0; 32; 17; 0; 80; 0; 0; 0; 4; 0; 17; 0; 96; 0; 0; 0; 4; 0;
  0; 0; 0; 2; 0; 0; 0; 1; 103; 112; 117; 64; 49; 49; 48; 48; 55; 48; 48; 48;
  0; 0; 0; 0; 0; 0; 0; 3; 0; 0; 0; 19; 0; 0; 0; 27; 116; 105; 110; 121;
  45; 112; 114; 111; 99; 101; 115; 115; 111; 114; 115; 44; 103; 49; 0; 0; 0; 0; 0; 3;
  0; 0; 0; 8; 0; 0; 0; 68; 17; 0; 112; 0; 0; 0; 0; 128; 0; 0; 0; 2;
  0; 0; 0; 1; 103; 51; 100; 64; 49; 49; 48; 48; 56; 48; 48; 48; 0; 0; 0; 0;
  0; 0; 0; 3; 0; 0; 0; 19; 0; 0; 0; 27; 116; 105; 110; 121; 45; 112; 114; 111;
  99; 101; 115; 115; 111; 114; 115; 44; 103; 50; 0; 0; 0; 0; 0; 3; 0; 0; 0; 8;
  0; 0; 0; 68; 17; 0; 128; 0; 0; 0; 32; 0; 0; 0; 0; 2; 0; 0; 0; 1;
  100; 109; 97; 45; 119; 105; 110; 100; 111; 119; 64; 49; 49; 48; 48; 97; 48; 48; 48; 0;
  0; 0; 0; 3; 0; 0; 0; 27; 0; 0; 0; 27; 116; 105; 110; 121; 45; 112; 114; 111;
  99; 101; 115; 115; 111; 114; 115; 44; 100; 109; 97; 45; 119; 105; 110; 100; 111; 119; 0; 0;
  0; 0; 0; 3; 0; 0; 0; 8; 0; 0; 0; 68; 17; 0; 160; 0; 0; 0; 0; 8;
  0; 0; 0; 2; 0; 0; 0; 2; 0; 0; 0; 2; 0; 0; 0; 9; 35; 97; 100; 100;
  114; 101; 115; 115; 45; 99; 101; 108; 108; 115; 0; 35; 115; 105; 122; 101; 45; 99; 101; 108;
  108; 115; 0; 99; 111; 109; 112; 97; 116; 105; 98; 108; 101; 0; 109; 111; 100; 101; 108; 0;
  115; 116; 100; 111; 117; 116; 45; 112; 97; 116; 104; 0; 100; 101; 118; 105; 99; 101; 95; 116;
  121; 112; 101; 0; 114; 101; 103; 0; 114; 105; 115; 99; 118; 44; 105; 115; 97; 0; 115; 116;
  97; 116; 117; 115; 0; 35; 105; 110; 116; 101; 114; 114; 117; 112; 116; 45; 99; 101; 108; 108;
  115; 0; 105; 110; 116; 101; 114; 114; 117; 112; 116; 45; 99; 111; 110; 116; 114; 111; 108; 108;
  101; 114; 0; 112; 104; 97; 110; 100; 108; 101; 0; 114; 97; 110; 103; 101; 115; 0; 105; 110;
  116; 101; 114; 114; 117; 112; 116; 115; 45; 101; 120; 116; 101; 110; 100; 101; 100; 0; 114; 105;
  115; 99; 118; 44; 110; 100; 101; 118; 0; 105; 110; 116; 101; 114; 114; 117; 112; 116; 45; 112;
  97; 114; 101; 110; 116; 0; 105; 110; 116; 101; 114; 114; 117; 112; 116; 115; 0; 0; 0; 0].

Lemma rv32_dtb_length : Z.of_nat (length rv32_dtb) = RV32_DTB_SIZE.
Proof. reflexivity. Qed.

Lemma rv32_dtb_bytes : Forall is_u8 rv32_dtb.
Proof.
  apply Forall_forall. intros b Hb.
  assert (Hall : forallb (fun b => (0 <=? b) && (b <? 0x100)) rv32_dtb = true) by (vm_compute; reflexivity).
  rewrite forallb_forall in Hall. apply Hall in Hb. bools. unfold is_u8. lia.
Qed.
