(* ===== verification/Machine.v ===== *)
(** * The machine (tools/rv32emu_core.h)

    The C [machine] struct, its flat fields grouped into records by the part
    of the machine that owns them, and the constants of the memory map.
    Everything the host provides is explicit: bytes arriving on stdin, the
    outcome of each write to the host's files, and what the run writes
    (console, trace, checkpoints, record) are part of the state. *)

From S2P Require Import Prelude Effects Buffer Simd4 Gpu G3d Dtb.

(** ** The memory map *)
Definition RAM_BASE : Z := 0x80000000.
Definition RAM_SIZE : Z := 0x01000000.
Definition CONSOLE_BASE : Z := 0x10000000.
Definition DONE_ADDR : Z := 0x00100000.
Definition DONE_PASS : Z := 0x5555.
Definition DONE_FAIL : Z := 0x3333.
Definition DONE_RESET : Z := 0x7777.
Definition CLINT_BASE : Z := 0x02000000.
Definition CLINT_SIZE : Z := 0x10000.
Definition BOOT_HART : Z := 0.
Definition PLIC_BASE : Z := 0x0c000000.
Definition PLIC_SIZE : Z := 0x600000.
Definition VIRTIO_BASE : Z := 0x10001000.
Definition VIRTIO_SIZE : Z := 0x200.
Definition VIRTIO_DISK_SIZE : Z := 0x20000.
Definition VIRTIO_DISK_MAX : Z := 0x800000.
Definition INPUT_BASE : Z := 0x11001000.
Definition INPUT_QUEUE : Z := 16.
Definition EVENT_VALID : Z := 0x80000000.
Definition EVENT_PRESS : Z := 0x100.
Definition DISPLAY_BASE : Z := 0x11002000.
Definition PALETTE_BASE : Z := 0x11003000.
Definition PALETTE_SIZE : Z := 0x400.
Definition PALETTE_ENTRIES : Z := 256.
Definition DMA_WINDOW_BASE : Z := 0x1100a000.
Definition FB_BASE : Z := 0x12000000.
Definition FB_COLUMNS : Z := 320.
Definition FB_ROWS : Z := 240.
Definition FB_SIZE : Z := FB_COLUMNS * FB_ROWS.

Definition PRIV_U : Z := 0.
Definition PRIV_S : Z := 1.
Definition PRIV_M : Z := 3.

(** ** State *)

(** The hart: its registers, program counter and privilege mode. *)
Record hart_state : Type := {
  x_ : list Z; f_ : list Z; fcsr : Z; pc : Z; priv : Z;
}.

(** The control and status registers. *)
Record csr_state : Type := {
  mtvec : Z; mepc : Z; mcause : Z; mtval : Z; mstatus : Z; mie : Z; mscratch : Z; mpp : Z;
  medeleg : Z; mideleg : Z; mip_soft : Z;
  stvec : Z; sscratch : Z; sepc : Z; scause : Z; stval : Z; satp : Z; scounteren : Z;
  mcounteren : Z; pmpcfg : list Z; pmpaddr : list Z;
}.

Record plic_state : Type := {
  plic_priority : list Z; plic_enable : Z; plic_claimed : Z; plic_latched : Z; (** [plic_pending] *)
  plic_threshold : Z;
}.

Record clint_state : Type := { mtime_offset : Z; mtimecmp : Z; msip : Z }.

(** A disk file of the host: its bytes, and the outcomes of the next writes to
    it (a write past the list succeeds). *)
Record disk_file : Type := { file_bytes : buffer; file_outcomes : list bool }.

Record virtio_blk : Type := {
  v_status : Z;
  features_sel : bool; queue_sel_zero : bool; queue_ready : bool; v_interrupt : bool;
  queue_num : Z; desc_lo : Z; desc_hi : Z; driver_lo : Z; driver_hi : Z; device_lo : Z; device_hi : Z;
  last_avail : Z; used_idx : Z;
  disk : buffer; disk_size : Z;
  file : option disk_file; write_error : bool;
}.

Record console_state : Type := {
  console_in : list Z; console_in_next : Z;
  console_stdin : bool;
  host_stdin : list (option (list Z)); (** what each poll of stdin finds: nothing, or the bytes read (none: end of input) *)
  console_ier : Z; console_lcr : Z; console_mcr : Z; console_scr : Z; console_dll : Z; console_dlm : Z;
  console_latched : Z;
  console_prompt : list Z; console_prompt_len : Z;
  console_tail : list Z; console_tail_len : Z;
  console_prompts_seen : Z; console_lines_taken : Z;
  console_out : list Z; (** bytes sent to stdout, oldest first *)
}.

Record scripted_event : Type := { se_frame : Z; se_event : Z }.
#[export] Instance scripted_event_inhabited : Inhabited scripted_event := populate {| se_frame := 0; se_event := 0 |}.

Record input_state : Type := {
  queue : list Z; head : Z; count : Z; keys : Z;
  script : list scripted_event; next_scripted : Z; dropped : Z;
  record : option (list scripted_event); (** the script lines recorded, or no record *)
}.

Record display_state : Type := {
  fb : buffer; palette : list Z; frames : Z;
  checkpoints : option (list (Z * Z)); (** the frames and hashes written, or no file *)
  frames_dir : option (list bool);      (** the outcomes of the next frame files, or no directory *)
  output_error : bool;
}.

(** What one step did, for its trace line. *)
Record effects_state : Type := {
  wr_reg : Z; wr_freg : Z; wr_fcsr : bool; wr_value : Z;
  mem_read : bool; mem_write : bool; mem_addr : Z; mem_read_value : Z; mem_write_value : Z; mem_width : Z;
}.

(** The fields at the end of a retired instruction's trace line. *)
Inductive trace_item : Type :=
| TraceX (reg value : Z)
| TraceF (reg value : Z)
| TraceFcsr (value : Z)
| TraceWrite (addr value width : Z)
| TraceRead (addr value width : Z).

Inductive trace_line : Type :=
| TraceTrap (step pc word cause tval : Z)
| TraceInterrupt (step pc code : Z)
| TraceRetire (step pc word : Z) (items : list trace_item).

Record counters_state : Type := {
  steps : Z; retired : Z; traps : Z; interrupts : Z; limit : Z;
  in_trap : bool;
  second_cause : Z; second_tval : Z;
  trace : option (list trace_line);
}.

(** LR.W's reservation. *)
Record reservation_state : Type := { reserved : bool; reservation : Z; reservation_pa : Z }.

Inductive halt_reason : Type := RUNNING | HALT_DONE | HALT_DOUBLE_FAULT | HALT_LIMIT | HALT_STOPPED.
#[export] Instance halt_reason_eq_dec : EqDecision halt_reason.
Proof. solve_decision. Defined.

Record machine : Type := {
  simd : Simd.simd_device; gpu : Gpu.gpu_device; g3d : G3d.g3d_device;
  dma_start : Z; dma_end : Z;
  hart : hart_state; csr : csr_state;
  plic : plic_state; clint : clint_state; virtio : virtio_blk;
  console : console_state; input : input_state; display : display_state;
  ram : buffer;
  counters : counters_state; resv : reservation_state; effects : effects_state;
  halt : halt_reason; done_word : Z;
}.

(** Functions of the emulator on the machine. *)
Abbreviation M := (ST machine).

(** Updates of one part. *)
Definition upd_hart (f : hart_state -> hart_state) (m : machine) : machine := {| m with hart := f (hart m) |}.
Definition upd_csr (f : csr_state -> csr_state) (m : machine) : machine := {| m with csr := f (csr m) |}.
Definition upd_plic (f : plic_state -> plic_state) (m : machine) : machine := {| m with plic := f (plic m) |}.
Definition upd_clint (f : clint_state -> clint_state) (m : machine) : machine := {| m with clint := f (clint m) |}.
Definition upd_virtio (f : virtio_blk -> virtio_blk) (m : machine) : machine := {| m with virtio := f (virtio m) |}.
Definition upd_console (f : console_state -> console_state) (m : machine) : machine :=
  {| m with console := f (console m) |}.
Definition upd_input (f : input_state -> input_state) (m : machine) : machine := {| m with input := f (input m) |}.
Definition upd_display (f : display_state -> display_state) (m : machine) : machine :=
  {| m with display := f (display m) |}.
Definition upd_counters (f : counters_state -> counters_state) (m : machine) : machine :=
  {| m with counters := f (counters m) |}.
Definition upd_resv (f : reservation_state -> reservation_state) (m : machine) : machine :=
  {| m with resv := f (resv m) |}.
Definition upd_effects (f : effects_state -> effects_state) (m : machine) : machine :=
  {| m with effects := f (effects m) |}.
Definition set_ram (b : buffer) (m : machine) : machine := {| m with ram := b |}.
Definition set_fb (b : buffer) (m : machine) : machine := upd_display (fun d => {| d with fb := b |}) m.

(** What a bus access answers: [mem_access], with the value where it is ACC_OK. *)
Inductive mem_access (A : Type) : Type :=
| ACC_OK (a : A) | ACC_FAULT | ACC_MISALIGNED | ACC_PAGE_FAULT.
Arguments ACC_OK {A} a.
Arguments ACC_FAULT {A}.
Arguments ACC_MISALIGNED {A}.
Arguments ACC_PAGE_FAULT {A}.

Abbreviation load_handler := (Z -> Z -> M (mem_access Z)).
Abbreviation store_handler := (Z -> Z -> Z -> M (mem_access ())).
