(* ===== verification/Devices.v ===== *)
(** * The machine's own devices (tools/rv32emu_core.c)

    Console, done register, CLINT, boot ROM, PLIC, input queue, display,
    palette and the engines' DMA window: for each its registers' load and
    store handler and the operations that feed it.  A handler receives the
    offset inside the device's window. *)

From S2P Require Import Prelude Effects Buffer Simd4 Gpu G3d Dtb Machine.

(** ** Console: the 16550 subset *)
Module Console.

Definition CONSOLE_TX : Z := 0x0.
Definition CONSOLE_IER : Z := 0x1.
Definition CONSOLE_IIR : Z := 0x2.
Definition CONSOLE_LCR : Z := 0x3.
Definition CONSOLE_MCR : Z := 0x4.
Definition CONSOLE_STATUS : Z := 0x5.
Definition CONSOLE_MSR : Z := 0x6.
Definition CONSOLE_SCR : Z := 0x7.
Definition CONSOLE_TX_READY : Z := 0x20.
Definition CONSOLE_TX_EMPTY : Z := 0x40.
Definition CONSOLE_RX_READY : Z := 0x01.
Definition CONSOLE_LCR_DLAB : Z := 0x80.
Definition CONSOLE_IER_MASK : Z := 0x0f.
Definition CONSOLE_MCR_MASK : Z := 0x1f.
Definition CONSOLE_IER_RDI : Z := 0x01.
Definition CONSOLE_IER_THRI : Z := 0x02.
Definition CONSOLE_IIR_RDI : Z := 0x04.
Definition CONSOLE_IIR_THRI : Z := 0x02.
Definition CONSOLE_IIR_NONE : Z := 0x01.
Definition CONSOLE_MSR_LINE : Z := 0xb0.

Definition console_in_len (c : console_state) : Z := Z.of_nat (length (console_in c)).

(** Take whatever stdin has now; [host_stdin] says what the poll finds. *)
Definition console_poll_stdin (c : console_state) : console_state :=
  if negb (console_stdin c) || (console_in_next c <? console_in_len c) then c
  else match host_stdin c with
  | [] => c
  | None :: rest => {| c with host_stdin := rest |}
  | Some [] :: rest => {| c with host_stdin := rest; console_stdin := false |}
  | Some bytes :: rest => {| c with host_stdin := rest; console_in := bytes; console_in_next := 0 |}
  end.

(** Whether a received byte waits, with the console after the poll. *)
Definition console_rx_waiting (c : console_state) : bool * console_state :=
  let c := console_poll_stdin c in
  ((console_in_next c <? console_in_len c) &&
   (negb (tst (console_prompt_len c)) || (console_lines_taken c <? console_prompts_seen c)), c).

(** Each byte sent shifts into the tail; a match releases one more input line. *)
Definition console_watch_prompt (c : console_state) (byte : Z) : res console_state :=
  let n := console_prompt_len c in
  let tail := console_tail c in
  if negb ((1 <=? n) && (n <=? Z.of_nat (length tail)) && (n <=? Z.of_nat (length (console_prompt c)))) then Stuck
  else
    let k := Z.to_nat n in
    let tail' := take (k - 1) (drop 1 tail) ++ [byte] ++ drop k tail in
    let len' := if console_tail_len c <? n then console_tail_len c + 1 else console_tail_len c in
    let matched := (len' =? n) && bool_decide (take k tail' = take k (console_prompt c)) in
    mret {| c with console_tail := tail'; console_tail_len := len';
                   console_prompts_seen := if matched then u64 (console_prompts_seen c + 1) else console_prompts_seen c |}.

Definition dlab (c : console_state) : bool := tst (console_lcr c .& CONSOLE_LCR_DLAB).

(** The registers a read answers without touching the receiver. *)
Definition console_load_reg (c : console_state) (offset width : Z) : res (mem_access Z * console_state) :=
  if negb (width =? 1) then mret (ACC_FAULT, c)
  else if offset =? CONSOLE_TX then
    if dlab c then mret (ACC_OK (console_dll c), {| c with console_latched := u64 (console_latched c + 1) |})
    else
      let '(waiting, c1) := console_rx_waiting c in
      if waiting : bool then
        b ← aget (console_in c1) (console_in_next c1);
        mret (ACC_OK b, {| c1 with console_in_next := console_in_next c1 + 1;
                                   console_lines_taken := u64 (console_lines_taken c1 + Z.b2z (b =? 10)) |})
      else mret (ACC_OK 0, c1)
  else if offset =? CONSOLE_IER then mret (ACC_OK (if dlab c then console_dlm c else console_ier c), c)
  else if offset =? CONSOLE_IIR then
    let '(rdi, c1) :=
      if tst (console_ier c .& CONSOLE_IER_RDI) then console_rx_waiting c else (false, c) in
    mret (ACC_OK (if rdi : bool then CONSOLE_IIR_RDI
                  else if tst (console_ier c1 .& CONSOLE_IER_THRI) then CONSOLE_IIR_THRI
                  else CONSOLE_IIR_NONE), c1)
  else if offset =? CONSOLE_LCR then mret (ACC_OK (console_lcr c), c)
  else if offset =? CONSOLE_MCR then mret (ACC_OK (console_mcr c), c)
  else if offset =? CONSOLE_STATUS then
    let '(waiting, c1) := console_rx_waiting c in
    mret (ACC_OK (CONSOLE_TX_READY .| CONSOLE_TX_EMPTY .| (if waiting : bool then CONSOLE_RX_READY else 0)), c1)
  else if offset =? CONSOLE_MSR then mret (ACC_OK CONSOLE_MSR_LINE, c)
  else if offset =? CONSOLE_SCR then mret (ACC_OK (console_scr c), c)
  else mret (ACC_FAULT, c).

Definition console_store_reg (c : console_state) (offset width value : Z) : res (mem_access () * console_state) :=
  if negb (width =? 1) then mret (ACC_FAULT, c)
  else
    let byte := u8 value in
    if offset =? CONSOLE_TX then
      if dlab c then
        mret (ACC_OK (), {| c with console_dll := byte; console_latched := u64 (console_latched c + 1) |})
      else
        let c1 := {| c with console_out := console_out c ++ [byte] |} in
        if tst (console_prompt_len c1) then c2 ← console_watch_prompt c1 byte; mret (ACC_OK (), c2)
        else mret (ACC_OK (), c1)
    else if offset =? CONSOLE_IER then
      mret (ACC_OK (), if dlab c then {| c with console_dlm := byte |}
                       else {| c with console_ier := byte .& CONSOLE_IER_MASK |})
    else if offset =? CONSOLE_IIR then mret (ACC_OK (), c)
    else if offset =? CONSOLE_LCR then
      let c1 := if tst (byte .& CONSOLE_LCR_DLAB) && negb (dlab c) then {| c with console_latched := 0 |} else c in
      mret (ACC_OK (), {| c1 with console_lcr := byte |})
    else if offset =? CONSOLE_MCR then mret (ACC_OK (), {| c with console_mcr := byte .& CONSOLE_MCR_MASK |})
    else if offset =? CONSOLE_SCR then mret (ACC_OK (), {| c with console_scr := byte |})
    else mret (ACC_FAULT, c).

Definition on_console {A} (f : console_state -> res (A * console_state)) : M A :=
  zoom console (fun c => upd_console (fun _ => c)) f.
Definition console_load : load_handler := fun offset width => on_console (fun c => console_load_reg c offset width).
Definition console_store : store_handler := fun offset width value =>
  on_console (fun c => console_store_reg c offset width value).

(** [emu_set_console_prompt]: [None] where the program exits with a message. *)
Definition emu_set_console_prompt (c : console_state) (prompt : list Z) : option console_state :=
  let n := Z.of_nat (length prompt) in
  if console_stdin c then None
  else if (n =? 0) || (Z.of_nat (length (console_prompt c)) <? n) then None
  else Some {| c with console_prompt := prompt ++ drop (length prompt) (console_prompt c); console_prompt_len := n |}.

End Console.

(** ** The done register *)
Module Done.

Definition done_load : load_handler := fun offset width =>
  mret (if (width =? 4) && (offset =? 0) then ACC_OK 0 else ACC_FAULT).

Definition done_store : store_handler := fun offset width value =>
  if (width =? 4) && (offset =? 0) then
    modify (fun m => {| m with halt := HALT_DONE; done_word := value |});; mret (ACC_OK ())
  else mret ACC_FAULT.

End Done.

(** ** CLINT: the timer and the software interrupt *)
Module Clint.

Definition CLINT_MSIP : Z := 0x0.
Definition CLINT_MTIMECMP : Z := 0x4000.
Definition CLINT_MTIME : Z := 0xbff8.

Definition mtime_now (m : machine) : Z := u64 (steps (counters m) + mtime_offset (clint m)).

Definition clint_load : load_handler := fun offset width =>
  if negb (width =? 4) then mret ACC_FAULT
  else
    c ← gets clint; now ← gets mtime_now;
    mret (if offset =? CLINT_MSIP then ACC_OK (msip c)
          else if offset =? CLINT_MTIMECMP then ACC_OK (u32 (mtimecmp c))
          else if offset =? CLINT_MTIMECMP + 4 then ACC_OK (u32 (mtimecmp c .>> 32))
          else if offset =? CLINT_MTIME then ACC_OK (u32 now)
          else if offset =? CLINT_MTIME + 4 then ACC_OK (u32 (now .>> 32))
          else ACC_FAULT).

(** A 64-bit count with one half replaced. *)
Definition low_half (old value : Z) : Z := (old .& not64 0xffffffff) .| value.
Definition high_half (old value : Z) : Z := (old .& 0xffffffff) .| (value .<< 32).

Definition clint_store : store_handler := fun offset width value =>
  if negb (width =? 4) then mret ACC_FAULT
  else
    now ← gets mtime_now; n ← gets (fun m => steps (counters m));
    let set f := modify (upd_clint f);; mret (ACC_OK ()) in
    if offset =? CLINT_MSIP then set (fun c => {| c with msip := value .& 1 |})
    else if offset =? CLINT_MTIMECMP then set (fun c => {| c with mtimecmp := low_half (mtimecmp c) value |})
    else if offset =? CLINT_MTIMECMP + 4 then set (fun c => {| c with mtimecmp := high_half (mtimecmp c) value |})
    else if offset =? CLINT_MTIME then set (fun c => {| c with mtime_offset := u64 (low_half now value - n) |})
    else if offset =? CLINT_MTIME + 4 then set (fun c => {| c with mtime_offset := u64 (high_half now value - n) |})
    else mret ACC_FAULT.

End Clint.

(** ** Boot ROM *)
Module Rom.

(** Byte [i] of the ROM: the blob, then zeros. *)
Definition rom_byte (at0 : Z) : res Z := if at0 <? RV32_DTB_SIZE then aget rv32_dtb at0 else mret 0.

Fixpoint rom_bytes (n : nat) (i offset v : Z) : res Z :=
  match n with
  | O => mret v
  | S n' => b ← rom_byte (u32 (offset + i)); rom_bytes n' (i + 1) offset (v .| (b .<< (8 * i)))
  end.

Definition rom_load : load_handler := fun offset width =>
  v ← lift (rom_bytes (Z.to_nat width) 0 offset 0); mret (ACC_OK v).

End Rom.

(** ** PLIC: interrupt gateways and one context *)
Module Plic.

Definition PLIC_PENDING : Z := 0x1000.
Definition PLIC_ENABLE : Z := 0x2000.
Definition PLIC_THRESHOLD : Z := 0x200000.
Definition PLIC_CLAIM : Z := 0x200004.
Definition PLIC_SOURCES : Z := 32.
Definition PLIC_SOURCE_INPUT : Z := 12.
Definition PLIC_SOURCE_VIRTIO : Z := 1.
Definition PLIC_WIRED : Z := (1 .<< PLIC_SOURCE_INPUT) .| (1 .<< PLIC_SOURCE_VIRTIO).

Definition plic_lines (m : machine) : Z :=
  (if tst (count (input m)) then 1 .<< PLIC_SOURCE_INPUT else 0) .|
  (if v_interrupt (virtio m) then 1 .<< PLIC_SOURCE_VIRTIO else 0).

Definition plic_sample : M () :=
  modify (fun m => upd_plic (fun p =>
    {| p with plic_latched := plic_latched p .| (plic_lines m .& PLIC_WIRED .& not32 (plic_claimed p)) |}) m).

Definition plic_pending (p : plic_state) : Z := plic_latched p.

(** The scan of [plic_best] over the sources from [id] up. *)
Fixpoint plic_scan (n : nat) (id : Z) (p : plic_state) (candidates best best_priority : Z) : Z :=
  match n with
  | O => best
  | S n' =>
      let pr := at_ (plic_priority p) id in
      if tst ((candidates .>> id) .& 1) && (best_priority <? pr)
      then plic_scan n' (id + 1) p candidates id pr
      else plic_scan n' (id + 1) p candidates best best_priority
  end.

Definition plic_best (p : plic_state) : Z :=
  let candidates := if tst (plic_enable p) then plic_pending p .& plic_enable p else 0 in
  plic_scan 31 1 p candidates 0 (plic_threshold p).

Definition plic_load_reg (p : plic_state) (offset width : Z) : res (mem_access Z * plic_state) :=
  if negb (width =? 4) then mret (ACC_FAULT, p)
  else if offset <? 4 * PLIC_SOURCES then v ← aget (plic_priority p) (offset / 4); mret (ACC_OK v, p)
  else if offset =? PLIC_PENDING then mret (ACC_OK (plic_pending p), p)
  else if offset =? PLIC_ENABLE then mret (ACC_OK (plic_enable p), p)
  else if offset =? PLIC_THRESHOLD then mret (ACC_OK (plic_threshold p), p)
  else if offset =? PLIC_CLAIM then
    let v := plic_best p in
    mret (ACC_OK v, {| p with plic_claimed := plic_claimed p .| (u32 (1 .<< v) .& not32 1);
                              plic_latched := plic_latched p .& not32 (u32 (1 .<< v)) |})
  else mret (ACC_FAULT, p).

Definition plic_store_reg (p : plic_state) (offset width value : Z) : res (mem_access () * plic_state) :=
  if negb (width =? 4) then mret (ACC_FAULT, p)
  else if offset <? 4 * PLIC_SOURCES then
    if tst ((PLIC_WIRED .>> (offset / 4)) .& 1) then
      l ← aset (plic_priority p) (offset / 4) (u8 (value .& 7)); mret (ACC_OK (), {| p with plic_priority := l |})
    else mret (ACC_OK (), p)
  else if offset =? PLIC_ENABLE then mret (ACC_OK (), {| p with plic_enable := value .& PLIC_WIRED |})
  else if offset =? PLIC_THRESHOLD then mret (ACC_OK (), {| p with plic_threshold := u8 (value .& 7) |})
  else if offset =? PLIC_CLAIM then
    if (value <? PLIC_SOURCES) && tst ((plic_enable p .>> value) .& 1) then
      mret (ACC_OK (), {| p with plic_claimed := plic_claimed p .& not32 (1 .<< value) |})
    else mret (ACC_OK (), p)
  else mret (ACC_FAULT, p).

Definition on_plic {A} (f : plic_state -> res (A * plic_state)) : M A := zoom plic (fun p => upd_plic (fun _ => p)) f.
Definition plic_load : load_handler := fun offset width => on_plic (fun p => plic_load_reg p offset width).
Definition plic_store : store_handler := fun offset width value => on_plic (fun p => plic_store_reg p offset width value).

End Plic.

(** ** Input: the event queue and the keys *)
Module Input.

Definition INPUT_EVENT : Z := 0x0.
Definition INPUT_COUNT : Z := 0x4.
Definition INPUT_KEYS : Z := 0x8.

Definition emu_queue_event (i : input_state) (frame event : Z) : res input_state :=
  let i := {| i with record := (fun l => l ++ [{| se_frame := frame; se_event := event |}]) <$> record i |} in
  if count i =? INPUT_QUEUE then mret {| i with dropped := dropped i + 1 |}
  else
    q ← aset (queue i) ((head i + count i) mod INPUT_QUEUE) event;
    let bit := 1 .<< (event .& 31) in
    mret {| i with queue := q; count := count i + 1;
                   keys := if tst (event .& EVENT_PRESS) then keys i .| bit else keys i .& not32 bit |}.

Definition scripted (i : input_state) : Z := Z.of_nat (length (script i)).

(** The loop of [emu_deliver_events]; [n] bounds the script lines left. *)
Fixpoint deliver (n : nat) (now : Z) (i : input_state) : res input_state :=
  match n with
  | O => mret i
  | S n' =>
      if next_scripted i <? scripted i then
        e ← aget (script i) (next_scripted i);
        if se_frame e <=? now then
          i' ← emu_queue_event i (se_frame e) (se_event e);
          deliver n' now {| i' with next_scripted := next_scripted i' + 1 |}
        else mret i
      else mret i
  end.

Definition emu_deliver_events : M () := fun m =>
  i ← deliver (Z.to_nat (scripted (input m) - next_scripted (input m))) (frames (display m)) (input m);
  mret ((), upd_input (fun _ => i) m).

Definition input_load_reg (i : input_state) (offset width : Z) : res (mem_access Z * input_state) :=
  if negb (width =? 4) then mret (ACC_FAULT, i)
  else if offset =? INPUT_EVENT then
    if count i =? 0 then mret (ACC_OK 0, i)
    else
      v ← aget (queue i) (head i);
      mret (ACC_OK v, {| i with head := (head i + 1) mod INPUT_QUEUE; count := count i - 1 |})
  else if offset =? INPUT_COUNT then mret (ACC_OK (count i), i)
  else if offset =? INPUT_KEYS then mret (ACC_OK (keys i), i)
  else mret (ACC_FAULT, i).

Definition input_load : load_handler := fun offset width =>
  zoom input (fun i => upd_input (fun _ => i)) (fun i => input_load_reg i offset width).

End Input.

(** ** Display: framebuffer, presents and the palette *)
Module Display.

Definition DISPLAY_PRESENT : Z := 0x0.
Definition DISPLAY_FRAMES : Z := 0x4.
Definition DISPLAY_WIDTH : Z := 0x8.
Definition DISPLAY_HEIGHT : Z := 0xC.

(** Either graphics engine owns the framebuffer while it runs. *)
Definition engine_busy (m : machine) : bool := Gpu.gpu_busy (gpu m) || G3d.g3d_busy (g3d m).

Definition fb_load : load_handler := fun offset width =>
  busy ← gets engine_busy;
  if busy : bool then mret ACC_FAULT
  else b ← gets (fun m => fb (display m)); v ← lift (bytes_read b offset width); mret (ACC_OK v).

Definition fb_store : store_handler := fun offset width value =>
  busy ← gets engine_busy;
  if busy : bool then mret ACC_FAULT
  else
    b ← gets (fun m => fb (display m)); b' ← lift (bytes_write b offset width value);
    modify (set_fb b');; mret (ACC_OK ()).

(** The hash of [n] words from byte [at0]. *)
Fixpoint hash_words (n : nat) (at0 h : Z) (pixels : buffer) : res Z :=
  match n with
  | O => mret h
  | S n' => w ← bytes_read pixels at0 4; hash_words n' (at0 + 4) (u32 (u32 (h .<< 5) + h) .^ w) pixels
  end.
Definition emu_frame_hash (pixels : buffer) : res Z := hash_words (Z.to_nat (FB_SIZE / 4)) 0 5381 pixels.

Definition rgb332_word (pixel : Z) : Z :=
  ((((pixel .>> 5) .& 7) * 255 / 7) .<< 16) .| ((((pixel .>> 2) .& 7) * 255 / 7) .<< 8) .| ((pixel .& 3) * 255 / 3).

Definition emu_palette_rgb (d : display_state) (pixel : Z) : res (list Z) :=
  colour ← aget (palette d) pixel; mret [u8 (colour .>> 16); u8 (colour .>> 8); u8 colour].

Definition present : M () :=
  modify (upd_display (fun d => {| d with frames := u32 (frames d + 1) |}));;
  Input.emu_deliver_events;;
  d ← gets display;
  cps ← lift (match checkpoints d with
              | None => mret None
              | Some l => h ← emu_frame_hash (fb d); mret (Some (l ++ [(frames d, h)]))
              end);
  modify (upd_display (fun d => {| d with
    checkpoints := cps;
    frames_dir := match frames_dir d with Some (_ :: rest) => Some rest | o => o end;
    output_error := output_error d || (match frames_dir d with Some (false :: _) => true | _ => false end) |})).

Definition palette_load : load_handler := fun offset width =>
  if negb (width =? 4) then mret ACC_FAULT
  else d ← gets display; v ← lift (aget (palette d) (offset / 4)); mret (ACC_OK v).

Definition palette_store : store_handler := fun offset width value =>
  if negb (width =? 4) then mret ACC_FAULT
  else
    d ← gets display; l ← lift (aset (palette d) (offset / 4) (value .& 0x00ffffff));
    modify (upd_display (fun d => {| d with palette := l |}));; mret (ACC_OK ()).

Definition display_load : load_handler := fun offset width =>
  if negb (width =? 4) then mret ACC_FAULT
  else
    n ← gets (fun m => frames (display m));
    mret (if offset =? DISPLAY_FRAMES then ACC_OK n
          else if offset =? DISPLAY_WIDTH then ACC_OK FB_COLUMNS
          else if offset =? DISPLAY_HEIGHT then ACC_OK FB_ROWS else ACC_FAULT).

Definition display_store : store_handler := fun offset width value =>
  if (width =? 4) && (offset =? DISPLAY_PRESENT) then
    busy ← gets engine_busy;
    if busy : bool then mret ACC_FAULT else present;; mret (ACC_OK ())
  else mret ACC_FAULT.

End Display.

(** ** The RAM window the engines may reach *)
Module DmaWindow.

Definition DMA_WINDOW_START : Z := 0x0.
Definition DMA_WINDOW_END : Z := 0x4.

Definition dma_window_load : load_handler := fun off width =>
  if negb (width =? 4) || (negb (off =? DMA_WINDOW_START) && negb (off =? DMA_WINDOW_END)) then mret ACC_FAULT
  else m ← gets id; mret (ACC_OK (if off =? DMA_WINDOW_START then dma_start m else dma_end m)).

Definition dma_window_store : store_handler := fun off width v =>
  if negb (width =? 4) || (negb (off =? DMA_WINDOW_START) && negb (off =? DMA_WINDOW_END)) then mret ACC_FAULT
  else
    modify (fun m => if off =? DMA_WINDOW_START then {| m with dma_start := v |} else {| m with dma_end := v |});;
    mret (ACC_OK ()).

End DmaWindow.
