(* ===== verification/Virtio.v ===== *)
(** * virtio-blk (tools/rv32emu_core.c)

    The virtio-mmio block device: its DMA to and from RAM, one request, the
    service loop a queue notify runs, and its registers.  The loop has no
    bound in the code, so [virtio_serve] takes fuel. *)

From S2P Require Import Prelude Effects Buffer Simd4 Gpu G3d Dtb Machine Devices.

Module Virtio.

Definition VIRTIO_MAGIC : Z := 0x74726976.
Definition VIRTIO_VENDOR : Z := 0x594e4954.
Definition VIRTIO_QUEUE_MAX : Z := 8.
Definition VIRTIO_NEEDS_RESET : Z := 0x40.

(** A step of a request: [None] is the C code's [return false]. *)
Notation "x ←? c ; k" := (c ≫= (fun o => match o with Some x => k | None => mret None end))
  (at level 20, c at level 100, k at level 200, right associativity, only parsing).
(** [if (!b) return false;] *)
Definition require (b : bool) : M (option ()) := mret (if b then Some () else None).

Definition dma_word (addr : Z) : bool := (RAM_BASE <=? addr) && (addr - RAM_BASE <? RAM_SIZE).

(** The offset in RAM of the word that holds [addr]. *)
Definition word_offset (addr : Z) : Z := (addr .& not32 3) - RAM_BASE.

Definition dma_read (addr : Z) : M (option Z) :=
  if negb (dma_word addr) then mret None
  else b ← gets ram; v ← lift (bytes_read b (word_offset addr) 4); mret (Some v).

Definition dma_read16 (addr : Z) : M (option Z) :=
  word ←? dma_read addr;
  mret (Some (u16 (if tst (addr .& 2) then word .>> 16 else word))).

Definition snoop_device_write (addr : Z) : M () :=
  modify (fun m =>
    if reserved (resv m) && (addr .>> 2 =? reservation_pa (resv m))
    then upd_resv (fun r => {| r with reserved := false |}) m else m).

(** The strobed bytes of the word at [p]. *)
Fixpoint write_strobed (n : nat) (i p value strobe : Z) (b : buffer) : res buffer :=
  match n with
  | O => mret b
  | S n' =>
      b' ← (if tst (strobe .& (1 .<< i)) then buf_set b (p + i) (u8 (value .>> (8 * i))) else mret b);
      write_strobed n' (i + 1) p value strobe b'
  end.

Definition dma_write (addr value strobe : Z) : M (option ()) :=
  if negb (dma_word addr) then mret None
  else
    snoop_device_write addr;;
    b ← gets ram; b' ← lift (write_strobed 4 0 (word_offset addr) value strobe b);
    modify (set_ram b');; mret (Some ()).

(** Copy [n] bytes at [at0] of the disk to the host's file. *)
Fixpoint copy_out (n : nat) (at0 : Z) (src dst : buffer) : res buffer :=
  match n with
  | O => mret dst
  | S n' => v ← buf_get src at0; dst' ← buf_set dst at0 v; copy_out n' (at0 + 1) src dst'
  end.

Definition virtio_disk_written (offset bytes : Z) : M () := fun m =>
  let v := virtio m in
  match file v with
  | None => mret ((), m)
  | Some fl =>
      let rest := drop 1 (file_outcomes fl) in
      match file_outcomes fl with
      | false :: _ =>
          mret ((), upd_virtio (fun v => {| v with file := Some {| fl with file_outcomes := rest |};
                                                   write_error := true |}) m)
      | _ =>
          b ← copy_out (Z.to_nat bytes) offset (disk v) (file_bytes fl);
          mret ((), upd_virtio (fun v => {| v with
            file := Some {| file_bytes := b; file_outcomes := rest |} |}) m)
      end
  end.

(** What one descriptor of a request's chain says. *)
Record descriptor : Type := { d_address : Z; d_length : Z; d_write : bool; d_next : Z }.

(** Descriptor [which] (0 header, 1 data, 2 status) of a chain, at [index]. *)
Definition read_descriptor (which index : Z) : M (option descriptor) :=
  v ← gets virtio;
  let base := u32 (desc_lo v + 16 * index) in
  w0 ←? dma_read base;
  w1 ←? dma_read (u32 (base + 4));
  _ ←? require (w1 =? 0);
  w2 ←? dma_read (u32 (base + 8));
  w3 ←? dma_read (u32 (base + 12));
  let has_next := tst (w3 .& 1) in
  let write := tst (w3 .& 2) in
  _ ←? require (negb (negb (Bool.eqb has_next (negb (which =? 2))) || ((which =? 0) && write)
                      || ((which =? 2) && negb write)
                      || (negb (which =? 2) && (queue_num v <=? w3 .>> 16))));
  mret (Some {| d_address := w0; d_length := w2; d_write := write; d_next := u16 (w3 .>> 16) |}).

(** The data words of an IN request: disk to RAM. *)
Fixpoint transfer_in (n : nat) (i sector address : Z) : M (option ()) :=
  match n with
  | O => mret (Some ())
  | S n' =>
      v ← gets virtio;
      w ← lift (bytes_read (disk v) (u32 (sector * 512 + 4 * i)) 4);
      _ ←? dma_write (u32 (address + 4 * i)) w 0xf;
      transfer_in n' (i + 1) sector address
  end.

(** The data words of an OUT request: RAM to disk, and what was moved before an
    address outside RAM goes to the file too. *)
Fixpoint transfer_out (n : nat) (i sector address : Z) : M (option ()) :=
  match n with
  | O => mret (Some ())
  | S n' =>
      w ← dma_read (u32 (address + 4 * i));
      match w with
      | None => virtio_disk_written (u32 (sector * 512)) (u32 (4 * i));; mret None
      | Some word =>
          v ← gets virtio;
          d ← lift (bytes_write (disk v) (u32 (sector * 512 + 4 * i)) 4 word);
          modify (upd_virtio (fun v => {| v with disk := d |}));;
          transfer_out n' (i + 1) sector address
      end
  end.

(** The status byte a request gets, after its data moved. *)
Definition request_data (type sector sector_hi : Z) (data : descriptor) : M (option Z) :=
  v ← gets virtio;
  let sectors := disk_size v / 512 in
  let words_total := disk_size v / 4 in
  let length := d_length data in
  let address := d_address data in
  if 1 <? type then mret (Some 2)
  else if negb (sector_hi =? 0) || (sectors <=? sector) || tst (length .& 3) || tst (address .& 3)
          || (words_total <? sector * 128 + (length .>> 2)) || negb (Bool.eqb (d_write data) (type =? 0)) then
    mret (Some 1)
  else
    _ ←? (if type =? 0 then transfer_in (Z.to_nat (length / 4)) 0 sector address
          else transfer_out (Z.to_nat (length / 4)) 0 sector address);
    when (type =? 1) (virtio_disk_written (u32 (sector * 512)) length);;
    v ← gets virtio;
    mret (Some (if write_error v then 1 else 0)).

(** One request; [None] when the chain cannot be followed or leaves RAM. *)
Definition virtio_request : M (option ()) :=
  v ← gets virtio;
  let mask := u32 (queue_num v - 1) in
  head ←? dma_read16 (u32 (driver_lo v + 4 + 2 * (last_avail v .& mask)));
  _ ←? require (head <? queue_num v);
  header ←? read_descriptor 0 head;
  data ←? read_descriptor 1 (d_next header);
  status ←? read_descriptor 2 (d_next data);
  type ←? dma_read (d_address header);
  sector ←? dma_read (u32 (d_address header + 8));
  sector_hi ←? dma_read (u32 (d_address header + 12));
  result ←? request_data type sector sector_hi data;
  let used := u32 (device_lo v + 4 + 8 * (used_idx v .& mask)) in
  let written := if (result =? 0) && (type =? 0) then u32 (d_length data + 1) else 1 in
  _ ←? dma_write (d_address status) (u32 (result * 0x01010101)) (1 .<< (d_address status .& 3));
  _ ←? dma_write used head 0xf;
  _ ←? dma_write (u32 (used + 4)) written 0xf;
  _ ←? dma_write (u32 (device_lo v + 2)) (u32 (u16 (used_idx v + 1) * 0x10001))
         (if tst (device_lo v .& 2) then 0x3 else 0xc);
  modify (upd_virtio (fun v => {| v with used_idx := u16 (used_idx v + 1); last_avail := u16 (last_avail v + 1);
                                         v_interrupt := true |}));;
  mret (Some ()).

Definition needs_reset : M () :=
  modify (upd_virtio (fun v => {| v with v_status := v_status v .| VIRTIO_NEEDS_RESET |})).

(** The loop of [virtio_serve]. *)
Fixpoint serve_loop (fuel : nat) : M () :=
  match fuel with
  | O => no_fuel
  | S fuel' =>
      v ← gets virtio;
      available ← dma_read16 (u32 (driver_lo v + 2));
      match available with
      | None => needs_reset
      | Some a =>
          if a =? last_avail v then mret ()
          else
            r ← virtio_request;
            match r with None => needs_reset | Some _ => serve_loop fuel' end
      end
  end.

Definition virtio_serve (fuel : nat) : M () :=
  v ← gets virtio;
  if tst (desc_hi v) || tst (driver_hi v) || tst (device_hi v) || (queue_num v =? 0) then needs_reset
  else serve_loop fuel.

Definition virtio_load : load_handler := fun offset width =>
  v ← gets virtio;
  if negb (width =? 4) then mret ACC_FAULT
  else mret (
    if offset =? 0x000 then ACC_OK VIRTIO_MAGIC
    else if offset =? 0x004 then ACC_OK 2
    else if offset =? 0x008 then ACC_OK 2
    else if offset =? 0x00c then ACC_OK VIRTIO_VENDOR
    else if offset =? 0x010 then ACC_OK (if features_sel v then 1 else 0)
    else if offset =? 0x034 then ACC_OK (if queue_sel_zero v then VIRTIO_QUEUE_MAX else 0)
    else if offset =? 0x044 then ACC_OK (Z.b2z (queue_ready v))
    else if offset =? 0x060 then ACC_OK (Z.b2z (v_interrupt v))
    else if offset =? 0x070 then ACC_OK (v_status v)
    else if offset =? 0x080 then ACC_OK (desc_lo v)
    else if offset =? 0x084 then ACC_OK (desc_hi v)
    else if offset =? 0x090 then ACC_OK (driver_lo v)
    else if offset =? 0x094 then ACC_OK (driver_hi v)
    else if offset =? 0x0a0 then ACC_OK (device_lo v)
    else if offset =? 0x0a4 then ACC_OK (device_hi v)
    else if offset =? 0x0fc then ACC_OK 0
    else if offset =? 0x100 then ACC_OK (disk_size v / 512)
    else if offset =? 0x104 then ACC_OK 0
    else ACC_FAULT).

(** The registers a store sets without serving the queue; [None] for an offset
    that cannot be written. *)
Definition virtio_set (v : virtio_blk) (offset value : Z) : option virtio_blk :=
  let sel (w : virtio_blk) := if queue_sel_zero v then w else v in
  if offset =? 0x014 then Some {| v with features_sel := value =? 1 |}
  else if offset =? 0x020 then Some v
  else if offset =? 0x024 then Some v
  else if offset =? 0x030 then Some {| v with queue_sel_zero := value =? 0 |}
  else if offset =? 0x038 then
    Some (sel {| v with queue_num :=
      if (value =? 1) || (value =? 2) || (value =? 4) || (value =? 8) then value else 0 |})
  else if offset =? 0x044 then Some (sel {| v with queue_ready := tst (value .& 1) |})
  else if offset =? 0x064 then Some (if tst (value .& 1) then {| v with v_interrupt := false |} else v)
  else if offset =? 0x070 then
    let v1 := {| v with v_status := u8 value |} in
    Some (if (value .& 0xff) =? 0 then
            {| v1 with queue_ready := false; queue_num := 0; last_avail := 0; used_idx := 0;
                       v_interrupt := false; features_sel := false |}
          else v1)
  else if offset =? 0x080 then Some (sel {| v with desc_lo := value |})
  else if offset =? 0x084 then Some (sel {| v with desc_hi := value |})
  else if offset =? 0x090 then Some (sel {| v with driver_lo := value |})
  else if offset =? 0x094 then Some (sel {| v with driver_hi := value |})
  else if offset =? 0x0a0 then Some (sel {| v with device_lo := value |})
  else if offset =? 0x0a4 then Some (sel {| v with device_hi := value |})
  else None.

Definition virtio_store (fuel : nat) : store_handler := fun offset width value =>
  v ← gets virtio;
  if negb (width =? 4) then mret ACC_FAULT
  else if offset =? 0x050 then
    when ((value =? 0) && queue_ready v && tst (v_status v .& 4) && negb (tst (v_status v .& VIRTIO_NEEDS_RESET)))
      (virtio_serve fuel);;
    mret (ACC_OK ())
  else match virtio_set v offset value with
       | None => mret ACC_FAULT
       | Some v' => modify (upd_virtio (fun _ => v'));; mret (ACC_OK ())
       end.

End Virtio.
