(* ===== verification/Bus.v ===== *)
(** * The bus: RAM, the accelerators' windows and the memory map

    [REGIONS] and [find_region] of tools/rv32emu_core.c, with the handlers of
    RAM and of the three engines' windows. *)

From S2P Require Import Prelude Effects Buffer Simd4 Gpu G3d Dtb Machine Devices Virtio.

(** How many requests one queue notify may serve in the model. *)
Class ServeFuel : Type := serve_fuel : nat.

Module Bus.

(** ** RAM *)
Definition ram_load : load_handler := fun offset width =>
  b ← gets ram; v ← lift (bytes_read b offset width); mret (ACC_OK v).

Definition ram_store : store_handler := fun offset width value =>
  m ← gets id;
  if Gpu.gpu_source_locked (gpu m) (RAM_BASE + offset) width then mret ACC_FAULT
  else if G3d.g3d_z_locked (g3d m) (RAM_BASE + offset) width then mret ACC_FAULT
  else
    b' ← lift (bytes_write (ram m) offset width value);
    modify (set_ram b');; mret (ACC_OK ()).

(** ** The accelerators *)

(** An engine's access: [None] is a bus fault, a value comes with the engine
    after the access. *)
Definition engine_load {D} (get : machine -> D) (put : D -> machine -> machine)
    (access : D -> res (option (Z * D))) : M (mem_access Z) := fun m =>
  o ← access (get m);
  mret (match o with Some (v, d) => (ACC_OK v, put d m) | None => (ACC_FAULT, m) end).
Definition engine_store {D} (get : machine -> D) (put : D -> machine -> machine)
    (access : D -> res (option (Z * D))) : M (mem_access ()) := fun m =>
  o ← access (get m);
  mret (match o with Some (_, d) => (ACC_OK (), put d m) | None => (ACC_FAULT, m) end).

Definition put_simd (d : Simd.simd_device) (m : machine) : machine := {| m with simd := d |}.
Definition put_gpu (d : Gpu.gpu_device) (m : machine) : machine := {| m with gpu := d |}.
Definition put_g3d (d : G3d.g3d_device) (m : machine) : machine := {| m with g3d := d |}.

Definition simd_load : load_handler := fun offset width =>
  engine_load simd put_simd (fun d => Simd.simd_access d (u32 (Simd.SIMD_BASE + offset)) width false 0).
Definition simd_store : store_handler := fun offset width value =>
  engine_store simd put_simd (fun d => Simd.simd_access d (u32 (Simd.SIMD_BASE + offset)) width true value).

Definition simd_program_load : load_handler := fun offset width =>
  simd_load (Simd.SIMD_PROGRAM - Simd.SIMD_BASE + offset) width.
Definition simd_program_store : store_handler := fun offset width value =>
  simd_store (Simd.SIMD_PROGRAM - Simd.SIMD_BASE + offset) width value.
Definition simd_data_load : load_handler := fun offset width =>
  simd_load (Simd.SIMD_DATA - Simd.SIMD_BASE + offset) width.
Definition simd_data_store : store_handler := fun offset width value =>
  simd_store (Simd.SIMD_DATA - Simd.SIMD_BASE + offset) width value.

Definition gpu_load : load_handler := fun off width =>
  engine_load gpu put_gpu (fun d => Gpu.gpu_access d off width false 0).
Definition gpu_store : store_handler := fun off width v =>
  busy ← gets (fun m => G3d.g3d_busy (g3d m));
  if (off =? Gpu.GPU_COMMAND) && (v =? Gpu.GPU_START) && busy then mret ACC_FAULT
  else engine_store gpu put_gpu (fun d => Gpu.gpu_access d off width true v).

Definition g3d_mmio_load : load_handler := fun off width =>
  busy ← gets (fun m => Gpu.gpu_busy (gpu m));
  engine_load g3d put_g3d (fun d => G3d.g3d_access d off width false 0 busy).
Definition g3d_mmio_store : store_handler := fun off width v =>
  busy ← gets (fun m => Gpu.gpu_busy (gpu m));
  engine_store g3d put_g3d (fun d => G3d.g3d_access d off width true v busy).

(** ** The memory map *)

Inductive region_name : Type :=
| R_gpu | R_dma_window | R_g3d | R_done | R_console | R_clint | R_plic | R_virtio | R_bootrom | R_input
| R_display | R_palette | R_framebuffer | R_simd4 | R_simd4_program | R_simd4_data | R_ram.
#[export] Instance region_name_eq_dec : EqDecision region_name.
Proof. solve_decision. Defined.

Record region : Type := Region { r_name : region_name; r_base : Z; r_size : Z }.

Definition REGIONS : list region := [
  Region R_gpu Gpu.GPU_BASE 128;
  Region R_dma_window DMA_WINDOW_BASE 8;
  Region R_g3d G3d.G3D_BASE G3d.G3D_SIZE;
  Region R_done DONE_ADDR 4;
  Region R_console CONSOLE_BASE 8;
  Region R_clint CLINT_BASE CLINT_SIZE;
  Region R_plic PLIC_BASE PLIC_SIZE;
  Region R_virtio VIRTIO_BASE VIRTIO_SIZE;
  Region R_bootrom RV32_DTB_ROM_BASE RV32_DTB_ROM_SIZE;
  Region R_input INPUT_BASE 16;
  Region R_display DISPLAY_BASE 16;
  Region R_palette PALETTE_BASE PALETTE_SIZE;
  Region R_framebuffer FB_BASE FB_SIZE;
  Region R_simd4 Simd.SIMD_BASE 32;
  Region R_simd4_program Simd.SIMD_PROGRAM 1024;
  Region R_simd4_data Simd.SIMD_DATA 1024;
  Region R_ram RAM_BASE RAM_SIZE].

(** The handlers column of [REGIONS]; [None] is a NULL handler. *)
Definition r_load (n : region_name) : option load_handler :=
  Some match n with
  | R_gpu => gpu_load | R_dma_window => DmaWindow.dma_window_load | R_g3d => g3d_mmio_load
  | R_done => Done.done_load | R_console => Console.console_load | R_clint => Clint.clint_load
  | R_plic => Plic.plic_load | R_virtio => Virtio.virtio_load | R_bootrom => Rom.rom_load
  | R_input => Input.input_load | R_display => Display.display_load | R_palette => Display.palette_load
  | R_framebuffer => Display.fb_load | R_simd4 => simd_load | R_simd4_program => simd_program_load
  | R_simd4_data => simd_data_load | R_ram => ram_load
  end.

Definition r_store `{ServeFuel} (n : region_name) : option store_handler :=
  match n with
  | R_gpu => Some gpu_store | R_dma_window => Some DmaWindow.dma_window_store | R_g3d => Some g3d_mmio_store
  | R_done => Some Done.done_store | R_console => Some Console.console_store | R_clint => Some Clint.clint_store
  | R_plic => Some Plic.plic_store | R_virtio => Some (Virtio.virtio_store serve_fuel) | R_bootrom => None
  | R_input => None | R_display => Some Display.display_store | R_palette => Some Display.palette_store
  | R_framebuffer => Some Display.fb_store | R_simd4 => Some simd_store
  | R_simd4_program => Some simd_program_store | R_simd4_data => Some simd_data_store | R_ram => Some ram_store
  end.

(** Whether every byte of the access is in the window; the sum is 32-bit. *)
Definition in_region (addr width : Z) (r : region) : bool :=
  (r_base r <=? addr) && (u32 (addr - r_base r + width) <=? r_size r).

Definition find_region (addr width : Z) : option region := List.find (in_region addr width) REGIONS.

Definition in_ram (addr width : Z) : bool :=
  (RAM_BASE <=? addr) && (u32 (addr - RAM_BASE + width) <=? RAM_SIZE).

Definition ram_read (m : machine) (addr width : Z) : res Z := bytes_read (ram m) (addr - RAM_BASE) width.

End Bus.
