(* ===== verification/Mmu.v ===== *)
(** * Physical memory protection, Sv32 and the data accesses

    [pmp_allows], [translate], [load], [store] and [amo] of
    tools/rv32emu_core.c. *)

From S2P Require Import Prelude Effects Buffer Simd4 Gpu G3d Dtb Machine Devices Virtio Bus.

Module Mmu.
Import Bus.

Definition MSTATUS_SIE : Z := 0x2.
Definition MSTATUS_MIE : Z := 0x8.
Definition MSTATUS_SPIE : Z := 0x20.
Definition MSTATUS_MPIE : Z := 0x80.
Definition MSTATUS_SPP : Z := 0x100.
Definition MSTATUS_MPRV : Z := 0x20000.
Definition MSTATUS_SUM : Z := 0x40000.
Definition MSTATUS_MXR : Z := 0x80000.
Definition MSTATUS_TVM : Z := 0x100000.
Definition MSTATUS_TW : Z := 0x200000.
Definition MSTATUS_TSR : Z := 0x400000.
Definition MSTATUS_FS : Z := 0x6000.
Definition MSTATUS_SD : Z := 0x80000000.
Definition SATP_MODE : Z := 0x80000000.
Definition SATP_PPN : Z := 0x003fffff.
Definition PTE_V : Z := 0x01.
Definition PTE_R : Z := 0x02.
Definition PTE_W : Z := 0x04.
Definition PTE_X : Z := 0x08.
Definition PTE_U : Z := 0x10.
Definition PTE_A : Z := 0x40.
Definition PTE_D : Z := 0x80.
Definition PMP_R : Z := 0x01.
Definition PMP_W : Z := 0x02.
Definition PMP_X : Z := 0x04.
Definition PMP_A : Z := 0x18.
Definition PMP_TOR : Z := 0x08.
Definition PMP_NA4 : Z := 0x10.
Definition PMP_NAPOT : Z := 0x18.
Definition PMP_L : Z := 0x80.
Definition PMP_ENTRIES : Z := 8.

(** ** PMP *)

(** Whether entry [i] matches the word; [None] when the entry is off. *)
Definition pmp_match (c : csr_state) (i word : Z) : option bool :=
  let cfg := at_ (pmpcfg c) i in
  let at0 := at_ (pmpaddr c) i in
  let a := cfg .& PMP_A in
  if a =? PMP_TOR then
    Some (((if i =? 0 then 0 else at_ (pmpaddr c) (i - 1)) <=? word) && (word <? at0))
  else if a =? PMP_NA4 then Some (word =? at0)
  else if a =? PMP_NAPOT then
    Some ((word .^ at0) .& not32 (at0 .^ u32 (at0 + 1)) =? 0)
  else None.

(** The entries from [i] up, [n] of them. *)
Fixpoint pmp_scan (n : nat) (i priv0 : Z) (c : csr_state) (word need : Z) : bool :=
  match n with
  | O => priv0 =? PRIV_M
  | S n' =>
      match pmp_match c i word with
      | Some true =>
          let cfg := at_ (pmpcfg c) i in
          ((priv0 =? PRIV_M) && negb (tst (cfg .& PMP_L))) || (cfg .& need =? need)
      | _ => pmp_scan n' (i + 1) priv0 c word need
      end
  end.

Definition pmp_allows (priv0 : Z) (c : csr_state) (addr need : Z) : bool :=
  pmp_scan 8 0 priv0 c (addr .>> 2) need.

(** ** Sv32 *)

Definition data_priv (m : machine) : Z :=
  if (priv (hart m) =? PRIV_M) && tst (mstatus (csr m) .& MSTATUS_MPRV) then mpp (csr m) else priv (hart m).

Inductive walk_kind : Type := WALK_FETCH | WALK_LOAD | WALK_STORE.
#[export] Instance walk_kind_eq_dec : EqDecision walk_kind.
Proof. solve_decision. Defined.

(** The checks a leaf PTE must pass for an access, in the walk's order. *)
Definition leaf_allows (m : machine) (pte : Z) (kind : walk_kind) (priv0 : Z) : bool :=
  let user := tst (pte .& PTE_U) in
  let refused :=
    if priv0 =? PRIV_U then negb user
    else user && (bool_decide (kind = WALK_FETCH) || negb (tst (mstatus (csr m) .& MSTATUS_SUM))) in
  let allowed :=
    match kind with
    | WALK_FETCH => tst (pte .& PTE_X)
    | WALK_STORE => tst (pte .& PTE_W)
    | WALK_LOAD => tst (pte .& PTE_R) || (tst (mstatus (csr m) .& MSTATUS_MXR) && tst (pte .& PTE_X))
    end in
  negb refused && allowed && tst (pte .& PTE_A)
  && negb (bool_decide (kind = WALK_STORE) && negb (tst (pte .& PTE_D))).

(** The walk from [table]; [level] 1 is the root, 0 the last. *)
Fixpoint walk (level : nat) (m : machine) (table va : Z) (kind : walk_kind) (priv0 : Z) : res (mem_access Z) :=
  let at0 := u64 (table + 4 * ((va .>> (if (0 <? level)%nat then 22 else 12)) .& 0x3ff)) in
  if tst (at0 .>> 32) || negb (in_ram (u32 at0) 4) || negb (pmp_allows PRIV_S (csr m) (u32 at0) PMP_R) then
    mret ACC_FAULT
  else
    pte ← ram_read m (u32 at0) 4;
    if negb (tst (pte .& PTE_V)) || (negb (tst (pte .& PTE_R)) && tst (pte .& PTE_W)) then mret ACC_PAGE_FAULT
    else if negb (tst (pte .& (PTE_R .| PTE_X))) then
      match level with
      | O => mret ACC_PAGE_FAULT
      | S level' =>
          if tst (pte .& (PTE_D .| PTE_A .| PTE_U)) then mret ACC_PAGE_FAULT
          else walk level' m ((pte .>> 10) .<< 12) va kind priv0
      end
    else
      let ppn := pte .>> 10 in
      if (0 <? level)%nat && tst (ppn .& 0x3ff) then mret ACC_PAGE_FAULT
      else if negb (leaf_allows m pte kind priv0) then mret ACC_PAGE_FAULT
      else
        let address :=
          if (0 <? level)%nat then ((ppn .>> 10) .<< 22) .| (va .& 0x3fffff)
          else (ppn .<< 12) .| (va .& 0xfff) in
        if tst (address .>> 32) then mret ACC_FAULT else mret (ACC_OK (u32 address)).

Definition translate (m : machine) (va : Z) (kind : walk_kind) (priv0 : Z) : res (mem_access Z) :=
  if negb (tst (satp (csr m) .& SATP_MODE)) || (priv0 =? PRIV_M) then mret (ACC_OK va)
  else walk 1 m ((satp (csr m) .& SATP_PPN) .<< 12) va kind priv0.

(** ** Data accesses *)

(** Pass a refusal on with no value. *)
Definition refused {A B} (a : mem_access A) : mem_access B :=
  match a with ACC_MISALIGNED => ACC_MISALIGNED | ACC_PAGE_FAULT => ACC_PAGE_FAULT | _ => ACC_FAULT end.

(** The physical address an aligned access of [kind] reaches with [need]. *)
Definition physical (va : Z) (kind : walk_kind) (need : Z) : M (mem_access Z) :=
  m ← gets id;
  let priv0 := data_priv m in
  translated ← lift (translate m va kind priv0);
  mret (match translated with
        | ACC_OK addr => if pmp_allows priv0 (csr m) addr need then ACC_OK addr else ACC_FAULT
        | other => refused other
        end).

(** The loaded value with the physical address. *)
Definition load (va width : Z) : M (mem_access (Z * Z)) :=
  if negb (va mod width =? 0) then mret ACC_MISALIGNED
  else
    p ← physical va WALK_LOAD PMP_R;
    match p with
    | ACC_OK addr =>
        match find_region addr width with
        | Some r =>
            match r_load (r_name r) with
            | Some handler =>
                a ← handler (addr - r_base r) width;
                mret (match a with ACC_OK v => ACC_OK (v, addr) | other => refused other end)
            | None => mret ACC_FAULT
            end
        | None => mret ACC_FAULT
        end
    | other => mret (refused other)
    end.

Definition store `{ServeFuel} (va width value : Z) : M (mem_access ()) :=
  if negb (va mod width =? 0) then mret ACC_MISALIGNED
  else
    p ← physical va WALK_STORE PMP_W;
    match p with
    | ACC_OK addr =>
        match find_region addr width with
        | Some r =>
            match r_store (r_name r) with
            | Some handler => handler (addr - r_base r) width value
            | None => mret ACC_FAULT
            end
        | None => mret ACC_FAULT
        end
    | other => mret (refused other)
    end.

Definition CAUSE_LOAD_MISALIGNED : Z := 4.
Definition CAUSE_LOAD_FAULT : Z := 5.
Definition CAUSE_STORE_MISALIGNED : Z := 6.
Definition CAUSE_STORE_FAULT : Z := 7.
Definition CAUSE_LOAD_PAGE_FAULT : Z := 13.
Definition CAUSE_STORE_PAGE_FAULT : Z := 15.

Definition load_cause {A} (status : mem_access A) : Z :=
  match status with
  | ACC_MISALIGNED => CAUSE_LOAD_MISALIGNED
  | ACC_PAGE_FAULT => CAUSE_LOAD_PAGE_FAULT
  | _ => CAUSE_LOAD_FAULT
  end.
Definition store_cause {A} (status : mem_access A) : Z :=
  match status with
  | ACC_MISALIGNED => CAUSE_STORE_MISALIGNED
  | ACC_PAGE_FAULT => CAUSE_STORE_PAGE_FAULT
  | _ => CAUSE_STORE_FAULT
  end.

(** ** The A extension *)

Definition AMO_ADD : Z := 0x00.
Definition AMO_SWAP : Z := 0x01.
Definition AMO_LR : Z := 0x02.
Definition AMO_SC : Z := 0x03.
Definition AMO_XOR : Z := 0x04.
Definition AMO_OR : Z := 0x08.
Definition AMO_AND : Z := 0x0c.
Definition AMO_MIN : Z := 0x10.
Definition AMO_MAX : Z := 0x14.
Definition AMO_MINU : Z := 0x18.
Definition AMO_MAXU : Z := 0x1c.

Definition amo_valid (funct5 rs2 : Z) : bool :=
  if funct5 =? AMO_LR then rs2 =? 0
  else (funct5 =? AMO_ADD) || (funct5 =? AMO_SWAP) || (funct5 =? AMO_SC) || (funct5 =? AMO_XOR)
       || (funct5 =? AMO_OR) || (funct5 =? AMO_AND) || (funct5 =? AMO_MIN) || (funct5 =? AMO_MAX)
       || (funct5 =? AMO_MINU) || (funct5 =? AMO_MAXU).

(** [Stuck] is the [abort] of the default case. *)
Definition amo_value (funct5 old operand : Z) : res Z :=
  if funct5 =? AMO_SWAP then mret operand
  else if funct5 =? AMO_ADD then mret (u32 (old + operand))
  else if funct5 =? AMO_XOR then mret (old .^ operand)
  else if funct5 =? AMO_AND then mret (old .& operand)
  else if funct5 =? AMO_OR then mret (old .| operand)
  else if funct5 =? AMO_MIN then mret (if s32 old <? s32 operand then old else operand)
  else if funct5 =? AMO_MAX then mret (if s32 operand <? s32 old then old else operand)
  else if funct5 =? AMO_MINU then mret (if old <? operand then old else operand)
  else if funct5 =? AMO_MAXU then mret (if operand <? old then old else operand)
  else Stuck.

(** The old and the new word. *)
Definition amo `{ServeFuel} (va funct5 operand : Z) : M (mem_access (Z * Z)) :=
  if negb (va mod 4 =? 0) then mret ACC_MISALIGNED
  else
    p ← physical va WALK_STORE (PMP_R .| PMP_W);
    match p with
    | ACC_OK addr =>
        match find_region addr 4 with
        | Some r =>
            match r_load (r_name r) with
            | Some handler =>
                status ← handler (addr - r_base r) 4;
                match status with
                | ACC_OK old =>
                    value ← lift (amo_value funct5 old operand);
                    match r_store (r_name r) with
                    | Some handler' =>
                        status' ← handler' (addr - r_base r) 4 value;
                        mret (match status' with ACC_OK _ => ACC_OK (old, value) | other => refused other end)
                    | None => mret ACC_FAULT
                    end
                | other => mret (refused other)
                end
            | None => mret ACC_FAULT
            end
        | None => mret ACC_FAULT
        end
    | other => mret (refused other)
    end.

End Mmu.
