(* ===== verification/Csr.v ===== *)
(** * Control and status registers (tools/rv32emu_core.c)

    Reads and writes by number with their WARL masks, privilege checks, and
    the live interrupt levels. *)

From S2P Require Import Prelude Effects Buffer Simd4 Gpu G3d Dtb Machine Devices Virtio Bus Mmu.

Module Csr.
Import Mmu.

Definition CSR_FFLAGS : Z := 0x001.
Definition CSR_FRM : Z := 0x002.
Definition CSR_FCSR : Z := 0x003.
Definition CSR_SSTATUS : Z := 0x100.
Definition CSR_SIE : Z := 0x104.
Definition CSR_STVEC : Z := 0x105.
Definition CSR_SCOUNTEREN : Z := 0x106.
Definition CSR_SSCRATCH : Z := 0x140.
Definition CSR_SEPC : Z := 0x141.
Definition CSR_SCAUSE : Z := 0x142.
Definition CSR_STVAL : Z := 0x143.
Definition CSR_SIP : Z := 0x144.
Definition CSR_SATP : Z := 0x180.
Definition CSR_MSTATUS : Z := 0x300.
Definition CSR_MISA : Z := 0x301.
Definition CSR_MEDELEG : Z := 0x302.
Definition CSR_MIDELEG : Z := 0x303.
Definition CSR_MIE : Z := 0x304.
Definition CSR_MTVEC : Z := 0x305.
Definition CSR_MCOUNTEREN : Z := 0x306.
Definition CSR_MSCRATCH : Z := 0x340.
Definition CSR_MEPC : Z := 0x341.
Definition CSR_MCAUSE : Z := 0x342.
Definition CSR_MTVAL : Z := 0x343.
Definition CSR_MIP : Z := 0x344.
Definition CSR_PMPCFG0 : Z := 0x3a0.
Definition CSR_PMPCFG1 : Z := 0x3a1.
Definition CSR_PMPADDR0 : Z := 0x3b0.
Definition CSR_PMPADDR7 : Z := 0x3b7.
Definition CSR_CYCLE : Z := 0xc00.
Definition CSR_TIME : Z := 0xc01.
Definition CSR_INSTRET : Z := 0xc02.
Definition CSR_CYCLEH : Z := 0xc80.
Definition CSR_TIMEH : Z := 0xc81.
Definition CSR_INSTRETH : Z := 0xc82.
Definition CSR_MVENDORID : Z := 0xf11.
Definition CSR_MARCHID : Z := 0xf12.
Definition CSR_MIMPID : Z := 0xf13.
Definition CSR_MHARTID : Z := 0xf14.

Definition MISA_VALUE : Z := 0x40141121.
Definition MSTATUS_WRITABLE : Z :=
  MSTATUS_SIE .| MSTATUS_MIE .| MSTATUS_SPIE .| MSTATUS_MPIE .| MSTATUS_SPP .| MSTATUS_MPRV .|
  MSTATUS_SUM .| MSTATUS_MXR .| MSTATUS_TVM .| MSTATUS_TW .| MSTATUS_TSR .| MSTATUS_FS.
Definition MSTATUS_MPP : Z := 0x1800.
Definition SSTATUS_MASK : Z :=
  MSTATUS_SIE .| MSTATUS_SPIE .| MSTATUS_SPP .| MSTATUS_SUM .| MSTATUS_MXR .| MSTATUS_FS .| MSTATUS_SD.
Definition MEDELEG_MASK : Z := 0xb3ff.
Definition IRQ_SSI : Z := 1.
Definition IRQ_MSI : Z := 3.
Definition IRQ_STI : Z := 5.
Definition IRQ_MTI : Z := 7.
Definition IRQ_SEI : Z := 9.
Definition IRQ_MEI : Z := 11.
Definition S_INTERRUPTS : Z := (1 .<< IRQ_SSI) .| (1 .<< IRQ_STI) .| (1 .<< IRQ_SEI).
Definition MIE_MASK : Z := (1 .<< IRQ_MSI) .| (1 .<< IRQ_MTI) .| (1 .<< IRQ_MEI) .| S_INTERRUPTS.
Definition INTERRUPT : Z := 0x80000000.

Definition mip_now (m : machine) : Z :=
  (if tst (msip (clint m)) then 1 .<< IRQ_MSI else 0)
  .| (if mtimecmp (clint m) <=? Clint.mtime_now m then 1 .<< IRQ_MTI else 0)
  .| (if tst (Plic.plic_best (plic m)) then 1 .<< IRQ_MEI else 0)
  .| mip_soft (csr m).

Definition mstatus_value (c : csr_state) : Z :=
  let value := mstatus c .| (mpp c .<< 11) in
  if value .& MSTATUS_FS =? MSTATUS_FS then value .| MSTATUS_SD else value.

Definition fs_off (c : csr_state) : bool := mstatus c .& MSTATUS_FS =? 0.

Definition floating_instruction (word : Z) : bool :=
  let opcode := word .& 0x7f in
  let funct3 := (word .>> 12) .& 7 in
  let number := word .>> 20 in
  (opcode =? 0x07) || (opcode =? 0x27) || (opcode =? 0x43) || (opcode =? 0x47) || (opcode =? 0x4b)
  || (opcode =? 0x4f) || (opcode =? 0x53)
  || ((opcode =? 0x73) && tst (funct3 .& 3) && (1 <=? number) && (number <=? 3)).

(** Four PMP configuration bytes as a word. *)
Definition pmpcfg_word (c : csr_state) (base : Z) : res Z :=
  b0 ← aget (pmpcfg c) base; b1 ← aget (pmpcfg c) (base + 1);
  b2 ← aget (pmpcfg c) (base + 2); b3 ← aget (pmpcfg c) (base + 3);
  mret (b0 .| (b1 .<< 8) .| (b2 .<< 16) .| (b3 .<< 24)).

(** [None]: there is no such register. *)
Definition csr_read (m : machine) (number : Z) : res (option Z) :=
  let c := csr m in
  if number =? CSR_FFLAGS then mret (Some (fcsr (hart m) .& 31))
  else if number =? CSR_FRM then mret (Some (fcsr (hart m) .>> 5))
  else if number =? CSR_FCSR then mret (Some (fcsr (hart m)))
  else if number =? CSR_MSTATUS then mret (Some (mstatus_value c))
  else if number =? CSR_SSTATUS then mret (Some (mstatus_value c .& SSTATUS_MASK))
  else if number =? CSR_MEDELEG then mret (Some (medeleg c))
  else if number =? CSR_MIDELEG then mret (Some (mideleg c))
  else if number =? CSR_SIE then mret (Some (mie c .& mideleg c))
  else if number =? CSR_SIP then mret (Some (mip_now m .& mideleg c))
  else if number =? CSR_STVEC then mret (Some (stvec c))
  else if number =? CSR_SCOUNTEREN then mret (Some (scounteren c))
  else if number =? CSR_SSCRATCH then mret (Some (sscratch c))
  else if number =? CSR_SEPC then mret (Some (sepc c))
  else if number =? CSR_SCAUSE then mret (Some (scause c))
  else if number =? CSR_STVAL then mret (Some (stval c))
  else if number =? CSR_SATP then mret (Some (satp c))
  else if number =? CSR_MCOUNTEREN then mret (Some (mcounteren c))
  else if number =? CSR_MISA then mret (Some MISA_VALUE)
  else if (number =? CSR_MVENDORID) || (number =? CSR_MARCHID) || (number =? CSR_MIMPID)
          || (number =? CSR_MHARTID) then mret (Some 0)
  else if (number =? CSR_PMPCFG0) || (number =? CSR_PMPCFG1) then
    w ← pmpcfg_word c (4 * (number - CSR_PMPCFG0)); mret (Some w)
  else if number =? CSR_MIE then mret (Some (mie c))
  else if number =? CSR_MIP then mret (Some (mip_now m))
  else if number =? CSR_MSCRATCH then mret (Some (mscratch c))
  else if number =? CSR_MTVEC then mret (Some (mtvec c))
  else if number =? CSR_MEPC then mret (Some (mepc c))
  else if number =? CSR_MCAUSE then mret (Some (mcause c))
  else if number =? CSR_MTVAL then mret (Some (mtval c))
  else if number =? CSR_CYCLE then mret (Some (u32 (steps (counters m))))
  else if number =? CSR_CYCLEH then mret (Some (u32 (steps (counters m) .>> 32)))
  else if number =? CSR_TIME then mret (Some (u32 (Clint.mtime_now m)))
  else if number =? CSR_TIMEH then mret (Some (u32 (Clint.mtime_now m .>> 32)))
  else if number =? CSR_INSTRET then mret (Some (u32 (retired (counters m))))
  else if number =? CSR_INSTRETH then mret (Some (u32 (retired (counters m) .>> 32)))
  else if (CSR_PMPADDR0 <=? number) && (number <=? CSR_PMPADDR7) then
    a ← aget (pmpaddr c) (number - CSR_PMPADDR0); mret (Some a)
  else mret None.

Definition csr_read_only (number : Z) : bool := number .>> 10 =? 3.

(** A PMP configuration byte as a write stores it. *)
Definition pmpcfg_value (value k : Z) : Z :=
  let cfg := (value .>> (8 * k)) .& 0x9f in
  if tst (cfg .& PMP_W) && negb (tst (cfg .& PMP_R)) then cfg .& not32 PMP_W else cfg.

(** The four bytes from [base]; a locked one ignores the write. *)
Definition pmpcfg_write (cfgs : list Z) (base value : Z) : res (list Z) :=
  foldl (fun r k =>
    l ← r; cfg ← aget l (base + k);
    if tst (cfg .& PMP_L) then mret l else aset l (base + k) (u8 (pmpcfg_value value k))) (mret cfgs) [0; 1; 2; 3].

(** Locked itself, or the bottom of a locked top-of-range entry; there is no
    entry above the last. *)
Definition pmpaddr_locked (c : csr_state) (i : Z) : res bool :=
  own ← aget (pmpcfg c) i;
  if tst (own .& PMP_L) then mret true
  else if i + 1 <? PMP_ENTRIES then
    above ← aget (pmpcfg c) (i + 1); mret (above .& (PMP_L .| PMP_A) =? PMP_L .| PMP_TOR)
  else mret false.

(** The registers [csr_write] keeps in the CSR file. *)
Definition csr_write_file (c : csr_state) (number value : Z) : res csr_state :=
  if number =? CSR_MSTATUS then
    let p := (value .& MSTATUS_MPP) .>> 11 in
    mret {| c with mstatus := value .& MSTATUS_WRITABLE; mpp := if p =? 2 then PRIV_U else p |}
  else if number =? CSR_SSTATUS then
    mret {| c with mstatus := (mstatus c .& not32 SSTATUS_MASK) .| (value .& SSTATUS_MASK .& MSTATUS_WRITABLE) |}
  else if number =? CSR_MEDELEG then mret {| c with medeleg := value .& MEDELEG_MASK |}
  else if number =? CSR_MIDELEG then mret {| c with mideleg := value .& S_INTERRUPTS |}
  else if number =? CSR_SIE then mret {| c with mie := (mie c .& not32 (mideleg c)) .| (value .& mideleg c) |}
  else if number =? CSR_SIP then
    let ssip := mideleg c .& (1 .<< IRQ_SSI) in
    mret {| c with mip_soft := (mip_soft c .& not32 ssip) .| (value .& ssip) |}
  else if number =? CSR_STVEC then mret {| c with stvec := value .& not32 3 |}
  else if number =? CSR_SCOUNTEREN then mret {| c with scounteren := value .& 7 |}
  else if number =? CSR_SSCRATCH then mret {| c with sscratch := value |}
  else if number =? CSR_SEPC then mret {| c with sepc := value .& not32 3 |}
  else if number =? CSR_SCAUSE then mret {| c with scause := value |}
  else if number =? CSR_STVAL then mret {| c with stval := value |}
  else if number =? CSR_SATP then mret {| c with satp := value .& (SATP_MODE .| SATP_PPN) |}
  else if number =? CSR_MCOUNTEREN then mret {| c with mcounteren := value .& 7 |}
  else if (number =? CSR_PMPCFG0) || (number =? CSR_PMPCFG1) then
    l ← pmpcfg_write (pmpcfg c) (4 * (number - CSR_PMPCFG0)) value; mret {| c with pmpcfg := l |}
  else if number =? CSR_MIE then mret {| c with mie := value .& MIE_MASK |}
  else if number =? CSR_MIP then mret {| c with mip_soft := value .& S_INTERRUPTS |}
  else if number =? CSR_MSCRATCH then mret {| c with mscratch := value |}
  else if number =? CSR_MTVEC then mret {| c with mtvec := value .& not32 3 |}
  else if number =? CSR_MEPC then mret {| c with mepc := value .& not32 3 |}
  else if number =? CSR_MCAUSE then mret {| c with mcause := value |}
  else if number =? CSR_MTVAL then mret {| c with mtval := value |}
  else if number =? CSR_MISA then mret c
  else if (CSR_PMPADDR0 <=? number) && (number <=? CSR_PMPADDR7) then
    let i := number - CSR_PMPADDR0 in
    locked ← pmpaddr_locked c i;
    if locked : bool then mret c else l ← aset (pmpaddr c) i value; mret {| c with pmpaddr := l |}
  else mret c.

(** The floating CSRs, which live in [fcsr]. *)
Definition fcsr_value (old number value : Z) : option Z :=
  if number =? CSR_FFLAGS then Some ((old .& 0xe0) .| (value .& 31))
  else if number =? CSR_FRM then Some ((old .& 31) .| ((value .& 7) .<< 5))
  else if number =? CSR_FCSR then Some (value .& 255)
  else None.

Definition csr_write (m : machine) (number value : Z) : res machine :=
  match fcsr_value (fcsr (hart m)) number value with
  | Some v =>
      mret (upd_effects (fun e => {| e with wr_fcsr := true |}) (upd_hart (fun h => {| h with fcsr := v |}) m))
  | None =>
      c ← csr_write_file (csr m) number value;
      let m1 := upd_csr (fun _ => c) m in
      mret (if number =? CSR_SATP then upd_resv (fun r => {| r with reserved := false |}) m1 else m1)
  end.

Definition supervisor_allows (m : machine) (trap_bit : Z) : bool :=
  (priv (hart m) =? PRIV_M) || ((priv (hart m) =? PRIV_S) && negb (tst (mstatus (csr m) .& trap_bit))).

Definition csr_allowed (m : machine) (number : Z) : bool :=
  let p := priv (hart m) in
  if p =? PRIV_M then true
  else if p <? (number .>> 8) .& 3 then false
  else if (CSR_CYCLE <=? number) && (number <=? CSR_INSTRETH) then
    let bit := 1 .<< (number .& 3) in
    tst (mcounteren (csr m) .& bit) && ((p =? PRIV_S) || tst (scounteren (csr m) .& bit))
  else if (number =? CSR_SATP) && tst (mstatus (csr m) .& MSTATUS_TVM) then false
  else true.

(** Debugger access: the instructions' rules without the privilege check. *)
Definition emu_csr_read (m : machine) (number : Z) : res (option Z) := csr_read m number.
Definition emu_csr_write (m : machine) (number value : Z) : res (option machine) :=
  o ← csr_read m number;
  match o with
  | None => mret None
  | Some _ =>
      if csr_read_only number || (number =? CSR_MISA) then mret None
      else m' ← csr_write m number value; mret (Some m')
  end.

End Csr.
