(* ===== verification/Fp.v ===== *)
(** * The floating-point adapter (tools/rv32_fp.c)

    SoftFloat's operations are a parameter of the model: each takes the
    rounding mode and the operands' bits and returns the result's bits with
    the exception flags it raised.  The adapter around them is modelled. *)

From S2P Require Import Prelude Effects.

(** What the adapter calls of SoftFloat. *)
Class SoftFloat : Type := {
  f32_add : Z -> Z -> Z -> Z * Z;
  f32_sub : Z -> Z -> Z -> Z * Z;
  f32_mul : Z -> Z -> Z -> Z * Z;
  f32_mulAdd : Z -> Z -> Z -> Z -> Z * Z;
  f32_div : Z -> Z -> Z -> Z * Z;
  f32_sqrt : Z -> Z -> Z * Z;
  i32_to_f32 : Z -> Z -> Z * Z;
  ui32_to_f32 : Z -> Z -> Z * Z;
  f32_to_i32 : Z -> Z -> Z * Z;
  f32_to_ui32 : Z -> Z -> Z * Z;
  f32_eq : Z -> Z -> bool * Z;
  f32_lt : Z -> Z -> bool * Z;
  f32_le : Z -> Z -> bool * Z;
  f32_lt_quiet : Z -> Z -> bool * Z;
}.

Module Fp.

Definition OP_ADD : Z := 0.
Definition OP_SUB : Z := 1.
Definition OP_MUL : Z := 2.
Definition OP_FMADD : Z := 3.
Definition OP_FMSUB : Z := 4.
Definition OP_FNMSUB : Z := 5.
Definition OP_FNMADD : Z := 6.
Definition OP_DIV : Z := 7.
Definition OP_SQRT : Z := 8.
Definition OP_I32_TO_F32 : Z := 9.
Definition OP_U32_TO_F32 : Z := 10.
Definition OP_F32_TO_I32 : Z := 11.
Definition OP_F32_TO_U32 : Z := 12.
Definition OP_EQ : Z := 13.
Definition OP_LT : Z := 14.
Definition OP_LE : Z := 15.
Definition OP_MIN : Z := 16.
Definition OP_MAX : Z := 17.

Definition softfloat_flag_invalid : Z := 16.
Definition SIGN : Z := 0x80000000.

Definition nan32 (a : Z) : bool := 0x7f800000 <? (a .& 0x7fffffff).
Definition snan32 (a : Z) : bool := nan32 a && negb (tst (a .& 0x00400000)).

Section WithSoftFloat.
Context `{SF : SoftFloat}.

(** Result and flags of FMIN/FMAX. *)
Definition minmax (a b : Z) (maximum : bool) : Z * Z :=
  let invalid := if snan32 a || snan32 b then softfloat_flag_invalid else 0 in
  if nan32 a then (if nan32 b then 0x7fc00000 else b, invalid)
  else if nan32 b then (a, invalid)
  else if negb (tst ((a .| b) .& 0x7fffffff)) then (if maximum then a .& b else a .| b, invalid)
  else
    let '(less, fl) := f32_lt_quiet a b in
    (if negb (Bool.eqb less maximum) then a else b, invalid .| fl).

Definition of_bool (r : bool * Z) : Z * Z := (Z.b2z (fst r), snd r).

(** [rv32_fp]: the result with the accrued flags; [Stuck] is its [abort]. *)
Definition rv32_fp (op rm a b c : Z) : res (Z * Z) :=
  if (4 <? rm) || (OP_MAX <? op) then Stuck
  else
    r ← (if op =? OP_ADD then mret (f32_add rm a b)
         else if op =? OP_SUB then mret (f32_sub rm a b)
         else if op =? OP_MUL then mret (f32_mul rm a b)
         else if op =? OP_FMADD then mret (f32_mulAdd rm a b c)
         else if op =? OP_FMSUB then mret (f32_mulAdd rm a b (c .^ SIGN))
         else if op =? OP_FNMSUB then mret (f32_mulAdd rm (a .^ SIGN) b c)
         else if op =? OP_FNMADD then mret (f32_mulAdd rm (a .^ SIGN) b (c .^ SIGN))
         else if op =? OP_DIV then mret (f32_div rm a b)
         else if op =? OP_SQRT then mret (f32_sqrt rm a)
         else if op =? OP_I32_TO_F32 then mret (i32_to_f32 rm (s32 a))
         else if op =? OP_U32_TO_F32 then mret (ui32_to_f32 rm a)
         else if op =? OP_F32_TO_I32 then mret (let '(v, fl) := f32_to_i32 rm a in (u32 v, fl))
         else if op =? OP_F32_TO_U32 then mret (let '(v, fl) := f32_to_ui32 rm a in (u32 v, fl))
         else if op =? OP_EQ then mret (of_bool (f32_eq a b))
         else if op =? OP_LT then mret (of_bool (f32_lt a b))
         else if op =? OP_LE then mret (of_bool (f32_le a b))
         else if (op =? OP_MIN) || (op =? OP_MAX) then mret (minmax a b (op =? OP_MAX))
         else Stuck);
    mret (fst r, u8 (snd r)).
End WithSoftFloat.

(** What the emulator relies on: results are 32-bit patterns, and the flags are
    SoftFloat's five exception bits (rv32_fp.c asserts their encoding). *)
Class SoftFloatOk (SF : SoftFloat) : Prop := {
  sf_add rm a b : is_u32 (fst (f32_add rm a b)) /\ 0 <= snd (f32_add rm a b) < 32;
  sf_sub rm a b : is_u32 (fst (f32_sub rm a b)) /\ 0 <= snd (f32_sub rm a b) < 32;
  sf_mul rm a b : is_u32 (fst (f32_mul rm a b)) /\ 0 <= snd (f32_mul rm a b) < 32;
  sf_mulAdd rm a b c : is_u32 (fst (f32_mulAdd rm a b c)) /\ 0 <= snd (f32_mulAdd rm a b c) < 32;
  sf_div rm a b : is_u32 (fst (f32_div rm a b)) /\ 0 <= snd (f32_div rm a b) < 32;
  sf_sqrt rm a : is_u32 (fst (f32_sqrt rm a)) /\ 0 <= snd (f32_sqrt rm a) < 32;
  sf_i32 rm a : is_u32 (fst (i32_to_f32 rm a)) /\ 0 <= snd (i32_to_f32 rm a) < 32;
  sf_ui32 rm a : is_u32 (fst (ui32_to_f32 rm a)) /\ 0 <= snd (ui32_to_f32 rm a) < 32;
  sf_to_i32 rm a : 0 <= snd (f32_to_i32 rm a) < 32;
  sf_to_ui32 rm a : 0 <= snd (f32_to_ui32 rm a) < 32;
  sf_eq a b : 0 <= snd (f32_eq a b) < 32;
  sf_lt a b : 0 <= snd (f32_lt a b) < 32;
  sf_le a b : 0 <= snd (f32_le a b) < 32;
  sf_lt_quiet a b : 0 <= snd (f32_lt_quiet a b) < 32;
}.

End Fp.
