(* ===== verification/Cpu.v ===== *)
(** * The hart: traps, interrupts and one step (tools/rv32emu_core.c)

    [step] and everything it calls above the bus.  The C function's one switch
    is a function per group of opcodes here; each answers a [flow]: the
    instruction retires, is illegal (the C's [goto illegal]), or has already
    trapped (the C's [return]). *)

From S2P Require Import Prelude Effects Buffer Simd4 Gpu G3d Dtb Machine Devices Virtio Bus Mmu Csr Fp.

Module Cpu.
Import Bus Mmu Csr.

Definition CAUSE_FETCH_MISALIGNED : Z := 0.
Definition CAUSE_FETCH_FAULT : Z := 1.
Definition CAUSE_ILLEGAL : Z := 2.
Definition CAUSE_BREAKPOINT : Z := 3.
Definition CAUSE_ECALL_U : Z := 8.
Definition CAUSE_ECALL_S : Z := 9.
Definition CAUSE_ECALL_M : Z := 11.
Definition CAUSE_FETCH_PAGE_FAULT : Z := 12.

(** ** The trace *)

Definition trace_effects (m : machine) : list trace_item :=
  let e := effects m in
  (if 0 <? wr_reg e then [TraceX (wr_reg e) (wr_value e)] else [])
  ++ (if 0 <=? wr_freg e then [TraceF (wr_freg e) (at_ (f_ (hart m)) (wr_freg e))] else [])
  ++ (if wr_fcsr e then [TraceFcsr (fcsr (hart m))] else [])
  ++ (if mem_write e then [TraceWrite (mem_addr e) (mem_write_value e) (mem_width e)] else [])
  ++ (if mem_read e then [TraceRead (mem_addr e) (mem_read_value e) (mem_width e)] else []).

(** ** Trap entry *)

Definition delegated (c : csr_state) (p cause : Z) : bool :=
  let set := if tst (cause .& INTERRUPT) then mideleg c else medeleg c in
  negb (p =? PRIV_M) && tst ((set .>> (cause .& 31)) .& 1).

Definition enter_handler (m : machine) (cause tval : Z) : machine :=
  let m := upd_resv (fun r => {| r with reserved := false |}) m in
  let h := hart m in
  let c := csr m in
  if delegated c (priv h) cause then
    {| m with
       hart := {| h with priv := PRIV_S; pc := stvec c |};
       csr := {| c with
         sepc := pc h; scause := cause; stval := tval;
         mstatus := (mstatus c .& not32 (MSTATUS_SIE .| MSTATUS_SPIE .| MSTATUS_SPP))
                    .| (if tst (mstatus c .& MSTATUS_SIE) then MSTATUS_SPIE else 0)
                    .| (if priv h =? PRIV_S then MSTATUS_SPP else 0) |} |}
  else
    {| m with
       hart := {| h with priv := PRIV_M; pc := mtvec c |};
       csr := {| c with
         mepc := pc h; mcause := cause; mtval := tval;
         mstatus := (mstatus c .& not32 (MSTATUS_MIE .| MSTATUS_MPIE))
                    .| (if tst (mstatus c .& MSTATUS_MIE) then MSTATUS_MPIE else 0);
         mpp := priv h |} |}.

(** One device tick of the accelerators, and the reservation's snoop of what
    they wrote. *)
Definition tick_engines : M () := fun m =>
  s ← Simd.simd_tick false (simd m);
  let m := put_simd s m in
  '(g, b) ← Gpu.gpu_tick (gpu m) (ram m) RAM_SIZE (fb (display m)) false (dma_start m) (dma_end m);
  let m := set_fb b (put_gpu g m) in
  '(d, r, b') ← G3d.g3d_tick (g3d m) (ram m) RAM_SIZE (fb (display m)) false (dma_start m) (dma_end m);
  mret ((), set_fb b' (set_ram r (put_g3d d m))).

Definition tick_accelerators : M () :=
  tick_engines;;
  d ← gets g3d;
  when (G3d.ram_written d)
    (Virtio.snoop_device_write (u32 (RAM_BASE + G3d.ram_written_at d));;
     modify (fun m => put_g3d {| (g3d m) with G3d.ram_written := false |} m));;
  when (G3d.fb_written d)
    (Virtio.snoop_device_write (u32 (FB_BASE + G3d.fb_written_at d));;
     modify (fun m => put_g3d {| (g3d m) with G3d.fb_written := false |} m));;
  g ← gets gpu;
  when (Gpu.fb_written g)
    (Virtio.snoop_device_write (u32 (FB_BASE + Gpu.fb_written_at g));;
     modify (fun m => put_gpu {| (gpu m) with Gpu.fb_written := false |} m)).

(** [m->steps++] with the step's trace line. *)
Definition count_step (line : machine -> trace_line) : M () :=
  modify (upd_counters (fun c => {| c with steps := u64 (steps c + 1) |}));;
  modify (fun m => upd_counters (fun c =>
    {| c with trace := option_map (fun l => l ++ [line m]) (trace c) |}) m).

Definition double_fault (cause tval : Z) (m : machine) : machine :=
  let m := upd_counters (fun c => {| c with second_cause := cause; second_tval := tval |}) m in
  {| m with halt := HALT_DOUBLE_FAULT |}.

Definition trap (word cause tval : Z) : M () :=
  tick_accelerators;;
  count_step (fun m => TraceTrap (steps (counters m)) (pc (hart m)) word cause tval);;
  c ← gets counters;
  if in_trap c then modify (double_fault cause tval)
  else
    modify (upd_counters (fun c => {| c with in_trap := true; traps := u64 (traps c + 1) |}));;
    modify (fun m => enter_handler m cause tval).

Definition take_interrupt (code : Z) : M () :=
  tick_accelerators;;
  count_step (fun m => TraceInterrupt (steps (counters m)) (pc (hart m)) code);;
  c ← gets counters;
  if in_trap c then modify (double_fault (INTERRUPT .| code) 0)
  else
    modify (upd_counters (fun c => {| c with in_trap := true; interrupts := u64 (interrupts c + 1) |}));;
    modify (fun m => enter_handler m (INTERRUPT .| code) 0).

(** ** Decoding *)

Definition op_of (word : Z) : Z := word .& 0x7f.
Definition rd_of (word : Z) : Z := (word .>> 7) .& 31.
Definition funct3_of (word : Z) : Z := (word .>> 12) .& 7.
Definition rs1_of (word : Z) : Z := (word .>> 15) .& 31.
Definition rs2_of (word : Z) : Z := (word .>> 20) .& 31.
Definition funct7_of (word : Z) : Z := word .>> 25.
Definition imm_i (word : Z) : Z := s32 word .>> 20.
Definition imm_s (word : Z) : Z := (s32 (word .& 0xfe000000) .>> 20) .| ((word .>> 7) .& 0x1f).
Definition imm_b (word : Z) : Z :=
  (s32 (word .& 0x80000000) .>> 19) .| ((word .& 0x80) .<< 4)
  .| ((word .>> 20) .& 0x7e0) .| ((word .>> 7) .& 0x1e).
Definition imm_j (word : Z) : Z :=
  (s32 (word .& 0x80000000) .>> 11) .| (word .& 0xff000)
  .| ((word .>> 9) .& 0x800) .| ((word .>> 20) .& 0x7fe).

Definition width_of (funct3 : Z) : Z := 1 .<< (funct3 .& 3).

(** How an instruction left the switch. *)
Inductive flow : Type :=
| Retire (next result : Z) (writes_rd writes_fd : bool)
| Illegal
| Left_.

Definition xreg (i : Z) : M Z := h ← gets hart; lift (aget (x_ h) i).
Definition freg (i : Z) : M Z := h ← gets hart; lift (aget (f_ h) i).

Definition trapped (word cause tval : Z) : M flow := trap word cause tval;; mret Left_.

(** [jump]: the target, or a trap and no result. *)
Definition jump (word target : Z) (k : Z -> flow) : M flow :=
  if tst (target .& 3) then trapped word CAUSE_FETCH_MISALIGNED target else mret (k target).

(** ** Integer arithmetic *)

Definition muldiv (funct3 a b : Z) : Z :=
  let sa := s32 a in
  let sb := s32 b in
  let overflow := (a =? 0x80000000) && (b =? 0xffffffff) in
  if funct3 =? 0 then u32 (a * b)
  else if funct3 =? 1 then u32 (u64 (sa * sb) .>> 32)
  else if funct3 =? 2 then u32 (u64 (sa * b) .>> 32)
  else if funct3 =? 3 then u32 (u64 (a * b) .>> 32)
  else if funct3 =? 4 then
    if b =? 0 then 0xffffffff else if overflow then a else u32 (Z.quot sa sb)
  else if funct3 =? 5 then if b =? 0 then 0xffffffff else a / b
  else if funct3 =? 6 then
    if b =? 0 then a else if overflow then 0 else u32 (Z.rem sa sb)
  else if b =? 0 then a else a mod b.

(** OP-IMM; [None] is an illegal instruction. *)
Definition op_imm (word a : Z) : option Z :=
  let f3 := funct3_of word in
  let f7 := funct7_of word in
  let imm := u32 (imm_i word) in
  let shamt := rs2_of word in
  if f3 =? 0 then Some (u32 (a + imm))
  else if f3 =? 1 then if f7 =? 0 then Some (u32 (a .<< shamt)) else None
  else if f3 =? 2 then Some (Z.b2z (s32 a <? imm_i word))
  else if f3 =? 3 then Some (Z.b2z (a <? imm))
  else if f3 =? 4 then Some (a .^ imm)
  else if f3 =? 5 then
    if f7 =? 0 then Some (a .>> shamt)
    else if f7 =? 0x20 then Some (u32 (s32 a .>> shamt)) else None
  else if f3 =? 6 then Some (a .| imm)
  else Some (a .& imm).

Definition op_reg (word a b : Z) : option Z :=
  let f3 := funct3_of word in
  let f7 := funct7_of word in
  if f7 =? 1 then Some (muldiv f3 a b)
  else if negb (f7 =? 0) && negb ((f7 =? 0x20) && ((f3 =? 0) || (f3 =? 5))) then None
  else
    let shamt := b .& 31 in
    Some (if f3 =? 0 then if tst f7 then u32 (a - b) else u32 (a + b)
          else if f3 =? 1 then u32 (a .<< shamt)
          else if f3 =? 2 then Z.b2z (s32 a <? s32 b)
          else if f3 =? 3 then Z.b2z (a <? b)
          else if f3 =? 4 then a .^ b
          else if f3 =? 5 then if tst f7 then u32 (s32 a .>> shamt) else a .>> shamt
          else if f3 =? 6 then a .| b
          else a .& b).

Definition branch_taken (f3 a b : Z) : option bool :=
  if f3 =? 0 then Some (a =? b)
  else if f3 =? 1 then Some (negb (a =? b))
  else if f3 =? 4 then Some (s32 a <? s32 b)
  else if f3 =? 5 then Some (s32 b <=? s32 a)
  else if f3 =? 6 then Some (a <? b)
  else if f3 =? 7 then Some (b <=? a)
  else None.

(** LUI, AUIPC, JAL, JALR, the branches, FENCE. *)
Definition exec_control (word pc0 : Z) : M flow :=
  let opcode := op_of word in
  let f3 := funct3_of word in
  let next := u32 (pc0 + 4) in
  a ← xreg (rs1_of word); b ← xreg (rs2_of word);
  if opcode =? 0x37 then mret (Retire next (word .& 0xfffff000) true false)
  else if opcode =? 0x17 then mret (Retire next (u32 (pc0 + (word .& 0xfffff000))) true false)
  else if opcode =? 0x6f then
    jump word (u32 (pc0 + imm_j word)) (fun t => Retire t (u32 (pc0 + 4)) true false)
  else if opcode =? 0x67 then
    if negb (f3 =? 0) then mret Illegal
    else jump word (u32 (a + imm_i word) .& not32 1) (fun t => Retire t (u32 (pc0 + 4)) true false)
  else if opcode =? 0x63 then
    match branch_taken f3 a b with
    | None => mret Illegal
    | Some false => mret (Retire next 0 false false)
    | Some true => jump word (u32 (pc0 + imm_b word)) (fun t => Retire t 0 false false)
    end
  else (* 0x0f *) if 1 <? f3 then mret Illegal else mret (Retire next 0 false false).

(** ** Memory instructions *)

Definition note_read (addr value width : Z) : M () :=
  modify (upd_effects (fun e =>
    {| e with mem_read := true; mem_addr := addr; mem_read_value := value; mem_width := width |})).
Definition note_write (addr value width : Z) : M () :=
  modify (upd_effects (fun e =>
    {| e with mem_write := true; mem_addr := addr; mem_write_value := value; mem_width := width |})).

(** The value a load puts in its register. *)
Definition load_value (funct3 value : Z) : Z :=
  if funct3 =? 0 then u32 (s8 value) else if funct3 =? 1 then u32 (s16 value) else value.

Section WithBus.
Context `{SVF : ServeFuel}.

(** Loads and FLW. *)
Definition exec_load (word pc0 : Z) : M flow :=
  let opcode := op_of word in
  let f3 := funct3_of word in
  if ((opcode =? 0x07) && negb (f3 =? 2)) || (f3 =? 3) || (5 <? f3) then mret Illegal
  else
    a ← xreg (rs1_of word);
    let width := width_of f3 in
    let addr := u32 (a + imm_i word) in
    status ← load addr width;
    match status with
    | ACC_OK (value, _) =>
        note_read addr value width;;
        mret (Retire (u32 (pc0 + 4)) (load_value f3 value) (opcode =? 0x03) (opcode =? 0x07))
    | other => trapped word (load_cause other) addr
    end.

(** Stores and FSW. *)
Definition exec_store (word pc0 : Z) : M flow :=
  let opcode := op_of word in
  let f3 := funct3_of word in
  if ((opcode =? 0x27) && negb (f3 =? 2)) || (2 <? f3) then mret Illegal
  else
    a ← xreg (rs1_of word);
    let width := width_of f3 in
    let addr := u32 (a + imm_s word) in
    b ← (if opcode =? 0x27 then freg (rs2_of word) else xreg (rs2_of word));
    let value := if width =? 4 then b else b .& ((1 .<< (8 * width)) - 1) in
    status ← store addr width value;
    match status with
    | ACC_OK _ => note_write addr value width;; mret (Retire (u32 (pc0 + 4)) 0 false false)
    | other => trapped word (store_cause other) addr
    end.

Definition exec_lr (word pc0 addr : Z) : M flow :=
  status ← load addr 4;
  match status with
  | ACC_OK (value, physical) =>
      note_read addr value 4;;
      modify (upd_resv (fun _ =>
        {| reserved := true; reservation := addr .>> 2; reservation_pa := physical .>> 2 |}));;
      mret (Retire (u32 (pc0 + 4)) value true false)
  | other => trapped word (load_cause other) addr
  end.

Definition exec_sc (word pc0 addr b : Z) : M flow :=
  r ← gets resv;
  let finish (held : bool) : M flow :=
    modify (upd_resv (fun r => {| r with reserved := false |}));;
    mret (Retire (u32 (pc0 + 4)) (if held then 0 else 1) true false) in
  if negb (addr mod 4 =? 0) then trapped word CAUSE_STORE_MISALIGNED addr
  else if negb (reserved r && (reservation r =? addr .>> 2)) then finish false
  else
    status ← physical addr WALK_STORE PMP_W;
    match status with
    | ACC_OK p =>
        if negb (p .>> 2 =? reservation_pa r) then finish false
        else
          stored ← store addr 4 b;
          match stored with
          | ACC_OK _ => note_write addr b 4;; finish true
          | other => trapped word (store_cause other) addr
          end
    | other => trapped word (store_cause other) addr
    end.

Definition exec_rmw (word pc0 addr funct5 b : Z) : M flow :=
  status ← amo addr funct5 b;
  match status with
  | ACC_OK (old, value) =>
      note_read addr old 4;; note_write addr value 4;;
      mret (Retire (u32 (pc0 + 4)) old true false)
  | other => trapped word (store_cause other) addr
  end.

(** The A extension. *)
Definition exec_amo (word pc0 : Z) : M flow :=
  let funct5 := funct7_of word .>> 2 in
  if negb (funct3_of word =? 2) || negb (amo_valid funct5 (rs2_of word)) then mret Illegal
  else
    addr ← xreg (rs1_of word); b ← xreg (rs2_of word);
    if funct5 =? AMO_LR then exec_lr word pc0 addr
    else if funct5 =? AMO_SC then exec_sc word pc0 addr b
    else exec_rmw word pc0 addr funct5 b.

End WithBus.

(** ** The F extension *)

(** What the decoder decides of an OP-FP or fused instruction. *)
Record fp_plan : Type := {
  fp_op : Z; fp_a : Z; (** the operation of [rv32_fp] and its first operand *)
  fp_arithmetic : bool; fp_rounded : bool;
  fp_rd : bool; fp_fd : bool; (** which register file is written *)
  fp_result : Z; (** the result when no arithmetic is needed *)
}.

Definition fclass (fa : Z) : Z :=
  let exp := (fa .>> 23) .& 255 in
  let frac := fa .& 0x7fffff in
  let sign := fa .>> 31 in
  let bit :=
    if exp =? 255 then if tst frac then if tst (frac .& 0x400000) then 9 else 8 else if tst sign then 0 else 7
    else if exp =? 0 then if tst frac then if tst sign then 2 else 5 else if tst sign then 3 else 4
    else if tst sign then 1 else 6 in
  1 .<< bit.

Definition fsgnj (funct3 fa fb : Z) : Z :=
  (fa .& 0x7fffffff)
  .| ((if funct3 =? 0 then fb else if funct3 =? 1 then not32 fb else fa .^ fb) .& 0x80000000).

Definition fp_decode (word a fa fb : Z) : option fp_plan :=
  let opcode := op_of word in
  let f3 := funct3_of word in
  let f7 := funct7_of word in
  let rs2 := rs2_of word in
  let rounded op := Some {| fp_op := op; fp_a := fa; fp_arithmetic := true; fp_rounded := true;
                            fp_rd := false; fp_fd := true; fp_result := 0 |} in
  let exact op rd := Some {| fp_op := op; fp_a := fa; fp_arithmetic := true; fp_rounded := false;
                             fp_rd := rd; fp_fd := negb rd; fp_result := 0 |} in
  let plain result rd := Some {| fp_op := Fp.OP_ADD; fp_a := fa; fp_arithmetic := false; fp_rounded := false;
                                 fp_rd := rd; fp_fd := negb rd; fp_result := result |} in
  if negb (opcode =? 0x53) then
    if negb ((word .>> 25) .& 3 =? 0) then None else rounded (Fp.OP_FMADD + ((opcode - 0x43) .>> 2))
  else if f7 =? 0x00 then rounded Fp.OP_ADD
  else if f7 =? 0x04 then rounded Fp.OP_SUB
  else if f7 =? 0x08 then rounded Fp.OP_MUL
  else if f7 =? 0x0c then rounded Fp.OP_DIV
  else if f7 =? 0x2c then if tst rs2 then None else rounded Fp.OP_SQRT
  else if (f7 =? 0x60) || (f7 =? 0x68) then
    if 1 <? rs2 then None
    else if f7 =? 0x60 then
      Some {| fp_op := if tst rs2 then Fp.OP_F32_TO_U32 else Fp.OP_F32_TO_I32; fp_a := fa;
              fp_arithmetic := true; fp_rounded := true; fp_rd := true; fp_fd := false; fp_result := 0 |}
    else
      Some {| fp_op := if tst rs2 then Fp.OP_U32_TO_F32 else Fp.OP_I32_TO_F32; fp_a := a;
              fp_arithmetic := true; fp_rounded := true; fp_rd := false; fp_fd := true; fp_result := 0 |}
  else if f7 =? 0x50 then
    if 2 <? f3 then None
    else exact (if f3 =? 2 then Fp.OP_EQ else if f3 =? 1 then Fp.OP_LT else Fp.OP_LE) true
  else if f7 =? 0x14 then
    if 1 <? f3 then None else exact (if tst f3 then Fp.OP_MAX else Fp.OP_MIN) false
  else if f7 =? 0x10 then
    if 2 <? f3 then None else plain (fsgnj f3 fa fb) false
  else if f7 =? 0x70 then
    if tst rs2 || (1 <? f3) then None else plain (if tst f3 then fclass fa else fa) true
  else if f7 =? 0x78 then
    if tst rs2 || tst f3 then None else plain a false
  else None.

Section WithFloat.
Context `{SF : SoftFloat}.

Definition exec_float (word pc0 : Z) : M flow :=
  a ← xreg (rs1_of word);
  fa ← freg (rs1_of word); fb ← freg (rs2_of word); fc ← freg (word .>> 27);
  fcsr0 ← gets (fun m => fcsr (hart m));
  match fp_decode word a fa fb with
  | None => mret Illegal
  | Some p =>
      let f3 := funct3_of word in
      let rm := if fp_rounded p then if f3 =? 7 then fcsr0 .>> 5 else f3 else 0 in
      if 4 <? rm then mret Illegal
      else if fp_arithmetic p then
        '(result, flags) ← lift (Fp.rv32_fp (fp_op p) rm (fp_a p) fb fc);
        modify (upd_hart (fun h => {| h with fcsr := fcsr h .| flags |}));;
        modify (upd_effects (fun e => {| e with wr_fcsr := tst flags |}));;
        mret (Retire (u32 (pc0 + 4)) result (fp_rd p) (fp_fd p))
      else mret (Retire (u32 (pc0 + 4)) (fp_result p) (fp_rd p) (fp_fd p))
  end.
End WithFloat.

(** ** SYSTEM *)

Definition mret_state (m : machine) : machine :=
  let c := csr m in
  let ms := (mstatus c .& not32 MSTATUS_MIE) .| MSTATUS_MPIE
            .| (if tst (mstatus c .& MSTATUS_MPIE) then MSTATUS_MIE else 0) in
  let ms' := if mpp c =? PRIV_M then ms else ms .& not32 MSTATUS_MPRV in
  {| m with
     resv := {| (resv m) with reserved := false |};
     hart := {| (hart m) with priv := mpp c |};
     csr := {| c with mstatus := ms'; mpp := PRIV_U |} |}.

Definition sret_state (m : machine) : machine :=
  let c := csr m in
  {| m with
     resv := {| (resv m) with reserved := false |};
     hart := {| (hart m) with priv := if tst (mstatus c .& MSTATUS_SPP) then PRIV_S else PRIV_U |};
     csr := {| c with mstatus :=
       (mstatus c .& not32 (MSTATUS_SIE .| MSTATUS_SPP .| MSTATUS_MPRV)) .| MSTATUS_SPIE
       .| (if tst (mstatus c .& MSTATUS_SPIE) then MSTATUS_SIE else 0) |} |}.

(** SYSTEM with funct3 0: environment calls, returns, WFI and SFENCE.VMA. *)
Definition exec_priv (word pc0 : Z) : M flow :=
  m ← gets id;
  let p := priv (hart m) in
  let next := u32 (pc0 + 4) in
  if word =? 0x00000073 then
    trapped word (if p =? PRIV_U then CAUSE_ECALL_U else if p =? PRIV_S then CAUSE_ECALL_S else CAUSE_ECALL_M) 0
  else if word =? 0x00100073 then trapped word CAUSE_BREAKPOINT pc0
  else if (word =? 0x30200073) && (p =? PRIV_M) then
    modify mret_state;; mret (Retire (mepc (csr m)) 0 false false)
  else if (word =? 0x10200073) && supervisor_allows m MSTATUS_TSR then
    modify sret_state;; mret (Retire (sepc (csr m)) 0 false false)
  else if (word =? 0x10500073) && supervisor_allows m MSTATUS_TW then mret (Retire next 0 false false)
  else if (word .& 0xfe007fff =? 0x12000073) && supervisor_allows m MSTATUS_TVM then
    modify (upd_resv (fun r => {| r with reserved := false |}));; mret (Retire next 0 false false)
  else mret Illegal.

(** The CSR instructions. *)
Definition exec_csr (word pc0 : Z) : M flow :=
  m ← gets id;
  a ← xreg (rs1_of word);
  let f3 := funct3_of word in
  let rs1 := rs1_of word in
  let number := word .>> 20 in
  let operand := if tst (f3 .& 4) then rs1 else a in
  let writes := (f3 .& 3 =? 1) || negb (rs1 =? 0) in
  if f3 =? 4 then mret Illegal
  else
    o ← lift (csr_read m number);
    match o with
    | None => mret Illegal
    | Some old =>
        if (writes && csr_read_only number) || negb (csr_allowed m number) then mret Illegal
        else
          (if f3 .& 3 =? 1 then update (fun m => csr_write m number operand)
           else if f3 .& 3 =? 2 then when (tst rs1) (update (fun m => csr_write m number (old .| operand)))
           else when (tst rs1) (update (fun m => csr_write m number (old .& not32 operand))));;
          mret (Retire (u32 (pc0 + 4)) old true false)
    end.

Definition exec_system (word pc0 : Z) : M flow :=
  if funct3_of word =? 0 then exec_priv word pc0 else exec_csr word pc0.

(** ** One step *)

Section WithAll.
Context `{SVF : ServeFuel} `{SF : SoftFloat}.

(** The switch on the opcode. *)
Definition execute (word pc0 : Z) : M flow :=
  m ← gets id;
  let opcode := op_of word in
  if fs_off (csr m) && floating_instruction word then mret Illegal
  else if (opcode =? 0x37) || (opcode =? 0x17) || (opcode =? 0x6f) || (opcode =? 0x67)
          || (opcode =? 0x63) || (opcode =? 0x0f) then exec_control word pc0
  else if (opcode =? 0x07) || (opcode =? 0x03) then exec_load word pc0
  else if (opcode =? 0x27) || (opcode =? 0x23) then exec_store word pc0
  else if opcode =? 0x2f then exec_amo word pc0
  else if opcode =? 0x13 then
    a ← xreg (rs1_of word);
    mret (match op_imm word a with Some v => Retire (u32 (pc0 + 4)) v true false | None => Illegal end)
  else if opcode =? 0x33 then
    a ← xreg (rs1_of word); b ← xreg (rs2_of word);
    mret (match op_reg word a b with Some v => Retire (u32 (pc0 + 4)) v true false | None => Illegal end)
  else if (opcode =? 0x43) || (opcode =? 0x47) || (opcode =? 0x4b) || (opcode =? 0x4f) || (opcode =? 0x53) then
    exec_float word pc0
  else if opcode =? 0x73 then exec_system word pc0
  else mret Illegal.

(** The register writes of a retiring instruction. *)
Definition write_back (rd result : Z) (writes_rd writes_fd : bool) (m : machine) : res machine :=
  m ← (if writes_fd then
         f ← aset (f_ (hart m)) rd result;
         mret (upd_effects (fun e => {| e with wr_freg := rd |}) (upd_hart (fun h => {| h with f_ := f |}) m))
       else mret m);
  let m :=
    if writes_fd || wr_fcsr (effects m)
    then upd_csr (fun c => {| c with mstatus := mstatus c .| MSTATUS_FS |}) m else m in
  if writes_rd && negb (rd =? 0) then
    x ← aset (x_ (hart m)) rd result;
    mret (upd_effects (fun e => {| e with wr_reg := rd; wr_value := result |}) (upd_hart (fun h => {| h with x_ := x |}) m))
  else mret m.

(** The end of a retiring instruction; [Stuck] is its [assert]. *)
Definition retire (word pc0 next result : Z) (writes_rd writes_fd : bool) : M () :=
  update (write_back (rd_of word) result writes_rd writes_fd);;
  e ← gets effects;
  (if mem_read e && mem_write e && negb (op_of word =? 0x2f) then stuck else mret ());;
  tick_accelerators;;
  modify (upd_counters (fun c => {| c with retired := u64 (retired c + 1); in_trap := false |}));;
  count_step (fun m => TraceRetire (steps (counters m)) pc0 word (trace_effects m));;
  modify (upd_hart (fun h => {| h with pc := next |})).

(** The enabled, pending interrupts, of the mode that comes first. *)
Definition enabled_interrupts (m : machine) : Z :=
  let h := hart m in
  let c := csr m in
  let pending := if in_trap (counters m) then 0 else mip_now m .& mie c in
  let m_enabled := (priv h <? PRIV_M) || tst (mstatus c .& MSTATUS_MIE) in
  let s_enabled := (priv h =? PRIV_U) || ((priv h =? PRIV_S) && tst (mstatus c .& MSTATUS_SIE)) in
  let machine_level := if m_enabled then pending .& not32 (mideleg c) else 0 in
  let supervisor_level := if s_enabled then pending .& mideleg c else 0 in
  if tst machine_level then machine_level else supervisor_level.

Definition irq_order : list Z := [IRQ_MEI; IRQ_MSI; IRQ_MTI; IRQ_SEI; IRQ_SSI; IRQ_STI].

(** The first of [irq_order] that is enabled. *)
Definition first_interrupt (enabled : Z) : option Z :=
  List.find (fun code => tst ((enabled .>> code) .& 1)) irq_order.

(** Fetch: the word, or the trap's cause. *)
Definition fetch (m : machine) (pc0 : Z) : res (Z + Z) :=
  if tst (pc0 .& 3) then mret (inr CAUSE_FETCH_MISALIGNED)
  else
    fetched ← translate m pc0 WALK_FETCH (priv (hart m));
    match fetched with
    | ACC_PAGE_FAULT => mret (inr CAUSE_FETCH_PAGE_FAULT)
    | ACC_OK at0 =>
        if negb (in_ram at0 4) || negb (pmp_allows (priv (hart m)) (csr m) at0 PMP_X)
        then mret (inr CAUSE_FETCH_FAULT)
        else word ← ram_read m at0 4; mret (inl word)
    | _ => mret (inr CAUSE_FETCH_FAULT)
    end.

Definition clear_effects (e : effects_state) : effects_state :=
  {| e with wr_reg := -1; wr_freg := -1; wr_fcsr := false; mem_read := false; mem_write := false |}.

(** What follows the fetch. *)
Definition execute_and_retire (word pc0 : Z) : M () :=
  f ← execute word pc0;
  match f with
  | Retire next result writes_rd writes_fd => retire word pc0 next result writes_rd writes_fd
  | Illegal => trap word CAUSE_ILLEGAL word
  | Left_ => mret ()
  end.

Definition step : M () :=
  modify (upd_effects clear_effects);;
  Plic.plic_sample;;
  m ← gets id;
  let pc0 := pc (hart m) in
  let enabled := enabled_interrupts m in
  if tst enabled then
    match first_interrupt enabled with
    | Some code => take_interrupt code
    | None => stuck
    end
  else
    fetched ← lift (fetch m pc0);
    match fetched with
    | inr cause => trap 0 cause pc0
    | inl word => execute_and_retire word pc0
    end.

End WithAll.
End Cpu.
