(* ===== verification/Run.v ===== *)
(** * A run: setting the machine up, the run loop, reporting, debugger access

    The rest of tools/rv32emu_core.c, and the composition in rv32emu.c's
    [main].  Files are given as their bytes (a script as its lines); where the
    C prints a message and exits, or returns false, the model answers [None]. *)

From Stdlib Require Import String Ascii.
From S2P Require Import Prelude Effects Buffer Simd4 Gpu G3d Dtb Machine Devices Virtio Bus Mmu Csr Fp Cpu.

Module Run.
Import Cpu.

Definition EXIT_EMULATOR_ERROR : Z := 2.
Definition UINT64_MAX : Z := 0xffffffffffffffff.

(** ** Set-up *)

Definition emu_init_csr : csr_state := {|
  mtvec := 0; mepc := 0; mcause := 0; mtval := 0; mstatus := Mmu.MSTATUS_FS; mie := 0; mscratch := 0; mpp := PRIV_M;
  medeleg := 0; mideleg := 0; mip_soft := 0;
  stvec := 0; sscratch := 0; sepc := 0; scause := 0; stval := 0; satp := 0; scounteren := 0;
  mcounteren := 0; pmpcfg := replicate 8 0; pmpaddr := replicate 8 0 |}.

Definition emu_init_hart : hart_state := {|
  x_ := <[11%nat := RV32_DTB_ROM_BASE]> (<[10%nat := BOOT_HART]> (replicate 32 0));
  f_ := replicate 32 0; fcsr := 0; pc := 0; priv := PRIV_M |}.

Definition emu_init_console : console_state := {|
  console_in := []; console_in_next := 0; console_stdin := false; host_stdin := [];
  console_ier := 0; console_lcr := 0; console_mcr := 0; console_scr := 0; console_dll := 0; console_dlm := 0;
  console_latched := 0; console_prompt := replicate 64 0; console_prompt_len := 0;
  console_tail := replicate 64 0; console_tail_len := 0;
  console_prompts_seen := 0; console_lines_taken := 0; console_out := [] |}.

Definition emu_init_counters : counters_state := {|
  steps := 0; retired := 0; traps := 0; interrupts := 0; limit := 100000000; in_trap := false;
  second_cause := 0; second_tval := 0; trace := None |}.

(** [emu_alloc]'s part: the disk device. *)
Definition emu_alloc_virtio : virtio_blk := {|
  v_status := 0; features_sel := false; queue_sel_zero := true; queue_ready := false; v_interrupt := false;
  queue_num := 0; desc_lo := 0; desc_hi := 0; driver_lo := 0; driver_hi := 0; device_lo := 0; device_hi := 0;
  last_avail := 0; used_idx := 0; disk := buf_zero VIRTIO_DISK_MAX; disk_size := VIRTIO_DISK_SIZE;
  file := None; write_error := false |}.

(** [emu_init] followed by a successful [emu_alloc]. *)
Definition emu_init : machine := {|
  simd := Simd.simd_initial; gpu := Gpu.gpu_device_reset; g3d := G3d.g3d_initial;
  dma_start := RAM_BASE; dma_end := RAM_BASE + RAM_SIZE;
  hart := emu_init_hart; csr := emu_init_csr;
  plic := {| plic_priority := replicate 32 0; plic_enable := 0; plic_claimed := 0; plic_latched := 0;
             plic_threshold := 0 |};
  clint := {| mtime_offset := 0; mtimecmp := UINT64_MAX; msip := 0 |};
  virtio := emu_alloc_virtio; console := emu_init_console;
  input := {| queue := replicate 16 0; head := 0; count := 0; keys := 0; script := []; next_scripted := 0;
              dropped := 0; record := None |};
  display := {| fb := buf_zero FB_SIZE; palette := map (fun i => Display.rgb332_word (Z.of_nat i)) (seq 0 256);
                frames := 0; checkpoints := None; frames_dir := None; output_error := false |};
  ram := buf_zero RAM_SIZE;
  counters := emu_init_counters;
  resv := {| reserved := false; reservation := 0; reservation_pa := 0 |};
  effects := {| wr_reg := 0; wr_freg := 0; wr_fcsr := false; wr_value := 0; mem_read := false; mem_write := false;
                mem_addr := 0; mem_read_value := 0; mem_write_value := 0; mem_width := 0 |};
  halt := RUNNING; done_word := 0 |}.

(** [emu_load_image]: the machine and the bytes loaded. *)
Definition emu_load_image (m : machine) (image : list Z) (base : Z) : res (option (machine * Z)) :=
  let n := Z.of_nat (List.length image) in
  if (base <? RAM_BASE) || (RAM_SIZE <=? base - RAM_BASE) then mret None
  else if n =? 0 then mret None
  else if RAM_SIZE - (base - RAM_BASE) <? n then mret None
  else b ← buf_load (ram m) (base - RAM_BASE) image; mret (Some (set_ram b m, n)).

Definition emu_open_disk (m : machine) (bytes : list Z) (outcomes : list bool) : res (option machine) :=
  let got := Z.of_nat (List.length bytes) in
  if (VIRTIO_DISK_MAX <? got) || (got =? 0) || negb (got mod 512 =? 0) then mret None
  else
    b ← buf_load (disk (virtio m)) 0 bytes;
    f ← buf_load (buf_zero got) 0 bytes;
    mret (Some (upd_virtio (fun v =>
      {| v with disk := b; disk_size := got; file := Some {| file_bytes := f; file_outcomes := outcomes |} |}) m)).

(** The console's input: a file's bytes, or stdin ([None]). *)
Definition emu_read_console_input (c : console_state) (path : option (list Z)) : option console_state :=
  match path with
  | None => if tst (console_prompt_len c) then None else Some {| c with console_stdin := true |}
  | Some bytes => Some {| c with console_in := console_in c ++ bytes |}
  end.

(** ** The input script *)

Definition text : Type := list Z.
Definition text_of (s : string) : text := map (fun c => Z.of_N (N_of_ascii c)) (list_ascii_of_string s).

Definition isdigit (c : Z) : bool := (48 <=? c) && (c <=? 57).
Definition isspace (c : Z) : bool := (c =? 32) || ((9 <=? c) && (c <=? 13)).
Definition toupper (c : Z) : Z := if (97 <=? c) && (c <=? 122) then c - 32 else c.

Definition decimal_ok (t : text) : bool :=
  let len := Z.of_nat (List.length t) in
  if (len =? 0) || (9 <? len) then false else forallb isdigit t.

(** [strtoul] on a field [decimal_ok] accepted. *)
Definition decimal (t : text) : Z := fold_left (fun v c => 10 * v + (c - 48)) t 0.

Definition KEY_NAMES : list (string * Z) := [
  ("LEFT"%string, 1); ("RIGHT"%string, 2); ("UP"%string, 3); ("DOWN"%string, 4); ("SPACE"%string, 5);
  ("ENTER"%string, 6); ("ESCAPE"%string, 7);
  ("A"%string, 8); ("D"%string, 9); ("W"%string, 10); ("S"%string, 11); ("P"%string, 12); ("Q"%string, 13);
  ("R"%string, 14);
  ("CTRL"%string, 15); ("SHIFT"%string, 16); ("TAB"%string, 17); ("Y"%string, 18); ("N"%string, 19);
  ("DIGIT1"%string, 20); ("DIGIT2"%string, 21); ("DIGIT3"%string, 22); ("DIGIT4"%string, 23);
  ("DIGIT5"%string, 24); ("DIGIT6"%string, 25); ("DIGIT7"%string, 26)].

Definition emu_key_name (code : Z) : option string :=
  option_map fst (List.find (fun k => snd k =? code) KEY_NAMES).

Definition emu_key_code (t : text) : Z :=
  let len := Z.of_nat (List.length t) in
  if (len =? 0) || (16 <=? len) then -1
  else
    match List.find (fun k => bool_decide (map toupper t = text_of (fst k))) KEY_NAMES with
    | Some (_, code) => code
    | None =>
        if negb (decimal_ok t) then -1
        else if decimal t <? 32 then decimal t else -1
    end.

(** [%15s]: skip blanks, take at most fifteen others. *)
Fixpoint skip_space (t : text) : text :=
  match t with c :: t' => if isspace c then skip_space t' else t | [] => [] end.
Fixpoint take_word (n : nat) (t : text) : text * text :=
  match n, t with
  | S n', c :: t' => if isspace c then ([], t) else let '(w, r) := take_word n' t' in (c :: w, r)
  | _, _ => ([], t)
  end.
(** The fields a [sscanf] of [n] words converts. *)
Fixpoint scan_words (n : nat) (t : text) : list text :=
  match n with
  | O => []
  | S n' =>
      let '(w, r) := take_word 15 (skip_space t) in
      match w with [] => [] | _ => w :: scan_words n' r end
  end.

(** One line of the script, without its newline; [None] ends the program. *)
Definition script_line (last_frame : Z) (line : text) : option (option scripted_event) :=
  if 255 <=? Z.of_nat (List.length line) then None
  else
    match scan_words 5 line with
    | [] => Some None
    | keyword :: rest =>
        if bool_decide (keyword !! 0%nat = Some 35) then Some None
        else
          match rest with
          | [frame_text; direction; key] =>
              let code := emu_key_code key in
              let down := bool_decide (direction = text_of "down"%string) in
              if decimal_ok frame_text && bool_decide (keyword = text_of "frame"%string)
                 && (down || bool_decide (direction = text_of "up"%string))
                 && (0 <=? code) && (last_frame <=? decimal frame_text) then
                Some (Some {| se_frame := decimal frame_text;
                              se_event := EVENT_VALID .| (if down then EVENT_PRESS else 0) .| code |})
              else None
          | _ => None
          end
    end.

Fixpoint read_script (lines : list text) (last_frame : Z) : option (list scripted_event) :=
  match lines with
  | [] => Some []
  | line :: rest =>
      match script_line last_frame line with
      | None => None
      | Some None => read_script rest last_frame
      | Some (Some e) => cons e <$> read_script rest (se_frame e)
      end
  end.

Definition emu_read_input_script (i : input_state) (lines : list text) : option input_state :=
  (fun events => {| i with script := script i ++ events |}) <$> read_script lines 0.

(** ** The run loop *)

Inductive emu_stop : Type := EMU_STOP_HALTED | EMU_STOP_PRESENTED | EMU_STOP_BUDGET.

Section WithAll.
Context `{SVF : ServeFuel} `{SF : SoftFloat}.

Fixpoint run_loop (fuel : nat) (frames0 end0 : Z) : M emu_stop :=
  match fuel with
  | O => no_fuel
  | S fuel' =>
      m ← gets id;
      match halt m with
      | RUNNING =>
          if limit (counters m) <=? steps (counters m) then
            modify (fun m => {| m with halt := HALT_LIMIT |});; mret EMU_STOP_HALTED
          else if end0 <=? steps (counters m) then mret EMU_STOP_BUDGET
          else
            step;;
            f ← gets (fun m => frames (display m));
            if negb (f =? frames0) then mret EMU_STOP_PRESENTED else run_loop fuel' frames0 end0
      | _ => mret EMU_STOP_HALTED
      end
  end.

Definition budget_end (now budget : Z) : Z :=
  if UINT64_MAX - now <? budget then UINT64_MAX else u64 (now + budget).

Definition emu_run_until (fuel : nat) (budget : Z) : M emu_stop :=
  m ← gets id;
  run_loop fuel (frames (display m)) (budget_end (steps (counters m)) budget).

End WithAll.

(** ** Reporting *)

Definition emu_halt_name (h : halt_reason) : string :=
  match h with
  | HALT_DONE => "done" | HALT_DOUBLE_FAULT => "double-fault" | HALT_LIMIT => "limit"
  | HALT_STOPPED => "stopped" | RUNNING => "running"
  end%string.

(** The status [emu_report_halt] returns. *)
Definition emu_report_halt (m : machine) : Z :=
  match halt m with
  | HALT_DONE =>
      let w := done_word m in
      if w =? DONE_PASS then 0
      else if (w .& 0xffff =? DONE_FAIL) && (1 <=? w .>> 16) && (w .>> 16 <=? 255) then w .>> 16
      else EXIT_EMULATOR_ERROR
  | _ => EXIT_EMULATOR_ERROR
  end.

(** Whether every output is complete; the flags are the host's answers on
    flushing stdout and closing the streams. *)
Definition emu_finish_outputs (m : machine) (stdout_ok trace_ok checkpoints_ok record_ok : bool) : bool * machine :=
  let opened {A} (o : option A) (ok : bool) := match o with Some _ => ok | None => true end in
  (stdout_ok && opened (trace (counters m)) trace_ok && opened (checkpoints (display m)) checkpoints_ok
   && opened (record (input m)) record_ok && negb (output_error (display m)) && negb (write_error (virtio m)),
   upd_counters (fun c => {| c with trace := None |})
     (upd_display (fun d => {| d with checkpoints := None |})
        (upd_input (fun i => {| i with record := None |}) m))).

Definition emu_exit_status (m : machine) (status : Z) (outputs_ok allow_lost_events : bool) : Z :=
  let i := input m in
  let lost := dropped i + (Input.scripted i - next_scripted i) in
  if negb outputs_ok then EXIT_EMULATOR_ERROR
  else if (0 <? lost) && negb allow_lost_events && (status =? 0) then EXIT_EMULATOR_ERROR
  else status.

(** ** Debugger access *)

Inductive debug_array : Type := DebugRam | DebugFb.

Definition debug_bytes (addr n : Z) : option (debug_array * Z) :=
  let end0 := addr + n in
  if (RAM_BASE <=? addr) && (end0 <=? RAM_BASE + RAM_SIZE) then Some (DebugRam, addr - RAM_BASE)
  else if (FB_BASE <=? addr) && (end0 <=? FB_BASE + FB_SIZE) then Some (DebugFb, addr - FB_BASE)
  else None.

Definition emu_debug_read (m : machine) (addr : Z) (n : nat) : res (option (list Z)) :=
  match debug_bytes addr (Z.of_nat n) with
  | None => mret None
  | Some (DebugRam, p) => l ← buf_bytes (ram m) p n; mret (Some l)
  | Some (DebugFb, p) => l ← buf_bytes (fb (display m)) p n; mret (Some l)
  end.

Definition emu_debug_write (m : machine) (addr : Z) (bytes : list Z) : res (option machine) :=
  match debug_bytes addr (Z.of_nat (List.length bytes)) with
  | None => mret None
  | Some (DebugRam, p) => b ← buf_load (ram m) p bytes; mret (Some (set_ram b m))
  | Some (DebugFb, p) => b ← buf_load (fb (display m)) p bytes; mret (Some (set_fb b m))
  end.

End Run.
