(* ===== verification/MachineOk.v ===== *)
(** * The machine's invariant

    What holds of every component's state between steps: array lengths, the
    ranges of the C types, and the restrictions the code's masks maintain (the
    WARL fields of the CSRs, the wired sources of the PLIC, the bounds of the
    queues).  A bus access also leaves the hart and its counters alone, which
    [untouched] states. *)

From S2P Require Import Prelude Effects Buffer Simd4 SimdProofs Gpu GpuProofs G3d G3dProofs Dtb Machine Devices.
From S2P Require Import Virtio Bus Mmu Csr.
Import Bus.

(** ** Masked values *)

(** Every bit of [x] is a bit of [mask]. *)
Definition within (x mask : Z) : Prop := x .& mask = x.

Lemma within_land y mask : within (y .& mask) mask.
Proof. unfold within. by rewrite <- Z.land_assoc, Z.land_diag. Qed.

Lemma within_land_l x y mask : within x mask -> within (x .& y) mask.
Proof. unfold within. intros <-. rewrite <- !Z.land_assoc. f_equal. rewrite (Z.land_comm y).
  by rewrite Z.land_assoc, Z.land_diag. Qed.

Lemma within_land_r x y mask : within y mask -> within (x .& y) mask.
Proof. rewrite Z.land_comm. apply within_land_l. Qed.

Lemma within_lor x y mask : within x mask -> within y mask -> within (x .| y) mask.
Proof. unfold within. intros Hx Hy. by rewrite Z.land_lor_distr_l, Hx, Hy. Qed.

Lemma within_0 mask : within 0 mask.
Proof. done. Qed.

Lemma within_if (b : bool) x y mask : within x mask -> within y mask -> within (if b then x else y) mask.
Proof. by destruct b. Qed.

Lemma within_trans x a b : within x a -> within a b -> within x b.
Proof. unfold within. intros <- Hab. by rewrite <- Z.land_assoc, Hab. Qed.

Lemma within_u32 x mask : is_u32 mask -> within x mask -> is_u32 x.
Proof. intros Hm <-. by apply land_u32_r. Qed.

Lemma within_bit x mask n : within x mask -> Z.testbit x n = true -> Z.testbit mask n = true.
Proof. unfold within. intros <-. rewrite Z.land_spec. intros. by bools. Qed.
Lemma within_pow2 mask n : 0 <= n -> Z.testbit mask n = true -> within (1 .<< n) mask.
Proof. intros Hn Hb. unfold within. by rewrite Z.shiftl_1_l, Z.land_comm, land_pow2, Hb. Qed.

#[export] Hint Resolve within_land within_0 : rv32.
#[export] Hint Resolve within_land_l within_land_r within_lor within_if | 5 : rv32.

(** ** The components *)

Definition is_priv (p : Z) : Prop := p = PRIV_U \/ p = PRIV_S \/ p = PRIV_M.

(** A PMP entry that is locked: its index, its configuration, its address and,
    for a TOR entry, the address it starts at. *)
Record pmp_lock : Type := { lk_index : Z; lk_cfg : Z; lk_addr : Z; lk_from : Z }.

(** What a run is assumed to start from and keeps: whether it starts at an
    aligned address (a front end takes any start address, and the alignment of
    the program counter and of the exception program counters is kept only from
    an aligned one), and the PMP entries that are locked. *)
Class Assumed : Type := { starts_aligned : Prop; locks : list pmp_lock }.
Definition aligned_start : Assumed := {| starts_aligned := True; locks := [] |}.
Definition any_start : Assumed := {| starts_aligned := False; locks := [] |}.

(** At reset nothing is locked. *)
Class Unlocked (AL : Assumed) : Prop := no_locks : locks = [].
#[export] Instance aligned_start_unlocked : Unlocked aligned_start.
Proof. done. Qed.
#[export] Instance any_start_unlocked : Unlocked any_start.
Proof. done. Qed.

Definition aligned4 `{AL : Assumed} (a : Z) : Prop := is_u32 a /\ (starts_aligned -> a mod 4 = 0).

Definition regs_ok (l : list Z) : Prop := length l = 32%nat /\ Forall is_u32 l.

Definition hart_ok `{AL : Assumed} (h : hart_state) : Prop :=
  regs_ok (x_ h) /\ at_ (x_ h) 0 = 0 /\ regs_ok (f_ h) /\ is_u8 (fcsr h) /\ aligned4 (pc h) /\ is_priv (priv h).

(** The registers a trap, a return or a CSR instruction writes. *)
Definition trap_csrs_ok `{AL : Assumed} (c : csr_state) : Prop :=
  aligned4 (mtvec c) /\ aligned4 (mepc c) /\ is_u32 (mcause c) /\ is_u32 (mtval c) /\ is_u32 (mscratch c)
  /\ aligned4 (stvec c) /\ aligned4 (sepc c) /\ is_u32 (scause c) /\ is_u32 (stval c) /\ is_u32 (sscratch c).

Definition control_csrs_ok (c : csr_state) : Prop :=
  within (mstatus c) Csr.MSTATUS_WRITABLE /\ is_priv (mpp c) /\ within (mie c) Csr.MIE_MASK
  /\ within (medeleg c) Csr.MEDELEG_MASK /\ within (mideleg c) Csr.S_INTERRUPTS
  /\ within (mip_soft c) Csr.S_INTERRUPTS /\ within (satp c) (Mmu.SATP_MODE .| Mmu.SATP_PPN)
  /\ within (mcounteren c) 7 /\ within (scounteren c) 7.

(** A PMP byte has no reserved bit, and no write permission without read. *)
Definition pmpcfg_ok (cfg : Z) : Prop :=
  within cfg 0x9f /\ (Z.testbit cfg 1 = true -> Z.testbit cfg 0 = true).

Definition pmp_ok (c : csr_state) : Prop :=
  (length (pmpcfg c) = 8%nat /\ Forall pmpcfg_ok (pmpcfg c))
  /\ (length (pmpaddr c) = 8%nat /\ Forall is_u32 (pmpaddr c)).

(** The entry is still what it was when it was locked. *)
Definition lock_kept (c : csr_state) (k : pmp_lock) : Prop :=
  0 <= lk_index k < 8 /\ tst (lk_cfg k .& Mmu.PMP_L) = true
  /\ at_ (pmpcfg c) (lk_index k) = lk_cfg k /\ at_ (pmpaddr c) (lk_index k) = lk_addr k
  /\ (0 < lk_index k -> lk_cfg k .& Mmu.PMP_A = Mmu.PMP_TOR -> at_ (pmpaddr c) (lk_index k - 1) = lk_from k).

Definition csr_ok `{AL : Assumed} (c : csr_state) : Prop :=
  trap_csrs_ok c /\ control_csrs_ok c /\ pmp_ok c /\ Forall (lock_kept c) locks.

Definition plic_ok (p : plic_state) : Prop :=
  (length (plic_priority p) = 32%nat /\ Forall (fun v => 0 <= v <= 7) (plic_priority p))
  /\ within (plic_enable p) Plic.PLIC_WIRED /\ within (plic_claimed p) Plic.PLIC_WIRED
  /\ within (plic_latched p) Plic.PLIC_WIRED /\ 0 <= plic_threshold p <= 7.

Definition clint_ok (c : clint_state) : Prop :=
  is_u64 (mtime_offset c) /\ is_u64 (mtimecmp c) /\ 0 <= msip c <= 1.

Definition file_ok (size : Z) (f : disk_file) : Prop :=
  buf_ok (file_bytes f) /\ buf_len (file_bytes f) = size.

Definition disk_ok (v : virtio_blk) : Prop :=
  (buf_ok (disk v) /\ buf_len (disk v) = VIRTIO_DISK_MAX)
  /\ (0 < disk_size v <= VIRTIO_DISK_MAX /\ disk_size v mod 512 = 0)
  /\ match file v with None => True | Some f => file_ok (disk_size v) f end.

Definition virtio_ok (v : virtio_blk) : Prop :=
  disk_ok v /\ In (queue_num v) [0; 1; 2; 4; 8] /\ is_u8 (v_status v)
  /\ Forall is_u32 [desc_lo v; desc_hi v; driver_lo v; driver_hi v; device_lo v; device_hi v]
  /\ is_u16 (last_avail v) /\ is_u16 (used_idx v).

Definition console_ok (c : console_state) : Prop :=
  (Forall is_u8 (console_in c) /\ 0 <= console_in_next c <= Z.of_nat (length (console_in c)))
  /\ Forall (from_option (Forall is_u8) True) (host_stdin c)
  /\ Forall is_u8 [console_ier c; console_lcr c; console_mcr c; console_scr c; console_dll c; console_dlm c]
  /\ length (console_prompt c) = 64%nat /\ length (console_tail c) = 64%nat
  /\ 0 <= console_prompt_len c <= 64 /\ 0 <= console_tail_len c
  /\ is_u64 (console_prompts_seen c) /\ is_u64 (console_lines_taken c).

Definition input_ok (i : input_state) : Prop :=
  (length (queue i) = 16%nat /\ Forall is_u32 (queue i)) /\ 0 <= head i < 16 /\ 0 <= count i <= 16 /\ is_u32 (keys i)
  /\ Forall (fun e => is_u32 (se_event e)) (script i) /\ 0 <= next_scripted i <= Input.scripted i.

Definition display_ok (d : display_state) : Prop :=
  (buf_ok (fb d) /\ buf_len (fb d) = FB_SIZE)
  /\ (length (palette d) = 256%nat /\ Forall is_u32 (palette d)) /\ is_u32 (frames d).

Definition counters_ok (c : counters_state) : Prop :=
  is_u64 (steps c) /\ is_u64 (retired c) /\ is_u64 (traps c) /\ is_u64 (interrupts c).

Definition engines_ok (m : machine) : Prop :=
  SimdProofs.simd_ok (simd m) /\ GpuProofs.gpu_ok RAM_SIZE 76800 (gpu m) /\ G3dProofs.g3d_ok RAM_SIZE (g3d m)
  /\ is_u32 (dma_start m) /\ is_u32 (dma_end m).

Definition devices_ok (m : machine) : Prop :=
  plic_ok (plic m) /\ clint_ok (clint m) /\ virtio_ok (virtio m) /\ console_ok (console m) /\ input_ok (input m)
  /\ display_ok (display m).

Definition ram_ok (b : buffer) : Prop := buf_ok b /\ buf_len b = RAM_SIZE.

(** What every bus access keeps. *)
Definition bus_ok (m : machine) : Prop :=
  engines_ok m /\ devices_ok m /\ ram_ok (ram m) /\ is_u32 (done_word m).

Definition machine_ok `{AL : Assumed} (m : machine) : Prop :=
  bus_ok m /\ hart_ok (hart m) /\ csr_ok (csr m) /\ counters_ok (counters m).

(** A bus access leaves the hart, its counters and the step's record alone. *)
Definition untouched (m m' : machine) : Prop :=
  hart m' = hart m /\ csr m' = csr m /\ counters m' = counters m /\ effects m' = effects m.

Lemma untouched_refl m : untouched m m.
Proof. done. Qed.
Lemma untouched_trans m1 m2 m3 : untouched m1 m2 -> untouched m2 m3 -> untouched m1 m3.
Proof. intros (?&?&?&?) (?&?&?&?). repeat split; congruence. Qed.
#[export] Hint Resolve untouched_refl : rv32.

Lemma machine_ok_untouched `{AL : Assumed} m m' : machine_ok m -> bus_ok m' -> untouched m m' -> machine_ok m'.
Proof. intros (_&Hh&Hc&Hn) Hb (Eh&Ec&En&_). unfold machine_ok. by rewrite Eh, Ec, En. Qed.

(** ** Replacing one part *)

(** Close an invariant's conjuncts with what the context has of each. *)
Ltac part Hm :=
  destruct Hm as ((?&?&?&?&?)&(?&?&?&?&?&?)&?&?); intros; unfold bus_ok, engines_ok, devices_ok; splits;
  match goal with H : ?P ?a |- ?P ?b => exact H end.

Section Replace.
Context (m : machine) (Hm : bus_ok m).

Lemma bus_plic p : plic_ok p -> bus_ok (upd_plic (fun _ => p) m).
Proof. part Hm. Qed.
Lemma bus_clint c : clint_ok c -> bus_ok (upd_clint (fun _ => c) m).
Proof. part Hm. Qed.
Lemma bus_virtio v : virtio_ok v -> bus_ok (upd_virtio (fun _ => v) m).
Proof. part Hm. Qed.
Lemma bus_console c : console_ok c -> bus_ok (upd_console (fun _ => c) m).
Proof. part Hm. Qed.
Lemma bus_input i : input_ok i -> bus_ok (upd_input (fun _ => i) m).
Proof. part Hm. Qed.
Lemma bus_display d : display_ok d -> bus_ok (upd_display (fun _ => d) m).
Proof. part Hm. Qed.
Lemma bus_ram b : ram_ok b -> bus_ok (set_ram b m).
Proof. part Hm. Qed.
Lemma bus_simd d : SimdProofs.simd_ok d -> bus_ok (put_simd d m).
Proof. part Hm. Qed.
Lemma bus_gpu d : GpuProofs.gpu_ok RAM_SIZE 76800 d -> bus_ok (put_gpu d m).
Proof. part Hm. Qed.
Lemma bus_g3d d : G3dProofs.g3d_ok RAM_SIZE d -> bus_ok (put_g3d d m).
Proof. part Hm. Qed.
Lemma bus_fb b : buf_ok b -> buf_len b = FB_SIZE -> bus_ok (set_fb b m).
Proof.
  intros. apply (bus_display {| (display m) with fb := b |}).
  destruct Hm as (_&(_&_&_&_&_&(_&?&?))&_). by split.
Qed.
End Replace.
#[export] Hint Resolve bus_plic bus_clint bus_virtio bus_console bus_input bus_display bus_ram bus_simd bus_gpu
  bus_g3d : rv32.

(** ** What a device promises to the bus

    An access of one, two or four bytes inside its window does nothing
    undefined, keeps the invariant and leaves the hart alone.  Only a store to
    virtio-blk can run out of fuel, when a driver has the queue ready. *)

Definition access_in (size off width : Z) : Prop :=
  In width [1; 2; 4] /\ 0 <= off /\ off + width <= size /\ size <= 0x1000000.

Definition serving (v : virtio_blk) : bool :=
  queue_ready v && tst (v_status v .& 4) && negb (tst (v_status v .& Virtio.VIRTIO_NEEDS_RESET)).

Definition load_post (m : machine) (a : mem_access Z) (m' : machine) : Prop :=
  bus_ok m' /\ untouched m m' /\ virtio m' = virtio m /\ match a with ACC_OK v => is_u32 v | _ => True end.
Definition store_post (m : machine) (a : mem_access ()) (m' : machine) : Prop := bus_ok m' /\ untouched m m'.

(** Fuel may run out, or no store serves the queue. *)
Definition serves `{F : Fuelled} (m : machine) : Prop := may_run_out \/ serving (virtio m) = false.

Class LoadDevice `{F : Fuelled} (size : Z) (h : load_handler) : Prop :=
  load_device off width m : access_in size off width -> bus_ok m -> wp (h off width) (load_post m) m.
Class StoreDevice `{F : Fuelled} (size : Z) (h : store_handler) : Prop :=
  store_device off width value m :
    access_in size off width -> bus_ok m -> serves m -> is_u32 value -> wp (h off width value) (store_post m) m.
