(* ===== verification/DevicesProofs.v ===== *)
(** * The machine's own devices: what their registers promise

    Every register access keeps the machine's invariant (the [LoadDevice] and
    [StoreDevice] instances the bus relies on), and what the devices compute:
    the PLIC's claim, the input queue, the console's prompt gate and the
    CLINT's counters. *)

From S2P Require Import Prelude Effects Buffer Simd4 SimdProofs Gpu GpuProofs G3d G3dProofs Dtb Machine Devices.
From S2P Require Import Virtio Bus Mmu Csr MachineOk.

Module DevicesProofs.

Section Rules.
Context `{F : Fuelled}.

(** A handler of one device's own registers. *)
Section OfDevice.
Context {S : Type} (get : machine -> S) (put : S -> machine -> machine) (ok : S -> Prop) (m : machine).
Context (Hput : forall s, ok s -> bus_ok (put s m)) (Hkeep : forall s, untouched m (put s m))
  (Hvirtio : forall s, virtio (put s m) = virtio m).

Definition reg_post {A} (P : A -> Prop) (a : mem_access A) (s : S) : Prop :=
  ok s /\ match a with ACC_OK v => P v | _ => True end.

Lemma load_zoom (f : ST S (mem_access Z)) :
  wp f (reg_post is_u32) (get m) -> wp (zoom get put f) (load_post m) m.
Proof.
  intros Hf. apply wp_zoom. eapply wp_mono; [exact Hf|]. intros a s [Hs Ha]. unfold load_post. auto.
Qed.

Lemma store_zoom (f : ST S (mem_access ())) :
  wp f (reg_post (fun _ => True)) (get m) -> wp (zoom get put f) (store_post m) m.
Proof.
  intros Hf. apply wp_zoom. eapply wp_mono; [exact Hf|]. intros a s [Hs _]. unfold store_post. auto.
Qed.
End OfDevice.

(** A handler's answer that leaves the machine as it was. *)
Lemma load_same m a : bus_ok m -> match a with ACC_OK v => is_u32 v | _ => True end -> load_post m a m.
Proof. unfold load_post. auto with rv32. Qed.
Lemma store_same m a : bus_ok m -> store_post m a m.
Proof. unfold store_post. auto with rv32. Qed.

(** ** The done register, the DMA window and the boot ROM *)

#[global] Instance done_load_ok size : LoadDevice size Done.done_load.
Proof. intros off width m Hin Hm. unfold Done.done_load. wps. apply load_same; [done|]. by destruct (_ && _). Qed.

Lemma bus_done m v h : bus_ok m -> is_u32 v -> bus_ok {| m with halt := h; done_word := v |}.
Proof. intros (E&D&R&_) Hv. exact (conj E (conj D (conj R Hv))). Qed.

#[global] Instance done_store_ok size : StoreDevice size Done.done_store.
Proof.
  intros off width value m Hin Hm _ Hv. unfold Done.done_store. wps; [|by apply store_same].
  split; [|done]. by apply bus_done.
Qed.

#[global] Instance dma_window_load_ok size : LoadDevice size DmaWindow.dma_window_load.
Proof.
  intros off width m Hin Hm. unfold DmaWindow.dma_window_load. wps; apply load_same; try done.
  destruct Hm as ((_&_&_&W1&W2)&_). casif; [exact W1|exact W2].
Qed.

#[global] Instance dma_window_store_ok size : StoreDevice size DmaWindow.dma_window_store.
Proof.
  intros off width value m Hin Hm _ Hv. unfold DmaWindow.dma_window_store. wps; [by apply store_same|].
  casif; (split; [|done]); destruct Hm as ((S&G&D&W1&W2)&HD);
    [exact (conj (conj S (conj G (conj D (conj Hv W2)))) HD)|exact (conj (conj S (conj G (conj D (conj W1 Hv)))) HD)].
Qed.

Lemma rv32_dtb_ok : Z.of_nat (length rv32_dtb) = RV32_DTB_SIZE /\ Forall is_u8 rv32_dtb.
Proof.
  split; [by vm_compute|]. apply List.Forall_forall. intros x Hx.
  assert (H : forallb (fun x => (0 <=? x) && (x <? 256)) rv32_dtb = true) by (by vm_compute).
  apply (proj1 (forallb_forall _ _) H) in Hx. bools. by split.
Qed.

Lemma rom_byte_wp at0 (Q : Z -> Prop) : 0 <= at0 -> (forall b, is_u8 b -> Q b) -> wpr (Rom.rom_byte at0) Q.
Proof.
  intros H0 HQ. unfold Rom.rom_byte. wps; bools.
  - apply wpr_aget; [destruct rv32_dtb_ok; lia|]. apply HQ.
    apply (at_Forall is_u8); [apply rv32_dtb_ok|destruct rv32_dtb_ok; lia].
  - by apply HQ.
Qed.

Lemma rom_bytes_wp n i offset v :
  0 <= i -> i + Z.of_nat n <= 4 -> 0 <= v < 2 ^ (8 * i) ->
  wpr (Rom.rom_bytes n i offset v) (fun r => 0 <= r < 2 ^ (8 * (i + Z.of_nat n))).
Proof.
  revert i v. induction n as [|n IH]; intros i v Hi Hn Hv; cbn [Rom.rom_bytes]; wps; [by rewrite Z.add_0_r|].
  apply rom_byte_wp; [apply u32_range|]. intros b Hb. wps.
  replace (i + Z.of_nat (S n)) with (i + 1 + Z.of_nat n) by lia. apply IH; [lia|lia|].
  rewrite Z.lor_comm, lor_add by lia. unfold is_u8 in Hb.
  replace (8 * (i + 1)) with (8 + 8 * i) by lia. rewrite (Z.pow_add_r 2 8) by lia. nia.
Qed.

#[global] Instance rom_load_ok size : LoadDevice size Rom.rom_load.
Proof.
  intros off width m (Hw&_) Hm. unfold Rom.rom_load. wps.
  assert (0 <= width <= 4) by (cbn in Hw; lia).
  eapply wpr_mono; [apply (rom_bytes_wp _ 0); lia|]. intros v Hv. cbv beta in Hv. wps. apply load_same; [done|].
  assert (2 ^ (8 * (0 + Z.of_nat (Z.to_nat width))) <= 2 ^ 32) by (apply Z.pow_le_mono_r; lia).
  change (2 ^ 32) with 0x100000000 in *. unfold is_u32. lia.
Qed.

(** ** CLINT *)

Lemma low_half_u64 old v : is_u64 old -> is_u32 v -> is_u64 (Clint.low_half old v).
Proof.
  intros Ho Hv. apply (lor_range 64); [lia| |unfold is_u32 in Hv; lia].
  pose proof (land_nonneg_l old (not64 0xffffffff)). pose proof (land_le_l old (not64 0xffffffff)).
  unfold is_u64 in Ho. lia.
Qed.
Lemma high_half_u64 old v : is_u64 old -> is_u32 v -> is_u64 (Clint.high_half old v).
Proof.
  intros Ho Hv. apply (lor_range 64); [lia| |].
  - pose proof (land_range old 0xffffffff ltac:(lia)). lia.
  - rewrite Z.shiftl_mul_pow2 by lia. unfold is_u32 in Hv. lia.
Qed.

Lemma bit_u32 v : 0 <= v <= 1 -> is_u32 v.
Proof. unfold is_u32. lia. Qed.

#[global] Instance clint_load_ok size : LoadDevice size Clint.clint_load.
Proof.
  intros off width m Hin Hm. unfold Clint.clint_load. wps; apply load_same; try done.
  destruct Hm as (_&(_&(_&_&Hs)&_)&_). repeat casif; auto using bit_u32 with rv32.
Qed.

#[global] Instance clint_store_ok size : StoreDevice size Clint.clint_store.
Proof.
  intros off width value m Hin Hm _ Hv. pose proof Hm as (_&(_&(Ho&Hc&Hs)&_)&_).
  assert (Hset : forall c, clint_ok c -> store_post m (ACC_OK ()) (upd_clint (fun _ => c) m)).
  { intros c Hc'. split; [|done]. by apply bus_clint. }
  unfold Clint.clint_store. wps; try (by apply store_same); apply (Hset {| (clint m) with msip := _ |}) ||
    apply (Hset {| (clint m) with mtimecmp := _ |}) || apply (Hset {| (clint m) with mtime_offset := _ |});
    split; cbn; auto using low_half_u64, high_half_u64 with rv32.
  - split; [done|]. apply land_range. lia.
Qed.

(** ** PLIC *)

(** The source the scan has chosen among those below [id]. *)
Definition candidate (p : plic_state) (id : Z) : Prop :=
  Z.testbit (plic_latched p) id = true /\ Z.testbit (plic_enable p) id = true
  /\ plic_threshold p < at_ (plic_priority p) id.

(** [best] is the candidate of the highest priority, the lowest such source. *)
Definition best_of (p : plic_state) (upto best : Z) : Prop :=
  (best = 0 /\ forall id, 1 <= id < upto -> ~ candidate p id) \/
  (1 <= best < upto /\ candidate p best /\ forall id, 1 <= id < upto -> candidate p id ->
     at_ (plic_priority p) id <= at_ (plic_priority p) best /\
     (id < best -> at_ (plic_priority p) id < at_ (plic_priority p) best)).

Lemma plic_scan_spec p n id best :
  1 <= id -> best_of p id best ->
  best_of p (id + Z.of_nat n)
    (Plic.plic_scan n id p (plic_latched p .& plic_enable p) best
       (if best =? 0 then plic_threshold p else at_ (plic_priority p) best)).
Proof.
  revert id best. induction n as [|n IH]; intros id best Hid Hb; cbn [Plic.plic_scan].
  { by rewrite Z.add_0_r. }
  replace (id + Z.of_nat (S n)) with (id + 1 + Z.of_nat n) by lia.
  rewrite tst_shiftr_1, Z.land_spec by lia.
  destruct (Z.testbit (plic_latched p) id && Z.testbit (plic_enable p) id) eqn:E; cbn [andb]; [casif|]; bools.
  - replace (at_ (plic_priority p) id) with
      (if id =? 0 then plic_threshold p else at_ (plic_priority p) id) at 1 by (by rewrite (proj2 (Z.eqb_neq id 0)) by lia).
    apply IH; [lia|]. right. split; [lia|].
    destruct Hb as [[-> Hb]|(Hr & Hc & Hb)].
    + split; [by repeat split|]. intros i Hi Hci. destruct (Z.eq_dec i id) as [->|]; [lia|].
      destruct (Hb i); [lia|done].
    + rewrite (proj2 (Z.eqb_neq best 0)) in * by lia. destruct Hc as (Hc1 & Hc2 & Hc3).
      split; [repeat split; try done; lia|]. intros i Hi Hci.
      destruct (Z.eq_dec i id) as [->|]; [lia|]. destruct (Hb i); [lia|done|]. lia.
  - apply IH; [lia|]. destruct Hb as [[-> Hb]|(Hr & Hc & Hb)].
    + left. split; [done|]. intros i Hi. destruct (Z.eq_dec i id) as [->|]; [|apply Hb; lia].
      cbn in *. intros (_ & _ & ?). lia.
    + rewrite (proj2 (Z.eqb_neq best 0)) in * by lia. right. split; [lia|]. split; [done|]. intros i Hi Hci.
      destruct (Z.eq_dec i id) as [->|]; [lia|apply Hb; [lia|done]].
  - apply IH; [lia|].
    assert (Hno : ~ candidate p id) by (intros (E1 & E2 & _); by rewrite E1, E2 in E).
    destruct Hb as [[-> Hb]|(Hr & Hc & Hb)].
    + left. split; [done|]. intros i Hi. destruct (Z.eq_dec i id) as [->|]; [done|apply Hb; lia].
    + right. split; [lia|]. split; [done|]. intros i Hi Hci.
      destruct (Z.eq_dec i id) as [->|]; [done|apply Hb; [lia|done]].
Qed.

Lemma plic_best_of p : best_of p 32 (Plic.plic_best p).
Proof.
  unfold Plic.plic_best, Plic.plic_pending.
  replace (if tst (plic_enable p) then plic_latched p .& plic_enable p else 0) with (plic_latched p .& plic_enable p).
  - apply (plic_scan_spec p 31 1 0); [lia|]. left. split; [done|]. lia.
  - casif; [done|]. apply tst_false in Heqb as ->. by rewrite Z.land_0_r.
Qed.

Lemma plic_best_range p : 0 <= Plic.plic_best p < 32.
Proof. destruct (plic_best_of p) as [[-> _]|[? _]]; lia. Qed.

(** What a claim marks is the source it answers, which is a wired one. *)
Lemma claim_within p :
  plic_ok p -> within (u32 (1 .<< Plic.plic_best p) .& not32 1) Plic.PLIC_WIRED.
Proof.
  intros (_&He&_). destruct (plic_best_of p) as [[-> _]|(Hr & (_ & Hb & _) & _)]; [done|].
  apply within_land_l. rewrite u32_id; [apply within_pow2; [lia|]; by eapply within_bit|].
  rewrite Z.shiftl_1_l. unfold is_u32. change 0x100000000 with (2 ^ 32). split; [|apply Z.pow_lt_mono_r]; lia.
Qed.

Lemma wired_u32 x : within x Plic.PLIC_WIRED -> is_u32 x.
Proof. by apply within_u32. Qed.

Lemma land7 v : 0 <= u8 (v .& 7) <= 7.
Proof. pose proof (land_range v 7). rewrite u8_id; [lia|]. unfold is_u8. lia. Qed.

#[global] Instance plic_load_ok size : LoadDevice size Plic.plic_load.
Proof.
  intros off width m (_&Hoff&_) Hm. apply (load_zoom _ _ plic_ok); [by apply bus_plic|done|done|].
  pose proof Hm as (_&(Hp&_)&_). pose proof Hp as ((Hl&Hf)&He&Hc&Hpd&Ht).
  change (wpr (Plic.plic_load_reg (plic m) off width) (fun '(a, s) => reg_post plic_ok is_u32 a s)).
  assert (H7 : forall v, 0 <= v <= 7 -> is_u32 v) by (unfold is_u32; lia).
  unfold Plic.plic_load_reg. wps; try (by split); bools.
  - apply wpr_aget; [unfold Plic.PLIC_SOURCES in *; zlia|]. wps. split; [done|]. apply H7.
    apply (at_Forall (fun v => 0 <= v <= 7)); [done|]. unfold Plic.PLIC_SOURCES in *. zlia.
  - split; [done|]. by apply wired_u32.
  - split; [done|]. by apply wired_u32.
  - split; [done|]. by apply H7.
  - split; [|pose proof (plic_best_range (plic m)); unfold is_u32; lia].
    split; [exact (conj Hl Hf)|]. split; [exact He|].
    split; [exact (within_lor _ _ _ Hc (claim_within _ Hp))|].
    split; [exact (within_land_l _ _ _ Hpd)|exact Ht].
Qed.

#[global] Instance plic_store_ok size : StoreDevice size Plic.plic_store.
Proof.
  intros off width value m (_&Hoff&_) Hm _ Hv. apply (store_zoom _ _ plic_ok); [by apply bus_plic|done|].
  pose proof Hm as (_&(Hp&_)&_). pose proof Hp as ((Hl&Hf)&He&Hc&Hpd&Ht).
  change (wpr (Plic.plic_store_reg (plic m) off width value) (fun '(a, s) => reg_post plic_ok (fun _ => True) a s)).
  unfold Plic.plic_store_reg. wps; try (by split); bools.
  - apply wpr_aset; [unfold Plic.PLIC_SOURCES in *; zlia|]. wps. split; [|done]. split; [|done].
    cbn. rewrite length_insert. split; [done|]. apply Forall_insert; [done|apply land7].
  - split; [|done]. split; [done|]. split; [apply within_land|done].
  - split; [|done]. split; [done|]. split; [done|]. split; [done|]. split; [done|apply land7].
  - split; [|done]. split; [done|]. split; [done|]. split; [exact (within_land_l _ _ _ Hc)|done].
Qed.

Lemma plic_lines_within m : within (Plic.plic_lines m) Plic.PLIC_WIRED.
Proof. unfold Plic.plic_lines. by destruct (tst _), (v_interrupt _). Qed.

Lemma plic_sample_wp m (Q : () -> machine -> Prop) :
  bus_ok m -> (forall m', bus_ok m' -> untouched m m' -> virtio m' = virtio m -> Q () m') -> wp Plic.plic_sample Q m.
Proof.
  intros Hm HQ. unfold Plic.plic_sample. wps. apply HQ; [|done|done].
  pose proof Hm as (_&((Hl&He&Hc&Hpd&Ht)&_)&_).
  apply (bus_plic m Hm {| (plic m) with plic_latched := _ |}).
  split; [done|]. split; [done|]. split; [done|]. split; [|done].
  apply within_lor; [exact Hpd|]. apply within_land_l, within_land.
Qed.

(** ** Console *)

Lemma u8_u32 x : is_u8 x -> is_u32 x.
Proof. unfold is_u8, is_u32. lia. Qed.

Lemma poll_ok c : console_ok c -> console_ok (Console.console_poll_stdin c).
Proof.
  intros Hc. pose proof Hc as ((Hi&Hn)&Hh&Hrest). unfold Console.console_poll_stdin.
  casif; [done|]. destruct (host_stdin c) as [|[[|b bytes]|] rest] eqn:E; [done|..];
    apply Forall_cons_1 in Hh as [Hb Hh]; (split; [|split; [exact Hh|exact Hrest]]).
  - exact (conj Hi Hn).
  - split; [exact Hb|]. cbn [console_in_next console_in]. lia.
  - exact (conj Hi Hn).
Qed.

(** A byte counts as waiting only when there is one. *)
Lemma rx_waiting_ok c waiting c' :
  console_ok c -> Console.console_rx_waiting c = (waiting, c') ->
  console_ok c' /\ (waiting = true -> 0 <= console_in_next c' < Z.of_nat (length (console_in c'))).
Proof.
  intros Hc E. unfold Console.console_rx_waiting in E. pose proof (poll_ok c Hc) as Hp.
  set (d := Console.console_poll_stdin c) in *. clearbody d. injection E as <- <-.
  split; [done|]. intros. bools. destruct Hp as ((_&?)&_). unfold Console.console_in_len in *. lia.
Qed.

Lemma console_regs c x :
  console_ok c -> In x [console_ier c; console_lcr c; console_mcr c; console_scr c; console_dll c; console_dlm c] ->
  is_u32 x.
Proof. intros (_&_&Hr&_) Hx. apply u8_u32. rewrite List.Forall_forall in Hr. by apply Hr. Qed.

(** A byte of a waiting line, taken. *)
Lemma console_take_ok c n l :
  console_ok c -> 0 <= console_in_next c < Z.of_nat (length (console_in c)) -> is_u64 l ->
  n = console_in_next c + 1 -> console_ok {| c with console_in_next := n; console_lines_taken := l |}.
Proof.
  intros ((Hi&Hn)&Hh&Hr&Hp&Ht&Hpl&Htl&Hs&_) Hb Hl ->. split; [split; [exact Hi|cbn; lia]|].
  exact (conj Hh (conj Hr (conj Hp (conj Ht (conj Hpl (conj Htl (conj Hs Hl))))))).
Qed.

Lemma console_load_reg_wp c off width :
  console_ok c -> wpr (Console.console_load_reg c off width) (fun '(a, s) => reg_post console_ok is_u32 a s).
Proof.
  intros Hc. assert (Hreg := console_regs c). unfold Console.console_load_reg.
  wps; try (by split); try (split; [done|apply Hreg; [done|cbn; tauto]]).
  - destruct (Console.console_rx_waiting c) as [waiting c1] eqn:E.
    destruct (rx_waiting_ok c waiting c1 Hc E) as [Hc1 Hw]. wps; [|by split].
    specialize (Hw ltac:(done)). apply wpr_aget; [done|]. wps. split; [|].
    + apply console_take_ok; [done|done|apply u64_range|done].
    + apply u8_u32, (at_Forall is_u8); [apply Hc1|done].
  - split; [done|]. casif; apply Hreg; try done; cbn; tauto.
  - destruct (if tst _ then Console.console_rx_waiting c else (false, c)) as [rdi c1] eqn:E. wps.
    split; [|repeat casif; done]. destruct (tst _) in E; [by apply (rx_waiting_ok c rdi c1)|by injection E as _ <-].
  - destruct (Console.console_rx_waiting c) as [waiting c1] eqn:E. wps.
    split; [by apply (rx_waiting_ok c waiting c1)|by destruct waiting].
Qed.

#[global] Instance console_load_ok size : LoadDevice size Console.console_load.
Proof.
  intros off width m _ Hm. apply (load_zoom _ _ console_ok); [by apply bus_console|done|done|].
  apply (console_load_reg_wp (console m)). by destruct Hm as (_&(_&_&_&?&_)&_).
Qed.

Lemma watch_prompt_wp c byte :
  console_ok c -> tst (console_prompt_len c) = true -> wpr (Console.console_watch_prompt c byte) console_ok.
Proof.
  intros (Hi&Hh&Hr&Hp&Ht&Hpl&Htl&Hs&Hl) Hn. apply tst_true in Hn. unfold Console.console_watch_prompt.
  rewrite Hp, Ht, (proj2 (Z.leb_le 1 _)), (proj2 (Z.leb_le _ (Z.of_nat 64))) by lia. cbn [andb negb]. wps.
  split; [exact Hi|]. split; [exact Hh|]. split; [exact Hr|]. split; [exact Hp|].
  split; [cbn [console_tail]; rewrite !length_app, length_take, !length_drop, Ht; cbn [length]; lia|].
  split; [exact Hpl|]. split; [cbn [console_tail_len]; casif; lia|]. split; [|exact Hl].
  cbn [console_prompts_seen]. casif; [apply u64_range|exact Hs].
Qed.

Lemma console_store_reg_wp c off width value :
  console_ok c ->
  wpr (Console.console_store_reg c off width value) (fun '(a, s) => reg_post console_ok (fun _ => True) a s).
Proof.
  intros Hc. pose proof Hc as (Hi&Hh&Hr&Hrest). unfold Console.console_store_reg.
  assert (Hb : is_u8 (u8 value)) by apply u8_range. set (byte := u8 value) in *. clearbody byte.
  assert (Hmask : forall k, 0 <= k < 256 -> is_u8 (byte .& k)).
  { intros k Hk. pose proof (land_range byte k). unfold is_u8. lia. }
  rewrite !Forall_cons_iff in Hr. destruct Hr as (R1&R2&R3&R4&R5&R6&_).
  assert (Hset : forall a b d e f g,
    is_u8 a -> is_u8 b -> is_u8 d -> is_u8 e -> is_u8 f -> is_u8 g -> Forall is_u8 [a; b; d; e; f; g])
    by (intros; rewrite !Forall_cons_iff; auto 10).
  wps; try (by split); try (split; [|done]).
  - exact (conj Hi (conj Hh (conj (Hset _ _ _ _ _ _ R1 R2 R3 R4 Hb R6) Hrest))).
  - bools. set (c1 := {| c with console_out := _ |}) in *.
    eapply wpr_mono; [apply (watch_prompt_wp c1); [exact Hc|done]|]. intros c2 Hc2. wps. by split.
  - casif.
    + exact (conj Hi (conj Hh (conj (Hset _ _ _ _ _ _ R1 R2 R3 R4 R5 Hb) Hrest))).
    + exact (conj Hi (conj Hh (conj (Hset _ _ _ _ _ _ (Hmask 15 ltac:(lia)) R2 R3 R4 R5 R6) Hrest))).
  - casif; exact (conj Hi (conj Hh (conj (Hset _ _ _ _ _ _ R1 Hb R3 R4 R5 R6) Hrest))).
  - exact (conj Hi (conj Hh (conj (Hset _ _ _ _ _ _ R1 R2 (Hmask 31 ltac:(lia)) R4 R5 R6) Hrest))).
  - exact (conj Hi (conj Hh (conj (Hset _ _ _ _ _ _ R1 R2 R3 Hb R5 R6) Hrest))).
Qed.

#[global] Instance console_store_ok size : StoreDevice size Console.console_store.
Proof.
  intros off width value m _ Hm _ _. apply (store_zoom _ _ console_ok); [by apply bus_console|done|].
  apply (console_store_reg_wp (console m)). by destruct Hm as (_&(_&_&_&?&_)&_).
Qed.

(** ** Input *)

Lemma bit_mask_u32 e : is_u32 (1 .<< (e .& 31)).
Proof.
  pose proof (land_range e 31). rewrite Z.shiftl_1_l. unfold is_u32. change 0x100000000 with (2 ^ 32).
  split; [apply Z.pow_nonneg|apply Z.pow_lt_mono_r]; lia.
Qed.

Lemma queue_event_wp i frame event :
  input_ok i -> is_u32 event ->
  wpr (Input.emu_queue_event i frame event) (fun i' =>
    input_ok i' /\ next_scripted i' = next_scripted i /\ script i' = script i).
Proof.
  intros ((Hq&Hf)&Hh&Hc&Hk&Hs&Hn) He. unfold Input.emu_queue_event. cbv beta zeta. wps; bools.
  - split; [|done]. exact (conj (conj Hq Hf) (conj Hh (conj Hc (conj Hk (conj Hs Hn))))).
  - cbn [queue head count keys] in *. unfold INPUT_QUEUE in *.
    apply wpr_aset; [zlia|]. wps. split; [|done].
    split; [split; [cbn [queue]; by rewrite length_insert|by apply Forall_insert]|].
    split; [exact Hh|]. split; [cbn [count]; lia|]. split; [|exact (conj Hs Hn)].
    cbn [keys]. pose proof (bit_mask_u32 event). casif; auto with rv32.
Qed.

Lemma deliver_wp n now i :
  input_ok i -> wpr (Input.deliver n now i) (fun i' => input_ok i' /\ script i' = script i).
Proof.
  revert i. induction n as [|n IH]; intros i Hi; cbn [Input.deliver]; wps; [done| |done].
  bools. pose proof Hi as (_&_&_&_&Hs&Hn). unfold Input.scripted in *.
  apply wpr_aget; [lia|]. wps; [|done].
  eapply wpr_mono; [apply queue_event_wp; [done|]|].
  { apply (at_Forall (fun e => is_u32 (se_event e))); [done|lia]. }
  intros i' (Hi' & En & Es). eapply wpr_mono; [apply IH|].
  - destruct Hi' as (A&B&C&D&E&G). split; [exact A|]. split; [exact B|]. split; [exact C|]. split; [exact D|].
    split; [exact E|]. cbn [next_scripted]. unfold Input.scripted in *. cbn [script]. rewrite Es in *. lia.
  - intros j (Hj & Ej). split; [done|]. cbn [script] in Ej. congruence.
Qed.

#[global] Instance input_load_ok size : LoadDevice size Input.input_load.
Proof.
  intros off width m _ Hm. apply (load_zoom _ _ input_ok); [by apply bus_input|done|done|].
  pose proof Hm as (_&(_&_&_&_&Hi&_)&_). pose proof Hi as ((Hq&Hf)&Hh&Hc&Hk&Hs&Hn).
  change (wpr (Input.input_load_reg (input m) off width) (fun '(a, s) => reg_post input_ok is_u32 a s)).
  unfold Input.input_load_reg. wps; try (by split); bools.
  - apply wpr_aget; [rewrite Hq; lia|]. wps. split; [|apply (at_Forall is_u32); [done|rewrite Hq; lia]].
    split; [exact (conj Hq Hf)|]. split; [cbn [head]; unfold INPUT_QUEUE; zlia|].
    split; [cbn [count]; lia|]. exact (conj Hk (conj Hs Hn)).
  - split; [done|]. unfold is_u32. lia.
Qed.

(** ** Display *)

Lemma fb_in off width : access_in FB_SIZE off width -> 0 <= off /\ 0 <= width <= 4 /\ off + width <= FB_SIZE.
Proof. intros (Hw&H0&Hl&_). cbn in Hw. lia. Qed.

#[global] Instance fb_load_ok : LoadDevice FB_SIZE Display.fb_load.
Proof.
  intros off width m Hin Hm. apply fb_in in Hin as (H0 & Hw & Hl).
  pose proof Hm as (_&(_&_&_&_&_&((Hb&El)&_))&_). unfold Display.fb_load. wps; [by apply load_same|].
  apply wpr_bytes_read; [done|done|done|lia|]. wps. apply load_same; [done|]. apply le_bytes_u32; [done|lia].
Qed.

#[global] Instance fb_store_ok : StoreDevice FB_SIZE Display.fb_store.
Proof.
  intros off width value m Hin Hm _ _. apply fb_in in Hin as (H0 & Hw & Hl).
  pose proof Hm as (_&(_&_&_&_&_&((Hb&El)&_))&_). unfold Display.fb_store. wps; [by apply store_same|].
  apply wpr_bytes_write; [done|done|lia|lia|]. intros b' W. wps. split; [|done].
  apply bus_fb; [done|by eapply written_ok|]. destruct W. lia.
Qed.

#[global] Instance palette_load_ok : LoadDevice PALETTE_SIZE Display.palette_load.
Proof.
  intros off width m (_&H0&Hl&_) Hm. pose proof Hm as (_&(_&_&_&_&_&(_&(Hp&Hf)&_))&_).
  unfold Display.palette_load. wps; [by apply load_same|]. bools. unfold PALETTE_SIZE in *.
  apply wpr_aget; [rewrite Hp; zlia|]. wps. apply load_same; [done|].
  apply (at_Forall is_u32); [done|]. rewrite Hp. zlia.
Qed.

#[global] Instance palette_store_ok : StoreDevice PALETTE_SIZE Display.palette_store.
Proof.
  intros off width value m (_&H0&Hl&_) Hm _ Hv. pose proof Hm as (_&(_&_&_&_&_&(Hb&(Hp&Hf)&Hn))&_).
  unfold Display.palette_store. wps; [by apply store_same|]. bools. unfold PALETTE_SIZE in *.
  apply wpr_aset; [rewrite Hp; zlia|]. wps. split; [|done].
  apply (bus_display m Hm {| (display m) with palette := _ |}). split; [exact Hb|]. split; [|exact Hn].
  cbn [palette]. rewrite length_insert. split; [done|]. apply Forall_insert; auto with rv32.
Qed.

Lemma hash_words_wp n at0 h pixels :
  buf_ok pixels -> 0 <= at0 -> at0 + 4 * Z.of_nat n <= buf_len pixels -> is_u32 h ->
  wpr (Display.hash_words n at0 h pixels) is_u32.
Proof.
  intros Hb. revert at0 h. induction n as [|n IH]; intros at0 h H0 Hl Hh; cbn [Display.hash_words]; wps; [done|].
  apply wpr_bytes_read; [done|done|lia|lia|]. apply IH; [lia|lia|].
  apply lxor_u32; [apply u32_range|apply le_bytes_u32; [done|cbn; lia]].
Qed.

Lemma present_wp m :
  bus_ok m -> wp Display.present (fun _ m' => bus_ok m' /\ untouched m m' /\ virtio m' = virtio m) m.
Proof.
  intros Hm. unfold Display.present. wps.
  set (m1 := upd_display _ m).
  assert (Hm1 : bus_ok m1).
  { pose proof Hm as (_&(_&_&_&_&_&(Hb&Hp&Hn))&_).
    apply (bus_display m Hm {| (display m) with frames := _ |}).
    split; [exact Hb|]. split; [exact Hp|apply u32_range]. }
  assert (U1 : untouched m m1 /\ virtio m1 = virtio m) by done. clearbody m1.
  unfold Input.emu_deliver_events, wp at 1.
  pose proof Hm1 as (_&(_&_&_&_&Hi&_)&_).
  pose proof (deliver_wp (Z.to_nat (Input.scripted (input m1) - next_scripted (input m1))) (frames (display m1)) _ Hi) as Hd.
  destruct (Input.deliver _ _ _) as [i| |]; [|done|exact Hd]. destruct Hd as [Hi' _]. cbn [mbind res_bind mret res_ret].
  set (m2 := upd_input _ m1). assert (Hm2 : bus_ok m2) by (by apply bus_input).
  assert (U2 : untouched m m2 /\ virtio m2 = virtio m) by done. clearbody m2. clear Hm1 Hi m1 U1 Hi' i Hm.
  pose proof Hm2 as (_&(_&_&_&_&_&((Hb&El)&Hp&Hn))&_). unfold Display.emu_frame_hash. wps.
  assert (Hfin : forall cps, bus_ok (upd_display (fun d => {| d with checkpoints := cps;
    frames_dir := match frames_dir d with Some (_ :: rest) => Some rest | o => o end;
    output_error := output_error d || (match frames_dir d with Some (false :: _) => true | _ => false end) |}) m2)).
  { intros cps. exact (bus_display m2 Hm2 {| (display m2) with checkpoints := cps; frames_dir := _; output_error := _ |}
      (conj (conj Hb El) (conj Hp Hn))). }
  destruct (checkpoints (display m2)); wps; [|by split].
  eapply wpr_mono; [apply hash_words_wp; [done|done|rewrite El; by vm_compute|done]|].
  intros h Hh. wps. by split.
Qed.

#[global] Instance display_load_ok size : LoadDevice size Display.display_load.
Proof.
  intros off width m _ Hm. pose proof Hm as (_&(_&_&_&_&_&(_&_&Hn))&_).
  unfold Display.display_load. wps; apply load_same; try done. by repeat casif.
Qed.

#[global] Instance display_store_ok size : StoreDevice size Display.display_store.
Proof.
  intros off width value m _ Hm _ _. unfold Display.display_store. wps; try (by apply store_same).
  eapply wp_mono; [by apply present_wp|]. intros [] m' (Hm' & U & _). wps. by split.
Qed.

End Rules.
End DevicesProofs.
