(* ===== verification/VirtioProofs.v ===== *)
(** * virtio-blk: its DMA stays in RAM and its requests keep the invariant *)

From S2P Require Import Prelude Effects Buffer Simd4 SimdProofs Gpu GpuProofs G3d G3dProofs Dtb Machine Devices.
From S2P Require Import Virtio Bus Mmu Csr MachineOk DevicesProofs.

Module VirtioProofs.
Import Virtio.

(** What a device transaction keeps: the invariant, and everything of the
    machine but RAM, the disk, the device's registers and the reservation. *)
Definition dma_post (m m' : machine) : Prop := bus_ok m' /\ untouched m m'.

Lemma dma_post_refl m : bus_ok m -> dma_post m m.
Proof. split; [done|apply untouched_refl]. Qed.
Lemma dma_post_trans m1 m2 m3 : dma_post m1 m2 -> dma_post m2 m3 -> dma_post m1 m3.
Proof. intros [_ U1] [H2 U2]. split; [done|by eapply untouched_trans]. Qed.

(** The word that holds an address of RAM is in RAM. *)
Lemma word_offset_in addr :
  is_u32 addr -> dma_word addr = true -> 0 <= word_offset addr /\ word_offset addr + 4 <= RAM_SIZE.
Proof.
  unfold dma_word, word_offset, RAM_BASE, RAM_SIZE. intros Ha H. bools.
  rewrite land_not3 by done. unfold is_u32 in Ha. zlia.
Qed.

Section Rules.
Context `{F : Fuelled}.

Lemma dma_read_wp addr m (Q : option Z -> machine -> Prop) :
  bus_ok m -> is_u32 addr -> Q None m -> (forall v, is_u32 v -> Q (Some v) m) -> wp (dma_read addr) Q m.
Proof.
  intros Hm Ha HN HQ. unfold dma_read. wps; [done|]. bools. destruct (word_offset_in addr Ha) as [H0 Hl]; [done|].
  pose proof Hm as (_&_&(Hb&El)&_). apply wpr_bytes_read; [done|lia|lia|lia|]. wps.
  apply HQ, le_bytes_u32; [done|cbn; lia].
Qed.

Lemma dma_read16_wp addr m (Q : option Z -> machine -> Prop) :
  bus_ok m -> is_u32 addr -> Q None m -> (forall v, is_u16 v -> Q (Some v) m) -> wp (dma_read16 addr) Q m.
Proof.
  intros Hm Ha HN HQ. unfold dma_read16. wps. apply dma_read_wp; [done|done|by wps|]. intros v Hv. wps.
  apply HQ, u16_range.
Qed.

Lemma snoop_wp addr m (Q : () -> machine -> Prop) :
  bus_ok m -> (forall m', dma_post m m' -> virtio m' = virtio m -> ram m' = ram m -> Q () m') ->
  wp (snoop_device_write addr) Q m.
Proof. intros Hm HQ. unfold snoop_device_write. wps. apply HQ; casif; try done; by split. Qed.

Lemma write_strobed_wp n i p value strobe b :
  buf_ok b -> 0 <= p -> 0 <= i -> p + i + Z.of_nat n <= buf_len b ->
  wpr (write_strobed n i p value strobe b) (fun b' => buf_ok b' /\ buf_len b' = buf_len b).
Proof.
  revert i b. induction n as [|n IH]; intros i b Hb Hp Hi Hl; cbn [write_strobed]; wps; [done| |].
  - apply buf_set_keeps; [done|lia|]. intros b' Hb' El. wps.
    eapply wpr_mono; [apply IH; [done|done|lia|lia]|]. intros b2 [? ?]. split; [done|lia].
  - apply IH; [done|done|lia|lia].
Qed.

Lemma dma_write_wp addr value strobe m (Q : option () -> machine -> Prop) :
  bus_ok m -> is_u32 addr -> (forall o m', dma_post m m' -> virtio m' = virtio m -> Q o m') ->
  wp (dma_write addr value strobe) Q m.
Proof.
  intros Hm Ha HQ. unfold dma_write. wps; [apply HQ; [by apply dma_post_refl|done]|]. bools.
  destruct (word_offset_in addr Ha) as [H0 Hl]; [done|].
  apply snoop_wp; [done|]. intros m1 [Hm1 U1] Ev Er. wps. pose proof Hm1 as (_&_&(Hb&El)&_).
  eapply wpr_mono; [apply write_strobed_wp; [done|lia|lia|lia]|]. intros b' [Hb' El']. wps.
  apply HQ; [|done]. split; [apply bus_ram; [done|split; [done|lia]]|exact U1].
Qed.

(** ** The disk *)

Lemma copy_out_wp n at0 src dst :
  0 <= at0 -> at0 + Z.of_nat n <= buf_len src -> at0 + Z.of_nat n <= buf_len dst -> buf_ok dst ->
  wpr (copy_out n at0 src dst) (fun d => buf_ok d /\ buf_len d = buf_len dst).
Proof.
  revert at0 dst. induction n as [|n IH]; intros at0 dst H0 Hs Hd Hb; cbn [copy_out]; wps; [done|].
  apply wpr_buf_get; [lia|]. wps. apply buf_set_keeps; [done|lia|]. intros d' Hd' El.
  eapply wpr_mono; [apply IH; [lia|lia|lia|done]|]. intros d2 [? ?]. split; [done|lia].
Qed.

(** The geometry a request checks does not change while it runs. *)
Definition same_queue (v v' : virtio_blk) : Prop :=
  disk_size v' = disk_size v /\ queue_num v' = queue_num v /\ driver_lo v' = driver_lo v
  /\ device_lo v' = device_lo v /\ desc_lo v' = desc_lo v /\ last_avail v' = last_avail v /\ used_idx v' = used_idx v.

Lemma same_queue_trans v1 v2 v3 : same_queue v1 v2 -> same_queue v2 v3 -> same_queue v1 v3.
Proof. intros (?&?&?&?&?&?&?) (?&?&?&?&?&?&?). repeat split; congruence. Qed.

Lemma disk_written_wp offset bytes m (Q : () -> machine -> Prop) :
  bus_ok m -> 0 <= offset -> 0 <= bytes -> offset + bytes <= disk_size (virtio m) ->
  (forall m', dma_post m m' -> same_queue (virtio m) (virtio m') -> Q () m') ->
  wp (virtio_disk_written offset bytes) Q m.
Proof.
  intros Hm H0 Hb Hl HQ. unfold virtio_disk_written, wp.
  pose proof Hm as (_&(_&_&Hv&_)&_). destruct Hv as (((Hd&Ed)&(Hs&Hs2)&Hf)&Hrest).
  destruct (file (virtio m)) as [fl|] eqn:Ef; [|apply HQ; [by apply dma_post_refl|done]].
  assert (Hkeep : forall f' e, file_ok (disk_size (virtio m)) f' ->
    bus_ok (upd_virtio (fun v => {| v with file := Some f'; write_error := e |}) m)).
  { intros f' e Hf'. exact (bus_virtio m Hm {| (virtio m) with file := Some f'; write_error := e |}
      (conj (conj (conj Hd Ed) (conj (conj Hs Hs2) Hf')) Hrest)). }
  assert (Hgood : forall rest, wpr (b ← copy_out (Z.to_nat bytes) offset (disk (virtio m)) (file_bytes fl);
     mret ((), upd_virtio (fun v => {| v with file := Some {| file_bytes := b; file_outcomes := rest |} |}) m))
     (fun '(a, s') => Q a s')).
  { intros rest. destruct Hf as [Hf Ef']. wps.
    eapply wpr_mono; [apply copy_out_wp; [lia|lia|rewrite Ef'; lia|done]|]. intros b [Hb' Eb]. wps.
    apply HQ; [|done]. split; [|done].
    apply (Hkeep {| file_bytes := b; file_outcomes := rest |} (write_error (virtio m))). split; [done|cbn; lia]. }
  destruct (file_outcomes fl) as [|[|] outs]; [apply Hgood|apply Hgood|].
  apply HQ; [|done]. split; [|done]. by apply (Hkeep {| fl with file_outcomes := _ |} true).
Qed.

(** ** Requests *)

Lemma read_descriptor_wp which index m (Q : option descriptor -> machine -> Prop) :
  bus_ok m -> Q None m -> (forall d, is_u32 (d_address d) -> is_u32 (d_length d) -> is_u16 (d_next d) -> Q (Some d) m) ->
  wp (read_descriptor which index) Q m.
Proof.
  intros Hm HN HQ. unfold read_descriptor, require. wps.
  apply dma_read_wp; [done|apply u32_range|by wps|]. intros w0 H0. wps.
  apply dma_read_wp; [done|apply u32_range|by wps|]. intros w1 H1. wps. destruct (w1 =? 0); wps; [|done].
  apply dma_read_wp; [done|apply u32_range|by wps|]. intros w2 H2. wps.
  apply dma_read_wp; [done|apply u32_range|by wps|]. intros w3 H3. wps.
  destruct (negb _); wps; [|done]. apply HQ; [done|done|apply u16_range].
Qed.

(** What a transfer needs: its words lie on the disk. *)
Definition on_disk (v : virtio_blk) (sector i : Z) (n : nat) : Prop :=
  0 <= sector /\ 0 <= i /\ sector * 512 + 4 * (i + Z.of_nat n) <= disk_size v.

Lemma disk_size_small m : bus_ok m -> 0 < disk_size (virtio m) <= 0x800000.
Proof. intros (_&(_&_&((_&(?&_)&_)&_)&_)&_). done. Qed.

Lemma transfer_in_wp n i sector address m (Q : option () -> machine -> Prop) :
  bus_ok m -> on_disk (virtio m) sector i n ->
  (forall o m', dma_post m m' -> virtio m' = virtio m -> Q o m') ->
  wp (transfer_in n i sector address) Q m.
Proof.
  revert i m. induction n as [|n IH]; intros i m Hm Hd HQ; cbn [transfer_in]; wps.
  { apply HQ; [by apply dma_post_refl|done]. }
  pose proof (disk_size_small m Hm). destruct Hd as (Hs & Hi & Hl).
  pose proof Hm as (_&(_&_&(((Hb&El)&_)&_)&_)&_).
  rewrite (u32_id (sector * 512 + 4 * i)) by (unfold is_u32; lia). unfold VIRTIO_DISK_MAX in *.
  apply wpr_bytes_read; [done|lia|lia|lia|].
  apply wp_bind, dma_write_wp; [done|apply u32_range|]. intros [[]|] m1 P1 Ev; wps; [|by apply HQ].
  apply IH; [by destruct P1|rewrite Ev; repeat split; lia|].
  intros o m2 P2 Ev2. apply HQ; [by eapply dma_post_trans|congruence].
Qed.

Lemma transfer_out_wp n i sector address m (Q : option () -> machine -> Prop) :
  bus_ok m -> on_disk (virtio m) sector i n ->
  (forall o m', dma_post m m' -> same_queue (virtio m) (virtio m') -> Q o m') ->
  wp (transfer_out n i sector address) Q m.
Proof.
  revert i m. induction n as [|n IH]; intros i m Hm Hd HQ; cbn [transfer_out]; wps.
  { apply HQ; [by apply dma_post_refl|done]. }
  pose proof (disk_size_small m Hm). destruct Hd as (Hs & Hi & Hl).
  apply dma_read_wp; [done|apply u32_range| |].
  - wps. rewrite (u32_id (sector * 512)), (u32_id (4 * i)) by (unfold is_u32; lia).
    apply disk_written_wp; [done|lia|lia|lia|]. intros m' P S. wps. by apply HQ.
  - intros word Hw. wps. pose proof Hm as (_&(_&_&(((Hb&El)&Hsz&Hf)&Hrest)&_)&_).
    rewrite (u32_id (sector * 512 + 4 * i)) by (unfold is_u32; lia). unfold VIRTIO_DISK_MAX in *.
    apply wpr_bytes_write; [done|lia|lia|lia|]. intros d Wd. wps.
    assert (Hd : buf_ok d /\ buf_len d = 0x800000) by (split; [by eapply written_ok|destruct Wd; lia]).
    set (m1 := upd_virtio _ m).
    assert (Hm1 : bus_ok m1).
    { exact (bus_virtio m Hm {| (virtio m) with disk := d |} (conj (conj Hd (conj Hsz Hf)) Hrest)). }
    assert (U1 : untouched m m1 /\ same_queue (virtio m) (virtio m1)) by done. clearbody m1. destruct U1 as [U1 S1].
    apply IH; [done|unfold on_disk; destruct S1 as [-> _]; lia|].
    intros o m2 P2 S2. apply HQ; [eapply dma_post_trans; [by split|done]|].
    by eapply same_queue_trans.
Qed.

Lemma request_data_wp type sector sector_hi data m (Q : option Z -> machine -> Prop) :
  bus_ok m -> is_u32 sector -> is_u32 (d_length data) ->
  (forall m', dma_post m m' -> same_queue (virtio m) (virtio m') -> Q None m') ->
  (forall m' r, dma_post m m' -> same_queue (virtio m) (virtio m') -> 0 <= r <= 2 -> Q (Some r) m') ->
  wp (request_data type sector sector_hi data) Q m.
Proof.
  intros Hm Hs Hlen HN HQ. unfold request_data. cbv zeta. wp1. wp1.
  wp1; [wps; apply HQ; [by apply dma_post_refl|done|lia]|].
  wp1; [wps; apply HQ; [by apply dma_post_refl|done|lia]|].
  bools. assert (Hmul : d_length data mod 4 = 0).
  { rewrite <- (Z.land_ones _ 2) by lia. change (Z.ones 2) with 3. by apply tst_false. }
  assert (Hd : on_disk (virtio m) sector 0 (Z.to_nat (d_length data / 4))
               /\ sector * 512 + d_length data <= disk_size (virtio m)).
  { unfold is_u32 in *. rewrite Z.shiftr_div_pow2 in * by lia. change (2 ^ 2) with 4 in *. unfold on_disk. zlia. }
  destruct Hd as [Hd Hd2]. pose proof (disk_size_small m Hm).
  assert (Hrest : forall m', dma_post m m' -> same_queue (virtio m) (virtio m') ->
    wp (when (type =? 1) (virtio_disk_written (u32 (sector * 512)) (d_length data));;
        v ← gets virtio; mret (Some (if write_error v then 1 else 0))) Q m').
  { intros m' P S. unfold is_u32 in *. rewrite u32_id by (unfold is_u32; lia). wps.
    - apply disk_written_wp; [by destruct P|lia|lia|destruct S as [-> _]; lia|].
      intros m2 P2 S2. wps. apply HQ; [by eapply dma_post_trans| |casif; lia].
      by eapply same_queue_trans.
    - apply HQ; [done|done|casif; lia]. }
  wps.
  - apply transfer_in_wp; [done|done|]. intros [[]|] m1 P1 Ev; [|wps; apply HN; [done|by rewrite Ev]].
    apply Hrest; [done|by rewrite Ev].
  - apply transfer_out_wp; [done|done|]. intros [[]|] m1 P1 S1; [by apply Hrest|wps; by apply HN].
Qed.

Lemma virtio_request_wp m (Q : option () -> machine -> Prop) :
  bus_ok m -> (forall o m', dma_post m m' -> Q o m') -> wp virtio_request Q m.
Proof.
  intros Hm HQ. assert (HN : Q None m) by (by apply HQ, dma_post_refl).
  pose proof Hm as (_&(_&_&(_&_&_&Hregs&_)&_)&_). rewrite !Forall_cons_iff in Hregs. destruct Hregs as (_&_&_&_&Hdev&_).
  unfold virtio_request, require. wp1. wp1. cbv zeta. wp1.
  apply dma_read16_wp; [done|apply u32_range|by wps|]. intros head Hhead. wp1. wp1.
  destruct (head <? queue_num (virtio m)); cbv iota; [|by wps]. wp1.
  apply read_descriptor_wp; [done|by wps|]. intros header Hh1 Hh2 _. wp1.
  apply read_descriptor_wp; [done|by wps|]. intros data Hd1 Hd2 _. wp1.
  apply read_descriptor_wp; [done|by wps|]. intros status Hs1 Hs2 _. wp1.
  apply dma_read_wp; [done|done|by wps|]. intros type Htype. wp1.
  apply dma_read_wp; [done|apply u32_range|by wps|]. intros sector Hsector. wp1.
  apply dma_read_wp; [done|apply u32_range|by wps|]. intros sector_hi _. wp1.
  apply request_data_wp; [done|done|done|intros; wps; by apply HQ|]. intros m1 result P1 S1 _. wp1.
  apply dma_write_wp; [by destruct P1|done|]. intros o m2 P2 E2.
  assert (P12 : dma_post m m2) by (by eapply dma_post_trans). destruct o as [[]|]; [|wps; by apply HQ]. wp1.
  apply dma_write_wp; [by destruct P2|apply u32_range|]. intros o m3 P3 E3.
  assert (P13 : dma_post m m3) by (by eapply dma_post_trans). destruct o as [[]|]; [|wps; by apply HQ]. wp1.
  apply dma_write_wp; [by destruct P3|apply u32_range|]. intros o m4 P4 E4.
  assert (P14 : dma_post m m4) by (by eapply dma_post_trans). destruct o as [[]|]; [|wps; by apply HQ]. wp1.
  apply dma_write_wp; [by destruct P4|apply u32_range|]. intros o m5 P5 E5.
  assert (P15 : dma_post m m5) by (by eapply dma_post_trans). destruct o as [[]|]; [|wps; by apply HQ]. wps.
  apply HQ. eapply dma_post_trans; [exact P15|]. destruct P15 as [H5 _].
  pose proof H5 as (_&(_&_&(Vd&Vq&Vs&Vr&_)&_)&_). split; [|done].
  apply (bus_virtio m5 H5 {| (virtio m5) with used_idx := _; last_avail := _; v_interrupt := true |}).
  exact (conj Vd (conj Vq (conj Vs (conj Vr (conj (u16_range _) (u16_range _)))))).
Qed.

Lemma needs_reset_wp m (Q : () -> machine -> Prop) :
  bus_ok m -> (forall m', dma_post m m' -> Q () m') -> wp needs_reset Q m.
Proof.
  intros Hm HQ. unfold needs_reset. wps. apply HQ. split; [|done].
  pose proof Hm as (_&(_&_&(Vd&Vq&Vs&Vr)&_)&_).
  apply (bus_virtio m Hm {| (virtio m) with v_status := _ |}).
  split; [exact Vd|]. split; [exact Vq|]. split; [|exact Vr].
  apply (lor_range 8); [lia|exact Vs|done].
Qed.

Lemma serve_loop_wp fuel m (Q : () -> machine -> Prop) :
  may_run_out -> bus_ok m -> (forall m', dma_post m m' -> Q () m') -> wp (serve_loop fuel) Q m.
Proof.
  intros Hrun. revert m Q. induction fuel as [|fuel IH]; intros m Q Hm HQ; [done|]. cbn [serve_loop]. wps.
  apply dma_read16_wp; [done|apply u32_range|by apply needs_reset_wp|]. intros a _. wps.
  - by apply HQ, dma_post_refl.
  - apply virtio_request_wp; [done|]. intros [[]|] m1 P1.
    + apply IH; [by destruct P1|]. intros m2 P2. apply HQ. by eapply dma_post_trans.
    + apply needs_reset_wp; [by destruct P1|]. intros m2 P2. apply HQ. by eapply dma_post_trans.
Qed.

(** ** Registers *)

#[global] Instance virtio_load_ok size : LoadDevice size virtio_load.
Proof.
  intros off width m _ Hm. pose proof Hm as (_&(_&_&((_&(Hs&_)&_)&Hq&Hst&Hr&_)&_)&_).
  rewrite !Forall_cons_iff in Hr. destruct Hr as (R1&R2&R3&R4&R5&R6&_).
  unfold virtio_load. wps; apply DevicesProofs.load_same; try done.
  unfold VIRTIO_DISK_MAX in Hs. assert (is_u32 (disk_size (virtio m) / 512)) by (unfold is_u32; zlia).
  repeat (casif; [first [done | by apply DevicesProofs.u8_u32 | by repeat casif | by destruct (queue_ready _) | by destruct (v_interrupt _)]|]).
  done.
Qed.

Lemma virtio_set_ok v off value v' :
  virtio_ok v -> is_u32 value -> virtio_set v off value = Some v' -> virtio_ok v'.
Proof.
  intros Hv Hval E. pose proof Hv as (Vd&Vq&Vs&Vr&Vl&Vu).
  pose proof Vr as Vr'. rewrite !Forall_cons_iff in Vr'. destruct Vr' as (R1&R2&R3&R4&R5&R6&_).
  assert (Hset : forall a b c d e f, is_u32 a -> is_u32 b -> is_u32 c -> is_u32 d -> is_u32 e -> is_u32 f ->
    Forall is_u32 [a; b; c; d; e; f]) by (intros; rewrite !Forall_cons_iff; auto 10).
  assert (Hq : In (if (value =? 1) || (value =? 2) || (value =? 4) || (value =? 8) then value else 0) [0; 1; 2; 4; 8]).
  { casif; [|by left]. bools. cbn. right.
    destruct (Z.eqb_spec value 1), (Z.eqb_spec value 2), (Z.eqb_spec value 4), (Z.eqb_spec value 8); subst; auto; done. }
  unfold virtio_set in E. cbv zeta in E.
  repeat match type of E with (if ?b then _ else _) = _ => destruct b eqn:? end; try discriminate;
    injection E as <-; try casif; try exact Hv;
    (split; [exact Vd|]); (split; [first [exact Vq | exact Hq | by left]|]);
    (split; [first [exact Vs | apply u8_range]|]); (split; [first [exact Vr | by apply Hset]|]);
    (split; [first [exact Vl | done]|first [exact Vu | done]]).
Qed.

#[global] Instance virtio_store_ok size fuel : StoreDevice size (virtio_store fuel).
Proof.
  intros off width value m _ Hm Hrun Hv. unfold virtio_store. wp1. wp1. wp1; [wps; by apply DevicesProofs.store_same|].
  wp1.
  - wps; [|by apply DevicesProofs.store_same]. destruct Hrun as [Hrun|Hno].
    + unfold virtio_serve. wps.
      * apply needs_reset_wp; [done|]. intros m' P. wps. exact P.
      * apply serve_loop_wp; [done|done|]. intros m' P. wps. exact P.
    + exfalso. unfold serving in Hno. bools. destruct (queue_ready _), (tst (_ .& 4)), (tst (_ .& VIRTIO_NEEDS_RESET)); done.
  - destruct (virtio_set (virtio m) off value) as [v'|] eqn:E; wps; [|by apply DevicesProofs.store_same].
    split; [|done]. apply bus_virtio; [done|]. eapply virtio_set_ok; [|done|exact E].
    by destruct Hm as (_&(_&_&?&_)&_).
Qed.

End Rules.
End VirtioProofs.
