(* ===== verification/BusProofs.v ===== *)
(** * The bus: windows, dispatch and data accesses

    The windows of the memory map are disjoint and inside the 32-bit address
    space, so an access reaches at most one device and lies in its window; the
    accesses of the hart then keep the machine's invariant through the
    devices' promises alone. *)

From S2P Require Import Prelude Effects Buffer Simd4 SimdProofs Gpu GpuProofs G3d G3dProofs Dtb Machine Devices.
From S2P Require Import Virtio Bus Mmu Csr MachineOk DevicesProofs VirtioProofs.

Module BusProofs.
Import Bus Mmu.

(** ** The memory map *)

Definition window_ok (r : region) : bool := (4 <=? r_base r) && (0 <? r_size r) && (r_base r + r_size r <=? 0x100000000)
  && (r_size r <=? 0x1000000).
Definition apart (r r' : region) : bool :=
  (r_base r + r_size r <=? r_base r') || (r_base r' + r_size r' <=? r_base r).

Lemma regions_ok : forallb window_ok REGIONS = true.
Proof. by vm_compute. Qed.

Lemma find_region_some addr width r :
  is_u32 addr -> In width [1; 2; 4] -> find_region addr width = Some r ->
  In r REGIONS /\ r_base r <= addr /\ access_in (r_size r) (addr - r_base r) width.
Proof.
  intros Ha Hw Hf. apply find_some in Hf as [Hin Hr]. unfold in_region in Hr. bools.
  pose proof (proj1 (forallb_forall _ _) regions_ok r Hin) as Hok. unfold window_ok in Hok. bools.
  assert (0 < width <= 4) by (cbn in Hw; lia). unfold is_u32 in Ha.
  assert (E : u32 (addr - r_base r + width) = addr - r_base r + width) by (apply u32_id; unfold is_u32; lia).
  rewrite E in *. unfold access_in. splits; try done; lia.
Qed.

Section Devices.
Context `{F : Fuelled}.

(** ** RAM *)

Lemma ram_in off width : access_in RAM_SIZE off width -> 0 <= off /\ 0 <= width <= 4 /\ off + width <= RAM_SIZE.
Proof. intros (Hw&H0&Hl&_). cbn in Hw. lia. Qed.

#[global] Instance ram_load_ok : LoadDevice RAM_SIZE ram_load.
Proof.
  intros off width m Hin Hm. apply ram_in in Hin as (H0 & Hw & Hl). pose proof Hm as (_&_&(Hb&El)&_).
  unfold ram_load. wps. apply wpr_bytes_read; [done|done|done|lia|]. wps. apply DevicesProofs.load_same; [done|].
  apply le_bytes_u32; [done|lia].
Qed.

#[global] Instance ram_store_ok : StoreDevice RAM_SIZE ram_store.
Proof.
  intros off width value m Hin Hm _ _. apply ram_in in Hin as (H0 & Hw & Hl). pose proof Hm as (_&_&(Hb&El)&_).
  unfold ram_store. wps; try (by apply DevicesProofs.store_same). unfold id in *.
  apply wpr_bytes_write; [done|done|lia|lia|]. intros b' W. wps. split; [|done].
  apply bus_ram; [done|]. split; [by eapply written_ok|destruct W; lia].
Qed.

(** ** The engines' windows *)

Section Engine.
Context {D : Type} (get : machine -> D) (put : D -> machine -> machine) (ok : D -> Prop).
Context (Hput : forall m d, bus_ok m -> ok d -> bus_ok (put d m)) (Hkeep : forall m d, untouched m (put d m))
  (Hvirtio : forall m d, virtio (put d m) = virtio m).

Definition access_post (o : option (Z * D)) : Prop :=
  match o with Some (v, d) => ok d /\ is_u32 v | None => True end.

Lemma engine_load_wp access m :
  bus_ok m -> wpr (access (get m)) access_post -> wp (engine_load get put access) (load_post m) m.
Proof.
  intros Hm Ha. unfold engine_load, wp. destruct (access (get m)) as [[[v d]|]| |]; [|by apply DevicesProofs.load_same|done|done].
  destruct Ha as [Hd Hv]. unfold load_post. cbn. auto.
Qed.

Lemma engine_store_wp access m :
  bus_ok m -> wpr (access (get m)) access_post -> wp (engine_store get put access) (store_post m) m.
Proof.
  intros Hm Ha. unfold engine_store, wp.
  destruct (access (get m)) as [[[v d]|]| |]; [|by apply DevicesProofs.store_same|done|done].
  destruct Ha as [Hd Hv]. unfold store_post. cbn. auto.
Qed.
End Engine.

Lemma simd_load_wp off width m : bus_ok m -> wp (simd_load off width) (load_post m) m.
Proof.
  intros Hm. pose proof Hm as ((Hs&_)&_).
  eapply engine_load_wp with (ok := SimdProofs.simd_ok); [intros; by apply bus_simd|done|done|done|].
  apply SimdProofs.simd_access_wp; [done|apply u32_range|done].
Qed.
Lemma simd_store_wp off width value m :
  bus_ok m -> is_u32 value -> wp (simd_store off width value) (store_post m) m.
Proof.
  intros Hm Hv. pose proof Hm as ((Hs&_)&_).
  eapply engine_store_wp with (ok := SimdProofs.simd_ok); [intros; by apply bus_simd|done|done|].
  apply SimdProofs.simd_access_wp; [done|apply u32_range|done].
Qed.
#[global] Instance simd_load_ok size : LoadDevice size simd_load.
Proof. intros off width m _ Hm. by apply simd_load_wp. Qed.
#[global] Instance simd_program_load_ok size : LoadDevice size simd_program_load.
Proof. intros off width m _ Hm. by apply simd_load_wp. Qed.
#[global] Instance simd_data_load_ok size : LoadDevice size simd_data_load.
Proof. intros off width m _ Hm. by apply simd_load_wp. Qed.
#[global] Instance simd_store_ok size : StoreDevice size simd_store.
Proof. intros off width value m _ Hm _ Hv. by apply simd_store_wp. Qed.
#[global] Instance simd_program_store_ok size : StoreDevice size simd_program_store.
Proof. intros off width value m _ Hm _ Hv. by apply simd_store_wp. Qed.
#[global] Instance simd_data_store_ok size : StoreDevice size simd_data_store.
Proof. intros off width value m _ Hm _ Hv. by apply simd_store_wp. Qed.

Lemma access_u32 size off width : access_in size off width -> is_u32 off.
Proof. intros (Hw&H0&Hl&Hs). cbn in Hw. unfold is_u32. lia. Qed.

#[global] Instance gpu_load_ok size : LoadDevice size gpu_load.
Proof.
  intros off width m Hin Hm. pose proof Hm as ((_&Hg&_)&_).
  eapply engine_load_wp with (ok := GpuProofs.gpu_ok RAM_SIZE 76800); [intros; by apply bus_gpu|done|done|done|].
  apply GpuProofs.gpu_access_wp; [done|by eapply access_u32|done].
Qed.
#[global] Instance gpu_store_ok size : StoreDevice size gpu_store.
Proof.
  intros off width value m Hin Hm _ Hv. pose proof Hm as ((_&Hg&_)&_). unfold gpu_store.
  wps; [by apply DevicesProofs.store_same|].
  eapply engine_store_wp with (ok := GpuProofs.gpu_ok RAM_SIZE 76800); [intros; by apply bus_gpu|done|done|].
  apply GpuProofs.gpu_access_wp; [done|by eapply access_u32|done].
Qed.
#[global] Instance g3d_load_ok size : LoadDevice size g3d_mmio_load.
Proof.
  intros off width m Hin Hm. pose proof Hm as ((_&_&Hg&_)&_). unfold g3d_mmio_load. wps.
  eapply engine_load_wp with (ok := G3dProofs.g3d_ok RAM_SIZE); [intros; by apply bus_g3d|done|done|done|].
  by apply G3dProofs.g3d_access_wp.
Qed.
#[global] Instance g3d_store_ok size : StoreDevice size g3d_mmio_store.
Proof.
  intros off width value m Hin Hm _ Hv. pose proof Hm as ((_&_&Hg&_)&_). unfold g3d_mmio_store. wps.
  eapply engine_store_wp with (ok := G3dProofs.g3d_ok RAM_SIZE); [intros; by apply bus_g3d|done|done|].
  by apply G3dProofs.g3d_access_wp.
Qed.

(** ** Dispatch: every handler of the map keeps its promise *)

Lemma region_load r h : In r REGIONS -> r_load (r_name r) = Some h -> LoadDevice (r_size r) h.
Proof. intros Hin E. cbn in Hin. repeat destruct Hin as [<-|Hin]; [..|done]; injection E as <-; apply _. Qed.

Lemma region_store `{ServeFuel} r h : In r REGIONS -> r_store (r_name r) = Some h -> StoreDevice (r_size r) h.
Proof. intros Hin E. cbn in Hin. repeat destruct Hin as [<-|Hin]; [..|done]; simplify_eq/=; apply _. Qed.

(** ** Translation *)

Lemma in_ram_spec addr width :
  is_u32 addr -> 0 <= width <= 4 -> in_ram addr width = true -> 0 <= addr - RAM_BASE /\ addr - RAM_BASE + width <= RAM_SIZE.
Proof.
  unfold in_ram, RAM_BASE, RAM_SIZE, is_u32. intros Ha Hw H. bools. rewrite u32_id in * by (unfold is_u32; lia). lia.
Qed.

Lemma ram_read_wp m addr width (Q : Z -> Prop) :
  bus_ok m -> is_u32 addr -> 0 <= width <= 4 -> in_ram addr width = true ->
  Q (le_bytes (ram m) (addr - RAM_BASE) (Z.to_nat width)) -> wpr (ram_read m addr width) Q.
Proof.
  intros Hm Ha Hw Hin HQ. destruct (in_ram_spec addr width Ha Hw Hin). pose proof Hm as (_&_&(Hb&El)&_).
  apply wpr_bytes_read; [done|lia|done|lia|done].
Qed.

Definition addr_ok (a : mem_access Z) : Prop := match a with ACC_OK pa => is_u32 pa | _ => True end.

Lemma walk_wp level m table va kind priv0 : bus_ok m -> wpr (walk level m table va kind priv0) addr_ok.
Proof.
  intros Hm. revert table. induction level as [|level IH]; intros table; cbn [walk]; cbv zeta;
    (wp1; [done|]); bools; wp1; (apply ram_read_wp; [done|apply u32_range|lia|done|]);
    set (pte := le_bytes _ _ _); clearbody pte; (wp1; [done|]); wp1.
  - done.
  - repeat (wp1; [done|]). apply u32_range.
  - wp1; [done|apply IH].
  - repeat (wp1; [done|]). apply u32_range.
Qed.

Lemma translate_wp m va kind priv0 : bus_ok m -> is_u32 va -> wpr (translate m va kind priv0) addr_ok.
Proof. intros Hm Hva. unfold translate. wps; [done|by apply walk_wp]. Qed.

Lemma physical_wp va kind need m (Q : mem_access Z -> machine -> Prop) :
  bus_ok m -> is_u32 va -> (forall a, addr_ok a -> Q a m) -> wp (physical va kind need) Q m.
Proof.
  intros Hm Hva HQ. unfold physical. wps. eapply wpr_mono; [by apply translate_wp|].
  intros a Ha. wps. apply HQ. destruct a; [by destruct (pmp_allows _ _ _ _)|done..].
Qed.

(** ** Data accesses *)

Definition data_post {A} (P : A -> Prop) (m : machine) (a : mem_access A) (m' : machine) : Prop :=
  bus_ok m' /\ untouched m m' /\ match a with ACC_OK v => P v | _ => True end.

Lemma data_same {A} (P : A -> Prop) m (a : mem_access A) :
  bus_ok m -> match a with ACC_OK v => P v | _ => True end -> data_post P m a m.
Proof. unfold data_post. auto with rv32. Qed.

Definition is_pair (p : Z * Z) : Prop := is_u32 (fst p) /\ is_u32 (snd p).

Lemma load_wp va width m :
  bus_ok m -> is_u32 va -> In width [1; 2; 4] ->
  wp (load va width) (fun a m' => data_post is_pair m a m' /\ virtio m' = virtio m) m.
Proof.
  intros Hm Hva Hw. unfold load. wp1; [wps; split; [by apply data_same|done]|]. wp1.
  apply physical_wp; [done|done|]. intros [addr| | |] Haddr; try (wps; split; [by apply data_same|done]).
  destruct (find_region addr width) as [r|] eqn:Er; [|wps; split; [by apply data_same|done]].
  destruct (find_region_some addr width r) as (Hin & _ & Hacc); [done..|].
  destruct (r_load (r_name r)) as [h|] eqn:Eh; [|done]. wp1.
  eapply wp_mono; [by apply (region_load r h Hin Eh)|]. intros a m' (Hm' & U & Ev & Ha). wps.
  split; [|done]. by destruct a.
Qed.

Context `{SVF : ServeFuel}.

Lemma store_wp va width value m :
  bus_ok m -> serves m -> is_u32 va -> is_u32 value -> In width [1; 2; 4] ->
  wp (store va width value) (data_post (fun _ => True) m) m.
Proof.
  intros Hm Hs Hva Hv Hw. unfold store. wp1; [wps; by apply data_same|]. wp1.
  apply physical_wp; [done|done|]. intros [addr| | |] Haddr; try (wps; by apply data_same).
  destruct (find_region addr width) as [r|] eqn:Er; [|wps; by apply data_same].
  destruct (find_region_some addr width r) as (Hin & _ & Hacc); [done..|].
  destruct (r_store (r_name r)) as [h|] eqn:Eh; [|wps; by apply data_same].
  eapply wp_mono; [by apply (region_store r h Hin Eh)|]. intros a m' (Hm' & U). split; [done|]. by destruct a.
Qed.

(** The operations an AMO may be given. *)
Lemma amo_value_wp funct5 rs2 old operand :
  amo_valid funct5 rs2 = true -> (funct5 =? AMO_LR) = false -> (funct5 =? AMO_SC) = false -> is_u32 old -> is_u32 operand ->
  wpr (amo_value funct5 old operand) is_u32.
Proof.
  unfold amo_valid, amo_value. intros Hv Hlr Hsc Ho Hp. rewrite Hlr, Hsc in Hv.
  wps; try (casif; done); auto with rv32.
  repeat match goal with H : (funct5 =? _) = false |- _ => rewrite H in Hv; clear H end. done.
Qed.

Lemma amo_wp va funct5 rs2 operand m :
  amo_valid funct5 rs2 = true -> (funct5 =? AMO_LR) = false -> (funct5 =? AMO_SC) = false ->
  bus_ok m -> serves m -> is_u32 va -> is_u32 operand -> wp (amo va funct5 operand) (data_post is_pair m) m.
Proof.
  intros Hv Hlr Hsc Hm Hs Hva Hop. unfold amo. wp1; [wps; by apply data_same|]. wp1.
  apply physical_wp; [done|done|]. intros [addr| | |] Haddr; try (wps; by apply data_same).
  destruct (find_region addr 4) as [r|] eqn:Er; [|wps; by apply data_same].
  destruct (find_region_some addr 4 r) as (Hin & _ & Hacc); [done|cbn; auto|done|].
  destruct (r_load (r_name r)) as [h|] eqn:Eh; [|done]. wp1.
  eapply wp_mono; [by apply (region_load r h Hin Eh)|]. intros a m' (Hm' & U & Ev & Ha).
  destruct a as [old| | |]; try (wps; by split). wp1. wp1.
  eapply wpr_mono; [by eapply amo_value_wp|]. intros value Hvalue.
  destruct (r_store (r_name r)) as [h'|] eqn:Eh'; [|wps; by split]. wp1.
  assert (Hs' : serves m') by (unfold serves; by rewrite Ev).
  eapply wp_mono; [by apply (region_store r h' Hin Eh')|]. intros a' m2 (Hm2 & U2). wps.
  split; [done|]. split; [by eapply untouched_trans|]. by destruct a'.
Qed.

End Devices.
End BusProofs.
