(* ===== verification/CsrProofs.v ===== *)
(** * The CSRs: writes keep the WARL restrictions, reads are 32-bit *)

From S2P Require Import Prelude Effects Buffer Simd4 SimdProofs Gpu GpuProofs G3d G3dProofs Dtb Machine Devices.
From S2P Require Import Virtio Bus Mmu Csr MachineOk DevicesProofs.

Module CsrProofs.
Import Mmu Csr.

Section Rules.
Context `{AL : Assumed}.

(** ** The registers as functions

    On a well-formed machine no access is out of range: what a read answers and
    what a write leaves, as functions. *)

Definition pmpcfg_packed (c : csr_state) (base : Z) : Z :=
  at_ (pmpcfg c) base .| (at_ (pmpcfg c) (base + 1) .<< 8)
  .| (at_ (pmpcfg c) (base + 2) .<< 16) .| (at_ (pmpcfg c) (base + 3) .<< 24).

Definition csr_value (m : machine) (number : Z) : option Z :=
  let c := csr m in
  if number =? CSR_FFLAGS then Some (fcsr (hart m) .& 31)
  else if number =? CSR_FRM then Some (fcsr (hart m) .>> 5)
  else if number =? CSR_FCSR then Some (fcsr (hart m))
  else if number =? CSR_MSTATUS then Some (mstatus_value c)
  else if number =? CSR_SSTATUS then Some (mstatus_value c .& SSTATUS_MASK)
  else if number =? CSR_MEDELEG then Some (medeleg c)
  else if number =? CSR_MIDELEG then Some (mideleg c)
  else if number =? CSR_SIE then Some (mie c .& mideleg c)
  else if number =? CSR_SIP then Some (mip_now m .& mideleg c)
  else if number =? CSR_STVEC then Some (stvec c)
  else if number =? CSR_SCOUNTEREN then Some (scounteren c)
  else if number =? CSR_SSCRATCH then Some (sscratch c)
  else if number =? CSR_SEPC then Some (sepc c)
  else if number =? CSR_SCAUSE then Some (scause c)
  else if number =? CSR_STVAL then Some (stval c)
  else if number =? CSR_SATP then Some (satp c)
  else if number =? CSR_MCOUNTEREN then Some (mcounteren c)
  else if number =? CSR_MISA then Some MISA_VALUE
  else if (number =? CSR_MVENDORID) || (number =? CSR_MARCHID) || (number =? CSR_MIMPID)
          || (number =? CSR_MHARTID) then Some 0
  else if (number =? CSR_PMPCFG0) || (number =? CSR_PMPCFG1) then
    Some (pmpcfg_packed c (4 * (number - CSR_PMPCFG0)))
  else if number =? CSR_MIE then Some (mie c)
  else if number =? CSR_MIP then Some (mip_now m)
  else if number =? CSR_MSCRATCH then Some (mscratch c)
  else if number =? CSR_MTVEC then Some (mtvec c)
  else if number =? CSR_MEPC then Some (mepc c)
  else if number =? CSR_MCAUSE then Some (mcause c)
  else if number =? CSR_MTVAL then Some (mtval c)
  else if number =? CSR_CYCLE then Some (u32 (steps (counters m)))
  else if number =? CSR_CYCLEH then Some (u32 (steps (counters m) .>> 32))
  else if number =? CSR_TIME then Some (u32 (Clint.mtime_now m))
  else if number =? CSR_TIMEH then Some (u32 (Clint.mtime_now m .>> 32))
  else if number =? CSR_INSTRET then Some (u32 (retired (counters m)))
  else if number =? CSR_INSTRETH then Some (u32 (retired (counters m) .>> 32))
  else if (CSR_PMPADDR0 <=? number) && (number <=? CSR_PMPADDR7) then
    Some (at_ (pmpaddr c) (number - CSR_PMPADDR0))
  else None.

Definition pmpcfg_written (cfgs : list Z) (base value : Z) : list Z :=
  foldl (fun l k =>
    let i := base + k in
    if tst (at_ l i .& PMP_L) then l else <[Z.to_nat i := u8 (pmpcfg_value value k)]> l) cfgs [0; 1; 2; 3].

Definition addr_locked (c : csr_state) (i : Z) : bool :=
  tst (at_ (pmpcfg c) i .& PMP_L)
  || ((i + 1 <? PMP_ENTRIES) && (at_ (pmpcfg c) (i + 1) .& (PMP_L .| PMP_A) =? PMP_L .| PMP_TOR)).

Definition csr_filed (c : csr_state) (number value : Z) : csr_state :=
  if number =? CSR_MSTATUS then
    let p := (value .& MSTATUS_MPP) .>> 11 in
    {| c with mstatus := value .& MSTATUS_WRITABLE; mpp := if p =? 2 then PRIV_U else p |}
  else if number =? CSR_SSTATUS then
    {| c with mstatus := (mstatus c .& not32 SSTATUS_MASK) .| (value .& SSTATUS_MASK .& MSTATUS_WRITABLE) |}
  else if number =? CSR_MEDELEG then {| c with medeleg := value .& MEDELEG_MASK |}
  else if number =? CSR_MIDELEG then {| c with mideleg := value .& S_INTERRUPTS |}
  else if number =? CSR_SIE then {| c with mie := (mie c .& not32 (mideleg c)) .| (value .& mideleg c) |}
  else if number =? CSR_SIP then
    let ssip := mideleg c .& (1 .<< IRQ_SSI) in
    {| c with mip_soft := (mip_soft c .& not32 ssip) .| (value .& ssip) |}
  else if number =? CSR_STVEC then {| c with stvec := value .& not32 3 |}
  else if number =? CSR_SCOUNTEREN then {| c with scounteren := value .& 7 |}
  else if number =? CSR_SSCRATCH then {| c with sscratch := value |}
  else if number =? CSR_SEPC then {| c with sepc := value .& not32 3 |}
  else if number =? CSR_SCAUSE then {| c with scause := value |}
  else if number =? CSR_STVAL then {| c with stval := value |}
  else if number =? CSR_SATP then {| c with satp := value .& (SATP_MODE .| SATP_PPN) |}
  else if number =? CSR_MCOUNTEREN then {| c with mcounteren := value .& 7 |}
  else if (number =? CSR_PMPCFG0) || (number =? CSR_PMPCFG1) then
    {| c with pmpcfg := pmpcfg_written (pmpcfg c) (4 * (number - CSR_PMPCFG0)) value |}
  else if number =? CSR_MIE then {| c with mie := value .& MIE_MASK |}
  else if number =? CSR_MIP then {| c with mip_soft := value .& S_INTERRUPTS |}
  else if number =? CSR_MSCRATCH then {| c with mscratch := value |}
  else if number =? CSR_MTVEC then {| c with mtvec := value .& not32 3 |}
  else if number =? CSR_MEPC then {| c with mepc := value .& not32 3 |}
  else if number =? CSR_MCAUSE then {| c with mcause := value |}
  else if number =? CSR_MTVAL then {| c with mtval := value |}
  else if number =? CSR_MISA then c
  else if (CSR_PMPADDR0 <=? number) && (number <=? CSR_PMPADDR7) then
    let i := number - CSR_PMPADDR0 in
    if addr_locked c i then c else {| c with pmpaddr := <[Z.to_nat i := value]> (pmpaddr c) |}
  else c.

Definition csr_written (m : machine) (number value : Z) : machine :=
  match fcsr_value (fcsr (hart m)) number value with
  | Some v =>
      upd_effects (fun e => {| e with wr_fcsr := true |}) (upd_hart (fun h => {| h with fcsr := v |}) m)
  | None =>
      let m1 := upd_csr (fun c => csr_filed c number value) m in
      if number =? CSR_SATP then upd_resv (fun r => {| r with reserved := false |}) m1 else m1
  end.

Lemma pmpcfg_word_eq c base :
  pmp_ok c -> 0 <= base -> base + 3 < 8 -> pmpcfg_word c base = Ok (pmpcfg_packed c base).
Proof.
  intros ((Hl & _) & _) H0 H1. unfold pmpcfg_word. rewrite !aget_ok by (rewrite Hl; lia). done.
Qed.

Lemma pmpcfg_write_eq cfgs base v :
  length cfgs = 8%nat -> 0 <= base -> base + 3 < 8 -> pmpcfg_write cfgs base v = Ok (pmpcfg_written cfgs base v).
Proof.
  intros Hl H0 H1. unfold pmpcfg_write, pmpcfg_written.
  assert (Hks : Forall (fun k => 0 <= k <= 3) [0; 1; 2; 3]) by (repeat constructor; lia). revert Hks.
  generalize [0; 1; 2; 3]. intros ks. revert cfgs Hl. induction ks as [|k ks IH]; intros cfgs Hl Hks; [done|].
  apply Forall_cons_iff in Hks as [Hk Hks]. cbn [foldl]. rewrite <- IH; [|casif; [done|by rewrite length_insert]|done].
  f_equal. cbn [mbind res_bind mret res_ret]. rewrite aget_ok by lia. cbn [mbind res_bind].
  destruct (tst _); [done|]. by rewrite aset_ok by lia.
Qed.

Lemma pmpaddr_locked_eq c i : pmp_ok c -> 0 <= i < 8 -> pmpaddr_locked c i = Ok (addr_locked c i).
Proof.
  intros ((Hl & _) & _) Hi. unfold pmpaddr_locked, addr_locked. rewrite (aget_ok _ i) by lia. cbn [mbind res_bind].
  destruct (tst _); [done|]. destruct (Z.ltb_spec (i + 1) PMP_ENTRIES) as [H|]; [|done].
  rewrite aget_ok by (unfold PMP_ENTRIES in H; lia). done.
Qed.

Lemma csr_read_eq m number : machine_ok m -> csr_read m number = Ok (csr_value m number).
Proof.
  intros (_ & _ & (_ & _ & Hp & _) & _). unfold csr_read, csr_value. cbv zeta.
  repeat match goal with |- (if ?b then _ else _) = _ => destruct b eqn:?; [first [reflexivity|idtac]|] end; [..|done].
  - rewrite pmpcfg_word_eq; [done|done|..];
      match goal with H : (number =? CSR_PMPCFG0) || (number =? CSR_PMPCFG1) = true |- _ => clear -H end;
      unfold CSR_PMPCFG0, CSR_PMPCFG1 in *; lia.
  - rewrite aget_ok; [done|]. destruct Hp as (_ & (Hl & _)). rewrite Hl.
    match goal with H : (CSR_PMPADDR0 <=? number) && (number <=? CSR_PMPADDR7) = true |- _ => clear -H end.
    unfold CSR_PMPADDR0, CSR_PMPADDR7 in *; lia.
Qed.

Lemma csr_write_file_eq c number v : pmp_ok c -> csr_write_file c number v = Ok (csr_filed c number v).
Proof.
  intros Hp. unfold csr_write_file, csr_filed. cbv zeta.
  repeat match goal with |- (if ?b then _ else _) = _ => destruct b eqn:?; [first [reflexivity|idtac]|] end; [..|done].
  - rewrite pmpcfg_write_eq; [done|apply Hp|..];
      match goal with H : (number =? CSR_PMPCFG0) || (number =? CSR_PMPCFG1) = true |- _ => clear -H end;
      unfold CSR_PMPCFG0, CSR_PMPCFG1 in *; lia.
  - match goal with H : (CSR_PMPADDR0 <=? number) && (number <=? CSR_PMPADDR7) = true |- _ =>
      assert (Hi : 0 <= number - CSR_PMPADDR0 < 8) by (clear -H; unfold CSR_PMPADDR0, CSR_PMPADDR7 in *; lia) end.
    rewrite pmpaddr_locked_eq by assumption. cbn [mbind res_bind]. casif; [reflexivity|].
    rewrite aset_ok; [reflexivity|]. clear -Hp Hi. destruct Hp as (_ & (Hl & _)). rewrite Hl. exact Hi.
Qed.

Lemma csr_write_eq m number v : machine_ok m -> csr_write m number v = Ok (csr_written m number v).
Proof.
  intros (_ & _ & (_ & _ & Hp & _) & _). unfold csr_write, csr_written. destruct (fcsr_value _ _ _); [done|].
  by rewrite csr_write_file_eq.
Qed.

(** ** Values the writes store *)

Lemma aligned_not3 v : is_u32 v -> aligned4 (v .& not32 3).
Proof. intros Hv. rewrite land_not3 by done. unfold aligned4, is_u32 in *. split; [zlia|intros _; zlia]. Qed.

Lemma mpp_write v : is_priv (if (v .& MSTATUS_MPP) .>> 11 =? 2 then PRIV_U else (v .& MSTATUS_MPP) .>> 11).
Proof.
  change MSTATUS_MPP with (3 .<< 11).
  replace ((v .& (3 .<< 11)) .>> 11) with ((v .>> 11) .& 3)
    by (rewrite Z.shiftr_land; f_equal).
  pose proof (land_range (v .>> 11) 3). unfold is_priv, PRIV_U, PRIV_S, PRIV_M. casif; bools; lia.
Qed.

Lemma pmpcfg_value_ok v k : pmpcfg_ok (u8 (pmpcfg_value v k)).
Proof.
  unfold pmpcfg_value. set (cfg := (v .>> (8 * k)) .& 0x9f).
  assert (Hr : 0 <= cfg <= 0x9f) by (apply land_range; lia).
  assert (Hw : within cfg 0x9f) by apply within_land. clearbody cfg.
  change PMP_W with (2 ^ 1). change PMP_R with (2 ^ 0). rewrite !tst_land_pow2 by lia. casif; bools.
  - pose proof (land_nonneg_l cfg (not32 (2 ^ 1)) ltac:(lia)). pose proof (land_le_l cfg (not32 (2 ^ 1)) ltac:(lia)).
    rewrite u8_id by (unfold is_u8; lia). split; [by apply within_land_l|].
    rewrite Z.land_spec. cbn. rewrite andb_false_r. done.
  - rewrite u8_id by (unfold is_u8; lia). split; [done|]. intros E. rewrite E in Heqb. by destruct (Z.testbit cfg 0).
Qed.

Lemma pmpcfg_written_ok cfgs base v :
  length cfgs = 8%nat -> Forall pmpcfg_ok cfgs ->
  length (pmpcfg_written cfgs base v) = 8%nat /\ Forall pmpcfg_ok (pmpcfg_written cfgs base v).
Proof.
  unfold pmpcfg_written. generalize [0; 1; 2; 3]. intros ks. revert cfgs.
  induction ks as [|k ks IH]; intros cfgs Hl Hf; [done|]. cbn [foldl]. apply IH.
  - casif; [done|by rewrite length_insert].
  - casif; [done|]. apply Forall_insert; [done|apply pmpcfg_value_ok].
Qed.

Lemma s_in_mie : within S_INTERRUPTS MIE_MASK.
Proof. done. Qed.

(** ** Locked PMP entries *)

(** A write of four configuration bytes leaves a locked one alone. *)
Lemma pmpcfg_written_locked cfgs base v i :
  length cfgs = 8%nat -> 0 <= base -> base + 3 < 8 -> 0 <= i < 8 -> tst (at_ cfgs i .& PMP_L) = true ->
  at_ (pmpcfg_written cfgs base v) i = at_ cfgs i.
Proof.
  intros Hl Hb Hb' Hi. unfold pmpcfg_written.
  assert (Hks : Forall (fun k => 0 <= k <= 3) [0; 1; 2; 3]) by (repeat constructor; lia). revert Hks.
  generalize [0; 1; 2; 3]. intros ks. revert cfgs Hl. induction ks as [|k ks IH]; intros cfgs Hl Hks Ht; [done|].
  apply Forall_cons_iff in Hks as [Hk Hks]. cbn [foldl]. destruct (tst (at_ cfgs (base + k) .& PMP_L)) eqn:E; [by apply IH|].
  assert (Hne : base + k <> i) by (intros <-; congruence).
  assert (Ei : at_ (<[Z.to_nat (base + k) := u8 (pmpcfg_value v k)]> cfgs) i = at_ cfgs i).
  { rewrite at_insert by lia. by rewrite (proj2 (Z.eqb_neq _ _) Hne). }
  rewrite IH; [exact Ei|by rewrite length_insert|done|by rewrite Ei].
Qed.

(** So does a write of an address: it is refused for a locked entry, and for the
    entry below a locked TOR one. *)
Lemma pmpaddr_write_kept c i v k :
  length (pmpaddr c) = 8%nat -> 0 <= i < 8 -> addr_locked c i = false -> lock_kept c k ->
  lock_kept {| c with pmpaddr := <[Z.to_nat i := v]> (pmpaddr c) |} k.
Proof.
  intros Hl Hi Hlk (Hk & Hb & Ec & Ea & Ef). unfold addr_locked in Hlk. apply orb_false_iff in Hlk as [Hlk1 Hlk2].
  assert (Hne : i <> lk_index k) by (intros ->; rewrite Ec in Hlk1; congruence).
  split; [done|]. split; [done|]. split; [done|]. cbn [pmpaddr]. split.
  - rewrite at_insert by lia. by rewrite (proj2 (Z.eqb_neq _ _) Hne).
  - intros H0 Ht. rewrite at_insert by lia. destruct (Z.eqb_spec i (lk_index k - 1)) as [->|]; [|by apply Ef].
    exfalso. replace (lk_index k - 1 + 1) with (lk_index k) in Hlk2 by lia. rewrite Ec in Hlk2.
    rewrite (proj2 (Z.ltb_lt _ _)) in Hlk2 by (unfold PMP_ENTRIES; lia). cbn [andb] in Hlk2. apply Z.eqb_neq in Hlk2.
    apply Hlk2. rewrite Z.land_lor_distr_r, Ht. f_equal. change PMP_L with (2 ^ 7) in *. rewrite tst_land_pow2 in Hb by lia.
    by rewrite land_pow2, Hb by lia.
Qed.

Lemma pmpcfg_written_kept c base v k :
  length (pmpcfg c) = 8%nat -> 0 <= base -> base + 3 < 8 -> lock_kept c k ->
  lock_kept {| c with pmpcfg := pmpcfg_written (pmpcfg c) base v |} k.
Proof.
  intros Hl Hb Hb' (Hk & Ht & Ec & Ea & Ef). split; [done|]. split; [done|]. split; [|by split]. cbn [pmpcfg].
  rewrite pmpcfg_written_locked; [done|done|done|done|done|by rewrite Ec].
Qed.

(** ** Writes *)

Lemma csr_filed_ok c number v : csr_ok c -> is_u32 v -> csr_ok (csr_filed c number v).
Proof.
  intros Hc Hv. pose proof Hc as ((T1&T2&T3&T4&T5&T6&T7&T8&T9&T10)&(C1&C2&C3&C4&C5&C6&C7&C8&C9)&((P1&P2)&(P3&P4))&PL).
  pose proof (aligned_not3 v Hv) as Ha. pose proof (mpp_write v) as Hmpp.
  pose proof (within_trans _ _ _ C5 s_in_mie) as Hmie.
  assert (Hs : within ((mstatus c .& not32 SSTATUS_MASK) .| (v .& SSTATUS_MASK .& MSTATUS_WRITABLE)) MSTATUS_WRITABLE)
    by auto using within_lor, within_land_l, within_land.
  assert (Hsie : within ((mie c .& not32 (mideleg c)) .| (v .& mideleg c)) MIE_MASK)
    by auto using within_lor, within_land_l, within_land_r.
  assert (Hsip : within ((mip_soft c .& not32 (mideleg c .& (1 .<< IRQ_SSI))) .| (v .& (mideleg c .& (1 .<< IRQ_SSI)))) S_INTERRUPTS)
    by auto using within_lor, within_land_l, within_land_r.
  unfold csr_filed. cbv zeta.
  repeat match goal with |- csr_ok (if ?b then _ else _) => destruct b eqn:? end; try exact Hc;
    unfold csr_ok, trap_csrs_ok, control_csrs_ok, pmp_ok; splits;
    try match goal with H : ?P _ |- ?P _ => exact H end; try match goal with H : within _ _ |- _ => exact H end;
    try apply within_land; try assumption.
  - by apply pmpcfg_written_ok.
  - by apply pmpcfg_written_ok.
  - eapply List.Forall_impl; [|exact PL]. intros k. apply pmpcfg_written_kept; [exact P1|..];
      match goal with H : (number =? CSR_PMPCFG0) || (number =? CSR_PMPCFG1) = true |- _ => clear -H end;
      unfold CSR_PMPCFG0, CSR_PMPCFG1 in *; lia.
  - cbn [pmpaddr]. by rewrite length_insert.
  - by apply Forall_insert.
  - eapply List.Forall_impl; [|exact PL]. intros k. apply pmpaddr_write_kept; [exact P3| |assumption].
    match goal with H : (CSR_PMPADDR0 <=? number) && (number <=? CSR_PMPADDR7) = true |- _ => clear -H end.
    unfold CSR_PMPADDR0, CSR_PMPADDR7 in *; lia.
Qed.

Lemma fcsr_value_ok old number v f : is_u8 old -> fcsr_value old number v = Some f -> is_u8 f.
Proof.
  intros Ho E. unfold fcsr_value in E.
  assert (Hm : forall a k, 0 <= k < 256 -> 0 <= a .& k < 2 ^ 8) by (intros a k Hk; pose proof (land_range a k); lia).
  repeat match type of E with (if ?b then _ else _) = _ => destruct b eqn:? end; try discriminate; injection E as <-.
  - apply (lor_range 8); [lia|apply Hm; lia|apply Hm; lia].
  - apply (lor_range 8); [lia|apply Hm; lia|]. pose proof (land_range v 7). rewrite Z.shiftl_mul_pow2 by lia. lia.
  - apply Hm. lia.
Qed.

Lemma csr_written_ok m number v : machine_ok m -> is_u32 v -> machine_ok (csr_written m number v).
Proof.
  intros (Hb&Hh&Hc&Hn) Hv. unfold csr_written.
  destruct (fcsr_value _ _ _) as [f|] eqn:E.
  - assert (Hf : is_u8 f) by (eapply fcsr_value_ok; [|exact E]; apply Hh).
    destruct Hh as (Hx&H0&Hf'&_&Hpc). split; [exact Hb|].
    split; [exact (conj Hx (conj H0 (conj Hf' (conj Hf Hpc))))|]. by split.
  - casif; (split; [exact Hb|]; split; [exact Hh|]; split; [by apply csr_filed_ok|exact Hn]).
Qed.

(** A write keeps the reservation or ends it, and touches neither the registers nor the program counter. *)
Lemma csr_written_virtio m number v : virtio (csr_written m number v) = virtio m.
Proof. unfold csr_written. by repeat (casif || destruct (fcsr_value _ _ _)). Qed.

(** ** Reads *)

Lemma priv_small p : is_priv p -> 0 <= p <= 3.
Proof. unfold is_priv, PRIV_U, PRIV_S, PRIV_M. lia. Qed.

Lemma mstatus_value_u32 c : csr_ok c -> is_u32 (mstatus_value c).
Proof.
  intros (_&(C1&C2&_)&_). assert (H1 : is_u32 (mstatus c)) by (by eapply within_u32; [|exact C1]).
  assert (H2 : is_u32 (mpp c .<< 11)).
  { pose proof (priv_small _ C2). rewrite Z.shiftl_mul_pow2 by lia. unfold is_u32. lia. }
  unfold mstatus_value. casif; auto with rv32. by apply lor_u32; [apply lor_u32|].
Qed.

Lemma mip_now_within m : csr_ok (csr m) -> within (mip_now m) MIE_MASK.
Proof.
  intros (_&(_&_&_&_&_&C6&_)&_). unfold mip_now.
  apply within_lor; [|by eapply within_trans]. apply within_lor; [apply within_lor|]; by apply within_if.
Qed.

Lemma pmpcfg_u8 c i : pmp_ok c -> 0 <= i < 8 -> is_u8 (at_ (pmpcfg c) i).
Proof.
  intros ((Hl&Hf)&_) Hi. assert (H : pmpcfg_ok (at_ (pmpcfg c) i)) by (apply (at_Forall pmpcfg_ok); [done|lia]).
  destruct H as [<- _]. pose proof (land_range (at_ (pmpcfg c) i) 0x9f). unfold is_u8. lia.
Qed.

Lemma pmpcfg_packed_u32 c base : pmp_ok c -> base = 0 \/ base = 4 -> is_u32 (pmpcfg_packed c base).
Proof.
  intros Hp Hb. unfold pmpcfg_packed.
  assert (Hu : forall k, 0 <= k <= 3 -> is_u32 (at_ (pmpcfg c) (base + k) .<< (8 * k))).
  { intros k Hk. pose proof (pmpcfg_u8 c (base + k) Hp ltac:(lia)) as H. unfold is_u8, is_u32 in *.
    rewrite Z.shiftl_mul_pow2 by lia. assert (Hk' : k = 0 \/ k = 1 \/ k = 2 \/ k = 3) by lia.
    destruct Hk' as [->|[->|[->| ->]]]; cbn; lia. }
  pose proof (Hu 0) as H0. rewrite Z.add_0_r in H0.
  repeat apply lor_u32; [apply H0; lia|apply (Hu 1); lia|apply (Hu 2); lia|apply (Hu 3); lia].
Qed.

Lemma csr_value_ok m number v : machine_ok m -> csr_value m number = Some v -> is_u32 v.
Proof.
  intros (_&(_&_&_&Hf&_)&Hc&_) E. pose proof Hc as ((T1&T2&T3&T4&T5&T6&T7&T8&T9&T10)&(C1&C2&C3&C4&C5&C6&C7&C8&C9)&Hp&_).
  pose proof (mstatus_value_u32 _ Hc) as Hms. pose proof (mip_now_within m Hc) as Hmip.
  assert (W : forall x mask, is_u32 mask -> within x mask -> is_u32 x) by (intros; by eapply within_u32).
  assert (Hfc : is_u32 (fcsr (hart m))) by (by apply DevicesProofs.u8_u32).
  unfold csr_value in E. cbv zeta in E.
  repeat match type of E with (if ?b then _ else _) = _ => destruct b eqn:? end; try discriminate; injection E as <-;
    try done; try (apply u32_range); try (by apply land_u32); try (by apply T1 || by apply T2 || by apply T6 || by apply T7);
    try (by eapply W; [|eassumption]).
  - by apply shiftr_u32.
  - apply land_u32. by eapply W; [|exact C3].
  - apply land_u32. by eapply W; [|exact Hmip].
  - apply pmpcfg_packed_u32; [done|].
    match goal with H : _ || _ = true |- _ => apply orb_true_iff in H as [H|H]; apply Z.eqb_eq in H as -> end;
      [by left|by right].
  - match goal with H : _ && _ = true |- _ => apply andb_true_iff in H as [H1 H2] end.
    apply Z.leb_le in H1, H2. unfold CSR_PMPADDR0, CSR_PMPADDR7 in H1, H2. destruct Hp as (_&(Hl&Ha)). apply (at_Forall is_u32); [exact Ha|].
    unfold CSR_PMPADDR0. rewrite Hl. clear -H1 H2. lia.
Qed.

End Rules.
End CsrProofs.
