(* ===== verification/CpuProofs.v ===== *)
(** * The hart: every step is safe, keeps the invariant and is accounted for *)

From S2P Require Import Prelude Effects Buffer Simd4 SimdProofs Gpu GpuProofs G3d G3dProofs Dtb Machine Devices.
From S2P Require Import Virtio Bus Mmu Csr Fp Cpu MachineOk DevicesProofs VirtioProofs BusProofs CsrProofs.

Module CpuProofs.
Import Bus Mmu Csr Cpu.

(** ** What a step adds to the counters *)

Inductive outcome : Type := Retired | Trapped | Interrupted | DoubleFault.

Definition moved (o : outcome) (c c' : counters_state) : Prop :=
  retired c' = (match o with Retired => u64 (retired c + 1) | _ => retired c end)
  /\ traps c' = (match o with Trapped => u64 (traps c + 1) | _ => traps c end)
  /\ interrupts c' = (match o with Interrupted => u64 (interrupts c + 1) | _ => interrupts c end)
  /\ in_trap c' = (match o with Retired => false | _ => true end).

(** One step: the step count moves by one, one line is traced, and exactly one
    of the outcomes is counted.  A trap or an interrupt while a handler's first
    instruction has not retired is a double fault, which stops the machine. *)
Definition accounted (m m' : machine) : Prop :=
  let c := counters m in
  let c' := counters m' in
  steps c' = u64 (steps c + 1) /\ limit c' = limit c
  /\ (exists line, trace c' = option_map (fun l => l ++ [line]) (trace c))
  /\ exists o, moved o c c' /\
       match o with
       | Retired => True
       | Trapped | Interrupted => in_trap c = false
       | DoubleFault => in_trap c = true /\ halt m' = HALT_DOUBLE_FAULT
       end.

Section Rules.
Context `{AL : Assumed} `{F : Fuelled}.

(** ** The accelerators' tick *)

Lemma g3d_flag_ok a d : G3dProofs.g3d_ok a d -> G3dProofs.g3d_ok a {| d with G3d.ram_written := false |}
  /\ G3dProofs.g3d_ok a {| d with G3d.fb_written := false |}.
Proof. intros H. split; exact H. Qed.

Lemma gpu_flag_ok a b d : GpuProofs.gpu_ok a b d -> GpuProofs.gpu_ok a b {| d with Gpu.fb_written := false |}.
Proof. intros H. pose proof H as []. apply (GpuProofs.gpu_ok_ext a b d); try done; apply ok_scalars. Qed.

Definition tick_post (m m' : machine) : Prop :=
  bus_ok m' /\ untouched m m' /\ virtio m' = virtio m /\ halt m' = halt m.

Lemma tick_post_trans m1 m2 m3 : tick_post m1 m2 -> tick_post m2 m3 -> tick_post m1 m3.
Proof. intros (_&U1&V1&H1) (B&U2&V2&H2). split; [done|]. split; [by eapply untouched_trans|]. split; congruence. Qed.

Lemma tick_engines_wp m : bus_ok m -> wp tick_engines (fun _ m' => tick_post m m') m.
Proof.
  intros Hm.
  change (wpr (s ← Simd.simd_tick false (simd m);
    let m := put_simd s m in
    '(g, b) ← Gpu.gpu_tick (gpu m) (ram m) RAM_SIZE (fb (display m)) false (dma_start m) (dma_end m);
    let m := set_fb b (put_gpu g m) in
    '(d, r, b') ← G3d.g3d_tick (g3d m) (ram m) RAM_SIZE (fb (display m)) false (dma_start m) (dma_end m);
    mret ((), set_fb b' (set_ram r (put_g3d d m)))) (fun '(_, m') => tick_post m m')).
  pose proof Hm as ((Hs&_)&_). wp1. eapply wpr_mono; [by apply SimdProofs.simd_tick_wp|]. intros s Hs'. cbv zeta.
  set (m1 := put_simd s m). assert (P1 : tick_post m m1) by (split; [by apply bus_simd|done]). clearbody m1.
  pose proof P1 as (H1&_). pose proof H1 as ((_&Hg&_)&(_&_&_&_&_&((Hf&Ef)&_))&(Hr&Er)&_). wp1.
  eapply wpr_mono; [apply (GpuProofs.gpu_tick_wp RAM_SIZE); [by unfold RAM_SIZE|done..]|]. intros [g b] (Hg'&Hb&Eb).
  set (m2 := set_fb b (put_gpu g m1)).
  assert (P2 : tick_post m1 m2) by (split; [apply bus_fb; [by apply bus_gpu|done|done]|done]). clearbody m2.
  clear Hg Hf Ef Hr Er. pose proof P2 as (H2&_). pose proof H2 as ((_&_&Hd&_)&(_&_&_&_&_&((Hf&Ef)&_))&(Hr&Er)&_). wp1.
  eapply wpr_mono; [apply (G3dProofs.g3d_tick_wp RAM_SIZE); [by unfold RAM_SIZE, G3d.Z_BYTES|done..]|].
  intros [[d r] b'] (Hd'&(Hr'&Er')&(Hb'&Eb')). wps.
  eapply tick_post_trans; [by eapply tick_post_trans|].
  split; [|done]. apply bus_fb; [|done|done]. apply bus_ram; [by apply bus_g3d|done].
Qed.

Lemma snoop_tick addr m : bus_ok m -> wp (Virtio.snoop_device_write addr) (fun _ m' => tick_post m m') m.
Proof. intros Hm. unfold Virtio.snoop_device_write. wps. casif; by split. Qed.

(** A device's report of a write, taken: the reservation snoops it and the flag is cleared. *)
Lemma report_wp b addr (clear : machine -> machine) m1 m2 (Q : () -> machine -> Prop) :
  tick_post m1 m2 -> (forall m, bus_ok m -> tick_post m (clear m)) -> (forall m', tick_post m1 m' -> Q () m') ->
  wp (when b (Virtio.snoop_device_write addr;; modify clear)) Q m2.
Proof.
  intros P Hc HQ. wps; [|by apply HQ]. eapply wp_mono; [apply snoop_tick; apply P|]. intros [] m3 P3. wps.
  apply HQ. eapply tick_post_trans; [by eapply tick_post_trans|]. apply Hc. apply P3.
Qed.

Lemma tick_accelerators_wp m (Q : () -> machine -> Prop) :
  bus_ok m -> (forall m', tick_post m m' -> Q () m') -> wp tick_accelerators Q m.
Proof.
  intros Hm HQ. unfold tick_accelerators. wp1. eapply wp_mono; [by apply tick_engines_wp|]. intros [] m1 P1.
  wp1. wp1. wp1. eapply report_wp; [exact P1| |].
  { intros m0 H0. pose proof H0 as ((_&_&Hd&_)&_). split; [|done]. apply bus_g3d; [done|]. by apply g3d_flag_ok. }
  intros m2 P2. wp1. eapply report_wp; [exact P2| |].
  { intros m0 H0. pose proof H0 as ((_&_&Hd&_)&_). split; [|done]. apply bus_g3d; [done|]. by apply g3d_flag_ok. }
  intros m3 P3. wp1. wp1. eapply report_wp; [exact P3| |done].
  intros m0 H0. pose proof H0 as ((_&Hg&_)&_). split; [|done]. apply bus_gpu; [done|]. by apply gpu_flag_ok.
Qed.

(** ** Trap entry *)

Lemma control_mstatus c ms p :
  control_csrs_ok c -> within ms MSTATUS_WRITABLE -> is_priv p -> control_csrs_ok {| c with mstatus := ms; mpp := p |}.
Proof. intros (_&_&H) Hms Hp. exact (conj Hms (conj Hp H)). Qed.

Lemma entry_status_within x clear set1 set2 (b1 b2 : bool) :
  within x MSTATUS_WRITABLE -> within set1 MSTATUS_WRITABLE -> within set2 MSTATUS_WRITABLE ->
  within ((x .& clear) .| (if b1 then set1 else 0) .| (if b2 then set2 else 0)) MSTATUS_WRITABLE.
Proof. intros. apply within_lor; [apply within_lor; [by apply within_land_l|]|]; by apply within_if. Qed.

Lemma enter_handler_ok m cause tval :
  machine_ok m -> is_u32 cause -> is_u32 tval -> machine_ok (enter_handler m cause tval).
Proof.
  intros (Hb&(Hx&H0&Hf&Hfc&Hpc&Hp)&((T1&T2&T3&T4&T5&T6&T7&T8&T9&T10)&Hc&Hpmp)&Hn) Hca Htv.
  pose proof Hc as (Hms&Hmpp&_). unfold enter_handler. cbv zeta. casif; (split; [exact Hb|]).
  - split; [exact (conj Hx (conj H0 (conj Hf (conj Hfc (conj T6 (or_intror (or_introl eq_refl)))))))|].
    split; [|exact Hn]. split; [|split; [|exact Hpmp]].
    + exact (conj T1 (conj T2 (conj T3 (conj T4 (conj T5 (conj T6 (conj Hpc (conj Hca (conj Htv T10))))))))).
    + apply (control_mstatus (csr m)); [exact Hc| |exact Hmpp]. by apply entry_status_within.
  - split; [exact (conj Hx (conj H0 (conj Hf (conj Hfc (conj T1 (or_intror (or_intror eq_refl)))))))|].
    split; [|exact Hn]. split; [|split; [|exact Hpmp]].
    + exact (conj T1 (conj Hpc (conj Hca (conj Htv (conj T5 (conj T6 (conj T7 (conj T8 (conj T9 T10))))))))).
    + apply (control_mstatus (csr m)); [exact Hc| |exact Hp].
      apply within_lor; [by apply within_land_l|by apply within_if].
Qed.

Lemma machine_counters m c : machine_ok m -> counters_ok c -> machine_ok (upd_counters (fun _ => c) m).
Proof. intros (Hb&Hh&Hc&_) Hn. exact (conj Hb (conj Hh (conj Hc Hn))). Qed.

(** The count and the trace line of a step. *)
Definition counted (m m' : machine) : Prop :=
  hart m' = hart m /\ csr m' = csr m /\ halt m' = halt m /\ virtio m' = virtio m
  /\ steps (counters m') = u64 (steps (counters m) + 1) /\ limit (counters m') = limit (counters m)
  /\ retired (counters m') = retired (counters m) /\ traps (counters m') = traps (counters m)
  /\ interrupts (counters m') = interrupts (counters m) /\ in_trap (counters m') = in_trap (counters m)
  /\ exists line, trace (counters m') = option_map (fun l => l ++ [line]) (trace (counters m)).

Lemma count_step_wp line m (Q : () -> machine -> Prop) :
  machine_ok m -> (forall m', machine_ok m' -> counted m m' -> Q () m') -> wp (count_step line) Q m.
Proof.
  intros Hm HQ. pose proof Hm as (Hb&Hh&Hc&(N1&N2&N3&N4)). unfold count_step. wps. apply HQ.
  - exact (conj Hb (conj Hh (conj Hc (conj (u64_range _) (conj N2 (conj N3 N4)))))).
  - repeat (split; [done|]). by eexists.
Qed.

Lemma machine_tick m m' : machine_ok m -> tick_post m m' -> machine_ok m'.
Proof. intros Hm (B&U&_). by eapply machine_ok_untouched. Qed.

Lemma count_after_tick m1 m2 m3 : tick_post m1 m2 -> counted m2 m3 ->
  steps (counters m3) = u64 (steps (counters m1) + 1) /\ limit (counters m3) = limit (counters m1)
  /\ retired (counters m3) = retired (counters m1) /\ traps (counters m3) = traps (counters m1)
  /\ interrupts (counters m3) = interrupts (counters m1) /\ in_trap (counters m3) = in_trap (counters m1)
  /\ exists line, trace (counters m3) = option_map (fun l => l ++ [line]) (trace (counters m1)).
Proof. intros (_&(_&_&E&_)&_) (_&_&_&_&C). by rewrite E in *. Qed.

(** The way into a handler that [trap] and [take_interrupt] share. *)
Lemma entry_wp line cause tval (o : outcome) (count : counters_state -> counters_state) m :
  machine_ok m -> is_u32 cause -> is_u32 tval -> (o = Trapped \/ o = Interrupted) ->
  (forall c, counters_ok c -> counters_ok (count c) /\ moved o c (count c) /\
     steps (count c) = steps c /\ limit (count c) = limit c /\ trace (count c) = trace c) ->
  wp (tick_accelerators;; count_step line;; c ← gets counters;
      if in_trap c then modify (double_fault cause tval)
      else modify (upd_counters count);; modify (fun m => enter_handler m cause tval))
     (fun _ m' => machine_ok m' /\ accounted m m') m.
Proof.
  intros Hm Hc Ht Ho Hcount. wp1. apply tick_accelerators_wp; [by destruct Hm|]. intros m1 P1. wp1.
  apply count_step_wp; [by eapply machine_tick|]. intros m2 H2 C2. wp1. wp1.
  destruct (count_after_tick _ _ _ P1 C2) as (Es&El&Er&Et&Ei&Eb&(ln&Ex)). wps.
  - split; [exact H2|]. split; [exact Es|]. split; [exact El|]. split; [by exists ln|].
    exists DoubleFault. split; [exact (conj Er (conj Et (conj Ei H)))|]. split; [congruence|done].
  - destruct (Hcount (counters m2)) as (Hok & (M1&M2&M3&M4) & E1 & E2 & E3); [apply H2|].
    set (m3 := upd_counters count m2).
    assert (H3 : machine_ok m3) by (exact (machine_counters m2 (count (counters m2)) H2 Hok)).
    split; [by apply enter_handler_ok|].
    assert (E4 : counters (enter_handler m3 cause tval) = count (counters m2)) by (unfold enter_handler; cbv zeta; by casif).
    unfold accounted. rewrite E4. cbv zeta. rewrite E1, E2, E3. split; [done|]. split; [done|]. split; [by exists ln|].
    exists o. unfold moved. rewrite M1, M2, M3, M4, Er, Et, Ei. split; [done|].
    rewrite <- Eb. destruct Ho as [-> | ->]; exact H.
Qed.

Lemma trap_wp word cause tval m :
  machine_ok m -> is_u32 cause -> is_u32 tval ->
  wp (trap word cause tval) (fun _ m' => machine_ok m' /\ accounted m m') m.
Proof.
  intros Hm Hc Ht. apply (entry_wp _ cause tval Trapped); [done|done|done|by left|].
  intros c (N1&N2&N3&N4). split; [exact (conj N1 (conj N2 (conj (u64_range _) N4)))|]. done.
Qed.

Lemma take_interrupt_wp code m :
  machine_ok m -> 0 <= code < 32 -> wp (take_interrupt code) (fun _ m' => machine_ok m' /\ accounted m m') m.
Proof.
  intros Hm Hc. apply (entry_wp _ (INTERRUPT .| code) 0 Interrupted); [done| |done|by right|].
  - apply lor_u32; [done|]. unfold is_u32. lia.
  - intros c (N1&N2&N3&N4). split; [exact (conj N1 (conj N2 (conj N3 (u64_range _))))|]. done.
Qed.

(** ** Instructions *)

Definition quiet (m : machine) : Prop := mem_read (effects m) = false /\ mem_write (effects m) = false.

(** What executing an instruction leaves for the end of the step. *)
Definition exec_post (word : Z) (m : machine) (f : flow) (m' : machine) : Prop :=
  machine_ok m' /\
  match f with
  | Retire next result _ _ =>
      aligned4 next /\ is_u32 result /\ counters m' = counters m /\
      (mem_read (effects m') && mem_write (effects m') = true -> op_of word = 0x2f)
  | Illegal => counters m' = counters m
  | Left_ => accounted m m'
  end.

Lemma illegal_post word m : machine_ok m -> exec_post word m Illegal m.
Proof. by split. Qed.

Lemma next_aligned pc0 : aligned4 pc0 -> aligned4 (u32 (pc0 + 4)).
Proof. unfold aligned4, is_u32, u32. intros [Hr Ha]. split; [zlia|intros HA; specialize (Ha HA); zlia]. Qed.

(** An instruction that retires without a memory access. *)
Lemma retire_post word m next result rd fd :
  machine_ok m -> quiet m -> aligned4 next -> is_u32 result -> exec_post word m (Retire next result rd fd) m.
Proof. intros Hm (Er & Ew) Hn Hr. split; [done|]. rewrite Er. split; [done|]. split; [done|]. by split. Qed.

Lemma trapped_wp word cause tval m0 m :
  machine_ok m -> counters m = counters m0 -> is_u32 cause -> is_u32 tval ->
  wp (trapped word cause tval) (exec_post word m0) m.
Proof.
  intros Hm E Hc Ht. unfold trapped. wp1. eapply wp_mono; [by apply trap_wp|]. intros [] m' [H' A]. wps.
  split; [done|]. unfold accounted in *. by rewrite <- E.
Qed.

Lemma jump_wp word target k m :
  machine_ok m -> quiet m -> is_u32 target ->
  (forall t, aligned4 t -> exec_post word m (k t) m) -> wp (jump word target k) (exec_post word m) m.
Proof.
  intros Hm Hq Ht Hk. unfold jump. wps; [by apply trapped_wp|]. apply Hk. split; [done|]. intros _.
  rewrite <- (Z.land_ones _ 2) by lia. by apply tst_false.
Qed.

Lemma field_range x : 0 <= x .& 31 < 32.
Proof. pose proof (land_range x 31). lia. Qed.

Lemma reg_u32 l i : regs_ok l -> 0 <= i < 32 -> is_u32 (at_ l i).
Proof. intros [Hl Hf] Hi. apply (at_Forall is_u32); [done|lia]. Qed.

Lemma xreg_wp i m (Q : Z -> machine -> Prop) :
  machine_ok m -> 0 <= i < 32 -> (forall v, is_u32 v -> Q v m) -> wp (xreg i) Q m.
Proof.
  intros (_&(Hx&_)&_) Hi HQ. unfold xreg. wps. apply wpr_aget; [destruct Hx; lia|]. apply HQ. by apply reg_u32.
Qed.
Lemma freg_wp i m (Q : Z -> machine -> Prop) :
  machine_ok m -> 0 <= i < 32 -> (forall v, is_u32 v -> Q v m) -> wp (freg i) Q m.
Proof.
  intros (_&(_&_&Hf&_)&_) Hi HQ. unfold freg. wps. apply wpr_aget; [destruct Hf; lia|]. apply HQ. by apply reg_u32.
Qed.

Lemma zero_u32 : is_u32 0.
Proof. done. Qed.
#[local] Hint Resolve zero_u32 : rv32.

Lemma exec_control_wp word pc0 m :
  machine_ok m -> quiet m -> is_u32 word -> aligned4 pc0 -> wp (exec_control word pc0) (exec_post word m) m.
Proof.
  intros Hm Hq Hw Hpc. unfold exec_control. cbv zeta. wp1.
  apply xreg_wp; [done|apply field_range|]. intros a Ha. wp1. apply xreg_wp; [done|apply field_range|]. intros b Hb.
  pose proof (next_aligned pc0 Hpc) as Hn.
  assert (H4 : forall t, aligned4 t -> exec_post word m (Retire t (u32 (pc0 + 4)) true false) m)
    by (intros; apply retire_post; auto with rv32).
  wps; try (by apply illegal_post); try (apply retire_post; auto with rv32).
  - apply jump_wp; auto with rv32.
  - apply jump_wp; auto with rv32.
  - destruct (branch_taken _ _ _) as [[|]|]; wps; [|by apply retire_post|by apply illegal_post].
    apply jump_wp; auto with rv32. intros. by apply retire_post.
Qed.

Lemma b2z_u32 b : is_u32 (Z.b2z b).
Proof. by destruct b. Qed.

Lemma shr_u32 v k : is_u32 v -> is_u32 (v .>> (k .& 31)).
Proof. intros Hv. pose proof (land_range k 31). apply shiftr_u32; [lia|done]. Qed.

Lemma muldiv_u32 f3 a b : is_u32 a -> is_u32 b -> is_u32 (muldiv f3 a b).
Proof.
  intros Ha Hb. unfold muldiv. repeat casif; auto with rv32; try done; bools; unfold is_u32 in *.
  - split; [apply Z.div_pos; lia|]. apply Z.le_lt_trans with a; [|lia]. apply Z.div_le_upper_bound; nia.
  - pose proof (Z.mod_pos_bound a b). lia.
Qed.

(** The range of an ALU result. *)
Ltac alu := first [apply u32_range | apply b2z_u32 | by apply lxor_u32 | by apply lor_u32 | by apply land_u32
  | by apply shr_u32 | by apply muldiv_u32].

Lemma op_imm_u32 word a v : is_u32 a -> op_imm word a = Some v -> is_u32 v.
Proof.
  intros Ha E. unfold op_imm in E. cbv zeta in E. pose proof (u32_range (imm_i word)) as Hi.
  repeat match type of E with (if ?b then _ else _) = _ => destruct b end; try discriminate; injection E as <-; alu.
Qed.

Lemma op_reg_u32 word a b v : is_u32 a -> is_u32 b -> op_reg word a b = Some v -> is_u32 v.
Proof.
  intros Ha Hb E. unfold op_reg in E. cbv zeta in E.
  destruct (funct7_of word =? 1); [apply Some_inj in E as <-; alu|].
  destruct (negb _ && negb _); [discriminate|]. apply Some_inj in E as <-.
  repeat match goal with |- is_u32 (if ?c then _ else _) => destruct c end; alu.
Qed.

(** ** Memory instructions *)

Lemma width_in f3 : f3 .& 3 <> 3 -> In (width_of f3) [1; 2; 4].
Proof.
  intros Hne. unfold width_of. pose proof (land_range f3 3).
  assert (E : f3 .& 3 = 0 \/ f3 .& 3 = 1 \/ f3 .& 3 = 2) by lia. destruct E as [->|[->| ->]]; cbn; auto.
Qed.

Lemma load_cause_u32 {A} (a : mem_access A) : is_u32 (load_cause a).
Proof. by destruct a. Qed.
Lemma store_cause_u32 {A} (a : mem_access A) : is_u32 (store_cause a).
Proof. by destruct a. Qed.

Lemma machine_data {A} (P : A -> Prop) m a m' : machine_ok m -> BusProofs.data_post P m a m' -> machine_ok m'.
Proof. intros Hm (B&U&_). by eapply machine_ok_untouched. Qed.

(** Retiring after an access that noted itself. *)
Lemma retire_after word m m' next result rd fd (e : effects_state -> effects_state) :
  machine_ok m' -> untouched m m' -> aligned4 next -> is_u32 result ->
  (mem_read (e (effects m)) && mem_write (e (effects m)) = true -> op_of word = 0x2f) ->
  exec_post word m (Retire next result rd fd) (upd_effects e m').
Proof.
  intros Hm' (Eh&Ec&En&Ee) Hn Hr He. split; [exact Hm'|]. split; [done|]. split; [done|]. split; [exact En|].
  change (effects (upd_effects e m')) with (e (effects m')). by rewrite Ee.
Qed.

Lemma load_value_u32 f3 v : is_u32 v -> is_u32 (load_value f3 v).
Proof. intros. unfold load_value. repeat casif; auto with rv32. Qed.

Lemma exec_load_wp word pc0 m :
  machine_ok m -> quiet m -> aligned4 pc0 -> wp (exec_load word pc0) (exec_post word m) m.
Proof.
  intros Hm [Hq1 Hq2] Hpc. unfold exec_load. cbv zeta. wp1; [wps; by apply illegal_post|]. bools. wp1.
  apply xreg_wp; [done|apply field_range|]. intros a Ha. wp1.
  assert (Hw : funct3_of word .& 3 <> 3).
  { assert (Hr : 0 <= funct3_of word <= 7) by (apply land_range; lia). intros E.
    assert (Hc : funct3_of word = 0 \/ funct3_of word = 1 \/ funct3_of word = 2 \/ funct3_of word = 4 \/ funct3_of word = 5)
      by lia. destruct Hc as [Hc|[Hc|[Hc|[Hc|Hc]]]]; by rewrite Hc in E. }
  eapply wp_mono; [apply BusProofs.load_wp; [apply Hm|apply u32_range|by apply width_in]|].
  intros status m' [D _]. pose proof (machine_data _ _ _ _ Hm D) as Hm'. destruct D as (_&U&Hv).
  destruct status as [[value pa]| | |]; try (apply trapped_wp; [done|apply U|apply load_cause_u32|apply u32_range]).
  destruct Hv as [Hv _]. unfold note_read. wps. apply retire_after; [done|done|by apply next_aligned|by apply load_value_u32|].
  cbn. by rewrite Hq2.
Qed.

Context `{SVF : ServeFuel}.

Lemma exec_store_wp word pc0 m :
  machine_ok m -> quiet m -> serves m -> aligned4 pc0 -> wp (exec_store word pc0) (exec_post word m) m.
Proof.
  intros Hm [Hq1 Hq2] Hs Hpc. unfold exec_store. cbv zeta. wp1; [wps; by apply illegal_post|]. bools. wp1.
  apply xreg_wp; [done|apply field_range|]. intros a Ha. wp1.
  assert (Hr : 0 <= funct3_of word <= 2) by (pose proof (land_range (word .>> 12) 7); unfold funct3_of in *; lia).
  assert (Hw : funct3_of word .& 3 <> 3).
  { assert (Hc : funct3_of word = 0 \/ funct3_of word = 1 \/ funct3_of word = 2) by lia.
    destruct Hc as [->|[->| ->]]; done. }
  assert (Hrest : forall b, is_u32 b ->
    wp (status ← store (u32 (a + imm_s word)) (width_of (funct3_of word))
          (if width_of (funct3_of word) =? 4 then b else b .& ((1 .<< (8 * width_of (funct3_of word))) - 1));
        match status with
        | ACC_OK _ =>
            note_write (u32 (a + imm_s word))
              (if width_of (funct3_of word) =? 4 then b else b .& ((1 .<< (8 * width_of (funct3_of word))) - 1))
              (width_of (funct3_of word));;
            mret (Retire (u32 (pc0 + 4)) 0 false false)
        | other => trapped word (store_cause other) (u32 (a + imm_s word))
        end) (exec_post word m) m).
  { intros b Hb. set (value := if width_of (funct3_of word) =? 4 then b else b .& ((1 .<< (8 * width_of (funct3_of word))) - 1)).
    assert (Hv : is_u32 value) by (unfold value; casif; auto with rv32). wp1.
    eapply wp_mono; [apply BusProofs.store_wp; [apply Hm|done|apply u32_range|done|by apply width_in]|].
    intros status m' D. pose proof (machine_data _ _ _ _ Hm D) as Hm'. destruct D as (_&U&_).
    destruct status; try (apply trapped_wp; [done|apply U|apply store_cause_u32|apply u32_range]).
    unfold note_write. wps. apply retire_after; [done|done|by apply next_aligned|done|]. cbn. by rewrite Hq1. }
  wp1; [apply freg_wp|apply xreg_wp]; try done; apply field_range.
Qed.

Lemma exec_lr_wp word pc0 addr m :
  machine_ok m -> quiet m -> is_u32 addr -> aligned4 pc0 -> wp (exec_lr word pc0 addr) (exec_post word m) m.
Proof.
  intros Hm [Hq1 Hq2] Ha Hpc. unfold exec_lr. wp1.
  eapply wp_mono; [apply BusProofs.load_wp; [apply Hm|done|cbn; auto]|].
  intros status m' [D _]. pose proof (machine_data _ _ _ _ Hm D) as Hm'. destruct D as (_&U&Hv).
  destruct status as [[value pa]| | |]; try (apply trapped_wp; [done|apply U|apply load_cause_u32|done]).
  destruct Hv as [Hv _]. unfold note_read. wps.
  refine (retire_after word m m' _ value true false _ Hm' U (next_aligned _ Hpc) Hv _). cbn. by rewrite Hq2.
Qed.

Lemma exec_sc_wp word pc0 addr b m :
  machine_ok m -> quiet m -> serves m -> is_u32 addr -> is_u32 b -> aligned4 pc0 ->
  wp (exec_sc word pc0 addr b) (exec_post word m) m.
Proof.
  intros Hm [Hq1 Hq2] Hs Ha Hb Hpc. unfold exec_sc. cbv zeta. wp1. wp1.
  assert (Hfail : exec_post word m (Retire (u32 (pc0 + 4)) 1 true false)
                    (upd_resv (fun r => {| r with reserved := false |}) m)).
  { split; [exact Hm|]. split; [by apply next_aligned|]. split; [done|]. split; [done|]. cbn. by rewrite Hq1. }
  wp1; [by apply trapped_wp|]. wp1; [wps; exact Hfail|]. wp1.
  apply BusProofs.physical_wp; [apply Hm|done|]. intros [p| | |] Hp; try (by apply trapped_wp).
  wp1; [wps; exact Hfail|]. wp1.
  eapply wp_mono; [apply BusProofs.store_wp; [apply Hm|done|done|done|cbn; auto]|].
  intros status m' D. pose proof (machine_data _ _ _ _ Hm D) as Hm'. destruct D as (_&U&_).
  destruct status; try (apply trapped_wp; [done|apply U|done|done]).
  unfold note_write. wps. refine (retire_after word m m' _ 0 true false _ Hm' U (next_aligned _ Hpc) _ _); [done|].
  cbn. by rewrite Hq1.
Qed.

Lemma exec_rmw_wp word pc0 addr funct5 b m :
  machine_ok m -> serves m -> is_u32 addr -> is_u32 b -> aligned4 pc0 -> op_of word = 0x2f ->
  amo_valid funct5 (rs2_of word) = true -> (funct5 =? AMO_LR) = false -> (funct5 =? AMO_SC) = false ->
  wp (exec_rmw word pc0 addr funct5 b) (exec_post word m) m.
Proof.
  intros Hm Hs Ha Hb Hpc Hop Hv Hlr Hsc. unfold exec_rmw. wp1.
  eapply wp_mono; [apply (BusProofs.amo_wp addr funct5 (rs2_of word)); [done|done|done|apply Hm|done|done|done]|].
  intros status m' D. pose proof (machine_data _ _ _ _ Hm D) as Hm'. destruct D as (_&U&Hr).
  destruct status as [[old value]| | |]; try (apply trapped_wp; [done|apply U|done|done]).
  destruct Hr as [Hr _]. unfold note_read, note_write. wps.
  split; [exact Hm'|]. split; [by apply next_aligned|]. split; [exact Hr|]. split; [apply U|by intros _].
Qed.

Lemma exec_amo_wp word pc0 m :
  machine_ok m -> quiet m -> serves m -> aligned4 pc0 -> op_of word = 0x2f ->
  wp (exec_amo word pc0) (exec_post word m) m.
Proof.
  intros Hm Hq Hs Hpc Hop. unfold exec_amo. cbv zeta. wp1; [wps; by apply illegal_post|].
  match goal with H : _ || _ = false |- _ => apply orb_false_iff in H as [_ Hv]; apply negb_false_iff in Hv end. wp1.
  apply xreg_wp; [done|apply field_range|]. intros a Ha. wp1. apply xreg_wp; [done|apply field_range|]. intros b Hb.
  wps; [by apply exec_lr_wp|by apply exec_sc_wp|by apply exec_rmw_wp].
Qed.

(** ** Floating point *)

Context `{SF : SoftFloat} {SFO : Fp.SoftFloatOk SF}.

(** A 32-bit result with SoftFloat's five exception bits. *)
Definition fp_ok (r : Z * Z) : Prop := is_u32 (fst r) /\ 0 <= snd r < 32.

Lemma lor_flags a b : 0 <= a < 32 -> 0 <= b < 32 -> 0 <= a .| b < 32.
Proof. apply (lor_range 5). lia. Qed.

Lemma minmax_ok a b mx : is_u32 a -> is_u32 b -> fp_ok (Fp.minmax a b mx).
Proof.
  intros Ha Hb. unfold Fp.minmax. cbv zeta. pose proof (Fp.sf_lt_quiet a b) as Hl.
  set (inv := if Fp.snan32 a || Fp.snan32 b then Fp.softfloat_flag_invalid else 0).
  assert (Hi : 0 <= inv < 32) by (unfold inv, Fp.softfloat_flag_invalid; casif; lia). clearbody inv.
  casif; [split; [by destruct (Fp.nan32 b)|done]|]. casif; [done|].
  casif; [split; [cbn; casif; auto with rv32|done]|].
  destruct (f32_lt_quiet a b) as [less fl]. split; [cbn; by casif|by apply lor_flags].
Qed.

Lemma of_bool_ok r : 0 <= snd r < 32 -> fp_ok (Fp.of_bool r).
Proof. intros. split; [apply b2z_u32|done]. Qed.

Lemma rv32_fp_wp op rm a b c :
  0 <= op <= 17 -> rm <= 4 -> is_u32 a -> is_u32 b -> is_u32 c -> wpr (Fp.rv32_fp op rm a b c) fp_ok.
Proof.
  intros Hop Hrm Ha Hb Hc. unfold Fp.rv32_fp. wp1.
  { exfalso. match goal with H : _ || _ = true |- _ => apply orb_true_iff in H as [H|H] end;
      apply Z.ltb_lt in H; unfold Fp.OP_MAX in *; lia. }
  assert (Hfin : forall r, fp_ok r -> fp_ok (fst r, u8 (snd r))).
  { intros [v fl] [Hv Hfl]. split; [done|]. cbn in *. rewrite u8_id by (unfold is_u8; lia). lia. }
  assert (Hto : forall r, 0 <= snd r < 32 -> fp_ok (let '(v, fl) := r in (u32 v, fl))).
  { intros [v fl] Hfl. split; [apply u32_range|done]. }
  wps; try apply Hfin; try apply of_bool_ok; try apply Hto; try (by apply minmax_ok); try apply Fp.sf_add; try apply Fp.sf_sub;
    try apply Fp.sf_mul; try apply Fp.sf_mulAdd; try apply Fp.sf_div; try apply Fp.sf_sqrt; try apply Fp.sf_i32;
    try apply Fp.sf_ui32; try apply Fp.sf_to_i32; try apply Fp.sf_to_ui32; try apply Fp.sf_eq; try apply Fp.sf_lt;
    try apply Fp.sf_le.
  bools. unfold Fp.OP_ADD, Fp.OP_SUB, Fp.OP_MUL, Fp.OP_FMADD, Fp.OP_FMSUB, Fp.OP_FNMSUB, Fp.OP_FNMADD, Fp.OP_DIV,
    Fp.OP_SQRT, Fp.OP_I32_TO_F32, Fp.OP_U32_TO_F32, Fp.OP_F32_TO_I32, Fp.OP_F32_TO_U32, Fp.OP_EQ, Fp.OP_LT, Fp.OP_LE,
    Fp.OP_MIN, Fp.OP_MAX in *. lia.
Qed.

Definition plan_ok (p : fp_plan) : Prop := 0 <= fp_op p <= 17 /\ is_u32 (fp_a p) /\ is_u32 (fp_result p).

Lemma fclass_u32 fa : is_u32 (fclass fa).
Proof. unfold fclass. cbv zeta. by repeat casif. Qed.

Lemma fsgnj_u32 f3 fa fb : is_u32 fa -> is_u32 fb -> is_u32 (fsgnj f3 fa fb).
Proof.
  intros Ha Hb. unfold fsgnj. apply lor_u32; [by apply land_u32|]. apply land_u32. repeat casif; auto with rv32.
Qed.

Definition float_op (op : Z) : Prop := In op [0x43; 0x47; 0x4b; 0x4f; 0x53].

Lemma fp_decode_ok word a fa fb p :
  float_op (op_of word) -> is_u32 a -> is_u32 fa -> is_u32 fb -> fp_decode word a fa fb = Some p -> plan_ok p.
Proof.
  intros Hop Ha Hfa Hfb E. unfold fp_decode in E. cbv zeta in E.
  pose proof (fclass_u32 fa). pose proof (fsgnj_u32 (funct3_of word) fa fb Hfa Hfb).
  assert (Hfused : op_of word <> 0x53 -> 0 <= Fp.OP_FMADD + ((op_of word - 0x43) .>> 2) <= 17).
  { unfold float_op in Hop. cbn in Hop. destruct Hop as [<-|[<-|[<-|[<-|[<-|[]]]]]]; by vm_compute. }
  repeat match type of E with (if ?b then _ else _) = _ => destruct b eqn:? end; try discriminate;
    apply Some_inj in E as <-; (split; [cbn [fp_op]|split; [done|cbn [fp_result]; try done; by casif]]);
    try (repeat casif; done).
  apply Hfused. bools. done.
Qed.

Lemma exec_float_wp word pc0 m :
  machine_ok m -> quiet m -> aligned4 pc0 -> is_u32 word -> float_op (op_of word) ->
  wp (exec_float word pc0) (exec_post word m) m.
Proof.
  intros Hm [Hq1 Hq2] Hpc Hw Hop. unfold exec_float.
  wp1. apply xreg_wp; [done|apply field_range|]. intros a Ha.
  wp1. apply freg_wp; [done|apply field_range|]. intros fa Hfa. wp1. apply freg_wp; [done|apply field_range|]. intros fb Hfb.
  wp1. apply freg_wp; [done| |].
  { unfold is_u32 in Hw. rewrite Z.shiftr_div_pow2 by lia. change (2 ^ 27) with 134217728. zlia. }
  intros fc Hfc. wp1. wp1. destruct (fp_decode word a fa fb) as [p|] eqn:E; [|wps; by apply illegal_post].
  destruct (fp_decode_ok _ _ _ _ _ Hop Ha Hfa Hfb E) as (Ho & Hpa & Hr). cbv zeta.
  wp1; [wps; by apply illegal_post|]. wp1; [|wps; apply retire_post; [done|done|by apply next_aligned|done]]. wp1. wp1.
  eapply wpr_mono; [apply rv32_fp_wp; try done; bools; lia|]. intros [result flags] [Hres Hfl]. wps.
  destruct Hm as (Hb&(Hx&H0'&Hf&Hfc'&Hpc')&Hc). split.
  - split; [exact Hb|]. split; [|exact Hc]. split; [exact Hx|]. split; [exact H0'|]. split; [exact Hf|]. split; [|exact Hpc'].
    apply (lor_range 8); [lia|exact Hfc'|]. cbn in Hfl. lia.
  - split; [by apply next_aligned|]. split; [done|]. split; [done|]. cbn. by rewrite Hq1.
Qed.

(** ** SYSTEM *)

Lemma mret_ok m : machine_ok m -> machine_ok (mret_state m).
Proof.
  intros (Hb&(Hx&H0&Hf&Hfc&Hpc&Hp)&(Ht&(C1&C2&C3)&Hpmp)&Hn). split; [exact Hb|].
  split; [exact (conj Hx (conj H0 (conj Hf (conj Hfc (conj Hpc C2)))))|]. split; [|exact Hn].
  split; [exact Ht|]. split; [|exact Hpmp]. split; [|exact (conj (or_introl eq_refl) C3)].
  unfold mret_state. cbn [csr mstatus].
  assert (W : within ((mstatus (csr m) .& not32 MSTATUS_MIE) .| MSTATUS_MPIE
     .| (if tst (mstatus (csr m) .& MSTATUS_MPIE) then MSTATUS_MIE else 0)) MSTATUS_WRITABLE).
  { apply within_lor; [apply within_lor; [by apply within_land_l|done]|by apply within_if]. }
  casif; [done|by apply within_land_l].
Qed.

Lemma sret_ok m : machine_ok m -> machine_ok (sret_state m).
Proof.
  intros (Hb&(Hx&H0&Hf&Hfc&Hpc&Hp)&(Ht&(C1&C2&C3)&Hpmp)&Hn). split; [exact Hb|].
  split. { split; [exact Hx|]. split; [exact H0|]. split; [exact Hf|]. split; [exact Hfc|]. split; [exact Hpc|].
    cbn [hart priv sret_state]. casif; [right; by left|by left]. }
  split; [|exact Hn]. split; [exact Ht|]. split; [|exact Hpmp]. split; [|exact (conj C2 C3)].
  apply within_lor; [apply within_lor; [by apply within_land_l|done]|by apply within_if].
Qed.

Lemma exec_priv_wp word pc0 m :
  machine_ok m -> quiet m -> aligned4 pc0 -> wp (exec_priv word pc0) (exec_post word m) m.
Proof.
  intros Hm Hq Hpc. pose proof Hq as [Hq1 Hq2]. unfold exec_priv. cbv zeta. wp1. wp1.
  assert (Hkeep : forall m' next, machine_ok m' -> counters m' = counters m -> effects m' = effects m -> aligned4 next ->
    exec_post word m (Retire next 0 false false) m').
  { intros m' next H' Ec Ee Hn. split; [done|]. split; [done|]. split; [done|]. split; [done|].
    rewrite Ee. by rewrite Hq1. }
  pose proof Hm as (_&_&((_&T2&_&_&_&_&T7&_)&_)&_). pose proof (next_aligned _ Hpc). unfold id.
  wps.
  - apply trapped_wp; [done|done| |done]. by repeat casif.
  - apply trapped_wp; [done|done|done|apply Hpc].
  - apply Hkeep; [by apply mret_ok|done|done|done].
  - apply Hkeep; [by apply sret_ok|done|done|done].
  - by apply Hkeep.
  - by apply Hkeep.
  - by apply illegal_post.
Qed.

Lemma csr_written_frame m number v :
  counters (CsrProofs.csr_written m number v) = counters m /\ mem_read (effects (CsrProofs.csr_written m number v)) = mem_read (effects m)
  /\ mem_write (effects (CsrProofs.csr_written m number v)) = mem_write (effects m).
Proof. unfold CsrProofs.csr_written. by repeat (casif || destruct (fcsr_value _ _ _)). Qed.

Lemma exec_csr_wp word pc0 m :
  machine_ok m -> quiet m -> aligned4 pc0 -> wp (exec_csr word pc0) (exec_post word m) m.
Proof.
  intros Hm Hq Hpc. unfold exec_csr. wp1. wp1. unfold id. wp1. apply xreg_wp; [done|apply field_range|]. intros a Ha. cbv zeta.
  wp1; [wps; by apply illegal_post|]. wp1. wp1. rewrite CsrProofs.csr_read_eq by done. cbn [wpr].
  destruct (CsrProofs.csr_value m (word .>> 20)) as [old|] eqn:Er; [|wps; by apply illegal_post].
  pose proof (CsrProofs.csr_value_ok _ _ _ Hm Er) as Hold.
  assert (Hop : is_u32 (if tst (funct3_of word .& 4) then rs1_of word else a)).
  { casif; [|done]. pose proof (field_range (word .>> 15)). unfold rs1_of, is_u32. lia. }
  set (operand := if tst (funct3_of word .& 4) then rs1_of word else a) in *. clearbody operand.
  assert (Hw : forall v, is_u32 v -> exec_post word m (Retire (u32 (pc0 + 4)) old true false) (CsrProofs.csr_written m (word .>> 20) v)).
  { intros v Hv. destruct (csr_written_frame m (word .>> 20) v) as (E1&E2&E3). destruct Hq as [Hq1 Hq2].
    split; [by apply CsrProofs.csr_written_ok|]. split; [by apply next_aligned|]. split; [done|]. split; [done|].
    rewrite E2. by rewrite Hq1. }
  pose proof (next_aligned _ Hpc).
  wps; try (by apply illegal_post); try (by apply retire_post);
    rewrite CsrProofs.csr_write_eq by done; cbn [wpr]; apply Hw; auto with rv32.
Qed.

(** ** The switch *)

Lemma execute_insn_wp word pc0 m :
  machine_ok m -> quiet m -> serves m -> is_u32 word -> aligned4 pc0 -> wp (execute word pc0) (exec_post word m) m.
Proof.
  intros Hm Hq Hs Hw Hpc. unfold execute. cbv zeta. wp1. wp1. pose proof (next_aligned _ Hpc).
  wp1; [wps; by apply illegal_post|]. wp1; [by apply exec_control_wp|]. wp1; [by apply exec_load_wp|].
  wp1; [by apply exec_store_wp|]. wp1; [apply exec_amo_wp; try done; by apply Z.eqb_eq|].
  wp1.
  { wp1. apply xreg_wp; [done|apply field_range|]. intros a Ha. wps.
    destruct (op_imm word a) as [v|] eqn:E; [|by apply illegal_post]. apply retire_post; [done|done|done|].
    by eapply op_imm_u32. }
  wp1.
  { wp1. apply xreg_wp; [done|apply field_range|]. intros a Ha. wp1. apply xreg_wp; [done|apply field_range|]. intros b Hb. wps.
    destruct (op_reg word a b) as [v|] eqn:E; [|by apply illegal_post]. apply retire_post; [done|done|done|].
    by eapply (op_reg_u32 word a b). }
  wp1.
  { apply exec_float_wp; try done. unfold float_op.
    match goal with H : _ || _ = true |- _ => revert H end.
    intros [[[[Eo|Eo]%orb_true_iff|Eo]%orb_true_iff|Eo]%orb_true_iff|Eo]%orb_true_iff;
      apply Z.eqb_eq in Eo; rewrite Eo; cbn; auto 10. }
  wp1; [|wps; by apply illegal_post]. unfold exec_system. wps; [by apply exec_priv_wp|by apply exec_csr_wp].
Qed.

(** ** Retirement *)

Lemma x0_insert l rd v : regs_ok l -> at_ l 0 = 0 -> 0 < rd < 32 -> at_ (<[Z.to_nat rd := v]> l) 0 = 0.
Proof.
  intros [Hl _] H0 Hr. rewrite at_insert by lia. by rewrite (proj2 (Z.eqb_neq rd 0)) by lia.
Qed.

Lemma regs_insert l rd v : regs_ok l -> is_u32 v -> regs_ok (<[Z.to_nat rd := v]> l).
Proof. intros [Hl Hf] Hv. split; [by rewrite length_insert|by apply Forall_insert]. Qed.

(** The writes as a function: the register fields are in range. *)
Definition written_back (rd result : Z) (writes_rd writes_fd : bool) (m : machine) : machine :=
  let m :=
    if writes_fd then
      upd_effects (fun e => {| e with wr_freg := rd |})
        (upd_hart (fun h => {| h with f_ := <[Z.to_nat rd := result]> (f_ h) |}) m)
    else m in
  let m :=
    if writes_fd || wr_fcsr (effects m)
    then upd_csr (fun c => {| c with mstatus := mstatus c .| MSTATUS_FS |}) m else m in
  if writes_rd && negb (rd =? 0) then
    upd_effects (fun e => {| e with wr_reg := rd; wr_value := result |})
      (upd_hart (fun h => {| h with x_ := <[Z.to_nat rd := result]> (x_ h) |}) m)
  else m.

Lemma write_back_eq rd result wrd wfd m :
  machine_ok m -> 0 <= rd < 32 -> write_back rd result wrd wfd m = Ok (written_back rd result wrd wfd m).
Proof.
  intros (_&((Lx&_)&_&(Lf&_)&_)&_) Hr. unfold write_back, written_back. cbv zeta.
  destruct wfd; [rewrite aset_ok by lia|]; cbn [mbind res_bind mret res_ret orb].
  - destruct (wrd && _); [|done]. rewrite aset_ok by (cbn; lia). done.
  - destruct (wr_fcsr _), (wrd && _); try done; rewrite aset_ok by (cbn; lia); done.
Qed.

Lemma written_back_ok rd result wrd wfd m :
  machine_ok m -> 0 <= rd < 32 -> is_u32 result ->
  machine_ok (written_back rd result wrd wfd m)
  /\ counters (written_back rd result wrd wfd m) = counters m
  /\ mem_read (effects (written_back rd result wrd wfd m)) = mem_read (effects m)
  /\ mem_write (effects (written_back rd result wrd wfd m)) = mem_write (effects m).
Proof.
  intros (Hb&(Hx&H0&Hf&Hrest)&(Ht&(C1&C2)&Hp)&Hn) Hr Hres.
  pose proof (regs_insert _ rd result Hf Hres) as Hf'. pose proof (regs_insert _ rd result Hx Hres) as Hx'.
  assert (W : within (mstatus (csr m) .| MSTATUS_FS) MSTATUS_WRITABLE) by (by apply within_lor).
  assert (Hc : csr_ok (csr m)) by (exact (conj Ht (conj (conj C1 C2) Hp))).
  assert (Hc' : csr_ok {| (csr m) with mstatus := mstatus (csr m) .| MSTATUS_FS |}) by (exact (conj Ht (conj (conj W C2) Hp))).
  assert (Hx0 : negb (rd =? 0) = true -> at_ (<[Z.to_nat rd := result]> (x_ (hart m))) 0 = 0).
  { intros E. bools. apply x0_insert; [done|done|lia]. }
  unfold written_back. cbv zeta. destruct wfd; cbn [orb].
  - destruct wrd; cbn [andb]; [casif|]; (split; [|done]); (split; [exact Hb|]); (split; [|exact (conj Hc' Hn)]).
    + exact (conj Hx' (conj (Hx0 eq_refl) (conj Hf' Hrest))).
    + exact (conj Hx (conj H0 (conj Hf' Hrest))).
    + exact (conj Hx (conj H0 (conj Hf' Hrest))).
  - destruct (wr_fcsr (effects m)); (destruct wrd; cbn [andb]; [casif|]); (split; [|done]); (split; [exact Hb|]);
      (split; [first [exact (conj Hx (conj H0 (conj Hf Hrest))) | exact (conj Hx' (conj (Hx0 eq_refl) (conj Hf Hrest)))]|]);
      first [exact (conj Hc Hn) | exact (conj Hc' Hn)].
Qed.

Lemma retire_wp word pc0 next result wrd wfd m :
  machine_ok m -> aligned4 next -> is_u32 result ->
  (mem_read (effects m) && mem_write (effects m) = true -> op_of word = 0x2f) ->
  wp (retire word pc0 next result wrd wfd) (fun _ m' => machine_ok m' /\ accounted m m') m.
Proof.
  intros Hm Hn Hr Hone. unfold retire. wp1. wp1.
  rewrite write_back_eq by (done || apply field_range). cbn [wpr].
  destruct (written_back_ok (rd_of word) result wrd wfd m) as (H1 & Ec & Er & Ew); [done|apply field_range|done|].
  set (m1 := written_back _ _ _ _ m) in *. clearbody m1. wp1. wp1. rewrite Er, Ew. wp1.
  match goal with |- context [if ?b then stuck else mret ()] => assert (Eb : b = false) end.
  { destruct (mem_read (effects m) && mem_write (effects m)); [|done]. by rewrite Hone. }
  rewrite Eb. wp1. wp1. apply tick_accelerators_wp; [by destruct H1|]. intros m2 P2. pose proof (machine_tick _ _ H1 P2) as H2.
  wp1. wp1. set (m3 := upd_counters _ m2).
  assert (H3 : machine_ok m3).
  { destruct H2 as (Hb&Hh&Hc&(N1&N2&N3&N4)). exact (conj Hb (conj Hh (conj Hc (conj N1 (conj (u64_range _) (conj N3 N4)))))). }
  assert (E3 : counters m3 = {| (counters m) with retired := u64 (retired (counters m) + 1); in_trap := false |}).
  { unfold m3. cbn [upd_counters counters]. destruct P2 as (_&(_&_&E&_)&_). by rewrite E, Ec. }
  clearbody m3. wp1. apply count_step_wp; [done|]. intros m4 H4 (_&_&_&_&S4&L4&R4&T4&I4&B4&(ln&X4)). wps. split.
  - destruct H4 as (Hb&(Hx&H0&Hf&Hfc&_&Hp)&Hc). exact (conj Hb (conj (conj Hx (conj H0 (conj Hf (conj Hfc (conj Hn Hp))))) Hc)).
  - rewrite E3 in *. split; [exact S4|]. split; [exact L4|]. split; [by exists ln|].
    exists Retired. split; [|done]. exact (conj R4 (conj T4 (conj I4 B4))).
Qed.

(** ** Interrupts and the fetch *)

Lemma mie_bits n : Z.testbit MIE_MASK n = true -> In n irq_order.
Proof.
  intros H. assert (Hn : 0 <= n). { destruct (Z.lt_ge_cases n 0); [by rewrite Z.testbit_neg_r in H|done]. }
  assert (Hs : n < 12).
  { destruct (Z.lt_ge_cases n 12); [done|]. rewrite Z.bits_above_log2 in H; [done|by vm_compute|].
    change (Z.log2 MIE_MASK) with 11. lia. }
  rewrite <- (Z2Nat.id n Hn) in *. assert (Hk : (Z.to_nat n < 12)%nat) by lia. revert H Hk. generalize (Z.to_nat n) as k.
  intros k H Hk. do 12 (destruct k as [|k]; [first [discriminate H|cbn; auto 10]|]). lia.
Qed.

Lemma first_interrupt_some enabled :
  within enabled MIE_MASK -> tst enabled = true ->
  exists code, first_interrupt enabled = Some code /\ In code irq_order /\ Z.testbit enabled code = true.
Proof.
  intros Hw Ht. apply tst_true in Ht. unfold first_interrupt.
  destruct (List.find _ irq_order) as [code|] eqn:E.
  - apply find_some in E as [Hin Hb]. exists code. split; [done|]. split; [done|].
    rewrite tst_shiftr_1 in Hb; [done|]. cbn in Hin. unfold IRQ_MEI, IRQ_MSI, IRQ_MTI, IRQ_SEI, IRQ_SSI, IRQ_STI in Hin. lia.
  - exfalso. apply Ht. apply Z.bits_inj'. intros n Hn. rewrite Z.bits_0.
    destruct (Z.testbit enabled n) eqn:Eb; [|done].
    pose proof (mie_bits n (within_bit _ _ _ Hw Eb)) as Hin.
    apply (find_none _ _ E) in Hin. by rewrite tst_shiftr_1, Eb in Hin.
Qed.

Lemma enabled_within m : machine_ok m -> within (enabled_interrupts m) MIE_MASK.
Proof.
  intros (_&_&Hc&_). pose proof (CsrProofs.mip_now_within m Hc) as Hmip. unfold enabled_interrupts. cbv zeta.
  assert (Hp : within (if in_trap (counters m) then 0 else mip_now m .& mie (csr m)) MIE_MASK)
    by (apply within_if; [done|by apply within_land_l]).
  apply within_if; apply within_if; try done; by apply within_land_l.
Qed.

Lemma irq_order_range code : In code irq_order -> 0 <= code < 32.
Proof. cbn. unfold IRQ_MEI, IRQ_MSI, IRQ_MTI, IRQ_SEI, IRQ_SSI, IRQ_STI. lia. Qed.

(** The cause of a failed fetch, or the word. *)
Lemma fetch_wp m pc0 :
  machine_ok m -> is_u32 pc0 ->
  wpr (fetch m pc0) (fun r => match r with inl word => is_u32 word | inr cause => is_u32 cause end).
Proof.
  intros Hm Hpc. unfold fetch. wp1; [done|]. wp1.
  eapply wpr_mono; [apply BusProofs.translate_wp; [apply Hm|done]|]. intros a Ha. destruct a as [at0| | |]; try done.
  wp1; [done|]. bools. wp1. apply BusProofs.ram_read_wp; [apply Hm|done|lia|done|].
  apply le_bytes_u32; [apply Hm|cbn; lia].
Qed.

Lemma clear_effects_quiet m : quiet (upd_effects clear_effects m).
Proof. done. Qed.

Lemma step_wp m : machine_ok m -> serves m -> wp step (fun _ m' => machine_ok m' /\ accounted m m') m.
Proof.
  intros Hm Hs. unfold step. wp1. wp1. set (m0 := upd_effects clear_effects m).
  assert (H0 : machine_ok m0) by exact Hm. assert (Q0 : quiet m0) by done. assert (E0 : counters m0 = counters m) by done.
  assert (V0 : virtio m0 = virtio m) by done. clearbody m0. wp1.
  apply DevicesProofs.plic_sample_wp; [apply H0|]. intros m1 B1 U1 V1. pose proof (machine_ok_untouched _ _ H0 B1 U1) as H1.
  assert (Q1 : quiet m1) by (unfold quiet; destruct U1 as (_&_&_&->); done).
  assert (Hacc : forall m', accounted m1 m' -> accounted m m').
  { intros m' A. unfold accounted in *. destruct U1 as (_&_&E1&_). by rewrite E1, E0 in A. }
  assert (S1 : serves m1) by (unfold serves in *; by rewrite V1, V0). clear U1.
  assert (Hpc : aligned4 (pc (hart m1))) by apply H1. wp1. wp1. unfold id. cbv zeta. wp1.
  - destruct (first_interrupt_some (enabled_interrupts m1)) as (code & -> & Hin & _); [by apply enabled_within|done|].
    eapply wp_mono; [apply take_interrupt_wp; [done|by apply irq_order_range]|]. intros [] m' [H' A]. by split; [|apply Hacc].
  - wp1. wp1. eapply wpr_mono; [apply fetch_wp; [done|apply Hpc]|]. intros [word|cause] Hr.
    + unfold execute_and_retire. wp1. eapply wp_mono; [by apply execute_insn_wp|]. intros f m2 [H2 Hf].
      destruct f as [next result wrd wfd| |].
      * destruct Hf as (Hn & Hres & Ec & Hone). eapply wp_mono; [by apply retire_wp|]. intros [] m' [H' A].
        split; [done|]. apply Hacc. unfold accounted in *. by rewrite Ec in A.
      * eapply wp_mono; [by apply trap_wp|]. intros [] m' [H' A]. split; [done|]. apply Hacc.
        unfold accounted in *. by rewrite Hf in A.
      * wps. split; [done|by apply Hacc].
    + eapply wp_mono; [apply trap_wp; [done|done|apply Hpc]|]. intros [] m' [H' A]. split; [done|by apply Hacc].
Qed.

End Rules.
End CpuProofs.
