(* ===== verification/RunProofs.v ===== *)
(** * Runs: the machine starts well-formed and every step keeps it so

    The set-up functions establish the invariant, the steps keep it, and the
    run loop stops where its contract says. *)

From Stdlib Require Import String Sorted.
From S2P Require Import Prelude Effects Buffer Simd4 SimdProofs Gpu GpuProofs G3d G3dProofs Dtb Machine Devices.
From S2P Require Import Virtio Bus Mmu Csr Fp Cpu Run MachineOk DevicesProofs VirtioProofs BusProofs CsrProofs CpuProofs.

Module RunProofs.
Import Bus Mmu Cpu Run.

Section Runs.
Context `{AL : Assumed} {NL : Unlocked AL}.

(** ** Set-up *)

Lemma zeros_u32 n : Forall is_u32 (replicate n 0).
Proof. by apply Forall_replicate. Qed.

Lemma emu_init_hart_ok : hart_ok emu_init_hart.
Proof.
  split; [split; [done|]|]. { repeat apply Forall_insert; [apply zeros_u32|done|done]. }
  split; [done|]. split; [split; [done|apply zeros_u32]|]. split; [done|]. split; [done|]. right. by right.
Qed.

Lemma emu_init_csr_ok : csr_ok emu_init_csr.
Proof.
  split; [done|]. split; [split; [done|]; split; [right; by right|done]|].
  split; [split; (split; [done|]); [by apply Forall_replicate|apply zeros_u32]|]. rewrite no_locks. constructor.
Qed.

Lemma palette_ok : Forall is_u32 (map (fun i => Display.rgb332_word (Z.of_nat i)) (seq 0 256)).
Proof.
  apply List.Forall_forall. intros x Hx.
  assert (H : forallb (fun x => (0 <=? x) && (x <? 0x100000000))
                (map (fun i => Display.rgb332_word (Z.of_nat i)) (seq 0 256)) = true) by (by vm_compute).
  apply (proj1 (forallb_forall _ _) H) in Hx. bools. by split.
Qed.

Lemma emu_init_console_ok : console_ok emu_init_console.
Proof. split; [done|]. split; [done|]. split; [|done]. by apply (Forall_replicate is_u8 6 0). Qed.

Lemma emu_alloc_virtio_ok : virtio_ok emu_alloc_virtio.
Proof.
  split; [split; [split; [by apply buf_zero_ok|done]|done]|]. split; [by left|]. split; [done|].
  split; [apply (zeros_u32 6%nat)|done].
Qed.

Lemma emu_init_ok : machine_ok emu_init.
Proof.
  split; [|split; [apply emu_init_hart_ok|split; [apply emu_init_csr_ok|done]]].
  split; [|split; [|split; [split; [by apply buf_zero_ok|done]|done]]].
  - split; [apply SimdProofs.simd_initial_ok|]. split; [apply GpuProofs.gpu_reset_ok|].
    split; [apply G3dProofs.g3d_initial_ok|done].
  - split; [split; [split; [done|by apply Forall_replicate]|done]|]. split; [done|].
    split; [apply emu_alloc_virtio_ok|]. split; [apply emu_init_console_ok|].
    split; [split; [split; [done|apply zeros_u32]|done]|].
    split; [split; [by apply buf_zero_ok|done]|]. split; [split; [done|apply palette_ok]|done].
Qed.

Lemma emu_load_image_ok `{F : Fuelled} m image base :
  machine_ok m -> wpr (emu_load_image m image base) (fun o =>
    match o with
    | Some (m', n) => machine_ok m' /\ n = Z.of_nat (List.length image) /\ untouched m m'
    | None => True
    end).
Proof.
  intros Hm. pose proof Hm as ((_&_&(Hb&El)&_)&_). unfold emu_load_image. cbv zeta. wps; try done. bools. unfold RAM_BASE, RAM_SIZE in *.
  apply buf_load_keeps; [done|lia|lia|]. intros b' Hb' El'. wps. split; [|done].
  eapply machine_ok_untouched; [done|apply bus_ram; [apply Hm|split; [done|]]|done]. unfold RAM_SIZE. lia.
Qed.

(** What a disk file is read into: the disk, and the file it is written through to. *)
Lemma emu_open_disk_ok `{F : Fuelled} m bytes outcomes :
  machine_ok m -> wpr (emu_open_disk m bytes outcomes) (fun o =>
    match o with Some m' => machine_ok m' /\ disk_size (virtio m') = Z.of_nat (List.length bytes) | None => True end).
Proof.
  intros Hm. pose proof Hm as ((_&(_&_&(((Hb&El)&Hs&_)&Hrest)&_)&_)&_).
  unfold emu_open_disk. cbv zeta. wps; [done|]. bools. unfold VIRTIO_DISK_MAX in *.
  apply buf_load_keeps; [done|lia|lia|]. intros b' Hb' El'. wps.
  apply buf_load_keeps; [apply buf_zero_ok; lia|lia|cbn; lia|]. intros f Hf Ef. wps. split; [|done].
  eapply machine_ok_untouched; [done| |done].
  refine (bus_virtio m (proj1 Hm) {| (virtio m) with disk := _; disk_size := _; file := _ |} _).
  split; [|exact Hrest]. split; [split; [done|cbn [disk]; unfold VIRTIO_DISK_MAX; lia]|]. split; [split; [cbn [disk_size]; unfold VIRTIO_DISK_MAX; lia|done]|]. split; [done|done].
Qed.

(** The console's file of input lines and its prompt. *)
Lemma console_input_ok c path c' :
  console_ok c -> (forall bytes, path = Some bytes -> Forall is_u8 bytes) -> emu_read_console_input c path = Some c' ->
  console_ok c'.
Proof.
  intros Hc Hp E. unfold emu_read_console_input in E. pose proof Hc as ((Hi&Hn)&Hrest). destruct path as [bytes|].
  - injection E as <-. split; [|exact Hrest]. split; [apply Forall_app; split; [done|by apply Hp]|].
    cbn [console_in_next console_in]. rewrite length_app. lia.
  - destruct (tst _); [done|]. injection E as <-. exact Hc.
Qed.

Lemma console_prompt_ok c prompt c' : console_ok c -> Console.emu_set_console_prompt c prompt = Some c' -> console_ok c'.
Proof.
  intros Hc E. unfold Console.emu_set_console_prompt in E. pose proof Hc as (Hi&Hh&Hr&Hp&Ht&Hl&Hrest).
  destruct (console_stdin c); [done|]. destruct (_ || _) eqn:Eb; [done|]. injection E as <-.
  apply orb_false_iff in Eb as [_ Eb]. apply Z.ltb_ge in Eb. rewrite Hp in Eb.
  split; [exact Hi|]. split; [exact Hh|]. split; [exact Hr|].
  split; [cbn [console_prompt]; rewrite length_app, length_drop, Hp; lia|]. split; [exact Ht|].
  split; [cbn [console_prompt_len]; lia|exact Hrest].
Qed.

(** ** The input script *)

(** The key table and the numeric form both give a code of the queue's 32 keys. *)
Lemma emu_key_code_range t : -1 <= emu_key_code t < 32.
Proof.
  unfold emu_key_code. cbv zeta. destruct (_ || _); [lia|].
  destruct (List.find _ KEY_NAMES) as [[name code]|] eqn:E.
  - apply find_some in E as [Hin _].
    assert (H : forallb (fun k => (-1 <=? snd k) && (snd k <? 32)) KEY_NAMES = true) by (by vm_compute).
    apply (proj1 (forallb_forall _ _) H) in Hin. bools. cbn in *. lia.
  - destruct (negb (decimal_ok t)) eqn:Ed; [lia|]. apply negb_false_iff in Ed.
    destruct (Z.ltb_spec (decimal t) 32); [|lia]. split; [|lia].
    unfold decimal_ok in Ed. cbv zeta in Ed. destruct (_ || _); [done|]. unfold decimal.
    assert (Hp : forall v, 0 <= v -> 0 <= fold_left (fun v c => 10 * v + (c - 48)) t v).
    { revert Ed. clear. induction t as [|c t IH]; intros Ed v Hv; [done|]. cbn in *. bools. unfold isdigit in *. bools.
      apply IH; [done|lia]. }
    specialize (Hp 0). lia.
Qed.

(** A script event: valid, one of 32 keys, pressed or released. *)
Definition event_ok (e : scripted_event) : Prop :=
  exists code, 0 <= code < 32 /\ (se_event e = EVENT_VALID + code \/ se_event e = EVENT_VALID + EVENT_PRESS + code).

Lemma event_bits down code : 0 <= code < 32 ->
  EVENT_VALID .| (if down : bool then EVENT_PRESS else 0) .| code = EVENT_VALID + (if down then EVENT_PRESS else 0) + code.
Proof.
  intros Hc. assert (H : forall k, (k < 32)%nat ->
    EVENT_VALID .| (if down : bool then EVENT_PRESS else 0) .| Z.of_nat k = EVENT_VALID + (if down then EVENT_PRESS else 0) + Z.of_nat k).
  { intros k Hk. do 32 (destruct k as [|k]; [by destruct down|]). lia. }
  specialize (H (Z.to_nat code)). rewrite Z2Nat.id in H by lia. apply H. lia.
Qed.

Lemma script_line_ok last line e :
  script_line last line = Some (Some e) -> event_ok e /\ last <= se_frame e.
Proof.
  unfold script_line. destruct (255 <=? _); [done|]. destruct (scan_words 5 line) as [|keyword rest]; [done|].
  destruct (bool_decide (keyword !! 0%nat = Some 35)); [done|].
  destruct rest as [|ft [|dir [|key [|? ?]]]]; try done. cbv zeta.
  set (down := bool_decide (dir = text_of "down")). clearbody down.
  destruct (decimal_ok ft && _ && _ && _ && _) eqn:E; [|done]. intros [= <-]. bools.
  pose proof (emu_key_code_range key). cbn [se_event se_frame]. split; [|done].
  exists (emu_key_code key). split; [lia|]. cbn [se_event]. rewrite event_bits by lia. destruct down; [by right|left; lia].
Qed.

(** Every event a script gives is well formed, and the frames never decrease. *)
Lemma read_script_ok lines last events :
  read_script lines last = Some events ->
  Forall event_ok events /\ Forall (fun e => last <= se_frame e) events
  /\ StronglySorted (fun a b => se_frame a <= se_frame b) events.
Proof.
  revert last events. induction lines as [|line lines IH]; intros last events E; cbn [read_script] in E.
  - injection E as <-. repeat split; constructor.
  - destruct (script_line last line) as [[e|]|] eqn:El; [|by apply IH|done].
    destruct (read_script lines (se_frame e)) as [es|] eqn:Er; [|done]. injection E as <-.
    destruct (script_line_ok _ _ _ El) as [He Hl]. destruct (IH _ _ Er) as (H1 & H2 & H3).
    split; [by constructor|]. split.
    + constructor; [done|]. eapply Forall_impl; [|exact H2]. intros. cbv beta in *. lia.
    + by constructor.
Qed.

Lemma event_ok_u32 e : event_ok e -> is_u32 (se_event e).
Proof. intros (code & Hc & [->| ->]); unfold is_u32, EVENT_VALID, EVENT_PRESS; lia. Qed.

Lemma input_script_ok i lines i' : input_ok i -> emu_read_input_script i lines = Some i' -> input_ok i'.
Proof.
  intros (Hq&Hh&Hc&Hk&Hs&Hn) E. unfold emu_read_input_script in E.
  destruct (read_script lines 0) as [events|] eqn:Er; [|done]. injection E as <-.
  destruct (read_script_ok _ _ _ Er) as (He & _). split; [exact Hq|]. split; [exact Hh|]. split; [exact Hc|]. split; [exact Hk|].
  split.
  - cbn [script]. apply Forall_app. split; [exact Hs|]. eapply Forall_impl; [|exact He]. intros. by apply event_ok_u32.
  - unfold Input.scripted in *. cbn [script next_scripted]. rewrite length_app. lia.
Qed.

(** ** Reachable machines *)

(** What a front end may do before the first step (rv32emu.c's [main]). *)
Inductive set_up : machine -> Prop :=
| set_up_init : set_up emu_init
| set_up_image m m' image base n :
    set_up m -> emu_load_image m image base = Ok (Some (m', n)) -> set_up m'
| set_up_disk m m' bytes outcomes :
    set_up m -> emu_open_disk m bytes outcomes = Ok (Some m') -> set_up m'
| set_up_console m c' path :
    set_up m -> (forall bytes, path = Some bytes -> Forall is_u8 bytes) ->
    emu_read_console_input (console m) path = Some c' -> set_up (upd_console (fun _ => c') m)
| set_up_stdin m chunks :
    set_up m -> Forall (from_option (Forall is_u8) True) chunks ->
    set_up (upd_console (fun c => {| c with host_stdin := chunks |}) m)
| set_up_prompt m c' prompt :
    set_up m -> Console.emu_set_console_prompt (console m) prompt = Some c' -> set_up (upd_console (fun _ => c') m)
| set_up_script m i' lines :
    set_up m -> emu_read_input_script (input m) lines = Some i' -> set_up (upd_input (fun _ => i') m)
| set_up_start m entry n tr :
    set_up m -> aligned4 entry ->
    set_up (upd_counters (fun c => {| c with limit := n; trace := tr |}) (upd_hart (fun h => {| h with pc := entry |}) m)).

Lemma set_up_ok m : set_up m -> machine_ok m.
Proof.
  induction 1 as [|m m' image base n _ IH E|m m' bytes outcomes _ IH E|m c' path _ IH Hp E|m chunks _ IH Hc
                  |m c' prompt _ IH E|m i' lines _ IH E|m entry n tr _ IH He].
  - apply emu_init_ok.
  - pose proof (@emu_load_image_ok total m image base IH) as W. rewrite E in W. apply W.
  - pose proof (@emu_open_disk_ok total m bytes outcomes IH) as W. rewrite E in W. apply W.
  - eapply machine_ok_untouched; [done|apply bus_console; [apply IH|]|done].
    eapply console_input_ok; [|done|exact E]. apply IH.
  - eapply machine_ok_untouched; [done| |done]. pose proof IH as ((_&(_&_&_&(C1&_&C3)&_)&_)&_).
    refine (bus_console m (proj1 IH) {| (console m) with host_stdin := chunks |} _). exact (conj C1 (conj Hc C3)).
  - eapply machine_ok_untouched; [done|apply bus_console; [apply IH|]|done].
    eapply console_prompt_ok; [|exact E]. apply IH.
  - eapply machine_ok_untouched; [done|apply bus_input; [apply IH|]|done].
    eapply input_script_ok; [|exact E]. apply IH.
  - destruct IH as (Hb&(Hx&H0&Hf&Hfc&_&Hp)&Hc). exact (conj Hb (conj (conj Hx (conj H0 (conj Hf (conj Hfc (conj He Hp))))) Hc)).
Qed.

Section Steps.
Context `{SVF : ServeFuel} `{SF : SoftFloat} {SFO : Fp.SoftFloatOk SF}.

(** Steps, and what a front end does between them: the window queues a key
    (rv32win.c) or stops the machine, the run loop ends it at its limit, the
    debugger writes memory or a CSR. *)
Inductive reachable : machine -> Prop :=
| reach_start m : set_up m -> reachable m
| reach_step m m' : reachable m -> step m = Ok ((), m') -> reachable m'
| reach_key m frame event i' :
    reachable m -> is_u32 event -> Input.emu_queue_event (input m) frame event = Ok i' -> reachable (upd_input (fun _ => i') m)
| reach_halt m h : reachable m -> reachable {| m with halt := h |}
| reach_poke m addr bytes m' : reachable m -> emu_debug_write m addr bytes = Ok (Some m') -> reachable m'
| reach_csr m number v m' : reachable m -> is_u32 v -> Csr.emu_csr_write m number v = Ok (Some m') -> reachable m'.

Lemma debug_bytes_some a n arr p : debug_bytes a n = Some (arr, p) -> 0 <= n ->
  0 <= p /\ p + n <= match arr with DebugRam => RAM_SIZE | DebugFb => FB_SIZE end.
Proof. unfold debug_bytes. cbv zeta. repeat casif; bools; intros [=] Hn; subst; lia. Qed.

Lemma emu_debug_write_ok `{F : Fuelled} m addr bytes :
  machine_ok m -> wpr (emu_debug_write m addr bytes) (fun o => match o with Some m' => machine_ok m' | None => True end).
Proof.
  intros Hm. pose proof Hm as ((_&(_&_&_&_&_&(Hf&Ef)&_)&(Hb&El)&_)&_). unfold emu_debug_write.
  destruct (debug_bytes addr (Z.of_nat (List.length bytes))) as [[arr q]|] eqn:E; [|wps; done].
  apply debug_bytes_some in E as [Hq Hl]; [|lia]. destruct arr; wps; (apply buf_load_keeps; [done|lia|lia|]);
    intros b' Hb' El'; wps; (eapply machine_ok_untouched; [done| |done]).
  - apply bus_ram; [apply Hm|]. split; [done|lia].
  - apply bus_fb; [apply Hm|done|lia].
Qed.

Lemma reachable_ok m : reachable m -> machine_ok m.
Proof.
  induction 1 as [m Hs|m m' _ IH E|m frame event i' _ IH He E|m h _ IH|m addr bytes m' _ IH E|m number v m' _ IH Hv E].
  - by apply set_up_ok.
  - apply (wp_ok _ _ _ _ _ (@CpuProofs.step_wp _ partial _ _ _ m IH (or_introl I)) E).
  - eapply machine_ok_untouched; [done|apply bus_input; [apply IH|]|done].
    assert (Hi : input_ok (input m)) by apply IH.
    pose proof (@DevicesProofs.queue_event_wp total (input m) frame event Hi He) as W. rewrite E in W. apply W.
  - exact IH.
  - pose proof (@emu_debug_write_ok total m addr bytes IH) as W. rewrite E in W. exact W.
  - unfold Csr.emu_csr_write in E. rewrite CsrProofs.csr_read_eq in E by done. cbn [mbind res_bind] in E.
    destruct (CsrProofs.csr_value m number); [|done]. destruct (_ || _); [done|].
    rewrite CsrProofs.csr_write_eq in E by done. injection E as <-. by apply CsrProofs.csr_written_ok.
Qed.


(** a step of a well-formed machine returns, unless it may serve the disk's
    queue: when no driver has the queue ready, [step] gives a machine, well
    formed again, whose step count moved by one with one trace line, and exactly
    one of: an instruction retired, a trap was taken, an interrupt was taken, or
    (a second trap before the handler's first instruction retired) a double
    fault, which is what stops it. *)
Theorem step_total m :
  machine_ok m -> serving (virtio m) = false ->
  exists m', step m = Ok ((), m') /\ machine_ok m' /\ CpuProofs.accounted m m'.
Proof.
  intros Hm Hs. destruct (wp_total _ _ _ (@CpuProofs.step_wp _ total _ _ _ m Hm (or_intror Hs))) as ([] & m' & E & H).
  by exists m'.
Qed.
(** ** The run loop *)

(** [n] steps. *)
Inductive steps_to : nat -> machine -> machine -> Prop :=
| steps_refl m : steps_to 0 m m
| steps_more n m m1 m2 : step m = Ok ((), m1) -> steps_to n m1 m2 -> steps_to (S n) m m2.

Lemma steps_to_0 m m' : steps_to 0 m m' -> m' = m.
Proof. by inversion 1. Qed.

(** [n] turns of the run loop that went on: the machine was running, below its
    limit and below the budget's end, and its step presented no frame. *)
Inductive went_on (frames0 end0 : Z) : nat -> machine -> machine -> Prop :=
| went_here m : went_on frames0 end0 0 m m
| went_more n m m1 m2 :
    halt m = RUNNING -> steps (counters m) < limit (counters m) -> steps (counters m) < end0 ->
    step m = Ok ((), m1) -> frames (display m1) = frames0 -> went_on frames0 end0 n m1 m2 -> went_on frames0 end0 (S n) m m2.

(** Why a run stopped, and the machine [m'] it left, from the machine [m] its last turn found. *)
Definition stops_at (frames0 end0 : Z) (stop : emu_stop) (m m' : machine) : Prop :=
  let now := steps (counters m) in
  match stop with
  | EMU_STOP_HALTED =>
      halt m <> RUNNING /\ m' = m \/
      halt m = RUNNING /\ limit (counters m) <= now /\ m' = {| m with halt := HALT_LIMIT |}
  | EMU_STOP_BUDGET => halt m = RUNNING /\ now < limit (counters m) /\ end0 <= now /\ m' = m
  | EMU_STOP_PRESENTED =>
      halt m = RUNNING /\ now < limit (counters m) /\ now < end0 /\ step m = Ok ((), m') /\ frames (display m') <> frames0
  end.
Definition stopped (frames0 end0 : Z) (stop : emu_stop) (m m' : machine) : Prop :=
  exists n m1, went_on frames0 end0 n m m1 /\ stops_at frames0 end0 stop m1 m'.

Lemma stopped_now frames0 end0 stop m m' : stops_at frames0 end0 stop m m' -> stopped frames0 end0 stop m m'.
Proof. intros H. exists 0%nat, m. split; [constructor|exact H]. Qed.

Lemma run_loop_spec fuel frames0 end0 m :
  machine_ok m -> end0 <= UINT64_MAX -> Z.max 0 (end0 - steps (counters m)) < Z.of_nat fuel ->
  (forall n m', Z.of_nat n < end0 - steps (counters m) -> steps_to n m m' -> step m' <> NoFuel) ->
  exists stop m', run_loop fuel frames0 end0 m = Ok (stop, m') /\ machine_ok m' /\ stopped frames0 end0 stop m m'
    /\ steps (counters m) <= steps (counters m') <= Z.max end0 (steps (counters m)).
Proof.
  revert m. induction fuel as [|fuel IH]; intros m Hm Hend Hfuel Hserve; [lia|].
  cbn [run_loop]. unfold mbind, st_bind, gets at 1. cbv beta iota. unfold id.
  assert (Hhalt : halt m <> RUNNING -> exists stop m', Ok (EMU_STOP_HALTED, m) = Ok (stop, m') /\ machine_ok m'
    /\ stopped frames0 end0 stop m m' /\ steps (counters m) <= steps (counters m') <= Z.max end0 (steps (counters m))).
  { intros Hh. eexists _, m. split; [reflexivity|]. split; [exact Hm|]. split; [apply stopped_now; by left|lia]. }
  destruct (halt m) eqn:Eh; try (by apply Hhalt).
  destruct (Z.leb_spec (limit (counters m)) (steps (counters m))) as [Hl|Hl].
  { eexists _, _. split; [reflexivity|]. split; [exact Hm|]. split; [apply stopped_now; by right|]. cbn. lia. }
  destruct (Z.leb_spec end0 (steps (counters m))) as [He|He].
  { eexists _, m. split; [reflexivity|]. split; [exact Hm|]. split; [by apply stopped_now|]. lia. }
  pose proof (@CpuProofs.step_wp _ partial _ _ _ m Hm (or_introl I)) as Hstep. unfold wp in Hstep.
  destruct (step m) as [[[] m1]| |] eqn:Es; [|done|by destruct (Hserve 0%nat m ltac:(lia) (steps_refl m))].
  destruct Hstep as [H1 (S1 & _)].
  assert (E1 : steps (counters m1) = steps (counters m) + 1).
  { rewrite S1. apply u64_id. unfold UINT64_MAX in Hend. destruct Hm as (_&_&_&((?&?)&_)). unfold is_u64. lia. }
  cbn [gets]. destruct (Z.eqb_spec (frames (display m1)) frames0) as [Ef|Ef]; cbn [negb].
  - destruct (IH m1 H1 Hend) as (stop & m' & Er & Hm' & (n & m2 & Hw & Hst) & Hs); [lia| |].
    + intros n m2 Hn Hm2. apply (Hserve (S n)); [lia|by eapply steps_more].
    + exists stop, m'. split; [exact Er|]. split; [done|]. split; [|lia].
      exists (S n), m2. split; [by eapply went_more|exact Hst].
  - eexists _, m1. split; [reflexivity|]. split; [done|]. split; [by apply stopped_now|]. lia.
Qed.

Lemma budget_end_range now budget :
  is_u64 now -> is_u64 budget ->
  now <= budget_end now budget <= UINT64_MAX /\ budget_end now budget = Z.min UINT64_MAX (now + budget).
Proof.
  unfold budget_end, is_u64, UINT64_MAX. intros Hn Hb. casif; bools; [lia|]. rewrite u64_id by (unfold is_u64; lia). lia.
Qed.

(** C19: the run loop keeps its contract.  With fuel for the steps of the budget,
    and as long as no step of it runs out of the fuel for serving the disk's
    queue, [emu_run_until] returns.  Every turn before the last found the machine
    running, below the instruction limit and the budget's end, and its step
    presented no frame.  The last turn found it halted, and left it as it was; or
    at the limit, and halted it with the reason LIMIT; or running at the budget's
    end, and left it running; or took a step after which the frame count differs.
    Nothing runs past the budget, even when the budget would carry the step count
    past 64 bits. *)
Theorem run_until_stops fuel budget m :
  machine_ok m -> is_u64 budget -> budget < Z.of_nat fuel ->
  (forall n m', Z.of_nat n < budget -> steps_to n m m' -> step m' <> NoFuel) ->
  exists stop m', emu_run_until fuel budget m = Ok (stop, m') /\ machine_ok m'
    /\ stopped (frames (display m)) (Z.min UINT64_MAX (steps (counters m) + budget)) stop m m'
    /\ steps (counters m) <= steps (counters m') <= Z.min UINT64_MAX (steps (counters m) + budget).
Proof.
  intros Hm Hb Hfuel Hserve. pose proof Hm as (_&_&_&(Hs&_)).
  destruct (budget_end_range _ _ Hs Hb) as [Hr E].
  change (emu_run_until fuel budget m) with
    (run_loop fuel (frames (display m)) (budget_end (steps (counters m)) budget) m).
  rewrite E in *. destruct (run_loop_spec fuel (frames (display m)) (Z.min UINT64_MAX (steps (counters m) + budget)) m)
    as (stop & m' & Er & Hm' & Hst & Hle); [done|lia|lia| |].
  { intros n m' Hn. apply Hserve. lia. }
  exists stop, m'. split; [done|]. split; [done|]. split; [done|]. lia.
Qed.

End Steps.

End Runs.

(** ** Alignment *)

(** from an aligned start the program counter stays a multiple of four, so
    the misaligned-fetch guard of [step] is never taken: the next step's fetch
    does not answer CAUSE_FETCH_MISALIGNED. *)
Theorem pc_stays_aligned `{SVF : ServeFuel} `{SF : SoftFloat} {SFO : Fp.SoftFloatOk SF} m :
  @reachable aligned_start SVF SF m ->
  pc (hart m) mod 4 = 0 /\ fetch m (pc (hart m)) <> Ok (inr CAUSE_FETCH_MISALIGNED).
Proof.
  intros Hr0. pose proof (@reachable_ok aligned_start _ SVF SF SFO m Hr0) as Hm. destruct Hm as (Hb & (_&_&_&_&[Hr Ha]&_) & _). specialize (Ha I).
  split; [done|]. unfold fetch. change 3 with (Z.ones 2). rewrite Z.land_ones by lia. change (2 ^ 2) with 4. rewrite Ha.
  change (tst 0) with false. unfold CAUSE_FETCH_MISALIGNED, CAUSE_FETCH_FAULT, CAUSE_FETCH_PAGE_FAULT. cbv iota. intros E.
  destruct (translate m (pc (hart m)) WALK_FETCH (priv (hart m))) as [[a| | |]| |]; cbn in E; try discriminate E.
  destruct (_ || _); [discriminate E|]. by destruct (ram_read m a 4).
Qed.

(** ** Examples *)

(** A floating-point unit that answers +0 with no flag, and fuel for ten requests. *)
Definition zero_float : SoftFloat := {|
  f32_add := fun _ _ _ => (0, 0); f32_sub := fun _ _ _ => (0, 0); f32_mul := fun _ _ _ => (0, 0);
  f32_mulAdd := fun _ _ _ _ => (0, 0); f32_div := fun _ _ _ => (0, 0); f32_sqrt := fun _ _ => (0, 0);
  i32_to_f32 := fun _ _ => (0, 0); ui32_to_f32 := fun _ _ => (0, 0); f32_to_i32 := fun _ _ => (0, 0);
  f32_to_ui32 := fun _ _ => (0, 0); f32_eq := fun _ _ => (true, 0); f32_lt := fun _ _ => (false, 0);
  f32_le := fun _ _ => (true, 0); f32_lt_quiet := fun _ _ => (false, 0) |}.
Definition ten : ServeFuel := 10%nat.

Lemma zero_float_ok : Fp.SoftFloatOk zero_float.
Proof. by constructor. Qed.

(** lui a0, 0x5; addi a0, a0, 0x555; lui a1, 0x100; sw a0, 0(a1): write DONE_PASS. *)
Definition pass_image : list Z := [0x37; 0x55; 0; 0; 0x13; 0x05; 0x55; 0x55; 0xb7; 0x05; 0x10; 0; 0x23; 0xa0; 0xa5; 0].

(** The machine with the image loaded, and about to start. *)
Definition loaded : machine :=
  match emu_load_image emu_init pass_image RAM_BASE with Ok (Some (m, _)) => m | _ => emu_init end.
Definition booted : machine :=
  upd_counters (fun c => {| c with limit := 100; trace := None |}) (upd_hart (fun h => {| h with pc := RAM_BASE |}) loaded).

Lemma loaded_image : emu_load_image emu_init pass_image RAM_BASE = Ok (Some (loaded, 16)).
Proof. by vm_compute. Qed.

Lemma booted_set_up `{AL : Assumed} : set_up booted.
Proof.
  apply set_up_start; [exact (set_up_image _ _ _ _ _ set_up_init loaded_image)|].
  split; [by unfold is_u32, RAM_BASE|by intros _].
Qed.


Lemma step_total_witness :
  exists m', @step ten zero_float booted = Ok ((), m') /\ CpuProofs.accounted booted m'.
Proof.
  destruct (@step_total any_start ten zero_float zero_float_ok booted (set_up_ok _ booted_set_up) eq_refl) as (m' & E & _ & A).
  exists m'. split; [exact E|exact A].
Defined.

Lemma pc_stays_aligned_witness : fetch booted (pc (hart booted)) <> Ok (inr CAUSE_FETCH_MISALIGNED).
Proof.
  exact (proj2 (@pc_stays_aligned ten zero_float zero_float_ok booted (reach_start _ booted_set_up))).
Defined.

Lemma booted_steps : @step ten zero_float booted <> NoFuel.
Proof. vm_compute. discriminate. Qed.

Lemma run_until_stops_witness :
  exists stop m', @emu_run_until ten zero_float 2 1 booted = Ok (stop, m') /\ @stopped ten zero_float 0 1 stop booted m'.
Proof.
  destruct (@run_until_stops any_start ten zero_float zero_float_ok 2 1 booted (set_up_ok _ booted_set_up)
    (conj (Z.le_0_1) eq_refl) eq_refl) as (stop & m' & E & _ & S & _).
  - intros [|n] m' Hn Hs; [rewrite (steps_to_0 _ _ Hs); exact booted_steps|lia].
  - exists stop, m'. split; [exact E|exact S].
Defined.

End RunProofs.
