(* ===== verification/DeviceSpecs.v ===== *)
(** * What the devices compute

    The PLIC's claim and its gateways, the input queue against a bounded FIFO,
    the console's prompt gate against the bytes sent, and the CLINT's time. *)

From S2P Require Import Prelude Effects Buffer Simd4 SimdProofs Gpu GpuProofs G3d G3dProofs Dtb Machine Devices.
From S2P Require Import Virtio Bus Mmu Csr Fp Cpu Run MachineOk DevicesProofs.

Module DeviceSpecs.

(** ** Bits *)

Lemma pow2_u32 v : 0 <= v < 32 -> u32 (1 .<< v) = 1 .<< v /\ is_u32 (1 .<< v).
Proof.
  intros Hv. assert (H : is_u32 (1 .<< v)).
  { rewrite Z.shiftl_1_l. unfold is_u32. change 0x100000000 with (2 ^ 32).
    split; [apply Z.pow_nonneg; lia|apply Z.pow_lt_mono_r; lia]. }
  split; [by apply u32_id|done].
Qed.

Lemma pow2_bit v n : 0 <= v -> Z.testbit (1 .<< v) n = (v =? n).
Proof. intros Hv. rewrite Z.shiftl_1_l. by apply Z.pow2_bits_eqb. Qed.

Lemma one_bit n : 0 <= n -> Z.testbit 1 n = (n =? 0).
Proof. intros Hn. change 1 with (2 ^ 0). rewrite Z.pow2_bits_eqb by done. apply Z.eqb_sym. Qed.

(** ** PLIC *)

(** The state after a claim answered [v]. *)
Definition claimed (p : plic_state) (v : Z) : plic_state :=
  {| p with plic_claimed := plic_claimed p .| (u32 (1 .<< v) .& not32 1);
            plic_latched := plic_latched p .& not32 (u32 (1 .<< v)) |}.

Lemma plic_claim_eq p :
  Plic.plic_load_reg p Plic.PLIC_CLAIM 4 = Ok (ACC_OK (Plic.plic_best p), claimed p (Plic.plic_best p)).
Proof. unfold claimed, Plic.plic_load_reg. generalize (Plic.plic_best p). intros v. reflexivity. Qed.

(** Which bits of the claimed and of the latched sources a claim of [v] leaves. *)
Lemma claimed_bits p v id :
  0 <= v < 32 -> 0 <= id < 32 ->
  Z.testbit (plic_latched (claimed p v)) id = Z.testbit (plic_latched p) id && negb (id =? v) /\
  Z.testbit (plic_claimed (claimed p v)) id = Z.testbit (plic_claimed p) id || ((id =? v) && negb (v =? 0)).
Proof.
  intros Hv Hid. destruct (pow2_u32 v Hv) as [E Hu]. unfold claimed. rewrite E. cbn [plic_latched plic_claimed].
  rewrite Z.lor_spec, !Z.land_spec, (not32_bit (1 .<< v)), (not32_bit 1), (pow2_bit v), one_bit by (done || lia).
  rewrite (Z.eqb_sym v id). split; [done|]. destruct (Z.eqb_spec id v) as [->|]; done.
Qed.

(** C20: reading the claim register answers the pending, enabled source of the
    highest priority above the threshold, the lowest-numbered of those that tie,
    or 0 when there is none; it drops that source's request and marks it claimed,
    and changes no other source. *)
Theorem plic_claim_correct p :
  exists v p', Plic.plic_load_reg p Plic.PLIC_CLAIM 4 = Ok (ACC_OK v, p') /\ DevicesProofs.best_of p 32 v /\
    (forall id, 0 <= id < 32 ->
       Z.testbit (plic_latched p') id = Z.testbit (plic_latched p) id && negb (id =? v) /\
       Z.testbit (plic_claimed p') id = Z.testbit (plic_claimed p) id || ((id =? v) && negb (v =? 0))) /\
    plic_enable p' = plic_enable p /\ plic_priority p' = plic_priority p /\ plic_threshold p' = plic_threshold p.
Proof.
  exists (Plic.plic_best p), (claimed p (Plic.plic_best p)). split; [apply plic_claim_eq|].
  split; [apply DevicesProofs.plic_best_of|]. split; [|done]. intros id Hid.
  apply claimed_bits; [apply DevicesProofs.plic_best_range|done].
Qed.

(** A step of the PLIC that does not complete source [id]. *)
Inductive plic_step (id : Z) : plic_state -> plic_state -> Prop :=
| plic_samples m m' : Plic.plic_sample m = Ok ((), m') -> plic_step id (plic m) (plic m')
| plic_loads p p' off width a : Plic.plic_load_reg p off width = Ok (a, p') -> plic_step id p p'
| plic_stores p p' off width value a :
    Plic.plic_store_reg p off width value = Ok (a, p') -> is_u32 value -> (off = Plic.PLIC_CLAIM -> value <> id) ->
    plic_step id p p'.

Inductive plic_steps (id : Z) : plic_state -> plic_state -> Prop :=
| plic_steps_nil p : plic_steps id p p
| plic_steps_cons p1 p2 p3 : plic_step id p1 p2 -> plic_steps id p2 p3 -> plic_steps id p1 p3.

(** A source between its claim and its completion. *)
Definition in_service (id : Z) (p : plic_state) : Prop :=
  Z.testbit (plic_claimed p) id = true /\ Z.testbit (plic_latched p) id = false /\ is_u32 (plic_claimed p).

Lemma in_service_keep id p p' : 1 <= id < 32 -> in_service id p -> plic_step id p p' -> in_service id p'.
Proof.
  intros Hid (Hc & Hl & Hu) Hs. destruct Hs as [m m' E|p p' off width a E|p p' off width value a E Hv Hne].
  - injection E as <-. split; [exact Hc|]. split; [|exact Hu].
    cbn [plic upd_plic plic_latched]. rewrite Z.lor_spec, Hl, !Z.land_spec, not32_bit, Hc by (try done; lia).
    by rewrite andb_false_r.
  - unfold Plic.plic_load_reg in E.
    repeat match type of E with (if ?b then _ else _) = _ => destruct b end; try (injection E as _ <-; done).
    + destruct (aget _ _); try discriminate E. by injection E as _ <-.
    + injection E as _ <-. destruct (pow2_u32 _ (DevicesProofs.plic_best_range p)) as [E1 E2].
      split; [cbn [plic_claimed]; by rewrite Z.lor_spec, Hc|].
      split; [cbn [plic_latched]; by rewrite Z.land_spec, Hl|]. cbn [plic_claimed].
      apply lor_u32; [done|]. rewrite E1. by apply land_u32.
  - unfold Plic.plic_store_reg in E.
    repeat match type of E with (if ?b then _ else _) = _ => destruct b eqn:? end; try (injection E as _ <-; done).
    + destruct (aset _ _ _); try discriminate E. by injection E as _ <-.
    + injection E as _ <-.
      match goal with H : _ && _ = true |- _ => apply andb_true_iff in H as [Hr _] end.
      match goal with H : (off =? Plic.PLIC_CLAIM) = true |- _ => apply Z.eqb_eq in H as Hoff end.
      apply Z.ltb_lt in Hr. unfold Plic.PLIC_SOURCES in Hr. assert (Hvr : 0 <= value < 32) by (unfold is_u32 in Hv; lia).
      destruct (pow2_u32 value Hvr) as [_ Hpu].
      split; [|split; [exact Hl|cbn [plic_claimed]; by apply land_u32]]. cbn [plic_claimed].
      rewrite Z.land_spec, Hc, not32_bit, pow2_bit by (try done; lia). specialize (Hne Hoff).
      by rewrite (proj2 (Z.eqb_neq value id)) by lia.
Qed.

(** C21: a claimed source waits for its completion.  After a claim answered [v],
    no sampling of the lines and no sequence of register accesses that does not
    complete [v] makes the PLIC offer [v] again, whatever the device does. *)
Theorem plic_gateway_closed p v p' p'' :
  plic_ok p -> Plic.plic_load_reg p Plic.PLIC_CLAIM 4 = Ok (ACC_OK v, p') -> v <> 0 ->
  plic_steps v p' p'' -> Plic.plic_best p'' <> v.
Proof.
  intros Hp E Hv0 Hs.
  rewrite plic_claim_eq in E. pose proof (DevicesProofs.plic_best_range p) as Hr. injection E as Ev Ep.
  rewrite Ev in *. clear Ev. subst p'. destruct (pow2_u32 v Hr) as [Eu Hu].
  assert (Hin : in_service v (claimed p v)).
  { destruct (claimed_bits p v v Hr Hr) as [Hl Hc]. rewrite Z.eqb_refl, (proj2 (Z.eqb_neq v 0)) in * by lia.
    split; [by rewrite Hc, orb_true_r|]. split; [by rewrite Hl, andb_false_r|]. unfold claimed. rewrite Eu. cbn [plic_claimed].
    apply lor_u32; [apply DevicesProofs.wired_u32; apply Hp|by apply land_u32]. }
  assert (Hend : in_service v p'').
  { induction Hs as [p1|p1 p2 p3 H12 _ IH]; [done|]. apply IH. eapply in_service_keep; [|done|done]. lia. }
  destruct Hend as (_ & Hl & _). intros Eb.
  destruct (DevicesProofs.plic_best_of p'') as [[Ez _]|(_ & (Hb & _) & _)]; [congruence|]. rewrite Eb in Hb. congruence.
Qed.

(** ** The input queue is a FIFO of sixteen events *)

(** The events waiting, oldest first. *)
Definition contents (i : input_state) : list Z :=
  map (fun k => at_ (queue i) ((head i + Z.of_nat k) mod 16)) (seq 0 (Z.to_nat (count i))).

Lemma contents_length i : length (contents i) = Z.to_nat (count i).
Proof. unfold contents. by rewrite length_map, length_seq. Qed.

Lemma contents_push i q c v :
  length (queue i) = 16%nat -> 0 <= head i < 16 -> 0 <= count i < 16 -> c = count i + 1 ->
  q = <[Z.to_nat ((head i + count i) mod 16) := v]> (queue i) ->
  map (fun k => at_ q ((head i + Z.of_nat k) mod 16)) (seq 0 (Z.to_nat c)) = contents i ++ [v].
Proof.
  intros Hq Hh Hc -> ->. unfold contents.
  replace (Z.to_nat (count i + 1)) with (Z.to_nat (count i) + 1)%nat by lia.
  rewrite seq_app, map_app. f_equal.
  - apply map_ext_in. intros k Hk. apply in_seq in Hk. rewrite at_insert by (rewrite ?Hq; zlia).
    rewrite (proj2 (Z.eqb_neq _ _)); [done|]. zlia.
  - cbn [map seq]. f_equal. rewrite Nat.add_0_l, Z2Nat.id by lia.
    rewrite at_insert by (rewrite ?Hq; zlia). by rewrite Z.eqb_refl.
Qed.

Lemma contents_pop i c h :
  0 <= head i < 16 -> 0 < count i <= 16 -> c = count i - 1 -> h = (head i + 1) mod 16 ->
  contents i = at_ (queue i) (head i) :: map (fun k => at_ (queue i) ((h + Z.of_nat k) mod 16)) (seq 0 (Z.to_nat c)).
Proof.
  intros Hh Hc -> ->. unfold contents. replace (Z.to_nat (count i)) with (S (Z.to_nat (count i - 1))) by lia.
  cbn [seq map]. f_equal; [f_equal; zlia|]. rewrite <- seq_shift, map_map. apply map_ext. intros k. f_equal. zlia.
Qed.

(** C22: the input device is a first-in first-out queue of sixteen events.
    Queueing an event puts it last, or, when sixteen wait, loses it and counts it
    as dropped; a read of INPUT_EVENT takes the oldest, or answers 0 when none
    waits; INPUT_COUNT is the number waiting.  The ring's indices never show. *)
Theorem input_queue_is_fifo i frame event :
  input_ok i -> is_u32 event ->
  (exists i', Input.emu_queue_event i frame event = Ok i' /\
     (contents i', dropped i') = if decide (length (contents i) = 16%nat)
                                then (contents i, dropped i + 1) else (contents i ++ [event], dropped i)) /\
  (exists v i', Input.input_load_reg i Input.INPUT_EVENT 4 = Ok (ACC_OK v, i') /\
     match contents i with [] => v = 0 /\ contents i' = [] | e :: rest => v = e /\ contents i' = rest end) /\
  Input.input_load_reg i Input.INPUT_COUNT 4 = Ok (ACC_OK (Z.of_nat (length (contents i))), i).
Proof.
  intros ((Hq&Hf)&Hh&Hc&_) He. rewrite contents_length. splits.
  - unfold Input.emu_queue_event. cbv zeta. cbn [count queue head keys dropped]. unfold INPUT_QUEUE.
    destruct (Z.eqb_spec (count i) 16) as [E|E].
    + eexists. split; [reflexivity|]. by rewrite decide_True by lia.
    + rewrite aset_ok by zlia. cbn [mbind res_bind]. eexists. split; [reflexivity|]. rewrite decide_False by lia.
      f_equal. refine (contents_push i _ _ _ Hq Hh _ eq_refl eq_refl). lia.
  - change (exists v i', (if count i =? 0 then mret (ACC_OK 0, i)
      else v ← aget (queue i) (head i);
           mret (ACC_OK v, {| i with head := (head i + 1) mod INPUT_QUEUE; count := count i - 1 |})) = Ok (ACC_OK v, i') /\
      match contents i with [] => v = 0 /\ contents i' = [] | e :: rest => v = e /\ contents i' = rest end).
    destruct (Z.eqb_spec (count i) 0) as [E|E].
    + eexists _, _. split; [reflexivity|]. unfold contents. by rewrite E.
    + rewrite aget_ok by lia. cbn [mbind res_bind]. eexists _, _. split; [reflexivity|].
      rewrite (contents_pop i (count i - 1) ((head i + 1) mod 16)) by lia. done.
  - rewrite Z2Nat.id by lia. reflexivity.
Qed.

(** ** CLINT *)

(** The two halves of a 64-bit count. *)
Lemma halves_join lo hi : is_u32 lo -> is_u32 hi -> forall old, is_u64 old ->
  Clint.high_half (Clint.low_half old lo) hi = hi * 2 ^ 32 + lo.
Proof.
  intros Hlo Hhi old Ho. unfold Clint.high_half, Clint.low_half.
  replace (((old .& not64 0xffffffff) .| lo) .& 0xffffffff) with lo.
  - rewrite Z.lor_comm. unfold is_u32 in *. rewrite lor_add by lia. done.
  - rewrite Z.land_lor_distr_l, <- Z.land_assoc. change (not64 0xffffffff .& 0xffffffff) with 0.
    rewrite Z.land_0_r, Z.lor_0_l. change 0xffffffff with (Z.ones 32). rewrite Z.land_ones by lia.
    rewrite Z.mod_small; [done|]. exact Hlo.
Qed.

(** The two stores that set mtime, as state updates. *)
Definition set_offset (f : Z -> Z) (m : machine) : machine :=
  upd_clint (fun c => {| c with mtime_offset := u64 (f (Clint.mtime_now m) - steps (counters m)) |}) m.

Lemma mtime_low_eq lo m :
  Clint.clint_store Clint.CLINT_MTIME 4 lo m = Ok (ACC_OK (), set_offset (fun now => Clint.low_half now lo) m).
Proof. reflexivity. Qed.

Lemma mtime_high_eq hi m :
  Clint.clint_store (Clint.CLINT_MTIME + 4) 4 hi m = Ok (ACC_OK (), set_offset (fun now => Clint.high_half now hi) m).
Proof. reflexivity. Qed.

(** Setting the offset sets the time. *)
Lemma mtime_set f m : is_u64 (f (Clint.mtime_now m)) -> Clint.mtime_now (set_offset f m) = f (Clint.mtime_now m).
Proof.
  intros Hf. set (t := f (Clint.mtime_now m)) in *. unfold Clint.mtime_now at 1, set_offset.
  change (u64 (steps (counters m) + u64 (t - steps (counters m))) = t). unfold is_u64 in Hf. unfold u64. zlia.
Qed.

(** a guest sets the time by writing the two halves of mtime, low first, and
    from then on mtime counts the machine's steps from there: after [n] more steps
    it reads [value + n] modulo 2^64, in its two halves. *)
Theorem mtime_write_read m lo hi n :
  is_u32 lo -> is_u32 hi ->
  exists m1 m2,
    Clint.clint_store Clint.CLINT_MTIME 4 lo m = Ok (ACC_OK (), m1) /\
    Clint.clint_store (Clint.CLINT_MTIME + 4) 4 hi m1 = Ok (ACC_OK (), m2) /\
    forall m3, clint m3 = clint m2 -> steps (counters m3) = u64 (steps (counters m) + n) ->
      Clint.clint_load Clint.CLINT_MTIME 4 m3 = Ok (ACC_OK (u32 (hi * 2 ^ 32 + lo + n)), m3) /\
      Clint.clint_load (Clint.CLINT_MTIME + 4) 4 m3 = Ok (ACC_OK (u32 (u64 (hi * 2 ^ 32 + lo + n) / 2 ^ 32)), m3).
Proof.
  intros Hlo Hhi. eexists _, _. split; [apply mtime_low_eq|]. split; [apply mtime_high_eq|]. intros m3 Ec Es.
  set (m1 := set_offset (fun now => Clint.low_half now lo) m) in *.
  assert (H1 : Clint.mtime_now m1 = Clint.low_half (Clint.mtime_now m) lo)
    by (apply mtime_set; apply DevicesProofs.low_half_u64; [apply u64_range|done]).
  assert (Ht : Clint.mtime_now m3 = u64 (hi * 2 ^ 32 + lo + n)).
  { unfold Clint.mtime_now. rewrite Ec, Es. unfold set_offset at 1.
    change (u64 (u64 (steps (counters m) + n) + u64 (Clint.high_half (Clint.mtime_now m1) hi - steps (counters m)))
            = u64 (hi * 2 ^ 32 + lo + n)).
    rewrite H1, halves_join by (done || apply u64_range). clear. unfold u64. zlia. }
  split.
  - change (Clint.clint_load Clint.CLINT_MTIME 4 m3) with (Ok (ACC_OK (u32 (Clint.mtime_now m3)), m3)).
    rewrite Ht. do 3 f_equal. clear. unfold u32, u64. zlia.
  - change (Clint.clint_load (Clint.CLINT_MTIME + 4) 4 m3) with (Ok (ACC_OK (u32 (Clint.mtime_now m3 .>> 32)), m3)).
    by rewrite Ht, Z.shiftr_div_pow2 by lia.
Qed.

(** ** Examples *)

(** Both wired sources pending and enabled, 12 with the higher priority. *)
Definition busy_plic : plic_state :=
  {| plic_priority := <[12%nat := 6]> (<[1%nat := 2]> (repeat 0 32)); plic_enable := 0x1002; plic_claimed := 0;
     plic_latched := 0x1002; plic_threshold := 1 |}.

Lemma plic_gateway_closed_witness :
  Plic.plic_best (claimed (claimed busy_plic 12) 1) <> 12.
Proof.
  apply (plic_gateway_closed busy_plic 12 (claimed busy_plic 12)).
  - repeat split; try (by vm_compute); apply (bool_decide_unpack _); by vm_compute.
  - by vm_compute.
  - discriminate.
  - eapply plic_steps_cons; [|apply plic_steps_nil].
    apply (plic_loads 12 _ _ Plic.PLIC_CLAIM 4 (ACC_OK 1)). by vm_compute.
Defined.

(** A ring whose two events straddle its end. *)
Definition wrapped_input : input_state :=
  {| queue := <[0%nat := 0x102]> (<[15%nat := 0x101]> (repeat 0 16)); head := 15; count := 2; keys := 6; script := [];
     next_scripted := 0; dropped := 0; record := None |}.

Lemma input_queue_is_fifo_witness :
  contents wrapped_input = [0x101; 0x102] /\
  exists i', Input.emu_queue_event wrapped_input 7 3 = Ok i' /\ contents i' = [0x101; 0x102; 3].
Proof.
  split; [by vm_compute|].
  destruct (input_queue_is_fifo wrapped_input 7 3) as [(i' & E & C) _].
  - refine (conj (conj eq_refl _) (conj _ (conj _ (conj _ (conj (List.Forall_nil _) _))))).
    { repeat constructor; done. } all: done.
  - by unfold is_u32.
  - exists i'. split; [exact E|]. apply (f_equal fst) in C. exact C.
Defined.

Lemma mtime_write_read_witness :
  exists m1, Clint.clint_store Clint.CLINT_MTIME 4 5 Run.emu_init = Ok (ACC_OK (), m1).
Proof.
  destruct (mtime_write_read Run.emu_init 5 1 0) as (m1 & m2 & E1 & _ & _); [by unfold is_u32|by unfold is_u32|].
  exists m1. exact E1.
Defined.

End DeviceSpecs.
