(* ===== verification/Gdb.v ===== *)
(** * The GDB remote serial protocol stub (tools/rv32_gdb.c)

    A session is a state: the client's socket, the machine, the breakpoint
    table, the request and the reply.  The socket is the host's: its record
    holds what the next [recv], [send] and [poll] calls answer and what was
    sent.  A request is a NUL-terminated string and a pointer into it is the
    rest of that string, so that a read past its end is [Stuck]; so is a write
    past the reply buffer.  The messages on stderr are not modelled. *)

From Stdlib Require Import String Ascii.
From S2P Require Import Prelude Effects Buffer Simd4 Gpu G3d Dtb Machine Devices Virtio Bus Mmu Csr Fp Cpu Run.

Module Gdb.
Import Run.

Definition PACKET_SIZE : Z := 0x4000.
Definition MAX_READ : Z := (PACKET_SIZE - 16) / 2.
Definition POLL_INTERVAL : Z := 65536.
Definition MAX_BREAKPOINTS : Z := 64.
Definition REG_PC : Z := 32.
Definition REG_F0 : Z := 33.
Definition REG_CSR0 : Z := 65.
Definition G_REGS : Z := 65.
(** [sizeof g->out], [sizeof g->in], [sizeof tdesc]. *)
Definition OUT_SIZE : Z := 2 * PACKET_SIZE + 8.
Definition IN_SIZE : Z := 4096.
Definition TDESC_SIZE : Z := 8192.

Inductive stop_reason : Type := STOP_STEP | STOP_BREAK | STOP_INTERRUPT | STOP_HALTED | STOP_GONE.
Inductive breakpoint_kind : Type := BP_SW | BP_HW.
Record breakpoint : Type := { addr : Z; kind : breakpoint_kind }.
Inductive gdb_end : Type := GDB_HALTED | GDB_DETACHED | GDB_KILLED.

#[export] Instance breakpoint_kind_eq : EqDecision breakpoint_kind.
Proof. solve_decision. Defined.
#[export] Instance breakpoint_eq : EqDecision breakpoint.
Proof. solve_decision. Defined.
#[export] Instance breakpoint_inhabited : Inhabited breakpoint := populate {| addr := 0; kind := BP_SW |}.

(** ** The client's socket *)

(** What one [recv] answers: bytes (none: the client closed the connection),
    EINTR, or another error. *)
Inductive recv_outcome : Type := Received (bytes : list Z) | RecvInterrupted | RecvFailed.
(** What one [send] answers: how many bytes it took, EINTR, or another error. *)
Inductive send_outcome : Type := Sent (n : Z) | SendInterrupted | SendFailed.

(** Past the lists the client has closed its side, takes whatever is sent, and
    nothing is ready. *)
Record socket : Type := {
  recvs : list recv_outcome; sends : list send_outcome; polls : list bool; sent : list Z;
}.

Record gdb_state : Type := {
  sock : socket; fd_open : bool;
  m : machine;
  ack : bool; gone : bool; swbreak : bool; at_break : bool; break_pc : Z;
  in_ : list Z;          (** [in], from [in_pos] to [in_len] *)
  bp : list breakpoint;  (** the first [bps] entries *)
  packet : list Z;       (** [packet_len] bytes *)
  out : list Z;          (** [out_len] bytes *)
  end_ : gdb_end;
}.

Definition G (A : Type) : Type := ST gdb_state A.
Definition set_m (x : machine) (g : gdb_state) : gdb_state := {| g with m := x |}.
Definition on_machine {A} (c : M A) : G A := zoom m set_m c.
Definition set_sock (s : socket) (g : gdb_state) : gdb_state := {| g with sock := s |}.
Definition set_out (o : list Z) (g : gdb_state) : gdb_state := {| g with out := o |}.
Definition set_bp (l : list breakpoint) (g : gdb_state) : gdb_state := {| g with bp := l |}.

(** ** Strings *)

Definition str (s : string) : list Z := text_of s.

(** [!strncmp(p, lit, strlen(lit))] *)
Fixpoint starts (lit p : list Z) : bool :=
  match lit, p with
  | [], _ => true
  | a :: lit', b :: p' => (a =? b) && starts lit' p'
  | _, [] => false
  end.
(** [!strcmp(p, lit)] *)
Definition same (lit p : list Z) : bool := starts (lit ++ [0]) p.
(** [strstr(p, lit) != NULL] *)
Fixpoint strstr (lit p : list Z) : bool :=
  match p with
  | [] => false
  | c :: p' => starts lit p || (negb (c =? 0) && strstr lit p')
  end.
Fixpoint strlen (p : list Z) : res Z :=
  match p with
  | [] => Stuck
  | c :: p' => if c =? 0 then mret 0 else n ← strlen p'; mret (n + 1)
  end.
(** [*p] *)
Definition deref (p : list Z) : res Z := match p with c :: _ => mret c | [] => Stuck end.

(** [%u] *)
Fixpoint dec_digits (fuel : nat) (n : Z) : list Z :=
  match fuel with
  | O => []
  | S fuel' => (if n <? 10 then [] else dec_digits fuel' (n / 10)) ++ [48 + n mod 10]
  end.
Definition dec (n : Z) : list Z := dec_digits 10 n.

Definition HEX : list Z := str "0123456789abcdef".

(** ** The target description

    In these literals an apostrophe stands for a double quote. *)

Definition quoted (s : string) : list Z := map (fun c => if c =? 39 then 34 else c) (str s).

Definition XREG_NAMES : list string := [
  "zero"; "ra"; "sp"; "gp"; "tp"; "t0"; "t1"; "t2"; "fp"; "s1"; "a0"; "a1"; "a2"; "a3"; "a4"; "a5";
  "a6"; "a7"; "s2"; "s3"; "s4"; "s5"; "s6"; "s7"; "s8"; "s9"; "s10"; "s11"; "t3"; "t4"; "t5"; "t6"]%string.
Definition FREG_NAMES : list string := [
  "ft0"; "ft1"; "ft2"; "ft3"; "ft4"; "ft5"; "ft6"; "ft7"; "fs0"; "fs1"; "fa0"; "fa1"; "fa2"; "fa3"; "fa4"; "fa5";
  "fa6"; "fa7"; "fs2"; "fs3"; "fs4"; "fs5"; "fs6"; "fs7"; "fs8"; "fs9"; "fs10"; "fs11"; "ft8"; "ft9"; "ft10";
  "ft11"]%string.
Definition CSR_REGS : list (string * Z) := [
  ("mstatus"%string, 0x300); ("mie"%string, 0x304); ("mtvec"%string, 0x305); ("mscratch"%string, 0x340);
  ("mepc"%string, 0x341); ("mcause"%string, 0x342); ("mtval"%string, 0x343); ("mip"%string, 0x344);
  ("cycle"%string, 0xc00); ("time"%string, 0xc01); ("instret"%string, 0xc02); ("cycleh"%string, 0xc80);
  ("timeh"%string, 0xc81); ("instreth"%string, 0xc82)].

(** [exit] on a description that does not fit is [Stuck]. *)
Definition tdesc_add (t s : list Z) : res (list Z) :=
  if TDESC_SIZE - Z.of_nat (length t) <=? Z.of_nat (length s) then Stuck else mret (t ++ s).

Definition reg_line (name type : list Z) (regnum : Z) : list Z :=
  quoted "<reg name='" ++ name ++ quoted "' bitsize='32' type='" ++ type ++ quoted "' regnum='" ++ dec regnum
  ++ quoted "'/>" ++ [10].
Definition xreg_type (i : Z) : list Z :=
  str (if i =? 1 then "code_ptr" else if (i =? 2) || (i =? 3) || (i =? 4) || (i =? 8) then "data_ptr" else "int").

Fixpoint tdesc_lines (t : list Z) (lines : list (list Z)) : res (list Z) :=
  match lines with
  | [] => mret t
  | l :: rest => t' ← tdesc_add t l; tdesc_lines t' rest
  end.

Definition build_tdesc : res (list Z) :=
  tdesc_lines [] (
    [quoted "<?xml version='1.0'?>" ++ [10] ++ quoted "<!DOCTYPE target SYSTEM 'gdb-target.dtd'>" ++ [10]
     ++ quoted "<target version='1.0'>" ++ [10]
     ++ quoted "<architecture>riscv:rv32</architecture>" ++ [10]
     ++ quoted "<feature name='org.gnu.gdb.riscv.cpu'>" ++ [10]]
    ++ imap (fun i n => reg_line (str n) (xreg_type (Z.of_nat i)) (Z.of_nat i)) XREG_NAMES
    ++ [reg_line (str "pc") (str "code_ptr") REG_PC ++ quoted "</feature>" ++ [10]
        ++ quoted "<feature name='org.gnu.gdb.riscv.fpu'>" ++ [10]]
    ++ imap (fun i n => reg_line (str n) (str "ieee_single") (REG_F0 + Z.of_nat i)) FREG_NAMES
    ++ [reg_line (str "fflags") (str "int") (REG_CSR0 + 1) ++ reg_line (str "frm") (str "int") (REG_CSR0 + 2)
        ++ reg_line (str "fcsr") (str "int") (REG_CSR0 + 3) ++ quoted "</feature>" ++ [10]
        ++ quoted "<feature name='org.gnu.gdb.riscv.csr'>" ++ [10]]
    ++ map (fun r => reg_line (str (fst r)) (str "int") (REG_CSR0 + snd r)) CSR_REGS
    ++ [quoted "</feature>" ++ [10] ++ quoted "</target>" ++ [10]]).

(** ** Registers *)

Definition reg_read (m : machine) (regnum : Z) : res (option Z) :=
  if regnum <? 32 then v ← aget (x_ (hart m)) regnum; mret (Some v)
  else if regnum =? REG_PC then mret (Some (pc (hart m)))
  else if regnum <? REG_F0 + 32 then v ← aget (f_ (hart m)) (regnum - REG_F0); mret (Some v)
  else if regnum - REG_CSR0 <? 4096 then Csr.emu_csr_read m (regnum - REG_CSR0)
  else mret None.

(** [None]: refused. *)
Definition reg_write (m : machine) (regnum value : Z) : res (option machine) :=
  if regnum <? 32 then
    if tst regnum then
      x ← aset (x_ (hart m)) regnum value; mret (Some (upd_hart (fun h => {| h with x_ := x |}) m))
    else mret (Some m)
  else if regnum =? REG_PC then mret (Some (upd_hart (fun h => {| h with pc := value |}) m))
  else if regnum <? REG_F0 + 32 then
    f ← aset (f_ (hart m)) (regnum - REG_F0) value; mret (Some (upd_hart (fun h => {| h with f_ := f |}) m))
  else if regnum - REG_CSR0 <? 4096 then Csr.emu_csr_write m (regnum - REG_CSR0) value
  else mret None.

(** ** The connection *)

Definition connection_lost : G () := modify (fun g => {| g with gone := true |}).

(** The [send] calls of [send_all]: what is left of the outcomes, what was sent,
    and whether the connection was lost. *)
Fixpoint send_loop (outcomes : list send_outcome) (data : list Z) : list send_outcome * list Z * bool :=
  match data with
  | [] => (outcomes, [], false)
  | _ =>
      match outcomes with
      | [] => ([], data, false)
      | SendInterrupted :: rest => send_loop rest data
      | SendFailed :: rest => (rest, [], true)
      | Sent n :: rest =>
          if n <=? 0 then (rest, [], true)
          else
            let '(o, s, lost) := send_loop rest (drop (Z.to_nat n) data) in (o, take (Z.to_nat n) data ++ s, lost)
      end
  end.

Definition send_all (data : list Z) : G bool :=
  g ← gets id;
  if gone g then mret false
  else
    let '(o, s, lost) := send_loop (sends (sock g)) data in
    modify (set_sock {| (sock g) with sends := o; sent := sent (sock g) ++ s |});;
    when lost connection_lost;;
    mret (negb lost).

(** The [recv] calls of [next_byte], to the first that is not interrupted. *)
Fixpoint recv_loop (outcomes : list recv_outcome) : option (list Z) * list recv_outcome :=
  match outcomes with
  | [] => (None, [])
  | RecvInterrupted :: rest => recv_loop rest
  | RecvFailed :: rest => (None, rest)
  | Received [] :: rest => (None, rest)
  | Received l :: rest =>
      (Some (take (Z.to_nat IN_SIZE) l),
       match drop (Z.to_nat IN_SIZE) l with [] => rest | l' => Received l' :: rest end)
  end.

(** [None] is -1. *)
Definition next_byte : G (option Z) :=
  g ← gets id;
  match in_ g with
  | b :: rest => modify (fun g => {| g with in_ := rest |});; mret (Some b)
  | [] =>
      if gone g then mret None
      else
        let '(r, rest) := recv_loop (recvs (sock g)) in
        modify (set_sock {| (sock g) with recvs := rest |});;
        match r with
        | Some (b :: l) => modify (fun g => {| g with in_ := l |});; mret (Some b)
        | _ => connection_lost;; mret None
        end
  end.

Definition byte_ready : G bool :=
  g ← gets id;
  match in_ g with
  | _ :: _ => mret true
  | [] =>
      modify (set_sock {| (sock g) with polls := tl (polls (sock g)) |});;
      mret (match polls (sock g) with b :: _ => b | [] => false end)
  end.

(** The bytes the client has yet to deliver: the bound of every loop that reads. *)
Definition received (o : recv_outcome) : nat := match o with Received l => length l | _ => 0 end.
Definition unread (g : gdb_state) : nat := length (in_ g) + sum_list_with received (recvs (sock g)).

Definition hex_digit (c : Z) : Z :=
  if (48 <=? c) && (c <=? 57) then c - 48
  else if (97 <=? c) && (c <=? 102) then c - 97 + 10
  else if (65 <=? c) && (c <=? 70) then c - 65 + 10
  else -1.

(** -1 when the two characters are not digits. *)
Definition hex_byte (p : list Z) : res Z :=
  c ← deref p;
  let hi := hex_digit c in
  if hi <? 0 then mret (-1)
  else
    d ← deref (tail p);
    let lo := hex_digit d in
    mret (if lo <? 0 then -1 else hi * 16 + lo).

Definition checksum (l : list Z) : Z := fold_left (fun s c => u8 (s + c)) l 0.
Definition hex_of (n : Z) : Z := at_ HEX n.

(** A payload, framed and checksummed. *)
Definition frame (payload : list Z) : list Z :=
  let sum := checksum payload in [36] ++ payload ++ [35; hex_of (sum .>> 4); hex_of (sum .& 15)].

(** Wait for the acknowledgement: whether the client asked for a resend. *)
Fixpoint wait_ack (fuel : nat) : G bool :=
  match fuel with
  | O => no_fuel
  | S fuel' =>
      c ← next_byte;
      match c with
      | None => mret false
      | Some c => if c =? 43 then mret false else if c =? 45 then mret true else wait_ack fuel'
      end
  end.

Fixpoint send_attempts (attempts : nat) (f : list Z) : G () :=
  match attempts with
  | O => connection_lost
  | S attempts' =>
      ok ← send_all f;
      g ← gets id;
      if negb ok || negb (ack g) then mret ()
      else
        again ← wait_ack (S (unread g));
        if again : bool then send_attempts attempts' f else mret ()
  end.

Definition send_reply : G () := g ← gets id; send_attempts 16 (frame (out g)).

(** ** Reply builders *)

Definition reply (text : list Z) : G () :=
  if OUT_SIZE <? Z.of_nat (length text) then stuck else modify (set_out text).

(** [g->out[g->out_len++] = c] *)
Definition add_out (c : Z) : G () :=
  g ← gets id;
  if OUT_SIZE <=? Z.of_nat (length (out g)) then stuck else modify (set_out (out g ++ [c])).

Definition reply_add_hex_byte (byte : Z) : G () := add_out (hex_of (byte .>> 4));; add_out (hex_of (byte .& 15)).

Fixpoint each {A} (f : A -> G ()) (l : list A) : G () :=
  match l with [] => mret () | a :: l' => f a;; each f l' end.

Definition reply_add_reg (value : Z) : G () :=
  each (fun i => reply_add_hex_byte (u8 (value .>> (8 * i)))) [0; 1; 2; 3].

Definition escaped (c : Z) : bool := (c =? 36) || (c =? 35) || (c =? 125) || (c =? 42).

Definition reply_add_binary (data : list Z) : G () :=
  each (fun c => if escaped c then add_out 125;; add_out (c .^ 0x20) else add_out c) data.

(** ** Requests *)

(** [a[n++] = c] in an array of [size] elements, [l] the ones stored: past the
    end it is undefined. *)
Definition push {A} (size : Z) (l : list A) (c : A) : res (list A) :=
  if Z.of_nat (length l) <? size then mret (l ++ [c]) else Stuck.

(** The payload up to [#]: its first [PACKET_SIZE] bytes, whether it was longer,
    its checksum. *)
Fixpoint read_payload (fuel : nat) (got : list Z) (overflow : bool) (sum : Z) : G (option (list Z * bool * Z)) :=
  match fuel with
  | O => no_fuel
  | S fuel' =>
      c ← next_byte;
      match c with
      | None => mret None
      | Some c =>
          if c =? 35 then mret (Some (got, overflow, sum))
          else if Z.of_nat (length got) <? PACKET_SIZE then
            got ← lift (push (PACKET_SIZE + 1) got c);
            read_payload fuel' got overflow (u8 (sum + c))
          else read_payload fuel' got true (u8 (sum + c))
      end
  end.

(** A checksum character; -1 converted to [char] once the connection is gone. *)
Definition digit : G Z := c ← next_byte; mret (match c with Some c => c | None => 255 end).

Fixpoint read_packet (fuel : nat) : G bool :=
  match fuel with
  | O => no_fuel
  | S fuel' =>
      c ← next_byte;
      match c with
      | None => mret false
      | Some c =>
          if negb (c =? 36) then read_packet fuel'
          else
            r ← read_payload fuel' [] false 0;
            match r with
            | None => mret false
            | Some (payload, overflow, sum) =>
                d0 ← digit; d1 ← digit;
                g ← gets id;
                if gone g then mret false
                else
                  given ← lift (hex_byte [d0; d1]);
                  if ack g && (overflow || negb (given =? sum)) then send_all (str "-");; read_packet fuel'
                  else if overflow then reply (str "E01");; send_reply;; read_packet fuel'
                  else
                    ok ← (if ack g then send_all (str "+") else mret true);
                    if negb ok then mret false
                    else
                      lift (push (PACKET_SIZE + 1) payload 0);; (** [packet[len] = '\0'] *)
                      modify (fun g => {| g with packet := payload |});; mret true
            end
      end
  end.

(** A number of at most eight digits, and the rest of the string. *)
Fixpoint parse_digits (p : list Z) (digits v : Z) : res (option (Z * list Z)) :=
  match p with
  | [] => Stuck
  | c :: p' =>
      let d := hex_digit c in
      if d <? 0 then mret (if 0 <? digits then Some (v, p) else None)
      else if 8 <? digits + 1 then mret None
      else parse_digits p' (digits + 1) (u32 (v .<< 4) .| d)
  end.
Definition parse_hex (p : list Z) : res (option (Z * list Z)) := parse_digits p 0 0.

(** [p] past a comma: [None] when there is none. *)
Definition parse_range (p : list Z) (end0 : Z) : res (option (Z * Z * list Z)) :=
  a ← parse_hex p;
  match a with
  | None => mret None
  | Some (addr, p) =>
      c ← deref p;
      if negb (c =? 44) then mret None
      else
        l ← parse_hex (tail p);
        match l with
        | None => mret None
        | Some (len, p) => c ← deref p; mret (if c =? end0 then Some (addr, len, p) else None)
        end
  end.

Fixpoint parse_bytes (n : nat) (i : Z) (p : list Z) (v : Z) : res (option Z) :=
  match n with
  | O => mret (Some v)
  | S n' =>
      byte ← hex_byte (drop (Z.to_nat (2 * i)) p);
      if byte <? 0 then mret None else parse_bytes n' (i + 1) p (v .| (byte .<< (8 * i)))
  end.
Definition parse_reg (p : list Z) : res (option Z) := parse_bytes 4 0 p 0.

(** ** Execution *)

Definition find_breakpoint (g : gdb_state) (a : Z) : option breakpoint :=
  List.find (fun b => addr b =? a) (bp g).

Fixpoint drain (fuel : nat) (hit : bool) : G bool :=
  match fuel with
  | O => no_fuel
  | S fuel' =>
      g ← gets id;
      if gone g then mret hit
      else
        ready ← byte_ready;
        if negb ready then mret hit
        else c ← next_byte; drain fuel' (match c with Some c => hit || (c =? 3) | None => hit end)
  end.
Definition interrupted : G bool := g ← gets id; drain (S (S (unread g))) false.

Section WithMachine.
Context `{SVF : ServeFuel} `{SF : SoftFloat}.

Definition run (budget : Z) : G emu_stop := on_machine (emu_run_until (S (Z.to_nat budget)) budget).

Definition is_halted (s : emu_stop) : bool := match s with EMU_STOP_HALTED => true | _ => false end.

(** A continue: [fuel] bounds the calls of [emu_run_until]. *)
Fixpoint continue_loop (fuel : nat) (next_poll : Z) (check : bool) : G (stop_reason * option breakpoint) :=
  match fuel with
  | O => no_fuel
  | S fuel' =>
      g ← gets id;
      match (if check then find_breakpoint g (pc (hart (m g))) else None) with
      | Some b => mret (STOP_BREAK, Some b)
      | None =>
          s ← run (match bp g with [] => POLL_INTERVAL | _ => 1 end);
          if is_halted s then mret (STOP_HALTED, None)
          else
            now ← gets (fun g => steps (counters (m g)));
            if next_poll <=? now then
              hit ← interrupted;
              g ← gets id;
              if hit : bool then mret (STOP_INTERRUPT, None)
              else if gone g then mret (STOP_GONE, None)
              else continue_loop fuel' (u64 (now + POLL_INTERVAL)) true
            else continue_loop fuel' next_poll true
      end
  end.

Definition resume (fuel : nat) (stepping from_break : bool) : G (stop_reason * option breakpoint) :=
  if stepping then
    s ← run 1; mret (if is_halted s then STOP_HALTED else STOP_STEP, None)
  else
    now ← gets (fun g => steps (counters (m g)));
    continue_loop fuel (u64 (now + POLL_INTERVAL)) (negb from_break).

(** ** The command loop *)

(** [g->packet], NUL terminated. *)
Definition request (g : gdb_state) : list Z := packet g ++ [0].

Definition XFER : list Z := str "qXfer:features:read:".
Definition ANNEX : list Z := str "target.xml:".

Definition read_features (q : list Z) : G () :=
  if negb (starts ANNEX q) then reply (str "E00")
  else
    r ← lift (parse_range (drop (length ANNEX) q) 0);
    match r with
    | None => reply (str "E01")
    | Some (offset, len, _) =>
        tdesc ← lift build_tdesc;
        let tdesc_len := Z.of_nat (length tdesc) in
        if tdesc_len <? offset then reply (str "E01")
        else
          let n := Z.min (tdesc_len - offset) (Z.min len MAX_READ) in
          modify (set_out [if offset + n <? tdesc_len then 109 else 108]);;
          reply_add_binary (take (Z.to_nat n) (drop (Z.to_nat offset) tdesc))
    end.

Definition handle_query : G () :=
  g ← gets id;
  let p := request g in
  if starts (str "qSupported") p then
    modify (fun g => {| g with swbreak := strstr (str "swbreak+") p |});;
    reply (str "PacketSize=4000;qXfer:features:read+;swbreak+;hwbreak+;QStartNoAckMode+;vContSupported+")
  else if starts XFER p then read_features (drop (length XFER) p)
  else if same (str "qAttached") p then reply (str "1")
  else if same (str "qC") p then reply (str "QC1")
  else if same (str "qfThreadInfo") p then reply (str "m1")
  else if same (str "qsThreadInfo") p then reply (str "l")
  else if same (str "qOffsets") p then reply (str "Text=0;Data=0;Bss=0")
  else if starts (str "qSymbol") p then reply (str "OK")
  else reply [].

(** The bytes of an M request: [None] on a character that is not a digit. *)
Fixpoint hex_bytes (n : nat) (p : list Z) : res (option (list Z)) :=
  match n with
  | O => mret (Some [])
  | S n' =>
      byte ← hex_byte p;
      if byte <? 0 then mret None
      else r ← hex_bytes n' (drop 2 p); mret (cons byte <$> r)
  end.

(** The bytes of an X request, at most [room], and what is left of it; [None]
    when an escape ends the packet. *)
Fixpoint unescape (room : nat) (p : list Z) : option (list Z * list Z) :=
  match room, p with
  | O, _ | _, [] => Some ([], p)
  | S room', c :: p' =>
      let put b r := (fun '(l, q) => (b :: l, q)) <$> r in
      if u8 c =? 125 then
        match p' with
        | [] => None
        | d :: p'' => put (u8 (d .^ 0x20)) (unescape room' p'')
        end
      else put (u8 c) (unescape room' p')
  end.

Definition write_memory (a : Z) (data : list Z) : G () :=
  g ← gets id;
  r ← lift (emu_debug_write (m g) a data);
  match r with
  | Some m' => modify (set_m m');; reply (str "OK")
  | None => reply (str "E01")
  end.

Definition read_memory (a len : Z) : G () :=
  g ← gets id;
  r ← lift (emu_debug_read (m g) a (Z.to_nat (Z.min len MAX_READ)));
  match r with
  | None => reply (str "E01")
  | Some data => modify (set_out []);; each reply_add_hex_byte data
  end.

Definition handle_memory : G () :=
  g ← gets id;
  let p := request g in
  k ← lift (deref p);
  r ← lift (parse_range (tail p) (if k =? 109 then 0 else 58));
  match r with
  | None => reply (str "E01")
  | Some (a, len, p) =>
      if k =? 109 then read_memory a len
      else
        let p := removelast (tail p) in (** from past the colon to [end] *)
        if PACKET_SIZE <? len then reply (str "E01")
        else if k =? 77 then
          if negb (Z.of_nat (length p) =? 2 * len) then reply (str "E01")
          else
            r ← lift (hex_bytes (Z.to_nat len) p);
            match r with None => reply (str "E01") | Some data => write_memory a data end
        else
          match unescape (Z.to_nat PACKET_SIZE) p with
          | None => reply (str "E01")
          | Some (data, rest) =>
              if negb (Z.of_nat (length data) =? len) || negb (bool_decide (rest = [])) then reply (str "E01")
              else if len =? 0 then reply (str "OK")
              else write_memory a data
          end
  end.

(** The index of the entry for an address and a kind. *)
Fixpoint bp_index (l : list breakpoint) (b : breakpoint) : option nat :=
  match l with
  | [] => None
  | c :: l' => if (addr c =? addr b) && bool_decide (kind c = kind b) then Some 0%nat else S <$> bp_index l' b
  end.

(** [g->bp[i] = g->bp[--g->bps]] *)
Definition bp_remove (l : list breakpoint) (i : nat) : list breakpoint :=
  take (length l - 1) (<[i := l !!! (length l - 1)%nat]> l).

(** What a Z or z request does to the table; [None] is E01. *)
Definition bp_update (l : list breakpoint) (insert : bool) (b : breakpoint) : res (option (list breakpoint)) :=
  match bp_index l b with
  | Some i => mret (Some (if insert then l else bp_remove l i))
  | None =>
      if negb insert || (Z.of_nat (length l) =? MAX_BREAKPOINTS) then mret None
      else l' ← push MAX_BREAKPOINTS l b; mret (Some l')
  end.

(** [,addr,size] and then the end or a semicolon: the address. *)
Definition parse_breakpoint (p : list Z) : res (option Z) :=
  c ← deref p;
  if negb (c =? 44) then mret None
  else
    r ← parse_hex (tail p);
    match r with
    | None => mret None
    | Some (a, p) =>
        c ← deref p;
        if negb (c =? 44) then mret None
        else
          r ← parse_hex (tail p);
          match r with
          | None => mret None
          | Some (_, p) => c ← deref p; mret (if negb (c =? 0) && negb (c =? 59) then None else Some a)
          end
    end.

Definition handle_breakpoint : G () :=
  g ← gets id;
  let p := request g in
  c0 ← lift (deref p); c1 ← lift (deref (tail p));
  if negb (c1 =? 48) && negb (c1 =? 49) then reply []
  else
    r ← lift (parse_breakpoint (drop 2 p));
    match r with
    | None => reply (str "E01")
    | Some a =>
        r ← lift (bp_update (bp g) (c0 =? 90) {| addr := a; kind := if c1 =? 48 then BP_SW else BP_HW |});
        match r with
        | None => reply (str "E01")
        | Some l => modify (set_bp l);; reply (str "OK")
        end
    end.

(** The signal of a C or S request: the string after it and its semicolon. *)
Definition parse_signal (p : list Z) : res (option (list Z)) :=
  r ← parse_hex p;
  match r with
  | None => mret None
  | Some (_, p) => c ← deref p; mret (if c =? 59 then Some (tail p) else if negb (c =? 0) then None else Some p)
  end.

(** Whether to step, and the new program counter if there is one. *)
Definition parse_resume (p : list Z) : res (option (bool * option Z)) :=
  if starts (str "vCont;") p then
    action ← deref (drop 6 p);
    mret (if negb (action =? 99) && negb (action =? 115) && negb (action =? 67) && negb (action =? 83) then None
          else Some ((action =? 115) || (action =? 83), None))
  else
    command ← deref p;
    let stepping := (command =? 115) || (command =? 83) in
    r ← (if (command =? 67) || (command =? 83) then parse_signal (tail p) else mret (Some (tail p)));
    match r with
    | None => mret None
    | Some p =>
        c ← deref p;
        if c =? 0 then mret (Some (stepping, None))
        else
          r ← parse_hex p;
          match r with
          | None => mret None
          | Some (a, p) => c ← deref p; mret (if c =? 0 then Some (stepping, Some a) else None)
          end
    end.

Definition stop_reply (reason : stop_reason) (hit : option breakpoint) : G () :=
  g ← gets id;
  match reason with
  | STOP_INTERRUPT => reply (str "T02")
  | STOP_BREAK =>
      if swbreak g then
        match hit with
        | None => stuck
        | Some b => reply (match kind b with BP_SW => str "T05swbreak:;" | BP_HW => str "T05hwbreak:;" end)
        end
      else reply (str "T05")
  | _ => reply (str "T05")
  end.

(** [Some end]: the session is over. *)
Definition handle_resume (fuel : nat) : G (option gdb_end) :=
  g ← gets id;
  r ← lift (parse_resume (request g));
  match r with
  | None => reply (str "E01");; mret None
  | Some (stepping, new_pc) =>
      match new_pc with
      | Some a => on_machine (modify (upd_hart (fun h => {| h with pc := a |})))
      | None => mret ()
      end;;
      g ← gets id;
      '(reason, hit) ← resume fuel stepping (at_break g && (pc (hart (m g)) =? break_pc g));
      modify (fun g => {| g with at_break := match reason with STOP_BREAK => true | _ => false end;
                                 break_pc := pc (hart (m g)) |});;
      match reason with
      | STOP_HALTED => mret (Some GDB_HALTED)
      | STOP_GONE => mret (Some GDB_KILLED)
      | _ => stop_reply reason hit;; mret None
      end
  end.

(** Requests g and G, p and P. *)
Definition read_register (i : Z) : G () :=
  g ← gets id; r ← lift (reg_read (m g) i); reply_add_reg (match r with Some v => v | None => 0 end).

Definition read_registers : G () := each (fun i => read_register (Z.of_nat i)) (seq 0 (Z.to_nat G_REGS)).

(** The values of a G request, eight digits each. *)
Fixpoint parse_regs (n : nat) (p : list Z) : res (option (list Z)) :=
  match n with
  | O => mret (Some [])
  | S n' =>
      v ← parse_reg p;
      match v with
      | None => mret None
      | Some v => r ← parse_regs n' (drop 8 p); mret (cons v <$> r)
      end
  end.

Fixpoint write_regs (i : Z) (values : list Z) : G () :=
  match values with
  | [] => mret ()
  | v :: rest =>
      g ← gets id;
      r ← lift (reg_write (m g) i v);
      match r with Some m' => modify (set_m m') | None => mret () end;;
      write_regs (i + 1) rest
  end.

Definition write_registers : G () :=
  g ← gets id;
  let n := Z.of_nat (length (packet g)) - 1 in
  let count := n / 8 in
  if negb (n mod 8 =? 0) || (G_REGS <? count) then reply (str "E01")
  else
    r ← lift (parse_regs (Z.to_nat count) (drop 1 (request g)));
    match r with
    | None => reply (str "E01")
    | Some values => write_regs 0 values;; reply (str "OK")
    end.

Definition read_one : G () :=
  g ← gets id;
  r ← lift (parse_hex (drop 1 (request g)));
  match r with
  | None => reply (str "E01")
  | Some (regnum, q) =>
      c ← lift (deref q);
      if negb (c =? 0) then reply (str "E01")
      else
        v ← lift (reg_read (m g) regnum);
        match v with Some v => reply_add_reg v | None => reply (str "E01") end
  end.

(** [regnum=value], the value of exactly eight characters. *)
Definition parse_assignment (q : list Z) : res (option (Z * Z)) :=
  r ← parse_hex q;
  match r with
  | None => mret None
  | Some (regnum, q) =>
      c ← deref q;
      if negb (c =? 61) then mret None
      else
        n ← strlen (tail q);
        if negb (n =? 8) then mret None
        else v ← parse_reg (tail q); mret (pair regnum <$> v)
  end.

Definition write_one : G () :=
  g ← gets id;
  r ← lift (parse_assignment (drop 1 (request g)));
  match r with
  | None => reply (str "E01")
  | Some (regnum, value) =>
      r ← lift (reg_write (m g) regnum value);
      match r with
      | Some m' => modify (set_m m');; reply (str "OK")
      | None => reply (str "E01")
      end
  end.

(** What the switch leaves to the loop: to send the reply and go on, to go on
    without one, or that the session is over, with or without a reply. *)
Inductive verdict : Type := Answer | NoAnswer | Over (answer : bool) (e : gdb_end).

Definition answer {A} (c : G A) : G verdict := c;; mret Answer.
Definition resumed (fuel : nat) : G verdict :=
  r ← handle_resume fuel; mret (match r with None => Answer | Some e => Over false e end).

Definition set_request (g : gdb_state) : gdb_state := {| g with out := [] |}.

Definition dispatch (fuel : nat) : G verdict :=
  modify set_request;;
  g ← gets id;
  let p := request g in
  c ← lift (deref p);
  if c =? 63 then answer (reply (str "T05"))
  else if c =? 103 then answer read_registers
  else if c =? 71 then answer write_registers
  else if c =? 112 then answer read_one
  else if c =? 80 then answer write_one
  else if (c =? 109) || (c =? 77) || (c =? 88) then answer handle_memory
  else if (c =? 90) || (c =? 122) then answer handle_breakpoint
  else if (c =? 72) || (c =? 84) then answer (reply (str "OK"))
  else if c =? 113 then answer handle_query
  else if c =? 81 then
    if same (str "QStartNoAckMode") p then
      reply (str "OK");; send_reply;; modify (fun g => {| g with ack := false |});; mret NoAnswer
    else answer (reply [])
  else if c =? 68 then reply (str "OK");; mret (Over true GDB_DETACHED)
  else if c =? 107 then mret (Over false GDB_KILLED)
  else if c =? 118 then
    if same (str "vCont?") p then answer (reply (str "vCont;c;C;s;S"))
    else if starts (str "vKill") p then reply (str "OK");; mret (Over true GDB_KILLED)
    else if starts (str "vCont;") p then resumed fuel
    else answer (reply [])
  else if (c =? 99) || (c =? 115) || (c =? 67) || (c =? 83) then resumed fuel
  else answer (reply []).

(** [packets] bounds the requests served, [fuel] each continue. *)
Fixpoint serve_loop (packets fuel : nat) : G gdb_end :=
  match packets with
  | O => no_fuel
  | S packets' =>
      g ← gets id;
      got ← read_packet (S (unread g));
      if negb got then mret GDB_KILLED
      else
        v ← dispatch fuel;
        match v with
        | Answer => send_reply;; serve_loop packets' fuel
        | NoAnswer => serve_loop packets' fuel
        | Over true e => send_reply;; mret e
        | Over false e => mret e
        end
  end.

Definition session (s : socket) (x : machine) : gdb_state := {|
  sock := s; fd_open := true; m := x; ack := true; gone := false; swbreak := false; at_break := false; break_pc := 0;
  in_ := []; bp := []; packet := []; out := []; end_ := GDB_HALTED |}.

Definition finish_session (e : gdb_end) (g : gdb_state) : gdb_state :=
  match e with
  | GDB_HALTED => {| g with end_ := e |}
  | GDB_KILLED => {| (set_m {| (m g) with halt := HALT_STOPPED |} g) with end_ := e; fd_open := false |}
  | GDB_DETACHED => {| g with end_ := e; fd_open := false |}
  end.

Definition gdb_serve (fuel : nat) : G gdb_end :=
  g ← gets id;
  e ← serve_loop (S (unread g)) fuel;
  modify (finish_session e);;
  mret e.

(** The exit packet; then the socket is drained and closed. *)
Definition gdb_report_exit (status : Z) : G () :=
  g ← gets id;
  if negb (match end_ g with GDB_HALTED => true | _ => false end) || negb (fd_open g) then mret ()
  else
    let s := status .& 0xff in
    reply (str "W" ++ [hex_of (s .>> 4); hex_of (s .& 15)]);;
    send_reply;;
    modify (fun g => {| g with fd_open := false |}).

End WithMachine.

End Gdb.
