(* ===== verification/GdbProofs.v ===== *)
(** * The stub is safe whatever the client sends

    No byte stream makes the stub read past a request, write past a buffer or
    leave the machine ill-formed; every loop that reads is bounded by the bytes
    the client delivers.  The machine changes only by steps of the emulator and
    by the writes a request asks for. *)

From Stdlib Require Import String.
From S2P Require Import Prelude Effects Buffer Simd4 SimdProofs Gpu GpuProofs G3d G3dProofs Dtb Machine Devices.
From S2P Require Import Virtio Bus Mmu Csr Fp Cpu Run MachineOk DevicesProofs VirtioProofs BusProofs CsrProofs CpuProofs.
From S2P Require Import RunProofs Gdb.

Module GdbProofs.
Import Run Gdb.

(** ** Requests are NUL-terminated strings *)

Definition cstr (p : list Z) : Prop := exists l, p = l ++ [0].

Lemma cstr_request g : cstr (request g).
Proof. by eexists. Qed.

Lemma cstr_cons p : cstr p -> exists c r, p = c :: r /\ (c <> 0 -> cstr r).
Proof. intros [[|c l] ->]; [by exists 0, []|]. exists c, (l ++ [0]). split; [done|]. intros _. by eexists. Qed.

Lemma cstr_length p : cstr p -> (1 <= length p)%nat.
Proof. intros [l ->]. rewrite length_app. cbn. lia. Qed.

Lemma starts_cstr lit p : Forall (fun c => c <> 0) lit -> starts lit p = true -> cstr p -> cstr (drop (length lit) p).
Proof.
  revert p. induction lit as [|a lit IH]; intros p Hl Hs Hp; [done|]. apply Forall_cons_iff in Hl as [Ha Hl].
  destruct (cstr_cons _ Hp) as (c & r & -> & Hr). cbn in Hs. bools. subst c. cbn. by apply IH; [|done|apply Hr].
Qed.

Section Parsing.
Context `{F : Fuelled}.

Lemma deref_wp p (Q : Z -> Prop) :
  cstr p -> (forall c r, p = c :: r -> (c <> 0 -> cstr r) -> Q c) -> wpr (deref p) Q.
Proof. intros Hp HQ. destruct (cstr_cons _ Hp) as (c & r & -> & Hr). by apply (HQ c r). Qed.

Lemma hex_digit_range c : -1 <= hex_digit c < 16 /\ (0 <= hex_digit c -> c <> 0).
Proof. unfold hex_digit. repeat casif; bools; lia. Qed.

Lemma hex_byte_wp p (Q : Z -> Prop) :
  cstr p \/ (2 <= length p)%nat ->
  (forall b, -1 <= b < 256 -> (0 <= b -> cstr p -> cstr (drop 2 p)) -> Q b) -> wpr (hex_byte p) Q.
Proof.
  intros Hp HQ. unfold hex_byte.
  destruct p as [|c p]; [destruct Hp as [[[|] ?]|]; [done|done|cbn in *; lia]|]. cbn [deref].
  destruct (hex_digit_range c) as [Hc Hc0].
  assert (Hp' : hex_digit c >= 0 -> cstr (c :: p) -> cstr p).
  { intros H H1. destruct (cstr_cons _ H1) as (c' & r & [= <- <-] & Hr). apply Hr, Hc0. lia. }
  wps; bools; cbv zeta in *; [apply HQ; lia|].
  destruct p as [|d p]; [exfalso; destruct Hp as [Hp|Hp]; [|cbn in Hp; lia]|].
  { apply Hp' in Hp; [|lia]. by destruct Hp as [[|] ?]. }
  cbn [tail deref]. wps. destruct (hex_digit_range d) as [Hd Hd0].
  destruct (Z.ltb_spec (hex_digit d) 0); apply HQ; try lia.
  intros _ H1. apply Hp' in H1; [|lia]. destruct (cstr_cons _ H1) as (d' & r & [= <- <-] & Hr). apply Hr, Hd0. lia.
Qed.

Lemma parse_digits_wp p digits v (Q : option (Z * list Z) -> Prop) :
  cstr p -> is_u32 v -> Q None -> (forall v p', is_u32 v -> cstr p' -> Q (Some (v, p'))) ->
  wpr (parse_digits p digits v) Q.
Proof.
  revert digits v. induction p as [|c p IH]; intros digits v Hp Hv H0 HQ; [by destruct Hp as [[|] ?]|].
  cbn [parse_digits]. destruct (hex_digit_range c) as [Hc Hc0]. cbv zeta. wps; bools.
  - destruct (_ <? _); [by apply HQ|done].
  - done.
  - apply IH; [|by apply lor_u32; [apply u32_range|unfold is_u32; lia]|done|done].
    destruct (cstr_cons _ Hp) as (c' & r & [= <- <-] & Hr). apply Hr, Hc0. lia.
Qed.

Lemma parse_hex_wp p (Q : option (Z * list Z) -> Prop) :
  cstr p -> Q None -> (forall v p', is_u32 v -> cstr p' -> Q (Some (v, p'))) -> wpr (parse_hex p) Q.
Proof. intros. by apply parse_digits_wp. Qed.

(** A range ends at the character asked for. *)
Lemma parse_range_wp p e (Q : option (Z * Z * list Z) -> Prop) :
  cstr p -> Q None ->
  (forall a l p', is_u32 a -> is_u32 l -> cstr (e :: p') -> Q (Some (a, l, e :: p'))) -> wpr (parse_range p e) Q.
Proof.
  intros Hp H0 HQ. unfold parse_range. wp1. apply parse_hex_wp; [done|exact H0|]. intros a p1 Ha H1. cbv beta iota.
  wp1. apply deref_wp; [done|]. intros c r -> Hr. wp1; [exact H0|]. bools. subst c.
  wp1. apply parse_hex_wp; [by apply Hr|exact H0|]. intros l p2 Hl H2. cbv beta iota.
  wp1. apply deref_wp; [done|]. intros c r' -> Hr'. destruct (Z.eqb_spec c e) as [->|]; [by apply HQ|exact H0].
Qed.

Lemma byte_word v b i : 0 <= i -> 0 <= v < 2 ^ (8 * i) -> 0 <= b < 256 -> 0 <= v .| (b .<< (8 * i)) < 2 ^ (8 * (i + 1)).
Proof.
  intros Hi Hv Hb. rewrite Z.lor_comm, lor_add by lia.
  replace (8 * (i + 1)) with (8 * i + 8) by lia. rewrite Z.pow_add_r by lia. change (2 ^ 8) with 256.
  pose proof (Z.pow_pos_nonneg 2 (8 * i)). nia.
Qed.

Lemma parse_bytes_wp n i p v (Q : option Z -> Prop) :
  0 <= i -> cstr (drop (Z.to_nat (2 * i)) p) -> 0 <= v < 2 ^ (8 * i) -> Q None ->
  (forall w, 0 <= w < 2 ^ (8 * (i + Z.of_nat n)) -> cstr (drop (Z.to_nat (2 * (i + Z.of_nat n))) p) -> Q (Some w)) ->
  wpr (parse_bytes n i p v) Q.
Proof.
  revert i v. induction n as [|n IH]; intros i v Hi Hp Hv H0 HQ; cbn [parse_bytes].
  - apply HQ; by rewrite Z.add_0_r.
  - wp1. apply hex_byte_wp; [by left|]. intros b Hb Hd. wp1; [exact H0|]. bools.
    apply IH; [lia| |by apply byte_word; lia|done|].
    + specialize (Hd ltac:(lia) Hp). rewrite drop_drop in Hd.
      replace (Z.to_nat (2 * (i + 1))) with (Z.to_nat (2 * i) + 2)%nat by lia. exact Hd.
    + replace (i + 1 + Z.of_nat n) with (i + Z.of_nat (S n)) by lia. exact HQ.
Qed.

Lemma parse_reg_wp p (Q : option Z -> Prop) :
  cstr p -> Q None -> (forall w, is_u32 w -> cstr (drop 8 p) -> Q (Some w)) -> wpr (parse_reg p) Q.
Proof. intros Hp H0 HQ. apply parse_bytes_wp; [done|done|done|done|]. intros w Hw Hc. by apply HQ. Qed.

Lemma parse_regs_wp n p (Q : option (list Z) -> Prop) :
  cstr p -> Q None -> (forall l, length l = n -> Forall is_u32 l -> Q (Some l)) -> wpr (parse_regs n p) Q.
Proof.
  revert p Q. induction n as [|n IH]; intros p Q Hp H0 HQ; cbn [parse_regs]; [by apply (HQ [])|].
  wp1. apply parse_reg_wp; [done|exact H0|]. intros w Hw Hc. cbv beta iota. wp1.
  apply IH; [done|exact H0|]. intros l Hl Hf. apply (HQ (w :: l)); [by cbn; rewrite Hl|by constructor].
Qed.

Lemma hex_bytes_wp n p (Q : option (list Z) -> Prop) :
  length p = (2 * n)%nat -> Q None -> (forall l, length l = n -> Forall is_u8 l -> Q (Some l)) -> wpr (hex_bytes n p) Q.
Proof.
  revert p Q. induction n as [|n IH]; intros p Q Hp H0 HQ; cbn [hex_bytes]; [by apply (HQ [])|].
  wp1. apply hex_byte_wp; [right; lia|]. intros b Hb _. wp1; [exact H0|]. bools. wp1.
  apply IH; [rewrite length_drop; lia|exact H0|]. intros l Hl Hf.
  apply (HQ (b :: l)); [by cbn; rewrite Hl|]. constructor; [unfold is_u8; lia|done].
Qed.

Lemma strlen_wp p (Q : Z -> Prop) : cstr p -> (forall n, Q n) -> wpr (strlen p) Q.
Proof.
  revert Q. induction p as [|c p IH]; intros Q Hp HQ; [by destruct Hp as [[|] ?]|]. cbn [strlen]. wps; [apply HQ|].
  apply IH; [|intros n; apply HQ]. destruct (cstr_cons _ Hp) as (c' & r & [= <- <-] & Hr). bools. by apply Hr.
Qed.

Lemma parse_assignment_wp q (Q : option (Z * Z) -> Prop) :
  cstr q -> Q None -> (forall r v, is_u32 r -> is_u32 v -> Q (Some (r, v))) -> wpr (parse_assignment q) Q.
Proof.
  intros Hq H0 HQ. unfold parse_assignment. wp1. apply parse_hex_wp; [done|exact H0|]. intros r q1 Hr H1. cbv beta iota.
  wp1. apply deref_wp; [done|]. intros c q2 -> H2. wp1; [exact H0|]. bools. subst c. specialize (H2 ltac:(done)).
  wp1. apply strlen_wp; [done|]. intros n. wp1; [exact H0|]. wp1. apply parse_reg_wp; [done|exact H0|].
  intros w Hw _. by apply HQ.
Qed.

Lemma parse_breakpoint_wp p (Q : option Z -> Prop) :
  cstr p -> Q None -> (forall a, is_u32 a -> Q (Some a)) -> wpr (parse_breakpoint p) Q.
Proof.
  intros Hp H0 HQ. unfold parse_breakpoint. wp1. apply deref_wp; [done|]. intros c r -> Hr. wp1; [exact H0|]. bools. subst c.
  wp1. apply parse_hex_wp; [by apply Hr|exact H0|]. intros a p1 Ha H1. cbv beta iota.
  wp1. apply deref_wp; [done|]. intros c r' -> Hr'. wp1; [exact H0|]. bools. subst c.
  wp1. apply parse_hex_wp; [by apply Hr'|exact H0|]. intros l p2 Hl H2. cbv beta iota.
  wp1. apply deref_wp; [done|]. intros c r'' -> _. destruct (_ && _); [exact H0|by apply HQ].
Qed.

Lemma parse_resume_wp p (Q : option (bool * option Z) -> Prop) :
  cstr p -> (exists c r, p = c :: r /\ c <> 0) -> Q None -> (forall s, Q (Some (s, None))) ->
  (forall s a, is_u32 a -> Q (Some (s, Some a))) -> wpr (parse_resume p) Q.
Proof.
  intros Hp (c0 & r0 & -> & Hc0) H0 H1 HQ. unfold parse_resume. wp1.
  - wp1. apply deref_wp; [by apply (starts_cstr (str "vCont;")); [repeat constructor|..]|].
    intros c r _ _. destruct (_ && _); [exact H0|apply H1].
  - wp1. cbn [deref wpr mret res_ret]. cbv zeta. destruct (cstr_cons _ Hp) as (c & r & [= <- <-] & Hr).
    assert (Hend : forall s p, cstr p -> wpr (c ← deref p;
       if c =? 0 then mret (Some (s, None)) else r ← parse_hex p;
         match r with None => mret None | Some (a, p) => c ← deref p; mret (if c =? 0 then Some (s, Some a) else None) end) Q).
    { intros s p Hs. wp1. apply deref_wp; [done|]. intros c1 r1 -> _. wp1; [apply H1|]. wp1.
      apply parse_hex_wp; [done|exact H0|]. intros a p1 Ha Hp1. cbv beta iota. wp1. apply deref_wp; [done|].
      intros c2 r2 -> _. destruct (c2 =? 0); [by apply HQ|exact H0]. }
    wp1. wp1.
    + unfold parse_signal. wp1. apply parse_hex_wp; [by apply Hr|exact H0|]. intros v p1 _ Hp1. cbv beta iota.
      wp1. apply deref_wp; [done|]. intros c1 r1 -> Hr1. destruct (Z.eqb_spec c1 59) as [->|].
      { apply Hend. by apply Hr1. }
      destruct (negb _); [exact H0|]. by apply Hend.
    + apply Hend. by apply Hr.
Qed.

End Parsing.

(** ** The connection *)

(** The socket's side of a session changed, nothing else but perhaps the reply. *)
Definition keeps (g g' : gdb_state) : Prop :=
  m g' = m g /\ bp g' = bp g /\ packet g' = packet g /\ ack g' = ack g.

Lemma keeps_refl g : keeps g g.
Proof. done. Qed.
Lemma keeps_trans g1 g2 g3 : keeps g1 g2 -> keeps g2 g3 -> keeps g1 g3.
Proof. intros (?&?&?&?) (?&?&?&?). repeat split; congruence. Qed.

Lemma recv_loop_spec os r rest :
  recv_loop os = (r, rest) ->
  match r with
  | Some l => l <> [] /\ (length l + sum_list_with received rest = sum_list_with received os)%nat
  | None => (sum_list_with received rest <= sum_list_with received os)%nat
  end.
Proof.
  revert r rest. induction os as [|o os IH]; intros r rest E; cbn [recv_loop] in E; [by injection E as <- <-|].
  destruct o as [[|b l]| |]; cbn [sum_list_with received].
  - by injection E as <- <-.
  - assert (Hk : (0 < Z.to_nat IN_SIZE)%nat) by (unfold IN_SIZE; lia).
    revert E Hk. generalize (Z.to_nat IN_SIZE) as k. intros k E Hk. apply pair_equal_spec in E as [<- <-].
    split; [destruct k; [lia|done]|].
    assert (El : (length (take k (b :: l)) + length (drop k (b :: l)) = length (b :: l))%nat)
      by (by rewrite <- length_app, take_drop).
    clear -El. set (l0 := b :: l) in *. set (t := take k l0) in *. set (d := drop k l0) in *. clearbody t d l0.
    destruct d; cbn [sum_list_with received length] in *; lia.
  - by apply IH.
  - by injection E as <- <-.
Qed.

Section Connection.
Context `{F : Fuelled}.

(** A byte read is one fewer to read; no byte means that the connection is gone. *)
Lemma next_byte_wp (Q : option Z -> gdb_state -> Prop) g :
  (forall r g', keeps g g' -> out g' = out g ->
     match r with Some _ => (unread g' < unread g)%nat | None => (unread g' <= unread g)%nat /\ gone g' = true end -> Q r g') ->
  wp next_byte Q g.
Proof.
  intros HQ. unfold next_byte. wps. unfold id. destruct (in_ g) as [|b rest] eqn:Ei.
  - wp1; [wps; apply HQ; [done|done|by split]|].
    destruct (recv_loop (recvs (sock g))) as [r rest] eqn:Er. apply recv_loop_spec in Er. wps.
    destruct r as [[|b l]|]; unfold connection_lost; wps.
    + by destruct Er.
    + apply HQ; [done|done|]. destruct Er as [_ Er]. unfold unread. cbn [in_ sock recvs set_sock]. rewrite Ei. cbn [length] in *. lia.
    + apply HQ; [done|done|]. split; [|done]. unfold unread. cbn [in_ sock recvs set_sock]. rewrite Ei. cbn [length]. lia.
  - wps. apply HQ; [done|done|]. unfold unread. cbn [in_ sock]. rewrite Ei. cbn [length]. lia.
Qed.

Lemma send_all_wp data (Q : bool -> gdb_state -> Prop) g :
  (forall b g', keeps g g' -> out g' = out g -> unread g' = unread g -> Q b g') -> wp (send_all data) Q g.
Proof.
  intros HQ. unfold send_all. wps; [by apply HQ|]. destruct (send_loop _ _) as [[o s] lost].
  wps; unfold connection_lost; wps; by apply HQ.
Qed.

Lemma wait_ack_wp fuel (Q : bool -> gdb_state -> Prop) g :
  (unread g < fuel)%nat -> (forall b g', keeps g g' -> out g' = out g -> (unread g' <= unread g)%nat -> Q b g') ->
  wp (wait_ack fuel) Q g.
Proof.
  revert g. induction fuel as [|fuel IH]; intros g Hf HQ; [lia|]. cbn [wait_ack]. wp1. apply next_byte_wp.
  intros [c|] g' Hk Ho Hu; cbv beta iota; [|wps; apply HQ; [done|done|lia]].
  wps; [apply HQ; [done|done|lia]..|]. apply IH; [lia|]. intros b g2 Hk2 Ho2 Hu2.
  apply HQ; [by eapply keeps_trans|congruence|lia].
Qed.

Lemma send_attempts_wp n f (Q : () -> gdb_state -> Prop) g :
  (forall g', keeps g g' -> out g' = out g -> (unread g' <= unread g)%nat -> Q () g') -> wp (send_attempts n f) Q g.
Proof.
  revert g. induction n as [|n IH]; intros g HQ; cbn [send_attempts]; [unfold connection_lost; wps; by apply HQ|].
  wp1. apply send_all_wp. intros b g1 Hk Ho Hu. wps; [apply HQ; [done|done|lia]|].
  apply wait_ack_wp; [unfold id; lia|]. intros again g2 Hk2 Ho2 Hu2. unfold id in *.
  assert (Hk' : keeps g g2) by (by eapply keeps_trans).
  destruct again; [|wps; apply HQ; [done|congruence|lia]]. apply IH. intros g3 Hk3 Ho3 Hu3.
  apply HQ; [by eapply keeps_trans|congruence|lia].
Qed.

Lemma send_reply_wp (Q : () -> gdb_state -> Prop) g :
  (forall g', keeps g g' -> (unread g' <= unread g)%nat -> Q () g') -> wp send_reply Q g.
Proof. intros HQ. unfold send_reply. wps. apply send_attempts_wp. intros. by apply HQ. Qed.

Lemma reply_wp text (Q : () -> gdb_state -> Prop) g :
  (Z.of_nat (length text) <= OUT_SIZE) -> (forall g', keeps g g' -> unread g' = unread g -> Q () g') -> wp (reply text) Q g.
Proof. intros Ht HQ. unfold reply. rewrite (proj2 (Z.ltb_ge _ _)) by done. wps. by apply HQ. Qed.

Lemma push_wp {A} size l (c : A) (Q : list A -> Prop) : Z.of_nat (length l) < size -> Q (l ++ [c]) -> wpr (push size l c) Q.
Proof. intros Hl HQ. unfold push. by rewrite (proj2 (Z.ltb_lt _ _)) by done. Qed.

Lemma read_payload_wp fuel got overflow sum (Q : option (list Z * bool * Z) -> gdb_state -> Prop) g :
  (unread g < fuel)%nat -> Z.of_nat (length got) <= PACKET_SIZE ->
  (forall r g', keeps g g' -> (unread g' <= unread g)%nat ->
     match r with Some (p, _, _) => Z.of_nat (length p) <= PACKET_SIZE | None => True end -> Q r g') ->
  wp (read_payload fuel got overflow sum) Q g.
Proof.
  revert got overflow sum g. induction fuel as [|fuel IH]; intros got overflow sum g Hf Hg HQ; [lia|].
  cbn [read_payload]. wp1. apply next_byte_wp. intros [c|] g' Hk Ho Hu; cbv beta iota; [|wps; apply HQ; [done|lia|done]].
  assert (HQ' : forall r g2, keeps g' g2 -> (unread g2 <= unread g')%nat ->
     match r with Some (p, _, _) => Z.of_nat (length p) <= PACKET_SIZE | None => True end -> Q r g2).
  { intros r g2 Hk2 Hu2. apply HQ; [by eapply keeps_trans|lia]. }
  wps; bools; [apply HQ; [done|lia|done]| |].
  - apply push_wp; [lia|]. apply IH; [lia|rewrite length_app; cbn; lia|exact HQ'].
  - apply IH; [lia|lia|exact HQ'].
Qed.

Lemma digit_wp (Q : Z -> gdb_state -> Prop) g :
  (forall c g', keeps g g' -> (unread g' <= unread g)%nat -> Q c g') -> wp digit Q g.
Proof.
  intros HQ. unfold digit. wp1. apply next_byte_wp. intros [c|] g' Hk _ Hu; wps; apply HQ; try done; lia.
Qed.

(** Reading a request takes bytes, and keeps everything but the request. *)
Lemma read_packet_wp fuel (Q : bool -> gdb_state -> Prop) g :
  (unread g < fuel)%nat ->
  (forall (b : bool) g', m g' = m g -> bp g' = bp g -> ack g' = ack g ->
     (if b then (unread g' < unread g)%nat /\ Z.of_nat (length (packet g')) <= PACKET_SIZE
      else (unread g' <= unread g)%nat /\ packet g' = packet g) -> Q b g') ->
  wp (read_packet fuel) Q g.
Proof.
  revert g. induction fuel as [|fuel IH]; intros g Hf HQ; [lia|]. cbn [read_packet]. wp1. apply next_byte_wp.
  assert (HF : forall g', keeps g g' -> (unread g' <= unread g)%nat -> Q false g')
    by (intros g' (?&?&?&?) ?; by apply HQ).
  assert (HR : forall g', keeps g g' -> (unread g' < unread g)%nat -> wp (read_packet fuel) Q g').
  { intros g' (?&?&?&?) ?. apply IH; [lia|]. intros b g2 ? ? ? Hb. apply HQ; try congruence.
    destruct b; [|destruct Hb; split; [lia|congruence]]. destruct Hb. split; [lia|done]. }
  intros [c|] g1 H1 _ U1; cbv beta iota; [|wps; apply HF; [done|lia]].
  wp1; [by apply HR|]. wp1. apply read_payload_wp; [lia|by cbn|]. intros [[[p overflow] sum]|] g2 H2 U2 Hp; cbv beta iota;
    [|wps; apply HF; [by eapply keeps_trans|lia]].
  wp1. apply digit_wp. intros d0 g3 H3 U3. wp1. apply digit_wp. intros d1 g4 H4 U4.
  assert (K4 : keeps g g4) by (repeat (eapply keeps_trans; [eassumption|]); done).
  wps; unfold id in *; [apply HF; [done|lia]|]. apply hex_byte_wp; [by right|]. intros given _ _. wps.
  - apply send_all_wp. intros ? g5 K5 _ U5. apply HR; [by eapply keeps_trans|lia].
  - apply reply_wp; [done|]. intros g5 K5 U5. wp1. apply send_reply_wp. intros g6 K6 U6.
    apply HR; [by do 2 (eapply keeps_trans; [eassumption|])|lia].
  - apply send_all_wp. intros b g5 K5 _ U5. wps; [apply HF; [by eapply keeps_trans|lia]|].
    apply push_wp; [lia|]. wps. destruct (keeps_trans _ _ _ K4 K5) as (?&?&?&?). apply HQ; [done|done|done|]. cbn [unread packet in_ sock].
    split; [|done]. change (unread g5 < unread g)%nat. lia.
  - done.
  - apply push_wp; [lia|]. wps. destruct K4 as (?&?&?&?). apply HQ; [done|done|done|]. split; [|done]. change (unread g4 < unread g)%nat. lia.
Qed.

Lemma drain_wp fuel hit (Q : bool -> gdb_state -> Prop) g :
  (unread g + (if gone g then 0 else 1) < fuel)%nat ->
  (forall b g', keeps g g' -> out g' = out g -> (unread g' <= unread g)%nat -> Q b g') -> wp (drain fuel hit) Q g.
Proof.
  revert hit g. induction fuel as [|fuel IH]; intros hit g Hf HQ; [lia|]. cbn [drain]. wp1. wp1. wp1; [wps; by apply HQ|].
  match goal with H : gone _ = false |- _ => unfold id in H; rewrite H in Hf end.
  assert (Hr : forall b g1, keeps g g1 -> out g1 = out g -> unread g1 = unread g -> wp
    (if negb b then mret hit else c ← next_byte; drain fuel (match c with Some c => hit || (c =? 3) | None => hit end)) Q g1).
  { intros b g1 K1 O1 U1. wp1; [wps; apply HQ; [done|done|lia]|]. wp1. apply next_byte_wp. intros r g2 K2 O2 U2.
    apply IH; [destruct r; [destruct (gone g2)|destruct U2 as [? ->]]; lia|]. intros b2 g3 K3 O3 U3.
    apply HQ; [by do 2 (eapply keeps_trans; [eassumption|])|congruence|destruct r; lia]. }
  unfold byte_ready. wp1. wp1. wp1. unfold id. destruct (in_ g); [wp1; wp1; wp1|wp1]; by apply Hr.
Qed.

Lemma interrupted_wp (Q : bool -> gdb_state -> Prop) g :
  (forall b g', keeps g g' -> out g' = out g -> (unread g' <= unread g)%nat -> Q b g') -> wp interrupted Q g.
Proof. intros HQ. unfold interrupted. wps. apply drain_wp; [unfold id; destruct (gone g); lia|done]. Qed.

End Connection.

(** ** What a session does to the machine *)

#[local] Existing Instance any_start.
#[local] Existing Instance partial.

Section Machine.
Context `{SVF : ServeFuel} `{SF : SoftFloat} {SFO : Fp.SoftFloatOk SF}.

Definition limit_reached (m : machine) : machine := {| m with halt := HALT_LIMIT |}.

(** The machine ran from one state to another: steps of the emulator, each from
    a state [P] allows, while it was running and below its limit, and the stop at
    the limit. *)
Inductive runs (P : machine -> Prop) : machine -> machine -> Prop :=
| runs_refl m : runs P m m
| runs_step m m1 m2 :
    P m -> halt m = RUNNING -> steps (counters m) < limit (counters m) -> Cpu.step m = Ok ((), m1) ->
    runs P m1 m2 -> runs P m m2
| runs_limit m m2 :
    halt m = RUNNING -> limit (counters m) <= steps (counters m) -> runs P (limit_reached m) m2 -> runs P m m2.

Lemma runs_trans P m1 m2 m3 : runs P m1 m2 -> runs P m2 m3 -> runs P m1 m3.
Proof. induction 1; [done|..]; intros; [eapply runs_step|eapply runs_limit]; eauto. Qed.

Lemma runs_mono (P Q : machine -> Prop) m1 m2 : (forall m, P m -> Q m) -> runs P m1 m2 -> runs Q m1 m2.
Proof. intros HPQ. induction 1; [constructor|eapply runs_step|eapply runs_limit]; eauto. Qed.

Lemma limit_reached_ok m : machine_ok m -> machine_ok (limit_reached m).
Proof. done. Qed.

Lemma step_ok m m1 : machine_ok m -> Cpu.step m = Ok ((), m1) ->
  machine_ok m1 /\ steps (counters m1) = u64 (steps (counters m) + 1).
Proof.
  intros Hm E. destruct (wp_ok _ _ _ _ _ (@CpuProofs.step_wp _ partial _ _ _ m Hm (or_introl I)) E) as [H1 (S1 & _)].
  by split.
Qed.

Lemma runs_ok P m1 m2 : runs P m1 m2 -> machine_ok m1 -> machine_ok m2.
Proof.
  induction 1 as [m|m m1 m2 _ _ _ E _ IH|m m2 _ _ _ IH]; intros Hm; [done| |].
  - apply IH. by eapply step_ok.
  - by apply IH.
Qed.

(** The run loop: where [P] holds of every state it steps from, it [runs]. *)
Lemma run_loop_runs (P : machine -> Prop) fuel frames0 end0 m :
  machine_ok m -> end0 <= UINT64_MAX -> (steps (counters m) < end0 -> P m) ->
  (forall m', end0 <= steps (counters m) + 1 \/ P m') ->
  wp (run_loop fuel frames0 end0) (fun s m' => runs P m m' /\ (s = EMU_STOP_HALTED -> halt m' <> RUNNING)) m.
Proof.
  revert m. induction fuel as [|fuel IH]; intros m Hm He HP Hnext; [done|]. cbn [run_loop]. wp1. wp1. unfold id.
  destruct (halt m) eqn:Eh; try (wps; split; [constructor|by rewrite Eh]).
  wp1.
  { bools. wps. split; [|done]. apply runs_limit; [done|lia|constructor]. }
  wp1; bools.
  { wps. split; [constructor|by rewrite Eh]. }
  wp1. pose proof (@CpuProofs.step_wp _ partial _ _ _ m Hm (or_introl I)) as Hstep.
  unfold wp in Hstep |- *. destruct (Cpu.step m) as [[[] m1]| |] eqn:Es; [|done|done].
  destruct Hstep as [H1 (S1 & _)].
  assert (E1 : steps (counters m1) = steps (counters m) + 1).
  { rewrite S1. apply u64_id. unfold UINT64_MAX in He. destruct Hm as (_&_&_&((?&?)&_)). unfold is_u64. lia. }
  change (wp (f ← gets (fun m => frames (display m)); if negb (f =? frames0) then mret EMU_STOP_PRESENTED
    else run_loop fuel frames0 end0) (fun s m' => runs P m m' /\ (s = EMU_STOP_HALTED -> halt m' <> RUNNING)) m1).
  assert (HR : forall m2, runs P m1 m2 -> runs P m m2) by (intros m2; apply runs_step; [apply HP; lia|done|lia|done]).
  wp1. wp1. wp1; [wps; split; [apply HR; constructor|done]|].
  assert (Hn : steps (counters m1) < end0 -> P m1) by (intros; destruct (Hnext m1); [lia|done]).
  eapply wp_mono; [apply IH; [done|done|exact Hn|]|].
  - intros m'. destruct (Hnext m'); [left; lia|by right].
  - intros s m' [Hr Hs]. split; [by apply HR|done].
Qed.

(** A batch of the debugger. *)
Definition one_or_all (b : Z) (P : machine -> Prop) : Prop := b = 1 \/ forall m, P m.

Lemma run_wp b (P : machine -> Prop) (Q : emu_stop -> gdb_state -> Prop) g :
  machine_ok (m g) -> is_u64 b -> P (m g) -> one_or_all b P ->
  (forall s m', runs P (m g) m' -> machine_ok m' -> (s = EMU_STOP_HALTED -> halt m' <> RUNNING) -> Q s (set_m m' g)) ->
  wp (run b) Q g.
Proof.
  intros Hm Hb HP Hone HQ. unfold run, on_machine. wp1. unfold emu_run_until. wp1. wp1. unfold id.
  assert (Hs : is_u64 (steps (counters (m g)))) by (destruct Hm as (_&_&_&(?&_)); done).
  destruct (RunProofs.budget_end_range _ _ Hs Hb) as [Hr Eb].
  eapply wp_mono; [apply (run_loop_runs P); [done|lia|done|]|].
  - intros m'. destruct Hone as [->|Hall]; [left; lia|right; apply Hall].
  - intros s m' [Hruns Hh]. apply HQ; [done|by eapply runs_ok|done].
Qed.

(** No breakpoint is set where the machine is. *)
Definition unbroken (l : list breakpoint) (x : machine) : Prop :=
  List.find (fun b => addr b =? pc (hart x)) l = None.

Definition stop_ok (l : list breakpoint) (r : stop_reason) (hit : option breakpoint) (x : machine) : Prop :=
  match r with
  | STOP_BREAK => exists b, hit = Some b /\ In b l /\ addr b = pc (hart x)
  | STOP_HALTED => halt x <> RUNNING
  | _ => True
  end.

Lemma continue_loop_wp (P : machine -> Prop) l fuel next_poll check (Q : stop_reason * option breakpoint -> gdb_state -> Prop) g :
  machine_ok (m g) -> bp g = l -> (forall x, unbroken l x -> P x) -> (check = false -> P (m g)) ->
  (forall r hit g', machine_ok (m g') -> bp g' = l -> packet g' = packet g -> (unread g' <= unread g)%nat ->
     runs P (m g) (m g') -> stop_ok l r hit (m g') -> Q (r, hit) g') ->
  wp (continue_loop fuel next_poll check) Q g.
Proof.
  revert next_poll check g. induction fuel as [|fuel IH]; intros next_poll check g Hm Hl HP Hc HQ; [done|].
  cbn [continue_loop]. wp1. wp1. unfold id.
  destruct (if check then find_breakpoint g (pc (hart (m g))) else None) as [b|] eqn:Eb.
  { wps. destruct check; [|done]. apply find_some in Eb as [Hin Ha]. bools. rewrite Hl in Hin.
    apply HQ; try done; [constructor|]. by exists b. }
  assert (HPg : P (m g)).
  { destruct check; [|by apply Hc]. apply HP. unfold unbroken. unfold find_breakpoint in Eb. by rewrite <- Hl. }
  assert (Hone : one_or_all (match bp g with [] => POLL_INTERVAL | _ => 1 end) P).
  { rewrite Hl. destruct l as [|b l]; [right; intros x; by apply HP|by left]. }
  wp1. apply (run_wp _ P); [done|destruct (bp g); done|done|done|]. intros s m' Hr Hm' Hh.
  wp1; [wps; apply HQ; try done; apply Hh; by destruct s|].
  wp1. wp1. wp1.
  - wp1. apply interrupted_wp. intros hit g2 (Em&Eb2&Ep2&_) _ Hu. wp1. wp1. unfold id.
    assert (Em2 : m g2 = m') by done.
    assert (Hstop : forall r, stop_ok l r None (m g2) -> Q (r, None) g2).
    { intros r Hst. apply HQ; [by rewrite Em2|by rewrite Eb2|by rewrite Ep2|exact Hu|by rewrite Em2|done]. }
    destruct hit; [by apply (Hstop STOP_INTERRUPT)|]. wp1; [by apply (Hstop STOP_GONE)|].
    apply IH; [by rewrite Em2|by rewrite Eb2|done|done|]. intros r hit g3 H3 B3 P3 U3 R3 S3.
    apply HQ; [done|done|by rewrite P3, Ep2|change (unread (set_m m' g)) with (unread g) in Hu; lia| |done].
    rewrite Em2 in R3. by eapply runs_trans.
  - apply IH; [done|done|done|done|]. intros r hit g3 H3 B3 P3 U3 R3 S3.
    apply HQ; [done|done|done|exact U3|by eapply runs_trans|done].
Qed.

(** The session's effect on the machine: runs, and, where [w] allows them, the
    writes requests ask for. *)
Inductive debugged (w : Prop) : machine -> machine -> Prop :=
| dbg_refl x : debugged w x x
| dbg_runs x x1 x2 : runs (fun _ => True) x x1 -> debugged w x1 x2 -> debugged w x x2
| dbg_reg x regnum v x1 x2 : w -> reg_write x regnum v = Ok (Some x1) -> debugged w x1 x2 -> debugged w x x2
| dbg_mem x a data x1 x2 : w -> emu_debug_write x a data = Ok (Some x1) -> debugged w x1 x2 -> debugged w x x2.

Lemma debugged_trans w x1 x2 x3 : debugged w x1 x2 -> debugged w x2 x3 -> debugged w x1 x3.
Proof.
  induction 1; [done|..]; intros; [eapply dbg_runs|eapply dbg_reg|eapply dbg_mem]; eauto.
Qed.

(** Without writes it is a run. *)
Lemma debugged_runs x1 x2 : debugged False x1 x2 -> runs (fun _ => True) x1 x2.
Proof. induction 1; [constructor|by eapply runs_trans|done|done]. Qed.

Definition g_ok (g : gdb_state) : Prop :=
  machine_ok (m g) /\ Z.of_nat (length (bp g)) <= MAX_BREAKPOINTS /\ Z.of_nat (length (packet g)) <= PACKET_SIZE.

Section Writes.
Context (w : Prop).

(** What serving a request keeps. *)
Definition served (g g' : gdb_state) : Prop :=
  g_ok g' /\ (unread g' <= unread g)%nat /\ debugged w (m g) (m g').

Lemma served_keeps g g' : g_ok g -> keeps g g' -> (unread g' <= unread g)%nat -> served g g'.
Proof. intros (H1&H2&H3) (Em&Eb&Ep&_) Hu. unfold served, g_ok. rewrite Em, Eb, Ep. split; [done|]. split; [done|constructor]. Qed.

Lemma served_trans g1 g2 g3 : served g1 g2 -> served g2 g3 -> served g1 g3.
Proof. intros (_&U1&D1) (G2&U2&D2). split; [done|]. split; [lia|by eapply debugged_trans]. Qed.

(** Handlers answer with constant texts, which fit. *)
Lemma reply_served text g0 g : Z.of_nat (length text) <= OUT_SIZE -> served g0 g -> wp (reply text) (fun _ => served g0) g.
Proof.
  intros Ht Hg. apply reply_wp; [done|]. intros g' Hk Hu. eapply served_trans; [done|].
  apply served_keeps; [apply Hg|done|lia].
Qed.

Lemma set_m_served g0 g x : served g0 g -> machine_ok x -> debugged w (m g) x -> served g0 (set_m x g).
Proof. intros ((H1&H2&H3)&U&D) Hx Hd. split; [done|]. split; [done|]. by eapply debugged_trans. Qed.

(** ** Registers and memory *)

Lemma reg_read_wp x r (Q : option Z -> Prop) : machine_ok x -> 0 <= r -> (forall o, Q o) -> wpr (reg_read x r) Q.
Proof.
  intros Hm Hr HQ. pose proof Hm as (_&((Lx&_)&_&(Lf&_)&_)&_). unfold reg_read, Csr.emu_csr_read.
  wps; bools; try apply HQ;
    first [rewrite CsrProofs.csr_read_eq by done; apply HQ|apply wpr_aget; [unfold REG_F0, REG_PC in *; lia|apply HQ]].
Qed.

(** A write of a register: refused, or a well-formed machine. *)
Lemma reg_write_ok x r v : machine_ok x -> is_u32 r -> is_u32 v ->
  exists o, reg_write x r v = Ok o /\ forall x', o = Some x' -> machine_ok x'.
Proof.
  intros Hm Hr Hv. pose proof Hm as (Hb&((Lx&Hx)&H0&(Lf&Hf)&Hfc&Hpc&Hp)&Hc&Hn). unfold is_u32 in Hr. unfold reg_write.
  destruct (Z.ltb_spec r 32).
  { destruct (tst r) eqn:Et; [|eexists; split; [done|by intros ? [= <-]]]. apply tst_true in Et.
    rewrite aset_ok by lia. eexists. split; [done|]. intros ? [= <-].
    split; [done|]. split; [|done]. cbn [hart upd_hart]. split; [|split; [|split; [by split|done]]]; cbn [x_].
    - split; [by rewrite length_insert|by apply Forall_insert].
    - rewrite at_insert by lia. by rewrite (proj2 (Z.eqb_neq _ _)). }
  destruct (r =? REG_PC) eqn:Ep.
  { eexists. split; [done|]. intros ? [= <-]. split; [done|]. split; [|done].
    split; [by split|]. split; [done|]. split; [by split|]. split; [done|]. split; [|done]. by split. }
  apply Z.eqb_neq in Ep. unfold REG_PC in Ep.
  destruct (Z.ltb_spec r (REG_F0 + 32)) as [Hf1|Hf1].
  { unfold REG_F0 in *. rewrite aset_ok by lia. eexists. split; [done|]. intros ? [= <-]. split; [done|]. split; [|done].
    split; [by split|]. split; [done|]. split; [|done]. cbn [hart upd_hart f_].
    split; [by rewrite length_insert|by apply Forall_insert]. }
  destruct (_ <? _); [|eexists; by split].
  unfold Csr.emu_csr_write. rewrite CsrProofs.csr_read_eq by done. cbn [mbind res_bind].
  destruct (CsrProofs.csr_value _ _); [|eexists; by split]. destruct (_ || _); [eexists; by split|].
  rewrite CsrProofs.csr_write_eq by done. eexists. split; [done|]. intros ? [= <-]. by apply CsrProofs.csr_written_ok.
Qed.

Lemma debug_write_ok x a data : machine_ok x ->
  exists o, emu_debug_write x a data = Ok o /\ forall x', o = Some x' -> machine_ok x'.
Proof.
  intros Hm. unfold emu_debug_write. destruct (debug_bytes _ _) as [[arr p]|] eqn:E; [|eexists; split; [done|done]].
  apply RunProofs.debug_bytes_some in E as [Hp Hn]; [|lia].
  assert (Hload : forall b, buf_ok b -> buf_len b = match arr with DebugRam => RAM_SIZE | DebugFb => FB_SIZE end ->
    exists b', buf_load b p data = Ok b' /\ buf_ok b' /\ buf_len b' = buf_len b).
  { intros b Hb Hl. apply wpr_total. apply buf_load_keeps; [done|done|lia|done]. }
  pose proof Hm as ((_&(_&_&_&_&_&(Hfb&_))&(Hr&_)&_)&_).
  destruct arr.
  - destruct (Hload (ram x) Hr) as (b' & -> & H1 & H2); [apply Hm|]. eexists. split; [done|]. intros ? [= <-].
    apply (machine_ok_untouched x); [exact Hm| |done]. apply bus_ram; [apply Hm|]. split; [done|]. rewrite H2. apply Hm.
  - destruct (Hload (fb (display x)) (proj1 Hfb)) as (b' & -> & H1 & H2); [apply Hfb|]. eexists. split; [done|].
    intros ? [= <-]. apply (machine_ok_untouched x); [exact Hm| |done]. apply bus_fb; [apply Hm|done|].
    rewrite H2. apply Hfb.
Qed.

Lemma buf_bytes_wp `{F' : Fuelled} b i n (Q : list Z -> Prop) :
  0 <= i -> i + Z.of_nat n <= buf_len b -> (forall l, length l = n -> Q l) -> @wpr F' _ (buf_bytes b i n) Q.
Proof.
  revert i Q. induction n as [|n IH]; intros i Q Hi Hn HQ; cbn [buf_bytes]; [by apply (HQ [])|].
  wp1. apply wpr_buf_get; [lia|]. wp1. apply IH; [lia|lia|]. intros l Hl. apply HQ. cbn. by rewrite Hl.
Qed.

Lemma debug_read_wp x a n (Q : option (list Z) -> Prop) :
  machine_ok x -> Q None -> (forall l, length l = n -> Q (Some l)) -> wpr (emu_debug_read x a n) Q.
Proof.
  intros Hm H0 HQ. unfold emu_debug_read. destruct (debug_bytes _ _) as [[arr p]|] eqn:E; [|exact H0].
  apply RunProofs.debug_bytes_some in E as [Hp Hn]; [|lia]. pose proof Hm as ((_&(_&_&_&_&_&(Hfb&_))&(_&Hr)&_)&_).
  destruct arr; wp1; (apply buf_bytes_wp; [done| |exact HQ]); [by rewrite Hr|by rewrite (proj2 Hfb)].
Qed.

(** ** Growing a reply *)

Definition grows (g0 : gdb_state) (n : Z) (g : gdb_state) : Prop := served g0 g /\ Z.of_nat (length (out g)) <= n.

Lemma add_out_wp g0 n c g : grows g0 n g -> n < OUT_SIZE -> wp (add_out c) (fun _ => grows g0 (n + 1)) g.
Proof.
  intros [Hs Hl] Hn. unfold add_out. wp1. wp1. unfold id. rewrite (proj2 (Z.leb_gt _ _)) by lia. wps.
  split; [exact Hs|]. cbn [out set_out]. rewrite length_app. cbn [length]. lia.
Qed.

Lemma hex_byte_grows g0 n b g : grows g0 n g -> n + 2 <= OUT_SIZE -> wp (reply_add_hex_byte b) (fun _ => grows g0 (n + 2)) g.
Proof.
  intros Hg Hn. unfold reply_add_hex_byte. wp1. eapply wp_mono; [apply (add_out_wp g0 n); [done|lia]|]. intros [] g1 H1.
  replace (n + 2) with (n + 1 + 1) by lia. apply add_out_wp; [done|lia].
Qed.

Lemma each_grows {A} (f : A -> G ()) (l : list A) g0 n k g :
  0 <= k -> (forall a n g, grows g0 n g -> n + k <= OUT_SIZE -> wp (f a) (fun _ => grows g0 (n + k)) g) ->
  grows g0 n g -> n + k * Z.of_nat (length l) <= OUT_SIZE ->
  wp (each f l) (fun _ => grows g0 (n + k * Z.of_nat (length l))) g.
Proof.
  intros Hk Hf. revert n g. induction l as [|a l IH]; intros n g Hg Hn; cbn [each].
  - wps. rewrite Z.mul_0_r, Z.add_0_r. exact Hg.
  - cbn [length] in *. wp1. eapply wp_mono; [apply (Hf a n); [done|nia]|]. intros [] g1 H1.
    replace (n + k * Z.of_nat (S (length l))) with (n + k + k * Z.of_nat (length l)) by nia. apply IH; [done|nia].
Qed.

Lemma reg_grows g0 n v g : grows g0 n g -> n + 8 <= OUT_SIZE -> wp (reply_add_reg v) (fun _ => grows g0 (n + 8)) g.
Proof.
  intros Hg Hn. unfold reply_add_reg. apply (each_grows _ [0; 1; 2; 3] g0 n 2); [done| |done|cbn; lia].
  intros a n' g' Hg' Hn'. by apply hex_byte_grows.
Qed.

Lemma binary_grows g0 n data g :
  grows g0 n g -> n + 2 * Z.of_nat (length data) <= OUT_SIZE ->
  wp (reply_add_binary data) (fun _ => grows g0 (n + 2 * Z.of_nat (length data))) g.
Proof.
  intros Hg Hn. apply each_grows; [done| |done|done]. intros c n' g' Hg' Hn'. cbv beta. wp1.
  - wp1. eapply wp_mono; [apply (add_out_wp g0 n'); [done|lia]|]. intros [] g1 H1.
    replace (n' + 2) with (n' + 1 + 1) by lia. apply add_out_wp; [done|lia].
  - eapply wp_mono; [apply (add_out_wp g0 n'); [done|lia]|]. intros [] g1 [H1 H2]. split; [done|lia].
Qed.

Lemma out_grows g0 g t : served g0 g -> grows g0 (Z.of_nat (length t)) (set_out t g).
Proof. intros Hs. split; [exact Hs|by cbn]. Qed.

Lemma grows_served {A} (c : G A) g0 n g : wp c (fun _ => grows g0 n) g -> wp c (fun _ => served g0) g.
Proof. intros H. eapply wp_mono; [exact H|]. by intros a g' [? _]. Qed.

(** ** The handlers *)

Lemma tdesc_fits : exists t, build_tdesc = Ok t /\ Z.of_nat (length t) < TDESC_SIZE.
Proof. eexists. split; vm_compute; reflexivity. Qed.

Lemma served_refl g : g_ok g -> served g g.
Proof. intros Hg. split; [done|]. split; [done|constructor]. Qed.

(** A request whose first character is [c]. *)
Definition begins (g : gdb_state) (c : Z) : Prop := exists r, request g = c :: r.

Lemma begins_tail g c : begins g c -> c <> 0 -> cstr (tail (request g)) /\ cstr (drop 1 (request g)).
Proof.
  intros [r E] Hc. destruct (cstr_cons _ (cstr_request g)) as (c' & r' & E' & Hr). rewrite E in E'. injection E' as <- <-.
  rewrite E. cbn. auto.
Qed.

Section Handlers.
Context (g : gdb_state) (Hg : g_ok g).

Abbreviation safe c := (wp c (fun _ => served g) g) (only parsing).

Lemma reply_safe text : Z.of_nat (length text) <= OUT_SIZE -> safe (reply text).
Proof. intros Ht. apply reply_served; [done|by apply served_refl]. Qed.

Lemma read_features_safe q : cstr q -> safe (read_features q).
Proof.
  intros Hq. unfold read_features. wp1; [by apply reply_safe|]. bools. wp1. wp1.
  apply parse_range_wp; [|by apply reply_safe|].
  { apply starts_cstr; [by repeat constructor|done|done]. }
  intros a l p' Ha Hl Hp'. cbv beta iota. wp1. wp1. destruct tdesc_fits as (t & -> & Ht). cbn [wpr]. cbv zeta.
  wp1; [by apply reply_safe|]. bools. wp1. wp1. eapply grows_served, binary_grows.
  - apply out_grows. by apply served_refl.
  - cbn [length]. rewrite length_take, length_drop. unfold OUT_SIZE, PACKET_SIZE, MAX_READ in *. unfold is_u32, TDESC_SIZE in *.
    cbn. lia.
Qed.

Lemma handle_query_safe : safe handle_query.
Proof.
  unfold handle_query. wp1. wp1. unfold id. cbv zeta. wp1.
  { wp1. wp1. apply reply_served; [done|]. exact (served_refl g Hg). }
  wp1; [|repeat (wp1; [by apply reply_safe|]); by apply reply_safe].
  apply read_features_safe. apply starts_cstr; [by repeat constructor|done|apply cstr_request].
Qed.

Lemma write_memory_safe a data : w -> safe (write_memory a data).
Proof.
  intros Hw. unfold write_memory. wps. unfold id. destruct (debug_write_ok (m g) a data (proj1 Hg)) as (o & E & Ho).
  rewrite E. cbn [wpr]. destruct o as [x|]; [|by apply reply_safe]. wps.
  apply reply_served; [done|]. apply set_m_served; [by apply served_refl|by apply Ho|].
  eapply dbg_mem; [done|exact E|constructor].
Qed.

Lemma read_memory_safe a len : 0 <= len -> safe (read_memory a len).
Proof.
  intros Hlen. unfold read_memory. wps. unfold id. apply debug_read_wp; [apply Hg|by apply reply_safe|].
  intros l Hl. wp1. wp1. eapply grows_served, (each_grows _ l g 0 2); [done| |by apply (out_grows g g []), served_refl|].
  - intros b n g' Hg' Hn. by apply hex_byte_grows.
  - rewrite Hl. change MAX_READ with 8184. change OUT_SIZE with 32776. lia.
Qed.

Lemma handle_memory_safe c : begins g c -> c <> 0 -> (c <> 109 -> w) -> safe handle_memory.
Proof.
  intros Hb Hc Hw. unfold handle_memory. destruct (begins_tail _ _ Hb Hc) as [Ht _]. wps. unfold id. cbv zeta. wps.
  apply deref_wp; [apply cstr_request|]. intros k r Ek _. wps. apply parse_range_wp; [done|by apply reply_safe|].
  intros a l p' Ha Hl Hp. cbv beta iota. unfold is_u32 in Hl. wp1; [apply read_memory_safe; lia|].
  assert (Hw' : w) by (destruct Hb as [r' Eb]; rewrite Ek in Eb; injection Eb as -> _; apply Hw; by bools).
  wp1; [by apply reply_safe|]. wp1.
  - wp1; [by apply reply_safe|]. bools. wps. apply hex_bytes_wp; [lia|by apply reply_safe|].
    intros d Hd Hf. by apply write_memory_safe.
  - destruct (unescape _ _) as [[d rest]|]; [|by apply reply_safe].
    wp1; [by apply reply_safe|]. wp1; [by apply reply_safe|]. by apply write_memory_safe.
Qed.

Lemma bp_update_wp l insert b (Q : option (list breakpoint) -> Prop) :
  Z.of_nat (length l) <= MAX_BREAKPOINTS ->
  (forall o, match o with Some l' => Z.of_nat (length l') <= MAX_BREAKPOINTS | None => True end -> Q o) ->
  wpr (bp_update l insert b) Q.
Proof.
  unfold bp_update. intros Hl HQ. destruct (bp_index l b) as [i|].
  - wps. apply HQ. destruct insert; [done|]. unfold bp_remove. rewrite length_take, length_insert. lia.
  - wps; [by apply HQ|]. bools. apply push_wp; [lia|]. wps. apply HQ. rewrite length_app. cbn [length]. lia.
Qed.

Lemma handle_breakpoint_safe c : begins g c -> c <> 0 -> safe handle_breakpoint.
Proof.
  intros Hb Hc. unfold handle_breakpoint. destruct (begins_tail _ _ Hb Hc) as [Ht Hd]. wps. unfold id. cbv zeta. wps.
  apply deref_wp; [apply cstr_request|]. intros c0 r E _. wps. apply deref_wp; [done|]. intros c1 r1 E1 Hr1.
  wp1; [by apply reply_safe|]. wps. apply parse_breakpoint_wp; [|by apply reply_safe|].
  - rewrite E in *. cbn [tail] in E1. rewrite E1. cbn [drop]. apply Hr1.
    intros ->. match goal with H : _ && _ = false |- _ => discriminate H end.
  - intros a Ha. wps. apply bp_update_wp; [apply Hg|]. intros [l|] Hl; [|by apply reply_safe]. wps.
    apply reply_served; [done|]. split; [|split; [done|constructor]].
    split; [apply Hg|]. split; [|apply Hg]. cbn [bp set_bp]. exact Hl.
Qed.

Lemma read_register_grows i n g' :
  grows g n g' -> 0 <= i -> n + 8 <= OUT_SIZE -> wp (read_register i) (fun _ => grows g (n + 8)) g'.
Proof.
  intros Hg' Hi Hn. unfold read_register. wps. unfold id. apply reg_read_wp; [apply Hg'|done|].
  intros o. by apply reg_grows.
Qed.

Lemma read_registers_safe : out g = [] -> safe read_registers.
Proof.
  intros Ho. unfold read_registers. eapply grows_served, (each_grows _ _ g 0 8); [done| | |by vm_compute].
  - intros i n g' Hg' Hn. apply read_register_grows; [done|lia|done].
  - split; [by apply served_refl|by rewrite Ho].
Qed.

Lemma write_regs_served i values g' :
  w -> served g g' -> 0 <= i -> i + Z.of_nat (length values) <= 0x100000000 -> Forall is_u32 values ->
  wp (write_regs i values) (fun _ => served g) g'.
Proof.
  intros Hw. revert i g'. induction values as [|v values IH]; intros i g' Hs Hi Hn Hv; cbn [write_regs]; [by wps|].
  apply Forall_cons_iff in Hv as [Hv Hvs]. cbn [length] in Hn. wps. unfold id.
  destruct (reg_write_ok (m g') i v) as (o & E & Ho); [apply Hs|unfold is_u32; lia|done|]. rewrite E. cbn [wpr].
  wp1. destruct o as [x|]; wps; (apply IH; [|lia|lia|done]); [|done].
  apply set_m_served; [done|by apply Ho|]. eapply dbg_reg; [done|exact E|constructor].
Qed.

Lemma write_registers_safe c : begins g c -> c <> 0 -> w -> safe write_registers.
Proof.
  intros Hb Hc Hw. destruct (begins_tail _ _ Hb Hc) as [_ Hd]. unfold write_registers. wp1. wp1. unfold id. cbv zeta.
  wp1; [by apply reply_safe|]. bools. wps. apply parse_regs_wp; [done|by apply reply_safe|].
  intros l Hl Hf. wp1. eapply wp_mono.
  - apply write_regs_served; [done|by apply served_refl|done| |done]. unfold G_REGS in *. rewrite Hl.
    match goal with H : _ / 8 <= _ |- _ => revert H end. generalize ((Z.of_nat (length (packet g)) - 1) / 8). lia.
  - intros [] g' Hs. by apply reply_served.
Qed.

Lemma read_one_safe c : begins g c -> c <> 0 -> out g = [] -> safe read_one.
Proof.
  intros Hb Hc Ho. destruct (begins_tail _ _ Hb Hc) as [_ Hd]. unfold read_one. wps. unfold id.
  apply parse_hex_wp; [done|by apply reply_safe|]. intros r q Hr Hq. cbv beta iota. wps.
  apply deref_wp; [done|]. intros c1 r1 _ _. wp1; [by apply reply_safe|]. wps.
  apply reg_read_wp; [apply Hg|by apply Hr|]. intros [v|]; [|by apply reply_safe].
  eapply grows_served, (reg_grows g 0); [split; [by apply served_refl|by rewrite Ho]|done].
Qed.

Lemma write_one_safe c : begins g c -> c <> 0 -> w -> safe write_one.
Proof.
  intros Hb Hc Hw. destruct (begins_tail _ _ Hb Hc) as [_ Hd]. unfold write_one. wps. unfold id.
  apply parse_assignment_wp; [done|by apply reply_safe|]. intros r v Hr Hv. cbv beta iota. wps.
  destruct (reg_write_ok (m g) r v (proj1 Hg) Hr Hv) as (o & E & Ho). rewrite E. cbn [wpr].
  destruct o as [x|]; [|by apply reply_safe]. wps. apply reply_served; [done|].
  apply set_m_served; [by apply served_refl|by apply Ho|]. eapply dbg_reg; [done|exact E|constructor].
Qed.

End Handlers.

(** A resume runs the machine; a breakpoint stop names an entry of the table. *)
Lemma resume_wp fuel stepping from_break (Q : stop_reason * option breakpoint -> gdb_state -> Prop) g :
  g_ok g ->
  (forall r hit g', served g g' -> runs (fun _ => True) (m g) (m g') -> bp g' = bp g -> stop_ok (bp g) r hit (m g') -> Q (r, hit) g') ->
  wp (resume fuel stepping from_break) Q g.
Proof.
  intros (Hm&Hb&Hp) HQ. unfold resume. wp1.
  - wp1. apply (run_wp 1 (fun _ => True)); [done|done|done|by left|]. intros st x Hr Hx Hh. wps.
    apply HQ; [|done|done|destruct st; cbn; auto].
    split; [done|]. split; [done|]. eapply dbg_runs; [exact Hr|constructor].
  - wp1. wp1. apply (continue_loop_wp (fun _ => True) (bp g)); [done|done|done|done|].
    intros r hit g' H1 H2 H3 H4 H5 H6. apply HQ; [|done|done|done].
    split; [by split; [|rewrite H2, H3]|]. split; [done|]. eapply dbg_runs; [exact H5|constructor].
Qed.

Lemma handle_resume_safe fuel g c :
  g_ok g -> begins g c -> c <> 0 -> (forall st a, parse_resume (request g) = Ok (Some (st, Some a)) -> w) ->
  wp (handle_resume fuel) (fun _ => served g) g.
Proof.
  intros Hg [r0 E0] Hc Hw. unfold handle_resume. wps. unfold id.
  assert (Hgo : forall st g1, served g g1 ->
    wp (g ← gets id;
        '(reason, hit) ← resume fuel st (at_break g && (pc (hart (m g)) =? break_pc g));
        modify (fun g => {| g with at_break := match reason with STOP_BREAK => true | _ => false end;
                                   break_pc := pc (hart (m g)) |});;
        match reason with
        | STOP_HALTED => mret (Some GDB_HALTED) | STOP_GONE => mret (Some GDB_KILLED)
        | _ => stop_reply reason hit;; mret None
        end) (fun _ => served g) g1).
  { intros st g1 Hs. wp1. wp1. wp1. apply resume_wp; [apply Hs|]. intros r hit g2 Hs2 _ _ Hst. cbv beta iota.
    assert (H2 : served g g2) by (by eapply served_trans). wp1. wp1.
    set (g3 := {| g2 with at_break := _; break_pc := _ |}). assert (H3 : served g g3) by exact H2. clearbody g3.
    destruct r; wps; try exact H3; unfold stop_reply; wps; try (by apply reply_served).
    destruct Hst as (b & -> & _). by destruct (kind b); apply reply_served. }
  assert (Hp : wpr (parse_resume (request g)) (fun o => match o with Some (_, Some a) => is_u32 a | _ => True end))
    by (apply parse_resume_wp; [apply cstr_request|by exists c, r0|done|done|done]).
  destruct (parse_resume (request g)) as [o| |] eqn:Ep; [|done|done]. cbn [wpr] in *. destruct o as [[st [a|]]|].
  - wp1. unfold on_machine. wp1. wp1. apply Hgo.
    destruct (reg_write_ok (m g) REG_PC a (proj1 Hg)) as (o & E & Ho); [done|done|]. injection E as <-.
    apply set_m_served; [by apply served_refl|by apply Ho|].
    eapply (dbg_reg _ _ REG_PC a); [by apply (Hw st a)|reflexivity|constructor].
  - wp1. wp1. apply Hgo. by apply served_refl.
  - wp1. eapply wp_mono; [by apply reply_safe|]. intros [] g' Hs. by wps.
Qed.

(** The requests that write: G, P, M, X, and a resume at an address. *)
Definition writes (p : list Z) : bool :=
  match p with
  | c :: _ =>
      (c =? 71) || (c =? 80) || (c =? 77) || (c =? 88)
      || (((c =? 99) || (c =? 115) || (c =? 67) || (c =? 83))
          && match parse_resume p with Ok (Some (_, Some _)) => true | _ => false end)
  | [] => false
  end.

Lemma vcont_no_address p : starts (str "vCont;") p = true -> forall st a, parse_resume p <> Ok (Some (st, Some a)).
Proof.
  intros Hs st a. unfold parse_resume. rewrite Hs. destruct (deref _) as [c| |]; [|done|done]. cbn.
  by destruct (_ && _).
Qed.

Lemma answer_served {A} (c : G A) g : wp c (fun _ => served g) g -> wp (answer c) (fun _ => served g) g.
Proof. intros H. unfold answer. wp1. eapply wp_mono; [exact H|]. intros a g' Hs. by wps. Qed.

Lemma dispatch_safe fuel g : g_ok g -> (writes (request g) = true -> w) -> wp (dispatch fuel) (fun _ => served g) g.
Proof.
  intros Hg0 Hw0. unfold dispatch. wp1. wp1. wp1. wp1. unfold id.
  change (wp ?c (fun _ => served g) (set_request g)) with (wp c (fun _ => served (set_request g)) (set_request g)).
  assert (Hg : g_ok (set_request g)) by exact Hg0. assert (Ho : out (set_request g) = []) by done.
  assert (Hw : writes (request (set_request g)) = true -> w) by exact Hw0.
  revert Hg Ho Hw. generalize (set_request g). clear g Hg0 Hw0. intros g Hg Ho Hw. cbv zeta.
  wp1. wp1. apply deref_wp; [apply cstr_request|]. intros c r E _. assert (Hb : begins g c) by (by exists r).
  assert (HR : (forall st a, parse_resume (request g) = Ok (Some (st, Some a)) -> w) -> c <> 0 ->
    wp (resumed fuel) (fun _ => served g) g).
  { intros Hpc Hc. unfold resumed. wp1.
    eapply wp_mono; [by apply (handle_resume_safe fuel g c)|]. intros o g' Hs. by wps. }
  rewrite E in Hw. cbn [writes] in Hw. rewrite <- E in Hw. clear E r.
  assert (Hany : forall t, Z.of_nat (length t) <= OUT_SIZE -> wp (answer (reply t)) (fun _ => served g) g)
    by (intros; by apply answer_served, reply_safe).
  assert (Hover : forall t v, Z.of_nat (length t) <= OUT_SIZE -> wp (reply t;; mret (v : verdict)) (fun _ => served g) g).
  { intros t v Ht. wp1. eapply wp_mono; [by apply reply_safe|]. intros [] g' Hs. by wps. }
  wp1; [by apply Hany|]. wp1; [by apply answer_served, read_registers_safe|].
  wp1; [bools; subst c; eapply answer_served, write_registers_safe; [done|done|done|by apply Hw]|].
  wp1; [bools; subst c; by eapply answer_served, read_one_safe|].
  wp1; [bools; subst c; eapply answer_served, write_one_safe; [done|done|done|by apply Hw]|].
  wp1.
  { apply answer_served, (handle_memory_safe g Hg c Hb); [by intros ->|]. intros Hne. apply Hw.
    rewrite (proj2 (Z.eqb_neq c 109) Hne) in *. match goal with H : _ || _ = true |- _ => cbn in H end.
    destruct (c =? 77), (c =? 88); rewrite ?orb_true_r; done. }

  wp1; [apply answer_served, (handle_breakpoint_safe g Hg c Hb); intros ->; discriminate|].
  wp1; [by apply Hany|]. wp1; [by apply answer_served, handle_query_safe|].
  wp1.
  { wp1; [|by apply Hany]. wp1. eapply wp_mono; [by apply reply_safe|]. intros [] g1 Hs. wp1. apply send_reply_wp.
    intros g2 Hk Hu. wp1. wp1. wp1. change (served g g2). eapply served_trans; [done|].
    apply served_keeps; [apply Hs|done|done]. }
  wp1; [by apply Hover|]. wp1; [wps; by apply served_refl|].
  wp1.
  { wp1; [by apply Hany|]. wp1; [by apply Hover|]. wp1; [|by apply Hany]. apply HR; [|by intros ->].
    intros st a Hp. match goal with H : starts (str "vCont;") _ = true |- _ => by apply (vcont_no_address _ H) in Hp end. }
  wp1; [|by apply Hany]. apply HR; [|by intros ->]. intros st a Hp. apply Hw. rewrite Hp.
  match goal with H : _ || (c =? 83) = true |- _ => by rewrite H, orb_true_r end.
Qed.

Lemma serve_loop_safe packets fuel g :
  w -> g_ok g -> (unread g < packets)%nat -> wp (serve_loop packets fuel) (fun _ => served g) g.
Proof.
  intros Hw. revert g. induction packets as [|packets IH]; intros g Hg Hu; [lia|]. cbn [serve_loop]. wp1. wp1. unfold id. wp1.
  apply read_packet_wp; [lia|]. intros b g1 Em Eb Ea Hb. destruct Hg as (Hm&Hbp&Hp).
  assert (H1 : served g g1).
  { destruct b; destruct Hb as [Hu1 Hp1]; (split; [|split; [lia|rewrite Em; constructor]]); unfold g_ok; rewrite Em, Eb;
      [done|by rewrite Hp1]. }
  destruct b; cbn [negb]; [|by wps]. destruct Hb as [Hu1 _].
  assert (Hnext : forall g2, served g1 g2 -> wp (serve_loop packets fuel) (fun _ => served g) g2).
  { intros g2 H2. eapply wp_mono; [apply IH; [apply H2|destruct H2 as (_&?&_); lia]|]. intros e g3 H3.
    eapply served_trans; [exact H1|]. by eapply served_trans. }
  assert (Hsend : forall {A} (c : G A) g2, served g1 g2 -> (forall g3, served g1 g3 -> wp c (fun _ => served g) g3) ->
    wp (send_reply;; c) (fun _ => served g) g2).
  { intros A c g2 H2 Hc. wp1. apply send_reply_wp. intros g3 Hk Hu3. apply Hc. eapply served_trans; [done|].
    apply served_keeps; [apply H2|done|done]. }
  wp1. eapply wp_mono; [by apply dispatch_safe; [apply H1|]|]. intros v g2 H2.
  assert (Hret : forall e g3, served g1 g3 -> wp (mret e : G gdb_end) (fun _ => served g) g3)
    by (intros; wps; by eapply served_trans).
  destruct v as [| |[] e]; [by apply Hsend|by apply Hnext|by apply Hsend; [|apply Hret]|by apply Hret].
Qed.

End Writes.

(** C23: no client can make the stub misbehave.  Whatever bytes the client sends,
    in whatever pieces, and however the socket fails, a session never reads past
    a request and never writes past the packet buffer, the reply buffer or the
    breakpoint table (each such store is undefined), and ends with at most
    MAX_BREAKPOINTS breakpoints and a request of at most PACKET_SIZE bytes; the
    machine stays well formed and has changed only by steps of the emulator and by
    register and memory writes through the same checks as a request's, and by the
    stop of a killed session.  (Out of fuel is accepted only for a continue that
    runs past its bound.) *)
Theorem gdb_session_safe fuel s x :
  machine_ok x -> gdb_serve fuel (session s x) <> Stuck /\
  forall e g', gdb_serve fuel (session s x) = Ok (e, g') ->
    machine_ok (m g') /\ Z.of_nat (length (bp g')) <= MAX_BREAKPOINTS /\ Z.of_nat (length (packet g')) <= PACKET_SIZE /\
    exists x', debugged True x x' /\ m g' = match e with GDB_KILLED => {| x' with halt := HALT_STOPPED |} | _ => x' end.
Proof.
  intros Hx. set (g := session s x). assert (Hg : g_ok g) by (by split; [|split]).
  assert (Hw : wp (gdb_serve fuel) (fun e g' => exists g1, served True g g1 /\ g' = finish_session e g1) g).
  { unfold gdb_serve. wp1. wp1. wp1. eapply wp_mono; [apply (serve_loop_safe True); [done|done|unfold id; lia]|].
    intros e g1 H1. wps. by exists g1. }
  split; [by eapply wp_not_stuck|]. intros e g' E. destruct (wp_ok _ _ _ _ _ Hw E) as (g1 & ((Hm&Hbp&Hpk)&_&D) & ->).
  split; [by destruct e|]. split; [by destruct e|]. split; [by destruct e|]. exists (m g1). split; [exact D|]. by destruct e.
Qed.

End Machine.

(** ** Examples *)

(** A client that asks for the registers, in two pieces, and hangs up. *)
Definition curious_client : socket :=
  {| recvs := [Received (str "+$g"); RecvInterrupted; Received (str "#67+")]; sends := [Sent 1; Sent 100]; polls := [];
     sent := [] |}.

Lemma booted_ok : @machine_ok any_start RunProofs.booted.
Proof. exact (@RunProofs.set_up_ok any_start _ _ (@RunProofs.booted_set_up any_start)). Qed.

Lemma gdb_session_safe_witness :
  @gdb_serve RunProofs.ten RunProofs.zero_float 5 (session curious_client RunProofs.booted) <> Stuck.
Proof.
  exact (proj1 (@gdb_session_safe RunProofs.ten RunProofs.zero_float RunProofs.zero_float_ok 5 curious_client
    RunProofs.booted booted_ok)).
Defined.

End GdbProofs.
