(* ===== verification/GdbSpecs.v ===== *)
(** * What the stub's requests mean

    Framing, registers, memory and breakpoints, each as the protocol promises it
    to the client; and that observing the machine does not change it. *)

From Stdlib Require Import String.
From S2P Require Import Prelude Effects Buffer Simd4 SimdProofs Gpu GpuProofs G3d G3dProofs Dtb Machine Devices.
From S2P Require Import Virtio Bus Mmu Csr Fp Cpu Run MachineOk DevicesProofs VirtioProofs BusProofs CsrProofs CpuProofs.
From S2P Require Import RunProofs Gdb GdbProofs.

Module GdbSpecs.
Import Run Gdb GdbProofs.

#[local] Existing Instance any_start.

(** Running the first half of a composition that returns. *)
Lemma bind_ok {S A B} (c : ST S A) (f : A -> ST S B) s a s' : c s = Ok (a, s') -> (c ≫= f) s = f a s'.
Proof. intros E. unfold mbind, st_bind. by rewrite E. Qed.

(** ** Observing and breaking *)

Section Machine.
Context `{SVF : ServeFuel} `{SF : SoftFloat} {SFO : Fp.SoftFloatOk SF}.

(** The machine under the debugger is the machine without it.  A request
    that does not ask for a write (anything but G, P, M, X and a resume at an
    address) leaves a machine that the emulator reaches by itself, by steps taken
    while it runs below its limit. *)
Theorem gdb_reads_do_not_disturb fuel g v g' :
  g_ok g -> writes (request g) = false -> dispatch fuel g = Ok (v, g') -> runs (fun _ => True) (m g) (m g').
Proof.
  intros Hg Hw E. apply debugged_runs.
  assert (H : @wp partial _ _ (dispatch fuel) (fun _ => served False g) g) by (apply dispatch_safe; congruence).
  apply (wp_ok _ _ _ _ _ H E).
Qed.

(** C24: a continue stops at every breakpoint before it executes.  Every step of
    a continue is taken from a program counter without a breakpoint, but the
    first when it leaves the breakpoint of the last stop; a stop for a breakpoint
    names an entry of the table at the program counter, and a stop for a halt is
    one. *)
Theorem continue_respects_breakpoints fuel from_break g r hit g' :
  g_ok g -> resume fuel false from_break g = Ok ((r, hit), g') ->
  runs (fun x => unbroken (bp g) x \/ (from_break = true /\ x = m g)) (m g) (m g') /\ stop_ok (bp g) r hit (m g').
Proof.
  intros (Hm&_) E.
  assert (H : @wp partial _ _ (resume fuel false from_break) (fun '(r, hit) g' =>
    runs (fun x => unbroken (bp g) x \/ (from_break = true /\ x = m g)) (m g) (m g') /\ stop_ok (bp g) r hit (m g')) g);
    [|exact (wp_ok _ _ _ _ _ H E)].
  change (resume fuel false from_break) with (now ← gets (fun g => steps (counters (m g)));
    continue_loop fuel (u64 (now + POLL_INTERVAL)) (negb from_break)).
  wp1. wp1. eapply (continue_loop_wp (fun x => unbroken (bp g) x \/ (from_break = true /\ x = m g)) (bp g)); [done|done| | |].
  - intros x Hx. by left.
  - intros Hf. right. split; [by destruct from_break|done].
  - intros r0 hit0 g0 _ _ _ _ Hr Hs. by split.
Qed.

End Machine.

(** ** The breakpoint table *)

Lemma bp_index_spec l b :
  match bp_index l b with Some i => l !! i = Some b | None => b ∉ l end.
Proof.
  induction l as [|c l IH]; cbn [bp_index]; [apply not_elem_of_nil|].
  destruct ((addr c =? addr b) && bool_decide (kind c = kind b)) eqn:E.
  - bools. match goal with H : bool_decide _ = true |- _ => apply bool_decide_eq_true in H end.
    destruct b, c. cbn in *. by subst.
  - destruct (bp_index l b) as [i|]; cbn; [done|]. rewrite not_elem_of_cons. split; [|done]. intros <-.
    by rewrite Z.eqb_refl, bool_decide_eq_true_2 in E.
Qed.

(** Moving the last entry into a hole removes the hole's entry. *)
Lemma bp_remove_perm l i b : l !! i = Some b -> l ≡ₚ b :: bp_remove l i.
Proof.
  intros Hi. pose proof (lookup_lt_Some _ _ _ Hi) as Hlt.
  destruct (exists_last (l := l)) as (k & c & E); [by intros ->|]. subst l.
  rewrite length_app in Hlt. cbn [length] in Hlt. unfold bp_remove. rewrite length_app. cbn [length].
  replace (length k + 1 - 1)%nat with (length k) by lia.
  rewrite list_lookup_total_alt, lookup_app_r, Nat.sub_diag by lia. cbn [lookup list_lookup default from_option]. unfold id.
  destruct (decide (i = length k)) as [->|Hne].
  - rewrite lookup_app_r, Nat.sub_diag in Hi by lia. injection Hi as ->.
    rewrite insert_app_r_alt, Nat.sub_diag, take_app_length by lia. symmetry. apply Permutation_cons_append.
  - rewrite lookup_app_l in Hi by lia. rewrite insert_app_l by lia. rewrite take_app_le by (rewrite length_insert; lia).
    rewrite take_ge by (rewrite length_insert; lia).
    rewrite <- (take_drop_middle k i b Hi) at 1. rewrite insert_take_drop by lia. solve_Permutation.
Qed.

(** the breakpoint table is a set of at most 64 breakpoints.  Inserting adds
    the breakpoint, once, and is refused only when the table is full; removing
    takes it out and is refused only when it is not there; no other breakpoint is
    gained or lost, though the table moves its last entry into the hole. *)
Theorem breakpoints_are_a_set l insert b :
  NoDup l -> Z.of_nat (length l) <= MAX_BREAKPOINTS ->
  match bp_update l insert b with
  | Ok (Some l') => NoDup l' /\ Z.of_nat (length l') <= MAX_BREAKPOINTS /\
      forall c, (c ∈ l') <-> if insert then c = b \/ c ∈ l else c ∈ l /\ c <> b
  | Ok None => (b ∉ l) /\ (insert = true -> Z.of_nat (length l) = MAX_BREAKPOINTS)
  | _ => False
  end.
Proof.
  intros Hnd Hlen. pose proof (bp_index_spec l b) as Hi. unfold bp_update. destruct (bp_index l b) as [i|].
  - pose proof (list_elem_of_lookup_2 _ _ _ Hi) as Hin. destruct insert.
    { split; [done|]. split; [done|]. intros c. split; [by right|]. by intros [->|]. }
    pose proof (bp_remove_perm l i b Hi) as Hp. rewrite Hp in Hnd. pose proof (NoDup_cons_1_1 _ _ Hnd) as Hn1.
    pose proof (NoDup_cons_1_2 _ _ Hnd) as Hn2. cbn [mret res_ret].
    split; [done|]. split; [unfold bp_remove; rewrite length_take, length_insert; lia|].
    intros c. set (l1 := bp_remove l i) in *. clearbody l1.
    rewrite Hp, elem_of_cons. split; [|naive_solver]. intros Hc. split; [by right|]. by intros ->.
  - destruct insert; cbn [negb orb]; [|by split]. destruct (Z.eqb_spec (Z.of_nat (length l)) MAX_BREAKPOINTS); [by split|].
    unfold push. rewrite (proj2 (Z.ltb_lt _ _)) by lia. cbn [mbind res_bind mret res_ret].
    split; [rewrite <- Permutation_cons_append; by apply NoDup_cons_2|]. split; [rewrite length_app; cbn [length]; lia|set_solver].
Qed.

(** ** Framing *)

(** The bytes the client delivers before its connection ends, however they are
    cut into [recv]s. *)
Fixpoint delivered (os : list recv_outcome) : list Z :=
  match os with
  | RecvInterrupted :: rest => delivered rest
  | Received (b :: l) :: rest => (b :: l) ++ delivered rest
  | _ => []
  end.
Definition stream (g : gdb_state) : list Z := in_ g ++ (if gone g then [] else delivered (recvs (sock g))).

(** The rest of a session, but for the bytes still to come. *)
Definition tuned (g g' : gdb_state) : Prop :=
  keeps g g' /\ gone g' = gone g /\ sends (sock g') = sends (sock g) /\ sent (sock g') = sent (sock g).

Lemma tuned_trans g1 g2 g3 : tuned g1 g2 -> tuned g2 g3 -> tuned g1 g3.
Proof. intros (K&?&?&?) (K'&?&?&?). split; [by eapply keeps_trans|]. repeat split; congruence. Qed.

Lemma recv_loop_delivered os b rest :
  delivered os = b :: rest ->
  exists l os', recv_loop os = (Some (b :: l), os') /\ l ++ delivered os' = rest
    /\ (length l + sum_list_with received os' < sum_list_with received os)%nat.
Proof.
  induction os as [|o os IH]; intros E; [done|]. destruct o as [[|c l]| |]; cbn [delivered] in E; [done| |by apply IH|done].
  injection E as -> <-.
  assert (Hk : (0 < Z.to_nat IN_SIZE)%nat) by (unfold IN_SIZE; lia). cbn [recv_loop].
  revert Hk. generalize (Z.to_nat IN_SIZE) as k. intros [|k] Hk; [lia|]. cbn [take drop].
  eexists _, _. split; [reflexivity|].
  replace (l ++ delivered os) with (take k l ++ drop k l ++ delivered os) by (by rewrite app_assoc, take_drop).
  assert (El : (length (take k l) + length (drop k l) = length l)%nat) by (by rewrite <- length_app, take_drop).
  destruct (drop k l) as [|d l'] eqn:Ed; cbn [delivered sum_list_with received length] in *.
  - split; [done|lia].
  - split; [done|lia].
Qed.

Lemma next_byte_stream g b rest :
  stream g = b :: rest ->
  exists g', next_byte g = Ok (Some b, g') /\ tuned g g' /\ stream g' = rest /\ (unread g' < unread g)%nat.
Proof.
  unfold stream, next_byte, unread. unfold mbind, st_bind, gets, id. intros E. destruct (in_ g) as [|c l] eqn:Ei.
  - destruct (gone g) eqn:Eg; [done|]. cbn [app] in E. apply recv_loop_delivered in E as (l & os' & Er & Hl & Hu).
    rewrite Er. eexists. split; [reflexivity|]. cbn [in_ sock recvs gone sends sent set_sock length].
    split; [done|]. rewrite Eg. split; [done|]. lia.
  - cbn [app] in E. injection E as -> E. eexists. split; [reflexivity|]. cbn [in_ sock recvs gone sends sent].
    split; [done|]. split; [done|]. cbn [length]. lia.
Qed.

Lemma read_payload_stream payload fuel got sum g rest :
  stream g = payload ++ 35 :: rest -> Forall (fun c => c <> 35) payload ->
  Z.of_nat (length got + length payload) <= PACKET_SIZE -> (unread g < fuel)%nat ->
  exists g', read_payload fuel got false sum g =
      Ok (Some (got ++ payload, false, fold_left (fun s c => u8 (s + c)) payload sum), g') /\
    tuned g g' /\ stream g' = rest /\ (unread g' <= unread g)%nat.
Proof.
  revert fuel got sum g. induction payload as [|c payload IH]; intros fuel got sum g Es Hp Hl Hf;
    (destruct fuel as [|fuel]; [lia|]); cbn [read_payload app fold_left] in *;
    destruct (next_byte_stream _ _ _ Es) as (g1 & E1 & T1 & S1 & U1);
    unfold mbind, st_bind; rewrite E1.
  - rewrite Z.eqb_refl. exists g1. rewrite app_nil_r. split; [done|]. split; [done|]. split; [done|lia].
  - apply Forall_cons_iff in Hp as [Hc Hp]. rewrite (proj2 (Z.eqb_neq c 35)) by done. cbn [length] in Hl.
    rewrite (proj2 (Z.ltb_lt _ _)) by lia.
    unfold lift, push at 1. rewrite (proj2 (Z.ltb_lt _ _)) by lia. cbn [mret res_ret].
    destruct (IH fuel (got ++ [c]) (u8 (sum + c)) g1) as (g2 & E2 & T2 & S2 & U2);
      [done|done|rewrite length_app; cbn [length]; lia|lia|].
    exists g2. rewrite E2, <- app_assoc. cbn [app]. split; [done|]. split; [by eapply tuned_trans|]. split; [done|lia].
Qed.

Lemma hex_of_digit d : 0 <= d < 16 -> hex_digit (hex_of d) = d.
Proof.
  intros Hd. assert (H : forallb (fun k => hex_digit (hex_of (Z.of_nat k)) =? Z.of_nat k) (seq 0 16) = true)
    by (by vm_compute).
  apply (proj1 (forallb_forall _ _)) with (x := Z.to_nat d) in H; [|apply in_seq; lia].
  rewrite Z2Nat.id in H by lia. by bools.
Qed.

(** Two digits read back as the byte they were written for. *)
Lemma hex_byte_of b r : is_u8 b -> hex_byte (hex_of (b .>> 4) :: hex_of (b .& 15) :: r) = Ok b.
Proof.
  intros Hb. unfold is_u8 in Hb.
  assert (H1 : b .>> 4 = b / 16) by (by rewrite Z.shiftr_div_pow2).
  assert (H2 : b .& 15 = b mod 16) by (change 15 with (Z.ones 4); by rewrite Z.land_ones).
  unfold hex_byte. cbn [deref tail mbind res_bind mret res_ret]. rewrite H1, H2, !hex_of_digit by zlia.
  rewrite !(proj2 (Z.ltb_ge _ _)) by zlia. f_equal. zlia.
Qed.

Lemma checksum_u8 l : is_u8 (checksum l).
Proof.
  unfold checksum. assert (H : forall s, is_u8 s -> is_u8 (fold_left (fun s c => u8 (s + c)) l s)); [|by apply H].
  induction l as [|c l IH]; intros s Hs; [done|]. cbn. apply IH, u8_range.
Qed.

Lemma send_all_sent data g :
  gone g = false -> sends (sock g) = [] ->
  send_all data g = Ok (true, set_sock {| (sock g) with sends := []; sent := sent (sock g) ++ data |} g).
Proof.
  intros Hg Hs. unfold send_all, mbind, st_bind, gets, id. rewrite Hg, Hs.
  destruct data as [|b data]; cbn; [by rewrite app_nil_r|done].
Qed.

Lemma read_packet_frame payload fuel g rest :
  stream g = frame payload ++ rest -> gone g = false -> sends (sock g) = [] ->
  Forall (fun c => c <> 35) payload -> Z.of_nat (length payload) <= PACKET_SIZE -> (unread g < fuel)%nat ->
  exists g', read_packet fuel g = Ok (true, g') /\ packet g' = payload /\ stream g' = rest /\ m g' = m g /\ bp g' = bp g
    /\ sent (sock g') = sent (sock g) ++ (if ack g then str "+" else []).
Proof.
  intros Es Hgone Hsends Hp Hl Hf. destruct fuel as [|fuel]; [lia|].
  unfold frame in Es. cbv zeta in Es. set (sum := checksum payload) in *. rewrite <- !app_assoc in Es. cbn [app] in Es.
  destruct (next_byte_stream _ _ _ Es) as (g1 & E1 & T1 & S1 & U1). rewrite <- ?app_assoc in S1. cbn [app] in S1.
  destruct (read_payload_stream payload fuel [] 0 g1 _ S1 Hp) as (g2 & E2 & T2 & S2 & U2); [cbn; lia|lia|].
  change (fold_left _ payload 0) with sum in E2. cbn [app] in E2.
  destruct (next_byte_stream _ _ _ S2) as (g3 & E3 & T3 & S3 & U3).
  destruct (next_byte_stream _ _ _ S3) as (g4 & E4 & T4 & S4 & U4).
  assert (T : tuned g g4) by (repeat (eapply tuned_trans; [eassumption|]); done).
  destruct T as ((Em&Eb&Ep&Ea)&Eg&Esd&Est). rewrite Hgone in Eg. rewrite Hsends in Esd.
  cbn [read_packet]. rewrite (bind_ok _ _ _ _ _ E1). change (negb (36 =? 36)) with false. cbv iota.
  rewrite (bind_ok _ _ _ _ _ E2). unfold digit. cbv iota beta.
  rewrite (bind_ok _ _ g2 (hex_of (sum .>> 4)) g3) by (by rewrite (bind_ok _ _ _ _ _ E3)).
  rewrite (bind_ok _ _ g3 (hex_of (sum .& 15)) g4) by (by rewrite (bind_ok _ _ _ _ _ E4)).
  rewrite (bind_ok _ _ g4 g4 g4) by done. rewrite Eg.
  rewrite (bind_ok _ _ g4 sum g4) by (unfold lift; by rewrite (hex_byte_of sum []) by apply checksum_u8).
  assert (Ht : forall g0 : gdb_state, lift (push (PACKET_SIZE + 1) payload 0) g0 = Ok (payload ++ [0], g0))
    by (intros; unfold lift, push; by rewrite (proj2 (Z.ltb_lt _ _)) by lia).
  rewrite Z.eqb_refl. cbn [negb orb]. rewrite andb_false_r, Ea. destruct (ack g) eqn:Eack.
  - rewrite (bind_ok _ _ _ _ _ (send_all_sent _ g4 Eg Esd)). cbn [negb]. cbv iota. rewrite (bind_ok _ _ _ _ _ (Ht _)). eexists. split; [reflexivity|]. cbn [packet m bp sock sent set_sock]. rewrite Est.
    split; [done|]. split; [|done]. rewrite <- S4. unfold stream. cbn [in_ gone sock recvs set_sock]. by rewrite Eg.
  - rewrite (bind_ok _ _ g4 true g4) by done. cbn [negb]. cbv iota. rewrite (bind_ok _ _ _ _ _ (Ht _)).
    eexists. split; [reflexivity|]. cbn [packet m bp sock sent set_sock]. rewrite Est, app_nil_r. split; [done|].
    split; [|done]. rewrite <- S4. unfold stream. cbn [in_ gone sock recvs]. by rewrite Eg.
Qed.

(** C25: a framed request arrives.  Whatever bytes but [$] came before it and
    however the stream is cut into pieces, a payload without [#] of at most
    PACKET_SIZE bytes that is framed as the stub frames its replies is read back
    exactly, is acknowledged if and only if the session acknowledges, and leaves
    the rest of the stream for the next request. *)
Theorem packet_received noise payload g rest :
  stream g = noise ++ frame payload ++ rest -> gone g = false -> sends (sock g) = [] ->
  Forall (fun c => c <> 36) noise -> Forall (fun c => c <> 35) payload -> Z.of_nat (length payload) <= PACKET_SIZE ->
  exists g', read_packet (S (unread g)) g = Ok (true, g') /\ packet g' = payload /\ stream g' = rest /\ m g' = m g
    /\ bp g' = bp g /\ sent (sock g') = sent (sock g) ++ (if ack g then str "+" else []).
Proof.
  intros Es Hgone Hsends Hn Hp Hl. assert (Hf : (unread g < S (unread g))%nat) by lia. revert Hf.
  generalize (S (unread g)) as fuel. revert g Es Hgone Hsends.
  induction noise as [|c noise IH]; intros g Es Hgone Hsends fuel Hf; [by apply read_packet_frame|].
  destruct fuel as [|fuel]; [lia|]. apply Forall_cons_iff in Hn as [Hc Hn].
  destruct (next_byte_stream _ _ _ Es) as (g1 & E1 & ((Em&Eb&Ep&Ea)&Eg&Esd&Est) & S1 & U1).
  destruct (IH Hn g1 S1 ltac:(congruence) ltac:(congruence) fuel ltac:(lia)) as (g2 & E2 & H1 & H2 & H3 & H4 & H5).
  exists g2. cbn [read_packet]. rewrite (bind_ok _ _ _ _ _ E1), (proj2 (Z.eqb_neq c 36)) by done. cbn [negb].
  rewrite E2, H5, Est, Ea. split; [done|]. split; [done|]. split; [done|]. split; [congruence|]. by split; [congruence|].
Qed.

(** ** Hex text *)

Definition hex2 (b : Z) : list Z := [hex_of (b .>> 4); hex_of (b .& 15)].
Definition dump (l : list Z) : list Z := l ≫= hex2.
Definition word_bytes (v : Z) : list Z := map (fun i => u8 (v .>> (8 * i))) [0; 1; 2; 3].

Lemma add_out_ok c g :
  Z.of_nat (length (out g)) < OUT_SIZE -> add_out c g = Ok ((), set_out (out g ++ [c]) g).
Proof.
  intros Hl. unfold add_out. rewrite (bind_ok _ _ g g g) by done. by rewrite (proj2 (Z.leb_gt _ _)) by lia.
Qed.

Lemma hex_byte_ok b g :
  Z.of_nat (length (out g)) + 2 <= OUT_SIZE -> reply_add_hex_byte b g = Ok ((), set_out (out g ++ hex2 b) g).
Proof.
  intros Hl. unfold reply_add_hex_byte.
  rewrite (bind_ok _ _ _ _ _ (add_out_ok (hex_of (b .>> 4)) g ltac:(lia))).
  rewrite add_out_ok by (cbn [out set_out]; rewrite length_app; cbn [length]; lia).
  cbn [out set_out]. by rewrite <- app_assoc.
Qed.

Lemma dump_length l : length (dump l) = (2 * length l)%nat.
Proof.
  induction l as [|b l IH]; [done|].
  change (dump (b :: l)) with (hex2 b ++ dump l). rewrite length_app, IH. cbn [hex2 length]. lia.
Qed.

Lemma dump_app l1 l2 : dump (l1 ++ l2) = dump l1 ++ dump l2.
Proof. unfold dump. apply bind_app. Qed.

Lemma each_dump l g :
  Z.of_nat (length (out g)) + 2 * Z.of_nat (length l) <= OUT_SIZE ->
  each reply_add_hex_byte l g = Ok ((), set_out (out g ++ dump l) g).
Proof.
  revert g. induction l as [|b l IH]; intros g Hl; cbn [each length] in *.
  - unfold dump. cbn. rewrite app_nil_r. by destruct g.
  - rewrite (bind_ok _ _ _ _ _ (hex_byte_ok b g ltac:(lia))).
    rewrite IH by (cbn [out set_out]; rewrite length_app; cbn [length hex2]; lia).
    cbn [out set_out]. unfold dump. cbn [mbind list_bind]. by rewrite <- app_assoc.
Qed.

Lemma add_reg_ok v g :
  Z.of_nat (length (out g)) + 8 <= OUT_SIZE -> reply_add_reg v g = Ok ((), set_out (out g ++ dump (word_bytes v)) g).
Proof.
  intros Hl. change (reply_add_reg v) with (each reply_add_hex_byte (word_bytes v)). apply each_dump. cbn [word_bytes map length]. lia.
Qed.

Lemma hex_bytes_dump l r : Forall is_u8 l -> hex_bytes (length l) (dump l ++ r) = Ok (Some l).
Proof.
  induction l as [|b l IH]; intros Hl; [done|]. apply Forall_cons_iff in Hl as [Hb Hl]. cbn [length hex_bytes].
  change (dump (b :: l) ++ r) with (hex_of (b .>> 4) :: hex_of (b .& 15) :: (dump l ++ r)).
  rewrite hex_byte_of by done. cbn [mbind res_bind]. rewrite (proj2 (Z.ltb_ge _ _)) by (unfold is_u8 in Hb; lia).
  change (drop 2 (_ :: _ :: ?q)) with q. by rewrite IH.
Qed.

Lemma word_bytes_join v : is_u32 v ->
  ((u8 (v .>> 0) .| (u8 (v .>> 8) .<< 8)) .| (u8 (v .>> 16) .<< 16)) .| (u8 (v .>> 24) .<< 24) = v.
Proof.
  intros Hv. unfold is_u32 in Hv. rewrite !Z.shiftr_div_pow2 by lia. unfold u8.
  rewrite (Z.lor_comm (v / 2 ^ 0 mod 256)), lor_add by (change (2 ^ 8) with 256; zlia).
  rewrite (Z.lor_comm _ (_ .<< 16)), lor_add.
  2: lia. 2: { change (2 ^ 0) with 1. change (2 ^ 8) with 256. change (2 ^ 16) with 65536. zlia. }
  rewrite (Z.lor_comm _ (_ .<< 24)), lor_add.
  2: lia. 2: { change (2 ^ 0) with 1. change (2 ^ 8) with 256. change (2 ^ 16) with 65536. change (2 ^ 24) with 16777216. zlia. }
  change (2 ^ 0) with 1. change (2 ^ 8) with 256. change (2 ^ 16) with 65536. change (2 ^ 24) with 16777216. zlia.
Qed.

(** A register read back from its eight digits. *)
Lemma parse_reg_dump v r : is_u32 v -> parse_reg (dump (word_bytes v) ++ r) = Ok (Some v).
Proof.
  intros Hv. unfold parse_reg, word_bytes. cbn [map dump mbind list_bind]. unfold hex2. cbn [app].
  cbn [parse_bytes]. change (Z.to_nat (2 * 0)) with 0%nat. change (Z.to_nat (2 * (0 + 1))) with 2%nat.
  change (Z.to_nat (2 * (0 + 1 + 1))) with 4%nat. change (Z.to_nat (2 * (0 + 1 + 1 + 1))) with 6%nat. cbn [drop].
  assert (Hneg : forall i, (u8 (v .>> i) <? 0) = false) by (intros i; apply Z.ltb_ge; apply u8_range).
  do 4 (rewrite hex_byte_of by apply u8_range; cbn [mbind res_bind]; rewrite Hneg).
  do 2 f_equal. rewrite Z.lor_0_l. change (8 * 0) with 0. rewrite Z.shiftl_0_r. by apply word_bytes_join.
Qed.

Definition dump_regs (l : list Z) : list Z := l ≫= (fun v => dump (word_bytes v)).

Lemma parse_regs_dump l r : Forall is_u32 l -> parse_regs (length l) (dump_regs l ++ r) = Ok (Some l).
Proof.
  induction l as [|v l IH]; intros Hl; [done|]. apply Forall_cons_iff in Hl as [Hv Hl]. cbn [length parse_regs].
  change (dump_regs (v :: l)) with (dump (word_bytes v) ++ dump_regs l). rewrite <- app_assoc, parse_reg_dump by done.
  cbn [mbind res_bind]. change (drop 8 (dump (word_bytes v) ++ ?q)) with q. by rewrite IH.
Qed.

Lemma dump_regs_length l : length (dump_regs l) = (8 * length l)%nat.
Proof.
  induction l as [|v l IH]; [done|]. change (dump_regs (v :: l)) with (dump (word_bytes v) ++ dump_regs l).
  rewrite length_app, IH, dump_length. cbn [word_bytes map length]. lia.
Qed.

(** ** Registers *)

(** The block a g packet carries: x0-x31, pc, f0-f31. *)
Definition registers (h : hart_state) : list Z := x_ h ++ [pc h] ++ f_ h.

Lemma registers_length h : hart_ok h -> length (registers h) = 65%nat.
Proof. intros ((Lx&_)&_&(Lf&_)&_). unfold registers. by rewrite !length_app, Lx, Lf. Qed.

Lemma registers_u32 h : hart_ok h -> Forall is_u32 (registers h).
Proof.
  intros ((_&Hx)&_&(_&Hf)&_&(Hp&_)&_). apply Forall_app. split; [done|]. apply Forall_app. by split; [constructor|].
Qed.

Lemma at_app_l (l k : list Z) i : 0 <= i < Z.of_nat (length l) -> at_ (l ++ k) i = at_ l i.
Proof. intros Hi. unfold at_. by rewrite lookup_total_app_l by lia. Qed.
Lemma at_app_r (l k : list Z) i : Z.of_nat (length l) <= i -> at_ (l ++ k) i = at_ k (i - Z.of_nat (length l)).
Proof. intros Hi. unfold at_. rewrite lookup_total_app_r by lia. f_equal. lia. Qed.

Lemma reg_read_at x i : machine_ok x -> 0 <= i < 65 -> reg_read x i = Ok (Some (at_ (registers (hart x)) i)).
Proof.
  intros (_&((Lx&_)&_&(Lf&_)&_)&_) Hi. unfold reg_read, registers.
  destruct (Z.ltb_spec i 32); [rewrite aget_ok, at_app_l by lia; done|].
  rewrite at_app_r, Lx by lia. destruct (Z.eqb_spec i REG_PC) as [->|Hne]; [done|]. unfold REG_PC, REG_F0 in *.
  rewrite (proj2 (Z.ltb_lt _ _)) by lia. rewrite aget_ok by lia. cbn [mbind res_bind]. do 2 f_equal.
  rewrite at_app_r by (cbn [length]; lia). cbn [length]. f_equal. lia.
Qed.

Lemma each_register l g :
  machine_ok (m g) -> Forall (fun i => (i < 65)%nat) l -> Z.of_nat (length (out g)) + 8 * Z.of_nat (length l) <= OUT_SIZE ->
  each (fun i => read_register (Z.of_nat i)) l g =
  Ok ((), set_out (out g ++ dump_regs (map (fun i => registers (hart (m g)) !!! i) l)) g).
Proof.
  revert g. induction l as [|i l IH]; intros g Hm Hi Hl; cbn [each length map] in *.
  - cbn. rewrite app_nil_r. by destruct g.
  - apply Forall_cons_iff in Hi as [Hi Hls].
    rewrite (bind_ok _ _ g () (set_out (out g ++ dump (word_bytes (registers (hart (m g)) !!! i))) g)).
    + rewrite IH; [|done|done|].
      * cbn [out set_out m]. by rewrite <- app_assoc.
      * cbn [out set_out]. rewrite length_app, dump_length. cbn [word_bytes map length]. lia.
    + unfold read_register. rewrite (bind_ok _ _ g g g) by done.
      rewrite (bind_ok _ _ g (Some (registers (hart (m g)) !!! i)) g).
      * rewrite add_reg_ok by lia. done.
      * unfold lift. rewrite reg_read_at by (done || lia). unfold at_. by rewrite Nat2Z.id.
Qed.

Lemma map_lookup_seq (l : list Z) : map (fun i => l !!! i) (seq 0 (length l)) = l.
Proof.
  apply list_eq. intros i. destruct (decide (i < length l)%nat) as [Hi|Hi].
  - rewrite list_lookup_fmap, lookup_seq_lt by done. cbn. by rewrite list_lookup_lookup_total_lt.
  - rewrite !lookup_ge_None_2; [done|lia|]. rewrite length_map, length_seq. lia.
Qed.

Lemma read_registers_ok g :
  machine_ok (m g) -> out g = [] -> read_registers g = Ok ((), set_out (dump_regs (registers (hart (m g)))) g).
Proof.
  intros Hm Ho. unfold read_registers. change (Z.to_nat G_REGS) with 65%nat.
  pose proof (registers_length (hart (m g)) (proj1 (proj2 Hm))) as Hl.
  rewrite each_register; [|done| |by rewrite Ho].
  - rewrite Ho. cbn [app]. rewrite <- Hl at 1. by rewrite map_lookup_seq.
  - apply List.Forall_forall. intros i Hi. apply in_seq in Hi. lia.
Qed.

(** The hart after a write of register [i] of the block. *)
Definition put (i v : Z) (h : hart_state) : hart_state :=
  if i <? 32 then if tst i then {| h with x_ := <[Z.to_nat i := v]> (x_ h) |} else h
  else if i =? REG_PC then {| h with pc := v |}
  else {| h with f_ := <[Z.to_nat (i - REG_F0) := v]> (f_ h) |}.

Fixpoint puts (i : Z) (l : list Z) (h : hart_state) : hart_state :=
  match l with [] => h | v :: l' => puts (i + 1) l' (put i v h) end.

Lemma reg_write_put x i v : machine_ok x -> 0 <= i < 65 -> reg_write x i v = Ok (Some (upd_hart (put i v) x)).
Proof.
  intros (_&((Lx&_)&_&(Lf&_)&_)&_) Hi. unfold reg_write, put.
  destruct (Z.ltb_spec i 32).
  - destruct (tst i); [by rewrite aset_ok by lia|]. by destruct x.
  - destruct (Z.eqb_spec i REG_PC); [done|]. unfold REG_PC, REG_F0 in *.
    rewrite (proj2 (Z.ltb_lt i (33 + 32))) by lia. by rewrite aset_ok by lia.
Qed.

Lemma puts_app i l1 l2 h : puts i (l1 ++ l2) h = puts (i + Z.of_nat (length l1)) l2 (puts i l1 h).
Proof.
  revert i h. induction l1 as [|v l1 IH]; intros i h; cbn [app puts length]; [by rewrite Z.add_0_r|].
  rewrite IH. f_equal. lia.
Qed.

Lemma puts_machine i l x : machine_ok x -> Forall is_u32 l -> 0 <= i -> i + Z.of_nat (length l) <= 65 ->
  forall g, m g = x -> write_regs i l g = Ok ((), set_m (upd_hart (puts i l) x) g).
Proof.
  revert i x. induction l as [|v l IH]; intros i x Hx Hl Hi Hn g Eg; cbn [write_regs puts length] in *.
  - subst x. destruct g as [? ? [] ? ? ? ? ? ? ? ? ? ?]. reflexivity.
  - apply Forall_cons_iff in Hl as [Hv Hl]. rewrite (bind_ok _ _ g g g) by done.
    assert (Hw : reg_write (m g) i v = Ok (Some (upd_hart (put i v) x))) by (rewrite Eg; apply reg_write_put; [done|lia]).
    rewrite (bind_ok _ _ g (Some (upd_hart (put i v) x)) g) by (unfold lift; by rewrite Hw).
    rewrite (bind_ok _ _ g () (set_m (upd_hart (put i v) x) g)) by done.
    assert (Hx' : machine_ok (upd_hart (put i v) x)).
    { destruct (reg_write_ok x i v) as (o & E & Ho); [done|unfold is_u32; lia|done|].
      apply Ho. rewrite Eg in Hw. rewrite E in Hw. by injection Hw. }
    rewrite (IH (i + 1) (upd_hart (put i v) x)); [done|done|done|lia|lia|done].
Qed.

(** Overwriting a list from position [k] on. *)
Definition splice (k : nat) (vs l : list Z) : list Z := take k l ++ vs ++ drop (k + length vs) l.

Lemma splice_nil k l : splice k [] l = l.
Proof. unfold splice. cbn. by rewrite Nat.add_0_r, take_drop. Qed.

Lemma splice_cons k v vs l : (k < length l)%nat -> splice (S k) vs (<[k := v]> l) = splice k (v :: vs) l.
Proof.
  intros Hk. unfold splice. cbn [length]. rewrite drop_insert_lt by lia.
  rewrite (take_S_r _ _ v) by (by apply list_lookup_insert_eq). rewrite take_insert_ge by lia.
  rewrite <- app_assoc. cbn [app]. by rewrite Nat.add_succ_r.
Qed.

Lemma splice_all vs l : length vs = length l -> splice 0 vs l = vs.
Proof. intros E. unfold splice. cbn. rewrite drop_ge by lia. by rewrite app_nil_r. Qed.

Lemma puts_x vs i h :
  0 <= i -> i + Z.of_nat (length vs) <= 32 -> length (x_ h) = 32%nat -> at_ (x_ h) 0 = 0 -> (i = 0 -> at_ vs 0 = 0) ->
  puts i vs h = {| h with x_ := splice (Z.to_nat i) vs (x_ h) |}.
Proof.
  revert i h. induction vs as [|v vs IH]; intros i h Hi Hn Hx H0 Hv; cbn [puts].
  - rewrite splice_nil. by destruct h.
  - cbn [length] in Hn.
    assert (E : put i v h = {| h with x_ := <[Z.to_nat i := v]> (x_ h) |}).
    { unfold put. rewrite (proj2 (Z.ltb_lt _ _)) by lia. destruct (tst i) eqn:Et; [done|]. apply tst_false in Et. subst i.
      specialize (Hv eq_refl). change (at_ (v :: vs) 0) with v in Hv. subst v. change (Z.to_nat 0) with 0%nat.
      rewrite list_insert_id; [by destruct h|]. rewrite list_lookup_lookup_total_lt by lia. by rewrite <- H0. }
    rewrite E, IH; [|lia|lia|by cbn; rewrite length_insert| |lia].
    + cbn [x_]. replace (Z.to_nat (i + 1)) with (S (Z.to_nat i)) by lia. by rewrite splice_cons by lia.
    + cbn [x_]. rewrite at_insert by lia. destruct (Z.eqb_spec i 0) as [->|]; [|done].
      specialize (Hv eq_refl). by change (at_ (v :: vs) 0) with v in Hv.
Qed.

Lemma puts_f vs i h :
  33 <= i -> i + Z.of_nat (length vs) <= 65 -> length (f_ h) = 32%nat ->
  puts i vs h = {| h with f_ := splice (Z.to_nat (i - 33)) vs (f_ h) |}.
Proof.
  revert i h. induction vs as [|v vs IH]; intros i h Hi Hn Hf; cbn [puts].
  - rewrite splice_nil. by destruct h.
  - cbn [length] in Hn.
    assert (E : put i v h = {| h with f_ := <[Z.to_nat (i - 33) := v]> (f_ h) |}).
    { unfold put. rewrite (proj2 (Z.ltb_ge _ _)) by lia. unfold REG_PC. by rewrite (proj2 (Z.eqb_neq _ _)) by lia. }
    rewrite E, IH; [|lia|lia|by cbn; rewrite length_insert].
    cbn [f_]. replace (Z.to_nat (i + 1 - 33)) with (S (Z.to_nat (i - 33))) by lia. by rewrite splice_cons by lia.
Qed.

Lemma puts_registers h0 h :
  hart_ok h0 -> hart_ok h -> puts 0 (registers h0) h = {| h with x_ := x_ h0; f_ := f_ h0; pc := pc h0 |}.
Proof.
  intros ((Lx0&_)&Z0&(Lf0&_)&_) ((Lx&_)&Zx&(Lf&_)&_). unfold registers.
  rewrite puts_app, (puts_x (x_ h0) 0 h) by (done || rewrite ?Lx0; lia). cbn [app puts]. rewrite splice_all by congruence.
  rewrite Lx0. change (0 + Z.of_nat 32) with 32. rewrite puts_f by (done || rewrite ?Lf0; lia).
  change (f_ (put 32 (pc h0) ?h')) with (f_ h'). cbn [f_]. change (Z.to_nat (32 + 1 - 33)) with 0%nat.
  rewrite splice_all by lia. done.
Qed.

(** Where a request is put by the client. *)
Definition asked (p : list Z) (g : gdb_state) : gdb_state := {| g with packet := p |}.

(** C26: what a g packet saved a G packet restores.  The g request answers with
    the 65 registers and leaves the machine alone; the same digits sent back in a
    G request, to any machine, set every x, f and pc register to the value saved
    (x0 stays zero), answer OK and change nothing else. *)
Theorem registers_saved_and_restored `{SVF : ServeFuel} `{SF : SoftFloat} fuel g g2 :
  g_ok g -> g_ok g2 ->
  exists g1, dispatch fuel (asked (str "g") g) = Ok (Answer, g1) /\ m g1 = m g /\
  exists g3, dispatch fuel (asked (str "G" ++ out g1) g2) = Ok (Answer, g3) /\ out g3 = str "OK" /\
    m g3 = upd_hart (fun h => {| h with x_ := x_ (hart (m g)); f_ := f_ (hart (m g)); pc := pc (hart (m g)) |}) (m g2).
Proof.
  intros (Hm&_) (Hm2&_). set (regs := registers (hart (m g))).
  assert (Hl : length regs = 65%nat) by (apply registers_length, Hm).
  assert (Hu : Forall is_u32 regs) by (apply registers_u32, Hm).
  exists (set_out (dump_regs regs) (set_request (asked (str "g") g))). split.
  { unfold dispatch. rewrite (bind_ok _ _ _ () (set_request (asked (str "g") g))) by done.
    set (ga := set_request (asked (str "g") g)). rewrite (bind_ok _ _ ga ga ga) by done.
    rewrite (bind_ok _ _ ga 103 ga) by done. change (answer read_registers ga = Ok (Answer, set_out (dump_regs regs) ga)).
    unfold answer. by rewrite (bind_ok _ _ _ _ _ (read_registers_ok ga Hm eq_refl)). }
  split; [done|]. cbn [out set_out]. set (gb := set_request (asked (str "G" ++ dump_regs regs) g2)).
  exists (set_out (str "OK") (set_m (upd_hart (puts 0 regs) (m g2)) gb)). split.
  { unfold dispatch. rewrite (bind_ok _ _ _ () gb) by done. rewrite (bind_ok _ _ gb gb gb) by done.
    rewrite (bind_ok _ _ gb 71 gb) by done.
    change (answer write_registers gb = Ok (Answer, set_out (str "OK") (set_m (upd_hart (puts 0 regs) (m g2)) gb))).
    unfold answer, write_registers.
    rewrite (bind_ok _ _ gb () (set_out (str "OK") (set_m (upd_hart (puts 0 regs) (m g2)) gb))); [reflexivity|].
    rewrite (bind_ok _ _ gb gb gb) by done. cbv zeta.
    assert (Hp : Z.of_nat (length (packet gb)) - 1 = 520).
    { change (packet gb) with (str "G" ++ dump_regs regs). rewrite length_app, dump_regs_length, Hl. done. }
    rewrite Hp. change (negb (520 mod 8 =? 0) || (G_REGS <? 520 / 8)) with false. cbv iota.
    rewrite (bind_ok _ _ gb (Some regs) gb).
    - rewrite (bind_ok _ _ gb () (set_m (upd_hart (puts 0 regs) (m g2)) gb)); [done|].
      apply puts_machine; [done|done|done|lia|done].
    - unfold lift. change (drop 1 (request gb)) with (dump_regs regs ++ [0]). change (Z.to_nat (520 / 8)) with 65%nat.
      rewrite <- Hl, parse_regs_dump by done. done. }
  split; [done|]. cbn [m set_out set_m]. unfold upd_hart. f_equal. apply puts_registers; [apply Hm|apply Hm2].
Qed.

(** ** Examples *)

(** The booted machine stopped with a breakpoint at its first instruction. *)
Definition at_first : breakpoint := {| addr := RAM_BASE; kind := BP_HW |}.
Definition stopped : gdb_state := set_bp [at_first] (session curious_client RunProofs.booted).

Lemma stopped_ok : g_ok stopped.
Proof. split; [exact booted_ok|done]. Qed.

Lemma gdb_reads_do_not_disturb_witness :
  @runs RunProofs.ten RunProofs.zero_float (fun _ => True) RunProofs.booted RunProofs.booted.
Proof.
  refine (@gdb_reads_do_not_disturb RunProofs.ten RunProofs.zero_float RunProofs.zero_float_ok 1 (asked (str "?") stopped) Answer
    (set_out (str "T05") (asked (str "?") stopped)) _ _ _).
  - exact stopped_ok.
  - reflexivity.
  - reflexivity.
Defined.

Lemma continue_respects_breakpoints_witness :
  @resume RunProofs.ten RunProofs.zero_float 1 false false stopped = Ok ((STOP_BREAK, Some at_first), stopped) /\
  stop_ok (bp stopped) STOP_BREAK (Some at_first) (m stopped).
Proof.
  split; [reflexivity|].
  refine (proj2 (@continue_respects_breakpoints RunProofs.ten RunProofs.zero_float RunProofs.zero_float_ok 1 false stopped
    STOP_BREAK (Some at_first) stopped stopped_ok _)).
  reflexivity.
Defined.

Lemma breakpoints_are_a_set_witness :
  exists l', bp_update [{| addr := 4; kind := BP_SW |}; at_first] false {| addr := 4; kind := BP_SW |} = Ok (Some l') /\ NoDup l'.
Proof.
  assert (H : NoDup [{| addr := 4; kind := BP_SW |}; at_first]).
  { apply (bool_decide_unpack _). vm_compute. exact I. }
  pose proof (breakpoints_are_a_set [{| addr := 4; kind := BP_SW |}; at_first] false {| addr := 4; kind := BP_SW |} H
    ltac:(vm_compute; discriminate)) as Hb.
  exists [at_first]. split; [reflexivity|]. exact (proj1 Hb).
Defined.

Definition patient : gdb_state := set_sock {| (sock stopped) with sends := [] |} stopped.

Lemma packet_received_witness :
  exists g', read_packet (S (unread patient)) patient = Ok (true, g') /\ packet g' = str "g".
Proof.
  destruct (packet_received (str "+") (str "g") patient (str "+")) as (g' & E & Hp & _).
  - reflexivity.
  - reflexivity.
  - reflexivity.
  - repeat constructor; discriminate.
  - repeat constructor; discriminate.
  - vm_compute. discriminate.
  - exists g'. split; [exact E|exact Hp].
Defined.

Lemma registers_saved_and_restored_witness :
  exists g1, @dispatch RunProofs.ten RunProofs.zero_float 1 (asked (str "g") stopped) = Ok (Answer, g1) /\ m g1 = m stopped.
Proof.
  destruct (@registers_saved_and_restored RunProofs.ten RunProofs.zero_float 1 stopped stopped stopped_ok stopped_ok)
    as (g1 & E & Em & _).
  exists g1. split; [exact E|exact Em].
Defined.

End GdbSpecs.
