(* ===== verification/GdbMemory.v ===== *)
(** * Memory through the debugger

    What an M or an X request wrote an m request reads back, and nothing else
    changed; the escapes of the binary forms. *)

From Stdlib Require Import String.
From S2P Require Import Prelude Effects Buffer Simd4 SimdProofs Gpu GpuProofs G3d G3dProofs Dtb Machine Devices.
From S2P Require Import Virtio Bus Mmu Csr Fp Cpu Run MachineOk DevicesProofs VirtioProofs BusProofs CsrProofs CpuProofs.
From S2P Require Import RunProofs Gdb GdbProofs GdbSpecs.

Module GdbMemory.
Import Run Gdb GdbProofs GdbSpecs.

#[local] Existing Instance any_start.

(** ** Buffers *)

(** The bytes read back are the bytes loaded. *)
Lemma loaded_bytes l b b' i :
  Forall is_u8 l ->
  (forall j, byte_at b' j = if (i <=? j) && (j <? i + Z.of_nat (length l)) then u8 (at_ l (j - i)) else byte_at b j) ->
  map (fun k => byte_at b' (i + Z.of_nat k)) (seq 0 (length l)) = l.
Proof.
  intros Hl Hb. rewrite <- (map_lookup_seq l) at 2. apply map_ext_in. intros k Hk. apply in_seq in Hk. rewrite Hb.
  rewrite (proj2 (Z.leb_le _ _)), (proj2 (Z.ltb_lt _ _)) by lia. cbn [andb].
  assert (Ha : is_u8 (at_ l (i + Z.of_nat k - i))) by (apply (at_Forall is_u8); [done|lia]).
  rewrite u8_id by done. unfold at_. f_equal. lia.
Qed.

(** ** The debugger's view of memory *)

Lemma debug_bytes_array a n arr p : debug_bytes a n = Some (arr, p) -> 0 <= n ->
  p = a - match arr with DebugRam => RAM_BASE | DebugFb => FB_BASE end
  /\ 0 <= p /\ p + n <= match arr with DebugRam => RAM_SIZE | DebugFb => FB_SIZE end.
Proof. unfold debug_bytes. cbv zeta. repeat casif; bools; intros [=] Hn; subst; lia. Qed.

(** The byte of an array that an address names. *)
Definition array_of (x : machine) (arr : debug_array) : buffer :=
  match arr with DebugRam => ram x | DebugFb => fb (display x) end.

Lemma debug_read_spec x a n :
  machine_ok x ->
  emu_debug_read x a n = Ok (match debug_bytes a (Z.of_nat n) with
    | Some (arr, p) => Some (map (fun k => byte_at (array_of x arr) (p + Z.of_nat k)) (seq 0 n))
    | None => None end).
Proof.
  intros Hm. unfold emu_debug_read. destruct (debug_bytes _ _) as [[arr p]|] eqn:E; [|done].
  apply debug_bytes_array in E as (_ & Hp & Hn); [|lia]. pose proof Hm as ((_&(_&_&_&_&_&(Hfb&_))&(_&Hr)&_)&_).
  destruct arr; rewrite buf_bytes_spec by (done || rewrite ?Hr, ?(proj2 Hfb); done); done.
Qed.

(** A write changes the bytes it names and no others. *)
Lemma debug_write_spec x a data arr p :
  machine_ok x -> debug_bytes a (Z.of_nat (length data)) = Some (arr, p) -> Forall is_u8 data ->
  exists x', emu_debug_write x a data = Ok (Some x') /\ machine_ok x' /\
    emu_debug_read x' a (length data) = Ok (Some data) /\
    (forall b n, b + Z.of_nat n <= a \/ a + Z.of_nat (length data) <= b -> emu_debug_read x' b n = emu_debug_read x b n).
Proof.
  intros Hm E Hd. destruct (debug_write_ok x a data Hm) as (o & Ew & Ho).
  pose proof (debug_bytes_array _ _ _ _ E ltac:(lia)) as (Ep & Hp & Hn).
  pose proof Hm as ((_&(_&_&_&_&_&(Hfb&_))&(_&Hr)&_)&_).
  destruct (buf_load_spec data (array_of x arr) p) as (b' & El & Ln & B'); [done|destruct arr; cbn; rewrite ?Hr, ?(proj2 Hfb); done|].
  assert (Ex : exists x', o = Some x' /\ array_of x' arr = b' /\ (forall arr', arr' <> arr -> array_of x' arr' = array_of x arr')).
  { unfold emu_debug_write in Ew. rewrite E in Ew. destruct arr; cbn [array_of] in El; rewrite El in Ew; injection Ew as <-;
      (eexists; split; [done|]; split; [done|]; by intros []). }
  destruct Ex as (x' & -> & Ea & Eo). specialize (Ho x' eq_refl). exists x'. split; [done|]. split; [done|].
  split.
  - rewrite debug_read_spec, E by done. do 2 f_equal. rewrite Ea. by eapply loaded_bytes.
  - intros b n Hbn. rewrite !debug_read_spec by done. destruct (debug_bytes b (Z.of_nat n)) as [[arr' q]|] eqn:Eb; [|done].
    pose proof (debug_bytes_array _ _ _ _ Eb ltac:(lia)) as (Eq & Hq & _). do 2 f_equal. apply map_ext_in.
    intros k Hk. apply in_seq in Hk.
    assert (Hd' : arr' = arr \/ arr' <> arr) by (destruct arr, arr'; auto). destruct Hd' as [->|Hne]; [|by rewrite Eo].
    rewrite Ea, B'. destruct (Z.leb_spec p (q + Z.of_nat k)), (Z.ltb_spec (q + Z.of_nat k) (p + Z.of_nat (length data)));
      cbn [andb]; try done. destruct arr; lia.
Qed.

(** ** Numbers and escapes *)

(** A number in eight digits. *)
Definition nibbles (a : Z) : list Z := map (fun i => (a .>> (4 * i)) .& 15) [7; 6; 5; 4; 3; 2; 1; 0].
Definition hex8 (a : Z) : list Z := map hex_of (nibbles a).

Lemma parse_digits_spec ds n v c r :
  Forall (fun d => 0 <= d < 16) ds -> 0 <= v -> 0 <= n -> n + Z.of_nat (length ds) <= 8 -> 0 < n + Z.of_nat (length ds) ->
  fold_left (fun v d => v * 16 + d) ds v < 0x100000000 -> hex_digit c < 0 ->
  parse_digits (map hex_of ds ++ c :: r) n v = Ok (Some (fold_left (fun v d => v * 16 + d) ds v, c :: r)).
Proof.
  revert n v. induction ds as [|d ds IH]; intros n v Hd Hv Hn Hl Hl' Hb Hc; cbn [map app parse_digits fold_left length] in *.
  - rewrite (proj2 (Z.ltb_lt _ _)) by lia. by rewrite (proj2 (Z.ltb_lt 0 n)) by lia.
  - apply Forall_cons_iff in Hd as [Hd Hds]. rewrite hex_of_digit by done.
    rewrite (proj2 (Z.ltb_ge _ _)), (proj2 (Z.ltb_ge 8 _)) by lia.
    assert (Hge : forall l w, Forall (fun d => 0 <= d < 16) l -> 0 <= w -> w <= fold_left (fun v d => v * 16 + d) l w).
    { clear. induction l as [|e l IH]; intros w Hl Hw; cbn [fold_left]; [lia|]. apply Forall_cons_iff in Hl as [He Hl].
      specialize (IH (w * 16 + e) Hl ltac:(lia)). lia. }
    pose proof (Hge ds (v * 16 + d) Hds ltac:(lia)) as Hle.
    assert (Eu : u32 (v .<< 4) .| d = v * 16 + d).
    { rewrite u32_id by (unfold is_u32; rewrite Z.shiftl_mul_pow2 by lia; change (2 ^ 4) with 16; lia).
      rewrite lor_add by (change (2 ^ 4) with 16; lia). by change (2 ^ 4) with 16. }
    rewrite Eu. apply IH; [done|lia|lia|lia|lia|done|done].
Qed.

Lemma nibbles_value a : is_u32 a -> fold_left (fun v d => v * 16 + d) (nibbles a) 0 = a.
Proof.
  intros Ha. unfold is_u32 in Ha. unfold nibbles. cbn [map fold_left]. change 15 with (Z.ones 4).
  rewrite !Z.land_ones, !Z.shiftr_div_pow2 by lia.
  change (2 ^ 4) with 16. change (2 ^ (4 * 7)) with 268435456. change (2 ^ (4 * 6)) with 16777216.
  change (2 ^ (4 * 5)) with 1048576. change (2 ^ (4 * 4)) with 65536. change (2 ^ (4 * 3)) with 4096.
  change (2 ^ (4 * 2)) with 256. change (2 ^ (4 * 1)) with 16. change (2 ^ (4 * 0)) with 1. zlia.
Qed.

Lemma nibbles_range a : Forall (fun d => 0 <= d < 16) (nibbles a).
Proof.
  unfold nibbles. repeat constructor; (change 15 with (Z.ones 4); rewrite Z.land_ones by lia; change (2 ^ 4) with 16; zlia).
Qed.

Lemma parse_hex8 a c r : is_u32 a -> hex_digit c < 0 -> parse_hex (hex8 a ++ c :: r) = Ok (Some (a, c :: r)).
Proof.
  intros Ha Hc. unfold parse_hex, hex8. rewrite parse_digits_spec; rewrite ?nibbles_value by done; try done; try apply nibbles_range.
  apply Ha.
Qed.

(** [addr,length] and what follows. *)
Definition range (a len : Z) : list Z := hex8 a ++ str "," ++ hex8 len.

Lemma parse_range8 a len e r :
  is_u32 a -> is_u32 len -> hex_digit e < 0 -> parse_range (range a len ++ e :: r) e = Ok (Some (a, len, e :: r)).
Proof.
  intros Ha Hl He. unfold parse_range, range. rewrite <- !app_assoc. change (str "," ++ ?q) with (44 :: q).
  rewrite parse_hex8 by done. cbn [mbind res_bind deref mret res_ret]. change (negb (44 =? 44)) with false. cbv iota.
  cbn [tail]. rewrite parse_hex8 by done. cbn [mbind res_bind deref mret res_ret]. by rewrite Z.eqb_refl.
Qed.

(** Binary data as the stub and gdb escape it. *)
Definition escape (l : list Z) : list Z := l ≫= (fun c => if escaped c then [125; c .^ 0x20] else [c]).

Lemma unescape_escape l room :
  Forall is_u8 l -> (length l <= room)%nat -> unescape room (escape l) = Some (l, []).
Proof.
  revert room. induction l as [|c l IH]; intros room Hl Hr; [by destruct room|].
  destruct room as [|room]; [cbn in Hr; lia|]. apply Forall_cons_iff in Hl as [Hc Hl]. cbn [length] in Hr.
  change (escape (c :: l)) with ((if escaped c then [125; c .^ 0x20] else [c]) ++ escape l).
  destruct (escaped c) eqn:Ee; cbn [app unescape].
  - change (u8 125 =? 125) with true. cbv iota. rewrite IH by (done || lia). cbn.
    rewrite Z.lxor_assoc, Z.lxor_nilpotent, Z.lxor_0_r, u8_id by done. done.
  - rewrite u8_id by done. unfold escaped in Ee. bools. rewrite (proj2 (Z.eqb_neq c 125)) by done.
    by rewrite IH by (done || lia).
Qed.

(** The escapes of binary data are undone.  What [reply_add_binary] adds to
    a reply decodes, by the X request's rule, to exactly the data. *)
Theorem binary_roundtrip data g :
  Forall is_u8 data -> Z.of_nat (length (out g)) + 2 * Z.of_nat (length data) <= OUT_SIZE ->
  exists g', reply_add_binary data g = Ok ((), g') /\ m g' = m g /\
    unescape (length data) (drop (length (out g)) (out g')) = Some (data, []).
Proof.
  intros Hd Hl. assert (E : reply_add_binary data g = Ok ((), set_out (out g ++ escape data) g)).
  { clear Hd. revert g Hl. induction data as [|c data IH]; intros g Hl; unfold reply_add_binary; cbn [each length] in *.
    - cbn. rewrite app_nil_r. by destruct g.
    - change (escape (c :: data)) with ((if escaped c then [125; c .^ 0x20] else [c]) ++ escape data).
      rewrite (bind_ok _ _ g () (set_out (out g ++ (if escaped c then [125; c .^ 0x20] else [c])) g)).
      + change (reply_add_binary data (set_out (out g ++ (if escaped c then [125; c .^ 0x20] else [c])) g)
                = Ok ((), set_out (out g ++ (if escaped c then [125; c .^ 0x20] else [c]) ++ escape data) g)).
        rewrite IH; cbn [out set_out]; [by rewrite <- app_assoc|]. rewrite length_app.
        destruct (escaped c); cbn [length]; lia.
      + destruct (escaped c); [|by rewrite add_out_ok by lia].
        rewrite (bind_ok _ _ _ _ _ (add_out_ok 125 g ltac:(lia))).
        rewrite add_out_ok by (cbn [out set_out]; rewrite length_app; cbn [length]; lia).
        cbn [out set_out]. by rewrite <- app_assoc. }
  eexists. split; [exact E|]. split; [done|]. cbn [out set_out]. rewrite drop_app_length. by apply unescape_escape.
Qed.

(** ** The requests *)

(** The two forms of a write: M in digits, X in binary. *)
Inductive write_request (a : Z) (data : list Z) : list Z -> Prop :=
| request_M : write_request a data (str "M" ++ range a (Z.of_nat (length data)) ++ str ":" ++ dump data)
| request_X : data <> [] -> write_request a data (str "X" ++ range a (Z.of_nat (length data)) ++ str ":" ++ escape data).

Section Requests.
Context `{SVF : ServeFuel} `{SF : SoftFloat} (fuel : nat).

Lemma dispatch_memory p g c r :
  p = c :: r -> c = 109 \/ c = 77 \/ c = 88 -> dispatch fuel (asked p g) = answer handle_memory (set_request (asked p g)).
Proof.
  intros -> Hc. unfold dispatch. set (ga := set_request (asked (c :: r) g)).
  rewrite (bind_ok _ _ _ () ga) by done. rewrite (bind_ok _ _ ga ga ga) by done. rewrite (bind_ok _ _ ga c ga) by done.
  by destruct Hc as [->|[->| ->]].
Qed.

Lemma removelast_snoc (l : list Z) : removelast (l ++ [0]) = l.
Proof. rewrite removelast_app by done. cbn. by rewrite app_nil_r. Qed.

Lemma handle_write p a data g :
  write_request a data p -> packet g = p -> is_u32 a -> Forall is_u8 data -> Z.of_nat (length data) <= MAX_READ ->
  handle_memory g = write_memory a data g.
Proof.
  intros Hp Ep Ha Hd Hl. change MAX_READ with 8184 in Hl.
  assert (Hn : is_u32 (Z.of_nat (length data))) by (unfold is_u32; lia).
  unfold handle_memory. rewrite (bind_ok _ _ g g g) by done. cbv zeta. unfold request.
  destruct Hp as [|Hne]; rewrite Ep, <- !app_assoc.
  - change (str "M" ++ ?q) with (77 :: q). change (str ":" ++ ?q) with (58 :: q). rewrite (bind_ok _ _ g 77 g) by done.
    cbn [tail]. change (if 77 =? 109 then 0 else 58) with 58.
    rewrite (bind_ok _ _ g (Some (a, Z.of_nat (length data), 58 :: dump data ++ [0])) g)
      by (unfold lift; by rewrite parse_range8 by done).
    change (77 =? 109) with false. cbv iota zeta. cbn [tail]. rewrite removelast_snoc.
    rewrite (proj2 (Z.ltb_ge PACKET_SIZE _)) by (unfold PACKET_SIZE; lia). change (77 =? 77) with true. cbv iota.
    rewrite dump_length, (proj2 (Z.eqb_eq _ (2 * _))) by lia. cbn [negb].
    rewrite (bind_ok _ _ g (Some data) g); [done|]. unfold lift. rewrite Nat2Z.id.
    by rewrite <- (app_nil_r (dump data)), hex_bytes_dump by done.
  - change (str "X" ++ ?q) with (88 :: q). change (str ":" ++ ?q) with (58 :: q). rewrite (bind_ok _ _ g 88 g) by done.
    cbn [tail]. change (if 88 =? 109 then 0 else 58) with 58.
    rewrite (bind_ok _ _ g (Some (a, Z.of_nat (length data), 58 :: escape data ++ [0])) g)
      by (unfold lift; by rewrite parse_range8 by done).
    change (88 =? 109) with false. cbv iota zeta. cbn [tail]. rewrite removelast_snoc.
    rewrite (proj2 (Z.ltb_ge PACKET_SIZE _)) by (unfold PACKET_SIZE; lia). change (88 =? 77) with false. cbv iota.
    rewrite unescape_escape by (done || unfold PACKET_SIZE; lia). rewrite Z.eqb_refl. cbn [negb orb].
    rewrite bool_decide_eq_true_2 by done. cbn [negb]. rewrite (proj2 (Z.eqb_neq _ _)); [done|].
    destruct data; [done|]. cbn [length]. lia.
Qed.

(** C27: memory written through the debugger is read back.  For a range inside
    RAM or the framebuffer, an M or an X request answers OK, an m request for the
    same range then answers exactly those bytes, and no byte outside the range
    reads differently. *)
Theorem memory_written_is_read_back g a data p :
  g_ok g -> is_u32 a -> Forall is_u8 data -> Z.of_nat (length data) <= MAX_READ ->
  debug_bytes a (Z.of_nat (length data)) <> None -> write_request a data p ->
  exists g1, dispatch fuel (asked p g) = Ok (Answer, g1) /\ out g1 = str "OK" /\
    (exists g2, dispatch fuel (asked (str "m" ++ range a (Z.of_nat (length data))) g1) = Ok (Answer, g2) /\
       out g2 = dump data /\ m g2 = m g1) /\
    forall b n, b + Z.of_nat n <= a \/ a + Z.of_nat (length data) <= b ->
      emu_debug_read (m g1) b n = emu_debug_read (m g) b n.
Proof.
  intros (Hm&_) Ha Hd Hl Hin Hp. destruct (debug_bytes a _) as [[arr q]|] eqn:Eb; [|done]. clear Hin.
  destruct (debug_write_spec (m g) a data arr q Hm Eb Hd) as (x & Ew & Hx & Er & Hother).
  assert (Hn : is_u32 (Z.of_nat (length data))) by (change MAX_READ with 8184 in Hl; unfold is_u32; lia).
  set (ga := set_request (asked p g)). exists (set_out (str "OK") (set_m x ga)). split; [|split; [done|split]].
  - assert (Hc : exists c r, p = c :: r /\ (c = 109 \/ c = 77 \/ c = 88)) by (destruct Hp; eexists _, _; split; [reflexivity|auto|reflexivity|auto]).
    destruct Hc as (c & r & Ec & Hc). rewrite (dispatch_memory p g c r Ec Hc). unfold answer. fold ga.
    rewrite (bind_ok _ _ ga () (set_out (str "OK") (set_m x ga))); [done|].
    rewrite (handle_write p a data ga Hp eq_refl Ha Hd Hl). unfold write_memory. rewrite (bind_ok _ _ ga ga ga) by done.
    rewrite (bind_ok _ _ ga (Some x) ga) by (unfold lift; change (m ga) with (m g); by rewrite Ew). done.
  - set (g1 := set_out (str "OK") (set_m x ga)). set (pm := str "m" ++ range a (Z.of_nat (length data))).
    set (gb := set_request (asked pm g1)). exists (set_out (dump data) gb). split; [|done].
    rewrite (dispatch_memory pm g1 109 (range a (Z.of_nat (length data)))) by auto. fold gb. unfold answer.
    rewrite (bind_ok _ _ gb () (set_out (dump data) gb)); [done|].
    unfold handle_memory. rewrite (bind_ok _ _ gb gb gb) by done. cbv zeta.
    change (request gb) with (109 :: range a (Z.of_nat (length data)) ++ [0]). rewrite (bind_ok _ _ gb 109 gb) by done.
    change (if 109 =? 109 then 0 else 58) with 0. cbn [tail].
    rewrite (bind_ok _ _ gb (Some (a, Z.of_nat (length data), [0])) gb) by (unfold lift; by rewrite parse_range8 by done).
    change (109 =? 109) with true. cbv iota. unfold read_memory. rewrite (bind_ok _ _ gb gb gb) by done.
    rewrite (bind_ok _ _ gb (Some data) gb).
    + rewrite (bind_ok _ _ gb () (set_out [] gb)) by done. rewrite each_dump; [done|].
      change MAX_READ with 8184 in Hl. change OUT_SIZE with 32776. cbn [out set_out length]. lia.
    + unfold lift. rewrite Z.min_l, Nat2Z.id by done. change (m gb) with x. by rewrite Er.
  - exact Hother.
Qed.

End Requests.

(** ** Examples *)

Lemma binary_roundtrip_witness :
  exists g', reply_add_binary [36; 65; 125] stopped = Ok ((), g') /\ unescape 3 (drop 0 (out g')) = Some ([36; 65; 125], []).
Proof.
  destruct (binary_roundtrip [36; 65; 125] stopped) as (g' & E & _ & Hu).
  - repeat constructor; discriminate.
  - vm_compute. discriminate.
  - exists g'. split; [exact E|exact Hu].
Defined.

Lemma memory_written_is_read_back_witness :
  exists g1, @dispatch RunProofs.ten RunProofs.zero_float 1
    (asked (str "X80000010,00000002:" ++ escape [36; 65]) stopped) = Ok (Answer, g1) /\ out g1 = str "OK".
Proof.
  destruct (@memory_written_is_read_back RunProofs.ten RunProofs.zero_float 1 stopped 0x80000010 [36; 65]
    (str "X80000010,00000002:" ++ escape [36; 65]) stopped_ok) as (g1 & E & Ho & _).
  - by unfold is_u32.
  - repeat constructor; discriminate.
  - vm_compute. discriminate.
  - vm_compute. discriminate.
  - exact (request_X 0x80000010 [36; 65] ltac:(discriminate)).
  - exists g1. split; [exact E|exact Ho].
Defined.

End GdbMemory.
