(* ===== verification/Muldiv.v ===== *)
(** * The guest's multiply and divide (programs/rv32/rt/muldiv.c)

    The routines firmware for a core without the M extension calls for [*], [/]
    and [%], against the M instructions of the emulator. *)

From S2P Require Import Prelude Effects Buffer Simd4 Gpu G3d Dtb Machine Devices Virtio Bus Mmu Csr Fp Cpu.

Module Muldiv.

(** [while (b != 0)]: shift and add. *)
Fixpoint mul_loop (fuel : nat) (a b product : Z) : res Z :=
  if b =? 0 then mret product
  else
    match fuel with
    | O => NoFuel
    | S fuel' => mul_loop fuel' (u32 (a .<< 1)) (b .>> 1) (if tst (b .& 1) then u32 (product + a) else product)
    end.
Definition rv32_mul (a b : Z) : res Z := mul_loop 32 a b 0.

(** [for (bit = k - 1; bit >= 0; bit--)]: restoring division; the quotient and
    the remainder. *)
Fixpoint udivmod_loop (k : nat) (n d quotient rem : Z) : Z * Z :=
  match k with
  | O => (quotient, rem)
  | S k' =>
      let bit := Z.of_nat k' in
      let high := rem .>> 31 in
      let rem := u32 (rem .<< 1) .| ((n .>> bit) .& 1) in
      if tst high || (d <=? rem) then udivmod_loop k' n d (quotient .| u32 (1 .<< bit)) (u32 (rem - d))
      else udivmod_loop k' n d quotient rem
  end.
Definition udivmod (n d : Z) : Z * Z := udivmod_loop 32 n d 0 0.

Definition rv32_divu (n d : Z) : Z := if d =? 0 then 0xffffffff else fst (udivmod n d).
Definition rv32_remu (n d : Z) : Z := if d =? 0 then n else snd (udivmod n d).

(** The signed routines take and give [int32_t]. *)
Definition magnitude (value : Z) : Z := if value <? 0 then u32 (0 - u32 value) else u32 value.
Definition rv32_div (n d : Z) : Z :=
  if d =? 0 then -1
  else
    let quotient := fst (udivmod (magnitude n) (magnitude d)) in
    s32 (if negb (Bool.eqb (n <? 0) (d <? 0)) then u32 (0 - quotient) else quotient).
Definition rv32_rem (n d : Z) : Z :=
  if d =? 0 then n
  else
    let rem := snd (udivmod (magnitude n) (magnitude d)) in
    s32 (if n <? 0 then u32 (0 - rem) else rem).

(** ** What they compute *)

Lemma land_1 x : x .& 1 = x mod 2.
Proof. change 1 with (Z.ones 1). by rewrite Z.land_ones. Qed.

Lemma mul_loop_spec fuel a b product :
  is_u32 product -> 0 <= b < 2 ^ Z.of_nat fuel -> mul_loop fuel a b product = Ok (u32 (product + a * b)).
Proof.
  revert a b product. induction fuel as [|fuel IH]; intros a b product Hp Hb; cbn [mul_loop].
  - assert (b = 0) as -> by (cbn in Hb; lia). rewrite Z.eqb_refl, Z.mul_0_r, Z.add_0_r. by rewrite u32_id.
  - rewrite Nat2Z.inj_succ, Z.pow_succ_r in Hb by lia. destruct (Z.eqb_spec b 0) as [->|Hne].
    { rewrite Z.mul_0_r, Z.add_0_r. by rewrite u32_id. }
    rewrite land_1, Z.shiftr_div_pow2, Z.shiftl_mul_pow2 by lia. change (2 ^ 1) with 2.
    rewrite IH; [| |split; [apply Z.div_pos; lia|apply Z.div_lt_upper_bound; lia]].
    2: { destruct (tst _); [apply u32_range|done]. }
    f_equal. pose proof (Z.div_mod b 2 ltac:(lia)) as E. pose proof (Z.mod_pos_bound b 2 ltac:(lia)) as Hr.
    set (h := b / 2) in *. set (l := b mod 2) in *. clearbody h l.
    assert (Hm : forall x, u32 (x + u32 (a * 2) * h) = u32 (x + a * 2 * h)).
    { intros x. unfold u32. rewrite <- (Z.add_mod_idemp_r x), Z.mul_mod_idemp_l, Z.add_mod_idemp_r by lia. done. }
    rewrite Hm. destruct (tst l) eqn:Et.
    + apply tst_true in Et. assert (l = 1) as -> by lia. subst b.
      unfold u32. rewrite Z.add_mod_idemp_l by lia. f_equal. lia.
    + apply tst_false in Et. subst. f_equal. lia.
Qed.

(** The partial remainder and quotient after the bits above [k]. *)
Lemma udivmod_loop_spec k n d q r :
  is_u32 n -> 0 < d < 0x100000000 -> (k <= 32)%nat ->
  r = (n / 2 ^ Z.of_nat k) mod d -> q = (n / 2 ^ Z.of_nat k) / d * 2 ^ Z.of_nat k ->
  udivmod_loop k n d q r = (n / d, n mod d).
Proof.
  intros Hn Hd. revert q r. induction k as [|k IH]; intros q r Hk Hr Hq; cbn [udivmod_loop].
  - change (Z.of_nat 0) with 0 in *. change (2 ^ 0) with 1 in *. rewrite Z.div_1_r in *. subst. by rewrite Z.mul_1_r.
  - cbv zeta. rewrite Nat2Z.inj_succ, Z.pow_succ_r in Hr, Hq by lia.
    set (p := 2 ^ Z.of_nat k) in *. assert (Hp : 0 < p) by (apply Z.pow_pos_nonneg; lia).
    assert (Hdiv : n / (2 * p) = n / p / 2) by (rewrite Z.mul_comm, <- Z.div_div by lia; done).
    rewrite Hdiv in Hr, Hq.
    rewrite !Z.shiftr_div_pow2 by lia. fold p. rewrite land_1. set (t := n / p) in *.
    assert (Et : t = 2 * (t / 2) + t mod 2) by (apply Z.div_mod; lia).
    pose proof (Z.mod_pos_bound t 2 ltac:(lia)) as Hb. set (h := t / 2) in *. set (b := t mod 2) in *.
    pose proof (Z.mod_pos_bound h d ltac:(lia)) as Hrd. rewrite <- Hr in Hrd.
    pose proof (Z.div_mod h d ltac:(lia)) as Eh. rewrite <- Hr in Eh.
    assert (Hl : u32 (r .<< 1) .| b = u32 (2 * r) + b).
    { rewrite Z.shiftl_mul_pow2 by lia. change (2 ^ 1) with 2. rewrite (Z.mul_comm r 2).
      replace (u32 (2 * r)) with ((u32 (2 * r) / 2) .<< 1)
        by (rewrite Z.shiftl_mul_pow2 by lia; change (2 ^ 1) with 2; unfold u32; zlia).
      rewrite lor_add by (change (2 ^ 1) with 2; lia). by rewrite Z.shiftl_mul_pow2 by lia. }
    rewrite Hl. clear Hl. change (2 ^ 31) with 0x80000000.
    assert (Hq2 : forall c, c = 0 \/ c = 1 -> (2 * r + b - c * d >= 0) -> 2 * r + b - c * d < d ->
      t mod d = 2 * r + b - c * d /\ t / d = 2 * (h / d) + c).
    { intros c Hc H1 H2. assert (E : t = d * (2 * (h / d) + c) + (2 * r + b - c * d)) by lia.
      split; symmetry; [apply (Z.mod_unique_pos t d (2 * (h / d) + c))|apply (Z.div_unique_pos t d _ (2 * r + b - c * d))]; lia. }
    assert (Hhq : 0 <= h / d) by (apply Z.div_pos; [subst h t; apply Z.div_pos; [apply Z.div_pos|]|]; unfold is_u32 in Hn; lia).
    assert (Hbit : u32 (1 .<< Z.of_nat k) = p).
    { rewrite Z.shiftl_mul_pow2, Z.mul_1_l by lia. apply u32_id. unfold is_u32. fold p. split; [lia|].
      change 0x100000000 with (2 ^ 32). apply Z.pow_lt_mono_r; lia. }
    assert (Hhigh : tst (r / 0x80000000) = (0x80000000 <=? r)).
    { unfold tst. destruct (Z.leb_spec 0x80000000 r); destruct (Z.eqb_spec (r / 0x80000000) 0); try done; zlia. }
    rewrite Hhigh, Hbit. destruct (_ || _) eqn:Ec.
    + assert (Hge : d <= 2 * r + b).
      { apply orb_true_iff in Ec as [Ec|Ec]; bools; [lia|]. unfold u32 in Ec. zlia. }
      destruct (Hq2 1) as [E1 E2]; [auto|lia|lia|]. apply IH; [lia| |].
      * rewrite E1. unfold u32. clear -Hge Hrd Hb Hd. zlia.
      * rewrite E2. replace (q .| p) with (q + p); [rewrite Hq; lia|].
        assert (Hq' : q = (h / d) .<< (Z.of_nat k + 1))
          by (rewrite Z.shiftl_mul_pow2, Z.pow_add_r by lia; fold p; rewrite Hq; change (2 ^ 1) with 2; lia).
        rewrite Hq', lor_add; [by rewrite Z.shiftl_mul_pow2 by lia|lia|]. rewrite Z.pow_add_r by lia. fold p.
        change (2 ^ 1) with 2. lia.
    + apply orb_false_iff in Ec as [Ec1 Ec2]. bools.
      assert (Es : u32 (2 * r) = 2 * r) by (apply u32_id; unfold is_u32; lia). rewrite Es in *.
      destruct (Hq2 0) as [E1 E2]; [auto|lia|lia|]. apply IH; [lia|rewrite E1; lia|]. rewrite E2, Hq. lia.
Qed.

Lemma udivmod_spec n d : is_u32 n -> 0 < d < 0x100000000 -> udivmod n d = (n / d, n mod d).
Proof.
  intros Hn Hd. unfold udivmod. apply udivmod_loop_spec; [done|done|done| |];
    change (2 ^ Z.of_nat 32) with 0x100000000; (rewrite (Z.div_small n) by exact Hn); by rewrite ?Z.mod_0_l, ?Z.div_0_l by lia.
Qed.

Lemma magnitude_abs v : is_s32 v -> magnitude v = Z.abs v.
Proof. unfold is_s32, magnitude, u32. intros Hv. destruct (Z.ltb_spec v 0); zlia. Qed.

Lemma s32_inj_u32 v : is_s32 v -> s32 (u32 v) = v.
Proof. intros Hv. rewrite s32_u32. by apply s32_id. Qed.

Lemma quot_rem_abs n d : d <> 0 ->
  Z.quot n d = (if negb (Bool.eqb (n <? 0) (d <? 0)) then - (Z.abs n / Z.abs d) else Z.abs n / Z.abs d) /\
  Z.rem n d = (if n <? 0 then - (Z.abs n mod Z.abs d) else Z.abs n mod Z.abs d).
Proof.
  intros Hd. rewrite <- !Z.quot_div_nonneg, <- !Z.rem_mod_nonneg by lia.
  destruct (Z.ltb_spec n 0), (Z.ltb_spec d 0); cbn [Bool.eqb negb].
  - rewrite (Z.abs_neq n), (Z.abs_neq d), Z.quot_opp_opp, Z.rem_opp_opp by lia. lia.
  - rewrite (Z.abs_neq n), (Z.abs_eq d), Z.quot_opp_l, Z.rem_opp_l by lia. lia.
  - rewrite (Z.abs_eq n), (Z.abs_neq d), Z.quot_opp_r, Z.rem_opp_r by lia. lia.
  - by rewrite (Z.abs_eq n), (Z.abs_eq d) by lia.
Qed.

(** C34: software multiply and divide compute the M extension.  For every operand
    the five routines return what the emulator's MUL, DIVU, REMU, DIV and REM
    compute, division by zero and the overflow of INT32_MIN / -1 included; the
    multiplication loop ends within its 32 rounds. *)
Theorem muldiv_is_the_m_extension a b :
  is_s32 a -> is_s32 b ->
  rv32_mul (u32 a) (u32 b) = Ok (Cpu.muldiv 0 (u32 a) (u32 b)) /\
  rv32_divu (u32 a) (u32 b) = Cpu.muldiv 5 (u32 a) (u32 b) /\
  rv32_remu (u32 a) (u32 b) = Cpu.muldiv 7 (u32 a) (u32 b) /\
  u32 (rv32_div a b) = Cpu.muldiv 4 (u32 a) (u32 b) /\
  u32 (rv32_rem a b) = Cpu.muldiv 6 (u32 a) (u32 b).
Proof.
  intros Ha Hb. pose proof (u32_range a) as Ua. pose proof (u32_range b) as Ub.
  unfold Cpu.muldiv. cbv zeta. cbn [Z.eqb Pos.eqb]. rewrite !s32_inj_u32 by done.
  assert (Hz : (u32 b =? 0) = (b =? 0)).
  { unfold is_s32 in Hb. unfold u32. destruct (Z.eqb_spec b 0); [by subst|]. apply Z.eqb_neq. zlia. }
  split; [|split; [|split; [|split]]].
  - unfold rv32_mul. rewrite mul_loop_spec; [done|done|exact Ub].
  - unfold rv32_divu. rewrite Hz. destruct (Z.eqb_spec b 0) as [|Hne]; [done|].
    assert (u32 b <> 0) by (by apply Z.eqb_neq).
    rewrite udivmod_spec; [done|done|]. unfold is_u32 in Ub. lia.
  - unfold rv32_remu. rewrite Hz. destruct (Z.eqb_spec b 0) as [|Hne]; [done|].
    assert (u32 b <> 0) by (by apply Z.eqb_neq).
    rewrite udivmod_spec; [done|done|]. unfold is_u32 in Ub. lia.
  - unfold rv32_div. rewrite Hz. destruct (Z.eqb_spec b 0) as [|Hne]; [done|].
    rewrite !magnitude_abs by done. rewrite udivmod_spec by (unfold is_s32, is_u32 in *; lia). cbn [fst].
    destruct (quot_rem_abs a b Hne) as [-> _]. rewrite u32_s32.
    destruct (_ && _) eqn:Eo.
    + bools. assert (a = -0x80000000) as -> by (unfold is_s32, u32 in *; zlia).
      assert (b = -1) as -> by (unfold is_s32, u32 in *; zlia). by vm_compute.
    + destruct (negb _); [|done]. rewrite u32_idem. done.
  - unfold rv32_rem. rewrite Hz. destruct (Z.eqb_spec b 0) as [|Hne]; [done|].
    rewrite !magnitude_abs by done. rewrite udivmod_spec by (unfold is_s32, is_u32 in *; lia). cbn [snd].
    destruct (quot_rem_abs a b Hne) as [_ ->]. rewrite u32_s32.
    destruct (_ && _) eqn:Eo.
    + bools. assert (a = -0x80000000) as -> by (unfold is_s32, u32 in *; zlia).
      assert (b = -1) as -> by (unfold is_s32, u32 in *; zlia). by vm_compute.
    + destruct (a <? 0); [|done]. rewrite u32_idem. done.
Qed.

Lemma muldiv_is_the_m_extension_witness : u32 (rv32_div (-7) 2) = Cpu.muldiv 4 (u32 (-7)) (u32 2) /\ rv32_div (-7) 2 = -3.
Proof.
  split; [|reflexivity].
  exact (proj1 (proj2 (proj2 (proj2 (muldiv_is_the_m_extension (-7) 2 ltac:(by unfold is_s32) ltac:(by unfold is_s32)))))).
Defined.

End Muldiv.
