(* ===== verification/MmuSpecs.v ===== *)
(** * What memory protection and translation mean

    PMP matching against address ranges, the Sv32 walk against page tables as
    the architecture describes them, and RAM as memory: a value stored is the
    value loaded, at the one region its address is in. *)

From S2P Require Import Prelude Effects Buffer Simd4 SimdProofs Gpu GpuProofs G3d G3dProofs Dtb Machine Devices.
From S2P Require Import Virtio Bus Mmu Csr Fp Cpu Run MachineOk DevicesProofs VirtioProofs BusProofs CsrProofs CpuProofs RunProofs.

Module MmuSpecs.
Import Bus Mmu.

(** ** PMP *)

(** [k] low bits of [a] are ones and the next is zero. *)
Definition trailing_ones (a k : Z) : Prop := 0 <= k /\ a mod 2 ^ (k + 1) = 2 ^ k - 1.

(** The bytes entry [i] covers: none when it is off, from the previous entry's
    address up to its own (TOR), its word (NA4), or the naturally aligned power
    of two its trailing ones encode (NAPOT). *)
Definition covers (c : csr_state) (i addr : Z) : Prop :=
  let a := at_ (pmpaddr c) i in
  match (at_ (pmpcfg c) i / 8) mod 4 with
  | 1 => (if i =? 0 then 0 else 4 * at_ (pmpaddr c) (i - 1)) <= addr < 4 * a
  | 2 => 4 * a <= addr < 4 * a + 4
  | 3 => exists k, trailing_ones a k /\ 4 * a / 2 ^ (k + 3) = addr / 2 ^ (k + 3)
  | _ => False
  end.

(** What an entry grants: everything to machine mode unless it is locked, and
    otherwise the permissions it has. *)
Definition grants (c : csr_state) (i priv0 need : Z) : bool :=
  let cfg := at_ (pmpcfg c) i in ((priv0 =? PRIV_M) && negb (Z.testbit cfg 7)) || (cfg .& need =? need).

Lemma trailing_ones_exist n a : 0 <= a < 2 ^ Z.of_nat n -> exists k, trailing_ones a k /\ k <= Z.of_nat n.
Proof.
  revert a. induction n as [|n IH]; intros a Ha.
  - exists 0. assert (a = 0) as -> by (cbn in Ha; lia). by split; [split|].
  - rewrite Nat2Z.inj_succ, Z.pow_succ_r in Ha by lia. destruct (Z.eq_dec (a mod 2) 0) as [E|E].
    + exists 0. split; [by split|lia].
    + destruct (IH (a / 2)) as (k & (Hk & Em) & Hn); [zlia|]. exists (k + 1). split; [|lia]. split; [lia|].
      assert (Ea : a = 2 * (a / 2) + 1) by zlia. rewrite Ea at 1.
      replace (2 ^ (k + 1 + 1)) with (2 * 2 ^ (k + 1)) by (rewrite (Z.pow_add_r 2 (k + 1) 1) by lia; lia).
      assert (Hp : 0 < 2 ^ (k + 1)) by (apply Z.pow_pos_nonneg; lia).
      pose proof (Z.div_mod (a / 2) (2 ^ (k + 1)) ltac:(lia)) as Ed. rewrite Em in Ed.
      assert (E2 : 2 ^ (k + 1) = 2 * 2 ^ k) by (rewrite Z.pow_add_r by lia; lia).
      symmetry. apply (Z.mod_unique_pos _ _ (a / 2 / 2 ^ (k + 1))); [pose proof (Z.pow_pos_nonneg 2 k); lia|]. lia.
Qed.

Lemma trailing_ones_not_lt a k k' : trailing_ones a k -> trailing_ones a k' -> ~ k < k'.
Proof.
  intros (H0 & E) (H0' & E') Hlt.
  assert (Em : a mod 2 ^ (k + 1) = (2 ^ k' - 1) mod 2 ^ (k + 1)).
  { rewrite <- E', Z.mod_mod_divide; [done|].
    exists (2 ^ (k' - k)). rewrite <- Z.pow_add_r by lia. f_equal. lia. }
  assert (E2 : (2 ^ k' - 1) mod 2 ^ (k + 1) = 2 ^ (k + 1) - 1).
  { symmetry. apply (Z.mod_unique_pos _ _ (2 ^ (k' - k - 1) - 1)).
    - pose proof (Z.pow_pos_nonneg 2 (k + 1)). lia.
    - rewrite Z.mul_sub_distr_l, <- Z.pow_add_r by lia. replace (k + 1 + (k' - k - 1)) with k' by lia. lia. }
  rewrite E, E2, Z.pow_add_r in Em by lia. pose proof (Z.pow_pos_nonneg 2 k). lia.
Qed.

Lemma trailing_ones_unique a k k' : trailing_ones a k -> trailing_ones a k' -> k = k'.
Proof. intros H1 H2. pose proof (trailing_ones_not_lt _ _ _ H1 H2). pose proof (trailing_ones_not_lt _ _ _ H2 H1). lia. Qed.

Lemma div_pow2_bits x y n : 0 <= n -> (x / 2 ^ n = y / 2 ^ n <-> forall j, n <= j -> Z.testbit x j = Z.testbit y j).
Proof.
  intros Hn. rewrite <- !Z.shiftr_div_pow2 by done. split.
  - intros E j Hj. replace j with (j - n + n) by lia. rewrite <- !Z.shiftr_spec by lia. by rewrite E.
  - intros H. apply Z.bits_inj'. intros j Hj. rewrite !Z.shiftr_spec by done. apply H. lia.
Qed.

(** The mask a NAPOT address hides: its trailing ones and the zero above them. *)
Lemma napot_mask a k : is_u32 a -> trailing_ones a k -> k <= 32 ->
  forall j, 0 <= j < 32 -> Z.testbit (a .^ u32 (a + 1)) j = (j <=? k).
Proof.
  intros Ha [Hk Em] Hk32 j Hj. rewrite Z.lxor_spec.
  assert (Hp : 0 < 2 ^ k) by (apply Z.pow_pos_nonneg; lia).
  assert (E2 : 2 ^ (k + 1) = 2 * 2 ^ k) by (rewrite Z.pow_add_r by lia; lia).
  pose proof (Z.div_mod a (2 ^ (k + 1)) ltac:(lia)) as Ed. rewrite Em in Ed. set (q := a / 2 ^ (k + 1)) in *.
  assert (E1 : a = (q .<< (k + 1)) .| (2 ^ k - 1)) by (rewrite lor_add by lia; lia).
  assert (E3 : a + 1 = (q .<< (k + 1)) .| 2 ^ k) by (rewrite lor_add by lia; lia).
  assert (Hu : Z.testbit (u32 (a + 1)) j = Z.testbit (a + 1) j)
    by (unfold u32; change 0x100000000 with (2 ^ 32); apply Z.mod_pow2_bits_low; lia).
  rewrite Hu, E3, E1, !Z.lor_spec, Z.pow2_bits_eqb, Z.sub_1_r, <- Z.ones_equiv by lia.
  destruct (Z.leb_spec j k).
  - rewrite Z.shiftl_spec_low by lia. cbn [orb]. destruct (Z.eqb_spec k j) as [->|].
    + by rewrite Z.ones_spec_high by lia.
    + by rewrite Z.ones_spec_low by lia.
  - rewrite Z.ones_spec_high, (proj2 (Z.eqb_neq k j)) by lia. rewrite !orb_false_r. apply xorb_nilpotent.
Qed.

Lemma high_bits_zero x n : 0 <= x < 2 ^ n -> forall j, n <= j -> Z.testbit x j = false.
Proof.
  intros Hx j Hj. destruct (Z.eq_dec x 0) as [->|]; [apply Z.bits_0|]. apply Z.bits_above_log2; [lia|].
  assert (Z.log2 x < n) by (apply Z.log2_lt_pow2; lia). lia.
Qed.

Lemma napot_match a k word :
  is_u32 a -> is_u32 word -> trailing_ones a k -> k <= 32 ->
  ((word .^ a) .& not32 (a .^ u32 (a + 1)) =? 0) = true <-> word / 2 ^ (k + 1) = a / 2 ^ (k + 1).
Proof.
  intros Ha Hw Hk Hk32. rewrite Z.eqb_eq, div_pow2_bits by (destruct Hk; lia).
  assert (Hx : is_u32 (a .^ u32 (a + 1))) by (apply lxor_u32; [done|apply u32_range]).
  split.
  - intros E j Hj. destruct (Z.lt_ge_cases j 32).
    + apply (f_equal (fun z => Z.testbit z j)) in E. rewrite Z.land_spec, Z.bits_0, not32_bit, Z.lxor_spec in E by (done || destruct Hk; lia).
      rewrite (napot_mask a k) in E by (done || destruct Hk; lia). rewrite (proj2 (Z.leb_gt j k)), andb_true_r in E by lia.
      by destruct (Z.testbit word j), (Z.testbit a j).
    + rewrite !(high_bits_zero _ 32) by done. done.
  - intros H. apply Z.bits_inj'. intros j Hj. rewrite Z.land_spec, Z.bits_0, Z.lxor_spec.
    destruct (Z.lt_ge_cases j 32).
    + rewrite not32_bit, (napot_mask a k) by (done || lia). destruct (Z.leb_spec j k); [apply andb_false_r|].
      rewrite H by lia. by rewrite xorb_nilpotent.
    + by rewrite !(high_bits_zero _ 32) by done.
Qed.

Lemma pmp_mode cfg : cfg .& PMP_A = 8 * ((cfg / 8) mod 4).
Proof.
  assert (E : cfg .& PMP_A = ((cfg .>> 3) .& 3) .<< 3).
  { apply Z.bits_inj'. intros n Hn. rewrite Z.land_spec, Z.shiftl_spec by done. change PMP_A with (3 .<< 3).
    rewrite Z.shiftl_spec by done. destruct (Z.lt_ge_cases n 3); [by rewrite !(Z.testbit_neg_r _ (n - 3)), andb_false_r by lia|].
    rewrite Z.land_spec, Z.shiftr_spec by lia. by replace (n - 3 + 3) with n by lia. }
  rewrite E, Z.shiftl_mul_pow2, Z.shiftr_div_pow2 by lia. change 3 with (Z.ones 2) at 2. rewrite Z.land_ones by lia.
  change (2 ^ 3) with 8. change (2 ^ 2) with 4. lia.
Qed.

Lemma word_div addr k : 0 <= k -> addr / 4 / 2 ^ (k + 1) = addr / 2 ^ (k + 3).
Proof.
  intros Hk. rewrite Z.div_div by (try apply Z.pow_pos_nonneg; lia). f_equal. replace (k + 3) with (2 + (k + 1)) by lia.
  by rewrite (Z.pow_add_r 2 2) by lia.
Qed.

(** Matching is covering. *)
Lemma pmp_match_covers c i addr :
  pmp_ok c -> 0 <= i < 8 -> is_u32 addr ->
  match pmp_match c i (addr .>> 2) with Some b => b = true <-> covers c i addr | None => ~ covers c i addr end.
Proof.
  intros (_ & (La & Ha)) Hi Haddr.
  assert (Hu : forall j, 0 <= j < 8 -> is_u32 (at_ (pmpaddr c) j)) by (intros j Hj; apply (at_Forall is_u32); [done|lia]).
  unfold pmp_match, covers. cbv zeta. rewrite pmp_mode, Z.shiftr_div_pow2 by lia. change (2 ^ 2) with 4.
  pose proof (Z.mod_pos_bound (at_ (pmpcfg c) i / 8) 4 ltac:(lia)) as Hmode.
  set (mode := (at_ (pmpcfg c) i / 8) mod 4) in *. clearbody mode.
  assert (Hc : mode = 0 \/ mode = 1 \/ mode = 2 \/ mode = 3) by lia. destruct Hc as [->|[->|[->| ->]]].
  - by intros [].
  - change (8 * 1 =? PMP_TOR) with true. cbv iota beta. rewrite andb_true_iff, Z.leb_le, Z.ltb_lt. destruct (Z.eqb_spec i 0); [zlia|].
    pose proof (Hu (i - 1) ltac:(lia)). zlia.
  - change (8 * 2 =? PMP_TOR) with false. change (8 * 2 =? PMP_NA4) with true. cbv iota beta. rewrite Z.eqb_eq. zlia.
  - change (8 * 3 =? PMP_TOR) with false. change (8 * 3 =? PMP_NA4) with false. change (8 * 3 =? PMP_NAPOT) with true.
    cbv iota beta. pose proof (Hu i Hi) as Hai. set (a := at_ (pmpaddr c) i) in *. clearbody a.
    assert (Hw : is_u32 (addr / 4)) by (unfold is_u32 in *; zlia).
    assert (Hex : exists k, trailing_ones a k /\ k <= 32) by (apply (trailing_ones_exist 32); exact Hai).
    assert (Ha4 : forall k, 0 <= k -> 4 * a / 2 ^ (k + 3) = a / 2 ^ (k + 1)).
    { intros k Hk. rewrite <- word_div by done. do 2 f_equal. rewrite Z.mul_comm. by rewrite Z.div_mul. }
    destruct Hex as (k & Hk & Hk32). rewrite (napot_match a k (addr / 4)), word_div by (done || destruct Hk; done).
    split.
    + intros E. exists k. split; [done|]. rewrite Ha4 by (destruct Hk; done). done.
    + intros (k' & Hk' & E). rewrite (trailing_ones_unique _ _ _ Hk Hk'). rewrite Ha4 in E by (destruct Hk'; done). done.
Qed.

Lemma tst_bit7 cfg : tst (cfg .& PMP_L) = Z.testbit cfg 7.
Proof. change PMP_L with (2 ^ 7). by apply tst_land_pow2. Qed.

Lemma pmp_scan_spec n i priv0 c addr need :
  pmp_ok c -> is_u32 addr -> 0 <= i -> i + Z.of_nat n <= 8 ->
  (exists j, i <= j < i + Z.of_nat n /\ covers c j addr /\ (forall k, i <= k < j -> ~ covers c k addr)
     /\ pmp_scan n i priv0 c (addr .>> 2) need = grants c j priv0 need)
  \/ ((forall k, i <= k < i + Z.of_nat n -> ~ covers c k addr) /\ pmp_scan n i priv0 c (addr .>> 2) need = (priv0 =? PRIV_M)).
Proof.
  intros Hc Ha. revert i. induction n as [|n IH]; intros i Hi Hn; cbn [pmp_scan]; [right; split; [lia|done]|].
  pose proof (pmp_match_covers c i addr Hc ltac:(lia) Ha) as Hm.
  destruct (pmp_match c i (addr .>> 2)) as [[]|].
  { left. exists i. split; [lia|]. split; [by apply Hm|]. split; [lia|]. unfold grants. by rewrite tst_bit7. }
  all: assert (Hi0 : ~ covers c i addr) by (intros Hcov; try (apply Hm in Hcov; discriminate); by apply Hm).
  all: destruct (IH (i + 1) ltac:(lia) ltac:(lia)) as [(j & Hj & Hcov & Hnot & Es)|(Hnot & Es)]; rewrite Es; [left|right].
  all: try (exists j; split; [lia|]; split; [done|]; split; [|done]).
  all: try split; try done; intros k Hk; destruct (Z.eq_dec k i) as [->|]; try done; apply Hnot; lia.
Qed.

(** C28: PMP decides by the first entry that covers the address.  With entries as
    CSR writes leave them, an access to a byte is decided by the lowest-numbered
    entry whose range covers it: it passes in machine mode when the entry is not
    locked, and otherwise when the entry has every permission needed; when no
    entry covers the address only machine mode passes.  NAPOT ranges are the
    naturally aligned powers of two of the architecture, up to the whole space. *)
Theorem pmp_first_match_decides c priv0 addr need :
  pmp_ok c -> is_u32 addr ->
  (exists i, 0 <= i < 8 /\ covers c i addr /\ (forall k, 0 <= k < i -> ~ covers c k addr)
     /\ pmp_allows priv0 c addr need = grants c i priv0 need)
  \/ ((forall k, 0 <= k < 8 -> ~ covers c k addr) /\ pmp_allows priv0 c addr need = (priv0 =? PRIV_M)).
Proof. intros Hc Ha. apply (pmp_scan_spec 8 0); [done|done|lia|lia]. Qed.

(** ** Sv32 *)

(** The page-table word at a physical address: in RAM, and readable for the
    supervisor under PMP. *)
Definition readable (m : machine) (a : Z) : bool :=
  (RAM_BASE <=? a) && (a + 4 <=? RAM_BASE + RAM_SIZE) && pmp_allows PRIV_S (csr m) a PMP_R.
Definition word_at (m : machine) (a : Z) : Z := le_bytes (ram m) (a - RAM_BASE) 4.
Definition pte_at (m : machine) (a pte : Z) : Prop := readable m a = true /\ pte = word_at m a.

(** The bits of a page-table entry. *)
Definition pte_v (pte : Z) : bool := Z.testbit pte 0.
Definition pte_r (pte : Z) : bool := Z.testbit pte 1.
Definition pte_w (pte : Z) : bool := Z.testbit pte 2.
Definition pte_x (pte : Z) : bool := Z.testbit pte 3.
Definition pte_u (pte : Z) : bool := Z.testbit pte 4.
Definition pte_a (pte : Z) : bool := Z.testbit pte 6.
Definition pte_d (pte : Z) : bool := Z.testbit pte 7.

Definition pte_valid (pte : Z) : Prop := pte_v pte = true /\ (pte_w pte = true -> pte_r pte = true).
Definition pte_leaf (pte : Z) : Prop := pte_r pte = true \/ pte_x pte = true.

(** What a leaf lets through: user pages to user mode, and to the supervisor only
    with SUM and never to fetch; the permission of the access (an executable page
    also to a load with MXR); accessed, and dirty for a store. *)
Definition pte_permits (m : machine) (pte : Z) (kind : walk_kind) (priv0 : Z) : Prop :=
  (if priv0 =? PRIV_U then pte_u pte = true
   else pte_u pte = true -> kind <> WALK_FETCH /\ Z.testbit (mstatus (csr m)) 18 = true) /\
  match kind with
  | WALK_FETCH => pte_x pte = true
  | WALK_STORE => pte_w pte = true
  | WALK_LOAD => pte_r pte = true \/ (Z.testbit (mstatus (csr m)) 19 = true /\ pte_x pte = true)
  end /\
  pte_a pte = true /\ (kind = WALK_STORE -> pte_d pte = true).

(** The physical address a virtual one maps to, through a 4 MiB page or through a
    second-level table to a 4 KiB page. *)
Inductive sv32 (m : machine) (root va : Z) (kind : walk_kind) (priv0 : Z) : Z -> Prop :=
| sv32_superpage pte pa :
    pte_at m (root + 4 * (va / 2 ^ 22)) pte -> pte_valid pte -> pte_leaf pte -> (pte / 2 ^ 10) mod 2 ^ 10 = 0 ->
    pte_permits m pte kind priv0 -> pa = pte / 2 ^ 20 * 2 ^ 22 + va mod 2 ^ 22 -> pa < 2 ^ 32 ->
    sv32 m root va kind priv0 pa
| sv32_page pte pte0 pa :
    pte_at m (root + 4 * (va / 2 ^ 22)) pte -> pte_valid pte -> ~ pte_leaf pte ->
    pte_d pte = false /\ pte_a pte = false /\ pte_u pte = false ->
    pte_at m (pte / 2 ^ 10 * 2 ^ 12 + 4 * ((va / 2 ^ 12) mod 2 ^ 10)) pte0 -> pte_valid pte0 -> pte_leaf pte0 ->
    pte_permits m pte0 kind priv0 -> pa = pte0 / 2 ^ 10 * 2 ^ 12 + va mod 2 ^ 12 -> pa < 2 ^ 32 ->
    sv32 m root va kind priv0 pa.

Lemma tst_lor a b : tst (a .| b) = tst a || tst b.
Proof.
  unfold tst. destruct (Z.eqb_spec (a .| b) 0) as [E|E].
  - apply Z.lor_eq_0_iff in E as [-> ->]. done.
  - destruct (Z.eqb_spec a 0) as [->|]; [|done]. destruct (Z.eqb_spec b 0) as [->|]; done.
Qed.

Lemma bit_tests pte :
  tst (pte .& PTE_V) = pte_v pte /\ tst (pte .& PTE_R) = pte_r pte /\ tst (pte .& PTE_W) = pte_w pte /\
  tst (pte .& PTE_X) = pte_x pte /\ tst (pte .& PTE_U) = pte_u pte /\ tst (pte .& PTE_A) = pte_a pte /\
  tst (pte .& PTE_D) = pte_d pte /\ tst (pte .& (PTE_R .| PTE_X)) = pte_r pte || pte_x pte /\
  tst (pte .& (PTE_D .| PTE_A .| PTE_U)) = pte_d pte || pte_a pte || pte_u pte.
Proof.
  assert (H : forall n, 0 <= n -> tst (pte .& 2 ^ n) = Z.testbit pte n) by (intros; by apply tst_land_pow2).
  rewrite !Z.land_lor_distr_r, !tst_lor.
  change PTE_V with (2 ^ 0). change PTE_R with (2 ^ 1). change PTE_W with (2 ^ 2). change PTE_X with (2 ^ 3).
  change PTE_U with (2 ^ 4). change PTE_A with (2 ^ 6). change PTE_D with (2 ^ 7). rewrite !H by lia. done.
Qed.

(** The first steps of a walk at one level, before it looks at the entry. *)
Lemma table_word m table i :
  bus_ok m -> 0 <= table < 2 ^ 35 -> 0 <= i < 1024 ->
  let at0 := u64 (table + 4 * i) in
  tst (at0 .>> 32) || negb (in_ram (u32 at0) 4) || negb (pmp_allows PRIV_S (csr m) (u32 at0) PMP_R)
    = negb (readable m (table + 4 * i)) /\
  (readable m (table + 4 * i) = true -> ram_read m (u32 at0) 4 = Ok (word_at m (table + 4 * i))).
Proof.
  intros Hm Ht Hi. cbv zeta. change (2 ^ 35) with 0x800000000 in Ht. set (a := table + 4 * i).
  rewrite (u64_id a) by (unfold is_u64; lia). rewrite Z.shiftr_div_pow2 by lia. change (2 ^ 32) with 0x100000000.
  assert (Ht32 : tst (a / 0x100000000) = (0x100000000 <=? a)).
  { unfold tst. destruct (Z.leb_spec 0x100000000 a), (Z.eqb_spec (a / 0x100000000) 0); try done; zlia. }
  rewrite Ht32. unfold readable. destruct (Z.leb_spec 0x100000000 a).
  { cbn [orb]. rewrite (proj2 (Z.leb_gt (a + 4) _)) by (unfold RAM_BASE, RAM_SIZE; lia). rewrite andb_false_r. cbn [andb negb]. done. }
  rewrite (u32_id a) by (unfold is_u32; lia). cbn [orb].
  assert (Ein : in_ram a 4 = (RAM_BASE <=? a) && (a + 4 <=? RAM_BASE + RAM_SIZE)).
  { unfold in_ram. destruct (Z.leb_spec RAM_BASE a); [|done]. cbn [andb]. unfold RAM_BASE, RAM_SIZE in *.
    rewrite u32_id by (unfold is_u32; lia). destruct (Z.leb_spec (a - 0x80000000 + 4) 0x1000000), (Z.leb_spec (a + 4) (0x80000000 + 0x1000000)); done || lia. }
  rewrite Ein. split; [by rewrite <- negb_andb|]. intros Hr. bools. unfold ram_read, word_at.
  pose proof Hm as (_&_&(Hb&El)&_). rewrite bytes_read_spec; [done|done|lia|lia|rewrite El; lia].
Qed.

Lemma leaf_allows_permits m pte kind priv0 : leaf_allows m pte kind priv0 = true <-> pte_permits m pte kind priv0.
Proof.
  unfold leaf_allows, pte_permits. destruct (bit_tests pte) as (_&Er&Ew&Ex&Eu&Ea&Ed&_). cbv zeta.
  rewrite Er, Ew, Ex, Eu, Ea, Ed. change MSTATUS_SUM with (2 ^ 18). change MSTATUS_MXR with (2 ^ 19).
  rewrite !tst_land_pow2 by lia.
  destruct (priv0 =? PRIV_U), kind, (pte_u pte), (pte_a pte), (pte_d pte), (pte_x pte), (pte_w pte), (pte_r pte),
    (Z.testbit (mstatus (csr m)) 18), (Z.testbit (mstatus (csr m)) 19); vm_compute; intuition congruence.
Qed.

(** Whether the walk may look behind an entry. *)
Definition invalid (pte : Z) : bool := negb (pte_v pte) || (negb (pte_r pte) && pte_w pte).

Lemma invalid_spec pte : invalid pte = false <-> pte_valid pte.
Proof. unfold invalid, pte_valid. destruct (pte_v pte), (pte_r pte), (pte_w pte); cbn; intuition congruence. Qed.

Lemma leaf_spec pte : pte_r pte || pte_x pte = true <-> pte_leaf pte.
Proof. unfold pte_leaf. apply orb_true_iff. Qed.

Lemma pte_u32 m a : bus_ok m -> is_u32 (word_at m a).
Proof. intros Hm. pose proof Hm as (_&_&(Hb&_)&_). apply le_bytes_u32; [done|lia]. Qed.

(** The tests a walk makes of the entry, as the specification names them. *)
Lemma walk_at level m table va kind priv0 :
  bus_ok m -> is_u32 va -> 0 <= table < 2 ^ 35 ->
  let i := if (0 <? level)%nat then va / 2 ^ 22 else (va / 2 ^ 12) mod 2 ^ 10 in
  let pte := word_at m (table + 4 * i) in
  walk level m table va kind priv0 =
    if negb (readable m (table + 4 * i)) then Ok ACC_FAULT
    else if invalid pte then Ok ACC_PAGE_FAULT
    else if negb (pte_r pte || pte_x pte) then
      match level with
      | O => Ok ACC_PAGE_FAULT
      | S level' =>
          if pte_d pte || pte_a pte || pte_u pte then Ok ACC_PAGE_FAULT
          else walk level' m (pte / 2 ^ 10 * 2 ^ 12) va kind priv0
      end
    else if (0 <? level)%nat && negb ((pte / 2 ^ 10) mod 2 ^ 10 =? 0) then Ok ACC_PAGE_FAULT
    else if negb (leaf_allows m pte kind priv0) then Ok ACC_PAGE_FAULT
    else
      let pa := if (0 <? level)%nat then pte / 2 ^ 20 * 2 ^ 22 + va mod 2 ^ 22 else pte / 2 ^ 10 * 2 ^ 12 + va mod 2 ^ 12 in
      if 2 ^ 32 <=? pa then Ok ACC_FAULT else Ok (ACC_OK pa).
Proof.
  intros Hm Hva Ht i pte. unfold is_u32 in Hva.
  assert (Ei : (va .>> (if (0 <? level)%nat then 22 else 12)) .& 0x3ff = i).
  { subst i. change 0x3ff with (Z.ones 10). destruct (0 <? level)%nat; rewrite Z.land_ones, Z.shiftr_div_pow2 by lia; [|done].
    apply Z.mod_small. change (2 ^ 22) with 4194304. change (2 ^ 10) with 1024. zlia. }
  assert (Hi : 0 <= i < 1024).
  { subst i. destruct (0 <? level)%nat; change (2 ^ 22) with 4194304; change (2 ^ 12) with 4096; change (2 ^ 10) with 1024; zlia. }
  destruct (table_word m table i Hm Ht Hi) as [Et Er].
  assert (Hp : is_u32 pte) by (by apply pte_u32). unfold is_u32 in Hp.
  destruct (bit_tests pte) as (Ev&Erd&Ew&_&_&_&_&Erx&Edau).
  assert (Epp : tst ((pte .>> 10) .& 0x3ff) = negb ((pte / 2 ^ 10) mod 2 ^ 10 =? 0)).
  { change 0x3ff with (Z.ones 10). rewrite Z.land_ones, Z.shiftr_div_pow2 by lia. done. }
  assert (Eva : forall n, 0 <= n -> va .& Z.ones n = va mod 2 ^ n) by (intros; by apply Z.land_ones).
  assert (Epa : (if (0 <? level)%nat then (((pte .>> 10) .>> 10) .<< 22) .| (va .& 0x3fffff) else ((pte .>> 10) .<< 12) .| (va .& 0xfff))
    = (if (0 <? level)%nat then pte / 2 ^ 20 * 2 ^ 22 + va mod 2 ^ 22 else pte / 2 ^ 10 * 2 ^ 12 + va mod 2 ^ 12)).
  { change 0x3fffff with (Z.ones 22). change 0xfff with (Z.ones 12). rewrite !Eva by lia.
    destruct (0 <? level)%nat; rewrite lor_add by (try apply Z.mod_pos_bound; lia).
    - rewrite Z.shiftr_shiftr, Z.shiftr_div_pow2 by lia. done.
    - by rewrite Z.shiftr_div_pow2 by lia. }
  assert (Hpa : forall pa, 0 <= pa < 2 ^ 35 -> (if tst (pa .>> 32) then mret ACC_FAULT else mret (ACC_OK (u32 pa)))
    = (if 2 ^ 32 <=? pa then Ok ACC_FAULT else Ok (ACC_OK pa)) :> res (mem_access Z)).
  { intros pa Hpa. rewrite Z.shiftr_div_pow2 by lia. unfold tst. change (2 ^ 35) with 0x800000000 in Hpa. change (2 ^ 32) with 0x100000000.
    destruct (Z.leb_spec 0x100000000 pa), (Z.eqb_spec (pa / 0x100000000) 0); cbn [negb]; try done; try zlia.
    by rewrite u32_id by (unfold is_u32; lia). }
  destruct level as [|level]; cbn [walk]; cbv zeta; rewrite Ei, Et; (destruct (readable m (table + 4 * i)); [|done]); cbn [negb];
    rewrite Er by done; cbn [mbind res_bind]; fold pte; rewrite Ev, Erd, Ew, Erx; fold (invalid pte);
    (destruct (invalid pte); [done|]); (destruct (negb (pte_r pte || pte_x pte)); [|]).
  - done.
  - cbn [Nat.ltb Nat.leb andb] in *. destruct (negb (leaf_allows _ _ _ _)); [done|]. rewrite Epa. apply Hpa.
    change (2 ^ 10) with 1024. change (2 ^ 12) with 4096. change (2 ^ 35) with 0x800000000. zlia.
  - rewrite Edau. destruct (_ || _); [done|]. by rewrite Z.shiftl_mul_pow2, Z.shiftr_div_pow2 by lia.
  - cbn [Nat.ltb Nat.leb andb] in *. rewrite Epp. destruct (negb (_ =? 0)); [done|].
    destruct (negb (leaf_allows _ _ _ _)); [done|]. rewrite Epa. apply Hpa.
    change (2 ^ 20) with 1048576. change (2 ^ 22) with 4194304. change (2 ^ 35) with 0x800000000. zlia.
Qed.

(** A leaf at the last level. *)
Lemma walk_page m table va kind priv0 pa :
  bus_ok m -> is_u32 va -> 0 <= table < 2 ^ 35 ->
  walk 0 m table va kind priv0 = Ok (ACC_OK pa) <->
  exists pte, pte_at m (table + 4 * ((va / 2 ^ 12) mod 2 ^ 10)) pte /\ pte_valid pte /\ pte_leaf pte /\
    pte_permits m pte kind priv0 /\ pa = pte / 2 ^ 10 * 2 ^ 12 + va mod 2 ^ 12 /\ pa < 2 ^ 32.
Proof.
  intros Hm Hva Ht. rewrite walk_at by done. cbn [Nat.ltb Nat.leb andb]. cbv zeta.
  set (a := table + 4 * ((va / 2 ^ 12) mod 2 ^ 10)). set (pte := word_at m a). split.
  - destruct (readable m a) eqn:Er; [|done]. cbn [negb]. destruct (invalid pte) eqn:Ei; [done|].
    destruct (pte_r pte || pte_x pte) eqn:El; [|done]. cbn [negb].
    destruct (leaf_allows m pte kind priv0) eqn:Ea; [|done]. cbn [negb].
    destruct (Z.leb_spec (2 ^ 32) (pte / 2 ^ 10 * 2 ^ 12 + va mod 2 ^ 12)); [done|]. intros E. injection E as <-.
    exists pte. split; [by split|]. split; [by apply invalid_spec|]. split; [by apply leaf_spec|].
    split; [by apply leaf_allows_permits|]. by split.
  - intros (pte' & (Er & ->) & Hv & Hl & Hp & -> & Hlt). fold pte in Hv, Hl, Hp, Hlt |- *. rewrite Er. cbn [negb].
    rewrite (proj2 (invalid_spec _) Hv), (proj2 (leaf_spec _) Hl), (proj2 (leaf_allows_permits _ _ _ _) Hp). cbn [negb].
    by rewrite (proj2 (Z.leb_gt _ _) Hlt).
Qed.

(** C29: address translation is Sv32.  In machine mode or with satp's MODE clear
    an address is its own translation; otherwise [translate] answers a physical
    address exactly when the page tables at satp's root map the virtual one to it
    for that access, by the architecture's rules for valid entries, 4 MiB and
    4 KiB leaves, permissions, SUM, MXR, and the accessed and dirty bits, which
    must be set. *)
Theorem translate_is_sv32 m va kind priv0 :
  bus_ok m -> is_u32 va -> is_u32 (satp (csr m)) ->
  if Z.testbit (satp (csr m)) 31 && negb (priv0 =? PRIV_M)
  then forall pa, translate m va kind priv0 = Ok (ACC_OK pa) <->
         sv32 m (satp (csr m) mod 2 ^ 22 * 2 ^ 12) va kind priv0 pa
  else translate m va kind priv0 = Ok (ACC_OK va).
Proof.
  intros Hm Hva Hsatp. unfold translate. change SATP_MODE with (2 ^ 31). rewrite tst_land_pow2 by lia.
  destruct (Z.testbit (satp (csr m)) 31); [|done]. destruct (priv0 =? PRIV_M); [done|]. cbn [negb andb orb].
  change SATP_PPN with (Z.ones 22). rewrite Z.land_ones, Z.shiftl_mul_pow2 by lia.
  set (root := satp (csr m) mod 2 ^ 22 * 2 ^ 12).
  assert (Hroot : 0 <= root < 2 ^ 35).
  { subst root. change (2 ^ 22) with 4194304. change (2 ^ 12) with 4096. change (2 ^ 35) with 0x800000000. unfold is_u32 in Hsatp. zlia. }
  clearbody root. intros pa. rewrite walk_at by done. cbn [Nat.ltb Nat.leb andb]. cbv zeta.
  set (a := root + 4 * (va / 2 ^ 22)). set (pte := word_at m a).
  assert (Hp : is_u32 pte) by (by apply pte_u32).
  assert (Htab : 0 <= pte / 2 ^ 10 * 2 ^ 12 < 2 ^ 35).
  { change (2 ^ 10) with 1024. change (2 ^ 12) with 4096. change (2 ^ 35) with 0x800000000. unfold is_u32 in Hp. zlia. }
  split.
  - destruct (readable m a) eqn:Er; [|done]. cbn [negb]. destruct (invalid pte) eqn:Ei; [done|].
    apply invalid_spec in Ei. destruct (pte_r pte || pte_x pte) eqn:El; cbn [negb].
    + destruct (Z.eqb_spec ((pte / 2 ^ 10) mod 2 ^ 10) 0) as [Ep|]; [|done]. cbn [negb].
      destruct (leaf_allows m pte kind priv0) eqn:Ea; [|done]. cbn [negb].
      destruct (Z.leb_spec (2 ^ 32) (pte / 2 ^ 20 * 2 ^ 22 + va mod 2 ^ 22)); [done|]. intros E. injection E as <-.
      eapply (sv32_superpage _ _ _ _ _ pte); try done; [by apply leaf_spec|by apply leaf_allows_permits].
    + destruct (pte_d pte || pte_a pte || pte_u pte) eqn:Edau; [done|]. intros (pte0 & H0 & Hv & Hl & Hper & E & Hlt)%walk_page; [|done..].
      apply orb_false_iff in Edau as [[Hd Ha]%orb_false_iff Hu].
      eapply (sv32_page _ _ _ _ _ pte pte0); try done. intros Hl'. apply leaf_spec in Hl'. congruence.
  - intros [pte' pa' (Er & ->) Hv Hl Hz Hper -> Hlt|pte' pte0 pa' (Er & ->) Hv Hl (Hd & Ha & Hu) H0 Hv0 Hl0 Hper -> Hlt];
      fold a in Er, Hv, Hl; fold pte in Hv, Hl; rewrite Er; cbn [negb]; rewrite (proj2 (invalid_spec _) Hv).
    + fold a in Hz, Hper, Hlt. fold pte in Hz, Hper, Hlt. fold a pte. rewrite (proj2 (leaf_spec _) Hl), Hz, (proj2 (leaf_allows_permits _ _ _ _) Hper). cbn [negb]. by rewrite (proj2 (Z.leb_gt _ _) Hlt).
    + fold a in Hd, Ha, Hu, H0. fold pte in Hd, Ha, Hu, H0.
      destruct (pte_r pte || pte_x pte) eqn:El; [by apply leaf_spec in El|]. cbn [negb]. rewrite Hd, Ha, Hu. cbn [orb].
      apply walk_page; [done|done|done|]. by exists pte0.
Qed.

(** ** RAM *)

#[local] Existing Instance partial.

Lemma regions_apart :
  forallb (fun r => forallb (fun r' => bool_decide (r_name r = r_name r') || BusProofs.apart r r') REGIONS) REGIONS = true.
Proof. by vm_compute. Qed.

(** An access is inside one window of the map at most. *)
Lemma region_unique addr width r r' :
  is_u32 addr -> In width [1; 2; 4] -> In r REGIONS -> In r' REGIONS ->
  in_region addr width r = true -> in_region addr width r' = true -> r_name r = r_name r'.
Proof.
  intros Ha Hw Hr Hr' E E'.
  pose proof (proj1 (forallb_forall _ _) regions_apart r Hr) as Hf. cbv beta in Hf.
  pose proof (proj1 (forallb_forall _ _) Hf r' Hr') as Hp. cbv beta in Hp.
  apply orb_true_iff in Hp as [Hp|Hp]; [by apply bool_decide_eq_true in Hp|]. exfalso.
  assert (Hin : forall q, In q REGIONS -> in_region addr width q = true -> r_base q <= addr /\ addr + width <= r_base q + r_size q).
  { intros q Hq Hi. pose proof (proj1 (forallb_forall _ _) BusProofs.regions_ok q Hq) as Hok.
    unfold BusProofs.window_ok in Hok. unfold in_region in Hi. bools. unfold is_u32 in Ha. cbn in Hw.
    rewrite u32_id in * by (unfold is_u32; lia). lia. }
  destruct (Hin r Hr E), (Hin r' Hr' E'). unfold BusProofs.apart in Hp. cbn in Hw.
  apply orb_true_iff in Hp as [Hp|Hp]; bools; lia.
Qed.

Lemma find_ram addr width : is_u32 addr -> In width [1; 2; 4] -> in_ram addr width = true ->
  find_region addr width = Some (Region R_ram RAM_BASE RAM_SIZE).
Proof.
  intros Ha Hw Hin. set (r := Region R_ram RAM_BASE RAM_SIZE). assert (Hr : In r REGIONS) by (cbn; tauto).
  unfold find_region. destruct (List.find _ REGIONS) as [r'|] eqn:E.
  - pose proof (find_some _ _ E) as [Hr' E']. pose proof (region_unique addr width r r' Ha Hw Hr Hr' Hin E') as En.
    f_equal. clear -Hr' En. cbn in Hr'. repeat destruct Hr' as [<-|Hr']; try done.
  - pose proof (find_none _ _ E r Hr) as En. change (in_region addr width r) with (in_ram addr width) in En. congruence.
Qed.

(** C30: RAM is memory.  A store that reaches RAM, at any width, changes exactly
    the bytes of its range and nothing else of the machine, and a load of the same
    address and width that still translates there reads the value back, reduced to
    the width. *)
Theorem ram_store_then_load `{ServeFuel} m m' va width v pa :
  bus_ok m -> is_u32 va -> In width [1; 2; 4] -> is_u32 pa -> in_ram pa width = true ->
  physical va WALK_STORE PMP_W m = Ok (ACC_OK pa, m) -> store va width v m = Ok (ACC_OK (), m') ->
  physical va WALK_LOAD PMP_R m' = Ok (ACC_OK pa, m') ->
  load va width m' = Ok (ACC_OK (v mod 2 ^ (8 * width), pa), m') /\
  m' = set_ram (ram m') m /\
  forall j, ~ (pa - RAM_BASE <= j < pa - RAM_BASE + width) -> byte_at (ram m') j = byte_at (ram m) j.
Proof.
  intros Hm Hva Hw Hpa Hin Ep Es El.
  assert (Hw' : 0 <= width <= 4) by (cbn in Hw; lia).
  destruct (BusProofs.in_ram_spec pa width Hpa Hw' Hin) as [Ho1 Ho2].
  unfold store in Es. destruct (negb (va mod width =? 0)) eqn:Eal; [done|].
  unfold mbind, st_bind at 1 in Es. rewrite Ep in Es. rewrite (find_ram pa width Hpa Hw Hin) in Es.
  change (r_store (r_name (Region R_ram RAM_BASE RAM_SIZE))) with (Some ram_store) in Es. cbv iota beta in Es.
  change (r_base (Region R_ram RAM_BASE RAM_SIZE)) with RAM_BASE in Es.
  pose proof Hm as (_&_&(Hb&Elen)&_).
  destruct (bytes_write_spec (ram m) (pa - RAM_BASE) width v) as (b' & Ew & W); [done|lia|lia|].
  unfold ram_store in Es. unfold mbind, st_bind, gets, id in Es.
  destruct (Gpu.gpu_source_locked _ _ _); [done|]. destruct (G3d.g3d_z_locked _ _ _); [done|].
  unfold lift in Es. rewrite Ew in Es. cbn [modify] in Es. injection Es as <-.
  split; [|split; [done|]].
  - unfold load. rewrite Eal. unfold mbind, st_bind at 1. rewrite El, (find_ram pa width Hpa Hw Hin).
    change (r_load (r_name (Region R_ram RAM_BASE RAM_SIZE))) with (Some ram_load). cbv iota beta.
    unfold ram_load, mbind, st_bind, gets, lift. change (ram (set_ram b' m)) with b'.
    change (r_base (Region R_ram RAM_BASE RAM_SIZE)) with RAM_BASE.
    rewrite bytes_read_spec; [|by eapply written_ok|done|done|destruct W; lia]. cbn [mret st_ret]. do 3 f_equal.
    pose proof (le_bytes_written _ _ _ _ _ (Z.to_nat width) 0 W ltac:(lia) ltac:(lia)) as Er.
    rewrite Z.add_0_r, Z.mul_0_r, Z.shiftr_0_r, Z2Nat.id in Er by lia. rewrite Er. f_equal.
    change 256 with (2 ^ 8). by rewrite <- Z.pow_mul_r by lia.
  - intros j Hj. destruct W as [_ W]. change (ram (set_ram b' m)) with b'. rewrite W.
    destruct (Z.leb_spec (pa - RAM_BASE) j), (Z.ltb_spec j (pa - RAM_BASE + width)); cbn [andb]; done || lia.
Qed.

(** ** Examples *)

(** All of memory open to S and U mode by one NAPOT entry. *)
Definition open_csr : csr_state :=
  {| Run.emu_init_csr with pmpcfg := 0x1f :: replicate 7 0; pmpaddr := 0xffffffff :: replicate 7 0; satp := 0x80080001 |}.

Lemma open_pmp : pmp_ok open_csr.
Proof.
  split; (split; [done|]).
  - constructor; [by split|]. by apply Forall_replicate.
  - constructor; [by unfold is_u32|]. by apply Forall_replicate.
Qed.

Lemma pmp_first_match_decides_witness :
  (exists i, 0 <= i < 8 /\ covers open_csr i 0x80001234) \/ pmp_allows PRIV_U open_csr 0x80001234 PMP_W = false.
Proof.
  destruct (pmp_first_match_decides open_csr PRIV_U 0x80001234 PMP_W open_pmp ltac:(by unfold is_u32))
    as [(i & Hi & Hc & _)|(_ & E)].
  - left. exists i. split; [exact Hi|exact Hc].
  - right. rewrite E. reflexivity.
Defined.

(** A root table at 0x80001000 that maps the 4 MiB at 0x80000000 to themselves. *)
Definition table_ram : buffer :=
  match bytes_write (buf_zero RAM_SIZE) 0x1800 4 0x200000cf with Ok b => b | _ => buf_zero RAM_SIZE end.
Definition paged : machine := upd_csr (fun _ => open_csr) (set_ram table_ram Run.emu_init).

Lemma paged_ok : bus_ok paged.
Proof.
  apply (bus_ram Run.emu_init (proj1 (@RunProofs.emu_init_ok any_start _)) table_ram). unfold table_ram.
  assert (Hz : buf_ok (buf_zero RAM_SIZE)) by (by apply buf_zero_ok).
  destruct (bytes_write_spec (buf_zero RAM_SIZE) 0x1800 4 0x200000cf) as (b' & -> & W); [done|done|done|].
  split; [by eapply written_ok|]. by destruct W as [-> _].
Qed.

Lemma translate_is_sv32_witness :
  sv32 paged (0x80001 * 2 ^ 12) 0x80000004 WALK_LOAD PRIV_S 0x80000004.
Proof.
  apply (translate_is_sv32 paged 0x80000004 WALK_LOAD PRIV_S paged_ok ltac:(by unfold is_u32) ltac:(by unfold is_u32)).
  by vm_compute.
Defined.

Lemma ram_store_then_load_witness :
  exists m', @store 10%nat 0x80000010 2 0xabcd1234 Run.emu_init = Ok (ACC_OK (), m') /\
    load 0x80000010 2 m' = Ok (ACC_OK (0x1234, 0x80000010), m').
Proof.
  exists (set_ram (match bytes_write (buf_zero RAM_SIZE) 0x10 2 0xabcd1234 with Ok b => b | _ => buf_zero RAM_SIZE end) Run.emu_init).
  split; [reflexivity|].
  refine (proj1 (@ram_store_then_load 10%nat Run.emu_init _ 0x80000010 2 0xabcd1234 0x80000010 _ _ _ _ _ _ _ _)).
  - exact (proj1 (@RunProofs.emu_init_ok any_start _)).
  - by unfold is_u32.
  - by right; left.
  - by unfold is_u32.
  - reflexivity.
  - reflexivity.
  - reflexivity.
  - reflexivity.
Defined.

End MmuSpecs.
