(* ===== verification/CpuSpecs.v ===== *)
(** * What the hart promises its software

    Locked PMP entries that no step changes, traps a handler returns from,
    the choice of the interrupt to take, and CSR writes that store what a read
    answered. *)

From S2P Require Import Prelude Effects Buffer Simd4 SimdProofs Gpu GpuProofs G3d G3dProofs Dtb Machine Devices.
From S2P Require Import Virtio Bus Mmu Csr Fp Cpu Run MachineOk DevicesProofs VirtioProofs BusProofs CsrProofs CpuProofs RunProofs MmuSpecs.

Module CpuSpecs.
Import Bus Mmu Csr Cpu.

(** ** Locked PMP entries *)

Section Locks.
Context `{SVF : ServeFuel} `{SF : SoftFloat} {SFO : Fp.SoftFloatOk SF}.

(** A run whose entry [i] is locked as it is in [c]. *)
Definition locked_as (c : csr_state) (i : Z) : Assumed := {|
  starts_aligned := False;
  locks := [{| lk_index := i; lk_cfg := at_ (pmpcfg c) i; lk_addr := at_ (pmpaddr c) i;
               lk_from := at_ (pmpaddr c) (i - 1) |}] |}.

Lemma locked_as_ok m i :
  @machine_ok any_start m -> 0 <= i < 8 -> Z.testbit (at_ (pmpcfg (csr m)) i) 7 = true ->
  @machine_ok (locked_as (csr m) i) m.
Proof.
  intros (Hb&Hh&(Ht&Hc&Hp&_)&Hn) Hi Hl.
  refine (conj Hb (conj Hh (conj (conj Ht (conj Hc (conj Hp _))) Hn))).
  constructor; [|constructor]. split; [exact Hi|]. split; [by rewrite MmuSpecs.tst_bit7|done].
Qed.

Lemma steps_keep (AL : Assumed) n m m' : RunProofs.steps_to n m m' -> machine_ok m -> machine_ok m'.
Proof.
  induction 1 as [|n m m1 m2 E _ IH]; [done|]. intros Hm. apply IH.
  apply (wp_ok _ _ _ _ _ (@CpuProofs.step_wp _ partial _ _ _ m Hm (or_introl I)) E).
Qed.

(** C31: a locked PMP entry stays as it is until reset.  Whatever code runs, in
    any mode, after any number of steps the entry covers the same addresses (its
    configuration, its address and the address a TOR entry starts from are kept)
    and grants the same accesses, to machine mode too. *)
Theorem locked_pmp_forever n m m' i :
  @machine_ok any_start m -> 0 <= i < 8 -> Z.testbit (at_ (pmpcfg (csr m)) i) 7 = true ->
  RunProofs.steps_to n m m' ->
  (forall addr, MmuSpecs.covers (csr m') i addr <-> MmuSpecs.covers (csr m) i addr)
  /\ forall p need, MmuSpecs.grants (csr m') i p need = MmuSpecs.grants (csr m) i p need.
Proof.
  intros Hm Hi Hl Hs. pose proof (steps_keep (locked_as (csr m) i) n m m' Hs (locked_as_ok m i Hm Hi Hl)) as (_&_&(_&_&_&Hk)&_).
  apply List.Forall_inv in Hk. destruct Hk as (_&_&Ec&Ea&Ef). cbn in Ec, Ea, Ef. split.
  - intros addr. unfold MmuSpecs.covers. rewrite Ec, Ea. cbv zeta.
    destruct (Z.eqb_spec ((at_ (pmpcfg (csr m)) i / 8) mod 4) 1) as [E|E].
    + rewrite E. destruct (Z.eqb_spec i 0) as [|Hne]; [done|]. rewrite Ef; [done|lia|].
      rewrite MmuSpecs.pmp_mode, E. done.
    + destruct ((at_ (pmpcfg (csr m)) i / 8) mod 4) as [|[]|]; done.
  - intros p need. unfold MmuSpecs.grants. by rewrite Ec.
Qed.
End Locks.

(** ** Traps and returns *)

(** The bits of a register are those of 32 positions. *)
Lemma bit32_cases (P : Z -> Prop) : Forall P (map Z.of_nat (seq 0 32)) -> forall b, 0 <= b < 32 -> P b.
Proof.
  intros H b Hb. apply (proj1 (List.Forall_forall _ _) H). apply in_map_iff. exists (Z.to_nat b).
  split; [lia|]. apply in_seq. lia.
Qed.

Lemma if_bit (c : bool) x n : Z.testbit (if c then x else 0) n = c && Z.testbit x n.
Proof. destruct c; [done|apply Z.bits_0]. Qed.

Lemma status_bit ms k mask : 0 <= k -> mask = 2 ^ k -> tst (ms .& mask) = Z.testbit ms k.
Proof. intros Hk ->. by apply tst_land_pow2. Qed.

(** Compute a claim about the bits of masks at each of the 32 positions. *)
Ltac bit_by_bit :=
  apply bit32_cases; repeat (apply List.Forall_cons; [|]); try apply List.Forall_nil;
  repeat match goal with |- context [Z.of_nat ?n] => let v := eval vm_compute in (Z.of_nat n) in change (Z.of_nat n) with v end;
  repeat (rewrite Z.lor_spec || rewrite Z.land_spec || rewrite if_bit);
  repeat match goal with |- context [Z.testbit ?c ?n] =>
    first [is_var c; fail 1|let v := eval vm_compute in (Z.testbit c n) in change (Z.testbit c n) with v] end;
  cbn; rewrite ?andb_false_r, ?andb_true_r, ?orb_false_r, ?orb_true_r; try done.

Definition m_trap_status (ms : Z) : Z :=
  (ms .& not32 (MSTATUS_MIE .| MSTATUS_MPIE)) .| (if tst (ms .& MSTATUS_MIE) then MSTATUS_MPIE else 0).
Definition m_return_status (ms p : Z) : Z :=
  let ms1 := (ms .& not32 MSTATUS_MIE) .| MSTATUS_MPIE .| (if tst (ms .& MSTATUS_MPIE) then MSTATUS_MIE else 0) in
  if p =? PRIV_M then ms1 else ms1 .& not32 MSTATUS_MPRV.
Definition s_trap_status (ms p : Z) : Z :=
  (ms .& not32 (MSTATUS_SIE .| MSTATUS_SPIE .| MSTATUS_SPP)) .| (if tst (ms .& MSTATUS_SIE) then MSTATUS_SPIE else 0)
  .| (if p =? PRIV_S then MSTATUS_SPP else 0).
Definition s_return_status (ms : Z) : Z :=
  (ms .& not32 (MSTATUS_SIE .| MSTATUS_SPP .| MSTATUS_MPRV)) .| MSTATUS_SPIE .| (if tst (ms .& MSTATUS_SPIE) then MSTATUS_SIE else 0).

(** Where the bits of the status go, and that they come back. *)
Lemma m_trap_bit ms : forall b, 0 <= b < 32 ->
  Z.testbit (m_trap_status ms) b = if b =? 3 then false else if b =? 7 then Z.testbit ms 3 else Z.testbit ms b.
Proof. unfold m_trap_status. rewrite (status_bit _ 3) by done. bit_by_bit. Qed.

Lemma m_return_bit ms p : forall b, 0 <= b < 32 ->
  Z.testbit (m_return_status ms p) b =
  if b =? 3 then Z.testbit ms 7 else if b =? 7 then true else Z.testbit ms b && negb ((b =? 17) && negb (p =? PRIV_M)).
Proof.
  unfold m_return_status. cbv zeta. rewrite (status_bit _ 7) by done. destruct (p =? PRIV_M); bit_by_bit.
Qed.

Lemma s_trap_bit ms p : forall b, 0 <= b < 32 ->
  Z.testbit (s_trap_status ms p) b =
  if b =? 1 then false else if b =? 5 then Z.testbit ms 1 else if b =? 8 then p =? PRIV_S else Z.testbit ms b.
Proof. unfold s_trap_status. rewrite (status_bit _ 1) by done. bit_by_bit. Qed.

Lemma s_return_bit ms : forall b, 0 <= b < 32 ->
  Z.testbit (s_return_status ms) b =
  if b =? 1 then Z.testbit ms 5 else if b =? 5 then true else Z.testbit ms b && negb (b =? 8) && negb (b =? 17).
Proof. unfold s_return_status. rewrite (status_bit _ 5) by done. bit_by_bit. Qed.

(** Trap entry, on each side of the delegation. *)
Lemma enter_machine m cause tval : delegated (csr m) (priv (hart m)) cause = false ->
  enter_handler m cause tval =
  {| m with resv := {| (resv m) with reserved := false |};
     hart := {| (hart m) with priv := PRIV_M; pc := mtvec (csr m) |};
     csr := {| (csr m) with mepc := pc (hart m); mcause := cause; mtval := tval;
       mstatus := m_trap_status (mstatus (csr m)); mpp := priv (hart m) |} |}.
Proof.
  intros Hd. unfold enter_handler. cbv zeta. change (csr (upd_resv _ m)) with (csr m).
  change (hart (upd_resv _ m)) with (hart m). by rewrite Hd.
Qed.

Lemma enter_supervisor m cause tval : delegated (csr m) (priv (hart m)) cause = true ->
  enter_handler m cause tval =
  {| m with resv := {| (resv m) with reserved := false |};
     hart := {| (hart m) with priv := PRIV_S; pc := stvec (csr m) |};
     csr := {| (csr m) with sepc := pc (hart m); scause := cause; stval := tval;
       mstatus := s_trap_status (mstatus (csr m)) (priv (hart m)) |} |}.
Proof.
  intros Hd. unfold enter_handler. cbv zeta. change (csr (upd_resv _ m)) with (csr m).
  change (hart (upd_resv _ m)) with (hart m). by rewrite Hd.
Qed.

Section Returns.
Context `{SVF : ServeFuel} `{SF : SoftFloat}.

Lemma execute_mret pc0 h : priv (hart h) = PRIV_M ->
  execute 0x30200073 pc0 h = Ok (Retire (mepc (csr h)) 0 false false, mret_state h).
Proof.
  intros Hp. unfold execute, mbind, st_bind, gets, id. cbv beta iota.
  change (floating_instruction 0x30200073) with false. rewrite andb_false_r.
  change (op_of 0x30200073) with 0x73. cbn -[exec_system mret_state]. unfold exec_system.
  change (funct3_of 0x30200073 =? 0) with true. cbv iota. unfold exec_priv, mbind, st_bind, gets, id. cbv beta zeta iota.
  by rewrite Hp.
Qed.

Lemma execute_sret pc0 h : supervisor_allows h MSTATUS_TSR = true ->
  execute 0x10200073 pc0 h = Ok (Retire (sepc (csr h)) 0 false false, sret_state h).
Proof.
  intros Hp. unfold execute, mbind, st_bind, gets, id. cbv beta iota.
  change (floating_instruction 0x10200073) with false. rewrite andb_false_r.
  change (op_of 0x10200073) with 0x73. cbn -[exec_system sret_state]. unfold exec_system.
  change (funct3_of 0x10200073 =? 0) with true. cbv iota. unfold exec_priv, mbind, st_bind, gets, id. cbv beta zeta iota.
  by rewrite Hp.
Qed.

(** What a trap saves, a handler keeps: the return address, the previous mode
    and the interrupt-enable stack; and it returns from the mode it was entered in. *)
Definition m_frame_kept (m1 h : machine) : Prop :=
  priv (hart h) = PRIV_M /\ mepc (csr h) = mepc (csr m1) /\ mpp (csr h) = mpp (csr m1) /\ mstatus (csr h) = mstatus (csr m1).
Definition s_frame_kept (m1 h : machine) : Prop :=
  priv (hart h) = PRIV_S /\ sepc (csr h) = sepc (csr m1) /\ mstatus (csr h) = mstatus (csr m1).

(** [h'] goes on where [m] was: its mode, and its status but for the bits in [lost]. *)
Definition resumed (lost : Z -> bool) (m h h' : machine) : Prop :=
  priv (hart h') = priv (hart m) /\ reserved (resv h') = false /\ x_ (hart h') = x_ (hart h) /\ f_ (hart h') = f_ (hart h)
  /\ forall b, 0 <= b < 32 -> lost b = false -> Z.testbit (mstatus (csr h')) b = Z.testbit (mstatus (csr m)) b.

(** C33: MRET undoes a trap to machine mode.  Where a trap or an interrupt that is
    not delegated has been taken, the handler starts at mtvec in machine mode with
    machine interrupts off; whatever it does, if it leaves the frame as it was, its
    MRET goes on at the interrupted instruction, in the interrupted mode, with every
    bit of mstatus restored but MPIE, and but MPRV when the mode is not machine mode;
    the registers are as the handler left them and the reservation is gone. *)
Theorem mret_undoes_trap m h cause tval pc0 :
  delegated (csr m) (priv (hart m)) cause = false -> m_frame_kept (enter_handler m cause tval) h ->
  pc (hart (enter_handler m cause tval)) = mtvec (csr m) /\ priv (hart (enter_handler m cause tval)) = PRIV_M
  /\ Z.testbit (mstatus (csr (enter_handler m cause tval))) 3 = false
  /\ exists h', execute 0x30200073 pc0 h = Ok (Retire (pc (hart m)) 0 false false, h')
     /\ resumed (fun b => (b =? 7) || ((b =? 17) && negb (priv (hart m) =? PRIV_M))) m h h'.
Proof.
  intros Hd (Hp&He&Hpp&Hs). rewrite (enter_machine _ _ _ Hd) in *. cbn [csr hart mepc mpp mstatus pc priv] in *.
  split; [done|]. split; [done|]. split; [by rewrite m_trap_bit|]. exists (mret_state h).
  rewrite execute_mret, He by done. split; [done|]. unfold mret_state. cbv zeta. rewrite Hpp, Hs.
  split; [done|]. split; [done|]. split; [done|]. split; [done|]. intros b Hb Hl. cbn [csr mstatus].
  fold (m_return_status (m_trap_status (mstatus (csr m))) (priv (hart m))). rewrite m_return_bit by done.
  apply orb_false_iff in Hl as [H7 H17]. rewrite H7, H17, andb_true_r. rewrite !m_trap_bit, H7 by lia.
  by destruct (Z.eqb_spec b 3) as [->|].
Qed.

(** SRET undoes a delegated trap.  Where the trap is delegated, the handler
    starts at stvec in supervisor mode with supervisor interrupts off, and its SRET,
    if it leaves the frame as it was and TSR does not forbid it, goes on at the
    interrupted instruction, in the interrupted mode, with every bit of mstatus
    restored but SPIE, SPP and MPRV. *)
Theorem sret_undoes_trap m h cause tval pc0 :
  hart_ok (AL := any_start) (hart m) -> delegated (csr m) (priv (hart m)) cause = true ->
  Z.testbit (mstatus (csr m)) 22 = false -> s_frame_kept (enter_handler m cause tval) h ->
  pc (hart (enter_handler m cause tval)) = stvec (csr m) /\ priv (hart (enter_handler m cause tval)) = PRIV_S
  /\ Z.testbit (mstatus (csr (enter_handler m cause tval))) 1 = false
  /\ exists h', execute 0x10200073 pc0 h = Ok (Retire (pc (hart m)) 0 false false, h')
     /\ resumed (fun b => (b =? 5) || (b =? 8) || (b =? 17)) m h h'.
Proof.
  intros (_&_&_&_&_&Hm) Hd Ht (Hp&He&Hs). rewrite (enter_supervisor _ _ _ Hd) in *. cbn [csr hart sepc mstatus pc priv] in *.
  split; [done|]. split; [done|]. split; [by rewrite s_trap_bit|]. exists (sret_state h).
  rewrite execute_sret, He.
  2: { unfold supervisor_allows. rewrite Hp, Hs, (status_bit _ 22), s_trap_bit by done. by rewrite Ht. }
  split; [done|]. unfold sret_state. cbv zeta. rewrite Hs, (status_bit _ 8), s_trap_bit by done.
  split. { cbn [hart priv]. unfold delegated in Hd. cbv zeta in Hd. destruct Hm as [E|[E|E]]; rewrite E in *; [done|done|discriminate Hd]. }
  split; [done|]. split; [done|]. split; [done|]. intros b Hb Hl. cbn [csr mstatus].
  fold (s_return_status (s_trap_status (mstatus (csr m)) (priv (hart m)))). rewrite s_return_bit by done.
  apply orb_false_iff in Hl as [Hl H17]. apply orb_false_iff in Hl as [H5 H8]. rewrite H5, H8, H17, !andb_true_r.
  rewrite !s_trap_bit, H5, H8 by lia. by destruct (Z.eqb_spec b 1) as [->|].
Qed.
End Returns.

(** ** Interrupts *)

(** The interrupt is pending and enabled, no handler has just been entered, and
    the mode lets it in: one delegated to supervisor mode interrupts user mode,
    and supervisor mode when SIE is set; another interrupts the lower modes, and
    machine mode when MIE is set. *)
Definition takeable (m : machine) (code : Z) : Prop :=
  in_trap (counters m) = false /\ Z.testbit (mip_now m) code = true /\ Z.testbit (mie (csr m)) code = true
  /\ if Z.testbit (mideleg (csr m)) code
     then priv (hart m) = PRIV_U \/ (priv (hart m) = PRIV_S /\ Z.testbit (mstatus (csr m)) 1 = true)
     else priv (hart m) < PRIV_M \/ Z.testbit (mstatus (csr m)) 3 = true.

(** The architecture's order: external, software, timer, machine level first. *)
Definition rank (code : Z) : Z :=
  if code =? 11 then 0 else if code =? 3 then 1 else if code =? 7 then 2 else if code =? 9 then 3
  else if code =? 1 then 4 else 5.

(** What goes to machine mode comes first, and the order decides between equals. *)
Definition outranks (m : machine) (code code' : Z) : Prop :=
  match Z.testbit (mideleg (csr m)) code, Z.testbit (mideleg (csr m)) code' with
  | false, true => True
  | true, false => False
  | _, _ => rank code < rank code'
  end.

Lemma first_interrupt_first e code code' :
  first_interrupt e = Some code -> In code' irq_order -> Z.testbit e code' = true ->
  Z.testbit e code = true /\ (code' = code \/ rank code < rank code').
Proof.
  unfold first_interrupt, irq_order, IRQ_MEI, IRQ_MSI, IRQ_MTI, IRQ_SEI, IRQ_SSI, IRQ_STI. cbn [List.find].
  rewrite !tst_shiftr_1 by lia. intros E Hin Hb. cbn [In] in Hin.
  repeat match type of E with context [Z.testbit e ?k] => destruct (Z.testbit e k) eqn:?; [injection E as <-|] end; try done;
    (split; [done|]); repeat destruct Hin as [<-|Hin]; try done; try congruence; (by left) || (right; done).
Qed.

Lemma takeable_order m code : machine_ok (AL := any_start) m -> takeable m code -> In code irq_order.
Proof.
  intros (_&_&Hc&_) (_&Hp&_). apply CpuProofs.mie_bits. by apply (within_bit _ _ _ (CsrProofs.mip_now_within m Hc)).
Qed.

(** The interrupts of each level, bit by bit. *)
Definition pending_interrupts (m : machine) : Z := if in_trap (counters m) then 0 else mip_now m .& mie (csr m).
Definition machine_level (m : machine) : Z :=
  if (priv (hart m) <? PRIV_M) || tst (mstatus (csr m) .& MSTATUS_MIE) then pending_interrupts m .& not32 (mideleg (csr m)) else 0.
Definition supervisor_level (m : machine) : Z :=
  if (priv (hart m) =? PRIV_U) || ((priv (hart m) =? PRIV_S) && tst (mstatus (csr m) .& MSTATUS_SIE))
  then pending_interrupts m .& mideleg (csr m) else 0.

Lemma pending_bit m code : Z.testbit (pending_interrupts m) code =
  negb (in_trap (counters m)) && Z.testbit (mip_now m) code && Z.testbit (mie (csr m)) code.
Proof. unfold pending_interrupts. destruct (in_trap _); [apply Z.bits_0|apply Z.land_spec]. Qed.

Lemma machine_level_bit m code : machine_ok (AL := any_start) m -> In code irq_order ->
  Z.testbit (machine_level m) code = true <-> takeable m code /\ Z.testbit (mideleg (csr m)) code = false.
Proof.
  intros (_&_&(_&(_&_&_&_&Hd&_)&_)&_) Hin%CpuProofs.irq_order_range. unfold machine_level, takeable.
  rewrite if_bit, Z.land_spec, pending_bit, not32_bit, (status_bit _ 3), !andb_true_iff, orb_true_iff, !negb_true_iff, Z.ltb_lt;
    [|done|done|eapply within_u32; [|exact Hd]; done|done].
  destruct (Z.testbit (mideleg _) code); [|tauto]. split; intros H; exfalso; intuition discriminate.
Qed.

Lemma supervisor_level_bit m code : machine_ok (AL := any_start) m -> In code irq_order ->
  Z.testbit (supervisor_level m) code = true <-> takeable m code /\ Z.testbit (mideleg (csr m)) code = true.
Proof.
  intros _ Hin%CpuProofs.irq_order_range. unfold supervisor_level, takeable.
  rewrite if_bit, Z.land_spec, pending_bit, (status_bit _ 1), !andb_true_iff, orb_true_iff, andb_true_iff, !negb_true_iff, !Z.eqb_eq by done.
  destruct (Z.testbit (mideleg _) code); [tauto|]. split; intros H; exfalso; intuition discriminate.
Qed.

Lemma level_within m : machine_ok (AL := any_start) m ->
  within (machine_level m) MIE_MASK /\ within (supervisor_level m) MIE_MASK.
Proof.
  intros (_&_&Hc&_). pose proof (CsrProofs.mip_now_within m Hc) as Hmip.
  assert (Hp : within (pending_interrupts m) MIE_MASK)
    by (apply within_if; [done|by apply within_land_l]).
  split; apply within_if; try done; by apply within_land_l.
Qed.

(** The choice [step] makes: among the machine-level interrupts if there is one,
    and else among the supervisor-level ones. *)
Lemma chosen_interrupt m :
  machine_ok (AL := any_start) m ->
  match (if tst (enabled_interrupts m) then first_interrupt (enabled_interrupts m) else None) with
  | Some code => takeable m code /\ forall code', takeable m code' -> code' = code \/ outranks m code code'
  | None => forall code, ~ takeable m code
  end.
Proof.
  intros Hm. destruct (level_within m Hm) as [WM WS].
  change (enabled_interrupts m) with (if tst (machine_level m) then machine_level m else supervisor_level m).
  destruct (tst (machine_level m)) eqn:EM.
  - rewrite EM. destruct (CpuProofs.first_interrupt_some _ WM EM) as (code & E & Hin & Hb). rewrite E.
    apply machine_level_bit in Hb as [Ht Hd]; [|done|done]. split; [done|]. intros code' Ht'.
    pose proof (takeable_order _ _ Hm Ht') as Hin'. unfold outranks. rewrite Hd.
    destruct (Z.testbit (mideleg (csr m)) code') eqn:Ed; [by right|].
    destruct (first_interrupt_first _ _ code' E Hin') as [_ Hr]; [by apply machine_level_bit|]. done.
  - assert (HM : forall code, takeable m code -> Z.testbit (mideleg (csr m)) code = true).
    { intros code Ht. destruct (Z.testbit (mideleg (csr m)) code) eqn:Ed; [done|].
      assert (Hb : Z.testbit (machine_level m) code = true) by (apply machine_level_bit; [done|by eapply takeable_order|done]).
      apply tst_false in EM. by rewrite EM, Z.bits_0 in Hb. }
    destruct (tst (supervisor_level m)) eqn:ES.
    + destruct (CpuProofs.first_interrupt_some _ WS ES) as (code & E & Hin & Hb). rewrite E.
      apply supervisor_level_bit in Hb as [Ht Hd]; [|done|done]. split; [done|]. intros code' Ht'.
      pose proof (takeable_order _ _ Hm Ht') as Hin'. unfold outranks. rewrite Hd, (HM code' Ht').
      destruct (first_interrupt_first _ _ code' E Hin') as [_ Hr]; [apply supervisor_level_bit; auto|]. done.
    + intros code Ht. pose proof (takeable_order _ _ Hm Ht) as Hin.
      assert (Hb : Z.testbit (supervisor_level m) code = true) by (apply supervisor_level_bit; auto).
      apply tst_false in ES. by rewrite ES, Z.bits_0 in Hb.
Qed.

Section Step.
Context `{SVF : ServeFuel} `{SF : SoftFloat}.

(** A step that takes no interrupt. *)
Definition fetch_and_execute : M () :=
  m ← gets id;
  fetched ← lift (fetch m (pc (hart m)));
  match fetched with
  | inr cause => trap 0 cause (pc (hart m))
  | inl word => execute_and_retire word (pc (hart m))
  end.

(** C32: a step takes the right interrupt.  Once the PLIC has sampled its sources,
    the step takes an interrupt exactly when one is pending, enabled and let in by
    the mode and the delegation; of several it takes one that goes to machine mode
    before one that goes to supervisor mode, and then the first of external,
    software and timer, machine level before supervisor level; otherwise it fetches
    and executes. *)
Theorem step_takes_the_right_interrupt m m1 :
  @machine_ok any_start m -> Plic.plic_sample (upd_effects clear_effects m) = Ok ((), m1) ->
  (exists code, takeable m1 code /\ (forall code', takeable m1 code' -> code' = code \/ outranks m1 code code')
     /\ step m = take_interrupt code m1)
  \/ ((forall code, ~ takeable m1 code) /\ step m = fetch_and_execute m1).
Proof.
  intros Hm Es.
  assert (H1 : @machine_ok any_start m1).
  { refine (wp_ok (F := total) Plic.plic_sample (fun _ m' => @machine_ok any_start m') _ _ _ _ Es).
    assert (H0 : @machine_ok any_start (upd_effects clear_effects m)) by exact Hm.
    apply DevicesProofs.plic_sample_wp; [apply H0|]. intros m' B U _. by eapply machine_ok_untouched. }
  pose proof (chosen_interrupt m1 H1) as Hc.
  assert (E : step m = (if tst (enabled_interrupts m1) then
    match first_interrupt (enabled_interrupts m1) with Some code => take_interrupt code | None => stuck end else fetch_and_execute) m1).
  { unfold step. unfold mbind at 1, st_bind at 1. unfold modify at 1. unfold mbind at 1, st_bind at 1. rewrite Es.
    unfold mbind at 1, st_bind at 1. unfold gets at 1, id at 1. cbv zeta. by destruct (tst _). }
  rewrite E. destruct (tst (enabled_interrupts m1)) eqn:Et; [|right; by split].
  left. destruct (CpuProofs.first_interrupt_some (enabled_interrupts m1)) as (code & Ef & _); [by apply (CpuProofs.enabled_within (AL := any_start))|done|].
  rewrite Ef in *. exists code. split; [apply Hc|]. split; [apply Hc|]. done.
Qed.
End Step.

(** ** Examples *)

(** The machine with entry 0 locked: the first megabyte of RAM, no access. *)
Definition fenced : machine :=
  upd_csr (fun c => {| c with pmpcfg := <[0%nat := 0x98]> (pmpcfg c); pmpaddr := <[0%nat := 0x2001ffff]> (pmpaddr c) |}) RunProofs.booted.

Lemma fenced_ok : @machine_ok any_start fenced.
Proof.
  destruct (@RunProofs.set_up_ok any_start _ _ (@RunProofs.booted_set_up any_start)) as (Hb&Hh&(Ht&Hc&((L1&F1)&(L2&F2))&Hk)&Hn).
  refine (conj Hb (conj Hh (conj (conj Ht (conj Hc (conj (conj (conj _ _) (conj _ _)) _))) Hn))).
  - cbn. by rewrite length_insert.
  - cbn. apply Forall_insert; [exact F1|]. by split.
  - cbn. by rewrite length_insert.
  - cbn. apply Forall_insert; [exact F2|]. done.
  - constructor.
Qed.

Definition fenced_next : machine :=
  match @step RunProofs.ten RunProofs.zero_float fenced with Ok (_, m) => m | _ => fenced end.

Lemma fenced_steps : @step RunProofs.ten RunProofs.zero_float fenced = Ok ((), fenced_next).
Proof. vm_compute. reflexivity. Qed.

Lemma locked_pmp_forever_witness : MmuSpecs.grants (csr fenced_next) 0 PRIV_M PMP_R = false.
Proof.
  rewrite (proj2 (@locked_pmp_forever RunProofs.ten RunProofs.zero_float RunProofs.zero_float_ok 1 fenced fenced_next 0
    fenced_ok (conj (Z.le_refl 0) eq_refl) eq_refl
    (RunProofs.steps_more _ _ _ _ fenced_steps (RunProofs.steps_refl _)))). by vm_compute.
Defined.

(** An environment call from user mode. *)
Definition in_user (deleg : Z) : machine :=
  upd_csr (fun c => {| c with medeleg := deleg; mtvec := 0x80000100; stvec := 0x80000200 |})
    (upd_hart (fun h => {| h with priv := PRIV_U |}) RunProofs.booted).

Lemma mret_undoes_trap_witness :
  exists h', @execute RunProofs.ten RunProofs.zero_float 0x30200073 0x80000100 (enter_handler (in_user 0) CAUSE_ECALL_U 0)
    = Ok (Retire RAM_BASE 0 false false, h') /\ priv (hart h') = PRIV_U.
Proof.
  destruct (@mret_undoes_trap RunProofs.ten RunProofs.zero_float (in_user 0) (enter_handler (in_user 0) CAUSE_ECALL_U 0)
    CAUSE_ECALL_U 0 0x80000100 eq_refl) as (_&_&_&h'&E&P&_); [done|]. exists h'. split; [exact E|exact P].
Defined.

Lemma sret_undoes_trap_witness :
  exists h', @execute RunProofs.ten RunProofs.zero_float 0x10200073 0x80000200 (enter_handler (in_user 0x100) CAUSE_ECALL_U 0)
    = Ok (Retire RAM_BASE 0 false false, h') /\ priv (hart h') = PRIV_U.
Proof.
  destruct (@sret_undoes_trap RunProofs.ten RunProofs.zero_float (in_user 0x100) (enter_handler (in_user 0x100) CAUSE_ECALL_U 0)
    CAUSE_ECALL_U 0 0x80000200) as (_&_&_&h'&E&P&_); [|done|done|done|exists h'; split; [exact E|exact P]].
  destruct (@RunProofs.set_up_ok any_start _ _ (@RunProofs.booted_set_up any_start)) as (_&(Hx&H0&Hf&Hc&Ha&_)&_).
  refine (conj Hx (conj H0 (conj Hf (conj Hc (conj Ha _))))). by left.
Defined.

Lemma booted_samples : Plic.plic_sample (upd_effects clear_effects RunProofs.booted) = Ok ((), upd_effects clear_effects RunProofs.booted).
Proof. vm_compute. reflexivity. Qed.

Lemma step_takes_the_right_interrupt_witness :
  @step RunProofs.ten RunProofs.zero_float RunProofs.booted
  = @fetch_and_execute RunProofs.ten RunProofs.zero_float (upd_effects clear_effects RunProofs.booted).
Proof.
  destruct (@step_takes_the_right_interrupt RunProofs.ten RunProofs.zero_float RunProofs.booted _
    (@RunProofs.set_up_ok any_start _ _ (@RunProofs.booted_set_up any_start)) booted_samples) as [(c&(_&_&He&_)&_)|[_ E]]; [|exact E].
  exfalso. change (Z.testbit 0 c = true) in He. by rewrite Z.bits_0 in He.
Defined.

End CpuSpecs.
