(* ===== verification/CsrSpecs.v ===== *)
(** * CSR writes that store what a read answered

    Every CSR is WARL or plain: what a read answers is a value the register can
    hold, and writing it back changes nothing. *)

From S2P Require Import Prelude Effects Buffer Simd4 SimdProofs Gpu GpuProofs G3d G3dProofs Dtb Machine Devices.
From S2P Require Import Virtio Bus Mmu Csr Fp Cpu Run MachineOk DevicesProofs VirtioProofs BusProofs CsrProofs CpuProofs RunProofs MmuSpecs.

Module CsrSpecs.
Import Mmu Csr.
#[local] Existing Instance aligned_start.

(** ** Masks *)

(** Two words of 32 bits with the same bits are the same. *)
Lemma eq_bits32 x y : is_u32 x -> is_u32 y -> (forall b, 0 <= b < 32 -> Z.testbit x b = Z.testbit y b) -> x = y.
Proof.
  intros Hx Hy H. apply Z.bits_inj'. intros n Hn. destruct (Z.lt_ge_cases n 32); [by apply H|].
  assert (Hh : forall z, is_u32 z -> Z.testbit z n = false).
  { intros z Hz. apply (MmuSpecs.high_bits_zero z 32); [exact Hz|lia]. }
  by rewrite !Hh.
Qed.

(** The bits inside a mask and the bits outside it make the word. *)
Lemma split_mask x k : is_u32 x -> is_u32 k -> (x .& not32 k) .| (x .& k) = x.
Proof.
  intros Hx Hk. apply eq_bits32; [apply lor_u32; by apply land_u32|done|]. intros b Hb.
  rewrite Z.lor_spec, !Z.land_spec, not32_bit by done. by destruct (Z.testbit x b), (Z.testbit k b).
Qed.

Lemma land_lor x y k : (x .| y) .& k = (x .& k) .| (y .& k).
Proof. apply Z.land_lor_distr_l. Qed.

Lemma if_land (c : bool) x k : x .& k = 0 -> (if c then x else 0) .& k = 0.
Proof. by destruct c. Qed.

(** ** The status registers *)

Lemma mstatus_writable c : csr_ok c -> mstatus_value c .& MSTATUS_WRITABLE = mstatus c.
Proof.
  intros (_&(H1&H2&_)&_).
  assert (Hp : (mpp c .<< 11) .& MSTATUS_WRITABLE = 0) by (destruct H2 as [->|[->| ->]]; done).
  unfold mstatus_value. cbv zeta. destruct (_ =? _); rewrite !land_lor, Hp, ?Z.lor_0_r; exact H1.
Qed.

Lemma mstatus_mpp c : csr_ok c -> (mstatus_value c .& MSTATUS_MPP) .>> 11 = mpp c.
Proof.
  intros (_&(H1&H2&_)&_).
  assert (Hm : mstatus c .& MSTATUS_MPP = 0).
  { rewrite <- H1, <- Z.land_assoc. change (MSTATUS_WRITABLE .& MSTATUS_MPP) with 0. apply Z.land_0_r. }
  assert (Hp : ((mpp c .<< 11) .& MSTATUS_MPP) .>> 11 = mpp c) by (destruct H2 as [->|[->| ->]]; done).
  unfold mstatus_value. cbv zeta. destruct (_ =? _); rewrite !land_lor, Hm, Z.lor_0_l; [|done].
  change (MSTATUS_SD .& MSTATUS_MPP) with 0. by rewrite Z.lor_0_r.
Qed.

Lemma sstatus_kept c : csr_ok c ->
  (mstatus c .& not32 SSTATUS_MASK) .| (mstatus_value c .& SSTATUS_MASK .& SSTATUS_MASK .& MSTATUS_WRITABLE) = mstatus c.
Proof.
  intros Hc. rewrite <- !Z.land_assoc, (Z.land_comm SSTATUS_MASK (SSTATUS_MASK .& _)), (Z.land_comm SSTATUS_MASK MSTATUS_WRITABLE).
  rewrite <- (Z.land_assoc MSTATUS_WRITABLE), Z.land_diag, Z.land_assoc, mstatus_writable by done.
  apply split_mask; [|done]. destruct Hc as (_&(H1&_)&_). by eapply within_u32; [|exact H1].
Qed.

(** ** The interrupt registers *)

(** The bits of [mip] software owns are the ones it stored. *)
Lemma mip_soft_bits m : csr_ok (csr m) -> mip_now m .& S_INTERRUPTS = mip_soft (csr m).
Proof.
  intros (_&(_&_&_&_&_&H6&_)&_). unfold mip_now. rewrite !land_lor, !if_land by done. rewrite !Z.lor_0_l. exact H6.
Qed.

Lemma sip_kept m : csr_ok (csr m) ->
  let ssip := mideleg (csr m) .& (1 .<< IRQ_SSI) in
  (mip_soft (csr m) .& not32 ssip) .| (mip_now m .& mideleg (csr m) .& ssip) = mip_soft (csr m).
Proof.
  intros Hc ssip. pose proof Hc as (_&(_&_&_&_&H5&H6&_)&_).
  assert (Hd : is_u32 (mideleg (csr m))) by (by eapply within_u32; [|exact H5]).
  assert (E1 : mideleg (csr m) .& ssip = ssip) by (unfold ssip; by rewrite Z.land_assoc, Z.land_diag).
  assert (E2 : S_INTERRUPTS .& ssip = ssip).
  { unfold ssip. rewrite Z.land_assoc, (Z.land_comm S_INTERRUPTS). by rewrite H5. }
  rewrite <- Z.land_assoc, E1, <- E2, Z.land_assoc, mip_soft_bits, E2 by done.
  apply split_mask; [by eapply within_u32; [|exact H6]|by apply land_u32].
Qed.

(** ** The PMP registers *)

Lemma insert_at (l : list Z) i : 0 <= i < Z.of_nat (length l) -> <[Z.to_nat i := at_ l i]> l = l.
Proof. intros Hi. apply list_insert_id. apply list_lookup_lookup_total_lt. lia. Qed.

(** Four bytes joined into a word, and taken out of it again. *)
Lemma word_of_bytes b0 b1 b2 b3 : is_u8 b0 -> is_u8 b1 -> is_u8 b2 -> is_u8 b3 ->
  b0 .| (b1 .<< 8) .| (b2 .<< 16) .| (b3 .<< 24) = b0 + 2 ^ 8 * b1 + 2 ^ 16 * b2 + 2 ^ 24 * b3.
Proof.
  unfold is_u8. intros H0 H1 H2 H3. rewrite (Z.lor_comm b0), lor_add by lia.
  rewrite (Z.lor_comm _ (b2 .<< 16)), lor_add by lia. rewrite (Z.lor_comm _ (b3 .<< 24)), lor_add by lia. lia.
Qed.

Lemma byte_of_word b0 b1 b2 b3 k : is_u8 b0 -> is_u8 b1 -> is_u8 b2 -> is_u8 b3 -> In k [0; 1; 2; 3] ->
  ((b0 .| (b1 .<< 8) .| (b2 .<< 16) .| (b3 .<< 24)) .>> (8 * k)) .& 0x9f
  = (if k =? 0 then b0 else if k =? 1 then b1 else if k =? 2 then b2 else b3) .& 0x9f.
Proof.
  intros H0 H1 H2 H3 Hk. rewrite word_of_bytes by done. unfold is_u8 in *.
  assert (Hm : forall x, x .& 0x9f = (x mod 256) .& 0x9f).
  { intros x. change 256 with (2 ^ 8). rewrite <- Z.land_ones, <- Z.land_assoc by lia. done. }
  rewrite Hm. f_equal. cbn [In] in Hk. repeat destruct Hk as [<-|Hk]; try done; cbn [Z.mul Z.eqb Pos.mul Pos.add Pos.eqb];
    rewrite ?Z.shiftr_0_r, ?Z.shiftr_div_pow2 by done; change (2 ^ 8) with 256; change (2 ^ 16) with 65536;
    change (2 ^ 24) with 16777216; change (2 ^ (8 * 1)) with 256; change (2 ^ (8 * 2)) with 65536;
    change (2 ^ (8 * 3)) with 16777216; clear Hm; zlia.
Qed.

Lemma pmpcfg_value_kept c base k :
  pmp_ok c -> base = 0 \/ base = 4 -> In k [0; 1; 2; 3] ->
  u8 (pmpcfg_value (CsrProofs.pmpcfg_packed c base) k) = at_ (pmpcfg c) (base + k).
Proof.
  intros Hp Hb Hk. assert (Hi : forall j, 0 <= j <= 3 -> is_u8 (at_ (pmpcfg c) (base + j))).
  { intros j Hj. apply CsrProofs.pmpcfg_u8; [done|lia]. }
  assert (Hok : pmpcfg_ok (at_ (pmpcfg c) (base + k))).
  { destruct Hp as ((Hl&Hf)&_). apply (at_Forall pmpcfg_ok); [done|]. cbn in Hk. lia. }
  assert (E : (CsrProofs.pmpcfg_packed c base .>> (8 * k)) .& 0x9f = at_ (pmpcfg c) (base + k)).
  { destruct Hok as [<- _]. unfold CsrProofs.pmpcfg_packed. rewrite byte_of_word; [|rewrite <- (Z.add_0_r base); apply Hi; lia|apply Hi; lia..|done].
    cbn in Hk. repeat destruct Hk as [<-|Hk]; try done. by rewrite Z.add_0_r. }
  unfold pmpcfg_value. cbv zeta. rewrite E. destruct Hok as [_ Hr]. change PMP_W with (2 ^ 1). change PMP_R with (2 ^ 0).
  rewrite !tst_land_pow2 by lia. destruct (Z.testbit _ 1); [rewrite (Hr eq_refl)|]; apply u8_id, Hi; cbn in Hk; lia.
Qed.

Lemma pmpcfg_kept c base : pmp_ok c -> base = 0 \/ base = 4 -> CsrProofs.pmpcfg_written (pmpcfg c) base (CsrProofs.pmpcfg_packed c base) = pmpcfg c.
Proof.
  intros Hp Hb. unfold CsrProofs.pmpcfg_written. assert (Hk : Forall (fun k => In k [0; 1; 2; 3]) [0; 1; 2; 3]).
  { apply List.Forall_forall. done. }
  remember [0; 1; 2; 3] as ks eqn:E in Hk at 2 |- *. clear E. induction ks as [|k ks IH]; [done|].
  apply Forall_cons_iff in Hk as [Hk Hks]. cbn [foldl]. rewrite pmpcfg_value_kept by done.
  destruct Hp as ((Hl&Hf)&Ha). rewrite insert_at by (rewrite Hl; cbn in Hk; lia). by destruct (tst _); apply IH.
Qed.

(** ** The floating-point registers *)

Lemma fflags_kept f : is_u8 f -> (f .& 0xe0) .| (f .& 31 .& 31) = f.
Proof.
  intros Hf. rewrite <- Z.land_assoc. change (31 .& 31) with 31. rewrite <- Z.land_lor_distr_r.
  change (0xe0 .| 31) with (Z.ones 8). rewrite Z.land_ones by lia. apply Z.mod_small. exact Hf.
Qed.

Lemma frm_kept f : is_u8 f -> (f .& 31) .| ((f .>> 5 .& 7) .<< 5) = f.
Proof.
  unfold is_u8. intros Hf. change 31 with (Z.ones 5). change 7 with (Z.ones 3). rewrite !Z.land_ones, Z.shiftr_div_pow2 by lia.
  rewrite Z.lor_comm, lor_add by (try apply Z.mod_pos_bound; lia). change (2 ^ 5) with 32. change (2 ^ 3) with 8. zlia.
Qed.

(** ** Every register *)

(** Resolve the comparisons of a numbered register. *)
Ltac pick_register :=
  repeat match goal with |- context [if ?b then _ else _] =>
    let r := eval vm_compute in b in first [constr_eq r true|constr_eq r false]; change b with r; cbv iota end.

Lemma file_kept m number v :
  machine_ok m -> CsrProofs.csr_value m number = Some v -> csr_read_only number = false ->
  fcsr_value (fcsr (hart m)) number v = None -> CsrProofs.csr_filed (csr m) number v = csr m.
Proof.
  intros (_&(_&_&_&Hf&_)&Hc&_) E Hro Hnf. pose proof Hc as ((T1&T2&T3&T4&T5&T6&T7&T8&T9&T10)&(C1&C2&C3&C4&C5&C6&C7&C8&C9)&Hp&_).
  assert (Hal : forall a, aligned4 a -> a .& not32 3 = a).
  { intros a [Ha Hm]. rewrite land_not3, Hm by done. lia. }
  assert (Hd : is_u32 (mideleg (csr m))) by (by eapply within_u32; [|exact C5]).
  assert (He : is_u32 (mie (csr m))) by (by eapply within_u32; [|exact C3]).
  unfold CsrProofs.csr_value in E. cbv zeta in E. unfold CsrProofs.csr_filed.
  repeat match type of E with (if ?b then _ else _) = _ => destruct b eqn:? end; try discriminate; injection E as <-.
  all: repeat match goal with H : (_ =? _) = false |- _ => clear H end.
  all: try (match goal with H : (?n =? _) = true |- _ => is_var n; apply Z.eqb_eq in H; subst n end).
  all: try (exfalso; clear -Hro; by vm_compute in Hro). all: try (exfalso; clear -Hnf; discriminate Hnf). 
  all: try pick_register.
  all: rewrite ?mstatus_writable, ?mstatus_mpp, ?sstatus_kept, ?mip_soft_bits, ?Hal by done.
  all: try rewrite sip_kept by done.
  all: try (rewrite <- Z.land_assoc, Z.land_diag, split_mask by done).
  all: try (match goal with H : within ?x _ |- context [?x .& _] => rewrite H end).
  all: try (by destruct (csr m)).
  - assert (Em : (if mpp (csr m) =? 2 then PRIV_U else mpp (csr m)) = mpp (csr m)) by (destruct C2 as [->|[->| ->]]; done).
    rewrite Em. by destruct (csr m).
  - exfalso. match goal with H : _ || _ = true |- _ => rewrite !orb_true_iff, !Z.eqb_eq in H; destruct H as [[[H|H]|H]|H] end;
      subst number; by vm_compute in Hro.
  - match goal with H : _ || _ = true |- _ => rewrite orb_true_iff, !Z.eqb_eq in H end.
    rewrite pmpcfg_kept; [by destruct (csr m)|done|]. unfold CSR_PMPCFG0, CSR_PMPCFG1 in *. lia.
  - match goal with H : _ && _ = true |- _ => apply andb_true_iff in H as [H1 H2] end.
    apply Z.leb_le in H1, H2. unfold CSR_PMPADDR0, CSR_PMPADDR7 in *.
    destruct Hp as (_&(Hl&Ha)). rewrite insert_at by (rewrite Hl; clear -H1 H2; lia). destruct (CsrProofs.addr_locked _ _); [done|]. by destruct (csr m).
Qed.

Lemma upd_csr_const f m : upd_csr f m = upd_csr (fun _ => f (csr m)) m.
Proof. done. Qed.

(** a CSR write that stores what a read answered changes nothing.  For every
    register that exists and is not read-only (machine, supervisor, floating-point
    and PMP registers, with their masks, the fixed bits, the views sstatus, sie and
    sip of other registers and the pending bits devices drive), writing the value
    just read leaves the registers of the machine as they are; a write of satp ends
    the reservation, a write of a floating-point register marks it written. *)
Theorem csr_write_back m number v :
  machine_ok m -> csr_read m number = Ok (Some v) -> csr_read_only number = false ->
  csr_write m number v = Ok
    (if (1 <=? number) && (number <=? 3) then upd_effects (fun e => {| e with wr_fcsr := true |}) m
     else if number =? CSR_SATP then upd_resv (fun r => {| r with reserved := false |}) m else m).
Proof.
  intros Hm E Hro. rewrite (CsrProofs.csr_read_eq m number Hm) in E. injection E as E.
  rewrite CsrProofs.csr_write_eq by done. f_equal. unfold CsrProofs.csr_written. destruct (fcsr_value (fcsr (hart m)) number v) as [f|] eqn:Ef.
  - assert (Hf : is_u8 (fcsr (hart m))) by apply Hm. assert (Ev : f = fcsr (hart m) /\ 1 <= number <= 3).
    { unfold fcsr_value, CsrProofs.csr_value in *. cbv zeta in E.
      destruct (Z.eqb_spec number CSR_FFLAGS) as [->|_]; [|destruct (Z.eqb_spec number CSR_FRM) as [->|_];
        [|destruct (Z.eqb_spec number CSR_FCSR) as [->|_]; [|done]]]; injection E as <-; injection Ef as <-.
      - rewrite fflags_kept by done. done.
      - rewrite frm_kept by done. done.
      - change 255 with (Z.ones 8). rewrite Z.land_ones by lia. rewrite Z.mod_small by exact Hf. done. }
    destruct Ev as [-> Hn]. rewrite (proj2 (Z.leb_le 1 number)), (proj2 (Z.leb_le number 3)) by lia. cbn [andb].
    clear. destruct m as [? ? ? ? ? h]. by destruct h.
  - assert (Em : upd_csr (fun _ => csr m) m = m) by (by destruct m).
    rewrite (upd_csr_const (fun c => CsrProofs.csr_filed c number v)), (file_kept m number v Hm E Hro Ef), Em.
    destruct ((1 <=? number) && (number <=? 3)) eqn:En; [exfalso|done]. unfold fcsr_value, CSR_FFLAGS, CSR_FRM, CSR_FCSR in Ef.
    bools. assert (Hn : number = 1 \/ number = 2 \/ number = 3) by lia. by destruct Hn as [->|[->| ->]].
Qed.

Lemma csr_write_back_witness :
  csr_write RunProofs.booted CSR_MSTATUS (mstatus_value (csr RunProofs.booted)) = Ok RunProofs.booted.
Proof.
  exact (csr_write_back RunProofs.booted CSR_MSTATUS _ (RunProofs.set_up_ok _ RunProofs.booted_set_up) eq_refl eq_refl).
Defined.

End CsrSpecs.
