(* ===== verification/Ulib.v ===== *)
(** * The user library's strings and numbers (programs/rv32/os/ulib.c, udecimal.c)

    A C string is a list of characters; a pointer into it is the list from
    there on, and reading past its end is [Stuck]. *)

From S2P Require Import Prelude Effects.

Module Ulib.

(** ** Strings *)

Fixpoint u_strlen (s : list Z) : res Z :=
  match s with
  | [] => Stuck
  | c :: s' => if c =? 0 then mret 0 else n ← u_strlen s'; mret (u32 (n + 1))
  end.

Fixpoint u_strcmp (a b : list Z) : res Z :=
  match a, b with
  | x :: a', y :: b' => if tst x && (x =? y) then u_strcmp a' b' else mret (x - y)
  | _, _ => Stuck
  end.

(** ** Numbers *)

(** [while (bit > value) bit >>= 1] *)
Fixpoint highest (fuel : nat) (bit value : Z) : res Z :=
  match fuel with
  | O => NoFuel
  | S fuel' => if value <? bit then highest fuel' (bit .>> 1) value else mret bit
  end.

(** [for (; bit; bit >>= 1)]: the quotient and the remainder by ten. *)
Fixpoint divide10 (fuel : nat) (bit value q r : Z) : res (Z * Z) :=
  match fuel with
  | O => NoFuel
  | S fuel' =>
      if bit =? 0 then mret (q, r)
      else
        let r := u32 (r .<< 1) .| Z.b2z (tst (value .& bit)) in
        let q := u32 (q .<< 1) in
        if 10 <=? r then divide10 fuel' (bit .>> 1) value (q .| 1) (r - 10)
        else divide10 fuel' (bit .>> 1) value q r
  end.

(** The digits, last first, down from [digits[i]]. *)
Fixpoint digit_loop (fuel : nat) (value i : Z) (digits : list Z) : res (Z * list Z) :=
  match fuel with
  | O => NoFuel
  | S fuel' =>
      bit ← highest 33 0x80000000 value;
      '(q, r) ← divide10 33 bit value 0 0;
      let i := u32 (i - 1) in
      digits ← aset digits i (48 + r);
      if tst q then digit_loop fuel' q i digits else mret (i, digits)
  end.

(** The index the number starts at, and the array. *)
Definition u_decimal (value : Z) (digits : list Z) : res (Z * list Z) :=
  digits ← aset digits 10 0;
  digit_loop 10 value 10 digits.

(** The text [u_putdec] writes. *)
Definition u_putdec (value : Z) (digits : list Z) : res (list Z) :=
  '(i, digits) ← u_decimal value digits;
  n ← u_strlen (drop (Z.to_nat i) digits);
  mret (take (Z.to_nat n) (drop (Z.to_nat i) digits)).

(** The text [u_puthex] writes. *)
Fixpoint hex_loop (k : nat) (value : Z) (text : list Z) : res (list Z) :=
  match k with
  | O => mret text
  | S k' =>
      let digit := value .& 15 in
      text ← aset text (Z.of_nat k') (if digit <? 10 then 48 + digit else 97 + digit - 10);
      hex_loop k' (value .>> 4) text
  end.

Definition u_puthex (value : Z) (text : list Z) : res (list Z) :=
  text ← hex_loop 8 value text;
  text ← aset text 8 0;
  n ← u_strlen text;
  mret (take (Z.to_nat n) text).

(** The number and the pointer behind it. *)
Fixpoint parse_loop (s : list Z) (value : Z) : res (Z * list Z) :=
  match s with
  | [] => Stuck
  | c :: s' => if (48 <=? c) && (c <=? 57) then parse_loop s' (u32 (u32 (value * 10) + u32 (c - 48))) else mret (value, s)
  end.
Definition u_parse (s : list Z) : res (Z * list Z) := parse_loop s 0.

(** ** The long division *)

Lemma highest_spec k value :
  0 <= value < 2 ^ (Z.of_nat k + 1) ->
  exists b, highest (S (S k)) (2 ^ Z.of_nat k) value = Ok b
  /\ ((value = 0 /\ b = 0) \/ exists j, (j <= k)%nat /\ b = 2 ^ Z.of_nat j /\ value < 2 ^ (Z.of_nat j + 1)).
Proof.
  induction k as [|k IH]; intros Hv.
  - cbn [highest]. destruct (Z.ltb_spec value (2 ^ Z.of_nat 0)).
    + exists 0. assert (value = 0) as -> by (cbn in *; lia). split; [done|by left].
    + exists 1. split; [done|]. right. exists 0%nat. split; [lia|]. split; [done|]. cbn in *. lia.
  - cbn [highest]. destruct (Z.ltb_spec value (2 ^ Z.of_nat (S k))) as [Hl|Hl].
    + destruct IH as (b & E & Hb); [rewrite Nat2Z.inj_succ in Hl; unfold Z.succ in Hl; lia|].
      assert (E1 : 2 ^ Z.of_nat (S k) .>> 1 = 2 ^ Z.of_nat k).
      { rewrite Z.shiftr_div_pow2, Nat2Z.inj_succ, Z.pow_succ_r by lia. change (2 ^ 1) with 2. zlia. }
      rewrite E1. cbn [highest] in E. rewrite E. exists b. split; [done|]. destruct Hb as [Hb|(j & Hj & Hb)]; [by left|].
      right. exists j. split; [lia|done].
    + eexists. split; [done|]. right. exists (S k). split; [lia|]. split; [done|lia].
Qed.

Lemma shl1_or r (b : bool) : 0 <= r < 0x80000000 -> u32 (r .<< 1) .| Z.b2z b = 2 * r + Z.b2z b.
Proof.
  intros Hr. rewrite u32_id by (rewrite Z.shiftl_mul_pow2 by lia; unfold is_u32; lia).
  rewrite lor_add; destruct b; cbn; lia.
Qed.

(** One more bit of the dividend. *)
Lemma next_bit value k : 0 <= value -> 0 <= k -> value / 2 ^ k = 2 * (value / 2 ^ (k + 1)) + Z.b2z (Z.testbit value k).
Proof.
  intros Hv Hk. rewrite Z.testbit_spec', Z.pow_add_r, <- Z.div_div by (try apply Z.pow_nonzero; lia). change (2 ^ 1) with 2.
  apply Z.div_mod. lia.
Qed.

Lemma divide10_step value bit fuel q r v b : 0 <= v < 0x80000000 -> bit <> 0 -> tst (value .& bit) = b ->
  q = v / 10 -> r = v mod 10 ->
  divide10 (S fuel) bit value q r = divide10 fuel (bit .>> 1) value ((2 * v + Z.b2z b) / 10) ((2 * v + Z.b2z b) mod 10).
Proof.
  intros Hv Hb Eb -> ->. cbn [divide10]. rewrite (proj2 (Z.eqb_neq bit 0) Hb), Eb, shl1_or by zlia.
  assert (E : u32 ((v / 10) .<< 1) = 2 * (v / 10)).
  { rewrite Z.shiftl_mul_pow2 by lia. change (2 ^ 1) with 2. rewrite u32_id by (unfold is_u32; zlia). ring. }
  rewrite E. assert (Eo : 2 * (v / 10) .| 1 = 2 * (v / 10) + 1).
  { replace (2 * (v / 10)) with ((v / 10) .<< 1) by (rewrite Z.shiftl_mul_pow2 by lia; ring). rewrite lor_add by lia.
    rewrite Z.shiftl_mul_pow2 by lia. ring. }
  rewrite Eo. destruct (Z.leb_spec 10 (2 * (v mod 10) + Z.b2z b)); f_equal; destruct b; cbn [Z.b2z] in *; zlia.
Qed.

Lemma divide10_spec k value : 0 <= value < 0x100000000 -> (k <= 31)%nat ->
  divide10 (S (S k)) (2 ^ Z.of_nat k) value (value / 2 ^ (Z.of_nat k + 1) / 10) ((value / 2 ^ (Z.of_nat k + 1)) mod 10)
  = Ok (value / 10, value mod 10).
Proof.
  intros Hv. induction k as [|k IH]; intros Hk.
  - rewrite (divide10_step value (2 ^ Z.of_nat 0) 1 _ _ (value / 2 ^ (Z.of_nat 0 + 1)) (Z.testbit value (Z.of_nat 0)));
      [|cbn; zlia|done|by apply tst_land_pow2|done|done].
    rewrite <- next_bit by lia. change (2 ^ Z.of_nat 0) with 1. rewrite Z.div_1_r. done.
  - rewrite (divide10_step value _ (S (S k)) _ _ (value / 2 ^ (Z.of_nat (S k) + 1)) (Z.testbit value (Z.of_nat (S k))));
      [| |lia|by apply tst_land_pow2; lia|done|done].
    2: { split; [apply Z.div_pos; lia|]. apply Z.div_lt_upper_bound; [lia|].
         assert (2 ^ 1 <= 2 ^ (Z.of_nat (S k) + 1)) by (apply Z.pow_le_mono_r; lia). lia. }
    rewrite <- next_bit by lia. rewrite <- IH by lia.
    assert (E1 : 2 ^ Z.of_nat (S k) .>> 1 = 2 ^ Z.of_nat k).
    { rewrite Z.shiftr_div_pow2, Nat2Z.inj_succ, Z.pow_succ_r by lia. change (2 ^ 1) with 2. zlia. }
    rewrite E1. by replace (Z.of_nat k + 1) with (Z.of_nat (S k)) by lia.
Qed.

(** The loop of one digit divides by ten. *)
Lemma digit_division value : is_u32 value ->
  exists bit, highest 33 0x80000000 value = Ok bit /\ divide10 33 bit value 0 0 = Ok (value / 10, value mod 10).
Proof.
  intros Hv. change 0x80000000 with (2 ^ Z.of_nat 31). destruct (highest_spec 31 value) as (b & E & Hb); [exact Hv|].
  exists b. split; [exact E|]. destruct Hb as [[-> ->]|(j & Hj & -> & Hlt)]; [done|].
  pose proof (divide10_spec j value Hv Hj) as D. rewrite (Z.div_small value) in D by (unfold is_u32 in Hv; lia).
  revert D. change (0 / 10) with 0. change (0 mod 10) with 0. generalize (2 ^ Z.of_nat j) 0 0. clear -Hj.
  assert (Hm : forall f f' bit v q r a, (f <= f')%nat -> divide10 f bit v q r = Ok a -> divide10 f' bit v q r = Ok a).
  { induction f as [|f IH]; intros f' bit v q r a Hf E; [done|]. destruct f' as [|f']; [lia|]. cbn [divide10] in *.
    destruct (bit =? 0); [done|]. cbv zeta in *. destruct (10 <=? _); apply IH; done || lia. }
  intros bit q r D. eapply Hm; [|exact D]. lia.
Qed.

(** ** Decimal text *)

Definition is_digit (c : Z) : Prop := 48 <= c <= 57.

(** The number a row of digits writes. *)
Definition digits_value (cs : list Z) : Z := foldl (fun v c => 10 * v + (c - 48)) 0 cs.

(** [cs] is how [value] is written in decimal: digits, no leading zero. *)
Definition writes_decimal (value : Z) (cs : list Z) : Prop :=
  cs <> [] /\ Forall is_digit cs /\ digits_value cs = value /\ (at_ cs 0 = 48 -> cs = [48]).

Lemma digits_value_snoc cs c : digits_value (cs ++ [c]) = 10 * digits_value cs + (c - 48).
Proof. unfold digits_value. by rewrite foldl_app. Qed.

Lemma drop_put (l : list Z) i c : (i < length l)%nat -> drop i (<[i := c]> l) = c :: drop (S i) l.
Proof.
  intros Hi. rewrite (drop_S _ c) by (by apply list_lookup_insert_eq). f_equal. apply drop_insert_lt. lia.
Qed.

Lemma bind_res_ok {A B} (r : res A) (f : A -> res B) a : r = Ok a -> r ≫= f = f a.
Proof. by intros ->. Qed.

Lemma digit_loop_step f value i digits :
  is_u32 value -> 0 < i < Z.of_nat (length digits) -> i <= 10 ->
  digit_loop (S f) value i digits =
  let digits := <[Z.to_nat (i - 1) := 48 + value mod 10]> digits in
  if tst (value / 10) then digit_loop f (value / 10) (i - 1) digits else Ok (i - 1, digits).
Proof.
  intros Hv Hi Hi'. destruct (digit_division value Hv) as (bit & E1 & E2). cbn [digit_loop].
  rewrite (bind_res_ok _ _ _ E1), (bind_res_ok _ _ _ E2). rewrite u32_id by (unfold is_u32; lia).
  rewrite (bind_res_ok _ _ _ (aset_ok digits (i - 1) (48 + value mod 10) ltac:(lia))). done.
Qed.

Lemma digit_loop_spec f value i digits :
  0 <= value < 10 ^ Z.of_nat f -> is_u32 value -> (0 < f)%nat -> Z.of_nat f <= i < Z.of_nat (length digits) -> i <= 10 ->
  exists i' digits' cs, digit_loop f value i digits = Ok (i', digits') /\ 0 <= i' /\ i' < i /\ length digits' = length digits
    /\ writes_decimal value cs /\ drop (Z.to_nat i') digits' = cs ++ drop (Z.to_nat i) digits.
Proof.
  revert value i digits. induction f as [|f IH]; intros value i digits Hp Hv Hf Hi Hi'; [lia|].
  rewrite digit_loop_step by (done || lia). cbv zeta.
  set (digits1 := <[Z.to_nat (i - 1) := 48 + value mod 10]> digits).
  assert (L1 : length digits1 = length digits) by apply length_insert.
  assert (E1 : drop (Z.to_nat (i - 1)) digits1 = (48 + value mod 10) :: drop (Z.to_nat i) digits).
  { unfold digits1. rewrite drop_put by lia. f_equal. f_equal. lia. }
  assert (Hd : is_digit (48 + value mod 10)) by (unfold is_digit; zlia).
  destruct (tst (value / 10)) eqn:Et.
  - apply tst_true in Et. rewrite Nat2Z.inj_succ, Z.pow_succ_r in Hp by lia.
    destruct (IH (value / 10) (i - 1) digits1) as (i' & digits' & cs & E2 & H0 & Hlt & L2 & (W1 & W2 & W3 & W4) & E3);
      [zlia|unfold is_u32 in *; zlia| |lia|lia|].
    { destruct f; [|lia]. cbn in Hp. zlia. }
    rewrite E2. exists i', digits', (cs ++ [48 + value mod 10]). split; [done|]. split; [done|]. split; [lia|]. split; [congruence|].
    split.
    + split; [by destruct cs|]. split; [apply Forall_app; by auto|]. split; [rewrite digits_value_snoc, W3; zlia|].
      intros Hz. exfalso. apply Et. rewrite <- W3, W4; [done|]. by destruct cs.
    + rewrite E3, E1. by rewrite <- app_assoc.
  - apply tst_false in Et. exists (i - 1), digits1, [48 + value mod 10]. split; [done|]. split; [lia|]. split; [lia|]. split; [done|].
    split; [|exact E1]. split; [done|]. split; [by constructor|].
    assert (value mod 10 = value) as -> by zlia. split; [unfold digits_value; cbn; lia|]. intros Hz. cbn in Hz. f_equal. done.
Qed.

Lemma fold_u32 cs v w : u32 v = u32 w ->
  u32 (foldl (fun v c => 10 * v + (c - 48)) v cs) = u32 (foldl (fun v c => 10 * v + (c - 48)) w cs).
Proof. revert v w. induction cs as [|c cs IH]; intros v w E; [done|]. cbn [foldl]. apply IH. unfold u32 in *. zlia. Qed.

(** The value [u_parse] computes, in 32 bits, is the number written. *)
Lemma parse_loop_spec cs rest v : Forall is_digit cs -> is_u32 v ->
  (match rest with c :: _ => ~ is_digit c | [] => False end) ->
  parse_loop (cs ++ rest) v = Ok (u32 (foldl (fun v c => 10 * v + (c - 48)) v cs), rest).
Proof.
  intros Hc. revert v. induction Hc as [|c cs Hc Hcs IH]; intros v Hv Hr.
  - cbn [app foldl]. rewrite u32_id by done. destruct rest as [|c rest]; [done|]. cbn [parse_loop].
    destruct ((48 <=? c) && (c <=? 57)) eqn:E; [|done]. bools. by destruct Hr.
  - cbn [app parse_loop foldl]. unfold is_digit in Hc. rewrite (proj2 (Z.leb_le 48 c)), (proj2 (Z.leb_le c 57)) by lia. cbn [andb].
    rewrite IH by (try apply u32_range; done). do 2 f_equal. apply fold_u32. unfold u32. zlia.
Qed.

(** C35: numbers print and read back.  For every 32-bit value [u_decimal], which
    divides by shifting and subtracting, fills the end of its array of eleven and
    terminates it, without leaving it; from the index it answers the array holds the
    value in decimal, with no leading zero, and [u_parse] reads the same value there,
    and stops at what follows. *)
Theorem decimal_reads_back value digits :
  is_u32 value -> length digits = 11%nat ->
  exists i digits' cs, u_decimal value digits = Ok (i, digits') /\ 0 <= i <= 9 /\ length digits' = 11%nat
    /\ drop (Z.to_nat i) digits' = cs ++ [0] /\ writes_decimal value cs
    /\ u_putdec value digits = Ok cs
    /\ forall next rest, ~ is_digit next -> u_parse (cs ++ next :: rest) = Ok (value, next :: rest).
Proof.
  intros Hv Hl. unfold u_putdec. assert (E0 : u_decimal value digits = digit_loop 10 value 10 (<[10%nat := 0]> digits)).
  { unfold u_decimal. by rewrite aset_ok by lia. }
  destruct (digit_loop_spec 10 value 10 (<[10%nat := 0]> digits)) as (i & digits' & cs & E & H0 & H1 & L & W & D);
    [unfold is_u32 in Hv; cbn; lia|done|lia|rewrite length_insert, Hl; cbn; lia|lia|].
  assert (Ed : drop (Z.to_nat i) digits' = cs ++ [0]).
  { rewrite D. f_equal. change (Z.to_nat 10) with 10%nat. rewrite drop_put by lia. rewrite drop_ge by lia. done. }
  rewrite E0, E. cbn [mbind res_bind]. exists i, digits', cs. rewrite length_insert, Hl in L.
  split; [done|]. split; [lia|]. split; [done|]. split; [done|]. split; [done|]. split.
  - rewrite Ed. destruct W as (_ & Wd & _). 
    assert (En : u_strlen (cs ++ [0]) = Ok (Z.of_nat (length cs))).
    { assert (Hs : (length cs <= 10)%nat). { apply (f_equal length) in Ed. rewrite length_drop, length_app in Ed. cbn in Ed. lia. }
      clear -Wd Hs. induction Wd as [|c cs Hc _ IH]; [done|]. cbn [app u_strlen length] in *. unfold is_digit in Hc.
      rewrite (proj2 (Z.eqb_neq c 0)), IH by lia. cbn [mbind res_bind]. rewrite u32_id by (unfold is_u32; lia).
      unfold mret, res_ret. f_equal. lia. }
    rewrite En. cbn [mbind res_bind]. by rewrite Nat2Z.id, take_app_length.
  - intros next rest Hn. destruct W as (_ & Wd & Wv & _). unfold u_parse. rewrite parse_loop_spec by done.
    change (foldl _ 0 cs) with (digits_value cs). by rewrite Wv, u32_id.
Qed.

Lemma decimal_reads_back_witness :
  u_putdec 4294967295 (replicate 11 0) = Ok [52; 50; 57; 52; 57; 54; 55; 50; 57; 53].
Proof.
  destruct (decimal_reads_back 4294967295 (replicate 11 0)) as (i & d & cs & _ & _ & _ & _ & _ & E & _); [done|done|].
  rewrite E. vm_compute in E. by injection E as <-.
Defined.

End Ulib.
