(* ===== verification/Line.v ===== *)
(** * The console line editor (programs/rv32/os/line.c)

    [line_edit] over what each [sys_read] of the console answers; the run stops
    ([NoFuel]) where the answers do, which is the program waiting for a key.
    [echo] appends to what the console was sent.  A terminal that interprets
    it shows the line being edited. *)

From S2P Require Import Prelude Effects.

Module Line.

Definition CTRL_D : Z := 0x04.
Definition CTRL_H : Z := 0x08.
Definition CTRL_U : Z := 0x15.
Definition ESC : Z := 0x1b.
Definition DEL : Z := 0x7f.
Definition LINE_EOF : Z := 1.

Inductive escape : Type := TEXT | AFTER_ESC | SEQUENCE.
Inductive line_result : Type := LINE_OK | LINE_TOO_LONG | LINE_END | LINE_ERROR.

(** What [sys_read(0, &c, 1)] answers: an error, a byte, or none. *)
Inductive answer : Type := ReadError | ReadByte (c : Z) | ReadNothing.

(** The editor's variables, the line it fills and what it echoed. *)
Record editor : Type := {
  esc : escape; n : Z; fits : bool; line : list Z;
  previous : Z; (** static: it outlives the call *)
  echoed : list Z;
}.

Definition echo (s : list Z) (e : editor) : editor := {| e with echoed := echoed e ++ s |}.

Fixpoint rub_out (count : nat) (e : editor) : editor :=
  match count with
  | O => e
  | S count' => rub_out count' (echo [8; 32; 8] e)
  end.

(** The escape state after a byte that is not Enter, outside text. *)
Definition escape_after (st : escape) (c : Z) : escape :=
  match st with
  | AFTER_ESC => if (c =? 91) || (c =? 79) then SEQUENCE else if c =? ESC then AFTER_ESC else TEXT
  | SEQUENCE => if (0x40 <=? c) && (c <=? 0x7e) && negb (c =? 91) then TEXT else SEQUENCE
  | TEXT => TEXT
  end.

(** A key in the text, Enter and the end of input apart. *)
Definition text_key (room c : Z) (e : editor) : res editor :=
  if (c =? DEL) || (c =? CTRL_H) then
    mret (if tst (n e) then rub_out 1 {| e with n := n e - 1 |} else e)
  else if c =? CTRL_U then mret {| (rub_out (Z.to_nat (n e)) e) with n := 0; fits := true |}
  else if c =? ESC then mret {| e with esc := AFTER_ESC |}
  else if (c <? 0x20) || (0x7e <? c) then mret (echo [7] e)
  else if n e <? room then
    l ← aset (line e) (n e) c;
    mret (echo [c] {| e with line := l; n := u32 (n e + 1) |})
  else mret (echo [7] {| e with fits := false |}).

(** The body of the loop for a byte [c]: go on, leave by Enter, or return. *)
Inductive turn : Type := Go (e : editor) | Enter (e : editor) | Return (r : line_result) (e : editor).

Definition line_byte (room flags c : Z) (e : editor) : res turn :=
  let before := previous e in
  let e := {| e with previous := c |} in
  if (c =? 10) && (before =? 13) then mret (Go e)
  else if (c =? 13) || (c =? 10) then mret (Enter e)
  else
    match esc e with
    | TEXT =>
        let c := if c =? 9 then 32 else c in
        if (c =? CTRL_D) && tst (flags .& LINE_EOF) && (n e =? 0) && fits e then mret (Return LINE_END e)
        else e ← text_key room c e; mret (Go e)
    | st => mret (Go {| e with esc := escape_after st c |})
    end.

Fixpoint line_loop (room flags : Z) (answers : list answer) (e : editor) : res (line_result * Z * editor * list answer) :=
  match answers with
  | [] => NoFuel
  | ReadError :: rest => mret (LINE_ERROR, 0, e, rest)
  | ReadNothing :: rest => line_loop room flags rest e
  | ReadByte c :: rest =>
      t ← line_byte room flags c e;
      match t with
      | Go e => line_loop room flags rest e
      | Return r e => mret (r, 0, e, rest)
      | Enter e =>
          let e := echo [10] e in
          mret (if fits e then LINE_OK else LINE_TOO_LONG, if fits e then n e else 0, e, rest)
      end
  end.

(** The result, [*length], the editor and the answers not read yet.  [*length] is
    written by the two results of Enter only. *)
Definition line_edit (room flags : Z) (buffer : list Z) (prev : Z) (answers : list answer) : res (line_result * Z * editor * list answer) :=
  line_loop room flags answers
    {| esc := TEXT; n := 0; fits := true; line := buffer; previous := prev; echoed := [] |}.

(** ** A terminal *)

(** The row the cursor is on and its column. *)
Record terminal : Type := { row : list Z; column : nat }.

Definition show (t : terminal) (c : Z) : terminal :=
  if c =? 8 then {| t with column := pred (column t) |}
  else if c =? 7 then t
  else if c =? 10 then {| row := []; column := 0 |}
  else {| row := take (column t) (row t) ++ [c] ++ drop (S (column t)) (row t); column := S (column t) |}.

Definition shown (cs : list Z) : terminal := foldl show {| row := []; column := 0 |} cs.

(** The row reads [text], blanks after it, and the cursor is behind it. *)
Definition reads (t : terminal) (text : list Z) : Prop :=
  column t = length text /\ exists k, row t = text ++ replicate k 32.

Definition printable (c : Z) : Prop := 0x20 <= c <= 0x7e.

Lemma reads_put t text c : reads t text -> printable c -> reads (show t c) (text ++ [c]).
Proof.
  intros [Hc [k Hr]] Hp. unfold printable in Hp. unfold show.
  rewrite (proj2 (Z.eqb_neq c 8)), (proj2 (Z.eqb_neq c 7)), (proj2 (Z.eqb_neq c 10)) by lia.
  split; cbn [column row]; [by rewrite length_app, Hc, Nat.add_comm|]. exists (pred k).
  rewrite Hc, Hr, take_app_length. destruct k as [|k].
  - cbn [pred replicate]. rewrite app_nil_r, drop_ge by lia. by rewrite !app_nil_r.
  - cbn [pred replicate]. rewrite <- app_assoc. do 2 f_equal.
    replace (S (length text)) with (length text + 1)%nat by lia. rewrite drop_app_add. done.
Qed.

Lemma reads_rub t text c : reads t (text ++ [c]) -> reads (foldl show t [8; 32; 8]) text.
Proof.
  intros [Hc [k Hr]]. rewrite length_app in Hc. cbn in Hc. cbn [foldl]. unfold show. cbn [Z.eqb Pos.eqb column row].
  replace (pred (column t)) with (length text) by lia. split; [done|]. exists (S k). cbn [row].
  rewrite Hr, <- app_assoc, take_app_length. replace (S (length text)) with (length text + 1)%nat by lia.
  by rewrite drop_app_add.
Qed.

(** Rubbing out a row of characters. *)
Definition rubs (k : nat) : list Z := concat (replicate k [8; 32; 8]).

Lemma rub_out_echo k e : rub_out k e = echo (rubs k) e.
Proof.
  revert e. induction k as [|k IH]; intros e; cbn [rub_out].
  - unfold echo, rubs. cbn. rewrite app_nil_r. by destruct e.
  - rewrite IH. unfold echo, rubs. cbn [replicate concat echoed]. by rewrite <- app_assoc.
Qed.

Lemma reads_rubs t text cs : reads t (text ++ cs) -> reads (foldl show t (rubs (length cs))) text.
Proof.
  revert t. induction cs as [|c cs IH] using rev_ind; intros t Hr.
  - cbn. by rewrite app_nil_r in Hr.
  - rewrite length_app, Nat.add_comm. cbn [Nat.add length]. unfold rubs. cbn [replicate concat]. rewrite foldl_app.
    apply IH. apply (reads_rub _ _ c). by rewrite <- app_assoc.
Qed.

(** ** What holds between keys *)

Section Editing.
Context (t0 : terminal) (prompt buffer : list Z) (room : Z).
Hypothesis (Ht : reads t0 prompt) (Hroom : 0 <= room <= Z.of_nat (length buffer)) (Hsize : room < 0x100000000).

(** The text typed so far. *)
Definition text (e : editor) : list Z := take (Z.to_nat (n e)) (line e).

(** The text fits, the buffer is untouched from [room] on, the text is printable
    and the terminal shows it after the prompt. *)
Definition editing (e : editor) : Prop :=
  0 <= n e <= room /\ length (line e) = length buffer /\ drop (Z.to_nat room) (line e) = drop (Z.to_nat room) buffer
  /\ Forall printable (text e) /\ reads (foldl show t0 (echoed e)) (prompt ++ text e).

Lemma length_text e : editing e -> length (text e) = Z.to_nat (n e).
Proof. intros (Hn & Hl & _). unfold text. rewrite length_take. lia. Qed.

Lemma editing_bell e : editing e -> editing (echo [7] e).
Proof.
  intros (Hn & Hl & Hd & Hp & Hr). repeat (split; [done|]). unfold echo. cbn [echoed]. rewrite foldl_app. exact Hr.
Qed.

(** Taking the last character off the text. *)
Lemma text_pred e : editing e -> 0 < n e ->
  exists c, text e = text {| e with n := n e - 1 |} ++ [c] /\ (Forall printable (text e) -> Forall printable (text {| e with n := n e - 1 |})).
Proof.
  intros (Hn & Hl & _) Hpos. unfold text. cbn [n line].
  destruct (lookup_lt_is_Some_2 (line e) (Z.to_nat (n e - 1))) as [c Hc]; [lia|]. exists c.
  assert (E : take (Z.to_nat (n e)) (line e) = take (Z.to_nat (n e - 1)) (line e) ++ [c]).
  { replace (Z.to_nat (n e)) with (S (Z.to_nat (n e - 1))) by lia. by apply take_S_r. }
  split; [exact E|]. rewrite E. intros H. by apply Forall_app in H as [H _].
Qed.

Lemma editing_rub e : editing e -> 0 < n e -> editing (echo [8; 32; 8] {| e with n := n e - 1 |}).
Proof.
  intros He Hpos. destruct (text_pred e He Hpos) as (c & E & Hf). pose proof He as (Hn & Hl & Hd & Hp & Hr).
  split; [cbn [echo n]; lia|]. split; [done|]. split; [done|]. split; [exact (Hf Hp)|].
  unfold echo. cbn [echoed]. rewrite foldl_app. change (text _) with (text {| e with n := n e - 1 |}).
  apply (reads_rub _ _ c). rewrite <- app_assoc, <- E. exact Hr.
Qed.

Lemma editing_clear e : editing e -> editing {| (rub_out (Z.to_nat (n e)) e) with n := 0; fits := true |}.
Proof.
  intros He. pose proof He as (Hn & Hl & Hd & Hp & Hr). rewrite rub_out_echo, <- (length_text e He).
  split; [cbn [n]; lia|]. split; [done|]. split; [done|]. split; [by apply List.Forall_nil|]. cbn [echo echoed].
  rewrite foldl_app. match goal with |- reads _ (prompt ++ ?x) => change x with (@nil Z) end. rewrite app_nil_r. by apply reads_rubs.
Qed.

Lemma editing_put e c : editing e -> n e < room -> printable c ->
  editing (echo [c] {| e with line := <[Z.to_nat (n e) := c]> (line e); n := u32 (n e + 1) |}).
Proof.
  intros (Hn & Hl & Hd & Hp & Hr) Hlt Hc.
  assert (E : text (echo [c] {| e with line := <[Z.to_nat (n e) := c]> (line e); n := u32 (n e + 1) |}) = text e ++ [c]).
  { unfold text, echo. cbn [n line]. rewrite u32_id by (unfold is_u32; lia).
    replace (Z.to_nat (n e + 1)) with (S (Z.to_nat (n e))) by lia.
    rewrite (take_S_r _ _ c) by (apply list_lookup_insert_eq; lia). f_equal. apply take_insert_ge. lia. }
  unfold editing. rewrite E. split; [cbn [echo n]; rewrite u32_id by (unfold is_u32; lia); lia|].
  split; [cbn [echo line]; by rewrite length_insert|]. split; [cbn [echo line]; by rewrite drop_insert_lt by lia|].
  split; [apply Forall_app; by auto|]. cbn [echo echoed]. rewrite foldl_app, app_assoc. by apply reads_put.
Qed.

Lemma text_key_editing `{F : Fuelled} c e : is_u8 c -> editing e -> wpr (text_key room c e) editing.
Proof.
  intros Hc He. unfold text_key. destruct (_ || _) eqn:E1.
  { wps. destruct (tst (n e)) eqn:En; [|done]. apply tst_true in En. apply editing_rub; [done|]. destruct He. lia. }
  wp1. { wps. by apply editing_clear. }
  wp1. { wps. exact He. }
  wp1. { wps. by apply editing_bell. }
  wp1.
  - bools. wp1. apply wpr_aset; [destruct He as (Hn & Hl & _); rewrite Hl; lia|]. wps. apply editing_put; [done|done|unfold printable; lia].
  - wps. apply editing_bell. exact He.
Qed.

Definition turn_editing (t : turn) : Prop := match t with Go e | Enter e => editing e | Return r e => r = LINE_END /\ editing e end.

Lemma line_byte_editing `{F : Fuelled} flags c e : is_u8 c -> editing e -> wpr (line_byte room flags c e) turn_editing.
Proof.
  intros Hc He. unfold line_byte. cbv zeta. wp1; [exact He|]. wp1; [exact He|].
  change (esc {| e with previous := c |}) with (esc e). destruct (esc e); [|exact He|exact He].
  wp1; [exact (conj eq_refl He)|]. wp1. eapply wpr_mono; [apply text_key_editing|]; [|exact He|intros e' He'; exact He'].
  destruct (c =? 9); [done|exact Hc].
Qed.

Definition handed_over (r : line_result) (len : Z) (e : editor) : Prop :=
  0 <= len <= room /\ length (line e) = length buffer /\ drop (Z.to_nat room) (line e) = drop (Z.to_nat room) buffer
  /\ Forall printable (take (Z.to_nat len) (line e))
  /\ (r = LINE_OK -> exists keys, echoed e = keys ++ [10]
        /\ reads (foldl show t0 keys) (prompt ++ take (Z.to_nat len) (line e))).

Definition bytes (answers : list answer) : Prop :=
  Forall (fun a => match a with ReadByte c => is_u8 c | _ => True end) answers.

Lemma line_loop_shown flags answers e :
  bytes answers -> editing e ->
  wpr (F := partial) (line_loop room flags answers e) (fun '(r, len, e', _) => handed_over r len e').
Proof.
  assert (H0 : forall e', editing e' -> Forall printable (take (Z.to_nat 0) (line e'))) by (intros; constructor).
  intros Ha. revert e. induction Ha as [|a answers Hc _ IH]; intros e He; [exact I|]. destruct a as [|c|]; [|cbn [line_loop]|by apply IH].
  { pose proof He as (Hn & Hl & Hd & _). split; [lia|]. split; [done|]. split; [done|]. split; [by apply H0|done]. }
  wp1. eapply wpr_mono; [by apply line_byte_editing|]. intros [e'|e'|r e'] He'; [by apply IH| |].
  - pose proof He' as (Hn & Hl & Hd & Hp & Hr). wps. change (fits (echo [10] e')) with (fits e').
    destruct (fits e') eqn:Ef; cbv iota.
    + split; [exact Hn|]. split; [done|]. split; [done|]. split; [exact Hp|]. intros _. by exists (echoed e').
    + split; [lia|]. split; [done|]. split; [done|]. split; [by apply (H0 e')|done].
  - destruct He' as (-> & Hn & Hl & Hd & _). wps. split; [lia|]. split; [done|]. split; [done|]. split; [by constructor|done].
Qed.
End Editing.

(** ** No byte is lost *)

(** Two editors that read the same keys with different room: as long as nothing
    was lost in the smaller they hold the same text. *)
Definition in_step (e e' : editor) : Prop :=
  esc e = esc e' /\ previous e = previous e'
  /\ (fits e = true -> fits e' = true /\ n e = n e' /\ text e = text e').

Section Room.
Context (room room' : Z).
Hypothesis (Hroom : 0 <= room <= room') (Hsize : room' < 0x100000000).

Definition sized (e : editor) (room : Z) : Prop := 0 <= n e <= room /\ room <= Z.of_nat (length (line e)).

Lemma text_put (e : editor) c : 0 <= n e < Z.of_nat (length (line e)) -> n e < room' ->
  text (echo [c] {| e with line := <[Z.to_nat (n e) := c]> (line e); n := u32 (n e + 1) |}) = text e ++ [c].
Proof.
  intros Hn Hlt. unfold text, echo. cbn [n line]. rewrite u32_id by (unfold is_u32; lia).
  replace (Z.to_nat (n e + 1)) with (S (Z.to_nat (n e))) by lia.
  rewrite (take_S_r _ _ c) by (apply list_lookup_insert_eq; lia). f_equal. apply take_insert_ge. lia.
Qed.

Lemma text_less (e e' : editor) : n e = n e' -> text e = text e' -> text {| e with n := n e - 1 |} = text {| e' with n := n e' - 1 |}.
Proof.
  unfold text. cbn [n line]. intros En E. rewrite En in *. apply (f_equal (take (Z.to_nat (n e' - 1)))) in E.
  rewrite !take_take in E. by rewrite Nat.min_l in E by lia.
Qed.

Lemma text_key_in_step c e e' :
  sized e room -> sized e' room' -> in_step e e' ->
  exists e1 e1', text_key room c e = Ok e1 /\ text_key room' c e' = Ok e1' /\ in_step e1 e1' /\ sized e1 room /\ sized e1' room'.
Proof.
  intros [Hs Hl] [Hs' Hl'] (Ee & Ep & Hf). unfold text_key.
  destruct (_ || _).
  { do 2 eexists. split; [done|]. split; [done|].
    destruct (tst (n e)) eqn:En, (tst (n e')) eqn:En'; cbn [rub_out];
      rewrite ?tst_true, ?tst_false in *; unfold in_step, sized; cbn [echo esc previous fits n line]; (split; [split; [done|]; split; [done|]|lia]);
      intros H; destruct (Hf H) as (F' & N' & T'); try lia; split; try done; split; try lia; try done.
    change (text (echo [8; 32; 8] {| e with n := n e - 1 |})) with (text {| e with n := n e - 1 |}).
    by apply text_less. }
  destruct (c =? CTRL_U).
  { rewrite !rub_out_echo. do 2 eexists. split; [done|]. split; [done|]. unfold in_step, sized. cbn [echo esc previous fits n line].
    split; [|lia]. repeat (split; [done|]). done. }
  destruct (c =? ESC).
  { do 2 eexists. split; [done|]. split; [done|]. unfold in_step, sized. cbn [echo esc previous fits n line]. split; [done|lia]. }
  destruct (_ || _).
  { do 2 eexists. split; [done|]. split; [done|]. unfold in_step, sized. cbn [echo esc previous fits n line]. split; [done|lia]. }
  assert (Hput : forall e0 r, 0 <= n e0 < r -> r <= room' -> r <= Z.of_nat (length (line e0)) ->
    (l ← aset (line e0) (n e0) c; mret (echo [c] {| e0 with line := l; n := u32 (n e0 + 1) |}))
    = Ok (echo [c] {| e0 with line := <[Z.to_nat (n e0) := c]> (line e0); n := u32 (n e0 + 1) |})
    /\ sized (echo [c] {| e0 with line := <[Z.to_nat (n e0) := c]> (line e0); n := u32 (n e0 + 1) |}) r).
  { intros e0 r H0 Hr Hr'. rewrite aset_ok by lia. split; [done|]. unfold sized. cbn [echo n line]. rewrite length_insert, u32_id by (unfold is_u32; lia). lia. }
  destruct (Z.ltb_spec (n e) room) as [Hlt|Hge], (Z.ltb_spec (n e') room') as [Hlt'|Hge'].
  - destruct (Hput e room) as [E1 S1]; [lia..|]. destruct (Hput e' room') as [E2 S2]; [lia..|].
    do 2 eexists. split; [exact E1|]. split; [exact E2|]. split; [|done]. split; [done|]. split; [done|].
    intros H. destruct (Hf H) as (F' & N' & T'). split; [done|]. split; [cbn [echo n]; by rewrite N'|].
    rewrite !text_put by lia. by rewrite T'.
  - destruct (Hput e room) as [E1 S1]; [lia..|]. do 2 eexists. split; [exact E1|]. split; [done|]. split; [|split; [done|exact (conj Hs' Hl')]].
    split; [done|]. split; [done|]. intros H. destruct (Hf H) as (_ & N' & _). lia.
  - destruct (Hput e' room') as [E2 S2]; [lia..|]. do 2 eexists. split; [done|]. split; [exact E2|].
    split; [|split; [exact (conj Hs Hl)|done]]. split; [done|]. split; [done|]. intros H. discriminate H.
  - do 2 eexists. split; [done|]. split; [done|]. split; [|split; [exact (conj Hs Hl)|exact (conj Hs' Hl')]]. split; [done|]. split; [done|]. intros H. discriminate H.
Qed.

Lemma line_loop_in_step flags answers e e' len e1 rest :
  flags .& LINE_EOF = 0 -> sized e room -> sized e' room' -> in_step e e' ->
  line_loop room flags answers e = Ok (LINE_OK, len, e1, rest) ->
  exists e1', line_loop room' flags answers e' = Ok (LINE_OK, len, e1', rest)
    /\ take (Z.to_nat len) (line e1') = take (Z.to_nat len) (line e1).
Proof.
  intros Hfl. revert e e'. induction answers as [|a answers IH]; intros e e' Hs Hs' Hi; [done|].
  destruct a as [|c|]; [done| |by apply IH]. cbn [line_loop]. unfold line_byte. cbv zeta. pose proof Hi as (_ & Ep & _). rewrite <- Ep.
  assert (Hi1 : in_step {| e with previous := c |} {| e' with previous := c |}).
  { destruct Hi as (Ee & _ & Hf). exact (conj Ee (conj eq_refl Hf)). }
  assert (Hs1 : sized {| e with previous := c |} room) by exact Hs. assert (Hs1' : sized {| e' with previous := c |} room') by exact Hs'.
  revert Hi1 Hs1 Hs1'. generalize {| e with previous := c |} as ea, {| e' with previous := c |} as eb.
  intros ea eb Hi1 Hs1 Hs1'. clear Hi Hs Hs'. destruct (_ && _); [by apply IH|].
  pose proof Hi1 as (Ee & Eq & Hf). destruct (_ || _).
  { cbn [mbind res_bind mret res_ret]. change (fits (echo [10] ea)) with (fits ea). change (fits (echo [10] eb)) with (fits eb).
    destruct (fits ea) eqn:Ef; [|done]. destruct (Hf eq_refl) as (F' & N' & T'). rewrite F'. intros E. injection E as <- <- <-.
    exists (echo [10] eb). change (n (echo [10] eb)) with (n eb). change (n (echo [10] ea)) with (n ea). rewrite N'. split; [done|].
    cbn [echo line]. unfold text in T'. rewrite N' in T'. done. }
  rewrite <- Ee. destruct (esc ea) eqn:Ex.
  2,3: cbn [mbind res_bind mret res_ret]; apply IH; [exact Hs1|exact Hs1'|]; split; [done|]; split; [done|]; exact Hf.
  rewrite Hfl. change (tst 0) with false. rewrite !andb_false_r. cbn [andb].
  destruct (text_key_in_step (if c =? 9 then 32 else c) ea eb Hs1 Hs1' Hi1) as (e2 & e2' & -> & -> & H2 & S2 & S2').
  cbn [mbind res_bind mret res_ret]. by apply IH.
Qed.
End Room.

(** C36: the line handed over is the line on the screen.  Whatever is typed, the
    editor writes nothing from [room] on in the caller's buffer and never leaves it;
    and when a line is accepted, its bytes are printable and are exactly what a
    terminal that was sent the echo shows after the prompt, with the cursor behind
    them, when Enter is pressed. *)
Theorem line_is_what_is_shown t0 prompt room flags buffer prev answers :
  reads t0 prompt -> 0 <= room <= Z.of_nat (length buffer) -> room < 0x100000000 -> bytes answers ->
  line_edit room flags buffer prev answers <> Stuck
  /\ forall r len e rest, line_edit room flags buffer prev answers = Ok (r, len, e, rest) -> handed_over t0 prompt buffer room r len e.
Proof.
  intros Ht Hr Hs Ha. pose proof (line_loop_shown t0 prompt buffer room Hr Hs flags answers
    {| esc := TEXT; n := 0; fits := true; line := buffer; previous := prev; echoed := [] |} Ha) as W.
  unfold line_edit. destruct (line_loop _ _ _ _) as [[[[r len] e] rest]| |].
  - split; [done|]. intros ? ? ? ? E. injection E as <- <- <- <-. apply W.
    split; [cbn [n]; lia|]. split; [done|]. split; [done|]. split; [by constructor|]. change (text _) with (@nil Z).
    by rewrite app_nil_r.
  - exfalso. apply W. split; [cbn [n]; lia|]. split; [done|]. split; [done|]. split; [by constructor|].
    change (text _) with (@nil Z). by rewrite app_nil_r.
  - split; [done|]. by intros.
Qed.

(** C37: a line that lost a byte is never handed over, when ^D is not an end of
    input ([LINE_EOF] off; with it a ^D after dropped keys may end one editor and
    not the other).  If a line is accepted with the room there is, then it is the line an editor with any more room accepts for
    the same keys: dropped keys never end up as a shortened line. *)
Theorem accepted_line_is_whole room room' flags buffer buffer' prev answers len e rest :
  flags .& LINE_EOF = 0 -> 0 <= room <= room' -> room' < 0x100000000 ->
  room <= Z.of_nat (length buffer) -> room' <= Z.of_nat (length buffer') ->
  line_edit room flags buffer prev answers = Ok (LINE_OK, len, e, rest) ->
  exists e', line_edit room' flags buffer' prev answers = Ok (LINE_OK, len, e', rest)
    /\ take (Z.to_nat len) (line e') = take (Z.to_nat len) (line e).
Proof.
  intros Hf Hr Hs Hb Hb' E. unfold line_edit in *. eapply (line_loop_in_step room room' Hr Hs flags answers); [done| | | |exact E];
    [split; cbn [n line]; lia..|]. done.
Qed.

(** "a", "b", backspace, "c", Enter. *)
Definition typed : list answer := [ReadByte 97; ReadByte 98; ReadByte 0x7f; ReadNothing; ReadByte 99; ReadByte 13].

Definition typed_editor : editor :=
  match line_edit 2 0 [0; 0; 0] 0 typed with
  | Ok (_, _, e, _) => e
  | _ => {| esc := TEXT; n := 0; fits := true; line := []; previous := 0; echoed := [] |}
  end.

Lemma typed_line : line_edit 2 0 [0; 0; 0] 0 typed = Ok (LINE_OK, 2, typed_editor, []).
Proof. by vm_compute. Qed.

Lemma typed_text : take (Z.to_nat 2) (line typed_editor) = [97; 99].
Proof. by vm_compute. Qed.

Lemma line_is_what_is_shown_witness :
  exists keys, reads (foldl show {| row := [36]; column := 1 |} keys) [36; 97; 99].
Proof.
  destruct (line_is_what_is_shown {| row := [36]; column := 1 |} [36] 2 0 [0; 0; 0] 0 typed) as [_ H];
    [split; [done|by exists 0%nat]|cbn; lia|done|by repeat constructor|].
  destruct (H LINE_OK 2 typed_editor [] typed_line) as (_ & _ & _ & _ & K). destruct (K eq_refl) as (keys & _ & R).
  rewrite typed_text in R. exists keys. exact R.
Defined.

Lemma accepted_line_is_whole_witness :
  exists e', line_edit 80 0 (replicate 81 0) 0 typed = Ok (LINE_OK, 2, e', []) /\ take (Z.to_nat 2) (line e') = [97; 99].
Proof.
  destruct (accepted_line_is_whole 2 80 0 [0; 0; 0] (replicate 81 0) 0 typed 2 typed_editor []) as (e' & E & T);
    [done|lia|lia|cbn; lia|by vm_compute|exact typed_line|]. rewrite typed_text in T. exists e'. split; [exact E|exact T].
Defined.

End Line.
