(* ===== verification/Gfx.v ===== *)
(** * Software drawing (programs/rv32/gfx.c)

    A surface is an array of one-byte pixels at an address; the address matters
    because spans are filled a word at a time where it is aligned.  Signed
    overflow is undefined: [int] is [Stuck] outside 32 bits. *)

From S2P Require Import Prelude Effects Buffer.

Module Gfx.

(** C's [int32_t] arithmetic. *)
Definition int (z : Z) : res Z := if (-0x80000000 <=? z) && (z <=? 0x7fffffff) then Ok z else Stuck.

(** The struct, its pixels apart: they are the buffer the functions thread. *)
Record gfx_surface : Type := { address : Z; width : Z; height : Z }.

Definition GFX_GLYPH_COLUMNS : Z := 3.
Definition GFX_GLYPH_ROWS : Z := 5.

Definition GLYPHS : list (list Z) :=
  [[7; 5; 5; 5; 7]; [2; 6; 2; 2; 7]; [7; 1; 7; 4; 7]; [7; 1; 7; 1; 7]; [5; 5; 7; 1; 1];
   [7; 4; 7; 1; 7]; [7; 4; 7; 5; 7]; [7; 1; 1; 1; 1]; [7; 5; 7; 5; 7]; [7; 5; 7; 1; 7]].

Definition gfx_glyph_row (digit row : Z) : res Z :=
  if (digit <? 10) && (row <? GFX_GLYPH_ROWS) then r ← aget GLYPHS digit; aget r row else mret 0.

(** ** Spans *)

(** Bytes while the address is not aligned. *)
Fixpoint span_head (fuel : nat) (base : Z) (b : buffer) (p count color : Z) : res (buffer * Z * Z) :=
  match fuel with
  | O => NoFuel
  | S fuel' =>
      if (0 <? count) && tst ((base + p) .& 3)
      then b ← buf_set b p color; span_head fuel' base b (p + 1) (count - 1) color
      else mret (b, p, count)
  end.

Fixpoint span_words (fuel : nat) (b : buffer) (p count word : Z) : res (buffer * Z * Z) :=
  match fuel with
  | O => NoFuel
  | S fuel' =>
      if 4 <=? count then b ← bytes_write b p 4 word; span_words fuel' b (p + 4) (count - 4) word
      else mret (b, p, count)
  end.

Fixpoint span_tail (fuel : nat) (b : buffer) (p count color : Z) : res buffer :=
  match fuel with
  | O => NoFuel
  | S fuel' =>
      if 0 <? count then b ← buf_set b p color; span_tail fuel' b (p + 1) (count - 1) color
      else mret b
  end.

Definition fill_span (base : Z) (b : buffer) (p count color : Z) : res buffer :=
  let fuel := S (Z.to_nat count) in
  let word := color .| (color .<< 8) .| (color .<< 16) .| u32 (color .<< 24) in
  '(b, p, count) ← span_head fuel base b p count color;
  '(b, p, count) ← span_words fuel b p count word;
  span_tail fuel b p count color.

Definition gfx_clear (s : gfx_surface) (b : buffer) (color : Z) : res buffer :=
  fill_span (address s) b 0 (u32 (width s * height s)) color.

(** ** Rectangles *)

Fixpoint fill_rows (n : nat) (s : gfx_surface) (b : buffer) (row count color : Z) : res buffer :=
  match n with
  | O => mret b
  | S n' => b ← fill_span (address s) b row count color; fill_rows n' s b (row + width s) count color
  end.

Definition gfx_fill_rect (s : gfx_surface) (b : buffer) (x y w h color : Z) : res buffer :=
  x1 ← int (x + w);
  y1 ← int (y + h);
  let x := if x <? 0 then 0 else x in
  let y := if y <? 0 then 0 else y in
  let x1 := if s32 (width s) <? x1 then s32 (width s) else x1 in
  let y1 := if s32 (height s) <? y1 then s32 (height s) else y1 in
  if (x1 <=? x) || (y1 <=? y) then mret b
  else fill_rows (Z.to_nat (y1 - y)) s b (u32 (u32 y * width s) + u32 x) (u32 (x1 - x)) color.

(** ** Digits *)

Fixpoint draw_columns (n : nat) (s : gfx_surface) (b : buffer) (bits column cx cy cell color : Z) : res buffer :=
  match n with
  | O => mret b
  | S n' =>
      b ← (if tst (bits .& (4 .>> column)) then gfx_fill_rect s b cx cy cell cell color else mret b);
      cx ← int (cx + cell);
      draw_columns n' s b bits (column + 1) cx cy cell color
  end.

Fixpoint draw_rows (n : nat) (s : gfx_surface) (b : buffer) (digit row x cy cell color : Z) : res buffer :=
  match n with
  | O => mret b
  | S n' =>
      bits ← gfx_glyph_row digit row;
      b ← draw_columns (Z.to_nat GFX_GLYPH_COLUMNS) s b bits 0 x cy cell color;
      cy ← int (cy + cell);
      draw_rows n' s b digit (row + 1) x cy cell color
  end.

Definition gfx_draw_digit (s : gfx_surface) (b : buffer) (x y digit scale color : Z) : res buffer :=
  draw_rows (Z.to_nat GFX_GLYPH_ROWS) s b digit 0 x y (s32 scale) color.

(** [while (ones >= 10) { ones -= 10; tens++; }] *)
Fixpoint count_tens (fuel : nat) (tens ones : Z) : res (Z * Z) :=
  match fuel with
  | O => NoFuel
  | S fuel' => if 10 <=? ones then count_tens fuel' (u32 (tens + 1)) (ones - 10) else mret (tens, ones)
  end.

Definition gfx_draw_number (s : gfx_surface) (b : buffer) (x y value scale color : Z) : res buffer :=
  let fuel := S (Z.to_nat value) in
  '(tens, ones) ← count_tens fuel 0 value;
  '(_, tens) ← count_tens fuel 0 tens;
  b ← gfx_draw_digit s b x y tens scale color;
  x' ← int (x + s32 (u32 (4 * scale)));
  gfx_draw_digit s b x' y ones scale color.

(** ** What is painted *)

(** [b'] is [b] with the pixels of [hit] in the colour. *)
Definition painted (hit : Z -> bool) (color : Z) (b b' : buffer) : Prop :=
  buf_len b' = buf_len b /\ forall i, byte_at b' i = if hit i then color else byte_at b i.

Definition between (lo hi : Z) (i : Z) : bool := (lo <=? i) && (i <? hi).

Lemma painted_refl (hit : Z -> bool) c b : (forall i, hit i = false) -> painted hit c b b.
Proof. intros H. split; [done|]. intros i. by rewrite H. Qed.

Lemma painted_trans (h1 h2 h3 : Z -> bool) c b1 b2 b3 :
  painted h1 c b1 b2 -> painted h2 c b2 b3 -> (forall i, h3 i = h1 i || h2 i) -> painted h3 c b1 b3.
Proof.
  intros [L1 P1] [L2 P2] Hu. split; [congruence|]. intros i. rewrite P2, P1, Hu. by destruct (h1 i), (h2 i).
Qed.

Lemma painted_ok h c b b' : is_u8 c -> buf_ok b -> painted h c b b' -> buf_ok b'.
Proof. intros Hc [Hl Hb] [L P]. split; [lia|]. intros i. rewrite P. by destruct (h i). Qed.

Lemma set_painted b p c : is_u8 c -> 0 <= p < buf_len b -> exists b', buf_set b p c = Ok b' /\ painted (between p (p + 1)) c b b'.
Proof.
  intros Hc Hp. destruct (buf_set_ok b p c Hp) as (b' & E & L & P). exists b'. split; [done|]. split; [done|].
  intros i. rewrite P, u8_id by done. unfold between. destruct (Z.eqb_spec i p), (Z.leb_spec p i), (Z.ltb_spec i (p + 1)); try done; lia.
Qed.

(** Four bytes of one colour. *)
Lemma word_byte c k : is_u8 c -> 0 <= k < 4 ->
  u8 ((c .| (c .<< 8) .| (c .<< 16) .| u32 (c .<< 24)) .>> (8 * k)) = c.
Proof.
  unfold is_u8. intros Hc Hk. rewrite u32_id by (rewrite Z.shiftl_mul_pow2 by lia; unfold is_u32; lia).
  rewrite (Z.lor_comm c), lor_add by lia. rewrite (Z.lor_comm _ (c .<< 16)), lor_add by lia.
  rewrite (Z.lor_comm _ (c .<< 24)), lor_add by lia. rewrite Z.shiftr_div_pow2 by lia. unfold u8.
  assert (H : k = 0 \/ k = 1 \/ k = 2 \/ k = 3) by lia. destruct H as [->|[->|[->| ->]]]; cbn [Z.mul Z.pow Z.pow_pos Pos.iter Pos.mul Pos.add]; zlia.
Qed.

Lemma word_painted b p c : is_u8 c -> 0 <= p -> p + 4 <= buf_len b ->
  exists b', bytes_write b p 4 (c .| (c .<< 8) .| (c .<< 16) .| u32 (c .<< 24)) = Ok b' /\ painted (between p (p + 4)) c b b'.
Proof.
  intros Hc Hp Hl. destruct (bytes_write_spec b p 4 (c .| (c .<< 8) .| (c .<< 16) .| u32 (c .<< 24))) as (b' & E & L & P); [lia..|].
  exists b'. split; [done|]. split; [done|]. intros i. rewrite P. fold (between p (p + 4) i).
  destruct (between p (p + 4) i) eqn:Eb; [|done]. apply word_byte; [done|]. unfold between in Eb. bools. lia.
Qed.

Lemma between_join a b c i : a <= b -> b <= c -> between a c i = between a b i || between b c i.
Proof.
  intros. unfold between. destruct (Z.leb_spec a i), (Z.ltb_spec i b), (Z.leb_spec b i), (Z.ltb_spec i c); try done; lia.
Qed.

Lemma between_none a i : between a a i = false.
Proof. unfold between. destruct (Z.leb_spec a i), (Z.ltb_spec i a); try done; lia. Qed.

Section Span.
Context (c : Z) (Hc : is_u8 c).

(** What a loop of a span has done: painted up to where it stands. *)
Definition span_done (b : buffer) (p count : Z) (b' : buffer) (p' count' : Z) : Prop :=
  p <= p' /\ 0 <= count' /\ p' + count' = p + count /\ painted (between p p') c b b'.

Lemma span_done_refl b p count : 0 <= count -> span_done b p count b p count.
Proof. intros. repeat (split; [lia|]). apply painted_refl, between_none. Qed.

Lemma span_done_trans b p n b1 p1 n1 b2 p2 n2 : span_done b p n b1 p1 n1 -> span_done b1 p1 n1 b2 p2 n2 -> span_done b p n b2 p2 n2.
Proof.
  intros (H1 & H2 & H3 & P1) (H4 & H5 & H6 & P2). split; [lia|]. split; [lia|]. split; [lia|].
  eapply painted_trans; [exact P1|exact P2|]. intros i. apply between_join; lia.
Qed.

Lemma span_head_spec fuel base b p count : (Z.to_nat count < fuel)%nat -> 0 <= p -> 0 <= count -> p + count <= buf_len b ->
  exists b' p' count', span_head fuel base b p count c = Ok (b', p', count') /\ span_done b p count b' p' count'.
Proof.
  revert b p count. induction fuel as [|fuel IH]; intros b p count Hf Hp Hn Hl; [lia|]. cbn [span_head].
  destruct ((0 <? count) && _) eqn:E; [|by exists b, p, count; split; [|apply span_done_refl]]. bools.
  destruct (set_painted b p c Hc) as (b1 & -> & P1); [lia|]. cbn [mbind res_bind].
  destruct (IH b1 (p + 1) (count - 1)) as (b' & p' & n' & E' & D); [lia..|destruct P1 as [-> _]; lia|].
  exists b', p', n'. split; [done|]. eapply span_done_trans; [|exact D]. repeat (split; [lia|]). done.
Qed.

Lemma span_words_spec fuel b p count : (Z.to_nat count < fuel)%nat -> 0 <= p -> 0 <= count -> p + count <= buf_len b ->
  exists b' p' count', span_words fuel b p count (c .| (c .<< 8) .| (c .<< 16) .| u32 (c .<< 24)) = Ok (b', p', count')
    /\ span_done b p count b' p' count'.
Proof.
  revert b p count. induction fuel as [|fuel IH]; intros b p count Hf Hp Hn Hl; [lia|]. cbn [span_words].
  destruct (Z.leb_spec 4 count); [|by exists b, p, count; split; [|apply span_done_refl]].
  destruct (word_painted b p c Hc) as (b1 & -> & P1); [lia..|]. cbn [mbind res_bind].
  destruct (IH b1 (p + 4) (count - 4)) as (b' & p' & n' & E' & D); [lia..|destruct P1 as [-> _]; lia|].
  exists b', p', n'. split; [done|]. eapply span_done_trans; [|exact D]. repeat (split; [lia|]). done.
Qed.

Lemma span_tail_spec fuel b p count : (Z.to_nat count < fuel)%nat -> 0 <= p -> 0 <= count -> p + count <= buf_len b ->
  exists b', span_tail fuel b p count c = Ok b' /\ painted (between p (p + count)) c b b'.
Proof.
  revert b p count. induction fuel as [|fuel IH]; intros b p count Hf Hp Hn Hl; [lia|]. cbn [span_tail].
  destruct (Z.ltb_spec 0 count).
  - destruct (set_painted b p c Hc) as (b1 & -> & P1); [lia|]. cbn [mbind res_bind].
    destruct (IH b1 (p + 1) (count - 1)) as (b' & E' & D); [lia..|destruct P1 as [-> _]; lia|].
    exists b'. split; [done|]. eapply painted_trans; [exact P1|exact D|]. intros i.
    replace (p + 1 + (count - 1)) with (p + count) by lia. apply between_join; lia.
  - exists b. split; [done|]. replace count with 0 by lia. rewrite Z.add_0_r. apply painted_refl, between_none.
Qed.

Lemma fill_span_spec base b p count : 0 <= p -> 0 <= count -> p + count <= buf_len b ->
  exists b', fill_span base b p count c = Ok b' /\ painted (between p (p + count)) c b b'.
Proof.
  intros Hp Hn Hl. unfold fill_span. cbv zeta.
  destruct (span_head_spec (S (Z.to_nat count)) base b p count) as (b1 & p1 & n1 & -> & D1); [lia..|]. cbn [mbind res_bind].
  pose proof D1 as (A1 & A2 & A3 & (L1 & _)).
  destruct (span_words_spec (S (Z.to_nat count)) b1 p1 n1) as (b2 & p2 & n2 & -> & D2); [lia..|]. cbn [mbind res_bind].
  pose proof (span_done_trans _ _ _ _ _ _ _ _ _ D1 D2) as (B1 & B2 & B3 & P). pose proof P as [L2 _].
  destruct (span_tail_spec (S (Z.to_nat count)) b2 p2 n2) as (b3 & -> & P3); [lia..|].
  exists b3. split; [done|]. eapply painted_trans; [exact P|exact P3|]. intros i. rewrite B3. apply between_join; lia.
Qed.

(** A pixel of the rectangle, by its index in the array. *)
Definition in_box (w x0 x1 y0 y1 i : Z) : bool := between x0 x1 (i mod w) && between y0 y1 (i / w).

Lemma row_box w x0 x1 y i : 0 < w -> 0 <= x0 -> x0 <= x1 <= w ->
  between (y * w + x0) (y * w + x0 + (x1 - x0)) i = in_box w x0 x1 y (y + 1) i.
Proof.
  intros Hw Hx Hx1. unfold in_box, between. pose proof (Z.div_mod i w ltac:(lia)) as Hd. pose proof (Z.mod_pos_bound i w Hw) as Hm.
  apply eq_true_iff_eq. rewrite !andb_true_iff, !Z.leb_le, !Z.ltb_lt.
  split; [intros H|intros H; nia].
  assert (Hq : i / w = y). { symmetry. apply (Z.div_unique_pos i w y (i - y * w)); lia. } nia.
Qed.

Lemma on_surface w h i : 0 < w -> between 0 (w * h) i = between 0 h (i / w).
Proof.
  intros Hw. unfold between. apply eq_true_iff_eq. rewrite !andb_true_iff, !Z.leb_le, !Z.ltb_lt.
  pose proof (Z.div_mod i w ltac:(lia)) as Hd. pose proof (Z.mod_pos_bound i w Hw) as Hm. split; intros [H1 H2].
  - split; [by apply Z.div_pos|by apply Z.div_lt_upper_bound].
  - split; [pose proof (Z.mul_nonneg_nonneg w (i / w)); lia|]. pose proof (Z.mul_le_mono_nonneg_l (i / w) (h - 1) w). lia.
Qed.

Lemma fill_rows_spec n s b x0 x1 y : 0 < width s -> 0 <= x0 -> x0 <= x1 <= width s -> 0 <= y ->
  (y + Z.of_nat n) * width s <= buf_len b ->
  exists b', fill_rows n s b (y * width s + x0) (x1 - x0) c = Ok b' /\ painted (in_box (width s) x0 x1 y (y + Z.of_nat n)) c b b'.
Proof.
  intros Hw Hx Hx1. revert b y. induction n as [|n IH]; intros b y Hy Hl.
  - exists b. split; [done|]. apply painted_refl. intros i. unfold in_box. rewrite Z.add_0_r, between_none. apply andb_false_r.
  - cbn [fill_rows]. destruct (fill_span_spec (address s) b (y * width s + x0) (x1 - x0)) as (b1 & -> & P1); [nia|lia|nia|].
    cbn [mbind res_bind]. destruct (IH b1 (y + 1)) as (b' & E & P); [lia|destruct P1 as [-> _]; nia|].
    replace (y * width s + x0 + width s) with ((y + 1) * width s + x0) by ring. exists b'. split; [done|].
    eapply painted_trans; [exact P1|exact P|]. intros i. rewrite row_box by lia.
    replace (y + Z.of_nat (S n)) with (y + 1 + Z.of_nat n) by lia. unfold in_box.
    rewrite (between_join y (y + 1)) by lia. by destruct (between x0 x1 _), (between y _ _), (between (y + 1) _ _).
Qed.

(** [gfx_fill_rect] paints the rectangle's pixels that are on the surface. *)
Lemma fill_rect_spec s b x y w h :
  0 < width s < 0x80000000 -> 0 < height s < 0x80000000 -> width s * height s <= buf_len b -> width s * height s < 0x100000000 ->
  -0x80000000 <= x < 0x80000000 -> -0x80000000 <= y < 0x80000000 ->
  -0x80000000 <= x + w < 0x80000000 -> -0x80000000 <= y + h < 0x80000000 ->
  exists b', gfx_fill_rect s b x y w h c = Ok b'
    /\ painted (fun i => between 0 (width s * height s) i && in_box (width s) x (x + w) y (y + h) i) c b b'.
Proof.
  intros Hw Hh Hl Hs Hx Hy Hx1 Hy1. unfold gfx_fill_rect, int.
  rewrite (proj2 (Z.leb_le (-0x80000000) (x + w))), (proj2 (Z.leb_le (x + w) 0x7fffffff)) by lia. cbn [andb mbind res_bind].
  rewrite (proj2 (Z.leb_le (-0x80000000) (y + h))), (proj2 (Z.leb_le (y + h) 0x7fffffff)) by lia. cbn [andb mbind res_bind].
  rewrite !s32_id by (unfold is_s32; lia). cbv zeta.
  replace (if x <? 0 then 0 else x) with (Z.max 0 x) by (destruct (Z.ltb_spec x 0); lia).
  replace (if y <? 0 then 0 else y) with (Z.max 0 y) by (destruct (Z.ltb_spec y 0); lia).
  replace (if width s <? x + w then width s else x + w) with (Z.min (width s) (x + w)) by (destruct (Z.ltb_spec (width s) (x + w)); lia).
  replace (if height s <? y + h then height s else y + h) with (Z.min (height s) (y + h)) by (destruct (Z.ltb_spec (height s) (y + h)); lia).
  set (X0 := Z.max 0 x). set (X1 := Z.min (width s) (x + w)). set (Y0 := Z.max 0 y). set (Y1 := Z.min (height s) (y + h)).
  assert (Hhit : forall i, between 0 (width s * height s) i && in_box (width s) x (x + w) y (y + h) i = in_box (width s) X0 X1 Y0 Y1 i).
  { intros i. pose proof (on_surface (width s) (height s) i ltac:(lia)) as Hon.
    pose proof (Z.mod_pos_bound i (width s) ltac:(lia)) as Hm. unfold in_box, X0, X1, Y0, Y1.
    destruct (between 0 (width s * height s) i) eqn:Eb; unfold between in *; bools; apply eq_true_iff_eq;
      rewrite !andb_true_iff, !Z.leb_le, !Z.ltb_lt; lia. }
  destruct ((X1 <=? X0) || (Y1 <=? Y0)) eqn:Ee.
  - exists b. split; [done|]. apply painted_refl. intros i. rewrite Hhit. unfold in_box, between.
    apply orb_true_iff in Ee. rewrite !Z.leb_le in Ee. apply not_true_iff_false. rewrite !andb_true_iff, !Z.leb_le, !Z.ltb_lt. lia.
  - apply orb_false_iff in Ee as [E1 E2]. apply Z.leb_gt in E1, E2.
    assert (HX : 0 <= X0 /\ X1 <= width s) by lia. assert (HY : 0 <= Y0 /\ Y1 <= height s) by lia. clearbody X0 X1 Y0 Y1.
    rewrite (u32_id Y0), (u32_id X0), (u32_id (X1 - X0)), (u32_id (Y0 * width s)) by (unfold is_u32; nia).
    destruct (fill_rows_spec (Z.to_nat (Y1 - Y0)) s b X0 X1 Y0) as (b' & E & P); [lia..|nia|].
    exists b'. split; [exact E|]. destruct P as [L P]. split; [exact L|]. intros i. rewrite P, Hhit. by replace (Y0 + Z.of_nat (Z.to_nat (Y1 - Y0))) with Y1 by lia.
Qed.
End Span.

End Gfx.
