(* ===== verification/GpuRef.v ===== *)
(** * The software reference of the 2D engine (programs/rv32/gpu_ref.c)

    [gpu_reference] draws a command directly.  Its source pointer is the
    framebuffer itself, which the drawing then changes under it, or memory.
    The engine and the reference leave the same pixels. *)

From S2P Require Import Prelude Effects Buffer Gpu GpuProofs GpuDraw Gfx.

Module GpuRef.
Import Gpu GpuProofs GpuDraw.

(** ** The reference *)

Definition gpu_command_init (op color : Z) : list Z :=
  <[Z.to_nat GP_COLOR := color]> (<[Z.to_nat GP_OP := op]> (replicate (Z.to_nat GP_COUNT) 0)).

(** Where the source pointer points. *)
Inductive source : Type := Framebuffer | Memory (b : buffer) (at0 : Z).

Definition pixel (x y c : Z) : ST buffer () :=
  if (0 <=? x) && (x <? 320) && (0 <=? y) && (y <? 240)
  then fun fb => fb' ← buf_set fb (u32 (u32 (y * 320) + x)) c; mret ((), fb')
  else mret ().

Definition source_byte (src : source) (off : Z) : ST buffer Z :=
  match src with
  | Framebuffer => fun fb => c ← buf_get fb off; mret (c, fb)
  | Memory b at0 => lift (buf_get b (at0 + off))
  end.

Definition edge (ax ay bx by_ x y : Z) : Z := (bx - ax) * (2 * y + 1 - 2 * ay) - (by_ - ay) * (2 * x + 1 - 2 * ax).
Definition inside (ax ay bx by_ x y : Z) : bool :=
  let e := edge ax ay bx by_ x y in
  (0 <? e) || ((e =? 0) && ((by_ <? ay) || ((by_ =? ay) && (ax <? bx)))).

(** The loop of a line. *)
Fixpoint line_loop (fuel : nat) (x0 y0 err x1 y1 dx dy sy color : Z) : ST buffer () :=
  match fuel with
  | O => no_fuel
  | S fuel' =>
      pixel x0 y0 color;;
      if (x0 =? x1) && (y0 =? y1) then mret ()
      else
        let e2 := 2 * err in
        let '(err, x0) := if - dy <=? e2 then (err - dy, x0 + 1) else (err, x0) in
        let '(err, y0) := if e2 <=? dx then (err + dx, y0 + sy) else (err, y0) in
        line_loop fuel' x0 y0 err x1 y1 dx dy sy color
  end.

Definition ref_line (x0 y0 x1 y1 color : Z) : ST buffer () :=
  let '(x0, y0, x1, y1) := if (x1 <? x0) || ((x0 =? x1) && (y1 <? y0)) then (x1, y1, x0, y0) else (x0, y0, x1, y1) in
  let dx := x1 - x0 in
  let dy := y1 - y0 in
  let sy := if dy <? 0 then -1 else 1 in
  let dy := if dy <? 0 then - dy else dy in
  line_loop (S (Z.to_nat (dx + dy))) x0 y0 (dx - dy) x1 y1 dx dy sy color.

Definition ref_triangle (x0 y0 x1 y1 x2 y2 color : Z) : ST buffer () :=
  let area := (x1 - x0) * (y2 - y0) - (y1 - y0) * (x2 - x0) in
  if area =? 0 then mret ()
  else
    let '(x1, y1, x2, y2) := if area <? 0 then (x2, y2, x1, y1) else (x1, y1, x2, y2) in
    let left := if x0 <? x1 then x0 else x1 in
    let right := if x1 <? x0 then x0 else x1 in
    let top := if y0 <? y1 then y0 else y1 in
    let bottom := if y1 <? y0 then y0 else y1 in
    let left := if x2 <? left then x2 else left in
    let right := if right <? x2 then x2 else right in
    let top := if y2 <? top then y2 else top in
    let bottom := if bottom <? y2 then y2 else bottom in
    let left := if left <? 0 then 0 else left in
    let right := if 320 <? right then 320 else right in
    let top := if top <? 0 then 0 else top in
    let bottom := if 240 <? bottom then 240 else bottom in
    for_up (Z.to_nat (bottom - top)) top (fun y =>
      for_up (Z.to_nat (right - left)) left (fun x =>
        when (inside x0 y0 x1 y1 x y && inside x1 y1 x2 y2 x y && inside x2 y2 x0 y0 x y) (pixel x y color))).

(** The body of the copying loop; the colour is the fill's until a source byte replaces it. *)
Definition ref_copy (q : Z -> Z) (src : source) (x0 y0 : Z) (i j : Z) : ST buffer () :=
  let w := s32 (q GP_W) in
  let h := s32 (q GP_H) in
  let sx := s32 (q GP_SX) in
  let sy := s32 (q GP_SY) in
  let reverse := (q GP_OP =? GPU_BLIT) && (q GP_SRC =? 0x12000000) && (sy * 320 + sx <? y0 * 320 + x0) in
  let xx := if reverse then w - 1 - i else i in
  let yy := if reverse then h - 1 - j else j in
  let x := x0 + xx in
  let y := y0 + yy in
  if (x <? 0) || (320 <=? x) || (y <? 0) || (240 <=? y) then mret ()
  else if q GP_OP =? GPU_BLIT then
    let u := sx + xx in
    let v := sy + yy in
    if (u <? 0) || (v <? 0) || (s32 (q GP_SW) <=? u) || (s32 (q GP_SH) <=? v) then mret ()
    else color ← source_byte src (u32 (u32 (v * q GP_STRIDE) + u)); pixel x y color
  else pixel x y (u8 (q GP_COLOR)).

Definition ref_blit (q : Z -> Z) (src : source) (x0 y0 : Z) : ST buffer () :=
  for_up (Z.to_nat (s32 (q GP_H))) 0 (fun j => for_up (Z.to_nat (s32 (q GP_W))) 0 (fun i => ref_copy q src x0 y0 i j)).

(** [fb] is at [address]. *)
Definition gpu_reference (address : Z) (src : source) (command : list Z) : ST buffer () :=
  let q := at_ command in
  let x0 := s32 (q GP_X0) in let y0 := s32 (q GP_Y0) in
  let x1 := s32 (q GP_X1) in let y1 := s32 (q GP_Y1) in
  let x2 := s32 (q GP_X2) in let y2 := s32 (q GP_Y2) in
  let color := u8 (q GP_COLOR) in
  if q GP_OP =? GPU_FILL then fun fb =>
    fb' ← Gfx.gfx_fill_rect {| Gfx.address := address; Gfx.width := 320; Gfx.height := 240 |} fb x0 y0 (s32 (q GP_W)) (s32 (q GP_H)) color;
    mret ((), fb')
  else if q GP_OP =? GPU_LINE then ref_line x0 y0 x1 y1 color
  else if q GP_OP =? GPU_TRIANGLE then ref_triangle x0 y0 x1 y1 x2 y2 color
  else ref_blit q src x0 y0.

(** ** What it draws *)

(** [fb'] has the framebuffer's size and, pixel by pixel, the bytes of [f]. *)
Definition shows (fb' : buffer) (f : Z -> Z) : Prop := fb_ok fb' /\ forall i, 0 <= i < 76800 -> byte_at fb' i = f i.

Lemma pixel_wp x y c fb : is_u8 c -> fb_ok fb ->
  exists fb', pixel x y c fb = Ok ((), fb') /\ fb_ok fb'
    /\ forall i, byte_at fb' i = if on_screen (x, y) && (i =? y * 320 + x) then c else byte_at fb i.
Proof.
  intros Hc [[Hl Hb] El]. unfold pixel, on_screen. cbn [fst snd].
  destruct ((0 <=? x) && (x <? 320) && (0 <=? y) && (y <? 240)) eqn:E; [|by exists fb; split; [|split]]. bools.
  rewrite (u32_id (y * 320)), u32_id by (unfold is_u32; lia). destruct (buf_set_ok fb (y * 320 + x) c) as (fb' & -> & El' & P); [lia|].
  exists fb'. split; [done|]. split.
  - split; [|lia]. split; [lia|]. intros i. rewrite P, u8_id by done. by destruct (i =? _).
  - intros i. rewrite P, u8_id by done. done.
Qed.

(** Running the first half of a composition that returns. *)
Lemma then_ok {S A B} (c : ST S A) (f : A -> ST S B) s a s' : c s = Ok (a, s') -> (c ≫= f) s = f a s'.
Proof. intros E. unfold mbind, st_bind. by rewrite E. Qed.

(** The line's loop plots the points of [bresenham]. *)
Lemma line_loop_spec n g fb i j c :
  is_u8 c -> line_at g i j -> dx g + dy g - (i + j) <= Z.of_nat n -> fb_ok fb ->
  exists fb', line_loop (S n) (x g) (y g) (err g) (bx g) (by_ g) (dx g) (dy g) (sy g) c fb = Ok ((), fb') /\ fb_ok fb'
    /\ forall k, byte_at fb' k = if line_hit (bresenham n (x g) (y g) (err g) (bx g) (by_ g) (dx g) (dy g) (sy g)) k then c else byte_at fb k.
Proof.
  intros Hc. revert g fb i j. induction n as [|n IH]; intros g fb i j L Hn Hfb.
  all: destruct (pixel_wp (x g) (y g) c fb Hc Hfb) as (fb1 & E1 & Hfb1 & P1).
  all: cbn [line_loop]; rewrite (then_ok _ _ _ _ _ E1); cbn [bresenham]; change ((x g =? bx g) && (y g =? by_ g)) with (line_done g).
  all: destruct (line_done g) eqn:Ed;
    [exists fb1; split; [done|]; split; [done|]; intros k; rewrite P1; unfold line_hit; cbn; by rewrite orb_false_r|].
  all: destruct (line_next_at g i j L Ed) as (i' & j' & L' & Hij).
  - exfalso. destruct L'. cbn in *. lia.
  - destruct (IH (line_next g) fb1 i' j' L') as (fb' & E & Hfb' & P); [cbn; lia|done|].
    exists fb'. split; [|split; [done|]].
    + rewrite <- E. unfold line_next. cbn [x y err bx by_ dx dy sy]. cbv zeta.
      by destruct (- dy g <=? 2 * err g), (2 * err g <=? dx g); rewrite ?Z.sub_0_r, ?Z.add_0_r.
    + intros k. rewrite P, P1. unfold line_hit. cbn [existsb fst snd line_next x y err bx by_ dx dy sy].
      destruct (on_screen (x g, y g) && (k =? y g * 320 + x g)); cbn [orb]; [by destruct (existsb _ _)|done].
Qed.

(** ** Sweeps of a rectangle *)

(** Two nested loops that give each pixel of [hit] its value [val], visiting it
    where the counters are [ci] and [cj]. *)
Section Sweep.
Context (hit : Z -> bool) (ci cj val : Z -> Z) (fb0 : buffer) (i0 j0 : Z) (W H : nat) (body : Z -> Z -> ST buffer ()).

(** The pixels visited before the counters are at [(i, j)] have their value. *)
Definition swept (j i : Z) (fb : buffer) : Prop :=
  shows fb (fun k => if hit k && ((cj k <? j) || ((cj k =? j) && (ci k <? i))) then val k else byte_at fb0 k).

Lemma swept_skip j i fb :
  swept j i fb -> (forall k, 0 <= k < 76800 -> hit k = true -> ci k = i -> cj k = j -> False) -> swept j (i + 1) fb.
Proof.
  intros [Hfb Hs] Hn. split; [done|]. intros k Hk. rewrite Hs by done. destruct (hit k) eqn:Eh; [|done]. cbn [andb].
  destruct (Z.ltb_spec (cj k) j), (Z.eqb_spec (cj k) j), (Z.ltb_spec (ci k) i), (Z.ltb_spec (ci k) (i + 1)); try done; cbn; try lia.
  exfalso. apply (Hn k Hk Eh); lia.
Qed.

Lemma swept_put j i fb fb' k0 :
  swept j i fb -> 0 <= k0 < 76800 -> hit k0 = true -> ci k0 = i -> cj k0 = j ->
  (forall k, 0 <= k < 76800 -> hit k = true -> ci k = i -> cj k = j -> k = k0) -> fb_ok fb' ->
  (forall k, byte_at fb' k = if k =? k0 then val k0 else byte_at fb k) -> swept j (i + 1) fb'.
Proof.
  intros [Hfb Hs] Hk0 Eh0 Ei Ej Hu Hfb' P. split; [done|]. intros k Hk. rewrite P.
  destruct (Z.eqb_spec k k0) as [->|Hne].
  - rewrite Eh0, Ei, Ej, Z.eqb_refl, (proj2 (Z.ltb_lt i (i + 1))) by lia. by rewrite orb_true_r.
  - rewrite Hs by done. destruct (hit k) eqn:Eh; [|done]. cbn [andb].
    destruct (Z.ltb_spec (cj k) j), (Z.eqb_spec (cj k) j), (Z.ltb_spec (ci k) i), (Z.ltb_spec (ci k) (i + 1)); try done; cbn; try lia.
    exfalso. apply Hne, Hu; lia || done.
Qed.

Hypothesis (Hhit : forall k, 0 <= k < 76800 -> hit k = true -> i0 <= ci k < i0 + Z.of_nat W /\ j0 <= cj k < j0 + Z.of_nat H).
Hypothesis (Hbody : forall i j fb, i0 <= i < i0 + Z.of_nat W -> j0 <= j < j0 + Z.of_nat H ->
  swept j i fb -> wp (F := total) (body i j) (fun _ fb' => swept j (i + 1) fb') fb).

(** Two positions of the counters between which no pixel is visited. *)
Lemma swept_same j i j' i' fb :
  (forall k, 0 <= k < 76800 -> hit k = true ->
     (cj k <? j) || ((cj k =? j) && (ci k <? i)) = (cj k <? j') || ((cj k =? j') && (ci k <? i'))) ->
  swept j i fb -> swept j' i' fb.
Proof.
  intros He [Hfb Hs]. split; [done|]. intros k Hk. rewrite Hs by done. destruct (hit k) eqn:Eh; [|done]. by rewrite He.
Qed.

Lemma sweep_spec : fb_ok fb0 ->
  exists fb', for_up H j0 (fun j => for_up W i0 (fun i => body i j)) fb0 = Ok ((), fb')
    /\ shows fb' (fun k => if hit k then val k else byte_at fb0 k).
Proof.
  intros Hfb0.
  assert (S0 : swept j0 i0 fb0).
  { split; [done|]. intros k Hk. destruct (hit k) eqn:Eh; [|done]. destruct (Hhit k Hk Eh).
    destruct (Z.ltb_spec (cj k) j0), (Z.eqb_spec (cj k) j0), (Z.ltb_spec (ci k) i0); try done; lia. }
  assert (Wp : wp (F := total) (for_up H j0 (fun j => for_up W i0 (fun i => body i j)))
    (fun _ fb' => shows fb' (fun k => if hit k then val k else byte_at fb0 k)) fb0).
  { apply (wp_for_up (fun j fb => swept j i0 fb)); [done| |].
    - intros j fb Hj Hs. apply (wp_for_up (fun i fb => swept j i fb)); [done|intros i t Hi Ht; by apply Hbody|].
      intros t. apply swept_same. intros k Hk Eh. destruct (Hhit k Hk Eh).
      destruct (Z.ltb_spec (cj k) j), (Z.eqb_spec (cj k) j), (Z.ltb_spec (ci k) (i0 + Z.of_nat W)), (Z.ltb_spec (cj k) (j + 1)),
        (Z.eqb_spec (cj k) (j + 1)), (Z.ltb_spec (ci k) i0); try done; cbn; lia.
    - intros fb [Hfb Hs]. split; [done|]. intros k Hk. rewrite Hs by done. destruct (hit k) eqn:Eh; [|done].
      destruct (Hhit k Hk Eh). rewrite (proj2 (Z.ltb_lt (cj k) (j0 + Z.of_nat H))) by lia. done. }
  destruct (wp_total _ _ _ Wp) as ([] & fb' & E & S'). by exists fb'.
Qed.
End Sweep.

(** ** The commands *)

Section Command.
Context (g : gpu_device) (ram fb : buffer).
Context (Hfb : fb_ok fb) (Hram : buf_ok ram) (V : valid_params g (buf_len ram)) (Hu : forall i, 0 <= i < 16 -> is_u32 (par g i)).

Abbreviation q := (par g).
Abbreviation x0 := (s32 (q GP_X0)).
Abbreviation y0 := (s32 (q GP_Y0)).
Abbreviation c := (u8 (q GP_COLOR)).

Lemma screen_index k : 0 <= k < 76800 -> 0 <= k mod 320 < 320 /\ 0 <= k / 320 < 240 /\ k = k / 320 * 320 + k mod 320.
Proof. intros. split; [zlia|split; zlia]. Qed.

Lemma ref_fill_draws addr : q GP_OP = GPU_FILL ->
  exists fb', Gfx.gfx_fill_rect {| Gfx.address := addr; Gfx.width := 320; Gfx.height := 240 |} fb x0 y0 (s32 (q GP_W)) (s32 (q GP_H)) c = Ok fb'
    /\ shows fb' (drawn ram q fb).
Proof.
  intros Eo. destruct V. unfold op_of in *. destruct (vp_size0 (or_introl Eo)) as [Hw Hh], vp_a0 as [Hx Hy]. unfold small in *.
  pose proof (Hu GP_W ltac:(done)) as Uw. pose proof (Hu GP_H ltac:(done)) as Uh. unfold is_u32 in Uw, Uh.
  rewrite (s32_nonneg (q GP_W)), (s32_nonneg (q GP_H)) by (unfold is_u32; lia).
  destruct (Gfx.fill_rect_spec c (u8_range _) {| Gfx.address := addr; Gfx.width := 320; Gfx.height := 240 |} fb x0 y0 (q GP_W) (q GP_H))
    as (fb' & E & P); cbn [Gfx.width Gfx.height]; [lia|lia|destruct Hfb as [_ ->]; lia|lia|lia|lia|lia|lia|].
  exists fb'. split; [exact E|]. destruct Hfb as [Hok El]. split; [split; [by eapply (Gfx.painted_ok _ c); [apply u8_range|exact Hok|exact P]|destruct P; lia]|].
  destruct P as [_ P]. intros i Hi. rewrite P. cbn [Gfx.width Gfx.height]. unfold drawn, expected. rewrite Eo.
  change (GPU_FILL =? GPU_LINE) with false. change (GPU_FILL =? GPU_BLIT) with false. change (GPU_FILL =? GPU_TRIANGLE) with false. cbv iota zeta.
  unfold fill_hit, Gfx.in_box, Gfx.between. change (320 * 240) with 76800.
  rewrite (proj2 (Z.leb_le 0 i)), (proj2 (Z.ltb_lt i 76800)) by lia. cbn [andb]. by rewrite !andb_assoc.
Qed.

Lemma ref_line_draws : q GP_OP = GPU_LINE ->
  exists fb', ref_line x0 y0 (s32 (q GP_X1)) (s32 (q GP_Y1)) c fb = Ok ((), fb') /\ shows fb' (drawn ram q fb).
Proof.
  intros Eo. destruct V. unfold op_of in *. destruct vp_a0 as [Hx Hy], (vp_b0 (or_introl Eo)) as [Hx1 Hy1].
  destruct (setup_line_ok (load_coords g)) as (_ & _ & _ & L); [done..|].
  pose proof (line_points_setup g) as Ep. cbv zeta in Ep. pose proof L as [].
  destruct (line_loop_spec (Z.to_nat (dx (setup_line (load_coords g)) + dy (setup_line (load_coords g)))) (setup_line (load_coords g)) fb 0 0 c)
    as (fb' & E & Hf & P); [apply u8_range|done|lia|done|].
  exists fb'. split.
  - rewrite <- E. unfold ref_line, setup_line, load_coords. cbn [ax ay bx by_ x y err dx dy sy]. by destruct (_ || _).
  - split; [done|]. intros i _. rewrite P, <- Ep. unfold drawn. by rewrite Eo.
Qed.

(** A scan of a box on the screen that plots the points of [P]. *)
Lemma ref_scan_draws (P : Z -> Z -> bool) left right top bottom :
  0 <= left -> right <= 320 -> 0 <= top -> bottom <= 240 ->
  exists fb', for_up (Z.to_nat (bottom - top)) top (fun y => for_up (Z.to_nat (right - left)) left (fun x => when (P x y) (pixel x y c))) fb
      = Ok ((), fb')
    /\ shows fb' (fun k => if Gfx.in_box 320 left right top bottom k && P (k mod 320) (k / 320) then c else byte_at fb k).
Proof.
  intros Hl Hr Ht Hb.
  apply (sweep_spec (fun k => Gfx.in_box 320 left right top bottom k && P (k mod 320) (k / 320)) (fun k => k mod 320) (fun k => k / 320)
    (fun _ => c) fb left top _ _ (fun x y => when (P x y) (pixel x y c))); [| |done].
  - intros k Hk Eh. unfold Gfx.in_box, Gfx.between in Eh. bools. lia.
  - intros i j fb1 Hi Hj Hs. pose proof Hs as [Hf1 _].
    assert (Eij : forall k, 0 <= k < 76800 -> k mod 320 = i -> k / 320 = j -> k = j * 320 + i).
    { intros k Hk <- <-. by apply screen_index. }
    assert (Ek : (j * 320 + i) mod 320 = i /\ (j * 320 + i) / 320 = j) by (split; zlia). destruct Ek as [Em Eq].
    apply wp_when; intros Ep.
    + destruct (pixel_wp i j c fb1 (u8_range _) Hf1) as (fb2 & E & Hf2 & P2). unfold wp. rewrite E.
      assert (Eon : on_screen (i, j) = true).
      { unfold on_screen. cbn [fst snd]. rewrite !andb_true_iff, !Z.leb_le, !Z.ltb_lt. lia. }
      apply (swept_put _ _ _ _ _ j i fb1 fb2 (j * 320 + i) Hs); [lia| |done|done|by intros; apply Eij|done|].
      * rewrite Em, Eq, Ep, andb_true_r. unfold Gfx.in_box, Gfx.between. rewrite Em, Eq, !andb_true_iff, !Z.leb_le, !Z.ltb_lt. lia.
      * intros k. rewrite P2, Eon. done.
    + apply swept_skip; [done|]. intros k Hk Eh E1 E2. rewrite E1, E2, Ep, andb_false_r in Eh. done.
Qed.

Lemma ref_triangle_draws : q GP_OP = GPU_TRIANGLE ->
  exists fb', ref_triangle x0 y0 (s32 (q GP_X1)) (s32 (q GP_Y1)) (s32 (q GP_X2)) (s32 (q GP_Y2)) c fb = Ok ((), fb')
    /\ shows fb' (drawn ram q fb).
Proof.
  intros Eo. unfold drawn, expected, shows. rewrite Eo. change (GPU_TRIANGLE =? GPU_LINE) with false.
  change (GPU_TRIANGLE =? GPU_BLIT) with false. change (GPU_TRIANGLE =? GPU_TRIANGLE) with true. cbv iota zeta. unfold triangle_hit, ref_triangle. cbv zeta.
  set (x1 := s32 (q GP_X1)). set (y1 := s32 (q GP_Y1)). set (x2 := s32 (q GP_X2)). set (y2 := s32 (q GP_Y2)).
  destruct ((x1 - x0) * (y2 - y0) - (y1 - y0) * (x2 - x0) =? 0).
  { exists fb. split; [done|]. split; [done|]. done. }
  assert (Hgo : forall bx by_ cx cy, exists fb',
    for_up (Z.to_nat (Z.min 240 (Z.max y0 (Z.max by_ cy)) - Z.max 0 (Z.min y0 (Z.min by_ cy)))) (Z.max 0 (Z.min y0 (Z.min by_ cy)))
      (fun y => for_up (Z.to_nat (Z.min 320 (Z.max x0 (Z.max bx cx)) - Z.max 0 (Z.min x0 (Z.min bx cx)))) (Z.max 0 (Z.min x0 (Z.min bx cx)))
        (fun x => when (inside x0 y0 bx by_ x y && inside bx by_ cx cy x y && inside cx cy x0 y0 x y) (pixel x y c))) fb = Ok ((), fb')
    /\ fb_ok fb' /\ forall i, 0 <= i < 76800 -> byte_at fb' i =
      (if (Z.min x0 (Z.min bx cx) <=? i mod 320) && (i mod 320 <? Z.max x0 (Z.max bx cx)) &&
          (Z.min y0 (Z.min by_ cy) <=? i / 320) && (i / 320 <? Z.max y0 (Z.max by_ cy)) &&
          (Gpu.inside x0 y0 bx by_ (i mod 320) (i / 320) && Gpu.inside bx by_ cx cy (i mod 320) (i / 320)
           && Gpu.inside cx cy x0 y0 (i mod 320) (i / 320)) then c else byte_at fb i)).
  { intros bx by_ cx cy.
    destruct (ref_scan_draws (fun x y => inside x0 y0 bx by_ x y && inside bx by_ cx cy x y && inside cx cy x0 y0 x y)
      (Z.max 0 (Z.min x0 (Z.min bx cx))) (Z.min 320 (Z.max x0 (Z.max bx cx)))
      (Z.max 0 (Z.min y0 (Z.min by_ cy))) (Z.min 240 (Z.max y0 (Z.max by_ cy)))) as (fb' & E & Hf & P); [lia..|].
    exists fb'. split; [exact E|]. split; [done|]. intros i Hi. rewrite P by done. destruct (screen_index i Hi) as (Hm & Hd & _).
    unfold Gfx.in_box, Gfx.between. rewrite !clip_lo, !clip_hi by lia. by rewrite !andb_assoc. }
  assert (Mn : forall a b, (if a <? b then a else b) = Z.min a b) by (intros a b; destruct (Z.ltb_spec a b); lia).
  assert (Mx : forall a b, (if a <? b then b else a) = Z.max a b) by (intros a b; destruct (Z.ltb_spec a b); lia).
  assert (lo_same : forall a b c, Z.max (Z.min c (Z.min a b)) 0 = Z.max 0 (Z.min a (Z.min b c))) by lia.
  assert (hi_same : forall w a b c, Z.min w (Z.max (Z.max b a) c) = Z.min w (Z.max a (Z.max b c))) by lia.
  destruct (_ <? 0); rewrite !Mn, !Mx; clear Mn Mx.
  - destruct (Hgo x2 y2 x1 y1) as (fb' & E & Hs). exists fb'. split; [|exact Hs].
    rewrite <- E, (lo_same x0 x2 x1), (hi_same 320 x0 x2 x1), (lo_same y0 y2 y1), (hi_same 240 y0 y2 y1). done.
  - destruct (Hgo x1 y1 x2 y2) as (fb' & E & Hs). exists fb'. split; [|exact Hs].
    rewrite <- E, (lo_same x0 x1 x2), (hi_same 320 x0 x1 x2), (lo_same y0 y1 y2), (hi_same 240 y0 y1 y2). done.
Qed.
(** *** Copies *)

(** The pointer a caller passes for the command's source. *)
Definition source_of (q : Z -> Z) : source :=
  if q GP_SRC =? 0x12000000 then Framebuffer else Memory ram (q GP_SRC - 0x80000000).

Abbreviation sx := (s32 (q GP_SX)).
Abbreviation sy := (s32 (q GP_SY)).
Definition reversed : bool := (q GP_SRC =? 0x12000000) && (sy * 320 + sx <? y0 * 320 + x0).
(** The counters of the loops when they reach a pixel. *)
Definition at_i (k : Z) : Z := if reversed then q GP_W - 1 - (k mod 320 - x0) else k mod 320 - x0.
Definition at_j (k : Z) : Z := if reversed then q GP_H - 1 - (k / 320 - y0) else k / 320 - y0.

Lemma blit_hit_spec k : blit_hit q (k mod 320) (k / 320) = true <->
  x0 <= k mod 320 < x0 + q GP_W /\ y0 <= k / 320 < y0 + q GP_H
  /\ 0 <= sx + (k mod 320 - x0) < q GP_SW /\ 0 <= sy + (k / 320 - y0) < q GP_SH.
Proof. unfold blit_hit, fill_hit, blit_u, blit_v. rewrite !andb_true_iff, !Z.leb_le, !Z.ltb_lt. lia. Qed.

(** The pixel at [(x, y)], and the pixel its byte comes from. *)
Definition swept_blit : Z -> Z -> buffer -> Prop :=
  swept (fun k => blit_hit q (k mod 320) (k / 320)) at_i at_j (fun k => blit_source ram q fb (k mod 320) (k / 320)) fb.

(** The source byte is read before it is overwritten. *)
Lemma source_byte_wp x y fb1 :
  q GP_OP = GPU_BLIT -> 0 <= x < 320 -> 0 <= y < 240 -> blit_hit q x y = true -> swept_blit (at_j (y * 320 + x)) (at_i (y * 320 + x)) fb1 ->
  source_byte (source_of q) (u32 (u32 ((sy + (y - y0)) * q GP_STRIDE) + (sx + (x - x0)))) fb1 = Ok (blit_source ram q fb x y, fb1).
Proof.
  intros Eo Hx Hy Hh [Hf1 Hs]. unfold op_of in *. destruct V. destruct (vp_src0 Eo) as (Hsx & Hsy & Hsw & Hsh & Hst & Hsrc).
  assert (Ek : (y * 320 + x) mod 320 = x /\ (y * 320 + x) / 320 = y) by (split; zlia). destruct Ek as [Em Eq].
  pose proof (proj1 (blit_hit_spec (y * 320 + x))) as Hb. rewrite Em, Eq in Hb. specialize (Hb Hh) as (B1 & B2 & B3 & B4).
  set (u := sx + (x - x0)) in *. set (v := sy + (y - y0)) in *.
  assert (Hv : 0 <= v * q GP_STRIDE <= (q GP_SH - 1) * q GP_STRIDE).
  { split; [apply Z.mul_nonneg_nonneg; lia|apply Z.mul_le_mono_nonneg_r; lia]. }
  assert (Hv' : (q GP_SH - 1) * q GP_STRIDE <= 2047 * 65535) by (apply Z.mul_le_mono_nonneg; lia).
  rewrite (u32_id (v * _)), u32_id by (unfold is_u32; lia). unfold blit_source, source_of.
  assert (Eu : blit_v q y * q GP_STRIDE + blit_u q x = v * q GP_STRIDE + u).
  { unfold blit_u, blit_v, u, v. f_equal; [f_equal; lia|lia]. }
  cbv zeta. rewrite Eu. destruct (Z.eqb_spec (q GP_SRC) 0x12000000) as [Es|Es].
  - destruct Hsrc as [(_ & Ew & Eh & Et)|(_ & Hne & _)]; [|done]. rewrite Et in *. unfold source_byte. rewrite buf_get_ok by (destruct Hf1 as [_ ->]; lia).
    cbn [mbind res_bind]. unfold mret, res_ret. do 2 f_equal. rewrite Hs by lia.
    destruct (blit_hit q _ _ && _) eqn:Eh1; [exfalso|done]. apply andb_true_iff in Eh1 as [Eh1 Ev].
    assert (Ek : (v * 320 + u) mod 320 = u /\ (v * 320 + u) / 320 = v) by (split; zlia). destruct Ek as [Em' Eq'].
    revert Ev. unfold at_i, at_j, reversed. rewrite Em, Eq, Em', Eq', Es. cbn [Z.eqb Pos.eqb andb]. clear -u v Hx Hy B3 B4 Ew Eh.
    rewrite orb_true_iff, andb_true_iff. destruct (Z.ltb_spec (sy * 320 + sx) (y0 * 320 + x0)); rewrite !Z.ltb_lt, Z.eqb_eq; subst u v; lia.
  - destruct Hsrc as [(He & _)|(Hr & _ & Hend)]; [done|]. unfold source_byte, lift. rewrite buf_get_ok by lia. done.
Qed.

Lemma ref_blit_draws : q GP_OP = GPU_BLIT ->
  exists fb', ref_blit q (source_of q) x0 y0 fb = Ok ((), fb') /\ shows fb' (drawn ram q fb).
Proof.
  intros Eo. unfold op_of in *. pose proof V as []. destruct (vp_src0 Eo) as (Hsx & Hsy & Hsw & Hsh & Hst & _), (vp_size0 (or_intror Eo)) as [Hw Hh], vp_a0 as [Hx Hy].
  pose proof (Hu GP_W ltac:(done)) as Uw. pose proof (Hu GP_H ltac:(done)) as Uh. unfold small, is_u32 in *.
  assert (Ew : s32 (q GP_W) = q GP_W) by (apply s32_nonneg; [exact Uw|lia]). assert (Eh : s32 (q GP_H) = q GP_H) by (apply s32_nonneg; [exact Uh|lia]).
  assert (Esw : s32 (q GP_SW) = q GP_SW) by (apply s32_nonneg; [unfold is_u32|]; lia).
  assert (Esh : s32 (q GP_SH) = q GP_SH) by (apply s32_nonneg; [unfold is_u32|]; lia).
  unfold drawn, expected. rewrite Eo. change (GPU_BLIT =? GPU_LINE) with false. change (GPU_BLIT =? GPU_BLIT) with true. cbv iota zeta.
  unfold ref_blit. rewrite Ew, Eh.
  apply (sweep_spec (fun k => blit_hit q (k mod 320) (k / 320)) at_i at_j (fun k => blit_source ram q fb (k mod 320) (k / 320)) fb 0 0
    _ _ (fun i j => ref_copy q (source_of q) x0 y0 i j)); [| |done].
  - intros k Hk Hb%blit_hit_spec. unfold at_i, at_j. destruct reversed; lia.
  - intros i j fb1 Hi Hj Hs. unfold ref_copy. rewrite Eo, Ew, Eh, Esw, Esh. change (GPU_BLIT =? GPU_BLIT) with true. cbv zeta. cbn [andb].
    fold reversed. set (xx := if reversed then q GP_W - 1 - i else i). set (yy := if reversed then q GP_H - 1 - j else j).
    assert (Hat : forall k, 0 <= k < 76800 -> at_i k = i -> at_j k = j -> k mod 320 = x0 + xx /\ k / 320 = y0 + yy).
    { intros k _. unfold at_i, at_j, xx, yy. destruct reversed; lia. }
    apply wp_if; intros E1.
    { apply swept_skip; [done|]. intros k Hk _ A B. destruct (Hat k Hk A B) as [A' B'], (screen_index k Hk) as (? & ? & _).
      rewrite !orb_true_iff, !Z.ltb_lt, !Z.leb_le in E1. lia. }
    rewrite !orb_false_iff, !Z.ltb_ge, !Z.leb_gt in E1. apply wp_if; intros E2.
    { apply swept_skip; [done|]. intros k Hk Hb%blit_hit_spec A B. destruct (Hat k Hk A B) as [A' B']. rewrite A', B' in Hb.
      rewrite !orb_true_iff, !Z.ltb_lt, !Z.leb_le in E2. lia. }
    rewrite !orb_false_iff, !Z.ltb_ge, !Z.leb_gt in E2.
    set (k0 := (y0 + yy) * 320 + (x0 + xx)).
    assert (Ek : k0 mod 320 = x0 + xx /\ k0 / 320 = y0 + yy) by (unfold k0; split; zlia). destruct Ek as [Em Eq].
    assert (Hhit : blit_hit q (k0 mod 320) (k0 / 320) = true).
    { apply blit_hit_spec. rewrite Em, Eq. unfold xx, yy in *. destruct reversed; lia. }
    assert (Ei : at_i k0 = i) by (unfold at_i; rewrite Em; unfold xx; destruct reversed; lia).
    assert (Ej : at_j k0 = j) by (unfold at_j; rewrite Eq; unfold yy; destruct reversed; lia).
    pose proof (source_byte_wp (x0 + xx) (y0 + yy) fb1 Eo) as Hsb. fold k0 in Hsb. rewrite Ei, Ej, <- Em, <- Eq in Hsb.
    assert (Esrc : source_byte (source_of q) (u32 (u32 ((sy + yy) * q GP_STRIDE) + (sx + xx))) fb1 = Ok (blit_source ram q fb (k0 mod 320) (k0 / 320), fb1)).
    { rewrite <- Hsb; [|rewrite Em; lia|rewrite Eq; lia|exact Hhit|exact Hs]. rewrite Em, Eq. do 3 f_equal; [do 2 f_equal; lia|lia]. }
    clear Hsb. unfold wp. rewrite (then_ok _ _ _ _ _ Esrc). pose proof Hs as [Hf1 _].
    assert (Hc : is_u8 (blit_source ram q fb (k0 mod 320) (k0 / 320))).
    { unfold blit_source. cbv zeta. destruct (_ =? _); [apply Hfb|apply Hram]. }
    destruct (pixel_wp (x0 + xx) (y0 + yy) _ fb1 Hc Hf1) as (fb2 & E & Hf2 & P2). rewrite E.
    assert (Eon : on_screen (x0 + xx, y0 + yy) = true).
    { unfold on_screen. cbn [fst snd]. rewrite !andb_true_iff, !Z.leb_le, !Z.ltb_lt. lia. }
    apply (swept_put _ _ _ _ _ j i fb1 fb2 k0 Hs); [unfold k0; lia|exact Hhit|done|done| |done|].
    + intros k Hk _ A B. destruct (Hat k Hk A B) as [A' B'], (screen_index k Hk) as (_ & _ & ->). rewrite A', B'. done.
    + intros k. rewrite P2, Eon. done.
Qed.
End Command.

(** C11: the engine and its software reference draw the same.  For every valid
    command, with the source pointer the command's address means (the framebuffer
    itself, changing under the copy, or RAM), [gpu_reference] returns, and the
    framebuffer it leaves is, byte by byte, the one the engine leaves when it
    reports DONE after START: fills, lines, triangles and overlapping copies. *)
Theorem gpu_reference_is_the_engine g ram fb ws we address :
  gpu_ok (buf_len ram) 76800 g -> gpu_busy g = false -> buf_ok ram -> buf_len ram <= 0x7fffffff ->
  buf_ok fb -> buf_len fb = 76800 -> setup_valid g (buf_len ram) ws we = true ->
  exists g1 k g' fb' fb'',
    gpu_access g GPU_COMMAND 4 true GPU_START = Ok (Some (GPU_START, g1))
    /\ gticks ram ws we k g1 fb = Ok (g', fb') /\ status g' = GPU_DONE
    /\ gpu_reference address (source_of ram (par g)) (p g) fb = Ok ((), fb'') /\ buf_len fb'' = 76800
    /\ forall i, 0 <= i < 76800 -> byte_at fb'' i = byte_at fb' i.
Proof.
  intros Hg Hb Hram Hlen Hfb Hl Hv.
  destruct (start_draws g ram fb ws we Hg Hb Hram Hlen Hfb Hl Hv) as (g1 & k & g' & fb' & A & _ & T & D & _ & Hd).
  pose proof (setup_valid_ok (buf_len ram) 76800 g _ ws we Hg Hv) as V. pose proof (conj Hfb Hl : fb_ok fb) as Hok.
  assert (Hu : forall i, 0 <= i < 16 -> is_u32 (par g i)) by (intros i Hi; by eapply par_u32).
  assert (R : exists fb'', gpu_reference address (source_of ram (par g)) (p g) fb = Ok ((), fb'') /\ shows fb'' (drawn ram (par g) fb)).
  { unfold gpu_reference. cbv zeta. change (at_ (p g)) with (par g).
    destruct (Z.eqb_spec (par g GP_OP) GPU_FILL) as [Eo|N1].
    { destruct (ref_fill_draws g ram fb Hok V Hu address Eo) as (fb'' & -> & S). by exists fb''. }
    destruct (Z.eqb_spec (par g GP_OP) GPU_LINE) as [Eo|N2]; [by apply ref_line_draws|].
    destruct (Z.eqb_spec (par g GP_OP) GPU_TRIANGLE) as [Eo|N3]; [by apply ref_triangle_draws|].
    apply ref_blit_draws; try done. destruct V. unfold op_of, GPU_FILL, GPU_LINE, GPU_TRIANGLE, GPU_BLIT in *. lia. }
  destruct R as (fb'' & E & [[_ Hl''] Hs]). exists g1, k, g', fb', fb''. split; [exact A|]. split; [exact T|]. split; [exact D|].
  split; [exact E|]. split; [exact Hl''|]. intros i Hi. by rewrite Hs, Hd.
Qed.

Lemma gpu_reference_is_the_engine_witness :
  exists g1 k g' fb' fb'',
    gpu_access corner_fill GPU_COMMAND 4 true GPU_START = Ok (Some (GPU_START, g1))
    /\ gticks (buf_zero 64) 0 0 k g1 (buf_zero 76800) = Ok (g', fb') /\ status g' = GPU_DONE
    /\ gpu_reference 0x12000000 (source_of (buf_zero 64) (par corner_fill)) (p corner_fill) (buf_zero 76800) = Ok ((), fb'')
    /\ buf_len fb'' = 76800 /\ forall i, 0 <= i < 76800 -> byte_at fb'' i = byte_at fb' i.
Proof.
  apply (gpu_reference_is_the_engine corner_fill (buf_zero 64) (buf_zero 76800) 0 0 0x12000000);
    [apply corner_fill_ok|done|by apply buf_zero_ok|cbn; lia|by apply buf_zero_ok|done|by vm_compute].
Defined.

End GpuRef.
