(* ===== verification/Fs.v ===== *)
(** * The kernel's file system (programs/rv32/os/fs.c)

    A directory of sixteen entries in one sector, and one contiguous extent per
    file.  The disk is behind [BlockDevice], what [virtio_transfer] promises:
    the file system is written, and proved, against it.  A caller's buffer is
    its address and its bytes; it overlaps neither the directory nor the
    sector buffer, as the kernel's own buffers and the programs' memory do. *)

From S2P Require Import Prelude Effects Buffer.

(** ** The disk *)

(** [dbyte] is the byte at an offset of the disk; a transfer answers whether it
    succeeded, and a read also what the buffer then holds; [device_ok] is what the
    driver and the device keep between transfers. *)
Class BlockDevice (D : Type) : Type := {
  device_ok : D -> Prop;
  dbyte : D -> Z -> Z;
  transfer_in : Z -> Z -> list Z -> D -> bool * list Z * D; (** sector, count, buffer *)
  transfer_out : Z -> Z -> list Z -> D -> bool * D;
}.

Class BlockDeviceOk (D : Type) {BD : BlockDevice D} : Prop := {
  dbyte_u8 : forall d a, device_ok d -> is_u8 (dbyte d a);
  transfer_in_ok : forall d sector count buffer ok l d',
    device_ok d -> 0 <= sector -> 0 <= count -> length buffer = Z.to_nat (512 * count) -> transfer_in sector count buffer d = (ok, l, d') ->
    device_ok d' /\ length l = length buffer /\ Forall is_u8 l /\ (forall a, dbyte d' a = dbyte d a)
    /\ (ok = true -> forall i, 0 <= i < 512 * count -> at_ l i = dbyte d (512 * sector + i));
  transfer_out_ok : forall d sector count l ok d',
    device_ok d -> 0 <= sector -> 0 <= count -> length l = Z.to_nat (512 * count) -> Forall is_u8 l -> transfer_out sector count l d = (ok, d') ->
    device_ok d' /\ (forall a, ~ (512 * sector <= a < 512 * (sector + count)) -> dbyte d' a = dbyte d a)
    /\ (ok = true -> forall i, 0 <= i < 512 * count -> dbyte d' (512 * sector + i) = at_ l i);
}.

Module Fs.

Definition MAGIC : Z := 0x31534654.
Definition DIRECTORY : Z := 1.
Definition DATA : Z := 2.
Definition ENTRIES : Z := 16.
Definition FS_NAME : Z := 20.
Definition FS_CAPACITY : Z := 8.
Definition FS_ERROR : Z := 0xffffffff.
Definition VIRTIO_SECTOR : Z := 512.
Definition OS_KERNEL_SIZE : Z := 0x00100000.
Definition OS_SLOT_BASE : Z := 0x80100000.
Definition OS_SLOT_SIZE : Z := 0x00020000.
Definition OS_SLOTS : Z := 120.

Record entry : Type := { name : list Z; first : Z; capacity : Z; size : Z }.
#[export] Instance entry_inhabited : Inhabited entry := populate {| name := replicate 20 0; first := 0; capacity := 0; size := 0 |}.

Record fs_state (D : Type) : Type := {
  directory : list entry; corrupt : list bool; sector_buffer : list Z; sectors : Z; mounted : bool; disk : D }.
Arguments directory {D}. Arguments corrupt {D}. Arguments sector_buffer {D}. Arguments sectors {D}.
Arguments mounted {D}. Arguments disk {D}.

(** ** The directory as its sector *)

Definition word_bytes (v : Z) : list Z := [u8 v; u8 (v .>> 8); u8 (v .>> 16); u8 (v .>> 24)].
Definition bytes_word (l : list Z) (p : Z) : Z :=
  at_ l p + 256 * at_ l (p + 1) + 65536 * at_ l (p + 2) + 16777216 * at_ l (p + 3).
Definition entry_bytes (e : entry) : list Z := name e ++ word_bytes (first e) ++ word_bytes (capacity e) ++ word_bytes (size e).
Definition bytes_entry (l : list Z) : entry :=
  {| name := take 20 l; first := bytes_word l 20; capacity := bytes_word l 24; size := bytes_word l 28 |}.
Definition directory_bytes (d : list entry) : list Z := concat (map entry_bytes d).
Fixpoint bytes_directory (n : nat) (l : list Z) : list entry :=
  match n with O => [] | S n' => bytes_entry l :: bytes_directory n' (drop 32 l) end.

(** ** Operations *)

Section Operations.
Context {D : Type} {BD : BlockDevice D}.
Abbreviation FS := (ST (fs_state D)).

(** [virtio_transfer] into the sector buffer, into the directory, and out of each. *)
Definition read_sector (sector : Z) : FS bool := fun s =>
  let '(ok, l, d) := transfer_in sector 1 (sector_buffer s) (disk s) in
  Ok (ok, {| s with sector_buffer := l; disk := d |}).
Definition write_sector (sector : Z) : FS bool := fun s =>
  let '(ok, d) := transfer_out sector 1 (sector_buffer s) (disk s) in Ok (ok, {| s with disk := d |}).
Definition read_directory : FS bool := fun s =>
  let '(ok, l, d) := transfer_in DIRECTORY 1 (directory_bytes (directory s)) (disk s) in
  Ok (ok, {| s with directory := bytes_directory 16 l; disk := d |}).
Definition write_directory : FS bool := fun s =>
  let '(ok, d) := transfer_out DIRECTORY 1 (directory_bytes (directory s)) (disk s) in Ok (ok, {| s with disk := d |}).

(** The names agree up to their terminator, within twenty characters. *)
Fixpoint same_from (n : nat) (a b : list Z) : res bool :=
  match n with
  | O => mret true
  | S n' =>
      match a, b with
      | x :: a', y :: b' => if negb (x =? y) then mret false else if x =? 0 then mret true else same_from n' a' b'
      | _, _ => Stuck
      end
  end.
Definition same (a b : list Z) : res bool := same_from (Z.to_nat FS_NAME) a b.

Definition named (e : entry) : bool := tst (at_ (name e) 0).
Definition in_use (s : fs_state D) (i : Z) : bool := named (at_ (directory s) i) && negb (at_ (corrupt s) i).

(** An entry [fs_mount] sets aside. *)
Definition inconsistent (n : Z) (e : entry) : bool :=
  named e && ((first e <? DATA) || (n <? capacity e) || (u32 (n - capacity e) <? first e)
              || (u32 (capacity e * VIRTIO_SECTOR) <? size e) || tst (at_ (name e) (FS_NAME - 1))).

Definition fs_mount (cap : Z) : FS bool :=
  ok ← read_sector 0;
  s ← gets id;
  let w k := bytes_word (sector_buffer s) (4 * k) in
  if negb ok || negb (w 0 =? MAGIC) || negb (w 2 =? DIRECTORY) || negb (w 3 =? DATA) || negb (w 4 =? ENTRIES)
     || (cap <? w 1) || (w 1 <=? DATA)
  then mret false
  else
    modify (fun s => {| s with sectors := w 1 |});;
    ok ← read_directory;
    if negb ok then mret false
    else
      modify (fun s => {| s with corrupt := map (inconsistent (sectors s)) (directory s) |});;
      modify (fun s => {| s with mounted := true |});;
      mret true.

Definition fs_corrupt (s : fs_state D) : Z := foldl (fun n c => u32 (n + Z.b2z c)) 0 (corrupt s).

Definition fs_flush : FS bool := s ← gets id; if mounted s then write_directory else mret false.

(** The loop of [fs_open]: the file, or a free slot and the end of the last extent. *)
Fixpoint open_scan (es : list entry) (cs : list bool) (i : Z) (wanted : list Z) (free_slot next : Z) : res (option Z * Z * Z) :=
  match es, cs with
  | e :: es', c :: cs' =>
      if negb (named e) then open_scan es' cs' (i + 1) wanted (if free_slot <? 0 then i else free_slot) next
      else if c then open_scan es' cs' (i + 1) wanted free_slot next
      else
        found ← same (name e) wanted;
        if (found : bool) then mret (Some i, free_slot, next)
        else open_scan es' cs' (i + 1) wanted free_slot
               (if next <? u32 (first e + capacity e) then u32 (first e + capacity e) else next)
  | _, _ => mret (None, free_slot, next)
  end.

(** The name's length, up to twenty; the character is read before the bound is tested. *)
Fixpoint name_length (n : nat) (l : list Z) : res Z :=
  match l with
  | [] => Stuck
  | c :: l' => if c =? 0 then mret 0 else match n with O => mret 0 | S n' => k ← name_length n' l'; mret (k + 1) end
  end.

Definition fs_open (wanted : list Z) (create : bool) : FS Z :=
  s ← gets id;
  unnamed ← (if mounted s then c ← lift (aget wanted 0); mret (c =? 0) else mret true);
  if (unnamed : bool) then mret (-1)
  else
    '(found, free_slot, next) ← lift (open_scan (directory s) (corrupt s) 0 wanted (-1) DATA);
    match found with
    | Some i => mret i
    | None =>
        len ← lift (name_length (Z.to_nat FS_NAME) wanted);
        if negb create || (free_slot <? 0) || (FS_NAME <=? len) || (sectors s <? u32 (next + FS_CAPACITY)) then mret (-1)
        else
          let e := {| name := take (Z.to_nat len) wanted ++ replicate (20 - Z.to_nat len) 0; first := next; capacity := FS_CAPACITY; size := 0 |} in
          l ← lift (aset (directory s) free_slot e);
          modify (fun s => {| s with directory := l |});;
          ok ← fs_flush;
          mret (if ok : bool then free_slot else -1)
    end.

(** [&directory[file]] *)
Definition entry_at (file : Z) : FS entry := s ← gets id; lift (aget (directory s) file).
(** [e->size = n] *)
Definition set_size (file n : Z) : FS () :=
  s ← gets id;
  e ← entry_at file;
  l ← lift (aset (directory s) file {| e with size := n |});
  modify (fun s => {| s with directory := l |}).

Definition fs_truncate (file : Z) : FS () := set_size file 0.

(** Whole sectors that may go straight to the address. *)
Definition direct_sectors (e : entry) (position address left : Z) : Z :=
  let ram := OS_SLOT_BASE - OS_KERNEL_SIZE in
  let ram_end := OS_SLOT_BASE + OS_SLOTS * OS_SLOT_SIZE in
  if tst (position mod VIRTIO_SECTOR) || tst (address .& 3) || (address <? ram) || (ram_end <=? address) then 0
  else
    let in_file := u32 (size e - position) / VIRTIO_SECTOR in
    let wanted := left / VIRTIO_SECTOR in
    let whole := if in_file <? wanted then in_file else wanted in
    let room := (ram_end - address) / VIRTIO_SECTOR in
    if room <? whole then 0 else whole.

(** The loop that copies out of the sector buffer. *)
Fixpoint copy_out (fuel : nat) (bytes : list Z) (length0 limit : Z) (done position at0 : Z) (to : list Z) : res (Z * Z * list Z) :=
  match fuel with
  | O => NoFuel
  | S fuel' =>
      if (done <? length0) && (position <? limit) && (at0 <? VIRTIO_SECTOR) then
        b ← aget bytes at0;
        to ← aset to done b;
        copy_out fuel' bytes length0 limit (u32 (done + 1)) (u32 (position + 1)) (at0 + 1) to
      else mret (done, position, to)
  end.

(** Put a block of bytes into a list, from an index on. *)
Definition splice (l : list Z) (i : nat) (k : list Z) : list Z := take i l ++ k ++ drop (i + length k) l.

Fixpoint read_loop (fuel : nat) (file address length0 : Z) (done position : Z) (to : list Z) : FS (Z * list Z) :=
  match fuel with
  | O => no_fuel
  | S fuel' =>
      e ← entry_at file;
      if (done <? length0) && (position <? size e) then
        s ← gets id;
        let whole := direct_sectors e position (u32 (address + done)) (length0 - done) in
        let sector := u32 (first e + position / VIRTIO_SECTOR) in
        if tst whole then
          let '(ok, l, d) := transfer_in sector whole (take (Z.to_nat (512 * whole)) (drop (Z.to_nat done) to)) (disk s) in
          modify (fun s => {| s with disk := d |});;
          let to := splice to (Z.to_nat done) l in
          if negb ok then mret (FS_ERROR, to)
          else read_loop fuel' file address length0 (u32 (done + whole * VIRTIO_SECTOR)) (u32 (position + whole * VIRTIO_SECTOR)) to
        else
          ok ← read_sector sector;
          if negb ok then mret (FS_ERROR, to)
          else
            s ← gets id;
            '(done, position, to) ← lift (copy_out 513 (sector_buffer s) length0 (size e) done position (position mod VIRTIO_SECTOR) to);
            read_loop fuel' file address length0 done position to
      else mret (done, to)
  end.

(** [to] holds at least [length] bytes and is at [address]. *)
Definition fs_read (file position address : Z) (to : list Z) (length0 : Z) : FS (Z * list Z) :=
  read_loop (S (Z.to_nat length0)) file address length0 0 position to.

(** The loop that copies into the sector buffer: what it holds, and how many. *)
Fixpoint copy_in (fuel : nat) (from : list Z) (length0 limit done position : Z) (n at0 : Z) (bytes : list Z) : res (Z * list Z) :=
  match fuel with
  | O => NoFuel
  | S fuel' =>
      if (u32 (done + n) <? length0) && (u32 (position + n) <? limit) && (at0 <? VIRTIO_SECTOR) then
        b ← aget from (u32 (done + n));
        bytes ← aset bytes at0 b;
        copy_in fuel' from length0 limit done position (u32 (n + 1)) (at0 + 1) bytes
      else mret (n, bytes)
  end.

Fixpoint write_loop (fuel : nat) (file : Z) (from : list Z) (length0 limit : Z) (done position : Z) : FS Z :=
  match fuel with
  | O => no_fuel
  | S fuel' =>
      e ← entry_at file;
      if (done <? length0) && (position <? limit) then
        let sector := u32 (first e + position / VIRTIO_SECTOR) in
        ok ← read_sector sector;
        if negb ok then mret FS_ERROR
        else
          s ← gets id;
          '(n, bytes) ← lift (copy_in 513 from length0 limit done position 0 (position mod VIRTIO_SECTOR) (sector_buffer s));
          modify (fun s => {| s with sector_buffer := bytes |});;
          ok ← write_sector sector;
          if negb ok then mret FS_ERROR
          else
            let done := u32 (done + n) in
            let position := u32 (position + n) in
            when (size e <? position) (set_size file position);;
            write_loop fuel' file from length0 limit done position
      else mret done
  end.

Definition fs_write (file position : Z) (from : list Z) (length0 : Z) : FS Z :=
  e ← entry_at file;
  write_loop (S (Z.to_nat length0)) file from length0 (u32 (capacity e * VIRTIO_SECTOR)) 0 position.

Definition fs_size (file : Z) : FS Z := e ← entry_at file; mret (size e).

(** The [index]-th file in use: its name and size. *)
Fixpoint name_scan (n : nat) (i index : Z) (s : fs_state D) : res (option (list Z * Z)) :=
  match n with
  | O => mret None
  | S n' =>
      e ← aget (directory s) i; c ← aget (corrupt s) i;
      if named e && negb c then
        if index =? 0 then mret (Some (name e, size e)) else name_scan n' (i + 1) (u32 (index - 1)) s
      else name_scan n' (i + 1) index s
  end.
Definition fs_name (index : Z) (s : fs_state D) : res (option (list Z * Z)) :=
  if mounted s then name_scan 16 0 index s else mret None.

End Operations.
End Fs.
