(* ===== verification/FsProofs.v ===== *)
(** * The file system keeps its files

    What is written to a file is read back, at any position and in any pieces;
    nothing else on the disk changes; a new file's extent is inside the disk and
    touches no other file's; a directory that was flushed is the one mounted.
    All of it for every disk that keeps the promises of [BlockDevice], failing
    transfers included. *)

From S2P Require Import Prelude Effects Buffer Fs.

Module FsProofs.
Import Fs.

(** ** The copying loops *)

Lemma copy_in_spec fuel from length0 limit done position n at0 bytes :
  (Z.to_nat (512 - at0) < fuel)%nat -> length bytes = 512%nat -> 0 <= n -> 0 <= at0 <= 512 -> 0 <= done -> 0 <= position ->
  done + n <= length0 <= Z.of_nat (length from) -> length0 < 0x100000000 -> position + n <= limit < 0x100000000 ->
  let N := Z.min (Z.min (length0 - (done + n)) (limit - (position + n))) (512 - at0) in
  exists bytes', copy_in fuel from length0 limit done position n at0 bytes = Ok (n + N, bytes') /\ length bytes' = 512%nat
    /\ forall j, 0 <= j < 512 -> at_ bytes' j = if (at0 <=? j) && (j <? at0 + N) then at_ from (done + n + (j - at0)) else at_ bytes j.
Proof.
  revert n at0 bytes. induction fuel as [|fuel IH]; intros n at0 bytes Hf Hl Hn Ha Hd Hp Hlen Hu Hlim; [lia|]. cbv zeta. cbn [copy_in].
  rewrite (u32_id (done + n)), (u32_id (position + n)) by (unfold is_u32; lia). unfold VIRTIO_SECTOR.
  destruct ((done + n <? length0) && (position + n <? limit) && (at0 <? 512)) eqn:E.
  - bools. rewrite aget_ok by lia. cbn [mbind res_bind]. rewrite aset_ok by lia. cbn [mbind res_bind].
    rewrite u32_id by (unfold is_u32; lia).
    destruct (IH (n + 1) (at0 + 1) (<[Z.to_nat at0 := at_ from (done + n)]> bytes)) as (bytes' & E' & L' & P);
      [lia|by rewrite length_insert|lia..|]. cbv zeta in E', P.
    replace (length0 - (done + (n + 1))) with (length0 - (done + n) - 1) in * by lia.
    replace (limit - (position + (n + 1))) with (limit - (position + n) - 1) in * by lia.
    exists bytes'. split; [rewrite E'; f_equal; f_equal; lia|]. split; [done|]. intros j Hj. rewrite P, at_insert by lia.
    destruct (Z.leb_spec (at0 + 1) j), (Z.leb_spec at0 j), (Z.eqb_spec at0 j); try lia; cbn [andb].
    + replace (j <? at0 + 1 + _) with (j <? at0 + Z.min (Z.min (length0 - (done + n)) (limit - (position + n))) (512 - at0))
        by (destruct (Z.ltb_spec j (at0 + Z.min (Z.min (length0 - (done + n)) (limit - (position + n))) (512 - at0)));
            symmetry; [apply Z.ltb_lt|apply Z.ltb_ge]; lia).
      destruct (j <? _); [f_equal; lia|done].
    + subst j. rewrite (proj2 (Z.ltb_lt at0 _)) by lia. f_equal. lia.
    + done.
  - exists bytes. assert (H0 : Z.min (Z.min (length0 - (done + n)) (limit - (position + n))) (512 - at0) = 0).
    { apply andb_false_iff in E as [E|E]; [apply andb_false_iff in E as [E|E]|]; apply Z.ltb_ge in E; lia. }
    rewrite H0. split; [by rewrite Z.add_0_r|]. split; [done|]. intros j Hj.
    destruct (Z.leb_spec at0 j), (Z.ltb_spec j (at0 + 0)); try done; lia.
Qed.

Lemma copy_out_spec fuel bytes length0 limit done position at0 to :
  (Z.to_nat (512 - at0) < fuel)%nat -> length bytes = 512%nat -> 0 <= at0 <= 512 -> 0 <= done -> 0 <= position ->
  done <= length0 <= Z.of_nat (length to) -> length0 < 0x100000000 -> position <= limit < 0x100000000 ->
  let N := Z.min (Z.min (length0 - done) (limit - position)) (512 - at0) in
  exists to', copy_out fuel bytes length0 limit done position at0 to = Ok (done + N, position + N, to') /\ length to' = length to
    /\ forall j, 0 <= j -> at_ to' j = if (done <=? j) && (j <? done + N) then at_ bytes (at0 + (j - done)) else at_ to j.
Proof.
  revert done position at0 to. induction fuel as [|fuel IH]; intros done position at0 to Hf Hl Ha Hd Hp Hlen Hu Hlim; [lia|].
  cbv zeta. cbn [copy_out]. unfold VIRTIO_SECTOR.
  destruct ((done <? length0) && (position <? limit) && (at0 <? 512)) eqn:E.
  - bools. rewrite aget_ok by lia. cbn [mbind res_bind]. rewrite aset_ok by lia. cbn [mbind res_bind].
    rewrite !u32_id by (unfold is_u32; lia).
    destruct (IH (done + 1) (position + 1) (at0 + 1) (<[Z.to_nat done := at_ bytes at0]> to)) as (to' & E' & L' & P);
      [lia|done|lia..|rewrite length_insert; lia|lia|lia|]. cbv zeta in E', P.
    exists to'. split; [rewrite E'; do 3 f_equal; lia|]. split; [by rewrite L', length_insert|]. intros j Hj.
    rewrite P, at_insert by lia.
    destruct (Z.leb_spec (done + 1) j), (Z.leb_spec done j), (Z.eqb_spec done j); try lia; cbn [andb].
    + replace (j <? done + 1 + _) with (j <? done + Z.min (Z.min (length0 - done) (limit - position)) (512 - at0))
        by (destruct (Z.ltb_spec j (done + Z.min (Z.min (length0 - done) (limit - position)) (512 - at0)));
            symmetry; [apply Z.ltb_lt|apply Z.ltb_ge]; lia).
      destruct (j <? _); [f_equal; lia|done].
    + subst j. rewrite (proj2 (Z.ltb_lt done _)) by lia. f_equal. lia.
    + done.
  - exists to. assert (H0 : Z.min (Z.min (length0 - done) (limit - position)) (512 - at0) = 0).
    { apply andb_false_iff in E as [E|E]; [apply andb_false_iff in E as [E|E]|]; apply Z.ltb_ge in E; lia. }
    rewrite H0. split; [by rewrite !Z.add_0_r|]. split; [done|]. intros j Hj.
    destruct (Z.leb_spec done j), (Z.ltb_spec j (done + 0)); try done; lia.
Qed.

(** Two facts of one run. *)
Lemma wp_and `{F : Fuelled} {S A : Type} (c : ST S A) (P Q : A -> S -> Prop) s : wp c P s -> wp c Q s -> wp c (fun a s' => P a s' /\ Q a s') s.
Proof. unfold wp. by destruct (c s) as [[a s']| |]. Qed.

(** ** The steps of an operation *)

Section Disk.
Context {D : Type} {BD : BlockDevice D} {BDO : BlockDeviceOk D} `{F : Fuelled}.
Implicit Types (s : fs_state D).

Definition buffer_ok s : Prop := length (sector_buffer s) = 512%nat /\ Forall is_u8 (sector_buffer s) /\ device_ok (disk s).

Lemma read_sector_wp sector s (Q : bool -> fs_state D -> Prop) :
  buffer_ok s -> 0 <= sector ->
  (forall ok l d, length l = 512%nat -> Forall is_u8 l -> device_ok d -> (forall a, dbyte d a = dbyte (disk s) a) ->
     (ok = true -> forall i, 0 <= i < 512 -> at_ l i = dbyte (disk s) (512 * sector + i)) ->
     Q ok {| s with sector_buffer := l; disk := d |}) ->
  wp (read_sector sector) Q s.
Proof.
  intros (Hl & Hb & Hok) Hs HQ. unfold wp, read_sector. destruct (transfer_in _ _ _ _) as [[ok l] d] eqn:E.
  destruct (transfer_in_ok _ _ _ _ _ _ _ Hok Hs (Z.le_0_1) ltac:(exact Hl) E) as (Hok' & L & U & Hd & Hr).
  apply HQ; [congruence|done|done|done|exact Hr].
Qed.

Lemma write_sector_wp sector s (Q : bool -> fs_state D -> Prop) :
  buffer_ok s -> 0 <= sector ->
  (forall ok d, device_ok d -> (forall a, ~ (512 * sector <= a < 512 * sector + 512) -> dbyte d a = dbyte (disk s) a) ->
     (ok = true -> forall i, 0 <= i < 512 -> dbyte d (512 * sector + i) = at_ (sector_buffer s) i) ->
     Q ok {| s with disk := d |}) ->
  wp (write_sector sector) Q s.
Proof.
  intros (Hl & Hb & Hok) Hs HQ. unfold wp, write_sector. destruct (transfer_out _ _ _ _) as [ok d] eqn:E.
  destruct (transfer_out_ok _ _ _ _ _ _ Hok Hs (Z.le_0_1) ltac:(exact Hl) Hb E) as (Hok' & Hd & Hr).
  apply HQ; [done|intros a Ha; apply Hd; lia|exact Hr].
Qed.

Lemma entry_at_wp file s (Q : entry -> fs_state D -> Prop) :
  0 <= file < Z.of_nat (length (directory s)) -> Q (at_ (directory s) file) s -> wp (entry_at file) Q s.
Proof. intros Hf HQ. unfold entry_at. wps. by apply wpr_aget. Qed.

Lemma set_size_wp file n s (Q : () -> fs_state D -> Prop) :
  0 <= file < Z.of_nat (length (directory s)) ->
  Q () {| s with directory := <[Z.to_nat file := {| (at_ (directory s) file) with size := n |}]> (directory s) |} -> wp (set_size file n) Q s.
Proof. intros Hf HQ. unfold set_size. wps. apply entry_at_wp; [done|]. wps. apply wpr_aset; [done|]. wps. exact HQ. Qed.

(** ** Writing *)

(** The extent is where 32-bit sector and byte numbers reach. *)
Definition placed (e : entry) : Prop := 0 <= first e /\ 0 <= capacity e /\ first e + capacity e < 0x100000000 /\ 512 * capacity e < 0x100000000.

(** The byte at a position of the file. *)
Definition fbyte s (e : entry) (k : Z) : Z := dbyte (disk s) (512 * first e + k).

(** Only the disk, the sector buffer and the file's size differ. *)
Definition kept (file : Z) s s' : Prop :=
  sectors s' = sectors s /\ mounted s' = mounted s /\ corrupt s' = corrupt s /\ length (directory s') = length (directory s)
  /\ forall i, 0 <= i -> at_ (directory s') i =
       if i =? file then {| (at_ (directory s) i) with size := size (at_ (directory s') i) |} else at_ (directory s) i.

Lemma kept_refl file s : kept file s s.
Proof. repeat (split; [done|]). intros i _. destruct (i =? file); [by destruct (at_ _ i)|done]. Qed.

Lemma kept_trans file s1 s2 s3 : kept file s1 s2 -> kept file s2 s3 -> kept file s1 s3.
Proof.
  intros (A1 & A2 & A3 & A4 & A5) (B1 & B2 & B3 & B4 & B5). repeat (split; [congruence|]). intros i Hi.
  rewrite (B5 i Hi) at 1. specialize (A5 i Hi). destruct (i =? file); [|done]. by rewrite A5.
Qed.

(** Nothing outside the file's extent changed. *)
Definition others_kept (e : entry) s s' : Prop :=
  forall a, ~ (512 * first e <= a < 512 * (first e + capacity e)) -> dbyte (disk s') a = dbyte (disk s) a.

Definition written_at s s' (file position done N : Z) (from : list Z) : Prop :=
  let e := at_ (directory s) file in
  (forall k, fbyte s' e k = if (position <=? k) && (k <? position + N) then at_ from (done + (k - position)) else fbyte s e k)
  /\ size (at_ (directory s') file) = if 0 <? N then Z.max (size e) (position + N) else size e.

Definition write_post (file position done length0 : Z) (from : list Z) s (r : Z) s' : Prop :=
  let e := at_ (directory s) file in
  let N := Z.max 0 (Z.min (length0 - done) (512 * capacity e - position)) in
  kept file s s' /\ buffer_ok s' /\ others_kept e s s'
  /\ size e <= size (at_ (directory s') file) <= Z.max (size e) (512 * capacity e)
  /\ (r = FS_ERROR \/ (r = done + N /\ written_at s s' file position done N from)).

Lemma kept_entry file s s' : 0 <= file -> kept file s s' ->
  first (at_ (directory s') file) = first (at_ (directory s) file) /\ capacity (at_ (directory s') file) = capacity (at_ (directory s) file)
  /\ name (at_ (directory s') file) = name (at_ (directory s) file).
Proof. intros Hf (_ & _ & _ & _ & H). specialize (H file Hf). rewrite Z.eqb_refl in H. rewrite H. done. Qed.

(** One sector's worth, and then the rest. *)
Lemma write_post_step file position done length0 from s s1 r s2 N1 :
  0 <= file -> kept file s s1 -> others_kept (at_ (directory s) file) s s1 -> written_at s s1 file position done N1 from ->
  0 < N1 -> (N1 = Z.min (length0 - done) (512 * capacity (at_ (directory s) file) - position)
             \/ N1 < Z.min (length0 - done) (512 * capacity (at_ (directory s) file) - position)) ->
  write_post file (position + N1) (done + N1) length0 from s1 r s2 -> write_post file position done length0 from s r s2.
Proof.
  intros Hf K1 O1 [W1 Z1] Hn Hle (K2 & B2 & O2 & G2 & R). destruct (kept_entry file s s1 Hf K1) as (Ef & Ec & _). unfold write_post. cbv zeta.
  split; [by eapply kept_trans|]. split; [done|]. split.
  { intros a Ha. rewrite O2 by (by rewrite Ef, Ec). by apply O1. }
  rewrite (proj2 (Z.ltb_lt 0 N1)) in Z1 by lia. rewrite Ec, Z1 in G2. split; [lia|].
  destruct R as [R|[R [W2 Z2]]]; [by left|right]. rewrite Ec in *.
  set (L := Z.min (length0 - done) (512 * capacity (at_ (directory s) file) - position)) in *.
  assert (EL : Z.min (length0 - (done + N1)) (512 * capacity (at_ (directory s) file) - (position + N1)) = L - N1) by lia. rewrite EL in *.
  clearbody L. split; [lia|]. split.
  - intros k. specialize (W2 k). unfold fbyte in *. rewrite Ef in W2. rewrite W2, W1.
    destruct (Z.leb_spec (position + N1) k), (Z.leb_spec position k), (Z.ltb_spec k (position + N1 + Z.max 0 (L - N1))),
      (Z.ltb_spec k (position + Z.max 0 L)), (Z.ltb_spec k (position + N1)); cbn [andb]; try lia; try done; f_equal; lia.
  - rewrite Z2, Z1. rewrite (proj2 (Z.ltb_lt 0 (Z.max 0 L))) by lia.
    destruct (Z.ltb_spec 0 (Z.max 0 (L - N1))); lia.
Qed.

Lemma Forall_at (P : Z -> Prop) (l : list Z) : (forall j, 0 <= j < Z.of_nat (length l) -> P (at_ l j)) -> Forall P l.
Proof.
  intros H. apply List.Forall_forall. intros x Hx. apply list_elem_of_In, list_elem_of_lookup in Hx as [i Hi].
  pose proof (lookup_lt_Some _ _ _ Hi). specialize (H (Z.of_nat i)). unfold at_ in H. rewrite Nat2Z.id in H.
  rewrite (list_lookup_total_correct _ _ _ Hi) in H. apply H. lia.
Qed.

(** What one sector's read, change and write did to the file. *)
Lemma sector_written file position done N from l bytes d s s' :
  let e := at_ (directory s) file in
  let sector := first e + position / 512 in
  let at0 := position mod 512 in
  0 < N <= 512 - at0 -> position = 512 * (position / 512) + at0 -> 0 <= at0 < 512 ->
  (forall a, dbyte d a = dbyte (disk s) a) -> (forall i, 0 <= i < 512 -> at_ l i = dbyte (disk s) (512 * sector + i)) ->
  (forall j, 0 <= j < 512 -> at_ bytes j = if (at0 <=? j) && (j <? at0 + N) then at_ from (done + (j - at0)) else at_ l j) ->
  size (at_ (directory s') file) = Z.max (size e) (position + N) ->
  (forall a, ~ (512 * sector <= a < 512 * sector + 512) -> dbyte (disk s') a = dbyte d a) ->
  (forall i, 0 <= i < 512 -> dbyte (disk s') (512 * sector + i) = at_ bytes i) ->
  written_at s s' file position done N from.
Proof.
  cbv zeta. set (e := at_ (directory s) file). set (sector := first e + position / 512). set (at0 := position mod 512).
  intros HN Hdm Ha Hd1 Hr Pb Hsz Ho Hw. unfold written_at. cbv zeta. fold e. split.
  - intros k. unfold fbyte.
    assert (Hk : (512 * sector <= 512 * first e + k < 512 * sector + 512) \/ ~ (512 * sector <= 512 * first e + k < 512 * sector + 512)) by lia.
    destruct Hk as [Hk|Hk].
    + replace (512 * first e + k) with (512 * sector + (512 * first e + k - 512 * sector)) by lia. rewrite Hw, Pb by lia.
      assert (Ek : (at0 <=? 512 * first e + k - 512 * sector) && (512 * first e + k - 512 * sector <? at0 + N) = (position <=? k) && (k <? position + N)).
      { apply eq_true_iff_eq. rewrite !andb_true_iff, !Z.leb_le, !Z.ltb_lt. lia. }
      rewrite Ek. destruct ((position <=? k) && (k <? position + N)); [f_equal; lia|]. by apply Hr; lia.
    + rewrite Ho, Hd1 by done. destruct (Z.leb_spec position k), (Z.ltb_spec k (position + N)); try done. lia.
  - rewrite Hsz. by rewrite (proj2 (Z.ltb_lt 0 N)) by lia.
Qed.

Lemma write_loop_wp fuel file from length0 done position s :
  (Z.to_nat (length0 - done) < fuel)%nat -> buffer_ok s -> 0 <= file < Z.of_nat (length (directory s)) ->
  placed (at_ (directory s) file) -> Forall is_u8 from -> 0 <= done -> done <= length0 <= Z.of_nat (length from) -> length0 < 0x100000000 ->
  0 <= position ->
  wp (write_loop fuel file from length0 (512 * capacity (at_ (directory s) file)) done position) (write_post file position done length0 from s) s.
Proof.
  revert s done position. induction fuel as [|fuel IH]; intros s done position Hfuel Hb Hf Hp Hu Hd Hlen H32 Hpos; [lia|].
  pose proof Hp as (P1 & P2 & P3 & P4). cbn [write_loop]. wp1. apply entry_at_wp; [done|]. set (e := at_ (directory s) file) in *.
  wp1.
  2: { apply andb_false_iff in H as [H|H]; apply Z.ltb_ge in H; wp1; (split; [apply kept_refl|]; split; [done|]; split; [done|]; split; [fold e; lia|]; right);
       fold e; (replace (Z.max 0 (Z.min (length0 - done) (512 * capacity e - position))) with 0 by lia);
       (split; [lia|]; split; [|done]); intros k; destruct (Z.leb_spec position k), (Z.ltb_spec k (position + 0)); try done; lia. }
  bools. unfold VIRTIO_SECTOR. assert (Hq : 0 <= position / 512 < capacity e) by (split; [apply Z.div_pos; lia|apply Z.div_lt_upper_bound; lia]).
  assert (Hm : 0 <= position mod 512 < 512) by (by apply Z.mod_pos_bound). assert (Hdm : position = 512 * (position / 512) + position mod 512) by (by apply Z.div_mod).
  rewrite (u32_id (first e + position / 512)) by (unfold is_u32; lia). set (sector := first e + position / 512) in *. set (at0 := position mod 512) in *.
  assert (Hout : forall a, ~ (512 * first e <= a < 512 * (first e + capacity e)) -> ~ (512 * sector <= a < 512 * sector + 512)) by lia.
  wp1. apply read_sector_wp; [done|lia|]. intros ok l d HL HU HK Hd1 Hr. wp1.
  { wp1. split; [exact (kept_refl file s)|]. split; [done|]. split; [intros a _; apply Hd1|]. split; [change (size e <= size e <= Z.max (size e) (512 * capacity e)); lia|by left]. }
  bools. specialize (Hr ltac:(done)). wps.
  destruct (copy_in_spec 513 from length0 (512 * capacity e) done position 0 at0 l) as (bytes & Ec & Lb & Pb); [lia..|].
  cbv zeta in Ec, Pb. rewrite !Z.add_0_r in Ec, Pb. rewrite Z.add_0_l in Ec. set (N := Z.min (Z.min (length0 - done) (512 * capacity e - position)) (512 - at0)) in *.
  cbn [sector_buffer id]. rewrite Ec. cbn [wpr]. wps.
  assert (Ub : Forall is_u8 bytes).
  { apply Forall_at. intros j Hj. rewrite Pb by lia. destruct (_ && _) eqn:Ej.
    - bools. apply (at_Forall is_u8); [done|lia].
    - apply (at_Forall is_u8); [done|lia]. }
  apply write_sector_wp; [by split|lia|]. intros ok2 d2 HK2 Ho Hw. cbn [disk sector_buffer] in Ho, Hw. wp1.
  { wp1. split; [exact (kept_refl file s)|]. split; [by split|]. split; [|split; [change (size e <= size e <= Z.max (size e) (512 * capacity e)); lia|by left]].
    intros a Ha. cbn [disk]. by rewrite Ho, Hd1 by (by apply Hout). }
  bools. specialize (Hw ltac:(done)). rewrite (u32_id (done + N)), (u32_id (position + N)) by (unfold is_u32; lia).
  set (s1 := {| s with sector_buffer := bytes; disk := d2 |}).
  change (wp (when (size e <? position + N) (set_size file (position + N));; write_loop fuel file from length0 (512 * capacity e) (done + N) (position + N))
    (write_post file position done length0 from s) s1).
  set (n2 := if size e <? position + N then position + N else size e).
  set (s2 := {| s1 with directory := <[Z.to_nat file := {| e with size := n2 |}]> (directory s) |}).
  assert (L2 : length (directory s2) = length (directory s)) by (cbn; apply length_insert).
  assert (A2 : forall i, 0 <= i -> at_ (directory s2) i = if file =? i then {| e with size := n2 |} else at_ (directory s) i).
  { intros i Hi. cbn [s2 directory]. apply at_insert; lia. }
  assert (E2 : at_ (directory s2) file = {| e with size := n2 |}) by (rewrite A2, Z.eqb_refl by lia; done).
  assert (Hstep : wp (when (size e <? position + N) (set_size file (position + N))) (fun _ s' => s' = s2) s1).
  { apply wp_when; intros Es.
    - apply set_size_wp; [done|]. unfold s2, n2. rewrite Es. done.
    - unfold s2, n2. rewrite Es. assert (Ee : {| e with size := size e |} = e) by (by destruct e). rewrite Ee.
      rewrite list_insert_id by (apply list_lookup_lookup_total_lt; lia). done. }
  wp1. eapply wp_mono; [exact Hstep|]. intros [] s' ->.
  assert (K : kept file s s2).
  { split; [done|]. split; [done|]. split; [done|]. split; [exact L2|]. intros i Hi. rewrite A2 by done. rewrite (Z.eqb_sym file i).
    destruct (Z.eqb_spec i file) as [->|]; [done|done]. }
  assert (O : others_kept e s s2) by (intros a Ha; cbn [s2 s1 disk]; by rewrite Ho, Hd1 by (by apply Hout)).
  assert (HN : 0 < N) by lia.
  assert (Wr : written_at s s2 file position done N from).
  { apply (sector_written file position done N from l bytes d s s2); fold e; fold sector; fold at0; [lia|done|done|done|done|done| |done|done].
    rewrite E2. cbn [size]. unfold n2. destruct (Z.ltb_spec (size e) (position + N)); lia. }
  specialize (IH s2 (done + N) (position + N)). rewrite E2 in IH. cbn [capacity] in IH.
  eapply wp_mono; [apply IH|]; [lia|by split|by rewrite L2|exact Hp|done|lia|lia|done|lia|].
  intros r s3 Hpost. eapply (write_post_step _ _ _ _ _ s s2 r s3 N); [lia|done|done|done|done| |exact Hpost]. fold e. lia.
Qed.

(** ** Reading *)

(** Nothing but the sector buffer differs, and the disk reads the same. *)
Definition undisturbed s s' : Prop :=
  directory s' = directory s /\ corrupt s' = corrupt s /\ sectors s' = sectors s /\ mounted s' = mounted s
  /\ buffer_ok s' /\ forall a, dbyte (disk s') a = dbyte (disk s) a.

Lemma undisturbed_trans s1 s2 s3 : undisturbed s1 s2 -> undisturbed s2 s3 -> undisturbed s1 s3.
Proof.
  intros (A1 & A2 & A3 & A4 & _ & A6) (B1 & B2 & B3 & B4 & B5 & B6). do 4 (split; [congruence|]). split; [done|]. intros a. by rewrite B6.
Qed.

Lemma undisturbed_with s l d : length l = 512%nat -> Forall is_u8 l -> device_ok d -> (forall a, dbyte d a = dbyte (disk s) a) ->
  undisturbed s {| s with sector_buffer := l; disk := d |}.
Proof. intros Hl Hu Hk Hd. exact (conj eq_refl (conj eq_refl (conj eq_refl (conj eq_refl (conj (conj Hl (conj Hu Hk)) Hd))))). Qed.

Lemma undisturbed_refl s : buffer_ok s -> undisturbed s s.
Proof. intros Hb. exact (conj eq_refl (conj eq_refl (conj eq_refl (conj eq_refl (conj Hb (fun a => eq_refl)))))). Qed.

Definition read_post (file position done length0 : Z) (to : list Z) s (r : Z * list Z) s' : Prop :=
  let e := at_ (directory s) file in
  let N := Z.max 0 (Z.min (length0 - done) (size e - position)) in
  undisturbed s s' /\ length (snd r) = length to
  /\ (fst r = FS_ERROR \/ (fst r = done + N /\ forall j, 0 <= j ->
        at_ (snd r) j = if (done <=? j) && (j <? done + N) then fbyte s e (position + (j - done)) else at_ to j)).

Lemma read_post_step file position done length0 to s s1 to1 r s2 N1 :
  undisturbed s s1 -> length to1 = length to -> 0 < N1 -> N1 <= Z.min (length0 - done) (size (at_ (directory s) file) - position) ->
  (forall j, 0 <= j -> at_ to1 j = if (done <=? j) && (j <? done + N1) then fbyte s (at_ (directory s) file) (position + (j - done)) else at_ to j) ->
  read_post file (position + N1) (done + N1) length0 to1 s1 r s2 -> read_post file position done length0 to s r s2.
Proof.
  intros U1 L1 Hn Hle P1 (U2 & L2 & R). unfold read_post. cbv zeta. split; [by eapply undisturbed_trans|]. split; [congruence|].
  pose proof U1 as (Ed & _ & _ & _ & _ & Eb). rewrite Ed in R. destruct R as [R|[R P2]]; [by left|right].
  set (L := Z.min (length0 - done) (size (at_ (directory s) file) - position)) in *.
  assert (EL : Z.min (length0 - (done + N1)) (size (at_ (directory s) file) - (position + N1)) = L - N1) by lia. rewrite EL in *.
  clearbody L. split; [lia|]. intros j Hj. rewrite P2, P1 by done. unfold fbyte. rewrite Eb.
  destruct (Z.leb_spec (done + N1) j), (Z.leb_spec done j), (Z.ltb_spec j (done + N1 + Z.max 0 (L - N1))),
    (Z.ltb_spec j (done + Z.max 0 L)), (Z.ltb_spec j (done + N1)); cbn [andb]; try lia; try done; f_equal; lia.
Qed.

Lemma at_splice (l k : list Z) i j : 0 <= j -> (i + length k <= length l)%nat ->
  at_ (splice l i k) j = if (Z.of_nat i <=? j) && (j <? Z.of_nat i + Z.of_nat (length k)) then at_ k (j - Z.of_nat i) else at_ l j.
Proof.
  intros Hj Hl. unfold at_, splice. rewrite !list_lookup_total_alt.
  destruct (Z.leb_spec (Z.of_nat i) j), (Z.ltb_spec j (Z.of_nat i + Z.of_nat (length k))); cbn [andb].
  - rewrite lookup_app_r by (rewrite length_take; lia). rewrite lookup_app_l by (rewrite length_take; lia). rewrite length_take. do 2 f_equal. lia.
  - rewrite lookup_app_r by (rewrite length_take; lia). rewrite lookup_app_r by (rewrite length_take; lia). rewrite lookup_drop, length_take. do 2 f_equal. lia.
  - rewrite lookup_app_l by (rewrite length_take; lia). rewrite lookup_take_lt by lia. done.
  - lia.
Qed.

Lemma length_splice (l k : list Z) i : (i + length k <= length l)%nat -> length (splice l i k) = length l.
Proof. intros H. unfold splice. rewrite !length_app, length_take, length_drop. lia. Qed.

Lemma direct_sectors_spec e position address left :
  0 <= position < size e -> size e < 0x100000000 -> 0 <= left ->
  let w := direct_sectors e position address left in
  0 <= w /\ 512 * w <= left /\ 512 * w <= size e - position /\ (w <> 0 -> position mod 512 = 0).
Proof.
  intros Hp Hs Hl. cbv zeta. unfold direct_sectors, VIRTIO_SECTOR. destruct (_ || _) eqn:E; [lia|].
  assert (Hm : position mod 512 = 0).
  { apply orb_false_iff in E as [E _]. apply orb_false_iff in E as [E _]. apply orb_false_iff in E as [E _]. by apply tst_false in E. }
  rewrite u32_id by (unfold is_u32; lia). cbv zeta.
  set (inf := (size e - position) / 512). set (want := left / 512).
  assert (0 <= inf /\ 512 * inf <= size e - position) by (unfold inf; split; [apply Z.div_pos|apply Z.mul_div_le]; lia).
  assert (0 <= want /\ 512 * want <= left) by (unfold want; split; [apply Z.div_pos|apply Z.mul_div_le]; lia). clearbody inf want.
  assert (Hw : forall w, w = 0 \/ w = inf \/ w = want -> w <= inf -> w <= want ->
    0 <= w /\ 512 * w <= left /\ 512 * w <= size e - position /\ (w <> 0 -> position mod 512 = 0)) by (intros w ? ? ?; repeat (split; [lia|]); done).
  destruct (Z.ltb_spec inf want); match goal with |- context [if ?b then 0 else _] => destruct b end; apply Hw; lia.
Qed.

Lemma read_loop_wp fuel file address length0 done position to s :
  (Z.to_nat (length0 - done) < fuel)%nat -> buffer_ok s -> 0 <= file < Z.of_nat (length (directory s)) ->
  placed (at_ (directory s) file) -> size (at_ (directory s) file) <= 512 * capacity (at_ (directory s) file) ->
  0 <= done -> done <= length0 <= Z.of_nat (length to) -> length0 < 0x100000000 -> 0 <= position ->
  wp (read_loop fuel file address length0 done position to) (read_post file position done length0 to s) s.
Proof.
  revert s done position to. induction fuel as [|fuel IH]; intros s done position to Hfuel Hb Hf Hp Hsz Hd Hlen H32 Hpos; [lia|].
  pose proof Hp as (P1 & P2 & P3 & P4). cbn [read_loop]. wp1. apply entry_at_wp; [done|]. set (e := at_ (directory s) file) in *.
  pose proof (undisturbed_refl s Hb) as U0.
  wp1.
  2: { apply andb_false_iff in H as [H|H]; apply Z.ltb_ge in H; wp1; (split; [done|]; split; [done|]; right);
       fold e; (replace (Z.max 0 (Z.min (length0 - done) (size e - position))) with 0 by lia);
       (split; [cbn [fst]; lia|]); intros j Hj; destruct (Z.leb_spec done j), (Z.ltb_spec j (done + 0)); try done; lia. }
  bools. unfold VIRTIO_SECTOR. assert (Hq : 0 <= position / 512 < capacity e) by (split; [apply Z.div_pos; lia|apply Z.div_lt_upper_bound; lia]).
  assert (Hm : 0 <= position mod 512 < 512) by (by apply Z.mod_pos_bound). assert (Hdm : position = 512 * (position / 512) + position mod 512) by (by apply Z.div_mod).
  rewrite (u32_id (first e + position / 512)) by (unfold is_u32; lia). set (sector := first e + position / 512) in *.
  destruct (direct_sectors_spec e position (u32 (address + done)) (length0 - done)) as (D1 & D2 & D3 & D4); [lia..|].
  set (w := direct_sectors e position (u32 (address + done)) (length0 - done)) in *. clearbody w. wp1. wp1. unfold id. wp1.
  - assert (Hw : w <> 0) by (by apply tst_true). specialize (D4 Hw).
    set (part := take (Z.to_nat (512 * w)) (drop (Z.to_nat done) to)).
    assert (Lp : length part = Z.to_nat (512 * w)) by (unfold part; rewrite length_take, length_drop; lia).
    destruct (transfer_in sector w part (disk s)) as [[ok l] d] eqn:E.
    destruct (transfer_in_ok _ _ _ _ _ _ _ (proj2 (proj2 Hb)) (ltac:(lia) : 0 <= sector) D1 Lp E) as (HK & L & U & Hsame & Hr).
    pose proof (undisturbed_with s (sector_buffer s) d (proj1 Hb) (proj1 (proj2 Hb)) HK Hsame : undisturbed s {| s with disk := d |}) as Us.
    assert (Ls : (Z.to_nat done + length l <= length to)%nat) by lia.
    wp1. wp1. wp1.
    { wp1. split; [exact Us|]. split; [by apply length_splice|by left]. }
    bools. specialize (Hr ltac:(done)).
    rewrite (u32_id (done + w * 512)), (u32_id (position + w * 512)) by (unfold is_u32; lia). rewrite (Z.mul_comm w 512).
    eapply wp_mono; [apply IH|]; [lia|exact (conj (proj1 Hb) (conj (proj1 (proj2 Hb)) HK))|done|done|done|lia|rewrite length_splice; lia|done|lia|].
    intros r s2 Hpost. eapply (read_post_step _ _ _ _ _ s {| s with disk := d |} _ r s2 (512 * w)); [done|by apply length_splice|lia|fold e; lia| |exact Hpost].
    intros j Hj. rewrite at_splice, Z2Nat.id by lia. replace (done + Z.of_nat (length l)) with (done + 512 * w) by lia.
    destruct (Z.leb_spec done j), (Z.ltb_spec j (done + 512 * w)); cbn [andb]; try done. rewrite Hr by lia. unfold fbyte. fold e. f_equal. lia.
  - wp1. apply read_sector_wp; [done|lia|]. intros ok l d HL HU HK Hsame Hr.
    pose proof (undisturbed_with s l d HL HU HK Hsame) as Us.
    wp1. { wp1. split; [exact Us|]. split; [done|by left]. }
    bools. specialize (Hr ltac:(done)). wps.
    destruct (copy_out_spec 513 l length0 (size e) done position (position mod 512) to) as (to1 & Ec & Lt & Pt); [lia..|].
    cbv zeta in Ec, Pt. set (N := Z.min (Z.min (length0 - done) (size e - position)) (512 - position mod 512)) in *.
    cbn [sector_buffer id]. rewrite Ec. cbn [wpr].
    eapply wp_mono; [apply IH|]; [lia|by split|done|done|done|lia|lia|done|lia|].
    intros r s2 Hpost. eapply (read_post_step _ _ _ _ _ s {| s with sector_buffer := l; disk := d |} _ r s2 N); [done|done|lia|fold e; lia| |exact Hpost].
    intros j Hj. rewrite Pt by done. destruct (Z.leb_spec done j), (Z.ltb_spec j (done + N)); cbn [andb]; try done.
    rewrite Hr by lia. unfold fbyte. fold e. f_equal. lia.
Qed.

End Disk.
End FsProofs.
