(* ===== verification/FsSpecs.v ===== *)
(** * What the file system promises

    The invariant of a mounted file system, and the three promises of it: what is
    written is read back and nothing else changes; a new file gets an extent of
    its own inside the disk; and the directory that was flushed is the one a
    later mount finds. *)

From S2P Require Import Prelude Effects Buffer Fs FsProofs.

Module FsSpecs.
Import Fs FsProofs.

(** ** The directory's sector *)

Definition entry_ok (e : entry) : Prop :=
  is_u32 (first e) /\ is_u32 (capacity e) /\ is_u32 (size e) /\ length (name e) = 20%nat /\ Forall is_u8 (name e).

Lemma at_app_after (l k : list Z) i : 0 <= i -> at_ (l ++ k) (Z.of_nat (length l) + i) = at_ k i.
Proof. intros Hi. unfold at_. rewrite !list_lookup_total_alt, lookup_app_r by lia. do 2 f_equal. lia. Qed.

Lemma list_eq_at {A} `{Inhabited A} (l k : list A) : length l = length k -> (forall i, 0 <= i < Z.of_nat (length l) -> at_ l i = at_ k i) -> l = k.
Proof.
  intros Hl Hat. apply list_eq. intros i. destruct (lt_dec i (length l)) as [Hi|Hi].
  - specialize (Hat (Z.of_nat i) ltac:(lia)). unfold at_ in Hat. rewrite Nat2Z.id in Hat.
    rewrite (list_lookup_lookup_total_lt l i), (list_lookup_lookup_total_lt k i) by lia. by rewrite Hat.
  - by rewrite !lookup_ge_None_2 by lia.
Qed.

Lemma bytes_word_bytes v (l r : list Z) : is_u32 v -> bytes_word (l ++ word_bytes v ++ r) (Z.of_nat (length l)) = v.
Proof.
  intros Hv. unfold bytes_word. rewrite !at_app_after by lia. replace (Z.of_nat (length l)) with (Z.of_nat (length l) + 0) by lia.
  rewrite at_app_after by lia.
  change (u8 v + 256 * u8 (v .>> 8) + 65536 * u8 (v .>> 16) + 16777216 * u8 (v .>> 24) = v).
  unfold is_u32 in Hv. unfold u8. rewrite !Z.shiftr_div_pow2 by lia.
  change (2 ^ 8) with 256. change (2 ^ 16) with 65536. change (2 ^ 24) with 16777216. zlia.
Qed.

Lemma word_bytes_u8 v : Forall is_u8 (word_bytes v).
Proof. repeat constructor; by apply Z.mod_pos_bound. Qed.

Lemma entry_bytes_length e : length (name e) = 20%nat -> length (entry_bytes e) = 32%nat.
Proof. intros H. unfold entry_bytes. rewrite !length_app, H. done. Qed.

Lemma entry_round_trip e r : entry_ok e -> bytes_entry (entry_bytes e ++ r) = e.
Proof.
  intros (Hf & Hc & Hs & Hn & _). unfold entry_bytes, bytes_entry. rewrite <- !(assoc_L (++)).
  rewrite take_app_le, take_ge by lia. change 20 with (Z.of_nat 20). rewrite <- Hn, bytes_word_bytes by done.
  rewrite (assoc_L (++) (name e)). replace 24 with (Z.of_nat (length (name e ++ word_bytes (first e)))) by (by rewrite length_app, Hn).
  rewrite bytes_word_bytes by done. rewrite (assoc_L (++) (name e ++ _)).
  replace 28 with (Z.of_nat (length ((name e ++ word_bytes (first e)) ++ word_bytes (capacity e)))) by (by rewrite !length_app, Hn).
  rewrite bytes_word_bytes by done. by destruct e.
Qed.

Lemma directory_round_trip d r : Forall entry_ok d -> bytes_directory (length d) (directory_bytes d ++ r) = d.
Proof.
  induction 1 as [|e d He Hd IH]; [done|]. unfold directory_bytes in *. cbn [map concat length bytes_directory].
  rewrite <- (assoc_L (++)), entry_round_trip by done. f_equal.
  pose proof (entry_bytes_length e) as L. destruct He as (_ & _ & _ & Hn & _). rewrite <- (L Hn), drop_app_length. exact IH.
Qed.

Lemma directory_bytes_length d : Forall entry_ok d -> length (directory_bytes d) = (32 * length d)%nat.
Proof.
  induction 1 as [|e d (_ & _ & _ & Hn & _) Hd IH]; [done|]. unfold directory_bytes in *. cbn [map concat length].
  rewrite length_app, entry_bytes_length by done. lia.
Qed.

Lemma directory_bytes_u8 d : Forall entry_ok d -> Forall is_u8 (directory_bytes d).
Proof.
  induction 1 as [|e d (_ & _ & _ & _ & Hn) Hd IH]; [by constructor|]. unfold directory_bytes in *. cbn [map concat].
  unfold entry_bytes. repeat (apply Forall_app; split); try apply word_bytes_u8; done.
Qed.

Lemma bytes_word_u32 l p : Forall is_u8 l -> 0 <= p -> p + 3 < Z.of_nat (length l) -> is_u32 (bytes_word l p).
Proof.
  intros Hl Hp Hn. pose proof (at_Forall is_u8 l p Hl). pose proof (at_Forall is_u8 l (p + 1) Hl).
  pose proof (at_Forall is_u8 l (p + 2) Hl). pose proof (at_Forall is_u8 l (p + 3) Hl). unfold bytes_word, is_u32, is_u8 in *. lia.
Qed.

Lemma bytes_directory_ok n l : Forall is_u8 l -> (32 * n <= length l)%nat -> Forall entry_ok (bytes_directory n l) /\ length (bytes_directory n l) = n.
Proof.
  revert l. induction n as [|n IH]; intros l Hl Hn; [done|]. cbn [bytes_directory].
  destruct (IH (drop 32 l)) as [F L]; [by apply Forall_drop|rewrite length_drop; lia|]. split; [|cbn [length]; by rewrite L].
  constructor; [|done]. unfold entry_ok. cbn [bytes_entry first capacity size name].
  split; [apply bytes_word_u32; [done|lia..]|]. split; [apply bytes_word_u32; [done|lia..]|]. split; [apply bytes_word_u32; [done|lia..]|].
  split; [rewrite length_take; lia|by apply Forall_take].
Qed.

(** ** The invariant *)

Section Disk.
Context {D : Type} {BD : BlockDevice D} {BDO : BlockDeviceOk D} `{F : Fuelled}.
Implicit Types (s : fs_state D).

(** What the kernel's static variables are before a mount, too. *)
Definition fs_ready s : Prop := length (directory s) = 16%nat /\ Forall entry_ok (directory s) /\ buffer_ok s.

(** A mounted file system of less than 4 GiB: the entries set aside are exactly
    the inconsistent ones. *)
Definition fs_ok s : Prop := fs_ready s /\ DATA < sectors s < 0x800000 /\ corrupt s = map (inconsistent (sectors s)) (directory s).

(** A file's extent is inside the data area and holds the file. *)
Definition inside (n : Z) (e : entry) : Prop :=
  DATA <= first e /\ 0 <= capacity e /\ first e + capacity e <= n /\ 0 <= size e <= 512 * capacity e.

Lemma inconsistent_false n e : entry_ok e -> 0 <= n < 0x800000 -> named e = true -> inconsistent n e = false ->
  inside n e /\ at_ (name e) 19 = 0.
Proof.
  intros (Hf & Hc & Hs & _) Hn He Hi. unfold inconsistent in Hi. rewrite He in Hi. cbn [andb] in Hi. unfold is_u32 in *.
  repeat (apply orb_false_iff in Hi as [Hi ?]). unfold VIRTIO_SECTOR in *. bools. rewrite (u32_id (n - capacity e)) in * by (unfold is_u32; lia).
  rewrite (u32_id (capacity e * 512)) in * by (unfold is_u32; lia). split; [|by apply tst_false]. unfold inside. unfold DATA in *. lia.
Qed.

Lemma consistent n e : inside n e -> 0 <= n < 0x800000 -> at_ (name e) 19 = 0 -> inconsistent n e = false.
Proof.
  intros (H1 & H2 & H3 & H4) Hn Ht. unfold inconsistent, VIRTIO_SECTOR, FS_NAME in *. change (20 - 1) with 19. rewrite Ht. unfold DATA in *.
  rewrite !u32_id by (unfold is_u32; lia). rewrite (proj2 (Z.ltb_ge _ _)) by lia. rewrite (proj2 (Z.ltb_ge n _)) by lia.
  rewrite (proj2 (Z.ltb_ge (n - _) _)) by lia. rewrite (proj2 (Z.ltb_ge (_ * 512) _)) by lia. apply andb_false_r.
Qed.

Lemma at_map {A B} `{Inhabited A, Inhabited B} (f : A -> B) (l : list A) i : 0 <= i < Z.of_nat (length l) -> at_ (map f l) i = f (at_ l i).
Proof.
  intros Hi. unfold at_. destruct (lookup_lt_is_Some_2 l (Z.to_nat i) ltac:(lia)) as [a Ha].
  rewrite (list_lookup_total_correct _ _ _ Ha). apply list_lookup_total_correct. change (map f l) with (f <$> l). by rewrite list_lookup_fmap, Ha.
Qed.

Lemma in_use_inside s i : fs_ok s -> 0 <= i < 16 -> in_use s i = true ->
  entry_ok (at_ (directory s) i) /\ inside (sectors s) (at_ (directory s) i) /\ at_ (name (at_ (directory s) i)) 19 = 0.
Proof.
  intros ((L & E & _) & Hs & Hc) Hi Hu. assert (Hl : 0 <= i < Z.of_nat (length (directory s))) by lia.
  pose proof (at_Forall entry_ok _ _ E Hl) as He. split; [done|]. unfold in_use in Hu. apply andb_true_iff in Hu as [Hn Hu].
  rewrite Hc, at_map in Hu by done. apply inconsistent_false; [done|unfold DATA in *; lia|done|by apply negb_true_iff].
Qed.

(** ** Mounting *)

(** The first sector says this is a file system of [n] sectors. *)
Definition dword (d : D) (k : Z) : Z :=
  dbyte d (4 * k) + 256 * dbyte d (4 * k + 1) + 65536 * dbyte d (4 * k + 2) + 16777216 * dbyte d (4 * k + 3).
Definition formatted (d : D) (n : Z) : Prop :=
  dword d 0 = MAGIC /\ dword d 1 = n /\ dword d 2 = DIRECTORY /\ dword d 3 = DATA /\ dword d 4 = ENTRIES.

(** The directory a disk holds. *)
Definition disk_directory (d : D) (l : list Z) : Prop := length l = 512%nat /\ forall i, 0 <= i < 512 -> at_ l i = dbyte d (512 + i).

Lemma read_directory_wp s (Q : bool -> fs_state D -> Prop) :
  fs_ready s ->
  (forall ok l d, length l = 512%nat -> Forall is_u8 l -> device_ok d -> (forall a, dbyte d a = dbyte (disk s) a) ->
     (ok = true -> disk_directory (disk s) l) -> Q ok {| s with directory := bytes_directory 16 l; disk := d |}) ->
  wp read_directory Q s.
Proof.
  intros (L & E & Hb) HQ. unfold wp, read_directory. pose proof (directory_bytes_length _ E) as Hl. rewrite L in Hl.
  destruct (transfer_in _ _ _ _) as [[ok l] d] eqn:Et.
  destruct (transfer_in_ok _ _ _ _ _ _ _ (proj2 (proj2 Hb)) (ltac:(unfold DIRECTORY; lia) : 0 <= DIRECTORY) (Z.le_0_1) ltac:(exact Hl) Et) as (Hk & Ll & U & Hd & Hr).
  assert (L2 : length l = 512%nat) by (rewrite Ll; exact Hl). apply HQ; [done|done|done|done|]. intros ->. split; [done|]. exact (Hr eq_refl).
Qed.

Lemma write_directory_wp s (Q : bool -> fs_state D -> Prop) :
  fs_ready s ->
  (forall ok d, (device_ok (disk s) -> device_ok d) -> (forall a, ~ (512 <= a < 1024) -> dbyte d a = dbyte (disk s) a) ->
     (ok = true -> disk_directory d (directory_bytes (directory s))) -> Q ok {| s with disk := d |}) ->
  wp write_directory Q s.
Proof.
  intros (L & E & Hb) HQ. unfold wp, write_directory. pose proof (directory_bytes_length _ E) as Hl. rewrite L in Hl.
  destruct (transfer_out _ _ _ _) as [ok d] eqn:Et.
  destruct (transfer_out_ok _ _ _ _ _ _ (proj2 (proj2 Hb)) (ltac:(unfold DIRECTORY; lia) : 0 <= DIRECTORY) (Z.le_0_1) ltac:(exact Hl) (directory_bytes_u8 _ E) Et) as (Hk & Hd & Hr).
  apply HQ; [done|intros a Ha; apply Hd; unfold DIRECTORY; lia|]. intros ->. split; [done|]. intros i Hi. symmetry. by apply (Hr eq_refl).
Qed.

(** A disk is mounted only where it is formatted, whatever its directory says; then
    the state is well formed, and the directory is the disk's. *)
Lemma fs_mount_wp cap s :
  fs_ready s -> cap < 0x800000 ->
  wp (fs_mount cap) (fun ok s' => (fs_ready s' /\ (ok = false -> mounted s' = mounted s)) /\ (forall a, dbyte (disk s') a = dbyte (disk s) a)
    /\ (ok = true -> fs_ok s' /\ mounted s' = true /\ sectors s' <= cap /\ formatted (disk s) (sectors s')
        /\ exists l, disk_directory (disk s) l /\ directory s' = bytes_directory 16 l)) s.
Proof.
  intros Hs Hcap. pose proof Hs as (L & E & B). unfold fs_mount. wp1. apply read_sector_wp; [done|lia|]. intros ok l d Hl Hu HK Hd Hr.
  do 2 wp1. unfold id. cbn [sector_buffer]. wp1; [wp1; split; [by split|]; split; [done|]; done|].
  repeat (apply orb_false_iff in H as [H ?]). bools. specialize (Hr H).
  assert (Hw : forall k, 0 <= k < 8 -> bytes_word l (4 * k) = dword (disk s) k).
  { intros k Hk. unfold bytes_word, dword. by rewrite !Hr by lia. }
  rewrite !Hw in * by lia. wp1. wp1. wp1. apply read_directory_wp; [by split|]. cbn [disk]. intros ok2 l2 d2 Hl2 Hu2 Hk2 Hd2 Hr2. cbn [disk] in Hd2.
  assert (Hsame : forall a, dbyte d2 a = dbyte (disk s) a) by (intros a; by rewrite Hd2, Hd).
  destruct (bytes_directory_ok 16 l2 Hu2) as [Fe Le]; [lia|].
  wp1; [wp1; split; [by split|]; by split|]. wp1. wp1. wp1. wp1. wp1. split; [by split|]. split; [exact Hsame|]. intros _. bools. destruct (Hr2 ltac:(done)) as (_ & Hdir).
  split; [|split; [done|split; [cbn [sectors]; lia|split; [by repeat split|exists l2; split; [split; [done|intros i Hi; by rewrite Hdir, Hd by done]|done]]]]].
  split; [split; [exact Le|split; [exact Fe|by split]]|]. split; [|done]. cbn [sectors]. lia.
Qed.

Lemma fs_flush_wp s (Q : bool -> fs_state D -> Prop) :
  fs_ready s ->
  (forall ok d, (device_ok (disk s) -> device_ok d) -> (forall a, ~ (512 <= a < 1024) -> dbyte d a = dbyte (disk s) a) ->
     (ok = true -> mounted s = true /\ disk_directory d (directory_bytes (directory s))) -> Q ok {| s with disk := d |}) ->
  wp fs_flush Q s.
Proof.
  intros Hs HQ. unfold fs_flush. wp1. wp1. unfold id. wp1.
  - apply write_directory_wp; [done|]. intros ok d Hk Ho Hw. apply HQ; [done|done|]. intros Hok. split; [done|by apply Hw].
  - wp1. destruct s as [d c b n m k]. apply (HQ false k); done.
Qed.

Lemma dword_same d d' k : (forall a, 0 <= a < 512 -> dbyte d' a = dbyte d a) -> 0 <= k < 100 -> dword d' k = dword d k.
Proof. intros H Hk. unfold dword. by rewrite !H by lia. Qed.

Lemma formatted_same d d' n m : (forall a, 0 <= a < 512 -> dbyte d' a = dbyte d a) -> formatted d n -> formatted d' m -> m = n.
Proof. intros H (_ & H1 & _) (_ & H2 & _). rewrite <- H1, <- H2. by apply dword_same. Qed.

Lemma disk_directory_unique d l k : disk_directory d l -> disk_directory d k -> l = k.
Proof. intros [L1 H1] [L2 H2]. apply list_eq_at; [congruence|]. intros i Hi. by rewrite H1, H2 by lia. Qed.

(** ** Opening *)

(** A C string, or one that is too long for a name. *)
Definition terminated (l : list Z) : Prop := (20 < length l)%nat \/ In 0 l.

Lemma same_from_ok n a b : (n <= length a)%nat -> (n <= length b)%nat \/ In 0 b -> exists r, same_from n a b = Ok r.
Proof.
  revert a b. induction n as [|n IH]; intros a b Ha Hb; [by exists true|]. destruct a as [|x a]; [cbn in Ha; lia|].
  destruct b as [|y b]; [destruct Hb as [Hb|[]]; cbn in Hb; lia|]. cbn [same_from].
  destruct (Z.eqb_spec x y) as [->|]; cbn [negb]; [|by exists false]. destruct (Z.eqb_spec y 0); [by exists true|].
  apply IH; [cbn in Ha; lia|]. destruct Hb as [Hb|[Hb|Hb]]; [left; cbn in Hb; lia|done|by right].
Qed.

Lemma same_ok e wanted : entry_ok e -> terminated wanted -> exists r, same (name e) wanted = Ok r.
Proof. intros (_ & _ & _ & Hn & _) Hw. apply same_from_ok; [by rewrite Hn|]. destruct Hw as [Hw|Hw]; [left; change (Z.to_nat FS_NAME) with 20%nat; lia|by right]. Qed.

(** What the loop of [fs_open] found: the file, or none, a free entry if there is one, and the
    end of the last extent. *)
Definition usable (n : Z) (e : entry) : Prop := named e = true /\ inconsistent n e = false.
Definition scanned (n : Z) (wanted : list Z) (es : list entry) (i fs0 next0 : Z) (r : option Z * Z * Z) : Prop :=
  match r with
  | (Some k, _, _) =>
      i <= k < i + Z.of_nat (length es) /\ usable n (at_ es (k - i)) /\ same (name (at_ es (k - i))) wanted = Ok true
  | (None, fs1, next1) =>
      (next0 <= next1 <= n /\ (next1 = next0 \/ exists j, 0 <= j < Z.of_nat (length es) /\ usable n (at_ es j) /\ first (at_ es j) + capacity (at_ es j) = next1))
      /\ (fs1 = fs0 \/ (i <= fs1 < i + Z.of_nat (length es) /\ named (at_ es (fs1 - i)) = false))
      /\ (fs1 < 0 -> fs0 < 0 /\ forall j, 0 <= j < Z.of_nat (length es) -> named (at_ es j) = true)
      /\ (forall j, 0 <= j < Z.of_nat (length es) -> usable n (at_ es j) ->
            first (at_ es j) + capacity (at_ es j) <= next1 /\ same (name (at_ es j)) wanted = Ok false)
  end.

Lemma at_cons {A} `{Inhabited A} (x : A) l i : 0 < i -> at_ (x :: l) i = at_ l (i - 1).
Proof. intros Hi. unfold at_. replace (Z.to_nat i) with (S (Z.to_nat (i - 1))) by lia. done. Qed.

(** One entry further; the new entry's own part is a hypothesis. *)
Lemma scanned_cons n wanted e es i fs0 fs1 next0 next1 r :
  next0 <= next1 -> next1 = next0 \/ (usable n e /\ first e + capacity e = next1) ->
  (fs1 = fs0 \/ (fs1 = i /\ named e = false)) -> (fs1 < 0 -> fs0 < 0 /\ named e = true) ->
  (usable n e -> first e + capacity e <= next1 /\ same (name e) wanted = Ok false) ->
  scanned n wanted es (i + 1) fs1 next1 r -> scanned n wanted (e :: es) i fs0 next0 r.
Proof.
  intros Hn Hn1 Hf Hf0 He. unfold scanned. destruct r as [[[k|] fs2] next2]; cbn [length].
  - intros (Hk & H). rewrite at_cons by lia. replace (k - i - 1) with (k - (i + 1)) by lia. split; [lia|exact H].
  - assert (Hc : forall j, 0 <= j < Z.of_nat (length es) -> at_ (e :: es) (j + 1) = at_ es j) by (intros j Hj; rewrite at_cons by lia; f_equal; lia).
    intros ((Hb & Hat) & Hfs & Hnone & Hall). split; [split; [lia|]|split; [|split]].
    + destruct Hat as [->|(j & Hj & Hu & Ej)]; [|right; exists (j + 1); rewrite Hc by done; split; [lia|done]].
      destruct Hn1 as [->|(Hu & Ej)]; [by left|]. right. exists 0. split; [lia|done].
    + destruct Hfs as [->|(Hr & Hu)].
      * destruct Hf as [->|[-> Hu]]; [by left|]. right. split; [lia|]. by rewrite Z.sub_diag.
      * right. split; [lia|]. rewrite at_cons by lia. by replace (fs2 - i - 1) with (fs2 - (i + 1)) by lia.
    + intros Hneg. destruct (Hnone Hneg) as (H1 & H2). destruct (Hf0 H1) as (H3 & H4). split; [done|]. intros j Hj.
      destruct (Z.eqb_spec j 0) as [->|]; [done|]. replace j with (j - 1 + 1) by lia. rewrite Hc by lia. apply H2. lia.
    + intros j Hj. destruct (Z.eqb_spec j 0) as [->|].
      * change (at_ (e :: es) 0) with e. intros A. destruct (He A). split; [lia|done].
      * rewrite at_cons by lia. apply Hall. lia.
Qed.

Lemma open_scan_spec n wanted es i fs0 next0 :
  Forall entry_ok es -> 0 <= n < 0x800000 -> terminated wanted -> next0 <= n -> 0 <= i ->
  wpr (open_scan es (map (inconsistent n) es) i wanted fs0 next0) (scanned n wanted es i fs0 next0).
Proof.
  intros He Hn Hw. revert i fs0 next0. induction He as [|e es He Hes IH]; intros i fs0 next0 Hnx Hi.
  { cbn [open_scan map wpr mret res_ret scanned length]. split; [split; [lia|by left]|]. split; [by left|]. split; [|intros j Hj; lia]. intros Hf. split; [done|]. intros j Hj. lia. }
  cbn [open_scan map]. destruct (named e) eqn:En; cbn [negb].
  2: { eapply wpr_mono; [apply IH; lia|]. intros r. apply scanned_cons; [lia|by left| | |intros (H & _); congruence]; destruct (Z.ltb_spec fs0 0); [by right|by left|lia|lia]. }
  destruct (inconsistent n e) eqn:Ei.
  { eapply wpr_mono; [apply IH; lia|]. intros r. apply scanned_cons; [lia|by left|by left|done|intros (_ & H); congruence]. }
  destruct (inconsistent_false n e He Hn En Ei) as ((I1 & I2 & I3 & I4) & _). destruct (same_ok e wanted He Hw) as [r Hr]. rewrite Hr.
  cbn [mbind res_bind]. unfold DATA in I1. rewrite u32_id by (unfold is_u32; lia). destruct r.
  - cbn [wpr mret res_ret scanned length]. split; [lia|]. rewrite Z.sub_diag. done.
  - set (next1 := if next0 <? first e + capacity e then first e + capacity e else next0).
    assert (next0 <= next1 <= n /\ first e + capacity e <= next1 /\ (next1 = next0 \/ first e + capacity e = next1)) by (unfold next1; destruct (Z.ltb_spec next0 (first e + capacity e)); lia).
    eapply wpr_mono; [apply IH; lia|]. intros r. apply scanned_cons; [lia| |by left|done|intros _; split; [lia|done]].
    destruct H as (_ & _ & [->|H]); [by left|right]. by split.
Qed.

Lemma name_length_spec n l : (n < length l)%nat \/ In 0 l ->
  exists k, name_length n l = Ok (Z.of_nat k) /\ (k <= n)%nat /\ (k <= length l)%nat
    /\ Forall (fun c => c <> 0) (take k l) /\ ((k < n)%nat -> exists r, drop k l = 0 :: r).
Proof.
  revert l. induction n as [|n IH]; intros l Hl; (destruct l as [|c l]; [destruct Hl as [Hl|[]]; cbn in Hl; lia|]); cbn [name_length].
  { exists 0%nat. split; [by destruct (c =? 0)|]. split; [lia|]. split; [lia|]. split; [by constructor|]. lia. }
  destruct (Z.eqb_spec c 0) as [->|Hc].
  { exists 0%nat. split; [done|]. split; [lia|]. split; [lia|]. split; [by constructor|]. intros _. by exists l. }
  destruct (IH l) as (k & E & Hk & Hkl & Hz & Hd); [destruct Hl as [Hl|[Hl|Hl]]; [left; cbn in Hl; lia|done|by right]|].
  exists (S k). rewrite E. cbn [mbind res_bind mret res_ret]. split; [do 2 f_equal; lia|]. split; [lia|]. split; [cbn; lia|].
  split; [by constructor|]. intros Hn. apply Hd. lia.
Qed.

(** The name stored is the name asked for. *)
Lemma same_from_copy n k l : (k < n)%nat -> Forall (fun c => c <> 0) (take k l) -> (exists r, drop k l = 0 :: r) ->
  same_from n (take k l ++ replicate (n - k) 0) l = Ok true.
Proof.
  revert k l. induction n as [|n IH]; intros k l Hk Hz [r Hr]; [lia|]. destruct k as [|k].
  - rewrite drop_0 in Hr. subst l. done.
  - destruct l as [|c l]; [done|]. cbn [take app same_from]. cbn [take] in Hz. apply Forall_cons_1 in Hz as [Hc Hz].
    rewrite Z.eqb_refl. cbn [negb]. rewrite (proj2 (Z.eqb_neq c 0)) by done. replace (S n - S k)%nat with (n - k)%nat by lia.
    apply IH; [lia|done|]. by exists r.
Qed.

Definition extent_apart (e e' : entry) : Prop := first e + capacity e <= first e' \/ first e' + capacity e' <= first e.
(** No two files share a sector. *)
Definition files_apart s : Prop :=
  forall i j, 0 <= i < 16 -> 0 <= j < 16 -> i <> j -> in_use s i = true -> in_use s j = true ->
    extent_apart (at_ (directory s) i) (at_ (directory s) j).

(** A file of that name is in use. *)
Definition present (wanted : list Z) s : Prop := exists i, 0 <= i < 16 /\ in_use s i = true /\ same (name (at_ (directory s) i)) wanted = Ok true.
(** The last extent ends too near the end of the disk for another. *)
Definition full s : Prop :=
  sectors s < DATA + FS_CAPACITY \/ exists i, 0 <= i < 16 /\ in_use s i = true /\ sectors s < first (at_ (directory s) i) + capacity (at_ (directory s) i) + FS_CAPACITY.
(** Why no file is answered; [d] is the directory that was to be written. *)
Definition refused (wanted : list Z) (create : bool) s (d : list entry) : Prop :=
  mounted s = false \/ at_ wanted 0 = 0
  \/ ~ present wanted s
     /\ (create = false \/ (forall i, 0 <= i < 16 -> named (at_ (directory s) i) = true) \/ Forall (fun c => c <> 0) (take 20 wanted) \/ full s
         \/ fst (transfer_out DIRECTORY 1 (directory_bytes d) (disk s)) = false).

Definition open_post (wanted : list Z) (create : bool) s (r : Z) s' : Prop :=
  fs_ok s' /\ (sectors s' = sectors s /\ mounted s' = mounted s) /\ (files_apart s -> files_apart s')
  /\ (forall i, 0 <= i < 16 -> named (at_ (directory s) i) = true -> at_ (directory s') i = at_ (directory s) i)
  /\ (forall a, ~ (512 <= a < 1024) -> dbyte (disk s') a = dbyte (disk s) a)
  /\ (r = -1 /\ refused wanted create s (directory s')
      \/ (0 <= r < 16 /\ mounted s = true /\ in_use s' r = true /\ same (name (at_ (directory s') r)) wanted = Ok true
          /\ (in_use s r = true /\ s' = s
              \/ (~ present wanted s /\ create = true /\ named (at_ (directory s) r) = false /\ size (at_ (directory s') r) = 0 /\ capacity (at_ (directory s') r) = FS_CAPACITY /\ inside (sectors s) (at_ (directory s') r)
                  /\ (forall j, 0 <= j < 16 -> j <> r -> in_use s' j = true -> extent_apart (at_ (directory s') r) (at_ (directory s') j))
                  /\ disk_directory (disk s') (directory_bytes (directory s')))))).

Lemma open_post_unchanged wanted create s r : fs_ok s ->
  (r = -1 /\ refused wanted create s (directory s) \/ (0 <= r < 16 /\ mounted s = true /\ in_use s r = true /\ same (name (at_ (directory s) r)) wanted = Ok true)) ->
  open_post wanted create s r s.
Proof.
  intros Hs Hr. do 5 (split; [done|]). destruct Hr as [Hr|(A & B & C & E)]; [by left|right].
  split; [done|]. split; [done|]. split; [done|]. split; [done|by left].
Qed.

(** A consistent new entry past every file, in a free slot. *)
Lemma fresh_entry s slot e d : fs_ok s -> (device_ok (disk s) -> device_ok d) -> 0 <= slot < 16 -> named (at_ (directory s) slot) = false -> named e = true -> entry_ok e ->
  inside (sectors s) e -> at_ (name e) 19 = 0 ->
  (forall j, 0 <= j < 16 -> in_use s j = true -> first (at_ (directory s) j) + capacity (at_ (directory s) j) <= first e) ->
  let s' := {| s with directory := <[Z.to_nat slot := e]> (directory s); disk := d |} in
  fs_ok s' /\ (files_apart s -> files_apart s') /\ in_use s' slot = true.
Proof.
  intros ((L & E & B) & Hs & Hc) Hk Hi Hu He Hok Hin Ht Hpast. cbv zeta.
  assert (Hcon : inconsistent (sectors s) e = false) by (apply consistent; [done|unfold DATA in *; lia|done]).
  assert (Hold : inconsistent (sectors s) (at_ (directory s) slot) = false) by (unfold inconsistent; by rewrite Hu).
  assert (Hat : forall i, 0 <= i -> at_ (<[Z.to_nat slot := e]> (directory s)) i = if slot =? i then e else at_ (directory s) i).
  { intros i Hi0. apply at_insert; lia. }
  assert (Hcs : at_ (corrupt s) slot = false) by (rewrite Hc, at_map by lia; done).
  assert (Hcorr : corrupt s = map (inconsistent (sectors s)) (<[Z.to_nat slot := e]> (directory s))).
  { change (map (inconsistent (sectors s)) (<[Z.to_nat slot := e]> (directory s))) with (inconsistent (sectors s) <$> <[Z.to_nat slot := e]> (directory s)).
    rewrite list_fmap_insert, Hcon. change (inconsistent (sectors s) <$> directory s) with (map (inconsistent (sectors s)) (directory s)).
    rewrite <- Hc. symmetry. apply list_insert_id. rewrite <- Hcs. apply list_lookup_lookup_total_lt. rewrite Hc, length_map. lia. }
  split; [split; [split; [cbn [directory]; by rewrite length_insert|split; [by apply Forall_insert|destruct B as (B1 & B2 & B3); by split; [|split; [|apply Hk]]]]|split; [exact Hs|exact Hcorr]]|].
  split; [|unfold in_use; cbn [directory corrupt]; rewrite Hat, Z.eqb_refl, He, Hcs by lia; done].
  intros Ha i j H1 H2 Hne. unfold in_use, files_apart, extent_apart in *. cbn [directory corrupt]. rewrite !Hat by lia. intros U1 U2.
  destruct (Z.eqb_spec slot i), (Z.eqb_spec slot j); [lia|right; by apply Hpast|left; by apply Hpast|by apply Ha].
Qed.

(** The entry [fs_open] fills in. *)
Definition new_entry (wanted : list Z) (len : nat) (next : Z) : entry :=
  {| name := take len wanted ++ replicate (20 - len) 0; first := next; capacity := 8; size := 0 |}.

Lemma new_entry_ok wanted len next :
  Forall is_u8 wanted -> is_u32 next -> (0 < len < 20)%nat -> Forall (fun c => c <> 0) (take len wanted) -> (exists r, drop len wanted = 0 :: r) ->
  let e := new_entry wanted len next in
  named e = true /\ entry_ok e /\ at_ (name e) 19 = 0 /\ same (name e) wanted = Ok true.
Proof.
  intros Hu Hn Hl Hz Hd. cbv zeta. assert (Hlt : length (take len wanted) = len).
  { rewrite length_take. destruct Hd as [r Hr]. pose proof (length_drop wanted len) as H. rewrite Hr in H. cbn in H. lia. }
  split; [|split; [|split]].
  - unfold named, new_entry. cbn [name]. destruct len as [|len]; [lia|]. destruct wanted as [|c w]; [done|]. cbn [take app] in *.
    apply Forall_cons_1 in Hz as [Hc _]. by apply tst_true.
  - unfold entry_ok, new_entry. cbn [first capacity size name]. split; [done|]. split; [done|]. split; [done|].
    split; [rewrite length_app, length_replicate; lia|]. apply Forall_app; split; [by apply Forall_take|]. by apply Forall_replicate.
  - unfold new_entry. cbn [name]. replace 19 with (Z.of_nat (length (take len wanted)) + (19 - Z.of_nat len)) by lia. rewrite at_app_after by lia.
    unfold at_. apply lookup_total_replicate_2. lia.
  - apply same_from_copy; [lia|done|done].
Qed.

Lemma in_use_usable s i : fs_ok s -> 0 <= i < 16 -> in_use s i = true <-> usable (sectors s) (at_ (directory s) i).
Proof.
  intros ((L & _) & _ & Hc) Hi. unfold in_use, usable. rewrite Hc, at_map by lia. rewrite andb_true_iff, negb_true_iff. done.
Qed.

Lemma flush_answer s : mounted s = true -> wp fs_flush (fun ok _ => ok = fst (transfer_out DIRECTORY 1 (directory_bytes (directory s)) (disk s))) s.
Proof. intros Hm. unfold fs_flush. wp1. wp1. unfold id. rewrite Hm. unfold wp, write_directory. by destruct (transfer_out _ _ _ _). Qed.

(** The end of [fs_open]: the entry goes into its slot, and the directory to the disk. *)
Lemma enter_file_wp wanted s slot e : fs_ok s -> mounted s = true -> ~ present wanted s -> 0 <= slot < 16 -> named (at_ (directory s) slot) = false ->
  named e = true -> entry_ok e -> inside (sectors s) e -> at_ (name e) 19 = 0 -> same (name e) wanted = Ok true -> size e = 0 -> capacity e = FS_CAPACITY ->
  (forall j, 0 <= j < 16 -> in_use s j = true -> first (at_ (directory s) j) + capacity (at_ (directory s) j) <= first e) ->
  wp (l ← lift (aset (directory s) slot e); modify (fun s => {| s with directory := l |});; ok ← fs_flush; mret (if ok : bool then slot else -1)) (open_post wanted true s) s.
Proof.
  intros Hs Em Hno Hsl Hun Hname Heok Hin H19 Hsame Hsz Hcap Hpast. pose proof Hs as ((L & _) & _ & Hc). rewrite aset_ok by lia. wp1. wp1. wp1. wp1. wp1.
  destruct (fresh_entry s slot e (disk s) Hs (fun x => x) Hsl Hun Hname Heok Hin H19 Hpast) as (Hs' & _). wp1. eapply wp_mono; [apply wp_and; [|apply flush_answer; exact Em]|].
  { apply (fs_flush_wp _ (fun ok s' => exists d, s' = {| s with directory := <[Z.to_nat slot := e]> (directory s); disk := d |} /\ (device_ok (disk s) -> device_ok d)
      /\ (forall a, ~ (512 <= a < 1024) -> dbyte d a = dbyte (disk s) a) /\ (ok = true -> disk_directory d (directory_bytes (<[Z.to_nat slot := e]> (directory s)))))); [exact (proj1 Hs')|].
    intros ok d Hk Ho Hfl. exists d. split; [done|]. split; [exact Hk|]. split; [exact Ho|]. intros Hok. by apply Hfl. }
  intros ok s2 ((d & -> & Hk & Ho & Hfl) & Hans). cbn [directory disk] in Hans. wp1.
  destruct (fresh_entry s slot e d Hs Hk Hsl Hun Hname Heok Hin H19 Hpast) as (Hs2 & Hap2 & Hus2).
  assert (Hat : forall i, 0 <= i -> at_ (<[Z.to_nat slot := e]> (directory s)) i = if slot =? i then e else at_ (directory s) i) by (intros i Hi0; apply at_insert; lia).
  split; [exact Hs2|]. split; [done|]. split; [exact Hap2|]. split.
  { intros i Hi Hni. cbn [directory]. rewrite Hat by lia. destruct (Z.eqb_spec slot i); [congruence|done]. }
  split; [exact Ho|]. destruct ok; [right|left; split; [done|]; right; right; split; [done|]; by do 4 right].
  cbn [directory]. rewrite Hat, Z.eqb_refl by lia. split; [lia|]. split; [done|]. split; [exact Hus2|]. split; [exact Hsame|]. right.
  do 6 (split; [done|]). split; [|by apply Hfl]. intros j Hj Hne Hu. rewrite Hat by lia. unfold in_use in Hu. cbn [directory corrupt] in Hu. rewrite Hat in Hu by lia.
  rewrite (proj2 (Z.eqb_neq slot j)) in Hu |- * by congruence. right. by apply Hpast.
Qed.

Lemma fs_open_wp wanted create s :
  fs_ok s -> Forall is_u8 wanted -> terminated wanted -> wp (fs_open wanted create) (open_post wanted create s) s.
Proof.
  intros Hs Hu Hw. pose proof Hs as ((L & E & B) & Hn & Hc). unfold fs_open. wp1. wp1. unfold id. wp1.
  destruct (mounted s) eqn:Em; [|change (wp (mret (-1)) (open_post wanted create s) s); wp1; apply open_post_unchanged; [done|left; split; [done|by left]]].
  destruct wanted as [|c wanted']; [destruct Hw as [Hw|[]]; cbn in Hw; lia|]. set (wanted := c :: wanted') in *.
  wp1. wp1. change (aget wanted 0) with (Ok c). cbn [wpr]. wp1. wp1; [wp1; apply open_post_unchanged; [done|left; split; [done|right; left; by bools]]|]. bools.
  wp1. wp1. rewrite Hc. eapply wpr_mono; [apply open_scan_spec; [done|unfold DATA in *; lia|done|lia|lia]|]. intros [[found free] next] Hscan.
  destruct found as [k|].
  { wp1. apply open_post_unchanged; [done|right]. destruct Hscan as (Hk & Hus & Hsame). rewrite Z.sub_0_r in *. rewrite L in Hk.
    split; [lia|]. split; [done|]. split; [|done]. apply in_use_usable; [done|lia|done]. }
  destruct Hscan as ((Hnext & Hlast) & Hfree & Hnone & Hall). rewrite L in *.
  assert (Hno : ~ present wanted s). { intros (j & Hj & Huj & Hsj). destruct (Hall j Hj) as (_ & Hx); [by apply in_use_usable|]. congruence. }
  wp1. wp1. destruct (name_length_spec 20 wanted Hw) as (len & El & Hlen & _ & Hz & Hd).
  unfold FS_NAME. change (Z.to_nat 20) with 20%nat. rewrite El. cbn [wpr]. unfold FS_CAPACITY, DATA in *.
  rewrite (u32_id (next + 8)) by (unfold is_u32; lia). wp1.
  { wp1. apply open_post_unchanged; [done|left; split; [done|right; right; split; [done|]]]. apply orb_true_iff in H0 as [H0|H0]; [apply orb_true_iff in H0 as [H0|H0]; [apply orb_true_iff in H0 as [H0|H0]|]|].
    - left. by destruct create.
    - right; left. apply Hnone. bools. lia.
    - right; right; left. bools. assert (len = 20%nat) as -> by lia. exact Hz.
    - do 3 right; left. bools. unfold full, DATA, FS_CAPACITY. destruct Hlast as [->|(j & Hj & Huj & Ej)]; [by left|right]. exists j. split; [lia|]. split; [by apply in_use_usable|lia]. }
  repeat (apply orb_false_iff in H0 as [H0 ?]). bools. destruct Hfree as [Hfree|[Hfr Hun]]; [lia|]. rewrite Z.sub_0_r in Hun.
  rewrite Nat2Z.id. change {| name := _; first := next; capacity := 8; size := 0 |} with (new_entry wanted len next).
  assert (Hlen0 : (0 < len)%nat).
  { destruct len as [|len]; [|lia]. destruct (Hd ltac:(lia)) as [r Hr]. rewrite drop_0 in Hr. unfold wanted in Hr. congruence. }
  destruct (new_entry_ok wanted len next) as (Hname & Heok & H19 & Hsame); [done|unfold is_u32; lia|lia|done|apply Hd; lia|].
  destruct create; [|done]. apply enter_file_wp; try done; [unfold inside, new_entry, DATA; cbn [first capacity size]; lia|].
  intros j Hj Hu2. apply Hall; [lia|by apply in_use_usable].
Qed.

(** ** Writing and reading *)

Lemma inside_placed n e : inside n e -> n < 0x800000 -> placed e.
Proof. unfold inside, placed, DATA. lia. Qed.

(** Only the size of a file in use changed, within its extent. *)
Lemma kept_ok file s s' : fs_ok s -> 0 <= file < 16 -> in_use s file = true -> kept file s s' -> buffer_ok s' ->
  0 <= size (at_ (directory s') file) <= 512 * capacity (at_ (directory s) file) -> fs_ok s'.
Proof.
  intros Hs Hi Hu (Ks & _ & Kc & Kl & Kd) Hb Hsz. destruct (in_use_inside s file Hs Hi Hu) as (He & Hin & H19).
  pose proof Hs as ((L & E & _) & Hn & Hc). rewrite L in Kl.
  pose proof (Kd file (proj1 Hi)) as Ef. rewrite Z.eqb_refl in Ef. set (z := size (at_ (directory s') file)) in *.
  assert (Hez : entry_ok {| (at_ (directory s) file) with size := z |}).
  { destruct He as (H1 & H2 & H3 & H4 & H5). destruct Hin as (I1 & I2 & I3 & I4). unfold entry_ok. cbn [first capacity size name].
    split; [done|]. split; [done|]. split; [unfold is_u32, DATA in *; lia|done]. }
  assert (Hd : directory s' = <[Z.to_nat file := {| (at_ (directory s) file) with size := z |}]> (directory s)).
  { apply list_eq_at; [by rewrite length_insert, Kl|]. intros k Hk. rewrite at_insert, Kd, (Z.eqb_sym file) by lia.
    destruct (Z.eqb_spec k file) as [->|]; done. }
  split; [split; [by rewrite Kl|split; [rewrite Hd; by apply Forall_insert|done]]|]. split; [by rewrite Ks|]. rewrite Kc, Ks, Hc, Hd.
  change (map ?f ?l) with (f <$> l). rewrite list_fmap_insert. symmetry. apply list_insert_id. rewrite list_lookup_fmap.
  rewrite (list_lookup_lookup_total_lt (directory s)) by lia. cbn [fmap option_fmap option_map]. f_equal. change (directory s !!! Z.to_nat file) with (at_ (directory s) file).
  unfold DATA in Hn. rewrite !consistent; [done|..]; try done; try lia. destruct Hin as (I1 & I2 & I3 & I4). unfold inside. cbn [first capacity size]. lia.
Qed.

Lemma fs_write_wp file position from length0 s :
  fs_ok s -> 0 <= file < 16 -> in_use s file = true -> Forall is_u8 from -> 0 <= length0 <= Z.of_nat (length from) -> length0 < 0x100000000 ->
  0 <= position -> wp (fs_write file position from length0) (fun r s' => fs_ok s' /\ write_post file position 0 length0 from s r s') s.
Proof.
  intros Hs Hf Hu Hb Hl H32 Hp. destruct (in_use_inside s file Hs Hf Hu) as (He & Hin & _). pose proof Hs as ((L & _ & B) & Hn & _).
  pose proof Hin as (I1 & I2 & I3 & I4). unfold fs_write. wp1. apply entry_at_wp; [lia|]. unfold VIRTIO_SECTOR, DATA in *.
  rewrite u32_id by (unfold is_u32; lia). rewrite (Z.mul_comm _ 512).
  eapply wp_mono; [apply write_loop_wp; [lia|done|lia|eapply inside_placed; [done|lia]|done|lia|lia|done|done]|].
  intros r s' P. split; [|done]. destruct P as (K & B' & _ & G & _). eapply kept_ok; [done|done|done|done|done|]. lia.
Qed.

Lemma fs_read_wp file position address to length0 s :
  fs_ok s -> 0 <= file < 16 -> in_use s file = true -> 0 <= length0 <= Z.of_nat (length to) -> length0 < 0x100000000 -> 0 <= position ->
  wp (fs_read file position address to length0) (read_post file position 0 length0 to s) s.
Proof.
  intros Hs Hf Hu Hl H32 Hp. destruct (in_use_inside s file Hs Hf Hu) as (He & Hin & _). pose proof Hs as ((L & _ & B) & Hn & _).
  apply read_loop_wp; [lia|done|lia|eapply inside_placed; [done|lia]|apply Hin|lia|lia|done|done].
Qed.

(** *** A device that answers *)

(** While [up] holds, a transfer of at most [most] sectors within the first [n] succeeds. *)
Definition serves (up : D -> Prop) (n most : Z) : Prop :=
  (forall d sector count buffer ok l d', device_ok d -> up d -> 0 <= sector -> 0 < count <= most -> sector + count <= n -> length buffer = Z.to_nat (512 * count) ->
     transfer_in sector count buffer d = (ok, l, d') -> ok = true /\ up d')
  /\ (forall d sector count l ok d', device_ok d -> up d -> 0 <= sector -> 0 < count <= most -> sector + count <= n -> length l = Z.to_nat (512 * count) -> Forall is_u8 l ->
     transfer_out sector count l d = (ok, d') -> ok = true /\ up d').

Section Up.
Context (up : D -> Prop) (n most : Z) (Hup : serves up n most) (Hmost : 1 <= most).

Lemma read_sector_up sector s : buffer_ok s -> up (disk s) -> 0 <= sector < n -> wp (read_sector sector) (fun ok s' => ok = true /\ up (disk s')) s.
Proof.
  intros (Hl & _ & Hok) Hu Hs. unfold wp, read_sector. destruct (transfer_in _ _ _ _) as [[ok l] d] eqn:E.
  exact (proj1 Hup _ _ _ _ _ _ _ Hok Hu (proj1 Hs) (ltac:(lia) : 0 < 1 <= most) (ltac:(lia) : sector + 1 <= n) Hl E).
Qed.

Lemma write_sector_up sector s : buffer_ok s -> up (disk s) -> 0 <= sector < n -> wp (write_sector sector) (fun ok s' => ok = true /\ up (disk s')) s.
Proof.
  intros (Hl & Hb & Hok) Hu Hs. unfold wp, write_sector. destruct (transfer_out _ _ _ _) as [ok d] eqn:E.
  exact (proj2 Hup _ _ _ _ _ _ Hok Hu (proj1 Hs) (ltac:(lia) : 0 < 1 <= most) (ltac:(lia) : sector + 1 <= n) Hl Hb E).
Qed.

Lemma fs_mount_up cap s : fs_ready s -> up (disk s) -> 1 < n -> forall m, formatted (disk s) m -> DATA < m <= cap -> wp (fs_mount cap) (fun ok s' => ok = true /\ up (disk s')) s.
Proof.
  intros Hs Hu Hn m (F0 & F1 & F2 & F3 & F4) Hm. pose proof Hs as (L & E & B). unfold fs_mount. wp1.
  eapply wp_mono; [apply wp_and; [apply (read_sector_up 0 s B Hu); lia|]|].
  { apply (read_sector_wp 0 s (fun ok s' => ok = true -> (fs_ready s' /\ forall k, 0 <= k < 8 -> bytes_word (sector_buffer s') (4 * k) = dword (disk s) k))); [done|lia|].
    intros ok l d Hl Hb Hk Hd Hr Hok. split; [split; [done|split; [done|by split]]|]. intros k Hk'. cbn [sector_buffer]. unfold bytes_word, dword. by rewrite !(Hr Hok) by lia. }
  intros ok s1 ((-> & Hu1) & H1). destruct (H1 eq_refl) as (Hs1 & Hw). wp1. wp1. unfold id. rewrite !Hw, F0, F1, F2, F3, F4 by lia. rewrite !Z.eqb_refl. cbn [negb orb].
  rewrite (proj2 (Z.ltb_ge cap m)), (proj2 (Z.leb_gt m DATA)) by lia. cbn [orb]. wp1. wp1. wp1. set (s2 := {| s1 with sectors := m |}).
  assert (Hrd : wp read_directory (fun ok s' => ok = true /\ up (disk s')) s2).
  { unfold wp, read_directory. destruct Hs1 as (L1 & E1 & B1). pose proof (directory_bytes_length _ E1) as Hl. rewrite L1 in Hl. destruct (transfer_in _ _ _ _) as [[ok l] d] eqn:Et.
    exact (proj1 Hup _ _ _ _ _ _ _ (proj2 (proj2 B1)) Hu1 (ltac:(unfold DIRECTORY; lia) : 0 <= DIRECTORY) (ltac:(lia) : 0 < 1 <= most) (ltac:(unfold DIRECTORY; lia) : DIRECTORY + 1 <= n) Hl Et). }
  eapply wp_mono; [exact Hrd|]. intros ok s3 (-> & Hu3). cbn [negb]. do 5 wp1. done.
Qed.

(** An open that only a device could have refused is not refused. *)
Lemma fs_open_up wanted create s : fs_ok s -> up (disk s) -> 1 < n -> Forall is_u8 wanted -> terminated wanted ->
  wp (fs_open wanted create) (fun r s' => up (disk s') /\ (r = -1 -> mounted s = false \/ at_ wanted 0 = 0 \/ ~ present wanted s
     /\ (create = false \/ (forall i, 0 <= i < 16 -> named (at_ (directory s) i) = true) \/ Forall (fun c => c <> 0) (take 20 wanted) \/ full s))) s.
Proof.
  intros Hs Hu Hn Hb Hw. pose proof Hs as ((L & E & B) & _).
  assert (Hany : wp (fs_open wanted create) (fun _ s' => disk s' = disk s \/ exists l, length l = 512%nat /\ Forall is_u8 l /\ disk s' = snd (transfer_out DIRECTORY 1 l (disk s))) s).
  { unfold fs_open. wp1. wp1. unfold id. wp1.
    destruct (mounted s) eqn:Em; [|change (wp (mret (-1)) (fun _ s' => disk s' = disk s \/ exists l, length l = 512%nat /\ Forall is_u8 l /\ disk s' = snd (transfer_out DIRECTORY 1 l (disk s))) s); wp1; by left].
    destruct wanted as [|c wanted']; [destruct Hw as [Hw|[]]; cbn in Hw; lia|]. set (wanted := c :: wanted') in *.
    wp1. wp1. change (aget wanted 0) with (Ok c). cbn [wpr]. wp1. wp1; [wp1; by left|]. wp1. wp1. destruct Hs as (_ & Hn' & Hc). rewrite Hc.
    eapply wpr_mono; [apply open_scan_spec; [done|unfold DATA in *; lia|done|lia|lia]|]. intros [[[k|] free] next] Hscan; [wp1; by left|].
    destruct (name_length_spec 20 wanted Hw) as (len & El & Hlen & _ & Hz & Hd). wp1. wp1. unfold FS_NAME. change (Z.to_nat 20) with 20%nat. rewrite El. cbn [wpr]. wp1; [wp1; by left|].
    repeat (apply orb_false_iff in H0 as [H0 ?]). bools. destruct Hscan as ((Hnext & _) & Hfree & _). unfold DATA, FS_CAPACITY in *. rewrite u32_id in * by (unfold is_u32; lia).
    assert (Hlen0 : (0 < len)%nat). { destruct len as [|len]; [|lia]. destruct (Hd ltac:(lia)) as [r Hr]. rewrite drop_0 in Hr. unfold wanted in Hr. congruence. }
    destruct (new_entry_ok wanted len next) as (_ & Heok & _); [done|unfold is_u32; lia|lia|done|apply Hd; lia|]. rewrite Nat2Z.id.
    change {| name := _; first := next; capacity := 8; size := 0 |} with (new_entry wanted len next). rewrite aset_ok by lia. wp1. wp1. wp1. wp1. wp1. wp1. unfold fs_flush. wp1. wp1. unfold id. cbn [mounted]. rewrite Em.
    set (dir := <[Z.to_nat free := new_entry wanted len next]> (directory s)). assert (Hdir : Forall entry_ok dir) by (by apply Forall_insert).
    unfold wp at 1, write_directory. cbn [directory disk]. destruct (transfer_out _ _ _ _) as [ok d] eqn:Et. wp1. right. exists (directory_bytes dir).
    split; [rewrite directory_bytes_length by done; unfold dir; rewrite length_insert, L; done|]. split; [by apply directory_bytes_u8|]. cbn [disk]. by rewrite Et. }
  eapply wp_mono; [apply wp_and; [exact Hany|by apply fs_open_wp]|]. intros r s' (Hd & Hpost).
  assert (Ht : forall l, length l = 512%nat -> Forall is_u8 l -> fst (transfer_out DIRECTORY 1 l (disk s)) = true /\ up (snd (transfer_out DIRECTORY 1 l (disk s)))).
  { intros l Hl Hl8. destruct (transfer_out DIRECTORY 1 l (disk s)) as [ok d] eqn:Et.
    exact (proj2 Hup _ _ _ _ _ _ (proj2 (proj2 B)) Hu (ltac:(unfold DIRECTORY; lia) : 0 <= DIRECTORY) (ltac:(lia) : 0 < 1 <= most) (ltac:(unfold DIRECTORY; lia) : DIRECTORY + 1 <= n) Hl Hl8 Et). }
  split; [destruct Hd as [->|(l & Hl & Hl8 & ->)]; [done|by apply Ht]|]. intros ->. destruct Hpost as (Hs' & _ & _ & _ & _ & [(_ & Href)|(Hx & _)]); [|lia].
  destruct Href as [H|[H|(H & Hwhy)]]; [by left|by right; left|right; right; split; [done|]]. destruct Hwhy as [H1|[H1|[H1|[H1|H1]]]]; [by left|by right; left|by right; right; left|by do 3 right|].
  destruct Hs' as ((L' & E' & _) & _). destruct (Ht (directory_bytes (directory s'))) as (Hok & _); [rewrite directory_bytes_length by done; by rewrite L'|by apply directory_bytes_u8|]. congruence.
Qed.

Lemma write_loop_up fuel file from length0 done position s :
  (Z.to_nat (length0 - done) < fuel)%nat -> buffer_ok s -> up (disk s) -> 0 <= file < Z.of_nat (length (directory s)) ->
  placed (at_ (directory s) file) -> first (at_ (directory s) file) + capacity (at_ (directory s) file) <= n ->
  Forall is_u8 from -> 0 <= done -> done <= length0 <= Z.of_nat (length from) -> length0 < 0x100000000 -> 0 <= position ->
  wp (write_loop fuel file from length0 (512 * capacity (at_ (directory s) file)) done position) (fun r s' => r <= length0 /\ up (disk s')) s.
Proof.
  revert s done position. induction fuel as [|fuel IH]; intros s done position Hfuel Hb Hu Hf Hp Hn H8 Hd Hlen H32 Hpos; [lia|].
  pose proof Hp as (P1 & P2 & P3 & P4). cbn [write_loop]. wp1. apply entry_at_wp; [done|]. set (e := at_ (directory s) file) in *. wp1; [|wp1; split; [lia|done]].
  bools. unfold VIRTIO_SECTOR. assert (Hq : 0 <= position / 512 < capacity e) by (split; [apply Z.div_pos; lia|apply Z.div_lt_upper_bound; lia]).
  rewrite (u32_id (first e + position / 512)) by (unfold is_u32; lia). set (sector := first e + position / 512) in *. pose proof (Z.mod_pos_bound position 512 ltac:(lia)) as Hm.
  wp1. eapply wp_mono; [apply wp_and; [apply (read_sector_up sector s Hb Hu); lia|]|].
  { apply (read_sector_wp sector s (fun _ s' => buffer_ok s' /\ exists l d, s' = {| s with sector_buffer := l; disk := d |})); [done|lia|]. intros ok l d L8 U8 HK _ _. split; [by split|by exists l, d]. }
  intros ok s1 ((-> & Hu1) & Hb1 & l & d & ->). cbn [negb]. wps. cbn [sector_buffer id]. destruct Hb1 as (Hl1 & Hl8 & Hk1). cbn [sector_buffer disk] in *.
  destruct (copy_in_spec 513 from length0 (512 * capacity e) done position 0 (position mod 512) l) as (bytes & Ec & Lb & Pb); [lia..|].
  cbv zeta in Ec, Pb. rewrite !Z.add_0_r in Ec, Pb. rewrite Z.add_0_l in Ec. set (N := Z.min (Z.min (length0 - done) (512 * capacity e - position)) (512 - position mod 512)) in *.
  rewrite Ec. cbn [wpr]. wps. assert (Ub : Forall is_u8 bytes).
  { apply Forall_at. intros j Hj. rewrite Pb by lia. destruct (_ && _) eqn:Ej; [bools|]; apply (at_Forall is_u8); done || lia. }
  set (s2 := {| s with sector_buffer := bytes; disk := d |}). assert (Hb2 : buffer_ok s2) by (by split).
  eapply wp_mono; [apply wp_and; [apply (write_sector_up sector s2 Hb2 Hu1); lia|]|].
  { apply (write_sector_wp sector s2 (fun _ s' => buffer_ok s' /\ exists d2, s' = {| s2 with disk := d2 |})); [done|lia|]. intros ok d2 HK _ _. split; [by split|by exists d2]. }
  intros ok s3 ((-> & Hu3) & Hb3 & d2 & ->). cbn [negb]. rewrite (u32_id (done + N)), (u32_id (position + N)) by (unfold is_u32; lia). set (s4 := {| s2 with disk := d2 |}) in *.
  assert (Hrest : forall s5, buffer_ok s5 -> up (disk s5) -> length (directory s5) = length (directory s) -> first (at_ (directory s5) file) = first e -> capacity (at_ (directory s5) file) = capacity e ->
    wp (write_loop fuel file from length0 (512 * capacity e) (done + N) (position + N)) (fun r s' => r <= length0 /\ up (disk s')) s5).
  { intros s5 B5 U5 L5 F5 C5. specialize (IH s5 (done + N) (position + N)). unfold placed in IH. rewrite L5, F5, C5 in IH. apply IH; try done; lia. }
  wp1. wp1; [|by apply Hrest]. apply set_size_wp; [done|]. apply Hrest; [exact Hb3|exact Hu3|cbn; by rewrite length_insert| |]; cbn [directory]; rewrite at_insert, Z.eqb_refl by (cbn [s4 s2 directory]; lia); done.
Qed.

Lemma read_loop_up fuel file address length0 done position to s :
  (Z.to_nat (length0 - done) < fuel)%nat -> buffer_ok s -> up (disk s) -> 0 <= file < Z.of_nat (length (directory s)) ->
  placed (at_ (directory s) file) -> first (at_ (directory s) file) + capacity (at_ (directory s) file) <= n -> size (at_ (directory s) file) <= 512 * capacity (at_ (directory s) file) ->
  0 <= done -> done <= length0 <= Z.of_nat (length to) -> length0 < 0x100000000 -> length0 <= 512 * most -> 0 <= position ->
  wp (read_loop fuel file address length0 done position to) (fun r s' => fst r <= length0 /\ up (disk s')) s.
Proof.
  revert s done position to. induction fuel as [|fuel IH]; intros s done position to Hfuel Hb Hu Hf Hp Hn Hsz Hd Hlen H32 Hmo Hpos; [lia|].
  pose proof Hp as (P1 & P2 & P3 & P4). cbn [read_loop]. wp1. apply entry_at_wp; [done|]. set (e := at_ (directory s) file) in *. wp1; [|wp1; split; [cbn [fst]; lia|done]].
  bools. unfold VIRTIO_SECTOR. assert (Hq : 0 <= position / 512 < capacity e) by (split; [apply Z.div_pos; lia|apply Z.div_lt_upper_bound; lia]).
  rewrite (u32_id (first e + position / 512)) by (unfold is_u32; lia). set (sector := first e + position / 512) in *. pose proof (Z.mod_pos_bound position 512 ltac:(lia)) as Hm.
  destruct (direct_sectors_spec e position (u32 (address + done)) (length0 - done)) as (D1 & D2 & D3 & D4); [lia..|].
  set (w := direct_sectors e position (u32 (address + done)) (length0 - done)) in *. clearbody w. wp1. wp1. unfold id. wp1.
  - assert (Hw : w <> 0) by (by apply tst_true). specialize (D4 Hw). set (part := take (Z.to_nat (512 * w)) (drop (Z.to_nat done) to)).
    assert (Lp : length part = Z.to_nat (512 * w)) by (unfold part; rewrite length_take, length_drop; lia). destruct (transfer_in sector w part (disk s)) as [[ok l] d] eqn:E.
    assert (Hsw : sector + w <= n) by (unfold sector; zlia).
    destruct (transfer_in_ok _ _ _ _ _ _ _ (proj2 (proj2 Hb)) (ltac:(lia) : 0 <= sector) D1 Lp E) as (HK & L & _).
    destruct (proj1 Hup _ _ _ _ _ _ _ (proj2 (proj2 Hb)) Hu (ltac:(lia) : 0 <= sector) (ltac:(lia) : 0 < w <= most) Hsw Lp E) as (-> & Hu'). cbn [negb]. wp1. wp1.
    rewrite (u32_id (done + w * 512)), (u32_id (position + w * 512)) by (unfold is_u32; lia). apply IH; try done; try lia; [exact (conj (proj1 Hb) (conj (proj1 (proj2 Hb)) HK))|].
    rewrite length_splice by lia. lia.
  - wp1. eapply wp_mono; [apply wp_and; [apply (read_sector_up sector s Hb Hu); lia|]|].
    { apply (read_sector_wp sector s (fun _ s' => buffer_ok s' /\ exists l d, s' = {| s with sector_buffer := l; disk := d |})); [done|lia|]. intros ok l d L8 U8 HK _ _. split; [by split|by exists l, d]. }
    intros ok s1 ((-> & Hu1) & Hb1 & l & d & ->). cbn [negb]. wps. cbn [sector_buffer id]. destruct Hb1 as (Hl1 & Hl8 & Hk1). cbn [sector_buffer disk] in *.
    destruct (copy_out_spec 513 l length0 (size e) done position (position mod 512) to) as (to1 & Ec & Lt & _); [lia..|]. cbv zeta in Ec. rewrite Ec. cbn [wpr]. apply IH; try done; lia.
Qed.

(** Both calls succeed. *)
Lemma write_then_read_up file position from length0 address to s :
  fs_ok s -> up (disk s) -> sectors s <= n -> 0 <= file < 16 -> in_use s file = true -> Forall is_u8 from -> 0 <= position ->
  0 <= length0 < FS_ERROR -> length0 <= 512 * most -> length0 <= Z.of_nat (length from) -> length0 <= Z.of_nat (length to) ->
  wp (r ← fs_write file position from length0; '(n, got) ← fs_read file position address to length0; mret (r, n, got))
    (fun r _ => fst (fst r) <> FS_ERROR /\ snd (fst r) <> FS_ERROR) s.
Proof.
  intros Hs Hu Hsec Hf Huse H8 Hp Hl Hmo Hlf Hlt. unfold FS_ERROR in *. destruct (in_use_inside s file Hs Hf Huse) as (He & Hin & _). pose proof Hs as ((L & _ & B) & Hn & _).
  pose proof Hin as (I1 & I2 & I3 & I4). wp1. eapply wp_mono; [apply wp_and; [by apply fs_write_wp; try lia|]|].
  { unfold fs_write. wp1. apply entry_at_wp; [lia|]. unfold VIRTIO_SECTOR, DATA in *. rewrite u32_id by (unfold is_u32; lia). rewrite (Z.mul_comm _ 512).
    apply write_loop_up; [lia|done|done|lia|eapply inside_placed; [done|lia]|lia|done|lia|lia|lia|done]. }
  intros r s1 ((Hs1 & (K & _)) & Hr & Hu1). destruct (kept_entry file s s1 ltac:(lia) K) as (Ef & Ec & En). destruct K as (Ks & _ & Kc & Kl & _).
  assert (Huse1 : in_use s1 file = true) by (unfold in_use, named in *; by rewrite Kc, En). destruct (in_use_inside s1 file Hs1 Hf Huse1) as (_ & Hin1 & _).
  wp1. unfold fs_read. eapply wp_mono; [apply read_loop_up; [lia|apply Hs1|done|lia|eapply inside_placed; [exact Hin1|lia]|lia|apply Hin1|lia|lia|lia|done|done]|].
  intros [n0 got] s2 (Hr2 & _). wp1. cbn [fst snd] in *. lia.
Qed.
End Up.

Lemma kept_in_use file s s' : 0 <= file -> kept file s s' -> in_use s' file = in_use s file.
Proof.
  intros Hf K. destruct (kept_entry file s s' Hf K) as (_ & _ & En). unfold in_use, named. destruct K as (_ & _ & -> & _). by rewrite En.
Qed.
End Disk.

(** ** The promises *)

Section Promises.
Context {D : Type} {BD : BlockDevice D} {BDO : BlockDeviceOk D}.
Implicit Types (s : fs_state D).

Definition write_then_read (file position : Z) (from : list Z) (address : Z) (to : list Z) (length0 : Z) : ST (fs_state D) (Z * Z * list Z) :=
  r ← fs_write file position from length0;
  '(n, got) ← fs_read file position address to length0;
  mret (r, n, got).

(** What the two calls did: nothing but the file changed, and it holds the bytes. *)
Definition read_back (file position : Z) (from : list Z) (length0 : Z) s (r n : Z) (got : list Z) s' : Prop :=
  let e := at_ (directory s) file in
  let N := Z.max 0 (Z.min length0 (512 * capacity e - position)) in
  fs_ok s' /\ kept file s s' /\ others_kept e s s'
  /\ (r = FS_ERROR
      \/ (r = N /\ size (at_ (directory s') file) = (if 0 <? N then Z.max (size e) (position + N) else size e)
          /\ (forall k, ~ (position <= k < position + N) -> fbyte s' e k = fbyte s e k)
          /\ (forall j, 0 <= j < N -> fbyte s' e (position + j) = at_ from j)
          /\ (n = FS_ERROR \/ (n = N /\ forall j, 0 <= j < N -> at_ got j = at_ from j)))).

Lemma write_then_read_spec file position from length0 address to s :
  fs_ok s -> 0 <= file < 16 -> in_use s file = true -> Forall is_u8 from -> 0 <= position ->
  0 <= length0 < 0x100000000 -> length0 <= Z.of_nat (length from) -> length0 <= Z.of_nat (length to) ->
  exists r n got s', write_then_read file position from address to length0 s = Ok (r, n, got, s') /\ read_back file position from length0 s r n got s'.
Proof.
  intros Hs Hf Hu Hb Hp Hl Hlf Hlt. unfold read_back. cbv zeta. set (e := at_ (directory s) file). set (N := Z.max 0 _).
  destruct (in_use_inside s file Hs Hf Hu) as (_ & (_ & _ & _ & Hsz) & _). fold e in Hsz.
  destruct (wp_total _ _ _ (@fs_write_wp D BD BDO total file position from length0 s Hs Hf Hu Hb ltac:(lia) ltac:(lia) Hp)) as (r & s1 & Er & Hs1 & P1).
  destruct P1 as (K & B1 & O & G & R). fold e in O, G, R. rewrite Z.sub_0_r in R. fold N in R.
  assert (Hu1 : in_use s1 file = true) by (rewrite (kept_in_use file s s1); [done|lia|done]).
  destruct (wp_total _ _ _ (@fs_read_wp D BD BDO total file position address to length0 s1 Hs1 Hf Hu1 ltac:(lia) ltac:(lia) Hp)) as ([n got] & s2 & En & P2).
  destruct P2 as (U & _ & R2). pose proof U as (Ud & Uc & Us & Um & Ub & Ux). cbn [fst snd] in R2. rewrite !Z.sub_0_r in R2.
  exists r, n, got, s2. split; [unfold write_then_read, mbind, st_bind; rewrite Er, En; done|].
  split; [destruct Hs1 as ((L1 & F1 & _) & N1 & C1); split; [split; [by rewrite Ud|split; [by rewrite Ud|done]]|split; [by rewrite Us|by rewrite Uc, Us, Ud]]|].
  split; [destruct K as (K1 & K2 & K3 & K4 & K5); rewrite <- Us, <- Um, <- Uc, <- Ud in *; done|].
  split; [intros a Ha; rewrite Ux; by apply O|]. destruct R as [R|(R & W & Z1)]; [by left|right]. fold e in W, Z1. split; [done|]. rewrite Ud. split; [done|].
  split. { intros k Hk. unfold fbyte in *. rewrite Ux, W. destruct (Z.leb_spec position k), (Z.ltb_spec k (position + N)); try done. lia. }
  split. { intros j Hj. unfold fbyte in *. rewrite Ux, W. rewrite (proj2 (Z.leb_le _ _)), (proj2 (Z.ltb_lt _ _)) by lia. cbn [andb]. f_equal. lia. }
  destruct R2 as [R2|(R2 & G2)]; [by left|right]. rewrite Z1 in R2, G2.
  destruct (kept_entry file s s1 (proj1 Hf) K) as (Ef & _ & _). fold e in Ef.
  assert (EN : Z.max 0 (Z.min length0 ((if 0 <? N then Z.max (size e) (position + N) else size e) - position)) = N).
  { unfold N in *. destruct (Z.ltb_spec 0 (Z.max 0 (Z.min length0 (512 * capacity e - position)))); lia. }
  rewrite EN in R2, G2. split; [lia|]. intros j Hj. rewrite G2 by lia. rewrite (proj2 (Z.leb_le 0 j)), (proj2 (Z.ltb_lt j (0 + N))) by lia. cbn [andb].
  rewrite Z.sub_0_r. unfold fbyte in *. rewrite Ef, W. rewrite (proj2 (Z.leb_le _ _)), (proj2 (Z.ltb_lt _ _)) by lia. cbn [andb]. f_equal. lia.
Qed.

(** C38: what is written to a file is read back.  Both calls return, whatever the
    disk answers; the write takes all the bytes the extent has room for or reports
    the device's error; then the bytes read at the same position are the bytes
    written, in any mix of whole and partial sectors and whether the read goes
    through the sector buffer or straight to memory.  The rest of the file, every
    other file and the rest of the disk hold what they held, and the invariant of
    the file system is kept, after an error too. *)
Theorem file_written_is_read_back file position from length0 address to s :
  fs_ok s -> 0 <= file < 16 -> in_use s file = true -> Forall is_u8 from -> 0 <= position ->
  0 <= length0 < 0x100000000 -> length0 <= Z.of_nat (length from) -> length0 <= Z.of_nat (length to) ->
  exists r n got s', write_then_read file position from address to length0 s = Ok (r, n, got, s') /\ read_back file position from length0 s r n got s'.
Proof. apply write_then_read_spec. Qed.

(** C39: opening finds the file of that name, or makes one of its own.  [fs_open]
    returns for any name.  If a file of that name is in use it answers one and changes
    nothing; otherwise, when asked to create, a new empty one of eight sectors, under that
    name in an entry that was free, with the directory on the disk, and inside the disk;
    its extent shares no sector with any file in use.  It answers none exactly for a
    reason: the file system is not mounted, the name is empty or has no end within
    twenty characters, there is no such file and it was not asked to create one, the
    directory or the disk is full, or the directory could not be written.  Entries in
    use keep their contents, the entries set aside too, and nothing but the directory's
    sector is written. *)
Theorem new_file_has_its_own_extent wanted create s :
  fs_ok s -> Forall is_u8 wanted -> terminated wanted ->
  exists r s', fs_open wanted create s = Ok (r, s') /\ open_post wanted create s r s'.
Proof. intros Hs Hu Hw. apply wp_total. by apply (@fs_open_wp D BD BDO total). Qed.

(** Write the directory back, start again from any state the memory may be in, mount. *)
Definition flush_then_mount (cap : Z) (t : fs_state D) : ST (fs_state D) (bool * bool) :=
  flushed ← fs_flush;
  modify (fun s => {| t with disk := disk s |});;
  ok ← fs_mount cap;
  mret (flushed, ok).

(** C40: the directory that was flushed is the one mounted.  Whatever the
    directory's sector holds, a mount that succeeds leaves a well-formed state; and
    when the flush succeeded, a mount of that disk after a restart finds the same
    entries, the same ones set aside and the same size, so every file is where it
    was. *)
Theorem flushed_directory_is_mounted cap s t :
  fs_ok s -> fs_ready t -> formatted (disk s) (sectors s) -> cap < 0x800000 ->
  exists flushed ok s', flush_then_mount cap t s = Ok (flushed, ok, s')
    /\ (forall a, ~ (512 <= a < 1024) -> dbyte (disk s') a = dbyte (disk s) a)
    /\ (ok = true -> fs_ok s' /\ mounted s' = true /\ sectors s' = sectors s
        /\ (flushed = true -> directory s' = directory s /\ corrupt s' = corrupt s)).
Proof.
  intros Hs Ht Hfm Hc. pose proof Hs as (Hr & Hn & Hcor).
  destruct (wp_total _ _ _ (@fs_flush_wp D BD BDO total s (fun ok s' => exists d, s' = {| s with disk := d |}
     /\ device_ok d
     /\ (forall a, ~ (512 <= a < 1024) -> dbyte d a = dbyte (disk s) a) /\ (ok = true -> disk_directory d (directory_bytes (directory s)))) Hr
     ltac:(intros ok d K A B; exists d; split; [done|]; split; [by apply K, Hr|]; split; [done|]; intros E; apply (B E))))
    as (flushed & s1 & E1 & d & -> & HK & Ho & Hfl).
  assert (Ht' : fs_ready {| t with disk := d |}) by (destruct Ht as (T1 & T2 & T3 & T4 & _); by repeat (split; [done|])).
  destruct (wp_total _ _ _ (@fs_mount_wp D BD BDO total cap {| t with disk := d |} Ht' Hc)) as (ok & s2 & E2 & _ & Hsame & Hok). cbn [disk] in Hsame, Hok.
  exists flushed, ok, s2. split.
  { unfold flush_then_mount, mbind, st_bind. rewrite E1. cbn [modify disk]. rewrite E2. done. }
  split; [intros a Ha; by rewrite Hsame, Ho|]. intros Eok. destruct (Hok Eok) as (Hs2 & Hm & _ & Hf2 & l & Hl & Hd).
  assert (Es : sectors s2 = sectors s) by (eapply formatted_same; [|exact Hfm|exact Hf2]; intros a Ha; apply Ho; lia).
  split; [done|]. split; [done|]. split; [done|]. intros Efl.
  assert (Ed : directory s2 = directory s).
  { rewrite Hd, (disk_directory_unique _ _ _ Hl (Hfl Efl)). pose proof Hr as (L & E & _). rewrite <- L.
    rewrite <- (app_nil_r (directory_bytes (directory s))). by apply directory_round_trip. }
  split; [done|]. destruct Hs2 as (_ & _ & ->). by rewrite Ed, Es.
Qed.
End Promises.

(** ** A disk in memory *)

(** Its bytes, its size in sectors, and which of the coming transfers fail. *)
Record memory_disk : Type := { contents : Z -> Z; extent : Z; failures : list bool }.

Definition answers (sector count : Z) (d : memory_disk) : bool := (sector + count <=? extent d) && negb (default false (head (failures d))).
#[export] Instance memory_device : BlockDevice memory_disk := {
  device_ok d := True;
  dbyte d a := u8 (contents d a);
  transfer_in sector count buffer d :=
    (answers sector count d,
     if answers sector count d then map (fun i => u8 (contents d (512 * sector + Z.of_nat i))) (seq 0 (Z.to_nat (512 * count))) else map u8 buffer,
     {| d with failures := tail (failures d) |});
  transfer_out sector count l d :=
    (answers sector count d,
     {| d with contents := (fun a => if answers sector count d && (512 * sector <=? a) && (a <? 512 * (sector + count)) then at_ l (a - 512 * sector) else contents d a);
               failures := tail (failures d) |});
}.

#[export] Instance memory_device_ok : BlockDeviceOk memory_disk.
Proof.
  assert (Hu : forall {A} (f : A -> Z) l, Forall is_u8 (map (fun i => u8 (f i)) l)).
  { intros A f l. apply List.Forall_forall. intros x Hx. apply in_map_iff in Hx as (i & <- & _). by apply Z.mod_pos_bound. }
  split.
  - intros d a _. apply u8_range.
  - intros d sector count buffer ok l d' _ Hs Hc Hl E. cbn in E. injection E as <- <- <-. destruct (answers sector count d).
    + split; [done|]. split; [by rewrite length_map, length_seq|]. split; [apply Hu|]. split; [done|]. intros _ i Hi. unfold at_. apply list_lookup_total_correct.
      change (map ?f ?l) with (f <$> l). rewrite list_lookup_fmap, lookup_seq_lt by lia. cbn. do 3 f_equal. lia.
    + split; [done|]. split; [by rewrite length_map|]. split; [apply (Hu Z id)|]. done.
  - intros d sector count l ok d' _ Hs Hc Hl Hb E. cbn in E. injection E as <- <-. cbn. split; [done|]. split.
    + intros a Ha. destruct (Z.leb_spec (512 * sector) a), (Z.ltb_spec a (512 * (sector + count))); rewrite ?andb_false_r; try done. lia.
    + intros -> i Hi. rewrite (proj2 (Z.leb_le _ _)), (proj2 (Z.ltb_lt _ _)) by lia. cbn [andb].
      replace (512 * sector + i - 512 * sector) with i by lia. assert (is_u8 (at_ l i)) by (apply (at_Forall is_u8); [done|lia]).
      unfold u8, is_u8 in *. by apply Z.mod_small.
Qed.

(** A small disk with one file, "a", of two sectors, and the third transfer failing. *)
Definition header : list Z := word_bytes MAGIC ++ word_bytes 64 ++ word_bytes DIRECTORY ++ word_bytes DATA ++ word_bytes ENTRIES.
Definition file_a : entry := {| name := 97 :: replicate 19 0; first := 2; capacity := 2; size := 0 |}.
Definition no_file : entry := {| name := replicate 20 0; first := 0; capacity := 0; size := 0 |}.
Definition small (fails : list bool) : fs_state memory_disk :=
  {| directory := file_a :: replicate 15 no_file; corrupt := replicate 16 false; sector_buffer := replicate 512 0; sectors := 64; mounted := true;
     disk := {| contents := fun a => if a <? 20 then at_ header a else 0; extent := 64; failures := fails |} |}.

Lemma small_ok fails : fs_ok (small fails).
Proof.
  assert (entry_ok file_a /\ entry_ok no_file) as [A N].
  { split; (split; [done|split; [done|split; [done|split; [done|by repeat constructor]]]]). }
  split; [split; [done|split; [constructor; [done|by apply Forall_replicate]|split; [done|split; [by apply Forall_replicate|done]]]]|]. split; [done|]. by vm_compute.
Qed.

Lemma file_written_is_read_back_witness :
  exists r n got s', write_then_read 0 510 [1; 2; 3; 4] 0 (replicate 4 0) 4 (small [false; true]) = Ok (r, n, got, s') /\ fs_ok s'.
Proof.
  destruct (file_written_is_read_back 0 510 [1; 2; 3; 4] 4 0 (replicate 4 0) (small [false; true])) as (r & n & got & s' & E & H & _);
    [apply small_ok|lia|done|by repeat constructor|lia|lia|done|done|]. by exists r, n, got, s'.
Defined.

Lemma new_file_has_its_own_extent_witness :
  exists s', fs_open [98; 0] true (small []) = Ok (1, s') /\ open_post [98; 0] true (small []) 1 s'.
Proof.
  destruct (new_file_has_its_own_extent [98; 0] true (small [])) as (r & s' & E & P); [apply small_ok|by repeat constructor|right; right; by left|].
  assert (Er : match fs_open [98; 0] true (small []) with Ok (r, _) => r | _ => 0 end = 1) by (by vm_compute). rewrite E in Er. subst r. exists s'. split; [exact E|exact P].
Defined.

Lemma flushed_directory_is_mounted_witness :
  exists flushed ok s', flush_then_mount 64 (small []) (small []) = Ok (flushed, ok, s') /\ (ok = true -> fs_ok s').
Proof.
  destruct (flushed_directory_is_mounted 64 (small []) (small [])) as (flushed & ok & s' & E & _ & H);
    [apply small_ok|apply small_ok|by vm_compute|lia|]. exists flushed, ok, s'. split; [done|]. intros Hok. by destruct (H Hok).
Defined.

(** The runs themselves: a write over a sector's edge, and a file made beside it. *)
Example small_written :
  match write_then_read 0 510 [1; 2; 3; 4] 0 (replicate 4 0) 4 (small []) with Ok (r, n, got, _) => (r, n, got) | _ => (0, 0, []) end = (4, 4, [1; 2; 3; 4]).
Proof. by vm_compute. Qed.

Example small_created :
  match fs_open [98; 0] true (small []) with Ok (r, s') => (r, first (at_ (directory s') 1), capacity (at_ (directory s') 1)) | _ => (0, 0, 0) end = (1, 4, 8).
Proof. by vm_compute. Qed.

End FsSpecs.
