(* ===== verification/VirtioDriver.v ===== *)
(** * The kernel's virtio-blk driver (programs/rv32/os/virtio.c)

    The driver as a program of the emulated machine: its queue is memory the
    device reads and writes by DMA, its register accesses go through the bus, and
    a request is served within the store that notifies the device.  The driver's
    structures are where the linker put them, a [layout]; they are ordinary RAM
    that no drawing engine holds.  The other static variables are the record
    [driver]. *)

From S2P Require Import Prelude Effects Buffer Simd4 Gpu G3d Dtb Machine Devices Virtio Bus.

Module VirtioDriver.
Import Bus.

Definition QUEUE : Z := 8.
Definition WAIT_LIMIT : Z := 0x01000000.
Definition VIRTIO_SECTOR : Z := 512.
Definition VIRTIO_MAGIC_VALUE : Z := 0x74726976.
Definition VIRTIO_REG_MAGIC : Z := 0x000.
Definition VIRTIO_REG_VERSION : Z := 0x004.
Definition VIRTIO_REG_DEVICE : Z := 0x008.
Definition VIRTIO_REG_DEVICE_FEATURES : Z := 0x010.
Definition VIRTIO_REG_DEVICE_FEATURES_SEL : Z := 0x014.
Definition VIRTIO_REG_DRIVER_FEATURES : Z := 0x020.
Definition VIRTIO_REG_DRIVER_FEATURES_SEL : Z := 0x024.
Definition VIRTIO_REG_QUEUE_SEL : Z := 0x030.
Definition VIRTIO_REG_QUEUE_NUM_MAX : Z := 0x034.
Definition VIRTIO_REG_QUEUE_NUM : Z := 0x038.
Definition VIRTIO_REG_QUEUE_READY : Z := 0x044.
Definition VIRTIO_REG_QUEUE_NOTIFY : Z := 0x050.
Definition VIRTIO_REG_INTERRUPT_STATUS : Z := 0x060.
Definition VIRTIO_REG_INTERRUPT_ACK : Z := 0x064.
Definition VIRTIO_REG_STATUS : Z := 0x070.
Definition VIRTIO_REG_QUEUE_DESC : Z := 0x080.
Definition VIRTIO_REG_QUEUE_DRIVER : Z := 0x090.
Definition VIRTIO_REG_QUEUE_DEVICE : Z := 0x0a0.
Definition VIRTIO_REG_CAPACITY : Z := 0x100.
Definition VIRTIO_STATUS_ACKNOWLEDGE : Z := 1.
Definition VIRTIO_STATUS_DRIVER : Z := 2.
Definition VIRTIO_STATUS_DRIVER_OK : Z := 4.
Definition VIRTIO_STATUS_FEATURES_OK : Z := 8.
Definition VIRTIO_STATUS_NEEDS_RESET : Z := 0x40.
Definition VIRTIO_DEVICE_BLOCK : Z := 2.
Definition VIRTIO_DESC_NEXT : Z := 1.
Definition VIRTIO_DESC_WRITE : Z := 2.
Definition VIRTIO_BLK_IN : Z := 0.
Definition VIRTIO_BLK_OUT : Z := 1.

(** Where the driver's structures are. *)
Record layout : Type := { descs : Z; avail : Z; used : Z; header : Z; status_byte : Z }.

Inductive reason : Type := NEEDS_A_RESET | NEVER_COMPLETED.
Record driver : Type := { device : Z; seen : Z; failure : option reason }.

Definition virtio_failure (d : driver) : option reason := failure d.
Definition fail (why : reason) (d : driver) : bool * driver := (false, {| d with failure := Some why; device := 0 |}).

(** ** The driver's accesses *)

(** To its own memory. *)
Definition poke (address width value : Z) : M () :=
  b ← gets ram; b' ← lift (bytes_write b (address - RAM_BASE) width value); modify (set_ram b').
Definition peek (address width : Z) : M Z :=
  b ← gets ram; lift (bytes_read b (address - RAM_BASE) width).

Section Accesses.
Context `{SVF : ServeFuel}.

(** To a device's registers; an access that faults has no result. *)
Definition mmio_read32 (address : Z) : M Z :=
  match find_region address 4 with
  | None => stuck
  | Some r =>
      match r_load (r_name r) with
      | None => stuck
      | Some h => a ← h (address - r_base r) 4; match a with ACC_OK v => mret v | _ => stuck end
      end
  end.
Definition mmio_write32 (address value : Z) : M () :=
  match find_region address 4 with
  | None => stuck
  | Some r =>
      match r_store (r_name r) with
      | None => stuck
      | Some h => a ← h (address - r_base r) 4 value; match a with ACC_OK _ => mret () | _ => stuck end
      end
  end.

(** ** Setting the device up *)

Section Layout.
Context (L : layout).

Definition virtio_init (base : Z) (d : driver) : M (Z * driver) :=
  magic ← mmio_read32 (base + VIRTIO_REG_MAGIC);
  if negb (magic =? VIRTIO_MAGIC_VALUE) then mret (0, d) else
  version ← mmio_read32 (base + VIRTIO_REG_VERSION);
  if negb (version =? 2) then mret (0, d) else
  kind ← mmio_read32 (base + VIRTIO_REG_DEVICE);
  if negb (kind =? VIRTIO_DEVICE_BLOCK) then mret (0, d) else
  mmio_write32 (base + VIRTIO_REG_STATUS) 0;;
  mmio_write32 (base + VIRTIO_REG_STATUS) VIRTIO_STATUS_ACKNOWLEDGE;;
  mmio_write32 (base + VIRTIO_REG_STATUS) (VIRTIO_STATUS_ACKNOWLEDGE .| VIRTIO_STATUS_DRIVER);;
  mmio_write32 (base + VIRTIO_REG_DEVICE_FEATURES_SEL) 1;;
  features ← mmio_read32 (base + VIRTIO_REG_DEVICE_FEATURES);
  if negb (tst (features .& 1)) then mret (0, d) else
  mmio_write32 (base + VIRTIO_REG_DRIVER_FEATURES_SEL) 1;;
  mmio_write32 (base + VIRTIO_REG_DRIVER_FEATURES) 1;;
  mmio_write32 (base + VIRTIO_REG_DRIVER_FEATURES_SEL) 0;;
  mmio_write32 (base + VIRTIO_REG_DRIVER_FEATURES) 0;;
  mmio_write32 (base + VIRTIO_REG_STATUS) (VIRTIO_STATUS_ACKNOWLEDGE .| VIRTIO_STATUS_DRIVER .| VIRTIO_STATUS_FEATURES_OK);;
  accepted ← mmio_read32 (base + VIRTIO_REG_STATUS);
  if negb (tst (accepted .& VIRTIO_STATUS_FEATURES_OK)) then mret (0, d) else
  mmio_write32 (base + VIRTIO_REG_QUEUE_SEL) 0;;
  ready ← mmio_read32 (base + VIRTIO_REG_QUEUE_READY);
  if tst ready then mret (0, d) else
  most ← mmio_read32 (base + VIRTIO_REG_QUEUE_NUM_MAX);
  if most <? QUEUE then mret (0, d) else
  mmio_write32 (base + VIRTIO_REG_QUEUE_NUM) QUEUE;;
  mmio_write32 (base + VIRTIO_REG_QUEUE_DESC) (descs L);;
  mmio_write32 (base + (VIRTIO_REG_QUEUE_DESC + 4)) 0;;
  mmio_write32 (base + VIRTIO_REG_QUEUE_DRIVER) (avail L);;
  mmio_write32 (base + (VIRTIO_REG_QUEUE_DRIVER + 4)) 0;;
  mmio_write32 (base + VIRTIO_REG_QUEUE_DEVICE) (used L);;
  mmio_write32 (base + (VIRTIO_REG_QUEUE_DEVICE + 4)) 0;;
  mmio_write32 (base + VIRTIO_REG_QUEUE_READY) 1;;
  mmio_write32 (base + VIRTIO_REG_STATUS)
    (VIRTIO_STATUS_ACKNOWLEDGE .| VIRTIO_STATUS_DRIVER .| VIRTIO_STATUS_FEATURES_OK .| VIRTIO_STATUS_DRIVER_OK);;
  capacity ← mmio_read32 (base + VIRTIO_REG_CAPACITY);
  mret (capacity, {| d with device := base; seen := 0 |}).

(** ** A transfer *)

(** [descs[i] = (struct virtio_desc){addr, 0, len, flags, next}] *)
Definition set_desc (i addr len flags next : Z) : M () :=
  poke (descs L + 16 * i) 4 addr;;
  poke (descs L + 16 * i + 4) 4 0;;
  poke (descs L + 16 * i + 8) 4 len;;
  poke (descs L + 16 * i + 12) 2 flags;;
  poke (descs L + 16 * i + 14) 2 next.

(** The request in memory, and its index on the ring. *)
Definition post_request (sector buffer count : Z) (write : bool) : M () :=
  poke (header L) 4 (if write then VIRTIO_BLK_OUT else VIRTIO_BLK_IN);;
  poke (header L + 4) 4 0;;
  poke (header L + 8) 4 sector;;
  poke (header L + 12) 4 0;;
  poke (status_byte L) 1 0xff;;
  set_desc 0 (header L) 16 VIRTIO_DESC_NEXT 1;;
  set_desc 1 buffer (u32 (count * VIRTIO_SECTOR)) (VIRTIO_DESC_NEXT .| (if write then 0 else VIRTIO_DESC_WRITE)) 2;;
  set_desc 2 (status_byte L) 1 VIRTIO_DESC_WRITE 0;;
  idx ← peek (avail L + 2) 2;
  poke (avail L + 4 + 2 * (idx mod QUEUE)) 2 0;;
  idx ← peek (avail L + 2) 2;
  poke (avail L + 2) 2 (u16 (idx + 1)).

(** The loop that waits for the used index: [None] when it moved on. *)
Fixpoint poll (fuel : nat) (polls : Z) (d : driver) : M (option reason) :=
  match fuel with
  | O => no_fuel
  | S fuel' =>
      idx ← peek (used L + 2) 2;
      if idx =? seen d then
        status ← mmio_read32 (device d + VIRTIO_REG_STATUS);
        if tst (status .& VIRTIO_STATUS_NEEDS_RESET) then mret (Some NEEDS_A_RESET)
        else if polls =? WAIT_LIMIT then mret (Some NEVER_COMPLETED)
        else poll fuel' (u32 (polls + 1)) d
      else mret None
  end.

Definition virtio_transfer (sector buffer count : Z) (write : bool) (d : driver) : M (bool * driver) :=
  if device d =? 0 then mret (false, d)
  else
    post_request sector buffer count write;;
    mmio_write32 (device d + VIRTIO_REG_QUEUE_NOTIFY) 0;;
    failed ← poll (Z.to_nat (WAIT_LIMIT + 1)) 0 d;
    match failed with
    | Some why => mret (fail why d)
    | None =>
        let d := {| d with seen := u16 (seen d + 1) |} in
        interrupts ← mmio_read32 (device d + VIRTIO_REG_INTERRUPT_STATUS);
        mmio_write32 (device d + VIRTIO_REG_INTERRUPT_ACK) interrupts;;
        status ← peek (status_byte L) 1;
        mret (status =? 0, d)
    end.

End Layout.
End Accesses.
End VirtioDriver.
