(* ===== verification/VirtioServe.v ===== *)
(** * What the virtio-blk device does with a request

    Memory as the driver and the device share it, and the effect of one request
    the driver put on the queue: which bytes of RAM and of the disk change, and the
    answer. *)

From S2P Require Import Prelude Effects Buffer Simd4 Gpu G3d Dtb Machine Devices Virtio Bus Mmu Csr MachineOk VirtioProofs.

Module VirtioServe.
Import Virtio VirtioProofs.

(** ** Memory *)

Definition in_mem (a n : Z) : Prop := RAM_BASE <= a /\ a + n <= RAM_BASE + RAM_SIZE.
Definition rbyte (m : machine) (a : Z) : Z := byte_at (ram m) (a - RAM_BASE).
(** The little-endian number of [n] bytes at an address. *)
Definition mem (m : machine) (a : Z) (n : nat) : Z := le_bytes (ram m) (a - RAM_BASE) n.
(** Two ranges of addresses have no byte in common. *)
Definition apart (p n q k : Z) : Prop := p + n <= q \/ q + k <= p.
(** Only the bytes of a range may differ, and nothing of the device does. *)
Definition changed (p n : Z) (m m' : machine) : Prop :=
  bus_ok m' /\ virtio m' = virtio m /\ forall a, ~ (p <= a < p + n) -> rbyte m' a = rbyte m a.

Lemma apart_sub p n q k p' n' q' k' :
  apart p n q k -> p <= p' -> p' + n' <= p + n -> q <= q' -> q' + k' <= q + k -> apart p' n' q' k'.
Proof. unfold apart. lia. Qed.

Lemma apart_sym p n q k : apart p n q k -> apart q k p n.
Proof. unfold apart. lia. Qed.

Lemma mem_changed p n m m' q k : changed p n m m' -> apart p n q (Z.of_nat k) -> mem m' q k = mem m q k.
Proof.
  intros (_ & _ & H) Ha. apply le_bytes_ext. intros i Hi. specialize (H (i + RAM_BASE)). unfold rbyte, apart in *.
  replace (i + RAM_BASE - RAM_BASE) with i in H by lia. apply H. lia.
Qed.

Lemma changed_trans p n m1 m2 m3 : changed p n m1 m2 -> changed p n m2 m3 -> changed p n m1 m3.
Proof. intros (B1 & V1 & H1) (B2 & V2 & H2). split; [done|]. split; [congruence|]. intros a Ha. by rewrite H2, H1. Qed.

Lemma changed_sub p n q k m m' : changed q k m m' -> p <= q -> q + k <= p + n -> changed p n m m'.
Proof. intros (B & V & H) ? ?. split; [done|]. split; [done|]. intros a Ha. apply H. lia. Qed.

Lemma mem_split m a : mem m a 4 = mem m a 2 + 65536 * mem m (a + 2) 2.
Proof.
  unfold mem. cbn [le_bytes]. replace (a + 2 - RAM_BASE) with (a - RAM_BASE + 1 + 1) by lia. ring.
Qed.

Lemma mem_range m a n : bus_ok m -> 0 <= mem m a n < 256 ^ Z.of_nat n.
Proof. intros (_ & _ & (Hb & _) & _). by apply le_bytes_range. Qed.

(** A range of RAM written with a value. *)
Lemma written_changed m b p w v : bus_ok m -> in_mem p w -> written (ram m) b (p - RAM_BASE) w v ->
  bus_ok (set_ram b m) -> changed p w m (set_ram b m).
Proof.
  intros Hm Hp [Hl Hw] Hb. split; [done|]. split; [done|]. intros a Ha. unfold rbyte. change (ram (set_ram b m)) with b. rewrite Hw.
  destruct (Z.leb_spec (p - RAM_BASE) (a - RAM_BASE)), (Z.ltb_spec (a - RAM_BASE) (p - RAM_BASE + w)); try done. lia.
Qed.

Lemma written_mem m b p w v : 0 <= w -> written (ram m) b (p - RAM_BASE) w v -> mem (set_ram b m) p (Z.to_nat w) = v mod 256 ^ w.
Proof.
  intros Hw W. pose proof (le_bytes_written _ _ _ _ _ (Z.to_nat w) 0 W ltac:(lia) ltac:(lia)) as E.
  rewrite Z.add_0_r, Z.mul_0_r, Z.shiftr_0_r, Z2Nat.id in E by lia. exact E.
Qed.

(** ** The device's DMA *)

Lemma in_mem_u32 a n : in_mem a n -> 0 < n -> is_u32 a.
Proof. unfold in_mem, RAM_BASE, RAM_SIZE, is_u32. lia. Qed.

Lemma in_mem_dma a n : in_mem a n -> 0 < n -> dma_word a = true.
Proof. unfold in_mem, dma_word. intros. rewrite (proj2 (Z.leb_le _ _)), (proj2 (Z.ltb_lt _ _)) by lia. done. Qed.

Lemma word_offset_aligned a : is_u32 a -> a mod 4 = 0 -> word_offset a = a - RAM_BASE.
Proof. intros Ha Hm. unfold word_offset. rewrite land_not3, Hm by done. lia. Qed.

Section Rules.
Context `{F : Fuelled}.

Lemma dma_read_at a m (Q : option Z -> machine -> Prop) :
  bus_ok m -> in_mem a 4 -> a mod 4 = 0 -> Q (Some (mem m a 4)) m -> wp (dma_read a) Q m.
Proof.
  intros Hm Ha Hal HQ. pose proof (in_mem_u32 a 4 Ha ltac:(lia)) as Hu. unfold dma_read. rewrite (in_mem_dma a 4) by (done || lia). cbn [negb].
  pose proof Hm as (_&_&(Hb&El)&_). unfold in_mem in Ha. wps. rewrite word_offset_aligned by done. apply wpr_bytes_read; [done|lia|lia|lia|]. wps. exact HQ.
Qed.

Lemma dma_read16_at a m (Q : option Z -> machine -> Prop) :
  bus_ok m -> in_mem a 2 -> a mod 2 = 0 -> Q (Some (mem m a 2)) m -> wp (dma_read16 a) Q m.
Proof.
  intros Hm Ha Hal HQ. pose proof (in_mem_u32 a 2 Ha ltac:(lia)) as Hu. unfold dma_read16, dma_read. rewrite (in_mem_dma a 2) by (done || lia). cbn [negb].
  pose proof Hm as (_&_&(Hb&El)&_). wps. set (w := a - a mod 4). assert (Hw : in_mem w 4 /\ w mod 4 = 0).
  { unfold in_mem, RAM_BASE, RAM_SIZE, w in *. zlia. }
  destruct Hw as [Hw Hw4]. unfold in_mem in Hw. unfold word_offset. rewrite land_not3 by done. fold w. unfold ram_ok, RAM_SIZE in *.
  apply wpr_bytes_read; [done|lia|lia|lia|]. wps.
  change (le_bytes (ram m) (w - RAM_BASE) (Z.to_nat 4)) with (mem m w 4). rewrite mem_split.
  pose proof (mem_range m w 2 Hm) as R1. pose proof (mem_range m (w + 2) 2 Hm) as R2. change (256 ^ Z.of_nat 2) with 65536 in *.
  assert (E : tst (a .& 2) = negb (a mod 4 =? 0)).
  { change 2 with (2 ^ 1) at 1. rewrite tst_land_pow2 by lia. pose proof (Z.testbit_spec' a 1 ltac:(lia)) as Ht. change (2 ^ 1) with 2 in Ht.
    destruct (Z.testbit a 1), (Z.eqb_spec (a mod 4) 0); cbn [Z.b2z negb] in *; try done; zlia. }
  rewrite E. destruct (Z.eqb_spec (a mod 4) 0) as [E0|E0]; cbn [negb].
  - assert (w = a) as -> by lia. replace (u16 (mem m a 2 + 65536 * mem m (a + 2) 2)) with (mem m a 2) by (unfold u16; zlia). done.
  - assert (w = a - 2) as -> by zlia. rewrite Z.shiftr_div_pow2 by lia. change (2 ^ 16) with 65536.
    replace (u16 ((mem m (a - 2) 2 + 65536 * mem m (a - 2 + 2) 2) / 65536)) with (mem m (a - 2 + 2) 2) by (unfold u16; zlia).
    by replace (a - 2 + 2) with a by lia.
Qed.

(** Byte [i] of the word is written where bit [i] of the strobe is set. *)
Lemma write_strobed_spec n i p value strobe b :
  0 <= p -> 0 <= i -> p + i + Z.of_nat n <= buf_len b ->
  exists b', write_strobed n i p value strobe b = Ok b' /\ buf_len b' = buf_len b
    /\ forall j, byte_at b' j = if (p + i <=? j) && (j <? p + i + Z.of_nat n) && Z.testbit strobe (j - p) then u8 (value .>> (8 * (j - p))) else byte_at b j.
Proof.
  revert i b. induction n as [|n IH]; intros i b Hp Hi Hl.
  { exists b. split; [done|]. split; [done|]. intros j. destruct (Z.leb_spec (p + i) j), (Z.ltb_spec j (p + i + Z.of_nat 0)); try done. lia. }
  cbn [write_strobed].
  assert (Hb1 : exists b1, (if tst (strobe .& (1 .<< i)) then buf_set b (p + i) (u8 (value .>> (8 * i))) else mret b) = Ok b1 /\ buf_len b1 = buf_len b
     /\ forall j, byte_at b1 j = if (j =? p + i) && Z.testbit strobe i then u8 (value .>> (8 * i)) else byte_at b j).
  { rewrite Z.shiftl_1_l, tst_land_pow2 by lia. destruct (Z.testbit strobe i).
    - destruct (buf_set_ok b (p + i) (u8 (value .>> (8 * i))) ltac:(lia)) as (b1 & E & L1 & H1).
      exists b1. split; [done|]. split; [done|]. intros j. rewrite H1, andb_true_r. unfold u8. by rewrite Z.mod_mod.
    - exists b. split; [done|]. split; [done|]. intros j. by rewrite andb_false_r. }
  destruct Hb1 as (b1 & -> & L1 & H1). cbn [mbind res_bind]. destruct (IH (i + 1) b1) as (b' & E & L & H); [lia..|]. exists b'. split; [done|].
  split; [congruence|]. intros j. rewrite H, H1.
  destruct (Z.leb_spec (p + (i + 1)) j), (Z.ltb_spec j (p + (i + 1) + Z.of_nat n)), (Z.leb_spec (p + i) j), (Z.ltb_spec j (p + i + Z.of_nat (S n))),
    (Z.eqb_spec j (p + i)); cbn [andb]; try lia; try done.
  subst j. by replace (p + i - p) with i by lia.
Qed.

(** A DMA write of a whole word, of its upper half, and of one byte. *)
Lemma dma_write_strobed a value strobe p n v m (Q : option () -> machine -> Prop) :
  bus_ok m -> in_mem a 1 -> a - a mod 4 <= p -> p + n <= a - a mod 4 + 4 -> 0 <= n ->
  (forall j, 0 <= j < 4 -> Z.testbit strobe j = (p - (a - a mod 4) <=? j) && (j <? p - (a - a mod 4) + n)) ->
  (forall j, 0 <= j < n -> u8 (value .>> (8 * (p - (a - a mod 4) + j))) = u8 (v .>> (8 * j))) ->
  (forall m', changed p n m m' -> mem m' p (Z.to_nat n) = v mod 256 ^ n -> (forall j, 0 <= j < n -> rbyte m' (p + j) = u8 (v .>> (8 * j))) -> Q (Some ()) m') ->
  wp (dma_write a value strobe) Q m.
Proof.
  intros Hm Ha H1 H2 Hn Hs Hv HQ. pose proof (in_mem_u32 a 1 Ha ltac:(lia)) as Hu. unfold dma_write. rewrite (in_mem_dma a 1) by (done || lia). cbn [negb].
  set (w := a - a mod 4) in *. assert (Hw : in_mem w 4) by (unfold in_mem, RAM_BASE, RAM_SIZE, w in *; zlia).
  wp1. apply snoop_wp; [done|]. intros m1 [Hm1 _] Ev Er. do 4 wp1. pose proof Hm1 as (_&_&(Hb&El)&_).
  unfold word_offset. rewrite land_not3 by done. fold w. unfold in_mem in Hw. unfold ram_ok, RAM_SIZE in *.
  destruct (write_strobed_spec 4 0 (w - RAM_BASE) value strobe (ram m1)) as (b' & E & L & H); [lia..|]. rewrite E. cbn [wpr]. do 2 wp1. wp1.
  assert (W : written (ram m1) b' (p - RAM_BASE) n v).
  { split; [done|]. intros i. rewrite H. replace (w - RAM_BASE + 0) with (w - RAM_BASE) by lia. change (Z.of_nat 4) with 4.
    destruct (Z.leb_spec (w - RAM_BASE) i), (Z.ltb_spec i (w - RAM_BASE + 4)); cbn [andb];
      [rewrite Hs by lia|destruct (Z.leb_spec (p - RAM_BASE) i), (Z.ltb_spec i (p - RAM_BASE + n)); try done; lia..].
    destruct (Z.leb_spec (p - w) (i - (w - RAM_BASE))), (Z.ltb_spec (i - (w - RAM_BASE)) (p - w + n)), (Z.leb_spec (p - RAM_BASE) i),
      (Z.ltb_spec i (p - RAM_BASE + n)); cbn [andb]; try lia; try done.
    rewrite <- Hv by lia. do 3 f_equal. lia. }
  assert (Hb' : bus_ok (set_ram b' m1)) by (apply bus_ram; [done|split; [by eapply written_ok|unfold RAM_SIZE; lia]]).
  apply HQ; [|by apply written_mem|].
  2: { intros j Hj. destruct W as [_ W]. unfold rbyte. change (ram (set_ram b' m1)) with b'. rewrite W.
       rewrite (proj2 (Z.leb_le _ _)), (proj2 (Z.ltb_lt _ _)) by lia. cbn [andb]. do 3 f_equal. lia. }
  destruct (written_changed m1 b' p n v Hm1 ltac:(unfold in_mem, RAM_SIZE; lia) W Hb') as (C1 & C2 & C3). split; [done|]. split; [congruence|].
  intros x Hx. rewrite C3 by done. unfold rbyte. by rewrite Er.
Qed.

Lemma dma_write_word a v m (Q : option () -> machine -> Prop) :
  bus_ok m -> in_mem a 4 -> a mod 4 = 0 -> 
  (forall m', changed a 4 m m' -> mem m' a 4 = u32 v -> (forall j, 0 <= j < 4 -> rbyte m' (a + j) = u8 (v .>> (8 * j))) -> Q (Some ()) m') ->
  wp (dma_write a v 0xf) Q m.
Proof.
  intros Hm Ha Hal HQ. apply (dma_write_strobed a v 0xf a 4 v); [done|unfold in_mem in *; lia|lia|lia|lia| |by intros; do 3 f_equal; lia|done].
  intros j Hj. rewrite Hal. assert (j = 0 \/ j = 1 \/ j = 2 \/ j = 3) as [->|[->|[->| ->]]] by lia; (rewrite (proj2 (Z.leb_le _ _)), (proj2 (Z.ltb_lt _ _)) by lia; done).
Qed.

Lemma dma_write_upper a v m (Q : option () -> machine -> Prop) :
  bus_ok m -> in_mem a 4 -> a mod 4 = 0 -> is_u16 v -> (forall m', changed (a + 2) 2 m m' -> mem m' (a + 2) 2 = v -> Q (Some ()) m') ->
  wp (dma_write (a + 2) (u32 (v * 0x10001)) 0xc) Q m.
Proof.
  intros Hm Ha Hal Hv HQ. assert (Hmod : (a + 2) mod 4 = 2) by zlia. unfold is_u16 in Hv.
  apply (dma_write_strobed (a + 2) _ 0xc (a + 2) 2 v); rewrite ?Hmod; [done|unfold in_mem in *; lia|lia|lia|lia| | |].
  - intros j Hj. assert (j = 0 \/ j = 1 \/ j = 2 \/ j = 3) as [->|[->|[->| ->]]] by lia;
      destruct (Z.leb_spec (a + 2 - (a + 2 - 2)) 0), (Z.leb_spec (a + 2 - (a + 2 - 2)) 1), (Z.leb_spec (a + 2 - (a + 2 - 2)) 2), (Z.leb_spec (a + 2 - (a + 2 - 2)) 3),
        (Z.ltb_spec 2 (a + 2 - (a + 2 - 2) + 2)), (Z.ltb_spec 3 (a + 2 - (a + 2 - 2) + 2)); try lia; done.
  - intros j Hj. assert (Hw : u32 (v * 0x10001) .>> 16 = v) by (rewrite u32_id by (unfold is_u32; lia); rewrite Z.shiftr_div_pow2 by lia; change (2 ^ 16) with 65536; zlia).
    replace (8 * (a + 2 - (a + 2 - 2) + j)) with (16 + 8 * j) by lia. by rewrite <- Z.shiftr_shiftr, Hw by lia.
  - intros m' C M _. apply HQ; [done|]. change (Z.to_nat 2) with 2%nat in M. rewrite M. change (256 ^ 2) with 65536. by apply Z.mod_small.
Qed.

Lemma dma_write_byte a v m (Q : option () -> machine -> Prop) :
  bus_ok m -> in_mem a 1 -> is_u8 v -> (forall m', changed a 1 m m' -> mem m' a 1 = v -> Q (Some ()) m') ->
  wp (dma_write a (u32 (v * 0x01010101)) (1 .<< (a .& 3))) Q m.
Proof.
  intros Hm Ha Hv HQ. assert (Hl : a .& 3 = a mod 4) by (change 3 with (Z.ones 2); by rewrite Z.land_ones by lia). rewrite Hl. unfold is_u8 in Hv.
  assert (Hr : 0 <= a mod 4 < 4) by (by apply Z.mod_pos_bound).
  apply (dma_write_strobed a _ _ a 1 v); [done|done|lia|lia|lia| | |].
  - intros j Hj. rewrite Z.shiftl_1_l, Z.pow2_bits_eqb by lia. replace (a - (a - a mod 4)) with (a mod 4) by lia.
    destruct (Z.eqb_spec (a mod 4) j), (Z.leb_spec (a mod 4) j), (Z.ltb_spec j (a mod 4 + 1)); try done; lia.
  - intros j Hj. assert (j = 0) as -> by lia. rewrite Z.mul_0_r, Z.shiftr_0_r. replace (a - (a - a mod 4) + 0) with (a mod 4) by lia.
    rewrite u32_id by (unfold is_u32; lia). rewrite Z.shiftr_div_pow2 by lia. unfold u8.
    assert (a mod 4 = 0 \/ a mod 4 = 1 \/ a mod 4 = 2 \/ a mod 4 = 3) as [->|[->|[->| ->]]] by lia;
      [change (2 ^ (8 * 0)) with 1|change (2 ^ (8 * 1)) with 0x100|change (2 ^ (8 * 2)) with 0x10000|change (2 ^ (8 * 3)) with 0x1000000]; zlia.
  - intros m' C M _. apply HQ; [done|]. change (Z.to_nat 1) with 1%nat in M. rewrite M. change (256 ^ 1) with 256. by apply Z.mod_small.
Qed.

(** ** The data of a request *)

Lemma le_byte b p n j : buf_ok b -> 0 <= j < Z.of_nat n -> u8 (le_bytes b p n .>> (8 * j)) = byte_at b (p + j).
Proof.
  intros Hb. revert p j. induction n as [|n IH]; intros p j Hj; [lia|]. cbn [le_bytes]. pose proof (proj2 Hb p) as Hp. unfold is_u8 in Hp.
  destruct (Z.eqb_spec j 0) as [->|Hn].
  - rewrite Z.mul_0_r, Z.shiftr_0_r, Z.add_0_r. unfold u8. rewrite (Z.mul_comm 256), Z.mod_add by lia. by apply Z.mod_small.
  - replace (8 * j) with (8 + 8 * (j - 1)) by lia. rewrite <- Z.shiftr_shiftr by lia. rewrite (Z.shiftr_div_pow2 _ 8) by lia.
    change (2 ^ 8) with 256. rewrite (Z.mul_comm 256), Z.div_add, Z.div_small by lia. rewrite Z.add_0_l, IH by lia. f_equal. lia.
Qed.

(** Nothing of the device differs but the disk, its file and the file's error. *)
Definition data_only (v v' : virtio_blk) : Prop := v' = {| v with disk := disk v'; file := file v'; write_error := write_error v' |}.

(** No write to the disk's file failed, and none will. *)
Definition sound (v : virtio_blk) : Prop := write_error v = false /\ match file v with None => True | Some fl => Forall (fun outcome => outcome = true) (file_outcomes fl) end.

Lemma data_only_refl v : data_only v v.
Proof. by destruct v. Qed.
Lemma data_only_trans v1 v2 v3 : data_only v1 v2 -> data_only v2 v3 -> data_only v1 v3.
Proof. unfold data_only. intros -> ->. done. Qed.

Lemma transfer_in_at n i sector address m (Q : option () -> machine -> Prop) :
  bus_ok m -> on_disk (virtio m) sector i n -> address mod 4 = 0 -> in_mem (address + 4 * i) (4 * Z.of_nat n) ->
  (forall m', changed (address + 4 * i) (4 * Z.of_nat n) m m' ->
     (forall k, 0 <= k < 4 * Z.of_nat n -> rbyte m' (address + 4 * i + k) = byte_at (disk (virtio m)) (sector * 512 + 4 * i + k)) -> Q (Some ()) m') ->
  wp (transfer_in n i sector address) Q m.
Proof.
  revert i m Q. induction n as [|n IH]; intros i m Q Hm Hd Hal Hin HQ; cbn [transfer_in].
  { wp1. apply HQ; [split; [done|split; [done|done]]|lia]. }
  pose proof (disk_size_small m Hm). destruct Hd as (Hs & Hi & Hl). pose proof Hm as (_&(_&_&(((Hb&El)&_)&_)&_)&_).
  do 4 wp1. rewrite (u32_id (sector * 512 + 4 * i)) by (unfold is_u32; lia). unfold VIRTIO_DISK_MAX in *. apply wpr_bytes_read; [done|lia|lia|lia|].
  change (Z.to_nat 4) with 4%nat. set (w := le_bytes _ _ 4). unfold in_mem, RAM_BASE, RAM_SIZE in Hin. wp1.
  rewrite (u32_id (address + 4 * i)) by (unfold is_u32; lia).
  apply dma_write_word; [done|unfold in_mem, RAM_BASE, RAM_SIZE; lia|zlia|]. intros m1 C1 _ B1. pose proof C1 as (Hm1 & Ev & K1).
  apply IH; [done|rewrite Ev; repeat split; lia|done|unfold in_mem, RAM_BASE, RAM_SIZE; lia|].
  intros m2 C2 B2. apply HQ.
  { eapply changed_trans; eapply changed_sub; [exact C1|lia|lia|exact C2|lia|lia]. }
  intros k Hk. destruct (Z.ltb_spec k 4).
  - destruct C2 as (_ & _ & K2). rewrite K2 by lia. rewrite B1 by lia. unfold w. rewrite le_byte by (done || lia). done.
  - specialize (B2 (k - 4) ltac:(lia)). rewrite Ev in B2. replace (address + 4 * (i + 1) + (k - 4)) with (address + 4 * i + k) in B2 by lia.
    rewrite B2. f_equal. lia.
Qed.

Lemma disk_written_at offset bytes m (Q : () -> machine -> Prop) :
  bus_ok m -> 0 <= offset -> 0 <= bytes -> offset + bytes <= disk_size (virtio m) ->
  (forall m', bus_ok m' -> ram m' = ram m -> data_only (virtio m) (virtio m') -> disk (virtio m') = disk (virtio m) -> (sound (virtio m) -> sound (virtio m')) -> Q () m') ->
  wp (virtio_disk_written offset bytes) Q m.
Proof.
  intros Hm H0 Hb Hl HQ. unfold wp. pose proof (disk_written_wp offset bytes m (fun _ m' => bus_ok m') Hm H0 Hb Hl) as Hok.
  specialize (Hok ltac:(intros m' [? _] _; done)). unfold wp in Hok. unfold virtio_disk_written in *. destruct (file (virtio m)) as [fl|] eqn:Ef.
  2: { cbn [mret res_ret] in *. apply HQ; [done|done|apply data_only_refl|done|done]. }
  unfold sound in HQ. rewrite Ef in HQ. destruct (file_outcomes fl) as [|[|] outs].
  - destruct (copy_out _ _ _ _) as [b| |]; cbn [mbind res_bind mret res_ret] in *; try done.
    apply HQ; [done|done|by unfold data_only; cbn; destruct (virtio m)|done|done].
  - destruct (copy_out _ _ _ _) as [b| |]; cbn [mbind res_bind mret res_ret] in *; try done.
    apply HQ; [done|done|by unfold data_only; cbn; destruct (virtio m)|done|]. intros (H1 & H2). apply Forall_cons_1 in H2 as [_ H2]. by split.
  - cbn [mret res_ret] in *. apply HQ; [done|done|by unfold data_only; cbn; destruct (virtio m)|done|]. intros (_ & H2). by apply Forall_cons_1 in H2 as [H2 _].
Qed.

(** The disk after RAM was copied to a range of it. *)
Definition disk_got (m m' : machine) (at0 address n : Z) : Prop :=
  forall x, byte_at (disk (virtio m')) x = if (at0 <=? x) && (x <? at0 + n) then rbyte m (address + (x - at0)) else byte_at (disk (virtio m)) x.

Lemma transfer_out_at n i sector address m (Q : option () -> machine -> Prop) :
  bus_ok m -> on_disk (virtio m) sector i n -> address mod 4 = 0 -> in_mem (address + 4 * i) (4 * Z.of_nat n) ->
  (forall m', bus_ok m' -> ram m' = ram m -> data_only (virtio m) (virtio m') ->
     disk_got m m' (sector * 512 + 4 * i) (address + 4 * i) (4 * Z.of_nat n) -> (sound (virtio m) -> sound (virtio m')) -> Q (Some ()) m') ->
  wp (transfer_out n i sector address) Q m.
Proof.
  revert i m Q. induction n as [|n IH]; intros i m Q Hm Hd Hal Hin HQ; cbn [transfer_out].
  { wp1. apply HQ; [done|done|apply data_only_refl| |done]. intros x. destruct (Z.leb_spec (sector * 512 + 4 * i) x), (Z.ltb_spec x (sector * 512 + 4 * i + 4 * Z.of_nat 0)); try done; lia. }
  pose proof (disk_size_small m Hm). destruct Hd as (Hs & Hi & Hl). pose proof Hm as (_&(_&_&(((Hb&El)&Hsz&Hf)&Hrest)&_)&_).
  unfold in_mem, RAM_BASE, RAM_SIZE in Hin. wp1. rewrite (u32_id (address + 4 * i)) by (unfold is_u32; lia).
  apply dma_read_at; [done|unfold in_mem, RAM_BASE, RAM_SIZE; lia|zlia|]. do 4 wp1.
  rewrite (u32_id (sector * 512 + 4 * i)) by (unfold is_u32; lia). unfold VIRTIO_DISK_MAX in *. apply wpr_bytes_write; [done|lia|lia|lia|].
  intros d Wd. do 2 wp1.
  assert (Hd : buf_ok d /\ buf_len d = 0x800000) by (split; [by eapply written_ok|destruct Wd; lia]).
  set (m1 := upd_virtio _ m).
  assert (Hm1 : bus_ok m1) by (exact (bus_virtio m Hm {| (virtio m) with disk := d |} (conj (conj Hd (conj Hsz Hf)) Hrest))).
  assert (E1 : disk (virtio m1) = d /\ ram m1 = ram m /\ data_only (virtio m) (virtio m1) /\ disk_size (virtio m1) = disk_size (virtio m) /\ (sound (virtio m) -> sound (virtio m1))).
  { split; [done|]. split; [done|]. split; [|split; [done|exact (fun H => H)]]. unfold data_only, m1. cbn. by destruct (virtio m). }
  clearbody m1. destruct E1 as (Ed & Er & Eo & Es & Ew).
  apply IH; [done|unfold on_disk; rewrite Es; lia|done|unfold in_mem, RAM_BASE, RAM_SIZE; lia|].
  intros m2 Hm2 Er2 Eo2 G2 Ew2. apply HQ; [done|congruence|by eapply data_only_trans| |auto]. intros x. rewrite G2, Ed.
  pose proof (proj2 Wd x) as Wx.
  destruct (Z.leb_spec (sector * 512 + 4 * i) x), (Z.ltb_spec x (sector * 512 + 4 * i + 4 * Z.of_nat (S n))),
    (Z.leb_spec (sector * 512 + 4 * (i + 1)) x), (Z.ltb_spec x (sector * 512 + 4 * (i + 1) + 4 * Z.of_nat n)), (Z.ltb_spec x (sector * 512 + 4 * i + 4));
    cbn [andb] in *; try lia.
  - unfold rbyte. rewrite Er. f_equal. lia.
  - rewrite Wx. pose proof Hm as (_&_&(Hbr&_)&_). unfold mem. rewrite le_byte by (done || lia). unfold rbyte. f_equal. lia.
Qed.

Lemma land3 x : x .& 3 = x mod 4.
Proof. change 3 with (Z.ones 2). by rewrite Z.land_ones by lia. Qed.

(** The request reaches the end of the disk at most. *)
Definition fits (v : virtio_blk) (sector count : Z) : bool := (sector <? disk_size v / 512) && (sector + count <=? disk_size v / 512).

(** A read of [count] sectors, and a write. *)
Definition read_answer (sector address count : Z) (m : machine) (r : Z) (m' : machine) : Prop :=
  changed address (512 * count) m m' /\ r = (if fits (virtio m) sector count then Z.b2z (write_error (virtio m)) else 1)
  /\ (fits (virtio m) sector count = true -> forall k, 0 <= k < 512 * count -> rbyte m' (address + k) = byte_at (disk (virtio m)) (512 * sector + k)).
Definition write_answer (sector address count : Z) (m : machine) (r : Z) (m' : machine) : Prop :=
  bus_ok m' /\ ram m' = ram m /\ (data_only (virtio m) (virtio m') /\ (sound (virtio m) -> sound (virtio m')))
  /\ r = (if fits (virtio m) sector count then Z.b2z (write_error (virtio m')) else 1)
  /\ if fits (virtio m) sector count then disk_got m m' (512 * sector) address (512 * count) else disk (virtio m') = disk (virtio m).

Lemma request_data_at (write : bool) sector address count m (Q : option Z -> machine -> Prop) :
  bus_ok m -> is_u32 sector -> 0 <= count -> in_mem address (512 * count) -> address mod 4 = 0 ->
  (forall r m', (if write then write_answer else read_answer) sector address count m r m' -> Q (Some r) m') ->
  wp (request_data (if write then 1 else 0) sector 0 {| d_address := address; d_length := 512 * count; d_write := negb write; d_next := 2 |}) Q m.
Proof.
  intros Hm Hs Hc Hin Hal HQ. unfold request_data. cbn [d_length d_address d_write]. pose proof (disk_size_small m Hm) as Hz.
  pose proof Hm as (_&(_&_&((_&(_&Hz2)&_)&_)&_)&_). unfold is_u32 in Hs.
  assert (Hq : (512 * count) .>> 2 = 128 * count) by (rewrite Z.shiftr_div_pow2 by lia; change (2 ^ 2) with 4; zlia).
  rewrite Hq, !land3, Hal. replace ((512 * count) mod 4) with 0 by zlia. change (tst 0) with false. wp1. wp1.
  rewrite (proj2 (Z.ltb_ge 1 _)) by (destruct write; lia).
  assert (Hfit : (disk_size (virtio m) / 512 <=? sector) || (disk_size (virtio m) / 4 <? sector * 128 + 128 * count) = negb (fits (virtio m) sector count)).
  { unfold fits. destruct (Z.leb_spec (disk_size (virtio m) / 512) sector), (Z.ltb_spec (disk_size (virtio m) / 4) (sector * 128 + 128 * count)),
      (Z.ltb_spec sector (disk_size (virtio m) / 512)), (Z.leb_spec (sector + count) (disk_size (virtio m) / 512)); try done; zlia. }
  assert (Hcond : negb (0 =? 0) || (disk_size (virtio m) / 512 <=? sector) || false || false || (disk_size (virtio m) / 4 <? sector * 128 + 128 * count)
     || negb (Bool.eqb (negb write) ((if write then 1 else 0) =? 0)) = negb (fits (virtio m) sector count)).
  { rewrite <- Hfit. destruct write; cbn; rewrite ?orb_false_r; done. }
  rewrite Hcond. wp1.
  { wp1. apply HQ. apply negb_true_iff in H. destruct write; unfold write_answer, read_answer; rewrite H.
    - split; [done|]. split; [done|]. split; [split; [apply data_only_refl|done]|]. done.
    - split; [split; [done|split; [done|done]]|]. done. }
  apply negb_false_iff in H. pose proof H as Hf. unfold fits in Hf. apply andb_true_iff in Hf as [Hf1 Hf2]. bools.
  assert (Hdisk : sector * 512 + 512 * count <= disk_size (virtio m)) by zlia.
  replace (512 * count / 4) with (128 * count) by zlia.
  assert (Hod : on_disk (virtio m) sector 0 (Z.to_nat (128 * count))) by (unfold on_disk; lia).
  rewrite (u32_id (sector * 512)) by (unfold is_u32; lia).
  destruct write; cbv iota.
  - change (1 =? 0) with false. change (1 =? 1) with true. cbv iota. wp1. apply transfer_out_at; [done|done|done|rewrite Z.add_0_r; unfold in_mem in *; lia|].
    intros m1 Hm1 Er Eo G Ew. wp1. apply wp_when; [|done]. intros _. rewrite Z2Nat.id in G by lia.
    assert (Ez : disk_size (virtio m1) = disk_size (virtio m)) by (by rewrite Eo).
    apply disk_written_at; [done|lia|lia|lia|]. intros m2 Hm2 Er2 Eo2 Ed2 Ew2. do 3 wp1. apply HQ. unfold write_answer. rewrite H.
    split; [done|]. split; [congruence|]. split; [split; [by eapply data_only_trans|auto]|]. split; [by destruct (write_error _)|].
    intros x. rewrite Ed2, G. replace (sector * 512 + 4 * 0) with (512 * sector) by lia. replace (4 * (128 * count)) with (512 * count) by lia.
    by replace (address + 4 * 0) with address by lia.
  - change (0 =? 0) with true. change (0 =? 1) with false. cbv iota. wp1. apply transfer_in_at; [done|done|done|rewrite Z.add_0_r; unfold in_mem in *; lia|].
    intros m1 C B. rewrite Z2Nat.id, Z.add_0_r in C, B by lia. replace (4 * (128 * count)) with (512 * count) in C, B by lia. wp1. cbn [when]. do 4 wp1. apply HQ. unfold read_answer. rewrite H.
    pose proof C as (_ & Ev & _). split; [done|]. rewrite Ev. split; [by destruct (write_error _)|]. intros _ k Hk. rewrite B by done. f_equal. lia.
Qed.
End Rules.
End VirtioServe.
