(* ===== verification/VirtioDriverProofs.v ===== *)
(** * The driver and the device together

    What the driver writes for a request is what the device reads; the device's
    answer is what the driver waits for. *)

From S2P Require Import Prelude Effects Buffer Simd4 Gpu G3d Dtb Machine Devices Virtio Bus Mmu Csr MachineOk VirtioProofs VirtioServe VirtioDriver.

Module VirtioDriverProofs.
Import Bus Virtio VirtioProofs VirtioServe VirtioDriver.

(** ** The queue *)

(** The structures are aligned, in RAM, and do not overlap. *)
Record layout_ok (L : layout) : Prop := {
  descs_in : in_mem (descs L) 48 /\ descs L mod 4 = 0;
  avail_in : in_mem (avail L) 22 /\ avail L mod 4 = 0;
  used_in : in_mem (used L) 70 /\ used L mod 4 = 0;
  header_in : in_mem (header L) 16 /\ header L mod 4 = 0;
  status_in : in_mem (status_byte L) 1;
  descs_avail : apart (descs L) 48 (avail L) 22; descs_used : apart (descs L) 48 (used L) 70;
  descs_header : apart (descs L) 48 (header L) 16; descs_status : apart (descs L) 48 (status_byte L) 1;
  avail_used : apart (avail L) 22 (used L) 70; avail_header : apart (avail L) 22 (header L) 16;
  avail_status : apart (avail L) 22 (status_byte L) 1; used_header : apart (used L) 70 (header L) 16;
  used_status : apart (used L) 70 (status_byte L) 1; header_status : apart (header L) 16 (status_byte L) 1;
}.

(** A buffer the driver may be given. *)
Definition buffer_in (L : layout) (p n : Z) : Prop :=
  in_mem p n /\ p mod 4 = 0 /\ apart p n (descs L) 48 /\ apart p n (avail L) 22 /\ apart p n (used L) 70 /\ apart p n (header L) 16
  /\ apart p n (status_byte L) 1.

(** The device knows the queue and is in use. *)
Definition queue_set (L : layout) (v : virtio_blk) : Prop :=
  queue_num v = 8 /\ desc_lo v = descs L /\ desc_hi v = 0 /\ driver_lo v = avail L /\ driver_hi v = 0 /\ device_lo v = used L /\ device_hi v = 0
  /\ queue_ready v = true /\ tst (v_status v .& 4) = true /\ tst (v_status v .& VIRTIO_NEEDS_RESET) = false.

(** One descriptor in memory. *)
Definition desc_is (L : layout) (m : machine) (i addr len flags next : Z) : Prop :=
  mem m (descs L + 16 * i) 4 = addr /\ mem m (descs L + 16 * i + 4) 4 = 0 /\ mem m (descs L + 16 * i + 8) 4 = len
  /\ mem m (descs L + 16 * i + 12) 2 = flags /\ mem m (descs L + 16 * i + 14) 2 = next.

(** The request the device is about to find. *)
Definition posted (L : layout) (sector address count : Z) (write : bool) (m : machine) : Prop :=
  mem m (header L) 4 = Z.b2z write /\ mem m (header L + 8) 4 = sector /\ mem m (header L + 12) 4 = 0
  /\ desc_is L m 0 (header L) 16 1 1 /\ desc_is L m 1 address (512 * count) (if write then 1 else 3) 2
  /\ desc_is L m 2 (status_byte L) 1 2 0
  /\ mem m (avail L + 4 + 2 * (last_avail (virtio m) mod 8)) 2 = 0 /\ mem m (avail L + 2) 2 = u16 (last_avail (virtio m) + 1).

Section Rules.
Context `{F : Fuelled}.

Lemma read_descriptor_at L which addr len flags next m (Q : option descriptor -> machine -> Prop) :
  bus_ok m -> layout_ok L -> queue_set L (virtio m) -> In which [0; 1; 2] -> desc_is L m which addr len flags next ->
  is_u16 flags -> is_u16 next -> next < 8 -> Z.testbit flags 0 = negb (which =? 2) -> (which = 0 -> Z.testbit flags 1 = false) ->
  (which = 2 -> Z.testbit flags 1 = true) ->
  Q (Some {| d_address := addr; d_length := len; d_write := Z.testbit flags 1; d_next := next |}) m ->
  wp (read_descriptor which which) Q m.
Proof.
  intros Hm HL (Hn & Hd & _) Hw (D0 & D1 & D2 & D3 & D4) Hf Hx Hx8 F0 F1 F2 HQ. destruct (descs_in L HL) as [Hin Hal].
  assert (Hwr : 0 <= which <= 2) by (cbn in Hw; lia). unfold in_mem, RAM_BASE, RAM_SIZE in Hin.
  unfold read_descriptor. wp1. wp1. rewrite Hd. rewrite (u32_id (descs L + 16 * which)), !u32_id by (unfold is_u32; lia). set (base := descs L + 16 * which) in *.
  assert (Hb : in_mem base 16 /\ base mod 4 = 0) by (unfold in_mem, RAM_BASE, RAM_SIZE, base; zlia). destruct Hb as [Hb Hb4]. unfold in_mem in Hb.
  wp1. apply dma_read_at; [done|unfold in_mem; lia|done|]. wp1. apply dma_read_at; [done|unfold in_mem; lia|zlia|]. rewrite D1. unfold require.
  wp1. wp1. cbn [Z.eqb]. wp1. apply dma_read_at; [done|unfold in_mem; lia|zlia|]. wp1. apply dma_read_at; [done|unfold in_mem; lia|zlia|].
  rewrite (mem_split m (base + 12)). replace (base + 12 + 2) with (base + 14) by lia. rewrite D0, D2, D3, D4. unfold is_u16 in *.
  assert (Hbit : forall k, 0 <= k < 16 -> Z.testbit (flags + 65536 * next) k = Z.testbit flags k).
  { intros k Hk. rewrite <- (Z.mod_pow2_bits_low _ 16) by lia. change (2 ^ 16) with 65536. rewrite (Z.mul_comm 65536), Z.mod_add, Z.mod_small by lia. done. }
  change 1 with (2 ^ 0) at 1. rewrite tst_land_pow2, Hbit by lia. assert (Hw2 : tst ((flags + 65536 * next) .& 2) = Z.testbit flags 1).
  { change 2 with (2 ^ 1) at 1. rewrite tst_land_pow2, Hbit by lia. done. }
  rewrite Hw2. assert (Hsh : (flags + 65536 * next) .>> 16 = next) by (rewrite Z.shiftr_div_pow2 by lia; change (2 ^ 16) with 65536; zlia).
  rewrite Hsh, Hn, F0, (u16_id next) by (unfold is_u16; lia). wp1. wp1.
  assert (Hreq : negb (Bool.eqb (negb (which =? 2)) (negb (which =? 2))) || ((which =? 0) && Z.testbit flags 1)
     || ((which =? 2) && negb (Z.testbit flags 1)) || (negb (which =? 2) && (8 <=? next)) = false).
  { rewrite Bool.eqb_reflx. cbn [negb orb]. rewrite (proj2 (Z.leb_gt 8 next)) by lia. rewrite andb_false_r, orb_false_r.
    destruct (Z.eqb_spec which 0) as [E0|], (Z.eqb_spec which 2) as [E2|]; try lia; cbn [andb orb]; try done; [by rewrite F1|by rewrite F2]. }
  rewrite Hreq. cbn [negb]. wp1. exact HQ.
Qed.

(** What the device writes back after the data of a request: the status byte, an
    entry of the used ring and its index. *)
Definition completed (L : layout) (r : Z) (m1 m' : machine) : Prop :=
  bus_ok m'
  /\ virtio m' = {| (virtio m1) with used_idx := u16 (used_idx (virtio m1) + 1); last_avail := u16 (last_avail (virtio m1) + 1); v_interrupt := true |}
  /\ mem m' (status_byte L) 1 = r /\ mem m' (used L + 2) 2 = u16 (used_idx (virtio m1) + 1)
  /\ forall a, a <> status_byte L -> ~ (used L <= a < used L + 70) -> rbyte m' a = rbyte m1 a.

(** The data of the request, whatever its direction, and the device it leaves. *)
Definition answered (write : bool) (sector address count : Z) (m : machine) (r : Z) (m1 : machine) : Prop :=
  bus_ok m1 /\ data_only (virtio m) (virtio m1) /\ (if write then write_answer else read_answer) sector address count m r m1.

Lemma answer_answered (write : bool) sector address count m r m1 :
  (if write then write_answer else read_answer) sector address count m r m1 -> answered write sector address count m r m1.
Proof.
  intros H. split; [|split; [|done]].
  - destruct write; [by destruct H|by destruct H as ((? & _) & _)].
  - destruct write; [by destruct H as (_ & _ & (? & _) & _)|]. destruct H as ((_ & -> & _) & _). apply data_only_refl.
Qed.

Lemma answer_u8 (write : bool) sector address count m r m1 : (if write then write_answer else read_answer) sector address count m r m1 -> is_u8 r.
Proof.
  destruct write; [intros (_ & _ & _ & -> & _)|intros (_ & -> & _)]; destruct (fits _ _ _); try destruct (write_error _); done.
Qed.

Lemma land7_mod x : x .& 7 = x mod 8.
Proof. change 7 with (Z.ones 3). by rewrite Z.land_ones by lia. Qed.

Lemma complete_wp L r head written m1 (Q : option () -> machine -> Prop) :
  let v := virtio m1 in
  bus_ok m1 -> layout_ok L -> device_lo v = used L -> is_u8 r -> is_u16 (used_idx v) ->
  (forall m', completed L r m1 m' -> Q (Some ()) m') ->
  wp (_ ←? dma_write (status_byte L) (u32 (r * 0x01010101)) (1 .<< (status_byte L .& 3));
      _ ←? dma_write (u32 (used L + 4 + 8 * (used_idx v mod 8))) head 0xf;
      _ ←? dma_write (u32 (u32 (used L + 4 + 8 * (used_idx v mod 8)) + 4)) written 0xf;
      _ ←? dma_write (u32 (used L + 2)) (u32 (u16 (used_idx v + 1) * 0x10001)) (if tst (used L .& 2) then 0x3 else 0xc);
      modify (upd_virtio (fun v => {| v with used_idx := u16 (used_idx v + 1); last_avail := u16 (last_avail v + 1); v_interrupt := true |}));;
      mret (Some ())) Q m1.
Proof.
  cbv zeta. intros Hm HL Hd Hr Hu HQ. destruct (used_in L HL) as [Hin Hal]. pose proof (status_in L HL) as Hsin. pose proof (used_status L HL) as Hus.
  set (u := used_idx (virtio m1)) in *. assert (Hk : 0 <= u mod 8 < 8) by (by apply Z.mod_pos_bound). unfold in_mem, RAM_BASE, RAM_SIZE in Hin.
  rewrite (u32_id (used L + 2)), (u32_id (used L + 4 + 8 * (u mod 8))), (u32_id (used L + 4 + 8 * (u mod 8) + 4)) by (unfold is_u32; lia). set (e := used L + 4 + 8 * (u mod 8)) in *.
  assert (Hb : tst (used L .& 2) = false).
  { change 2 with (2 ^ 1). rewrite tst_land_pow2 by lia. pose proof (Z.testbit_spec' (used L) 1 ltac:(lia)) as Ht. change (2 ^ 1) with 2 in Ht.
    destruct (Z.testbit (used L) 1); [cbn [Z.b2z] in Ht; zlia|done]. }
  rewrite Hb. wp1. apply dma_write_byte; [done|done|done|]. intros m2 C2 M2. pose proof C2 as (Hm2 & V2 & K2).
  wp1. apply dma_write_word; [done|unfold in_mem, RAM_BASE, RAM_SIZE; lia|unfold e; zlia|]. intros m3 C3 _ _. pose proof C3 as (Hm3 & V3 & K3).
  wp1. apply dma_write_word; [done|unfold in_mem, RAM_BASE, RAM_SIZE; lia|unfold e; zlia|]. intros m4 C4 _ _. pose proof C4 as (Hm4 & V4 & K4).
  wp1. apply dma_write_upper; [done|unfold in_mem, RAM_BASE, RAM_SIZE; lia|done|apply u16_range|]. intros m5 C5 M5. pose proof C5 as (Hm5 & V5 & K5).
  do 2 wp1. wp1. assert (Ev : virtio m5 = virtio m1) by congruence. apply HQ.
  assert (Hbus : bus_ok (upd_virtio (fun v => {| v with used_idx := u16 (used_idx v + 1); last_avail := u16 (last_avail v + 1); v_interrupt := true |}) m5)).
  { pose proof Hm5 as (_&(_&_&Hv&_)&_). destruct Hv as (H1 & H2 & H3 & H4 & H5 & H6).
    apply (bus_virtio m5 Hm5 {| (virtio m5) with used_idx := u16 (used_idx (virtio m5) + 1); last_avail := u16 (last_avail (virtio m5) + 1); v_interrupt := true |}).
    split; [exact H1|]. split; [done|]. split; [done|]. split; [done|]. split; apply u16_range. }
  split; [done|]. split; [cbn [upd_virtio virtio]; by rewrite Ev|].
  assert (Hst : forall p n m m', changed p n m m' -> apart p n (status_byte L) 1 -> mem m' (status_byte L) 1 = mem m (status_byte L) 1).
  { intros p n m m' C A. by apply (mem_changed p n). }
  split.
  { change (mem m5 (status_byte L) 1 = r). rewrite (Hst _ _ _ _ C5), (Hst _ _ _ _ C4), (Hst _ _ _ _ C3) by (eapply apart_sub; [exact Hus|lia..]). done. }
  split; [exact M5|]. intros a Ha1 Ha2. change (rbyte m5 a = rbyte m1 a). rewrite K5, K4, K3, K2 by lia. done.
Qed.

Lemma virtio_request_at L sector address count write m (Q : option () -> machine -> Prop) :
  bus_ok m -> layout_ok L -> queue_set L (virtio m) -> buffer_in L address (512 * count) -> is_u32 sector -> 0 <= count ->
  posted L sector address count write m ->
  (forall r m1 m', answered write sector address count m r m1 -> completed L r m1 m' -> Q (Some ()) m') ->
  wp virtio_request Q m.
Proof.
  intros Hm HL Hq (Bin & Bal & _) Hs Hc (P0 & P1 & P2 & P3 & P4 & P5 & P6 & P7) HQ. pose proof Hq as (Q1 & Q2 & Q3 & Q4 & Q5 & Q6 & _).
  destruct (avail_in L HL) as [Ain Aal]. destruct (header_in L HL) as [Hin Hal]. unfold in_mem, RAM_BASE, RAM_SIZE in Ain, Hin.
  pose proof Hm as (_&(_&_&Hv&_)&_). destruct Hv as (_ & _ & _ & _ & La & Lu). unfold is_u16 in La, Lu.
  unfold virtio_request. wp1. wp1. rewrite Q1, Q4, Q6. change (u32 (8 - 1)) with 7. rewrite !land7_mod. set (k := last_avail (virtio m) mod 8) in *.
  assert (Hk : 0 <= k < 8) by (by apply Z.mod_pos_bound). rewrite (u32_id (avail L + 4 + 2 * k)) by (unfold is_u32; lia).
  wp1. apply dma_read16_at; [done|unfold in_mem, RAM_BASE, RAM_SIZE; lia|zlia|]. rewrite P6. unfold require. wp1. wp1. cbn [Z.ltb Z.compare].
  wp1. eapply (read_descriptor_at L 0); [done..|by left|exact P3|done|done|done|done|done|done|]. cbn [d_next].
  wp1. eapply (read_descriptor_at L 1); [done..|by right; left|exact P4|by destruct write|done|done|by destruct write|lia|lia|]. cbn [d_next].
  wp1. eapply (read_descriptor_at L 2); [done..|by right; right; left|exact P5|done|done|done|done|lia|done|]. cbn [d_next d_address].
  wp1. apply dma_read_at; [done|unfold in_mem, RAM_BASE, RAM_SIZE; lia|done|]. rewrite P0, (u32_id (header L + 8)), (u32_id (header L + 12)) by (unfold is_u32; lia).
  wp1. apply dma_read_at; [done|unfold in_mem, RAM_BASE, RAM_SIZE; lia|zlia|]. rewrite P1.
  wp1. apply dma_read_at; [done|unfold in_mem, RAM_BASE, RAM_SIZE; lia|zlia|]. rewrite P2.
  assert (Ew : Z.testbit (if write then 1 else 3) 1 = negb write) by (by destruct write). rewrite Ew.
  assert (Et : Z.b2z write = if write then 1 else 0) by (by destruct write). rewrite Et.
  wp1. apply request_data_at; [done|done|done|done|done|]. intros r m1 Ha. pose proof (answer_answered _ _ _ _ _ _ _ Ha) as An.
  pose proof An as (Hm1 & Do & _). assert (Eu : used_idx (virtio m1) = used_idx (virtio m) /\ device_lo (virtio m1) = used L) by (rewrite Do; by split).
  destruct Eu as [Eu Ed]. rewrite <- Eu. cbn [d_address d_length].
  eapply (complete_wp L r); [done|done|done|by eapply answer_u8|rewrite Eu; done|]. intros m' Hcomp. by eapply HQ.
Qed.

Lemma mem_same m m' q k : (forall a, q <= a < q + Z.of_nat k -> rbyte m' a = rbyte m a) -> mem m' q k = mem m q k.
Proof.
  intros H. apply le_bytes_ext. intros i Hi. specialize (H (i + RAM_BASE)). unfold rbyte in H.
  replace (i + RAM_BASE - RAM_BASE) with i in H by lia. apply H. lia.
Qed.

(** Outside the buffer, the used ring and the status byte the device writes nothing. *)
Lemma served_rbyte L write sector address count m r m1 m' a :
  answered write sector address count m r m1 -> completed L r m1 m' ->
  a <> status_byte L -> ~ (used L <= a < used L + 70) -> ~ (address <= a < address + 512 * count) -> rbyte m' a = rbyte m a.
Proof.
  intros (_ & _ & An) (_ & _ & _ & _ & K) H1 H2 H3. rewrite K by done. destruct write.
  - destruct An as (_ & Er & _). unfold rbyte. by rewrite Er.
  - destruct An as ((_ & _ & K') & _). by apply K'.
Qed.

Lemma answer_rbyte write sector address count m r m1 a :
  answered write sector address count m r m1 -> ~ (address <= a < address + 512 * count) -> rbyte m1 a = rbyte m a.
Proof.
  intros (_ & _ & An) H3. destruct write.
  - destruct An as (_ & Er & _). unfold rbyte. by rewrite Er.
  - destruct An as ((_ & _ & K') & _). by apply K'.
Qed.

Lemma virtio_serve_at L fuel sector address count write m (Q : () -> machine -> Prop) :
  (2 <= fuel)%nat ->
  bus_ok m -> layout_ok L -> queue_set L (virtio m) -> buffer_in L address (512 * count) -> is_u32 sector -> 0 <= count ->
  posted L sector address count write m ->
  (forall r m1 m', answered write sector address count m r m1 -> completed L r m1 m' -> Q () m') ->
  wp (virtio_serve fuel) Q m.
Proof.
  intros Hfuel Hm HL Hq Hb Hs Hc Hp HQ. pose proof Hq as (Q1 & Q2 & Q3 & Q4 & Q5 & Q6 & Q7 & _).
  destruct (avail_in L HL) as [Ain Aal]. unfold in_mem, RAM_BASE, RAM_SIZE in Ain.
  pose proof Hm as (_&(_&_&Hv&_)&_). destruct Hv as (_ & _ & _ & _ & La & Lu). unfold is_u16 in La, Lu.
  unfold virtio_serve. wp1. wp1. rewrite Q1, Q3, Q5, Q7. change (tst 0) with false. change (8 =? 0) with false. cbn [orb].
  destruct fuel as [|[|fuel]]; [lia..|]. cbn [serve_loop]. wp1. wp1. rewrite Q4. rewrite (u32_id (avail L + 2)) by (unfold is_u32; lia).
  wp1. apply dma_read16_at; [done|unfold in_mem, RAM_BASE, RAM_SIZE; lia|zlia|]. pose proof Hp as (_ & _ & _ & _ & _ & _ & _ & P7). rewrite P7.
  rewrite (proj2 (Z.eqb_neq _ _)) by (unfold u16; zlia). wp1. eapply virtio_request_at; [done..|]. intros r m1 m2 An Co.
  pose proof An as (_ & Do & _). pose proof Co as (Hm2 & V2 & _ & _ & _).
  assert (El : last_avail (virtio m2) = u16 (last_avail (virtio m) + 1) /\ driver_lo (virtio m2) = avail L) by (rewrite V2; cbn; rewrite Do; by split).
  destruct El as [El Ed]. wp1. wp1. rewrite Ed. rewrite (u32_id (avail L + 2)) by (unfold is_u32; lia).
  wp1. apply dma_read16_at; [done|unfold in_mem, RAM_BASE, RAM_SIZE; lia|zlia|].
  assert (Em : mem m2 (avail L + 2) 2 = mem m (avail L + 2) 2).
  { destruct Hb as (_ & _ & _ & Hba & _). pose proof (avail_used L HL). pose proof (avail_status L HL). unfold apart in *.
    apply mem_same. intros a Ha. eapply served_rbyte; [done|done|lia..]. }
  rewrite Em, P7, El, Z.eqb_refl. wp1. by eapply HQ.
Qed.
End Rules.

(** ** The driver's steps *)

Section Driver.
Context `{F : Fuelled} `{SVF : ServeFuel}.

Lemma poke_wp a w v m (Q : () -> machine -> Prop) :
  bus_ok m -> in_mem a w -> 0 <= w <= 4 -> (forall m', changed a w m m' -> mem m' a (Z.to_nat w) = v mod 256 ^ w -> Q () m') -> wp (poke a w v) Q m.
Proof.
  intros Hm Ha Hw HQ. pose proof Hm as (_&_&(Hb&El)&_). pose proof Ha as Ha0. unfold in_mem in Ha. unfold poke. do 4 wp1. apply wpr_bytes_write; [done|lia|lia|lia|]. intros b W. wp1.
  assert (Hb' : bus_ok (set_ram b m)) by (apply bus_ram; [done|split; [by eapply written_ok|destruct W; lia]]).
  apply HQ; [by apply (written_changed m b a w v)|apply written_mem; [lia|done]].
Qed.

Lemma peek_wp a w m (Q : Z -> machine -> Prop) : bus_ok m -> in_mem a w -> 0 <= w <= 4 -> Q (mem m a (Z.to_nat w)) m -> wp (peek a w) Q m.
Proof. intros Hm Ha Hw HQ. pose proof Hm as (_&_&(Hb&El)&_). unfold in_mem in Ha. unfold peek. do 3 wp1. by apply wpr_bytes_read; [|lia..|]. Qed.

Definition reg_ok (off : Z) : bool :=
  match find_region (VIRTIO_BASE + off) 4 with Some (Region R_virtio b _) => b =? VIRTIO_BASE | _ => false end.

Lemma mmio_read_wp off v m (Q : Z -> machine -> Prop) :
  reg_ok off = true -> virtio_load off 4 m = Ok (ACC_OK v, m) -> Q v m -> wp (mmio_read32 (VIRTIO_BASE + off)) Q m.
Proof.
  unfold reg_ok, mmio_read32. intros Hr Hl HQ. destruct (find_region _ _) as [[[] b s]|]; try done. bools. subst b. cbn [r_name r_load r_base].
  replace (VIRTIO_BASE + off - VIRTIO_BASE) with off by lia. wp1. unfold wp. by rewrite Hl.
Qed.

Lemma mmio_write_wp off value m (Q : () -> machine -> Prop) :
  reg_ok off = true -> wp (virtio_store serve_fuel off 4 value) (fun a m' => match a with ACC_OK _ => Q () m' | _ => False end) m ->
  wp (mmio_write32 (VIRTIO_BASE + off) value) Q m.
Proof.
  unfold reg_ok, mmio_write32. intros Hr HQ. destruct (find_region _ _) as [[[] b s]|]; try done. bools. subst b. cbn [r_name r_store r_base].
  replace (VIRTIO_BASE + off - VIRTIO_BASE) with off by lia. wp1. eapply wp_mono; [exact HQ|]. by intros [[]| | |] m' H.
Qed.

(** A store to a register that does not notify the queue. *)
Lemma mmio_set_wp off value v' m (Q : () -> machine -> Prop) :
  reg_ok off = true -> (off =? 0x050) = false -> virtio_set (virtio m) off value = Some v' -> Q () (upd_virtio (fun _ => v') m) ->
  wp (mmio_write32 (VIRTIO_BASE + off) value) Q m.
Proof. intros Hr Hn Hs HQ. apply mmio_write_wp; [done|]. unfold virtio_store. do 2 wp1. cbn [negb Z.eqb Pos.eqb]. rewrite Hn, Hs. by do 3 wp1. Qed.

Lemma set_desc_wp L i addr len flags next m (Q : () -> machine -> Prop) :
  bus_ok m -> layout_ok L -> 0 <= i <= 2 -> is_u32 addr -> is_u32 len -> is_u16 flags -> is_u16 next ->
  (forall m', changed (descs L + 16 * i) 16 m m' -> desc_is L m' i addr len flags next -> Q () m') -> wp (set_desc L i addr len flags next) Q m.
Proof.
  intros Hm HL Hi Ha Hl Hf Hn HQ. destruct (descs_in L HL) as [Hin _]. unfold in_mem in Hin. set (b := descs L + 16 * i) in *. unfold set_desc. fold b.
  unfold is_u32, is_u16 in *.
  wp1. apply poke_wp; [done|unfold in_mem; lia|lia|]. intros m1 C1 M1. pose proof C1 as (Hm1 & _).
  wp1. apply poke_wp; [done|unfold in_mem; lia|lia|]. intros m2 C2 M2. pose proof C2 as (Hm2 & _).
  wp1. apply poke_wp; [done|unfold in_mem; lia|lia|]. intros m3 C3 M3. pose proof C3 as (Hm3 & _).
  wp1. apply poke_wp; [done|unfold in_mem; lia|lia|]. intros m4 C4 M4. pose proof C4 as (Hm4 & _).
  apply poke_wp; [done|unfold in_mem; lia|lia|]. intros m5 C5 M5.
  change (Z.to_nat 4) with 4%nat in *. change (Z.to_nat 2) with 2%nat in *. change (256 ^ 4) with 0x100000000 in *. change (256 ^ 2) with 0x10000 in *.
  rewrite Z.mod_small in M1, M2, M3, M4, M5 by lia.
  apply HQ.
  - eapply changed_trans; [eapply changed_sub; [exact C1|lia..]|]. eapply changed_trans; [eapply changed_sub; [exact C2|lia..]|].
    eapply changed_trans; [eapply changed_sub; [exact C3|lia..]|]. eapply changed_trans; eapply changed_sub; [exact C4|lia|lia|exact C5|lia|lia].
  - unfold desc_is. fold b. unfold apart in *.
    split; [rewrite (mem_changed _ _ _ _ _ _ C5), (mem_changed _ _ _ _ _ _ C4), (mem_changed _ _ _ _ _ _ C3), (mem_changed _ _ _ _ _ _ C2) by (unfold apart; lia); done|].
    split; [rewrite (mem_changed _ _ _ _ _ _ C5), (mem_changed _ _ _ _ _ _ C4), (mem_changed _ _ _ _ _ _ C3) by (unfold apart; lia); done|].
    split; [rewrite (mem_changed _ _ _ _ _ _ C5), (mem_changed _ _ _ _ _ _ C4) by (unfold apart; lia); done|].
    split; [rewrite (mem_changed _ _ _ _ _ _ C5) by (unfold apart; lia); done|done].
Qed.

(** A structure elsewhere is not touched. *)
Lemma desc_is_changed L p n m m' i addr len flags next : changed p n m m' -> apart p n (descs L + 16 * i) 16 ->
  desc_is L m i addr len flags next -> desc_is L m' i addr len flags next.
Proof.
  intros C A (D0 & D1 & D2 & D3 & D4). unfold desc_is.
  rewrite !(mem_changed _ _ _ _ _ _ C) by (eapply apart_sub; [exact A|lia..]). done.
Qed.

(** Ranges of two structures, or two ranges of one, are apart. *)
Ltac sep_by H := first [eapply apart_sub; [exact H|lia..]|eapply apart_sub; [exact (apart_sym _ _ _ _ H)|lia..]].
Ltac sep HL := first [unfold apart; lia
  |sep_by (descs_avail _ HL)|sep_by (descs_used _ HL)|sep_by (descs_header _ HL)|sep_by (descs_status _ HL)|sep_by (avail_used _ HL)
  |sep_by (avail_header _ HL)|sep_by (avail_status _ HL)|sep_by (used_header _ HL)|sep_by (used_status _ HL)|sep_by (header_status _ HL)].
(** Read memory back through the changes made since. *)
Ltac back HL := repeat match goal with C : changed _ _ ?m ?m' |- context [mem ?m' _ _] => rewrite (mem_changed _ _ _ _ _ _ C) by sep HL end.

(** The driver's structures, where memory may change during a transfer. *)
Definition in_structures (L : layout) (a : Z) : Prop :=
  descs L <= a < descs L + 48 \/ avail L <= a < avail L + 22 \/ used L <= a < used L + 70 \/ header L <= a < header L + 16 \/ a = status_byte L.

Lemma post_request_wp L sector address count (write : bool) m (Q : () -> machine -> Prop) :
  bus_ok m -> layout_ok L -> buffer_in L address (512 * count) -> is_u32 sector -> 0 <= count ->
  mem m (avail L + 2) 2 = last_avail (virtio m) ->
  (forall m', bus_ok m' -> virtio m' = virtio m -> posted L sector address count write m' -> mem m' (used L + 2) 2 = mem m (used L + 2) 2 ->
     (forall a, ~ in_structures L a -> rbyte m' a = rbyte m a) -> Q () m') ->
  wp (post_request L sector address count write) Q m.
Proof.
  intros Hm HL (Bin & _) Hs Hc Ha HQ. destruct (avail_in L HL) as [Ain _]. destruct (header_in L HL) as [Hin _]. pose proof (status_in L HL) as Sin.
  destruct (descs_in L HL) as [Din _]. pose proof Hm as (_&(_&_&Hv&_)&_). destruct Hv as (_ & _ & _ & _ & La & _).
  unfold in_mem, is_u32, is_u16 in *. unfold post_request. set (k := last_avail (virtio m) mod 8). assert (Hk : 0 <= k < 8) by (by apply Z.mod_pos_bound).
  assert (RAM_BASE = 0x80000000 /\ RAM_SIZE = 0x01000000) as [RB RS] by done.
  wp1. apply poke_wp; [done|unfold in_mem; lia|lia|]. intros m1 C1 M1. pose proof C1 as (Hm1 & V1 & K1).
  wp1. apply poke_wp; [done|unfold in_mem; lia|lia|]. intros m2 C2 M2. pose proof C2 as (Hm2 & V2 & K2).
  wp1. apply poke_wp; [done|unfold in_mem; lia|lia|]. intros m3 C3 M3. pose proof C3 as (Hm3 & V3 & K3).
  wp1. apply poke_wp; [done|unfold in_mem; lia|lia|]. intros m4 C4 M4. pose proof C4 as (Hm4 & V4 & K4).
  wp1. apply poke_wp; [done|unfold in_mem; lia|lia|]. intros m5 C5 M5. pose proof C5 as (Hm5 & V5 & K5).
  wp1. apply set_desc_wp; [done|done|lia|unfold is_u32; lia|done|done|done|]. intros m6 C6 D6. pose proof C6 as (Hm6 & V6 & K6).
  unfold VIRTIO_SECTOR. rewrite (u32_id (count * 512)) by (unfold is_u32; lia).
  wp1. apply set_desc_wp; [done|done|lia|unfold is_u32; lia|unfold is_u32; lia|by destruct write|done|]. intros m7 C7 D7. pose proof C7 as (Hm7 & V7 & K7).
  wp1. apply set_desc_wp; [done|done|lia|unfold is_u32; lia|done|done|done|]. intros m8 C8 D8. pose proof C8 as (Hm8 & V8 & K8).
  assert (E8 : mem m8 (avail L + 2) 2 = last_avail (virtio m)) by (back HL; exact Ha).
  wp1. apply peek_wp; [done|unfold in_mem; lia|lia|]. change (Z.to_nat 2) with 2%nat. rewrite E8. unfold QUEUE. fold k.
  wp1. apply poke_wp; [done|unfold in_mem; lia|lia|]. intros m9 C9 M9. pose proof C9 as (Hm9 & V9 & K9).
  assert (E9 : mem m9 (avail L + 2) 2 = last_avail (virtio m)) by (rewrite (mem_changed _ _ _ _ _ _ C9) by (unfold apart; lia); exact E8).
  wp1. apply peek_wp; [done|unfold in_mem; lia|lia|]. change (Z.to_nat 2) with 2%nat. rewrite E9.
  apply poke_wp; [done|unfold in_mem; lia|lia|]. intros m10 C10 M10. pose proof C10 as (Hm10 & V10 & K10).
  change (Z.to_nat 4) with 4%nat in *. change (Z.to_nat 2) with 2%nat in *. change (Z.to_nat 1) with 1%nat in *.
  change (256 ^ 4) with 0x100000000 in *. change (256 ^ 2) with 0x10000 in *. rewrite Z.mod_small in M1, M3 by (unfold VIRTIO_BLK_OUT, VIRTIO_BLK_IN; destruct write; lia).
  assert (EV : virtio m10 = virtio m) by congruence.
  apply HQ; [done|done| |back HL; done|].
  - unfold posted. rewrite EV. fold k.
    split; [back HL; rewrite M1; by destruct write|]. split; [back HL; done|]. split; [back HL; by rewrite M4|].
    split; [do 4 (eapply desc_is_changed; [eassumption|sep HL|]); done|].
    split; [do 3 (eapply desc_is_changed; [eassumption|sep HL|]); rewrite (Z.mul_comm count) in D7; by destruct write|].
    split; [do 2 (eapply desc_is_changed; [eassumption|sep HL|]); done|].
    split; [back HL; by rewrite M9|]. rewrite M10. apply u16_id. apply u16_range.
  - unfold in_structures. intros a Hna. rewrite K10, K9, K8, K7, K6, K5, K4, K3, K2, K1 by lia. done.
Qed.

(** ** A transfer *)

(** Between transfers: the device is set up, and neither side is ahead. *)
Definition driver_ok (L : layout) (d : driver) (m : machine) : Prop :=
  bus_ok m /\ queue_set L (virtio m) /\ device d = VIRTIO_BASE /\ seen d = used_idx (virtio m)
  /\ mem m (avail L + 2) 2 = last_avail (virtio m) /\ mem m (used L + 2) 2 = used_idx (virtio m).

(** The byte at an offset of the disk. *)
Definition disk_byte (m : machine) (x : Z) : Z := byte_at (disk (virtio m)) x.

Definition transferred (L : layout) (write : bool) (sector address count : Z) (m : machine) (ok : bool) (m' : machine) : Prop :=
  disk_size (virtio m') = disk_size (virtio m) /\ (sound (virtio m) -> sound (virtio m'))
  /\ (forall a, ~ in_structures L a -> ~ (address <= a < address + 512 * count) -> rbyte m' a = rbyte m a)
  /\ (if write
      then (forall a, address <= a < address + 512 * count -> rbyte m' a = rbyte m a)
           /\ ok = fits (virtio m) sector count && negb (write_error (virtio m'))
           /\ (forall x, ~ (512 * sector <= x < 512 * (sector + count)) -> disk_byte m' x = disk_byte m x)
           /\ (ok = true -> forall k, 0 <= k < 512 * count -> disk_byte m' (512 * sector + k) = rbyte m (address + k))
      else (forall x, disk_byte m' x = disk_byte m x)
           /\ ok = fits (virtio m) sector count && negb (write_error (virtio m))
           /\ (ok = true -> forall k, 0 <= k < 512 * count -> rbyte m' (address + k) = disk_byte m (512 * sector + k))).

(** The notification: the device serves the request before the store ends. *)
Lemma notify_wp L sector address count (write : bool) m (Q : () -> machine -> Prop) :
  (2 <= serve_fuel)%nat -> bus_ok m -> layout_ok L -> queue_set L (virtio m) -> buffer_in L address (512 * count) -> is_u32 sector -> 0 <= count ->
  posted L sector address count write m ->
  (forall r m1 m', answered write sector address count m r m1 -> completed L r m1 m' -> Q () m') ->
  wp (mmio_write32 (VIRTIO_BASE + VIRTIO_REG_QUEUE_NOTIFY) 0) Q m.
Proof.
  intros Hf Hm HL Hq Hb Hs Hc Hp HQ. pose proof Hq as (_ & _ & _ & _ & _ & _ & _ & Q1 & Q2 & Q3). apply mmio_write_wp; [by vm_compute|].
  unfold virtio_store. do 2 wp1. change (negb (4 =? 4)) with false. change (VIRTIO_REG_QUEUE_NOTIFY =? 0x050) with true. cbv iota.
  rewrite Q1, Q2, Q3. cbn [Z.eqb andb negb when]. wp1. eapply virtio_serve_at; [done..|]. intros r m1 m' An Co. wp1. by eapply HQ.
Qed.

Lemma poll_wp L fuel d m (Q : option reason -> machine -> Prop) :
  bus_ok m -> in_mem (used L) 70 -> mem m (used L + 2) 2 <> seen d -> (0 < fuel)%nat -> Q None m -> wp (poll L fuel 0 d) Q m.
Proof.
  intros Hm Hu Hn Hf HQ. destruct fuel as [|fuel]; [lia|]. cbn [poll]. wp1. unfold in_mem in *. apply peek_wp; [done|unfold in_mem; lia|lia|].
  change (Z.to_nat 2) with 2%nat. rewrite (proj2 (Z.eqb_neq _ _)) by done. by wp1.
Qed.

(** What a served and acknowledged request amounts to. *)
Lemma transferred_of L (write : bool) sector address count m m1 r m2 m3 :
  buffer_in L address (512 * count) ->
  virtio m1 = virtio m -> (forall a, ~ in_structures L a -> rbyte m1 a = rbyte m a) ->
  answered write sector address count m1 r m2 -> completed L r m2 m3 ->
  transferred L write sector address count m (r =? 0) (upd_virtio (fun v => {| v with v_interrupt := false |}) m3).
Proof.
  intros Hb V1 K1 An Co. pose proof Co as (_ & V3 & _ & _ & K3). pose proof An as (_ & Do & Ans).
  assert (Hbuf : forall a, address <= a < address + 512 * count -> ~ in_structures L a).
  { destruct Hb as (_ & _ & A1 & A2 & A3 & A4 & A5). unfold apart in *. intros a Ha. unfold in_structures. lia. }
  assert (Hus : forall a, ~ in_structures L a -> a <> status_byte L /\ ~ (used L <= a < used L + 70)) by (unfold in_structures; intros a Ha; split; lia).
  assert (Edisk : forall x, disk_byte (upd_virtio (fun v => {| v with v_interrupt := false |}) m3) x = disk_byte m2 x) by (intros x; unfold disk_byte; cbn; by rewrite V3).
  assert (Hso : sound (virtio m) -> sound (virtio m2)).
  { rewrite <- V1. destruct write; [by destruct Ans as (_ & _ & (_ & Hx) & _)|]. by destruct Ans as ((_ & -> & _) & _). }
  split; [cbn; rewrite V3; cbn; rewrite Do; cbn; by rewrite V1|]. split; [intros Hs; specialize (Hso Hs); unfold sound in *; cbn; rewrite V3; exact Hso|]. split.
  { intros a Hn Ha. change (rbyte m3 a = rbyte m a). destruct (Hus a Hn). rewrite (served_rbyte L write sector address count m1 r m2 m3 a An Co) by done. by apply K1. }
  destruct write.
  - destruct Ans as (_ & Er & _ & -> & Hd). rewrite V1 in *.
    split. { intros a Ha. change (rbyte m3 a = rbyte m a). pose proof (Hbuf a Ha) as Hn. destruct (Hus a Hn). rewrite K3 by done. unfold rbyte at 1. rewrite Er. by apply K1. }
    split; [cbn; rewrite V3; cbn; destruct (fits _ _ _); [by destruct (write_error _)|done]|].
    split.
    + intros x Hx. rewrite Edisk. unfold disk_byte. destruct (fits _ _ _); [|by rewrite Hd]. rewrite Hd, V1.
      destruct (Z.leb_spec (512 * sector) x), (Z.ltb_spec x (512 * sector + 512 * count)); try done; lia.
    + intros Hok k Hk. rewrite Edisk. unfold disk_byte. destruct (fits _ _ _); [|done]. rewrite Hd.
      rewrite (proj2 (Z.leb_le _ _)), (proj2 (Z.ltb_lt _ _)) by lia. cbn [andb]. replace (512 * sector + k - 512 * sector) with k by lia. apply K1, Hbuf. lia.
  - destruct Ans as ((_ & V2 & _) & -> & Hd). rewrite V1 in *.
    split; [intros x; rewrite Edisk; unfold disk_byte; by rewrite V2|]. split; [destruct (fits _ _ _); [by destruct (write_error _)|done]|].
    intros Hok k Hk. change (rbyte m3 (address + k) = disk_byte m (512 * sector + k)). destruct (fits _ _ _); [|done].
    destruct (Hus (address + k) ltac:(apply Hbuf; lia)). rewrite K3 by done. by apply Hd.
Qed.

Lemma driver_ok_after L (write : bool) sector address count d m m1 r m2 m3 :
  layout_ok L -> buffer_in L address (512 * count) -> driver_ok L d m ->
  virtio m1 = virtio m -> posted L sector address count write m1 ->
  answered write sector address count m1 r m2 -> completed L r m2 m3 ->
  driver_ok L {| d with seen := u16 (seen d + 1) |} (upd_virtio (fun v => {| v with v_interrupt := false |}) m3).
Proof.
  intros HL Hb (_ & Hq & Hd & Hs & _ & _) V1 Hp An Co. pose proof Co as (Hm3 & V3 & _ & Mu & _). pose proof An as (_ & Do & _).
  assert (Ev : virtio m3 = {| (virtio m) with disk := disk (virtio m2); file := file (virtio m2); write_error := write_error (virtio m2);
     used_idx := u16 (used_idx (virtio m) + 1); last_avail := u16 (last_avail (virtio m) + 1); v_interrupt := true |}).
  { rewrite V3. rewrite Do. cbn. by rewrite V1. }
  split; [|split; [|split; [done|split; [|split]]]].
  - pose proof Hm3 as (_&(_&_&Hv&_)&_). apply (bus_virtio m3 Hm3 {| (virtio m3) with v_interrupt := false |}). exact Hv.
  - unfold queue_set in *. cbn [upd_virtio virtio]. rewrite Ev. cbn. exact Hq.
  - cbn [upd_virtio virtio]. rewrite Ev. cbn. by rewrite Hs.
  - change (mem m3 (avail L + 2) 2 = last_avail (virtio m3)). rewrite Ev. cbn [last_avail].
    destruct Hp as (_ & _ & _ & _ & _ & _ & _ & P7). rewrite V1 in P7. rewrite <- P7. destruct Hb as (_ & _ & _ & Hba & _).
    pose proof (avail_used L HL). pose proof (avail_status L HL). unfold apart in *. apply mem_same. intros a Ha. eapply served_rbyte; [done|done|lia..].
  - change (mem m3 (used L + 2) 2 = used_idx (virtio m3)). rewrite Mu, V3. done.
Qed.

Lemma virtio_transfer_wp L sector address count (write : bool) d m :
  (2 <= serve_fuel)%nat -> layout_ok L -> driver_ok L d m -> buffer_in L address (512 * count) -> is_u32 sector -> 0 <= count ->
  wp (virtio_transfer L sector address count write d) 
    (fun r m' => snd r = {| d with seen := u16 (seen d + 1) |} /\ driver_ok L (snd r) m' /\ transferred L write sector address count m (fst r) m') m.
Proof.
  intros Hf HL Hok Hb Hs Hc. pose proof Hok as (Hm & Hq & Hd & Hseen & Ha & Hu). unfold virtio_transfer. rewrite Hd. change (VIRTIO_BASE =? 0) with false. cbv iota.
  pose proof Hm as (_&(_&_&Hv&_)&_). destruct Hv as (_ & _ & _ & _ & _ & Lu). unfold is_u16 in Lu.
  wp1. apply post_request_wp; [done..|]. intros m1 Hm1 V1 Hp Hu1 K1. assert (Hq1 : queue_set L (virtio m1)) by (by rewrite V1).
  wp1. eapply notify_wp; [done..|]. intros r m2 m3 An Co. pose proof Co as (Hm3 & V3 & Ms & Mu & _). pose proof An as (_ & Do & Hans).
  assert (Eu : used_idx (virtio m2) = used_idx (virtio m)) by (rewrite Do; cbn; by rewrite V1). pose proof (answer_u8 _ _ _ _ _ _ _ Hans) as Hr.
  wp1. apply poll_wp; [done|apply (used_in L HL)|rewrite Mu, Eu, Hseen; unfold u16; zlia|unfold WAIT_LIMIT; lia|]. cbv iota. cbn [device seen].
  wp1. eapply (mmio_read_wp _ 1); [by vm_compute|transitivity (Ok (ACC_OK (Z.b2z (v_interrupt (virtio m3))), m3)); [done|by rewrite V3]|].
  wp1. eapply mmio_set_wp; [by vm_compute|done|reflexivity|].
  set (m4 := upd_virtio _ m3). assert (E4 : m4 = upd_virtio (fun v => {| v with v_interrupt := false |}) m3) by done. rewrite E4. clear m4 E4.
  pose proof (driver_ok_after L write sector address count d m m1 r m2 m3 HL Hb Hok V1 Hp An Co) as Hok'.
  pose proof (transferred_of L write sector address count m m1 r m2 m3 Hb V1 K1 An Co) as Ht.
  wp1. apply peek_wp; [by destruct Hok'|apply (status_in L HL)|lia|]. wp1. cbn [fst snd].
  change (mem _ (status_byte L) (Z.to_nat 1)) with (mem m3 (status_byte L) 1). rewrite Ms. rewrite <- Hd. split; [by destruct d|]. by split; [destruct d|].
Qed.

(** ** Setting up *)

Lemma mmio_put_wp off value v v' m (Q : () -> machine -> Prop) :
  reg_ok off = true -> (off =? 0x050) = false -> virtio_set v off value = Some v' -> Q () (upd_virtio (fun _ => v') m) ->
  wp (mmio_write32 (VIRTIO_BASE + off) value) Q (upd_virtio (fun _ => v) m).
Proof. intros Hr Hn Hs HQ. by apply (mmio_set_wp off value v'). Qed.

(** One register store of the set-up, and one load. *)
Ltac put := wp1; eapply mmio_put_wp; [by vm_compute|by vm_compute|cbv -[descs avail used]; reflexivity|].
Ltac take v := wp1; eapply (mmio_read_wp _ v); [by vm_compute|by vm_compute|].

(** The device as the driver sets it up. *)
Definition set_up (L : layout) (v : virtio_blk) : virtio_blk :=
  {| v with v_status := 15; features_sel := true; queue_sel_zero := true; queue_ready := true; v_interrupt := false; queue_num := 8;
     desc_lo := descs L; desc_hi := 0; driver_lo := avail L; driver_hi := 0; device_lo := used L; device_hi := 0; last_avail := 0; used_idx := 0 |}.

Lemma virtio_init_run L d v m m0 :
  m0 = upd_virtio (fun _ => v) m ->
  wp (virtio_init L VIRTIO_BASE d)
    (fun r m' => r = (disk_size v / 512, {| d with device := VIRTIO_BASE; seen := 0 |}) /\ m' = upd_virtio (fun _ => set_up L v) m) m0.
Proof.
  intros ->.  destruct v as [st fs qs qr vi qn dl dh rl rh ul uh la ui dk dz fl we]. unfold virtio_init, VIRTIO_STATUS_ACKNOWLEDGE, VIRTIO_STATUS_DRIVER,
    VIRTIO_STATUS_FEATURES_OK, VIRTIO_STATUS_DRIVER_OK.
  take 0x74726976. cbn [negb Z.eqb Pos.eqb VIRTIO_MAGIC_VALUE]. take 2. cbn [negb Z.eqb Pos.eqb]. take 2. cbn [negb Z.eqb Pos.eqb VIRTIO_DEVICE_BLOCK].
  do 4 put. take 1. change (negb (tst (1 .& 1))) with false. cbv iota. do 5 put. take 11. 
  change (negb (tst (11 .& 8))) with false. cbv iota. put. take 0. change (tst 0) with false. cbv iota. take 8. change (8 <? QUEUE) with false. cbv iota.
  do 9 put. take (dz / 512). wp1. by split.
Qed.

Lemma virtio_init_wp L d m :
  layout_ok L -> bus_ok m -> mem m (avail L + 2) 2 = 0 -> mem m (used L + 2) 2 = 0 ->
  wp (virtio_init L VIRTIO_BASE d) (fun r m' => driver_ok L (snd r) m' /\ fst r = disk_size (virtio m) / 512 /\ ram m' = ram m
    /\ (disk_size (virtio m') = disk_size (virtio m) /\ (sound (virtio m) -> sound (virtio m'))) /\ forall x, disk_byte m' x = disk_byte m x) m.
Proof.
  intros HL Hm Ha Hu. pose proof Hm as (_&(_&_&Hv&_)&_). assert (Em : m = upd_virtio (fun _ => virtio m) m) by (by destruct m).
  pose proof (virtio_init_run L d (virtio m) m m Em) as Hrun. clear Em.
  eapply wp_mono; [exact Hrun|]. clear Hrun. cbv beta. intros r m' [-> ->]. cbn [fst snd].
  split; [|exact (conj eq_refl (conj eq_refl (conj (conj eq_refl (fun H => H)) (fun x => eq_refl))))].
  destruct (descs_in L HL) as [H1 _]. destruct (avail_in L HL) as [H2 _]. destruct (used_in L HL) as [H3 _]. destruct Hv as (V1 & _ & _ & _ & _ & _).
  split; [|split; [by repeat split|by repeat split]]. apply (bus_virtio m Hm). split; [exact V1|]. split; [cbn; tauto|]. split; [done|]. split; [|done].
  repeat constructor; try done; by (eapply in_mem_u32; [eassumption|lia]).
Qed.
End Driver.
End VirtioDriverProofs.
