(* ===== verification/VirtioSpecs.v ===== *)
(** * The disk, from the file system to the device

    The kernel's driver on the emulated device keeps the promises of a block
    device, from its set-up on; so the file system, proved for any block device,
    keeps its files on the emulated disk. *)

From S2P Require Import Prelude Effects Buffer Simd4 Gpu G3d Dtb Machine Devices Virtio Bus Mmu Csr Run MachineOk RunProofs.
From S2P Require Import VirtioProofs VirtioServe VirtioDriver VirtioDriverProofs Fs FsProofs FsSpecs.

Module VirtioSpecs.
Import VirtioServe VirtioDriver VirtioDriverProofs.

(** ** The machine while the driver is in use *)

Section Machine.
Context `{SVF : ServeFuel} (L : layout).

(** The driver set the device up; since then it made transfers, and the kernel did
    other things to the machine, but for the driver's structures and the device. *)
Inductive driven : driver -> machine -> Prop :=
| driven_init d d' m m' n :
    bus_ok m -> mem m (avail L + 2) 2 = 0 -> mem m (used L + 2) 2 = 0 ->
    virtio_init L VIRTIO_BASE d m = Ok (n, d', m') -> driven d' m'
| driven_transfer d d' m m' sector address count write ok :
    driven d m -> buffer_in L address (512 * count) -> is_u32 sector -> 0 <= count ->
    virtio_transfer L sector address count write d m = Ok (ok, d', m') -> driven d' m'
| driven_other d m m' :
    driven d m -> bus_ok m' -> virtio m' = virtio m -> (forall a, in_structures L a -> rbyte m' a = rbyte m a) -> driven d m'.

Lemma driver_ok_other d m m' :
  driver_ok L d m -> bus_ok m' -> virtio m' = virtio m -> (forall a, in_structures L a -> rbyte m' a = rbyte m a) -> driver_ok L d m'.
Proof.
  intros (_ & Hq & Hd & Hs & Ha & Hu) Hb V K. split; [done|]. rewrite V. split; [done|]. split; [done|]. split; [done|].
  split; [rewrite <- Ha|rewrite <- Hu]; apply mem_same; intros a Hin; apply K; unfold in_structures; lia.
Qed.

Context (Hfuel : (2 <= serve_fuel)%nat) (HL : layout_ok L).

Lemma driven_ok d m : driven d m -> driver_ok L d m.
Proof.
  induction 1 as [d d' m m' n Hm Ha Hu E|d d' m m' sector address count write ok _ IH Hb Hs Hc E|d m m' _ IH Hb V K].
  - exact (proj1 (wp_ok _ _ _ _ _ (@virtio_init_wp total _ L d m HL Hm Ha Hu) E)).
  - exact (proj1 (proj2 (wp_ok _ _ _ _ _ (@virtio_transfer_wp total _ L sector address count write d m Hfuel HL IH Hb Hs Hc) E))).
  - by eapply driver_ok_other.
Qed.

(** C13: the driver and the device move exactly the sectors asked for.  Once the
    driver has set the device up, and whatever transfers and other work came before,
    a transfer returns (the wait ends at the first look at the used ring); it succeeds
    exactly when the sectors are on the disk and the disk's file could be written; a
    successful read puts the sectors' bytes in the buffer, a successful write the
    buffer's bytes in the sectors; and no other byte of the disk, and none of memory
    but the buffer read into and the driver's own structures, changes. *)
Theorem driver_moves_the_sectors d m sector address count write :
  driven d m -> buffer_in L address (512 * count) -> is_u32 sector -> 0 <= count ->
  exists ok d' m', virtio_transfer L sector address count write d m = Ok (ok, d', m')
    /\ virtio_failure d' = virtio_failure d /\ transferred L write sector address count m ok m'.
Proof.
  intros Hd Hb Hs Hc. pose proof (driven_ok d m Hd) as Hok.
  destruct (wp_total _ _ _ (@virtio_transfer_wp total _ L sector address count write d m Hfuel HL Hok Hb Hs Hc)) as ([ok d'] & m' & E & Ed & _ & P).
  exists ok, d', m'. split; [done|]. split; [|done]. cbn [snd] in Ed. by rewrite Ed.
Qed.

(** ** The driver as a block device *)

Import Fs.

(** [room] bytes of memory at [staging] are where a buffer of the file system is
    while it is transferred. *)
Context (staging room : Z) (Hroom : buffer_in L staging room).

(** The driver's variables and the machine it runs on. *)
Record guest_disk : Type := { drv : driver; mach : machine }.

Definition stage (l : list Z) (m : machine) : machine :=
  match buf_load (ram m) (staging - RAM_BASE) l with Ok b => set_ram b m | _ => m end.
Definition staged (n : Z) (m : machine) : list Z := map (fun k => rbyte m (staging + Z.of_nat k)) (seq 0 (Z.to_nat n)).
Definition possible (sector count : Z) : bool := (512 * count <=? room) && (sector <? 0x100000000).

#[export] Instance guest_device : BlockDevice guest_disk := {
  device_ok d := driver_ok L (drv d) (mach d);
  dbyte d x := disk_byte (mach d) x;
  transfer_in sector count buffer d :=
    if possible sector count then
      match virtio_transfer L sector staging count false (drv d) (stage buffer (mach d)) with
      | Ok (ok, d', m') => (ok, staged (512 * count) m', {| drv := d'; mach := m' |})
      | _ => (false, map u8 buffer, d)
      end
    else (false, map u8 buffer, d);
  transfer_out sector count l d :=
    if possible sector count then
      match virtio_transfer L sector staging count true (drv d) (stage l (mach d)) with
      | Ok (ok, d', m') => (ok, {| drv := d'; mach := m' |})
      | _ => (false, d)
      end
    else (false, d);
}.

Lemma room_part n : 0 <= n <= room -> buffer_in L staging n.
Proof.
  intros Hn. destruct Hroom as (R1 & R2 & A1 & A2 & A3 & A4 & A5). unfold buffer_in, in_mem, apart in *. lia.
Qed.

Lemma stage_ok l d m : Z.of_nat (length l) <= room -> driver_ok L d m ->
  driver_ok L d (stage l m) /\ virtio (stage l m) = virtio m
  /\ forall k, 0 <= k < Z.of_nat (length l) -> rbyte (stage l m) (staging + k) = u8 (at_ l k).
Proof.
  intros Hl Hok. pose proof Hok as (Hm & _). pose proof Hm as (_&_&(Hb&El)&_). destruct (room_part (Z.of_nat (length l)) ltac:(lia)) as (R & _ & A).
  unfold in_mem in R. destruct (buf_load_spec l (ram m) (staging - RAM_BASE)) as (b & E & Lb & Hat); [lia|lia|]. unfold stage. rewrite E.
  assert (Hb' : bus_ok (set_ram b m)).
  { apply bus_ram; [done|]. split; [|lia]. split; [rewrite Lb; apply Hb|]. intros i. rewrite Hat. destruct (_ && _); [apply u8_range|apply Hb]. }
  split; [|split; [done|]].
  - apply (driver_ok_other d m); [done|done|done|]. intros a Ha. unfold rbyte. change (ram (set_ram b m)) with b. rewrite Hat.
    destruct (Z.leb_spec (staging - RAM_BASE) (a - RAM_BASE)), (Z.ltb_spec (a - RAM_BASE) (staging - RAM_BASE + Z.of_nat (length l))); try done.
    exfalso. unfold in_structures, apart in *. lia.
  - intros k Hk. unfold rbyte. change (ram (set_ram b m)) with b. rewrite Hat. rewrite (proj2 (Z.leb_le _ _)), (proj2 (Z.ltb_lt _ _)) by lia.
    cbn [andb]. do 2 f_equal. lia.
Qed.

Lemma staged_u8 n m : bus_ok m -> Forall is_u8 (staged n m).
Proof.
  intros (_ & _ & ((_ & Hb) & _) & _). apply List.Forall_forall. intros x Hx. apply in_map_iff in Hx as (k & <- & _). apply Hb.
Qed.

Lemma at_staged n m i : 0 <= i < n -> at_ (staged n m) i = rbyte m (staging + i).
Proof.
  intros Hi. unfold at_, staged. apply list_lookup_total_correct. change (map ?f ?l) with (f <$> l). rewrite list_lookup_fmap, lookup_seq_lt by lia.
  cbn. do 2 f_equal. lia.
Qed.

#[export] Instance guest_device_ok : BlockDeviceOk guest_disk.
Proof.
  assert (Hu8 : forall l, Forall is_u8 (map u8 l)) by (intros l; apply List.Forall_forall; intros x Hx; apply in_map_iff in Hx as (k & <- & _); apply u8_range).
  split.
  - intros d a ((_ & (_ & _ & Hv & _) & _) & _). apply Hv.
  - intros d sector count buffer ok l d' Hok Hs Hc Hl E. unfold transfer_in, guest_device in E. destruct (possible sector count) eqn:Ep;
      [|injection E as <- <- <-; split; [done|]; split; [apply length_map|]; split; [apply Hu8|done]].
    apply andb_true_iff in Ep as [Ep1 Ep2]. bools. destruct (stage_ok buffer (drv d) (mach d)) as (Hst & Ev & _); [lia|done|].
    destruct (wp_total _ _ _ (@virtio_transfer_wp total _ L sector staging count false (drv d) (stage buffer (mach d)) Hfuel HL Hst (room_part (512 * count) ltac:(lia)) ltac:(unfold is_u32; lia) Hc))
      as ([ok1 d1] & m1 & E1 & _ & Hok1 & T). rewrite E1 in E. injection E as <- <- <-. cbn [fst snd] in *. destruct T as (_ & _ & _ & Td & _ & Tr).
    split; [done|]. split; [unfold staged; by rewrite length_map, length_seq|]. split; [apply staged_u8, Hok1|].
    split; [intros a; cbn; rewrite Td; unfold disk_byte; by rewrite Ev|]. intros Ht i Hi. rewrite at_staged, Tr by done. cbn. unfold disk_byte. by rewrite Ev.
  - intros d sector count l ok d' Hok Hs Hc Hl Hb E. unfold transfer_out, guest_device in E. destruct (possible sector count) eqn:Ep;
      [|injection E as <- <-; done].
    apply andb_true_iff in Ep as [Ep1 Ep2]. bools. destruct (stage_ok l (drv d) (mach d)) as (Hst & Ev & Hby); [lia|done|].
    destruct (wp_total _ _ _ (@virtio_transfer_wp total _ L sector staging count true (drv d) (stage l (mach d)) Hfuel HL Hst (room_part (512 * count) ltac:(lia)) ltac:(unfold is_u32; lia) Hc))
      as ([ok1 d1] & m1 & E1 & _ & Hok1 & T). rewrite E1 in E. injection E as <- <-. cbn [fst snd] in *. destruct T as (_ & _ & _ & _ & _ & Td & Tr).
    split; [done|]. split; [intros a Ha; cbn; rewrite Td by done; unfold disk_byte; by rewrite Ev|].
    intros Ht i Hi. cbn. rewrite Tr by done. rewrite Hby by lia. apply u8_id, (at_Forall is_u8); [done|lia].
Qed.

(** While no write to its file fails, the disk of [z] bytes answers. *)
Definition answering (z : Z) (g : guest_disk) : Prop := sound (virtio (mach g)) /\ disk_size (virtio (mach g)) = z.

Lemma guest_serves z : z < 0x100000000 -> FsSpecs.serves (answering z) (z / 512) (room / 512).
Proof.
  intros Hz. assert (Hn : z / 512 < 0x100000000) by zlia. split.
  - intros d sector count buffer ok l d' Hok (Hso & Hsz) Hs Hc Hin Hl E. unfold transfer_in, guest_device in E.
    assert (Ep : possible sector count = true) by (unfold possible; rewrite (proj2 (Z.leb_le _ _)), (proj2 (Z.ltb_lt _ _)) by zlia; done). rewrite Ep in E.
    destruct (stage_ok buffer (drv d) (mach d)) as (Hst & Ev & _); [zlia|done|].
    destruct (wp_total _ _ _ (@virtio_transfer_wp total _ L sector staging count false (drv d) (stage buffer (mach d)) Hfuel HL Hst (room_part (512 * count) ltac:(zlia)) ltac:(unfold is_u32; lia) ltac:(lia)))
      as ([ok1 d1] & m1 & E1 & _ & _ & T). rewrite E1 in E. injection E as <- <- <-. cbn [fst snd] in *. destruct T as (Tz & Ts & _ & _ & -> & _). rewrite Ev in *. split; [|split; [by apply Ts|cbn; congruence]].
    unfold fits. rewrite Hsz, (proj1 Hso), (proj2 (Z.ltb_lt _ _)), (proj2 (Z.leb_le _ _)) by lia. done.
  - intros d sector count l ok d' Hok (Hso & Hsz) Hs Hc Hin Hl Hb E. unfold transfer_out, guest_device in E.
    assert (Ep : possible sector count = true) by (unfold possible; rewrite (proj2 (Z.leb_le _ _)), (proj2 (Z.ltb_lt _ _)) by zlia; done). rewrite Ep in E.
    destruct (stage_ok l (drv d) (mach d)) as (Hst & Ev & _); [zlia|done|].
    destruct (wp_total _ _ _ (@virtio_transfer_wp total _ L sector staging count true (drv d) (stage l (mach d)) Hfuel HL Hst (room_part (512 * count) ltac:(zlia)) ltac:(unfold is_u32; lia) ltac:(lia)))
      as ([ok1 d1] & m1 & E1 & _ & _ & T). rewrite E1 in E. injection E as <- <-. cbn [fst snd] in *. destruct T as (Tz & Ts & _ & _ & -> & _). rewrite Ev in *. specialize (Ts Hso). split; [|split; [exact Ts|cbn; congruence]].
    unfold fits. rewrite Hsz, (proj1 Ts), (proj2 (Z.ltb_lt _ _)), (proj2 (Z.leb_le _ _)) by lia. done.
Qed.

(** ** A guest that boots and uses a file *)

Definition file_system_at_boot (g : guest_disk) : fs_state guest_disk :=
  {| directory := replicate 16 {| name := replicate 20 0; first := 0; capacity := 0; size := 0 |}; corrupt := replicate 16 false;
     sector_buffer := replicate 512 0; sectors := 0; mounted := false; disk := g |}.

(** Set the device up, mount its disk, open or create a file, write to it, read it back. *)
Definition session (d : driver) (m : machine) (wanted : list Z) (position : Z) (from : list Z) (address : Z) (to : list Z) (length0 : Z)
    : res (option (Z * Z * Z * list Z) * fs_state guest_disk) :=
  '(cap, d, m) ← virtio_init L VIRTIO_BASE d m;
  '(ok, s) ← fs_mount cap (file_system_at_boot {| drv := d; mach := m |});
  if negb ok then mret (None, s)
  else
    '(file, s) ← fs_open wanted true s;
    if file <? 0 then mret (None, s)
    else '(r, n, got, s) ← FsSpecs.write_then_read file position from address to length0 s; mret (Some (file, r, n, got), s).

(** What it leaves on the emulated disk. *)
Definition session_post (m : machine) (wanted : list Z) (position : Z) (from : list Z) (length0 : Z)
    (out : option (Z * Z * Z * list Z)) (s : fs_state guest_disk) : Prop :=
  match out with
  | None => forall x, ~ (512 <= x < 1024) -> disk_byte (mach (disk s)) x = disk_byte m x
  | Some (file, r, n, got) =>
      let e := at_ (directory s) file in
      let N := Z.max 0 (Z.min length0 (512 * capacity e - position)) in
      same (name e) wanted = Ok true /\ FsSpecs.inside (disk_size (virtio m) / 512) e
      /\ (forall x, ~ (512 <= x < 1024) -> ~ (512 * first e <= x < 512 * (first e + capacity e)) -> disk_byte (mach (disk s)) x = disk_byte m x)
      /\ (r = FS_ERROR \/ (r = N /\ (forall j, 0 <= j < N -> disk_byte (mach (disk s)) (512 * first e + (position + j)) = at_ from j)
                           /\ (n = FS_ERROR \/ (n = N /\ forall j, 0 <= j < N -> at_ got j = at_ from j))))
  end.

Lemma boot_ready g : driver_ok L (drv g) (mach g) -> FsSpecs.fs_ready (file_system_at_boot g).
Proof.
  intros Hg. split; [done|]. split; [by apply Forall_replicate; repeat split; try done; apply Forall_replicate|].
  split; [done|]. split; [by apply Forall_replicate|done].
Qed.

(** The disk holds a file system of [n] sectors in which a file of that name is or can be made. *)
Definition usable_disk (m : machine) (wanted : list Z) : Prop :=
  let g := {| drv := {| device := 0; seen := 0; failure := None |}; mach := m |} in
  exists n l, FsSpecs.formatted g n /\ DATA < n <= disk_size (virtio m) / 512 /\ FsSpecs.disk_directory g l /\ at_ wanted 0 <> 0
    /\ let dir := bytes_directory 16 l in
       (exists i, 0 <= i < 16 /\ FsSpecs.usable n (at_ dir i) /\ same (name (at_ dir i)) wanted = Ok true)
       \/ ((exists i, 0 <= i < 16 /\ named (at_ dir i) = false) /\ In 0 (take 20 wanted) /\ DATA + FS_CAPACITY <= n
           /\ forall i, 0 <= i < 16 -> FsSpecs.usable n (at_ dir i) -> first (at_ dir i) + capacity (at_ dir i) + FS_CAPACITY <= n).

(** A mounted usable disk does not refuse the file. *)
Lemma usable_opens m s wanted : usable_disk m wanted -> (forall a, dbyte (disk s) a = disk_byte m a) -> FsSpecs.fs_ok s -> mounted s = true ->
  FsSpecs.formatted (disk s) (sectors s) -> (exists l, FsSpecs.disk_directory (disk s) l /\ directory s = bytes_directory 16 l) ->
  ~ (mounted s = false \/ at_ wanted 0 = 0 \/ ~ FsSpecs.present wanted s
     /\ (true = false \/ (forall i, 0 <= i < 16 -> named (at_ (directory s) i) = true) \/ Forall (fun c => c <> 0) (take 20 wanted) \/ FsSpecs.full s)).
Proof.
  intros (n & l & Hfm & Hn & Hl & Hw & Hcan) Hsame Hs Hm Hf (l' & Hl' & Ed). set (g := {| drv := _; mach := m |}) in *.
  assert (Es : sectors s = n) by (eapply (FsSpecs.formatted_same g (disk s)); [intros a _; apply Hsame|exact Hfm|exact Hf]).
  assert (Ell : l = l') by (eapply (FsSpecs.disk_directory_unique (disk s)); [|exact Hl']; destruct Hl as (L1 & L2); split; [done|]; intros i Hi; rewrite L2 by done; by rewrite Hsame).
  subst l' n. cbv zeta in Hcan. rewrite <- Ed in Hcan. intros [H|[H|(Hno & H)]]; [congruence|done|]. destruct Hcan as [(i & Hi & Hu & Hsm)|((i & Hi & Hfree) & Hend & Hroom1 & Hrooms)].
  { apply Hno. exists i. split; [done|]. split; [by apply FsSpecs.in_use_usable|done]. }
  destruct H as [H|[H|[H|[H|(j & Hj & Hu & H)]]]]; [done|rewrite H in Hfree by done; done| |lia|].
  - rewrite List.Forall_forall in H. by apply (H 0).
  - specialize (Hrooms j Hj). rewrite <- FsSpecs.in_use_usable in Hrooms by done. specialize (Hrooms Hu). lia.
Qed.

(** C12: a file written on the emulated machine is on its disk.  A guest that sets the
    device up with its driver, mounts the disk, whatever it holds, opens or creates a
    file, writes to it and reads it back runs to its end; when the calls succeed the
    file is the one of that name, inside the disk, its bytes are on the emulated disk
    and are the bytes read; and nothing of the disk but the directory and that file's
    extent differs from what it held.  And the calls do succeed, with all the bytes the
    extent has room for, if the disk holds a file system with that file or with room for
    it, and the writes to the file behind the disk do not fail. *)
Theorem files_reach_the_emulated_disk d m wanted position from address to length0 :
  bus_ok m -> mem m (avail L + 2) 2 = 0 -> mem m (used L + 2) 2 = 0 ->
  Forall is_u8 wanted -> FsSpecs.terminated wanted -> Forall is_u8 from -> 0 <= position ->
  0 <= length0 < 0x100000000 -> length0 <= Z.of_nat (length from) -> length0 <= Z.of_nat (length to) ->
  exists out s, session d m wanted position from address to length0 = Ok (out, s) /\ session_post m wanted position from length0 out s
    /\ (sound (virtio m) -> usable_disk m wanted -> 512 <= room -> length0 <= 512 * (room / 512) -> length0 < FS_ERROR ->
        exists file got, let N := Z.max 0 (Z.min length0 (512 * capacity (at_ (directory s) file) - position)) in out = Some (file, N, N, got)).
Proof.
  intros Hm Ha Hu Hw Ht Hf Hp Hl Hlf Hlt. unfold session.
  destruct (wp_total _ _ _ (@virtio_init_wp total _ L d m HL Hm Ha Hu)) as ([cap d1] & m1 & -> & Hok & Hcap & _ & (Hsz & Hso) & Hd). cbn [fst snd mbind res_bind] in *.
  set (g := {| drv := d1; mach := m1 |}). pose proof (VirtioProofs.disk_size_small m Hm) as Hz. pose proof (guest_serves (disk_size (virtio m)) ltac:(lia)) as Hserve.
  pose proof (@FsSpecs.fs_mount_wp _ _ _ total cap (file_system_at_boot g) (boot_ready g Hok) ltac:(rewrite Hcap; zlia)) as Wm.
  destruct (wp_total _ _ _ Wm) as (ok & s1 & E1 & _ & Hsame & Hmount). rewrite E1. cbn [mbind res_bind]. change (forall a, disk_byte (mach (disk s1)) a = disk_byte m1 a) in Hsame.
  assert (Hup1 : sound (virtio m) -> usable_disk m wanted -> 512 <= room -> 1 < disk_size (virtio m) / 512 -> ok = true /\ answering (disk_size (virtio m)) (disk s1)).
  { intros Hs (n & l & Hfm & Hn & _) Hr1 Hn1. pose proof (@FsSpecs.fs_mount_up _ _ _ total (answering (disk_size (virtio m))) _ _ Hserve ltac:(zlia) cap (file_system_at_boot g) (boot_ready g Hok)) as Wu.
    assert (Hf1 : FsSpecs.formatted (disk (file_system_at_boot g)) n).
    { destruct Hfm as (F0 & F1 & F2 & F3 & F4). unfold FsSpecs.formatted, FsSpecs.dword in *. cbn in *. rewrite !Hd. done. }
    specialize (Wu (conj (Hso Hs) Hsz) Hn1 n Hf1 ltac:(rewrite Hcap; exact Hn)). exact (wp_ok _ _ _ _ _ Wu E1). }
  destruct ok; cbn [negb].
  2: { exists None, s1. split; [done|]. split; [intros x Hx; by rewrite Hsame, Hd|]. intros Hs Huse Hr1 _ _. pose proof Huse as (n & l & _ & Hn & _). unfold DATA in Hn. destruct (Hup1 Hs Huse Hr1 ltac:(lia)) as (H & _). done. }
  destruct (Hmount eq_refl) as (Hs1 & Hm1 & Hcap1 & Hfm1 & Hdir1). clear Hmount.
  pose proof (@FsSpecs.fs_open_wp _ _ _ total wanted true s1 Hs1 Hw Ht) as Wo. destruct (wp_total _ _ _ Wo) as (file & s2 & E2 & Hs2 & (Hsec & _) & _ & _ & Hd2 & Hr). rewrite E2. cbn [mbind res_bind].
  change (forall a, ~ (512 <= a < 1024) -> disk_byte (mach (disk s2)) a = disk_byte (mach (disk s1)) a) in Hd2.
  assert (Hup2 : sound (virtio m) -> usable_disk m wanted -> 512 <= room -> answering (disk_size (virtio m)) (disk s2) /\ file <> -1).
  { intros Hs Huse Hr1. pose proof Huse as (n & l & _ & Hn & _). unfold DATA in Hn. destruct (Hup1 Hs Huse Hr1 ltac:(lia)) as (_ & Hu1).
    pose proof (@FsSpecs.fs_open_up _ _ _ total (answering (disk_size (virtio m))) _ _ Hserve ltac:(zlia) wanted true s1 Hs1 Hu1 ltac:(lia) Hw Ht) as Wu.
    destruct (wp_ok _ _ _ _ _ Wu E2) as (Hu2 & Hwhy). split; [done|]. intros Hneg.
    apply (usable_opens m s1 wanted Huse); [intros a; cbn; by rewrite Hsame, Hd|done|done| | |by apply Hwhy].
    - destruct Hfm1 as (F0 & F1 & F2 & F3 & F4). unfold FsSpecs.formatted, FsSpecs.dword in *. cbn in *. rewrite !Hsame. done.
    - destruct Hdir1 as (l1 & (L1 & L2) & Ed1). exists l1. split; [|done]. split; [done|]. intros i Hi. rewrite L2 by done. cbn. by rewrite Hsame. }
  destruct (Z.ltb_spec file 0).
  { exists None, s2. split; [done|]. split; [intros x Hx; by rewrite Hd2, Hsame, Hd|]. intros Hs Huse Hr1 _ _. destruct (Hup2 Hs Huse Hr1) as (_ & Hne). destruct Hr as [(Hr & _)|(Hr & _)]; [done|lia]. }
  destruct Hr as [(Hr & _)|(Hr & _ & Huse & Hname & _)]; [lia|].
  destruct (FsSpecs.write_then_read_spec file position from length0 address to s2 Hs2 Hr Huse Hf Hp Hl Hlf Hlt) as (r & n & got & s3 & E3 & RB). rewrite E3.
  cbn [mbind res_bind]. exists (Some (file, r, n, got)), s3. split; [done|]. unfold session_post. destruct RB as (Hs3 & K & O & R).
  destruct (FsProofs.kept_entry file s2 s3 ltac:(lia) K) as (Ef & Ec & En). cbv zeta. rewrite Ef, Ec, En. set (e := at_ (directory s2) file) in *.
  change (forall a, ~ (512 * first e <= a < 512 * (first e + capacity e)) -> disk_byte (mach (disk s3)) a = disk_byte (mach (disk s2)) a) in O.
  assert (Hsec2 : sectors s2 <= disk_size (virtio m) / 512) by (rewrite Hsec; lia). split.
  - split; [done|]. split.
    { assert (Hu3 : in_use s3 file = true) by (rewrite (FsSpecs.kept_in_use file s2 s3); [done|lia|done]).
      destruct (FsSpecs.in_use_inside s3 file Hs3 Hr Hu3) as (_ & (I1 & I2 & I3 & I4) & _). destruct K as (Ks & _).
      unfold FsSpecs.inside. rewrite Ks in I3. lia. }
    split; [intros x Hx Hx2; by rewrite O, Hd2, Hsame, Hd|]. destruct R as [R|(R & _ & _ & Rd & Rn)]; [by left|right]. done.
  - intros Hs Hus Hr1 Hl1 Hl2. destruct (Hup2 Hs Hus Hr1) as (Hu2 & _). exists file, got. rewrite Ec.
    pose proof (@FsSpecs.write_then_read_up _ _ _ total (answering (disk_size (virtio m))) _ _ Hserve ltac:(zlia) file position from length0 address to s2 Hs2 Hu2 Hsec2 Hr Huse Hf Hp ltac:(lia) Hl1 Hlf Hlt) as Wu.
    destruct (wp_ok _ _ _ _ _ Wu E3) as (N1 & N2). cbn [fst snd] in N1, N2. destruct R as [R|(-> & _ & _ & _ & [R|(-> & _)])]; done.
Qed.
End Machine.

(** ** An emulator with the driver's structures in its memory *)

Definition some_layout : layout :=
  {| descs := 0x80010000; avail := 0x80010040; used := 0x80010060; header := 0x80010100; status_byte := 0x80010110 |}.

Lemma some_layout_ok : layout_ok some_layout.
Proof. by constructor; vm_compute; intuition congruence. Qed.

Lemma some_room : buffer_in some_layout 0x80020000 0x10000.
Proof. by vm_compute; intuition congruence. Qed.

Lemma emu_bus_ok : bus_ok Run.emu_init.
Proof. exact (proj1 (@RunProofs.emu_init_ok any_start _)). Qed.

Definition no_driver : driver := {| device := 0; seen := 0; failure := None |}.

Lemma driver_moves_the_sectors_witness :
  exists d m ok d' m', @virtio_transfer 10%nat some_layout 3 0x80020000 2 true d m = Ok (ok, d', m') /\ virtio_failure d' = virtio_failure d.
Proof.
  destruct (wp_total _ _ _ (@virtio_init_wp total 10%nat some_layout no_driver Run.emu_init some_layout_ok emu_bus_ok eq_refl eq_refl))
    as ([n d] & m & E & _). exists d, m.
  destruct (@driver_moves_the_sectors 10%nat some_layout ltac:(unfold serve_fuel; lia) some_layout_ok d m 3 0x80020000 2 true) as (ok & d' & m' & Et & Ef & _).
  - eapply driven_init; [exact emu_bus_ok|reflexivity|reflexivity|exact E].
  - by vm_compute; intuition congruence.
  - unfold is_u32; lia.
  - lia.
  - exists ok, d', m'. exact (conj Et Ef).
Defined.

(** A disk of 64 sectors with an empty file system. *)
Definition formatted_disk : buffer := match buf_load (buf_zero 0x800000) 0 FsSpecs.header with Ok b => b | _ => buf_zero 0 end.
Definition disk_machine : machine := upd_virtio (fun v => {| v with disk := formatted_disk; disk_size := 0x8000 |}) Run.emu_init.

Lemma formatted_disk_ok : buf_ok formatted_disk /\ buf_len formatted_disk = 0x800000.
Proof.
  destruct (wpr_total (buf_load (buf_zero 0x800000) 0 FsSpecs.header) (fun b => buf_ok b /\ buf_len b = 0x800000)) as (b & Eb & Hb); [|unfold formatted_disk; by rewrite Eb].
  apply buf_load_keeps; [apply buf_zero_ok; lia|lia|by vm_compute|]. intros b Hb Hl. split; [done|]. by rewrite Hl.
Qed.

Lemma disk_machine_ok : bus_ok disk_machine.
Proof.
  pose proof emu_bus_ok as Hm. pose proof Hm as (_&(_&_&((_&_&Hf)&Hrest)&_)&_). destruct formatted_disk_ok as (H1 & H2).
  apply (bus_virtio Run.emu_init Hm {| (virtio Run.emu_init) with disk := formatted_disk; disk_size := 0x8000 |}). split; [|exact Hrest]. split; [split; [exact H1|exact H2]|]. split; [by split|exact I].
Qed.

Definition word_of (b : buffer) (k : Z) : Z := byte_at b (4 * k) + 256 * byte_at b (4 * k + 1) + 65536 * byte_at b (4 * k + 2) + 16777216 * byte_at b (4 * k + 3).
Lemma formatted_words : word_of formatted_disk 0 = Fs.MAGIC /\ word_of formatted_disk 1 = 64 /\ word_of formatted_disk 2 = Fs.DIRECTORY /\ word_of formatted_disk 3 = Fs.DATA /\ word_of formatted_disk 4 = Fs.ENTRIES.
Proof. vm_compute. repeat split. Qed.
Lemma formatted_empty i : 0 <= i < 512 -> byte_at formatted_disk (512 + i) = 0.
Proof.
  assert (Hz : forallb (fun k => byte_at formatted_disk (512 + Z.of_nat k) =? 0) (seq 0 512) = true) by (vm_compute; reflexivity).
  intros Hi. rewrite forallb_forall in Hz. specialize (Hz (Z.to_nat i) ltac:(apply in_seq; lia)). rewrite Z2Nat.id in Hz by lia. by apply Z.eqb_eq in Hz.
Qed.
Lemma empty_directory : Fs.bytes_directory 16 (replicate 512 0) = replicate 16 FsSpecs.no_file.
Proof. vm_compute. reflexivity. Qed.

Lemma disk_machine_usable : @usable_disk 10%nat some_layout 0x80020000 0x10000 disk_machine [97; 0].
Proof.
  exists 64, (replicate 512 0). split; [exact formatted_words|]. split; [split; [reflexivity|change (64 <= 0x8000 / 512); vm_compute; discriminate]|]. split; [|split; [discriminate|]].
  - split; [reflexivity|]. intros i Hi. transitivity 0; [unfold at_; apply lookup_total_replicate_2; lia|symmetry; exact (formatted_empty i Hi)].
  - cbv zeta. rewrite empty_directory. right. split; [exists 0; split; [lia|vm_compute; reflexivity]|]. split; [right; by left|]. split; [vm_compute; discriminate|].
    intros i Hi (Hn & _). unfold at_ in Hn. rewrite lookup_total_replicate_2 in Hn by lia. vm_compute in Hn. discriminate Hn.
Qed.

Definition moved (r : res (option (Z * Z * Z * list Z) * Fs.fs_state guest_disk)) : option (Z * Z * Z * list Z) := match r with Ok (out, _) => out | _ => None end.

Lemma files_reach_the_emulated_disk_witness :
  exists s, @session 10%nat some_layout 0x80020000 0x10000 no_driver disk_machine [97; 0] 5 [1; 2; 3] 0 [0; 0; 0] 3 = Ok (Some (0, 3, 3, [1; 2; 3]), s)
    /\ session_post disk_machine [97; 0] 5 [1; 2; 3] 3 (Some (0, 3, 3, [1; 2; 3])) s.
Proof.
  destruct (@files_reach_the_emulated_disk 10%nat some_layout ltac:(unfold serve_fuel; lia) some_layout_ok 0x80020000 0x10000 some_room no_driver disk_machine
    [97; 0] 5 [1; 2; 3] 0 [0; 0; 0] 3) as (out & s & E & P & Hgo); [exact disk_machine_ok|by vm_compute|by vm_compute|by repeat constructor|right; right; by left|by repeat constructor|lia|lia|done|done|].
  destruct Hgo as (file & got & _); [split; [reflexivity|exact I]|exact disk_machine_usable|lia|vm_compute; discriminate|vm_compute; reflexivity|]. exists s.
  assert (Eo : moved (@session 10%nat some_layout 0x80020000 0x10000 no_driver disk_machine [97; 0] 5 [1; 2; 3] 0 [0; 0; 0] 3) = Some (0, 3, 3, [1; 2; 3])) by (vm_compute; reflexivity).
  rewrite E in Eo. cbn [moved] in Eo. subst out. split; [exact E|exact P].
Defined.

End VirtioSpecs.
