(* ===== verification/Fdt.v ===== *)
(** * The guest's device-tree reader (programs/rv32/fdt.c)

    A reader of flattened device trees.  The blob is a [buffer], read a byte at a time;
    a read outside it is [Stuck].  A query answers a status or what it found. *)

From Stdlib Require Import String Ascii.
From S2P Require Import Prelude Effects Buffer.

Module Fdt.

Definition FDT_MAGIC : Z := 0xd00dfeed.
Definition FDT_BEGIN_NODE : Z := 1.
Definition FDT_END_NODE : Z := 2.
Definition FDT_PROP : Z := 3.
Definition FDT_NOP : Z := 4.
Definition FDT_END : Z := 9.
Definition FDT_MAX_DEPTH : Z := 8.
Definition FDT_MAX_CELLS : Z := 2.

Record fdt : Type := { blob : buffer; total : Z; structs : Z; structs_end : Z; strings : Z; strings_end : Z }.
(** The statuses other than [FDT_OK], which comes with its answer. *)
Inductive fdt_status : Type := FDT_BAD_MAGIC | FDT_BAD_VERSION | FDT_BAD_LAYOUT | FDT_NOT_FOUND | FDT_TOO_WIDE | FDT_NO_REG | FDT_NO_PROPERTY.
#[export] Instance fdt_status_eq_dec : EqDecision fdt_status.
Proof. solve_decision. Defined.
Abbreviation query A := (res (fdt_status + A)).

(** A literal, with its NUL. *)
Definition cstring (s : string) : list Z := map (fun c => Z.of_N (N_of_ascii c)) (list_ascii_of_string s) ++ [0].
Arguments cstring s%_string.

Definition be32 (b : buffer) (p : Z) : res Z :=
  p0 ← buf_get b p; p1 ← buf_get b (p + 1); p2 ← buf_get b (p + 2); p3 ← buf_get b (p + 3);
  mret ((p0 .<< 24) .| (p1 .<< 16) .| (p2 .<< 8) .| p3).

(** The string at [a] against a literal, which ends in a NUL. *)
Fixpoint fdt_same (t : buffer) (a : Z) (b : list Z) : res bool :=
  match b with
  | [] => Stuck
  | d :: b' => c ← buf_get t a; if tst c && (c =? d) then fdt_same t (a + 1) b' else mret (c =? d)
  end.
(** Two literals. *)
Fixpoint same_literals (a b : list Z) : res bool :=
  match a, b with
  | c :: a', d :: b' => if tst c && (c =? d) then same_literals a' b' else mret (c =? d)
  | _, _ => Stuck
  end.

Definition fdt_open (h : buffer) : query fdt :=
  magic ← be32 h 0;
  if negb (magic =? FDT_MAGIC) then mret (inl FDT_BAD_MAGIC)
  else
    version ← be32 h 20; compatible ← be32 h 24;
    if (version <? 16) || (17 <? compatible) then mret (inl FDT_BAD_VERSION)
    else
      total0 ← be32 h 4; structs0 ← be32 h 8; strings0 ← be32 h 12; struct_size ← be32 h 36; string_size ← be32 h 32;
      let structs_end0 := u32 (structs0 + struct_size) in
      let strings_end0 := u32 (strings0 + string_size) in
      if (total0 <? 40) || (structs0 <? 40) || (structs_end0 <? structs0) || (total0 <? structs_end0)
         || (strings0 <? 40) || (strings_end0 <? strings0) || (total0 <? strings_end0) || tst (structs0 .& 3)
      then mret (inl FDT_BAD_LAYOUT)
      else mret (inr {| blob := h; total := total0; structs := structs0; structs_end := structs_end0; strings := strings0; strings_end := strings_end0 |}).

(** A property's value: where it is, and how long. *)
Record span : Type := { offset : Z; length0 : Z }.

Section Queries.
Context (t : fdt).
Abbreviation byte a := (buf_get (blob t) a).

(** A NUL in the [n] bytes from [at0]. *)
Fixpoint terminated_from (n : nat) (at0 : Z) : res bool :=
  match n with O => mret false | S n' => c ← byte at0; if c =? 0 then mret true else terminated_from n' (at0 + 1) end.
Definition terminated (at0 end0 : Z) : res bool := terminated_from (Z.to_nat (end0 - at0)) at0.

(** How many bytes from [at0] come before a NUL, at most [n]. *)
Fixpoint string_run (n : nat) (at0 : Z) : res Z :=
  match n with O => mret 0 | S n' => c ← byte at0; if c =? 0 then mret 0 else r ← string_run n' (at0 + 1); mret (r + 1) end.

Fixpoint matches_from (fuel : nat) (at0 end0 : Z) (is_list : bool) (want : list Z) : res bool :=
  match fuel with
  | O => NoFuel
  | S fuel' =>
      if at0 <? end0 then
        n ← string_run (Z.to_nat (end0 - at0)) at0;
        if at0 + n =? end0 then mret false
        else
          same ← fdt_same (blob t) at0 want;
          if same : bool then mret true else if negb is_list then mret false else matches_from fuel' (u32 (at0 + n + 1)) end0 is_list want
      else mret false
  end.
Definition matches (v : span) (is_list : bool) (want : list Z) : res bool :=
  matches_from (S (Z.to_nat (length0 v))) (offset v) (u32 (offset v + length0 v)) is_list want.

Definition number (at0 cells : Z) : query Z :=
  if cells =? 0 then mret (inr 0)
  else if cells =? 2 then
    high ← be32 (blob t) at0;
    if tst high then mret (inl FDT_TOO_WIDE) else low ← be32 (blob t) (u32 (at0 + 4)); mret (inr low)
  else v ← be32 (blob t) at0; mret (inr v).

Definition reg_entry (reg : span) (ac sc index : Z) : query (Z * Z) :=
  if (FDT_MAX_CELLS <? ac) || (FDT_MAX_CELLS <? sc) then mret (inl FDT_TOO_WIDE)
  else
    let entry := 4 * (ac + sc) in
    if (entry =? 0) || (length0 reg =? 0) || tst (length0 reg mod entry) then mret (inl FDT_NO_REG)
    else if length0 reg / entry <=? index then mret (inl FDT_NOT_FOUND)
    else
      let e := u32 (offset reg + entry * index) in
      base ← number e ac;
      match base with
      | inl s => mret (inl s)
      | inr base => size ← number (u32 (e + 4 * ac)) sc; mret (match size with inl s => inl s | inr size => inr (base, size) end)
      end.

(** The value and the address of the name of the property at [at0], and where the next token is. *)
Definition read_prop (at0 : Z) : query (span * Z * Z) :=
  if structs_end t <? u32 (at0 + 8) then mret (inl FDT_BAD_LAYOUT)
  else
    len ← be32 (blob t) at0; name_offset ← be32 (blob t) (at0 + 4);
    let v := {| offset := u32 (at0 + 8); length0 := len |} in
    let name := u32 (strings t + name_offset) in
    let stop := u32 (offset v + len) in
    if (structs_end t <? stop) || (stop <? offset v) || (name <? strings t) then mret (inl FDT_BAD_LAYOUT)
    else
      ok ← terminated name (strings_end t);
      if negb ok then mret (inl FDT_BAD_LAYOUT) else mret (inr (v, name, u32 (stop + 3) .& not32 3)).

Fixpoint name_end (n : nat) (at0 : Z) : res Z :=
  match n with O => mret at0 | S n' => c ← byte at0; if c =? 0 then mret at0 else name_end n' (at0 + 1) end.
(** Past a node's name, to the next word. *)
Definition skip_name (at0 : Z) : res Z := e ← name_end (Z.to_nat (structs_end t - at0)) at0; mret (u32 (e + 4) .& not32 3).

(** ** The walk *)

(** The cell counts are not set before a node begins. *)
Record walk : Type := {
  at0 : Z; depth : Z; matched : bool; in_props : bool; node : Z; reg : span; named : option span;
  address_cells : list (option Z); size_cells : list (option Z) }.

Definition cell_of (l : list (option Z)) (i : Z) : res Z := o ← aget l i; match o with Some v => mret v | None => Stuck end.

Context (property value : list Z) (index : Z) (cell_name : option (list Z)) (is_list by_name : bool).

(** The properties of the node end: what the query answers if this is the node asked for. *)
Definition decide_node (w : walk) : query (Z * Z) :=
  match cell_name with
  | Some _ =>
      match named w with
      | None => mret (inl FDT_NO_PROPERTY)
      | Some v =>
          if tst (length0 v mod 4) then mret (inl FDT_NO_PROPERTY)
          else if length0 v / 4 <=? index then mret (inl FDT_NOT_FOUND)
          else c ← be32 (blob t) (u32 (offset v + 4 * index)); mret (inr (c, 0))
      end
  | None =>
      if depth w <? 1 then mret (inl FDT_NO_REG)
      else ac ← cell_of (address_cells w) (depth w - 1); sc ← cell_of (size_cells w) (depth w - 1); reg_entry (reg w) ac sc index
  end.

Definition begin_node (w : walk) : query walk :=
  let name := at0 w in
  next ← skip_name name;
  let d := depth w + 1 in
  if FDT_MAX_DEPTH <=? d then mret (inl FDT_BAD_LAYOUT)
  else
    ac ← aset (address_cells w) d (Some 2);
    sc ← aset (size_cells w) d (Some 1);
    m ← (if by_name && (next <=? structs_end t) then
           ok ← terminated name next; if ok : bool then fdt_same (blob t) name value else mret false
         else mret false);
    mret (inr {| w with at0 := next; depth := d; matched := m; in_props := true; reg := {| offset := offset (reg w); length0 := 0 |}; named := None;
                        address_cells := ac; size_cells := sc |}).

Definition take_prop (w : walk) : query walk :=
  if depth w <? 0 then mret (inl FDT_BAD_LAYOUT)
  else
    p ← read_prop (at0 w);
    match p with
    | inl _ => mret (inl FDT_BAD_LAYOUT)
    | inr (v, key, next) =>
        let key_is name := fdt_same (blob t) key name in
        address_key ← key_is (cstring "#address-cells");
        size_key ← key_is (cstring "#size-cells");
        if (address_key || size_key) && negb (length0 v =? 4) then mret (inl FDT_BAD_LAYOUT)
        else
          w ← (if address_key : bool then
                 c ← be32 (blob t) (offset v); l ← aset (address_cells w) (depth w) (Some c); mret {| w with address_cells := l |}
               else if size_key : bool then
                 c ← be32 (blob t) (offset v); l ← aset (size_cells w) (depth w) (Some c); mret {| w with size_cells := l |}
               else
                 is_reg ← key_is (cstring "reg"); mret (if is_reg : bool then {| w with reg := v |} else w));
          here ← (match cell_name with Some n => key_is n | None => mret false end);
          let w := if here : bool then {| w with named := Some v |} else w in
          mine ← key_is property;
          m ← (if mine : bool then matches v is_list value else mret false);
          mret (inr {| w with at0 := next; matched := matched w || m |})
    end.

Definition ends_node (token : Z) : bool := (token =? FDT_BEGIN_NODE) || (token =? FDT_END_NODE) || (token =? FDT_END).

Fixpoint find_loop (fuel : nat) (w : walk) : query (Z * Z) :=
  match fuel with
  | O => NoFuel
  | S fuel' =>
      if structs_end t <? u32 (at0 w + 4) then mret (inl FDT_BAD_LAYOUT)
      else
        token ← be32 (blob t) (at0 w);
        let w := {| w with at0 := u32 (at0 w + 4) |} in
        let w := if ends_node token && in_props w && matched w && tst (node w) then {| w with node := node w - 1; matched := false |} else w in
        if ends_node token && in_props w && matched w then decide_node w
        else
          let w := if ends_node token then {| w with in_props := false |} else w in
          let continue (r : query walk) : query (Z * Z) := a ← r; match a with inl s => mret (inl s) | inr w => find_loop fuel' w end in
          if token =? FDT_BEGIN_NODE then continue (begin_node w)
          else if token =? FDT_END_NODE then
            if depth w <? 0 then mret (inl FDT_BAD_LAYOUT) else find_loop fuel' {| w with depth := depth w - 1 |}
          else if token =? FDT_PROP then continue (take_prop w)
          else if token =? FDT_END then mret (inl (if depth w =? -1 then FDT_NOT_FOUND else FDT_BAD_LAYOUT))
          else if token =? FDT_NOP then find_loop fuel' w
          else mret (inl FDT_BAD_LAYOUT)
  end.

Definition first_walk (node0 : Z) : walk :=
  {| at0 := structs t; depth := -1; matched := false; in_props := false; node := node0; reg := {| offset := 0; length0 := 0 |}; named := None;
     address_cells := replicate 8 None; size_cells := replicate 8 None |}.
End Queries.

(** A walk takes a token of at least four bytes at each turn. *)
Definition walk_fuel (t : fdt) : nat := S (Z.to_nat (structs_end t / 4)).
Definition find (t : fdt) (property value : list Z) (node0 index : Z) (cell_name : option (list Z)) : query (Z * Z) :=
  is_list ← same_literals property (cstring "compatible");
  by_name ← same_literals property (cstring "@name");
  find_loop t property value index cell_name is_list by_name (walk_fuel t) (first_walk t node0).

Definition fdt_find (t : fdt) (property value : list Z) (index : Z) : query (Z * Z) := find t property value 0 index None.
Definition fdt_find_nth (t : fdt) (property value : list Z) (node0 index : Z) : query (Z * Z) := find t property value node0 index None.
Definition fdt_cell (t : fdt) (property value name : list Z) (index : Z) : query Z :=
  r ← find t property value 0 index (Some name); mret (match r with inl s => inl s | inr (c, _) => inr c end).

(** The root's own properties. *)
Fixpoint root_loop (t : fdt) (property : list Z) (fuel : nat) (at1 : Z) : query Z :=
  match fuel with
  | O => NoFuel
  | S fuel' =>
      if structs_end t <? u32 (at1 + 4) then mret (inl FDT_BAD_LAYOUT)
      else
        token ← be32 (blob t) at1;
        let at1 := u32 (at1 + 4) in
        if token =? FDT_PROP then
          p ← read_prop t at1;
          match p with
          | inl _ => mret (inl FDT_BAD_LAYOUT)
          | inr (v, key, next) =>
              same ← fdt_same (blob t) key property;
              if same : bool then
                if length0 v =? 0 then mret (inl FDT_BAD_LAYOUT)
                else
                  last ← buf_get (blob t) (u32 (offset v + length0 v - 1));
                  if tst last then mret (inl FDT_BAD_LAYOUT) else mret (inr (offset v))
              else root_loop t property fuel' next
          end
        else if (token =? FDT_BEGIN_NODE) || (token =? FDT_END_NODE) then mret (inl FDT_NOT_FOUND)
        else if negb (token =? FDT_NOP) then mret (inl FDT_BAD_LAYOUT)
        else root_loop t property fuel' at1
  end.
(** Where the string is in the blob. *)
Definition fdt_root_string (t : fdt) (property : list Z) : query Z :=
  if structs_end t <? u32 (structs t + 4) then mret (inl FDT_BAD_LAYOUT)
  else
    token ← be32 (blob t) (structs t);
    if negb (token =? FDT_BEGIN_NODE) then mret (inl FDT_BAD_LAYOUT)
    else at1 ← skip_name t (u32 (structs t + 4)); root_loop t property (walk_fuel t) at1.
End Fdt.
