(* ===== verification/FdtProofs.v ===== *)
(** * The device-tree reader is safe

    Whatever bytes the blob holds, once [fdt_open] accepts its header every query
    returns, and reads only inside the blob. *)

From S2P Require Import Prelude Effects Buffer Fdt.

Module FdtProofs.
Import Fdt.

(** What [fdt_open] leaves; a blob within 16 bytes of the end of the address space is left aside. *)
Record fdt_ok (t : fdt) : Prop := {
  ok_blob : buf_ok (blob t);
  ok_total : 40 <= total t <= buf_len (blob t) /\ total t <= 0xfffffff0;
  ok_structs : 40 <= structs t <= structs_end t /\ structs_end t <= total t;
  ok_strings : 40 <= strings t <= strings_end t /\ strings_end t <= total t;
}.

Section Safe.
Context `{F : Fuelled}.

Lemma be32_wp b p (Q : Z -> Prop) : buf_ok b -> 0 <= p -> p + 4 <= buf_len b -> (forall v, is_u32 v -> Q v) -> wpr (be32 b p) Q.
Proof.
  intros [_ Hb] Hp Hl HQ. unfold be32. do 4 (wp1; apply wpr_buf_get; [lia|]). wp1. apply HQ. pose proof (Hb p) as B0. pose proof (Hb (p + 1)) as B1. pose proof (Hb (p + 2)) as B2. pose proof (Hb (p + 3)) as B3. unfold is_u8 in *.
  apply lor_u32; [apply lor_u32; [apply lor_u32|]|unfold is_u32; lia]; rewrite Z.shiftl_mul_pow2 by lia; unfold is_u32; lia.
Qed.

Lemma open_wp h (Q : fdt_status + fdt -> Prop) : buf_ok h -> 40 <= buf_len h -> (forall n, be32 h 4 = Ok n -> n <= buf_len h /\ n <= 0xfffffff0) ->
  (forall s, Q (inl s)) -> (forall t, fdt_ok t -> blob t = h -> Q (inr t)) -> wpr (fdt_open h) Q.
Proof.
  intros Hb Hl Ht HS HT. unfold fdt_open. assert (Hw : forall p (Q' : Z -> Prop), 0 <= p <= 36 -> (forall v, is_u32 v -> be32 h p = Ok v -> Q' v) -> wpr (be32 h p) Q').
  { intros p Q' Hp HQ'. assert (H : wpr (be32 h p) is_u32) by (apply be32_wp; [done|lia|lia|done]). destruct (be32 h p) as [v| |]; [|done|done]. by apply HQ'. }
  wp1. apply Hw; [lia|]. intros m _ _. wp1; [wp1; apply HS|]. do 2 (wp1; apply Hw; [lia|]; intros ? _ _). wp1; [wp1; apply HS|].
  wp1. apply Hw; [lia|]. intros n Hn En. destruct (Ht n En) as (T1 & T2). wp1. apply Hw; [lia|]. intros s Hs _. wp1. apply Hw; [lia|]. intros g Hg _. do 2 (wp1; apply Hw; [lia|]; intros ? _ _).
  cbv zeta. wp1; [wp1; apply HS|]. wp1. repeat match goal with H : _ || _ = false |- _ => apply orb_false_iff in H as [? ?] end. bools. unfold is_u32 in *. apply HT; [|done]. by constructor; cbn [blob total structs structs_end strings strings_end]; [|lia..].
Qed.

(** A string at [a] that ends before [e]. *)
Definition ends_in (b : buffer) (a e : Z) : Prop := exists z, 0 <= a <= z /\ z < e /\ byte_at b z = 0.

Lemma fdt_same_wp b want a e (Q : bool -> Prop) : In 0 want -> ends_in b a e -> e <= buf_len b -> (forall r, Q r) -> wpr (fdt_same b a want) Q.
Proof.
  revert a. induction want as [|d want IH]; intros a H0 (z & Ha & Hz & Ez) He HQ; [done|]. cbn [fdt_same]. wp1. apply wpr_buf_get; [lia|]. wp1; [|wp1; apply HQ].
  apply andb_true_iff in H as [H1 H2]. apply tst_true in H1. apply Z.eqb_eq in H2. apply IH; [destruct H0; [congruence|done]| |done|done]. exists z.
  assert (a <> z) by (intros ->; congruence). split; [lia|done].
Qed.

Section Tree.
Context (t : fdt) (Ht : fdt_ok t).

Lemma terminated_wp a e (Q : bool -> Prop) : 0 <= a -> e <= buf_len (blob t) -> (forall r, (r = true -> ends_in (blob t) a e) -> Q r) -> wpr (terminated t a e) Q.
Proof.
  intros Ha He HQ. unfold terminated. assert (Hn : Z.of_nat (Z.to_nat (e - a)) <= Z.max 0 (e - a)) by lia. revert Hn. generalize (Z.to_nat (e - a)). intros n. revert a Ha HQ. induction n as [|n IH]; intros a Ha HQ Hn; cbn [terminated_from].
  - wp1. by apply HQ.
  - wp1. apply wpr_buf_get; [lia|]. wp1.
    + wp1. apply HQ. intros _. exists a. bools. split; [lia|]. split; [lia|done].
    + apply IH; [lia| |lia]. intros r Hr. apply HQ. intros E1. destruct (Hr E1) as (z & Z1 & Z2). exists z. split; [lia|done].
Qed.

Lemma string_run_wp n a (Q : Z -> Prop) : 0 <= a -> a + Z.of_nat n <= buf_len (blob t) -> (forall r, 0 <= r <= Z.of_nat n -> (r < Z.of_nat n -> byte_at (blob t) (a + r) = 0) -> Q r) -> wpr (string_run t n a) Q.
Proof.
  revert a Q. induction n as [|n IH]; intros a Q Ha Hl HQ; cbn [string_run]; [wp1; apply HQ; lia|]. wp1. apply wpr_buf_get; [lia|]. wp1.
  - wp1. apply HQ; [lia|]. intros _. bools. by rewrite Z.add_0_r.
  - wp1. apply IH; [lia|lia|]. intros r Hr Hz. wp1. apply HQ; [lia|]. intros Hlt. replace (a + (r + 1)) with (a + 1 + r) by lia. apply Hz. lia.
Qed.

(** A value that lies in the structure block. *)
Definition inside (v : span) : Prop := 0 <= offset v /\ 0 <= length0 v /\ offset v + length0 v <= structs_end t.

Lemma matches_wp v is_list want (Q : bool -> Prop) : inside v -> In 0 want -> (forall r, Q r) -> wpr (matches t v is_list want) Q.
Proof.
  intros (V1 & V2 & V3) H0 HQ. destruct (ok_total _ Ht) as (T1 & T2). destruct (ok_structs _ Ht) as (S1 & S2). unfold matches. rewrite u32_id by (unfold is_u32; lia). set (e := offset v + length0 v) in *.
  assert (Hf : e - offset v < Z.of_nat (S (Z.to_nat (length0 v)))) by lia. assert (Ha : 0 <= offset v <= e) by lia. revert Hf Ha. clear V1. generalize (offset v) (S (Z.to_nat (length0 v))). intros a n. revert a.
  induction n as [|n IH]; intros a Hf Ha; [lia|]. cbn [matches_from]. wp1; [|wp1; apply HQ]. wp1. apply string_run_wp; [lia|lia|]. intros r Hr Hz. wp1; [wp1; apply HQ|]. bools.
  wp1. apply (fdt_same_wp _ want a e); [done| |lia|]; [exists (a + r); split; [lia|]; split; [lia|apply Hz; lia]|]. intros same. wp1; [wp1; apply HQ|]. wp1; [wp1; apply HQ|].
  rewrite u32_id by (unfold is_u32; lia). apply IH; lia.
Qed.

Lemma word_wp p (Q : Z -> Prop) : 0 <= p -> p + 4 <= structs_end t -> (forall v, is_u32 v -> Q v) -> wpr (be32 (blob t) p) Q.
Proof. intros Hp He. destruct (ok_total _ Ht). destruct (ok_structs _ Ht). apply be32_wp; [apply Ht|lia|lia]. Qed.

Lemma number_wp p cells (Q : fdt_status + Z -> Prop) : 0 <= cells <= 2 -> 0 <= p -> p + 4 * cells <= structs_end t -> (forall r, Q r) -> wpr (number t p cells) Q.
Proof.
  intros Hc Hp He HQ. destruct (ok_total _ Ht). destruct (ok_structs _ Ht). unfold number. wp1; [wp1; apply HQ|]. bools. wp1.
  - wp1. apply word_wp; [lia|lia|]. intros h _. wp1; [wp1; apply HQ|]. wp1. rewrite u32_id by (unfold is_u32; lia). apply word_wp; [lia|lia|]. intros l _. wp1. apply HQ.
  - wp1. apply word_wp; [lia|lia|]. intros v _. wp1. apply HQ.
Qed.

Lemma reg_entry_wp v ac sc index (Q : fdt_status + Z * Z -> Prop) : inside v -> is_u32 ac -> is_u32 sc -> 0 <= index -> (forall r, Q r) -> wpr (reg_entry t v ac sc index) Q.
Proof.
  intros (V1 & V2 & V3) Ha Hs Hi HQ. destruct (ok_total _ Ht). destruct (ok_structs _ Ht). unfold reg_entry, is_u32, FDT_MAX_CELLS in *. wp1; [wp1; apply HQ|]. cbv zeta. wp1; [wp1; apply HQ|]. wp1; [wp1; apply HQ|].
  repeat match goal with H : _ || _ = false |- _ => apply orb_false_iff in H as [? ?] end. bools. set (entry := 4 * (ac + sc)) in *.
  assert (He : entry * index + entry <= length0 v) by (pose proof (Z.mul_div_le (length0 v) entry ltac:(lia)); nia).
  assert (Hei : 0 <= entry * index) by nia. rewrite (u32_id (offset v + _)) by (unfold is_u32; lia). wp1. apply number_wp; [lia|lia|lia|]. intros [s|base]; [wp1; apply HQ|].
  wp1. rewrite u32_id by (unfold is_u32; lia). apply number_wp; [lia|lia|lia|]. intros r. wp1. apply HQ.
Qed.

Lemma land_not3_range a : is_u32 a -> a - 3 <= a .& not32 3 <= a.
Proof. intros Ha. rewrite land_not3 by done. pose proof (Z.mod_pos_bound a 4). lia. Qed.

Lemma read_prop_wp p (Q : fdt_status + span * Z * Z -> Prop) : 0 <= p <= structs_end t + 4 -> (forall s, Q (inl s)) ->
  (forall v name next, inside v -> ends_in (blob t) name (strings_end t) -> p <= next <= structs_end t + 4 -> Q (inr (v, name, next))) -> wpr (read_prop t p) Q.
Proof.
  intros Hp HS HQ. destruct (ok_total _ Ht) as (T1 & T2). destruct (ok_structs _ Ht). destruct (ok_strings _ Ht). unfold read_prop. rewrite (u32_id (p + 8)) by (unfold is_u32; lia). wp1; [wp1; apply HS|]. bools.
  wp1. apply word_wp; [lia|lia|]. intros len Hlen. wp1. apply word_wp; [lia|lia|]. intros no Hno. cbv zeta. cbn [offset]. pose proof (u32_range (p + 8 + len)) as Hst. set (stop := u32 (p + 8 + len)) in *. pose proof (u32_range (strings t + no)) as Hna. set (name := u32 (strings t + no)) in *.
  wp1; [wp1; apply HS|]. repeat match goal with H : _ || _ = false |- _ => apply orb_false_iff in H as [? ?] end. bools. unfold is_u32 in *.
  assert (Est : stop = p + 8 + len). { unfold stop, u32 in *. pose proof (Z.div_mod (p + 8 + len) 0x100000000 ltac:(lia)). pose proof (Z.mod_pos_bound (p + 8 + len) 0x100000000 ltac:(lia)). assert ((p + 8 + len) / 0x100000000 < 2) by (apply Z.div_lt_upper_bound; lia). assert (0 <= (p + 8 + len) / 0x100000000) by (apply Z.div_pos; lia). nia. }
  wp1. apply terminated_wp; [lia|lia|]. intros ok Hok. wp1; [wp1; apply HS|]. wp1. bools. subst ok. rewrite (u32_id (stop + 3)) by (unfold is_u32; lia). pose proof (land_not3_range (stop + 3) ltac:(unfold is_u32; lia)).
  apply HQ; [split; [cbn; lia|]; cbn; lia|by apply Hok|lia].
Qed.

Lemma skip_name_wp p (Q : Z -> Prop) : 0 <= p <= structs_end t -> (forall next, p <= next <= structs_end t + 4 -> Q next) -> wpr (skip_name t p) Q.
Proof.
  intros Hp HQ. destruct (ok_total _ Ht) as (T1 & T2). destruct (ok_structs _ Ht). unfold skip_name. wp1. assert (Hn : p + Z.of_nat (Z.to_nat (structs_end t - p)) <= structs_end t) by lia.
  assert (Hloop : forall n a (Q' : Z -> Prop), 0 <= a -> a + Z.of_nat n <= structs_end t -> (forall e, a <= e <= structs_end t -> Q' e) -> wpr (name_end t n a) Q').
  { induction n as [|n IH]; intros a Q' Ha Hl HQ'; cbn [name_end]; [wp1; apply HQ'; lia|]. wp1. apply wpr_buf_get; [lia|]. wp1; [wp1; apply HQ'; lia|]. apply IH; [lia|lia|]. intros e He. apply HQ'. lia. }
  apply Hloop; [lia|done|]. intros e He. wp1. rewrite u32_id by (unfold is_u32; lia). pose proof (land_not3_range (e + 4) ltac:(unfold is_u32; lia)). apply HQ. lia.
Qed.

(** ** The walk *)

Definition cells_set (l : list (option Z)) (d : Z) : Prop := length l = 8%nat /\ forall i, 0 <= i <= d -> exists v, at_ l i = Some v /\ is_u32 v.

Record walk_ok (w : walk) : Prop := {
  w_at : 0 <= at0 w <= structs_end t + 4;
  w_depth : -1 <= depth w < 8;
  w_reg : inside (reg w);
  w_named : from_option inside True (named w);
  w_cells : cells_set (address_cells w) (depth w) /\ cells_set (size_cells w) (depth w);
}.

Lemma cells_less l d d' : cells_set l d -> d' <= d -> cells_set l d'.
Proof. intros (L & H) Hd. split; [done|]. intros i Hi. apply H. lia. Qed.
Lemma cells_put l d v : cells_set l (d - 1) \/ cells_set l d -> 0 <= d < 8 -> is_u32 v -> cells_set (<[Z.to_nat d := Some v]> l) d.
Proof.
  intros H Hd Hv. assert (Hl : length l = 8%nat) by (destruct H as [(L & _)|(L & _)]; done). split; [by rewrite length_insert|]. intros i Hi. rewrite at_insert by lia. destruct (Z.eqb_spec d i) as [->|Hne]; [by exists v|].
  destruct H as [(_ & H)|(_ & H)]; apply H; lia.
Qed.

Lemma cell_of_wp l d i (Q : Z -> Prop) : cells_set l d -> 0 <= i <= d -> d < 8 -> (forall v, is_u32 v -> Q v) -> wpr (cell_of l i) Q.
Proof. intros (L & H) Hi Hd HQ. unfold cell_of. wp1. apply wpr_aget; [lia|]. destruct (H i Hi) as (v & -> & Hv). wp1. by apply HQ. Qed.

Section Find.
Context (property value : list Z) (index : Z) (cell_name : option (list Z)) (is_list by_name : bool).
Context (Hp : In 0 property) (Hv : In 0 value) (Hi : 0 <= index) (Hc : from_option (In 0) True cell_name).

Lemma decide_node_wp w (Q : fdt_status + Z * Z -> Prop) : walk_ok w -> (forall r, Q r) -> wpr (decide_node t index cell_name w) Q.
Proof.
  intros Hw HQ. destruct (ok_total _ Ht). destruct (ok_structs _ Ht). unfold decide_node. destruct cell_name.
  - pose proof (w_named _ Hw) as Hn. destruct (named w) as [v|]; [|wp1; apply HQ]. destruct Hn as (V1 & V2 & V3). wp1; [wp1; apply HQ|]. wp1; [wp1; apply HQ|]. bools. wp1.
    assert (4 * index + 4 <= length0 v) by (pose proof (Z.mul_div_le (length0 v) 4 ltac:(lia)); lia). rewrite u32_id by (unfold is_u32; lia). apply word_wp; [lia|lia|]. intros c _. wp1. apply HQ.
  - wp1; [wp1; apply HQ|]. bools. pose proof (w_depth _ Hw). destruct (w_cells _ Hw) as (C1 & C2). wp1. eapply cell_of_wp; [exact C1|lia|lia|]. intros ac Hac. wp1. eapply cell_of_wp; [exact C2|lia|lia|]. intros sc Hsc.
    by apply reg_entry_wp; [apply Hw|..].
Qed.

Lemma begin_node_wp w (Q : fdt_status + walk -> Prop) : walk_ok w -> at0 w <= structs_end t -> (forall s, Q (inl s)) -> (forall w', walk_ok w' -> at0 w <= at0 w' -> Q (inr w')) -> wpr (begin_node t value by_name w) Q.
Proof.
  intros Hw Ha HS HQ. destruct (ok_total _ Ht) as (T1 & T2). destruct (ok_structs _ Ht) as (S1 & S2). pose proof (w_at _ Hw). pose proof (w_depth _ Hw). destruct (w_cells _ Hw) as (C1 & C2). unfold begin_node. cbv zeta. wp1.
  apply skip_name_wp; [lia|]. intros next Hn. wp1; [wp1; apply HS|]. unfold FDT_MAX_DEPTH in *. bools. wp1. apply wpr_aset; [destruct C1 as (-> & _); lia|]. wp1. apply wpr_aset; [destruct C2 as (-> & _); lia|].
  assert (Hfin : forall m, Q (inr {| w with at0 := next; depth := depth w + 1; matched := m; in_props := true; reg := {| offset := offset (reg w); length0 := 0 |}; named := None;
      address_cells := <[Z.to_nat (depth w + 1) := Some 2]> (address_cells w); size_cells := <[Z.to_nat (depth w + 1) := Some 1]> (size_cells w) |})).
  { intros m. apply HQ; [|cbn; lia]. destruct (w_reg _ Hw) as (R1 & R2 & R3). constructor; cbn [at0 depth reg named address_cells size_cells]; [lia|lia|split; cbn; lia|done|].
    split; (apply cells_put; [left; by replace (depth w + 1 - 1) with (depth w) by lia|lia|by unfold is_u32]). }
  wp1. wp1; [|repeat wp1; apply Hfin]. bools. wp1. apply terminated_wp; [lia|lia|]. intros ok Hok. wp1; [|repeat wp1; apply Hfin]. subst ok. eapply fdt_same_wp; [done|by apply Hok|lia|]. intros m. repeat wp1. apply Hfin.
Qed.

Lemma take_prop_wp w (Q : fdt_status + walk -> Prop) : walk_ok w -> (forall s, Q (inl s)) -> (forall w', walk_ok w' -> at0 w <= at0 w' -> Q (inr w')) -> wpr (take_prop t property value cell_name is_list w) Q.
Proof.
  intros Hw HS HQ. destruct (ok_total _ Ht) as (T1 & T2). destruct (ok_structs _ Ht) as (S1 & S2). destruct (ok_strings _ Ht) as (G1 & G2). pose proof (w_at _ Hw). pose proof (w_depth _ Hw). destruct (w_cells _ Hw) as (C1 & C2). unfold take_prop. wp1; [wp1; apply HS|]. bools.
  wp1. apply read_prop_wp; [lia|intros s; wp1; apply HS|]. intros v key next V K N. cbv zeta. pose proof V as (V1 & V2 & V3).
  assert (Hkey : forall l (Q' : bool -> Prop), In 0 l -> (forall r, Q' r) -> wpr (fdt_same (blob t) key l) Q') by (intros l Q' Hl HQ'; eapply fdt_same_wp; [done|exact K|lia|done]).
  wp1. apply Hkey; [by apply in_or_app; right; left|]. intros ak. wp1. apply Hkey; [by apply in_or_app; right; left|]. intros sk. wp1; [wp1; apply HS|].
  assert (Hlast : forall w1, walk_ok w1 -> wpr (here ← (match cell_name with Some n => fdt_same (blob t) key n | None => mret false end);
          let w := if here : bool then {| w1 with named := Some v |} else w1 in
          mine ← fdt_same (blob t) key property; m ← (if mine : bool then matches t v is_list value else mret false); mret (inr {| w with at0 := next; matched := matched w || m |})) Q).
  { intros w1 Hw1. assert (Hfin : forall (here m : bool), let w := if here then {| w1 with named := Some v |} else w1 in Q (inr {| w with at0 := next; matched := matched w || m |})).
    { intros here m. destruct Hw1. apply HQ; [|cbn; lia]. by destruct here; constructor; cbn [at0 depth reg named address_cells size_cells]; try done; lia. }
    wp1. eapply (wpr_mono _ (fun _ => True)); [destruct cell_name; [apply Hkey; done|by wp1]|]. intros here _. cbv zeta. wp1. apply Hkey; [done|]. intros mine. wp1. eapply (wpr_mono _ (fun _ => True)).
    - wp1; [by apply matches_wp|by wp1].
    - intros m _. wp1. apply Hfin. }
  assert (Hcell : inside v -> length0 v = 4 -> forall (Q' : Z -> Prop), (forall c, is_u32 c -> Q' c) -> wpr (be32 (blob t) (offset v)) Q') by (intros _ E4 Q' HQ'; apply word_wp; [lia|lia|done]).
  destruct ak; [|destruct sk].
  - cbn [orb andb] in *. bools. do 2 wp1. apply Hcell; [done|done|]. intros c Hcu. wp1. apply wpr_aset; [destruct C1 as (-> & _); lia|]. wp1. apply Hlast. destruct Hw. constructor; cbn [at0 depth reg named address_cells size_cells]; try done. split; [|done]. by apply cells_put; [right|lia|].
  - cbn [orb andb] in *. bools. do 2 wp1. apply Hcell; [done|done|]. intros c Hcu. wp1. apply wpr_aset; [destruct C2 as (-> & _); lia|]. wp1. apply Hlast. destruct Hw. constructor; cbn [at0 depth reg named address_cells size_cells]; try done. split; [done|]. by apply cells_put; [right|lia|].
  - do 2 wp1. apply Hkey; [cbn; tauto|]. intros is_reg. wp1. apply Hlast. destruct is_reg; [|done]. destruct Hw. constructor; cbn [at0 depth reg named address_cells size_cells]; done.
Qed.

Lemma find_loop_wp fuel w (Q : fdt_status + Z * Z -> Prop) : walk_ok w -> structs_end t - at0 w < 4 * Z.of_nat fuel -> 0 < Z.of_nat fuel -> (forall r, Q r) ->
  wpr (find_loop t property value index cell_name is_list by_name fuel w) Q.
Proof.
  revert w. induction fuel as [|fuel IH]; intros w Hw Hf Hpos HQ; [lia|]. cbn [find_loop]. destruct (ok_total _ Ht) as (T1 & T2). destruct (ok_structs _ Ht) as (S1 & S2). pose proof (w_at _ Hw) as Ha. pose proof (w_depth _ Hw) as Hd. rewrite (u32_id (at0 w + 4)) by (unfold is_u32; lia).
  wp1; [wp1; apply HQ|]. bools. wp1. apply word_wp; [lia|lia|]. intros token _. cbv zeta.
  assert (Hkeep : forall w', at0 w' = at0 w + 4 -> depth w' = depth w -> reg w' = reg w -> named w' = named w -> address_cells w' = address_cells w -> size_cells w' = size_cells w -> walk_ok w').
  { intros w' E1 E2 E3 E4 E5 E6. destruct Hw. constructor; rewrite ?E1, ?E2, ?E3, ?E4, ?E5, ?E6; try done; lia. }
  set (w1 := {| w with at0 := at0 w + 4 |}). assert (Hw1 : walk_ok w1) by (by apply Hkeep).
  set (w2 := if ends_node token && in_props w1 && matched w1 && tst (node w1) then _ else w1). assert (Hw2 : walk_ok w2 /\ at0 w2 = at0 w + 4) by (split; [|by unfold w2; destruct (_ && _)]; unfold w2; destruct (_ && _); by apply Hkeep).
  wp1; [by apply decide_node_wp; [apply Hw2|]|]. set (w3 := if ends_node token then _ else w2). assert (Hw3 : walk_ok w3 /\ at0 w3 = at0 w + 4).
  { destruct Hw2 as (Hw2 & E2). unfold w3. destruct (ends_node token); [|done]. split; [|done]. destruct Hw2. by constructor. }
  destruct Hw3 as (Hw3 & E3). clearbody w3. assert (Hnext : forall w', walk_ok w' -> at0 w3 <= at0 w' -> wpr (find_loop t property value index cell_name is_list by_name fuel w') Q) by (intros w' Hw' Hle; apply IH; [done|lia|lia|done]).
  wp1; [|wp1; [|wp1; [|wp1; [|wp1]]]].
  - wp1. apply begin_node_wp; [done|lia|intros s; wp1; apply HQ|]. intros w' Hw' Hle. by apply Hnext.
  - wp1; [wp1; apply HQ|]. bools. apply Hnext; [|done]. destruct Hw3. pose proof w_cells0 as (C1 & C2). constructor; cbn [at0 depth reg named address_cells size_cells]; try done; [lia|]. split; (eapply cells_less; [eassumption|lia]).
  - wp1. apply take_prop_wp; [done|intros s; wp1; apply HQ|]. intros w' Hw' Hle. by apply Hnext.
  - wp1. apply HQ.
  - by apply Hnext.
  - wp1. apply HQ.
Qed.
End Find.

Lemma root_loop_wp property fuel p (Q : fdt_status + Z -> Prop) : In 0 property -> 0 <= p <= structs_end t + 4 -> structs_end t - p < 4 * Z.of_nat fuel -> 0 < Z.of_nat fuel ->
  (forall s, Q (inl s)) -> (forall a, ends_in (blob t) a (buf_len (blob t)) -> Q (inr a)) -> wpr (root_loop t property fuel p) Q.
Proof.
  intros H0 Hp Hf Hpos HS HQ. revert p Hp Hf Hpos. induction fuel as [|fuel IH]; intros p Hp Hf Hpos; [lia|]. cbn [root_loop]. destruct (ok_total _ Ht) as (T1 & T2). destruct (ok_structs _ Ht) as (S1 & S2). destruct (ok_strings _ Ht) as (G1 & G2).
  rewrite (u32_id (p + 4)) by (unfold is_u32; lia). wp1; [wp1; apply HS|]. bools. wp1. apply word_wp; [lia|lia|]. intros token _. cbv zeta. wp1; [|wp1; [wp1; apply HS|wp1; [wp1; apply HS|apply IH; lia]]].
  wp1. apply read_prop_wp; [lia|intros s; wp1; apply HS|]. intros v key next (V1 & V2 & V3) K N. wp1. eapply fdt_same_wp; [done|exact K|lia|]. intros same. wp1; [|apply IH; lia]. wp1; [wp1; apply HS|]. bools.
  rewrite u32_id by (unfold is_u32; lia). wp1. apply wpr_buf_get; [lia|]. wp1; [wp1; apply HS|]. wp1. repeat match goal with H : tst _ = false |- _ => apply tst_false in H end. apply HQ. exists (offset v + length0 v - 1). split; [lia|]. split; [lia|done].
Qed.

Lemma walk_fuel_enough p : 0 <= p -> structs_end t - p < 4 * Z.of_nat (walk_fuel t) /\ 0 < Z.of_nat (walk_fuel t).
Proof. intros Hp. destruct (ok_structs _ Ht). unfold walk_fuel. pose proof (Z.div_pos (structs_end t) 4). split; [zlia|lia]. Qed.

Lemma root_string_wp property (Q : fdt_status + Z -> Prop) : In 0 property -> (forall s, Q (inl s)) -> (forall a, ends_in (blob t) a (buf_len (blob t)) -> Q (inr a)) -> wpr (fdt_root_string t property) Q.
Proof.
  intros H0 HS HQ. destruct (ok_total _ Ht) as (T1 & T2). destruct (ok_structs _ Ht) as (S1 & S2). unfold fdt_root_string. rewrite (u32_id (structs t + 4)) by (unfold is_u32; lia). wp1; [wp1; apply HS|]. bools.
  wp1. apply word_wp; [lia|lia|]. intros token _. wp1; [wp1; apply HS|]. wp1. apply skip_name_wp; [lia|]. intros next Hn. destruct (walk_fuel_enough next ltac:(lia)). apply root_loop_wp; try done; lia.
Qed.

Lemma same_literals_wp a b (Q : bool -> Prop) : In 0 a -> In 0 b -> (forall r, Q r) -> wpr (same_literals a b) Q.
Proof.
  intros Ha Hb HQ. revert b Ha Hb. induction a as [|c a IH]; intros [|d b] Ha Hb; try done. cbn [same_literals]. wp1; [|wp1; apply HQ]. apply andb_true_iff in H as [H1 H2]. apply tst_true in H1. apply Z.eqb_eq in H2. subst d.
  apply IH; [by destruct Ha|by destruct Hb].
Qed.

Lemma first_walk_ok node0 : walk_ok (first_walk t node0).
Proof.
  destruct (ok_structs _ Ht) as (S1 & S2). constructor; cbn [first_walk at0 depth reg named address_cells size_cells]; [lia|lia|split; cbn; lia|done|]. split; (split; [done|]; intros i Hi; lia).
Qed.

Lemma find_wp property value node0 index cell_name (Q : fdt_status + Z * Z -> Prop) : In 0 property -> In 0 value -> 0 <= index -> from_option (In 0) True cell_name -> (forall r, Q r) ->
  wpr (find t property value node0 index cell_name) Q.
Proof.
  intros Hp Hv Hi Hc HQ. unfold find. destruct (ok_structs _ Ht) as (S1 & S2). wp1. apply same_literals_wp; [done|cbn; tauto|]. intros is_list. wp1. apply same_literals_wp; [done|cbn; tauto|]. intros by_name.
  destruct (walk_fuel_enough (structs t) ltac:(lia)). apply find_loop_wp; try done. apply first_walk_ok.
Qed.
End Tree.
End Safe.

(** C8: Whatever bytes a device tree holds, opening it returns, and if its header is accepted
    every query of every node, property and cell returns and reads only inside the blob: no
    offset, length, name or cell count in the tree leads outside it, and no chain of tokens
    keeps a walk from ending.  A string the root answers ends inside the blob. *)
Theorem fdt_queries_safe h : buf_ok h -> 40 <= buf_len h -> (forall n, be32 h 4 = Ok n -> n <= buf_len h /\ n <= 0xfffffff0) ->
  exists r, fdt_open h = Ok r /\ forall t, r = inr t ->
    (forall property value node0 index cell_name, In 0 property -> In 0 value -> 0 <= index -> from_option (In 0) True cell_name -> exists a, find t property value node0 index cell_name = Ok a)
    /\ (forall property, In 0 property -> exists a, fdt_root_string t property = Ok a /\ forall p, a = inr p -> ends_in h p (buf_len h)).
Proof.
  intros Hb Hl Hn. destruct (wpr_total (fdt_open h) (fun r => forall t, r = inr t -> fdt_ok t /\ blob t = h)) as (r & Er & Hr).
  { apply open_wp; [done|done|done|done|]. by intros t Ht Eb t' [= <-]. }
  exists r. split; [done|]. intros t Et. destruct (Hr t Et) as (Ht & Eb). split.
  - intros property value node0 index cell_name Hp Hv Hi Hc. destruct (wpr_total (find t property value node0 index cell_name) (fun _ => True)) as (a & Ea & _); [by apply find_wp|by exists a].
  - intros property Hp. destruct (wpr_total (fdt_root_string t property) (fun a => forall p, a = inr p -> ends_in h p (buf_len h))) as (a & Ea & Ha); [|by exists a]. rewrite <- Eb. apply root_string_wp; [done|done|done|]. by intros a Ha p [= <-].
Qed.
End FdtProofs.
