(* ===== verification/Kernel.v ===== *)
(** * The kernel (programs/rv32/os/kernel.c)

    Processes, their memory and page tables, their open files, the scheduler, the
    system calls and the trap handler.  The devices are behind [Platform], the
    accesses of mmio.h with any answers; the file system is fs.c's, over any disk;
    memory is the machine's RAM, where the page tables and the programs are.  What
    [discover] found at boot is the record [board].  A step that stops the machine
    ([halt]) has no result: [None].  The static variables are the record [kernel];
    a process is its index in the table. *)

From Stdlib Require Import String Ascii.
From S2P Require Import Prelude Effects Buffer Fs.

(** The devices: [mmio_read32] and its like, with what they answer. *)
Class Platform (E : Type) : Type := {
  read32 : Z -> E -> Z * E;
  write32 : Z -> Z -> E -> E;
  read8 : Z -> E -> Z * E;
  write8 : Z -> Z -> E -> E;
}.

(** How often a loop that waits for a device looks. *)
Class Polls : Type := polls : nat.

Module Kernel.
Import Fs.

Definition MAX_PROCS : Z := 8.
Definition KEY_BUFFER : Z := 64.
Definition ARGS_MAX : Z := 64.
Definition MSTATUS_MPIE : Z := 0x80.
Definition MSTATUS_FS : Z := 0x6000.
Definition MSTATUS_FS_CLEAN : Z := 0x4000.
Definition CAUSE_ILLEGAL : Z := 2.
Definition CAUSE_ECALL_M : Z := 11.
Definition CAUSE_ECALL_U : Z := 8.
Definition CAUSE_LOAD_PAGE : Z := 13.
Definition CAUSE_STORE_PAGE : Z := 15.
Definition RAMDISK_MAGIC : Z := 0x4b534452.
Definition RAMDISK_HEADER : Z := 16.
Definition OPEN_FILES : Z := 4.
Definition PAGE_SIZE : Z := 4096.
Definition PTE_V : Z := 0x01.
Definition PTE_R : Z := 0x02.
Definition PTE_W : Z := 0x04.
Definition PTE_X : Z := 0x08.
Definition PTE_U : Z := 0x10.
Definition PTE_A : Z := 0x40.
Definition PTE_D : Z := 0x80.
Definition SATP_SV32 : Z := 0x80000000.
Definition PAGE_TABLES : Z := 7.
Definition PROGRAM_ACCELERATORS : Z := 1.
Definition SYS_ERROR : Z := 0xffffffff.
Definition OS_FIRST_FILE : Z := 3.
Definition OS_GUARD_SIZE : Z := 0x1000.
Definition OS_PALETTE_ENTRIES : Z := 256.
Definition OS_PALETTE_READ : Z := 0.
Definition OS_PALETTE_WRITE : Z := 1.
Definition O_READ : Z := 1.
Definition O_WRITE : Z := 2.
Definition O_CREATE : Z := 4.
Definition SEEK_FROM_START : Z := 0.
Definition SEEK_FROM_CURRENT : Z := 1.
Definition SEEK_FROM_END : Z := 2.
Definition RAM_BASE : Z := 0x80000000.
Definition MCAUSE_INTERRUPT : Z := 0x80000000.
Definition IRQ_MTI : Z := 7.
Definition IRQ_MEI : Z := 11.
Definition PMP_R : Z := 0x01.
Definition PMP_W : Z := 0x02.
Definition PMP_X : Z := 0x04.
Definition PMP_TOR : Z := 0x08.
Definition RV32_DONE_PASS : Z := 0x5555.
Definition RV32_DONE_FAIL : Z := 0x3333.
Definition RV32_CONSOLE_TX : Z := 0x0.
Definition RV32_CONSOLE_STATUS : Z := 0x5.
Definition RV32_CONSOLE_TX_READY : Z := 0x20.
Definition RV32_CLINT_MTIME : Z := 0xbff8.
Definition RV32_CLINT_MTIMECMP : Z := 0x4000.
Definition RV32_PLIC_CLAIM : Z := 0x200004.
Definition RV32_INPUT_EVENT : Z := 0x0.
Definition RV32_INPUT_KEYS : Z := 0x8.
Definition RV32_DISPLAY_PRESENT : Z := 0x0.
Definition RV32_DISPLAY_FRAMES : Z := 0x4.
Definition RV32_DMA_WINDOW_START : Z := 0x0.
Definition RV32_DMA_WINDOW_END : Z := 0x4.
Definition GPU_COMMAND : Z := 0x00.
Definition GPU_STATUS : Z := 0x04.
Definition GPU_RESET : Z := 2.
Definition GPU_BUSY : Z := 1.
Definition G3D_COMMAND : Z := 0x00.
Definition G3D_STATUS : Z := 0x04.
Definition G3D_RESET : Z := 2.
Definition G3D_BUSY : Z := 1.

(** ** Data *)

Record frame : Type := { x : list Z; pc : Z; mstatus : Z }.
Inductive pstate : Type := FREE | READY | RUNNING | BLOCKED_READ | BLOCKED_WAIT | BLOCKED_SLEEP | ZOMBIE.
#[export] Instance pstate_eq_dec : EqDecision pstate.
Proof. solve_decision. Defined.
Record open_file : Type := { mode : Z; file : Z; position : Z }.
Record proc : Type := {
  f : frame; files : list open_file; state : pstate;
  pid : Z; parent : Z; base : Z; span : Z; brk : Z; exit_code : Z; wait_pid : Z; flags : Z; switches : Z; wake : Z;
  pname : list Z }.
Record program : Type := {
  p_name : list Z; load : Z; entry : Z; file_size : Z; memory_size : Z; offset : Z; p_flags : Z; p_span : Z; stack : Z }.
(** The layout of an entry's tables, and its floating state: 32 registers and fcsr. *)
Record address_space : Type := { tables : Z; s_base : Z; s_span : Z; guard : Z; drives_engines : bool; fp : list Z }.

Definition no_frame : frame := {| x := replicate 32 0; pc := 0; mstatus := 0 |}.
Definition closed : open_file := {| mode := 0; file := 0; position := 0 |}.
(** [memset(p, 0, sizeof *p)] *)
Definition no_proc : proc :=
  {| f := no_frame; files := replicate 4 closed; state := FREE; pid := 0; parent := 0; base := 0; span := 0; brk := 0; exit_code := 0;
     wait_pid := 0; flags := 0; switches := 0; wake := 0; pname := replicate 24 0 |}.
Definition no_space : address_space := {| tables := 0; s_base := 0; s_span := 0; guard := 0; drives_engines := false; fp := replicate 33 0 |}.
#[export] Instance open_file_inhabited : Inhabited open_file := populate closed.
#[export] Instance proc_inhabited : Inhabited proc := populate no_proc.
#[export] Instance space_inhabited : Inhabited address_space := populate no_space.

(** What the device tree said; 0 for a device that is not there. *)
Record board : Type := {
  console : Z; done_register : Z; clint : Z; plic : Z; input : Z; input_source : Z; display : Z; framebuffer : Z; framebuffer_size : Z;
  palette : Z; boot_palette : list Z; gpu : Z; g3d : Z; accelerators : Z; accelerators_end : Z; engine_windows : list (Z * Z);
  dma_window : Z; tick : Z;
  page_tables : Z; pagetables_end : Z; (** the linker's bounds of the page tables *)
  trap_vector : Z; kernel_idle : Z; idle_stack_top : Z; (** and other addresses of the image *)
  disk_base : Z; model : list Z; ramdisk : list Z }.

(** The hart's registers the kernel writes. *)
Record hart : Type := { pmpaddr : list Z; pmpcfg0 : Z; pmpcfg1 : Z; satp : Z; mtvec : Z; mie : Z; mcounteren : Z; scounteren : Z; fpu : list Z }.

Record kernel (D E : Type) : Type := {
  procs : list proc; idle_frame : frame; current : option Z; fpu_owner : option Z; next_pid : Z; exits : Z; exit_sum : Z;
  palette_writer : Z; protected_pid : Z; faulted : bool; keys : list Z; key_head : Z; key_count : Z; keys_dropped : Z;
  spaces : list address_space; engines_used : bool; reported : bool;
  fs : fs_state D; ram : buffer; cpu : hart; env : E;
  stopped : bool }.
Arguments procs {D E}. Arguments idle_frame {D E}. Arguments current {D E}. Arguments fpu_owner {D E}. Arguments next_pid {D E}. Arguments exits {D E}.
Arguments exit_sum {D E}. Arguments palette_writer {D E}. Arguments protected_pid {D E}. Arguments faulted {D E}. Arguments keys {D E}.
Arguments key_head {D E}. Arguments key_count {D E}. Arguments keys_dropped {D E}. Arguments spaces {D E}. Arguments engines_used {D E}.
Arguments reported {D E}. Arguments fs {D E}. Arguments ram {D E}. Arguments cpu {D E}. Arguments env {D E}. Arguments stopped {D E}.

(** What a string literal holds, without its terminator. *)
Definition message (s : string) : list Z := map (fun c => Z.of_N (N_of_ascii c)) (list_ascii_of_string s).
Arguments message s%_string.

Notation "x ←! c ; k" := (c ≫= (fun o => match o with Some x => k | None => mret None end))
  (at level 20, c at level 100, k at level 200, right associativity, only parsing).

Section Kernel.
Context {D E : Type} {BD : BlockDevice D} {PF : Platform E} {PL : Polls} (B : board).
Abbreviation state_of := (kernel D E).
Abbreviation KM := (ST (kernel D E)).

(** ** Accesses *)

Definition mmio_read32 (a : Z) : KM Z := fun k => let '(v, e) := read32 a (env k) in Ok (u32 v, {| k with env := e |}).
Definition mmio_write32 (a v : Z) : KM () := fun k => Ok ((), {| k with env := write32 a v (env k) |}).
Definition mmio_read8 (a : Z) : KM Z := fun k => let '(v, e) := read8 a (env k) in Ok (u8 v, {| k with env := e |}).
Definition mmio_write8 (a v : Z) : KM () := fun k => Ok ((), {| k with env := write8 a v (env k) |}).

(** The file system's operations. *)
Definition on_fs {A} (c : ST (fs_state D) A) : KM A := zoom fs (fun s k => {| k with fs := s |}) c.

(** Memory, by physical address. *)
Definition peek (a width : Z) : KM Z := b ← gets ram; lift (bytes_read b (a - RAM_BASE) width).
Definition poke (a width v : Z) : KM () := b ← gets ram; b' ← lift (bytes_write b (a - RAM_BASE) width v); modify (fun k => {| k with ram := b' |}).
Definition get_bytes (a n : Z) : KM (list Z) := b ← gets ram; lift (buf_bytes b (a - RAM_BASE) (Z.to_nat n)).
Definition put_bytes (a : Z) (l : list Z) : KM () := b ← gets ram; b' ← lift (buf_load b (a - RAM_BASE) l); modify (fun k => {| k with ram := b' |}).

Definition proc_at (i : Z) : KM proc := l ← gets procs; lift (aget l i).
Definition set_proc (i : Z) (p : proc) : KM () := l ← gets procs; l' ← lift (aset l i p); modify (fun k => {| k with procs := l' |}).
Definition upd_proc (i : Z) (g : proc -> proc) : KM () := p ← proc_at i; set_proc i (g p).
Definition set_state (i : Z) (st : pstate) : KM () := upd_proc i (fun p => {| p with state := st |}).
Definition space_at (i : Z) : KM address_space := l ← gets spaces; lift (aget l i).
Definition set_space (i : Z) (s : address_space) : KM () := l ← gets spaces; l' ← lift (aset l i s); modify (fun k => {| k with spaces := l' |}).

(** ** The console *)

Fixpoint wait_tx (n : nat) : KM () :=
  match n with
  | O => no_fuel
  | S n' => s ← mmio_read8 (console B + RV32_CONSOLE_STATUS); if tst (s .& RV32_CONSOLE_TX_READY) then mret () else wait_tx n'
  end.
Definition kputc (c : Z) : KM () := wait_tx polls;; mmio_write8 (console B + RV32_CONSOLE_TX) (u8 c).
Fixpoint kputs (s : list Z) : KM () := match s with [] => mret () | c :: s' => kputc c;; kputs s' end.
(** Print a literal. *)
Definition ksay (s : string) : KM () := kputs (message s).
Arguments ksay s%_string.
(** Print a C string held in an array. *)
Fixpoint kput_name (s : list Z) : KM () := match s with [] => stuck | c :: s' => if c =? 0 then mret () else kputc c;; kput_name s' end.

(** The decimal digits, most significant first. *)
Fixpoint decimal_digits (n : nat) (value : Z) (acc : list Z) : list Z :=
  match n with
  | O => acc
  | S n' => let acc := (48 + value mod 10) :: acc in if value / 10 =? 0 then acc else decimal_digits n' (value / 10) acc
  end.
Definition kdecimal (value : Z) : list Z := decimal_digits 10 value [].
Definition kputdec (value : Z) : KM () := kputs (kdecimal value).
Definition hex_digit (digit : Z) : Z := if digit <? 10 then 48 + digit else 97 + digit - 10.
Fixpoint kputhex_from (n : nat) (shift value : Z) : KM () :=
  match n with O => mret () | S n' => kputc (hex_digit ((value .>> shift) .& 15));; kputhex_from n' (shift - 4) value end.
Definition kputhex (value : Z) : KM () := kputhex_from 8 28 value.
Fixpoint kputhex_short_from (n : nat) (shift value : Z) : KM () :=
  match n with
  | O => mret ()
  | S n' => if (0 <? shift) && (value .>> shift =? 0) then kputhex_short_from n' (shift - 4) value else kputhex_from n shift value
  end.
Definition kputhex_short (value : Z) : KM () := kputhex_short_from 8 28 value.
Definition console_ready : KM bool := s ← mmio_read8 (console B + RV32_CONSOLE_STATUS); mret (tst (s .& 1)).

Fixpoint clint_mtime (n : nat) : KM Z :=
  match n with
  | O => no_fuel
  | S n' =>
      hi ← mmio_read32 (clint B + RV32_CLINT_MTIME + 4);
      lo ← mmio_read32 (clint B + RV32_CLINT_MTIME);
      again ← mmio_read32 (clint B + RV32_CLINT_MTIME + 4);
      if hi =? again then mret (u64 ((hi .<< 32) .| lo)) else clint_mtime n'
  end.
Definition mtime : KM Z := clint_mtime polls.
Definition set_timer (when0 : Z) : KM () :=
  mmio_write32 (clint B + RV32_CLINT_MTIMECMP) 0xffffffff;;
  mmio_write32 (clint B + RV32_CLINT_MTIMECMP + 4) (u32 (when0 .>> 32));;
  mmio_write32 (clint B + RV32_CLINT_MTIMECMP) (u32 when0).

Fixpoint fold_name (s : list Z) (h : Z) : res Z :=
  match s with [] => Stuck | c :: s' => if c =? 0 then mret h else fold_name s' (u32 ((h .^ u8 c) * 16777619)) end.

(** ** Stopping the machine *)

Definition has_writer (p : proc) : bool := negb (bool_decide (state p = FREE)) && existsb (fun o => mode o =? O_WRITE) (files p).

Definition halt {A} (code : Z) : KM (option A) :=
  k ← gets id;
  when (existsb has_writer (procs k) && negb (faulted k))
    (ok ← on_fs fs_flush; when (negb ok) (ksay "kernel: halt: the directory could not be written";; kputc 10));;
  when (tst (keys_dropped k)) (ksay "kernel: ";; kputdec (keys_dropped k);; ksay " input events dropped: the buffer was full";; kputc 10);;
  (if code =? 0 then
     ksay "kernel: halt, ";; kputdec (exits k);; ksay " exits";; kputc 10;; ksay "PASS ";; kputhex (exit_sum k);; kputc 10;;
     mmio_write32 (done_register B) RV32_DONE_PASS
   else
     ksay "kernel: halt ";; kputdec code;; kputc 10;;
     mmio_write32 (done_register B) (((code .& 0xff) .<< 16) .| RV32_DONE_FAIL));;
  modify (fun k => {| k with stopped := true |});;
  mret None.

Definition panic {A} (why : string) : KM (option A) := ksay "kernel: panic: ";; ksay why;; kputc 10;; halt 255.
Arguments panic {A} why%_string.

(** ** A process's memory *)

Definition guard_of (i : Z) : KM Z := s ← space_at i; mret (guard s).

Definition user_range (i address len : Z) : KM bool :=
  p ← proc_at i;
  if negb ((base p <=? address) && (len <=? span p) && (u32 (address - base p) <=? u32 (span p - len))) then mret false
  else
    g ← guard_of i;
    mret (negb (tst len && (address <? u32 (g + OS_GUARD_SIZE)) && (g <? u32 (address + len)))).

(** A NUL-terminated user string of at most [max] bytes: the bytes, with the NUL. *)
Fixpoint user_string_from (n : nat) (i address : Z) : KM (option (list Z)) :=
  match n with
  | O => mret None
  | S n' =>
      ok ← user_range i address 1;
      if negb ok then mret None
      else
        c ← peek address 1;
        if c =? 0 then mret (Some [0])
        else rest ← user_string_from n' i (u32 (address + 1)); mret (option_map (cons c) rest)
  end.
Definition user_string (i address max : Z) : KM (option (list Z)) := user_string_from (Z.to_nat max) i address.

(** ** Programs *)

Definition slice (l : list Z) (p n : Z) : res (list Z) :=
  if (0 <=? p) && (p + n <=? Z.of_nat (length l)) then Ok (take (Z.to_nat n) (drop (Z.to_nat p) l)) else Stuck.

(** The 56 bytes of [struct program]. *)
Definition bytes_program (l : list Z) : program :=
  {| p_name := take 24 l; load := bytes_word l 24; entry := bytes_word l 28; file_size := bytes_word l 32; memory_size := bytes_word l 36;
     offset := bytes_word l 40; p_flags := bytes_word l 44; p_span := bytes_word l 48; stack := bytes_word l 52 |}.
Definition program_at (i : Z) : res program := l ← slice (ramdisk B) (RAMDISK_HEADER + 56 * i) 56; mret (bytes_program l).

Definition programs : KM (option Z) :=
  let l := ramdisk B in
  if (Z.of_nat (length l) <? RAMDISK_HEADER) || negb (bytes_word l 0 =? RAMDISK_MAGIC) || tst (bytes_word l 8) || tst (bytes_word l 12)
  then panic "no RAM disk" else mret (Some (bytes_word l 4)).

Definition entry_ok (e : program) (size : Z) : bool :=
  let slots_end := OS_SLOT_BASE + OS_SLOTS * OS_SLOT_SIZE in
  negb (tst (at_ (p_name e) 23) || tst (p_flags e .& not32 PROGRAM_ACCELERATORS) || (size <? offset e) || (u32 (size - offset e) <? file_size e)
        || (memory_size e <? file_size e) || (p_span e =? 0) || tst (p_span e mod OS_SLOT_SIZE)
        || (OS_SLOTS * OS_SLOT_SIZE <? p_span e) || (load e <? OS_SLOT_BASE) || tst (u32 (load e - OS_SLOT_BASE) mod OS_SLOT_SIZE)
        || (u32 (slots_end - p_span e) <? load e) || tst (stack e mod PAGE_SIZE) || (stack e <? 2 * PAGE_SIZE)
        || (p_span e <=? stack e) || (u32 (p_span e - stack e) <? memory_size e)
        || (entry e <? load e) || (file_size e <=? u32 (entry e - load e))).

Fixpoint check_entries (n : nat) (i size : Z) : KM (option ()) :=
  match n with
  | O => mret (Some ())
  | S n' =>
      e ← lift (program_at i);
      if entry_ok e size then check_entries n' (i + 1) size
      else ksay "kernel: RAM disk entry ";; kputdec i;; kputc 10;; panic "bad RAM disk entry"
  end.
Definition check_programs : KM (option ()) :=
  let size := Z.of_nat (length (ramdisk B)) in
  count ←! programs;
  if (size - RAMDISK_HEADER) / 56 <? count then panic "RAM disk table larger than the disk"
  else check_entries (Z.to_nat count) 0 size.

(** [fdt_same]: C strings are equal. *)
Fixpoint fdt_same (a b : list Z) : res bool :=
  match a, b with
  | c :: a', d :: b' => if tst c && (c =? d) then fdt_same a' b' else mret (c =? d)
  | _, _ => Stuck
  end.

Fixpoint find_program (n : nat) (i : Z) (name : list Z) : res (option program) :=
  match n with
  | O => mret None
  | S n' => e ← program_at i; found ← fdt_same (p_name e) name; if (found : bool) then mret (Some e) else find_program n' (i + 1) name
  end.
Definition program_named (name : list Z) : KM (option (option program)) :=
  count ←! programs; r ← lift (find_program (Z.to_nat count) 0 name); mret (Some r).

Definition alive (p : proc) : bool := negb (bool_decide (state p = FREE)) && negb (bool_decide (state p = ZOMBIE)).

(** ** Page tables *)

(** [page_tables[entry][table]] *)
Definition table_address (entry table : Z) : Z := page_tables B + (entry * PAGE_TABLES + table) * PAGE_SIZE.

Fixpoint clear_words (n : nat) (a : Z) : KM () := match n with O => mret () | S n' => poke a 4 0;; clear_words n' (a + 4) end.
Definition clear_table (a : Z) : KM () := clear_words 1024 a.

(** The pages from [page] up to [end0]. *)
Fixpoint map_pages (n : nat) (entry page end0 rights : Z) : KM (option ()) :=
  match n with
  | O => no_fuel
  | S n' =>
      if page <? end0 then
        let pointer := table_address entry 0 + 4 * (page .>> 22) in
        v ← peek pointer 4;
        taken ← (if tst (v .& PTE_V) then mret (Some true)
                 else if rights =? 0 then mret (Some false)
                 else
                   s ← space_at entry;
                   if tables s =? PAGE_TABLES then panic "page tables full"
                   else
                     let table := table_address entry (tables s) in
                     set_space entry {| s with tables := tables s + 1 |};;
                     clear_table table;;
                     poke pointer 4 (((table .>> 12) .<< 10) .| PTE_V);;
                     mret (Some true));
        match taken with
        | None => mret None
        | Some false => map_pages n' entry (u32 (page + PAGE_SIZE)) end0 rights
        | Some true =>
            v ← peek pointer 4;
            poke (((v .>> 10) .<< 12) + 4 * ((page .>> 12) .& 1023)) 4
              (if rights =? 0 then 0 else ((page .>> 12) .<< 10) .| rights .| PTE_V .| PTE_U .| PTE_A .| PTE_D);;
            map_pages n' entry (u32 (page + PAGE_SIZE)) end0 rights
        end
      else mret (Some ())
  end.
Definition map_range (entry start end0 rights : Z) : KM (option ()) :=
  s ← space_at entry;
  if tables s =? 0 then panic "map before the root"
  else map_pages (Z.to_nat (end0 / PAGE_SIZE - start / PAGE_SIZE + 2)) entry (start .& not32 (PAGE_SIZE - 1)) end0 rights.

Fixpoint map_windows (ws : list (Z * Z)) (entry data : Z) : KM (option ()) :=
  match ws with
  | [] => mret (Some ())
  | (b, n) :: ws' => _ ←! map_range entry b (u32 (b + n)) data; map_windows ws' entry data
  end.
Definition lay_out (entry rights : Z) : KM (option ()) :=
  s ← space_at entry;
  let data := rights .& not32 PTE_X in
  _ ←! map_range entry (s_base s) (guard s) rights;
  _ ←! map_range entry (u32 (guard s + OS_GUARD_SIZE)) (u32 (s_base s + s_span s)) rights;
  _ ←! (if tst (framebuffer B) then map_range entry (framebuffer B) (u32 (framebuffer B + framebuffer_size B)) data else mret (Some ()));
  if drives_engines s then map_windows (engine_windows B) entry data else mret (Some ()).

Definition map_process (i stack0 : Z) : KM (option ()) :=
  s ← space_at i;
  _ ←! (if tst (tables s) then lay_out i 0
        else clear_table (table_address i 0);; s ← space_at i; set_space i {| s with tables := 1 |};; mret (Some ()));
  p ← proc_at i;
  s ← space_at i;
  set_space i {| s with s_base := base p; s_span := span p; guard := u32 (base p + span p - stack0); drives_engines := tst (flags p .& PROGRAM_ACCELERATORS) |};;
  lay_out i (PTE_R .| PTE_W .| PTE_X).

(** The 4 MiB regions a range touches, added to those so far, at most [max]. *)
Fixpoint add_from (n : nat) (region last : Z) (regions : list Z) (max : Z) : option (list Z) :=
  match n with
  | O => Some regions
  | S n' =>
      if region <=? last then
        if existsb (Z.eqb region) regions then add_from n' (region + 1) last regions max
        else if Z.of_nat (length regions) =? max then None
        else add_from n' (region + 1) last (regions ++ [region]) max
      else Some regions
  end.
Definition add_regions (regions : list Z) (max start end0 : Z) : option (list Z) :=
  add_from 1025 (start .>> 22) (u32 (end0 - 1) .>> 22) regions max.
Fixpoint add_windows (ws : list (Z * Z)) (regions : list Z) (max : Z) : option (list Z) :=
  match ws with
  | [] => Some regions
  | (b, n) :: ws' => match add_regions regions max b (u32 (b + n)) with None => None | Some r => add_windows ws' r max end
  end.
Definition page_table_budget : option (list Z) :=
  let max := PAGE_TABLES - 1 in
  match add_regions [] max OS_SLOT_BASE (OS_SLOT_BASE + OS_SLOTS * OS_SLOT_SIZE) with
  | None => None
  | Some r =>
      match (if tst (framebuffer B) then add_regions r max (framebuffer B) (u32 (framebuffer B + framebuffer_size B)) else Some r) with
      | None => None
      | Some r => add_windows (engine_windows B) r max
      end
  end.
Definition check_page_table_budget : KM (option ()) :=
  match page_table_budget with
  | None => panic "page tables: more 4 MiB regions than an entry has tables"
  | Some _ => mret (Some ())
  end.

(** ** Open files *)

Definition open_file_of (p : proc) (fd mode0 : Z) : res (option open_file) :=
  if (fd <? OS_FIRST_FILE) || (OS_FIRST_FILE + OPEN_FILES <=? fd) then mret None
  else
    o ← aget (files p) (fd - OS_FIRST_FILE);
    mret (if (mode o =? 0) || (tst mode0 && negb (mode o =? mode0)) then None else Some o).

Definition set_file (i k : Z) (o : open_file) : KM () :=
  p ← proc_at i; l ← lift (aset (files p) k o); set_proc i {| p with files := l |}.

(** A descriptor that keeps the file from being opened. *)
Definition conflicts (file0 mode0 : Z) (o : open_file) : bool :=
  tst (mode o) && (file o =? file0) && ((mode0 =? O_WRITE) || (mode o =? O_WRITE)).
Definition may_open (ps : list proc) (file0 mode0 : Z) : bool :=
  negb (existsb (fun p => negb (bool_decide (state p = FREE)) && existsb (conflicts file0 mode0) (files p)) ps).

(** [close_file]: whether a written file's size could not be written. *)
Definition close_file (i k : Z) : KM bool :=
  p ← proc_at i;
  o ← lift (aget (files p) k);
  set_file i k {| o with mode := 0 |};;
  if mode o =? O_WRITE then ok ← on_fs fs_flush; mret (negb ok) else mret false.

(** ** Starting a program *)

Definition refuse_disk_program (name : list Z) (why : string) : KM (option (option (Z * program))) :=
  ksay "kernel: ";; kput_name name;; ksay ": ";; ksay why;; kputc 10;; mret (Some None).
Arguments refuse_disk_program name why%_string.

(** The header, then the entry, are read into variables of the kernel; a program
    on the disk is the file and its entry. *)
Definition disk_program (name : list Z) : KM (option (option (Z * program))) :=
  file ← on_fs (fs_open name false);
  if file <? 0 then mret (Some None)
  else
    k ← gets id;
    if negb (may_open (procs k) file O_READ) then refuse_disk_program name "being written"
    else
      size ← on_fs (fs_size file);
      '(n, header) ← on_fs (fs_read file 0 0 (replicate 16 0) 16);
      if negb (n =? 16) || negb (bytes_word header 0 =? RAMDISK_MAGIC) || negb (bytes_word header 4 =? 1) || tst (bytes_word header 8) || tst (bytes_word header 12)
      then refuse_disk_program name "not a program"
      else
        '(n, l) ← on_fs (fs_read file 16 0 (replicate 56 0) 56);
        if negb (n =? 56) then refuse_disk_program name "not a program"
        else
          let e := bytes_program l in
          if negb (entry_ok e size) then refuse_disk_program name "a program that breaks the slot rules"
          else
            same ← lift (fdt_same (p_name e) name);
            if negb same then refuse_disk_program name "a program filed under another name"
            else if tst (p_flags e) then refuse_disk_program name "a program on the disk may not drive the accelerators"
            else mret (Some (Some (file, e))).

(** The process's slots overlap the program's. *)
Definition overlaps (p : proc) (e : program) : bool :=
  alive p && (base p <? u32 (load e + p_span e)) && (load e <? u32 (base p + span p)).

(** The entry a new process takes: [None] when the slots are in use or the table is full. *)
Fixpoint free_entry (ps : list proc) (i : Z) (e : program) (free : option Z) : option Z :=
  match ps with
  | [] => free
  | p :: ps' =>
      if overlaps p e then None
      else free_entry ps' (i + 1) e (match free with Some j => Some j | None => if bool_decide (state p = FREE) then Some i else None end)
  end.

(** The arguments, cut to what fits, with their NUL. *)
Fixpoint cut_args (n : nat) (l : list Z) : res (list Z) :=
  match l with
  | [] => Stuck
  | c :: l' => if c =? 0 then mret [0] else match n with O => mret [0] | S n' => r ← cut_args n' l'; mret (c :: r) end
  end.
(** The name, up to 23 characters, in an array of 24. *)
Fixpoint name_prefix (n : nat) (l : list Z) : res (list Z) :=
  match l with
  | [] => Stuck
  | c :: l' => if c =? 0 then mret [] else match n with O => mret [] | S n' => r ← name_prefix n' l'; mret (c :: r) end
  end.

(** Load the program, from the RAM disk or from the file, and make it ready. *)
Definition start_program (file : option Z) (e : program) (args : list Z) (parent0 : Z) : KM (option (option Z)) :=
  k ← gets id;
  match free_entry (procs k) 0 e None with
  | None => mret (Some None)
  | Some i =>
      image ← (match file with
               | None => l ← lift (slice (ramdisk B) (offset e) (file_size e)); put_bytes (load e) l;; mret true
               | Some file =>
                   to ← get_bytes (load e) (file_size e);
                   '(n, l) ← on_fs (fs_read file (offset e) (load e) to (file_size e));
                   put_bytes (load e) l;;
                   mret (n =? file_size e)
               end);
      if negb image then mret (Some None)
      else
        put_bytes (load e + file_size e) (replicate (Z.to_nat (memory_size e - file_size e)) 0);;
        let top := u32 (load e + p_span e) in
        copy ← lift (cut_args (Z.to_nat (ARGS_MAX - 1)) args);
        put_bytes (top - ARGS_MAX) copy;;
        prefix ← lift (name_prefix 23 (p_name e));
        s ← space_at i;
        set_space i {| s with fp := replicate 33 0 |};;
        id0 ← gets next_pid;
        modify (fun k => {| k with next_pid := u32 (next_pid k + 1) |});;
        set_proc i
          {| f := {| x := <[10%nat := top - ARGS_MAX]> (<[2%nat := (top - ARGS_MAX - 16) .& not32 15]> (replicate 32 0)); pc := entry e; mstatus := MSTATUS_MPIE |};
             files := replicate 4 closed; state := READY; pid := id0; parent := parent0; base := load e; span := p_span e;
             brk := u32 (load e + memory_size e + 15) .& not32 15; exit_code := 0; wait_pid := 0; flags := p_flags e; switches := 0; wake := 0;
             pname := prefix ++ replicate (24 - length prefix) 0 |};;
        _ ←! map_process i (stack e);
        mret (Some (Some i))
  end.

(** [spawn] answers the new process's entry in the table, if any. *)
Definition spawn (name args : list Z) (parent0 : Z) : KM (option (option Z)) :=
  named ←! program_named name;
  match named with
  | Some e => start_program None e args parent0
  | None => r ←! disk_program name; match r with Some (file, e) => start_program (Some file) e args parent0 | None => mret (Some None) end
  end.

(** ** Ending a process *)

Definition drives (p : proc) : bool := tst (flags p .& PROGRAM_ACCELERATORS).

Definition engine_busy (engine status busy : Z) : KM bool :=
  if tst engine then v ← mmio_read32 (engine + status); mret (tst (v .& busy)) else mret false.

(** Another live process, not entry [i], that drives the engines. *)
Definition other_driver (ps : list proc) (i : Z) : bool :=
  existsb (fun j => negb (Z.of_nat j =? i) && alive (ps !!! j) && drives (ps !!! j)) (seq 0 8).

Definition stop_orphaned_engines (i : Z) : KM () :=
  p ← proc_at i;
  k ← gets id;
  if negb (drives p) || other_driver (procs k) i then mret ()
  else
    g1 ← engine_busy (gpu B) GPU_STATUS GPU_BUSY;
    when g1 (mmio_write32 (gpu B + GPU_COMMAND) GPU_RESET);;
    g2 ← engine_busy (g3d B) G3D_STATUS G3D_BUSY;
    when g2 (mmio_write32 (g3d B + G3D_COMMAND) G3D_RESET).

Fixpoint write_colours (l : list Z) (a : Z) : KM () := match l with [] => mret () | c :: l' => mmio_write32 a c;; write_colours l' (a + 4) end.
Definition write_palette (colours : list Z) : KM () := write_colours colours (palette B).

Fixpoint close_files (n : nat) (i k : Z) : KM () :=
  match n with
  | O => mret ()
  | S n' =>
      failed ← close_file i k;
      when failed (p ← proc_at i; ksay "kernel: pid ";; kputdec (pid p);; ksay ": a file's size could not be written";; kputc 10);;
      close_files n' i (k + 1)
  end.

(** The zombies a finished process leaves. *)
Definition free_children (pid0 : Z) (p : proc) : proc :=
  if bool_decide (state p = ZOMBIE) && (parent p =? pid0) then {| p with state := FREE |} else p.

(** The last live process of that pid. *)
Fixpoint live_with_pid (ps : list proc) (i pid0 : Z) (found : option Z) : option Z :=
  match ps with
  | [] => found
  | p :: ps' => live_with_pid ps' (i + 1) pid0 (if alive p && (pid p =? pid0) then Some i else found)
  end.

Definition finish (i code : Z) : KM (option ()) :=
  stop_orphaned_engines i;;
  p ← proc_at i;
  writer ← gets palette_writer;
  when (writer =? pid p) (write_palette (boot_palette B);; modify (fun k => {| k with palette_writer := 0 |}));;
  modify (fun k => if bool_decide (fpu_owner k = Some i) then {| k with fpu_owner := None |} else k);;
  close_files 4 i 0;;
  modify (fun k => {| k with procs := map (free_children (pid p)) (procs k) |});;
  upd_proc i (fun p => {| p with exit_code := code |});;
  fold ← lift (fold_name (pname p) 2166136261);
  modify (fun k => {| k with exits := u32 (exits k + 1); exit_sum := u32 (exit_sum k + (fold .^ code)) |});;
  k ← gets id;
  match live_with_pid (procs k) 0 (parent p) None with
  | None => if pid p =? 1 then halt code else set_state i FREE;; mret (Some ())
  | Some j =>
      set_state i ZOMBIE;;
      q ← proc_at j;
      when (bool_decide (state q = BLOCKED_WAIT) && (wait_pid q =? pid p)) (set_state j READY);;
      mret (Some ())
  end.

(** ** Input *)

Fixpoint drain_input (n : nat) : KM () :=
  match n with
  | O => no_fuel
  | S n' =>
      event ← mmio_read32 (input B + RV32_INPUT_EVENT);
      if event =? 0 then mret ()
      else
        k ← gets id;
        (if key_count k =? KEY_BUFFER then modify (fun k => {| k with keys_dropped := u32 (keys_dropped k + 1) |})
         else
           l ← lift (aset (keys k) ((key_head k + key_count k) mod KEY_BUFFER) event);
           modify (fun k => {| k with keys := l; key_count := key_count k + 1 |}));;
        drain_input n'
  end.

Definition external_interrupt : KM () :=
  source ← mmio_read32 (plic B + RV32_PLIC_CLAIM);
  when (tst source && tst (input B) && (source =? input_source B)) (drain_input polls);;
  when (tst source) (mmio_write32 (plic B + RV32_PLIC_CLAIM) source).

(** ** Scheduling *)

(** [ready] and [now] are read when first needed. *)
Fixpoint wake_from (n : nat) (i : Z) (ready : option bool) (now : Z) : KM () :=
  match n with
  | O => mret ()
  | S n' =>
      p ← proc_at i;
      if bool_decide (state p = BLOCKED_READ) then
        ready ← (match ready with Some b => mret b | None => console_ready end);
        when ready (set_state i READY);;
        wake_from n' (i + 1) (Some ready) now
      else if bool_decide (state p = BLOCKED_SLEEP) then
        now ← (if now =? 0 then mtime else mret now);
        when (wake p <=? now) (set_state i READY);;
        wake_from n' (i + 1) ready now
      else wake_from n' (i + 1) ready now
  end.
Definition wake_blocked : KM () := wake_from 8 0 None 0.

Definition engines_busy : KM bool :=
  k ← gets id;
  if negb (engines_used k) then mret false
  else
    g1 ← engine_busy (gpu B) GPU_STATUS GPU_BUSY;
    g ← (if (g1 : bool) then mret true else engine_busy (g3d B) G3D_STATUS G3D_BUSY);
    if (g : bool) then mret true
    else modify (fun k => {| k with engines_used := existsb (fun p => alive p && drives p) (procs k) |});; mret false.

(** The next ready process in table order from [start], round robin. *)
Fixpoint ready_from (n : nat) (start k : Z) (busy : option bool) : KM (option Z) :=
  match n with
  | O => mret None
  | S n' =>
      let i := (start + k) mod MAX_PROCS in
      p ← proc_at i;
      if negb (bool_decide (state p = READY)) then ready_from n' start (k + 1) busy
      else if drives p then mret (Some i)
      else
        b ← (match busy with Some b => mret b | None => engines_busy end);
        if (b : bool) then ready_from n' start (k + 1) (Some b) else mret (Some i)
  end.
Definition next_ready (after : option Z) : KM (option Z) := ready_from 8 (match after with Some i => i + 1 | None => 0 end) 0 None.

Definition protect (i : Z) : KM () :=
  p ← proc_at i;
  k ← gets id;
  if pid p =? protected_pid k then mret ()
  else
    let tor_rwx := PMP_TOR .| PMP_R .| PMP_W .| PMP_X in
    let tor_rw := PMP_TOR .| PMP_R .| PMP_W in
    let tor_r := PMP_TOR .| PMP_R in
    let engines_rw := if drives p && tst (accelerators_end B) then tor_rw else 0 in
    modify (fun k => {| k with
      protected_pid := pid p;
      cpu := {| (cpu k) with
        pmpaddr := [base p .>> 2; u32 (base p + span p) .>> 2; framebuffer B .>> 2; u32 (framebuffer B + framebuffer_size B) .>> 2;
                    accelerators B .>> 2; accelerators_end B .>> 2; page_tables B .>> 2; pagetables_end B .>> 2];
        pmpcfg0 := (tor_rwx .<< 8) .| (if tst (framebuffer B) then tor_rw .<< 24 else 0);
        pmpcfg1 := (engines_rw .<< 8) .| (tor_r .<< 24);
        satp := SATP_SV32 .| (table_address i 0 .>> 12) |} |});;
    when (tst (dma_window B))
      (mmio_write32 (dma_window B + RV32_DMA_WINDOW_START) (base p);;
       mmio_write32 (dma_window B + RV32_DMA_WINDOW_END) (u32 (base p + span p))).

(** The process to resume; [None] is the idle loop. *)
Definition schedule : KM (option Z) :=
  wake_blocked;;
  k ← gets id;
  running ← (match current k with Some i => p ← proc_at i; mret (bool_decide (state p = RUNNING)) | None => mret false end);
  chosen ← (if (running : bool) then mret (current k)
            else
              next ← next_ready (current k);
              modify (fun k => {| k with current := next |});;
              match next with Some i => set_state i RUNNING | None => mret () end;;
              mret next);
  match chosen with
  | None => mret None
  | Some i =>
      p ← proc_at i;
      when (drives p) (modify (fun k => {| k with engines_used := true |}));;
      protect i;;
      mret (Some i)
  end.

(** ** System calls *)

(** What a call did: its result, a call to run again later, or no result ([exit]). *)
Inductive outcome : Type := Result (r : Z) | Again | Ended.
Abbreviation call := (KM (option outcome)).
Definition result (r : Z) : call := mret (Some (Result r)).

(** [o->position += n] *)
Definition advance (i fd n : Z) : KM () :=
  p ← proc_at i;
  o ← lift (aget (files p) (fd - OS_FIRST_FILE));
  set_file i (fd - OS_FIRST_FILE) {| o with position := u32 (position o + n) |}.

Definition sys_write (i a0 a1 a2 : Z) : call :=
  p ← proc_at i;
  ok ← user_range i a1 a2;
  file0 ← lift (open_file_of p a0 O_WRITE);
  match file0, ok with
  | Some o, true =>
      from ← get_bytes a1 a2;
      r ← on_fs (fs_write (file o) (position o) from a2);
      when (negb (r =? FS_ERROR)) (advance i a0 r);;
      result r
  | _, true =>
      if (a0 =? 1) || (a0 =? 2) then l ← get_bytes a1 a2; kputs l;; result a2 else result SYS_ERROR
  | _, false => result SYS_ERROR
  end.

Fixpoint read_console (n : nat) (a1 a2 done : Z) : KM Z :=
  match n with
  | O => mret done
  | S n' =>
      if done <? a2 then
        ready ← console_ready;
        if (ready : bool) then
          c ← mmio_read8 (console B + RV32_CONSOLE_TX);
          poke (a1 + done) 1 (u8 c);;
          read_console n' a1 a2 (done + 1)
        else mret done
      else mret done
  end.

Definition sys_read (i a0 a1 a2 : Z) : call :=
  p ← proc_at i;
  ok ← user_range i a1 a2;
  file0 ← lift (open_file_of p a0 O_READ);
  match file0, ok with
  | Some o, true =>
      to ← get_bytes a1 a2;
      '(r, l) ← on_fs (fs_read (file o) (position o) a1 to a2);
      put_bytes a1 l;;
      when (negb (r =? FS_ERROR)) (advance i a0 r);;
      result r
  | _, true =>
      if (a0 =? 0) && tst a2 then
        ready ← console_ready;
        if negb ready then set_state i BLOCKED_READ;; mret (Some Again)
        else r ← read_console (Z.to_nat a2) a1 a2 0; result r
      else result SYS_ERROR
  | _, false => result SYS_ERROR
  end.

Definition sys_event : call :=
  k ← gets id;
  if tst (key_count k) then
    e ← lift (aget (keys k) (key_head k));
    modify (fun k => {| k with key_head := (key_head k + 1) mod KEY_BUFFER; key_count := key_count k - 1 |});;
    result e
  else result 0.

Definition sys_present : call :=
  if tst (display B) then
    busy ← engines_busy;
    if (busy : bool) then mret (Some Again)
    else mmio_write32 (display B + RV32_DISPLAY_PRESENT) 1;; v ← mmio_read32 (display B + RV32_DISPLAY_FRAMES); result v
  else result SYS_ERROR.

Definition sys_sbrk (i a0 : Z) : call :=
  p ← proc_at i;
  g ← guard_of i;
  if a0 <=? u32 (g - brk p) then set_proc i {| p with brk := u32 (brk p + a0) |};; result (brk p) else result SYS_ERROR.

Definition sys_spawn (i a0 a1 : Z) : call :=
  p ← proc_at i;
  name ← user_string i a0 24;
  match name with
  | None => result SYS_ERROR
  | Some name =>
      args ← user_string i a1 ARGS_MAX;
      match args with
      | None => result SYS_ERROR
      | Some args =>
          child ←! spawn name args (pid p);
          match child with Some j => q ← proc_at j; result (pid q) | None => result SYS_ERROR end
      end
  end.

(** [None]: the child still runs. *)
Fixpoint wait_from (n : nat) (j pid0 self r : Z) : KM (option Z) :=
  match n with
  | O => mret (Some r)
  | S n' =>
      q ← proc_at j;
      if bool_decide (state q = FREE) || negb (pid q =? pid0) || negb (parent q =? self) then wait_from n' (j + 1) pid0 self r
      else if bool_decide (state q = ZOMBIE) then set_state j FREE;; wait_from n' (j + 1) pid0 self (exit_code q)
      else mret None
  end.
Definition sys_wait (i a0 : Z) : call :=
  p ← proc_at i;
  r ← wait_from 8 0 a0 (pid p) SYS_ERROR;
  match r with
  | Some v => result v
  | None => upd_proc i (fun p => {| p with state := BLOCKED_WAIT; wait_pid := a0 |});; mret (Some Again)
  end.

(** The length of a C string held in an array. *)
Fixpoint string_length (l : list Z) : res Z :=
  match l with [] => Stuck | c :: l' => if c =? 0 then mret 0 else n ← string_length l'; mret (n + 1) end.

Definition sys_list (i a0 a1 a2 : Z) : call :=
  count ←! programs;
  ok ← user_range i a1 a2;
  if (a0 <? count) && ok then
    e ← lift (program_at a0);
    n ← lift (string_length (p_name e));
    if n <? a2 then put_bytes a1 (take (Z.to_nat (n + 1)) (p_name e));; result n else result SYS_ERROR
  else result SYS_ERROR.

Definition sys_sleep (i a0 : Z) : call :=
  now ← mtime;
  upd_proc i (fun p => {| p with wake := u64 (now + a0); state := BLOCKED_SLEEP |});;
  result 0.

Fixpoint read_colours (n : nat) (a : Z) : KM (list Z) := match n with O => mret [] | S n' => v ← mmio_read32 a; l ← read_colours n' (a + 4); mret (v :: l) end.
(** The colours a program holds in memory. *)
Fixpoint peek_words (n : nat) (a : Z) : KM (list Z) := match n with O => mret [] | S n' => v ← peek a 4; l ← peek_words n' (a + 4); mret (v :: l) end.
Fixpoint poke_words (l : list Z) (a : Z) : KM () := match l with [] => mret () | v :: l' => poke a 4 v;; poke_words l' (a + 4) end.

Definition sys_palette (i a0 a1 : Z) : call :=
  ok ← user_range i a0 (4 * OS_PALETTE_ENTRIES);
  if tst (palette B) && negb (tst (a0 .& 3)) && ok then
    if a1 =? OS_PALETTE_READ then l ← read_colours 256 (palette B); poke_words l a0;; result 0
    else if a1 =? OS_PALETTE_WRITE then
      l ← peek_words 256 a0;
      write_palette l;;
      p ← proc_at i;
      modify (fun k => {| k with palette_writer := pid p |});;
      result 0
    else result SYS_ERROR
  else result SYS_ERROR.

Definition state_name (s : pstate) : list Z :=
  message (match s with
           | FREE => "free" | READY => "ready" | RUNNING => "running" | BLOCKED_READ => "reading" | BLOCKED_WAIT => "waiting"
           | BLOCKED_SLEEP => "sleeping" | ZOMBIE => "zombie"
           end)%string.
(** A C string's characters, without its NUL. *)
Fixpoint chars (l : list Z) : res (list Z) := match l with [] => Stuck | c :: l' => if c =? 0 then mret [] else r ← chars l'; mret (c :: r) end.
(** Append while fewer than [room] characters are in the line. *)
Fixpoint append_while (room : Z) (line l : list Z) : list Z :=
  match l with [] => line | c :: l' => if Z.of_nat (length line) <? room then append_while room (line ++ [c]) l' else line end.
Definition sys_ps (i a0 a1 a2 : Z) : call :=
  if negb (a0 <? MAX_PROCS) then result SYS_ERROR
  else
    q ← proc_at a0;
    ok ← user_range i a1 a2;
    if negb (bool_decide (state q = FREE)) && ok && (48 <=? a2) then
      name ← lift (chars (pname q));
      let line := append_while 36 (append_while 36 (append_while 36 [] name) [32]) (state_name (state q)) in
      let line := append_while 47 (line ++ [32]) (kdecimal (pid q)) in
      put_bytes a1 (line ++ [0]);;
      result (Z.of_nat (length line))
    else result SYS_ERROR.

(** The first closed descriptor. *)
Fixpoint free_file (l : list open_file) (k : Z) : option Z :=
  match l with [] => None | o :: l' => if mode o =? 0 then Some k else free_file l' (k + 1) end.
Definition sys_open (i a0 a1 : Z) : call :=
  let mode0 := a1 .& (O_READ .| O_WRITE) in
  if negb (((mode0 =? O_READ) || (mode0 =? O_WRITE)) && negb (tst (a1 .& not32 (O_READ .| O_WRITE .| O_CREATE)))) then result SYS_ERROR
  else
    name ← user_string i a0 FS_NAME;
    match name with
    | None => result SYS_ERROR
    | Some name =>
        p ← proc_at i;
        match free_file (files p) 0 with
        | None => result SYS_ERROR
        | Some k =>
            file0 ← on_fs (fs_open name (tst (a1 .& O_CREATE) && (mode0 =? O_WRITE)));
            s ← gets id;
            if (0 <=? file0) && may_open (procs s) file0 mode0 then
              set_file i k {| mode := mode0; file := file0; position := 0 |};;
              when (mode0 =? O_WRITE) (on_fs (fs_truncate file0));;
              result (OS_FIRST_FILE + k)
            else result SYS_ERROR
        end
    end.

Definition seek_file (i fd offset0 whence : Z) (o : open_file) : call :=
  size ← on_fs (fs_size (file o));
  let start := if whence =? SEEK_FROM_START then Some 0 else if whence =? SEEK_FROM_CURRENT then Some (position o)
               else if whence =? SEEK_FROM_END then Some size else None in
  match start with
  | None => result SYS_ERROR
  | Some from =>
      let to := offset0 + from in
      if (to <? 0) || (size <? to) then result SYS_ERROR
      else set_file i (fd - OS_FIRST_FILE) {| o with position := u32 to |};; result (u32 to)
  end.
Definition sys_seek (i a0 a1 a2 : Z) : call :=
  p ← proc_at i;
  file0 ← lift (open_file_of p a0 0);
  match file0 with None => result SYS_ERROR | Some o => seek_file i a0 (s32 a1) a2 o end.

Definition sys_close (i a0 : Z) : call :=
  p ← proc_at i;
  file0 ← lift (open_file_of p a0 0);
  match file0 with
  | None => result SYS_ERROR
  | Some _ => failed ← close_file i (a0 - OS_FIRST_FILE); result (if failed : bool then SYS_ERROR else 0)
  end.

(** The characters of a name of at most [n]. *)
Fixpoint name_chars (n : nat) (l : list Z) : list Z :=
  match n, l with S n', c :: l' => if c =? 0 then [] else c :: name_chars n' l' | _, _ => [] end.
Definition sys_files (i a0 a1 a2 : Z) : call :=
  k ← gets id;
  ok ← user_range i a1 a2;
  found ← lift (fs_name a0 (fs k));
  match found, ok with
  | Some (name, size), true =>
      let l := name_chars 20 name in
      if Z.of_nat (length l) <? a2 then put_bytes a1 (l ++ [0]);; result size else result SYS_ERROR
  | _, _ => result SYS_ERROR
  end.

Definition syscall_of (i n a0 a1 a2 : Z) : call :=
  if n =? 0 then _ ←! finish i a0; mret (Some Ended)
  else if n =? 1 then sys_write i a0 a1 a2
  else if n =? 2 then sys_read i a0 a1 a2
  else if n =? 3 then sys_event
  else if n =? 4 then if tst (input B) then v ← mmio_read32 (input B + RV32_INPUT_KEYS); result v else result 0
  else if n =? 5 then sys_present
  else if n =? 6 then sys_sbrk i a0
  else if n =? 7 then sys_spawn i a0 a1
  else if n =? 8 then sys_wait i a0
  else if n =? 9 then sys_list i a0 a1 a2
  else if n =? 10 then set_state i READY;; result 0
  else if n =? 11 then sys_sleep i a0
  else if n =? 12 then halt a0
  else if n =? 13 then t ← mtime; result (u32 t)
  else if n =? 14 then p ← proc_at i; result (pid p)
  else if n =? 15 then result (framebuffer B)
  else if n =? 16 then sys_open i a0 a1
  else if n =? 17 then sys_close i a0
  else if n =? 18 then sys_files i a0 a1 a2
  else if n =? 19 then sys_ps i a0 a1 a2
  else if n =? 20 then p ← proc_at i; result (switches p)
  else if n =? 21 then sys_seek i a0 a1 a2
  else if n =? 22 then sys_palette i a0 a1
  else result SYS_ERROR.

(** Whether the call finished, so that pc moves past the ecall. *)
Definition syscall (i : Z) : KM (option bool) :=
  p ← proc_at i;
  let reg k := at_ (x (f p)) k in
  r ←! syscall_of i (reg 17) (reg 10) (reg 11) (reg 12);
  match r with
  | Again => mret (Some false)
  | Ended => mret (Some true)
  | Result v => upd_proc i (fun p => {| p with f := {| (f p) with x := <[10%nat := v]> (x (f p)) |} |});; mret (Some true)
  end.

(** ** Traps *)

Definition kill (i cause tval : Z) : KM (option ()) :=
  p ← proc_at i;
  g ← guard_of i;
  ksay "kernel: pid ";; kputdec (pid p);; kputc 32;; kput_name (pname p);; ksay " killed: cause ";; kputdec cause;; ksay " at ";;
  inside ← user_range i (pc (f p)) 4;
  (if (inside : bool) then kput_name (pname p);; ksay "+0x";; kputhex_short (u32 (pc (f p) - base p)) else kputhex (pc (f p)));;
  ksay " tval ";; kputhex tval;;
  when (((cause =? CAUSE_LOAD_PAGE) || (cause =? CAUSE_STORE_PAGE)) && (u32 (tval - g) <? OS_GUARD_SIZE)) (ksay " (stack overflow)");;
  kputc 10;;
  finish i (u32 (128 + cause)).

(** Once, why the disk driver gave up; [why] is what [virtio_failure] answers. *)
Definition report_disk_failure (why : D -> option string) : KM () :=
  k ← gets id;
  match why (disk (fs k)) with
  | Some w =>
      when (negb (reported k))
        (modify (fun k => {| k with reported := true |});; ksay "kernel: disk disabled: ";; ksay w;; kputc 10)
  | None => mret ()
  end.

Definition floating_instruction (word : Z) : bool :=
  let opcode := word .& 0x7f in
  let funct3 := (word .>> 12) .& 7 in
  let csr := word .>> 20 in
  (opcode =? 0x07) || (opcode =? 0x27) || (opcode =? 0x43) || (opcode =? 0x47) || (opcode =? 0x4b) || (opcode =? 0x4f) || (opcode =? 0x53)
  || ((opcode =? 0x73) && tst (funct3 .& 3) && (1 <=? csr) && (csr <=? 3)).

Definition fs_on (p : proc) : bool := tst (mstatus (f p) .& MSTATUS_FS).
Definition set_mstatus (v : Z) (p : proc) : proc := {| p with f := {| (f p) with mstatus := v |} |}.

(** A live process other than [i] with FS on. *)
Definition second_fpu (ps : list proc) (i : Z) : bool := existsb (fun j => negb (Z.of_nat j =? i) && alive (ps !!! j) && fs_on (ps !!! j)) (seq 0 8).

Definition claim_fpu (i word : Z) : KM (option bool) :=
  p ← proc_at i;
  if fs_on p || negb (floating_instruction word) then mret (Some false)
  else
    k ← gets id;
    (match fpu_owner k with
     | None => mret ()
     | Some j =>
         o ← proc_at j;
         when ((mstatus (f o) .& MSTATUS_FS) =? MSTATUS_FS)
           (s ← space_at j; set_space j {| s with fp := fpu (cpu k) |});;
         upd_proc j (fun o => set_mstatus (mstatus (f o) .& not32 MSTATUS_FS) o)
     end);;
    s ← space_at i;
    modify (fun k => {| k with cpu := {| (cpu k) with fpu := fp s |} |});;
    upd_proc i (fun p => set_mstatus (mstatus (f p) .| MSTATUS_FS_CLEAN) p);;
    modify (fun k => {| k with fpu_owner := Some i |});;
    k ← gets id;
    if second_fpu (procs k) i then panic "fpu: a second process with FS on" else mret (Some true).

Definition trapped_instruction (i tval : Z) : KM Z :=
  p ← proc_at i;
  inside ← user_range i (pc (f p)) 4;
  if tst tval || negb inside then mret tval else peek (pc (f p)) 4.

(** The handler: the interrupted context, the cause and the value, and the process to resume. *)
Definition kernel_trap (why : D -> option string) (who : option Z) (cause tval : Z) : KM (option (option Z)) :=
  modify (fun k => {| k with current := who |});;
  _ ←! (if tst (cause .& MCAUSE_INTERRUPT) then
          let code := cause .& 0x1f in
          (if code =? IRQ_MEI then external_interrupt
           else
             when (code =? IRQ_MTI)
               (now ← mtime;
                set_timer (u64 (now + tick B));;
                match who with
                | None => mret ()
                | Some i =>
                    next ← next_ready (Some i);
                    p ← proc_at i;
                    match next with
                    | Some j => when (bool_decide (state p = RUNNING) && negb (j =? i))
                                  (set_proc i {| p with state := READY; switches := u32 (switches p + 1) |})
                    | None => mret ()
                    end
                end));;
          mret (Some ())
        else
          match who with
          | None => panic "trap in the idle loop"
          | Some i =>
              if (cause =? CAUSE_ECALL_M) || (cause =? CAUSE_ECALL_U) then
                finished ←! syscall i;
                when finished (upd_proc i (fun p => {| p with f := {| (f p) with pc := u32 (pc (f p) + 4) |} |}));;
                report_disk_failure why;;
                mret (Some ())
              else
                claimed ←! (if cause =? CAUSE_ILLEGAL then word ← trapped_instruction i tval; claim_fpu i word else mret (Some false));
                if claimed : bool then mret (Some ()) else kill i cause tval
          end);
  next ← schedule;
  mret (Some next).

Definition MSTATUS_MPP_M : Z := 0x1800.
Definition MIP_MTIP : Z := 0x80.
Definition MIP_MEIP : Z := 0x800.
Definition RV32_PLIC_PRIORITY (n : Z) : Z := 4 * n.
Definition RV32_PLIC_ENABLE : Z := 0x2000.
Definition RV32_PLIC_THRESHOLD : Z := 0x200000.

(** Mount the disk and say what was found; [capacity] is what [virtio_init] answered. *)
Definition mount_disk (capacity : Z) : KM () :=
  mounted ← (if tst capacity then on_fs (fs_mount capacity) else mret false);
  ksay "kernel: disk ";; kputdec capacity;; (if (mounted : bool) then ksay " sectors, tfs" else ksay " sectors, no file system");; kputc 10;;
  k ← gets id;
  when (mounted && tst (fs_corrupt (fs k)))
    (ksay "kernel: tfs: ";; kputdec (fs_corrupt (fs k));; ksay " corrupt directory entries set aside";; kputc 10).

(** The kernel once [discover] has filled in the [board]. *)
Definition kernel_main (hart0 capacity : Z) : KM (option (option Z)) :=
  let device (b : Z) (name : string) : KM () := when (tst b) (ksay name) in
  ksay "kernel: ";; kputs (model B);; ksay ", hart ";; kputdec hart0;; kputc 10;; ksay "kernel: devices console clint plic";;
  device (input B) " input"%string;; device (display B) " display"%string;; device (gpu B) " g1"%string;; device (g3d B) " g2"%string;;
  device (dma_window B) " dma"%string;; device (disk_base B) " disk"%string;;
  _ ←! check_programs;
  _ ←! check_page_table_budget;
  count ←! programs;
  kputc 10;; ksay "kernel: ";; kputdec count;; ksay " programs";; kputc 10;;
  when (tst (disk_base B)) (mount_disk capacity);;
  modify (fun k => {| k with cpu := {| (cpu k) with mtvec := trap_vector B |} |});;
  when (tst (input B))
    (mmio_write32 (plic B + RV32_PLIC_PRIORITY (input_source B)) 1;;
     mmio_write32 (plic B + RV32_PLIC_ENABLE) (u32 (1 .<< input_source B));;
     mmio_write32 (plic B + RV32_PLIC_THRESHOLD) 0);;
  now ← mtime;
  set_timer (u64 (now + tick B));;
  modify (fun k => {| k with cpu := {| (cpu k) with mie := MIP_MEIP .| MIP_MTIP; mcounteren := 7; scounteren := 7 |} |});;
  modify (fun k => {| k with idle_frame :=
    {| x := <[2%nat := idle_stack_top B]> (x (idle_frame k)); pc := kernel_idle B; mstatus := MSTATUS_MPP_M .| MSTATUS_MPIE |} |});;
  shell ←! spawn (message "sh" ++ [0]) [0] 0;
  match shell with
  | None => panic "no shell"
  | Some _ => next ← schedule; mret (Some next)
  end.

(** A trap taken in the kernel itself. *)
Definition kernel_fault (cause epc tval : Z) : KM (option ()) :=
  modify (fun k => {| k with faulted := true |});;
  ksay "kernel: fault in the kernel: cause ";; kputdec cause;; ksay " at ";; kputhex epc;; ksay " tval ";; kputhex tval;; kputc 10;;
  halt 254.

End Kernel.
End Kernel.
