(* ===== verification/KernelTables.v ===== *)
(** * The kernel's page tables

    What a process's tables in memory map: [leaf] looks a page up as the hardware
    walks them, [tables_ok] is their shape, and the steps of kernel.c's [map] are
    given by what they do to [leaf].  An entry has a root and six more tables;
    [check_page_table_budget] at boot is why they are enough. *)

From S2P Require Import Prelude Effects Buffer Fs FsProofs Kernel.

Module KernelTables.
Import Fs Kernel.

Definition SLOTS_END : Z := 0x81000000.
Definition RAM_SIZE : Z := 0x01000000.

(** ** Words of memory *)

Definition word (b : buffer) (a : Z) : Z := le_bytes b (a - RAM_BASE) 4.
Definition ram_ok (b : buffer) : Prop := buf_ok b /\ buf_len b = RAM_SIZE.

(** The memory below [lo] and from [hi] on is the same. *)
Definition outside_same (lo hi : Z) (b b' : buffer) : Prop := forall j, ~ (lo <= RAM_BASE + j < hi) -> byte_at b' j = byte_at b j.

Lemma outside_same_refl lo hi b : outside_same lo hi b b.
Proof. done. Qed.
Lemma outside_same_trans lo hi b1 b2 b3 : outside_same lo hi b1 b2 -> outside_same lo hi b2 b3 -> outside_same lo hi b1 b3.
Proof. intros H1 H2 j Hj. rewrite H2 by done. by apply H1. Qed.
Lemma outside_same_weaken lo hi lo' hi' b b' : lo' <= lo -> hi <= hi' -> outside_same lo hi b b' -> outside_same lo' hi' b b'.
Proof. intros H1 H2 H j Hj. apply H. lia. Qed.

Lemma word_outside lo hi b b' a : outside_same lo hi b b' -> a + 4 <= lo \/ hi <= a -> word b' a = word b a.
Proof. intros H Ha. apply le_bytes_ext. intros i Hi. apply H. lia. Qed.

Lemma word_u32 b a : buf_ok b -> is_u32 (word b a).
Proof. intros Hb. apply le_bytes_u32; [done|lia]. Qed.

Lemma word_written b b' a v a' : written b b' (a - RAM_BASE) 4 v -> is_u32 v -> a mod 4 = 0 -> a' mod 4 = 0 ->
  word b' a' = if a' =? a then v else word b a'.
Proof.
  intros W Hv Ha Ha'. unfold word. destruct (Z.eqb_spec a' a) as [->|Hne].
  - replace (a - RAM_BASE) with (a - RAM_BASE + 0) by lia. rewrite (le_bytes_written b b' (a - RAM_BASE) 4 v) by (done || lia).
    rewrite Z.shiftr_0_r. apply Z.mod_small. exact Hv.
  - apply le_bytes_ext. intros i Hi. destruct W as [_ ->]. assert (a' + 4 <= a \/ a + 4 <= a') by zlia.
    destruct (Z.leb_spec (a - RAM_BASE) i), (Z.ltb_spec i (a - RAM_BASE + 4)); try done. lia.
Qed.

Section Access.
Context {D E : Type} `{F : Fuelled}.
Implicit Types (k : kernel D E).

Definition put_ram (b : buffer) k : kernel D E := {| k with ram := b |}.
Lemma put_ram_id k : put_ram (ram k) k = k.
Proof. by destruct k. Qed.

Lemma ram_peek_wp a w k (Q : Z -> kernel D E -> Prop) :
  ram_ok (ram k) -> RAM_BASE <= a -> 0 <= w <= 4 -> a + w <= SLOTS_END -> Q (le_bytes (ram k) (a - RAM_BASE) (Z.to_nat w)) k -> wp (peek a w) Q k.
Proof.
  intros [Hb Hl] H1 H2 H3 HQ. unfold peek. do 3 wp1. unfold RAM_BASE, SLOTS_END, RAM_SIZE in *.
  apply wpr_bytes_read; [done|lia|lia|lia|]. exact HQ.
Qed.

Lemma ram_poke_wp a w v k (Q : () -> kernel D E -> Prop) :
  ram_ok (ram k) -> RAM_BASE <= a -> 0 <= w -> a + w <= SLOTS_END ->
  (forall b, ram_ok b -> written (ram k) b (a - RAM_BASE) w v -> outside_same a (a + w) (ram k) b -> Q () (put_ram b k)) ->
  wp (poke a w v) Q k.
Proof.
  intros [Hb Hl] H1 H2 H3 HQ. unfold poke. do 4 wp1. unfold SLOTS_END, RAM_SIZE in *.
  apply wpr_bytes_write; [done|unfold RAM_BASE in *; lia|lia|unfold RAM_BASE in *; lia|]. intros b W. wp1. apply HQ; [|done|].
  - split; [by eapply written_ok|]. by rewrite (proj1 W).
  - intros j Hj. rewrite (proj2 W). destruct (Z.leb_spec (a - RAM_BASE) j), (Z.ltb_spec j (a - RAM_BASE + w)); try done. lia.
Qed.

(** An aligned word written. *)
Lemma poke4_wp a v k (Q : () -> kernel D E -> Prop) :
  ram_ok (ram k) -> RAM_BASE <= a -> a + 4 <= SLOTS_END -> a mod 4 = 0 -> is_u32 v ->
  (forall b, ram_ok b -> (forall a', a' mod 4 = 0 -> word b a' = if a' =? a then v else word (ram k) a') -> outside_same a (a + 4) (ram k) b ->
     Q () (put_ram b k)) ->
  wp (poke a 4 v) Q k.
Proof.
  intros Hr H1 H3 H4 Hv HQ. apply ram_poke_wp; [done|done|lia|lia|]. intros b Hb W Ho. apply HQ; [done| |done].
  intros a' Ha'. by eapply word_written.
Qed.

Lemma clear_words_wp n a k (Q : () -> kernel D E -> Prop) :
  ram_ok (ram k) -> RAM_BASE <= a -> a + 4 * Z.of_nat n <= SLOTS_END -> a mod 4 = 0 ->
  (forall b, ram_ok b -> (forall a', a' mod 4 = 0 -> word b a' = if (a <=? a') && (a' <? a + 4 * Z.of_nat n) then 0 else word (ram k) a') ->
     outside_same a (a + 4 * Z.of_nat n) (ram k) b -> Q () (put_ram b k)) ->
  wp (clear_words n a) Q k.
Proof.
  revert a k. induction n as [|n IH]; intros a k Hr H1 H2 H3 HQ; cbn [clear_words].
  - wp1. rewrite <- (put_ram_id k). apply (HQ (ram k)); [done| |done]. intros a' Ha'. destruct (Z.leb_spec a a'), (Z.ltb_spec a' (a + 4 * Z.of_nat 0)); try done. lia.
  - wp1. apply poke4_wp; [done|done|lia|done|done|]. intros b Hb W O. apply IH; [done|lia|lia|zlia|]. intros b' Hb' W' O'. cbn [ram put_ram] in *.
    apply (HQ b'); [done| |].
    + intros a' Ha'. rewrite W', W by done. destruct (Z.eqb_spec a' a) as [->|Hne].
      * rewrite (proj2 (Z.leb_gt (a + 4) a)), (proj2 (Z.leb_le a a)), (proj2 (Z.ltb_lt a (a + 4 * Z.of_nat (S n)))) by lia. done.
      * destruct (Z.leb_spec (a + 4) a'), (Z.leb_spec a a'), (Z.ltb_spec a' (a + 4 + 4 * Z.of_nat n)), (Z.ltb_spec a' (a + 4 * Z.of_nat (S n))); try done; zlia.
    + eapply outside_same_trans; [eapply outside_same_weaken; [| |exact O]; lia|eapply outside_same_weaken; [| |exact O']; lia].
Qed.

Definition proc_of k (i : Z) : proc := at_ (procs k) i.
Lemma proc_at_wp i k (Q : proc -> kernel D E -> Prop) :
  length (procs k) = 8%nat -> 0 <= i < 8 -> Q (proc_of k i) k -> wp (proc_at i) Q k.
Proof. intros Hl Hi HQ. unfold proc_at. do 3 wp1. by apply wpr_aget; [lia|]. Qed.

Definition space_of k (i : Z) : address_space := at_ (spaces k) i.
Definition put_space (i : Z) (s : address_space) k : kernel D E := {| k with spaces := <[Z.to_nat i := s]> (spaces k) |}.

Lemma space_at_wp i k (Q : address_space -> kernel D E -> Prop) :
  length (spaces k) = 8%nat -> 0 <= i < 8 -> Q (space_of k i) k -> wp (space_at i) Q k.
Proof. intros Hl Hi HQ. unfold space_at. do 3 wp1. by apply wpr_aget; [lia|]. Qed.

Lemma set_space_wp i s k (Q : () -> kernel D E -> Prop) :
  length (spaces k) = 8%nat -> 0 <= i < 8 -> Q () (put_space i s k) -> wp (set_space i s) Q k.
Proof. intros Hl Hi HQ. unfold set_space. do 4 wp1. apply wpr_aset; [lia|]. by wp1. Qed.

Lemma space_of_put i j s k : length (spaces k) = 8%nat -> 0 <= i < 8 -> 0 <= j -> space_of (put_space i s k) j = if i =? j then s else space_of k j.
Proof. intros. unfold space_of, put_space. cbn [spaces]. apply at_insert; lia. Qed.

Lemma put_space_id i k : length (spaces k) = 8%nat -> 0 <= i < 8 -> put_space i (space_of k i) k = k.
Proof.
  intros Hl Hi. unfold put_space, space_of, at_. rewrite list_insert_id; [by destruct k|]. apply list_lookup_lookup_total_lt. lia.
Qed.
Lemma put_space_twice i s s' b k : put_space i s' (put_ram b (put_space i s k)) = put_ram b (put_space i s' k).
Proof. unfold put_space, put_ram. cbn [spaces]. by rewrite list_insert_insert_eq. Qed.
Lemma put_space_again i s s' k : put_space i s' (put_space i s k) = put_space i s' k.
Proof. unfold put_space. cbn [spaces]. by rewrite list_insert_insert_eq. Qed.
Lemma put_ram_twice b b' k : put_ram b' (put_ram b k) = put_ram b' k.
Proof. done. Qed.
Lemma put_ram_space b i s k : put_space i s (put_ram b k) = put_ram b (put_space i s k).
Proof. done. Qed.
End Access.

(** ** The shape of an entry's tables *)

(** A root entry that points at a table, and a leaf. *)
Definition pointer_to (table : Z) : Z := ((table .>> 12) .<< 10) .| PTE_V.
Definition leaf_value (rights page : Z) : Z := if rights =? 0 then 0 else (page .<< 10) .| rights .| PTE_V .| PTE_U .| PTE_A .| PTE_D.

Lemma pointer_to_spec table : 0 <= table < 0x100000000 -> table mod 4096 = 0 ->
  is_u32 (pointer_to table) /\ tst (pointer_to table .& PTE_V) = true /\ (pointer_to table .>> 10) .<< 12 = table.
Proof.
  intros Ht Ha. unfold pointer_to, PTE_V. rewrite lor_add by lia. rewrite Z.shiftr_div_pow2 by lia. change (2 ^ 12) with 4096. change (2 ^ 10) with 1024.
  split; [unfold is_u32; zlia|]. split.
  - change 1 with (2 ^ 0) at 2. rewrite tst_land_pow2 by lia. rewrite Z.bit0_odd. rewrite Z.odd_add, Z.odd_mul. change (Z.odd 1024) with false. by rewrite andb_false_r.
  - rewrite Z.shiftr_div_pow2, Z.shiftl_mul_pow2 by lia. change (2 ^ 12) with 4096. change (2 ^ 10) with 1024. zlia.
Qed.

(** *** Lists without repetition *)

Lemma used_index (used : list Z) r : In r used -> exists t, 0 <= t < Z.of_nat (length used) /\ at_ used t = r.
Proof.
  intros H. apply list_elem_of_In, list_elem_of_lookup in H as [i Hi]. exists (Z.of_nat i). pose proof (lookup_lt_Some _ _ _ Hi). split; [lia|].
  unfold at_. rewrite Nat2Z.id. by apply list_lookup_total_correct.
Qed.
Lemma at_In (used : list Z) t : 0 <= t < Z.of_nat (length used) -> In (at_ used t) used.
Proof.
  intros Ht. apply list_elem_of_In. unfold at_. apply list_elem_of_lookup_total_2. lia.
Qed.
Lemma at_inj (used : list Z) t u : NoDup used -> 0 <= t < Z.of_nat (length used) -> 0 <= u < Z.of_nat (length used) -> at_ used t = at_ used u -> t = u.
Proof.
  intros Hn Ht Hu H. unfold at_ in H. assert (Z.to_nat t = Z.to_nat u); [|lia].
  eapply NoDup_lookup; [exact Hn| |]; [apply list_lookup_lookup_total_lt; lia|]. rewrite H. apply list_lookup_lookup_total_lt. lia.
Qed.

Lemma at_last (used : list Z) r : at_ (used ++ [r]) (Z.of_nat (length used)) = r.
Proof. unfold at_. by rewrite list_lookup_total_alt, lookup_app_r, Nat2Z.id, Nat.sub_diag by lia. Qed.
Lemma at_before (used : list Z) r t : 0 <= t < Z.of_nat (length used) -> at_ (used ++ [r]) t = at_ used t.
Proof. intros Ht. unfold at_. by rewrite !list_lookup_total_alt, lookup_app_l by lia. Qed.

Section Tables.
Context (B : board) (R : list Z).

(** Where the linker puts the page tables. *)
Definition tables_placed : Prop := RAM_BASE <= page_tables B /\ page_tables B + 8 * PAGE_TABLES * PAGE_SIZE <= OS_SLOT_BASE /\ page_tables B mod PAGE_SIZE = 0.

Abbreviation table := (table_address B).

(** Of entry [e]'s [n] tables the root points at the others, one for each region of
    [used], which are regions of the budget [R]. *)
Definition shape (b : buffer) (e n : Z) (used : list Z) : Prop :=
  NoDup used /\ n = 1 + Z.of_nat (length used) /\ (forall r, In r used -> In r R /\ 0 <= r < 1024)
  /\ (forall t, 0 <= t < Z.of_nat (length used) -> word b (table e 0 + 4 * at_ used t) = pointer_to (table e (t + 1)))
  /\ (forall r, 0 <= r < 1024 -> ~ In r used -> word b (table e 0 + 4 * r) = 0).

(** The leaf of a page, found as a walk finds it. *)
Definition leaf (b : buffer) (e page : Z) : Z :=
  let v := word b (table e 0 + 4 * (page / 1024)) in
  if tst (v .& PTE_V) then word b (((v .>> 10) .<< 12) + 4 * (page mod 1024)) else 0.

Lemma table_next e : table (e + 1) 0 = table e 0 + 7 * 4096.
Proof. unfold table_address, PAGE_TABLES, PAGE_SIZE. lia. Qed.

Context (Hplaced : tables_placed).

Lemma table_place e t : 0 <= e < 8 -> 0 <= t < 7 ->
  RAM_BASE <= table e t /\ table e t + 4096 <= OS_SLOT_BASE /\ table e t mod 4096 = 0 /\ table e t = table e 0 + 4096 * t.
Proof.
  intros He Ht. destruct Hplaced as (H1 & H2 & H3). unfold table_address, PAGE_TABLES, PAGE_SIZE in *. splits; [lia|lia|zlia|lia].
Qed.

Context (HR : (length R <= 6)%nat).

Lemma used_bound b e n used : shape b e n used -> (length used <= 6)%nat.
Proof.
  intros (Hn & _ & Hr & _). etransitivity; [|exact HR]. apply NoDup_incl_length; [by apply NoDup_ListNoDup|]. intros r Hi. by apply Hr.
Qed.

(** A region of the budget without a table leaves one for it. *)
Lemma used_room b e n used r : shape b e n used -> In r R -> ~ In r used -> n < 7.
Proof.
  intros (Hn & -> & Hr & _) Hi Hu. assert (S (length used) <= length R)%nat; [|lia].
  apply (@NoDup_incl_length Z (r :: used)); [constructor; [done|by apply NoDup_ListNoDup]|]. intros q [<-|Hq]; [done|]. by apply Hr.
Qed.

Lemma leaf_used b e n used t i : 0 <= e < 8 -> shape b e n used -> 0 <= t < Z.of_nat (length used) -> 0 <= i < 1024 ->
  leaf b e (1024 * at_ used t + i) = word b (table e (t + 1) + 4 * i).
Proof.
  intros He Hs Ht Hi. pose proof (used_bound _ _ _ _ Hs). destruct Hs as (_ & _ & _ & Hp & _). unfold leaf.
  replace ((1024 * at_ used t + i) / 1024) with (at_ used t) by zlia. replace ((1024 * at_ used t + i) mod 1024) with i by zlia.
  rewrite Hp by done. destruct (table_place e (t + 1)) as (H1 & H2 & H3 & _); [lia|lia|].
  destruct (pointer_to_spec (table e (t + 1))) as (_ & -> & ->); [unfold RAM_BASE, OS_SLOT_BASE in *; lia|done|]. done.
Qed.

Lemma leaf_unused b e n used page : shape b e n used -> 0 <= page < 2 ^ 20 -> ~ In (page / 1024) used -> leaf b e page = 0.
Proof. intros (_ & _ & _ & _ & H0) Hp Hu. unfold leaf. rewrite H0; [done| |done]. zlia. Qed.

(** Only the entry's tables matter. *)
Lemma leaf_same b b' e n used page : 0 <= e < 8 -> shape b e n used -> 0 <= page < 2 ^ 20 ->
  (forall a, table e 0 <= a < table (e + 1) 0 -> a mod 4 = 0 -> word b' a = word b a) -> shape b' e n used /\ leaf b' e page = leaf b e page.
Proof.
  intros He Hs Hp Hw. pose proof (used_bound _ _ _ _ Hs). pose proof (table_next e) as Hx.
  destruct (table_place e 0) as (_ & _ & H3 & _); [lia|lia|].
  assert (Hs' : shape b' e n used).
  { destruct Hs as (S1 & S2 & S3 & S4 & S5). unfold shape; splits; [done|done|done| |].
    - intros t Ht. rewrite Hw; [by apply S4| |zlia]. destruct (S3 _ (at_In used t Ht)). lia.
    - intros r Hr Hu. rewrite Hw; [by apply S5|lia|zlia]. }
  split; [done|]. destruct (in_dec Z.eq_dec (page / 1024) used) as [Hi|Hi].
  - destruct (used_index _ _ Hi) as (t & Ht & Et). replace page with (1024 * at_ used t + page mod 1024) by (rewrite Et; zlia).
    destruct (table_place e (t + 1)) as (_ & _ & _ & H4); [lia|lia|].
    rewrite !(leaf_used _ e n used) by (done || zlia). apply Hw; [|zlia]. zlia.
  - by rewrite !(leaf_unused _ e n used).
Qed.

(** ** The steps of [map] *)

(** A leaf is written. *)
Lemma leaf_write b b' e n used t i v : 0 <= e < 8 -> shape b e n used -> 0 <= t < Z.of_nat (length used) -> 0 <= i < 1024 ->
  (forall a, a mod 4 = 0 -> word b' a = if a =? table e (t + 1) + 4 * i then v else word b a) ->
  shape b' e n used /\ forall page, 0 <= page < 2 ^ 20 -> leaf b' e page = if page =? 1024 * at_ used t + i then v else leaf b e page.
Proof.
  intros He Hs Ht Hi Hw. pose proof (used_bound _ _ _ _ Hs) as Hb. destruct (table_place e 0) as (_ & _ & H3 & _); [lia|lia|].
  destruct (table_place e (t + 1)) as (_ & _ & _ & H4); [lia|lia|].
  assert (Hs' : shape b' e n used).
  { destruct Hs as (S1 & S2 & S3 & S4 & S5). unfold shape; splits; [done|done|done| |].
    - intros u Hu. destruct (S3 _ (at_In used u Hu)). rewrite Hw by zlia. rewrite (proj2 (Z.eqb_neq _ _)) by lia. by apply S4.
    - intros r Hr Hu. rewrite Hw by zlia. rewrite (proj2 (Z.eqb_neq _ _)) by lia. by apply S5. }
  split; [done|]. intros page Hp. destruct (in_dec Z.eq_dec (page / 1024) used) as [Hin|Hin].
  - destruct (used_index _ _ Hin) as (u & Hu & Eu). assert (Ep : page = 1024 * at_ used u + page mod 1024) by (rewrite Eu; zlia).
    assert (0 <= page mod 1024 < 1024) as Hm by zlia. destruct (table_place e (u + 1)) as (_ & _ & _ & H5); [lia|lia|].
    rewrite Ep. rewrite !(leaf_used _ e n used) by done. rewrite Hw by zlia.
    destruct (Z.eqb_spec (table e (u + 1) + 4 * (page mod 1024)) (table e (t + 1) + 4 * i)) as [E1|E1];
      destruct (Z.eqb_spec (1024 * at_ used u + page mod 1024) (1024 * at_ used t + i)) as [E2|E2]; try done; exfalso.
    + apply E2. assert (u = t) as -> by lia. lia.
    + apply E1. assert (at_ used u = at_ used t) as Eat by lia. destruct Hs as (S1 & _). apply at_inj in Eat; [subst; lia|done|done|done].
  - rewrite !(leaf_unused _ e n used) by done. destruct (Z.eqb_spec page (1024 * at_ used t + i)) as [E1|E1]; [|done]. exfalso. apply Hin.
    replace (page / 1024) with (at_ used t) by zlia. by apply at_In.
Qed.

(** A table is taken: cleared, then pointed at. *)
Lemma table_taken b b' e n used r : 0 <= e < 8 -> shape b e n used -> In r R -> 0 <= r < 1024 -> ~ In r used -> n < 7 ->
  (forall a, a mod 4 = 0 -> word b' a = if a =? table e 0 + 4 * r then pointer_to (table e n)
      else if (table e n <=? a) && (a <? table e n + 4096) then 0 else word b a) ->
  shape b' e (n + 1) (used ++ [r]) /\ forall page, 0 <= page < 2 ^ 20 -> leaf b' e page = leaf b e page.
Proof.
  intros He Hs HRr Hr Hu Hn Hw. pose proof (used_bound _ _ _ _ Hs) as Hb. pose proof Hs as (S1 & S2 & S3 & S4 & S5).
  destruct (table_place e 0) as (_ & _ & H3 & _); [lia|lia|]. destruct (table_place e n) as (_ & _ & _ & H4); [lia|lia|].
  assert (Hold : forall t, 0 <= t < n -> forall i, 0 <= i < 1024 -> (t <> 0 \/ i <> r) -> word b' (table e t + 4 * i) = word b (table e t + 4 * i)).
  { intros t Ht i Hi Hne. destruct (table_place e t) as (_ & _ & _ & H5); [lia|lia|]. rewrite Hw by zlia. rewrite (proj2 (Z.eqb_neq _ _)) by lia.
    by rewrite (proj2 (Z.leb_gt _ _)) by lia. }
  assert (Hs' : shape b' e (n + 1) (used ++ [r])).
  { unfold shape; splits.
    - apply list.NoDup_app. splits; [done|intros x Hx; rewrite list_elem_of_singleton; intros ->; by apply Hu, list_elem_of_In|apply NoDup_singleton].
    - rewrite length_app. cbn [length]. lia.
    - intros q [Hq|[<-|[]]]%in_app_or; [by apply S3|done].
    - intros t Ht. rewrite length_app in Ht. cbn [length] in Ht. destruct (Z.eq_dec t (Z.of_nat (length used))) as [->|Hne].
      + rewrite at_last, Hw by zlia. rewrite Z.eqb_refl. do 2 f_equal. lia.
      + assert (Ea : at_ (used ++ [r]) t = at_ used t) by (apply at_before; lia).
        rewrite Ea. assert (Hat := at_In used t ltac:(lia)). destruct (S3 _ Hat). rewrite Hold; [apply S4; lia|lia|done|right; intros Er; by rewrite Er in Hat].
    - intros q Hq Hnq. rewrite Hold; [apply S5; [done|]|lia|done|right; intros ->]; [intros Hi|]; apply Hnq, in_or_app; [by left|by right; left]. }
  split; [done|]. intros page Hp. assert (0 <= page mod 1024 < 1024) as Hm by zlia. destruct (in_dec Z.eq_dec (page / 1024) used) as [Hin|Hin].
  - destruct (used_index _ _ Hin) as (u & Hux & Eu). assert (Ep : page = 1024 * at_ used u + page mod 1024) by (rewrite Eu; zlia).
    assert (Ea : at_ (used ++ [r]) u = at_ used u) by (apply at_before; lia).
    rewrite Ep. rewrite (leaf_used b e n used) by done. rewrite <- Ea at 1.
    rewrite (leaf_used b' e (n + 1) (used ++ [r])); [|done|done|rewrite length_app; lia|done]. apply Hold; [lia|done|left; lia].
  - rewrite (leaf_unused b e n used) by done. destruct (Z.eq_dec (page / 1024) r) as [Er|Er].
    + assert (Ep : page = 1024 * at_ (used ++ [r]) (Z.of_nat (length used)) + page mod 1024) by (rewrite at_last; zlia).
      rewrite Ep. rewrite (leaf_used b' e (n + 1) (used ++ [r])); [|done|done|rewrite length_app; cbn [length]; lia|done].
      replace (Z.of_nat (length used) + 1) with n by lia. rewrite Hw by zlia. rewrite (proj2 (Z.eqb_neq _ _)) by lia.
      by rewrite (proj2 (Z.leb_le _ _)), (proj2 (Z.ltb_lt _ _)) by lia.
    + apply (leaf_unused b' e (n + 1) (used ++ [r])); [done|done|]. intros [Hq|[Hq|[]]]%in_app_or; [done|by symmetry in Hq].
Qed.

(** ** [map] *)

Section Map.
Context {D E : Type} {BD : BlockDevice D} {PF : Platform E} {PL : Polls} `{F : Fuelled}.
Implicit Types (k : kernel D E).

(** The pages of a range of addresses. *)
Definition in_range (start end0 page : Z) : bool := (start / 4096 <=? page) && (4096 * page <? end0).

(** What a step of [map] leaves: the entry's tables with the leaves [lv], the rest of memory as it was. *)
Definition mapped (e : Z) (lv : Z -> Z) k k' : Prop :=
  exists b used, ram_ok b /\ shape b e (1 + Z.of_nat (length used)) used
    /\ outside_same (table e 0) (table (e + 1) 0) (ram k) b /\ (forall q, 0 <= q < 2 ^ 20 -> leaf b e q = lv q)
    /\ k' = put_ram b (put_space e {| (space_of k e) with tables := 1 + Z.of_nat (length used) |} k).

Definition entry_shape (e : Z) k : Prop :=
  ram_ok (ram k) /\ length (spaces k) = 8%nat /\ exists used, shape (ram k) e (tables (space_of k e)) used.

Lemma mapped_shape e lv k k' : 0 <= e < 8 -> length (spaces k) = 8%nat -> mapped e lv k k' ->
  entry_shape e k' /\ (forall q, 0 <= q < 2 ^ 20 -> leaf (ram k') e q = lv q)
  /\ space_of k' e = {| (space_of k e) with tables := tables (space_of k' e) |}.
Proof.
  intros He Hl (b & used & Hb & Hs & Ho & Hlv & ->). cbn [ram put_ram].
  assert (Es : space_of (put_ram b (put_space e {| (space_of k e) with tables := 1 + Z.of_nat (length used) |} k)) e
    = {| (space_of k e) with tables := 1 + Z.of_nat (length used) |}).
  { change (space_of (put_ram b ?k0) e) with (space_of k0 e). rewrite space_of_put by (done || lia). by rewrite Z.eqb_refl. }
  split; [split; [done|]; split; [cbn; by rewrite length_insert|]; exists used; by rewrite Es|]. split; [done|]. by rewrite Es.
Qed.

Lemma mapped_trans e lv lv' k k1 k2 : 0 <= e < 8 -> length (spaces k) = 8%nat -> mapped e lv k k1 -> mapped e lv' k1 k2 -> mapped e lv' k k2.
Proof.
  intros He Hl (b & used & Hb & Hs & Ho & Hlv & ->) (b' & used' & Hb' & Hs' & Ho' & Hlv' & ->).
  exists b', used'. split; [done|]. split; [done|]. split; [by eapply outside_same_trans|]. split; [done|].
  change (space_of (put_ram b ?k0) e) with (space_of k0 e). rewrite space_of_put by (done || lia). rewrite Z.eqb_refl.
  by rewrite put_space_twice, put_ram_twice.
Qed.

Lemma mapped_refl e k : 0 <= e < 8 -> entry_shape e k -> mapped e (leaf (ram k) e) k k.
Proof.
  intros He (Hr & Hl & used & Hs). exists (ram k), used. pose proof Hs as (_ & En & _). rewrite <- En.
  split; [done|]. split; [done|]. split; [done|]. split; [done|]. rewrite <- (put_space_id e k) at 1 by done. rewrite <- (put_ram_id (put_space _ _ _)) at 1.
  change (ram (put_space ?i ?s ?k0)) with (ram k0). by destruct (space_of k e).
Qed.

Lemma mapped_ext e lv lv' k k' : (forall q, 0 <= q < 2 ^ 20 -> lv q = lv' q) -> mapped e lv k k' -> mapped e lv' k k'.
Proof. intros H (b & used & Hb & Hs & Ho & Hlv & ->). exists b, used. split; [done|]. split; [done|]. split; [done|]. split; [|done]. intros q Hq. by rewrite Hlv, H. Qed.

Lemma root_index p : 0 <= p -> (4096 * p) .>> 22 = p / 1024.
Proof. intros Hp. rewrite Z.shiftr_div_pow2 by lia. change (2 ^ 22) with 4194304. zlia. Qed.
Lemma leaf_index p : 0 <= p -> ((4096 * p) .>> 12) .& 1023 = p mod 1024.
Proof.
  intros Hp. rewrite Z.shiftr_div_pow2 by lia. change 1023 with (Z.ones 10). rewrite Z.land_ones by lia. change (2 ^ 12) with 4096. change (2 ^ 10) with 1024.
  f_equal. zlia.
Qed.

(** The leaf of a page whose region has a table. *)
Lemma set_leaf_wp {A} e p val used k (c : ST (kernel D E) A) Q :
  0 <= e < 8 -> ram_ok (ram k) -> length (spaces k) = 8%nat -> shape (ram k) e (tables (space_of k e)) used -> 0 <= p < 2 ^ 20 -> In (p / 1024) used -> is_u32 val ->
  (forall k', mapped e (fun q => if q =? p then val else leaf (ram k) e q) k k' -> wp c Q k') ->
  wp (v ← peek (table e 0 + 4 * ((4096 * p) .>> 22)) 4; poke (((v .>> 10) .<< 12) + 4 * (((4096 * p) .>> 12) .& 1023)) 4 val;; c) Q k.
Proof.
  intros He Hr Hl Hs Hp Hin Hv HQ. pose proof (used_bound _ _ _ _ Hs) as Hb. destruct (used_index _ _ Hin) as (t & Ht & Et).
  destruct (table_place e 0) as (T1 & T2 & T3 & _); [lia|lia|]. destruct (table_place e (t + 1)) as (U1 & U2 & U3 & U4); [lia|lia|].
  rewrite root_index, leaf_index by lia. pose proof Hs as (S1 & S2 & S3 & S4 & S5). destruct (S3 _ Hin) as (_ & Hr1).
  wp1. apply ram_peek_wp; [done|lia|lia|unfold OS_SLOT_BASE, SLOTS_END in *; lia|]. change (le_bytes (ram k) (?a - RAM_BASE) (Z.to_nat 4)) with (word (ram k) a).
  rewrite <- Et, S4 by done. destruct (pointer_to_spec (table e (t + 1))) as (_ & _ & ->); [unfold RAM_BASE, OS_SLOT_BASE in *; lia|done|].
  wp1. apply poke4_wp; [done|zlia|unfold OS_SLOT_BASE, SLOTS_END in *; zlia|zlia|done|]. intros b Hb' W O. apply HQ.
  destruct (leaf_write (ram k) b e _ used t (p mod 1024) val He Hs Ht ltac:(zlia) W) as (Hs' & Hlv).
  exists b, used. rewrite <- S2. split; [done|]. split; [done|].
  split; [pose proof (table_next e); eapply outside_same_weaken; [| |exact O]; zlia|].
  split; [intros q Hq; rewrite Hlv by done; replace (1024 * at_ used t + p mod 1024) with p by (rewrite Et; zlia); done|].
  rewrite <- (put_space_id e k) at 1 by done. by destruct (space_of k e).
Qed.

Lemma leaf_value_u32 rights p : 0 <= rights < 16 -> 0 <= p < 2 ^ 20 -> is_u32 (leaf_value rights p).
Proof.
  intros Hr Hp. unfold leaf_value. destruct (rights =? 0); [done|]. repeat apply lor_u32; try done; [|unfold is_u32; lia].
  unfold is_u32. rewrite Z.shiftl_mul_pow2 by lia. lia.
Qed.

(** A region's table, taken from the entry's six. *)
Lemma take_table_wp {A} e r used k (c : ST (kernel D E) A) Q :
  0 <= e < 8 -> ram_ok (ram k) -> length (spaces k) = 8%nat -> shape (ram k) e (tables (space_of k e)) used -> In r R -> 0 <= r < 1024 -> ~ In r used ->
  (forall k' used', ram_ok (ram k') -> length (spaces k') = 8%nat -> shape (ram k') e (tables (space_of k' e)) used' -> In r used' -> mapped e (leaf (ram k) e) k k' -> wp c Q k') ->
  wp (set_space e {| (space_of k e) with tables := tables (space_of k e) + 1 |};; clear_table (table e (tables (space_of k e)));;
      poke (table e 0 + 4 * r) 4 (((table e (tables (space_of k e)) .>> 12) .<< 10) .| PTE_V);; c) Q k.
Proof.
  intros He Hr Hl Hs HRr Hr1 Hu HQ. pose proof (used_room _ _ _ _ r Hs HRr Hu) as Hn. pose proof Hs as (S1 & S2 & _). set (n := tables (space_of k e)) in *.
  destruct (table_place e 0) as (T1 & T2 & T3 & _); [lia|lia|]. destruct (table_place e n) as (U1 & U2 & U3 & U4); [lia|lia|].
  wp1. apply set_space_wp; [done|done|]. wp1. unfold clear_table. apply clear_words_wp; [done|done|unfold OS_SLOT_BASE, SLOTS_END in *; lia|zlia|].
  intros b1 Hb1 W1 O1. change (ram (put_space ?i ?s ?k0)) with (ram k0) in *. wp1.
  destruct (pointer_to_spec (table e n)) as (P1 & _); [unfold RAM_BASE, OS_SLOT_BASE in *; lia|done|].
  apply poke4_wp; [done|lia|unfold OS_SLOT_BASE, SLOTS_END in *; lia|zlia|exact P1|]. intros b2 Hb2 W2 O2. cbn [ram put_ram] in W2, O2. rewrite put_ram_twice.
  destruct (table_taken (ram k) b2 e n used r He Hs HRr Hr1 Hu Hn) as (Hs' & Hlv).
  { intros a Ha. rewrite W2, W1 by done. change (4 * Z.of_nat 1024) with 4096. done. }
  pose proof (table_next e) as Hx. assert (Hlen : 1 + Z.of_nat (length (used ++ [r])) = n + 1) by (rewrite length_app; cbn [length]; lia).
  apply (HQ _ (used ++ [r])); [done|cbn; by rewrite length_insert| |apply in_or_app; right; by left|].
  - change (space_of (put_ram b2 ?k0) e) with (space_of k0 e). rewrite space_of_put by (done || lia). by rewrite Z.eqb_refl.
  - exists b2, (used ++ [r]). rewrite Hlen. split; [done|]. split; [done|].
    split; [eapply outside_same_trans; [eapply outside_same_weaken; [| |exact O1]; lia|eapply outside_same_weaken; [| |exact O2]; lia]|]. by split.
Qed.

Lemma map_pages_wp n e p end0 rights k (Q : option () -> kernel D E -> Prop) :
  0 <= e < 8 -> entry_shape e k -> 0 <= p -> 0 <= end0 <= 0xfffff000 -> 0 <= rights < 16 ->
  1 + Z.max 0 ((end0 + 4095) / 4096 - p) <= Z.of_nat n ->
  (rights <> 0 -> forall q, p <= q -> 4096 * q < end0 -> In (q / 1024) R) ->
  (forall k', mapped e (fun q => if (p <=? q) && (4096 * q <? end0) then leaf_value rights q else leaf (ram k) e q) k k' -> Q (Some ()) k') ->
  wp (map_pages B n e (4096 * p) end0 rights) Q k.
Proof.
  revert p k. induction n as [|n IH]; intros p k He Hk Hp Hend Hri Hn HRr HQ; [lia|]. cbn [map_pages]. wp1.
  2: { wp1. bools. apply HQ. eapply mapped_ext; [|by apply mapped_refl]. intros q Hq. cbv beta. destruct (Z.leb_spec p q), (Z.ltb_spec (4096 * q) end0); try done. lia. }
  bools. rename H into Hlt. pose proof Hk as (Hr & Hl & used & Hs). assert (Hp20 : 0 <= p < 2 ^ 20) by (change (2 ^ 20) with 1048576; lia).
  destruct (table_place e 0) as (T1 & T2 & T3 & _); [lia|lia|]. assert (Hr1 : 0 <= p / 1024 < 1024) by zlia.
  assert (Hnext : u32 (4096 * p + PAGE_SIZE) = 4096 * (p + 1)) by (unfold PAGE_SIZE; rewrite u32_id by (unfold is_u32; lia); lia).
  assert (Hrest : forall k1, mapped e (fun q => if q =? p then leaf_value rights q else leaf (ram k) e q) k k1 -> wp (map_pages B n e (u32 (4096 * p + PAGE_SIZE)) end0 rights) Q k1).
  { intros k1 Hm. destruct (mapped_shape e _ _ _ He Hl Hm) as (Hk1 & Hlv & _). rewrite Hnext. apply IH; [done|done|lia|done|done|zlia|intros Hne q Hq; apply HRr; [done|lia]|].
    intros k' Hm'. apply HQ. eapply mapped_ext; [|by eapply mapped_trans]. intros q Hq. cbv beta. rewrite Hlv by done.
    destruct (Z.eqb_spec q p) as [->|Hne]; [rewrite (proj2 (Z.leb_gt (p + 1) p)), (proj2 (Z.leb_le p p)), (proj2 (Z.ltb_lt (4096 * p) end0)) by lia; done|].
    destruct (Z.leb_spec (p + 1) q), (Z.leb_spec p q); try done; lia. }
  assert (Hleaf : forall k1 used1, ram_ok (ram k1) -> length (spaces k1) = 8%nat -> shape (ram k1) e (tables (space_of k1 e)) used1 -> In (p / 1024) used1 -> mapped e (leaf (ram k) e) k k1 ->
    wp (v ← peek (table e 0 + 4 * ((4096 * p) .>> 22)) 4;
        poke (((v .>> 10) .<< 12) + 4 * (((4096 * p) .>> 12) .& 1023)) 4
          (if rights =? 0 then 0 else (((4096 * p) .>> 12) .<< 10) .| rights .| PTE_V .| PTE_U .| PTE_A .| PTE_D);;
        map_pages B n e (u32 (4096 * p + PAGE_SIZE)) end0 rights) Q k1).
  { intros k1 used1 Hr1' Hl1 Hs1 Hin1 Hm1. assert (E12 : (4096 * p) .>> 12 = p) by (rewrite Z.shiftr_div_pow2 by lia; change (2 ^ 12) with 4096; zlia).
    replace (if rights =? 0 then 0 else _) with (leaf_value rights p) by (unfold leaf_value; by rewrite E12).
    apply (set_leaf_wp e p _ used1); [done|done|done|done|done|done|by apply leaf_value_u32|]. intros k2 Hm2. apply Hrest.
    destruct (mapped_shape e _ _ _ He Hl Hm1) as (_ & Hlv & _).
    eapply mapped_ext; [|by eapply mapped_trans]. intros q Hq. cbv beta. rewrite Hlv by done. destruct (Z.eqb_spec q p) as [->|]; done. }
  wp1. rewrite root_index by lia. apply ram_peek_wp; [done|lia|lia|unfold OS_SLOT_BASE, SLOTS_END in *; lia|].
  change (le_bytes (ram k) (?a - RAM_BASE) (Z.to_nat 4)) with (word (ram k) a). wp1. wp1.
  - wp1. rewrite <- root_index by lia. apply (Hleaf k used); [done|done|done| |by apply mapped_refl].
    destruct (in_dec Z.eq_dec (p / 1024) used) as [Hi|Hi]; [done|]. destruct Hs as (_ & _ & _ & _ & S5). rewrite S5 in H by done. done.
  - assert (Hu : ~ In (p / 1024) used).
    { intros Hi. destruct (used_index _ _ Hi) as (t & Ht & Et). pose proof (used_bound _ _ _ _ Hs). destruct Hs as (_ & _ & _ & S4 & _). rewrite <- Et, S4 in H by done.
      destruct (table_place e (t + 1)) as (U1 & U2 & U3 & _); [lia|lia|]. destruct (pointer_to_spec (table e (t + 1))) as (_ & P2 & _); [unfold RAM_BASE, OS_SLOT_BASE in *; lia|done|]. congruence. }
    wp1.
    + wp1. bools. apply Hrest. eapply mapped_ext; [|by apply mapped_refl]. intros q Hq. cbv beta. destruct (Z.eqb_spec q p) as [->|]; [|done].
      unfold leaf_value. subst rights. rewrite (leaf_unused _ e _ used p Hs Hp20 Hu). done.
    + bools. wp1. apply space_at_wp; [done|done|]. assert (HRp : In (p / 1024) R) by (apply HRr; [done|lia|done]).
      pose proof (used_room _ _ _ _ _ Hs HRp Hu) as Hroom. rewrite (proj2 (Z.eqb_neq (tables (space_of k e)) PAGE_TABLES)) by (unfold PAGE_TABLES; lia). cbv zeta.
      apply (take_table_wp e (p / 1024) used); [done|done|done|done|done|done|done|]. intros k1 used1 Hr1' Hl1 Hs1 Hin1 Hm1. wp1. rewrite <- root_index by lia.
      by apply (Hleaf k1 used1).
Qed.

Lemma page_floor a : is_u32 a -> a .& not32 (PAGE_SIZE - 1) = 4096 * (a / 4096).
Proof.
  intros Ha. change (not32 (PAGE_SIZE - 1)) with (Z.ones 20 .<< 12).
  replace (4096 * (a / 4096)) with ((a .>> 12) .<< 12) by (rewrite Z.shiftl_mul_pow2, Z.shiftr_div_pow2 by lia; change (2 ^ 12) with 4096; lia).
  apply Z.bits_inj'. intros n Hn. rewrite Z.land_spec.
  destruct (Z.lt_ge_cases n 12); [by rewrite !Z.shiftl_spec_low, andb_false_r by lia|]. rewrite !Z.shiftl_spec_high, Z.shiftr_spec by lia.
  replace (n - 12 + 12) with n by lia. destruct (Z.lt_ge_cases (n - 12) 20); [by rewrite Z.ones_spec_low, andb_true_r by lia|].
  rewrite Z.ones_spec_high, andb_false_r by lia. symmetry. destruct (Z.eq_dec a 0) as [->|]; [apply Z.bits_0|].
  unfold is_u32 in Ha. apply Z.bits_above_log2; [lia|]. assert (Z.log2 a < 32) by (apply Z.log2_lt_pow2; lia). lia.
Qed.

(** The budget has a table for every region of the range. *)
Definition covers (start end0 : Z) : Prop := forall q, start / 4096 <= q -> 4096 * q < end0 -> In (q / 1024) R.

Lemma map_range_wp e start end0 rights k (Q : option () -> kernel D E -> Prop) :
  0 <= e < 8 -> entry_shape e k -> 0 <= start <= end0 -> end0 <= 0xfffff000 -> 0 <= rights < 16 -> covers start end0 ->
  (forall k', mapped e (fun q => if in_range start end0 q then leaf_value rights q else leaf (ram k) e q) k k' -> Q (Some ()) k') ->
  wp (map_range B e start end0 rights) Q k.
Proof.
  intros He Hk Hst Hend Hri Hc HQ. pose proof Hk as (Hr & Hl & used & Hs). unfold map_range. wp1. apply space_at_wp; [done|done|].
  pose proof Hs as (_ & S2 & _). rewrite (proj2 (Z.eqb_neq (tables (space_of k e)) 0)) by lia. rewrite page_floor by (unfold is_u32; lia).
  apply map_pages_wp; [done|done|zlia|lia|done| |intros _ q Hq; by apply Hc|done]. change PAGE_SIZE with 4096. zlia.
Qed.

(** ** The address space of a process *)

Definition LEAF_RWX : Z := PTE_R .| PTE_W .| PTE_X.

(** The slots less the guard page. *)
Definition own_page (s : address_space) (q : Z) : bool :=
  in_range (s_base s) (guard s) q || in_range (u32 (guard s + OS_GUARD_SIZE)) (u32 (s_base s + s_span s)) q.
Definition screen_page (q : Z) : bool := tst (framebuffer B) && in_range (framebuffer B) (u32 (framebuffer B + framebuffer_size B)) q.
Definition window_page (ws : list (Z * Z)) (q : Z) : bool := existsb (fun '(b, n) => in_range b (u32 (b + n)) q) ws.

(** The leaves after [lay_out] with the rights, over the leaves before. *)
Definition laid (s : address_space) (rights : Z) (old : Z -> Z) (q : Z) : Z :=
  let data := rights .& not32 PTE_X in
  if drives_engines s && window_page (engine_windows B) q then leaf_value data q
  else if screen_page q then leaf_value data q
  else if own_page s q then leaf_value rights q else old q.
Definition layout (s : address_space) (q : Z) : Z := laid s LEAF_RWX (fun _ => 0) q.

Lemma laid_clear s q : laid s 0 (layout s) q = 0.
Proof. unfold layout, laid. by destruct (drives_engines s && _), (screen_page q), (own_page s q). Qed.
Lemma laid_over s q old : old q = 0 -> laid s LEAF_RWX old q = layout s q.
Proof. intros H. unfold layout, laid. by destruct (drives_engines s && _), (screen_page q), (own_page s q). Qed.

(** Where the devices are, and a layout that is in the slots. *)
Definition windows_placed (ws : list (Z * Z)) : Prop := Forall (fun '(b, n) => 0 <= b /\ 0 <= n /\ b + n <= RAM_BASE) ws.
Definition devices_placed : Prop :=
  0 <= framebuffer B /\ 0 <= framebuffer_size B /\ framebuffer B + framebuffer_size B <= RAM_BASE /\ windows_placed (engine_windows B).
Definition in_slots (b n : Z) : Prop := OS_SLOT_BASE <= b /\ 0 < n /\ b + n <= SLOTS_END /\ b mod 4096 = 0 /\ n mod 4096 = 0.
Definition laid_out (s : address_space) : Prop :=
  in_slots (s_base s) (s_span s) /\ s_base s <= guard s /\ guard s mod 4096 = 0 /\ guard s + 4096 < s_base s + s_span s.
Definition covered : Prop :=
  covers OS_SLOT_BASE SLOTS_END /\ (framebuffer B <> 0 -> covers (framebuffer B) (framebuffer B + framebuffer_size B))
  /\ Forall (fun '(b, n) => covers b (b + n)) (engine_windows B).

Lemma map_windows_wp ws e data k (Q : option () -> kernel D E -> Prop) :
  0 <= e < 8 -> entry_shape e k -> 0 <= data < 16 -> windows_placed ws -> Forall (fun '(b, n) => covers b (b + n)) ws ->
  (forall k', mapped e (fun q => if window_page ws q then leaf_value data q else leaf (ram k) e q) k k' -> Q (Some ()) k') ->
  wp (map_windows B ws e data) Q k.
Proof.
  revert k. induction ws as [|[b n] ws IH]; intros k He Hk Hd Hp Hc HQ; cbn [map_windows].
  - wp1. apply HQ. by apply mapped_refl.
  - apply Forall_cons_1 in Hp as [P Hp']. apply Forall_cons_1 in Hc as [C1 Hc']. cbv beta iota in P, C1. destruct P as (P1 & P2 & P3). unfold RAM_BASE in *. assert (Eb : u32 (b + n) = b + n) by (apply u32_id; unfold is_u32; lia).
    rewrite Eb. wp1. apply map_range_wp; [done|done|lia|lia|done|done|]. intros k1 Hm. pose proof Hk as (_ & Hl & _).
    destruct (mapped_shape e _ _ _ He Hl Hm) as (Hk1 & Hlv & _). apply IH; [done|done|done|done|done|]. intros k2 Hm2. apply HQ.
    eapply mapped_ext; [|by eapply mapped_trans]. intros q Hq. cbv beta. rewrite Hlv by done. cbn [window_page existsb]. rewrite Eb.
    change (existsb _ ws) with (window_page ws q). by destruct (window_page ws q), (in_range b (b + n) q).
Qed.

Lemma lay_out_wp e rights k (Q : option () -> kernel D E -> Prop) :
  0 <= e < 8 -> entry_shape e k -> rights = 0 \/ rights = LEAF_RWX -> devices_placed -> covered -> laid_out (space_of k e) ->
  (forall k', mapped e (laid (space_of k e) rights (leaf (ram k) e)) k k' -> Q (Some ()) k') ->
  wp (lay_out B e rights) Q k.
Proof.
  intros He Hk Hri Hd (C1 & C2 & C3) (I & G1 & G2 & G3) HQ. pose proof Hk as (_ & Hl & _). destruct Hd as (D1 & D2 & D3 & D4). destruct I as (I1 & I2 & I3 & I4 & I5).
  set (s := space_of k e) in *. unfold lay_out. wp1. apply space_at_wp; [done|done|]. fold s. cbv zeta. set (data := rights .& not32 PTE_X).
  assert (Hri' : 0 <= rights < 16) by (destruct Hri as [->| ->]; done). assert (Hda : 0 <= data < 16) by (subst data; destruct Hri as [->| ->]; done).
  unfold OS_SLOT_BASE, SLOTS_END, OS_GUARD_SIZE, RAM_BASE in *.
  assert (Eg : u32 (guard s + 4096) = guard s + 4096) by (apply u32_id; unfold is_u32; lia).
  assert (Ee : u32 (s_base s + s_span s) = s_base s + s_span s) by (apply u32_id; unfold is_u32; lia).
  assert (Ef : u32 (framebuffer B + framebuffer_size B) = framebuffer B + framebuffer_size B) by (apply u32_id; unfold is_u32; lia).
  change OS_GUARD_SIZE with 4096. rewrite Eg, Ee. wp1. apply map_range_wp; [done|done|lia|lia|done|intros q H1 H2; apply C1; zlia|]. intros k1 M1.
  destruct (mapped_shape e _ _ _ He Hl M1) as (Hk1 & L1 & _). pose proof Hk1 as (_ & Hl1 & _).
  wp1. apply map_range_wp; [done|done|lia|lia|done|intros q H1 H2; apply C1; zlia|]. intros k2 M2.
  destruct (mapped_shape e _ _ _ He Hl1 M2) as (Hk2 & L2 & _). pose proof Hk2 as (_ & Hl2 & _).
  assert (M12 := mapped_trans e _ _ _ _ _ He Hl M1 M2). wp1.
  assert (Hfb : forall Q', (forall k3, mapped e (fun q => if screen_page q then leaf_value data q else leaf (ram k2) e q) k2 k3 -> Q' (Some ()) k3) ->
     wp (if tst (framebuffer B) then map_range B e (framebuffer B) (u32 (framebuffer B + framebuffer_size B)) data else mret (Some ())) Q' k2).
  { intros Q' HQ'. rewrite Ef. unfold screen_page in HQ'. destruct (tst (framebuffer B)) eqn:Et.
    - apply tst_true in Et. apply map_range_wp; [done|done|lia|lia|done|by apply C2|]. intros k3 M3. apply HQ'. rewrite Ef. exact M3.
    - wp1. apply HQ'. by apply mapped_refl. }
  apply Hfb. intros k3 M3. destruct (mapped_shape e _ _ _ He Hl2 M3) as (Hk3 & L3 & _). pose proof Hk3 as (_ & Hl3 & _).
  assert (M13 := mapped_trans e _ _ _ _ _ He Hl M12 M3).
  assert (Hlast : forall k4, mapped e (fun q => if drives_engines s && window_page (engine_windows B) q then leaf_value data q else leaf (ram k3) e q) k3 k4 -> Q (Some ()) k4).
  { intros k4 M4. apply HQ. eapply mapped_ext; [|exact (mapped_trans e _ _ _ _ _ He Hl M13 M4)]. intros q Hq. cbv beta. rewrite L3, L2, L1 by done.
    unfold laid, own_page. fold data. change OS_GUARD_SIZE with 4096. rewrite Eg, Ee. by destruct (drives_engines s && window_page (engine_windows B) q), (screen_page q), (in_range (s_base s) (guard s) q), (in_range (guard s + 4096) (s_base s + s_span s) q). }
  wp1.
  - apply map_windows_wp; [done|done|done|done|done|]. intros k4 M4. apply Hlast. rewrite H. exact M4.
  - wp1. apply Hlast. rewrite H. by apply mapped_refl.
Qed.

(** What an entry's tables map: nothing before its first process, then the layout of its last one. *)
Definition entry_maps (e : Z) k : Prop :=
  (exists used, shape (ram k) e (tables (space_of k e)) used) /\ laid_out (space_of k e)
  /\ forall q, 0 <= q < 2 ^ 20 -> leaf (ram k) e q = layout (space_of k e) q.

(** The layout of the process in the entry. *)
Definition space_for (p : proc) (stack0 : Z) (s : address_space) : address_space :=
  {| s with s_base := base p; s_span := span p; guard := u32 (base p + span p - stack0); drives_engines := drives p |}.

Lemma first_table_wp {A} i k (c : ST (kernel D E) A) Q :
  0 <= i < 8 -> ram_ok (ram k) -> length (spaces k) = 8%nat -> (forall k', mapped i (fun _ => 0) k k' -> wp c Q k') ->
  wp (clear_table (table i 0);; s ← space_at i; set_space i {| s with tables := 1 |};; c) Q k.
Proof.
  intros Hi Hr Hl HQ. destruct (table_place i 0) as (T1 & T2 & T3 & _); [lia|lia|].
  wp1. unfold clear_table. apply clear_words_wp; [done|done|unfold OS_SLOT_BASE, SLOTS_END in *; lia|zlia|]. intros b Hb W O.
  wp1. apply space_at_wp; [done|done|]. change (space_of (put_ram b k) i) with (space_of k i). wp1. apply set_space_wp; [done|done|]. apply HQ.
  assert (Hs : shape b i 1 []).
  { unfold shape; splits; [constructor|done|by intros r []|intros t Ht; cbn in Ht; lia|]. intros r Hr1 _. rewrite W by zlia.
    by rewrite (proj2 (Z.leb_le _ _)), (proj2 (Z.ltb_lt _ _)) by lia. }
  exists b, []. split; [done|]. split; [done|]. split; [pose proof (table_next i); eapply outside_same_weaken; [| |exact O]; lia|].
  split; [intros q Hq; apply (leaf_unused b i 1 []); [done|done|by intros []]|]. done.
Qed.

Lemma map_process_wp i stack0 k (Q : option () -> kernel D E -> Prop) :
  0 <= i < 8 -> ram_ok (ram k) -> length (spaces k) = 8%nat -> length (procs k) = 8%nat -> devices_placed -> covered ->
  tables (space_of k i) = 0 \/ entry_maps i k -> laid_out (space_for (proc_of k i) stack0 (space_of k i)) ->
  (forall b n, ram_ok b -> n <> 0 -> outside_same (table i 0) (table (i + 1) 0) (ram k) b ->
     let s := {| (space_for (proc_of k i) stack0 (space_of k i)) with tables := n |} in
     entry_maps i (put_ram b (put_space i s k)) -> Q (Some ()) (put_ram b (put_space i s k))) ->
  wp (map_process B i stack0) Q k.
Proof.
  intros Hi Hr Hl Hlp Hd Hc He Hlo HQ. unfold map_process. wp1. apply space_at_wp; [done|done|].
  assert (Htail : forall k1, mapped i (fun _ => 0) k k1 ->
    wp (p ← proc_at i; s ← space_at i;
        set_space i {| s with s_base := base p; s_span := span p; guard := u32 (base p + span p - stack0); drives_engines := tst (flags p .& PROGRAM_ACCELERATORS) |};;
        lay_out B i (PTE_R .| PTE_W .| PTE_X)) Q k1).
  { intros k1 Hm. destruct (mapped_shape i _ _ _ Hi Hl Hm) as ((Hr1 & Hl1 & used1 & Hs1) & Hlv & Es). destruct Hm as (b1 & u1 & Hb1 & _ & O1 & _ & E1).
    assert (Ep : procs k1 = procs k) by by subst k1. wp1. apply proc_at_wp; [by rewrite Ep|done|]. replace (proc_of k1 i) with (proc_of k i) by (unfold proc_of; by rewrite Ep).
    wp1. apply space_at_wp; [done|done|]. set (p := proc_of k i) in *. wp1.
    match goal with |- wp (set_space i ?x) _ _ => change x with (space_for p stack0 (space_of k1 i)) end. set (s2 := space_for p stack0 (space_of k1 i)). apply set_space_wp; [done|done|].
    assert (E2 : space_of (put_space i s2 k1) i = s2) by (rewrite space_of_put by (done || lia); by rewrite Z.eqb_refl).
    assert (Hs2 : s2 = {| (space_for p stack0 (space_of k i)) with tables := tables (space_of k1 i) |}) by (unfold s2, space_for at 1; rewrite Es; done).
    apply lay_out_wp; [done| |by right|done|done|rewrite E2, Hs2; exact Hlo|].
    { split; [done|]. split; [cbn; by rewrite length_insert|]. exists used1. rewrite E2. exact Hs1. }
    intros k2 Hm2. destruct (mapped_shape i _ (put_space i s2 k1) _ Hi ltac:(cbn; by rewrite length_insert) Hm2) as ((_ & _ & used2 & Hs2') & Hlv2 & Es2).
    destruct Hm2 as (b2 & u2 & Hb2 & Hsh2 & O2 & _ & Ek2). rewrite E2 in *.
    set (s3 := {| (space_for p stack0 (space_of k i)) with tables := 1 + Z.of_nat (length u2) |}).
    assert (Ek : k2 = put_ram b2 (put_space i s3 k)).
    { rewrite Ek2, E1, put_space_again, put_space_twice, put_ram_twice, Hs2. reflexivity. }
    rewrite Ek. apply HQ; [done|lia|subst k1; by eapply outside_same_trans|]. change (entry_maps i (put_ram b2 (put_space i s3 k))). rewrite <- Ek.
    assert (E3 : space_of k2 i = s3) by (rewrite Ek; change (space_of (put_ram b2 ?k0) i) with (space_of k0 i); rewrite space_of_put by (done || lia); by rewrite Z.eqb_refl).
    split; [by exists used2|]. split; [rewrite E3; exact Hlo|]. intros q Hq. rewrite Hlv2 by done. change (ram (put_space i s2 k1)) with (ram k1).
    rewrite laid_over by (by rewrite Hlv). rewrite E3, Hs2. done. }
  wp1. destruct (tst (tables (space_of k i))) eqn:Et.
  - apply tst_true in Et. destruct He as [He|((used & Hs) & Hlo0 & Hlv)]; [done|]. apply lay_out_wp; [done|split; [done|split; [done|by exists used]]|by left|done|done|done|].
    intros k1 Hm. apply Htail. eapply mapped_ext; [|exact Hm]. intros q Hq. cbv beta. etransitivity; [|apply (laid_clear (space_of k i) q)]. unfold laid at 1 2. by rewrite Hlv.
  - apply first_table_wp; [done|done|done|]. intros k1 Hm. wp1. by apply Htail.
Qed.
End Map.
End Tables.

(** ** The budget checked at boot *)

Lemma add_from_spec n region last regions max r : add_from n region last regions max = Some r -> last - region < Z.of_nat n -> Z.of_nat (length regions) <= max ->
  incl regions r /\ Z.of_nat (length r) <= max /\ forall x, region <= x <= last -> In x r.
Proof.
  revert region regions. induction n as [|n IH]; intros region regions H Hn Hl; cbn [add_from] in H.
  - injection H as <-. splits; [apply incl_refl|done|lia].
  - destruct (Z.leb_spec region last) as [Hle|Hgt]; [|injection H as <-; splits; [apply incl_refl|done|lia]].
    destruct (existsb (Z.eqb region) regions) eqn:Ee.
    + destruct (IH _ _ H ltac:(lia) Hl) as (I1 & I2 & I3). splits; [done|done|]. intros x Hx. destruct (Z.eq_dec x region) as [->|]; [|apply I3; lia].
      apply I1. apply existsb_exists in Ee as (y & Hy & Ey). apply Z.eqb_eq in Ey. by subst.
    + destruct (Z.eqb_spec (Z.of_nat (length regions)) max) as [|Hm]; [done|].
      destruct (IH _ _ H ltac:(lia)) as (I1 & I2 & I3); [rewrite length_app; cbn [length]; lia|]. splits; [|done|].
      * intros x Hx. apply I1, in_or_app. by left.
      * intros x Hx. destruct (Z.eq_dec x region) as [->|]; [|apply I3; lia]. apply I1, in_or_app. right. by left.
Qed.

Lemma region_of_page start end0 q : 0 <= start -> start / 4096 <= q -> 4096 * q < end0 -> start .>> 22 <= q / 1024 <= (end0 - 1) .>> 22.
Proof. intros. rewrite !Z.shiftr_div_pow2 by lia. change (2 ^ 22) with 4194304. zlia. Qed.
Lemma region_range a : is_u32 a -> 0 <= a .>> 22 < 1024.
Proof. unfold is_u32. intros. rewrite !Z.shiftr_div_pow2 by lia. change (2 ^ 22) with 4194304. zlia. Qed.

#[local] Strategy opaque [add_from].
Lemma add_regions_spec regions max start end0 r : add_regions regions max start end0 = Some r -> 0 <= start -> 0 <= end0 < 0x100000000 -> Z.of_nat (length regions) <= max ->
  incl regions r /\ Z.of_nat (length r) <= max /\ covers r start end0.
Proof.
  intros H Hs He Hl. unfold add_regions in H. pose proof (region_range _ (u32_range (end0 - 1))) as Hu.
  assert (0 <= start .>> 22) as Hst by (by apply Z.shiftr_nonneg). revert H. generalize (eq_refl : Z.of_nat 1025 = 1025). generalize 1025%nat. intros fuel Hf H.
  destruct (add_from_spec _ _ _ _ _ _ H) as (I1 & I2 & I3); [lia|done|]. splits; [done|done|].
  intros q H1 H2. apply I3. assert (0 < end0) by zlia. rewrite u32_id by (unfold is_u32; lia). by apply region_of_page.
Qed.

Lemma covers_incl r r' start end0 : incl r r' -> covers r start end0 -> covers r' start end0.
Proof. intros H Hc q H1 H2. by apply H, Hc. Qed.

Lemma add_windows_spec ws regions max r : add_windows ws regions max = Some r -> windows_placed ws -> Z.of_nat (length regions) <= max ->
  incl regions r /\ Z.of_nat (length r) <= max /\ Forall (fun '(b, n) => covers r b (b + n)) ws.
Proof.
  revert regions. induction ws as [|[b n] ws IH]; intros regions H Hp Hl; cbn [add_windows] in H.
  - injection H as <-. splits; [apply incl_refl|done|constructor].
  - apply Forall_cons_1 in Hp as [(P1 & P2 & P3) Hp]. destruct (add_regions regions max b (u32 (b + n))) as [r1|] eqn:E1; [|done].
    unfold RAM_BASE in P3. rewrite u32_id in E1 by (unfold is_u32; lia). destruct (add_regions_spec _ _ _ _ _ E1) as (I1 & I2 & I3); [lia|lia|done|].
    destruct (IH _ H Hp I2) as (J1 & J2 & J3). splits; [by eapply incl_tran|done|]. constructor; [by eapply covers_incl|done].
Qed.

(** What [check_page_table_budget] accepts has a table for every region a process may have mapped. *)
Lemma budget_covers B R : page_table_budget B = Some R -> devices_placed B -> (length R <= 6)%nat /\ covered B R.
Proof.
  intros H (D1 & D2 & D3 & D4). unfold page_table_budget in H. change (PAGE_TABLES - 1) with 6 in H. change (OS_SLOT_BASE + OS_SLOTS * OS_SLOT_SIZE) with SLOTS_END in H.
  destruct (add_regions [] 6 OS_SLOT_BASE SLOTS_END) as [r1|] eqn:E1; [|done]. destruct (add_regions_spec _ _ _ _ _ E1) as (I1 & I2 & I3); [done|done|done|].
  unfold RAM_BASE in D3. rewrite u32_id in H by (unfold is_u32; lia).
  destruct (if tst (framebuffer B) then _ else _) as [r2|] eqn:E2; [|done].
  assert (H2 : incl r1 r2 /\ Z.of_nat (length r2) <= 6 /\ (framebuffer B <> 0 -> covers r2 (framebuffer B) (framebuffer B + framebuffer_size B))).
  { destruct (tst (framebuffer B)) eqn:Et.
    - destruct (add_regions_spec _ _ _ _ _ E2) as (J1 & J2 & J3); [lia|lia|done|]. done.
    - injection E2 as <-. apply tst_false in Et. splits; [apply incl_refl|done|done]. }
  destruct H2 as (J1 & J2 & J3). destruct (add_windows_spec _ _ _ _ H D4 J2) as (K1 & K2 & K3). split; [lia|].
  split; [eapply covers_incl; [|exact I3]; by eapply incl_tran|]. split; [|done]. intros Hf. eapply covers_incl; [exact K1|]. by apply J3.
Qed.

End KernelTables.
