(* ===== verification/KernelProofs.v ===== *)
(** * The kernel's invariant

    What is true of the kernel's variables and of memory between two traps, and the
    ways a step may change them that keep it: a device access, a store in a process's
    own slots, a change of the file system, of one process, of one entry's tables. *)

From S2P Require Import Prelude Effects Buffer Fs FsProofs FsSpecs Kernel KernelTables.

Module KernelProofs.
Import Fs FsProofs Kernel KernelTables.

(** ** What the file system's operations keep *)

Section FileSystem.
Context {D : Type} {BD : BlockDevice D} {BDO : BlockDeviceOk D} `{F : Fuelled}.
Implicit Types (s : fs_state D).

Definition fs_inv (s : fs_state D) : Prop := FsSpecs.fs_ready s /\ (mounted s = true -> FsSpecs.fs_ok s).

(** The files in use are still there. *)
Definition files_kept (s s' : fs_state D) : Prop := mounted s' = mounted s /\ forall i, 0 <= i < 16 -> in_use s i = true -> in_use s' i = true.

Lemma flush_fs s : fs_inv s -> wp fs_flush (fun _ s' => fs_inv s' /\ files_kept s s' /\ True) s.
Proof.
  intros (Hr & Hm). apply FsSpecs.fs_flush_wp; [done|]. intros ok d Hd _ _. assert (Hb : FsSpecs.fs_ready {| s with disk := d |}).
  { destruct Hr as (R1 & R2 & R3 & R4 & R5). split; [done|]. split; [done|]. split; [done|]. split; [done|by apply Hd]. }
  split; [split; [done|]; intros Hmo; destruct (Hm Hmo) as (_ & M2 & M3); done|]. done.
Qed.

Lemma in_use_same (s s' : fs_state D) i : FsSpecs.fs_ok s -> FsSpecs.fs_ok s' -> sectors s' = sectors s -> 0 <= i < 16 ->
  at_ (directory s') i = at_ (directory s) i -> in_use s' i = in_use s i.
Proof.
  intros ((L & _) & _ & C) ((L' & _) & _ & C') Es Hi Ed. unfold in_use. rewrite C, C', !FsSpecs.at_map, Es, Ed by lia. done.
Qed.

Definition file_ok (s : fs_state D) (file0 : Z) : Prop := mounted s = true /\ 0 <= file0 < 16 /\ in_use s file0 = true.
(** The file an open answers is in use. *)
Definition opened (r : Z) (s : fs_state D) : Prop := r < 0 \/ file_ok s r.

Lemma open_fs wanted create s : fs_inv s -> Forall is_u8 wanted -> In 0 wanted -> wp (fs_open wanted create) (fun r s' => fs_inv s' /\ files_kept s s' /\ opened r s') s.
Proof.
  intros (Hr & Hm) Hu H0. destruct (mounted s) eqn:Em.
  - specialize (Hm eq_refl). eapply wp_mono; [apply FsSpecs.fs_open_wp; [done|done|by right]|].
    intros r s' (Hs' & (Es & Em') & _ & Hd & _ & Hres). assert (Hk : files_kept s s').
    { split; [done|]. intros i Hi Hin. rewrite (in_use_same s s'); [done|done|done|done|done|]. apply Hd; [done|]. unfold in_use in Hin. by apply andb_true_iff in Hin as [-> _]. }
    split; [split; [apply Hs'|done]|]. split; [done|]. destruct Hres as [[-> _]|(H1 & H2 & H3 & _)]; [left; lia|right]. split; [congruence|by split].
  - unfold fs_open. wp1. wp1. unfold id. rewrite Em. wp1. wp1. wp1. split; [split; [done|congruence]|]. split; [by split|]. left. lia.
Qed.

Lemma kept_files file s s' : 0 <= file -> kept file s s' -> files_kept s s'.
Proof.
  intros Hf K. split; [by destruct K as (_ & -> & _)|]. intros i Hi Hin. destruct (Z.eq_dec i file) as [->|Hne]; [by rewrite (FsSpecs.kept_in_use file s s')|].
  destruct K as (_ & _ & Kc & _ & Kd). unfold in_use in *. rewrite Kc, Kd by lia. by rewrite (proj2 (Z.eqb_neq i file)).
Qed.

Lemma size_fs file0 s : fs_inv s -> file_ok s file0 -> wp (fs_size file0) (fun n s' => fs_inv s' /\ files_kept s s' /\ (0 <= n < 0x100000000 /\ s' = s)) s.
Proof.
  intros Hs (Hm & Hf & Hu). pose proof Hs as ((L & _) & Hok). destruct (FsSpecs.in_use_inside s file0 (Hok Hm) Hf Hu) as (He & _).
  unfold fs_size. wp1. apply entry_at_wp; [lia|]. wp1. split; [done|]. split; [by split|]. split; [|done]. destruct He as (_ & _ & H & _). exact H.
Qed.

Lemma truncate_fs file0 s : fs_inv s -> file_ok s file0 -> wp (fs_truncate file0) (fun _ s' => fs_inv s' /\ files_kept s s' /\ True) s.
Proof.
  intros (Hr & Hok) (Hm & Hf & Hu). pose proof Hr as (L & _ & Hb). destruct (FsSpecs.in_use_inside s file0 (Hok Hm) Hf Hu) as (_ & (I1 & I2 & I3 & I4) & _).
  unfold fs_truncate. apply set_size_wp; [lia|]. match goal with |- fs_inv ?x /\ _ => set (s' := x) end.
  assert (K : kept file0 s s').
  { split; [done|]. split; [done|]. split; [done|]. split; [cbn; by rewrite length_insert|]. intros i Hi. cbn [s' directory]. rewrite at_insert by lia.
    rewrite (Z.eqb_sym i). destruct (Z.eqb_spec file0 i) as [<-|]; done. }
  assert (Hs' : FsSpecs.fs_ok s').
  { eapply FsSpecs.kept_ok; [by apply Hok|done|done|done|exact Hb|]. cbn [s' directory]. rewrite at_insert, Z.eqb_refl by lia. cbn [size]. lia. }
  split; [split; [apply Hs'|done]|]. split; [apply (kept_files file0); [lia|done]|done].
Qed.

Lemma read_fs file0 position address to length0 s : fs_inv s -> file_ok s file0 -> 0 <= length0 <= Z.of_nat (length to) -> length0 < 0x100000000 -> 0 <= position ->
  wp (fs_read file0 position address to length0) (fun r s' => fs_inv s' /\ files_kept s s' /\ (length (snd r) = length to /\ is_u32 (fst r) /\ (fst r <> FS_ERROR -> Forall is_u8 to -> Forall is_u8 (snd r)))) s.
Proof.
  intros (Hr & Hok) (Hm & Hf & Hu) Hl H32 Hp. eapply wp_mono; [by apply FsSpecs.fs_read_wp; [apply Hok|..]|]. intros r s' (U & Hlen & Hres).
  pose proof U as (Ud & Uc & Us & Um & Ub & Ux). pose proof (Hok Hm) as ((L & E1 & B1) & N1 & C1).
  split; [split; [split; [by rewrite Ud|split; [by rewrite Ud|done]]|]; intros _; split; [split; [by rewrite Ud|split; [by rewrite Ud|done]]|split; [by rewrite Us|by rewrite Uc, Us, Ud]]|].
  split; [split; [done|]; intros i Hi; unfold in_use; by rewrite Ud, Uc|]. split; [done|].
  destruct Hres as [->|(-> & Hat)]; [by split|split; [unfold is_u32; lia|]]. intros _ Hto. apply Forall_at. intros j Hj. rewrite Hat by lia.
  destruct (_ && _); [|apply (at_Forall is_u8); [done|lia]]. apply dbyte_u8. apply B1.
Qed.

Lemma write_fs file0 position from length0 s : fs_inv s -> file_ok s file0 -> Forall is_u8 from -> 0 <= length0 <= Z.of_nat (length from) -> length0 < 0x100000000 -> 0 <= position ->
  wp (fs_write file0 position from length0) (fun r s' => fs_inv s' /\ files_kept s s' /\ is_u32 r) s.
Proof.
  intros (Hr & Hok) (Hm & Hf & Hu) Hb Hl H32 Hp. eapply wp_mono; [by apply FsSpecs.fs_write_wp; [apply Hok|..]|]. intros r s' (Hs' & K & _ & _ & _ & Hres).
  split; [split; [apply Hs'|done]|]. split; [apply (kept_files file0); [lia|done]|]. destruct Hres as [->|(-> & _)]; [done|unfold is_u32; lia].
Qed.
End FileSystem.

Create HintDb devices.

Section Kernel.
Context {D E : Type} {BD : BlockDevice D} {BDO : BlockDeviceOk D} {PF : Platform E} {PL : Polls} (B : board) (R : list Z) `{F : Fuelled}.
Implicit Types (k : kernel D E).
Abbreviation KM := (ST (kernel D E)).

(** ** Steps that touch only the devices *)

Definition put_env (e : E) k : kernel D E := {| k with env := e |}.
Lemma put_env_id k : put_env (env k) k = k.
Proof. by destruct k. Qed.

(** The steps that only read and write devices. *)
Definition env_only {A} (c : KM A) : Prop := forall k (Q : A -> kernel D E -> Prop), (forall a e, Q a (put_env e k)) -> wp c Q k.

Lemma env_ret {A} (a : A) : env_only (mret a).
Proof. intros k Q H. wp1. rewrite <- (put_env_id k). apply (H a). Qed.
Lemma env_bind {A C} (c : KM A) (g : A -> KM C) : env_only c -> (forall a, env_only (g a)) -> env_only (c ≫= g).
Proof. intros Hc Hg k Q H. wp1. apply Hc. intros a e. apply Hg. intros b e'. apply H. Qed.
Lemma env_if {A} (b : bool) (c d : KM A) : env_only c -> env_only d -> env_only (if b then c else d).
Proof. by destruct b. Qed.
Lemma env_when b (c : KM ()) : env_only c -> env_only (when b c).
Proof. intros H. destruct b; [exact H|apply env_ret]. Qed.
Lemma env_read32 a : env_only (mmio_read32 a).
Proof. intros k Q H. unfold wp, mmio_read32. destruct (read32 a (env k)) as [v e]. apply H. Qed.
Lemma env_read8 a : env_only (mmio_read8 a).
Proof. intros k Q H. unfold wp, mmio_read8. destruct (read8 a (env k)) as [v e]. apply H. Qed.
Lemma env_write32 a v : env_only (mmio_write32 a v).
Proof. intros k Q H. apply (H ()). Qed.
Lemma env_write8 a v : env_only (mmio_write8 a v).
Proof. intros k Q H. apply (H ()). Qed.

Hint Resolve env_ret env_read32 env_read8 env_write32 env_write8 : devices.
Ltac env1 := first [apply env_bind; [|intros ?]|apply env_if|apply env_when|solve [auto with devices nocore]].
Ltac envs := repeat env1; try solve [auto with devices nocore].

(** The loops that wait for a device end within their polls. *)
Definition prompt : Prop := forall k, wait_tx B polls k <> NoFuel /\ clint_mtime B polls k <> NoFuel /\ drain_input B polls k <> NoFuel.
Definition waits : Prop := may_run_out \/ prompt.
Context (Hwaits : waits).

Lemma env_no_fuel {A} : may_run_out -> env_only (no_fuel (A := A)).
Proof. intros H k Q _. exact H. Qed.
Hint Resolve env_no_fuel : devices.
Lemma wait_tx_loop n : may_run_out -> env_only (wait_tx B n).
Proof. intros Hm. induction n as [|n IH]; cbn [wait_tx]; envs. Qed.
Lemma clint_mtime_loop n : may_run_out -> env_only (clint_mtime B n).
Proof. intros Hm. induction n as [|n IH]; cbn [clint_mtime]; envs. Qed.
End Kernel.

(** A run that did not spend its fuel returned. *)
Lemma wp_returns `{F : Fuelled} {S A} (c : ST S A) (Q : A -> S -> Prop) s : c s <> NoFuel -> @wp partial S A c Q s -> wp c Q s.
Proof. unfold wp. by destruct (c s) as [[a s']| |]. Qed.

Section Steps.
Context {D E : Type} {BD : BlockDevice D} {BDO : BlockDeviceOk D} {PF : Platform E} {PL : Polls} (B : board) (R : list Z) `{F : Fuelled}.
Context (Hwaits : waits (D := D) (E := E) B).
Implicit Types (k : kernel D E).
Abbreviation KM := (ST (kernel D E)).
Abbreviation env_only := (env_only (D := D) (E := E)).
Hint Resolve env_ret env_read32 env_read8 env_write32 env_write8 : devices.
Ltac env1 := first [apply env_bind; [|intros ?]|apply env_if|apply env_when|solve [auto with devices nocore]].
Ltac envs := repeat env1; try solve [auto with devices nocore].

Lemma env_wait_tx : env_only (wait_tx B polls).
Proof. destruct Hwaits as [Hm|Hp]; [by apply wait_tx_loop|]. intros k Q HQ. apply wp_returns; [apply Hp|]. by apply (@wait_tx_loop D E PF B partial polls I). Qed.
Hint Resolve env_wait_tx : devices.
Lemma env_kputc c : env_only (kputc B c).
Proof. unfold kputc. envs. Qed.
Hint Resolve env_kputc : devices.
Lemma env_kputs s : env_only (kputs B s).
Proof. induction s as [|c s IH]; cbn [kputs]; envs. Qed.
Hint Resolve env_kputs : devices.
Lemma env_ksay s : env_only (ksay B s).
Proof. apply env_kputs. Qed.
Lemma env_kputdec v : env_only (kputdec B v).
Proof. apply env_kputs. Qed.
Lemma env_kputhex_from n shift v : env_only (kputhex_from B n shift v).
Proof. revert shift. induction n as [|n IH]; intros shift; cbn [kputhex_from]; envs. Qed.
Hint Resolve env_ksay env_kputdec env_kputhex_from : devices.
Lemma env_kputhex v : env_only (kputhex B v).
Proof. apply env_kputhex_from. Qed.
Lemma env_kputhex_short_from n shift v : env_only (kputhex_short_from B n shift v).
Proof. revert shift. induction n as [|n IH]; intros shift; cbn [kputhex_short_from]; envs. Qed.
Lemma env_kputhex_short v : env_only (kputhex_short B v).
Proof. apply env_kputhex_short_from. Qed.
Lemma env_console_ready : env_only (console_ready B).
Proof. unfold console_ready. envs. Qed.
Lemma env_mtime : env_only (mtime B).
Proof. destruct Hwaits as [Hm|Hp]; [by apply clint_mtime_loop|]. intros k Q HQ. apply wp_returns; [apply Hp|]. by apply (@clint_mtime_loop D E PF B partial polls I). Qed.
Lemma env_set_timer v : env_only (set_timer B v).
Proof. unfold set_timer. envs. Qed.
Lemma env_engine_busy a b c : env_only (engine_busy a b c).
Proof. unfold engine_busy. envs. Qed.
Lemma env_write_colours l a : env_only (write_colours l a).
Proof. revert a. induction l as [|c l IH]; intros a; cbn [write_colours]; envs. Qed.
Lemma env_read_colours n a : env_only (read_colours n a).
Proof. revert a. induction n as [|n IH]; intros a; cbn [read_colours]; envs. Qed.
Hint Resolve env_kputhex env_kputhex_short env_console_ready env_mtime env_set_timer env_engine_busy env_write_colours env_read_colours : devices.

(** A C string in an array is printed. *)
Lemma env_kput_name s : In 0 s -> env_only (kput_name B s).
Proof.
  induction s as [|c s IH]; [done|]. intros H. cbn [kput_name]. destruct (Z.eqb_spec c 0); [envs|]. destruct H as [H|H]; [congruence|]. specialize (IH H). envs.
Qed.

Lemma wp_env {A} (c : KM A) k (Q : A -> kernel D E -> Prop) : env_only c -> (forall a e, Q a (put_env e k)) -> wp c Q k.
Proof. intros H. apply H. Qed.

(** ** The invariant *)

(** A live process is where its entry's layout says, and its heap is below the guard. *)
Definition settled (p : proc) (s : address_space) : Prop :=
  tables s <> 0 /\ s_base s = base p /\ s_span s = span p /\ drives_engines s = drives p /\ base p <= brk p <= guard s.

Definition frame_ok (fr : frame) : Prop := length (x fr) = 32%nat /\ Forall is_u32 (x fr) /\ is_u32 (pc fr).

Definition proc_wf (p : proc) : Prop :=
  frame_ok (f p) /\ length (files p) = 4%nat /\ length (pname p) = 24%nat /\ In 0 (pname p) /\ is_u32 (exit_code p) /\ is_u32 (switches p)
  /\ (alive p = false -> Forall (fun o => mode o = 0) (files p)).

(** An open descriptor names a file of the mounted file system. *)
Definition desc_ok (s : fs_state D) (o : open_file) : Prop :=
  mode o = 0 \/ ((mode o = O_READ \/ mode o = O_WRITE) /\ mounted s = true /\ 0 <= file o < 16 /\ in_use s (file o) = true /\ is_u32 (position o)).

(** The protection registers are those of the process. *)
Definition protects (c : hart) (i : Z) (p : proc) : Prop :=
  let tor_rw := PMP_TOR .| PMP_R .| PMP_W in
  pmpaddr c = [base p .>> 2; u32 (base p + span p) .>> 2; framebuffer B .>> 2; u32 (framebuffer B + framebuffer_size B) .>> 2;
               accelerators B .>> 2; accelerators_end B .>> 2; page_tables B .>> 2; pagetables_end B .>> 2]
  /\ pmpcfg0 c = (((tor_rw .| PMP_X) .<< 8) .| (if tst (framebuffer B) then tor_rw .<< 24 else 0))
  /\ pmpcfg1 c = (((if drives p && tst (accelerators_end B) then tor_rw else 0) .<< 8) .| ((PMP_TOR .| PMP_R) .<< 24))
  /\ satp c = SATP_SV32 .| (table_address B i 0 .>> 12).

(** No byte in common. *)
Definition apart (p q : proc) : Prop := base p + span p <= base q \/ base q + span q <= base p.

(** Two descriptors may be open together: on different files, or both reading. *)
Definition compatible (o o' : open_file) : Prop :=
  mode o <> 0 -> mode o' <> 0 -> file o = file o' -> mode o = O_READ /\ mode o' = O_READ.

(** The owner's saved floating registers are behind the hart's only while its status says
    dirty. *)
Definition coherent k : Prop := forall j, fpu_owner k = Some j -> mstatus (f (proc_of k j)) .& MSTATUS_FS = MSTATUS_FS \/ fp (space_of k j) = fpu (cpu k).

(** [ex] is an entry being filled in or emptied, whose layout and floating state are not settled. *)
Record kernel_inv (ex : option Z) k : Prop := {
  k_procs : length (procs k) = 8%nat /\ forall i, 0 <= i < 8 -> proc_wf (proc_of k i);
  k_spaces : length (spaces k) = 8%nat /\ forall i, 0 <= i < 8 -> tables (space_of k i) = 0 \/ entry_maps B R i k;
  k_settled : forall i, 0 <= i < 8 -> ex <> Some i -> alive (proc_of k i) = true -> settled (proc_of k i) (space_of k i);
  k_apart : forall i j, 0 <= i < 8 -> 0 <= j < 8 -> i <> j -> alive (proc_of k i) = true -> alive (proc_of k j) = true -> apart (proc_of k i) (proc_of k j);
  k_descs : forall i a, 0 <= i < 8 -> 0 <= a < 4 -> desc_ok (fs k) (at_ (files (proc_of k i)) a);
  k_writer : forall i a j b, 0 <= i < 8 -> 0 <= j < 8 -> 0 <= a < 4 -> 0 <= b < 4 -> (i, a) <> (j, b) ->
    compatible (at_ (files (proc_of k i)) a) (at_ (files (proc_of k j)) b);
  k_fpu : (forall i, 0 <= i < 8 -> ex <> Some i -> alive (proc_of k i) = true -> fs_on (proc_of k i) = true -> fpu_owner k = Some i)
    /\ forall i, fpu_owner k = Some i -> 0 <= i < 8 /\ alive (proc_of k i) = true;
  k_coherent : coherent k;
  k_pids : 0 < next_pid k < 0x100000000 /\ 0 <= protected_pid k < next_pid k
    /\ (forall i, 0 <= i < 8 -> state (proc_of k i) <> FREE -> 0 < pid (proc_of k i) < next_pid k)
    /\ (forall i j, 0 <= i < 8 -> 0 <= j < 8 -> i <> j -> state (proc_of k i) <> FREE -> state (proc_of k j) <> FREE -> pid (proc_of k i) <> pid (proc_of k j));
  k_running : (forall i, current k = Some i -> 0 <= i < 8) /\ forall i, 0 <= i < 8 -> state (proc_of k i) = RUNNING -> current k = Some i;
  k_cpu : forall i, 0 <= i < 8 -> alive (proc_of k i) = true -> protected_pid k = pid (proc_of k i) -> protects (cpu k) i (proc_of k i);
  k_fs : fs_inv (fs k);
  k_keys : length (keys k) = 64%nat /\ Forall is_u32 (keys k) /\ 0 <= key_head k < 64 /\ 0 <= key_count k <= 64;
  k_ram : ram_ok (ram k);
}.

(** ** What a trap of one process leaves alone *)

(** The process, but for its scheduling state and the floating-point enable bits. *)
Definition same_process (p p' : proc) : Prop :=
  x (f p') = x (f p) /\ pc (f p') = pc (f p) /\ mstatus (f p') .& not32 MSTATUS_FS = mstatus (f p) .& not32 MSTATUS_FS
  /\ files p' = files p /\ pid p' = pid p /\ parent p' = parent p /\ base p' = base p /\ span p' = span p /\ brk p' = brk p /\ flags p' = flags p
  /\ pname p' = pname p /\ switches p' = switches p.

Definition same_bytes (lo hi : Z) (b b' : buffer) : Prop := forall a, lo <= a < hi -> byte_at b' (a - RAM_BASE) = byte_at b (a - RAM_BASE).

(** Every live process other than [who] keeps its registers, its memory and its files. *)
Definition others (who : option Z) k k' : Prop :=
  forall j, 0 <= j < 8 -> who <> Some j -> alive (proc_of k j) = true ->
    alive (proc_of k' j) = true /\ same_process (proc_of k j) (proc_of k' j)
    /\ guard (space_of k' j) = guard (space_of k j) /\ same_bytes (base (proc_of k j)) (base (proc_of k j) + span (proc_of k j)) (ram k) (ram k').

Lemma same_process_refl p : same_process p p.
Proof. unfold same_process. by splits. Qed.
Lemma same_process_trans p q r : same_process p q -> same_process q r -> same_process p r.
Proof. unfold same_process. intros H1 H2. conjs. splits; congruence. Qed.
Lemma others_refl who k : others who k k.
Proof. intros j Hj Hw Ha. split; [done|]. split; [apply same_process_refl|]. done. Qed.
Lemma others_trans who k1 k2 k3 : others who k1 k2 -> others who k2 k3 -> others who k1 k3.
Proof.
  intros H1 H2 j Hj Hw Ha. destruct (H1 j Hj Hw Ha) as (A1 & S1 & G1 & M1). destruct (H2 j Hj Hw A1) as (A2 & S2 & G2 & M2).
  split; [done|]. split; [by eapply same_process_trans|]. split; [congruence|]. pose proof S1 as (_ & _ & _ & _ & _ & _ & Eb & En & _). rewrite Eb, En in M2.
  intros a Ha'. rewrite M2 by done. by apply M1.
Qed.

(** What the invariant reads. *)
Definition core k :=
  (procs k, spaces k, current k, fpu_owner k, next_pid k, protected_pid k, (keys k, key_head k, key_count k), fs k, ram k, cpu k).
Lemma inv_same ex k k' : core k' = core k -> kernel_inv ex k -> kernel_inv ex k'.
Proof. destruct k, k'. unfold core. cbn. intros [= -> -> -> -> -> -> -> -> -> -> -> ->] []. constructor; assumption. Qed.
Lemma others_same who k k' : core k' = core k -> others who k k'.
Proof. destruct k, k'. unfold core. cbn. intros [= -> -> -> -> -> -> -> -> -> -> -> ->]. exact (others_refl who _). Qed.

(** ** Steps that keep the invariant *)

Definition keeps (who ex : option Z) {A} (c : KM A) : Prop :=
  forall k (Q : A -> kernel D E -> Prop), kernel_inv ex k -> (forall a k', kernel_inv ex k' -> others who k k' -> Q a k') -> wp c Q k.

Section Keeps.
Context (who ex : option Z).

Lemma keeps_env {A} (c : KM A) : env_only c -> keeps who ex c.
Proof. intros Hc k Q Hk HQ. apply Hc. intros a e. apply HQ; [by apply (inv_same ex k)|by apply others_same]. Qed.
Lemma keeps_ret {A} (a : A) : keeps who ex (mret a).
Proof. apply keeps_env, env_ret. Qed.
Lemma keeps_bind {A C} (c : KM A) (g : A -> KM C) : keeps who ex c -> (forall a, keeps who ex (g a)) -> keeps who ex (c ≫= g).
Proof.
  intros Hc Hg k Q Hk HQ. wp1. apply Hc; [done|]. intros a k1 Hk1 H1. apply Hg; [done|]. intros b k2 Hk2 H2. apply HQ; [done|by eapply others_trans].
Qed.
Lemma keeps_if {A} (b : bool) (c d : KM A) : keeps who ex c -> keeps who ex d -> keeps who ex (if b then c else d).
Proof. by destruct b. Qed.
Lemma keeps_when b (c : KM ()) : keeps who ex c -> keeps who ex (when b c).
Proof. intros H. destruct b; [exact H|apply keeps_ret]. Qed.
Lemma keeps_gets {A} (g : kernel D E -> A) : keeps who ex (gets g).
Proof. intros k Q Hk HQ. wp1. apply HQ; [done|apply others_refl]. Qed.
(** A change of what the invariant does not read. *)
Lemma keeps_modify g : (forall k, core (g k) = core k) -> keeps who ex (modify g).
Proof. intros Hg k Q Hk HQ. wp1. apply HQ; [by apply (inv_same ex k); [apply Hg|]|by apply others_same]. Qed.

(** The rest of a computation after a step that keeps the invariant. *)
Lemma wp_keeps {A} (c : KM A) k (Q : A -> kernel D E -> Prop) :
  keeps who ex c -> kernel_inv ex k -> (forall a k', kernel_inv ex k' -> others who k k' -> Q a k') -> wp c Q k.
Proof. intros H. apply H. Qed.

Lemma step_keeps {A C} k0 (c : KM A) (g : A -> KM C) k (Q : C -> kernel D E -> Prop) :
  keeps who ex c -> kernel_inv ex k -> others who k0 k -> (forall a k', kernel_inv ex k' -> others who k0 k' -> wp (g a) Q k') -> wp (c ≫= g) Q k.
Proof. intros Hc Hk Ho HQ. wp1. apply Hc; [done|]. intros a k' Hk' Ho'. apply HQ; [done|by eapply others_trans]. Qed.
End Keeps.

(** ** Memory *)

Section Memory.
Context (Hplaced : tables_placed B) (HR : (length R <= 6)%nat).

(** A store in the slots, whoever's they are. *)
Lemma slots_inv ex lo hi b k : kernel_inv ex k -> ram_ok b -> outside_same lo hi (ram k) b -> OS_SLOT_BASE <= lo -> kernel_inv ex (put_ram b k).
Proof.
  intros Hk Hb Ho Hlo. destruct Hk. constructor; try assumption. destruct k_spaces0 as (Hl & Hs). split; [exact Hl|]. intros i Hi. destruct (Hs i Hi) as [H0|((used & Hsh) & Hlo' & Hlv)]; [by left|right].
  assert (Hw : forall a, table_address B i 0 <= a < table_address B (i + 1) 0 -> a mod 4 = 0 -> word b a = word (ram k) a).
  { intros a Ha Ha4. apply (word_outside lo hi); [done|left]. destruct (table_place B Hplaced i 6) as (_ & T2 & T3 & T4); [lia|lia|]. rewrite table_next in Ha. zlia. }
  split; [exists used; by eapply (leaf_same B R Hplaced HR (ram k) b i _ used 0)|]. split; [exact Hlo'|]. intros q Hq. cbn [ram put_ram].
  destruct (leaf_same B R Hplaced HR (ram k) b i _ used q Hi Hsh Hq Hw) as (_ & ->). by apply Hlv.
Qed.

(** A store in the slots, outside every live process but [who]. *)
Lemma store_inv who ex lo hi b k :
  kernel_inv ex k -> ram_ok b -> outside_same lo hi (ram k) b -> OS_SLOT_BASE <= lo ->
  (forall j, 0 <= j < 8 -> who <> Some j -> alive (proc_of k j) = true -> hi <= base (proc_of k j) \/ base (proc_of k j) + span (proc_of k j) <= lo) ->
  kernel_inv ex (put_ram b k) /\ others who k (put_ram b k).
Proof.
  intros Hk Hb Ho Hlo Hj. split; [by eapply slots_inv|].
  intros j Hj1 Hw Ha. split; [done|]. split; [apply same_process_refl|]. split; [done|]. intros a Ha'. apply Ho. destruct (Hj j Hj1 Hw Ha); lia.
Qed.

End Memory.

(** ** The file system *)

Definition put_fs (s : fs_state D) k : kernel D E := {| k with fs := s |}.

Lemma fs_inv_change who ex s k : kernel_inv ex k -> fs_inv s -> files_kept (fs k) s -> kernel_inv ex (put_fs s k) /\ others who k (put_fs s k).
Proof.
  intros Hk Hs (Hm & Hu). split; [|exact (others_refl who k)]. destruct Hk. constructor; try assumption.
  intros i a Hi Ha. destruct (k_descs0 i a Hi Ha) as [H|(H1 & H2 & H3 & H4 & H5)]; [by left|right]. cbn [fs put_fs].
  split; [exact H1|]. split; [by rewrite Hm|]. split; [exact H3|]. split; [by apply Hu|exact H5].
Qed.

(** ** The process table *)

Definition put_proc (i : Z) (p : proc) k : kernel D E := {| k with procs := <[Z.to_nat i := p]> (procs k) |}.

Lemma set_proc_wp i p k (Q : () -> kernel D E -> Prop) :
  length (procs k) = 8%nat -> 0 <= i < 8 -> Q () (put_proc i p k) -> wp (set_proc i p) Q k.
Proof. intros Hl Hi HQ. unfold set_proc. do 4 wp1. apply wpr_aset; [lia|]. by wp1. Qed.

Lemma upd_proc_wp i g k (Q : () -> kernel D E -> Prop) :
  length (procs k) = 8%nat -> 0 <= i < 8 -> Q () (put_proc i (g (proc_of k i)) k) -> wp (upd_proc i g) Q k.
Proof. intros Hl Hi HQ. unfold upd_proc. wp1. apply proc_at_wp; [done|done|]. by apply set_proc_wp. Qed.

Lemma proc_of_put i j p k : length (procs k) = 8%nat -> 0 <= i < 8 -> 0 <= j -> proc_of (put_proc i p k) j = if i =? j then p else proc_of k j.
Proof. intros. unfold proc_of, put_proc. cbn [procs]. apply at_insert; lia. Qed.

(** What a process must be to take entry [i]. *)
Record fits (ex : option Z) (i : Z) (p : proc) k : Prop := {
  fit_wf : proc_wf p;
  fit_settled : ex <> Some i -> alive p = true -> settled p (space_of k i);
  fit_apart : alive p = true -> forall j, 0 <= j < 8 -> j <> i -> alive (proc_of k j) = true -> apart p (proc_of k j);
  fit_descs : forall a, 0 <= a < 4 -> desc_ok (fs k) (at_ (files p) a);
  fit_writer : forall a b, 0 <= a < 4 -> 0 <= b < 4 -> a <> b -> compatible (at_ (files p) a) (at_ (files p) b);
  fit_writers : forall a j b, 0 <= a < 4 -> 0 <= b < 4 -> 0 <= j < 8 -> j <> i -> compatible (at_ (files p) a) (at_ (files (proc_of k j)) b);
  fit_fpu : ex <> Some i -> alive p = true -> fs_on p = true -> fpu_owner k = Some i;
  fit_owner : fpu_owner k = Some i -> alive p = true;
  fit_coherent : fpu_owner k = Some i -> mstatus (f p) .& MSTATUS_FS = MSTATUS_FS \/ fp (space_of k i) = fpu (cpu k);
  fit_pid : state p <> FREE -> 0 < pid p < next_pid k;
  fit_pids : forall j, 0 <= j < 8 -> j <> i -> state p <> FREE -> state (proc_of k j) <> FREE -> pid p <> pid (proc_of k j);
  fit_running : state p = RUNNING -> current k = Some i;
  fit_cpu : alive p = true -> protected_pid k = pid p -> protects (cpu k) i p;
}.

Lemma procs_apart_sym p q : apart p q -> apart q p.
Proof. unfold apart. tauto. Qed.
Lemma compatible_sym o o' : compatible o o' -> compatible o' o.
Proof. unfold compatible. intros H H1 H2 E1. destruct (H H2 H1 (eq_sym E1)). done. Qed.

Lemma fits_inv ex ex' i p k : kernel_inv ex k -> 0 <= i < 8 -> (forall j, j <> i -> ex' <> Some j -> ex <> Some j) -> fits ex' i p k -> kernel_inv ex' (put_proc i p k).
Proof.
  intros Hk Hi Hex Hp. pose proof (proj1 (k_procs _ _ Hk)) as Hl.
  assert (Hpr : forall j, 0 <= j < 8 -> proc_of (put_proc i p k) j = if i =? j then p else proc_of k j) by (intros j Hj; apply proc_of_put; lia).
  destruct Hk, Hp. constructor.
  - split; [cbn; by rewrite length_insert|]. intros j Hj. rewrite Hpr by done. destruct (Z.eqb_spec i j); [done|by apply k_procs0].
  - exact k_spaces0.
  - intros j Hj. rewrite Hpr by done. destruct (Z.eqb_spec i j) as [->|Hne]; intros Hx Ha; [by apply fit_settled0|]. apply k_settled0; [done| |done]. by apply Hex; [congruence|].
  - intros j j' Hj Hj' Hne. rewrite !Hpr by done. destruct (Z.eqb_spec i j) as [<-|], (Z.eqb_spec i j') as [<-|]; intros Ha Ha'; [done|by apply fit_apart0; [done|done|congruence|]| |by apply k_apart0].
    apply procs_apart_sym. by apply fit_apart0.
  - intros j a Hj Ha. rewrite Hpr by done. destruct (Z.eqb_spec i j) as [->|]; [by apply fit_descs0|by apply k_descs0].
  - intros j a j' b Hj Hj' Ha Hb Hne. rewrite !Hpr by done. destruct (Z.eqb_spec i j) as [<-|], (Z.eqb_spec i j') as [<-|].
    + apply fit_writer0; [done|done|congruence].
    + apply fit_writers0; [done|done|done|congruence].
    + apply compatible_sym, fit_writers0; [done|done|done|congruence].
    + by apply k_writer0.
  - destruct k_fpu0 as (F1 & F2). split.
    + intros j Hj. rewrite Hpr by done. destruct (Z.eqb_spec i j) as [->|Hne]; intros Hx Ha Hf; [by apply fit_fpu0|]. apply F1; [done| |done|done]. by apply Hex; [congruence|].
    + intros j Ho. destruct (F2 j Ho) as (Hj & Ha). split; [done|]. rewrite Hpr by done. destruct (Z.eqb_spec i j) as [->|]; [by apply fit_owner0|done].
  - intros j Ho. destruct (proj2 k_fpu0 j Ho) as (Hj & _). rewrite Hpr by done. destruct (Z.eqb_spec i j) as [->|]; [by apply fit_coherent0|by apply k_coherent0].
  - destruct k_pids0 as (P1 & P2 & P3 & P4). split; [done|]. split; [done|]. split.
    + intros j Hj. rewrite Hpr by done. destruct (Z.eqb_spec i j) as [->|]; [done|by apply P3].
    + intros j j' Hj Hj' Hne. rewrite !Hpr by done. destruct (Z.eqb_spec i j) as [<-|], (Z.eqb_spec i j') as [<-|]; intros S1 S2; [done|by apply fit_pids0; [done|congruence|..]| |by apply P4].
      apply not_eq_sym. by apply fit_pids0.
  - destruct k_running0 as (R1 & R2). split; [done|]. intros j Hj. rewrite Hpr by done. destruct (Z.eqb_spec i j) as [->|]; [done|by apply R2].
  - intros j Hj. rewrite Hpr by done. destruct (Z.eqb_spec i j) as [->|]; [done|by apply k_cpu0].
  - exact k_fs0.
  - exact k_keys0.
  - exact k_ram0.
Qed.

Lemma others_put who i p k : length (procs k) = 8%nat -> 0 <= i < 8 -> who = Some i \/ (alive (proc_of k i) = true -> alive p = true /\ same_process (proc_of k i) p) -> others who k (put_proc i p k).
Proof.
  intros Hl Hi H j Hj Hw Ha. rewrite proc_of_put by (done || lia). destruct (Z.eqb_spec i j) as [->|].
  - destruct H as [->|H]; [done|]. destruct (H Ha). done.
  - split; [done|]. split; [apply same_process_refl|]. done.
Qed.

(** The process is what it was in all the kernel's dealings with others. *)
Definition like (p p' : proc) : Prop :=
  proc_wf p' /\ files p' = files p /\ base p' = base p /\ span p' = span p /\ brk p' = brk p /\ flags p' = flags p /\ pid p' = pid p
  /\ alive p' = alive p /\ (state p' = FREE -> state p = FREE) /\ (state p = FREE -> state p' = FREE) /\ (state p' = RUNNING -> state p = RUNNING) /\ (fs_on p' = true -> fs_on p = true)
  /\ (mstatus (f p) .& MSTATUS_FS = MSTATUS_FS -> mstatus (f p') .& MSTATUS_FS = MSTATUS_FS).

Lemma like_settled p p' s : like p p' -> settled p s -> settled p' s.
Proof. unfold like, settled, drives. intros (_ & _ & -> & -> & -> & -> & _) H. exact H. Qed.
Lemma like_protects c i p p' : like p p' -> protects c i p -> protects c i p'.
Proof. unfold like, protects, drives. intros (_ & _ & -> & -> & _ & -> & _) H. exact H. Qed.

(** Entry [i]'s process fits its entry. *)
Lemma inv_fits ex i k : kernel_inv ex k -> 0 <= i < 8 -> fits ex i (proc_of k i) k.
Proof.
  intros [] Hi. constructor.
  - by apply k_procs0.
  - by apply k_settled0.
  - intros Ha j Hj Hne Ha'. apply k_apart0; [done|done|congruence|done|done].
  - intros a Ha. by apply k_descs0.
  - intros a b Ha Hb Hne. apply k_writer0; [done|done|done|done|congruence].
  - intros a j b Ha Hb Hj Hne. apply k_writer0; [done|done|done|done|congruence].
  - by apply k_fpu0.
  - intros Ho. by apply k_fpu0.
  - intros Ho. by apply k_coherent0.
  - by apply k_pids0.
  - intros j Hj Hne S1 S2. destruct k_pids0 as (_ & _ & _ & P4). apply P4; [done|done|congruence|done|done].
  - by apply k_running0.
  - by apply k_cpu0.
Qed.

Lemma like_fits ex i p p' k : fits ex i p k -> like p p' -> fits ex i p' k.
Proof.
  intros [] Hlike. pose proof Hlike as (L1 & L2 & L3 & L4 & L5 & L6 & L7 & L8 & L9 & L9' & L10 & L11 & L12).
  constructor; rewrite ?L2, ?L7, ?L8; try done.
  - intros Hx Ha. eapply like_settled; [done|]. by apply fit_settled0.
  - intros Ha j Hj Hne Ha'. unfold apart. rewrite L3, L4. by apply fit_apart0.
  - intros Hx Ha Hf. apply fit_fpu0; [done|done|by apply L11].
  - intros Ho. destruct (fit_coherent0 Ho) as [H|H]; [left; by apply L12|by right].
  - intros Hs. apply fit_pid0. tauto.
  - intros j Hj Hne Hs Hs'. apply fit_pids0; tauto.
  - intros Hs. by apply fit_running0, L10.
  - intros Ha Hp. eapply like_protects; [done|]. by apply fit_cpu0.
Qed.

Lemma like_inv ex i p' k : kernel_inv ex k -> 0 <= i < 8 -> like (proc_of k i) p' -> kernel_inv ex (put_proc i p' k).
Proof. intros Hk Hi Hlike. eapply fits_inv; [exact Hk|done|done|]. eapply like_fits; [by apply inv_fits|done]. Qed.

(** A process that ends, or is forgotten. *)
Lemma dead_inv ex i p' k : kernel_inv ex k -> 0 <= i < 8 -> (ex = None \/ ex = Some i) -> proc_wf p' -> alive p' = false -> fpu_owner k <> Some i ->
  (state p' <> FREE -> state (proc_of k i) <> FREE /\ pid p' = pid (proc_of k i)) -> kernel_inv None (put_proc i p' k).
Proof.
  intros Hk Hi Hex Hwf Hd Ho Hpid. pose proof (inv_fits _ _ _ Hk Hi) as [].
  assert (Hc : forall a, 0 <= a < 4 -> mode (at_ (files p') a) = 0).
  { intros a Ha. destruct Hwf as (_ & Hl & _ & _ & _ & _ & Hcl). apply (at_Forall (fun o => mode o = 0)); [by apply Hcl|lia]. }
  eapply fits_inv; [exact Hk|done|intros j Hj _; destruct Hex as [->| ->]; congruence|]. constructor; try done; try congruence.
  - intros a Ha. left. by apply Hc.
  - intros a b Ha Hb _ H. by rewrite Hc in H.
  - intros a j b Ha Hb _ _ H. by rewrite Hc in H.
  - intros Hs. destruct (Hpid Hs) as (H1 & ->). by apply fit_pid0.
  - intros j Hj Hne Hs Hs'. destruct (Hpid Hs) as (H1 & ->). by apply fit_pids0.
  - intros Hs. unfold alive in Hd. rewrite Hs in Hd. done.
Qed.

(** The invariant with an entry exempted. *)
Lemma inv_exempt i k : kernel_inv None k -> kernel_inv (Some i) k.
Proof. intros []. constructor; try assumption; [intros j Hj _; by apply k_settled0|]. destruct k_fpu0 as (F1 & F2). split; [intros j Hj _; by apply F1|done]. Qed.

(** A descriptor changes. *)
Definition put_file (a : Z) (o : open_file) (p : proc) : proc := {| p with files := <[Z.to_nat a := o]> (files p) |}.

Lemma put_file_inv ex i a o k : kernel_inv ex k -> 0 <= i < 8 -> 0 <= a < 4 -> (alive (proc_of k i) = false -> mode o = 0) -> desc_ok (fs k) o ->
  (forall j b, 0 <= j < 8 -> 0 <= b < 4 -> (j, b) <> (i, a) -> compatible o (at_ (files (proc_of k j)) b)) -> kernel_inv ex (put_proc i (put_file a o (proc_of k i)) k).
Proof.
  intros Hk Hi Ha Hal Ho Hc. pose proof (inv_fits _ _ _ Hk Hi) as []. destruct fit_wf0 as (W1 & W2 & W3 & W4 & W5 & W6 & W7).
  assert (Hat : forall b, 0 <= b -> at_ (files (put_file a o (proc_of k i))) b = if a =? b then o else at_ (files (proc_of k i)) b) by (intros b Hb; apply at_insert; lia).
  eapply fits_inv; [exact Hk|done|done|]. constructor; try assumption.
  - unfold proc_wf. splits; try done; [cbn; by rewrite length_insert|]. intros Hd. apply Forall_insert; [by apply W7|by apply Hal].
  - intros b Hb. rewrite Hat by lia. destruct (a =? b); [done|by apply fit_descs0].
  - intros b c Hb Hcc Hne. rewrite !Hat by lia. destruct (Z.eqb_spec a b), (Z.eqb_spec a c); [congruence|apply Hc; [done|done|congruence]| |by apply fit_writer0].
    apply compatible_sym, Hc; [done|done|congruence].
  - intros b j c Hb Hcc Hj Hne. rewrite !Hat by lia. destruct (Z.eqb_spec a b); [apply Hc; [done|done|congruence]|by apply fit_writers0].
Qed.

(** ** File system steps *)

Lemma fs_step_wp {A} who ex (c : ST (fs_state D) A) (P : A -> fs_state D -> Prop) k (Q : A -> kernel D E -> Prop) :
  kernel_inv ex k -> wp c (fun a s => fs_inv s /\ files_kept (fs k) s /\ P a s) (fs k) ->
  (forall a s, files_kept (fs k) s -> P a s -> kernel_inv ex (put_fs s k) -> others who k (put_fs s k) -> Q a (put_fs s k)) -> wp (on_fs c) Q k.
Proof.
  intros Hk Hc HQ. unfold on_fs. apply wp_zoom. eapply wp_mono; [exact Hc|]. intros a s (H1 & H2 & H3).
  destruct (fs_inv_change who ex s k Hk H1 H2) as (I & O). by apply HQ.
Qed.

Lemma keeps_flush who ex : keeps who ex (on_fs fs_flush).
Proof. intros k Q Hk HQ. eapply (fs_step_wp who ex); [done|apply flush_fs; by apply Hk|]. intros a s _ _ Hi Ho. by apply HQ. Qed.


(** ** Steps that may stop the machine *)

(** The outcome is [P]'s, or the machine has stopped. *)
Definition ends {A} (P : A -> kernel D E -> Prop) (r : option A) k : Prop := match r with Some a => P a k | None => stopped k = true end.

Lemma ends_bind {A C} (c : KM (option A)) (g : A -> KM (option C)) P k :
  wp c (ends (fun a k' => wp (g a) (ends P) k')) k -> wp (a ←! c; g a) (ends P) k.
Proof. intros H. wp1. eapply wp_mono; [exact H|]. intros [a|] k' Ha; [exact Ha|]. by wp1. Qed.
Lemma ends_ret {A} (a : A) P k : P a k -> wp (mret (Some a)) (ends P) k.
Proof. done. Qed.
Lemma ends_mono {A} (c : KM (option A)) (P P' : A -> kernel D E -> Prop) k : wp c (ends P) k -> (forall a k', P a k' -> P' a k') -> wp c (ends P') k.
Proof. intros H HP. eapply wp_mono; [exact H|]. intros [a|] k'; [apply HP|done]. Qed.
End Steps.

#[export] Hint Resolve env_ret env_read32 env_read8 env_write32 env_write8 env_wait_tx env_kputc env_kputs env_ksay env_kputdec env_kputhex_from
  env_kputhex env_kputhex_short env_console_ready env_mtime env_set_timer env_engine_busy env_write_colours env_read_colours : devices.
Ltac env1 := first [apply env_bind; [|intros ?]|apply env_if|apply env_when|solve [auto with devices nocore]].
Ltac envs := repeat env1; try solve [auto with devices nocore].
(** The steps of a computation that keeps the invariant. *)
Ltac keep1 :=
  first [ solve [apply keeps_env; auto with devices nocore] | apply keeps_ret | apply keeps_bind; [|intros ?] | apply keeps_if | apply keeps_when | apply keeps_gets
        | apply keeps_flush | solve [apply keeps_modify; intros ?; reflexivity] ].
Ltac keep := repeat keep1.
(** Run the first step, which keeps the invariant and what holds since [k0]. *)
Ltac kstep :=
  match goal with
  | Hk : kernel_inv ?B ?R ?ex ?k, Ho : others ?who ?k0 ?k |- wp (_ ≫= _) _ ?k =>
      eapply (step_keeps B R who ex k0); [solve [repeat first [assumption|keep1]]|exact Hk|exact Ho|]; clear Hk Ho; intros ? ? Hk Ho; cbv beta
  end.
End KernelProofs.
