(* ===== verification/KernelCalls.v ===== *)
(** * The kernel's operations keep its invariant

    Weakest preconditions of kernel.c's helpers, of starting and ending a process
    and of each system call: none is undefined, each keeps the invariant and the
    other processes, or stops the machine. *)

From S2P Require Import Prelude Effects Buffer Fs FsProofs FsSpecs Kernel KernelTables KernelProofs.

Module KernelCalls.
Import Fs FsProofs Kernel KernelTables KernelProofs.

Section Calls.
Context {D E : Type} {BD : BlockDevice D} {BDO : BlockDeviceOk D} {PF : Platform E} {PL : Polls} (B : board) (R : list Z) `{F : Fuelled}.
Context (Hwaits : waits (D := D) (E := E) B).
Implicit Types (k : kernel D E).
Abbreviation KM := (ST (kernel D E)).
Abbreviation inv := (kernel_inv B R).
Abbreviation keeps := (keeps B R).

Lemma halt_wp {A} ex code k (P : A -> kernel D E -> Prop) : inv ex k -> wp (halt B code) (ends P) k.
Proof.
  intros Hk. unfold halt. wp1. wp1. unfold id. wp1. apply (wp_keeps B R None ex); [keep|done|]. intros [] k1 Hk1 _.
  wp1. apply (wp_keeps B R None ex); [keep|done|]. intros [] k2 Hk2 _. wp1. apply (wp_keeps B R None ex); [keep|done|]. intros [] k3 Hk3 _. by repeat wp1.
Qed.
Lemma panic_wp {A} ex why k (P : A -> kernel D E -> Prop) : inv ex k -> wp (panic B why) (ends P) k.
Proof.
  intros Hk. unfold panic. do 3 (wp1; apply (wp_keeps B R None ex); [keep|done|]; intros [] ? ? _). by eapply halt_wp.
Qed.

(** ** A process's memory *)

(** The trapped process is alive and settled. *)
Definition runs (ex : option Z) (i : Z) k : Prop := 0 <= i < 8 /\ ex <> Some i /\ alive (proc_of k i) = true.

Lemma runs_place ex i k : inv ex k -> runs ex i k ->
  in_slots (base (proc_of k i)) (span (proc_of k i)) /\ base (proc_of k i) <= guard (space_of k i) /\ guard (space_of k i) mod 4096 = 0
  /\ guard (space_of k i) + 4096 < base (proc_of k i) + span (proc_of k i).
Proof.
  intros Hk (Hi & Hex & Ha). destruct (k_settled _ _ _ _ Hk i Hi Hex Ha) as (H0 & Eb & En & _). destruct (k_spaces _ _ _ _ Hk) as (_ & Hs).
  destruct (Hs i Hi) as [|(_ & L & _)]; [done|]. unfold laid_out in L. rewrite Eb, En in L. exact L.
Qed.

Definition user_ok (p : proc) (g address len : Z) : Prop :=
  base p <= address /\ address + len <= base p + span p /\ (0 < len -> address + len <= g \/ g + 4096 <= address).

Lemma user_range_wp ex i address len k (Q : bool -> kernel D E -> Prop) :
  inv ex k -> runs ex i k -> is_u32 address -> is_u32 len ->
  (forall ok, (ok = true -> user_ok (proc_of k i) (guard (space_of k i)) address len) -> Q ok k) -> wp (user_range i address len) Q k.
Proof.
  intros Hk Hr Ha Hl HQ. destruct (runs_place _ _ _ Hk Hr) as ((I1 & I2 & I3 & _) & G1 & _ & G3). destruct Hr as (Hi & _). set (p := proc_of k i) in *. set (g := guard (space_of k i)) in *.
  unfold user_range. wp1. apply proc_at_wp; [apply Hk|done|]. fold p. wp1; [wp1; by apply HQ|]. bools. unfold is_u32, OS_SLOT_BASE, SLOTS_END in *.
  rewrite (u32_id (address - base p)), (u32_id (span p - len)) in * by (unfold is_u32; lia). wp1. unfold guard_of. wp1. apply space_at_wp; [apply Hk|done|]. fold g. wp1. wp1.
  apply HQ. unfold OS_GUARD_SIZE. rewrite !u32_id by (unfold is_u32; lia). intros Hok. split; [lia|]. split; [lia|]. intros Hpos. apply negb_true_iff, andb_false_iff in Hok as [Hok|Hok].
  - apply andb_false_iff in Hok as [Hok|Hok]; [apply tst_false in Hok|apply Z.ltb_ge in Hok]; lia.
  - apply Z.ltb_ge in Hok. lia.
Qed.

Lemma get_bytes_wp a n k (Q : list Z -> kernel D E -> Prop) : ram_ok (ram k) -> RAM_BASE <= a -> 0 <= n -> a + n <= SLOTS_END ->
  (forall l, length l = Z.to_nat n -> Forall is_u8 l -> Q l k) -> wp (get_bytes a n) Q k.
Proof.
  intros [Hb Hl] H1 H2 H3 HQ. unfold get_bytes. do 3 wp1. unfold RAM_BASE, SLOTS_END, RAM_SIZE in *. rewrite buf_bytes_spec by lia. cbn [wpr].
  apply HQ; [by rewrite length_map, length_seq|]. apply List.Forall_forall. intros v Hv. apply in_map_iff in Hv as (j & <- & _). apply Hb.
Qed.

Lemma put_bytes_wp a l k (Q : () -> kernel D E -> Prop) : ram_ok (ram k) -> RAM_BASE <= a -> a + Z.of_nat (length l) <= SLOTS_END ->
  (forall b, ram_ok b -> outside_same a (a + Z.of_nat (length l)) (ram k) b -> Q () (put_ram b k)) -> wp (put_bytes a l) Q k.
Proof.
  intros [Hb Hl] H1 H3 HQ. unfold put_bytes. do 4 wp1. unfold RAM_BASE, SLOTS_END, RAM_SIZE in *. destruct (buf_load_spec l (ram k) (a - 0x80000000)) as (b & -> & El & Eb); [lia|lia|].
  cbn [wpr]. wp1. apply HQ.
  - split; [split; [lia|]|unfold RAM_SIZE; lia]. intros j. rewrite Eb. destruct (_ && _); [apply u8_range|apply Hb].
  - intros j Hj. rewrite Eb. unfold RAM_BASE in Hj. destruct (Z.leb_spec (a - 0x80000000) j), (Z.ltb_spec j (a - 0x80000000 + Z.of_nat (length l))); try done. lia.
Qed.

Lemma user_string_from_wp ex n i address k (Q : option (list Z) -> kernel D E -> Prop) : inv ex k -> runs ex i k -> is_u32 address ->
  (forall s, from_option (fun l => In 0 l /\ Forall is_u8 l /\ (length l <= n)%nat) True s -> Q s k) -> wp (user_string_from n i address) Q k.
Proof.
  revert address Q. induction n as [|n IH]; intros address Q Hk Hr Ha HQ; cbn [user_string_from]; [wp1; by apply HQ|].
  destruct (runs_place _ _ _ Hk Hr) as ((I1 & I2 & I3 & _) & _). unfold OS_SLOT_BASE, SLOTS_END in *.
  wp1. eapply user_range_wp; [done|done|done|done|]. intros ok Hok. wp1; [wp1; by apply HQ|]. bools. destruct (Hok ltac:(done)) as (U1 & U2 & _).
  wp1. apply ram_peek_wp; [apply Hk|unfold RAM_BASE; lia|lia|unfold SLOTS_END; lia|]. set (c := le_bytes _ _ _).
  assert (Hc : is_u8 c) by (pose proof (le_bytes_range (ram k) (address - RAM_BASE) 1 (proj1 (k_ram _ _ _ _ Hk))) as Hc; unfold is_u8; exact Hc).
  wp1; [wp1; apply HQ; cbn; split; [by left|split; [by repeat constructor|lia]]|]. wp1. apply IH; [done|done|apply u32_range|]. intros s Hs. wp1. apply HQ.
  destruct s as [l|]; [|done]. cbn in Hs |- *. destruct Hs as (S1 & S2 & S3). split; [by right|]. split; [by constructor|lia].
Qed.
Lemma user_string_wp ex i address max k (Q : option (list Z) -> kernel D E -> Prop) : inv ex k -> runs ex i k -> is_u32 address -> 0 <= max ->
  (forall s, from_option (fun l => In 0 l /\ Forall is_u8 l /\ Z.of_nat (length l) <= max) True s -> Q s k) -> wp (user_string i address max) Q k.
Proof. intros Hk Hr Ha Hm HQ. eapply user_string_from_wp; [done|done|done|]. intros [l|] Hs; apply HQ; [|done]. cbn in *. destruct Hs as (S1 & S2 & S3). split; [done|]. split; [done|lia]. Qed.

(** ** Programs *)

(** What [entry_ok] accepts: a program inside its disk and its slots, with a stack above a guard page. *)
Record program_ok (e : program) (size0 : Z) : Prop := {
  prog_name : length (p_name e) = 24%nat /\ In 0 (p_name e);
  prog_file : 0 <= offset e /\ 0 <= file_size e /\ offset e + file_size e <= size0;
  prog_place : in_slots (load e) (p_span e);
  prog_stack : 8192 <= stack e < p_span e /\ stack e mod 4096 = 0;
  prog_memory : file_size e <= memory_size e <= p_span e - stack e;
  prog_entry : load e <= entry e < load e + file_size e;
}.

Lemma bytes_u32 l p : Forall is_u8 l -> 0 <= p -> p + 3 < Z.of_nat (length l) -> is_u32 (bytes_word l p).
Proof. apply FsSpecs.bytes_word_u32. Qed.

Lemma entry_ok_spec l size0 : Forall is_u8 l -> length l = 56%nat -> is_u32 size0 -> Kernel.entry_ok (bytes_program l) size0 = true -> program_ok (bytes_program l) size0.
Proof.
  intros Hu Hl Hs H. unfold Kernel.entry_ok in H. apply negb_true_iff in H. repeat (apply orb_false_iff in H as [H ?]).
  assert (Hw : forall p, 0 <= p -> p + 3 < 56 -> is_u32 (bytes_word l p)) by (intros p Hp1 Hp2; apply bytes_u32; [done|done|lia]).
  pose proof (Hw 24 ltac:(lia) ltac:(lia)) as W1. pose proof (Hw 28 ltac:(lia) ltac:(lia)) as W2. pose proof (Hw 32 ltac:(lia) ltac:(lia)) as W3.
  pose proof (Hw 36 ltac:(lia) ltac:(lia)) as W4. pose proof (Hw 40 ltac:(lia) ltac:(lia)) as W5. pose proof (Hw 48 ltac:(lia) ltac:(lia)) as W6. pose proof (Hw 52 ltac:(lia) ltac:(lia)) as W7.
  assert (Hn : length (p_name (bytes_program l)) = 24%nat) by (cbn [p_name bytes_program]; rewrite length_take; lia).
  repeat match goal with H0 : tst _ = false |- _ => apply tst_false in H0 end. bools.
  set (e := bytes_program l) in *. change (bytes_word l 24) with (load e) in W1. change (bytes_word l 28) with (entry e) in W2. change (bytes_word l 32) with (file_size e) in W3.
  change (bytes_word l 36) with (memory_size e) in W4. change (bytes_word l 40) with (offset e) in W5. change (bytes_word l 48) with (p_span e) in W6. change (bytes_word l 52) with (stack e) in W7.
  clearbody e. unfold OS_SLOT_BASE, OS_SLOTS, OS_SLOT_SIZE, PAGE_SIZE, is_u32 in *.
  repeat match goal with H0 : context [u32 ?a] |- _ => rewrite (u32_id a) in H0 by (unfold is_u32; lia) end.
  constructor; unfold in_slots, SLOTS_END, OS_SLOT_BASE; try lia.
  - split; [done|]. rewrite <- H. apply at_In. rewrite Hn. lia.
  - splits; zlia.
Qed.

Lemma fdt_same_ok a b : In 0 a -> In 0 b -> exists r, fdt_same a b = Ok r.
Proof.
  revert b. induction a as [|c a IH]; intros b Ha Hb; [done|]. destruct b as [|d b]; [done|]. cbn [fdt_same]. destruct (tst c && (c =? d)) eqn:Ec; [|by eexists].
  apply andb_true_iff in Ec as [E1 E2]. apply tst_true in E1. apply Z.eqb_eq in E2. subst d. apply IH; [destruct Ha|destruct Hb]; done.
Qed.

(** A RAM disk that [check_programs] accepts. *)
Definition disk_size0 : Z := Z.of_nat (length (ramdisk B)).
Definition program_count : Z := bytes_word (ramdisk B) 4.
Definition ramdisk_ok : Prop :=
  is_u32 disk_size0 /\ RAMDISK_HEADER <= disk_size0 /\ bytes_word (ramdisk B) 0 = RAMDISK_MAGIC /\ bytes_word (ramdisk B) 8 = 0 /\ bytes_word (ramdisk B) 12 = 0
  /\ 0 <= program_count /\ forall i, 0 <= i < program_count -> exists e, program_at B i = Ok e /\ program_ok e disk_size0.

Lemma programs_ok : ramdisk_ok -> programs B = mret (Some program_count) :> KM (option Z).
Proof.
  intros (_ & H1 & H2 & H3 & H4 & _). unfold programs. rewrite H2, H3, H4. change (Z.of_nat (length (ramdisk B))) with disk_size0. by rewrite (proj2 (Z.ltb_ge _ _)) by done.
Qed.

Lemma find_program_ok n i name : ramdisk_ok -> 0 <= i -> i + Z.of_nat n <= program_count -> In 0 name ->
  exists r, find_program B n i name = Ok r /\ from_option (fun e => program_ok e disk_size0) True r.
Proof.
  intros Hd. revert i. induction n as [|n IH]; intros i Hi Hn H0; cbn [find_program]; [by exists None|]. destruct Hd as (_ & _ & _ & _ & _ & _ & Hp).
  destruct (Hp i ltac:(lia)) as (e & -> & He). cbn [mbind res_bind]. destruct (fdt_same_ok (p_name e) name (proj2 (prog_name _ _ He)) H0) as (r & ->). cbn [mbind res_bind].
  destruct r; [by exists (Some e)|]. apply IH; [lia|lia|done].
Qed.

Lemma program_named_wp name k (P : option program -> kernel D E -> Prop) : ramdisk_ok -> In 0 name ->
  (forall r, from_option (fun e => program_ok e disk_size0) True r -> P r k) -> wp (program_named B name) (ends P) k.
Proof.
  intros Hd H0 HP. unfold program_named. apply ends_bind. rewrite programs_ok by done. apply ends_ret. wp1. wp1.
  destruct (find_program_ok (Z.to_nat program_count) 0 name Hd ltac:(lia)) as (r & -> & Hr); [destruct Hd as (_ & _ & _ & _ & _ & H & _); lia|done|]. cbn [wpr]. apply ends_ret. by apply HP.
Qed.

(** Nothing of the process table or of the layouts changed. *)
Definition loading k0 k : Prop := procs k = procs k0 /\ spaces k = spaces k0 /\ next_pid k = next_pid k0.

Lemma file_ok_kept (s s' : fs_state D) file0 : file_ok s file0 -> files_kept s s' -> file_ok s' file0.
Proof. intros (H1 & H2 & H3) (K1 & K2). split; [congruence|]. split; [done|by apply K2]. Qed.

Lemma refuse_wp who ex k0 name why k (P : option (Z * program) -> kernel D E -> Prop) :
  inv ex k -> others who k0 k -> In 0 name -> (forall k', inv ex k' -> others who k0 k' -> P None k') -> wp (refuse_disk_program B name why) (ends P) k.
Proof.
  intros Hk Ho H0 HP. unfold refuse_disk_program. assert (keeps who ex (kput_name B name)) by (by apply keeps_env, env_kput_name).
  do 5 kstep. apply ends_ret. by apply HP.
Qed.

Lemma disk_program_wp who ex name k (P : option (Z * program) -> kernel D E -> Prop) : inv ex k -> In 0 name -> Forall is_u8 name ->
  (forall k', inv ex k' -> others who k k' -> P None k') ->
  (forall file0 e size0 k', inv ex k' -> others who k k' -> loading k k' -> file_ok (fs k') file0 -> is_u32 size0 -> program_ok e size0 -> P (Some (file0, e)) k') ->
  wp (disk_program B name) (ends P) k.
Proof.
  intros Hk H0 Hu HN HS. unfold disk_program. wp1. eapply (fs_step_wp B R who ex); [done|apply open_fs; [apply Hk|done|done]|].
  intros file0 s1 K1 Hop Hk1 Ho1. wp1; [apply ends_ret; by apply HN|]. bools. destruct Hop as [|Hf]; [lia|].
  wp1. wp1. unfold id. wp1; [by eapply refuse_wp|].
  wp1. eapply (fs_step_wp B R who ex); [done|apply size_fs; [apply Hk1|exact Hf]|]. intros size0 s2 K2 (Hsz & ->) Hk2 Ho2.
  assert (Ho02 := others_trans _ _ _ _ Ho1 Ho2). set (k2 := put_fs s1 (put_fs s1 k)) in *.
  wp1. eapply (fs_step_wp B R who ex); [exact Hk2|apply read_fs; [apply Hk2|exact Hf|rewrite length_replicate; lia|lia|lia]|].
  intros [n header] s3 K3 (L3 & _) Hk3 Ho3. assert (Ho03 := others_trans _ _ _ _ Ho02 Ho3). pose proof (file_ok_kept _ _ _ Hf K3) as Hf3.
  wp1; [by eapply refuse_wp|]. wp1. eapply (fs_step_wp B R who ex); [exact Hk3|apply read_fs; [apply Hk3|exact Hf3|rewrite length_replicate; lia|lia|lia]|].
  intros [n2 l] s4 K4 (L4 & _ & Hu4) Hk4 Ho4. assert (Ho04 := others_trans _ _ _ _ Ho03 Ho4). pose proof (file_ok_kept _ _ _ Hf3 K4) as Hf4. cbn [fst snd] in *.
  wp1; [by eapply refuse_wp|]. bools. subst n2. wp1; [by eapply refuse_wp|]. bools.
  assert (He : program_ok (bytes_program l) size0).
  { apply entry_ok_spec; [apply Hu4; [done|by apply Forall_replicate]|by rewrite L4, length_replicate|exact Hsz|done]. }
  wp1. wp1. destruct (fdt_same_ok (p_name (bytes_program l)) name (proj2 (prog_name _ _ He)) H0) as (r & ->). cbn [wpr].
  wp1; [by eapply refuse_wp|]. wp1; [by eapply refuse_wp|]. apply ends_ret. by eapply HS.
Qed.

(** ** Starting a program *)

Lemma cut_args_ok n l : In 0 l -> exists r, cut_args n l = Ok r /\ (length r <= S n)%nat.
Proof.
  revert n. induction l as [|c l IH]; intros n H; [done|]. destruct n as [|n]; cbn [cut_args]; (destruct (Z.eqb_spec c 0) as [->|Hc]; [exists [0]; split; [done|cbn; lia]|]).
  - exists [0]. split; [done|cbn; lia].
  - destruct (IH n) as (r & -> & Hr); [destruct H as [H|H]; [by destruct Hc|exact H]|]. exists (c :: r). split; [done|cbn; lia].
Qed.
Lemma name_prefix_ok n l : In 0 l -> exists r, name_prefix n l = Ok r /\ (length r <= n)%nat.
Proof.
  revert n. induction l as [|c l IH]; intros n H; [done|]. destruct n as [|n]; cbn [name_prefix]; (destruct (Z.eqb_spec c 0) as [->|Hc]; [exists []; split; [done|cbn; lia]|]).
  - exists []. split; [done|cbn; lia].
  - destruct (IH n) as (r & -> & Hr); [destruct H as [H|H]; [by destruct Hc|exact H]|]. exists (c :: r). split; [done|cbn; lia].
Qed.

Lemma free_entry_spec ps i e free r : free_entry ps i e free = Some r ->
  (forall j, (j < length ps)%nat -> overlaps (ps !!! j) e = false) /\ (free = Some r \/ (i <= r < i + Z.of_nat (length ps) /\ state (at_ ps (r - i)) = FREE)).
Proof.
  revert i free. induction ps as [|p ps IH]; intros i free H; cbn [free_entry] in H; [split; [cbn; lia|by left]|].
  destruct (overlaps p e) eqn:Eo; [done|]. destruct (IH _ _ H) as (H1 & H2). split.
  - intros [|j] Hj; [done|]. apply H1. cbn in Hj. lia.
  - destruct H2 as [H2|(H2 & H3)].
    + destruct free as [j|]; [by left|]. destruct (bool_decide (state p = FREE)) eqn:Es; [|done]. injection H2 as <-. right. cbn [length]. split; [lia|].
      rewrite Z.sub_diag. by apply bool_decide_eq_true in Es.
    + right. cbn [length]. split; [lia|]. rewrite FsSpecs.at_cons by lia. replace (r - i - 1) with (r - (i + 1)) by lia. done.
Qed.

(** The slots of the program are no live process's. *)
Definition vacant (e : program) k : Prop := forall j, 0 <= j < 8 -> alive (proc_of k j) = true -> load e + p_span e <= base (proc_of k j) \/ base (proc_of k j) + span (proc_of k j) <= load e.

Lemma free_entry_vacant size0 e i k : inv None k -> program_ok e size0 -> free_entry (procs k) 0 e None = Some i -> 0 <= i < 8 /\ state (proc_of k i) = FREE /\ vacant e k.
Proof.
  intros Hk He H. apply free_entry_spec in H as (H1 & [H2|(H2 & H3)]); [done|]. rewrite Z.sub_0_r in H3. pose proof (proj1 (k_procs _ _ _ _ Hk)) as Hl. rewrite Hl in *.
  split; [lia|]. split; [done|]. intros j Hj Ha. destruct (runs_place None j k Hk) as ((I1 & I2 & I3 & _) & _); [by split|].
  destruct (prog_place _ _ He) as (P1 & P2 & P3 & _). unfold OS_SLOT_BASE, SLOTS_END in *. specialize (H1 (Z.to_nat j) ltac:(lia)).
  change (procs k !!! Z.to_nat j) with (proc_of k j) in H1. unfold overlaps in H1. rewrite Ha, !u32_id in H1 by (unfold is_u32; lia). cbn [andb] in H1.
  apply andb_false_iff in H1 as [H1|H1]; apply Z.ltb_ge in H1; lia.
Qed.


Lemma vacant_loading e k0 k : vacant e k0 -> loading k0 k -> vacant e k.
Proof. unfold vacant, proc_of. intros H (-> & _). exact H. Qed.

Context (Hplaced : tables_placed B) (HR : (length R <= 6)%nat).

(** A store in the process's own slots. *)
Lemma own_store ex i lo hi b k : inv ex k -> runs ex i k -> ram_ok b -> outside_same lo hi (ram k) b -> base (proc_of k i) <= lo -> hi <= base (proc_of k i) + span (proc_of k i) ->
  inv ex (put_ram b k) /\ others (Some i) k (put_ram b k).
Proof.
  intros Hk Hr Hb Ho H1 H2. destruct (runs_place _ _ _ Hk Hr) as ((I1 & _) & _). apply (store_inv B R Hplaced HR _ _ lo hi); [done|done|done|lia|].
  intros j Hj Hne Ha. destruct Hr as (Hi & _ & Ha'). destruct (k_apart _ _ _ _ Hk i j) as [H|H]; [done|done|congruence|done|done| |]; lia.
Qed.

Lemma own_put_wp ex i a l k (Q : () -> kernel D E -> Prop) : inv ex k -> runs ex i k -> base (proc_of k i) <= a -> a + Z.of_nat (length l) <= base (proc_of k i) + span (proc_of k i) ->
  (forall b, inv ex (put_ram b k) -> others (Some i) k (put_ram b k) -> Q () (put_ram b k)) -> wp (put_bytes a l) Q k.
Proof.
  intros Hk Hr H1 H2 HQ. destruct (runs_place _ _ _ Hk Hr) as ((I1 & I2 & I3 & _) & _). unfold OS_SLOT_BASE, SLOTS_END in *.
  apply put_bytes_wp; [apply Hk|unfold RAM_BASE; lia|unfold SLOTS_END; lia|]. intros b Hb Ho. destruct (own_store ex i _ _ b k Hk Hr Hb Ho H1 H2). by apply HQ.
Qed.

(** Bytes of the program's slots are written. *)
Lemma load_program_wp who size0 e a l k0 k (Q : () -> kernel D E -> Prop) : inv None k -> program_ok e size0 -> vacant e k -> load e <= a -> a + Z.of_nat (length l) <= load e + p_span e ->
  others who k0 k -> loading k0 k -> (forall k', inv None k' -> others who k0 k' -> loading k0 k' -> Q () k') -> wp (put_bytes a l) Q k.
Proof.
  intros Hk He Hv H1 H2 Ho Hld HQ. destruct (prog_place _ _ He) as (P1 & P2 & P3 & _).
  apply put_bytes_wp; [apply Hk|unfold OS_SLOT_BASE, RAM_BASE in *; lia|lia|]. intros b Hb Hb'.
  destruct (store_inv B R Hplaced HR who None _ _ b k Hk Hb Hb') as (I & O); [lia|intros j Hj _ Ha; destruct (Hv j Hj Ha); lia|].
  apply HQ; [done|by eapply others_trans|]. destruct Hld as (L1 & L2 & L3). done.
Qed.

(** The floating state of an entry. *)
Lemma put_fp_inv who ex i v k : inv ex k -> 0 <= i < 8 -> (fpu_owner k = Some i -> v = fpu (cpu k)) -> inv ex (put_space i {| (space_of k i) with fp := v |} k) /\ others who k (put_space i {| (space_of k i) with fp := v |} k).
Proof.
  intros Hk Hi Hv. pose proof (proj1 (k_spaces _ _ _ _ Hk)) as Hl. set (s := {| (space_of k i) with fp := v |}).
  assert (Hs : forall j, 0 <= j < 8 -> space_of (put_space i s k) j = if i =? j then s else space_of k j) by (intros j Hj; apply space_of_put; [done|done|lia]).
  split.
  - destruct Hk. constructor; try assumption.
    + split; [cbn; by rewrite length_insert|]. intros j Hj. unfold entry_maps. rewrite Hs by done. destruct (Z.eqb_spec i j) as [<-|]; by apply (proj2 k_spaces0).
    + intros j Hj Hx Ha. rewrite Hs by done. destruct (Z.eqb_spec i j) as [<-|]; by apply k_settled0.
    + intros j Ho. rewrite Hs by (by apply (proj2 k_fpu0)). destruct (Z.eqb_spec i j) as [<-|]; [right; by apply Hv|by apply k_coherent0].
  - intros j Hj Hw Ha. split; [done|]. split; [apply same_process_refl|]. rewrite Hs by done. split; [by destruct (Z.eqb_spec i j) as [<-|]|done].
Qed.

(** The tables of entry [i] describe its process now. *)
Lemma remap_inv i b s k : inv (Some i) k -> 0 <= i < 8 -> ram_ok b -> outside_same (table_address B i 0) (table_address B (i + 1) 0) (ram k) b ->
  let k' := put_ram b (put_space i s k) in
  entry_maps B R i k' -> settled (proc_of k i) s -> fp s = fp (space_of k i) -> fs_on (proc_of k i) = false ->
  inv None k' /\ (forall j, 0 <= j < 8 -> j <> i -> space_of k' j = space_of k j) /\ forall lo hi, OS_SLOT_BASE <= lo -> same_bytes lo hi (ram k) b.
Proof.
  intros Hk Hi Hb Ho k' Hm Hset Hfp Hfs. pose proof (proj1 (k_spaces _ _ _ _ Hk)) as Hl. destruct (table_place B Hplaced i 6) as (_ & T2 & _ & T4); [lia|lia|].
  destruct (table_place B Hplaced i 0) as (_ & _ & T5 & _); [lia|lia|].
  assert (Hs : forall j, 0 <= j < 8 -> space_of k' j = if i =? j then s else space_of k j).
  { intros j Hj. change (space_of k' j) with (space_of (put_space i s k) j). apply space_of_put; [done|done|lia]. }
  pose proof (table_next B i) as Hx. split; [|split].
  - destruct Hk. constructor; try assumption.
    + split; [cbn; by rewrite length_insert|]. intros j Hj. destruct (Z.eqb_spec i j) as [<-|Hne]; [by right|]. unfold entry_maps. rewrite Hs by done.
      rewrite (proj2 (Z.eqb_neq i j)) by done. destruct (proj2 k_spaces0 j Hj) as [H|((used & Hsh) & Hlo & Hlv)]; [by left|right].
      assert (Hw : forall a, table_address B j 0 <= a < table_address B (j + 1) 0 -> a mod 4 = 0 -> word b a = word (ram k) a).
      { intros a Ha Ha4. apply (word_outside _ _ _ _ _ Ho). rewrite table_next in Ha. rewrite Hx.
        unfold table_address, PAGE_TABLES, PAGE_SIZE in *. zlia. }
      split; [exists used; by apply (leaf_same B R Hplaced HR (ram k) b j _ used 0)|]. split; [exact Hlo|]. intros q Hq. cbn [ram k' put_ram].
      destruct (leaf_same B R Hplaced HR (ram k) b j _ used q Hj Hsh Hq Hw) as (_ & ->). by apply Hlv.
    + intros j Hj _ Ha. rewrite Hs by done. destruct (Z.eqb_spec i j) as [<-|Hne]; [exact Hset|]. apply k_settled0; [done|congruence|done].
    + destruct k_fpu0 as (F1 & F2). split; [|done]. intros j Hj _ Ha Hf. destruct (Z.eqb_spec i j) as [<-|Hne]; [change (fs_on (proc_of k i) = true) in Hf; congruence|]. apply F1; [done|congruence|done|done].
    + intros j Hown. rewrite Hs by (by apply (proj2 k_fpu0)). destruct (Z.eqb_spec i j) as [<-|]; [rewrite Hfp|]; by apply k_coherent0.
  - intros j Hj Hne. rewrite Hs by done. by rewrite (proj2 (Z.eqb_neq i j)) by congruence.
  - intros lo hi Hlo a Ha. apply Ho. lia.
Qed.

(** The process that starts. *)
Definition started (e : program) (id0 parent0 : Z) (prefix : list Z) : proc :=
  let top := u32 (load e + p_span e) in
  {| f := {| x := <[10%nat := top - ARGS_MAX]> (<[2%nat := (top - ARGS_MAX - 16) .& not32 15]> (replicate 32 0)); pc := entry e; mstatus := MSTATUS_MPIE |};
     files := replicate 4 closed; state := READY; pid := id0; parent := parent0; base := load e; span := p_span e;
     brk := u32 (load e + memory_size e + 15) .& not32 15; exit_code := 0; wait_pid := 0; flags := p_flags e; switches := 0; wake := 0;
     pname := prefix ++ replicate (24 - length prefix) 0 |}.

Lemma land_not15 a : 0 <= a < 0x100000000 -> a .& not32 15 = 16 * (a / 16).
Proof.
  intros Ha. change (not32 15) with (Z.ones 28 .<< 4). replace (16 * (a / 16)) with ((a .>> 4) .<< 4) by (rewrite Z.shiftl_mul_pow2, Z.shiftr_div_pow2 by lia; change (2 ^ 4) with 16; lia).
  apply Z.bits_inj'. intros n Hn. rewrite Z.land_spec. destruct (Z.lt_ge_cases n 4); [by rewrite !Z.shiftl_spec_low, andb_false_r by lia|].
  rewrite !Z.shiftl_spec_high, Z.shiftr_spec by lia. replace (n - 4 + 4) with n by lia. destruct (Z.lt_ge_cases (n - 4) 28); [by rewrite Z.ones_spec_low, andb_true_r by lia|].
  rewrite Z.ones_spec_high, andb_false_r by lia. symmetry. destruct (Z.eq_dec a 0) as [->|]; [apply Z.bits_0|]. apply Z.bits_above_log2; [lia|].
  assert (Z.log2 a < 32) by (apply Z.log2_lt_pow2; lia). lia.
Qed.

Lemma started_wf e size0 id0 parent0 prefix : program_ok e size0 -> (length prefix <= 23)%nat -> proc_wf (started e id0 parent0 prefix).
Proof.
  intros He Hp. destruct (prog_place _ _ He) as (P1 & P2 & P3 & P4 & P5). destruct (prog_stack _ _ He) as (S1 & S2). pose proof (prog_memory _ _ He) as M1. pose proof (prog_entry _ _ He) as E1.
  destruct (prog_file _ _ He) as (F1 & F2 & _). unfold OS_SLOT_BASE, SLOTS_END in *. assert (Et : u32 (load e + p_span e) = load e + p_span e) by (apply u32_id; unfold is_u32; lia).
  unfold proc_wf, started. cbn [f files pname exit_code switches]. rewrite Et. splits; try done.
  - unfold frame_ok. cbn [x pc]. split; [by rewrite !length_insert, length_replicate|]. split; [|unfold is_u32; lia]. unfold ARGS_MAX.
    apply Forall_insert; [apply Forall_insert; [by apply Forall_replicate|]|unfold is_u32; lia]. rewrite land_not15 by lia. unfold is_u32. zlia.
  - rewrite length_app, length_replicate. lia.
  - apply in_or_app. right. destruct (24 - length prefix)%nat eqn:E0; [lia|]. by left.
Qed.

Lemma started_inv who size0 e i id0 parent0 prefix k0 k : inv None k -> others who k0 k -> program_ok e size0 -> (length prefix <= 23)%nat -> 0 <= i < 8 -> state (proc_of k i) = FREE ->
  alive (proc_of k0 i) = false -> vacant e k -> protected_pid k < id0 < next_pid k -> (forall j, 0 <= j < 8 -> state (proc_of k j) <> FREE -> pid (proc_of k j) < id0) ->
  inv (Some i) (put_proc i (started e id0 parent0 prefix) k) /\ others who k0 (put_proc i (started e id0 parent0 prefix) k).
Proof.
  intros Hk Ho He Hp Hi Hfree Hd Hv Hid Hpids. pose proof (proj1 (k_procs _ _ _ _ Hk)) as Hl. set (p := started e id0 parent0 prefix).
  assert (Hc : forall a, 0 <= a < 4 -> at_ (files p) a = closed) by (intros a Ha; unfold at_; apply lookup_total_replicate_2; lia).
  split.
  - apply (fits_inv B R None); [done|done|done|]. destruct (k_pids _ _ _ _ Hk) as (N1 & N2 & N3 & N4). constructor; try done.
    + by eapply started_wf.
    + intros _ j Hj Hne Ha. destruct (Hv j Hj Ha); [left|right]; done.
    + intros a Ha. rewrite Hc by done. by left.
    + intros a b Ha Hb Hne. rewrite Hc by done. done.
    + intros a j b Ha Hb Hj Hne. rewrite Hc by done. done.
    + intros Hown. destruct (proj2 (k_fpu _ _ _ _ Hk) i Hown) as (_ & Ha). unfold alive in Ha. by rewrite Hfree in Ha.
    + intros _. change (pid p) with id0. lia.
    + intros j Hj Hne _ Hs. specialize (Hpids j Hj Hs). change (pid p) with id0. lia.
    + intros _ Hpp. change (pid p) with id0 in Hpp. lia.
  - intros j Hj Hw Ha. destruct (Z.eq_dec j i) as [->|Hne]; [congruence|]. rewrite proc_of_put by (done || lia). rewrite (proj2 (Z.eqb_neq i j)) by congruence. by apply Ho.
Qed.

Lemma slice_ok (l : list Z) p n : 0 <= p -> 0 <= n -> p + n <= Z.of_nat (length l) -> exists r, slice l p n = Ok r /\ length r = Z.to_nat n.
Proof.
  clear HR. intros H1 H2 H3. unfold slice. rewrite (proj2 (Z.leb_le 0 p)), (proj2 (Z.leb_le _ _)) by lia. eexists. split; [done|]. rewrite length_take, length_drop. lia.
Qed.

(** The next pid is taken. *)
Lemma next_pid_inv who ex k : inv ex k -> next_pid k < 0xffffffff ->
  let k' := {| k with next_pid := u32 (next_pid k + 1) |} in inv ex k' /\ others who k k' /\ next_pid k' = next_pid k + 1.
Proof.
  intros Hk Hn k'. assert (En : next_pid k' = next_pid k + 1) by (cbn [k' next_pid]; apply u32_id; destruct (k_pids _ _ _ _ Hk) as (N1 & _); unfold is_u32; lia).
  split; [|split; [exact (others_refl who k)|done]]. destruct Hk. constructor; try assumption. destruct k_pids0 as (N1 & N2 & N3 & N4). rewrite En.
  split; [lia|]. split; [change (protected_pid k') with (protected_pid k); lia|]. split; [|done]. intros i Hi Hs. change (proc_of k' i) with (proc_of k i) in *. specialize (N3 i Hi Hs). lia.
Qed.

(** The image: out of the RAM disk or out of the file, into the program's slots. *)
Lemma image_wp who size0 file e k (Q : bool -> kernel D E -> Prop) : inv None k -> program_ok e size0 -> is_u32 size0 -> vacant e k ->
  match file with None => size0 = disk_size0 | Some f0 => file_ok (fs k) f0 end ->
  (forall ok k', inv None k' -> others who k k' -> loading k k' -> Q ok k') ->
  wp (match file with
      | None => l ← lift (slice (ramdisk B) (offset e) (file_size e)); put_bytes (load e) l;; mret true
      | Some file =>
          to ← get_bytes (load e) (file_size e);
          '(n, l) ← on_fs (fs_read file (offset e) (load e) to (file_size e));
          put_bytes (load e) l;;
          mret (n =? file_size e)
      end) Q k.
Proof.
  intros Hk He Hsz Hv Hfile HQ. destruct (prog_file _ _ He) as (F1 & F2 & F3). pose proof (prog_memory _ _ He) as M. destruct (prog_place _ _ He) as (P1 & P2 & P3 & _). destruct (prog_stack _ _ He) as (S1 & _).
  destruct file as [f0|].
  - wp1. apply get_bytes_wp; [apply Hk|unfold OS_SLOT_BASE, RAM_BASE in *; lia|lia|lia|]. intros to Lt Ut. wp1.
    eapply (fs_step_wp B R who None); [done|apply read_fs; [apply Hk|exact Hfile|lia|unfold is_u32 in Hsz; lia|lia]|]. intros [n l] s K (Ll & _) Hk1 Ho1. cbn [fst snd] in Ll. wp1.
    eapply (load_program_wp who size0 e _ _ k); [exact Hk1|done|done|lia|lia|done|done|]. intros k2 Hk2 Ho2 Hl2. wp1. by apply HQ.
  - subst size0. wp1. wp1. destruct (slice_ok (ramdisk B) (offset e) (file_size e)) as (l & -> & Ll); [lia|lia|unfold disk_size0 in *; lia|]. cbn [wpr]. wp1.
    eapply (load_program_wp who _ e _ _ k); [done|done|done|lia|lia|apply others_refl|done|]. intros k2 Hk2 Ho2 Hl2. wp1. by apply HQ.
Qed.

Lemma settled_started e size0 id0 parent0 prefix n s : program_ok e size0 -> n <> 0 ->
  settled (started e id0 parent0 prefix) {| (space_for (started e id0 parent0 prefix) (stack e) s) with tables := n |}
  /\ laid_out (space_for (started e id0 parent0 prefix) (stack e) s).
Proof.
  intros He Hn. destruct (prog_place _ _ He) as (P1 & P2 & P3 & P4 & P5). destruct (prog_stack _ _ He) as (S1 & S2). pose proof (prog_memory _ _ He) as M1. destruct (prog_file _ _ He) as (F1 & F2 & _).
  unfold settled, laid_out, in_slots, space_for, started. cbn [base span brk guard s_base s_span tables drives_engines]. unfold OS_SLOT_BASE, SLOTS_END in *.
  rewrite (u32_id (load e + p_span e - stack e)) by (unfold is_u32; lia). rewrite (u32_id (load e + memory_size e + 15)) by (unfold is_u32; lia). rewrite (land_not15 (load e + memory_size e + 15)) by lia.
  splits; try done; zlia.
Qed.

Context (Hdev : devices_placed B) (Hcov : covered B R).

(** Entry [i] gets its process and its tables. *)
Lemma enter_wp {A} who size0 e i id0 parent0 prefix k0 k (c : KM (option A)) P :
  inv None k -> others who k0 k -> program_ok e size0 -> (length prefix <= 23)%nat -> 0 <= i < 8 -> state (proc_of k i) = FREE -> alive (proc_of k0 i) = false -> vacant e k ->
  protected_pid k < id0 < next_pid k -> (forall j, 0 <= j < 8 -> state (proc_of k j) <> FREE -> pid (proc_of k j) < id0) ->
  (forall k', inv None k' -> others who k0 k' -> state (proc_of k' i) = READY -> wp c (ends P) k') ->
  wp (set_proc i (started e id0 parent0 prefix);; _ ←! map_process B i (stack e); c) (ends P) k.
Proof.
  intros Hk Ho He Hp Hi Hfree Hd Hv Hid Hpids HP. destruct (started_inv who size0 e i id0 parent0 prefix k0 k) as (Hk1 & Ho1); [done..|]. set (p := started e id0 parent0 prefix) in *.
  wp1. apply set_proc_wp; [apply Hk|done|]. apply ends_bind. set (k1 := put_proc i p k) in *.
  assert (Ep : proc_of k1 i = p) by (unfold k1; rewrite proc_of_put by (exact (proj1 (k_procs _ _ _ _ Hk)) || lia); by rewrite Z.eqb_refl).
  apply (map_process_wp B R Hplaced HR); [done|apply Hk1|apply Hk1|apply Hk1|done|done|by apply Hk1|rewrite Ep; by apply (settled_started e size0 id0 parent0 prefix 1)|].
  rewrite Ep. intros b n Hb Hn Hout s Hm. destruct (remap_inv i b s k1 Hk1 Hi Hb Hout Hm) as (Hk2 & Hsp & Hby);
    [rewrite Ep; by apply (settled_started e size0 id0 parent0 prefix n)|reflexivity|by rewrite Ep|]. cbn [ends]. apply HP; [done| |change (state (proc_of k1 i) = READY); by rewrite Ep].
  intros j Hj Hw Ha. destruct (Z.eq_dec j i) as [->|Hne]; [congruence|]. destruct (Ho1 j Hj Hw Ha) as (A1 & A2 & A3 & A4).
  split; [exact A1|]. split; [exact A2|]. rewrite Hsp by done. split; [done|]. cbn [ram put_ram]. intros a Ha'. rewrite <- A4 by done.
  apply (Hby (base (proc_of k0 j)) (base (proc_of k0 j) + span (proc_of k0 j))); [|done].
  destruct A2 as (_ & _ & _ & _ & _ & _ & Eb & _). rewrite <- Eb. destruct (runs_place (Some i) j k1 Hk1) as ((I1 & _) & _); [split; [done|split; [congruence|done]]|]. exact I1.
Qed.

Lemma start_program_wp who size0 file e args parent0 k (P : option Z -> kernel D E -> Prop) : inv None k -> program_ok e size0 -> is_u32 size0 ->
  match file with None => size0 = disk_size0 | Some f0 => file_ok (fs k) f0 end -> In 0 args -> next_pid k < 0xffffffff ->
  (forall k', inv None k' -> others who k k' -> P None k') ->
  (forall i k', inv None k' -> others who k k' -> 0 <= i < 8 -> state (proc_of k' i) = READY -> P (Some i) k') ->
  wp (start_program B file e args parent0) (ends P) k.
Proof.
  intros Hk He Hsz Hfile Ha Hn HN HS. unfold start_program. wp1. wp1. unfold id. destruct (free_entry (procs k) 0 e None) as [i|] eqn:Ef; [|apply ends_ret; apply HN; [done|apply others_refl]].
  destruct (free_entry_vacant size0 e i k Hk He Ef) as (Hi & Hfree & Hv). wp1. eapply (image_wp who size0); [done|done|done|done|exact Hfile|]. intros ok k1 Hk1 Ho1 L1.
  wp1; [apply ends_ret; by apply HN|]. destruct (prog_file _ _ He) as (F1 & F2 & F3). pose proof (prog_memory _ _ He) as M. destruct (prog_place _ _ He) as (P1 & P2 & P3 & _). destruct (prog_stack _ _ He) as (S1 & _).
  wp1. eapply (load_program_wp who size0 e _ _ k); [exact Hk1|done|by eapply vacant_loading|lia|rewrite length_replicate; lia|done|done|]. intros k2 Hk2 Ho2 L2. cbv zeta.
  assert (Et : u32 (load e + p_span e) = load e + p_span e) by (apply u32_id; unfold is_u32, OS_SLOT_BASE, SLOTS_END in *; lia).
  wp1. wp1. destruct (cut_args_ok (Z.to_nat (ARGS_MAX - 1)) args Ha) as (copy & -> & Lc). cbn [wpr]. change (Z.to_nat (ARGS_MAX - 1)) with 63%nat in Lc.
  wp1. eapply (load_program_wp who size0 e _ _ k); [exact Hk2|done|by eapply vacant_loading|rewrite Et; unfold ARGS_MAX; lia|rewrite Et; unfold ARGS_MAX; lia|done|done|]. intros k3 Hk3 Ho3 L3.
  wp1. wp1. destruct (name_prefix_ok 23 (p_name e) (proj2 (prog_name _ _ He))) as (prefix & -> & Lp). cbn [wpr].
  wp1. apply space_at_wp; [apply Hk3|done|]. wp1. apply set_space_wp; [apply Hk3|done|]. destruct (put_fp_inv who None i (replicate 33 0) k3 Hk3 Hi) as (Hk4 & Ho4).
  { intros Hown. destruct (proj2 (k_fpu _ _ _ _ Hk3) i Hown) as (_ & Hal). exfalso. revert Hal. unfold alive, proc_of. rewrite (proj1 L3). unfold proc_of in Hfree. by rewrite Hfree. }
  set (k4 := put_space _ _ k3) in *.
  wp1. wp1. wp1. wp1. assert (Hn4 : next_pid k4 < 0xffffffff) by (destruct L3 as (_ & _ & E3); change (next_pid k4) with (next_pid k3); lia).
  destruct (next_pid_inv who None k4 Hk4 Hn4) as (Hk5 & Ho5 & En). set (k5 := {| k4 with next_pid := _ |}) in *.
  change (wp (set_proc i (started e (next_pid k4) parent0 prefix);; _ ←! map_process B i (stack e); mret (Some (Some i))) (ends P) k5).
  destruct L3 as (Ep & _). assert (Epr : forall j, proc_of k5 j = proc_of k j) by (intros j; unfold proc_of; change (procs k5) with (procs k3); by rewrite Ep).
  destruct (k_pids _ _ _ _ Hk4) as (N1 & N2 & N3 & N4).
  apply (enter_wp who size0 e i (next_pid k4) parent0 prefix k k5); [done|eapply others_trans; [exact Ho3|by eapply others_trans]|done|done|done|by rewrite Epr| | |change (protected_pid k5) with (protected_pid k4); lia| |].
  - unfold alive. rewrite Hfree. done.
  - intros j Hj. rewrite Epr. by apply Hv.
  - intros j Hj Hs. change (proc_of k5 j) with (proc_of k4 j) in *. by apply N3.
  - intros k' Hk' Ho' Hs'. apply ends_ret. by apply HS.
Qed.

Lemma spawn_wp who name args parent0 k (P : option Z -> kernel D E -> Prop) : inv None k -> ramdisk_ok -> In 0 name -> Forall is_u8 name -> In 0 args -> next_pid k < 0xffffffff ->
  (forall k', inv None k' -> others who k k' -> P None k') ->
  (forall i k', inv None k' -> others who k k' -> 0 <= i < 8 -> state (proc_of k' i) = READY -> P (Some i) k') ->
  wp (spawn B name args parent0) (ends P) k.
Proof.
  intros Hk Hd H0 Hu Ha Hn HN HS. unfold spawn. apply ends_bind. apply program_named_wp; [done|done|]. intros [e|] He; cbn in He.
  - eapply (start_program_wp who disk_size0); [done|done|apply Hd|done|done|done|done|done].
  - apply ends_bind. eapply (disk_program_wp who None); [done|done|done| |].
    + intros k' Hk' Ho'. apply ends_ret. by apply HN.
    + intros f0 e size0 k' Hk' Ho' (_ & _ & En) Hf Hsz He'. eapply (start_program_wp who size0); [done|done|done|exact Hf|done|by rewrite En| |].
      * intros k2 Hk2 Ho2. apply HN; [done|by eapply others_trans].
      * intros i k2 Hk2 Ho2. apply HS; [done|by eapply others_trans].
Qed.
End Calls.
End KernelCalls.
