(* ===== verification/KernelTraps.v ===== *)
(** * Ending a process, scheduling, system calls and traps

    Weakest preconditions of the rest of kernel.c up to [kernel_trap]: whatever the
    trapped process asked for, the handler is never undefined, keeps the kernel's
    invariant and the other processes, and resumes a process that its protection
    registers and page tables describe. *)

From S2P Require Import Prelude Effects Buffer Fs FsProofs FsSpecs Kernel KernelTables KernelProofs KernelCalls.

Module KernelTraps.
Import Fs FsProofs Kernel KernelTables KernelProofs KernelCalls.

Section Input.
Context {D E : Type} {BD : BlockDevice D} {BDO : BlockDeviceOk D} {PF : Platform E} {PL : Polls} (B : board) (R : list Z) `{F : Fuelled}.
Implicit Types (k : kernel D E).
Abbreviation inv := (kernel_inv B R).
Abbreviation keeps := (keeps (D := D) (E := E) B R).

(** ** Input *)

Lemma key_inv who ex event k : inv ex k -> is_u32 event -> key_count k <> KEY_BUFFER ->
  let k' := {| k with keys := <[Z.to_nat ((key_head k + key_count k) mod KEY_BUFFER) := event]> (keys k); key_count := key_count k + 1 |} in inv ex k' /\ others who k k'.
Proof.
  intros Hk He Hc k'. split; [|exact (others_refl who k)]. destruct Hk. constructor; try assumption. destruct k_keys0 as (K1 & K2 & K3 & K4). cbn [k' keys key_head key_count]. unfold KEY_BUFFER in *.
  split; [by rewrite length_insert|]. split; [by apply Forall_insert|]. split; [done|lia].
Qed.

Lemma drain_input_loop who ex n : may_run_out -> keeps who ex (drain_input B n).
Proof.
  intros Hm. induction n as [|n IH]; cbn [drain_input]; [by apply keeps_env, env_no_fuel|]. intros k Q Hk HQ. wp1. unfold mmio_read32, wp. destruct (read32 _ (env k)) as [v e].
  assert (Hk1 : inv ex (put_env e k)) by (by apply (inv_same B R ex k)). assert (Ho1 : others who k (put_env e k)) by (by apply others_same).
  change {| k with env := e |} with (put_env e k). set (k1 := put_env e k) in *. set (event := u32 v). assert (He : is_u32 event) by apply u32_range.
  match goal with |- match ?c k1 with _ => _ end => change (wp c Q k1) end. wp1; [wp1; by apply HQ|]. wp1. wp1. unfold id. wp1.
  assert (Hrest : forall k2, inv ex k2 -> others who k1 k2 -> wp (drain_input B n) Q k2) by (intros k2 Hk2 Ho2; apply IH; [done|]; intros a k3 Hk3 Ho3; apply HQ; [done|eapply others_trans; [exact Ho1|by eapply others_trans]]).
  destruct (Z.eqb_spec (key_count k1) KEY_BUFFER) as [Hfull|Hroom].
  - wp1. apply Hrest; [by apply (inv_same B R ex k1)|by apply others_same].
  - destruct (k_keys _ _ _ _ Hk1) as (K1 & _). wp1. wp1. apply wpr_aset; [rewrite K1; unfold KEY_BUFFER; zlia|]. wp1. destruct (key_inv who ex event k1 Hk1 He Hroom) as (Hk2 & Ho2). by apply Hrest.
Qed.
End Input.

Section Traps.
Context {D E : Type} {BD : BlockDevice D} {BDO : BlockDeviceOk D} {PF : Platform E} {PL : Polls} (B : board) (R : list Z) `{F : Fuelled}.
Context (Hwaits : waits (D := D) (E := E) B).
Implicit Types (k : kernel D E).
Abbreviation KM := (ST (kernel D E)).
Abbreviation inv := (kernel_inv B R).
Abbreviation keeps := (keeps (D := D) (E := E) B R).

Lemma env_write_palette l : env_only (D := D) (E := E) (write_palette B l).
Proof. apply env_write_colours. Qed.
Hint Resolve env_write_palette : devices.

(** ** Changing a process's state *)

Lemma inv_len ex k : inv ex k -> length (procs k) = 8%nat.
Proof. intros Hk. exact (proj1 (k_procs _ _ _ _ Hk)). Qed.

Lemma inv_spaces ex k : inv ex k -> length (spaces k) = 8%nat.
Proof. intros Hk. exact (proj1 (k_spaces _ _ _ _ Hk)). Qed.

Lemma keeps_proc_at who ex i : 0 <= i < 8 -> keeps who ex (proc_at i).
Proof. intros Hi k Q Hk HQ. apply proc_at_wp; [by eapply inv_len|done|]. apply HQ; [done|apply others_refl]. Qed.

Definition with_state (st : pstate) (p : proc) : proc := {| p with state := st |}.

(** A live process becomes ready or blocked. *)
Definition waiting (st : pstate) : Prop := st = READY \/ st = BLOCKED_READ \/ st = BLOCKED_WAIT \/ st = BLOCKED_SLEEP.

Lemma like_refl_but p p' : proc_wf p -> f p' = f p -> files p' = files p -> base p' = base p -> span p' = span p -> brk p' = brk p -> flags p' = flags p -> pid p' = pid p ->
  pname p' = pname p -> is_u32 (exit_code p') -> is_u32 (switches p') -> alive p = true -> waiting (state p') -> like p p'.
Proof.
  intros (W1 & W2 & W3 & W4 & W5 & W6 & W7) Ef Efi Eb Es Ek Efl Ep En Hx Hs Ha Hst. assert (Ha' : alive p' = true) by (unfold alive; by destruct Hst as [->|[->|[->| ->]]]).
  unfold like, proc_wf, fs_on. rewrite Ef, Efi, Eb, Es, Ek, Efl, Ep, En, Ha, Ha'. splits; try done; destruct Hst as [H|[H|[H|H]]]; rewrite H; try done; by intros Hf; unfold alive in Ha; rewrite Hf in Ha.
Qed.

Lemma state_inv who ex i st k : inv ex k -> 0 <= i < 8 -> alive (proc_of k i) = true -> waiting st ->
  inv ex (put_proc i (with_state st (proc_of k i)) k) /\ others who k (put_proc i (with_state st (proc_of k i)) k).
Proof.
  intros Hk Hi Ha Hst. destruct (k_procs _ _ _ _ Hk) as (Hl & Hwf). pose proof (Hwf i Hi) as (_ & _ & _ & _ & W5 & W6 & _). split.
  - apply like_inv; [done|done|]. apply like_refl_but; try done. by apply Hwf.
  - apply others_put; [done|done|]. right. intros _. split; [unfold alive, with_state; cbn [state]; by destruct Hst as [->|[->|[->| ->]]]|]. unfold same_process. by splits.
Qed.

Lemma set_state_wp who ex i st k0 k (Q : () -> kernel D E -> Prop) : inv ex k -> others who k0 k -> 0 <= i < 8 -> alive (proc_of k i) = true -> waiting st ->
  (forall k', inv ex k' -> others who k0 k' -> k' = put_proc i (with_state st (proc_of k i)) k -> Q () k') -> wp (set_state i st) Q k.
Proof.
  intros Hk Ho Hi Ha Hst HQ. unfold set_state. apply upd_proc_wp; [by eapply inv_len|done|]. destruct (state_inv who ex i st k Hk Hi Ha Hst) as (I & O).
  apply HQ; [exact I|by eapply others_trans|done].
Qed.

(** The registers of the trapped process. *)
Lemma frame_inv ex i fr k : inv ex k -> 0 <= i < 8 -> frame_ok fr -> mstatus fr = mstatus (f (proc_of k i)) ->
  inv ex (put_proc i {| (proc_of k i) with f := fr |} k) /\ others (Some i) k (put_proc i {| (proc_of k i) with f := fr |} k).
Proof.
  intros Hk Hi Hf Hm. destruct (k_procs _ _ _ _ Hk) as (Hl & Hwf). pose proof (Hwf i Hi) as (W1 & W2 & W3 & W4 & W5 & W6 & W7). split; [|apply others_put; [done|done|by left]].
  apply like_inv; [done|done|]. unfold like, proc_wf, fs_on. cbn [f]. rewrite Hm. splits; try done.
Qed.

(** ** Ending a process *)

Lemma fold_name_ok l h : In 0 l -> exists r, fold_name l h = Ok r.
Proof.
  revert h. induction l as [|c l IH]; intros h H; [done|]. cbn [fold_name]. destruct (Z.eqb_spec c 0); [by eexists|]. apply IH. by destruct H.
Qed.

Lemma stop_engines_keeps who ex i : 0 <= i < 8 -> keeps who ex (stop_orphaned_engines B i).
Proof. intros Hi. unfold stop_orphaned_engines. repeat first [by apply keeps_proc_at|keep1]. Qed.

(** Descriptors below [a] are closed; the rest of the process is as it was. *)
Definition closing (i a : Z) k0 k : Prop :=
  fpu_owner k = fpu_owner k0 /\ (forall j, 0 <= j < 8 -> state (proc_of k j) = state (proc_of k0 j) /\ pid (proc_of k j) = pid (proc_of k0 j))
  /\ forall b, 0 <= b < a -> mode (at_ (files (proc_of k i)) b) = 0.

Lemma close_file_wp who ex i a k0 k1 k (Q : bool -> kernel D E -> Prop) : inv ex k -> who = Some i -> others who k0 k -> 0 <= i < 8 -> 0 <= a < 4 -> closing i a k1 k ->
  (forall r k', inv ex k' -> others who k0 k' -> closing i (a + 1) k1 k' -> Q r k') -> wp (close_file i a) Q k.
Proof.
  intros Hk -> Ho Hi Ha (C1 & C2 & C3) HQ. destruct (k_procs _ _ _ _ Hk) as (Hl & Hwf). pose proof (Hwf i Hi) as (_ & Hlf & _). unfold close_file, set_file.
  wp1. apply proc_at_wp; [done|done|]. wp1. wp1. apply wpr_aget; [lia|]. set (o := at_ (files (proc_of k i)) a). wp1. wp1. apply proc_at_wp; [done|done|]. wp1. wp1.
  apply wpr_aset; [lia|]. apply set_proc_wp; [done|done|]. set (o' := {| o with mode := 0 |}). change {| (proc_of k i) with files := _ |} with (put_file a o' (proc_of k i)).
  assert (Hk1 : inv ex (put_proc i (put_file a o' (proc_of k i)) k)) by (apply put_file_inv; [done|done|done|done|by left|by intros j b _ _ _ []]).
  assert (Ho1 : others (Some i) k0 (put_proc i (put_file a o' (proc_of k i)) k)) by (eapply others_trans; [exact Ho|]; apply others_put; [done|done|by left]).
  set (k2 := put_proc i (put_file a o' (proc_of k i)) k) in *.
  assert (Hpr : forall j, 0 <= j < 8 -> proc_of k2 j = if i =? j then put_file a o' (proc_of k i) else proc_of k j) by (intros j Hj; apply proc_of_put; [done|done|lia]).
  assert (Hc : closing i (a + 1) k1 k2).
  { split; [done|]. split; [intros j Hj; rewrite Hpr by done; destruct (Z.eqb_spec i j) as [<-|]; by apply C2|]. intros b Hb. rewrite Hpr, Z.eqb_refl by done.
    cbn [files put_file]. rewrite at_insert by lia. destruct (Z.eqb_spec a b) as [->|]; [done|]. apply C3. lia. }
  wp1; [|wp1; by apply HQ]. wp1. eapply (fs_step_wp B R (Some i) ex); [done|apply flush_fs; by apply Hk1|]. intros ok s _ _ Hk3 Ho3. wp1. apply HQ; [done|by eapply others_trans|exact Hc].
Qed.

Lemma close_files_wp who ex n i a k0 k1 k (Q : () -> kernel D E -> Prop) : inv ex k -> who = Some i -> others who k0 k -> 0 <= i < 8 -> 0 <= a -> a + Z.of_nat n = 4 -> closing i a k1 k ->
  (forall k', inv ex k' -> others who k0 k' -> closing i 4 k1 k' -> Q () k') -> wp (close_files B n i a) Q k.
Proof.
  revert a k. induction n as [|n IH]; intros a k Hk Hw Ho Hi Ha Hn Hc HQ; cbn [close_files]; [wp1; apply HQ; [done|done|by replace 4 with a by lia]|].
  wp1. eapply close_file_wp; [exact Hk|done|exact Ho|done|lia|exact Hc|]. intros r k2 Hk2 Ho2 Hc2. wp1.
  assert (Hnext : forall e, wp (close_files B n i (a + 1)) Q (put_env e k2)).
  { intros e. apply IH; [by apply (inv_same B R ex k2)|done|eapply others_trans; [exact Ho2|by apply others_same]|done|lia|lia|exact Hc2|done]. }
  wp1; [|rewrite <- (put_env_id k2); apply Hnext]. wp1. apply proc_at_wp; [by eapply inv_len|done|]. apply wp_env; [envs|]. intros [] e. apply Hnext.
Qed.


(** The FPU is nobody's when its owner ends. *)
Lemma drop_owner_inv who i k : inv None k ->
  let k' := if bool_decide (fpu_owner k = Some i) then {| k with fpu_owner := None |} else k in
  inv (Some i) k' /\ others who k k' /\ fpu_owner k' <> Some i /\ procs k' = procs k.
Proof.
  intros Hk k'. unfold k'. case_bool_decide as Ho; [|split; [by apply inv_exempt|split; [apply others_refl|done]]].
  split; [|split; [exact (others_refl who k)|done]]. apply (inv_exempt B R i) in Hk. destruct Hk. constructor; try assumption; [|done].
  split; [|done]. intros j Hj Hx Ha Hf. cbn [fpu_owner]. destruct k_fpu0 as (F1 & _). specialize (F1 j Hj Hx Ha Hf). congruence.
Qed.

(** Zombies nobody will wait for. *)
Lemma free_children_inv who ex n k : inv ex k -> let k' := {| k with procs := map (free_children n) (procs k) |} in
  inv ex k' /\ others who k k' /\ forall j, 0 <= j < 8 -> proc_of k' j = free_children n (proc_of k j).
Proof.
  intros Hk k'. pose proof (inv_len _ _ Hk) as Hl. assert (Hpr : forall j, 0 <= j < 8 -> proc_of k' j = free_children n (proc_of k j)) by (intros j Hj; unfold proc_of; cbn [k' procs]; apply FsSpecs.at_map; lia).
  assert (Hfc : forall p, free_children n p = p \/ (state p = ZOMBIE /\ free_children n p = with_state FREE p)).
  { intros p. unfold free_children. case_bool_decide; cbn [andb]; [|by left]. destruct (_ =? _); [by right|by left]. }
  assert (Halive : forall p, alive (free_children n p) = true -> free_children n p = p) by (intros p; destruct (Hfc p) as [->|(_ & ->)]; done).
  assert (Hback : forall p, alive p = true -> free_children n p = p) by (intros p Ha; destruct (Hfc p) as [->|(Hz & _)]; [done|]; unfold alive in Ha; by rewrite Hz in Ha).
  assert (Hfiles : forall p, files (free_children n p) = files p) by (intros p; by destruct (Hfc p) as [->|(_ & ->)]).
  assert (Hpid : forall p, pid (free_children n p) = pid p) by (intros p; by destruct (Hfc p) as [->|(_ & ->)]).
  assert (Hst : forall p, state (free_children n p) <> FREE -> state p <> FREE) by (intros p; destruct (Hfc p) as [->|(_ & ->)]; [done|by cbn]).
  split; [|split; [|done]].
  - destruct Hk. constructor; try assumption.
    + split; [cbn; by rewrite length_map|]. intros j Hj. rewrite Hpr by done. destruct (Hfc (proc_of k j)) as [->|(Hz & ->)]; [by apply k_procs0|].
      destruct (proj2 k_procs0 j Hj) as (W1 & W2 & W3 & W4 & W5 & W6 & W7). unfold proc_wf. splits; try done. intros _. apply W7. unfold alive. by rewrite Hz.
    + intros j Hj Hx. rewrite Hpr by done. intros Ha. pose proof (Halive _ Ha) as Ex. rewrite Ex in Ha |- *. by apply k_settled0.
    + intros j j' Hj Hj' Hne. rewrite !Hpr by done. intros Ha Ha'. pose proof (Halive _ Ha) as Ex. pose proof (Halive _ Ha') as Ex'. rewrite Ex in Ha |- *. rewrite Ex' in Ha' |- *. by apply k_apart0.
    + intros j a Hj Ha. rewrite Hpr, Hfiles by done. by apply k_descs0.
    + intros j a j' b Hj Hj' Ha Hb Hne. rewrite !Hpr, !Hfiles by done. by apply k_writer0.
    + destruct k_fpu0 as (F1 & F2). split.
      * intros j Hj Hx. rewrite Hpr by done. intros Ha. pose proof (Halive _ Ha) as Ex. rewrite Ex in Ha |- *. by apply F1.
      * intros j Ho. destruct (F2 j Ho) as (Hj & Ha). split; [done|]. by rewrite Hpr, Hback.
    + intros j Ho. destruct (proj2 k_fpu0 j Ho) as (Hj & Ha). rewrite Hpr, Hback by done. by apply k_coherent0.
    + destruct k_pids0 as (P1 & P2 & P3 & P4). split; [done|]. split; [done|]. split.
      * intros j Hj. rewrite Hpr, Hpid by done. intros Hs. by apply P3, Hst.
      * intros j j' Hj Hj' Hne. rewrite !Hpr, !Hpid by done. intros S1 S2. apply P4; [done|done|done|by apply Hst|by apply Hst].
    + destruct k_running0 as (R1 & R2). split; [done|]. intros j Hj. rewrite Hpr by done. destruct (Hfc (proc_of k j)) as [->|(_ & ->)]; [by apply R2|done].
    + intros j Hj. rewrite Hpr by done. intros Ha. pose proof (Halive _ Ha) as Ex. rewrite Ex in Ha |- *. by apply k_cpu0.
  - intros j Hj Hw Ha. rewrite Hpr, Hback by done. split; [done|]. split; [apply same_process_refl|done].
Qed.

Lemma live_with_pid_spec ps i n found r : live_with_pid ps i n found = Some r ->
  found = Some r \/ (i <= r < i + Z.of_nat (length ps) /\ alive (at_ ps (r - i)) = true).
Proof.
  revert i found. induction ps as [|p ps IH]; intros i found H; cbn [live_with_pid] in H; [by left|]. destruct (IH _ _ H) as [Hf|(H1 & H2)].
  - destruct (alive p && (pid p =? n)) eqn:Ea; [|by left]. injection Hf as <-. right. cbn [length]. split; [lia|]. rewrite Z.sub_diag. by apply andb_true_iff in Ea as [Ea _].
  - right. cbn [length]. split; [lia|]. rewrite FsSpecs.at_cons by lia. by replace (r - i - 1) with (r - (i + 1)) by lia.
Qed.

(** A process without open files ends: a zombie its parent waits for, or nothing. *)
Lemma end_inv i st k0 k : inv (Some i) k -> others (Some i) k0 k -> 0 <= i < 8 -> alive (proc_of k i) = true -> fpu_owner k <> Some i ->
  (forall b, 0 <= b < 4 -> mode (at_ (files (proc_of k i)) b) = 0) -> st = FREE \/ st = ZOMBIE ->
  inv None (put_proc i (with_state st (proc_of k i)) k) /\ others (Some i) k0 (put_proc i (with_state st (proc_of k i)) k).
Proof.
  intros Hk Ho Hi Ha Hown Hc Hst. destruct (k_procs _ _ _ _ Hk) as (Hl & Hwf). destruct (Hwf i Hi) as (W1 & W2 & W3 & W4 & W5 & W6 & W7). split.
  - apply (dead_inv B R (Some i)); [done|done|by right| |unfold alive, with_state; cbn [state]; by destruct Hst as [->| ->]|done|].
    + unfold proc_wf. splits; try done. intros _. apply Forall_lookup_2. intros j o Hj. pose proof (lookup_lt_Some _ _ _ Hj) as Hlt.
      replace o with (at_ (files (proc_of k i)) (Z.of_nat j)) by (unfold at_; rewrite Nat2Z.id; by apply list_lookup_total_correct). apply Hc. cbn [files with_state] in Hlt. lia.
    + intros _. split; [|done]. intros Hf. unfold alive in Ha. by rewrite Hf in Ha.
  - eapply others_trans; [exact Ho|]. apply others_put; [done|done|by left].
Qed.

Lemma others_weaken i k k' : others None k k' -> others (Some i) k k'.
Proof. intros H j Hj _ Ha. by apply H. Qed.

Lemma exit_inv ex i code k : inv ex k -> 0 <= i < 8 -> is_u32 code ->
  inv ex (put_proc i {| (proc_of k i) with exit_code := code |} k) /\ others (Some i) k (put_proc i {| (proc_of k i) with exit_code := code |} k).
Proof.
  intros Hk Hi Hc. destruct (k_procs _ _ _ _ Hk) as (Hl & Hwf). pose proof (Hwf i Hi) as (W1 & W2 & W3 & W4 & W5 & W6 & W7). split; [|apply others_put; [done|done|by left]].
  apply like_inv; [done|done|]. unfold like, proc_wf. splits; try done; apply W1.
Qed.

Lemma finish_wp i code k (P : () -> kernel D E -> Prop) : inv None k -> 0 <= i < 8 -> alive (proc_of k i) = true -> is_u32 code ->
  (forall k', inv None k' -> others (Some i) k k' -> P () k') -> wp (finish B i code) (ends P) k.
Proof.
  intros Hk Hi Ha Hcode HP. unfold finish. assert (Ho : others None k k) by apply others_refl. pose proof (stop_engines_keeps None None i Hi) as Hse.
  kstep. pose proof (proj1 (Ho i Hi ltac:(done) Ha)) as Ha1. wp1. apply proc_at_wp; [by eapply inv_len|done|]. set (p := proc_of k' i) in *.
  pose proof (proj2 (k_procs _ _ _ _ Hk) i Hi) as (_ & _ & _ & Hn0 & _). fold p in Hn0.
  kstep. kstep. rename k'1 into k3. pose proof (proj1 (Ho i Hi ltac:(done) Ha)) as Ha3.
  wp1. wp1. destruct (drop_owner_inv None i k3 Hk) as (Hk4 & Ho4 & Hown & Hpr). set (k4 := if bool_decide _ then _ else _) in *.
  assert (Ha4 : alive (proc_of k4 i) = true) by (unfold proc_of; by rewrite Hpr).
  assert (Ho04 : others (Some i) k k4) by (eapply others_weaken, others_trans; [exact Ho|exact Ho4]).
  wp1. eapply (close_files_wp (Some i) (Some i) 4 i 0 k k4); [done|done|done|done|done|done|split; [done|split; [done|lia]]|]. intros k5 Hk5 Ho5 (C1 & C2 & C3).
  wp1. wp1. destruct (free_children_inv (Some i) (Some i) (pid p) k5 Hk5) as (Hk6 & Ho6 & Hpr6). set (k6 := {| k5 with procs := _ |}) in *.
  destruct (C2 i Hi) as (Es & _). assert (Ha5 : alive (proc_of k5 i) = true) by (unfold alive; by rewrite Es).
  assert (Ep6 : proc_of k6 i = proc_of k5 i) by (rewrite Hpr6 by done; unfold free_children; case_bool_decide as Hz; [by unfold alive in Ha5; rewrite Hz in Ha5|done]).
  wp1. apply upd_proc_wp; [by eapply inv_len|done|]. rewrite Ep6. destruct (exit_inv (Some i) i code k6 Hk6 Hi Hcode) as (Hk7 & Ho7). rewrite Ep6 in Hk7, Ho7.
  set (p7 := {| (proc_of k5 i) with exit_code := code |}) in *. set (k7 := put_proc i p7 k6) in *.
  assert (Ep7 : proc_of k7 i = p7) by (unfold k7; rewrite proc_of_put by (by eapply inv_len || lia); by rewrite Z.eqb_refl).
  wp1. wp1. destruct (fold_name_ok (pname p) 2166136261 Hn0) as (fold & ->). cbn [wpr]. wp1. wp1. match goal with |- wp _ _ ?t => set (k8 := t) end.
  assert (Hk8 : inv (Some i) k8) by (by apply (inv_same B R (Some i) k7)).
  assert (Ho8 : others (Some i) k k8) by (eapply others_trans; [exact Ho5|]; eapply others_trans; [exact Ho6|]; eapply others_trans; [exact Ho7|by apply others_same]).
  assert (Ep8 : proc_of k8 i = p7) by exact Ep7.
  assert (Hend : forall st, st = FREE \/ st = ZOMBIE -> inv None (put_proc i (with_state st (proc_of k8 i)) k8) /\ others (Some i) k (put_proc i (with_state st (proc_of k8 i)) k8)).
  { intros st Hst. apply end_inv; [done|done|done|by rewrite Ep8|change (fpu_owner k8) with (fpu_owner k5); by rewrite C1|rewrite Ep8; exact C3|done]. }
  wp1. wp1. unfold id. destruct (live_with_pid (procs k8) 0 (parent p) None) as [j|] eqn:Elive.
  - apply live_with_pid_spec in Elive as [|(Hj & Haj)]; [done|]. rewrite (inv_len _ _ Hk8) in Hj. rewrite Z.sub_0_r in Haj. wp1. unfold set_state. apply upd_proc_wp; [by eapply inv_len|done|].
    destruct (Hend ZOMBIE ltac:(by right)) as (Hk9 & Ho9). set (k9 := put_proc i _ k8) in *. wp1. apply proc_at_wp; [by eapply inv_len|lia|]. wp1. wp1.
    + apply andb_true_iff in H as [Hb _]. apply bool_decide_eq_true in Hb.
      eapply (set_state_wp (Some i) None j READY k k9); [done|done|lia|by unfold alive; rewrite Hb|by left|]. intros k10 Hk10 Ho10 _. apply ends_ret. by apply HP.
    + apply ends_ret. by apply HP.
  - wp1; [by eapply halt_wp|]. unfold set_state. wp1. apply upd_proc_wp; [by eapply inv_len|done|]. destruct (Hend FREE ltac:(by left)) as (Hk9 & Ho9). apply ends_ret. by apply HP.
Qed.


Lemma drain_input_keeps who ex : keeps who ex (drain_input B polls).
Proof.
  destruct Hwaits as [Hm|Hp]; [by apply drain_input_loop|]. intros k Q Hk HQ. apply wp_returns; [apply Hp|]. by apply (@drain_input_loop D E BD PF B R partial who ex polls I).
Qed.

Lemma external_interrupt_keeps who ex : keeps who ex (external_interrupt B).
Proof. unfold external_interrupt. repeat first [apply drain_input_keeps|keep1]. Qed.

(** ** Scheduling *)

Lemma wake_from_keeps who ex n i ready now : 0 <= i -> i + Z.of_nat n = 8 -> keeps who ex (wake_from B n i ready now).
Proof.
  revert i ready now. induction n as [|n IH]; intros i ready now Hi Hn; cbn [wake_from]; [keep|]. intros k Q Hk HQ. assert (Ho : others who k k) by apply others_refl.
  wp1. apply proc_at_wp; [by eapply inv_len|lia|]. assert (Hrest : forall r w k1, inv ex k1 -> others who k k1 -> wp (wake_from B n (i + 1) r w) Q k1).
  { intros r w k1 Hk1 Ho1. apply IH; [lia|lia|done|]. intros a k2 Hk2 Ho2. apply HQ; [done|by eapply others_trans]. }
  assert (Hset : forall (b : bool) r w k1, inv ex k1 -> others who k k1 -> alive (proc_of k1 i) = true -> wp (when b (set_state i READY);; wake_from B n (i + 1) r w) Q k1).
  { intros b r w k1 Hk1 Ho1 Ha. wp1. wp1; [|by apply Hrest]. eapply (set_state_wp who ex i READY k k1); [done|done|lia|done|by left|]. intros k2 Hk2 Ho2 _. by apply Hrest. }
  wp1; [|wp1; [|by apply Hrest]].
  - apply bool_decide_eq_true in H. assert (Ha : alive (proc_of k i) = true) by (unfold alive; by rewrite H).
    assert (K : keeps None ex (match ready with Some b => mret b | None => console_ready B end)) by (destruct ready; keep). wp1. apply K; [done|].
    intros b k1 Hk1 Ho1. apply Hset; [done|intros j Hj _; by apply Ho1|]. apply Ho1; [lia|done|done].
  - apply bool_decide_eq_true in H0. assert (Ha : alive (proc_of k i) = true) by (unfold alive; by rewrite H0).
    assert (K : keeps None ex (if now =? 0 then mtime B else mret now)) by keep. wp1. apply K; [done|].
    intros w k1 Hk1 Ho1. apply Hset; [done|intros j Hj _; by apply Ho1|]. apply Ho1; [lia|done|done].
Qed.
Lemma wake_blocked_keeps who ex : keeps who ex (wake_blocked B).
Proof. apply wake_from_keeps; lia. Qed.

(** A step that changes nothing the invariant reads. *)
Definition quiet {A} (c : KM A) : Prop := forall k (Q : A -> kernel D E -> Prop), (forall a k', core k' = core k -> Q a k') -> wp c Q k.
Lemma quiet_env {A} (c : KM A) : env_only c -> quiet c.
Proof. intros H k Q HQ. apply H. intros a e. by apply HQ. Qed.
Lemma quiet_bind {A C} (c : KM A) (g : A -> KM C) : quiet c -> (forall a, quiet (g a)) -> quiet (c ≫= g).
Proof. intros Hc Hg k Q HQ. wp1. apply Hc. intros a k1 E1. apply Hg. intros b k2 E2. apply HQ. congruence. Qed.
Lemma quiet_keeps {A} (c : KM A) who ex : quiet c -> keeps who ex c.
Proof. intros H k Q Hk HQ. apply H. intros a k' Ec. apply HQ; [by apply (inv_same B R ex k)|by apply others_same]. Qed.

Lemma engines_busy_quiet : quiet (engines_busy B).
Proof.
  unfold engines_busy. intros k Q HQ. wp1. wp1. unfold id. wp1; [wp1; by apply HQ|]. wp1. apply quiet_env; [auto with devices nocore|]. intros g1 k1 E1.
  wp1. assert (quiet (if g1 : bool then mret true else engine_busy (D := D) (g3d B) G3D_STATUS G3D_BUSY)) as Hq by (apply quiet_env; envs). apply Hq. intros g k2 E2.
  wp1; [wp1; apply HQ; congruence|]. wp1. wp1. wp1. apply HQ. rewrite <- E1, <- E2. done.
Qed.

Lemma core_procs k k' : core k' = core k -> procs k' = procs k.
Proof. by intros [=]. Qed.

Lemma ready_from_wp n start off busy k (Q : option Z -> kernel D E -> Prop) : length (procs k) = 8%nat ->
  (forall r k', core k' = core k -> from_option (fun i => 0 <= i < 8 /\ state (proc_of k i) = READY) True r -> Q r k') -> wp (ready_from B n start off busy) Q k.
Proof.
  revert off busy k Q. induction n as [|n IH]; intros off busy k Q Hl HQ; cbn [ready_from]; [wp1; by apply HQ|]. cbv zeta. unfold MAX_PROCS. set (i := (start + off) mod 8).
  assert (Hi : 0 <= i < 8) by (unfold i; zlia). wp1. apply proc_at_wp; [done|done|]. wp1; [by apply IH|]. bools. apply bool_decide_eq_true in H. wp1; [wp1; by apply HQ|].
  wp1. assert (Hq : quiet (match busy with Some b => mret b | None => engines_busy B end)) by (destruct busy; [apply quiet_env, env_ret|apply engines_busy_quiet]).
  apply Hq. intros b k1 E1. pose proof (core_procs _ _ E1) as Ep. wp1; [|wp1; by apply HQ]. apply IH; [by rewrite Ep|]. intros r k2 E2 Hr. apply HQ; [congruence|].
  unfold proc_of in *. by rewrite Ep in Hr.
Qed.

(** The process the hart is set up for. *)
Definition resumes (i : Z) k : Prop := 0 <= i < 8 /\ current k = Some i /\ state (proc_of k i) = RUNNING /\ protects B (cpu k) i (proc_of k i).

Lemma protect_inv who ex i c k : inv ex k -> 0 <= i < 8 -> alive (proc_of k i) = true -> protects B c i (proc_of k i) -> fpu c = fpu (cpu k) ->
  let k' := {| k with protected_pid := pid (proc_of k i); cpu := c |} in inv ex k' /\ others who k k'.
Proof.
  intros Hk Hi Ha Hp Hfpu k'. split; [|exact (others_refl who k)]. destruct Hk. destruct k_pids0 as (N1 & N2 & N3 & N4).
  assert (Hs : state (proc_of k i) <> FREE) by (intros Hf0; unfold alive in Ha; by rewrite Hf0 in Ha). constructor; try assumption.
  - intros j Ho. cbn [cpu k']. rewrite Hfpu. by apply k_coherent0.
  - split; [done|]. split; [|by split]. specialize (N3 i Hi Hs). cbn [protected_pid next_pid k']. lia.
  - intros j Hj Haj Ej. destruct (Z.eq_dec j i) as [->|Hne]; [exact Hp|]. exfalso. change (pid (proc_of k i) = pid (proc_of k j)) in Ej.
    apply (N4 i j); [done|done|congruence|done| |done]. intros Hf. change (alive (proc_of k j) = true) in Haj. unfold alive in Haj. by rewrite Hf in Haj.
Qed.

Lemma protect_wp who ex i k (Q : () -> kernel D E -> Prop) : inv ex k -> 0 <= i < 8 -> alive (proc_of k i) = true ->
  (forall k', inv ex k' -> others who k k' -> procs k' = procs k -> current k' = current k -> protects B (cpu k') i (proc_of k' i) -> Q () k') -> wp (protect B i) Q k.
Proof.
  intros Hk Hi Ha HQ. unfold protect. wp1. apply proc_at_wp; [by eapply inv_len|done|]. wp1. wp1. unfold id. wp1.
  - wp1. bools. apply HQ; [done|apply others_refl|done|done|]. apply (k_cpu _ _ _ _ Hk); done.
  - cbv zeta. wp1. wp1. match goal with |- wp _ _ {| procs := procs k; idle_frame := _; current := _; fpu_owner := _; next_pid := _; exits := _; exit_sum := _; palette_writer := _; protected_pid := _;
        faulted := _; keys := _; key_head := _; key_count := _; keys_dropped := _; spaces := _; engines_used := _; reported := _; fs := _; ram := _; cpu := ?x; env := _; stopped := _ |} => set (c := x) end.
    assert (Hp : protects B c i (proc_of k i)) by (unfold protects, c; cbn [pmpaddr pmpcfg0 pmpcfg1 satp]; by splits).
    destruct (protect_inv who ex i c k Hk Hi Ha Hp eq_refl) as (Hk1 & Ho1). set (k1 := {| k with protected_pid := _; cpu := c |}) in *.
    apply wp_env; [envs|]. intros [] e. apply HQ; [by apply (inv_same B R ex k1)|eapply others_trans; [exact Ho1|by apply others_same]|done|done|exact Hp].
Qed.

(** Nobody runs, and [next] is chosen. *)
Lemma choose_inv who ex next k : inv ex k -> (forall i, 0 <= i < 8 -> state (proc_of k i) <> RUNNING) -> from_option (fun i => 0 <= i < 8) True next ->
  let k' := {| k with current := next |} in inv ex k' /\ others who k k'.
Proof.
  intros Hk Hr Hn k'. split; [|exact (others_refl who k)]. destruct Hk. constructor; try assumption. split; [|by intros i Hi Hs; destruct (Hr i Hi)].
  intros i Hi. cbn [k' current] in Hi. by subst next.
Qed.

Lemma run_inv who ex i k : inv ex k -> 0 <= i < 8 -> state (proc_of k i) = READY -> current k = Some i ->
  inv ex (put_proc i (with_state RUNNING (proc_of k i)) k) /\ others who k (put_proc i (with_state RUNNING (proc_of k i)) k).
Proof.
  intros Hk Hi Hs Hc. pose proof (inv_len _ _ Hk) as Hl. assert (Ha : alive (proc_of k i) = true) by (unfold alive; by rewrite Hs).
  assert (Ha' : alive (with_state RUNNING (proc_of k i)) = true) by done. split.
  - eapply (fits_inv B R ex); [done|done|done|]. destruct (inv_fits B R ex i k Hk Hi). constructor; try done.
    + destruct fit_wf0 as (W1 & W2 & W3 & W4 & W5 & W6 & W7). unfold proc_wf. by splits.
    + intros Hx _. by apply fit_settled0.
    + intros _. by apply fit_apart0.
    + intros Hx _. by apply fit_fpu0.
    + intros _. apply fit_pid0. by rewrite Hs.
    + intros j Hj Hne _ Hs'. apply fit_pids0; [done|done|by rewrite Hs|done].
    + intros _. by apply fit_cpu0.
  - apply others_put; [done|done|]. right. intros _. split; [done|]. unfold same_process. by splits.
Qed.

Lemma schedule_wp who k (Q : option Z -> kernel D E -> Prop) : inv None k ->
  (forall next k', inv None k' -> others who k k' -> match next with Some i => resumes i k' | None => current k' = None end -> Q next k') -> wp (schedule B) Q k.
Proof.
  intros Hk HQ. assert (Ho : others who k k) by apply others_refl. pose proof (wake_blocked_keeps who None) as Hwb. unfold schedule. kstep. wp1. wp1. unfold id. rename k' into k1.
  pose proof (k_running _ _ _ _ Hk) as (R1 & R2). pose proof (inv_len _ _ Hk) as Hl.
  assert (Hlast : forall i k2, inv None k2 -> others who k k2 -> 0 <= i < 8 -> current k2 = Some i -> state (proc_of k2 i) = RUNNING ->
    wp (p ← proc_at i; when (drives p) (modify (fun k => {| k with engines_used := true |}));; protect B i;; mret (Some i)) Q k2).
  { intros i k2 Hk2 Ho2 Hi Hc Hs. wp1. apply proc_at_wp; [by eapply inv_len|done|]. wp1.
    assert (Hq : quiet (when (drives (proc_of k2 i)) (modify (fun k => {| k with engines_used := true |})))) by (intros kk Q' HQ'; wp1; [wp1; by apply HQ'|by apply HQ']).
    apply Hq. intros [] k3 E3. assert (Hk3 : inv None k3) by (by apply (inv_same B R None k2)). pose proof (core_procs _ _ E3) as Ep. assert (Epr : proc_of k3 i = proc_of k2 i) by (unfold proc_of; by rewrite Ep).
    wp1. apply (protect_wp who None); [done|done|unfold alive; rewrite Epr, Hs; done|]. intros k4 Hk4 Ho4 Ep4 Ec4 Hp. wp1. apply HQ; [done|eapply others_trans; [exact Ho2|]; eapply others_trans; [|exact Ho4]; by apply others_same|].
    split; [done|]. split; [rewrite Ec4; injection E3 as _ _ Ec _; congruence|]. split; [|done]. unfold proc_of in *. by rewrite Ep4, Epr. }
  assert (Hchoose : (forall i, 0 <= i < 8 -> state (proc_of k1 i) <> RUNNING) ->
    wp (next ← next_ready B (current k1); modify (fun k => {| k with current := next |});; match next with Some i => set_state i RUNNING | None => mret () end;; mret next)
       (fun chosen k2 => wp (match chosen with
          | None => mret None
          | Some i => p ← proc_at i; when (drives p) (modify (fun k => {| k with engines_used := true |}));; protect B i;; mret (Some i)
          end) Q k2) k1).
  { intros Hno. wp1. unfold next_ready. apply ready_from_wp; [done|]. intros next k2 E2 Hnext. pose proof (core_procs _ _ E2) as Ep. assert (Epr : forall j, proc_of k2 j = proc_of k1 j) by (intros j; unfold proc_of; by rewrite Ep).
    assert (Hk2 : inv None k2) by (by apply (inv_same B R None k1)). assert (Ho2 : others who k k2) by (eapply others_trans; [exact Ho|by apply others_same]).
    wp1. wp1. destruct (choose_inv who None next k2 Hk2) as (Hk3 & Ho3); [intros j Hj; by rewrite Epr; apply Hno|by destruct next; [apply Hnext|]|]. set (k3 := {| k2 with current := next |}) in *.
    assert (Ho03 := others_trans _ _ _ _ Ho2 Ho3). destruct next as [i|]; [|wp1; wp1; wp1; wp1; by apply HQ]. destruct Hnext as (Hi & Hs). wp1. unfold set_state. apply upd_proc_wp; [by eapply inv_len|done|].
    destruct (run_inv who None i k3 Hk3 Hi) as (Hk4 & Ho4); [change (proc_of k3 i) with (proc_of k2 i); by rewrite Epr|done|]. wp1. apply Hlast; [done|by eapply others_trans|done|done|].
    change (state (proc_of (put_proc i (with_state RUNNING (proc_of k3 i)) k3) i) = RUNNING). rewrite proc_of_put by (by eapply inv_len || lia). by rewrite Z.eqb_refl. }
  wp1. destruct (current k1) as [i|] eqn:Ec.
  - specialize (R1 i eq_refl). wp1. apply proc_at_wp; [done|done|]. wp1. wp1. wp1.
    + wp1. apply bool_decide_eq_true in H. by apply Hlast.
    + apply bool_decide_eq_false in H. apply Hchoose. intros j Hj Hs. specialize (R2 j Hj Hs). congruence.
  - wp1. wp1. apply Hchoose. intros j Hj Hs. specialize (R2 j Hj Hs). congruence.
Qed.

(** ** System calls *)

Definition call_post (i : Z) k (r : outcome) k' : Prop := inv None k' /\ others (Some i) k k' /\ match r with Result v => is_u32 v | _ => True end.

Lemma result_wp i k v k' : inv None k' -> others (Some i) k k' -> is_u32 v -> wp (result v) (ends (call_post i k)) k'.
Proof. intros. unfold result. apply ends_ret. by split. Qed.
Lemma error_wp i k k' : inv None k' -> others (Some i) k k' -> wp (result SYS_ERROR) (ends (call_post i k)) k'.
Proof. intros. by apply result_wp. Qed.

Lemma inv_files ex i k : inv ex k -> 0 <= i < 8 -> length (files (proc_of k i)) = 4%nat.
Proof. intros Hk Hi. by destruct (proj2 (k_procs _ _ _ _ Hk) i Hi) as (_ & Hl & _). Qed.

(** [o] is the open file that [fd] names. *)
Definition names (p : proc) (fd mode0 : Z) (o : open_file) : Prop :=
  3 <= fd < 7 /\ o = at_ (files p) (fd - 3) /\ mode o <> 0 /\ (mode0 <> 0 -> mode o = mode0).

Lemma open_file_of_wp p fd mode0 (Q : option open_file -> Prop) : length (files p) = 4%nat -> (forall o, names p fd mode0 o -> Q (Some o)) -> Q None -> wpr (open_file_of p fd mode0) Q.
Proof.
  intros Hl HS HN. unfold open_file_of, OS_FIRST_FILE, OPEN_FILES. destruct (_ || _) eqn:E1; [wp1; done|]. apply orb_false_iff in E1 as [E1 E1']. bools. wp1. apply wpr_aget; [lia|]. wp1. destruct ((_ =? 0) || _) eqn:E2; [done|]. apply HS.
  apply orb_false_iff in E2 as [E2 E3]. bools. split; [lia|]. split; [done|]. split; [done|]. intros Hm. apply andb_false_iff in E3 as [E3|E3]; [by apply tst_false in E3|].
  by apply negb_false_iff, Z.eqb_eq in E3.
Qed.

Lemma open_file_ok ex i fd mode0 o k : inv ex k -> 0 <= i < 8 -> names (proc_of k i) fd mode0 o -> file_ok (fs k) (file o) /\ is_u32 (position o).
Proof.
  intros Hk Hi (Hfd & -> & Hm & _). destruct (k_descs _ _ _ _ Hk i (fd - 3) Hi ltac:(lia)) as [H|(_ & H2 & H3 & H4 & H5)]; [done|]. by split.
Qed.

Lemma position_inv ex i a v k : inv ex k -> 0 <= i < 8 -> 0 <= a < 4 -> is_u32 v -> let o := at_ (files (proc_of k i)) a in
  inv ex (put_proc i (put_file a {| o with position := v |} (proc_of k i)) k).
Proof.
  intros Hk Hi Ha Hv o. apply put_file_inv; [done|done|done| | |].
  - intros Hd. destruct (proj2 (k_procs _ _ _ _ Hk) i Hi) as (_ & Hl & _ & _ & _ & _ & Hcl). apply (at_Forall (fun o => mode o = 0)); [by apply Hcl|lia].
  - destruct (k_descs _ _ _ _ Hk i a Hi Ha) as [H|(H1 & H2 & H3 & H4 & H5)]; [by left|right]. by splits; try apply H3.
  - intros j b Hj Hb Hne. apply (k_writer _ _ _ _ Hk i a j b); [done|done|done|done|congruence].
Qed.

Lemma set_file_wp i a o k (Q : () -> kernel D E -> Prop) : length (procs k) = 8%nat -> length (files (proc_of k i)) = 4%nat -> 0 <= i < 8 -> 0 <= a < 4 ->
  Q () (put_proc i (put_file a o (proc_of k i)) k) -> wp (set_file i a o) Q k.
Proof. intros Hl Hlf Hi Ha HQ. unfold set_file. wp1. apply proc_at_wp; [done|done|]. wp1. wp1. apply wpr_aset; [lia|]. by apply set_proc_wp. Qed.


Lemma advance_wp ex i fd n k0 k (Q : () -> kernel D E -> Prop) : inv ex k -> others (Some i) k0 k -> 0 <= i < 8 -> 3 <= fd < 7 ->
  (forall k', inv ex k' -> others (Some i) k0 k' -> Q () k') -> wp (advance i fd n) Q k.
Proof.
  intros Hk Ho Hi Hfd HQ. pose proof (inv_files _ _ _ Hk Hi) as Hlf. pose proof (inv_len _ _ Hk) as Hl. unfold advance, OS_FIRST_FILE. wp1. apply proc_at_wp; [done|done|]. wp1. wp1. apply wpr_aget; [lia|].
  apply set_file_wp; [done|done|done|lia|]. apply HQ; [apply position_inv; [done|done|lia|apply u32_range]|]. eapply others_trans; [exact Ho|]. apply others_put; [done|done|by left].
Qed.

Context (Hplaced : tables_placed B) (HR : (length R <= 6)%nat) (Hdev : devices_placed B) (Hcov : covered B R) (Hdisk : ramdisk_ok B).

Lemma user_ram ex i a n k : inv ex k -> runs ex i k -> user_ok (proc_of k i) (guard (space_of k i)) a n -> RAM_BASE <= a /\ a + n <= SLOTS_END.
Proof. intros Hk Hr (U1 & U2 & _). destruct (runs_place B R ex i k Hk Hr) as ((I1 & I2 & I3 & _) & _). unfold OS_SLOT_BASE, RAM_BASE in *. lia. Qed.

Lemma sys_write_wp i a0 a1 a2 k : inv None k -> runs None i k -> is_u32 a1 -> is_u32 a2 -> wp (sys_write B i a0 a1 a2) (ends (call_post i k)) k.
Proof.
  intros Hk Hr H1 H2. pose proof Hr as (Hi & _). assert (Ho : others (Some i) k k) by apply others_refl. unfold sys_write. wp1. apply proc_at_wp; [by eapply inv_len|done|].
  wp1. eapply (user_range_wp B R None); [done|done|done|done|]. intros [] Hok; [|wp1; wp1; apply open_file_of_wp; [by eapply inv_files|intros o _; by apply error_wp|by apply error_wp]].
  destruct (user_ram None i a1 a2 k Hk Hr (Hok eq_refl)) as (M1 & M2). unfold is_u32 in H2. wp1. wp1. apply open_file_of_wp; [by eapply inv_files|intros o Eo|].
  - destruct (open_file_ok _ _ _ _ _ _ Hk Hi Eo) as (Hf & Hp). destruct Eo as (Hfd & _). wp1. apply get_bytes_wp; [apply Hk|done|lia|lia|]. intros l Ll Ul. wp1.
    eapply (fs_step_wp B R (Some i) None); [done|apply write_fs; [apply Hk|done|done|lia|lia|apply Hp]|]. intros r s _ Hru Hk1 Ho1. wp1. wp1; [|by apply result_wp].
    apply (advance_wp None i a0 r k); [done|done|done|done|]. intros k2 Hk2 Ho2. by apply result_wp.
  - wp1; [|by apply error_wp]. wp1. apply get_bytes_wp; [apply Hk|done|lia|lia|]. intros l _ _. kstep. by apply result_wp.
Qed.

Lemma read_console_wp n i a1 a2 done0 k0 k (Q : Z -> kernel D E -> Prop) : inv None k -> others (Some i) k0 k -> runs None i k -> 0 <= done0 <= a2 -> is_u32 a2 ->
  base (proc_of k i) <= a1 -> a1 + a2 <= base (proc_of k i) + span (proc_of k i) ->
  (forall r k', inv None k' -> others (Some i) k0 k' -> is_u32 r -> Q r k') -> wp (read_console B n a1 a2 done0) Q k.
Proof.
  revert done0 k. induction n as [|n IH]; intros done0 k Hk Ho Hr Hd H2 U1 U2 HQ; cbn [read_console]; [wp1; apply HQ; [done|done|unfold is_u32 in *; lia]|].
  wp1; [|wp1; apply HQ; [done|done|unfold is_u32 in *; lia]]. bools. wp1. apply wp_env; [auto with devices nocore|]. intros ready e. assert (Hk1 : inv None (put_env e k)) by (by apply (inv_same B R None k)).
  assert (Ho1 : others (Some i) k0 (put_env e k)) by (eapply others_trans; [exact Ho|by apply others_same]). wp1; [|wp1; apply HQ; [done|done|unfold is_u32 in *; lia]].
  wp1. apply wp_env; [auto with devices nocore|]. intros c e2. set (k2 := put_env e2 (put_env e k)). assert (Hk2 : inv None k2) by (by apply (inv_same B R None k)).
  assert (Ho2 : others (Some i) k0 k2) by (eapply others_trans; [exact Ho|by apply others_same]). assert (Hr2 : runs None i k2) by exact Hr.
  change (proc_of k i) with (proc_of k2 i) in U1, U2. clearbody k2. clear k e e2 Hk Ho Hr Hk1 Ho1. destruct (runs_place B R None i k2 Hk2 Hr2) as ((I1 & I2 & I3 & _) & _).
  wp1. apply ram_poke_wp; [apply Hk2|unfold OS_SLOT_BASE, RAM_BASE in *; lia|lia|lia|]. intros b Hb _ Hout.
  destruct (own_store B R Hplaced HR None i _ _ b k2 Hk2 Hr2 Hb Hout) as (Hk3 & Ho3); [lia|lia|].
  apply IH; [done|by eapply others_trans|exact Hr2|lia|done|exact U1|exact U2|done].
Qed.

Lemma sys_read_wp i a0 a1 a2 k : inv None k -> runs None i k -> is_u32 a1 -> is_u32 a2 -> wp (sys_read B i a0 a1 a2) (ends (call_post i k)) k.
Proof.
  intros Hk Hr H1 H2. pose proof Hr as (Hi & _ & Ha). assert (Ho : others (Some i) k k) by apply others_refl. unfold sys_read. wp1. apply proc_at_wp; [by eapply inv_len|done|].
  wp1. eapply (user_range_wp B R None); [done|done|done|done|]. intros [] Hok; [|wp1; wp1; apply open_file_of_wp; [by eapply inv_files|intros o _; by apply error_wp|by apply error_wp]].
  destruct (user_ram None i a1 a2 k Hk Hr (Hok eq_refl)) as (M1 & M2). destruct (Hok eq_refl) as (U1 & U2 & _). pose proof H2 as H2'. unfold is_u32 in H2'. wp1. wp1. apply open_file_of_wp; [by eapply inv_files|intros o Eo|].
  - destruct (open_file_ok _ _ _ _ _ _ Hk Hi Eo) as (Hf & Hp). destruct Eo as (Hfd & _). wp1. apply get_bytes_wp; [apply Hk|done|lia|lia|]. intros to Lt Ut. wp1.
    eapply (fs_step_wp B R (Some i) None); [done|apply read_fs; [apply Hk|done|lia|lia|apply Hp]|]. intros [r l] s _ (Ll & Hru & _) Hk1 Ho1. cbn [fst snd] in *. wp1.
    eapply (own_put_wp B R Hplaced HR None i); [done|exact Hr|exact U1|change (proc_of (put_fs s k) i) with (proc_of k i); lia|]. intros b Hk2 Ho2. assert (Ho02 := others_trans _ _ _ _ Ho1 Ho2).
    wp1. wp1; [|by apply result_wp]. apply (advance_wp None i a0 r k); [done|done|done|done|]. intros k3 Hk3 Ho3. by apply result_wp.
  - wp1; [|by apply error_wp]. wp1. apply wp_env; [auto with devices nocore|]. intros ready e. assert (Hk1 : inv None (put_env e k)) by (by apply (inv_same B R None k)).
    assert (Ho1 : others (Some i) k (put_env e k)) by (by apply others_same). wp1.
    + wp1. eapply (set_state_wp (Some i) None i BLOCKED_READ k); [exact Hk1|done|done|exact Ha|by right; left|]. intros k2 Hk2 Ho2 _. apply ends_ret. by split.
    + wp1. eapply (read_console_wp _ i a1 a2 0 k); [exact Hk1|done|exact Hr|lia|done|exact U1|exact U2|]. intros r k2 Hk2 Ho2 Hru. by apply result_wp.
Qed.

Lemma sys_event_wp i k : inv None k -> wp (sys_event (D := D) (E := E)) (ends (call_post i k)) k.
Proof.
  intros Hk. destruct (k_keys _ _ _ _ Hk) as (K1 & K2 & K3 & K4). unfold sys_event. wp1. wp1. unfold id. wp1; [|apply result_wp; [done|apply others_refl|done]]. apply tst_true in H.
  wp1. wp1. apply wpr_aget; [lia|]. wp1. wp1. match goal with |- wp _ _ ?t => set (k1 := t) end.
  assert (Hk1 : inv None k1). { destruct Hk. constructor; try assumption. cbn [k1 keys key_head key_count]. unfold KEY_BUFFER. split; [done|]. split; [done|]. split; [zlia|lia]. }
  apply result_wp; [done|exact (others_refl (Some i) k)|]. apply (at_Forall is_u32); [done|lia].
Qed.

Lemma sys_present_wp i k : inv None k -> wp (sys_present B) (ends (call_post i k)) k.
Proof.
  intros Hk. assert (Ho : others (Some i) k k) by apply others_refl. unfold sys_present. wp1; [|by apply error_wp]. pose proof (quiet_keeps (engines_busy B) (Some i) None engines_busy_quiet) as Hq.
  kstep. wp1; [apply ends_ret; by split|]. kstep. wp1. unfold mmio_read32, wp. destruct (read32 _ _) as [v e]. apply result_wp; [by apply (inv_same B R None k'0)|eapply others_trans; [exact Ho|by apply others_same]|apply u32_range].
Qed.

(** The break moves up to the guard page. *)
Lemma brk_inv ex i v k : inv ex k -> 0 <= i < 8 -> base (proc_of k i) <= v <= guard (space_of k i) ->
  inv ex (put_proc i {| (proc_of k i) with brk := v |} k) /\ others (Some i) k (put_proc i {| (proc_of k i) with brk := v |} k).
Proof.
  intros Hk Hi Hv. pose proof (inv_len _ _ Hk) as Hl. split; [|apply others_put; [done|done|by left]].
  eapply (fits_inv B R ex); [done|done|done|]. destruct (inv_fits B R ex i k Hk Hi). constructor; try done.
  intros Hx Ha. destruct (fit_settled0 Hx Ha) as (S1 & S2 & S3 & S4 & S5). unfold settled. splits; try done; apply Hv.
Qed.

Lemma sys_sbrk_wp i a0 k : inv None k -> runs None i k -> is_u32 a0 -> wp (sys_sbrk i a0) (ends (call_post i k)) k.
Proof.
  intros Hk Hr Ha0. destruct (runs_place B R None i k Hk Hr) as ((I1 & I2 & I3 & _) & G1 & _ & G3). pose proof Hr as (Hi & Hx & Ha). destruct (k_settled _ _ _ _ Hk i Hi Hx Ha) as (_ & _ & _ & _ & Hb).
  unfold sys_sbrk, guard_of. wp1. apply proc_at_wp; [by eapply inv_len|done|]. wp1. wp1. apply space_at_wp; [by eapply inv_spaces|done|]. wp1. unfold OS_SLOT_BASE, SLOTS_END, is_u32 in *.
  rewrite u32_id by (unfold is_u32; lia). wp1; [|apply error_wp; [done|apply others_refl]]. bools. wp1. apply set_proc_wp; [by eapply inv_len|done|]. rewrite u32_id by (unfold is_u32; lia).
  destruct (brk_inv None i (brk (proc_of k i) + a0) k Hk Hi) as (Hk1 & Ho1); [lia|]. apply result_wp; [done|done|unfold is_u32; lia].
Qed.

Lemma pid_u32 ex i k : inv ex k -> 0 <= i < 8 -> state (proc_of k i) <> FREE -> is_u32 (pid (proc_of k i)).
Proof. intros Hk Hi Hs. destruct (k_pids _ _ _ _ Hk) as (N1 & _ & N3 & _). specialize (N3 i Hi Hs). unfold is_u32. lia. Qed.

Lemma sys_spawn_wp i a0 a1 k : inv None k -> runs None i k -> is_u32 a0 -> is_u32 a1 -> next_pid k < 0xffffffff -> wp (sys_spawn B i a0 a1) (ends (call_post i k)) k.
Proof.
  intros Hk Hr H0 H1 Hn. pose proof Hr as (Hi & _). unfold sys_spawn. wp1. apply proc_at_wp; [by eapply inv_len|done|]. wp1.
  eapply (user_string_wp B R None); [done|done|done|lia|]. intros [name|] Hname; [|apply error_wp; [done|apply others_refl]]. destruct Hname as (N1 & N2 & _). wp1.
  eapply (user_string_wp B R None); [done|done|done|done|]. intros [args|] Hargs; [|apply error_wp; [done|apply others_refl]]. destruct Hargs as (A1 & _ & _). apply ends_bind.
  apply (spawn_wp B R Hwaits Hplaced HR Hdev Hcov (Some i)); [done|done|done|done|done|done| |].
  - intros k' Hk' Ho'. by apply error_wp.
  - intros j k' Hk' Ho' Hj Hs. wp1. apply proc_at_wp; [by eapply inv_len|done|]. apply result_wp; [done|done|]. by eapply pid_u32; [|done|rewrite Hs].
Qed.

Lemma wait_from_wp n j n0 self r0 who k0 k (Q : option Z -> kernel D E -> Prop) : inv None k -> others who k0 k -> 0 <= j -> j + Z.of_nat n = 8 -> is_u32 r0 ->
  (forall r k', inv None k' -> others who k0 k' -> (forall i, 0 <= i < 8 -> alive (proc_of k i) = true -> alive (proc_of k' i) = true) -> from_option is_u32 True r -> Q r k') ->
  wp (wait_from n j n0 self r0) Q k.
Proof.
  revert j r0 k. induction n as [|n IH]; intros j r0 k Hk Ho Hj Hn Hr HQ; cbn [wait_from]; [wp1; by apply HQ|]. assert (Hj8 : 0 <= j < 8) by lia.
  wp1. apply proc_at_wp; [by eapply inv_len|done|]. wp1; [apply IH; [done|done|lia|lia|done|done]|]. apply orb_false_iff in H as [H _]. apply orb_false_iff in H as [H _]. apply bool_decide_eq_false in H.
  wp1; [|wp1; by apply HQ]. apply bool_decide_eq_true in H0. destruct (proj2 (k_procs _ _ _ _ Hk) j Hj8) as (W1 & W2 & W3 & W4 & W5 & W6 & W7).
  assert (Hd : alive (proc_of k j) = false) by (unfold alive; by rewrite H0). wp1. unfold set_state. apply upd_proc_wp; [by eapply inv_len|done|].
  assert (Hk1 : inv None (put_proc j (with_state FREE (proc_of k j)) k)).
  { apply (dead_inv B R None); [done|done|by left| |done| |done]; [unfold proc_wf; splits; try done; intros _; by apply W7|]. intros Hf. destruct (k_fpu _ _ _ _ Hk) as (_ & F2). destruct (F2 j Hf). congruence. }
  apply IH; [exact Hk1| |lia|lia|done|].
  - eapply others_trans; [exact Ho|]. apply others_put; [by eapply inv_len|done|]. right. congruence.
  - intros r k' Hk' Ho' Hal Hru. apply HQ; [done|done| |done]. intros i Hi Ha. apply Hal; [done|]. change (alive (proc_of (put_proc j (with_state FREE (proc_of k j)) k) i) = true).
    rewrite proc_of_put by (by eapply inv_len || lia). destruct (Z.eqb_spec j i) as [->|]; [congruence|done].
Qed.

Lemma sys_wait_wp i a0 k : inv None k -> runs None i k -> is_u32 a0 -> wp (sys_wait i a0) (ends (call_post i k)) k.
Proof.
  intros Hk Hr H0. pose proof Hr as (Hi & _ & Ha). unfold sys_wait. wp1. apply proc_at_wp; [by eapply inv_len|done|]. wp1.
  eapply (wait_from_wp 8 0 a0 _ SYS_ERROR (Some i) k); [done|apply others_refl|lia|lia|done|]. intros [v|] k1 Hk1 Ho1 Hal Hv; [by apply result_wp|].
  specialize (Hal i Hi Ha). wp1. apply upd_proc_wp; [by eapply inv_len|done|]. pose proof (proj2 (k_procs _ _ _ _ Hk1) i Hi) as Hwf. pose proof Hwf as (_ & _ & _ & _ & W5 & W6 & _). apply ends_ret. split.
  - apply like_inv; [done|done|]. apply like_refl_but; try done. by right; right; left.
  - split; [|done]. eapply others_trans; [exact Ho1|]. apply others_put; [by eapply inv_len|done|by left].
Qed.

Lemma string_length_ok l : In 0 l -> exists n, string_length l = Ok n /\ 0 <= n < Z.of_nat (length l).
Proof.
  induction l as [|c l IH]; intros H; [done|]. cbn [string_length]. destruct (Z.eqb_spec c 0); [exists 0; split; [done|cbn; lia]|]. destruct IH as (n0 & -> & Hn0); [by destruct H|].
  exists (n0 + 1). split; [done|]. cbn [length]. lia.
Qed.

Lemma sys_list_wp i a0 a1 a2 k : inv None k -> runs None i k -> is_u32 a0 -> is_u32 a1 -> is_u32 a2 -> wp (sys_list B i a0 a1 a2) (ends (call_post i k)) k.
Proof.
  intros Hk Hr H0 H1 H2. assert (Ho : others (Some i) k k) by apply others_refl. unfold sys_list. apply ends_bind. rewrite programs_ok by done. apply ends_ret. wp1.
  eapply (user_range_wp B R None); [done|done|done|done|]. intros ok Hok. wp1; [|by apply error_wp]. apply andb_true_iff in H as [Hc ->]. bools. destruct (Hok eq_refl) as (U1 & U2 & _).
  destruct Hdisk as (_ & _ & _ & _ & _ & _ & Hp). destruct (Hp a0) as (e & Ee & He); [unfold is_u32 in H0; lia|]. wp1. wp1. rewrite Ee. cbn [wpr]. wp1. wp1.
  destruct (prog_name _ _ He) as (Hl & Hz). destruct (string_length_ok (p_name e) Hz) as (n & -> & Hn). cbn [wpr]. wp1; [|by apply error_wp]. bools. wp1.
  eapply (own_put_wp B R Hplaced HR None i); [done|done|lia|rewrite length_take; lia|]. intros b Hk1 Ho1. apply result_wp; [done|done|unfold is_u32; lia].
Qed.

Lemma sys_sleep_wp i a0 k : inv None k -> runs None i k -> wp (sys_sleep B i a0) (ends (call_post i k)) k.
Proof.
  intros Hk (Hi & _ & Ha). unfold sys_sleep. wp1. apply wp_env; [auto with devices nocore|]. intros now e. set (k1 := put_env e k). assert (Hk1 : inv None k1) by (by apply (inv_same B R None k)).
  wp1. apply upd_proc_wp; [by eapply inv_len|done|]. pose proof (proj2 (k_procs _ _ _ _ Hk1) i Hi) as Hwf. pose proof Hwf as (_ & _ & _ & _ & W5 & W6 & _). apply result_wp; [|exact (others_put (Some i) i _ k1 (inv_len _ _ Hk1) Hi (or_introl eq_refl))|done].
  apply like_inv; [done|done|]. apply like_refl_but; try done. by right; right; right.
Qed.

(** Words of the process's memory. *)
Lemma peek_words_wp n a k (Q : list Z -> kernel D E -> Prop) : ram_ok (ram k) -> RAM_BASE <= a -> a + 4 * Z.of_nat n <= SLOTS_END -> (forall l, Q l k) -> wp (peek_words n a) Q k.
Proof.
  revert a Q. induction n as [|n IH]; intros a Q Hr H1 H2 HQ; cbn [peek_words]; [wp1; apply HQ|]. wp1. apply ram_peek_wp; [done|lia|lia|lia|]. wp1. apply IH; [done|lia|lia|]. intros l. wp1. apply HQ.
Qed.

Lemma poke_words_wp i l a k0 k (Q : () -> kernel D E -> Prop) : inv None k -> others (Some i) k0 k -> runs None i k -> base (proc_of k i) <= a ->
  a + 4 * Z.of_nat (length l) <= base (proc_of k i) + span (proc_of k i) -> (forall k', inv None k' -> others (Some i) k0 k' -> Q () k') -> wp (poke_words l a) Q k.
Proof.
  revert a k. induction l as [|v l IH]; intros a k Hk Ho Hr H1 H2 HQ; cbn [poke_words length] in *; [wp1; by apply HQ|]. destruct (runs_place B R None i k Hk Hr) as ((I1 & I2 & I3 & _) & _).
  wp1. apply ram_poke_wp; [apply Hk|unfold OS_SLOT_BASE, RAM_BASE in *; lia|lia|lia|]. intros b Hb _ Hout. destruct (own_store B R Hplaced HR None i _ _ b k Hk Hr Hb Hout) as (Hk1 & Ho1); [lia|lia|].
  apply IH; [done|by eapply others_trans|exact Hr|change (proc_of (put_ram b k) i) with (proc_of k i); lia|change (proc_of (put_ram b k) i) with (proc_of k i); lia|done].
Qed.

Lemma read_colours_wp n a k (Q : list Z -> kernel D E -> Prop) : (forall l e, length l = n -> Q l (put_env e k)) -> wp (read_colours n a) Q k.
Proof.
  revert a k Q. induction n as [|n IH]; intros a k Q HQ; cbn [read_colours]; [wp1; rewrite <- (put_env_id k); by apply HQ|]. wp1. apply wp_env; [auto with devices nocore|]. intros v e.
  wp1. apply IH. intros l e' Hl. wp1. apply (HQ (v :: l) e'). cbn [length]. lia.
Qed.

Lemma sys_palette_wp i a0 a1 k : inv None k -> runs None i k -> is_u32 a0 -> wp (sys_palette B i a0 a1) (ends (call_post i k)) k.
Proof.
  intros Hk Hr H0. pose proof Hr as (Hi & _). assert (Ho : others (Some i) k k) by apply others_refl. unfold sys_palette. wp1. change (4 * OS_PALETTE_ENTRIES) with 1024.
  eapply (user_range_wp B R None); [done|done|done|done|]. intros ok Hok. wp1; [|by apply error_wp]. apply andb_true_iff in H as [_ ->]. destruct (user_ram None i a0 1024 k Hk Hr (Hok eq_refl)) as (M1 & M2).
  destruct (Hok eq_refl) as (U1 & U2 & _). wp1; [|wp1; [|by apply error_wp]].
  - wp1. apply read_colours_wp. intros l e Hl. wp1. eapply (poke_words_wp i l a0 k); [by apply (inv_same B R None k)|by apply others_same|exact Hr|exact U1|rewrite Hl; exact U2|]. intros k2 Hk2 Ho2. by apply result_wp.
  - wp1. apply peek_words_wp; [apply Hk|lia|lia|]. intros l. kstep. wp1. apply proc_at_wp; [by eapply inv_len|done|]. wp1. wp1.
    apply result_wp; [by apply (inv_same B R None k')|eapply others_trans; [exact Ho|by apply others_same]|done].
Qed.

Lemma chars_ok l : In 0 l -> exists r, chars l = Ok r.
Proof.
  induction l as [|c l IH]; intros H; [done|]. cbn [chars]. destruct (Z.eqb_spec c 0); [by eexists|]. destruct IH as (r & ->); [by destruct H|]. by eexists.
Qed.
Lemma append_while_length room line l : Z.of_nat (length line) <= room -> Z.of_nat (length (append_while room line l)) <= room.
Proof.
  revert line. induction l as [|c l IH]; intros line H; cbn [append_while]; [done|]. destruct (Z.ltb_spec (Z.of_nat (length line)) room); [|done]. apply IH. rewrite length_app. cbn [length]. lia.
Qed.

Lemma sys_ps_wp i a0 a1 a2 k : inv None k -> runs None i k -> is_u32 a0 -> is_u32 a1 -> is_u32 a2 -> wp (sys_ps i a0 a1 a2) (ends (call_post i k)) k.
Proof.
  intros Hk Hr H0 H1 H2. assert (Ho : others (Some i) k k) by apply others_refl. unfold sys_ps, MAX_PROCS. wp1; [by apply error_wp|]. bools. assert (Ha0 : 0 <= a0 < 8) by (unfold is_u32 in H0; lia).
  wp1. apply proc_at_wp; [by eapply inv_len|done|]. wp1. eapply (user_range_wp B R None); [done|done|done|done|]. intros ok Hok. wp1; [|by apply error_wp].
  apply andb_true_iff in H3 as [H3 H48]. apply andb_true_iff in H3 as [_ ->]. bools. destruct (Hok eq_refl) as (U1 & U2 & _).
  destruct (proj2 (k_procs _ _ _ _ Hk) a0 Ha0) as (_ & _ & _ & W4 & _). destruct (chars_ok _ W4) as (name & Ec). wp1. wp1. rewrite Ec. cbn [wpr].
  set (line1 := append_while 36 (append_while 36 (append_while 36 [] name) [32]) _).
  assert (L1 : Z.of_nat (length line1) <= 36) by (repeat apply append_while_length; cbn; lia).
  set (line := append_while 47 (line1 ++ [32]) _). assert (L2 : Z.of_nat (length line) <= 47) by (apply append_while_length; rewrite length_app; cbn [length]; lia).
  wp1. eapply (own_put_wp B R Hplaced HR None i); [done|done|lia|rewrite length_app; cbn [length]; lia|]. intros b Hk1 Ho1. apply result_wp; [done|done|unfold is_u32; lia].
Qed.

Lemma seek_file_wp i fd offset0 whence o k : inv None k -> 0 <= i < 8 -> names (proc_of k i) fd 0 o -> wp (seek_file i fd offset0 whence o) (ends (call_post i k)) k.
Proof.
  intros Hk Hi Eo. destruct (open_file_ok _ _ _ _ _ _ Hk Hi Eo) as (Hf & Hp). destruct Eo as (Hfd & Eo & _). unfold seek_file. wp1.
  eapply (fs_step_wp B R (Some i) None); [done|apply size_fs; [apply Hk|done]|]. intros size0 s _ (Hsz & Es) Hk1 Ho1.
  match goal with |- wp (match ?x with _ => _ end) _ _ => destruct x as [from|] end; [|by apply error_wp]. wp1; [by apply error_wp|]. wp1. unfold OS_FIRST_FILE.
  pose proof (inv_files _ _ _ Hk1 Hi) as Hlf. pose proof (inv_len _ _ Hk1) as Hl. apply set_file_wp; [done|done|done|lia|].
  apply result_wp; [| |apply u32_range].
  - rewrite Eo. change (proc_of k i) with (proc_of (put_fs s k) i). apply position_inv; [done|done|lia|apply u32_range].
  - eapply others_trans; [exact Ho1|]. apply others_put; [done|done|by left].
Qed.
Lemma sys_seek_wp i a0 a1 a2 k : inv None k -> 0 <= i < 8 -> wp (sys_seek i a0 a1 a2) (ends (call_post i k)) k.
Proof.
  intros Hk Hi. unfold sys_seek. wp1. apply proc_at_wp; [by eapply inv_len|done|]. wp1. wp1. apply open_file_of_wp; [by eapply inv_files|intros o Eo; by apply seek_file_wp|apply error_wp; [done|apply others_refl]].
Qed.

Lemma close_one_wp i a k (Q : bool -> kernel D E -> Prop) : inv None k -> 0 <= i < 8 -> 0 <= a < 4 -> (forall r k', inv None k' -> others (Some i) k k' -> Q r k') -> wp (close_file i a) Q k.
Proof.
  intros Hk Hi Ha HQ. pose proof (inv_files _ _ _ Hk Hi) as Hlf. pose proof (inv_len _ _ Hk) as Hl. unfold close_file. wp1. apply proc_at_wp; [done|done|]. wp1. wp1. apply wpr_aget; [lia|].
  wp1. apply set_file_wp; [done|done|done|done|]. set (o := at_ (files (proc_of k i)) a). set (o' := {| o with mode := 0 |}).
  assert (Hk1 : inv None (put_proc i (put_file a o' (proc_of k i)) k)) by (apply put_file_inv; [done|done|done|done|by left|by intros j b _ _ _ []]).
  assert (Ho1 : others (Some i) k (put_proc i (put_file a o' (proc_of k i)) k)) by (apply others_put; [done|done|by left]).
  wp1; [|wp1; by apply HQ]. kstep. wp1. by apply HQ.
Qed.
Lemma sys_close_wp i a0 k : inv None k -> 0 <= i < 8 -> wp (sys_close i a0) (ends (call_post i k)) k.
Proof.
  intros Hk Hi. unfold sys_close. wp1. apply proc_at_wp; [by eapply inv_len|done|]. wp1. wp1. apply open_file_of_wp; [by eapply inv_files|intros o Eo|apply error_wp; [done|apply others_refl]].
  destruct Eo as (Hfd & _). wp1. unfold OS_FIRST_FILE. apply close_one_wp; [done|done|lia|]. intros r k' Hk' Ho'. apply result_wp; [done|done|by destruct r].
Qed.

Lemma may_open_spec ps file0 mode0 j a : may_open ps file0 mode0 = true -> 0 <= j < Z.of_nat (length ps) -> state (at_ ps j) <> FREE ->
  0 <= a < Z.of_nat (length (files (at_ ps j))) -> conflicts file0 mode0 (at_ (files (at_ ps j)) a) = false.
Proof.
  intros H Hj Hs Ha. apply negb_true_iff in H. destruct (conflicts _ _ _) eqn:Ec; [|done]. exfalso. apply not_true_iff_false in H. apply H.
  apply existsb_exists. exists (at_ ps j). split; [apply list_elem_of_In; unfold at_; apply list_elem_of_lookup_total_2; lia|]. rewrite bool_decide_eq_false_2 by done. cbn [negb andb].
  apply existsb_exists. exists (at_ (files (at_ ps j)) a). split; [apply list_elem_of_In; unfold at_; apply list_elem_of_lookup_total_2; unfold at_ in Ha; lia|done].
Qed.

(** A descriptor [may_open] allows goes with every other. *)
Lemma may_open_compatible ex file0 mode0 pos k : inv ex k -> mode0 = O_READ \/ mode0 = O_WRITE -> may_open (procs k) file0 mode0 = true ->
  forall j b, 0 <= j < 8 -> 0 <= b < 4 -> compatible {| mode := mode0; file := file0; position := pos |} (at_ (files (proc_of k j)) b).
Proof.
  intros Hk Hm Hmay j b Hj Hb _ Hmode Hfile. cbn [mode file] in *. pose proof (inv_len _ _ Hk) as Hl. pose proof (inv_files _ _ _ Hk Hj) as Hlf.
  destruct (k_descs _ _ _ _ Hk j b Hj Hb) as [|(Hrw & _)]; [done|]. assert (Hs : state (proc_of k j) <> FREE).
  { intros Hf. destruct (proj2 (k_procs _ _ _ _ Hk) j Hj) as (_ & _ & _ & _ & _ & _ & Hcl). apply Hmode. apply (at_Forall (fun o => mode o = 0)); [|lia]. apply Hcl. unfold alive. by rewrite Hf. }
  pose proof (may_open_spec _ _ _ j b Hmay ltac:(lia) Hs ltac:(unfold proc_of in Hlf; lia)) as Hc. change (at_ (procs k) j) with (proc_of k j) in Hc. unfold conflicts in Hc.
  rewrite (proj2 (tst_true _) Hmode), <- Hfile, Z.eqb_refl in Hc. cbn [andb] in Hc. apply orb_false_iff in Hc as [C1 C2]. bools. destruct Hm as [->| ->]; [|done]. split; [done|]. destruct Hrw; done.
Qed.

Lemma free_file_spec l j a : free_file l j = Some a -> j <= a < j + Z.of_nat (length l).
Proof.
  revert j. induction l as [|o l IH]; intros j H; cbn [free_file length] in *; [done|]. destruct (mode o =? 0); [injection H as <-; lia|]. apply IH in H. lia.
Qed.

Lemma sys_open_wp i a0 a1 k : inv None k -> runs None i k -> is_u32 a0 -> wp (sys_open i a0 a1) (ends (call_post i k)) k.
Proof.
  intros Hk Hr H0. pose proof Hr as (Hi & _ & Ha). assert (Ho : others (Some i) k k) by apply others_refl. unfold sys_open. set (mode0 := a1 .& _). wp1; [by apply error_wp|].
  apply negb_false_iff, andb_true_iff in H as [Hm _]. assert (Hmode : mode0 = O_READ \/ mode0 = O_WRITE) by (apply orb_true_iff in Hm as [Hm|Hm]; apply Z.eqb_eq in Hm; [by left|by right]).
  wp1. eapply (user_string_wp B R None); [done|done|done|done|]. intros [name|] Hname; [|by apply error_wp]. destruct Hname as (N1 & N2 & _). wp1. apply proc_at_wp; [by eapply inv_len|done|].
  destruct (free_file (files (proc_of k i)) 0) as [a|] eqn:Ef; [|by apply error_wp]. apply free_file_spec in Ef. rewrite (inv_files _ _ _ Hk Hi) in Ef. wp1.
  eapply (fs_step_wp B R (Some i) None); [done|apply open_fs; [apply Hk|done|done]|]. intros file0 s K Hop Hk1 Ho1. wp1. wp1. unfold id. set (k1 := put_fs s k) in *.
  wp1; [|by apply error_wp]. apply andb_true_iff in H as [Hf Hmay]. apply Z.leb_le in Hf. destruct Hop as [|Hfile]; [lia|]. pose proof (inv_files _ _ _ Hk1 Hi) as Hlf. pose proof (inv_len _ _ Hk1) as Hl.
  wp1. apply set_file_wp; [done|done|done|lia|]. set (o := {| mode := mode0; file := file0; position := 0 |}). set (k2 := put_proc i (put_file a o (proc_of k1 i)) k1).
  assert (Hk2 : inv None k2).
  { apply put_file_inv; [done|done|lia|intros Hd; change (alive (proc_of k i) = false) in Hd; congruence| |].
    - right. destruct Hfile as (F1 & F2 & F3). split; [done|]. split; [done|]. split; [done|]. by split.
    - intros j b Hj Hb _. by apply (may_open_compatible None). }
  assert (Ho2 : others (Some i) k k2) by (eapply others_trans; [exact Ho1|]; apply others_put; [done|done|by left]).
  wp1. wp1; [|apply result_wp; [done|done|unfold OS_FIRST_FILE, is_u32; lia]].
  eapply (fs_step_wp B R (Some i) None); [done|apply truncate_fs; [apply Hk2|exact Hfile]|]. intros [] s' _ _ Hk3 Ho3. apply result_wp; [done|by eapply others_trans|unfold OS_FIRST_FILE, is_u32; lia].
Qed.

Lemma name_scan_wp n i0 index (s : fs_state D) :
  FsSpecs.fs_ready s -> length (corrupt s) = 16%nat -> 0 <= i0 -> i0 + Z.of_nat n <= 16 ->
  wpr (name_scan n i0 index s) (fun o => match o with Some (_, size0) => is_u32 size0 | None => True end).
Proof.
  intros (L & He & _) Lc. revert i0 index. induction n as [|n IH]; intros i0 index H1 H2; cbn [name_scan]; wps; [done|].
  apply wpr_aget; [lia|]. wps. apply wpr_aget; [lia|]. wps; [|apply IH; lia..].
  apply (at_Forall FsSpecs.entry_ok) with (i := i0) in He; [|lia]. apply He.
Qed.

Lemma name_chars_length n l : (length (name_chars n l) <= n)%nat.
Proof. revert l. induction n as [|n IH]; intros [|c l]; cbn [name_chars length]; try lia. destruct (c =? 0); cbn [length]; [lia|]. specialize (IH l). lia. Qed.

Lemma sys_files_wp i a0 a1 a2 k : inv None k -> runs None i k -> is_u32 a1 -> is_u32 a2 -> wp (sys_files i a0 a1 a2) (ends (call_post i k)) k.
Proof.
  intros Hk Hr H1 H2. assert (Ho : others (Some i) k k) by apply others_refl. unfold sys_files. wp1. wp1. unfold id. wp1. eapply (user_range_wp B R None); [done|done|done|done|]. intros ok Hok.
  assert (Hname : wpr (fs_name a0 (fs k)) (fun o => match o with Some (_, size0) => is_u32 size0 | None => True end)).
  { pose proof (k_fs _ _ _ _ Hk) as Hfs. unfold fs_name. wps; [|done]. apply name_scan_wp; [exact (proj1 Hfs)|destruct Hfs as ((L0 & _) & Hm0); destruct (Hm0 ltac:(assumption)) as (_ & _ & ->); by rewrite length_map|lia|lia]. }
  wp1. wp1. eapply wpr_mono; [exact Hname|]. intros [[name size0]|] Hsz; [|by apply error_wp]. destruct ok; [|by apply error_wp]. destruct (Hok eq_refl) as (U1 & U2 & _).
  wp1; [|by apply error_wp]. bools.
  wp1. eapply (own_put_wp B R Hplaced HR None i); [done|done|lia|rewrite length_app; cbn [length]; lia|]. intros b Hk1 Ho1. by apply result_wp.
Qed.

Lemma syscall_of_wp i n a0 a1 a2 k : inv None k -> runs None i k -> is_u32 a0 -> is_u32 a1 -> is_u32 a2 -> next_pid k < 0xffffffff -> wp (syscall_of B i n a0 a1 a2) (ends (call_post i k)) k.
Proof.
  intros Hk Hr H0 H1 H2 Hn. pose proof Hr as (Hi & _ & Ha). assert (Ho : others (Some i) k k) by apply others_refl.
  assert (Hs : state (proc_of k i) <> FREE) by (intros Hf; unfold alive in Ha; by rewrite Hf in Ha). unfold syscall_of.
  wp1. { apply ends_bind. apply (finish_wp i a0 k); [done|done|done|done|]. intros k1 Hk1 Ho1. apply ends_ret. by split. }
  wp1; [by apply sys_write_wp|]. wp1; [by apply sys_read_wp|]. wp1; [by apply sys_event_wp|].
  wp1. { wp1; [|by apply result_wp]. wp1. unfold mmio_read32, wp. destruct (read32 _ _) as [v e]. apply result_wp; [by apply (inv_same B R None k)|by apply others_same|apply u32_range]. }
  wp1; [by apply sys_present_wp|]. wp1; [by apply sys_sbrk_wp|]. wp1; [by apply sys_spawn_wp|]. wp1; [by apply sys_wait_wp|]. wp1; [by apply sys_list_wp|].
  wp1. { wp1. eapply (set_state_wp (Some i) None i READY k k); [done|done|done|done|by left|]. intros k1 Hk1 Ho1 _. by apply result_wp. }
  wp1; [by apply sys_sleep_wp|]. wp1; [by eapply halt_wp|].
  wp1. { kstep. apply result_wp; [done|done|apply u32_range]. }
  wp1. { wp1. apply proc_at_wp; [by eapply inv_len|done|]. apply result_wp; [done|done|]. by eapply pid_u32. }
  wp1. { apply result_wp; [done|done|]. destruct Hdev as (D1 & D2 & D3 & _). unfold is_u32, RAM_BASE in *. lia. }
  wp1; [by apply sys_open_wp|]. wp1; [by apply sys_close_wp|]. wp1; [by apply sys_files_wp|]. wp1; [by apply sys_ps_wp|].
  wp1. { wp1. apply proc_at_wp; [by eapply inv_len|done|]. apply result_wp; [done|done|]. by destruct (proj2 (k_procs _ _ _ _ Hk) i Hi) as (_ & _ & _ & _ & _ & W6 & _). }
  wp1; [by apply sys_seek_wp|]. wp1; [by apply sys_palette_wp|]. by apply error_wp.
Qed.

Lemma frame_reg_u32 ex i j k : inv ex k -> 0 <= i < 8 -> 0 <= j < 32 -> is_u32 (at_ (x (f (proc_of k i))) j).
Proof. intros Hk Hi Hj. destruct (proj2 (k_procs _ _ _ _ Hk) i Hi) as ((L & U & _) & _). apply (at_Forall is_u32); [done|lia]. Qed.

Lemma syscall_wp i k : inv None k -> runs None i k -> next_pid k < 0xffffffff -> wp (syscall B i) (ends (fun _ k' => inv None k' /\ others (Some i) k k')) k.
Proof.
  intros Hk Hr Hn. pose proof Hr as (Hi & _). unfold syscall. wp1. apply proc_at_wp; [by eapply inv_len|done|]. cbv zeta. apply ends_bind.
  eapply ends_mono; [apply syscall_of_wp; [done|done|by eapply frame_reg_u32; [|done|lia]..|done]|]. intros r k1 (Hk1 & Ho1 & Hv). destruct r as [v| |]; [|by apply ends_ret..].
  wp1. apply upd_proc_wp; [by eapply inv_len|done|]. destruct (proj2 (k_procs _ _ _ _ Hk1) i Hi) as ((L & U & P) & _).
  destruct (frame_inv None i {| (f (proc_of k1 i)) with x := <[10%nat := v]> (x (f (proc_of k1 i))) |} k1 Hk1 Hi) as (Hk2 & Ho2);
    [split; [cbn; by rewrite length_insert|split; [by apply Forall_insert|done]]|done|]. apply ends_ret. split; [done|by eapply others_trans].
Qed.

(** ** Traps *)

Lemma kill_wp i cause tval k : inv None k -> runs None i k -> wp (kill B i cause tval) (ends (fun _ k' => inv None k' /\ others (Some i) k k')) k.
Proof.
  intros Hk Hr. pose proof Hr as (Hi & Hx & Ha). unfold kill, guard_of. wp1. apply proc_at_wp; [by eapply inv_len|done|]. set (p := proc_of k i).
  wp1. wp1. apply space_at_wp; [by eapply inv_spaces|done|]. wp1. destruct (proj2 (k_procs _ _ _ _ Hk) i Hi) as ((_ & _ & P) & _ & _ & W4 & _).
  assert (Hname : forall who, keeps who None (kput_name B (pname p))) by (intros who; by apply keeps_env, env_kput_name). pose proof (Hname None) as HnameN.
  assert (Ho : others None k k) by apply others_refl. do 7 kstep.
  assert (Hr1 : forall k1, others None k k1 -> runs None i k1) by (intros k1 Ho1; split; [done|]; split; [done|]; by apply Ho1).
  wp1. eapply (user_range_wp B R None); [done|by apply Hr1|done|done|]. intros inside _. do 5 kstep.
  apply (finish_wp i _ k'10); [done|done|by apply Ho|apply u32_range|]. intros k2 Hk2 Ho2. split; [done|]. eapply others_trans; [by apply others_weaken|done].
Qed.

Lemma fs_off m : tst ((m .& not32 MSTATUS_FS) .& MSTATUS_FS) = false.
Proof. rewrite <- Z.land_assoc. change (not32 MSTATUS_FS .& MSTATUS_FS) with 0. by rewrite Z.land_0_r. Qed.

(** The floating point of a process is turned off: the owner's once its registers are saved. *)
Lemma fpu_off_inv who ex j k : inv ex k -> 0 <= j < 8 -> (fpu_owner k = Some j -> fp (space_of k j) = fpu (cpu k)) -> let p := proc_of k j in
  inv ex (put_proc j (set_mstatus (mstatus (f p) .& not32 MSTATUS_FS) p) k) /\ others who k (put_proc j (set_mstatus (mstatus (f p) .& not32 MSTATUS_FS) p) k).
Proof.
  intros Hk Hj Hsaved p. pose proof (inv_len _ _ Hk) as Hl. pose proof (proj2 (k_procs _ _ _ _ Hk) j Hj) as (W1 & W2 & W3 & W4 & W5 & W6 & W7). split.
  - eapply fits_inv; [exact Hk|done|done|]. destruct (inv_fits B R ex j k Hk Hj). constructor; try assumption.
    + intros _ _ Hf. unfold fs_on, set_mstatus in Hf. cbn [f mstatus] in Hf. by rewrite fs_off in Hf.
    + intros Ho. right. by apply Hsaved.
  - apply others_put; [done|done|]. right. intros Ha. split; [done|]. unfold same_process, set_mstatus. cbn [f x pc mstatus]. splits; try done. rewrite <- Z.land_assoc. by rewrite Z.land_diag.
Qed.

(** The hart's floating registers are nobody's, and loaded anew. *)
Lemma fpu_load_inv ex v k : inv ex k -> (forall j, 0 <= j < 8 -> alive (proc_of k j) = true -> fs_on (proc_of k j) = false) ->
  inv ex {| k with fpu_owner := None; cpu := {| (cpu k) with fpu := v |} |}.
Proof.
  intros Hk Hoff. destruct Hk. constructor; try assumption; [|done]. split; [|done]. intros j Hj _ Ha Hf. exfalso. specialize (Hoff j Hj Ha).
  change (fs_on (proc_of k j) = true) in Hf. congruence.
Qed.

(** Entry [i] takes the FPU nobody uses, with the registers saved for it. *)
Lemma fpu_on_inv i k : inv None k -> runs None i k -> (forall j, 0 <= j < 8 -> alive (proc_of k j) = true -> fs_on (proc_of k j) = false) ->
  let k0 := {| k with cpu := {| (cpu k) with fpu := fp (space_of k i) |} |} in
  let p := proc_of k0 i in let k1 := put_proc i (set_mstatus (mstatus (f p) .| MSTATUS_FS_CLEAN) p) k0 in
  let k' := {| k1 with fpu_owner := Some i |} in
  inv None k' /\ others (Some i) k k' /\ second_fpu (procs k') i = false.
Proof.
  intros Hk (Hi & Hx & Ha) Hoff k0 p k1 k'. pose proof (inv_len _ _ Hk) as Hl. pose proof (proj2 (k_procs _ _ _ _ Hk) i Hi) as (W1 & W2 & W3 & W4 & W5 & W6 & W7). set (p1 := set_mstatus (mstatus (f p) .| MSTATUS_FS_CLEAN) p) in *.
  pose proof (fpu_load_inv None (fp (space_of k i)) k Hk Hoff) as Hk0. set (n := {| k with fpu_owner := None; cpu := _ |}) in Hk0.
  assert (Hk1 : inv (Some i) (put_proc i p1 n)).
  { eapply (fits_inv B R None); [done|done|done|]. destruct (inv_fits B R None i n Hk0 Hi). constructor; try done. }
  assert (Hpr : forall j, 0 <= j < 8 -> proc_of k1 j = if i =? j then p1 else proc_of k j) by (intros j Hj; apply (proc_of_put i j p1 k0); [done|done|lia]).
  assert (Hno : forall j, 0 <= j < 8 -> j <> i -> alive (proc_of k1 j) = true -> fs_on (proc_of k1 j) = false).
  { intros j Hj Hne. rewrite Hpr by done. rewrite (proj2 (Z.eqb_neq i j)) by congruence. by apply Hoff. }
  split; [|split].
  - destruct Hk1. constructor; try assumption.
    + intros j Hj _ Haj. destruct (Z.eq_dec j i) as [->|Hne]; [|apply k_settled0; [done|congruence|done]]. change (proc_of k' i) with (proc_of k1 i). rewrite Hpr, Z.eqb_refl by done.
      exact (k_settled _ _ _ _ Hk i Hi Hx Ha).
    + split; [|intros j [= <-]; split; [done|]; change (proc_of k' i) with (proc_of k1 i); by rewrite Hpr, Z.eqb_refl].
      intros j Hj _ Haj Hf. destruct (Z.eq_dec j i) as [->|Hne]; [done|]. specialize (Hno j Hj Hne Haj). change (fs_on (proc_of k1 j) = true) in Hf. congruence.
    + intros j [= <-]. by right.
  - exact (others_put (Some i) i p1 k0 Hl Hi (or_introl eq_refl)).
  - unfold second_fpu. apply not_true_iff_false. intros He. apply existsb_exists in He as (j & Hj & He). apply in_seq in Hj. apply andb_true_iff in He as [He H3]. apply andb_true_iff in He as [H1 H2]. bools.
    specialize (Hno (Z.of_nat j) ltac:(lia) H1). unfold proc_of, at_ in Hno. rewrite Nat2Z.id in Hno. specialize (Hno H2). change (procs k') with (procs k1) in H3. congruence.
Qed.

(** The floating registers a process has: the hart's if it owns them, and else those saved for it. *)
Definition fp_view k (j : Z) : list Z := if bool_decide (fpu_owner k = Some j) then fpu (cpu k) else fp (space_of k j).
Lemma clean_on m0 : tst ((m0 .| MSTATUS_FS_CLEAN) .& MSTATUS_FS) = true.
Proof. apply tst_true. intros H. apply (f_equal (fun z => Z.testbit z 14)) in H. rewrite Z.land_spec, Z.lor_spec, Z.bits_0 in H. by rewrite orb_true_r in H. Qed.

(** The unit is claimed for a floating instruction of a process whose floating point is off. *)
Definition claims (i word : Z) k : bool := negb (fs_on (proc_of k i)) && floating_instruction word.
Definition claim_post (i word : Z) k (claimed : bool) k' : Prop :=
  inv None k' /\ others (Some i) k k' /\ alive (proc_of k' i) = true /\ claimed = claims i word k /\ (forall j, 0 <= j < 8 -> fp_view k' j = fp_view k j)
  /\ (claimed = true -> fpu_owner k' = Some i /\ fs_on (proc_of k' i) = true) /\ (claimed = false -> k' = k).

(** The step does not stop the machine. *)
Definition sure {A} (P : A -> kernel D E -> Prop) (r : option A) k : Prop := match r with Some a => P a k | None => False end.
Lemma sure_ret {A} (a : A) P k : P a k -> wp (mret (Some a)) (sure P) k.
Proof. done. Qed.
Lemma sure_ends {A} (c : KM (option A)) P k : wp c (sure P) k -> wp c (ends P) k.
Proof. intros H. eapply wp_mono; [exact H|]. by intros [a|]. Qed.

Lemma claim_fpu_wp i word0 k : inv None k -> runs None i k -> wp (claim_fpu B i word0) (sure (claim_post i word0 k)) k.
Proof.
  intros Hk Hr. pose proof Hr as (Hi & Hx & Ha). unfold claim_fpu. wp1. apply proc_at_wp; [by eapply inv_len|done|].
  assert (Ecl : (fs_on (proc_of k i) || negb (floating_instruction word0)) = negb (claims i word0 k)) by (unfold claims; by destruct (fs_on _), (floating_instruction _)). rewrite Ecl.
  wp1; [apply sure_ret; split; [done|split; [apply others_refl|]]; bools; by splits|]. apply negb_false_iff in H. rename H into Hcl. clear Ecl.
  wp1. wp1. unfold id. destruct (k_fpu _ _ _ _ Hk) as (F1 & F2).
  assert (Htail : forall why k1, inv None k1 -> others (Some i) k k1 -> runs None i k1 -> (forall j, 0 <= j < 8 -> alive (proc_of k1 j) = true -> fs_on (proc_of k1 j) = false) ->
    (forall j, 0 <= j < 8 -> fp (space_of k1 j) = fp_view k j) -> wp (s ← space_at i; modify (fun k => {| k with cpu := {| (cpu k) with fpu := fp s |} |});; upd_proc i (fun p => set_mstatus (mstatus (f p) .| MSTATUS_FS_CLEAN) p);;
        modify (fun k => {| k with fpu_owner := Some i |});; k ← gets id; if second_fpu (procs k) i then panic B why else mret (Some true))
       (sure (claim_post i word0 k)) k1).
  { intros why k1 Hk1 Ho1 Hr1 Hno Hv. wp1. apply space_at_wp; [by eapply inv_spaces|done|]. wp1. wp1. destruct (fpu_on_inv i k1 Hk1 Hr1 Hno) as (Hk3 & Ho3 & Hsecond).
    set (k2 := {| k1 with cpu := _ |}) in *. wp1. apply upd_proc_wp; [exact (inv_len _ _ Hk1)|done|]. wp1. wp1.
    wp1. wp1. unfold id. cbv zeta in Hsecond. match type of Hsecond with second_fpu ?x i = false => match goal with |- wp (if second_fpu ?y i then _ else _) _ _ => change y with x end end. rewrite Hsecond.
    apply sure_ret. split; [exact Hk3|]. split; [eapply others_trans; [exact Ho1|exact Ho3]|]. set (k3 := {| _ with fpu_owner := Some i |}).
    assert (E3 : proc_of k3 i = set_mstatus (mstatus (f (proc_of k2 i)) .| MSTATUS_FS_CLEAN) (proc_of k2 i)) by (etransitivity; [apply (proc_of_put i i); [exact (inv_len _ _ Hk1)|done|lia]|by rewrite Z.eqb_refl]).
    rewrite E3. split; [apply Hr1|]. split; [done|]. split; [|split; [split; [done|apply clean_on]|done]]. intros j Hj. rewrite <- Hv by done. unfold fp_view.
    case_bool_decide as Ei; [|done]. by injection Ei as <-. }
  wp1. destruct (fpu_owner k) as [j|] eqn:Eown.
  - destruct (F2 j eq_refl) as (Hj & Haj). wp1. apply proc_at_wp; [by eapply inv_len|done|].
    assert (Hrest : forall k1, inv None k1 -> others (Some i) k k1 -> procs k1 = procs k -> fpu_owner k1 = Some j -> fp (space_of k1 j) = fpu (cpu k1) ->
      wp (upd_proc j (fun o => set_mstatus (mstatus (f o) .& not32 MSTATUS_FS) o)) (fun _ k2 => (inv None k2 /\ spaces k2 = spaces k1) /\ others (Some i) k k2 /\ runs None i k2
        /\ forall j', 0 <= j' < 8 -> alive (proc_of k2 j') = true -> fs_on (proc_of k2 j') = false) k1).
    { intros k1 Hk1 Ho1 Ep Eo Esaved. apply upd_proc_wp; [by eapply inv_len|done|]. destruct (fpu_off_inv (Some i) None j k1 Hk1 Hj (fun _ => Esaved)) as (Hk2 & Ho2). pose proof (inv_len _ _ Hk1) as Hl.
      assert (Hpr : forall m, proc_of k1 m = proc_of k m) by (intros m; unfold proc_of; by rewrite Ep). split; [done|]. split; [by eapply others_trans|]. split.
      - split; [done|]. split; [done|]. rewrite proc_of_put by (done || lia). destruct (Z.eqb_spec j i) as [->|]; rewrite Hpr; done.
      - intros j' Hj' Ha'. rewrite proc_of_put in Ha' |- * by (done || lia). destruct (Z.eqb_spec j j') as [->|Hne]; [apply fs_off|]. rewrite Hpr in Ha' |- *. destruct (fs_on (proc_of k j')) eqn:Ef; [|done].
        specialize (F1 j' Hj' ltac:(done) Ha' Ef). congruence. }
    wp1. wp1.
    + wp1. apply space_at_wp; [by eapply inv_spaces|done|]. apply set_space_wp; [by eapply inv_spaces|done|]. destruct (put_fp_inv B R HR (Some i) None j (fpu (cpu k)) k Hk Hj) as (Hk1 & Ho1); [done|].
      assert (Esp : forall j', 0 <= j' < 8 -> fp (space_of (put_space j {| (space_of k j) with fp := fpu (cpu k) |} k) j') = fp_view k j').
      { intros j' Hj'. rewrite space_of_put by (by eapply inv_spaces || lia). unfold fp_view. rewrite Eown. destruct (Z.eqb_spec j j') as [->|Hne]; [by rewrite bool_decide_true|by rewrite bool_decide_false by congruence]. }
      eapply wp_mono; [apply Hrest; [done|done|done|done|]|]; [rewrite Esp by done; unfold fp_view; by rewrite bool_decide_true|]. intros [] k2 ((Hk2 & E2) & Ho2 & Hr2 & Hno). apply Htail; [done|done|done|done|]. intros j' Hj'.
      rewrite <- Esp by done. unfold space_of. by rewrite E2.
    + assert (Esaved : fp (space_of k j) = fpu (cpu k)) by (destruct (k_coherent _ _ _ _ Hk j Eown) as [Hd|Hd]; [bools; congruence|done]).
      eapply wp_mono; [apply Hrest; [done|apply others_refl|done|done|done]|]. intros [] k2 ((Hk2 & E2) & Ho2 & Hr2 & Hno). apply Htail; [done|done|done|done|]. intros j' Hj'. unfold fp_view, space_of in *. rewrite E2.
      case_bool_decide as Ej; [|done]. rewrite Eown in Ej. by injection Ej as <-.
  - wp1. apply Htail; [done|apply others_refl|done| |].
    + intros j Hj Haj. destruct (fs_on (proc_of k j)) eqn:Ef; [|done]. specialize (F1 j Hj ltac:(done) Haj Ef). congruence.
    + intros j Hj. unfold fp_view. by rewrite Eown.
Qed.

Lemma trapped_instruction_wp i tval k (Q : Z -> kernel D E -> Prop) : inv None k -> runs None i k -> (forall v, Q v k) -> wp (trapped_instruction i tval) Q k.
Proof.
  intros Hk Hr HQ. pose proof Hr as (Hi & _). unfold trapped_instruction. wp1. apply proc_at_wp; [by eapply inv_len|done|]. destruct (proj2 (k_procs _ _ _ _ Hk) i Hi) as ((_ & _ & P) & _).
  wp1. eapply (user_range_wp B R None); [done|done|done|done|]. intros inside Hok. wp1; [wp1; apply HQ|]. apply orb_false_iff in H as [_ H]. bools. subst inside.
  destruct (user_ram None i _ 4 k Hk Hr (Hok eq_refl)) as (M1 & M2). apply ram_peek_wp; [apply Hk|done|lia|done|]. apply HQ.
Qed.

(** A process whose time is up goes to the back. *)
Lemma preempt_wp i k (Q : () -> kernel D E -> Prop) : inv None k -> runs None i k -> (forall k', inv None k' -> others (Some i) k k' -> Q () k') ->
  wp (next ← next_ready B (Some i); p ← proc_at i;
      match next with
      | Some j => when (bool_decide (state p = RUNNING) && negb (j =? i)) (set_proc i {| p with state := READY; switches := u32 (switches p + 1) |})
      | None => mret ()
      end) Q k.
Proof.
  intros Hk Hr HQ. pose proof Hr as (Hi & _ & Ha). wp1. unfold next_ready. apply ready_from_wp; [by eapply inv_len|]. intros next k1 E1 _. pose proof (core_procs _ _ E1) as Ep.
  assert (Hk1 : inv None k1) by (by apply (inv_same B R None k)). assert (Ho1 : others (Some i) k k1) by (by apply others_same). assert (Ha1 : alive (proc_of k1 i) = true) by (unfold proc_of; by rewrite Ep).
  wp1. apply proc_at_wp; [by eapply inv_len|done|]. destruct next as [j|]; [|wp1; by apply HQ]. wp1; [|by apply HQ]. apply set_proc_wp; [by eapply inv_len|done|].
  pose proof (proj2 (k_procs _ _ _ _ Hk1) i Hi) as Hwf. pose proof Hwf as (_ & _ & _ & _ & W5 & _). apply HQ.
  - apply like_inv; [done|done|]. apply like_refl_but; try done; [apply u32_range|by left].
  - eapply others_trans; [exact Ho1|]. apply others_put; [by eapply inv_len|done|by left].
Qed.

(** What the handler answers. *)
Definition trap_post (who : option Z) k (next : option Z) k' : Prop :=
  inv None k' /\ others who k k' /\ match next with Some i => resumes i k' | None => current k' = None end.

Lemma report_keeps who ex why : keeps who ex (report_disk_failure B why).
Proof.
  intros k Q Hk HQ. unfold report_disk_failure. wp1. wp1. unfold id. destruct (why _); [|wp1; apply HQ; [done|apply others_refl]]. apply (wp_keeps B R who ex); [keep|done|exact HQ].
Qed.

Lemma kernel_trap_wp why who cause tval k : inv None k -> current k = who -> match who with Some i => state (proc_of k i) = RUNNING | None => True end -> next_pid k < 0xffffffff ->
  wp (kernel_trap B why who cause tval) (ends (trap_post who k)) k.
Proof.
  intros Hk Hc Hw Hn. unfold kernel_trap. wp1. wp1. replace {| k with current := who |} with k by (subst who; by destruct k).
  assert (Hlast : forall k1, inv None k1 -> others who k k1 -> wp (next ← schedule B; mret (Some next)) (ends (trap_post who k)) k1).
  { intros k1 Hk1 Ho1. wp1. apply (schedule_wp who); [done|]. intros next k2 Hk2 Ho2 Hn2. apply ends_ret. split; [done|]. split; [by eapply others_trans|done]. }
  assert (Hrun : forall i, who = Some i -> runs None i k).
  { intros i E1. subst who. pose proof (proj1 (k_running _ _ _ _ Hk) i E1) as Hi. rewrite E1 in Hw. split; [done|]. split; [done|]. unfold alive. by rewrite Hw. }
  apply ends_bind. wp1.
  - assert (Ho : others who k k) by apply others_refl. wp1.
    eapply (wp_mono _ (fun _ k1 => inv None k1 /\ others who k k1)); [|intros [] k1 (Hk1 & Ho1); apply ends_ret; by apply Hlast]. wp1.
    + apply (external_interrupt_keeps who None); [done|]. by intros [] k1 Hk1 Ho1.
    + wp1; [|done]. wp1. apply wp_env; [auto with devices nocore|]. intros now e. wp1. apply wp_env; [auto with devices nocore|]. intros [] e'. set (k1 := put_env e' (put_env e k)).
      assert (Hk1 : inv None k1) by (by apply (inv_same B R None k)). assert (Ho1 : others who k k1) by (by apply others_same). destruct who as [i|]; [|wp1; by split].
      apply preempt_wp; [done|exact (Hrun i eq_refl)|]. intros k2 Hk2 Ho2. split; [done|by eapply others_trans].
  - destruct who as [i|]; [|by eapply panic_wp]. specialize (Hrun i eq_refl). pose proof Hrun as (Hi & _ & Ha). wp1.
    + apply ends_bind. eapply ends_mono; [by apply syscall_wp|]. intros finished k1 (Hk1 & Ho1).
      assert (Hpc : forall k2, inv None k2 -> others (Some i) k k2 -> wp (report_disk_failure B why;; mret (Some ())) (ends (fun _ k' => wp (next ← schedule B; mret (Some next)) (ends (trap_post (Some i) k)) k')) k2).
      { intros k2 Hk2 Ho2. pose proof (report_keeps (Some i) None why) as Hrep. kstep. apply ends_ret. by apply Hlast. }
      wp1. wp1; [|by apply Hpc]. apply upd_proc_wp; [by eapply inv_len|done|]. destruct (proj2 (k_procs _ _ _ _ Hk1) i Hi) as ((L & U & P) & _).
      destruct (frame_inv None i {| (f (proc_of k1 i)) with pc := u32 (pc (f (proc_of k1 i)) + 4) |} k1 Hk1 Hi) as (Hk2 & Ho2); [split; [done|split; [done|apply u32_range]]|done|].
      apply Hpc; [done|by eapply others_trans].
    + apply ends_bind.
      assert (Hclaim : wp (if cause =? CAUSE_ILLEGAL then word0 ← trapped_instruction i tval; claim_fpu B i word0 else mret (Some false))
                         (ends (fun _ k1 => inv None k1 /\ others (Some i) k k1 /\ alive (proc_of k1 i) = true)) k).
      { wp1; [|apply ends_ret; split; [done|split; [apply others_refl|done]]]. wp1. apply trapped_instruction_wp; [done|done|]. intros v. eapply ends_mono; [by apply sure_ends, claim_fpu_wp|]. by intros claimed k1 (Hk1 & Ho1 & Ha1 & _). }
      eapply ends_mono; [exact Hclaim|]. intros claimed k1 (Hk1 & Ho1 & Ha1). wp1; [apply ends_ret; by apply Hlast|].
      eapply ends_mono; [apply kill_wp; [done|by split]|]. intros [] k2 (Hk2 & Ho2). apply Hlast; [done|by eapply others_trans].
Qed.
End Traps.
End KernelTraps.
