(* ===== verification/KernelBoot.v ===== *)
(** * The kernel from boot

    [kernel_main] checks its RAM disk and its page-table budget, mounts the disk and
    starts the shell; what it leaves satisfies the invariant.  The system is then a
    transition system of user code and traps, in which the invariant always holds. *)

From S2P Require Import Prelude Effects Buffer Fs FsProofs FsSpecs Kernel KernelTables KernelProofs KernelCalls KernelTraps.

Module KernelBoot.
Import Fs FsProofs Kernel KernelTables KernelProofs KernelCalls KernelTraps.

(** The static variables as the loader leaves them. *)
Definition at_boot {D E : Type} (fs0 : fs_state D) (ram0 : buffer) (cpu0 : hart) (env0 : E) : kernel D E :=
  {| procs := replicate 8 no_proc; idle_frame := no_frame; current := None; fpu_owner := None; next_pid := 1; exits := 0; exit_sum := 0;
     palette_writer := 0; protected_pid := 0; faulted := false; keys := replicate 64 0; key_head := 0; key_count := 0; keys_dropped := 0;
     spaces := replicate 8 no_space; engines_used := false; reported := false; fs := fs0; ram := ram0; cpu := cpu0; env := env0; stopped := false |}.

Section Boot.
Context {D E : Type} {BD : BlockDevice D} {BDO : BlockDeviceOk D} {PF : Platform E} {PL : Polls} (B : board) (R : list Z) `{F : Fuelled}.
Context (Hwaits : waits (D := D) (E := E) B) (Hplaced : tables_placed B) (Hdev : devices_placed B).
Implicit Types (k : kernel D E).
Abbreviation inv := (kernel_inv (D := D) (E := E) B R).

Lemma at_replicate {A} `{Inhabited A} n (a : A) i : 0 <= i < Z.of_nat n -> at_ (replicate n a) i = a.
Proof. intros Hi. unfold at_. apply lookup_total_replicate_2. lia. Qed.

Lemma boot_inv fs0 ram0 cpu0 env0 : fs_inv fs0 -> ram_ok ram0 -> inv None (at_boot fs0 ram0 cpu0 env0).
Proof.
  intros Hf Hr. set (k := at_boot fs0 ram0 cpu0 env0). assert (Hp : forall i, 0 <= i < 8 -> proc_of k i = no_proc) by (intros i Hi; by apply at_replicate).
  assert (Hc : forall i a, 0 <= i < 8 -> 0 <= a < 4 -> at_ (files (proc_of k i)) a = closed) by (intros i a Hi Ha; rewrite Hp by done; by apply at_replicate).
  constructor; try done.
  - split; [done|]. intros i Hi. rewrite Hp by done. unfold proc_wf, frame_ok. cbn [f files pname exit_code switches no_proc no_frame x pc]. splits; try done; [by apply Forall_replicate|by left|].
    intros _. by apply Forall_replicate.
  - split; [done|]. intros i Hi. left. unfold space_of. cbn [k spaces at_boot]. by rewrite at_replicate.
  - intros i Hi _. by rewrite Hp.
  - intros i j Hi Hj _. by rewrite Hp.
  - intros i a Hi Ha. rewrite Hc by done. by left.
  - intros i a j b Hi Hj Ha Hb _. rewrite Hc by done. done.
  - split; [|done]. intros i Hi _. by rewrite Hp.
  - split; [done|]. split; [done|]. split; [intros i Hi; by rewrite Hp|]. intros i j Hi Hj _. by rewrite Hp.
  - split; [done|]. intros i Hi. by rewrite Hp.
  - intros i Hi. by rewrite Hp.
  - split; [done|]. split; [by apply Forall_replicate|done].
Qed.

(** ** The checks at boot *)

Definition disk_bytes : Prop := Forall is_u8 (ramdisk B) /\ is_u32 (disk_size0 B).

Lemma slice_u8 l p n r : Forall is_u8 l -> 0 <= n -> slice l p n = Ok r -> Forall is_u8 r /\ length r = Z.to_nat n.
Proof.
  intros Hu Hn H. unfold slice in H. destruct (_ && _) eqn:Eb; [|done]. injection H as <-. bools. split; [by apply Forall_take, Forall_drop|]. rewrite length_take, length_drop. lia.
Qed.

Lemma check_entries_wp n i k (P : () -> kernel D E -> Prop) : disk_bytes -> inv None k -> 0 <= i -> RAMDISK_HEADER + 56 * (i + Z.of_nat n) <= disk_size0 B ->
  ((forall j, i <= j < i + Z.of_nat n -> exists e, program_at B j = Ok e /\ program_ok e (disk_size0 B)) -> P () k) -> wp (check_entries B n i (disk_size0 B)) (ends P) k.
Proof.
  intros (Hu & Hs) Hk. revert i P. induction n as [|n IH]; intros i P Hi Hn HP; cbn [check_entries]; [apply ends_ret; apply HP; lia|].
  destruct (slice_ok (ramdisk B) (RAMDISK_HEADER + 56 * i) 56) as (l & El & Ll); [unfold RAMDISK_HEADER in *; lia|lia|unfold disk_size0 in *; lia|].
  destruct (slice_u8 _ _ 56 _ Hu ltac:(lia) El) as (Hul & _). assert (Ee : program_at B i = Ok (bytes_program l)) by (unfold program_at; by rewrite El).
  wp1. wp1. rewrite Ee. cbn [wpr]. wp1.
  - apply IH; [lia|lia|]. intros Hall. apply HP. intros j Hj. destruct (Z.eq_dec j i) as [->|Hne]; [|apply Hall; lia]. exists (bytes_program l). split; [done|]. by apply entry_ok_spec.
  - assert (Ho : others None k k) by apply others_refl. do 3 kstep. by eapply panic_wp.
Qed.

Lemma check_programs_wp k (P : () -> kernel D E -> Prop) : disk_bytes -> inv None k -> (ramdisk_ok B -> P () k) -> wp (check_programs B) (ends P) k.
Proof.
  intros Hd Hk HP. pose proof Hd as (Hu & Hs). unfold check_programs. apply ends_bind. unfold programs. change (Z.of_nat (length (ramdisk B))) with (disk_size0 B).
  wp1; [by eapply panic_wp|]. repeat (apply orb_false_iff in H as [H ?]). bools. repeat match goal with H0 : tst _ = false |- _ => apply tst_false in H0 end. apply ends_ret. change (bytes_word (ramdisk B) 4) with (program_count B).
  assert (Hc : is_u32 (program_count B)) by (apply bytes_u32; [done|lia|unfold RAMDISK_HEADER, disk_size0 in *; lia]). unfold is_u32 in Hc.
  wp1; [by eapply panic_wp|]. bools. apply check_entries_wp; [done|done|lia|unfold RAMDISK_HEADER in *; zlia|]. intros Hall. apply HP. unfold ramdisk_ok. splits; try done; try lia; try apply Hs.
  intros i Hi. apply Hall. lia.
Qed.

Lemma budget_wp k (P : () -> kernel D E -> Prop) : inv None k -> (forall r, page_table_budget B = Some r -> P () k) -> wp (check_page_table_budget B) (ends P) k.
Proof. intros Hk HP. unfold check_page_table_budget. destruct (page_table_budget B) as [r|] eqn:Er; [apply ends_ret; by eapply HP|by eapply panic_wp]. Qed.

(** ** Booting *)

Definition nobody k : Prop := forall i, 0 <= i < 8 -> alive (proc_of k i) = false.

(** With no process, and so no open file, the file system may be replaced. *)
Lemma remount_inv who s k : inv None k -> nobody k -> fs_inv s -> inv None (put_fs s k) /\ others who k (put_fs s k).
Proof.
  intros Hk Hn Hs. split; [|intros j Hj _ Ha; by rewrite Hn in Ha]. assert (Hc : forall i a, 0 <= i < 8 -> 0 <= a < 4 -> mode (at_ (files (proc_of k i)) a) = 0).
  { intros i a Hi Ha. destruct (proj2 (k_procs _ _ _ _ Hk) i Hi) as (_ & L & _ & _ & _ & _ & W). specialize (W (Hn i Hi)). rewrite Forall_lookup_total in W. apply W. rewrite L. lia. }
  destruct Hk. constructor; try done. intros i a Hi Ha. left. by apply Hc.
Qed.

Lemma mount_disk_wp cap k (Q : () -> kernel D E -> Prop) : inv None k -> nobody k -> mounted (fs k) = false -> cap < 0x800000 ->
  (forall s e, inv None (put_env e (put_fs s k)) -> Q () (put_env e (put_fs s k))) -> wp (mount_disk B cap) Q k.
Proof.
  intros Hk Hn Hm Hc HQ. unfold mount_disk. wp1.
  eapply (wp_mono _ (fun _ k' => exists s, k' = put_fs s k /\ inv None k')).
  - wp1; [|wp1; exists (fs k); split; [by destruct k|done]]. unfold on_fs. apply wp_zoom. eapply wp_mono; [apply FsSpecs.fs_mount_wp; [exact (proj1 (k_fs _ _ _ _ Hk))|done]|].
    intros ok s ((Hr & Hsame) & _ & Hok). exists s. split; [done|]. apply (remount_inv None); [done|done|]. split; [done|]. intros Hs. destruct ok; [by apply Hok|]. rewrite Hsame in Hs by done. congruence.
  - intros ok k1 (s & -> & Hk1). wp1. apply wp_env; [auto with devices nocore|]. intros [] e1. wp1. apply wp_env; [auto with devices nocore|]. intros [] e2.
    wp1. apply wp_env; [envs|]. intros [] e3. wp1. apply wp_env; [auto with devices nocore|]. intros [] e4. wp1. wp1. wp1; [|apply HQ; by apply (inv_same B R None (put_fs s k))].
    apply wp_env; [envs|]. intros [] e5. apply HQ. by apply (inv_same B R None (put_fs s k)).
Qed.

Definition set_idle (fr : frame) (c : hart) k : kernel D E := {| k with idle_frame := fr; cpu := c |}.

(** The registers that say nothing of a process. *)
Lemma set_idle_inv who ex fr c k : inv ex k -> pmpaddr c = pmpaddr (cpu k) -> pmpcfg0 c = pmpcfg0 (cpu k) -> pmpcfg1 c = pmpcfg1 (cpu k) -> satp c = satp (cpu k) -> coherent (set_idle fr c k) ->
  inv ex (set_idle fr c k) /\ others who k (set_idle fr c k).
Proof.
  intros Hk E1 E2 E3 E4 Hcoh. split; [|exact (others_refl who k)]. destruct Hk. constructor; try done. intros i Hi Ha Hp. specialize (k_cpu0 i Hi Ha Hp). unfold protects in *. cbn [set_idle cpu]. by rewrite E1, E2, E3, E4.
Qed.

Context (HR : forall r, page_table_budget B = Some r -> r = R).

(** What the booted system is. *)
Definition booted (next : option Z) k : Prop :=
  page_table_budget B = Some R /\ ramdisk_ok B /\ inv None k /\ match next with Some i => resumes B i k | None => current k = None end.

Lemma kernel_main_wp hart0 cap fs0 ram0 cpu0 env0 : disk_bytes -> cap < 0x800000 -> fs_inv fs0 -> mounted fs0 = false -> ram_ok ram0 ->
  wp (kernel_main B hart0 cap) (ends booted) (at_boot fs0 ram0 cpu0 env0).
Proof.
  intros Hd Hcap Hf Hm Hr. pose proof (boot_inv fs0 ram0 cpu0 env0 Hf Hr) as Hk. set (k0 := at_boot fs0 ram0 cpu0 env0) in *.
  assert (He : forall e, inv None (put_env e k0)) by (intros e; by apply (inv_same B R None k0)).
  assert (Hnb : forall e, nobody (put_env e k0)) by (intros e i Hi; unfold proc_of, k0; cbn [procs at_boot put_env]; by rewrite at_replicate).
  unfold kernel_main. cbv zeta. do 12 (wp1; apply wp_env; [envs|]; intros [] ?).
  apply ends_bind. apply check_programs_wp; [done|by apply (inv_same B R None k0)|]. intros Hdisk. apply ends_bind. apply budget_wp; [by apply (inv_same B R None k0)|].
  intros r Er. pose proof (HR r Er) as ->. destruct (budget_covers B R Er Hdev) as (HL & Hcov). rewrite (programs_ok B Hdisk). apply ends_bind, ends_ret. do 5 (wp1; apply wp_env; [envs|]; intros [] ?).
  assert (Hmount : forall e (Q : () -> kernel D E -> Prop), (forall s e', inv None (put_env e' (put_fs s k0)) -> Q () (put_env e' (put_fs s k0))) -> wp (when (tst (disk_base B)) (mount_disk B cap)) Q (put_env e k0)).
  { intros eq Q HQ. wp1; [|apply (HQ fs0 eq); by apply (inv_same B R None k0)]. apply mount_disk_wp; [done|done|done|done|]. intros s er. apply (HQ s). }
  wp1. apply (Hmount _ _). intros s em Hk1. set (k1 := put_env em (put_fs s k0)) in *.
  wp1. wp1. destruct (set_idle_inv None None (idle_frame k1) {| (cpu k1) with mtvec := trap_vector B |} k1 Hk1) as (Hk2 & _); [done|done|done|done|exact (k_coherent _ _ _ _ Hk1)|]. set (k2 := set_idle _ _ k1) in *.
  change (wp ?c ?Q _) with (wp c Q k2). wp1. apply wp_env; [envs|]. intros [] eu. wp1. apply wp_env; [envs|]. intros now ev. wp1. apply wp_env; [envs|]. intros [] ew.
  assert (Hk3 : inv None (put_env ew (put_env ev (put_env eu k2)))) by (by apply (inv_same B R None k2)). set (k3 := put_env ew _) in *. do 4 wp1.
  match goal with |- wp _ _ ?t => change t with (set_idle (idle_frame t) (cpu t) k3); destruct (set_idle_inv None None (idle_frame t) (cpu t) k3 Hk3) as (Hk4 & _); [done|done|done|done|exact (k_coherent _ _ _ _ Hk3)|]; set (k4 := set_idle (idle_frame t) (cpu t) k3) in * end.
  apply ends_bind. eapply (spawn_wp B R Hwaits Hplaced HL Hdev Hcov None); [done|done|cbn; tauto|by repeat constructor|by left|done| |].
  - intros k' Hk' _. by eapply panic_wp.
  - intros i k' Hk' _ _ _. wp1. apply (schedule_wp B R Hwaits None); [done|]. intros next k'' Hk'' _ Hn. by apply ends_ret.
Qed.
End Boot.
End KernelBoot.
