(* ===== verification/KernelIsolation.v ===== *)
(** * The kernel's page tables on the emulated hart

    The tables kernel.c writes and the registers it sets, read by the emulator's own
    Sv32 walk and PMP: a process reaches its pages, the screen and the engines it was
    given, each at its own address, and nothing else. *)

From S2P Require Import Prelude Effects Buffer Simd4 Gpu G3d Dtb Machine Devices Virtio Bus Mmu Csr MachineOk DevicesProofs VirtioProofs BusProofs CsrProofs.
From S2P Require Import Fs FsProofs FsSpecs Kernel KernelTables KernelProofs.

Module KernelIsolation.
Import Fs FsProofs Kernel KernelTables KernelProofs.

(** A page-table entry: a page number over ten bits of flags. *)
Lemma pte_flags q fl mask : 0 <= fl < 1024 -> 0 <= mask < 1024 -> ((q .<< 10) .| fl) .& mask = fl .& mask.
Proof.
  intros Hf Hm. apply Z.bits_inj'. intros n Hn. rewrite !Z.land_spec, Z.lor_spec. destruct (Z.lt_ge_cases n 10).
  - by rewrite Z.shiftl_spec_low by lia.
  - assert (Z.testbit mask n = false) as ->; [|by rewrite !andb_false_r].
    destruct (Z.eq_dec mask 0) as [->|]; [apply Z.bits_0|]. apply Z.bits_above_log2; [lia|]. assert (Z.log2 mask < 10) by (apply Z.log2_lt_pow2; lia). lia.
Qed.
Lemma pte_page q fl : 0 <= fl < 1024 -> ((q .<< 10) .| fl) .>> 10 = q.
Proof. intros Hf. rewrite lor_add by lia. rewrite Z.shiftr_div_pow2 by lia. change (2 ^ 10) with 1024. zlia. Qed.

(** The bits a mask of the low [n] keeps. *)
Lemma low_bits a n : 0 <= n -> a .& Z.ones n = a mod 2 ^ n.
Proof. intros Hn. by apply Z.land_ones. Qed.

(** ** Registers *)

(** The hart has the kernel's registers, and its memory. *)
Record agrees {D E} (k : kernel D E) (m : machine) : Prop := {
  ag_bus : bus_ok m;
  ag_pmp : pmp_ok (csr m);
  ag_ram : Machine.ram m = ram k;
  ag_satp : Machine.satp (csr m) = satp (cpu k);
  ag_addr : Machine.pmpaddr (csr m) = pmpaddr (cpu k);
  ag_cfg0 : Csr.pmpcfg_word (csr m) 0 = Ok (pmpcfg0 (cpu k));
  ag_cfg1 : Csr.pmpcfg_word (csr m) 4 = Ok (pmpcfg1 (cpu k));
}.

(** Four bytes are those of their word. *)
Lemma cfg_word a b c d : is_u8 a -> is_u8 b -> is_u8 c -> is_u8 d -> a .| (b .<< 8) .| (c .<< 16) .| (d .<< 24) = a + 256 * b + 65536 * c + 16777216 * d.
Proof.
  unfold is_u8. intros Ha Hb Hc Hd. replace (a .| (b .<< 8) .| (c .<< 16) .| (d .<< 24)) with ((((d .<< 8) .| c) .<< 16) .| ((b .<< 8) .| a)).
  - rewrite !(lor_add _ _ 8) by lia. rewrite lor_add by lia. change (2 ^ 8) with 256. change (2 ^ 16) with 65536. lia.
  - apply Z.bits_inj'. intros n _. rewrite Z.shiftl_lor, Z.shiftl_shiftl by lia. change (8 + 16) with 24. rewrite !Z.lor_spec.
    by destruct (Z.testbit a n), (Z.testbit (b .<< 8) n), (Z.testbit (c .<< 16) n), (Z.testbit (d .<< 24) n).
Qed.

Section Hart.
Context {D E : Type} {BD : BlockDevice D} (B : board) (R : list Z) (k : kernel D E) (i : Z) (m : machine).
Abbreviation table := (table_address B).
Context (Hplaced : tables_placed B) (Hdev : devices_placed B) (Hi : 0 <= i < 8) (Hag : agrees k m) (Hram : ram_ok (ram k)) (Hmaps : entry_maps B R i k).
Context (Hprot : protects B (cpu k) i (proc_of k i)) (Hslots : in_slots (base (proc_of k i)) (span (proc_of k i))).
Context (Hend : page_tables B + 8 * PAGE_TABLES * PAGE_SIZE <= pagetables_end B <= OS_SLOT_BASE) (Hacc : 0 <= accelerators B /\ 0 <= accelerators_end B <= RAM_BASE).

Abbreviation cfg := (fun j => at_ (Machine.pmpcfg (csr m)) j).
Lemma cfg_u8 j : 0 <= j < 8 -> is_u8 (cfg j).
Proof.
  intros Hj. destruct (ag_pmp _ _ Hag) as ((L & Hf) & _). rewrite Forall_lookup_total in Hf. destruct (Hf (Z.to_nat j)) as (W & _); [lia|]. cbv beta. unfold at_, within, is_u8 in *. rewrite <- W.
  pose proof (land_range (Machine.pmpcfg (csr m) !!! Z.to_nat j) 0x9f ltac:(lia)). lia.
Qed.

Definition screen_cfg : Z := if tst (framebuffer B) then 11 else 0.
Definition engine_cfg : Z := if drives (proc_of k i) && tst (accelerators_end B) then 11 else 0.
Lemma cfgs : cfg 0 = 0 /\ cfg 1 = 15 /\ cfg 2 = 0 /\ cfg 3 = screen_cfg /\ cfg 4 = 0 /\ cfg 5 = engine_cfg /\ cfg 6 = 0 /\ cfg 7 = 9.
Proof.
  destruct Hprot as (_ & P0 & P1 & _). pose proof (ag_cfg0 _ _ Hag) as A0. pose proof (ag_cfg1 _ _ Hag) as A1. rewrite P0, CsrProofs.pmpcfg_word_eq in A0 by (done || apply Hag). rewrite P1, CsrProofs.pmpcfg_word_eq in A1 by (done || apply Hag).
  injection A0 as A0. injection A1 as A1. unfold CsrProofs.pmpcfg_packed in A0, A1.
  rewrite cfg_word in A0, A1 by (apply cfg_u8; lia). change (4 + 1) with 5 in A1. change (4 + 2) with 6 in A1. change (4 + 3) with 7 in A1. change (0 + 1) with 1 in A0. change (0 + 2) with 2 in A0. change (0 + 3) with 3 in A0.
  pose proof (cfg_u8 0 ltac:(lia)). pose proof (cfg_u8 1 ltac:(lia)). pose proof (cfg_u8 2 ltac:(lia)). pose proof (cfg_u8 3 ltac:(lia)). pose proof (cfg_u8 4 ltac:(lia)). pose proof (cfg_u8 5 ltac:(lia)).
  pose proof (cfg_u8 6 ltac:(lia)). pose proof (cfg_u8 7 ltac:(lia)). cbv beta in *. unfold is_u8 in *.
  assert (E0 : (((PMP_TOR .| PMP_R .| PMP_W .| PMP_X) .<< 8) .| (if tst (framebuffer B) then (PMP_TOR .| PMP_R .| PMP_W) .<< 24 else 0)) = 15 * 256 + 16777216 * screen_cfg) by (unfold screen_cfg; by destruct (tst (framebuffer B))).
  assert (E1 : (((if drives (proc_of k i) && tst (accelerators_end B) then PMP_TOR .| PMP_R .| PMP_W else 0) .<< 8) .| ((PMP_TOR .| PMP_R) .<< 24)) = 256 * engine_cfg + 16777216 * 9) by (unfold engine_cfg; by destruct (drives _ && _)).
  rewrite E0 in A0. rewrite E1 in A1. assert (Hs : screen_cfg = 0 \/ screen_cfg = 11) by (unfold screen_cfg; destruct (tst _); tauto). assert (He : engine_cfg = 0 \/ engine_cfg = 11) by (unfold engine_cfg; destruct (_ && _); tauto).
  splits; lia.
Qed.

Lemma match_off j w : cfg j = 0 -> Mmu.pmp_match (csr m) j w = None.
Proof. unfold Mmu.pmp_match. cbv beta zeta. by intros ->. Qed.
Lemma match_tor j w : 0 < j -> cfg j = 9 \/ cfg j = 11 \/ cfg j = 15 ->
  Mmu.pmp_match (csr m) j w = Some ((at_ (pmpaddr (cpu k)) (j - 1) <=? w) && (w <? at_ (pmpaddr (cpu k)) j)).
Proof.
  unfold Mmu.pmp_match. cbv beta zeta. rewrite (ag_addr _ _ Hag). intros Hj Hc. rewrite (proj2 (Z.eqb_neq j 0)) by lia. by destruct Hc as [->|[->| ->]].
Qed.

Abbreviation addr := (fun j => at_ (pmpaddr (cpu k)) j).
Abbreviation scan := (fun n j p a need => Mmu.pmp_scan n j p (csr m) (a .>> 2) need).
Lemma scan_off n j p a need : cfg j = 0 -> scan (S n) j p a need = scan n (j + 1) p a need.
Proof. intros Hc. cbn [Mmu.pmp_scan]. by rewrite match_off. Qed.
Lemma scan_past n j p a need : 0 < j -> cfg j = 0 \/ cfg j = 11 \/ cfg j = 15 -> ~ (addr (j - 1) <= a / 4 < addr j) -> scan (S n) j p a need = scan n (j + 1) p a need.
Proof.
  intros Hj Hc Ho. cbv beta in *. destruct Hc as [Hc|Hc]; [by apply scan_off|]. cbn [Mmu.pmp_scan]. rewrite match_tor by tauto. rewrite Z.shiftr_div_pow2 by lia. change (2 ^ 2) with 4.
  destruct (Z.leb_spec (at_ (pmpaddr (cpu k)) (j - 1)) (a / 4)), (Z.ltb_spec (a / 4) (at_ (pmpaddr (cpu k)) j)); try done. lia.
Qed.
Lemma scan_hit n j p a need : p <> PRIV_M -> 0 < j -> cfg j = 9 \/ cfg j = 11 \/ cfg j = 15 -> addr (j - 1) <= a / 4 < addr j -> scan (S n) j p a need = (cfg j .& need =? need).
Proof.
  intros Hp Hj Hc Ho. cbv beta in *. cbn [Mmu.pmp_scan]. rewrite match_tor by done. rewrite Z.shiftr_div_pow2 by lia. change (2 ^ 2) with 4.
  rewrite (proj2 (Z.leb_le _ _)), (proj2 (Z.ltb_lt _ _)) by lia. cbn [andb]. by rewrite (proj2 (Z.eqb_neq p PRIV_M)).
Qed.

(** Where the ranges are: the screen and the engines below RAM, then the tables, then the slots. *)
Lemma addrs : addr 0 = base (proc_of k i) / 4 /\ addr 1 = (base (proc_of k i) + span (proc_of k i)) / 4 /\ addr 2 = framebuffer B / 4 /\ addr 3 = (framebuffer B + framebuffer_size B) / 4
  /\ addr 4 = accelerators B / 4 /\ addr 5 = accelerators_end B / 4 /\ addr 6 = page_tables B / 4 /\ addr 7 = pagetables_end B / 4.
Proof.
  destruct Hprot as (PA & _). destruct Hdev as (D1 & D2 & D3 & _). destruct Hslots as (S1 & S2 & S3 & _). unfold RAM_BASE, OS_SLOT_BASE, SLOTS_END in *. rewrite PA.
  rewrite !(u32_id _) by (unfold is_u32; lia). unfold at_. cbn. by rewrite !Z.shiftr_div_pow2 by lia.
Qed.

Lemma screen_off : cfg 3 = 0 \/ cfg 3 = 11 \/ cfg 3 = 15.
Proof. destruct cfgs as (_ & _ & _ & -> & _). unfold screen_cfg. destruct (tst _); tauto. Qed.
Lemma engine_off : cfg 5 = 0 \/ cfg 5 = 11 \/ cfg 5 = 15.
Proof. destruct cfgs as (_ & _ & _ & _ & _ & -> & _). unfold engine_cfg. destruct (_ && _); tauto. Qed.

(** The walk may read the page tables. *)
Lemma walk_reads a : page_tables B <= a -> a + 4 <= page_tables B + 8 * PAGE_TABLES * PAGE_SIZE -> a mod 4 = 0 -> Mmu.pmp_allows PRIV_S (csr m) a Mmu.PMP_R = true.
Proof.
  intros Ha1 Ha2 Ha3. destruct cfgs as (C0 & C1 & C2 & _ & C4 & _ & C6 & C7). destruct addrs as (A0 & A1 & A2 & A3 & A4 & A5 & A6 & A7). destruct Hplaced as (T1 & T2 & T3). destruct Hdev as (D1 & D2 & D3 & _).
  destruct Hslots as (S1 & S2 & S3 & _). unfold RAM_BASE, OS_SLOT_BASE, SLOTS_END, PAGE_TABLES, PAGE_SIZE in *. unfold Mmu.pmp_allows. cbv beta in *.
  rewrite scan_off by done. change (0 + 1) with 1. rewrite (scan_past _ 1) by (cbv beta; change (1 - 1) with 0; rewrite ?A0, ?A1; tauto || zlia). rewrite scan_off by done. change (1 + 1 + 1) with 3.
  rewrite (scan_past _ 3) by (cbv beta; change (3 - 1) with 2; rewrite ?A2, ?A3; apply screen_off || zlia). rewrite scan_off by done. change (3 + 1 + 1) with 5.
  rewrite (scan_past _ 5) by (cbv beta; change (5 - 1) with 4; rewrite ?A4, ?A5; apply engine_off || zlia). rewrite scan_off by done. change (5 + 1 + 1) with 7.
  rewrite scan_hit by (cbv beta; change (7 - 1) with 6; rewrite ?A6, ?A7; done || tauto || zlia). by rewrite C7.
Qed.

(** ** The walk *)

Definition in_tables (a : Z) : Prop := page_tables B <= a /\ a + 4 <= page_tables B + 8 * PAGE_TABLES * PAGE_SIZE /\ a mod 4 = 0.

Lemma entry_read a : in_tables a ->
  tst (u64 a .>> 32) || negb (Bus.in_ram (u32 (u64 a)) 4) || negb (Mmu.pmp_allows PRIV_S (csr m) (u32 (u64 a)) Mmu.PMP_R) = false
  /\ Bus.ram_read m (u32 (u64 a)) 4 = Ok (word (ram k) a).
Proof.
  intros (H1 & H2 & H3). destruct Hplaced as (T1 & T2 & _). assert (Hu : is_u32 a) by (unfold is_u32, RAM_BASE, OS_SLOT_BASE in *; lia). pose proof Hu as Hu'. unfold is_u32 in Hu'.
  assert (E64 : u64 a = a) by (unfold u64; rewrite Z.mod_small by lia; done). rewrite E64, (u32_id a) by done. rewrite walk_reads by done.
  assert (Hin : Bus.in_ram a 4 = true).
  { unfold Bus.in_ram, Machine.RAM_BASE, Machine.RAM_SIZE. unfold RAM_BASE, OS_SLOT_BASE, PAGE_TABLES, PAGE_SIZE in *. rewrite u32_id by (unfold is_u32; lia). rewrite !(proj2 (Z.leb_le _ _)) by lia. done. }
  rewrite Hin. cbn [negb]. rewrite !orb_false_r. split.
  - rewrite Z.shiftr_div_pow2 by lia. rewrite Z.div_small by lia. done.
  - destruct (@wpr_total _ (Bus.ram_read m a 4) (fun v => v = word (ram k) a)) as (v & -> & ->); [|done]. apply (@BusProofs.ram_read_wp total); [apply Hag|done|lia|done|]. unfold word. by rewrite (ag_ram _ _ Hag).
Qed.

Abbreviation index va sh := ((va .>> sh) .& 0x3ff).
Lemma index_div va sh : 0 <= sh -> index va sh = va / 2 ^ sh mod 1024.
Proof. intros H. change 0x3ff with (Z.ones 10). rewrite Z.land_ones, Z.shiftr_div_pow2 by lia. done. Qed.

Lemma walk_absent level t va kind p : in_tables (t + 4 * index va (if (0 <? level)%nat then 22 else 12)) -> word (ram k) (t + 4 * index va (if (0 <? level)%nat then 22 else 12)) = 0 ->
  Mmu.walk level m t va kind p = Ok ACC_PAGE_FAULT.
Proof. intros Ha Hw. destruct (entry_read _ Ha) as (G & Er). destruct level; cbn [Mmu.walk]; rewrite G, Er, Hw; done. Qed.

Lemma walk_pointer t t' va kind p : in_tables (t + 4 * index va 22) -> 0 <= t' < 0x100000000 -> t' mod 4096 = 0 -> word (ram k) (t + 4 * index va 22) = pointer_to t' ->
  Mmu.walk 1 m t va kind p = Mmu.walk 0 m t' va kind p.
Proof.
  intros Ha Ht Ht4 Hw. destruct (entry_read _ Ha) as (G & Er). destruct (pointer_to_spec t' Ht Ht4) as (_ & _ & Ep). cbn [Mmu.walk]. change (0 <? 1)%nat with true. cbv iota. rewrite G, Er, Hw.
  cbn [mbind res_bind]. unfold pointer_to in *. unfold PTE_V in *. rewrite !pte_flags by done. by rewrite Ep.
Qed.

Lemma leaf_value_nonzero rights q : rights <> 0 -> leaf_value rights q <> 0.
Proof.
  intros Hr H. unfold leaf_value in H. rewrite (proj2 (Z.eqb_neq _ _)) in H by done. apply (f_equal (fun z => Z.testbit z 0)) in H. rewrite !Z.lor_spec, Z.bits_0 in H.
  change (Z.testbit PTE_V 0) with true in H. rewrite !orb_true_r in H. done.
Qed.

(** What a leaf with the rights lets the process do: everything, or everything but execute. *)
Definition permits (rights : Z) (kind : Mmu.walk_kind) : bool := match kind with Mmu.WALK_FETCH => tst (rights .& PTE_X) | _ => true end.

Lemma walk_leaf t va kind rights q : in_tables (t + 4 * index va 12) -> rights = LEAF_RWX \/ rights = LEAF_RWX .& not32 PTE_X -> is_u32 va -> q = va / 4096 ->
  word (ram k) (t + 4 * index va 12) = leaf_value rights q ->
  Mmu.walk 0 m t va kind PRIV_U = Ok (if permits rights kind then ACC_OK va else ACC_PAGE_FAULT).
Proof.
  intros Ha Hr Hva Hq Hw. destruct (entry_read _ Ha) as (G & Er). cbn [Mmu.walk]. change (0 <? 0)%nat with false. cbv iota. rewrite G, Er, Hw. cbn [mbind res_bind andb]. unfold is_u32 in Hva.
  assert (Hfl : exists fl, leaf_value rights q = (q .<< 10) .| fl /\ (fl = 0xdf /\ rights = LEAF_RWX \/ fl = 0xd7 /\ rights = LEAF_RWX .& not32 PTE_X)).
  { unfold leaf_value. destruct Hr as [->| ->]; [exists 0xdf|exists 0xd7]; (split; [rewrite <- !Z.lor_assoc; reflexivity|tauto]). }
  destruct Hfl as (fl & -> & Hfl). assert (Hf : 0 <= fl < 1024) by (destruct Hfl as [[-> _]|[-> _]]; lia).
  assert (Eo : (q .<< 12) .| (va .& 0xfff) = va). { change 0xfff with (Z.ones 12). rewrite Z.land_ones by lia. rewrite lor_add by (try lia; apply Z.mod_pos_bound; lia). subst q. change (2 ^ 12) with 4096. zlia. }
  unfold Mmu.leaf_allows. unfold Mmu.PTE_V, Mmu.PTE_R, Mmu.PTE_W, Mmu.PTE_X, Mmu.PTE_U, Mmu.PTE_A, Mmu.PTE_D. change (2 .| 8) with 10. rewrite !pte_flags by (done || lia). rewrite pte_page by done. rewrite Eo.
  rewrite Z.shiftr_div_pow2 by lia. rewrite (Z.div_small va) by lia. rewrite u32_id by done.
  destruct Hfl as [[-> ->]|[-> ->]]; destruct kind; reflexivity.
Qed.

(** What the layout lets a process reach: its own pages for everything, the screen and the windows of its engines for data. *)
Definition reaches (s : address_space) (kind : Mmu.walk_kind) (q : Z) : bool :=
  if drives_engines s && window_page (engine_windows B) q then permits (LEAF_RWX .& not32 PTE_X) kind
  else if screen_page B q then permits (LEAF_RWX .& not32 PTE_X) kind else own_page s q.

Lemma layout_reaches s q kind : (exists rights, layout B s q = leaf_value rights q /\ (rights = LEAF_RWX \/ rights = LEAF_RWX .& not32 PTE_X) /\ permits rights kind = reaches s kind q)
  \/ layout B s q = 0 /\ reaches s kind q = false.
Proof.
  unfold layout, laid, reaches. cbv zeta. destruct (drives_engines s && window_page (engine_windows B) q); [left; eexists; split; [done|tauto]|].
  destruct (screen_page B q); [left; eexists; split; [done|tauto]|]. destruct (own_page s q); [|by right]. left. exists LEAF_RWX. split; [done|]. split; [by left|by destruct kind].
Qed.

Lemma satp_root : tst (satp (cpu k) .& Mmu.SATP_MODE) = true /\ (satp (cpu k) .& Mmu.SATP_PPN) .<< 12 = table i 0.
Proof.
  destruct Hprot as (_ & _ & _ & Es). destruct (table_place B Hplaced i 0 Hi ltac:(lia)) as (T1 & T2 & T3 & _). unfold RAM_BASE, OS_SLOT_BASE in *. rewrite Es. set (t := table i 0) in *.
  assert (Hs : 0 <= t .>> 12 < 2 ^ 22) by (rewrite Z.shiftr_div_pow2 by lia; change (2 ^ 12) with 4096; change (2 ^ 22) with 4194304; zlia).
  change SATP_SV32 with (1 .<< 31). rewrite lor_add by lia. split.
  - change Mmu.SATP_MODE with (2 ^ 31). rewrite tst_land_pow2 by lia. apply Z.testbit_true; [lia|]. rewrite Z.add_comm, Z.div_add by lia. rewrite Z.div_small by lia. done.
  - change Mmu.SATP_PPN with (Z.ones 22). rewrite Z.land_ones by lia. rewrite Z.shiftl_mul_pow2 by lia. rewrite Z.shiftr_div_pow2 in * by lia.
    replace ((1 * 2 ^ 31 + t / 2 ^ 12) mod 2 ^ 22) with (t / 2 ^ 12); [change (2 ^ 12) with 4096; zlia|].
    rewrite <- (Z.mod_small (t / 2 ^ 12) (2 ^ 22)) at 1 by lia. replace (1 * 2 ^ 31) with (2 ^ 9 * 2 ^ 22) by done. by rewrite Z.add_comm, Z.mod_add by lia.
Qed.

Lemma table_entry t j : 0 <= t < 7 -> 0 <= j < 1024 -> in_tables (table i t + 4 * j).
Proof. intros Ht Hj. destruct (table_place B Hplaced i t Hi Ht) as (T1 & T2 & T3 & T4). unfold in_tables, table_address, PAGE_TABLES, PAGE_SIZE in *. splits; [lia|lia|zlia]. Qed.

Lemma translate_layout (HR : (length R <= 6)%nat) va kind : is_u32 va ->
  Mmu.translate m va kind PRIV_U = Ok (if reaches (space_of k i) kind (va / 4096) then ACC_OK va else ACC_PAGE_FAULT).
Proof.
  intros Hva. destruct satp_root as (S1 & S2). unfold Mmu.translate. rewrite (ag_satp _ _ Hag), S1, S2. cbn [negb orb]. change (PRIV_U =? PRIV_M) with false. cbv iota.
  set (q := va / 4096). assert (Hva' := Hva). unfold is_u32 in Hva'. assert (I1 : index va 22 = q / 1024) by (rewrite index_div by lia; change (2 ^ 22) with 4194304; unfold q; zlia).
  assert (I0 : index va 12 = q mod 1024) by (rewrite index_div by lia; done). assert (Hq : 0 <= q < 2 ^ 20) by (unfold q; change (2 ^ 20) with 1048576; zlia). assert (Hr : 0 <= q / 1024 < 1024) by (change (2 ^ 20) with 1048576 in Hq; zlia).
  assert (Hj : 0 <= q mod 1024 < 1024) by (apply Z.mod_pos_bound; lia).
  destruct Hmaps as ((used & Hnd & Hn & Hin & Hptr & Habs) & _ & Hleaf). specialize (Hleaf q Hq). unfold leaf in Hleaf.
  destruct (in_dec Z.eq_dec (q / 1024) used) as [Hu|Hu].
  - destruct (used_index used _ Hu) as (t & Ht & Et). specialize (Hptr t Ht). rewrite Et in Hptr.
    assert (Hlen : (length used <= length R)%nat) by (apply NoDup_incl_length; [by apply NoDup_ListNoDup|]; intros r Hr'; by apply Hin).
    destruct (table_place B Hplaced i (t + 1) Hi ltac:(lia)) as (T1 & T2 & T3 & _). unfold RAM_BASE, OS_SLOT_BASE in *.
    destruct (pointer_to_spec (table i (t + 1)) ltac:(lia) T3) as (_ & Pv & Pp). rewrite Hptr, Pv, Pp in Hleaf.
    rewrite (walk_pointer _ (table i (t + 1))); [|rewrite I1; apply table_entry; lia|lia|done|by rewrite I1].
    destruct (layout_reaches (space_of k i) q kind) as [(rights & El & Hri & Hp)|(El & ->)]; rewrite El in Hleaf.
    + rewrite (walk_leaf _ va kind rights q); [by rewrite Hp|rewrite I0; apply table_entry; lia|done|done|done|by rewrite I0].
    + apply (walk_absent 0); [cbn; rewrite I0; apply table_entry; lia|cbn; by rewrite I0].
  - specialize (Habs _ Hr Hu). rewrite Habs in Hleaf. destruct (layout_reaches (space_of k i) q kind) as [(rights & El & Hri & Hp)|(El & ->)]; rewrite El in Hleaf.
    + exfalso. change (tst (0 .& PTE_V)) with false in Hleaf. cbv iota in Hleaf. apply (leaf_value_nonzero rights q); [destruct Hri as [->| ->]; done|done].
    + apply (walk_absent 1); [cbn; rewrite I1; apply table_entry; lia|cbn; by rewrite I1].
Qed.

(** What the protection registers grant the process: its own memory for everything, the screen
    and, if it drives them, the engines' region for data, and the page tables for reading. *)
Definition grants (p : proc) (a need : Z) : Prop :=
  base p <= a < base p + span p
  \/ need <> Mmu.PMP_X /\ framebuffer B <> 0 /\ framebuffer B <= a < framebuffer B + framebuffer_size B
  \/ need <> Mmu.PMP_X /\ drives p = true /\ accelerators B <= a < accelerators_end B
  \/ need = Mmu.PMP_R /\ page_tables B <= a /\ a / 4 < pagetables_end B / 4.

(** A [TOR] entry [j] decides, or the entries after it do. *)
Lemma scan_tor n j a need lo hi : 0 < j -> cfg j = 0 \/ cfg j = 9 \/ cfg j = 11 \/ cfg j = 15 -> addr (j - 1) = lo / 4 -> addr j = hi / 4 -> lo mod 4 = 0 ->
  scan (S n) j PRIV_U a need = if (negb (cfg j =? 0)) && (lo <=? a) && (a / 4 <? hi / 4) then cfg j .& need =? need else scan n (j + 1) PRIV_U a need.
Proof.
  intros Hj Hc A0 A1 Hm. cbv beta in *. assert (Hlo : (lo / 4 <=? a / 4) = (lo <=? a)) by (destruct (Z.leb_spec lo a), (Z.leb_spec (lo / 4) (a / 4)); try done; zlia).
  cbn [Mmu.pmp_scan]. destruct Hc as [Hc|Hc]; [rewrite match_off by done; by rewrite Hc|]. rewrite match_tor by done. rewrite Z.shiftr_div_pow2 by lia. change (2 ^ 2) with 4. rewrite A0, A1, Hlo.
  rewrite (proj2 (Z.eqb_neq (at_ (Machine.pmpcfg (csr m)) j) 0)) by (destruct Hc as [->|[->| ->]]; done). cbn [negb andb]. destruct (lo <=? a), (a / 4 <? hi / 4); done.
Qed.

Context (Hgrain : framebuffer B mod 4 = 0 /\ framebuffer_size B mod 4 = 0 /\ accelerators B mod 4 = 0 /\ accelerators_end B mod 4 = 0).

Lemma range_decide p q r s : (p <=? q) && (r <? s) = bool_decide (p <= q /\ r < s).
Proof. destruct (Z.leb_spec p q), (Z.ltb_spec r s); [by rewrite bool_decide_true|by rewrite bool_decide_false by lia..]. Qed.
Lemma below_words a hi : hi mod 4 = 0 -> (a / 4 <? hi / 4) = (a <? hi).
Proof. intros Hm. destruct (Z.ltb_spec (a / 4) (hi / 4)), (Z.ltb_spec a hi); try done; zlia. Qed.

Lemma pmp_grants a need : need = Mmu.PMP_R \/ need = Mmu.PMP_W \/ need = Mmu.PMP_X ->
  Mmu.pmp_allows PRIV_U (csr m) a need = true <-> grants (proc_of k i) a need.
Proof.
  intros Hn. destruct cfgs as (C0 & C1 & C2 & C3 & C4 & C5 & C6 & C7). destruct addrs as (A0 & A1 & A2 & A3 & A4 & A5 & A6 & A7). destruct Hslots as (S1 & S2 & S3 & S4 & S5). destruct Hgrain as (G1 & G2 & G3 & G4).
  destruct Hplaced as (T1 & T2 & T3). destruct Hdev as (D1 & D2 & D3 & _). unfold Mmu.pmp_allows. pose proof screen_off as Hso. pose proof engine_off as Heo. cbv beta in *.
  rewrite scan_off by done. change (0 + 1) with 1. rewrite (scan_tor _ 1 _ _ _ _ ltac:(lia) ltac:(cbv beta; tauto) A0 A1) by zlia. rewrite scan_off by done. change (1 + 1 + 1) with 3.
  rewrite (scan_tor _ 3 _ _ _ _ ltac:(lia) ltac:(cbv beta; tauto) A2 A3) by done. rewrite scan_off by done. change (3 + 1 + 1) with 5. rewrite (scan_tor _ 5 _ _ _ _ ltac:(lia) ltac:(cbv beta; tauto) A4 A5) by done.
  rewrite scan_off by done. change (5 + 1 + 1) with 7. rewrite (scan_tor _ 7 _ _ _ _ ltac:(lia) ltac:(cbv beta; tauto) A6 A7) by (unfold PAGE_SIZE in *; zlia).
  rewrite C1, C3, C5, C7. rewrite (below_words a (base (proc_of k i) + span (proc_of k i))), (below_words a (framebuffer B + framebuffer_size B)), (below_words a (accelerators_end B)) by zlia.
  change (Mmu.pmp_scan 0 _ _ _ _ _) with false. change (negb (15 =? 0)) with true. change (negb (9 =? 0)) with true.
  unfold grants, screen_cfg, engine_cfg. unfold RAM_BASE, OS_SLOT_BASE, SLOTS_END, PAGE_TABLES, PAGE_SIZE in *.
  assert (Ef : tst (framebuffer B) = negb (framebuffer B =? 0)) by done. assert (Ee : tst (accelerators_end B) = negb (accelerators_end B =? 0)) by done. rewrite Ef, Ee.
  destruct Hacc as (Q1 & Q2). destruct (drives (proc_of k i)); destruct (Z.eqb_spec (framebuffer B) 0), (Z.eqb_spec (accelerators_end B) 0); cbn [negb andb];
    change (negb (11 =? 0)) with true; change (negb (0 =? 0)) with false; cbn [andb];
    destruct Hn as [->|[->| ->]]; unfold Mmu.PMP_R, Mmu.PMP_W, Mmu.PMP_X; cbn -[Z.div Z.leb Z.ltb Z.modulo];
    rewrite !range_decide; repeat case_bool_decide; split; intros Hgoal; try done; try lia; intuition lia.
Qed.

(** In memory a process reaches only its own slots. *)
Lemma reaches_own kind q : settled (proc_of k i) (space_of k i) -> RAM_BASE <= 4096 * q -> reaches (space_of k i) kind q = true ->
  base (proc_of k i) <= 4096 * q < base (proc_of k i) + span (proc_of k i).
Proof.
  intros (_ & Eb & Es & _) Hq H. destruct Hmaps as (_ & L & _). destruct L as ((L1 & L2 & L3 & L4 & L5) & G1 & G2 & G3). rewrite Eb, Es in *. destruct Hdev as (D1 & D2 & D3 & Hw).
  unfold reaches in H. assert (Hwin : window_page (engine_windows B) q = false).
  { apply not_true_is_false. intros Hx. apply existsb_exists in Hx as ([b n] & Hin & Hx). unfold windows_placed in Hw. rewrite List.Forall_forall in Hw. destruct (Hw _ Hin) as (W1 & W2 & W3).
    unfold RAM_BASE in *. rewrite u32_id in Hx by (unfold is_u32; lia). apply andb_true_iff in Hx as [_ Hx]. apply Z.ltb_lt in Hx. lia. }
  rewrite Hwin, andb_false_r in H. assert (Hscr : screen_page B q = false).
  { unfold screen_page, in_range. unfold RAM_BASE in *. rewrite u32_id by (unfold is_u32; lia). rewrite (proj2 (Z.ltb_ge _ _)) by lia. by rewrite !andb_false_r. }
  rewrite Hscr in H. unfold own_page, in_range in H. rewrite Eb, Es in H. unfold OS_GUARD_SIZE, OS_SLOT_BASE, SLOTS_END in *. rewrite !u32_id in H by (unfold is_u32; lia).
  apply orb_true_iff in H as [H|H]; apply andb_true_iff in H as [H1 H2]; apply Z.leb_le in H1; apply Z.ltb_lt in H2; zlia.
Qed.
End Hart.
End KernelIsolation.
