(* ===== verification/KernelSpecs.v ===== *)
(** * What the kernel promises

    The system is user code, the idle loop and traps, from what [kernel_main] leaves.
    In every state it reaches the processes have disjoint memory, their page tables
    hold exactly their layout, a file has one writer or readers only and the floating
    registers one owner; no trap is undefined, and a trap of one process does not touch
    another.  With the emulator's own translation a process reaches only its pages, the
    screen and the engines it was given, and a ready process gets its turn. *)

From S2P Require Import Prelude Effects Buffer Fs FsProofs FsSpecs Kernel KernelTables KernelProofs KernelCalls KernelTraps KernelBoot.
From S2P Require Import Machine Bus Mmu Csr Cpu Run MachineOk BusProofs RunProofs KernelIsolation.

Module KernelSpecs.
Import Fs FsProofs Kernel KernelTables KernelProofs KernelCalls KernelTraps KernelBoot KernelIsolation.

(** Where the image, its tables and the devices are: what [discover] checks of the tree.  The
    engines' region spans their windows, and the protection registers' grain divides the regions. *)
Definition board_ok (B : board) : Prop :=
  tables_placed B /\ devices_placed B /\ disk_bytes B
  /\ page_tables B + 8 * PAGE_TABLES * PAGE_SIZE <= pagetables_end B <= OS_SLOT_BASE /\ (0 <= accelerators B /\ 0 <= accelerators_end B <= RAM_BASE)
  /\ (framebuffer B mod 4 = 0 /\ framebuffer_size B mod 4 = 0 /\ accelerators B mod 4 = 0 /\ accelerators_end B mod 4 = 0)
  /\ Forall (fun '(b, n) => accelerators B <= b /\ b + n <= accelerators_end B) (engine_windows B).

Section System.
Context {D E : Type} {BD : BlockDevice D} {BDO : BlockDeviceOk D} {PF : Platform E} {PL : Polls} (B : board) (why : D -> option String.string).
Implicit Types (k : kernel D E).

(** ** The system's steps *)

(** User code of process [i] ran: its registers changed and its own memory, which is all it
    reaches (see [process_reaches_its_pages]), and the devices it drives.  Its floating point stays
    as it was, or it was on and its status says dirty: user mode cannot turn it on or off. *)
Definition user_ran (i : Z) k k' : Prop :=
  exists fr b e fp0, frame_ok fr
    /\ (fp0 = fpu (cpu k) /\ mstatus fr .& MSTATUS_FS = mstatus (f (proc_of k i)) .& MSTATUS_FS \/ fs_on (proc_of k i) = true /\ mstatus fr .& MSTATUS_FS = MSTATUS_FS)
    /\ ram_ok b /\ outside_same (base (proc_of k i)) (base (proc_of k i) + span (proc_of k i)) (ram k) b
    /\ k' = {| (put_proc i {| (proc_of k i) with f := fr |} k) with ram := b; env := e; cpu := {| (cpu k) with fpu := fp0 |} |}.

(** An engine's job goes on: the DMA window held it to the slots of the process that started it,
    which may have ended since, so it may write anywhere in the slots. *)
Definition engine_ran k k' : Prop :=
  exists b e, ram_ok b /\ outside_same OS_SLOT_BASE SLOTS_END (ram k) b /\ k' = {| k with ram := b; env := e |}.

(** A trap is taken while fewer than 2^32 - 2 processes have been started: pids do not wrap. *)
Inductive step : kernel D E -> kernel D E -> Prop :=
  | user_step k i k' : current k = Some i -> user_ran i k k' -> step k k'
  | engine_step k k' : engine_ran k k' -> step k k'
  | idle_step k fr e : current k = None -> step k {| k with idle_frame := fr; env := e |}
  | trap_step k cause tval next k' : next_pid k < 0xffffffff -> kernel_trap B why (current k) cause tval k = Ok (Some next, k') -> step k k'.

(** The disk's driver answered [capacity] sectors, less than 4 GiB. *)
Definition starts (k0 : kernel D E) : Prop :=
  exists hart0 capacity fs0 ram0 cpu0 env0 next, capacity < 0x800000 /\ FsSpecs.fs_ready fs0 /\ mounted fs0 = false /\ ram_ok ram0
    /\ kernel_main B hart0 capacity (at_boot fs0 ram0 cpu0 env0) = Ok (Some next, k0).
Definition reachable k : Prop := exists k0, starts k0 /\ rtc step k0 k.

(** ** The invariant of the system *)

(** [R] is the budget of page tables that [check_page_table_budget] accepted. *)
Record system_ok (R : list Z) k : Prop := {
  ok_inv : kernel_inv B R None k;
  ok_current : forall i, current k = Some i -> resumes B i k;
  ok_budget : page_table_budget B = Some R;
  ok_disk : ramdisk_ok B;
}.

Context (HB : board_ok B).

Lemma start_ok k0 : starts k0 -> exists R, system_ok R k0.
Proof.
  intros (hart0 & cap & fs0 & ram0 & cpu0 & env0 & next & Hc & Hf & Hm & Hr & Erun). destruct HB as (Hp & Hd & Hdb & _).
  set (R := default [] (page_table_budget B)). exists R.
  pose proof (@kernel_main_wp D E BD BDO PF PL B R partial (or_introl I) Hp Hd) as H. unfold wp in H. specialize (H ltac:(intros r Er; unfold R; by rewrite Er) hart0 cap fs0 ram0 cpu0 env0 Hdb Hc).
  rewrite Erun in H. destruct H as (HR & Hdisk & Hk & Hn); [split; [done|congruence]|done|done|]. constructor; try done.
  intros i Hi. destruct next as [j|]; [|congruence]. pose proof Hn as (_ & Ej & _). congruence.
Qed.

Lemma user_ok_step R k i k' : system_ok R k -> current k = Some i -> user_ran i k k' -> system_ok R k'.
Proof.
  intros [Hk Hc Hb Hd] Ec (fr & b & e & fp0 & Hfr & Hfs & Hram & Hout & ->). pose proof (Hc i Ec) as (Hi & _ & Hs & Hp). destruct HB as (Hpl & Hdv & _).
  destruct (budget_covers B R Hb Hdv) as (HL & _). set (p' := {| (proc_of k i) with f := fr |}).
  assert (Hwf := proj2 (k_procs _ _ _ _ Hk) i Hi). destruct Hwf as (W1 & W2 & W3 & W4 & W5 & W6 & W7). assert (Ha : alive (proc_of k i) = true) by (unfold alive; by rewrite Hs).
  assert (Hon : fs_on p' = true -> fs_on (proc_of k i) = true) by (unfold fs_on, p'; cbn [f]; destruct Hfs as [(_ & ->)|(Hf & _)]; done).
  assert (Hdirty : mstatus (f (proc_of k i)) .& MSTATUS_FS = MSTATUS_FS -> mstatus fr .& MSTATUS_FS = MSTATUS_FS) by (destruct Hfs as [(_ & ->)|(_ & ->)]; done).
  assert (Hk1 : kernel_inv B R None (put_proc i p' k)).
  { apply like_inv; [done|done|]. split; [split; [exact Hfr|by splits]|]. splits; first [reflexivity|exact Hon|exact Hdirty|exact (fun H => H)]. }
  pose proof (inv_len B R None k Hk) as Hlen.
  assert (Epr : proc_of (put_proc i p' k) i = p') by (rewrite proc_of_put by (done || lia); by rewrite Z.eqb_refl).
  assert (Hruns : runs None i (put_proc i p' k)) by (split; [done|]; split; [done|]; rewrite Epr; exact Ha).
  destruct (own_store B R Hpl HL None i _ _ b _ Hk1 Hruns Hram Hout) as (Hk2 & _); [by rewrite Epr|by rewrite Epr|].
  set (c := {| (cpu k) with fpu := fp0 |}). destruct (set_idle_inv B R (Some i) None (idle_frame k) c _ Hk2) as (Hk3 & _); [reflexivity|reflexivity|reflexivity|reflexivity| |].
  { destruct Hfs as [(-> & _)|(Hf & Hm)]; [exact (k_coherent _ _ _ _ Hk2)|]. intros j Ho. left. change (fpu_owner k = Some j) in Ho. rewrite (proj1 (k_fpu _ _ _ _ Hk) i Hi ltac:(done) Ha Hf) in Ho. injection Ho as <-.
    match goal with |- context [proc_of ?t i] => change (proc_of t i) with (proc_of (put_proc i p' k) i) end. rewrite Epr. exact Hm. }
  match goal with |- system_ok R ?t => assert (Ht : core t = core (set_idle (idle_frame k) c (put_ram b (put_proc i p' k)))) by done; assert (Hk4 := inv_same B R None _ _ Ht Hk3) end.
  constructor; try done. intros j Ej. assert (j = i) as -> by (cbn in Ej; congruence). split; [done|]. split; [done|]. match goal with |- context [proc_of ?t i] => change (proc_of t i) with (proc_of (put_proc i p' k) i) end.
  rewrite Epr. split; [done|]. exact Hp.
Qed.

Lemma engine_ok_step R k k' : system_ok R k -> engine_ran k k' -> system_ok R k'.
Proof.
  intros [Hk Hc Hb Hd] (b & e & Hram & Hout & ->). destruct HB as (Hpl & Hdv & _). destruct (budget_covers B R Hb Hdv) as (HL & _).
  constructor; try done. apply (inv_same B R None (put_ram b k)); [done|]. by eapply (slots_inv B R Hpl HL).
Qed.

Lemma trap_ok `{F : Fuelled} R k cause tval : waits (D := D) (E := E) B -> system_ok R k -> next_pid k < 0xffffffff -> wp (kernel_trap B why (current k) cause tval) (ends (trap_post B R (current k) k)) k.
Proof.
  intros Hw [Hk Hc Hb Hd] Hn. destruct HB as (Hpl & Hdv & _). destruct (budget_covers B R Hb Hdv) as (HL & Hcov). apply kernel_trap_wp; try done.
  destruct (current k) as [i|] eqn:Ec; [|done]. by apply (Hc i eq_refl).
Qed.

Lemma trap_post_ok R who k next k' : system_ok R k -> trap_post B R who k next k' -> system_ok R k'.
Proof.
  intros [Hk Hc Hb Hd] (Hk' & _ & Hn). constructor; try done. intros i Ei. destruct next as [j|]; [|congruence]. pose proof Hn as (_ & Ej & _). congruence.
Qed.

Lemma system_step_ok R k k' : system_ok R k -> step k k' -> system_ok R k'.
Proof.
  intros Hs Hst. destruct Hst as [k i k' Ec Hu|k k' Hu|k fr e Ec|k cause tval next k' Hn Erun].
  - by eapply user_ok_step.
  - by eapply engine_ok_step.
  - destruct Hs as [Hk Hc Hb Hd]. constructor; [by apply (inv_same B R None k)|exact Hc|done|done].
  - pose proof (@trap_ok partial R k cause tval (or_introl I) Hs Hn) as H. unfold wp in H. rewrite Erun in H. by eapply trap_post_ok.
Qed.

Lemma system_reachable_ok k : reachable k -> exists R, system_ok R k.
Proof.
  intros (k0 & H0 & Hr). destruct (start_ok k0 H0) as (R & HR). exists R. clear H0. induction Hr as [k|k1 k2 k3 Hs _ IH]; [done|]. apply IH. by eapply system_step_ok.
Qed.
End System.

(** ** The next process *)

Section Turns.
Context {D E : Type} {BD : BlockDevice D} {PF : Platform E} {PL : Polls} (B : board).
Implicit Types (k : kernel D E).
#[local] Existing Instance partial.

(** A ready process the scheduler may take at once: it drives the engines, or no engine is in use. *)
Definition eligible (j : Z) k : Prop := state (proc_of k j) = READY /\ (drives (proc_of k j) = true \/ engines_used k = false).

(** [wake_blocked] only makes processes ready. *)
Definition woken k k' : Prop := exists ps e, k' = {| k with procs := ps; env := e |} /\ length ps = 8%nat
  /\ forall j, 0 <= j < 8 -> at_ ps j = proc_of k j \/ at_ ps j = with_state READY (proc_of k j).

Lemma woken_refl k : length (procs k) = 8%nat -> woken k k.
Proof. intros Hl. exists (procs k), (env k). split; [by destruct k|]. split; [done|]. intros j Hj. by left. Qed.
Lemma woken_env k k' e : woken k k' -> woken k (put_env e k').
Proof. intros (ps & e0 & -> & H). by exists ps, e. Qed.
Lemma woken_set i k k' : 0 <= i < 8 -> woken k k' -> woken k (put_proc i (with_state READY (proc_of k' i)) k').
Proof.
  intros Hi (ps & e & -> & Hl & H). eexists _, e. split; [unfold put_proc; cbn [procs]; reflexivity|]. split; [by rewrite length_insert|]. intros j Hj.
  destruct (Z.eq_dec i j) as [->|Hne].
  - right. specialize (H j Hj). unfold at_ in *. rewrite list_lookup_total_insert by lia. unfold proc_of at 1. cbn [procs]. unfold at_. rewrite decide_True by lia. by destruct H as [->| ->].
  - unfold at_. rewrite list_lookup_total_insert_ne by lia. by apply H.
Qed.

Lemma wake_from_woken n i ready now k k0 (Q : () -> kernel D E -> Prop) : woken k0 k -> 0 <= i -> i + Z.of_nat n = 8 -> (forall k', woken k0 k' -> Q () k') -> wp (wake_from B n i ready now) Q k.
Proof.
  revert i ready now k. induction n as [|n IH]; intros i ready now k Hk Hi Hn HQ; cbn [wake_from]; [wp1; by apply HQ|]. pose proof Hk as (ps & e & Ek & Hl & _).
  assert (Hw : waits (D := D) (E := E) B) by (by left). wp1. apply proc_at_wp; [by rewrite Ek|lia|].
  assert (Hset : forall (b : bool) r w k1, woken k0 k1 -> wp (when b (set_state i READY);; wake_from B n (i + 1) r w) Q k1).
  { intros b r w k1 Hk1. pose proof Hk1 as (ps1 & e1 & E1 & L1 & _). wp1. wp1; [|apply IH; [done|lia|lia|done]]. unfold set_state. apply upd_proc_wp; [by rewrite E1|lia|]. apply IH; [apply woken_set; [lia|done]|lia|lia|done]. }
  wp1; [|wp1; [|apply IH; [done|lia|lia|done]]].
  - wp1. apply wp_env; [destruct ready; envs|]. intros b e1. apply Hset. by apply woken_env.
  - wp1. apply wp_env; [envs|]. intros w e1. apply Hset. by apply woken_env.
Qed.

(** The first candidate from [start] at or before the [t]th. *)
Lemma ready_from_turn n start off busy t k (Q : option Z -> kernel D E -> Prop) : length (procs k) = 8%nat -> eligible ((start + t) mod 8) k -> off <= t < off + Z.of_nat n ->
  (drives (proc_of k ((start + t) mod 8)) = true \/ busy = None \/ busy = Some false) ->
  (forall u k', procs k' = procs k -> off <= u <= t -> Q (Some ((start + u) mod 8)) k') -> wp (ready_from B n start off busy) Q k.
Proof.
  intros Hl (Hs & He). revert off busy k Hl Hs He. induction n as [|n IH]; intros off busy k Hl Hs He Ht Hb HQ; [lia|]. cbn [ready_from]. cbv zeta. unfold MAX_PROCS.
  wp1. apply proc_at_wp; [done|zlia|].
  assert (Hbusy : drives (proc_of k ((start + t) mod 8)) = false -> forall (Q' : bool -> kernel D E -> Prop), Q' false k -> wp (match busy with Some b => mret b | None => engines_busy B end) Q' k).
  { intros Hd Q' H'. destruct He as [He|He]; [congruence|]. destruct Hb as [Hb|[->| ->]]; [congruence| |by wp1]. unfold engines_busy. wp1. wp1. unfold id. rewrite He. by wp1. }
  destruct (Z.eq_dec off t) as [->|Hne].
  - rewrite bool_decide_true by done. cbn [negb]. wp1; [wp1; apply HQ; [done|lia]|]. wp1. apply Hbusy; [done|]. wp1. apply HQ; [done|lia].
  - assert (Hnext : forall busy' k', procs k' = procs k -> engines_used k' = engines_used k \/ drives (proc_of k ((start + t) mod 8)) = true ->
      (drives (proc_of k ((start + t) mod 8)) = true \/ busy' = None \/ busy' = Some false) -> wp (ready_from B n start (off + 1) busy') Q k').
    { intros busy' k' Ep Eu Hb'. assert (Epr : forall j, proc_of k' j = proc_of k j) by (intros j; unfold proc_of; by rewrite Ep).
      apply IH; [by rewrite Ep|by rewrite Epr|rewrite Epr; destruct Eu as [->|Eu]; [done|by left]|lia|by rewrite Epr|]. intros u k2 Ep2 Hu. apply HQ; [congruence|lia]. }
    wp1; [apply Hnext; auto|]. wp1; [wp1; apply HQ; [done|lia]|]. wp1. destruct (drives (proc_of k ((start + t) mod 8))) eqn:Hd; [|apply Hbusy; [done|]; wp1; apply HQ; [done|lia]].
    eapply (wp_mono _ (fun _ k' => procs k' = procs k)); [destruct busy; [by wp1|]; apply engines_busy_quiet; intros b k' Ec; by apply core_procs|].
    intros b k' Ep. wp1; [apply Hnext; auto|]. wp1. apply HQ; [done|lia].
Qed.

(** How many entries the scheduler looks at before [j]'s, after the process [last]. *)
Definition position (j : Z) (last : option Z) : Z := (j - match last with Some c => c + 1 | None => 0 end) mod 8.

(** The hart is given up: the current process does not run on. *)
Definition gives_up k : Prop := length (procs k) = 8%nat /\ from_option (fun c => 0 <= c < 8 /\ state (proc_of k c) <> RUNNING) True (current k).

Lemma schedule_turn j k (Q : option Z -> kernel D E -> Prop) : gives_up k -> 0 <= j < 8 -> eligible j k ->
  (forall i k', 0 <= i < 8 -> i = j \/ position j (Some i) < position j (current k) -> Q (Some i) k') -> wp (schedule B) Q k.
Proof.
  intros (Hl & Hc) Hj (Hs & He) HQ. unfold schedule, wake_blocked. wp1. apply (wake_from_woken 8 0 _ _ k k); [by apply woken_refl|lia|done|].
  intros k1 (ps & e & -> & Hps & Hw). set (k1 := {| k with procs := ps; env := e |}). wp1. wp1. unfold id.
  assert (Hrun : from_option (fun c => 0 <= c < 8 /\ state (proc_of k1 c) <> RUNNING) True (current k1)).
  { cbn [current k1]. destruct (current k) as [c|]; [|done]. cbn in Hc |- *. destruct Hc as (Hc1 & Hc2). split; [done|]. unfold proc_of. cbn [procs k1]. destruct (Hw c Hc1) as [->| ->]; done. }
  assert (Hel : eligible j k1). { unfold eligible, proc_of. cbn [procs k1 engines_used]. destruct (Hw j Hj) as [->| ->]; done. }
  eapply (wp_bind _ _ _ _). eapply (wp_mono _ (fun r k2 => r = false /\ k2 = k1)).
  { destruct (current k1) as [c|]; [|by wp1]. destruct Hrun as (Hc1 & Hc2). wp1. apply proc_at_wp; [done|done|]. wp1. by rewrite bool_decide_false. }
  intros r k2 (-> & ->). wp1. wp1. unfold next_ready. change (current k1) with (current k). unfold position in HQ |- *. set (start := match current k with Some i => i + 1 | None => 0 end) in *.
  set (t := (j - start) mod 8) in *. assert (Ej : (start + t) mod 8 = j) by (unfold t; rewrite Z.add_mod_idemp_r by lia; replace (start + (j - start)) with j by lia; apply Z.mod_small; lia). assert (Hpos : 0 <= t < 8) by (apply Z.mod_pos_bound; lia).
  apply (ready_from_turn 8 start 0 None t); [done|by rewrite Ej|lia|by right; left|]. intros u k2 Ep2 Hu. set (i := (start + u) mod 8).
  assert (Hi : 0 <= i < 8) by (unfold i; zlia). assert (Hq : i = j \/ (j - (i + 1)) mod 8 < t).
  { destruct (Z.eq_dec u t) as [->|Hne]; [by left|right]. unfold i. rewrite <- Ej. rewrite <- Zminus_mod_idemp_l, Z.mod_mod, Zminus_mod_idemp_l by lia.
    rewrite Zminus_mod, Z.add_mod_idemp_l, <- Zminus_mod by lia. replace (start + t - (start + u + 1)) with (t - u - 1) by lia. rewrite Z.mod_small by lia. lia. }
  assert (Hlast : forall k3, length (procs k3) = 8%nat -> wp (p ← proc_at i; when (drives p) (modify (fun k => {| k with engines_used := true |}));; protect B i;; mret (Some i)) Q k3).
  { intros k3 H3. wp1. apply proc_at_wp; [done|done|]. wp1. eapply (wp_mono _ (fun _ k4 => length (procs k4) = 8%nat)); [by wp1; [wp1|]|]. intros [] k4 H4. wp1. unfold protect. wp1. apply proc_at_wp; [done|done|].
    do 2 wp1. wp1; [wp1; wp1; by apply HQ|]. wp1. wp1. eapply (wp_mono _ (fun _ _ => True)); [apply wp_env; [envs|done]|]. intros [] k5 _. wp1. by apply HQ. }
  do 3 wp1. unfold set_state. apply upd_proc_wp; [cbn [procs]; rewrite Ep2; exact Hps|done|]. wp1. apply Hlast. unfold put_proc. cbn [procs]. rewrite length_insert, Ep2. exact Hps.
Qed.
End Turns.

(** ** Theorems *)

Section Theorems.
Context {D E : Type} {BD : BlockDevice D} {BDO : BlockDeviceOk D} {PF : Platform E} {PL : Polls} (B : board) (why : D -> option String.string).
Implicit Types (k : kernel D E).

(** C1: From what [kernel_main] leaves, whatever user programs do with their own registers
    and memory and whatever causes they trap with, the kernel's invariant holds in every
    state: live processes are in disjoint slots with page tables that hold exactly their
    layout, an open file has one writer or only readers, one process runs and the hart's
    protection registers are its, the floating registers have one owner.  No trap is
    undefined, and when the devices answer within the polls every trap returns, with a
    process to resume or with the machine stopped.  Pids are 32 bits and the set-up of the
    hart is cached by pid, so this is of systems that have started fewer than 2^32 - 2
    processes, as the steps and the last part say. *)
Theorem kernel_reachable_safe k : board_ok B -> reachable B why k ->
  (exists R, page_table_budget B = Some R /\ kernel_inv B R None k) /\ (forall i, current k = Some i -> resumes B i k)
  /\ (next_pid k < 0xffffffff -> forall cause tval,
        kernel_trap B why (current k) cause tval k <> Stuck
        /\ (prompt (D := D) (E := E) B -> exists r k', kernel_trap B why (current k) cause tval k = Ok (r, k') /\ (r = None -> stopped k' = true))).
Proof.
  intros HB Hr. destruct (system_reachable_ok B why HB k Hr) as (R & Hk). pose proof Hk as [Hi Hc Hb _]. split; [by exists R|]. split; [done|]. intros Hn cause tval. split.
  - pose proof (@trap_ok _ _ _ _ _ _ B why HB partial R k cause tval (or_introl I) Hk Hn) as H. unfold wp in H. intros Es. by rewrite Es in H.
  - intros Hp. destruct (wp_total _ _ _ (@trap_ok _ _ _ _ _ _ B why HB total R k cause tval (or_intror Hp) Hk Hn)) as (r & k' & Er & He). exists r, k'. split; [done|]. intros ->. exact He.
Qed.

(** C3: Whatever the running process trapped for, a system call with any arguments, a fault or an
    interrupt, the whole of the kernel's handling leaves every other live process as it was:
    alive, with its registers, its memory, its open files, its pid, name and heap, and its stack
    guard.  (While fewer than 2^32 - 2 processes have been started.) *)
Theorem trap_leaves_the_others k cause tval next k' : board_ok B -> reachable B why k -> next_pid k < 0xffffffff ->
  kernel_trap B why (current k) cause tval k = Ok (Some next, k') -> others (current k) k k'.
Proof.
  intros HB Hr Hn Erun. destruct (system_reachable_ok B why HB k Hr) as (R & Hk).
  pose proof (@trap_ok _ _ _ _ _ _ B why HB partial R k cause tval (or_introl I) Hk Hn) as H. unfold wp in H. rewrite Erun in H. by destruct H as (_ & H & _).
Qed.

(** C2: On the emulated hart, with the registers and the memory the kernel leaves, a running
    process reaches at every address exactly what its layout grants, at that same address: its
    own pages but the guard for any access, the screen and its engines' windows for data, and
    a page fault anywhere else.  So no address of another live process and no address of the
    kernel is reached.  Behind the page tables the physical protection grants it exactly its own
    memory, for data the screen and, if it drives them, the engines' region, which holds their
    windows, and the reading of page tables.  (While fewer than 2^32 - 2 processes have been
    started, as in [step].) *)
Theorem process_reaches_its_pages k i m : board_ok B -> reachable B why k -> current k = Some i -> agrees k m ->
  (forall va kind, is_u32 va -> Mmu.translate m va kind PRIV_U = Ok (if reaches B (space_of k i) kind (va / 4096) then ACC_OK va else ACC_PAGE_FAULT))
  /\ (forall a need, need = Mmu.PMP_R \/ need = Mmu.PMP_W \/ need = Mmu.PMP_X -> Mmu.pmp_allows PRIV_U (csr m) a need = true <-> grants B (proc_of k i) a need)
  /\ (forall b n a need, In (b, n) (engine_windows B) -> b <= a < b + n -> drives (proc_of k i) = true -> need = Mmu.PMP_R \/ need = Mmu.PMP_W -> Mmu.pmp_allows PRIV_U (csr m) a need = true)
  /\ (forall va kind, RAM_BASE <= va < OS_SLOT_BASE -> Mmu.translate m va kind PRIV_U = Ok ACC_PAGE_FAULT)
  /\ (forall j va kind, 0 <= j < 8 -> j <> i -> alive (proc_of k j) = true -> base (proc_of k j) <= va < base (proc_of k j) + span (proc_of k j) ->
        Mmu.translate m va kind PRIV_U = Ok ACC_PAGE_FAULT).
Proof.
  intros HB Hr Ec Hag. destruct (system_reachable_ok B why HB k Hr) as (R & [Hk Hc Hb _]). destruct (Hc i Ec) as (Hi & _ & Hs & Hp). pose proof HB as (Hpl & Hdv & _ & He & Ha & Hg & Hwin).
  destruct (budget_covers B R Hb Hdv) as (HL & _). assert (Hal : alive (proc_of k i) = true) by (unfold alive; by rewrite Hs).
  pose proof (k_settled _ _ _ _ Hk i Hi ltac:(done) Hal) as Hset. assert (Hm : entry_maps B R i k) by (destruct (proj2 (k_spaces _ _ _ _ Hk) i Hi); [by destruct Hset|done]).
  destruct (runs_place B R None i k Hk) as (Hin & _); [by split|]. pose proof (translate_layout B R k i m Hpl Hdv Hi Hag Hm Hp Hin He Ha HL) as HT.
  assert (HO : forall kind q, RAM_BASE <= 4096 * q -> reaches B (space_of k i) kind q = true -> base (proc_of k i) <= 4096 * q < base (proc_of k i) + span (proc_of k i)) by (intros kind q; by eapply reaches_own). pose proof Hin as (S1 & S2 & S3 & S4 & S5).
  assert (HP : forall a need, need = Mmu.PMP_R \/ need = Mmu.PMP_W \/ need = Mmu.PMP_X -> Mmu.pmp_allows PRIV_U (csr m) a need = true <-> grants B (proc_of k i) a need) by (intros a need; by eapply pmp_grants).
  assert (Hno : forall va kind, is_u32 va -> RAM_BASE <= va -> ~ (base (proc_of k i) <= va < base (proc_of k i) + span (proc_of k i)) -> Mmu.translate m va kind PRIV_U = Ok ACC_PAGE_FAULT).
  { intros va kind Hva Hlo Hout. rewrite HT by done. destruct (reaches _ _ _ _) eqn:Er; [|done]. exfalso. apply HO in Er; [|unfold RAM_BASE in *; zlia]. apply Hout. zlia. }
  split; [exact HT|]. split; [exact HP|]. split.
  { intros b n a need Hi1 Hab Hd Hn. apply HP; [tauto|]. rewrite List.Forall_forall in Hwin. destruct (Hwin _ Hi1) as (W1 & W2). right; right; left. split; [by destruct Hn as [->| ->]|]. split; [done|lia]. }
  split.
  - intros va kind Hv. apply Hno; unfold is_u32, RAM_BASE, OS_SLOT_BASE in *; lia.
  - intros j va kind Hj Hne Haj Hv. destruct (runs_place B R None j k Hk) as ((J1 & J2 & J3 & _) & _); [by split|]. unfold OS_SLOT_BASE, SLOTS_END, RAM_BASE in *.
    pose proof (k_apart _ _ _ _ Hk i j Hi Hj ltac:(congruence) Hal Haj) as Hap. unfold apart in Hap. apply Hno; unfold is_u32, RAM_BASE; lia.
Qed.

(** C6: When the running process traps on an instruction, the claim returns, and it claims the
    floating-point unit exactly if the process's floating point is off and the instruction is one
    the emulated hart refuses without it.  The claim saves the registers of the process that owned
    the unit if they are newer than its saved ones and loads those saved for the claimer, so every
    process has the floating registers it had; the claimer owns the unit with floating point on,
    and no other live process has it on.  Otherwise nothing changes. *)
Theorem claim_fpu_keeps_registers k i word : board_ok B -> reachable B why k -> current k = Some i ->
  exists claimed k', claim_fpu B i word k = Ok (Some claimed, k')
    /\ claimed = negb (fs_on (proc_of k i)) && Csr.floating_instruction word
    /\ (forall j, 0 <= j < 8 -> fp_view k' j = fp_view k j)
    /\ (claimed = true -> fpu_owner k' = Some i /\ fs_on (proc_of k' i) = true /\ forall j, 0 <= j < 8 -> j <> i -> alive (proc_of k' j) = true -> fs_on (proc_of k' j) = false)
    /\ (claimed = false -> k' = k).
Proof.
  intros HB Hr Ec. destruct (system_reachable_ok B why HB k Hr) as (R & [Hk Hc Hb _]). destruct (Hc i Ec) as (Hi & _ & Hs & _). pose proof HB as (_ & Hdv & _). destruct (budget_covers B R Hb Hdv) as (HL & _).
  assert (Hruns : runs None i k) by (split; [done|split; [done|]]; unfold alive; by rewrite Hs).
  assert (H := claim_fpu_wp (F := total) B R HL i word k Hk Hruns). unfold wp in H. destruct (claim_fpu B i word k) as [[[claimed|] k']| |] eqn:E1; try done.
  destruct H as (Hk' & _ & _ & Ecl & Hsame & Hown & Hid). exists claimed, k'. split; [done|]. split; [exact Ecl|]. split; [done|]. split; [|done].
  intros Hcl. destruct (Hown Hcl) as (Ho & Hon). split; [done|]. split; [done|]. intros j Hj Hne Ha. apply not_true_is_false. intros Hf. pose proof (proj1 (k_fpu _ _ _ _ Hk') j Hj ltac:(done) Ha Hf). congruence.
Qed.

(** C5: [map_process] returns and never runs out of tables: whether the entry was fresh or
    held the layout of an earlier process, its tables then hold the layout of its process and
    nothing else, every page of it and no other, and no memory but the entry's tables changes. *)
Theorem map_process_lays_out R k i stack0 : page_table_budget B = Some R -> tables_placed B -> devices_placed B ->
  0 <= i < 8 -> ram_ok (ram k) -> length (spaces k) = 8%nat -> length (procs k) = 8%nat -> tables (space_of k i) = 0 \/ entry_maps B R i k ->
  laid_out (space_for (proc_of k i) stack0 (space_of k i)) ->
  exists k', map_process B i stack0 k = Ok (Some (), k')
    /\ (forall q, 0 <= q < 2 ^ 20 -> leaf B (ram k') i q = layout B (space_for (proc_of k i) stack0 (space_of k i)) q)
    /\ outside_same (table_address B i 0) (table_address B (i + 1) 0) (ram k) (ram k') /\ procs k' = procs k
    /\ forall j, 0 <= j < 8 -> j <> i -> space_of k' j = space_of k j.
Proof.
  intros Hb Hp Hd Hi Hr Hls Hlp He Hlo. destruct (budget_covers B R Hb Hd) as (HL & Hcov).
  eassert (H : @wp total _ _ (map_process B i stack0) (fun r k' => r = Some () /\ _) k); [|destruct (wp_total _ _ _ H) as (r & k' & Er & -> & Hk'); exists k'; split; [exact Er|exact Hk']].
  apply (map_process_wp B R Hp HL); try done. intros b n Hb' Hn Ho s Hm. split; [done|]. split; [|split; [exact Ho|split; [done|]]].
  - intros q Hq. destruct Hm as (_ & _ & Hm). rewrite Hm by done. change (space_of (put_ram b (put_space i s k)) i) with (space_of (put_space i s k) i). rewrite space_of_put by (done || lia). by rewrite Z.eqb_refl.
  - intros j Hj Hne. change (space_of (put_ram b (put_space i s k)) j) with (space_of (put_space i s k) j). rewrite space_of_put by (done || lia). by rewrite (proj2 (Z.eqb_neq i j)) by congruence.
Qed.

(** C4: No ready process is passed over for ever: in any run of the system, among the next
    eight times the hart is given up while it stays ready (and either drives the engines or
    finds them unused), the scheduler takes it. *)
Theorem ready_process_gets_its_turn j (before : nat -> kernel D E) (next : nat -> option Z) (after : nat -> kernel D E) : 0 <= j < 8 ->
  (forall t, (forall u, (u < t)%nat -> next u <> Some j) -> gives_up (before t) /\ eligible j (before t) /\ schedule B (before t) = Ok (next t, after t)
     /\ forall u, t = S u -> current (before t) = next u) ->
  exists t, (t < 8)%nat /\ next t = Some j.
Proof.
  intros Hj Hrun.
  assert (Hall : forall t, (exists u, (u < t)%nat /\ next u = Some j) \/ (forall u, (u < t)%nat -> next u <> Some j) /\ position j (current (before t)) + Z.of_nat t <= 7).
  { induction t as [|t [(u & Hu & Eu)|(Hno & Hpos)]].
    - right. split; [intros u Hu; lia|]. unfold position. pose proof (Z.mod_pos_bound (j - match current (before 0%nat) with Some c => c + 1 | None => 0 end) 8 ltac:(lia)). lia.
    - left. exists u. split; [lia|done].
    - destruct (Hrun t Hno) as (Hg & He & Es & _). assert (H := schedule_turn B j (before t) (fun r _ => exists i, r = Some i /\ (i = j \/ position j (Some i) < position j (current (before t)))) Hg Hj He (fun i _ _ Hq => ex_intro _ i (conj eq_refl Hq))).
      unfold wp in H. rewrite Es in H. destruct H as (i & Ei & [->|Hlt]); [left; exists t; split; [lia|done]|]. destruct (decide (next t = Some j)) as [Et|Et]; [left; exists t; split; [lia|done]|]. right.
      assert (Hno' : forall u, (u < S t)%nat -> next u <> Some j) by (intros u Hu; destruct (decide (u = t)) as [->|]; [done|apply Hno; lia]). split; [done|].
      destruct (Hrun (S t) Hno') as (_ & _ & _ & Hcur). rewrite (Hcur t eq_refl), Ei. lia. }
  destruct (Hall 8%nat) as [(u & Hu & Eu)|(_ & Hpos)]; [by exists u|]. exfalso. unfold position in Hpos.
  pose proof (Z.mod_pos_bound (j - match current (before 8%nat) with Some c => c + 1 | None => 0 end) 8 ltac:(lia)). lia.
Qed.
End Theorems.

(** ** A small system *)

#[local] Existing Instances FsSpecs.memory_device FsSpecs.memory_device_ok.

(** Devices that are always ready, and a clock that ticks when it is read. *)
#[export] Instance quiet_platform : Platform Z := {
  read32 a e := (if a =? 0xbff8 then e else 0, if a =? 0xbff8 then e + 1 else e);
  write32 a v e := e;
  read8 a e := (if a =? 5 then 0x20 else 0, e);
  write8 a v e := e;
}.
#[export] Instance two_polls : Polls := 2%nat.

Definition entry_bytes (c load0 size0 offset0 : Z) : list Z :=
  c :: replicate 23 0 ++ concat (map word_bytes [load0; load0; size0; size0; offset0; 0; OS_SLOT_SIZE; 8192]).
(** Two programs, each of two instructions and the name of the other. *)
Definition tiny_disk : list Z :=
  concat (map word_bytes [RAMDISK_MAGIC; 2; 0; 0]) ++ entry_bytes 115 OS_SLOT_BASE 12 128 ++ entry_bytes 98 (OS_SLOT_BASE + OS_SLOT_SIZE) 12 128
  ++ concat (map word_bytes [115; 98; 98]).
Definition tiny : board :=
  {| console := 0; done_register := 0x100; clint := 0; plic := 0x10000; input := 0; input_source := 0; display := 0; framebuffer := 0x40000000;
     framebuffer_size := 0x12c00; palette := 0; boot_palette := []; gpu := 0; g3d := 0; accelerators := 0; accelerators_end := 0; engine_windows := [];
     dma_window := 0; tick := 1000; page_tables := 0x80040000; pagetables_end := 0x80080000; trap_vector := 0x80000100; kernel_idle := 0x80000200;
     idle_stack_top := 0x80090000; disk_base := 0; model := []; ramdisk := <[17%nat := 104]> tiny_disk |}.
Definition no_disk : fs_state FsSpecs.memory_disk :=
  {| directory := replicate 16 FsSpecs.no_file; corrupt := replicate 16 false; sector_buffer := replicate 512 0; sectors := 0; mounted := false;
     disk := {| FsSpecs.contents := fun _ => 0; FsSpecs.extent := 0; FsSpecs.failures := [] |} |}.
Definition reset_hart : hart := {| pmpaddr := replicate 8 0; pmpcfg0 := 0; pmpcfg1 := 0; satp := 0; mtvec := 0; mie := 0; mcounteren := 0; scounteren := 0; fpu := replicate 33 0 |}.
Definition power_on : kernel FsSpecs.memory_disk Z := at_boot no_disk (buf_zero RAM_SIZE) reset_hart 0.
Definition final {A} (r : res (option A * kernel FsSpecs.memory_disk Z)) : kernel FsSpecs.memory_disk Z :=
  match r with Ok (Some _, k) => k | _ => power_on end.
Definition shell : kernel FsSpecs.memory_disk Z := final (kernel_main tiny 0 0 power_on).

(** The shell asks for the second program, whose name it has at its own address 4. *)
Definition asking : frame :=
  let fr := f (proc_of shell 0) in {| fr with x := <[17%nat := 7]> (<[11%nat := OS_SLOT_BASE + 5]> (<[10%nat := OS_SLOT_BASE + 4]> (x fr))) |}.
Definition asked : kernel FsSpecs.memory_disk Z :=
  {| (put_proc 0 {| (proc_of shell 0) with f := asking |} shell) with ram := ram shell; env := env shell; cpu := {| (cpu shell) with fpu := fpu (cpu shell) |} |}.
Definition no_failure (d : FsSpecs.memory_disk) : option String.string := None.
Definition pair : kernel FsSpecs.memory_disk Z := final (kernel_trap tiny no_failure (Some 0) CAUSE_ECALL_U 0 asked).

Definition returned {A} (r : res (option A * kernel FsSpecs.memory_disk Z)) : bool := match r with Ok (Some _, _) => true | _ => false end.
Lemma returned_final {A} (r : res (option A * kernel FsSpecs.memory_disk Z)) : returned r = true -> exists a, r = Ok (Some a, final r).
Proof. destruct r as [[[a|] k]| |]; try done. by exists a. Qed.

Lemma tiny_ok : board_ok tiny.
Proof.
  unfold board_ok. splits; try done.
  - unfold devices_placed. splits; try done. by constructor.
  - split; [|by vm_compute]. apply List.Forall_forall. intros v Hv. assert (H : forallb (fun v => (0 <=? v) && (v <? 256)) (ramdisk tiny) = true) by (by vm_compute). rewrite forallb_forall in H. specialize (H v Hv). unfold is_u8. lia.
Qed.

Lemma tiny_prompt : prompt (D := FsSpecs.memory_disk) (E := Z) tiny.
Proof. intros k. by splits. Qed.

Lemma no_disk_ready : FsSpecs.fs_ready no_disk.
Proof.
  split; [done|]. split; [apply Forall_replicate; split; [done|split; [done|split; [done|split; [done|by repeat constructor]]]]|]. split; [done|]. split; [by apply Forall_replicate|done].
Qed.

Lemma shell_starts : starts tiny shell.
Proof.
  destruct (returned_final (kernel_main tiny 0 0 power_on)) as (next & E1); [by vm_compute|]. exists 0, 0, no_disk, (buf_zero RAM_SIZE), reset_hart, 0, next.
  split; [lia|]. split; [exact no_disk_ready|]. split; [reflexivity|]. split; [split; [by apply buf_zero_ok|reflexivity]|]. exact E1.
Qed.
Lemma shell_runs : current shell = Some 0.
Proof. by vm_compute. Qed.

Lemma asked_frame : frame_ok asking /\ mstatus asking .& MSTATUS_FS = mstatus (f (proc_of shell 0)) .& MSTATUS_FS.
Proof.
  assert (Hx : forallb (fun v => (0 <=? v) && (v <? 0x100000000)) (x asking) = true) by (vm_compute; reflexivity). assert (Hp : (0 <=? pc asking) && (pc asking <? 0x100000000) = true) by (vm_compute; reflexivity).
  assert (Hl : length (x asking) = 32%nat) by (vm_compute; reflexivity). assert (Hm : mstatus asking .& MSTATUS_FS = mstatus (f (proc_of shell 0)) .& MSTATUS_FS) by (vm_compute; reflexivity). generalize dependent asking. intros fr Hx Hp Hl Hm.
  split; [|exact Hm]. split; [exact Hl|]. rewrite forallb_forall in Hx. split; [|unfold is_u32; lia]. apply List.Forall_forall. intros v Hv. specialize (Hx v Hv). unfold is_u32. lia.
Qed.

#[local] Strategy opaque [shell asking pair].

Lemma shell_reachable : reachable tiny no_failure shell.
Proof. exists shell. split; [exact shell_starts|apply rtc_refl]. Qed.
Lemma shell_asks : step tiny no_failure shell asked.
Proof.
  destruct asked_frame as (Ha & Hf). destruct (system_reachable_ok tiny no_failure tiny_ok shell shell_reachable) as (R & [Hk _ _ _]). apply (user_step _ _ shell 0 asked shell_runs).
  exists asking, (ram shell), (env shell), (fpu (cpu shell)). split; [exact Ha|]. split; [left; split; [reflexivity|exact Hf]|]. split; [exact (k_ram _ _ _ _ Hk)|]. split; [apply outside_same_refl|reflexivity].
Qed.
Lemma asked_traps : step tiny no_failure asked pair.
Proof.
  destruct (returned_final (kernel_trap tiny no_failure (Some 0) CAUSE_ECALL_U 0 asked)) as (next & E1); [vm_compute; reflexivity|].
  assert (Ec : current asked = Some 0) by (vm_compute; reflexivity). apply (trap_step _ _ asked CAUSE_ECALL_U 0 next); [vm_compute; reflexivity|]. rewrite Ec. exact E1.
Qed.
Lemma pair_reachable : reachable tiny no_failure pair.
Proof. exists shell. split; [exact shell_starts|]. eapply rtc_l; [exact shell_asks|]. eapply rtc_l; [exact asked_traps|apply rtc_refl]. Qed.
Lemma pair_current : current pair = Some 0.
Proof. vm_compute. reflexivity. Qed.
Lemma pair_alive : alive (proc_of pair 1) = true /\ base (proc_of pair 1) = OS_SLOT_BASE + OS_SLOT_SIZE /\ span (proc_of pair 1) = OS_SLOT_SIZE.
Proof. vm_compute. by splits. Qed.
Lemma pair_pid : next_pid pair < 0xffffffff.
Proof. vm_compute. reflexivity. Qed.

(** The hart as the kernel leaves it, in the emulator. *)
Definition pair_csr : csr_state :=
  {| Run.emu_init_csr with Machine.pmpcfg := [0; 15; 0; 11; 0; 0; 0; 9]; Machine.pmpaddr := pmpaddr (cpu pair); Machine.satp := satp (cpu pair) |}.
Definition pair_machine : machine := upd_csr (fun _ => pair_csr) (set_ram (ram pair) Run.emu_init).
Lemma machine_with_ok b c : ram_ok b -> bus_ok (upd_csr (fun _ => c) (set_ram b Run.emu_init)).
Proof. intros Hb. exact (bus_ram Run.emu_init (proj1 (@RunProofs.emu_init_ok any_start _)) b Hb). Qed.
Lemma pair_agrees : agrees pair pair_machine.
Proof.
  destruct (system_reachable_ok tiny no_failure tiny_ok pair pair_reachable) as (R & [Hk _ _ _]). constructor; [| |reflexivity|reflexivity|reflexivity|vm_compute; reflexivity|vm_compute; reflexivity].
  - apply machine_with_ok. exact (k_ram _ _ _ _ Hk).
  - assert (Ea : Machine.pmpaddr pair_csr = [0x20040000; 0x20048000; 0x10000000; 0x10004b00; 0; 0; 0x20010000; 0x20020000]) by (vm_compute; reflexivity).
    split; [split; [reflexivity|]|]; [by repeat constructor|]. change (csr pair_machine) with pair_csr. rewrite Ea. split; [reflexivity|]. by repeat constructor.
Qed.

(** A timer interrupt while the shell runs. *)
Definition timer : Z := MCAUSE_INTERRUPT .| IRQ_MTI.
Definition ticked : kernel FsSpecs.memory_disk Z := final (kernel_trap tiny no_failure (Some 0) timer 0 pair).
Lemma ticked_run : exists next, kernel_trap tiny no_failure (Some 0) timer 0 pair = Ok (Some next, ticked).
Proof. destruct (returned_final (kernel_trap tiny no_failure (Some 0) timer 0 pair)) as (next & E1); [vm_compute; reflexivity|]. exists next. unfold ticked. exact E1. Qed.
#[local] Strategy opaque [ticked].

Lemma kernel_reachable_safe_witness : (exists R, page_table_budget tiny = Some R /\ kernel_inv tiny R None pair) /\ exists r k', kernel_trap tiny no_failure (current pair) timer 0 pair = Ok (r, k').
Proof.
  destruct (kernel_reachable_safe tiny no_failure pair tiny_ok pair_reachable) as (Hk & _ & Ht). split; [exact Hk|].
  destruct (proj2 (Ht pair_pid timer 0) tiny_prompt) as (r & k' & E1 & _). exists r, k'. exact E1.
Defined.

Lemma trap_leaves_the_others_witness : alive (proc_of pair 1) = true /\ alive (proc_of ticked 1) = true /\ same_process (proc_of pair 1) (proc_of ticked 1).
Proof.
  destruct ticked_run as (next & E1). rewrite <- pair_current in E1 at 1. pose proof (trap_leaves_the_others tiny no_failure pair timer 0 next ticked tiny_ok pair_reachable pair_pid E1) as Ho.
  destruct (Ho 1) as (Ha & Hp & _); [lia|rewrite pair_current; discriminate|exact (proj1 pair_alive)|]. split; [exact (proj1 pair_alive)|]. split; [exact Ha|exact Hp].
Defined.

Lemma process_reaches_its_pages_witness : Mmu.translate pair_machine 0x80120000 Mmu.WALK_LOAD PRIV_U = Ok ACC_PAGE_FAULT /\ Mmu.translate pair_machine 0x80100004 Mmu.WALK_FETCH PRIV_U = Ok (ACC_OK 0x80100004)
  /\ Mmu.pmp_allows PRIV_U (csr pair_machine) 0x40000010 Mmu.PMP_W = true.
Proof.
  destruct (process_reaches_its_pages tiny no_failure pair 0 pair_machine tiny_ok pair_reachable pair_current pair_agrees) as (Ht & Hp & _ & _ & Hj). destruct pair_alive as (A1 & A2 & A3). split; [|split].
  - apply (Hj 1); [lia|lia|exact A1|]. rewrite A2, A3. unfold OS_SLOT_BASE, OS_SLOT_SIZE. lia.
  - rewrite Ht by (unfold is_u32; lia). vm_compute. reflexivity.
  - apply Hp; [by right; left|]. right; left. split; [discriminate|]. split; [discriminate|]. split; [discriminate|reflexivity].
Defined.

Lemma claim_fpu_keeps_registers_witness : exists k', claim_fpu tiny 0 0x53 pair = Ok (Some true, k') /\ fpu_owner k' = Some 0.
Proof.
  destruct (claim_fpu_keeps_registers tiny no_failure pair 0 0x53 tiny_ok pair_reachable pair_current) as (c & k' & E1 & Ec & _ & Ho & _). assert (Eoff : fs_on (proc_of pair 0) = false) by (vm_compute; reflexivity).
  rewrite Eoff in Ec. change (c = true) in Ec. exists k'. rewrite <- Ec at 1. split; [exact E1|exact (proj1 (Ho Ec))].
Defined.

Lemma map_process_lays_out_witness : exists k', map_process tiny 0 8192 pair = Ok (Some (), k') /\ procs k' = procs pair.
Proof.
  destruct (system_reachable_ok tiny no_failure tiny_ok pair pair_reachable) as (R & [Hk Hc Hb _]). destruct tiny_ok as (Hp & Hd & _). destruct (k_spaces _ _ _ _ Hk) as (Hl & Hs).
  destruct (map_process_lays_out tiny R pair 0 8192 Hb Hp Hd ltac:(lia) (k_ram _ _ _ _ Hk) Hl (proj1 (k_procs _ _ _ _ Hk)) (Hs 0 ltac:(lia))) as (k' & E1 & _ & _ & E2 & _).
  - assert (E1 : let s := space_for (proc_of pair 0) 8192 (space_of pair 0) in (s_base s, s_span s, guard s) = (0x80100000, 0x20000, 0x8011e000)) by (vm_compute; reflexivity).
    cbv zeta in E1. generalize dependent (space_for (proc_of pair 0) 8192 (space_of pair 0)). intros s [= Eb Es Eg]. unfold laid_out, in_slots. rewrite Eb, Es, Eg. by splits.
  - exists k'. split; [exact E1|exact E2].
Defined.

(** The shell yields to the second program. *)
Definition yielding : kernel FsSpecs.memory_disk Z := put_proc 0 (with_state READY (proc_of pair 0)) pair.
Definition chosen (r : res (option Z * kernel FsSpecs.memory_disk Z)) : option Z := match r with Ok (n, _) => n | _ => None end.
Definition then_state (r : res (option Z * kernel FsSpecs.memory_disk Z)) : kernel FsSpecs.memory_disk Z := match r with Ok (_, k) => k | _ => power_on end.

Lemma gives_up_intro (k : kernel FsSpecs.memory_disk Z) c : length (procs k) = 8%nat -> current k = Some c -> 0 <= c < 8 -> state (proc_of k c) <> RUNNING -> gives_up k.
Proof. intros Hl Hc Hr Hs. split; [exact Hl|]. rewrite Hc. by split. Qed.

Lemma ready_process_gets_its_turn_witness : exists t, (t < 8)%nat /\ (fun _ : nat => chosen (schedule tiny yielding)) t = Some 1.
Proof.
  assert (Ec : chosen (schedule tiny yielding) = Some 1) by (vm_compute; reflexivity).
  assert (Er : schedule tiny yielding = Ok (chosen (schedule tiny yielding), then_state (schedule tiny yielding))).
  { revert Ec. by destruct (schedule tiny yielding) as [[n k]| |]. }
  apply (ready_process_gets_its_turn tiny 1 (fun _ => yielding) _ (fun _ => then_state (schedule tiny yielding))); [lia|]. intros [|t] Hno; [|by destruct (Hno 0%nat ltac:(lia))].
  assert (Hg : length (procs yielding) = 8%nat /\ current yielding = Some 0 /\ state (proc_of yielding 0) = READY /\ state (proc_of yielding 1) = READY /\ engines_used yielding = false) by (vm_compute; by splits).
  destruct Hg as (L & C & S0 & S1 & U). split; [apply (gives_up_intro _ 0 L C); [lia|rewrite S0; discriminate]|]. split; [split; [exact S1|right; exact U]|]. split; [exact Er|]. intros u Hu. discriminate Hu.
Defined.
End KernelSpecs.
