(* ===== verification/Discover.v ===== *)
(** * What the kernel finds in the device tree

    [find_reg], [find] and [discover] of os/kernel.c, over the reader of fdt.c, and the
    kernel's entry, which runs [discover] and then the rest of [kernel_main].  The static
    variables [discover] fills in are the [board]; those found so far are what a message
    is printed with.  On the tree in the emulator's boot ROM the kernel finds every device
    where the emulator's bus has it, and a board the safety theorems hold for. *)

From Stdlib Require Import String.
From S2P Require Import Prelude Effects Buffer Simd4 Gpu G3d Dtb Machine Devices Virtio Bus.
From S2P Require Import Fdt FdtProofs Fs FsProofs FsSpecs Kernel KernelTables KernelProofs KernelCalls KernelTraps KernelBoot KernelSpecs.

Module Discover.
Import Bus Fdt Fs Kernel KernelTables KernelProofs KernelTraps KernelBoot KernelSpecs.

Definition KERNEL_TICK : Z := 10000.
Definition RV32_DONE : Z := 0x00100000.

Definition status_number (s : fdt_status) : Z :=
  match s with
  | FDT_BAD_MAGIC => 1 | FDT_BAD_VERSION => 2 | FDT_BAD_LAYOUT => 3 | FDT_NOT_FOUND => 4 | FDT_TOO_WIDE => 5 | FDT_NO_REG => 6 | FDT_NO_PROPERTY => 7
  end.

(** The windows of the engines. *)
Definition engines : list (string * Z) :=
  [("tiny-processors,simd4", 0); ("tiny-processors,simd4", 1); ("tiny-processors,simd4", 2); ("tiny-processors,g1", 0); ("tiny-processors,g2", 0)]%string.

(** Assignments to the static variables. *)
Definition set_done v B : board := {| B with done_register := v |}.
Definition set_console v B : board := {| B with console := v |}.
Definition set_clint v B : board := {| B with clint := v |}.
Definition set_plic v B : board := {| B with plic := v |}.
Definition set_input v B : board := {| B with input := v |}.
Definition set_input_source v B : board := {| B with input_source := v |}.
Definition set_display v B : board := {| B with display := v |}.
Definition set_framebuffer v size B : board := {| B with framebuffer := v; framebuffer_size := size |}.
Definition set_palette v colours B : board := {| B with palette := v; boot_palette := colours |}.
Definition set_disk v B : board := {| B with disk_base := v |}.
Definition set_gpu v B : board := {| B with gpu := v |}.
Definition set_g3d v B : board := {| B with g3d := v |}.
Definition set_window v B : board := {| B with dma_window := v |}.
Definition set_tick v B : board := {| B with tick := v |}.
Definition set_model v B : board := {| B with model := v |}.
(** One more window of the engines, and the region that spans them. *)
Definition add_window (base size : Z) (B : board) : board :=
  {| B with
     engine_windows := engine_windows B ++ [(base, size)];
     accelerators := if negb (tst (accelerators_end B)) || (base <? accelerators B) then base else accelerators B;
     accelerators_end := if accelerators_end B <? u32 (base + size) then u32 (base + size) else accelerators_end B |}.

Section Discover.
Context {D E : Type} {BD : BlockDevice D} {PF : Platform E} {PL : Polls}.
Abbreviation KM := (ST (kernel D E)).

Definition find_reg (B : board) (t : fdt) (compatible : string) (index : Z) : KM (option (option (Z * Z))) :=
  status ← lift (fdt_find t (cstring "compatible") (cstring compatible) index);
  match status with
  | inr found => mret (Some (Some found))
  | inl s =>
      if bool_decide (s = FDT_NOT_FOUND) then mret (Some None)
      else
        ksay B "kernel: device tree: ";; ksay B compatible;; ksay B " status ";; kputdec B (status_number s);; kputc B 10;;
        panic B "device tree"
  end.
Arguments find_reg B t compatible%_string index.

Definition find (B : board) (t : fdt) (compatible : string) (index : Z) (required : bool) : KM (option Z) :=
  found ←! find_reg B t compatible index;
  match found with
  | Some (base, _) => mret (Some base)
  | None =>
      if required then ksay B "kernel: device tree: no ";; ksay B compatible;; kputc B 10;; panic B "device tree"
      else mret (Some 0)
  end.
Arguments find B t compatible%_string index required.

(** The first "virtio,mmio" node with a block device behind it; 0 when there is none. *)
Fixpoint find_disk (n : nat) (B : board) (t : fdt) (node : Z) : KM (option Z) :=
  match n with
  | O => no_fuel
  | S n' =>
      status ← lift (fdt_find_nth t (cstring "compatible") (cstring "virtio,mmio") node 0);
      match status with
      | inl s => if bool_decide (s = FDT_NOT_FOUND) then mret (Some 0) else panic B "virtio node"
      | inr (base, _) => id ← mmio_read32 (u32 (base + 8)); if id =? 2 then mret (Some base) else find_disk n' B t (node + 1)
      end
  end.

(** The windows that are there. *)
Fixpoint find_engines (l : list (string * Z)) (B : board) (t : fdt) : KM (option board) :=
  match l with
  | [] => mret (Some B)
  | (compatible, index) :: l' =>
      found ←! find_reg B t compatible index;
      match found with
      | None => find_engines l' B t
      | Some (base, size) => find_engines l' (add_window base size B) t
      end
  end.

(** At most 47 characters of the C string at [a]. *)
Fixpoint model_from (n : nat) (b : buffer) (a : Z) : res (list Z) :=
  c ← buf_get b a;
  if c =? 0 then mret [] else match n with O => mret [] | S n' => l ← model_from n' b (a + 1); mret (c :: l) end.

Definition find_input (B : board) (t : fdt) : KM (option board) :=
  base ←! find B t "tiny-processors,input" 0 false;
  if tst base then
    source ← lift (fdt_cell t (cstring "compatible") (cstring "tiny-processors,input") (cstring "interrupts") 0);
    match source with
    | inl _ => panic (set_input base B) "input without interrupts"
    | inr s => mret (Some (set_input_source s (set_input base B)))
    end
  else mret (Some (set_input base B)).

Definition find_display (B : board) (t : fdt) : KM (option board) :=
  base ←! find B t "tiny-processors,display" 0 false;
  let B := set_display base B in
  if tst base then
    pixels ← lift (fdt_find t (cstring "compatible") (cstring "tiny-processors,display") 1);
    match pixels with
    | inl _ => panic B "display without a framebuffer"
    | inr (fb, fb_size) =>
        let B := set_framebuffer fb fb_size B in
        colours ← lift (fdt_find t (cstring "compatible") (cstring "tiny-processors,display") 2);
        match colours with
        | inl _ => panic B "display without a palette"
        | inr (pal, pal_size) =>
            if pal_size <? 4 * OS_PALETTE_ENTRIES then panic B "display without a palette"
            else l ← read_colours 256 pal; mret (Some (set_palette pal l B))
        end
    end
  else mret (Some B).

Definition find_window (B : board) (t : fdt) : KM (option board) :=
  found ←! find_reg B t "tiny-processors,dma-window" 0;
  let '(window, size) := default (0, 0) found in
  let B := set_window window B in
  if (tst (gpu B) || tst (g3d B)) && negb (tst window) then panic B "g1 or g2 without a DMA window"
  else if tst window && tst (accelerators_end B) && (accelerators B <? u32 (window + size)) && (window <? accelerators_end B)
  then panic B "the DMA window inside the accelerators' region"
  else mret (Some B).

Definition find_tick (t : fdt) (tick0 : Z) : res Z :=
  timebase ← fdt_cell t (cstring "@name") (cstring "cpus") (cstring "timebase-frequency") 0;
  mret (match timebase with inr v => if 10000 <=? v then v / 10000 else tick0 | inl _ => tick0 end).
Definition find_model (t : fdt) : res (list Z) :=
  name ← fdt_root_string t (cstring "model");
  match name with inr a => model_from 47 (blob t) a | inl _ => mret (message "unknown") end.

(** [B] is the board with nothing found, the linker's addresses in it. *)
Definition discover (B : board) (tree : buffer) : KM (option board) :=
  opened ← lift (fdt_open tree);
  match opened with
  | inl _ =>
      mmio_write32 RV32_DONE ((254 .<< 16) .| RV32_DONE_FAIL);; modify (fun k => {| k with stopped := true |});; mret None
  | inr t =>
      done0 ←! find B t "sifive,test0" 0 true;
      let B := set_done done0 B in
      console0 ←! find B t "tiny-processors,console" 0 false;
      console0 ←! (if tst console0 then mret (Some console0) else find B t "ns16550a" 0 true);
      let B := set_console console0 B in
      clint0 ←! find B t "riscv,clint0" 0 true;
      let B := set_clint clint0 B in
      plic0 ←! find B t "riscv,plic0" 0 true;
      let B := set_plic plic0 B in
      B ←! find_input B t;
      B ←! find_display B t;
      disk ←! find_disk (walk_fuel t) B t 0;
      let B := set_disk disk B in
      gpu0 ←! find B t "tiny-processors,g1" 0 false;
      let B := set_gpu gpu0 B in
      g3d0 ←! find B t "tiny-processors,g2" 0 false;
      let B := set_g3d g3d0 B in
      B ←! find_engines engines B t;
      B ←! find_window B t;
      tick0 ← lift (find_tick t (tick B));
      name ← lift (find_model t);
      mret (Some (set_model name (set_tick tick0 B)))
  end.

(** The whole of [kernel_main]; [sectors] is what [virtio_init] answers for the disk that was found. *)
Definition kernel_entry (B : board) (hart0 : Z) (tree : buffer) (sectors : Z -> Z) : KM (option (board * option Z)) :=
  B ←! discover B tree;
  next ←! kernel_main B hart0 (sectors (disk_base B));
  mret (Some (B, next)).
End Discover.

(** The static variables before [discover]: the linker's addresses, and zeros. *)
Definition undiscovered (tables tables_end vector idle stack_top : Z) (disk : list Z) : board :=
  {| console := 0; done_register := 0; clint := 0; plic := 0; input := 0; input_source := 0; display := 0; framebuffer := 0; framebuffer_size := 0;
     palette := 0; boot_palette := replicate 256 0; gpu := 0; g3d := 0; accelerators := 0; accelerators_end := 0; engine_windows := []; dma_window := 0;
     tick := KERNEL_TICK; page_tables := tables; pagetables_end := tables_end; trap_vector := vector; kernel_idle := idle; idle_stack_top := stack_top;
     disk_base := 0; model := []; ramdisk := disk |}.

(** ** The emulator's own tree *)

(** The boot ROM as the guest reads it. *)
Definition rom_tree : buffer := match buf_load (buf_zero RV32_DTB_SIZE) 0 rv32_dtb with Ok b => b | _ => buf_zero 0 end.
Definition rom_fdt : fdt :=
  {| blob := rom_tree; total := 2020; structs := 56; structs_end := 1816; strings := 1816; strings_end := 2017 |}.

Lemma rom_tree_bytes i : 0 <= i < RV32_DTB_SIZE -> Rom.rom_byte i = Ok (byte_at rom_tree i).
Proof.
  intros Hi. assert (H : forallb (fun n => match Rom.rom_byte (Z.of_nat n) with Ok v => v =? byte_at rom_tree (Z.of_nat n) | _ => false end) (seq 0 2020) = true) by (vm_compute; reflexivity).
  rewrite forallb_forall in H. specialize (H (Z.to_nat i) ltac:(apply in_seq; unfold RV32_DTB_SIZE in Hi; lia)). rewrite Z2Nat.id in H by lia. destruct (Rom.rom_byte i) as [v| |]; [|done|done]. apply Z.eqb_eq in H. by rewrite H.
Qed.

Lemma rom_opens : fdt_open rom_tree = Ok (inr rom_fdt).
Proof. vm_compute. reflexivity. Qed.

Lemma rom_tree_ok : buf_ok rom_tree.
Proof.
  destruct (wpr_total (buf_load (buf_zero RV32_DTB_SIZE) 0 rv32_dtb) buf_ok) as (b & Eb & Hb); [|unfold rom_tree; by rewrite Eb].
  apply buf_load_keeps; [apply buf_zero_ok; unfold RV32_DTB_SIZE; lia|lia|by vm_compute|]. by intros b Hb _.
Qed.

Lemma fdt_queries_safe_witness : fdt_open rom_tree = Ok (inr rom_fdt) /\ exists a, Fdt.find rom_fdt (cstring "compatible") (cstring "riscv,plic0") 0 0 None = Ok a.
Proof.
  destruct (FdtProofs.fdt_queries_safe rom_tree rom_tree_ok) as (r & Er & Hr); [by vm_compute| |].
  - intros n Hn. assert (E : be32 rom_tree 4 = Ok 2020) by (vm_compute; reflexivity). rewrite E in Hn. injection Hn as <-. split; by vm_compute.
  - rewrite rom_opens in Er. injection Er as <-. destruct (Hr rom_fdt eq_refl) as (Hf & _). split; [exact rom_opens|]. apply Hf; [right; vm_compute; tauto|vm_compute; tauto|lia|exact I].
Defined.

#[local] Strategy opaque [rom_fdt rom_tree].

Section Rom.
Context {D E : Type} {BD : BlockDevice D} {PF : Platform E} {PL : Polls}.
Implicit Types (k : kernel D E).
#[local] Existing Instance Effects.total.
Abbreviation node s i := (fdt_find rom_fdt (cstring "compatible") (cstring s%string) i).

Lemma sure_bind {A C} (c : ST (kernel D E) (option A)) (g : A -> ST (kernel D E) (option C)) P k :
  wp c (sure (fun a k' => wp (g a) (sure P) k')) k -> wp (a ←! c; g a) (sure P) k.
Proof. intros H. wp1. eapply wp_mono; [exact H|]. by intros [a|] k' Ha. Qed.

Lemma reg_found B s i r k (Q : option (option (Z * Z)) -> kernel D E -> Prop) : node s i = Ok (inr r) -> Q (Some (Some r)) k -> wp (find_reg B rom_fdt s i) Q k.
Proof. intros Hn HQ. unfold find_reg. wp1. wp1. rewrite Hn. wp1. by wp1. Qed.
Lemma found B s i required r k (P : Z -> kernel D E -> Prop) : node s i = Ok (inr r) -> P (fst r) k -> wp (find B rom_fdt s i required) (sure P) k.
Proof. intros Hn HP. unfold find. apply sure_bind. eapply reg_found; [exact Hn|]. destruct r as [base size]. by apply sure_ret. Qed.

Lemma rom_done : node "sifive,test0" 0 = Ok (inr (DONE_ADDR, 4)).
Proof. vm_compute. reflexivity. Qed.
Lemma rom_console : node "tiny-processors,console" 0 = Ok (inr (CONSOLE_BASE, 8)).
Proof. vm_compute. reflexivity. Qed.
Lemma rom_clint : node "riscv,clint0" 0 = Ok (inr (CLINT_BASE, CLINT_SIZE)).
Proof. vm_compute. reflexivity. Qed.
Lemma rom_plic : node "riscv,plic0" 0 = Ok (inr (PLIC_BASE, PLIC_SIZE)).
Proof. vm_compute. reflexivity. Qed.
Lemma rom_input : node "tiny-processors,input" 0 = Ok (inr (INPUT_BASE, 16)).
Proof. vm_compute. reflexivity. Qed.
Lemma rom_input_source : fdt_cell rom_fdt (cstring "compatible") (cstring "tiny-processors,input") (cstring "interrupts") 0 = Ok (inr Plic.PLIC_SOURCE_INPUT).
Proof. vm_compute. reflexivity. Qed.
Lemma rom_display : node "tiny-processors,display" 0 = Ok (inr (DISPLAY_BASE, 16)) /\ node "tiny-processors,display" 1 = Ok (inr (FB_BASE, FB_SIZE)) /\ node "tiny-processors,display" 2 = Ok (inr (PALETTE_BASE, PALETTE_SIZE)).
Proof. vm_compute. by splits. Qed.
Lemma rom_virtio : fdt_find_nth rom_fdt (cstring "compatible") (cstring "virtio,mmio") 0 0 = Ok (inr (VIRTIO_BASE, VIRTIO_SIZE))
  /\ fdt_find_nth rom_fdt (cstring "compatible") (cstring "virtio,mmio") 1 0 = Ok (inl FDT_NOT_FOUND).
Proof. vm_compute. by split. Qed.
Lemma rom_g1 : node "tiny-processors,g1" 0 = Ok (inr (Gpu.GPU_BASE, 128)).
Proof. vm_compute. reflexivity. Qed.
Lemma rom_g2 : node "tiny-processors,g2" 0 = Ok (inr (G3d.G3D_BASE, G3d.G3D_SIZE)).
Proof. vm_compute. reflexivity. Qed.
Lemma rom_simd : node "tiny-processors,simd4" 0 = Ok (inr (Simd.SIMD_BASE, 32)) /\ node "tiny-processors,simd4" 1 = Ok (inr (Simd.SIMD_PROGRAM, 1024)) /\ node "tiny-processors,simd4" 2 = Ok (inr (Simd.SIMD_DATA, 1024)).
Proof. vm_compute. by splits. Qed.
Lemma rom_window : node "tiny-processors,dma-window" 0 = Ok (inr (DMA_WINDOW_BASE, 8)).
Proof. vm_compute. reflexivity. Qed.
Lemma rom_tick : find_tick rom_fdt KERNEL_TICK = Ok KERNEL_TICK.
Proof. vm_compute. reflexivity. Qed.
Lemma rom_model : find_model rom_fdt = Ok (message "tiny-processors RV32 machine").
Proof. vm_compute. reflexivity. Qed.

#[local] Strategy opaque [fdt_find fdt_cell fdt_find_nth find find_reg find_tick find_model fdt_open cstring read_colours find_disk walk_fuel].

(** The board of the emulated machine; the disk is there when its register says so. *)
Definition rom_board (B : board) (colours : list Z) (disk : Z) : board :=
  {| B with console := CONSOLE_BASE; done_register := DONE_ADDR; clint := CLINT_BASE; plic := PLIC_BASE; input := INPUT_BASE; input_source := Plic.PLIC_SOURCE_INPUT;
     display := DISPLAY_BASE; framebuffer := FB_BASE; framebuffer_size := FB_SIZE; palette := PALETTE_BASE; boot_palette := colours; gpu := Gpu.GPU_BASE; g3d := G3d.G3D_BASE;
     accelerators := Simd.SIMD_BASE; accelerators_end := G3d.G3D_BASE + G3d.G3D_SIZE;
     engine_windows := [(Simd.SIMD_BASE, 32); (Simd.SIMD_PROGRAM, 1024); (Simd.SIMD_DATA, 1024); (Gpu.GPU_BASE, 128); (G3d.G3D_BASE, G3d.G3D_SIZE)];
     dma_window := DMA_WINDOW_BASE; disk_base := disk; model := message "tiny-processors RV32 machine" |}.

Lemma rom_disk_wp B k (P : Z -> kernel D E -> Prop) : (forall disk e, disk = 0 \/ disk = VIRTIO_BASE -> P disk (put_env e k)) -> wp (find_disk (walk_fuel rom_fdt) B rom_fdt 0) (sure P) k.
Proof.
  intros HP. destruct rom_virtio as (V0 & V1). assert (Ew : walk_fuel rom_fdt = 455%nat) by (vm_compute; reflexivity). rewrite Ew. cbn [find_disk]. wp1. wp1. rewrite V0. cbn [wpr]. wp1. apply env_read32. intros id e. wp1; [apply sure_ret, HP; by right|].
  change (0 + 1) with 1. wp1. wp1. rewrite V1. cbn [wpr]. rewrite bool_decide_true by done. apply sure_ret, HP. by left.
Qed.

Lemma discover_rom_wp tables tables_end vector idle stack_top disk0 k (P : board -> kernel D E -> Prop) :
  (forall l disk e, disk = 0 \/ disk = VIRTIO_BASE -> P (rom_board (undiscovered tables tables_end vector idle stack_top disk0) l disk) (put_env e k)) ->
  wp (discover (undiscovered tables tables_end vector idle stack_top disk0) rom_tree) (sure P) k.
Proof.
  intros HP. unfold discover. wp1. wp1. rewrite rom_opens. cbn [wpr]. apply sure_bind, (found _ _ _ _ _ _ _ rom_done). cbn [fst]. apply sure_bind, (found _ _ _ _ _ _ _ rom_console). cbn [fst].
  apply sure_bind. change (tst CONSOLE_BASE) with true. apply sure_ret. apply sure_bind, (found _ _ _ _ _ _ _ rom_clint). apply sure_bind, (found _ _ _ _ _ _ _ rom_plic). cbn [fst].
  apply sure_bind. unfold find_input. apply sure_bind, (found _ _ _ _ _ _ _ rom_input). cbn [fst]. change (tst INPUT_BASE) with true. cbv iota. wp1. wp1. rewrite rom_input_source. cbn [wpr]. apply sure_ret.
  destruct rom_display as (D0 & D1 & D2). apply sure_bind. unfold find_display. apply sure_bind, (found _ _ _ _ _ _ _ D0). cbn [fst]. change (tst DISPLAY_BASE) with true. cbv iota. wp1. wp1. rewrite D1. cbn [wpr]. wp1. wp1. rewrite D2. cbn [wpr].
  change (PALETTE_SIZE <? 4 * OS_PALETTE_ENTRIES) with false. cbv iota. wp1. apply env_read_colours. intros l e. apply sure_ret. apply sure_bind. apply rom_disk_wp. intros disk e' Hdisk.
  apply sure_bind, (found _ _ _ _ _ _ _ rom_g1). apply sure_bind, (found _ _ _ _ _ _ _ rom_g2). cbn [fst]. apply sure_bind. destruct rom_simd as (S0 & S1 & S2). unfold engines. cbn [find_engines].
  apply sure_bind, (reg_found _ _ _ _ _ _ S0). apply sure_bind, (reg_found _ _ _ _ _ _ S1). apply sure_bind, (reg_found _ _ _ _ _ _ S2). apply sure_bind, (reg_found _ _ _ _ _ _ rom_g1). apply sure_bind, (reg_found _ _ _ _ _ _ rom_g2).
  apply sure_ret. apply sure_bind. unfold find_window. apply sure_bind, (reg_found _ _ _ _ _ _ rom_window). cbv beta iota zeta delta [sure from_option Datatypes.id]; fold (sure P). wp1; [discriminate H|]. wp1; [discriminate H0|]. clear H H0. apply sure_ret.
  match goal with |- wp _ _ ?k' => set (k1 := k') end. wp1. wp1. match goal with |- context [find_tick rom_fdt ?x] => change x with KERNEL_TICK end. rewrite rom_tick. cbn [wpr]. wp1. wp1. rewrite rom_model. cbn [wpr]. apply sure_ret.
  exact (HP l disk e' Hdisk).
Qed.

Lemma st_bind_ok {S A C} (c : ST S A) (g : A -> ST S C) s x s2 : mbind g c s = Ok (x, s2) -> exists a s1, c s = Ok (a, s1) /\ g a s1 = Ok (x, s2).
Proof. unfold mbind, st_bind. destruct (c s) as [[a s1]| |]; [|discriminate|discriminate]. intros H. by exists a, s1. Qed.

(** A boot whose discovery left only the devices changed is a start of the system. *)
Lemma entry_starts B0 tree B e fs0 ram0 cpu0 env0 hart0 sectors next (k1 : kernel D E) :
  discover B0 tree (at_boot fs0 ram0 cpu0 env0) = Ok (Some B, put_env e (at_boot fs0 ram0 cpu0 env0)) ->
  FsSpecs.fs_ready fs0 -> mounted fs0 = false -> ram_ok ram0 -> sectors (disk_base B) < 0x800000 ->
  kernel_entry B0 hart0 tree sectors (at_boot fs0 ram0 cpu0 env0) = Ok (Some (B, next), k1) -> starts B k1.
Proof.
  intros Ed Hf Hm Hr Hs Hrun. unfold kernel_entry in Hrun. apply st_bind_ok in Hrun as (a & k2 & E1 & Hrun). rewrite Ed in E1. injection E1 as <- <-. cbv beta iota in Hrun.
  apply st_bind_ok in Hrun as ([n|] & k3 & E2 & Hrun); [|discriminate Hrun]. injection Hrun as <- <-.
  exists hart0, (sectors (disk_base B)), fs0, ram0, cpu0, e, n. splits; [exact Hs|exact Hf|exact Hm|exact Hr|exact E2].
Qed.

(** Where the board has a device the bus has a region. *)
Definition has (name : region_name) (base size : Z) : Prop := In (Region name base size) REGIONS.

Definition on_the_bus (B : board) : Prop :=
  has R_done (done_register B) 4 /\ has R_console (console B) 8 /\ has R_clint (clint B) CLINT_SIZE /\ has R_plic (plic B) PLIC_SIZE
        /\ has R_input (input B) 16 /\ input_source B = Plic.PLIC_SOURCE_INPUT /\ has R_display (display B) 16 /\ has R_framebuffer (framebuffer B) (framebuffer_size B)
        /\ has R_palette (palette B) (4 * OS_PALETTE_ENTRIES) /\ has R_gpu (gpu B) 128 /\ has R_g3d (g3d B) G3d.G3D_SIZE /\ has R_dma_window (dma_window B) 8
        /\ (disk_base B = 0 \/ has R_virtio (disk_base B) VIRTIO_SIZE)
        /\ Forall (fun '(base, size) => exists name, has name base size /\ accelerators B <= base /\ base + size <= accelerators_end B) (engine_windows B).

Lemma rom_board_regions B0 l disk : disk = 0 \/ disk = VIRTIO_BASE -> on_the_bus (rom_board B0 l disk).
Proof.
  intros Hd. unfold on_the_bus, has. cbn [rom_board done_register console clint plic input input_source display framebuffer framebuffer_size palette gpu g3d dma_window disk_base engine_windows accelerators accelerators_end].
  assert (Hin : forall r, existsb (fun x => bool_decide (r_name x = r_name r) && (r_base x =? r_base r) && (r_size x =? r_size r)) REGIONS = true -> In r REGIONS).
  { intros [n b s] Hx. apply existsb_exists in Hx as ([n' b' s'] & Hi & Hx). cbn in Hx. apply andb_true_iff in Hx as [Hx H3]. apply andb_true_iff in Hx as [H1 H2]. apply bool_decide_eq_true in H1. apply Z.eqb_eq in H2, H3. by subst. }
  splits; try (apply Hin; reflexivity); [reflexivity|destruct Hd as [->| ->]; [by left|right; apply Hin; reflexivity]|].
  constructor; [exists R_simd4|constructor; [exists R_simd4_program|constructor; [exists R_simd4_data|constructor; [exists R_gpu|constructor; [exists R_g3d|constructor]]]]]; (split; [apply Hin; reflexivity|by split]).
Qed.

Lemma rom_board_ok B0 l disk : let B := rom_board B0 l disk in
  tables_placed B -> page_tables B + 8 * PAGE_TABLES * PAGE_SIZE <= pagetables_end B <= OS_SLOT_BASE -> disk_bytes B -> board_ok B.
Proof.
  intros B Hp He Hd. split; [exact Hp|]. split; [|split; [exact Hd|split; [exact He|split; [by split|split; [by splits|by repeat constructor]]]]]. unfold devices_placed, windows_placed. splits; try done. by repeat constructor.
Qed.

Lemma rom_board_budget B0 l disk : exists R, page_table_budget (rom_board B0 l disk) = Some R.
Proof. eexists. vm_compute. reflexivity. Qed.

(** C7: The guest's reader, run on the device tree the emulator serves from its boot ROM,
    finds every device at the base and with the size the emulator's bus has it: the kernel's
    [discover] returns, whatever the devices answer to its reads, with a board whose addresses
    are the bus's regions.  That board, with the page tables below the slots, is one the
    kernel's safety theorems hold for, its page-table budget is accepted, and the boot goes on
    as [kernel_main] on that board, from a state those theorems start from. *)
Theorem boot_rom_describes_the_machine tables tables_end vector idle stack_top disk0 k :
  let B0 := undiscovered tables tables_end vector idle stack_top disk0 in
  (forall i, 0 <= i < RV32_DTB_SIZE -> Rom.rom_byte i = Ok (byte_at rom_tree i)) /\
  exists B k', discover B0 rom_tree k = Ok (Some B, k')
    /\ on_the_bus B
    /\ (tables_placed B -> page_tables B + 8 * PAGE_TABLES * PAGE_SIZE <= pagetables_end B <= OS_SLOT_BASE -> disk_bytes B -> board_ok B)
    /\ (exists R, page_table_budget B = Some R) /\ core k' = core k
    /\ (forall fs0 ram0 cpu0 env0 hart0 sectors next k1,
          k = at_boot fs0 ram0 cpu0 env0 -> FsSpecs.fs_ready fs0 -> mounted fs0 = false -> ram_ok ram0 -> sectors (disk_base B) < 0x800000 ->
          kernel_entry B0 hart0 rom_tree sectors k = Ok (Some (B, next), k1) -> starts B k1).
Proof.
  cbv zeta. split; [exact rom_tree_bytes|].
  assert (H : wp (discover (undiscovered tables tables_end vector idle stack_top disk0) rom_tree) (sure (fun B k' => exists l disk e,
    B = rom_board (undiscovered tables tables_end vector idle stack_top disk0) l disk /\ (disk = 0 \/ disk = VIRTIO_BASE) /\ k' = put_env e k)) k) by (apply discover_rom_wp; intros l disk e Hd; by exists l, disk, e).
  destruct (wp_total _ _ _ H) as ([B|] & k' & Er & Hr); [|destruct Hr]. destruct Hr as (l & disk & e & EB & Hd & ->). exists B, (put_env e k). split; [exact Er|]. clear H. split; [rewrite EB; by apply rom_board_regions|].
  split; [rewrite EB; apply rom_board_ok|]. split; [rewrite EB; apply rom_board_budget|]. split; [reflexivity|].
  intros fs0 ram0 cpu0 env0 hart0 sectors next k1 -> Hf Hm Hram Hs Hrun. exact (entry_starts _ _ _ _ _ _ _ _ _ _ _ _ Er Hf Hm Hram Hs Hrun).
Qed.
End Rom.
End Discover.
